(* ===== verification/_CoqProject ===== *)
-Q . S2P
Prelude.v
Syscalls.v
Hw.v
Gpio.v
Spi.v
LwipMem.v
LwipHeap.v
Pbuf.v
Tcp.v
TcpOut.v
TcpStream.v
TcpFlow.v
TcpRun.v
TcpTimer.v
TcpReply.v
Timing.v
Registers.v
Ad9910.v
Chip.v
Flash.v
Crc.v
Config.v
Float.v
Convert.v
Data.v
Board.v
Commands.v
Boot.v
ScpiFifo.v
Lexer.v
ScpiCore.v
ScpiMatch.v
ScpiNumber.v
ScpiParser.v
Decimal.v
ScpiUnits.v
ScpiExpr.v
ScpiCommon.v
ScpiReply.v
ScpiInput.v
Scpi.v
ScpiEnds.v
ScpiKeeps.v
ScpiEffects.v
Server.v
ServerEnds.v
Interrupts.v
ServerStream.v
ServerCopy.v
ServerClose.v
