(* ===== verification/Prelude.v ===== *)
(** * stm32-dds: a verification of the DDS controller's firmware

    The program runs on an STM32F407 board that drives an AD9910 direct
    digital synthesiser.  It is configured over the network with SCPI
    commands; it programs the chip's registers over a serial link, can queue
    commands for a triggered run, can keep a queue as start-up sequence in
    flash, and can stream samples to the chip's parallel port.  This library
    models the C code of src/ and of the parts of the vendored libraries its
    core logic runs through (libscpi, lwIP's connections, and the GPIO, SPI,
    flash and CRC functions of the peripheral libraries), and proves that it
    does what it is for.

    ** How C is read

    A C function is a Rocq function with its name.  Integers are [Z] with
    their wrap-around written out ([u8], [u32], ...); a byte buffer is a
    list, a pointer into a buffer an index, floating-point values are the
    Standard Library's [spec_float].  Code with effects is in the monad [M S]
    of this file: from a state, a result and a new state, or a [Fault]
    (undefined behaviour of C: a read out of bounds, a null pointer, a double
    free), or [Hang].  [Hang] is the value of a loop whose fuel ran out; a
    theorem that a function returns [Ok] therefore contains its termination,
    and [ends] states that no input leads to [Hang].  A function on one
    component's state runs on the state of the caller by [zoom], through an
    instance of [Lens].  The hardware's inputs are interfaces ([Env] for pins,
    ticks and SPI, [FlashEnv] for the flash, [Link] for the addresses the
    linker chooses, [TcpEnv] and [SendMem] for the results of lwIP's
    allocations): the theorems hold for every instance.

    ** The files and the sources they model

    - [Prelude]: words, bytes, the monad, lenses, hint databases [word], [cm],
      [ends], rewriting databases [lens], [bits].
    - [Hw]: the peripherals' registers, the trace of outside-visible writes
      and the environment; not C code.
    - [Gpio]: src/gpio.c, include/gpio.h, lib/tm; [Spi]: src/spi.c;
      [Timing]: src/timing.c and the tick handler of src/interrupts.c.
    - [Registers]: the register structures, field table and accessors of
      include/ad9910.h; [Ad9910]: src/ad9910.c; [Chip]: the chip at the other
      end of the wires as an abstract machine over the trace, and the
      refinement of the driver to it; [Convert]: the unit conversions of
      src/ad9910.c on the arithmetic of [Float]; [Boot]: [ad9910_init], and
      src/main.c up to its loop ([start_up]).
    - [Flash]: src/eeprom.c and the flash driver, on a model of the
      controller whose programming only clears bits; [Crc]: src/crc.c on a
      model of the CRC unit; [Config]: src/config.c; [Data]: src/data.c on a
      model of the heap as a set of live blocks.
    - [Board]: the program's global variables; [Commands]: src/commands.c,
      the queue as the bytes the compiler lays out.
    - libscpi: [ScpiFifo] (fifo.c), [Lexer] (lexer.c), [ScpiCore] (the
      context of types.h, error.c, the registers of ieee488.c, parts of
      minimal.c), [ScpiMatch] (mnemonics and headers of utils.c),
      [ScpiNumber] (integers and text of utils.c), [ScpiParser] (parser.c),
      [Decimal] (floating-point numbers and text, of the C library),
      [ScpiUnits] (units.c), [ScpiExpr] (expression.c), [ScpiCommon] (the
      commands of ieee488.c and minimal.c), [ScpiReply] (what the client
      reads), [ScpiInput] (the buffered input and the arrays of parser.c, byte
      order of utils.c).
    - [Scpi]: src/scpi.c, the command table and its handlers, and of
      src/ethernet.c the copy of a block over packets and one round of the
      loop.  On it: [ScpiEnds] (every line ends), [ScpiKeeps] (the invariant
      of the whole program), [ScpiEffects] (what commands do to the chip, the
      flash and the sample buffer).
    - [Syscalls]: src/syscalls.c, the C library's stubs and the break its
      malloc grows; [Interrupts]: src/interrupts.c and [sysclock_init] of
      src/timing.c with the library functions they call, on the registers of
      EXTI, SYSCFG, the NVIC and SysTick, and the processor between two
      instructions ([serve]).
    - [LwipMem]: lwIP's heap (mem.c) on the bytes of its array, with the list
      of blocks its headers form; [LwipHeap]: the store of separate blocks it
      implements.
    - [Pbuf]: lwIP's packet buffers (pbuf.c) and the driver's reception of a
      frame (ethernetif.c), on a heap of live buffers with their links and
      reference counts; [Tcp]: a connection's control block, its window, its
      callbacks, and closing (tcp.c); [TcpOut]: the sending side of a
      connection (tcp_out.c, and what tcp_in.c does with an
      acknowledgement).  On it: [TcpStream] (the queues as a stream of bytes
      and what writes and output do to it), [TcpFlow] (acknowledgements),
      [TcpRun] (every run of a connection), [TcpTimer] (the slow timer of
      tcp.c: retransmission, its time-out and the estimate of the round trip
      behind it, the persist timer), [TcpReply] (which replies are taken).
    - [Server]: src/ethernet.c, its callbacks
      and waiting loops, with lwIP's processing of an arriving segment
      (tcp_in.c), the timers and the link, on a state that owns buffers and
      control blocks and an environment that delivers one [tick] per turn.
      On it: [ServerStream] (what a connection delivers), [ServerCopy] (a
      block copied from it, and the link to the packets of [Scpi]),
      [ServerClose] (closing, refusing, the timers), [ServerEnds] (what the
      server does not survive).

    ** What the theorems show

    - Commands: executing the bytes of a queue performs the commands that
      were queued, in order and repeat + 1 times; the walk ends whatever the
      bytes; register changes share one SPI write; what was saved is what the
      next boot performs, and nothing after it was cleared.
    - The chip: tone, ramp, RAM upload, single registers, the lines of strobe,
      profile and reset leave the chip of [Chip] in the specified state.  The statements
      are refinements: [abs] maps the driver's state to shadow registers and
      chip, and each driver function implements a function on those.
    - Storage: what is written to an erased block is stored, an error stops
      the write, the configuration is read back or replaced by the default,
      damage in one field is noticed by the CRC, segments are freed once.
    - The start: whatever the PLL does, every register of the chip holds its
      shadow after the start-up, and of them CFR3 alone is in effect; a queue
      that was saved survives the power and is what the next start-up
      performs, unless the button is held.
    - SCPI: the error ring is a bounded queue; recognisers stay on the line
      and report what they passed, but for blocks, which may be longer; the status byte summarises registers and
      queue in every reachable context; header matching is word-by-word
      comparison; compound headers get their path in place; integers survive
      the trip through text.
    - Hardware access: pins, SPI transfers and waiting; which edges on which
      pins the program answers, and how; that the tick is a millisecond.
    - Memory: lwIP's heap refines a store of separate blocks for every client
      that uses it legally, is first fit, and is whole again when all was
      given back; the break hands out disjoint blocks below the stack, as
      long as nothing is given back to it.
    - Input: a line that arrives in pieces is the line that arrives at once,
      unless it is cut between CR and LF ([line_end_split]).
    - Replies: texts and blocks are read back by the library's own
      recognisers; the query of the error queue replies the oldest code and
      leaves the others.  Numeric and channel lists are read as they were
      written.
    - The whole program: every line of commands ends but for the waits; the
      invariant [firmware_sound] holds in every state the network loop
      reaches from power-on, for all packets ([keeps], one lemma for each
      operation); a register command reaches the chip, at once or by way of
      the queue; a block spread over packets is assembled in the sample
      buffer; what the network commands store.
    - The network server: the bytes read are the peer's stream whatever
      happens to its segments, and a block copied over packets is the next
      part of it, if it fits the window the connection began with, which
      nothing opens again; a new segment ends the waiting; another peer, if
      there is a control block for it, is refused; closing leads to a server
      that accepts again, or, after data, to the use of a freed control
      block; a reset, or a pool whose buffers leaked, ends the service. A
      pointer to a freed buffer or control block that is followed is the
      fault [DanglingPtr].
    - What the server sends: [flowing] relates the queues of a connection
      to the bytes accepted, and every operation keeps it; so the wire
      carries the stream, the oldest byte goes out until it is acknowledged,
      and a reply of up to the send buffer is accepted in any number of
      pieces, while a longer one loses the pieces that do not fit.
    - The slow timer: its variables keep the range their C types need, but
      for a third duplicate acknowledgement that comes after the last
      retransmission ([thirteenth_retransmission]); a
      peer that stays silent is given up, in a turn that the initial time-out
      fixes; a closed window is probed; a window that is open but too small
      for the first segment waits for an update that nothing asks for again.

    Where the code does something else than it means to, the theorem states
    what it does, and the comment says so.

    ** Fuel and bounds

    Loops over a chain of buffers get the number of live buffers plus one,
    which no chain exceeds ([chain_size]); the loop that waits for a packet
    gets the number of ticks, and with no tick left it waits for ever; the
    copy of a block gets that number plus two, as every round but the last
    takes a tick ([copy_rounds_fuel]).  The loops over the segments of a
    connection get the length of the queue plus one; the one that makes
    segments gets the limit of the queue plus two, as every segment counts.
    Loops that walk a buffer get as fuel the bytes left plus one, and every
    turn is shown to advance ([run_queue_ends], [matchCommand_ends],
    [parse_loop_ends]).  The walks over lwIP's heap get its size plus one
    ([walk_fuel]), as every block is longer than nothing; the loop of
    [SCPI_Input] gets twice the bytes held plus two, as a turn either takes
    bytes out of the buffer or moves on in the line.  Polling loops get the
    number of polls the environment can delay them ([spi_time],
    [flash_time]).  The SPI and flash waits therefore end for every instance
    of the environment, in which each operation takes a finite but arbitrary
    time.  The waits for a pin or for the clock may last for ever in the code
    too; [poll_fuel] only limits how long they are followed.

    ** Not modelled

    The models of [Scpi] and [Server] meet at the packet: [Scpi] takes a list
    of packets from the network, which [ServerCopy] shows to be what the
    server reads, and gives the replies to a sink that accepts all of them,
    which [TcpReply] justifies for replies that fit the send buffer.  In
    [Server] the results of writing are those of [TcpEnv]; the queues of
    [TcpOut] are not part of its state.  A round of the loop with replies
    through [TcpOut] is therefore not one definition.  The line under
    execution is a list of bytes that stays: the server frees a packet when
    it goes on to the next one, also while a command of that packet copies
    its block, and what the parser then reads of it is not modelled as a
    read of freed memory.  Likewise strtoul and strtod, which C lets read on
    behind a token, find the end of the packet and not what lies behind it.

    Of lwIP are not modelled: the keep-alive timer and the slow timer on
    connections that are being set up or closed, segments with options, the
    queueing of SYN and FIN, checksums, ARP, IP and the other protocols.  In
    [Server] a [tick] says what the timers find, and the runs of [TcpRun]
    have them come at any time; [TcpTimer] says when they come. Of
    src/ethernet.c, the set-up of the Ethernet pins, DMA and PHY, and
    ethernet_get_data, which nothing calls, are left out. Interrupts
    other than the tick are not interleaved with the program's own
    steps: [serve] takes them between two instructions, and [Server]
    sees the tick only. The rest of the STM32 and TM libraries is
    vendored. Of libscpi, single-precision numbers, command tags and the
    numbers in headers are left out: the firmware calls none of them.

    * This file: machine words, bytes and the C effect monad *)

From Stdlib Require Import ZArith Lia.
From stdpp Require Import base numbers list sets.

#[global] Open Scope Z_scope.

(** ** Hint databases *)

Create HintDb word discriminated.
Create HintDb cm discriminated.
Create Rewrite HintDb lens.
Create Rewrite HintDb bits.

(** ** Unsigned machine words *)

(** An unsigned C integer of [w] bits is a [Z] in [[0, 2^w)]; arithmetic on
    it is arithmetic on [Z] followed by [wrap w]. *)
Definition wrap (w z : Z) : Z := z mod 2 ^ w.

Abbreviation u8 := (wrap 8).
Abbreviation u16 := (wrap 16).
Abbreviation u32 := (wrap 32).
Abbreviation u64 := (wrap 64).
(** The conversion to a signed 32-bit integer. *)
Definition s32 (z : Z) : Z := wrap 32 (z + 2 ^ 31) - 2 ^ 31.

Declare Scope c_scope.
Delimit Scope c_scope with c.
Infix "&&&" := Z.land (at level 40, left associativity) : c_scope.
Infix "|||" := Z.lor (at level 50, left associativity) : c_scope.
Infix "^^^" := Z.lxor (at level 50, left associativity) : c_scope.
Infix "<<<" := Z.shiftl (at level 40, left associativity) : c_scope.
Infix ">>>" := Z.shiftr (at level 40, left associativity) : c_scope.

(** C's truth value of an [int] and the [int] of a condition. *)
Definition truthy (z : Z) : bool := negb (z =? 0).
Definition b2z (b : bool) : Z := if b then 1 else 0.

Lemma wrap_range w z : 0 <= w -> 0 <= wrap w z < 2 ^ w.
Proof. intros Hw. apply Z.mod_pos_bound. now apply Z.pow_pos_nonneg. Qed.

Lemma wrap_small w z : 0 <= z < 2 ^ w -> wrap w z = z.
Proof. intros Hz. now apply Z.mod_small. Qed.

Lemma wrap_land w z : 0 <= w -> wrap w z = Z.land z (Z.ones w).
Proof. intros Hw. unfold wrap. now rewrite Z.land_ones. Qed.

Lemma wrap_wrap w z : wrap w (wrap w z) = wrap w z.
Proof. apply Zmod_mod. Qed.

Lemma wrap_add_l w a b : wrap w (wrap w a + b) = wrap w (a + b).
Proof. apply Zplus_mod_idemp_l. Qed.

Lemma wrap_testbit w z i :
  0 <= w -> 0 <= i -> Z.testbit (wrap w z) i = (i <? w) && Z.testbit z i.
Proof.
  intros Hw Hi. rewrite wrap_land, Z.land_spec by lia.
  destruct (Z.ltb_spec i w).
  - now rewrite Z.ones_spec_low, andb_true_r by lia.
  - now rewrite Z.ones_spec_high, andb_false_r by lia.
Qed.

Lemma truthy_b2z b : truthy (b2z b) = b.
Proof. now destruct b. Qed.

Lemma testbit_high w z i : 0 <= z < 2 ^ w -> w <= i -> Z.testbit z i = false.
Proof.
  intros Hz Hi. destruct (Z.ltb_spec i 0); [now apply Z.testbit_neg_r|].
  rewrite <- (wrap_small w z Hz).
  destruct (Z.ltb_spec w 0).
  - rewrite Z.pow_neg_r in Hz by lia. lia.
  - rewrite wrap_testbit by lia. now destruct (Z.ltb_spec i w); [lia|].
Qed.

Lemma land_bound w a b : 0 <= w -> 0 <= a < 2 ^ w -> 0 <= Z.land a b < 2 ^ w.
Proof.
  intros Hw Ha. replace (Z.land a b) with (wrap w (Z.land a b)); [now apply wrap_range|].
  apply Z.bits_inj'. intros i Hi. rewrite wrap_testbit, Z.land_spec by lia.
  destruct (Z.ltb_spec i w); [done|]. now rewrite (testbit_high w a) by lia.
Qed.

Lemma lor_bound w a b : 0 <= w -> 0 <= a < 2 ^ w -> 0 <= b < 2 ^ w -> 0 <= Z.lor a b < 2 ^ w.
Proof.
  intros Hw Ha Hb. replace (Z.lor a b) with (wrap w (Z.lor a b)); [now apply wrap_range|].
  apply Z.bits_inj'. intros i Hi. rewrite wrap_testbit, Z.lor_spec by lia.
  destruct (Z.ltb_spec i w); [done|].
  now rewrite (testbit_high w a), (testbit_high w b) by lia.
Qed.

#[local] Open Scope c_scope.

Lemma testbit_pow i k : 0 <= i -> 0 <= k -> Z.testbit (1 <<< i) k = (k =? i).
Proof.
  intros Hi Hk. rewrite Z.shiftl_1_l. destruct (Z.eqb_spec k i) as [->|Hne].
  - now apply Z.pow2_bits_true.
  - now apply Z.pow2_bits_false; lia.
Qed.

Lemma land_one_hot z i : 0 <= i -> ((z &&& (1 <<< i)) =? 0) = negb (Z.testbit z i).
Proof.
  intros Hi. destruct (Z.testbit z i) eqn:E; cbn.
  - apply Z.eqb_neq. intros H. apply (f_equal (fun z => Z.testbit z i)) in H.
    rewrite Z.land_spec, E, testbit_pow, Z.eqb_refl, Z.testbit_0_l in H by lia. done.
  - apply Z.eqb_eq, Z.bits_inj'. intros k Hk.
    rewrite Z.land_spec, testbit_pow, Z.testbit_0_l by lia.
    destruct (Z.eqb_spec k i) as [->|]; [now rewrite E|apply andb_false_r].
Qed.

Lemma truthy_land_bit z i : 0 <= i -> truthy (z &&& (1 <<< i)) = Z.testbit z i.
Proof. intros Hi. unfold truthy. rewrite land_one_hot by done. apply negb_involutive. Qed.

#[export] Hint Rewrite Z.land_spec Z.lor_spec Z.lxor_spec Z.ldiff_spec : bits.
#[export] Hint Rewrite Z.lnot_spec Z.shiftl_spec Z.shiftr_spec wrap_testbit using lia : bits.
#[export] Hint Rewrite Z.ones_spec_low Z.ones_spec_high Z.testbit_0_l using lia : bits.
#[export] Hint Rewrite andb_false_r andb_true_r orb_false_r orb_true_r
  andb_false_l andb_true_l orb_false_l orb_true_l : bits.

(** [bitwise] reduces an equality of integers to one of their bits and
    splits on the comparisons of indices that occur. *)
Ltac bit_cases :=
  repeat (autorewrite with bits;
          match goal with
          | |- context [?a <? ?b] => destruct (Z.ltb_spec a b); try lia
          | |- context [Z.testbit (Z.ones ?n) ?i] => destruct (Z.ltb_spec i n); try lia
          | |- context [Z.testbit ?z ?i] =>
              first [ rewrite (Z.testbit_neg_r z i) by lia ]
          end);
  autorewrite with bits.
Ltac bitwise := apply Z.bits_inj'; let i := fresh "i" in intros i ?; bit_cases.

(** ** Bytes *)

(** [le_bytes n z]: the [n] bytes of [z] in memory order (little endian, as
    on the Cortex-M4); [be_bytes] the same most significant byte first. *)
Fixpoint le_bytes (n : nat) (z : Z) : list Z :=
  match n with
  | O => []
  | S n => u8 z :: le_bytes n (z / 256)
  end.

Definition be_bytes (n : nat) (z : Z) : list Z := reverse (le_bytes n z).

Fixpoint of_le (l : list Z) : Z :=
  match l with
  | [] => 0
  | b :: l => b + 256 * of_le l
  end.

Definition of_be (l : list Z) : Z := foldl (fun acc b => 256 * acc + b) 0 l.

Definition is_byte (b : Z) : Prop := 0 <= b < 256.

#[export] Instance is_byte_dec b : Decision (is_byte b).
Proof. unfold is_byte. apply _. Defined.

Lemma length_le_bytes n z : length (le_bytes n z) = n.
Proof. revert z. induction n as [|n IH]; intros z; [done|]. cbn. now rewrite IH. Qed.

Lemma length_be_bytes n z : length (be_bytes n z) = n.
Proof. unfold be_bytes. now rewrite length_reverse, length_le_bytes. Qed.

Lemma le_bytes_is_byte n z : Forall is_byte (le_bytes n z).
Proof.
  revert z. induction n as [|n IH]; intros z; cbn; constructor; [|apply IH].
  apply (wrap_range 8). lia.
Qed.

Lemma be_bytes_is_byte n z : Forall is_byte (be_bytes n z).
Proof. apply Forall_reverse, le_bytes_is_byte. Qed.

Lemma of_le_le_bytes n z : of_le (le_bytes n z) = wrap (8 * Z.of_nat n) z.
Proof.
  revert z. induction n as [|n IH]; intros z; cbn [le_bytes of_le].
  - unfold wrap. change (8 * Z.of_nat 0) with 0. now rewrite Z.pow_0_r, Z.mod_1_r.
  - rewrite IH. unfold wrap.
    replace (8 * Z.of_nat (S n)) with (8 + 8 * Z.of_nat n) by lia.
    rewrite Z.pow_add_r by lia. change (2 ^ 8) with 256.
    rewrite Z.rem_mul_r; lia.
Qed.

Lemma of_le_small n z : 0 <= z < 2 ^ (8 * Z.of_nat n) -> of_le (le_bytes n z) = z.
Proof. intros Hz. rewrite of_le_le_bytes. now apply wrap_small. Qed.

Lemma of_le_bound l : Forall is_byte l -> 0 <= of_le l < 2 ^ (8 * Z.of_nat (length l)).
Proof.
  induction 1 as [|b l Hb _ IH]; cbn [of_le length]; [cbn; lia|].
  replace (8 * Z.of_nat (S (length l))) with (8 + 8 * Z.of_nat (length l)) by lia.
  rewrite Z.pow_add_r by lia. change (2 ^ 8) with 256. unfold is_byte in Hb. lia.
Qed.

Lemma le_bytes_of_le l : Forall is_byte l -> le_bytes (length l) (of_le l) = l.
Proof.
  induction 1 as [|b l Hb _ IH]; cbn [of_le length le_bytes]; [done|].
  unfold is_byte in Hb. f_equal.
  - unfold wrap. change (2 ^ 8) with 256.
    rewrite Z.mul_comm, Z.mod_add by lia. apply Z.mod_small. lia.
  - rewrite Z.mul_comm, Z.div_add by lia. rewrite Z.div_small by lia. exact IH.
Qed.

Lemma of_be_app l b : of_be (l ++ [b]) = 256 * of_be l + b.
Proof. unfold of_be. now rewrite foldl_app. Qed.

Lemma of_be_reverse l : of_be (reverse l) = of_le l.
Proof.
  induction l as [|b l IH]; [done|].
  rewrite reverse_cons, of_be_app, IH. cbn [of_le]. lia.
Qed.

Lemma of_be_be_bytes n z : of_be (be_bytes n z) = wrap (8 * Z.of_nat n) z.
Proof. unfold be_bytes. now rewrite of_be_reverse, of_le_le_bytes. Qed.

(** Reading and writing [n] bytes of a memory region at an offset. *)
Definition read_bytes (off n : nat) (m : list Z) : option (list Z) :=
  if decide ((off + n <= length m)%nat) then Some (take n (drop off m)) else None.

Definition write_bytes (off : nat) (bs m : list Z) : option (list Z) :=
  if decide ((off + length bs <= length m)%nat)
  then Some (take off m ++ bs ++ drop (off + length bs) m) else None.

Lemma length_write_bytes off bs m m' :
  write_bytes off bs m = Some m' -> length m' = length m.
Proof.
  unfold write_bytes. case_decide; [|done]. intros [= <-].
  rewrite !length_app, length_take, length_drop. lia.
Qed.

Lemma read_write_same off bs m m' :
  write_bytes off bs m = Some m' -> read_bytes off (length bs) m' = Some bs.
Proof.
  intros Hw. pose proof (length_write_bytes _ _ _ _ Hw) as Hl.
  unfold write_bytes in Hw. case_decide as H; [|done]. injection Hw as <-.
  unfold read_bytes. rewrite decide_True by lia.
  rewrite drop_app_length' by (rewrite length_take; lia).
  now rewrite take_app_length.
Qed.

Lemma write_bytes_prefix off bs m m' :
  write_bytes off bs m = Some m' -> take (off + length bs) m' = take off m ++ bs.
Proof.
  unfold write_bytes. case_decide as H; [|done]. intros [= <-].
  rewrite (app_assoc (take off m)).
  apply take_app_length'. rewrite length_app, length_take. lia.
Qed.

Lemma read_bytes_take off n k m :
  (off + n <= k)%nat -> (k <= length m)%nat ->
  read_bytes off n (take k m) = read_bytes off n m.
Proof.
  intros H1 H2. unfold read_bytes.
  rewrite !decide_True by (rewrite ?length_take; lia). f_equal.
  rewrite skipn_firstn_comm, take_take. f_equal. lia.
Qed.

(** ** The effect monad *)

(** What a C function does: it returns a value and a state, it loops for
    longer than the fuel it was given ([Hang]), or it steps outside what C
    defines ([Fault]). *)
Inductive fault :=
  | NullDeref      (** a null pointer is dereferenced *)
  | OutOfBounds    (** an access outside the object *)
  | DanglingPtr    (** a pointer to no object, or to a freed one *)
  | SpiOverrun     (** the SPI data register is written during a transfer *)
  | BadConversion  (** a float is converted to an integer type that cannot hold it *)
  | IntOverflow.   (** signed arithmetic overflows, or a shift is by more than the width *)

Inductive res (A : Type) :=
  | Ok (a : A)
  | Hang
  | Fault (e : fault).
Arguments Ok {A} a.
Arguments Hang {A}.
Arguments Fault {A} e.

Definition M (S A : Type) : Type := S -> res (A * S).

#[export] Instance M_ret {S} : MRet (M S) := fun A a s => Ok (a, s).
#[export] Instance M_bind {S} : MBind (M S) := fun A B f m s =>
  match m s with
  | Ok (a, s') => f a s'
  | Hang => Hang
  | Fault e => Fault e
  end.

Section Combinators.
Context {S : Type}.

Definition get : M S S := fun s => Ok (s, s).
Definition gets {A} (f : S -> A) : M S A := fun s => Ok (f s, s).
Definition modify (f : S -> S) : M S unit := fun s => Ok (tt, f s).
Definition hang {A} : M S A := fun _ => Hang.
Definition fail {A} (e : fault) : M S A := fun _ => Fault e.

(** The value of an access that the C program performs unchecked. *)
Definition deref {A} (e : fault) (o : option A) : M S A :=
  match o with Some a => mret a | None => fail e end.

Definition when (b : bool) (m : M S unit) : M S unit :=
  if b then m else mret tt.

(** [for (x in l) f(x)] *)
Fixpoint for_each {A} (l : list A) (f : A -> M S unit) : M S unit :=
  match l with
  | [] => mret tt
  | a :: l => f a;; for_each l f
  end.

(** [while (c) body], for at most [fuel] evaluations of [c]. *)
Fixpoint while (fuel : nat) (c : M S bool) (body : M S unit) : M S unit :=
  match fuel with
  | O => hang
  | Datatypes.S fuel => b ← c; if (b : bool) then body;; while fuel c body else mret tt
  end.

Lemma bind_ok {A B} (m : M S A) (f : A -> M S B) s a s' :
  m s = Ok (a, s') -> (m ≫= f) s = f a s'.
Proof. intros H. unfold mbind, M_bind. now rewrite H. Qed.

Lemma bind_inv {A B} (m : M S A) (f : A -> M S B) s r :
  (m ≫= f) s = Ok r -> exists a s', m s = Ok (a, s') /\ f a s' = Ok r.
Proof. unfold mbind, M_bind. destruct (m s) as [[a s']| |]; [eauto|done|done]. Qed.

Lemma bind_assoc {A B C} (m : M S A) (f : A -> M S B) (g : B -> M S C) s :
  ((m ≫= f) ≫= g) s = (m ≫= (fun a => f a ≫= g)) s.
Proof. unfold mbind, M_bind. now destruct (m s) as [[a s']| |]. Qed.

Lemma for_each_app {A} (l1 l2 : list A) f s :
  for_each (l1 ++ l2) f s = (for_each l1 f;; for_each l2 f) s.
Proof.
  revert s. induction l1 as [|a l1 IH]; intros s; [done|].
  cbn [for_each app]. rewrite bind_assoc.
  unfold mbind, M_bind. destruct (f a s) as [[[] s']| |]; [|done|done].
  exact (IH s').
Qed.

(** A loop over a list whose body never fails, as a fold. *)
Lemma for_each_fold {A} (f : A -> M S unit) (g : A -> S -> S) l s :
  (forall a s, f a s = Ok (tt, g a s)) ->
  for_each l f s = Ok (tt, foldl (fun s a => g a s) s l).
Proof.
  intros Hf. revert s. induction l as [|a l IH]; intros s; [done|].
  cbn [for_each foldl]. rewrite (bind_ok _ _ _ _ _ (Hf a s)). apply IH.
Qed.

(** A loop over a list that preserves an invariant of the state. *)
Lemma for_each_inv {A} (P : S -> Prop) (f : A -> M S unit) l s :
  (forall a s, a ∈ l -> P s -> exists s', f a s = Ok (tt, s') /\ P s') -> P s ->
  exists s', for_each l f s = Ok (tt, s') /\ P s'.
Proof.
  intros Hf. revert s. induction l as [|a l IH]; intros s HP; [exists s; done|].
  destruct (Hf a s) as (s1 & H1 & HP1); [set_solver|done|].
  destruct (IH (fun b s Hb => Hf b s ltac:(set_solver)) s1 HP1) as (s2 & H2 & HP2).
  exists s2. cbn [for_each]. now rewrite (bind_ok _ _ _ _ _ H1).
Qed.

(** A loop that skips every element but one runs its body once. *)
Lemma for_each_once {A} (l : list A) (x : A) (skip : A -> bool) (f : A -> M S unit) s :
  NoDup l -> x ∈ l -> (forall y, y ∈ l -> skip y = false <-> y = x) ->
  for_each l (fun y => if skip y then mret tt else f y) s = (f x;; mret tt) s.
Proof.
  assert (Hnone : forall l s, (forall y, y ∈ l -> skip y = true) ->
            for_each l (fun y => if skip y then mret tt else f y) s = Ok (tt, s)).
  { clear. induction l as [|a l IH]; intros s Hs; [done|]. cbn [for_each].
    rewrite Hs by set_solver. apply IH. set_solver. }
  revert s. induction l as [|a l IH]; intros s Hnd Hx Hsk; [set_solver|].
  inversion_clear Hnd as [|? ? Ha Hnd']. cbn [for_each].
  assert (Htail : forall y, y ∈ l -> skip y = false <-> y = x) by set_solver.
  destruct (skip a) eqn:Ea.
  - assert (x <> a) by (intros ->; pose proof (proj2 (Hsk a ltac:(set_solver)) eq_refl); congruence).
    apply IH; [done|set_solver|done].
  - pose proof (proj1 (Hsk a ltac:(set_solver)) Ea) as ->.
    unfold mbind, M_bind. destruct (f x s) as [[[] s']| |]; [|done|done].
    apply Hnone. intros y Hy. destruct (skip y) eqn:Ey; [done|].
    apply (Htail y Hy) in Ey as ->. done.
Qed.

(** More fuel does not change the result of a loop that ended. *)
Lemma while_mono fuel fuel' c body s r :
  (fuel <= fuel')%nat -> while fuel c body s = Ok r -> while fuel' c body s = Ok r.
Proof.
  revert fuel' s. induction fuel as [|fuel IH]; intros [|fuel'] s Hle; try (done || lia).
  cbn [while]. intros H. apply bind_inv in H as (b & s1 & H1 & H).
  rewrite (bind_ok _ _ _ _ _ H1). destruct b; [|done].
  apply bind_inv in H as ([] & s2 & H2 & H). rewrite (bind_ok _ _ _ _ _ H2).
  apply IH; [lia|done].
Qed.

(** A loop without a condition, whose body always comes to its end, does not
    end. *)
Lemma while_true_hangs fuel body s :
  (forall s, exists s', body s = Ok (tt, s')) -> while fuel (mret true) body s = Hang.
Proof.
  intros Hb. revert s. induction fuel as [|fuel IH]; intros s; [done|]. cbn [while].
  destruct (Hb s) as (s' & E). rewrite (bind_ok _ _ _ true s eq_refl), (bind_ok _ _ _ _ _ E). apply IH.
Qed.
End Combinators.

(** ** Lenses: a component's state inside a larger one *)

Class Lens (S W : Type) := {
    view : W -> S;
    over : S -> W -> W;
    view_over : forall s w, view (over s w) = s;
    over_view : forall w, over (view w) w = w;
    over_over : forall s s' w, over s (over s' w) = over s w;
  }.

Definition zoom {S W} `{Lens S W} {A} (m : M S A) : M W A := fun w =>
  match m (view w) with
  | Ok (a, s) => Ok (a, over s w)
  | Hang => Hang
  | Fault e => Fault e
  end.

Section Zoom.
Context {S W : Type} `{L : Lens S W}.

Lemma zoom_ok {A} (m : M S A) w a s :
  m (view w) = Ok (a, s) -> zoom m w = Ok (a, over s w).
Proof. intros H. unfold zoom. now rewrite H. Qed.

Lemma zoom_inv {A} (m : M S A) w a w' :
  zoom m w = Ok (a, w') -> exists s, m (view w) = Ok (a, s) /\ w' = over s w.
Proof. unfold zoom. destruct (m (view w)) as [[a' s]| |]; [|done|done]. naive_solver. Qed.

Lemma zoom_ret {A} (a : A) w : zoom (mret a : M S A) w = Ok (a, w).
Proof. unfold zoom. cbn. now rewrite over_view. Qed.

Lemma zoom_bind {A B} (m : M S A) (f : A -> M S B) w :
  zoom (m ≫= f) w = (zoom m ≫= (fun a => zoom (f a))) w.
Proof.
  unfold zoom, mbind, M_bind. destruct (m (view w)) as [[a s]| |]; [|done|done].
  rewrite view_over. destruct (f a s) as [[b s']| |]; [|done|done].
  now rewrite over_over.
Qed.
End Zoom.

#[export] Hint Rewrite @view_over @over_view @over_over : lens.

(** ** Computations that end

    [ends m]: whatever the state, [m] gives a result or a fault. *)
Definition ends {S A} (m : M S A) : Prop := forall s, m s <> Hang.

Create HintDb ends discriminated.

Section Ends.
Context {S : Type}.

Lemma ends_ret {A} (a : A) : ends (mret a : M S A).
Proof. intros s. discriminate. Qed.
Lemma ends_gets {A} (f : S -> A) : ends (gets f).
Proof. intros s. discriminate. Qed.
Lemma ends_modify (f : S -> S) : ends (modify f).
Proof. intros s. discriminate. Qed.
Lemma ends_fail {A} e : ends (fail e : M S A).
Proof. intros s. discriminate. Qed.
Lemma ends_deref {A} e (o : option A) : ends (deref e o : M S A).
Proof. intros s. unfold deref. destruct o; discriminate. Qed.

Lemma ends_bind {A B} (m : M S A) (f : A -> M S B) :
  ends m -> (forall a, ends (f a)) -> ends (m ≫= f).
Proof.
  intros Hm Hf s. unfold mbind, M_bind. specialize (Hm s).
  destruct (m s) as [[a s']| |]; [apply Hf|done|discriminate].
Qed.

(** With what is known of the value of the first part. *)
Lemma ends_bind_post {A B} (P : A -> Prop) (m : M S A) (f : A -> M S B) :
  ends m -> (forall s a s', m s = Ok (a, s') -> P a) -> (forall a, P a -> ends (f a)) -> ends (m ≫= f).
Proof.
  intros Hm HP Hf s. unfold mbind, M_bind. specialize (Hm s). specialize (HP s).
  destruct (m s) as [[a s']| |]; [eapply Hf, HP; reflexivity|done|discriminate].
Qed.

Lemma ends_when b (m : M S unit) : ends m -> ends (when b m).
Proof. intros Hm. unfold when. destruct b; [exact Hm|apply ends_ret]. Qed.

Lemma ends_for_each {A} (l : list A) (f : A -> M S unit) : (forall a, ends (f a)) -> ends (for_each l f).
Proof.
  intros Hf. induction l as [|a l IH]; cbn [for_each]; [apply ends_ret|].
  now apply ends_bind.
Qed.

Lemma ends_zoom {W} `{L : Lens S W} {A} (m : M S A) : ends m -> ends (zoom m).
Proof.
  intros Hm w. unfold zoom. specialize (Hm (view w)).
  destruct (m (view w)) as [[a s]| |]; [discriminate|done|discriminate].
Qed.
End Ends.

#[export] Hint Resolve ends_ret ends_gets ends_modify ends_fail ends_deref ends_zoom : ends.

(** [ending] proves that a computation without loops ends. *)
Ltac ending :=
  repeat match goal with
  | |- ends (_ ≫= _) => apply ends_bind; [|intros ?]
  | |- ends (zoom _) => apply ends_zoom
  | |- ends (when _ _) => apply ends_when
  | |- ends (for_each _ _) => apply ends_for_each; intros ?
  | |- ends (match ?x with _ => _ end) => destruct x
  | |- ends (let '(_, _) := ?x in _) => destruct x
  | |- _ => progress cbv beta iota zeta
  | |- ends _ => solve [eauto with ends]
  end.

(** ** Invariants

    [keeps P m]: if [m] returns, a state with [P] is followed by one with
    [P]. *)
Definition keeps {S A} (P : S -> Prop) (m : M S A) : Prop :=
  forall s a s', P s -> m s = Ok (a, s') -> P s'.

(** The invariant [Q] of the whole is [P] on the part the lens shows, and
    something on the rest. *)
Class Within {S W} `{L : Lens S W} (P : S -> Prop) (Q : W -> Prop) := {
    within_view : forall w, Q w -> P (view w);
    within_over : forall w s, Q w -> P s -> Q (over s w);
  }.

Create HintDb keeps discriminated.

Section Keeps.
Context {S : Type} (P : S -> Prop).

Lemma keeps_ret {A} (a : A) : keeps P (mret a).
Proof. intros s a' s' H [= <- <-]. exact H. Qed.
Lemma keeps_gets {A} (f : S -> A) : keeps P (gets f).
Proof. intros s a' s' H [= <- <-]. exact H. Qed.
Lemma keeps_fail {A} e : keeps P (fail e : M S A).
Proof. intros s a s' H [=]. Qed.
Lemma keeps_hang {A} : keeps P (hang : M S A).
Proof. intros s a s' H [=]. Qed.
Lemma keeps_modify (f : S -> S) : (forall s, P s -> P (f s)) -> keeps P (modify f).
Proof. intros Hf s a s' H [= <- <-]. now apply Hf. Qed.
Lemma keeps_deref {A} e (o : option A) : keeps P (deref e o).
Proof. destruct o; [apply keeps_ret|apply keeps_fail]. Qed.

Lemma keeps_bind {A B} (m : M S A) (f : A -> M S B) :
  keeps P m -> (forall a, keeps P (f a)) -> keeps P (m ≫= f).
Proof.
  intros Hm Hf s b s' H E. apply bind_inv in E as (a & s1 & E1 & E2).
  exact (Hf a s1 b s' (Hm s a s1 H E1) E2).
Qed.

(** With what the first part is known to return. *)
Lemma keeps_bind_post {A B} (R : A -> Prop) (m : M S A) (f : A -> M S B) :
  keeps P m -> (forall s a s', P s -> m s = Ok (a, s') -> R a) -> (forall a, R a -> keeps P (f a)) ->
  keeps P (m ≫= f).
Proof.
  intros Hm HR Hf s b s' H E. apply bind_inv in E as (a & s1 & E1 & E2).
  exact (Hf a (HR s a s1 H E1) s1 b s' (Hm s a s1 H E1) E2).
Qed.

Lemma keeps_when b (m : M S unit) : keeps P m -> keeps P (when b m).
Proof. intros Hm. destruct b; [exact Hm|apply keeps_ret]. Qed.

Lemma keeps_for_each {A} (l : list A) (f : A -> M S unit) :
  (forall a, a ∈ l -> keeps P (f a)) -> keeps P (for_each l f).
Proof.
  induction l as [|a l IH]; intros Hf; cbn [for_each]; [apply keeps_ret|].
  apply keeps_bind; [apply Hf; left|intros _; apply IH; intros b Hb; apply Hf; now right].
Qed.

Lemma keeps_while fuel (c : M S bool) (body : M S unit) :
  keeps P c -> keeps P body -> keeps P (while fuel c body).
Proof.
  intros Hc Hb. induction fuel as [|fuel IH]; cbn [while]; [apply keeps_hang|].
  apply keeps_bind; [exact Hc|intros []]; [|apply keeps_ret]. now apply keeps_bind.
Qed.

Lemma keeps_zoom {W} {Q : W -> Prop} `{L : Lens S W} `{I : !Within P Q} {A} (m : M S A) :
  keeps P m -> keeps Q (zoom m).
Proof.
  intros Hm w a w' H E. apply zoom_inv in E as (s & E & ->).
  apply within_over; [exact H|]. exact (Hm _ _ _ (within_view w H) E).
Qed.

(** What is known to return with [P], from a state with [P], keeps it. *)
Lemma keeps_of_run {A} (m : M S A) :
  (forall s, P s -> exists a s', m s = Ok (a, s') /\ P s') -> keeps P m.
Proof. intros Hm s a s' H E. destruct (Hm s H) as (a1 & s1 & E1 & H1). congruence. Qed.
End Keeps.

Lemma keeps_True {S A} (m : M S A) : keeps (fun _ => True) m.
Proof. done. Qed.

#[export] Hint Resolve keeps_ret keeps_gets keeps_fail keeps_hang keeps_deref keeps_True : keeps.

(** [keeping] reduces the invariance of a computation to that of the
    operations it is made of, which it looks up. *)
Ltac keeping :=
  repeat match goal with
  | |- keeps _ (_ ≫= _) => apply keeps_bind; [|intros ?]
  | |- keeps _ (when _ _) => apply keeps_when
  | |- keeps _ (for_each _ _) => apply keeps_for_each; intros ? ?
  | |- keeps _ (while _ _ _) => apply keeps_while
  | |- keeps _ (match ?x with _ => _ end) => destruct x eqn:?
  | |- keeps _ (let '(_, _) := ?x in _) => destruct x eqn:?
  | |- _ => progress cbv beta iota zeta
  | |- keeps _ _ => solve [eauto with keeps]
  | |- keeps _ (zoom _) => refine (keeps_zoom _ _ _)
  end.

(** [step] runs the first statement of the goal's left-hand side with an
    equation found in the context or in the database [cm]. *)
Ltac step :=
  match goal with
  | |- mbind _ ?m ?s = _ => erewrite (bind_ok m) by (first [eassumption | eauto with cm])
  | |- (mbind _ ?m ?s) = _ => cbn
  end.

(** [decided] proves a decidable closed goal by evaluation. *)
Ltac decided := apply (bool_decide_unpack _); vm_compute; exact I.

(** ** Lists *)

(** The equation of [foldl], for functions too large to be unfolded. *)
Lemma foldl_cons_eq {A B} (f : A -> B -> A) a b l : foldl f a (b :: l) = foldl f (f a b) l.
Proof. reflexivity. Qed.

Lemma seqZ_S k : seqZ 0 (Z.of_nat (S k)) = seqZ 0 (Z.of_nat k) ++ [Z.of_nat k].
Proof. replace (Z.of_nat (S k)) with (Z.of_nat k + 1) by lia. rewrite seqZ_app by lia. reflexivity. Qed.

Lemma alter_insert {A} (f : A -> A) i (l : list A) x :
  l !! i = Some x -> alter f i l = <[i := f x]> l.
Proof.
  intros Hx. apply list_eq. intros j. destruct (decide (i = j)) as [<-|].
  - rewrite list_lookup_insert_eq by now apply lookup_lt_Some in Hx.
    now rewrite list_lookup_alter_eq, Hx.
  - now rewrite list_lookup_insert_ne, list_lookup_alter_ne.
Qed.

(** [mred] runs the statements whose outcome is known; [mcase] proves an
    equation between two nestings of the same statements, by cases on the
    outcome of each statement. *)
Ltac mred := unfold deref, gets, get, mbind, M_bind, mret, M_ret; cbv beta iota.
Ltac mcase :=
  mred;
  repeat (cbv beta iota;
    match goal with
    | |- context [match ?x with Ok _ => _ | Hang => _ | Fault _ => _ end] =>
        lazymatch x with
        | context [match _ with _ => _ end] => fail
        | _ => destruct x as [[? ?]| |]; try reflexivity
        end
    end).
