(* ===== verification/Syscalls.v ===== *)
(** * Syscalls: what the C library calls

    Models src/syscalls.c: the stubs that stand for an operating system, and
    [_sbrk], from which the library's [malloc] takes its memory.  The state
    is [errno], the static [heap_end] (0 before the first call) and the main
    stack pointer, which the program moves between the calls; addresses are
    32-bit words.  Shows that [_sbrk] hands out consecutive, disjoint blocks
    between the end of the variables and the stack and refuses the others
    without moving, and what a block that is given back may reach. *)

From Stdlib Require Import ZArith Lia.
From stdpp Require Import base numbers list.
From S2P Require Import Prelude.

(** ** errno and the files *)

Definition ENOENT := 2.
Definition EBADF := 9.
Definition ECHILD := 10.
Definition EAGAIN := 11.
Definition ENOMEM := 12.
Definition EINVAL := 22.
Definition EMLINK := 31.

Definition STDIN_FILENO := 0.
Definition STDOUT_FILENO := 1.
Definition STDERR_FILENO := 2.

(** The mode of a character device. *)
Definition S_IFCHR := 0x2000.

Record sys := mkSys { errno : Z; heap_end : Z; msp : Z }.

Definition set_errno (e : Z) : M sys unit := modify (fun s => mkSys e (heap_end s) (msp s)).
Definition set_heap_end (a : Z) : M sys unit := modify (fun s => mkSys (errno s) a (msp s)).
(** The program between two calls. *)
Definition set_msp (a : Z) : M sys unit := modify (fun s => mkSys (errno s) (heap_end s) a).
Definition __get_MSP : M sys Z := gets msp.

(** ** The stubs *)

Definition _write (file : Z) (ptr : list Z) (len : Z) : M sys Z :=
  if file =? STDOUT_FILENO then mret len
  else if file =? STDERR_FILENO then mret len
  else set_errno EBADF;; mret (-1).

Definition _read (file : Z) (len : Z) : M sys Z :=
  if file =? STDIN_FILENO then mret 0
  else set_errno EBADF;; mret (-1).

(** The loop is followed for [fuel] turns; it has no end. *)
Definition _exit (fuel : nat) (status : Z) : M sys unit :=
  _write 1 [101; 120; 105; 116] 4;;
  while fuel (mret true) (mret tt).

Definition _close (file : Z) : M sys Z := mret (-1).
Definition _execve : M sys Z := set_errno ENOMEM;; mret (-1).
Definition _fork : M sys Z := set_errno EAGAIN;; mret (-1).
(** The result, and the mode stored through the pointer. *)
Definition _fstat (file : Z) : M sys (Z * Z) := mret (0, S_IFCHR).
Definition _stat (filepath : list Z) : M sys (Z * Z) := mret (0, S_IFCHR).
Definition _getpid : M sys Z := mret 1.

Definition _isatty (file : Z) : M sys Z :=
  if (file =? STDOUT_FILENO) || (file =? STDERR_FILENO) || (file =? STDIN_FILENO)
  then mret 1
  else set_errno EBADF;; mret 0.

Definition _kill (pid sig : Z) : M sys Z := set_errno EINVAL;; mret (-1).
Definition _link : M sys Z := set_errno EMLINK;; mret (-1).
Definition _lseek (file ptr dir : Z) : M sys Z := mret 0.
Definition _times : M sys Z := mret (-1).
Definition _unlink : M sys Z := set_errno ENOENT;; mret (-1).
Definition _wait : M sys Z := set_errno ECHILD;; mret (-1).

(** ** The break *)

Section Sbrk.
(** Where the linker puts the end of the variables. *)
Variable _ebss : Z.

(** The value of [(caddr_t)-1]. *)
Definition NOMEM : Z := u32 (-1).

Definition _sbrk (incr : Z) : M sys Z :=
  h ← gets heap_end;
  (if h =? 0 then set_heap_end _ebss else mret tt);;
  prev_heap_end ← gets heap_end;
  stack ← __get_MSP;
  if stack <? u32 (prev_heap_end + incr) then
    _write STDERR_FILENO [72; 101; 97; 112] 25;;
    set_errno ENOMEM;;
    mret NOMEM
  else
    set_heap_end (u32 (prev_heap_end + incr));;
    mret prev_heap_end.

(** A sequence of calls, each with the stack pointer at its time. *)
Fixpoint sbrks (calls : list (Z * Z)) : M sys (list Z) :=
  match calls with
  | [] => mret []
  | (stack, incr) :: calls =>
      set_msp stack;;
      a ← _sbrk incr;
      rest ← sbrks calls;
      mret (a :: rest)
  end.

(** ** The specification: a break that grows *)

(** What the calls return, and the break after them. *)
Fixpoint grow (brk : Z) (calls : list (Z * Z)) : list (option Z) * Z :=
  match calls with
  | [] => ([], brk)
  | (stack, incr) :: calls =>
      if brk + incr <=? stack then
        let '(rs, b) := grow (brk + incr) calls in (Some brk :: rs, b)
      else let '(rs, b) := grow brk calls in (None :: rs, b)
  end.

(** The blocks that were handed out: address, size and stack pointer. *)
Fixpoint blocks (calls : list (Z * Z)) (rs : list (option Z)) : list (Z * Z * Z) :=
  match calls, rs with
  | (stack, incr) :: calls, Some a :: rs => (a, incr, stack) :: blocks calls rs
  | _ :: calls, None :: rs => blocks calls rs
  | _, _ => []
  end.

Definition above (brk : Z) (b : Z * Z * Z) : Prop := brk <= b.1.1 /\ b.1.1 + b.1.2 <= b.2.

(** A call that asks for memory and does not give any back, with the stack in
  the lower half of the address space, as the RAM is. *)
Definition request (c : Z * Z) : Prop := 0 <= c.1 < 2 ^ 31 /\ 0 <= c.2 < 2 ^ 31.

Lemma grow_above brk calls :
  Forall request calls ->
  let '(rs, b) := grow brk calls in
  brk <= b /\ Forall (above brk) (blocks calls rs) /\
  ForallOrdPairs (fun x y => x.1.1 + x.1.2 <= y.1.1) (blocks calls rs).
Proof.
  revert brk. induction calls as [|[stack incr] calls IH]; intros brk H; cbn [grow].
  { split_and!; [lia|constructor|constructor]. }
  apply Forall_cons in H as [[_ Hi] H]. cbn in Hi.
  destruct (Z.leb_spec (brk + incr) stack) as [Hle|].
  - specialize (IH (brk + incr) H). destruct (grow (brk + incr) calls) as [rs b].
    destruct IH as (Hb & Ha & Hd). cbn [blocks]. split_and!; [lia| |].
    + constructor; [split; cbn; lia|].
      eapply Forall_impl; [exact Ha|]. intros x [? ?]. split; lia.
    + constructor; [|exact Hd]. eapply List.Forall_impl; [|exact Ha].
      intros x [Hx _]. cbn. exact Hx.
  - specialize (IH brk H). destruct (grow brk calls) as [rs b]. exact IH.
Qed.

(** *** The calls follow the specification *)

Definition address (r : option Z) : Z := default NOMEM r.
(** The break: before the first call, the end of the variables. *)
Definition brk_of (s : sys) : Z := if heap_end s =? 0 then _ebss else heap_end s.

Lemma _sbrk_ok incr s :
  0 < brk_of s < 2 ^ 31 -> 0 <= incr < 2 ^ 31 ->
  _sbrk incr s =
  if brk_of s + incr <=? msp s then Ok (brk_of s, mkSys (errno s) (brk_of s + incr) (msp s))
  else Ok (NOMEM, mkSys ENOMEM (brk_of s) (msp s)).
Proof.
  intros Hb Hi.
  assert (Hw : u32 (brk_of s + incr) = brk_of s + incr) by (apply wrap_small; lia).
  unfold _sbrk. rewrite (bind_ok _ _ _ _ _ eq_refl).
  rewrite (bind_ok _ _ _ tt (mkSys (errno s) (brk_of s) (msp s))).
  2:{ unfold brk_of. destruct s as [? h ?]. cbn. now destruct (h =? 0). }
  rewrite (bind_ok _ _ _ _ _ eq_refl), (bind_ok _ _ _ _ _ eq_refl). cbn [heap_end msp].
  rewrite Hw, Z.leb_antisym. now destruct (msp s <? brk_of s + incr).
Qed.

Lemma sbrks_grow calls s :
  Forall request calls -> 0 < brk_of s < 2 ^ 31 ->
  let '(rs, b) := grow (brk_of s) calls in
  exists s', sbrks calls s = Ok (map address rs, s') /\ brk_of s' = b /\
    errno s' = if decide (None ∈ rs) then ENOMEM else errno s.
Proof.
  revert s. induction calls as [|[stack incr] calls IH]; intros s H Hb; cbn [grow sbrks].
  { exists s. done. }
  apply Forall_cons in H as [[Hst Hi] H]. cbn in Hst, Hi.
  pose proof (_sbrk_ok incr (mkSys (errno s) (heap_end s) stack) Hb Hi) as Hs.
  change (brk_of (mkSys (errno s) (heap_end s) stack)) with (brk_of s) in Hs. cbn [errno msp] in Hs.
  destruct (Z.leb_spec (brk_of s + incr) stack) as [Hle|Hgt].
  - specialize (IH (mkSys (errno s) (brk_of s + incr) stack) H).
    assert (E : brk_of (mkSys (errno s) (brk_of s + incr) stack) = brk_of s + incr)
      by (unfold brk_of at 1; cbn; destruct (Z.eqb_spec (brk_of s + incr) 0); lia).
    rewrite E in IH. specialize (IH ltac:(lia)). destruct (grow (brk_of s + incr) calls) as [rs b].
    destruct IH as (s' & R & He & Hn). exists s'. split_and!; [|exact He|].
    + erewrite bind_ok by reflexivity. rewrite (bind_ok _ _ _ _ _ Hs), (bind_ok _ _ _ _ _ R). reflexivity.
    + rewrite Hn. cbn [errno]. apply decide_ext. rewrite elem_of_cons. naive_solver.
  - specialize (IH (mkSys ENOMEM (brk_of s) stack) H).
    assert (E : brk_of (mkSys ENOMEM (brk_of s) stack) = brk_of s)
      by (unfold brk_of at 1; cbn; destruct (Z.eqb_spec (brk_of s) 0); lia).
    rewrite E in IH. specialize (IH Hb). destruct (grow (brk_of s) calls) as [rs b].
    destruct IH as (s' & R & He & Hn). exists s'. split_and!; [|exact He|].
    + erewrite bind_ok by reflexivity. rewrite (bind_ok _ _ _ _ _ Hs), (bind_ok _ _ _ _ _ R). reflexivity.
    + rewrite Hn. cbn [errno]. rewrite (decide_True (P := None ∈ None :: rs)) by (rewrite elem_of_cons; auto).
      now destruct (decide _).
Qed.

(** C34: As long as memory is asked for and not given back (no increment is
    negative) and the stack is in the lower half of the address space, the
    calls of [_sbrk] are those of a break that only grows: a call returns the
    break and moves it up if what was asked for fits below the stack, and
    otherwise returns (caddr_t)-1, sets errno to ENOMEM and leaves the break.
    The blocks handed out lie above the end of the variables, each below the
    stack pointer of its call, and none overlaps another.  Without the first
    condition this fails, see [sbrk_below_variables] below. *)
Theorem sbrk_blocks_disjoint calls s :
  Forall request calls -> heap_end s = 0 -> 0 < _ebss < 2 ^ 31 ->
  let '(rs, b) := grow _ebss calls in
  exists s', sbrks calls s = Ok (map address rs, s') /\ brk_of s' = b /\
    errno s' = (if decide (None ∈ rs) then ENOMEM else errno s) /\
    Forall (above _ebss) (blocks calls rs) /\
    ForallOrdPairs (fun x y => x.1.1 + x.1.2 <= y.1.1) (blocks calls rs).
Proof.
  intros H Hh He. assert (E : brk_of s = _ebss) by (unfold brk_of; now rewrite Hh).
  pose proof (sbrks_grow calls s H) as Hs. pose proof (grow_above _ebss calls H) as Ha.
  rewrite E in Hs. specialize (Hs He). destruct (grow _ebss calls) as [rs b].
  destruct Hs as (s' & ? & ? & ?). exists s'. naive_solver.
Qed.
End Sbrk.

(** Three calls, of which the second asks for more than there is. *)
Definition some_calls : list (Z * Z) :=
  [(0x20001000, 256); (0x20000F00, 0x10000); (0x20000F00, 16)].

Lemma sbrk_blocks_disjoint_witness :
  let '(rs, b) := grow 0x20000800 some_calls in
  rs = [Some 0x20000800; None; Some 0x20000900] /\
  exists s', sbrks 0x20000800 some_calls (mkSys 0 0 0) = Ok (map address rs, s') /\
    brk_of 0x20000800 s' = b /\ errno s' = (if decide (None ∈ rs) then ENOMEM else 0) /\
    Forall (above 0x20000800) (blocks some_calls rs) /\
    ForallOrdPairs (fun x y => x.1.1 + x.1.2 <= y.1.1) (blocks some_calls rs).
Proof.
  split; [reflexivity|].
  apply (sbrk_blocks_disjoint 0x20000800 some_calls (mkSys 0 0 0)); [|reflexivity|lia].
  repeat constructor; cbn; lia.
Defined.

(** A negative argument moves the break down, and nothing stops it at the
    end of the variables: the next block lies over them. *)
Lemma sbrk_below_variables stack :
  0x20000800 <= stack < 2 ^ 32 ->
  sbrks 0x20000800 [(stack, -256); (stack, 16)] (mkSys 0 0 0) =
  Ok ([0x20000800; 0x20000700], mkSys 0 0x20000710 stack).
Proof.
  intros H. cbn [sbrks]. unfold _sbrk.
  assert ((stack <? 0x20000700) = false /\ (stack <? 0x20000710) = false) as [E1 E2] by lia.
  unfold mbind, M_bind, gets, modify, set_msp, set_heap_end, __get_MSP. cbn -[Z.ltb wrap Z.add].
  change (u32 (0x20000800 + -256)) with 0x20000700. rewrite E1. cbn -[Z.ltb wrap Z.add].
  change (u32 (0x20000700 + 16)) with 0x20000710. rewrite E2. reflexivity.
Qed.

(** ** The other stubs *)

(** A file that is not open is refused by all of the file's operations; the
    standard streams take what is written and deliver nothing. *)
Lemma stubs_agree_on_files file ptr len s :
  let std := (file =? STDIN_FILENO) || (file =? STDOUT_FILENO) || (file =? STDERR_FILENO) in
  let bad := mkSys EBADF (heap_end s) (msp s) in
  _isatty file s = (if std then Ok (1, s) else Ok (0, bad)) /\
  _write file ptr len s =
    (if (file =? STDOUT_FILENO) || (file =? STDERR_FILENO) then Ok (len, s) else Ok (-1, bad)) /\
  _read file len s = (if file =? STDIN_FILENO then Ok (0, s) else Ok (-1, bad)).
Proof.
  unfold _isatty, _write, _read, STDIN_FILENO, STDOUT_FILENO, STDERR_FILENO. cbn zeta.
  destruct (Z.eqb_spec file 1) as [->|?]; [auto|].
  destruct (Z.eqb_spec file 2) as [->|?]; [auto|].
  destruct (Z.eqb_spec file 0) as [->|?]; auto.
Qed.

(** The program does not come back from [_exit]. *)
Lemma exit_stays fuel status s : _exit fuel status s = Hang.
Proof.
  unfold _exit. rewrite (bind_ok _ _ _ _ _ eq_refl). apply while_true_hangs. intros s'. now exists s'.
Qed.
