(* ===== verification/Hw.v ===== *)
(** * Hw: the STM32F407 peripherals the firmware touches

    The registers the program reads and writes, as the device documentation
    describes them, and the environment that drives its inputs.  Nothing here
    is a translation of C code: it is the machine the translated code of the
    other files runs on.  A write that is visible outside the processor is
    appended to [trace], so that theorems can speak of the order of pin
    changes and of the bytes on the SPI wire. *)

From Stdlib Require Import ZArith Lia.
From stdpp Require Import base numbers list.
From S2P Require Import Prelude.

(** ** The environment

    [pin_level p n]: the level on the lines of port [p] when an input data
    register is read for the [n]-th time.  [spi_time n]: for how many reads
    of the status register the [n]-th SPI byte keeps the unit busy.  [miso n]:
    the byte received with it.  [ticks n]: the SysTick interrupts taken
    before the [n]-th read of the software clock.  [tim_uif n]: whether
    timer 2 had an update event between the reads [n - 1] and [n] of its status.
    [poll_fuel]: for how many polls the wait loops of the program are followed. *)
Inductive port := GPIOA | GPIOB | GPIOC | GPIOD | GPIOE.

#[export] Instance port_eq_dec : EqDecision port.
Proof. solve_decision. Defined.

Class Env := {
    pin_level : port -> nat -> Z;
    spi_time : nat -> nat;
    miso : nat -> Z;
    ticks : nat -> nat;
    tim_uif : nat -> bool;
    poll_fuel : nat;
  }.

(** ** Device registers *)

Record gpio_port := mkPort {
    MODER : Z; OTYPER : Z; OSPEEDR : Z; PUPDR : Z; ODR : Z;
    AFRL : Z; AFRH : Z;
    used_pins : Z;    (** the library's [GPIO_UsedPins] entry of the port *)
  }.

Definition port_reset : gpio_port := mkPort 0 0 0 0 0 0 0 0.

Record gpio_ports := mkPorts {
    pA : gpio_port; pB : gpio_port; pC : gpio_port; pD : gpio_port; pE : gpio_port;
    idr_reads : nat;
  }.

Definition get_port (p : port) (g : gpio_ports) : gpio_port :=
  match p with
  | GPIOA => pA g | GPIOB => pB g | GPIOC => pC g | GPIOD => pD g | GPIOE => pE g
  end.

Definition set_port (p : port) (x : gpio_port) (g : gpio_ports) : gpio_ports :=
  match p with
  | GPIOA => mkPorts x (pB g) (pC g) (pD g) (pE g) (idr_reads g)
  | GPIOB => mkPorts (pA g) x (pC g) (pD g) (pE g) (idr_reads g)
  | GPIOC => mkPorts (pA g) (pB g) x (pD g) (pE g) (idr_reads g)
  | GPIOD => mkPorts (pA g) (pB g) (pC g) x (pE g) (idr_reads g)
  | GPIOE => mkPorts (pA g) (pB g) (pC g) (pD g) x (idr_reads g)
  end.

Record spi_state := mkSpi {
    spi_cr1 : Z;
    spi_rxne : bool;      (** a received byte has not been read *)
    spi_pending : nat;    (** status reads until the transfer is over *)
    spi_count : nat;      (** bytes written so far *)
    spi_rx : Z;           (** the receive buffer *)
  }.

Record tim_state := mkTim {
    tim_arr : Z; tim_enabled : bool;
    tim_flag : bool;      (** the update flag, as it was last seen or cleared *)
    tim_reads : nat;
  }.

Record clock_state := mkClock {
    local_time : Z;       (** the variable [LocalTime] of timing.c *)
    time_reads : nat;
  }.

Record rcc_state := mkRcc { AHB1ENR : Z; APB1ENR : Z; APB2ENR : Z }.

Inductive event :=
  | EvSet (p : port) (mask : Z)      (** pins driven high *)
  | EvClear (p : port) (mask : Z)    (** pins driven low *)
  | EvPort (p : port) (v : Z)        (** a whole port written *)
  | EvMode (p : port) (v : Z)        (** the port's mode register *)
  | EvSpi (b : Z)                    (** a byte shifted out *)
  | EvTim (on : bool)                (** timer 2 started or stopped *)
  | EvIrq (on : bool).               (** interrupts enabled or disabled *)

Record hw := mkHw {
    rcc : rcc_state;
    ports : gpio_ports;
    spi1 : spi_state;
    tim2 : tim_state;
    clock : clock_state;
    primask : bool;       (** interrupts masked *)
    trace : list event;
  }.

Definition with_rcc f h :=
  mkHw (f (rcc h)) (ports h) (spi1 h) (tim2 h) (clock h) (primask h) (trace h).
Definition with_ports f h :=
  mkHw (rcc h) (f (ports h)) (spi1 h) (tim2 h) (clock h) (primask h) (trace h).
Definition with_spi f h :=
  mkHw (rcc h) (ports h) (f (spi1 h)) (tim2 h) (clock h) (primask h) (trace h).
Definition with_tim f h :=
  mkHw (rcc h) (ports h) (spi1 h) (f (tim2 h)) (clock h) (primask h) (trace h).
Definition with_clock f h :=
  mkHw (rcc h) (ports h) (spi1 h) (tim2 h) (f (clock h)) (primask h) (trace h).
Definition with_primask b h :=
  mkHw (rcc h) (ports h) (spi1 h) (tim2 h) (clock h) b (trace h).
Definition emit_event e h :=
  mkHw (rcc h) (ports h) (spi1 h) (tim2 h) (clock h) (primask h) (trace h ++ [e]).

Definition hw_reset : hw :=
  mkHw (mkRcc 0 0 0)
       (mkPorts port_reset port_reset port_reset port_reset port_reset 0)
       (mkSpi 0 false 0 0 0) (mkTim 0xFFFFFFFF false false 0) (mkClock 0 0) false [].

Definition emit (e : event) : M hw unit := modify (emit_event e).

(** ** GPIO registers *)

Definition modify_port (p : port) (f : gpio_port -> gpio_port) : M hw unit :=
  modify (with_ports (fun g => set_port p (f (get_port p g)) g)).

Definition with_odr f x :=
  mkPort (MODER x) (OTYPER x) (OSPEEDR x) (PUPDR x) (f (ODR x)) (AFRL x) (AFRH x) (used_pins x).
Definition with_moder f x :=
  mkPort (f (MODER x)) (OTYPER x) (OSPEEDR x) (PUPDR x) (ODR x) (AFRL x) (AFRH x) (used_pins x).
Definition with_otyper f x :=
  mkPort (MODER x) (f (OTYPER x)) (OSPEEDR x) (PUPDR x) (ODR x) (AFRL x) (AFRH x) (used_pins x).
Definition with_ospeedr f x :=
  mkPort (MODER x) (OTYPER x) (f (OSPEEDR x)) (PUPDR x) (ODR x) (AFRL x) (AFRH x) (used_pins x).
Definition with_pupdr f x :=
  mkPort (MODER x) (OTYPER x) (OSPEEDR x) (f (PUPDR x)) (ODR x) (AFRL x) (AFRH x) (used_pins x).
Definition with_afr (hi : bool) f x :=
  if hi
  then mkPort (MODER x) (OTYPER x) (OSPEEDR x) (PUPDR x) (ODR x) (AFRL x) (f (AFRH x)) (used_pins x)
  else mkPort (MODER x) (OTYPER x) (OSPEEDR x) (PUPDR x) (ODR x) (f (AFRL x)) (AFRH x) (used_pins x).
Definition with_used f x :=
  mkPort (MODER x) (OTYPER x) (OSPEEDR x) (PUPDR x) (ODR x) (AFRL x) (AFRH x) (f (used_pins x)).

(** [BSRRL] and [BSRRH] are the 16-bit halves of the bit set/reset register:
    a one written to the lower half sets the output bit, to the upper half
    clears it, zeros change nothing. *)
Definition write_BSRRL (p : port) (v : Z) : M hw unit :=
  modify_port p (with_odr (fun odr => Z.lor odr (u16 v)));; emit (EvSet p (u16 v)).
Definition write_BSRRH (p : port) (v : Z) : M hw unit :=
  modify_port p (with_odr (fun odr => Z.ldiff odr (u16 v)));; emit (EvClear p (u16 v)).
Definition write_ODR (p : port) (v : Z) : M hw unit :=
  modify_port p (with_odr (fun _ => u16 v));; emit (EvPort p (u16 v)).
Definition read_MODER (p : port) : M hw Z := gets (fun h => MODER (get_port p (ports h))).
Definition write_MODER (p : port) (v : Z) : M hw unit :=
  modify_port p (with_moder (fun _ => u32 v));; emit (EvMode p (u32 v)).

(** A pin is an output when its two mode bits are 01. *)
Definition is_output (x : gpio_port) (pin : Z) : bool :=
  Z.land (Z.shiftr (MODER x) (2 * pin)) 3 =? 1.

Definition output_mask (x : gpio_port) : Z :=
  foldr (fun pin m => if is_output x (Z.of_nat pin)
                      then Z.lor (Z.shiftl 1 (Z.of_nat pin)) m else m) 0 (seq 0 16).

(** The input data register shows the level on the pin: what the program
    drives where the pin is an output, what the outside drives elsewhere. *)
Definition read_IDR `{Env} (p : port) : M hw Z := fun h =>
  let g := ports h in
  let x := get_port p g in
  let om := output_mask x in
  let v := Z.lor (Z.land (ODR x) om) (Z.ldiff (u16 (pin_level p (idr_reads g))) om) in
  Ok (v, with_ports (fun g => mkPorts (pA g) (pB g) (pC g) (pD g) (pE g) (S (idr_reads g))) h).

(** The AHB1 peripheral clock enable bit [b]. *)
Definition set_AHB1ENR (v : Z) : M hw unit :=
  modify (with_rcc (fun r => mkRcc (Z.lor (AHB1ENR r) v) (APB1ENR r) (APB2ENR r))).
Definition clear_AHB1ENR (v : Z) : M hw unit :=
  modify (with_rcc (fun r => mkRcc (Z.ldiff (AHB1ENR r) v) (APB1ENR r) (APB2ENR r))).
Definition set_APB1ENR (v : Z) : M hw unit :=
  modify (with_rcc (fun r => mkRcc (AHB1ENR r) (Z.lor (APB1ENR r) v) (APB2ENR r))).
Definition set_APB2ENR (v : Z) : M hw unit :=
  modify (with_rcc (fun r => mkRcc (AHB1ENR r) (APB1ENR r) (Z.lor (APB2ENR r) v))).

(** ** SPI1 *)

Definition SPI_SR_RXNE := 0x01.
Definition SPI_SR_TXE := 0x02.
Definition SPI_SR_BSY := 0x80.

(** Reading the status register: busy while a transfer is in progress,
    afterwards transmit-empty and, until the byte is read, receive-not-empty. *)
Definition read_SPI1_SR : M hw Z := fun h =>
  let s := spi1 h in
  Ok (match spi_pending s with
      | O => if spi_rxne s then Z.lor SPI_SR_TXE SPI_SR_RXNE else SPI_SR_TXE
      | S _ => SPI_SR_BSY
      end,
      with_spi (fun s => mkSpi (spi_cr1 s) (spi_rxne s) (pred (spi_pending s))
                               (spi_count s) (spi_rx s)) h).

(** Writing the data register starts the transfer of a byte.  A write while
    one is in progress would lose data: it is a fault of the model. *)
Definition write_SPI1_DR `{Env} (b : Z) : M hw unit := fun h =>
  match spi_pending (spi1 h) with
  | O => Ok (tt, emit_event (EvSpi (u8 b))
            (with_spi (fun s => mkSpi (spi_cr1 s) true (spi_time (spi_count s))
                                      (S (spi_count s)) (u8 (miso (spi_count s)))) h))
  | S _ => Fault SpiOverrun
  end.

Definition read_SPI1_DR : M hw Z := fun h =>
  Ok (spi_rx (spi1 h),
      with_spi (fun s => mkSpi (spi_cr1 s) false (spi_pending s) (spi_count s) (spi_rx s)) h).

Definition modify_CR1 (f : Z -> Z) : M hw unit :=
  modify (with_spi (fun s => mkSpi (u16 (f (spi_cr1 s))) (spi_rxne s) (spi_pending s)
                                   (spi_count s) (spi_rx s))).

(** The peripheral reset: every register at its reset value, no transfer. *)
Definition SPI1_reset : M hw unit :=
  modify (with_spi (fun s => mkSpi 0 false 0 (spi_count s) 0)).

(** ** Timer 2 and the interrupt mask *)

Definition TIM_FLAG_Update := 0x0001.

(** The update flag stays set until it is cleared. *)
Definition read_TIM2_SR `{Env} : M hw Z := fun h =>
  let t := tim2 h in
  let flag := tim_flag t || tim_uif (tim_reads t) in
  Ok (if flag then TIM_FLAG_Update else 0,
      with_tim (fun t => mkTim (tim_arr t) (tim_enabled t) flag (S (tim_reads t))) h).

Definition clear_TIM2_SR : M hw unit :=
  modify (with_tim (fun t => mkTim (tim_arr t) (tim_enabled t) false (tim_reads t))).

(** [TIM_Cmd] sets or clears the counter-enable bit. *)
Definition TIM2_enable (on : bool) : M hw unit :=
  modify (with_tim (fun t => mkTim (tim_arr t) on (tim_flag t) (tim_reads t)));; emit (EvTim on).

(** The timer set up anew: stopped, with the given auto-reload value, and
    with the update flag that the set-up's software update raises. *)
Definition TIM2_setup (arr : Z) : M hw unit :=
  modify (with_tim (fun t => mkTim (u32 arr) false true (tim_reads t))).

Definition read_TIM2_ARR : M hw Z := gets (fun h => tim_arr (tim2 h)).

Definition set_primask (b : bool) : M hw unit :=
  modify (with_primask b);; emit (EvIrq (negb b)).

(** ** Lemmas *)

Lemma get_set_port p x g : get_port p (set_port p x g) = x.
Proof. now destruct p. Qed.

Lemma get_set_port_ne p q x g : p <> q -> get_port q (set_port p x g) = get_port q g.
Proof. now destruct p, q. Qed.

Lemma set_set_port p x y g : set_port p x (set_port p y g) = set_port p x g.
Proof. now destruct p. Qed.

Lemma idr_reads_set_port p x g : idr_reads (set_port p x g) = idr_reads g.
Proof. now destruct p. Qed.

(** What the trace says of the bytes on the SPI wire. *)
Definition spi_bytes (t : list event) : list Z :=
  omap (fun e => match e with EvSpi b => Some b | _ => None end) t.

Lemma spi_bytes_app t1 t2 : spi_bytes (t1 ++ t2) = spi_bytes t1 ++ spi_bytes t2.
Proof. unfold spi_bytes. apply omap_app. Qed.

(** An environment for concrete runs: two polls per SPI byte, one clock tick
    and one timer update per read, all input lines low. *)
Definition plain_env : Env :=
  {| pin_level := fun _ _ => 0; spi_time := fun _ => 2%nat; miso := fun n => Z.of_nat n;
     ticks := fun _ => 1%nat; tim_uif := fun _ => true; poll_fuel := 1000 |}.
