(* ===== verification/Gpio.v ===== *)
(** * Gpio: pins of the board

    Models include/gpio.h, src/gpio.c and the parts of the TM GPIO library
    (lib/tm) they call: the pin table, setting, clearing, toggling and reading
    a pin, switching a pin between input and output, and the initialisation
    of every pin.  Shows that a pin reads back what was written to it, that
    no operation disturbs another pin, and that [gpio_init] leaves every pin
    of the table in the mode its table entry asks for. *)

From Stdlib Require Import ZArith Lia.
From stdpp Require Import base numbers list sets.
From S2P Require Import Prelude Hw.
#[local] Open Scope c_scope.

(** ** Pins *)

Record gpio_pin := mkPin { group : port; pin : Z }.

#[export] Instance gpio_pin_eq_dec : EqDecision gpio_pin.
Proof. solve_decision. Defined.

Definition ETHERNET_RESET := mkPin GPIOA 6.
Definition IO_UPDATE := mkPin GPIOD 11.
Definition IO_RESET := mkPin GPIOB 7.
Definition RF_SWITCH := mkPin GPIOA 4.
Definition TRIGGER_SELECT := mkPin GPIOC 0.
Definition EXTERNAL_TRIGGER := mkPin GPIOB 1.
Definition PLL_LOCK := mkPin GPIOC 15.
Definition DDS_RESET := mkPin GPIOA 0.
Definition PROFILE_0 := mkPin GPIOD 10.
Definition PROFILE_1 := mkPin GPIOD 9.
Definition PROFILE_2 := mkPin GPIOD 8.
Definition LED_RED := mkPin GPIOD 14.
Definition LED_ORANGE := mkPin GPIOD 13.
Definition LED_BLUE := mkPin GPIOD 15.
Definition LED_FRONT := mkPin GPIOB 9.
Definition RED_BUTTON := mkPin GPIOD 12.
Definition DRCTL := mkPin GPIOD 2.
Definition DRHOLD := mkPin GPIOD 3.
Definition DROVER := mkPin GPIOD 1.
Definition TX_ENABLE := mkPin GPIOB 0.
Definition PARALLEL_F0 := mkPin GPIOB 15.
Definition PARALLEL_F1 := mkPin GPIOB 14.
(** [PARALLEL_D0] to [PARALLEL_D15]. *)
Definition PARALLEL_D (i : Z) := mkPin GPIOE i.

(** ** The TM library *)

Definition TM_GPIO_Mode_IN := 0x00.
Definition TM_GPIO_Mode_OUT := 0x01.
Definition TM_GPIO_Mode_AF := 0x02.
Definition TM_GPIO_Mode_AN := 0x03.
Definition TM_GPIO_OType_PP := 0x00.
Definition TM_GPIO_PuPd_NOPULL := 0x00.
Definition TM_GPIO_PuPd_UP := 0x01.
Definition TM_GPIO_PuPd_DOWN := 0x02.
Definition TM_GPIO_Speed_High := 0x03.

Definition GPIOA_BASE := 0x40020000.
Definition GPIO_BASE (p : port) : Z :=
  match p with
  | GPIOA => 0x40020000 | GPIOB => 0x40020400 | GPIOC => 0x40020800
  | GPIOD => 0x40020C00 | GPIOE => 0x40021000
  end.

Definition TM_GPIO_GetPortSource (GPIOx : port) : Z :=
  u16 ((GPIO_BASE GPIOx - GPIO_BASE GPIOA) / (GPIO_BASE GPIOB - GPIO_BASE GPIOA)).

Definition TM_GPIO_INT_EnableClock (GPIOx : port) : M hw unit :=
  set_AHB1ENR (1 <<< TM_GPIO_GetPortSource GPIOx).

Definition TM_GPIO_INT_DisableClock (GPIOx : port) : M hw unit :=
  clear_AHB1ENR (1 <<< TM_GPIO_GetPortSource GPIOx).

(** The body of the pin loop for a pin that is selected. *)
Definition TM_GPIO_INT_Init_pin (GPIOx : port)
    (GPIO_Mode GPIO_OType GPIO_PuPd GPIO_Speed pinpos : Z) : M hw unit :=
  modify_port GPIOx (with_used (fun r => u16 (r ||| (1 <<< pinpos))));;
  modify_port GPIOx (with_pupdr (fun r =>
    u32 ((r &&& Z.lnot (0x03 <<< (2 * pinpos))) ||| u32 (GPIO_PuPd <<< (2 * pinpos)))));;
  m ← read_MODER GPIOx;
  write_MODER GPIOx
    ((m &&& Z.lnot (u32 (0x03 <<< (2 * pinpos)))) ||| u32 (GPIO_Mode <<< (2 * pinpos)));;
  if (GPIO_Mode =? TM_GPIO_Mode_OUT) || (GPIO_Mode =? TM_GPIO_Mode_AF) then
    modify_port GPIOx (with_otyper (fun r =>
      u32 ((r &&& Z.lnot (u16 (0x01 <<< pinpos))) ||| u16 (GPIO_OType <<< pinpos))));;
    modify_port GPIOx (with_ospeedr (fun r =>
      u32 ((r &&& Z.lnot (u32 (0x03 <<< (2 * pinpos)))) ||| u32 (GPIO_Speed <<< (2 * pinpos)))))
  else mret tt.

Definition TM_GPIO_INT_Init (GPIOx : port)
    (GPIO_Pin GPIO_Mode GPIO_OType GPIO_PuPd GPIO_Speed : Z) : M hw unit :=
  for_each (seqZ 0 16) (fun pinpos =>
    if (GPIO_Pin &&& (1 <<< pinpos)) =? 0 then mret tt
    else TM_GPIO_INT_Init_pin GPIOx GPIO_Mode GPIO_OType GPIO_PuPd GPIO_Speed pinpos).

Definition TM_GPIO_Init (GPIOx : port)
    (GPIO_Pin GPIO_Mode GPIO_OType GPIO_PuPd GPIO_Speed : Z) : M hw unit :=
  if GPIO_Pin =? 0x00 then mret tt
  else
    TM_GPIO_INT_EnableClock GPIOx;;
    TM_GPIO_INT_Init GPIOx GPIO_Pin GPIO_Mode GPIO_OType GPIO_PuPd GPIO_Speed.

Definition TM_GPIO_InitAlternate (GPIOx : port)
    (GPIO_Pin GPIO_OType GPIO_PuPd GPIO_Speed Alternate : Z) : M hw unit :=
  if GPIO_Pin =? 0x00 then mret tt
  else
    TM_GPIO_INT_EnableClock GPIOx;;
    for_each (seqZ 0 16) (fun pinpos =>
      if (GPIO_Pin &&& (1 <<< pinpos)) =? 0 then mret tt
      else modify_port GPIOx (with_afr (truthy (pinpos >>> 3)) (fun r =>
             u32 ((r &&& Z.lnot (0x0F <<< (4 * (pinpos &&& 0x07))))
                  ||| (Alternate <<< (4 * (pinpos &&& 0x07)))))));;
    TM_GPIO_INT_Init GPIOx GPIO_Pin TM_GPIO_Mode_AF GPIO_OType GPIO_PuPd GPIO_Speed.

Definition TM_GPIO_SetPinHigh (GPIOx : port) (GPIO_Pin : Z) : M hw unit :=
  write_BSRRL GPIOx GPIO_Pin.
Definition TM_GPIO_SetPinLow (GPIOx : port) (GPIO_Pin : Z) : M hw unit :=
  write_BSRRH GPIOx GPIO_Pin.
Definition TM_GPIO_TogglePinValue (GPIOx : port) (GPIO_Pin : Z) : M hw unit :=
  odr ← gets (fun h => ODR (get_port GPIOx (ports h)));
  write_ODR GPIOx (odr ^^^ GPIO_Pin).
Definition TM_GPIO_SetPortValue (GPIOx : port) (value : Z) : M hw unit :=
  write_ODR GPIOx value.
Definition TM_GPIO_GetInputPinValue `{Env} (GPIOx : port) (GPIO_Pin : Z) : M hw Z :=
  idr ← read_IDR GPIOx;
  mret (if (idr &&& GPIO_Pin) =? 0 then 0 else 1).

(** ** include/gpio.h *)

Definition gpio_set_high (p : gpio_pin) : M hw unit :=
  TM_GPIO_SetPinHigh (group p) (1 <<< pin p).
Definition gpio_set_low (p : gpio_pin) : M hw unit :=
  TM_GPIO_SetPinLow (group p) (1 <<< pin p).
Definition gpio_toggle (p : gpio_pin) : M hw unit :=
  TM_GPIO_TogglePinValue (group p) (1 <<< pin p).
Definition gpio_set (p : gpio_pin) (value : Z) : M hw unit :=
  if truthy value then gpio_set_high p else gpio_set_low p.
Definition gpio_get `{Env} (p : gpio_pin) : M hw Z :=
  TM_GPIO_GetInputPinValue (group p) (1 <<< pin p).

(** ** src/gpio.c *)

Definition gpio_change_pin_mode (mode : Z) (GPIOx : port) (pinpos : Z) : M hw unit :=
  let mode := mode &&& 0x3 in
  tmp ← read_MODER GPIOx;
  let tmp := tmp &&& Z.lnot (u32 (0x03 <<< (2 * pinpos))) in
  let tmp := tmp ||| u32 (mode <<< (2 * pinpos)) in
  write_MODER GPIOx tmp.

Definition gpio_set_pin_mode_input (p : gpio_pin) : M hw unit :=
  gpio_change_pin_mode TM_GPIO_Mode_IN (group p) (pin p).
Definition gpio_set_pin_mode_output (p : gpio_pin) : M hw unit :=
  gpio_change_pin_mode TM_GPIO_Mode_OUT (group p) (pin p).

Definition gpio_init_output (p : gpio_pin) : M hw unit :=
  TM_GPIO_Init (group p) (1 <<< pin p) TM_GPIO_Mode_OUT TM_GPIO_OType_PP
    TM_GPIO_Speed_High TM_GPIO_PuPd_NOPULL.
Definition gpio_init_output_pulldown (p : gpio_pin) : M hw unit :=
  TM_GPIO_Init (group p) (1 <<< pin p) TM_GPIO_Mode_OUT TM_GPIO_OType_PP
    TM_GPIO_Speed_High TM_GPIO_PuPd_DOWN.
Definition gpio_init_output_pullup (p : gpio_pin) : M hw unit :=
  TM_GPIO_Init (group p) (1 <<< pin p) TM_GPIO_Mode_OUT TM_GPIO_OType_PP
    TM_GPIO_Speed_High TM_GPIO_PuPd_UP.
Definition gpio_init_input (p : gpio_pin) : M hw unit :=
  TM_GPIO_Init (group p) (1 <<< pin p) TM_GPIO_Mode_IN TM_GPIO_OType_PP
    TM_GPIO_Speed_High TM_GPIO_PuPd_NOPULL.

(** [gpio_init] is a straight sequence of calls; it is written as the list
    of the calls, run in order. *)
Definition gpio_init_calls : list (M hw unit) :=
  [ gpio_init_output IO_UPDATE; gpio_init_output_pulldown IO_RESET;
    gpio_init_output PROFILE_0; gpio_init_output PROFILE_1; gpio_init_output PROFILE_2;
    gpio_init_output LED_RED; gpio_init_output LED_ORANGE; gpio_init_output LED_FRONT;
    gpio_init_output LED_BLUE; gpio_init_input RED_BUTTON;
    gpio_init_output RF_SWITCH; gpio_init_output TRIGGER_SELECT;
    gpio_init_output_pulldown DDS_RESET; gpio_init_input EXTERNAL_TRIGGER;
    gpio_init_output_pullup ETHERNET_RESET; gpio_init_input PLL_LOCK;
    gpio_init_output DRCTL; gpio_init_output DRHOLD; gpio_init_input DROVER;
    gpio_init_output TX_ENABLE; gpio_init_output PARALLEL_F0; gpio_init_output PARALLEL_F1;
    gpio_init_output (PARALLEL_D 0); gpio_init_output (PARALLEL_D 1);
    gpio_init_output (PARALLEL_D 2); gpio_init_output (PARALLEL_D 3);
    gpio_init_output (PARALLEL_D 4); gpio_init_output (PARALLEL_D 5);
    gpio_init_output (PARALLEL_D 6); gpio_init_output (PARALLEL_D 7);
    gpio_init_output (PARALLEL_D 8); gpio_init_output (PARALLEL_D 9);
    gpio_init_output (PARALLEL_D 10); gpio_init_output (PARALLEL_D 11);
    gpio_init_output (PARALLEL_D 12); gpio_init_output (PARALLEL_D 13);
    gpio_init_output (PARALLEL_D 14); gpio_init_output (PARALLEL_D 15) ].

Definition gpio_init : M hw unit := for_each gpio_init_calls (fun call => call).

(** ** Two-bit fields of the mode, pull and speed registers *)

Definition field2 (r i : Z) : Z := (r >>> (2 * i)) &&& 3.

Lemma testbit_3 i : Z.testbit 3 i = (0 <=? i) && (i <? 2).
Proof.
  destruct (Z.ltb_spec i 0); [rewrite Z.testbit_neg_r by lia; now destruct (Z.leb_spec 0 i); lia|].
  change 3 with (Z.ones 2). destruct (Z.ltb_spec i 2).
  - rewrite Z.ones_spec_low by lia. now destruct (Z.leb_spec 0 i); [|lia].
  - rewrite Z.ones_spec_high by lia. now rewrite andb_false_r.
Qed.

Lemma testbit_field2 r i k :
  0 <= i -> 0 <= k -> Z.testbit (field2 r i) k = (k <? 2) && Z.testbit r (k + 2 * i).
Proof.
  intros Hi Hk. unfold field2. rewrite Z.land_spec, Z.shiftr_spec, testbit_3 by lia.
  destruct (Z.leb_spec 0 k); [|lia]. now destruct (k <? 2), (Z.testbit r (k + 2 * i)).
Qed.

(** Storing [v] in field [i] of a register, as the library and
    [gpio_change_pin_mode] do. *)
Definition store2 (r v i : Z) : Z :=
  u32 ((r &&& Z.lnot (u32 (3 <<< (2 * i)))) ||| u32 (v <<< (2 * i))).

Lemma testbit_store2 r v i k :
  0 <= i < 16 -> 0 <= v < 4 -> 0 <= k ->
  Z.testbit (store2 r v i) k =
    (k <? 32) && (if (2 * i <=? k) && (k <? 2 * i + 2)
                  then Z.testbit v (k - 2 * i) else Z.testbit r k).
Proof.
  intros Hi Hv Hk. unfold store2.
  rewrite wrap_testbit by lia. destruct (Z.ltb_spec k 32); [|done]. cbn [andb].
  rewrite Z.lor_spec, Z.land_spec, Z.lnot_spec, !wrap_testbit by lia.
  destruct (Z.ltb_spec k 32); [|lia].
  rewrite !Z.shiftl_spec, testbit_3 by lia. cbn [andb].
  destruct (Z.leb_spec (2 * i) k), (Z.ltb_spec k (2 * i + 2)),
    (Z.leb_spec 0 (k - 2 * i)), (Z.ltb_spec (k - 2 * i) 2); try lia; cbn [andb negb];
    rewrite ?andb_false_r, ?andb_true_r, ?orb_false_l; try done.
  - rewrite (testbit_high 2 v) by lia. now rewrite orb_false_r.
  - rewrite (Z.testbit_neg_r v) by lia. now rewrite orb_false_r.
Qed.

Lemma field2_store2 r v i : 0 <= i < 16 -> 0 <= v < 4 -> field2 (store2 r v i) i = v.
Proof.
  intros Hi Hv. apply Z.bits_inj'. intros k Hk.
  rewrite testbit_field2, testbit_store2 by lia.
  destruct (Z.ltb_spec k 2).
  - destruct (Z.ltb_spec (k + 2 * i) 32), (Z.leb_spec (2 * i) (k + 2 * i)),
      (Z.ltb_spec (k + 2 * i) (2 * i + 2)); try lia.
    cbn [andb]. f_equal. lia.
  - symmetry. apply (testbit_high 2 v); lia.
Qed.

Lemma field2_store2_ne r v i j :
  0 <= i < 16 -> 0 <= j < 16 -> 0 <= v < 4 -> i <> j ->
  field2 (store2 r v i) j = field2 r j.
Proof.
  intros Hi Hj Hv Hne. apply Z.bits_inj'. intros k Hk.
  rewrite !testbit_field2, testbit_store2 by lia.
  destruct (Z.ltb_spec k 2); [|done].
  destruct (Z.ltb_spec (k + 2 * j) 32); [|lia].
  now destruct (Z.leb_spec (2 * i) (k + 2 * j)), (Z.ltb_spec (k + 2 * j) (2 * i + 2)); try lia.
Qed.

Lemma select_one_hot i k :
  0 <= i -> 0 <= k -> (((1 <<< i) &&& (1 <<< k)) =? 0) = false <-> k = i.
Proof.
  intros Hi Hk. split.
  - intros H. apply Z.eqb_neq in H. destruct (decide (k = i)) as [|Hne]; [done|]. destruct H.
    apply Z.bits_inj'. intros b Hb. rewrite Z.land_spec, !testbit_pow, Z.testbit_0_l by lia.
    destruct (Z.eqb_spec b i), (Z.eqb_spec b k); try done; lia.
  - intros ->. apply Z.eqb_neq. intros H. apply (f_equal (fun z => Z.testbit z i)) in H.
    rewrite Z.land_spec, !testbit_pow, Z.testbit_0_l, Z.eqb_refl in H by lia. done.
Qed.

(** ** Effects of the pin operations *)

(** The pin numbers of the table are those of a 16-bit port. *)
Definition wf_pin (p : gpio_pin) : Prop := 0 <= pin p < 16.

Definition pin_mode (p : gpio_pin) (h : hw) : Z :=
  field2 (MODER (get_port (group p) (ports h))) (pin p).
Definition pin_pull (p : gpio_pin) (h : hw) : Z :=
  field2 (PUPDR (get_port (group p) (ports h))) (pin p).
Definition pin_speed (p : gpio_pin) (h : hw) : Z :=
  field2 (OSPEEDR (get_port (group p) (ports h))) (pin p).
(** The level the program drives on the pin. *)
Definition pin_level_out (p : gpio_pin) (h : hw) : bool :=
  Z.testbit (ODR (get_port (group p) (ports h))) (pin p).

(** The state after [gpio_set], in one expression. *)
Definition after_set (p : gpio_pin) (v : bool) (h : hw) : hw :=
  let mask := u16 (1 <<< pin p) in
  emit_event (if v then EvSet (group p) mask else EvClear (group p) mask)
    (with_ports (fun g => set_port (group p)
      (with_odr (fun odr => if v then Z.lor odr mask else Z.ldiff odr mask)
                (get_port (group p) g)) g) h).

Lemma gpio_set_ok p v h : gpio_set p v h = Ok (tt, after_set p (truthy v) h).
Proof. unfold gpio_set, after_set. now destruct (truthy v). Qed.

Lemma gpio_set_high_ok p h : gpio_set_high p h = Ok (tt, after_set p true h).
Proof. done. Qed.

Lemma gpio_set_low_ok p h : gpio_set_low p h = Ok (tt, after_set p false h).
Proof. done. Qed.

Lemma testbit_pin_mask p k : wf_pin p -> 0 <= k -> Z.testbit (u16 (1 <<< pin p)) k = (k =? pin p).
Proof.
  intros Hp Hk. unfold wf_pin in Hp. rewrite wrap_testbit, testbit_pow by lia.
  destruct (Z.ltb_spec k 16), (Z.eqb_spec k (pin p)); try done; lia.
Qed.

Lemma after_set_level p q v h :
  wf_pin p -> wf_pin q ->
  pin_level_out q (after_set p v h) = if decide (p = q) then v else pin_level_out q h.
Proof.
  intros Hp Hq. unfold pin_level_out, after_set. cbn.
  destruct (decide (group p = group q)) as [Hg|Hg].
  - rewrite Hg, get_set_port. cbn.
    assert (Hm := testbit_pin_mask p (pin q) Hp (proj1 Hq)).
    assert (Hpq : p = q <-> pin q = pin p).
    { destruct p, q. cbn in *. subst. naive_solver. }
    destruct v; rewrite ?Z.lor_spec, ?Z.ldiff_spec, Hm;
      destruct (Z.eqb_spec (pin q) (pin p)), (decide (p = q)); try tauto;
      now rewrite ?orb_true_r, ?orb_false_r, ?andb_false_r, ?andb_true_r.
  - rewrite get_set_port_ne by done. rewrite decide_False; [done|naive_solver].
Qed.

Lemma after_set_mode p q v h : pin_mode q (after_set p v h) = pin_mode q h.
Proof.
  unfold pin_mode, after_set. cbn. destruct (decide (group p = group q)) as [->|Hg].
  - now rewrite get_set_port.
  - now rewrite get_set_port_ne.
Qed.

(** ** Reading a pin *)

Lemma testbit_output_mask_gen x n s k :
  0 <= k ->
  Z.testbit (foldr (fun pin m => if is_output x (Z.of_nat pin)
                      then Z.lor (Z.shiftl 1 (Z.of_nat pin)) m else m) 0 (seq s n)) k
  = (Z.of_nat s <=? k) && (k <? Z.of_nat (s + n)) && is_output x k.
Proof.
  intros Hk. revert s. induction n as [|n IH]; intros s; cbn [seq foldr].
  - rewrite Z.testbit_0_l.
    destruct (Z.leb_spec (Z.of_nat s) k), (Z.ltb_spec k (Z.of_nat (s + 0))); try done; lia.
  - specialize (IH (S s)). destruct (is_output x (Z.of_nat s)) eqn:Es.
    + rewrite Z.lor_spec, testbit_pow, IH by lia.
      destruct (Z.eqb_spec k (Z.of_nat s)) as [->|Hne].
      * rewrite Es. destruct (Z.leb_spec (Z.of_nat s) (Z.of_nat s)),
          (Z.ltb_spec (Z.of_nat s) (Z.of_nat (s + S n))); try done; lia.
      * destruct (Z.leb_spec (Z.of_nat (S s)) k), (Z.leb_spec (Z.of_nat s) k),
          (Z.ltb_spec k (Z.of_nat (S s + n))), (Z.ltb_spec k (Z.of_nat (s + S n))); try done; lia.
    + rewrite IH. destruct (Z.eqb_spec k (Z.of_nat s)) as [->|Hne].
      * rewrite Es, !andb_false_r. done.
      * destruct (Z.leb_spec (Z.of_nat (S s)) k), (Z.leb_spec (Z.of_nat s) k),
          (Z.ltb_spec k (Z.of_nat (S s + n))), (Z.ltb_spec k (Z.of_nat (s + S n))); try done; lia.
Qed.

Lemma testbit_output_mask x k :
  0 <= k < 16 -> Z.testbit (output_mask x) k = is_output x k.
Proof.
  intros Hk. unfold output_mask. rewrite testbit_output_mask_gen by lia.
  destruct (Z.leb_spec (Z.of_nat 0) k), (Z.ltb_spec k (Z.of_nat (0 + 16))); try done; lia.
Qed.

Definition after_idr_read (h : hw) : hw :=
  with_ports (fun g => mkPorts (pA g) (pB g) (pC g) (pD g) (pE g) (S (idr_reads g))) h.

(** The level of the pin as the outside drives it at the next read. *)
Definition pin_ext `{Env} (p : gpio_pin) (h : hw) : bool :=
  Z.testbit (pin_level (group p) (idr_reads (ports h))) (pin p).

Definition pin_read `{Env} (p : gpio_pin) (h : hw) : bool :=
  if pin_mode p h =? TM_GPIO_Mode_OUT then pin_level_out p h else pin_ext p h.

Lemma gpio_get_ok `{Env} p h :
  wf_pin p -> gpio_get p h = Ok (b2z (pin_read p h), after_idr_read h).
Proof.
  intros Hp. unfold wf_pin in Hp. unfold gpio_get, TM_GPIO_GetInputPinValue.
  erewrite bind_ok by reflexivity. unfold mret, M_ret. f_equal. f_equal.
  rewrite land_one_hot by lia.
  rewrite Z.lor_spec, Z.land_spec, Z.ldiff_spec, testbit_output_mask, wrap_testbit by lia.
  unfold pin_read, pin_mode, pin_level_out, pin_ext, is_output, field2, TM_GPIO_Mode_OUT.
  destruct (Z.ltb_spec (pin p) 16); [|lia]. change (0x01) with 1.
  destruct (_ =? 1); cbn [negb];
    rewrite ?andb_false_r, ?andb_true_r, ?orb_false_r, ?orb_false_l; cbn [andb];
    now destruct (Z.testbit _ _).
Qed.

(** ** Switching and initialising pins *)

Lemma modify_port_ok p f h :
  modify_port p f h = Ok (tt, with_ports (fun g => set_port p (f (get_port p g)) g) h).
Proof. done. Qed.

(** What a pin's configuration is, and that two states agree on it. *)
Definition same_config (q : gpio_pin) (h h' : hw) : Prop :=
  pin_mode q h' = pin_mode q h /\ pin_pull q h' = pin_pull q h /\ pin_speed q h' = pin_speed q h.

(** The parts of the machine pin set-up does not touch. *)
Definition same_outside (h h' : hw) : Prop :=
  spi1 h' = spi1 h /\ tim2 h' = tim2 h /\ clock h' = clock h /\ primask h' = primask h /\
  idr_reads (ports h') = idr_reads (ports h) /\
  spi_bytes (trace h') = spi_bytes (trace h) /\
  forall q, ODR (get_port q (ports h')) = ODR (get_port q (ports h)).

Lemma same_outside_refl h : same_outside h h.
Proof. now repeat split. Qed.

Lemma same_outside_trans h1 h2 h3 :
  same_outside h1 h2 -> same_outside h2 h3 -> same_outside h1 h3.
Proof. unfold same_outside. intuition congruence. Qed.

Lemma gpio_change_pin_mode_ok p m h :
  wf_pin p -> 0 <= m < 4 ->
  exists h', gpio_change_pin_mode m (group p) (pin p) h = Ok (tt, h') /\
    pin_mode p h' = m /\ same_outside h h' /\
    (forall q, wf_pin q -> p <> q -> same_config q h h').
Proof.
  intros Hp Hm. unfold wf_pin in Hp.
  assert (Hm3 : Z.land m 3 = m).
  { change 3 with (Z.ones 2). rewrite Z.land_ones by lia. now apply Z.mod_small. }
  unfold gpio_change_pin_mode, read_MODER, gets, write_MODER, emit, modify.
  erewrite bind_ok by reflexivity. cbv zeta. erewrite bind_ok by reflexivity.
  eexists. split; [reflexivity|]. cbn -[store2]. rewrite Hm3.
  unfold pin_mode, same_outside, same_config, pin_mode, pin_pull, pin_speed. cbn.
  fold (store2 (MODER (get_port (group p) (ports h))) m (pin p)).
  split; [rewrite get_set_port; cbn; now apply field2_store2|].
  split.
  - rewrite spi_bytes_app, app_nil_r, idr_reads_set_port. repeat split; try done.
    intros q. destruct (decide (group p = q)) as [<-|Hq].
    + now rewrite get_set_port.
    + now rewrite get_set_port_ne.
  - intros q Hq Hne. destruct (decide (group p = group q)) as [Hg|Hg].
    + rewrite <- Hg, get_set_port. cbn. split; [|done].
      apply field2_store2_ne; try done. intros Hpin. apply Hne. destruct p, q. cbn in *. congruence.
    + now rewrite get_set_port_ne.
Qed.

Lemma TM_GPIO_Init_ok p mode otype pupd speed h :
  wf_pin p -> 0 <= mode < 4 -> 0 <= pupd < 4 -> 0 <= speed < 4 ->
  exists h', TM_GPIO_Init (group p) (1 <<< pin p) mode otype pupd speed h = Ok (tt, h') /\
    pin_mode p h' = mode /\ pin_pull p h' = pupd /\
    (mode = TM_GPIO_Mode_OUT -> pin_speed p h' = speed) /\
    same_outside h h' /\ (forall q, wf_pin q -> p <> q -> same_config q h h').
Proof.
  intros Hp Hmode Hpupd Hspeed. unfold wf_pin in Hp. unfold TM_GPIO_Init.
  destruct (Z.eqb_spec (1 <<< pin p) 0) as [E|_].
  { rewrite Z.shiftl_1_l in E. now apply Z.pow_nonzero in E; [|lia|lia]. }
  erewrite bind_ok by reflexivity. unfold TM_GPIO_INT_Init.
  rewrite (for_each_once _ (pin p)).
  2: apply NoDup_seqZ. 2: apply elem_of_seqZ; lia.
  2: { intros y [Hy _]%elem_of_seqZ. apply select_one_hot; lia. }
  unfold TM_GPIO_INT_Init_pin, TM_GPIO_Mode_OUT, TM_GPIO_Mode_AF.
  change 0x01 with 1. change 0x02 with 2.
  destruct (_ || _) eqn:Emode.
  all: eexists; split; [reflexivity|];
    unfold pin_mode, same_outside, same_config, pin_mode, pin_pull, pin_speed; cbn -[Z.eqb];
    rewrite !get_set_port; cbn -[Z.eqb].
  all: fold (store2 (MODER (get_port (group p) (ports h))) mode (pin p)).
  all: assert (Epull : forall r v i, 0 <= i < 16 -> u32 ((r &&& Z.lnot (3 <<< (2 * i))) ||| u32 (v <<< (2 * i))) = store2 r v i).
  1,3: intros r v i Hi; unfold store2; apply Z.bits_inj'; intros k Hk;
       rewrite !wrap_testbit, !Z.lor_spec, !Z.land_spec, !Z.lnot_spec, !wrap_testbit by lia;
       now destruct (k <? 32).
  all: rewrite Epull by done.
  all: fold (store2 (OSPEEDR (get_port (group p) (ports h))) speed (pin p)) ||
       idtac.
  all: split; [now apply field2_store2|]; split; [now apply field2_store2|].
  all: split; [intros Hout; try (now apply field2_store2);
               subst mode; cbn in Emode; discriminate|].
  all: split;
    [ rewrite !idr_reads_set_port, spi_bytes_app, app_nil_r; repeat split; try done;
      intros q; destruct (decide (group p = q)) as [<-|Hq];
      [now rewrite !get_set_port | now rewrite !get_set_port_ne]
    | intros q Hq Hne; destruct (decide (group p = group q)) as [Hg|Hg];
      [ rewrite <- Hg, !get_set_port; cbn -[Z.eqb];
        assert (pin p <> pin q)
          by (intros Hpin; apply Hne; destruct p, q; cbn in *; congruence);
        unfold wf_pin in Hq; rewrite ?Epull by done;
        fold (store2 (OSPEEDR (get_port (group p) (ports h))) speed (pin p));
        rewrite ?field2_store2_ne by done; done
      | now rewrite !get_set_port_ne ] ].
Qed.

(** The configuration an entry of the initialisation list asks for. *)
Inductive pin_cfg := CfgOut | CfgOutPullDown | CfgOutPullUp | CfgIn.

Definition init_pin (e : gpio_pin * pin_cfg) : M hw unit :=
  match e.2 with
  | CfgOut => gpio_init_output e.1
  | CfgOutPullDown => gpio_init_output_pulldown e.1
  | CfgOutPullUp => gpio_init_output_pullup e.1
  | CfgIn => gpio_init_input e.1
  end.

Definition cfg_mode (c : pin_cfg) : Z :=
  match c with CfgIn => TM_GPIO_Mode_IN | _ => TM_GPIO_Mode_OUT end.

(** The pull setting named at the call: the constant that follows the speed. *)
Definition cfg_pull (c : pin_cfg) : Z :=
  match c with
  | CfgOut | CfgIn => TM_GPIO_PuPd_NOPULL
  | CfgOutPullDown => TM_GPIO_PuPd_DOWN
  | CfgOutPullUp => TM_GPIO_PuPd_UP
  end.

Definition pin_table : list (gpio_pin * pin_cfg) :=
  [ (IO_UPDATE, CfgOut); (IO_RESET, CfgOutPullDown);
    (PROFILE_0, CfgOut); (PROFILE_1, CfgOut); (PROFILE_2, CfgOut);
    (LED_RED, CfgOut); (LED_ORANGE, CfgOut); (LED_FRONT, CfgOut); (LED_BLUE, CfgOut);
    (RED_BUTTON, CfgIn); (RF_SWITCH, CfgOut); (TRIGGER_SELECT, CfgOut);
    (DDS_RESET, CfgOutPullDown); (EXTERNAL_TRIGGER, CfgIn);
    (ETHERNET_RESET, CfgOutPullUp); (PLL_LOCK, CfgIn);
    (DRCTL, CfgOut); (DRHOLD, CfgOut); (DROVER, CfgIn);
    (TX_ENABLE, CfgOut); (PARALLEL_F0, CfgOut); (PARALLEL_F1, CfgOut) ]
  ++ map (fun i => (PARALLEL_D i, CfgOut)) (seqZ 0 16).

Lemma gpio_init_calls_table : gpio_init_calls = map init_pin pin_table.
Proof. reflexivity. Qed.

Lemma pin_table_NoDup : NoDup (map fst pin_table).
Proof. apply (bool_decide_unpack _). vm_compute. exact I. Qed.

Lemma pin_table_wf : Forall (fun e => wf_pin e.1) pin_table.
Proof. unfold wf_pin. repeat constructor; cbn; lia. Qed.

(** What one call leaves: the mode asked for, and the constants of the speed
    and pull arguments in each other's register field, because the calls
    list them in the opposite order of [TM_GPIO_Init]'s parameters. *)
Definition configured (e : gpio_pin * pin_cfg) (h : hw) : Prop :=
  pin_mode e.1 h = cfg_mode e.2 /\
  pin_pull e.1 h = TM_GPIO_Speed_High /\
  (cfg_mode e.2 = TM_GPIO_Mode_OUT -> pin_speed e.1 h = cfg_pull e.2).

Lemma init_pin_ok e h :
  wf_pin e.1 ->
  exists h', init_pin e h = Ok (tt, h') /\ configured e h' /\
    same_outside h h' /\ (forall q, wf_pin q -> e.1 <> q -> same_config q h h').
Proof.
  intros Hp. unfold configured. destruct e as [p c]; cbn [fst snd] in *.
  destruct c; cbn [init_pin fst snd cfg_mode cfg_pull].
  1: destruct (TM_GPIO_Init_ok p TM_GPIO_Mode_OUT TM_GPIO_OType_PP TM_GPIO_Speed_High
                 TM_GPIO_PuPd_NOPULL h) as (h' & ? & ? & ? & ? & ? & ?).
  6: destruct (TM_GPIO_Init_ok p TM_GPIO_Mode_OUT TM_GPIO_OType_PP TM_GPIO_Speed_High
                 TM_GPIO_PuPd_DOWN h) as (h' & ? & ? & ? & ? & ? & ?).
  11: destruct (TM_GPIO_Init_ok p TM_GPIO_Mode_OUT TM_GPIO_OType_PP TM_GPIO_Speed_High
                 TM_GPIO_PuPd_UP h) as (h' & ? & ? & ? & ? & ? & ?).
  16: destruct (TM_GPIO_Init_ok p TM_GPIO_Mode_IN TM_GPIO_OType_PP TM_GPIO_Speed_High
                 TM_GPIO_PuPd_NOPULL h) as (h' & ? & ? & ? & ? & ? & ?).
  all: try (exists h'; split_and!; done).
  all: try done; unfold TM_GPIO_Mode_OUT, TM_GPIO_Mode_IN, TM_GPIO_Speed_High,
                   TM_GPIO_PuPd_NOPULL, TM_GPIO_PuPd_DOWN, TM_GPIO_PuPd_UP; lia.
Qed.

Lemma configured_same e h h' : configured e h -> same_config e.1 h h' -> configured e h'.
Proof. unfold configured, same_config. intuition congruence. Qed.

Lemma init_pins_ok l h :
  NoDup (map fst l) -> Forall (fun e => wf_pin e.1) l ->
  exists h', for_each (map init_pin l) (fun call => call) h = Ok (tt, h') /\
    Forall (fun e => configured e h') l /\ same_outside h h' /\
    (forall q, wf_pin q -> q ∉ map fst l -> same_config q h h').
Proof.
  revert h. induction l as [|e l IH]; intros h Hnd Hwf.
  { exists h. split_and!; [done|constructor|apply same_outside_refl|done]. }
  cbn [map] in Hnd. apply NoDup_cons in Hnd as [Hnotin Hnd].
  apply Forall_cons in Hwf as [Hp Hwf].
  destruct (init_pin_ok e h Hp) as (h1 & H1 & Hc1 & Ho1 & Hs1).
  destruct (IH h1 Hnd Hwf) as (h2 & H2 & Hc2 & Ho2 & Hs2).
  exists h2. split_and!.
  - cbn [map for_each]. now rewrite (bind_ok _ _ _ _ _ H1).
  - constructor; [|done]. eapply configured_same; [exact Hc1|]. now apply Hs2.
  - now apply same_outside_trans with h1.
  - intros q Hq Hqin. cbn [map] in Hqin.
    destruct (Hs1 q Hq) as (? & ? & ?); [set_solver|].
    destruct (Hs2 q Hq) as (? & ? & ?); [set_solver|].
    unfold same_config. intuition congruence.
Qed.

Lemma gpio_init_ok h :
  exists h', gpio_init h = Ok (tt, h') /\ Forall (fun e => configured e h') pin_table /\
    same_outside h h'.
Proof.
  unfold gpio_init. rewrite gpio_init_calls_table.
  destruct (init_pins_ok pin_table h pin_table_NoDup pin_table_wf) as (h' & H1 & H2 & H3 & _).
  exists h'. exact (conj H1 (conj H2 H3)).
Qed.

(** ** Properties *)

(** Setting an output pin drives exactly that pin: its output level
    becomes the truth value of the argument, the output level of every other
    pin of every port and the mode of all pins stay as they were. *)
Theorem gpio_set_drives_one_pin p v h :
  wf_pin p ->
  exists h', gpio_set p v h = Ok (tt, h') /\
    pin_level_out p h' = truthy v /\
    (forall q, wf_pin q -> q <> p -> pin_level_out q h' = pin_level_out q h) /\
    (forall q, pin_mode q h' = pin_mode q h).
Proof.
  intros Hp. exists (after_set p (truthy v) h). split_and!.
  - apply gpio_set_ok.
  - rewrite after_set_level by done. now rewrite decide_True.
  - intros q Hq Hne. rewrite after_set_level by done. now rewrite decide_False.
  - intros q. apply after_set_mode.
Qed.

Lemma gpio_set_drives_one_pin_witness :
  exists h', gpio_set LED_RED 4 hw_reset = Ok (tt, h') /\ pin_level_out LED_RED h' = true.
Proof.
  destruct (gpio_set_drives_one_pin LED_RED 4 hw_reset) as (h' & H1 & H2 & _);
    [unfold wf_pin; cbn; lia|].
  exists h'. split; [exact H1|exact H2].
Defined.

(** Reading a pin gives, as 0 or 1, the level the program last drove if
    the pin is configured as an output and the level driven from outside if
    it is not, and changes no output. *)
Theorem gpio_get_reads_pin `{Env} p v h :
  wf_pin p ->
  exists h', (gpio_set p v;; gpio_get p) h =
      Ok (if pin_mode p h =? TM_GPIO_Mode_OUT then b2z (truthy v) else b2z (pin_ext p h), h') /\
    forall q, wf_pin q -> q <> p -> pin_level_out q h' = pin_level_out q h.
Proof.
  intros Hp. rewrite (bind_ok _ _ _ _ _ (gpio_set_ok p v h)), gpio_get_ok by done.
  eexists. split.
  - unfold pin_read, pin_ext. rewrite after_set_mode, after_set_level by done.
    rewrite decide_True by done. unfold after_set. cbn [ports with_ports emit_event].
    rewrite idr_reads_set_port. now destruct (_ =? _).
  - intros q Hq Hne. change (pin_level_out q (after_set p (truthy v) h) = pin_level_out q h).
    rewrite after_set_level by done. now rewrite decide_False.
Qed.

Lemma gpio_get_reads_pin_witness :
  exists h', (gpio_set PLL_LOCK 1;; @gpio_get plain_env PLL_LOCK) hw_reset = Ok (0, h').
Proof.
  destruct (@gpio_get_reads_pin plain_env PLL_LOCK 1 hw_reset) as (h' & H1 & _);
    [unfold wf_pin; cbn; lia|].
  exists h'. exact H1.
Defined.

(** After [gpio_init] every pin of the board has the direction the
    program asked for, and no pin has changed its output level; but, because
    the calls of [TM_GPIO_Init] pass the speed before the pull setting, each
    pin's pull field holds the reserved value 3 and each output's speed field
    the pull setting that was meant. *)
Theorem gpio_init_configures_pins h :
  exists h', gpio_init h = Ok (tt, h') /\
    Forall (fun e : gpio_pin * pin_cfg =>
      pin_mode e.1 h' = cfg_mode e.2 /\ pin_pull e.1 h' = 3 /\
      (cfg_mode e.2 = TM_GPIO_Mode_OUT -> pin_speed e.1 h' = cfg_pull e.2)) pin_table /\
    forall q, ODR (get_port q (ports h')) = ODR (get_port q (ports h)).
Proof.
  destruct (gpio_init_ok h) as (h' & H1 & H2 & H3). exists h'.
  split; [exact H1|]. split; [|apply H3].
  eapply Forall_impl; [exact H2|]. intros e He. exact He.
Qed.
