(* ===== verification/Spi.v ===== *)
(** * Spi: the serial link to the DDS

    Models include/spi.h and src/spi.c (and the two STM32 library functions
    the set-up calls): waiting for the unit, exchanging one byte, writing a
    buffer, and configuring the unit.  Shows that waiting always ends and
    that a buffer appears on the wire byte by byte in order, with no byte
    written while another is in flight. *)

From Stdlib Require Import ZArith Lia.
From stdpp Require Import base numbers list sets.
From S2P Require Import Prelude Hw Gpio.
#[local] Open Scope c_scope.

Section Spi.
Context `{E : Env}.

(** The two reads of the status register are separate: the second happens
  only if the first showed one of the two flags. *)
Definition spi_is_busy : M hw bool :=
  sr ← read_SPI1_SR;
  if (sr &&& (SPI_SR_TXE ||| SPI_SR_RXNE)) =? 0 then mret true
  else sr ← read_SPI1_SR; mret (truthy (sr &&& SPI_SR_BSY)).

(** [while (spi_is_busy ()) ;]  A transfer that occupies the unit for [n]
  status reads keeps the loop for at most [n] rounds. *)
Definition spi_wait : M hw unit := fun h =>
  while (S (spi_pending (spi1 h))) spi_is_busy (mret tt) h.

Definition spi_send_single (data : Z) : M hw Z :=
  spi_wait;;
  write_SPI1_DR data;;
  spi_wait;;
  read_SPI1_DR.

Definition spi_write_multi (data : list Z) (length : Z) : M hw unit :=
  spi_wait;;
  for_each (seqZ 0 length) (fun i =>
    b ← deref OutOfBounds (data !! Z.to_nat i);
    write_SPI1_DR b;;
    spi_wait;;
    read_SPI1_DR;;
    mret tt).

(** ** Configuration *)

Definition SPI_BaudRatePrescaler_2 := 0x0000.
Definition SPI_BaudRatePrescaler_256 := 0x0038.
Definition SPI_Direction_2Lines_FullDuplex := 0x0000.
Definition SPI_Mode_Slave := 0x0000.
Definition SPI_Mode_Master := 0x0104.
Definition SPI_DataSize_8b := 0x0000.
Definition SPI_CPOL_Low := 0x0000.
Definition SPI_CPHA_1Edge := 0x0000.
Definition SPI_NSS_Hard := 0x0000.
Definition SPI_NSS_Soft := 0x0200.
Definition SPI_FirstBit_MSB := 0x0000.
Definition SPI_CR1_SPE := 0x0040.
Definition CR1_CLEAR_MASK := 0x3040.
Definition RCC_APB2ENR_SPI1EN := 0x00001000.
Definition GPIO_AF_SPI1 := 0x05.

Record SPI_InitTypeDef := mkSPI_Init {
  SPI_Direction : Z; SPI_Mode : Z; SPI_DataSize : Z; SPI_CPOL : Z; SPI_CPHA : Z;
  SPI_NSS : Z; SPI_BaudRatePrescaler : Z; SPI_FirstBit : Z; SPI_CRCPolynomial : Z }.

Definition SPI_StructInit : SPI_InitTypeDef :=
  mkSPI_Init SPI_Direction_2Lines_FullDuplex SPI_Mode_Slave SPI_DataSize_8b SPI_CPOL_Low
    SPI_CPHA_1Edge SPI_NSS_Hard SPI_BaudRatePrescaler_2 SPI_FirstBit_MSB 7.

Definition SPI_Init (i : SPI_InitTypeDef) : M hw unit :=
  modify_CR1 (fun tmpreg =>
    (tmpreg &&& CR1_CLEAR_MASK) |||
    u16 (SPI_Direction i ||| SPI_Mode i ||| SPI_DataSize i ||| SPI_CPOL i ||| SPI_CPHA i |||
         SPI_NSS i ||| SPI_BaudRatePrescaler i ||| SPI_FirstBit i)).

Definition spi_init (prescaler : Z) : M hw unit :=
  let init := SPI_StructInit in
  set_APB2ENR RCC_APB2ENR_SPI1EN;;
  TM_GPIO_InitAlternate GPIOB (0x0008 ||| 0x0010 ||| 0x0020)
    TM_GPIO_OType_PP TM_GPIO_PuPd_NOPULL TM_GPIO_Speed_High GPIO_AF_SPI1;;
  let init := mkSPI_Init SPI_Direction_2Lines_FullDuplex SPI_Mode_Master SPI_DataSize_8b
                SPI_CPOL_Low SPI_CPHA_1Edge SPI_NSS_Soft prescaler SPI_FirstBit_MSB
                (SPI_CRCPolynomial init) in
  modify_CR1 (fun cr1 => cr1 &&& Z.lnot SPI_CR1_SPE);;
  SPI_Init init;;
  modify_CR1 (fun cr1 => cr1 ||| SPI_CR1_SPE).

Definition spi_init_slow : M hw unit := spi_init SPI_BaudRatePrescaler_256.
Definition spi_init_fast : M hw unit := spi_init SPI_BaudRatePrescaler_2.
Definition spi_deinit : M hw unit := SPI1_reset.

(** ** Effects *)

(** The unit has finished its transfer. *)
Definition spi_idle (h : hw) : hw :=
  with_spi (fun s => mkSpi (spi_cr1 s) (spi_rxne s) 0 (spi_count s) (spi_rx s)) h.

(** A status read brings the end of the transfer one step closer. *)
Definition spi_polled (h : hw) : hw :=
  with_spi (fun s => mkSpi (spi_cr1 s) (spi_rxne s) (pred (spi_pending s)) (spi_count s) (spi_rx s)) h.

Lemma spi_is_busy_pending h n :
  spi_pending (spi1 h) = S n -> spi_is_busy h = Ok (true, spi_polled h).
Proof.
  intros Hn. unfold spi_is_busy. erewrite bind_ok by reflexivity.
  cbv beta. now rewrite Hn.
Qed.

Lemma spi_is_busy_idle h :
  spi_pending (spi1 h) = O -> spi_is_busy h = Ok (false, spi_idle h).
Proof.
  intros Hn. destruct h as [rcc0 ports0 [cr1 rxne pend cnt rx] tim0 clk0 pm tr].
  cbn in Hn. subst pend. now destruct rxne.
Qed.

Lemma spi_wait_ok h : spi_wait h = Ok (tt, spi_idle h).
Proof.
  unfold spi_wait. remember (spi_pending (spi1 h)) as n eqn:En. symmetry in En.
  revert h En. induction n as [|n IH]; intros h En; cbn [while].
  - now rewrite (bind_ok _ _ _ _ _ (spi_is_busy_idle h En)).
  - rewrite (bind_ok _ _ _ _ _ (spi_is_busy_pending h n En)).
    erewrite bind_ok by reflexivity.
    refine (eq_trans (IH (spi_polled h) _) _); [cbn; now rewrite En|reflexivity].
Qed.

(** One byte has been exchanged and read. *)
Definition after_byte (b : Z) (h : hw) : hw :=
  emit_event (EvSpi (u8 b))
    (with_spi (fun s => mkSpi (spi_cr1 s) false 0 (S (spi_count s)) (u8 (miso (spi_count s)))) h).

Lemma spi_send_single_ok b h :
  spi_send_single b h = Ok (u8 (miso (spi_count (spi1 h))), after_byte b h).
Proof.
  unfold spi_send_single. rewrite (bind_ok _ _ _ _ _ (spi_wait_ok h)).
  erewrite bind_ok by reflexivity. now rewrite (bind_ok _ _ _ _ _ (spi_wait_ok _)).
Qed.

Definition after_bytes (bs : list Z) (h : hw) : hw :=
  foldl (fun h b => after_byte b h) (spi_idle h) bs.

Lemma spi_idle_idle h : spi_idle (spi_idle h) = spi_idle h.
Proof. reflexivity. Qed.

Lemma spi_idle_after_byte b h : spi_idle (after_byte b h) = after_byte b h.
Proof. reflexivity. Qed.

Lemma spi_idle_after_bytes bs h : spi_idle (after_bytes bs h) = after_bytes bs h.
Proof.
  unfold after_bytes. induction bs as [|b bs IH] using rev_ind; [done|]. now rewrite foldl_app.
Qed.

Lemma after_byte_idle b h : after_byte b (spi_idle h) = after_byte b h.
Proof. reflexivity. Qed.

Lemma spi_write_multi_ok data n h :
  0 <= n <= Z.of_nat (length data) ->
  spi_write_multi data n h = Ok (tt, after_bytes (take (Z.to_nat n) data) h).
Proof.
  intros Hn. unfold spi_write_multi, after_bytes.
  rewrite (bind_ok _ _ _ _ _ (spi_wait_ok h)).
  rewrite <- (Z2Nat.id n) by lia.
  assert (Hk : (Z.to_nat n <= length data)%nat) by lia.
  assert (Hi : spi_pending (spi1 (spi_idle h)) = 0%nat) by done. clear Hn.
  generalize dependent (spi_idle h). clear h.
  rewrite Nat2Z.id. revert data Hk. induction (Z.to_nat n) as [|k IH]; intros data Hk h Hi.
  { done. }
  rewrite seqZ_S.
  rewrite for_each_app. rewrite (bind_ok _ _ _ _ _ (IH data ltac:(lia) h Hi)).
  destruct (lookup_lt_is_Some_2 data k ltac:(lia)) as [b Hb].
  rewrite (take_S_r _ _ _ Hb), foldl_app. cbn [for_each foldl].
  rewrite Nat2Z.id, Hb. cbn [deref].
  set (h1 := foldl _ h _).
  assert (Hi1 : spi_pending (spi1 h1) = 0%nat).
  { unfold h1. clear -Hi. revert h Hi.
    induction (take k data) as [|x l IH]; intros h Hi; [done|]. cbn. now apply IH. }
  unfold mbind at 1, M_bind at 1. unfold mbind at 1, M_bind at 1. cbn [mret M_ret].
  unfold mret at 1, M_ret at 1.
  unfold mbind at 1, M_bind at 1, write_SPI1_DR. rewrite Hi1.
  now rewrite (bind_ok _ _ _ _ _ (spi_wait_ok _)).
Qed.

(** What [after_bytes] changes and what it leaves alone. *)
Record spi_sent (bs : list Z) (h h' : hw) : Prop := {
  sent_trace : trace h' = trace h ++ map (fun b => EvSpi (u8 b)) bs;
  sent_pending : spi_pending (spi1 h') = 0%nat;
  sent_count : spi_count (spi1 h') = (spi_count (spi1 h) + length bs)%nat;
  sent_cr1 : spi_cr1 (spi1 h') = spi_cr1 (spi1 h);
  sent_ports : ports h' = ports h;
  sent_rcc : rcc h' = rcc h;
  sent_tim : tim2 h' = tim2 h;
  sent_clock : clock h' = clock h;
  sent_primask : primask h' = primask h;
  }.

Lemma spi_sent_nil h : spi_sent [] h (spi_idle h).
Proof. split; try done; cbn; now rewrite ?app_nil_r, ?Nat.add_0_r. Qed.

Lemma spi_sent_byte b h : spi_sent [b] h (after_byte b h).
Proof. split; try done; cbn. lia. Qed.

Lemma spi_sent_trans bs1 bs2 h1 h2 h3 :
  spi_sent bs1 h1 h2 -> spi_sent bs2 h2 h3 -> spi_sent (bs1 ++ bs2) h1 h3.
Proof.
  intros [] []. split; try congruence.
  - rewrite map_app, app_assoc. congruence.
  - rewrite length_app. lia.
Qed.

Lemma after_bytes_sent bs h : spi_sent bs h (after_bytes bs h).
Proof.
  unfold after_bytes. induction bs as [|b bs IH] using rev_ind; [apply spi_sent_nil|].
  rewrite foldl_app. eapply spi_sent_trans; [exact IH|]. apply spi_sent_byte.
Qed.

Lemma spi_bytes_map bs : spi_bytes (map (fun b => EvSpi (u8 b)) bs) = map u8 bs.
Proof. unfold spi_bytes. induction bs as [|b bs IH]; [done|]. cbn. now rewrite IH. Qed.

Lemma map_u8_bytes bs : Forall is_byte bs -> map u8 bs = bs.
Proof.
  induction 1 as [|b bs Hb _ IH]; [done|]. cbn [map]. rewrite IH. f_equal.
  apply wrap_small. exact Hb.
Qed.

(** ** Properties *)

(** Writing a buffer of [n] bytes always ends, whatever time the unit
  takes for each byte, never writes the data register during a transfer,
  puts exactly the first [n] bytes of the buffer on the wire in order and
  nothing else in the trace, and leaves the unit idle. *)
Theorem spi_write_multi_on_the_wire data n h :
  0 <= n <= Z.of_nat (length data) -> Forall is_byte data ->
  exists h', spi_write_multi data n h = Ok (tt, h') /\
    spi_bytes (trace h') = spi_bytes (trace h) ++ take (Z.to_nat n) data /\
    length (trace h') = (length (trace h) + Z.to_nat n)%nat /\
    spi_pending (spi1 h') = O /\ ports h' = ports h.
Proof.
  intros Hn Hd. exists (after_bytes (take (Z.to_nat n) data) h).
  pose proof (after_bytes_sent (take (Z.to_nat n) data) h) as [Ht Hp _ _ Hg _ _ _ _].
  split_and!; [now apply spi_write_multi_ok| | |done|done].
  - rewrite Ht, spi_bytes_app, spi_bytes_map, map_u8_bytes; [done|]. now apply Forall_take.
  - rewrite Ht, length_app, length_map, length_take. lia.
Qed.
End Spi.

Lemma spi_write_multi_on_the_wire_witness :
  exists h', @spi_write_multi plain_env [1; 2; 3] 2 hw_reset = Ok (tt, h') /\
    spi_bytes (trace h') = [1; 2].
Proof.
  destruct (@spi_write_multi_on_the_wire plain_env [1; 2; 3] 2 hw_reset) as (h' & H1 & H2 & _);
    [cbn; lia|repeat constructor; unfold is_byte; lia|].
  exists h'. split; [exact H1|exact H2].
Defined.
