(* ===== verification/LwipMem.v ===== *)
(** * LwipMem: the heap of lwIP

    lib/lwip/src/core/mem.c as it is configured: one array of bytes, in which
    every block begins with a structure that holds the offsets of the next
    and the previous block and whether the block is used.  [mem_malloc] takes
    the first block that fits and splits it, [mem_free] joins a block with
    free neighbours, [mem_trim] gives the end of a block back.  The array is
    modelled byte by byte, the structures in it included; a pointer is the
    offset from [ram].  [LWIP_ASSERT] is empty in this configuration, and
    without an operating system so are the locks. *)

From Stdlib Require Import ZArith Lia.
From stdpp Require Import base numbers list sets.
From S2P Require Import Prelude.
#[local] Open Scope c_scope.

(** ** Constants *)

Definition MEM_ALIGNMENT : Z := 4.
Definition MEM_SIZE : Z := 10 * 1024.
Definition MIN_SIZE : Z := 12.
Definition LWIP_MEM_ALIGN_SIZE (size : Z) : Z := (size + MEM_ALIGNMENT - 1) &&& Z.lnot (MEM_ALIGNMENT - 1).

(** Two 16-bit offsets and a flag take six bytes with the padding. *)
Definition sizeof_mem : Z := 6.
Definition MIN_SIZE_ALIGNED : Z := Eval vm_compute in LWIP_MEM_ALIGN_SIZE MIN_SIZE.
Definition SIZEOF_STRUCT_MEM : Z := Eval vm_compute in LWIP_MEM_ALIGN_SIZE sizeof_mem.
Definition MEM_SIZE_ALIGNED : Z := Eval vm_compute in LWIP_MEM_ALIGN_SIZE MEM_SIZE.

(** ** State *)

(** [ram] is the array from the aligned pointer on; [lfree] is an offset, as
    every pointer into the heap.  [ram_end] never changes after [mem_init]. *)
Record heap := mkHeap { ram : list Z; lfree : Z }.

Definition ram_end : Z := MEM_SIZE_ALIGNED.
Definition RAM_HEAP_SIZE : Z := MEM_SIZE_ALIGNED + 2 * SIZEOF_STRUCT_MEM + MEM_ALIGNMENT.

Definition set_lfree (p : Z) : M heap unit := modify (fun h => mkHeap (ram h) p).

Definition ram_load (p : Z) (n : nat) : M heap Z :=
  m ← gets ram;
  deref OutOfBounds (if 0 <=? p then of_le <$> read_bytes (Z.to_nat p) n m else None).

Definition ram_store (p : Z) (bs : list Z) : M heap unit :=
  h ← get;
  m ← deref OutOfBounds (if 0 <=? p then write_bytes (Z.to_nat p) bs (ram h) else None);
  modify (fun h => mkHeap m (lfree h)).

(** [struct mem] at offset [p]. *)
Definition mem_next (p : Z) : M heap Z := ram_load p 2.
Definition mem_prev (p : Z) : M heap Z := ram_load (p + 2) 2.
Definition mem_used (p : Z) : M heap Z := ram_load (p + 4) 1.
Definition set_next (p v : Z) : M heap unit := ram_store p (le_bytes 2 v).
Definition set_prev (p v : Z) : M heap unit := ram_store (p + 2) (le_bytes 2 v).
Definition set_used (p v : Z) : M heap unit := ram_store (p + 4) (le_bytes 1 v).

(** ** Operations *)

Definition mem_init : M heap unit :=
  let mem := 0 in
  set_next mem MEM_SIZE_ALIGNED;;
  set_prev mem 0;;
  set_used mem 0;;
  set_used ram_end 1;;
  set_next ram_end MEM_SIZE_ALIGNED;;
  set_prev ram_end MEM_SIZE_ALIGNED;;
  set_lfree 0.

(** [plug_holes], forward. *)
Definition plug_forward (mem : Z) : M heap unit :=
  nmem ← mem_next mem;
  hole ← (if mem =? nmem then mret false
          else used ← mem_used nmem; mret ((used =? 0) && negb (nmem =? ram_end)));
  when hole
    (lf ← gets lfree;
     when (lf =? nmem) (set_lfree mem);;
     next ← mem_next nmem;
     set_next mem next;;
     next ← mem_next nmem;
     set_prev next mem).

(** [plug_holes], backward. *)
Definition plug_backward (mem : Z) : M heap unit :=
  pmem ← mem_prev mem;
  hole ← (if pmem =? mem then mret false else used ← mem_used pmem; mret (used =? 0));
  when hole
    (lf ← gets lfree;
     when (lf =? mem) (set_lfree pmem);;
     next ← mem_next mem;
     set_next pmem next;;
     next ← mem_next mem;
     set_prev next pmem).

Definition plug_holes (mem : Z) : M heap unit := plug_forward mem;; plug_backward mem.

Definition mem_free (rmem : option Z) : M heap unit :=
  match rmem with
  | None => mret tt
  | Some rmem =>
      if (rmem <? 0) || (ram_end <=? rmem) then mret tt
      else
        let mem := rmem - SIZEOF_STRUCT_MEM in
        set_used mem 0;;
        lf ← gets lfree;
        when (mem <? lf) (set_lfree mem);;
        plug_holes mem
  end.

Definition at_least_min (size : Z) : Z := if size <? MIN_SIZE_ALIGNED then MIN_SIZE_ALIGNED else size.

(** [mem_size_t] has 16 bits; [sizeof] makes the comparisons unsigned. *)
Definition mem_trim (rmem newsize : Z) : M heap (option Z) :=
  let newsize := at_least_min (u16 (LWIP_MEM_ALIGN_SIZE newsize)) in
  if MEM_SIZE_ALIGNED <? newsize then mret None
  else if (rmem <? 0) || (ram_end <=? rmem) then mret (Some rmem)
  else
    let mem := rmem - SIZEOF_STRUCT_MEM in
    let ptr := u16 mem in
    next ← mem_next mem;
    let size := u16 (next - ptr - SIZEOF_STRUCT_MEM) in
    if size <? newsize then mret None
    else if newsize =? size then mret (Some rmem)
    else
      let mem2 := next in
      used2 ← mem_used mem2;
      let ptr2 := u16 (ptr + SIZEOF_STRUCT_MEM + newsize) in
      (if used2 =? 0 then
         next ← mem_next mem2;
         lf ← gets lfree;
         when (lf =? mem2) (set_lfree ptr2);;
         set_used ptr2 0;;
         set_next ptr2 next;;
         set_prev ptr2 ptr;;
         set_next mem ptr2;;
         next2 ← mem_next ptr2;
         when (negb (next2 =? MEM_SIZE_ALIGNED)) (set_prev next2 ptr2)
       else if u32 (newsize + SIZEOF_STRUCT_MEM + MIN_SIZE_ALIGNED) <=? size then
         lf ← gets lfree;
         when (ptr2 <? lf) (set_lfree ptr2);;
         set_used ptr2 0;;
         next ← mem_next mem;
         set_next ptr2 next;;
         set_prev ptr2 ptr;;
         set_next mem ptr2;;
         next2 ← mem_next ptr2;
         when (negb (next2 =? MEM_SIZE_ALIGNED)) (set_prev next2 ptr2)
       else mret tt);;
      mret (Some rmem).

(** Every turn of the two loops goes up in the array by a byte at least. *)
Definition walk_fuel : nat := S (Z.to_nat MEM_SIZE_ALIGNED).

(** The loop that looks for the next free block, [lfree = cur] after it. *)
Fixpoint next_unused (fuel : nat) (cur : Z) : M heap Z :=
  match fuel with
  | O => hang
  | S fuel =>
      used ← mem_used cur;
      if truthy used && negb (cur =? ram_end) then cur ← mem_next cur; next_unused fuel cur else mret cur
  end.

(** The block at [ptr] becomes used, its end a block of its own if it is
    large enough. *)
Definition mark_used (ptr size : Z) : M heap unit :=
  let mem := ptr in
  next ← mem_next mem;
  if u32 (size + SIZEOF_STRUCT_MEM + MIN_SIZE_ALIGNED) <=? u32 (next - (ptr + SIZEOF_STRUCT_MEM)) then
    let ptr2 := u16 (ptr + SIZEOF_STRUCT_MEM + size) in
    let mem2 := ptr2 in
    set_used mem2 0;;
    next ← mem_next mem;
    set_next mem2 next;;
    set_prev mem2 ptr;;
    set_next mem ptr2;;
    set_used mem 1;;
    next2 ← mem_next mem2;
    when (negb (next2 =? MEM_SIZE_ALIGNED)) (set_prev next2 ptr2)
  else set_used mem 1.

Definition take_block (ptr size : Z) : M heap (option Z) :=
  let mem := ptr in
  mark_used ptr size;;
  lf ← gets lfree;
  when (mem =? lf) (cur ← next_unused walk_fuel lf; set_lfree cur);;
  mret (Some (mem + SIZEOF_STRUCT_MEM)).

(** The loop over the blocks from [ptr]. *)
Fixpoint first_block (fuel : nat) (ptr size : Z) : M heap (option Z) :=
  match fuel with
  | O => hang
  | S fuel =>
      if ptr <? MEM_SIZE_ALIGNED - size then
        used ← mem_used ptr;
        fits ← (if used =? 0 then next ← mem_next ptr; mret (size <=? u32 (next - (ptr + SIZEOF_STRUCT_MEM))) else mret false);
        if (fits : bool) then take_block ptr size
        else next ← mem_next ptr; first_block fuel next size
      else mret None
  end.

Definition mem_malloc (size : Z) : M heap (option Z) :=
  if size =? 0 then mret None
  else
    let size := at_least_min (u16 (LWIP_MEM_ALIGN_SIZE size)) in
    if MEM_SIZE_ALIGNED <? size then mret None
    else lf ← gets lfree; first_block walk_fuel (u16 lf) size.

(** [count * size] is passed as a [mem_size_t] to [mem_malloc], and whole to
    [memset]; a product that an [int] cannot hold is undefined. *)
Definition mem_calloc (count size : Z) : M heap (option Z) :=
  if 2 ^ 31 <=? count * size then fail IntOverflow
  else
    p ← mem_malloc (u16 (count * size));
    match p with
    | Some p => ram_store p (repeat 0 (Z.to_nat (count * size)));; mret (Some p)
    | None => mret None
    end.

(** ** The bytes of the array *)

Definition bytes_at (p : Z) (n : nat) (m : list Z) : list Z := take n (drop (Z.to_nat p) m).
Definition put (p : Z) (bs m : list Z) : list Z :=
  take (Z.to_nat p) m ++ bs ++ drop (Z.to_nat p + length bs) m.
Definition field (p : Z) (n : nat) (m : list Z) : Z := of_le (bytes_at p n m).
Abbreviation size_of m := (Z.of_nat (length m)).

Lemma length_put p bs m : 0 <= p -> p + size_of bs <= size_of m -> length (put p bs m) = length m.
Proof. intros H1 H2. unfold put. rewrite !length_app, length_take, length_drop. lia. Qed.

Lemma bytes_put_same p bs m : 0 <= p -> p + size_of bs <= size_of m -> bytes_at p (length bs) (put p bs m) = bs.
Proof.
  intros H1 H2. unfold bytes_at, put.
  rewrite drop_app_length' by (rewrite length_take; lia). apply take_app_length.
Qed.

Lemma bytes_put_other p bs q n m :
  0 <= p -> p + size_of bs <= size_of m -> 0 <= q -> q + Z.of_nat n <= p \/ p + size_of bs <= q ->
  bytes_at q n (put p bs m) = bytes_at q n m.
Proof.
  intros H1 H2 Hq Hd. unfold bytes_at. apply list_eq. intros i.
  destruct (decide (i < n)%nat) as [Hi|Hi]; [|now rewrite !lookup_take_ge by lia].
  rewrite !lookup_take_lt, !lookup_drop by lia. unfold put. destruct Hd as [Hd|Hd].
  - rewrite lookup_app_l by (rewrite length_take; lia). now rewrite lookup_take_lt by lia.
  - rewrite lookup_app_r by (rewrite length_take; lia). rewrite lookup_app_r by (rewrite length_take; lia).
    rewrite lookup_drop, length_take. f_equal. lia.
Qed.

Lemma bytes_at_length p n m : 0 <= p -> p + Z.of_nat n <= size_of m -> length (bytes_at p n m) = n.
Proof. intros H1 H2. unfold bytes_at. rewrite length_take, length_drop. lia. Qed.

Lemma field_put_same p n v m : 0 <= p -> p + Z.of_nat n <= size_of m ->
  field p n (put p (le_bytes n v) m) = wrap (8 * Z.of_nat n) v.
Proof.
  intros H1 H2. unfold field. rewrite <- (length_le_bytes n v) at 1.
  rewrite bytes_put_same by (rewrite ?length_le_bytes; lia). apply of_le_le_bytes.
Qed.

Lemma field_put_other p k v q n m : 0 <= p -> p + Z.of_nat k <= size_of m -> 0 <= q ->
  q + Z.of_nat n <= p \/ p + Z.of_nat k <= q -> field q n (put p (le_bytes k v) m) = field q n m.
Proof. intros H1 H2 Hq Hd. unfold field. f_equal. apply bytes_put_other; rewrite ?length_le_bytes; lia. Qed.

Lemma run_load p n h : 0 <= p -> p + Z.of_nat n <= size_of (ram h) -> ram_load p n h = Ok (field p n (ram h), h).
Proof.
  intros H1 H2. unfold ram_load. mred. rewrite (proj2 (Z.leb_le 0 p) H1). unfold read_bytes.
  now rewrite decide_True by lia.
Qed.

Lemma run_store p bs h : 0 <= p -> p + size_of bs <= size_of (ram h) ->
  ram_store p bs h = Ok (tt, mkHeap (put p bs (ram h)) (lfree h)).
Proof.
  intros H1 H2. unfold ram_store. mred. rewrite (proj2 (Z.leb_le 0 p) H1). unfold write_bytes.
  now rewrite decide_True by lia.
Qed.

(** ** The structures in it *)

Definition next_of (m : list Z) (p : Z) : Z := field p 2 m.
Definition prev_of (m : list Z) (p : Z) : Z := field (p + 2) 2 m.
Definition used_of (m : list Z) (p : Z) : Z := field (p + 4) 1 m.
Definition put_next (p v : Z) (m : list Z) : list Z := put p (le_bytes 2 v) m.
Definition put_prev (p v : Z) (m : list Z) : list Z := put (p + 2) (le_bytes 2 v) m.
Definition put_used (p v : Z) (m : list Z) : list Z := put (p + 4) (le_bytes 1 v) m.

(** Every structure is within the array. *)
Definition full (m : list Z) : Prop := MEM_SIZE_ALIGNED + SIZEOF_STRUCT_MEM <= size_of m.
Definition inside (p : Z) : Prop := 0 <= p <= MEM_SIZE_ALIGNED.
#[local] Ltac heap_lia := unfold full, inside, RAM_HEAP_SIZE, ram_end, MEM_SIZE_ALIGNED, SIZEOF_STRUCT_MEM, MIN_SIZE_ALIGNED in *; lia.

Section Structs.
Context (p : Z) (h : heap) (H0 : inside p) (Hm : full (ram h)).

Lemma run_next : mem_next p h = Ok (next_of (ram h) p, h).
Proof using All. apply run_load; heap_lia. Qed.
Lemma run_prev : mem_prev p h = Ok (prev_of (ram h) p, h).
Proof using All. apply run_load; heap_lia. Qed.
Lemma run_used : mem_used p h = Ok (used_of (ram h) p, h).
Proof using All. apply run_load; heap_lia. Qed.
Lemma run_set_next v : set_next p v h = Ok (tt, mkHeap (put_next p v (ram h)) (lfree h)).
Proof using All. apply run_store; rewrite ?length_le_bytes; heap_lia. Qed.
Lemma run_set_prev v : set_prev p v h = Ok (tt, mkHeap (put_prev p v (ram h)) (lfree h)).
Proof using All. apply run_store; rewrite ?length_le_bytes; heap_lia. Qed.
Lemma run_set_used v : set_used p v h = Ok (tt, mkHeap (put_used p v (ram h)) (lfree h)).
Proof using All. apply run_store; rewrite ?length_le_bytes; heap_lia. Qed.
End Structs.

(** [frame T m m']: outside the structures at [T] the arrays are the same. *)
Definition frame (T : list Z) (m m' : list Z) : Prop :=
  length m' = length m /\
  forall p n, 0 <= p -> (forall t, t ∈ T -> p + Z.of_nat n <= t \/ t + 5 <= p) -> bytes_at p n m' = bytes_at p n m.

Lemma frame_refl T m : frame T m m.
Proof. now split. Qed.
Lemma frame_trans T m m' m'' : frame T m m' -> frame T m' m'' -> frame T m m''.
Proof. intros [L1 F1] [L2 F2]. split; [congruence|]. intros p n Hp HT. now rewrite F2, F1. Qed.
Lemma frame_mono T T' m m' : T ⊆ T' -> frame T m m' -> frame T' m m'.
Proof. intros Hs [L F]. split; [exact L|]. intros p n Hp HT. apply F; [exact Hp|]. intros t Ht. apply HT. now apply Hs. Qed.
Lemma frame_full T m m' : frame T m m' -> full m -> full m'.
Proof. intros [L _] Hm. unfold full in *. now rewrite L. Qed.

Lemma frame_put T t k p v m : t ∈ T -> inside t -> t <= p -> p + Z.of_nat k <= t + 5 -> full m ->
  frame T m (put p (le_bytes k v) m).
Proof.
  intros Ht H0 H1 H2 Hm. split; [apply length_put; rewrite ?length_le_bytes; heap_lia|].
  intros q n Hq HT. specialize (HT t Ht). apply bytes_put_other; rewrite ?length_le_bytes; heap_lia.
Qed.

Section Puts.
Context (T : list Z) (p v : Z) (m : list Z) (H0 : inside p) (Hm : full m).

Lemma frame_put_next : p ∈ T -> frame T m (put_next p v m).
Proof using All. intros. apply (frame_put T p); [done|done|lia..|done]. Qed.
Lemma frame_put_prev : p ∈ T -> frame T m (put_prev p v m).
Proof using All. intros. apply (frame_put T p); [done|done|lia..|done]. Qed.
Lemma frame_put_used : p ∈ T -> frame T m (put_used p v m).
Proof using All. intros. apply (frame_put T p); [done|done|lia..|done]. Qed.
Lemma full_put_next : full (put_next p v m).
Proof using H0 Hm. apply (frame_full [p] m); [|done]. apply (frame_put _ p); [left|done|lia..|done]. Qed.
Lemma full_put_prev : full (put_prev p v m).
Proof using H0 Hm. apply (frame_full [p] m); [|done]. apply (frame_put _ p); [left|done|lia..|done]. Qed.
Lemma full_put_used : full (put_used p v m).
Proof using H0 Hm. apply (frame_full [p] m); [|done]. apply (frame_put _ p); [left|done|lia..|done]. Qed.
End Puts.

(** The structure at [o]. *)
Definition hdr (m : list Z) (o next prev used : Z) : Prop :=
  next_of m o = next /\ prev_of m o = prev /\ used_of m o = used.

(** Reading after writing. *)
Section Fields.
Context (p q v : Z) (m : list Z) (Hp : inside p) (Hq : inside q) (Hm : full m).

Lemma next_put_next : next_of (put_next p v m) p = u16 v.
Proof using Hp Hm. apply field_put_same; heap_lia. Qed.
Lemma prev_put_prev : prev_of (put_prev p v m) p = u16 v.
Proof using Hp Hm. apply field_put_same; heap_lia. Qed.
Lemma used_put_used : used_of (put_used p v m) p = u8 v.
Proof using Hp Hm. apply field_put_same; heap_lia. Qed.

Definition apart : Prop := q + 5 <= p \/ p + 5 <= q.

Lemma next_put_next_ne : apart -> next_of (put_next p v m) q = next_of m q.
Proof using All. unfold apart. intros H. apply field_put_other; heap_lia. Qed.
Lemma prev_put_prev_ne : apart -> prev_of (put_prev p v m) q = prev_of m q.
Proof using All. unfold apart. intros H. apply field_put_other; heap_lia. Qed.
Lemma used_put_used_ne : apart -> used_of (put_used p v m) q = used_of m q.
Proof using All. unfold apart. intros H. apply field_put_other; heap_lia. Qed.

Lemma next_put_prev : p = q \/ apart -> next_of (put_prev p v m) q = next_of m q.
Proof using All. unfold apart. intros H. apply field_put_other; heap_lia. Qed.
Lemma next_put_used : p = q \/ apart -> next_of (put_used p v m) q = next_of m q.
Proof using All. unfold apart. intros H. apply field_put_other; heap_lia. Qed.
Lemma prev_put_next : p = q \/ apart -> prev_of (put_next p v m) q = prev_of m q.
Proof using All. unfold apart. intros H. apply field_put_other; heap_lia. Qed.
Lemma prev_put_used : p = q \/ apart -> prev_of (put_used p v m) q = prev_of m q.
Proof using All. unfold apart. intros H. apply field_put_other; heap_lia. Qed.
Lemma used_put_next : p = q \/ apart -> used_of (put_next p v m) q = used_of m q.
Proof using All. unfold apart. intros H. apply field_put_other; heap_lia. Qed.
Lemma used_put_prev : p = q \/ apart -> used_of (put_prev p v m) q = used_of m q.
Proof using All. unfold apart. intros H. apply field_put_other; heap_lia. Qed.
End Fields.

(** [is_full] proves that an array written to is full, [fields] computes
    the fields of it. *)
#[local] Ltac is_full :=
  cbn [ram lfree];
  lazymatch goal with
  | |- full (put_next _ _ _) => apply full_put_next; [heap_lia|is_full]
  | |- full (put_prev _ _ _) => apply full_put_prev; [heap_lia|is_full]
  | |- full (put_used _ _ _) => apply full_put_used; [heap_lia|is_full]
  | |- full _ => assumption
  end.
#[local] Ltac side := first [is_full | unfold apart; heap_lia].
#[local] Ltac fields :=
  repeat first
    [ rewrite next_put_next by side | rewrite prev_put_prev by side | rewrite used_put_used by side
    | rewrite next_put_next_ne by side | rewrite prev_put_prev_ne by side | rewrite used_put_used_ne by side
    | rewrite next_put_prev by side | rewrite next_put_used by side | rewrite prev_put_next by side
    | rewrite prev_put_used by side | rewrite used_put_next by side | rewrite used_put_prev by side ].
(** [headers] proves what a structure written to holds. *)
#[local] Ltac words := first [done | rewrite wrap_small; heap_lia].
#[local] Ltac headers := unfold hdr; fields; repeat split; words.
(** [run] executes the next access. *)
#[local] Ltac run :=
  cbn [ram lfree];
  match goal with
  | |- context [mbind _ ?m ?h] =>
      lazymatch m with
      | mem_next _ => erewrite bind_ok by (apply run_next; side)
      | mem_prev _ => erewrite bind_ok by (apply run_prev; side)
      | mem_used _ => erewrite bind_ok by (apply run_used; side)
      | set_next _ _ => erewrite bind_ok by (apply run_set_next; side)
      | set_prev _ _ => erewrite bind_ok by (apply run_set_prev; side)
      | set_used _ _ => erewrite bind_ok by (apply run_set_used; side)
      end
  end;
  cbn [ram lfree]; fields.
(** [framed] proves a frame of writes. *)
#[local] Ltac framed :=
  cbn [ram lfree];
  lazymatch goal with
  | |- frame _ ?m ?m => apply frame_refl
  | |- frame _ _ (put_next _ _ _) => eapply frame_trans; [|apply frame_put_next; [heap_lia|is_full|set_solver]]; framed
  | |- frame _ _ (put_prev _ _ _) => eapply frame_trans; [|apply frame_put_prev; [heap_lia|is_full|set_solver]]; framed
  | |- frame _ _ (put_used _ _ _) => eapply frame_trans; [|apply frame_put_used; [heap_lia|is_full|set_solver]]; framed
  end.

(** ** The list of blocks *)

(** A block, by whether it is used and its size with the structure. *)
Abbreviation block := (bool * Z)%type.
Definition total (bs : list block) : Z := foldr (fun b n => b.2 + n) 0 bs.

(** The blocks from [o] on in the array, when the one before them is at [p]. *)
Fixpoint seg (m : list Z) (p o : Z) (bs : list block) : Prop :=
  match bs with
  | [] => True
  | (u, s) :: bs =>
      hdr m o (o + s) p (b2z u) /\
      (SIZEOF_STRUCT_MEM + MIN_SIZE_ALIGNED <= s /\ s mod MEM_ALIGNMENT = 0) /\ seg m o (o + s) bs
  end.

Fixpoint last_at (p o : Z) (bs : list block) : Z :=
  match bs with [] => p | (_, s) :: bs => last_at o (o + s) bs end.

Definition ends_at (m : list Z) (o : Z) : Prop :=
  o = ram_end /\ exists prev, hdr m ram_end MEM_SIZE_ALIGNED prev 1.
Definition chain (m : list Z) (p o : Z) (bs : list block) : Prop := seg m p o bs /\ ends_at m (o + total bs).

(** [no_holes free bs]: no two free blocks follow one another, [free] saying
    it of the block before. *)
Fixpoint no_holes (free : bool) (bs : list block) : Prop :=
  match bs with
  | [] => True
  | (u, _) :: bs => (free = true -> u = true) /\ no_holes (negb u) bs
  end.
Fixpoint last_free (free : bool) (bs : list block) : bool :=
  match bs with [] => free | (u, _) :: bs => last_free (negb u) bs end.

Fixpoint first_free (o : Z) (bs : list block) : Z :=
  match bs with
  | [] => o
  | (u, s) :: bs => if (u : bool) then first_free (o + s) bs else o
  end.

Record heap_ok (h : heap) (bs : list block) : Prop := {
    ok_full : full (ram h);
    ok_chain : chain (ram h) 0 0 bs;
    ok_holes : no_holes false bs;
    ok_lfree : lfree h = first_free 0 bs;
  }.

(** *** Lists of blocks *)

Lemma mem_total_app l1 l2 : total (l1 ++ l2) = total l1 + total l2.
Proof. unfold total. induction l1 as [|b l1 IH]; cbn [app foldr]; lia. Qed.
Lemma mem_total_cons u s l : total ((u, s) :: l) = s + total l.
Proof. reflexivity. Qed.

Lemma last_at_app p o l1 l2 : last_at p o (l1 ++ l2) = last_at (last_at p o l1) (o + total l1) l2.
Proof.
  revert p o. induction l1 as [|[u s] l1 IH]; intros p o; cbn [app last_at].
  - f_equal. cbn. lia.
  - rewrite IH, mem_total_cons. f_equal. lia.
Qed.

Lemma seg_app m p o l1 l2 : seg m p o (l1 ++ l2) <-> seg m p o l1 /\ seg m (last_at p o l1) (o + total l1) l2.
Proof.
  revert p o. induction l1 as [|[u s] l1 IH]; intros p o; cbn [app seg last_at].
  - cbn [total foldr]. rewrite Z.add_0_r. tauto.
  - rewrite IH, mem_total_cons, Z.add_assoc. tauto.
Qed.

Lemma mem_chain_app m p o l1 l2 : chain m p o (l1 ++ l2) <-> seg m p o l1 /\ chain m (last_at p o l1) (o + total l1) l2.
Proof. unfold chain. rewrite seg_app, mem_total_app, Z.add_assoc. tauto. Qed.

Lemma seg_total m p o l : seg m p o l -> 20 * Z.of_nat (length l) <= total l /\ total l mod 4 = 0.
Proof.
  revert p o. induction l as [|[u s] l IH]; intros p o; cbn [seg length]; [done|].
  intros (_ & [H1 H2] & H). apply IH in H as [H3 H4]. rewrite mem_total_cons.
  unfold SIZEOF_STRUCT_MEM, MIN_SIZE_ALIGNED, MEM_ALIGNMENT in *. split; [lia|].
  rewrite Z.add_mod, H2, H4 by lia. done.
Qed.

Lemma chain_cons m p o u s l : chain m p o ((u, s) :: l) <->
  hdr m o (o + s) p (b2z u) /\
  (SIZEOF_STRUCT_MEM + MIN_SIZE_ALIGNED <= s /\ s mod MEM_ALIGNMENT = 0) /\ chain m o (o + s) l.
Proof. unfold chain. rewrite mem_total_cons, Z.add_assoc. cbn [seg]. tauto. Qed.

Lemma chain_total m p o l : chain m p o l -> o + total l = MEM_SIZE_ALIGNED /\ 20 * Z.of_nat (length l) <= total l.
Proof. intros [H (He & _)]. apply seg_total in H as [H _]. easy. Qed.

(** The structure after a chain's first block exists, its own or the last. *)
Lemma chain_used m p o l : chain m p o l -> used_of m o = match l with [] => 1 | (u, _) :: _ => b2z u end.
Proof.
  destruct l as [|[u s] l]; [|rewrite chain_cons; unfold hdr; tauto]. unfold chain. cbn [total foldr seg].
  rewrite Z.add_0_r. intros [_ (-> & q & _ & _ & H)]. exact H.
Qed.

Lemma first_free_app o l1 l2 :
  first_free o (l1 ++ l2) = if forallb fst l1 then first_free (o + total l1) l2 else first_free o l1.
Proof.
  revert o. induction l1 as [|[u s] l1 IH]; intros o; cbn [app first_free forallb fst].
  - cbn. f_equal. lia.
  - rewrite IH, mem_total_cons, Z.add_assoc. now destruct u.
Qed.

Lemma first_free_range m p o l : seg m p o l -> o <= first_free o l <= o + total l /\ (forallb fst l = false -> first_free o l < o + total l).
Proof.
  revert p o. induction l as [|[u s] l IH]; intros p o; cbn [seg first_free forallb fst]; [cbn; lia|].
  intros (_ & [Hs _] & H). pose proof (seg_total _ _ _ _ H) as [Ht _]. apply IH in H as [H1 H2]. rewrite mem_total_cons.
  assert (20 <= s) by exact Hs. destruct u; cbn [andb]; [|lia]. split; [lia|]. intros E. specialize (H2 E). lia.
Qed.

Lemma no_holes_app f l1 l2 : no_holes f (l1 ++ l2) <-> no_holes f l1 /\ no_holes (last_free f l1) l2.
Proof. revert f. induction l1 as [|[u s] l1 IH]; intros f; cbn [app no_holes last_free]; [tauto|]. rewrite IH. tauto. Qed.

Lemma no_holes_used f l : no_holes true l -> no_holes f l.
Proof. destruct l as [|[u s] l]; [done|]. cbn. intros [H1 H2]. split; [|done]. intros _. now apply H1. Qed.

(** *** What writes elsewhere leave *)

Lemma frame_hdr T m m' o nx pv u : frame T m m' -> 0 <= o -> (forall t, t ∈ T -> o + 5 <= t \/ t + 5 <= o) ->
  hdr m o nx pv u -> hdr m' o nx pv u.
Proof.
  intros [_ F] Ho HT. unfold hdr, next_of, prev_of, used_of, field.
  rewrite !F; first done; first [lia | intros t Ht; specialize (HT t Ht); lia].
Qed.

Lemma seg_frame T m m' p o l : frame T m m' -> 0 <= o -> seg m p o l ->
  (forall t, t ∈ T -> o + total l <= t \/ t + 5 <= o) -> seg m' p o l.
Proof.
  intros F. revert p o. induction l as [|[u s] l IH]; intros p o Ho; [done|].
  cbn [seg]. intros (H1 & H2 & H3) HT. rewrite mem_total_cons in HT.
  pose proof (proj1 (seg_total _ _ _ _ H3)) as Ht. destruct H2 as [H2 H2'].
  assert (20 <= s) by exact H2.
  split; [apply (frame_hdr T m m' o _ _ _ F Ho); [intros t Hi; specialize (HT t Hi); lia|exact H1]|]. split; [easy|]. apply IH; [lia|exact H3|]. intros t Hi. specialize (HT t Hi). lia.
Qed.

Lemma mem_chain_frame T m m' p o l : frame T m m' -> 0 <= o -> chain m p o l ->
  (forall t, t ∈ T -> t + 5 <= o) -> chain m' p o l.
Proof.
  intros F Ho [H (He & q & H2)] HT. split; [apply (seg_frame T m); [done..|intros t Ht; specialize (HT t Ht); lia]|].
  pose proof (proj1 (seg_total _ _ _ _ H)) as Ht.
  split; [exact He|]. exists q. apply (frame_hdr T m m' _ _ _ _ F); [easy| |exact H2].
  intros t Hi. specialize (HT t Hi). lia.
Qed.

(** The block before a chain moved. *)
Lemma chain_relink m p q o l : full m -> inside o -> 0 <= q < 2 ^ 16 -> chain m p o l -> chain (put_prev o q m) q o l.
Proof.
  intros Hm Ho Hq H. destruct l as [|[u s] l].
  - destruct H as [_ (He & r & H1 & H2 & H3)]. split; [done|]. split; [exact He|].
    cbn in He. rewrite Z.add_0_r in He. subst o. exists q. unfold hdr. fields. split; [done|]. split; [now apply wrap_small|done].
  - rewrite chain_cons in *. destruct H as ((H1 & H2 & H3) & H4 & H5).
    pose proof (chain_total _ _ _ _ H5) as [Ht _]. assert (20 <= s) by apply H4. unfold hdr. fields.
    split; [split; [done|]; split; [now apply wrap_small|done]|]. split; [done|].
    apply (mem_chain_frame [o] m); [apply frame_put_prev; [done..|left]|heap_lia|done|]. set_solver by lia.
Qed.

(** As it is written in [mem_malloc] and [mem_trim]. *)
Definition relink (nx q : Z) (m : list Z) : list Z := if negb (nx =? MEM_SIZE_ALIGNED) then put_prev nx q m else m.

Lemma relink_run nx q h : inside nx -> full (ram h) ->
  when (negb (nx =? MEM_SIZE_ALIGNED)) (set_prev nx q) h = Ok (tt, mkHeap (relink nx q (ram h)) (lfree h)).
Proof.
  intros Hn Hm. unfold when, relink. destruct (negb (nx =? MEM_SIZE_ALIGNED)); [now apply run_set_prev|now destruct h].
Qed.

Lemma relink_frame nx q m : inside nx -> full m -> frame [nx] m (relink nx q m).
Proof.
  intros Hn Hm. unfold relink. destruct (negb _); [|apply frame_refl]. apply frame_put_prev; [done..|left].
Qed.

Lemma chain_relink_end m p q o l : full m -> inside o -> 0 <= q < 2 ^ 16 -> chain m p o l -> chain (relink o q m) q o l.
Proof.
  intros Hm Ho Hq H. unfold relink. destruct (Z.eqb_spec o MEM_SIZE_ALIGNED) as [->|Hne]; cbn [negb]; [|now apply (chain_relink m p)].
  destruct (chain_total _ _ _ _ H) as [Ht Hl]. destruct l as [|b l]; [|cbn [length] in Hl; lia].
  destruct H as [_ He]. now split.
Qed.

(** Two blocks where one was, or where two were with another border. *)
Lemma split_chain m m1 l1 u p s1 s2 l2 :
  full m -> seg m 0 0 l1 -> chain m p (total l1 + s1 + s2) l2 ->
  20 <= s1 -> 20 <= s2 -> s1 mod 4 = 0 -> s2 mod 4 = 0 ->
  let o := total l1 in
  frame [o; o + s1] m m1 -> hdr m1 o (o + s1) (last_at 0 0 l1) (b2z u) -> hdr m1 (o + s1) (o + s1 + s2) o 0 ->
  let m' := relink (o + s1 + s2) (o + s1) m1 in
  full m' /\ chain m' 0 0 (l1 ++ (u, s1) :: (false, s2) :: l2) /\ frame [o; o + s1; o + s1 + s2] m m'.
Proof.
  intros Hm Hb Ha H1 H2 M1 M2 o F G1 G2 m'. fold o in Ha.
  pose proof (proj1 (seg_total _ _ _ _ Hb)) as Ho. fold o in Ho.
  pose proof (chain_total _ _ _ _ Ha) as [Ht Hl].
  pose proof (frame_full _ _ _ F Hm) as Hm1.
  assert (frame [o + s1 + s2] m1 m') as F' by (apply relink_frame; [heap_lia|done]).
  assert (frame [o; o + s1; o + s1 + s2] m m') as F2.
  { apply (frame_trans _ _ m1); [apply (frame_mono [o; o + s1])|apply (frame_mono [o + s1 + s2])]; first [done|set_solver]. }
  split; [exact (frame_full _ _ _ F' Hm1)|]. split; [|exact F2].
  rewrite mem_chain_app, !chain_cons. cbn [Z.add].
  split; [apply (seg_frame _ m m' _ _ _ F2); [done..|set_solver by lia]|].
  split; [apply (frame_hdr _ m1 m' _ _ _ _ F'); [heap_lia|set_solver by lia|done]|]. split; [easy|].
  split; [apply (frame_hdr _ m1 m' _ _ _ _ F'); [heap_lia|set_solver by lia|done]|]. split; [easy|].
  apply (chain_relink_end m1 p); [done|heap_lia|heap_lia|].
  apply (mem_chain_frame _ m m1 _ _ _ F); [heap_lia|done|set_solver by lia].
Qed.

(** ** The operations on the list of blocks *)

Definition split_block (s size : Z) : list block :=
  if size + SIZEOF_STRUCT_MEM + MIN_SIZE_ALIGNED <=? s - SIZEOF_STRUCT_MEM
  then [(true, SIZEOF_STRUCT_MEM + size); (false, s - SIZEOF_STRUCT_MEM - size)] else [(true, s)].

(** The first free block with room for [size] bytes, and what surrounds it. *)
Fixpoint fit (size : Z) (bs : list block) : option (list block * Z * list block) :=
  match bs with
  | [] => None
  | (u, s) :: bs =>
      if negb u && (size <=? s - SIZEOF_STRUCT_MEM) then Some ([], s, bs)
      else '(l1, s', l2) ← fit size bs; Some ((u, s) :: l1, s', l2)
  end.

Lemma total_split s size : total (split_block s size) = s.
Proof. unfold split_block. destruct (_ <=? _); cbn; lia. Qed.

Lemma fit_Some size bs l1 s l2 : fit size bs = Some (l1, s, l2) -> bs = l1 ++ (false, s) :: l2 /\ size <= s - SIZEOF_STRUCT_MEM.
Proof.
  revert l1. induction bs as [|[u t] bs IH]; intros l1; cbn [fit]; [done|].
  destruct (negb u && (size <=? t - SIZEOF_STRUCT_MEM)) eqn:E.
  - intros [= <- <- <-]. apply andb_prop in E as [E1 E2]. destruct u; [done|]. split; [done|lia].
  - destruct (fit size bs) as [[[l1' s'] l2']|]; [|done]. cbn. intros [= <- <- <-].
    destruct (IH _ eq_refl) as [-> H]. done.
Qed.

Lemma fit_None size bs : fit size bs = None <-> Forall (fun b => b.1 = true \/ b.2 - SIZEOF_STRUCT_MEM < size) bs.
Proof.
  induction bs as [|[u t] bs IH]; cbn [fit]; [done|]. rewrite Forall_cons. cbn.
  destruct u; cbn [negb andb]; [|destruct (Z.leb_spec size (t - SIZEOF_STRUCT_MEM)) as [Hs|Hs]; cbn [negb andb]].
  - destruct (fit size bs) as [[[? ?] ?]|]; cbn; rewrite <- IH; naive_solver.
  - split; [done|]. intros [[H|H] _]; [done|lia].
  - destruct (fit size bs) as [[[? ?] ?]|]; cbn; rewrite <- IH; naive_solver.
Qed.

Lemma fit_small m p o size bs : seg m p o bs -> total bs <= size -> fit size bs = None.
Proof.
  intros H Ht. apply fit_None. revert p o H Ht. induction bs as [|[u s] bs IH]; intros p o; [constructor|].
  rewrite mem_total_cons. cbn [seg]. intros (_ & [Hs _] & H) Ht. pose proof (proj1 (seg_total _ _ _ _ H)).
  assert (20 <= s) by exact Hs.
  constructor; [right; unfold SIZEOF_STRUCT_MEM; cbn; lia|]. apply (IH o (o + s)); [exact H|lia].
Qed.

Lemma next_unused_run h p o bs fuel : full (ram h) -> 0 <= o -> chain (ram h) p o bs -> (length bs < fuel)%nat ->
  next_unused fuel o h = Ok (first_free o bs, h).
Proof.
  intros Hm. revert p o fuel. induction bs as [|[u s] bs IH]; intros p o [|fuel] Ho H Hf; try (cbn in Hf; lia).
  - pose proof (chain_total _ _ _ _ H) as [Ht _]. cbn in Ht. cbn [next_unused first_free].
    erewrite bind_ok by (apply run_used; [heap_lia|done]).
    replace (o =? ram_end) with true by (symmetry; apply Z.eqb_eq; heap_lia). now rewrite andb_false_r.
  - pose proof (chain_total _ _ _ _ H) as [Ht Hl]. rewrite mem_total_cons in Ht. cbn [length] in *.
    pose proof (chain_used _ _ _ _ H) as Hu. apply chain_cons in H as ((H1 & _) & [H2 _] & H).
    pose proof (chain_total _ _ _ _ H) as [_ Hl']. assert (20 <= s) by exact H2.
    cbn [next_unused first_free]. erewrite bind_ok by (apply run_used; [heap_lia|done]). rewrite Hu, truthy_b2z.
    destruct u; cbn [andb]; [|done].
    replace (o =? ram_end) with false by (symmetry; apply Z.eqb_neq; heap_lia). cbn [negb].
    erewrite bind_ok by (apply run_next; [heap_lia|done]). rewrite H1. apply (IH o); [lia|done|lia].
Qed.

Lemma first_block_run h p o bs size fuel : full (ram h) -> 0 <= o -> chain (ram h) p o bs -> (length bs < fuel)%nat ->
  0 <= size ->
  first_block fuel o size h =
    match fit size bs with Some (l1, s, l2) => take_block (o + total l1) size h | None => Ok (None, h) end.
Proof.
  intros Hm. revert p o fuel. induction bs as [|[u s] bs IH]; intros p o [|fuel] Ho H Hf Hs; try (cbn in Hf; lia).
  - pose proof (chain_total _ _ _ _ H) as [Ht _]. cbn in Ht. cbn [first_block fit].
    now replace (o <? MEM_SIZE_ALIGNED - size) with false by (symmetry; apply Z.ltb_ge; heap_lia).
  - pose proof (chain_total _ _ _ _ H) as [Ht Hl]. cbn [length] in *. cbn [first_block].
    destruct (Z.ltb_spec o (MEM_SIZE_ALIGNED - size)) as [Hlt|Hge].
    2:{ rewrite (fit_small (ram h) p o) by (first [apply H | heap_lia]). done. }
    rewrite mem_total_cons in Ht.
    pose proof (chain_used _ _ _ _ H) as Hu. apply chain_cons in H as ((H1 & _) & [H2 _] & H).
    pose proof (chain_total _ _ _ _ H) as [_ Hl']. assert (20 <= s) by exact H2.
    erewrite bind_ok by (apply run_used; [heap_lia|done]). rewrite Hu.
    assert (u32 (next_of (ram h) o - (o + SIZEOF_STRUCT_MEM)) = s - SIZEOF_STRUCT_MEM) as Eu
      by (rewrite H1; rewrite wrap_small; heap_lia).
    cbn [fit]. destruct u; cbn [b2z negb andb].
    + change (1 =? 0) with false. cbv iota. erewrite bind_ok by reflexivity. cbv iota.
      erewrite bind_ok by (apply run_next; [heap_lia|done]). rewrite H1, (IH o) by (first [done|lia]).
      destruct (fit size bs) as [[[l1 s'] l2]|]; cbn; [|done]. now rewrite Z.add_assoc.
    + change (0 =? 0) with true. cbv iota. rewrite bind_assoc. erewrite bind_ok by (apply run_next; [heap_lia|done]).
      rewrite Eu. erewrite bind_ok by reflexivity. destruct (size <=? s - SIZEOF_STRUCT_MEM).
      * cbn. now rewrite Z.add_0_r.
      * erewrite bind_ok by (apply run_next; [heap_lia|done]). rewrite H1, (IH o) by (first [done|lia]).
        destruct (fit size bs) as [[[l1 s'] l2]|]; cbn; [|done]. now rewrite Z.add_assoc.
Qed.

(** What is known of a block of the heap. *)
Record block_at (m : list Z) (l1 : list block) (u : bool) (s : Z) (l2 : list block) : Prop := {
    at_full : full m;
    at_before : seg m 0 0 l1;
    at_fields : hdr m (total l1) (total l1 + s) (last_at 0 0 l1) (b2z u);
    at_size : 20 <= s /\ s mod 4 = 0;
    at_after : chain m (total l1) (total l1 + s) l2;
    at_bound : 0 <= total l1 /\ 0 <= total l2 /\ total l1 + s + total l2 = MEM_SIZE_ALIGNED;
  }.

Lemma block_at_iff m l1 u s l2 : block_at m l1 u s l2 <-> full m /\ chain m 0 0 (l1 ++ (u, s) :: l2).
Proof.
  split.
  - intros [H1 H2 H3 H4 H5 H6]. split; [done|]. now rewrite mem_chain_app, chain_cons.
  - intros [Hm H]. rewrite mem_chain_app, chain_cons in H. destruct H as (H1 & H2 & H3 & H4). cbn [Z.add] in *.
    pose proof (proj1 (seg_total _ _ _ _ H1)). pose proof (chain_total _ _ _ _ H4) as [Ht Hl].
    split; try done; lia.
Qed.

Lemma ok_block h l1 u s l2 : heap_ok h (l1 ++ (u, s) :: l2) -> block_at (ram h) l1 u s l2.
Proof. intros [H1 H2 _ _]. now apply block_at_iff. Qed.

Lemma mod4_add a b : a mod 4 = 0 -> b mod 4 = 0 -> (a + b) mod 4 = 0.
Proof. intros. Z.div_mod_to_equations. lia. Qed.
Lemma mod4_sub a b : a mod 4 = 0 -> b mod 4 = 0 -> (a - b) mod 4 = 0.
Proof. intros. Z.div_mod_to_equations. lia. Qed.

Lemma recolor m l1 u s l2 u' : block_at m l1 u s l2 ->
  let m' := put_used (total l1) (b2z u') m in
  full m' /\ chain m' 0 0 (l1 ++ (u', s) :: l2) /\ frame [total l1] m m'.
Proof.
  intros [Hm Hb (F1 & F2 & F3) [Hs Hs4] Ha Hbd] m'.
  assert (frame [total l1] m m') as F by (apply frame_put_used; [heap_lia|done|left]).
  split; [exact (frame_full _ _ _ F Hm)|]. split; [|exact F].
  rewrite mem_chain_app, chain_cons. cbn [Z.add].
  split; [apply (seg_frame _ m m' _ _ _ F); [done..|set_solver by lia]|].
  split; [unfold m', hdr; fields; destruct u'; done|]. split; [done|].
  apply (mem_chain_frame _ m m' _ _ _ F); [lia|done|set_solver by lia].
Qed.

Lemma mark_used_run h l1 s l2 size : block_at (ram h) l1 false s l2 ->
  12 <= size <= s - 8 -> size mod 4 = 0 ->
  let o := total l1 in
  exists m', mark_used o size h = Ok (tt, mkHeap m' (lfree h)) /\
    full m' /\ chain m' 0 0 (l1 ++ split_block s size ++ l2) /\ frame [o; o + 8 + size; o + s] (ram h) m'.
Proof.
  intros HB. pose proof HB as [Hm Hb (F1 & F2 & F3) [Hs Hs4] Ha Hbd]. intros Hsz Hsz4 o. fold o in Hb, F1, F2, F3, Ha, Hbd.
  unfold mark_used, split_block. cbv zeta. erewrite bind_ok by (apply run_next; [heap_lia|done]). rewrite F1.
  replace (o + s - (o + SIZEOF_STRUCT_MEM)) with (s - SIZEOF_STRUCT_MEM) by lia.
  rewrite (wrap_small 32 (size + SIZEOF_STRUCT_MEM + MIN_SIZE_ALIGNED)), (wrap_small 32 (s - SIZEOF_STRUCT_MEM)) by heap_lia.
  destruct (Z.leb_spec (size + SIZEOF_STRUCT_MEM + MIN_SIZE_ALIGNED) (s - SIZEOF_STRUCT_MEM)) as [Hle|Hgt].
  - rewrite (wrap_small 16) by heap_lia. change SIZEOF_STRUCT_MEM with 8 in *. change MIN_SIZE_ALIGNED with 12 in *.
    do 7 run. rewrite F1, (wrap_small 16 (o + s)) by heap_lia. rewrite relink_run by side.
    eexists. split; [reflexivity|]. cbn [ram]. replace (o + 8 + size) with (o + (8 + size)) by lia.
    replace (o + s) with (o + (8 + size) + (s - 8 - size)) by lia.
    eapply (split_chain (ram h) _ l1 true o (8 + size) (s - 8 - size) l2); fold o; try done; try lia; [| | |framed| |].
    + replace (o + (8 + size) + (s - 8 - size)) with (o + s) by lia. exact Ha.
    + now apply mod4_add.
    + apply mod4_sub; [now apply mod4_sub|done].
    + headers.
    + headers.
  - exists (put_used o 1 (ram h)). split; [apply run_set_used; [heap_lia|done]|].
    destruct (recolor (ram h) l1 false s l2 true HB) as (H1 & H2 & H3). split; [done|]. split; [done|].
    apply (frame_mono [o]); [set_solver|done].
Qed.

Lemma last_free_split f s n : last_free f (split_block s n) = true \/ split_block s n = [(true, s)].
Proof. unfold split_block. destruct (_ <=? _); [now left|now right]. Qed.

Lemma no_holes_split l1 s n l2 : no_holes false (l1 ++ (false, s) :: l2) -> no_holes false (l1 ++ split_block s n ++ l2).
Proof.
  rewrite !no_holes_app. cbn [no_holes negb]. intros (H1 & H2 & H3). split; [done|].
  unfold split_block. destruct (_ <=? _); cbn [no_holes last_free negb]; [easy|]. split; [easy|]. now apply no_holes_used.
Qed.

Lemma first_free_split bs : exists l0 l', bs = l0 ++ l' /\ forallb fst l0 = true /\ first_free 0 bs = total l0.
Proof.
  cut (forall o, exists l0 l', bs = l0 ++ l' /\ forallb fst l0 = true /\ first_free o bs = o + total l0).
  { intros H. exact (H 0). }
  induction bs as [|[[] s] bs IH]; intros o; cbn [first_free].
  - exists [], []. cbn. split; [done|]. split; [done|lia].
  - destruct (IH (o + s)) as (l0 & l' & -> & H1 & H2). exists ((true, s) :: l0), l'.
    rewrite mem_total_cons, H2. split; [done|]. split; [done|lia].
  - exists [], ((false, s) :: bs). cbn. split; [done|]. split; [done|lia].
Qed.

Lemma fit_app_used n l0 l : forallb fst l0 = true ->
  fit n (l0 ++ l) = '(l1, s, l2) ← fit n l; Some (l0 ++ l1, s, l2).
Proof.
  induction l0 as [|[u t] l0 IH]; cbn [forallb fst app fit]; intros H.
  - now destruct (fit n l) as [[[? ?] ?]|].
  - apply andb_prop in H as [-> H]. cbn [negb andb]. rewrite (IH H). now destruct (fit n l) as [[[? ?] ?]|].
Qed.

(** *** [mem_malloc] *)

Lemma take_block_run h l1 s l2 n : heap_ok h (l1 ++ (false, s) :: l2) -> 12 <= n <= s - 8 -> n mod 4 = 0 ->
  exists h', take_block (total l1) n h = Ok (Some (total l1 + 8), h') /\
    heap_ok h' (l1 ++ split_block s n ++ l2) /\ frame [total l1; total l1 + 8 + n; total l1 + s] (ram h) (ram h').
Proof.
  intros Hok Hn Hn4. pose proof (ok_block _ _ _ _ _ Hok) as HB.
  destruct (mark_used_run _ _ _ _ _ HB Hn Hn4) as (m' & E & Hm' & Hc & F).
  unfold take_block. rewrite (bind_ok _ _ _ _ _ E). erewrite bind_ok by reflexivity.
  destruct HB as [Hm Hb _ [Hs _] Ha Hbd].
  pose proof (proj1 (mem_chain_app _ _ _ _ _) Hc) as [Hb' Hc']. cbn [Z.add] in Hc'. cbn [lfree].
  pose proof (no_holes_split _ _ n _ (ok_holes _ _ Hok)) as Hh.
  assert (first_free 0 (l1 ++ (false, s) :: l2) = lfree h) as El by (symmetry; apply (ok_lfree _ _ Hok)).
  rewrite first_free_app in El. cbn [Z.add first_free] in El.
  pose proof (first_free_range _ _ _ _ Hb) as [Hr1 Hr2].
  destruct (forallb fst l1) eqn:Eu.
  - rewrite <- El, Z.eqb_refl. cbn [when].
    pose proof (chain_total _ _ _ _ Hc') as [Ht Hl].
    rewrite (bind_assoc (next_unused _ _)). erewrite bind_ok by (eapply next_unused_run; [exact Hm'|lia|exact Hc'|unfold walk_fuel; heap_lia]).
    eexists. split; [reflexivity|]. split; [|exact F]. split; [done|done|done|].
    cbn [lfree]. now rewrite (first_free_app 0 l1), Eu.
  - specialize (Hr2 eq_refl). replace (total l1 =? lfree h) with false by (symmetry; apply Z.eqb_neq; lia).
    eexists. split; [reflexivity|]. split; [|exact F]. split; [done|done|done|].
    cbn [lfree]. now rewrite (first_free_app 0 l1), Eu.
Qed.

(** The bytes a request of [size] bytes is granted. *)
Definition granted (size : Z) : Z := at_least_min (u16 (LWIP_MEM_ALIGN_SIZE size)).

Lemma align_size x : x <= LWIP_MEM_ALIGN_SIZE x < x + 4 /\ LWIP_MEM_ALIGN_SIZE x mod 4 = 0.
Proof.
  unfold LWIP_MEM_ALIGN_SIZE, MEM_ALIGNMENT. rewrite <- Z.ldiff_land. change (4 - 1) with (Z.ones 2).
  rewrite Z.ldiff_ones_r, Z.shiftr_div_pow2, Z.shiftl_mul_pow2 by lia. change (2 ^ 2) with 4.
  Z.div_mod_to_equations. lia.
Qed.

Lemma granted_spec size : 12 <= granted size < 2 ^ 16 /\ granted size mod 4 = 0 /\ (0 <= size <= 65532 -> size <= granted size).
Proof.
  unfold granted, at_least_min, MIN_SIZE_ALIGNED. pose proof (align_size size) as [H1 H2].
  pose proof (wrap_range 16 (LWIP_MEM_ALIGN_SIZE size) ltac:(lia)) as Hr.
  assert (u16 (LWIP_MEM_ALIGN_SIZE size) mod 4 = 0) as H4.
  { unfold wrap. Z.div_mod_to_equations. lia. }
  destruct (Z.ltb_spec (u16 (LWIP_MEM_ALIGN_SIZE size)) 12); (split; [lia|]; split; [done|]); intros Hs.
  - rewrite wrap_small in * by (Z.div_mod_to_equations; lia). lia.
  - rewrite wrap_small by (Z.div_mod_to_equations; lia). lia.
Qed.

Lemma mem_malloc_run h bs size : heap_ok h bs -> 0 < size ->
  match (if MEM_SIZE_ALIGNED <? granted size then None else fit (granted size) bs) with
  | Some (l1, s, l2) =>
      bs = l1 ++ (false, s) :: l2 /\ granted size <= s - 8 /\
      exists h', mem_malloc size h = Ok (Some (total l1 + 8), h') /\ heap_ok h' (l1 ++ split_block s (granted size) ++ l2) /\
        frame [total l1; total l1 + 8 + granted size; total l1 + s] (ram h) (ram h')
  | None => mem_malloc size h = Ok (None, h)
  end.
Proof.
  intros Hok Hs. unfold mem_malloc. replace (size =? 0) with false by (symmetry; apply Z.eqb_neq; lia).
  cbv zeta. fold (granted size). pose proof (granted_spec size) as (Hg & Hg4 & _).
  destruct (MEM_SIZE_ALIGNED <? granted size); [done|].
  erewrite bind_ok by reflexivity. destruct (first_free_split bs) as (l0 & l' & -> & Hu & El).
  rewrite (ok_lfree _ _ Hok), El. pose proof (proj1 (mem_chain_app _ _ _ _ _) (ok_chain _ _ Hok)) as [Hb Hc].
  pose proof (proj1 (seg_total _ _ _ _ Hb)) as Hl0. pose proof (chain_total _ _ _ _ Hc) as [Ht Hl]. cbn [Z.add] in *.
  rewrite wrap_small by heap_lia.
  rewrite (first_block_run h (last_at 0 0 l0) (total l0) l') by first [done | apply Hok | lia | unfold walk_fuel; heap_lia].
  rewrite fit_app_used by done. destruct (fit (granted size) l') as [[[l1 s] l2]|] eqn:Ef; cbn [mbind option_bind]; [|done].
  apply fit_Some in Ef as [-> Hfit]. rewrite app_assoc. split; [done|]. split; [done|].
  rewrite <- mem_total_app. apply take_block_run; [now rewrite <- app_assoc|heap_lia|done].
Qed.

(** *** [mem_free] *)

(** Two blocks become one. *)
Lemma merge_chain m l1 u s1 u2 s2 l2 : full m -> chain m 0 0 (l1 ++ (u, s1) :: (u2, s2) :: l2) ->
  let o := total l1 in
  let m' := put_prev (o + s1 + s2) o (put_next o (o + s1 + s2) m) in
  full m' /\ chain m' 0 0 (l1 ++ (u, s1 + s2) :: l2) /\ frame [o; o + s1 + s2] m m'.
Proof.
  intros Hm Hc o m'. pose proof (proj2 (block_at_iff _ _ _ _ _) (conj Hm Hc)) as [_ Hb (F1 & F2 & F3) [Hs Hs4] Ha Hbd].
  fold o in Hb, F1, F2, F3, Ha, Hbd. apply chain_cons in Ha as (_ & [Hs2 Hs24] & Ha). rewrite mem_total_cons in Hbd.
  assert (20 <= s2) by exact Hs2. pose proof (chain_total _ _ _ _ Ha) as [Ht Hl].
  assert (frame [o; o + s1 + s2] m m') as F by (unfold m'; framed).
  split; [exact (frame_full _ _ _ F Hm)|]. split; [|exact F].
  rewrite mem_chain_app, chain_cons. cbn [Z.add]. fold o.
  split; [apply (seg_frame _ m m' _ _ _ F); [done..|set_solver by lia]|].
  split; [unfold m'; unfold hdr; fields; repeat split; [rewrite wrap_small; heap_lia|done|done]|].
  split; [split; [heap_lia|now apply mod4_add]|]. rewrite Z.add_assoc.
  apply (chain_relink _ (o + s1)); [is_full|heap_lia|heap_lia|].
  apply (mem_chain_frame [o] m); [framed|lia|done|set_solver by lia].
Qed.

Definition join_next (s : Z) (l2 : list block) : Z * list block :=
  match l2 with (false, s2) :: l2 => (s + s2, l2) | _ => (s, l2) end.
Definition join_prev (l1 : list block) (s : Z) : list block * Z :=
  match reverse l1 with (false, s1) :: r => (reverse r, s1 + s) | _ => (l1, s) end.
Definition freed (l1 : list block) (s : Z) (l2 : list block) : list block :=
  let '(s, l2) := join_next s l2 in let '(l1, s) := join_prev l1 s in l1 ++ (false, s) :: l2.

Lemma plug_forward_run h l1 s l2 s' l2' : block_at (ram h) l1 false s l2 -> lfree h <= total l1 ->
  join_next s l2 = (s', l2') ->
  exists m', plug_forward (total l1) h = Ok (tt, mkHeap m' (lfree h)) /\ block_at m' l1 false s' l2' /\
    frame [total l1; total l1 + s'] (ram h) m'.
Proof.
  intros HB Hlf Hj. pose proof HB as [Hm Hb (F1 & F2 & F3) [Hs Hs4] Ha Hbd]. unfold plug_forward.
  run. rewrite F1. replace (total l1 =? total l1 + s) with false by (symmetry; apply Z.eqb_neq; lia).
  rewrite bind_assoc. run. erewrite bind_ok by reflexivity. rewrite (chain_used _ _ _ _ Ha).
  assert (forall m', join_next s l2 = (s, l2) -> m' = ram h -> block_at m' l1 false s' l2' /\ frame [total l1; total l1 + s'] (ram h) m') as Hid.
  { intros m' E ->. rewrite Hj in E. injection E as -> ->. split; [exact HB|apply frame_refl]. }
  destruct l2 as [|[[] s2] l2].
  - exists (ram h). split; [destruct h; reflexivity|]. now apply Hid.
  - exists (ram h). split; [destruct h; reflexivity|]. now apply Hid.
  - injection Hj as <- <-. clear Hid. pose proof (proj1 (block_at_iff _ _ _ _ _) HB) as [_ Hc].
    destruct (merge_chain _ _ _ _ _ _ _ Hm Hc) as (Hm' & Hc' & F').
    apply chain_cons in Ha as ((G1 & G2 & G3) & [Hs2 Hs24] & Ha). rewrite mem_total_cons in Hbd.
    assert (20 <= s2) by exact Hs2. pose proof (chain_total _ _ _ _ Ha) as [Ht Hl].
    replace (total l1 + s =? ram_end) with false by (symmetry; apply Z.eqb_neq; heap_lia).
    cbn [b2z Z.eqb negb andb when]. erewrite bind_ok by reflexivity.
    replace (lfree h =? total l1 + s) with false by (symmetry; apply Z.eqb_neq; lia).
    cbn [when]. erewrite bind_ok by reflexivity. run. rewrite G1. run. run. rewrite G1.
    rewrite run_set_prev by side. eexists. split; [reflexivity|]. cbn [ram]. rewrite Z.add_assoc.
    split; [|exact F']. apply block_at_iff. now split.
Qed.

Lemma plug_backward_run h l1 s l2 l1' s' : block_at (ram h) l1 false s l2 ->
  (lfree h <= total l1 /\ (join_prev l1 s <> (l1, s) -> lfree h < total l1)) -> join_prev l1 s = (l1', s') ->
  exists m', plug_backward (total l1) h = Ok (tt, mkHeap m' (lfree h)) /\ block_at m' l1' false s' l2 /\
    frame [last_at 0 0 l1; total l1 + s] (ram h) m'.
Proof.
  intros HB Hlf Hj. pose proof HB as [Hm Hb (F1 & F2 & F3) [Hs Hs4] Ha Hbd]. unfold plug_backward.
  run. rewrite F2. unfold join_prev in Hj, Hlf. destruct l1 as [|[u s1] r _] using rev_ind.
  - injection Hj as <- <-. exists (ram h). cbn. split; [now destruct h|]. split; [exact HB|apply frame_refl].
  - rewrite reverse_snoc in Hj, Hlf.
    rewrite last_at_app, mem_total_app, mem_total_cons in *. cbn [last_at total foldr Z.add] in *. rewrite ?Z.add_0_r in *.
    apply seg_app in Hb as [Hb (G & [Hs1 _] & _)]. assert (20 <= s1) by exact Hs1.
    pose proof (proj1 (seg_total _ _ _ _ Hb)). change (0 + total r) with (total r) in *.
    replace (total r =? total r + s1) with false by (symmetry; apply Z.eqb_neq; lia).
    rewrite bind_assoc. run. erewrite bind_ok by reflexivity. destruct G as (G1 & G2 & ->). destruct u.
    + injection Hj as <- <-. exists (ram h). cbn. split; [now destruct h|]. split; [exact HB|apply frame_refl].
    + injection Hj as <- <-. pose proof (proj1 (block_at_iff _ _ _ _ _) HB) as [_ Hc].
      rewrite <- app_assoc in Hc. destruct (merge_chain _ _ _ _ _ _ _ Hm Hc) as (Hm' & Hc' & F').
      cbn [b2z Z.eqb when]. erewrite bind_ok by reflexivity.
      assert (lfree h < total r + s1) as Hlt.
      { apply Hlf. rewrite reverse_involutive. intros [= E _]. apply (f_equal length) in E. rewrite length_app in E. cbn in E. lia. }
      replace (lfree h =? total r + s1) with false by (symmetry; apply Z.eqb_neq; lia).
      cbn [when]. erewrite bind_ok by reflexivity. run. rewrite F1. run. run. rewrite F1.
      rewrite run_set_prev by side. eexists. split; [reflexivity|]. cbn [ram]. rewrite reverse_involutive.
      split; [|exact F']. apply block_at_iff. now split.
Qed.

Lemma first_free_false o l1 s s' l2 l2' : first_free o (l1 ++ (false, s) :: l2) = first_free o (l1 ++ (false, s') :: l2').
Proof. now rewrite !first_free_app. Qed.

Lemma join_prev_cases l1 s : (join_prev l1 s = (l1, s) /\ last_free false l1 = false) \/
  exists r s1, l1 = r ++ [(false, s1)] /\ join_prev l1 s = (r, s1 + s).
Proof.
  unfold join_prev. destruct l1 as [|[u s1] r _] using rev_ind; [now left|]. rewrite reverse_snoc, reverse_involutive.
  destruct u; [left|right; now exists r, s1]. split; [done|].
  clear. generalize false at 1. induction r as [|[u t] r IH]; intros f; [done|]. apply IH.
Qed.

Lemma freed_holes l1 s l2 : no_holes false (l1 ++ (true, s) :: l2) -> no_holes false (freed l1 s l2).
Proof.
  rewrite no_holes_app. cbn [no_holes negb]. intros (H1 & _ & H2). unfold freed.
  assert (no_holes true (snd (join_next s l2))) as H3.
  { destruct l2 as [|[[] t] l2]; cbn [join_next snd no_holes negb] in *; [done|split; [done|apply H2]|apply H2]. }
  destruct (join_next s l2) as [s' l2']. cbn [snd] in H3.
  destruct (join_prev_cases l1 s') as [[-> E]|(r & s1 & -> & ->)]; rewrite no_holes_app; cbn [no_holes negb].
  - now rewrite E.
  - rewrite no_holes_app in H1. cbn [no_holes] in H1. split; [apply H1|]. split; [|done].
    intros E. now apply H1.
Qed.

Lemma freed_first l1 s l2 o : first_free o (freed l1 s l2) = first_free o (l1 ++ (false, s) :: l2).
Proof.
  unfold freed. destruct (join_next s l2) as [s' l2'].
  destruct (join_prev_cases l1 s') as [[-> _]|(r & s1 & -> & ->)]; [apply first_free_false|].
  rewrite <- app_assoc. apply first_free_false.
Qed.

Lemma mem_free_run h l1 s l2 : heap_ok h (l1 ++ (true, s) :: l2) ->
  exists h', mem_free (Some (total l1 + 8)) h = Ok (tt, h') /\ heap_ok h' (freed l1 s l2) /\
    frame [total l1; total l1 + fst (join_next s l2); last_at 0 0 l1] (ram h) (ram h').
Proof.
  intros Hok. pose proof (ok_block _ _ _ _ _ Hok) as HB.
  destruct (recolor _ _ _ _ _ false HB) as (Hm' & Hc' & F). cbn [b2z] in *.
  pose proof HB as [Hm Hb _ [Hs Hs4] Ha Hbd]. pose proof (proj2 (block_at_iff _ _ _ _ _) (conj Hm' Hc')) as HB'.
  unfold mem_free. replace ((total l1 + 8 <? 0) || (ram_end <=? total l1 + 8)) with false.
  2:{ symmetry. apply orb_false_intro; [apply Z.ltb_ge|apply Z.leb_gt]; heap_lia. }
  unfold SIZEOF_STRUCT_MEM. replace (total l1 + 8 - 8) with (total l1) by lia. run.
  erewrite bind_ok by reflexivity. set (lf := first_free 0 (l1 ++ (false, s) :: l2)).
  assert (lf <= total l1 /\ (forallb fst l1 = false -> lf < total l1)) as [Hlf Hlf'].
  { unfold lf. rewrite first_free_app. cbn [first_free]. pose proof (first_free_range _ _ _ _ Hb).
    destruct (forallb fst l1); cbn; [lia|]. split; [lia|]. intros _. apply H. done. }
  assert ((total l1 <? lfree h) = forallb fst l1 /\ (forallb fst l1 = false -> lf = lfree h) /\ (forallb fst l1 = true -> lf = total l1)) as (Et & El & El').
  { rewrite (ok_lfree _ _ Hok). unfold lf. rewrite !first_free_app. cbn [first_free Z.add].
    pose proof (first_free_range _ _ _ _ Hb) as [Hr1 Hr2]. pose proof (first_free_range _ _ _ _ (proj1 Ha)) as [Hr3 _].
    change (0 + total l1) with (total l1) in *. destruct (forallb fst l1); [split; [apply Z.ltb_lt; lia|easy]|]. specialize (Hr2 eq_refl).
    split; [apply Z.ltb_ge; lia|easy]. }
  erewrite (bind_ok _ _ _ tt (mkHeap (put_used (total l1) 0 (ram h)) lf)).
  2:{ cbn [lfree]. rewrite Et. destruct (forallb fst l1); [now rewrite El'|now rewrite El]. }
  unfold plug_holes. destruct (join_next s l2) as [s' l2'] eqn:Ej. cbn [fst].
  destruct (plug_forward_run (mkHeap (put_used (total l1) 0 (ram h)) lf) _ _ _ _ _ HB' Hlf Ej) as (m2 & E2 & HB2 & F2).
  rewrite (bind_ok _ _ _ _ _ E2). cbn [lfree ram] in *. destruct (join_prev l1 s') as [l1' s''] eqn:Ep.
  assert (lf <= total l1 /\ (join_prev l1 s' <> (l1, s') -> lf < total l1)) as Hlf2.
  { split; [exact Hlf|]. intros Hne. apply Hlf'. destruct (join_prev_cases l1 s') as [[E _]|(r & s1 & -> & E)]; [congruence|].
    rewrite forallb_app. cbn. apply andb_false_r. }
  destruct (plug_backward_run (mkHeap m2 lf) _ _ _ _ _ HB2 Hlf2 Ep) as (m3 & E3 & HB3 & F3).
  cbn [lfree ram] in *. eexists. split; [exact E3|]. apply block_at_iff in HB3 as [Hm3 Hc3]. split.
  - assert (freed l1 s l2 = l1' ++ (false, s'') :: l2') as Ef by (unfold freed; now rewrite Ej, Ep).
    split; [done|now rewrite Ef|apply freed_holes, Hok|]. rewrite freed_first. reflexivity.
  - apply (frame_trans _ _ (put_used (total l1) 0 (ram h))); [apply (frame_mono [total l1]); [set_solver|done]|].
    apply (frame_trans _ _ m2); [apply (frame_mono [total l1; total l1 + s']); [set_solver|done]|].
    apply (frame_mono [last_at 0 0 l1; total l1 + s']); [set_solver|done].
Qed.

(** *** [mem_init] and [mem_trim] *)

Lemma mem_init_run h : full (ram h) ->
  exists m', mem_init h = Ok (tt, mkHeap m' 0) /\ heap_ok (mkHeap m' 0) [(false, MEM_SIZE_ALIGNED)] /\ length m' = length (ram h).
Proof.
  intros Hm. unfold mem_init. cbv zeta. do 6 run. eexists. split; [reflexivity|]. split.
  - split; [is_full| |done|done]. split.
    + cbn [seg ram]. split; [headers|done].
    + split; [done|]. exists MEM_SIZE_ALIGNED. cbn [ram]. headers.
  - assert (forall T m, frame T (ram h) m -> length m = length (ram h)) as Hl by (intros T m [Hl _]; exact Hl).
    apply (Hl [0; ram_end]). framed.
Qed.

Definition trimmed (s n : Z) (l2 : list block) : list block :=
  if n =? s - 8 then (true, s) :: l2
  else
    match l2 with
    | (false, s2) :: l2 => (true, 8 + n) :: (false, s - 8 - n + s2) :: l2
    | _ => if n + 20 <=? s - 8 then (true, 8 + n) :: (false, s - 8 - n) :: l2 else (true, s) :: l2
    end.

(** The bytes that are left of it. *)
Definition kept (s n : Z) (l2 : list block) : Z :=
  match l2 with
  | (false, _) :: _ => n
  | _ => if n + 20 <=? s - 8 then n else s - 8
  end.

(** The new free block behind a trimmed one, as both branches write it. *)
Lemma shrink_chain h l1 s p s1 s2 l2 : full (ram h) -> seg (ram h) 0 0 l1 ->
  hdr (ram h) (total l1) (total l1 + s) (last_at 0 0 l1) 1 -> chain (ram h) p (total l1 + s1 + s2) l2 ->
  20 <= s1 -> 20 <= s2 -> s1 mod 4 = 0 -> s2 mod 4 = 0 -> forall lf,
  let o := total l1 in
  exists m',
    (set_next (o + s1) (o + s1 + s2);;
     set_prev (o + s1) o;;
     set_next o (o + s1);;
     next2 ← mem_next (o + s1);
     when (negb (next2 =? MEM_SIZE_ALIGNED)) (set_prev next2 (o + s1))) (mkHeap (put_used (o + s1) 0 (ram h)) lf) = Ok (tt, mkHeap m' lf) /\
    full m' /\ chain m' 0 0 (l1 ++ (true, s1) :: (false, s2) :: l2) /\ frame [o; o + s1; o + s1 + s2] (ram h) m'.
Proof.
  intros Hm Hb (F1 & F2 & F3) Hc H1 H2 M1 M2 lf o. fold o in F1, F2, F3, Hc.
  pose proof (proj1 (seg_total _ _ _ _ Hb)). fold o in H. pose proof (chain_total _ _ _ _ Hc) as [Ht Hl].
  do 4 run. rewrite (wrap_small 16 (o + s1 + s2)) by heap_lia. rewrite relink_run by side.
  eexists. split; [reflexivity|]. cbn [ram].
  apply (split_chain (ram h) _ l1 true p s1 s2 l2); fold o; try done; [framed|headers..].
Qed.

Lemma trimmed_holes l1 s n l2 : no_holes false (l1 ++ (true, s) :: l2) -> no_holes false (l1 ++ trimmed s n l2).
Proof.
  rewrite !no_holes_app. cbn [no_holes negb]. intros (H1 & _ & H2). split; [done|]. unfold trimmed.
  destruct (n =? s - 8); [done|].
  destruct l2 as [|[[] s2] l2]; [| |cbn [no_holes negb] in *; easy];
    (destruct (n + 20 <=? s - 8); [|cbn [no_holes negb] in *; easy]); cbn [no_holes negb] in *; easy.
Qed.

Lemma first_free_used o l1 s l2 : first_free o (l1 ++ (true, s) :: l2) =
  if forallb fst l1 then first_free (o + total l1 + s) l2 else first_free o l1.
Proof. now rewrite first_free_app. Qed.

(** The pointer to the lowest free block after a free block has appeared at [o2]. *)
Lemma shrink_lfree h l1 s l2 s1 s2 l2' (c : Z -> bool) :
  heap_ok h (l1 ++ (true, s) :: l2) -> (forallb fst l1 = true -> c (lfree h) = true) -> (forallb fst l1 = false -> c (lfree h) = false) ->
  (when (c (lfree h)) (set_lfree (total l1 + s1))) h =
    Ok (tt, mkHeap (ram h) (first_free 0 (l1 ++ (true, s1) :: (false, s2) :: l2'))).
Proof.
  intros Hok Ht Hf. rewrite first_free_used. cbn [first_free]. destruct (forallb fst l1) eqn:E.
  - rewrite Ht by done. reflexivity.
  - rewrite Hf by done. destruct h as [m lf]. cbn [lfree ram when] in *.
    pose proof (ok_lfree _ _ Hok) as El. cbn [lfree] in El. rewrite El, first_free_used, E. reflexivity.
Qed.

(** The two ways to shrink a block, after the bounds are checked. *)
Section Shrink.
Context (h : heap) (l1 l2 : list block) (s s1 s2 : Z) (Hok : heap_ok h (l1 ++ (true, s) :: l2)).
Context (H1 : 20 <= s1) (H2 : 20 <= s2) (M1 : s1 mod 4 = 0) (M2 : s2 mod 4 = 0).
Let o := total l1.

Lemma lfree_used : lfree h = if forallb fst l1 then first_free (o + s) l2 else first_free 0 l1.
Proof using Hok. rewrite (ok_lfree _ _ Hok). apply first_free_used. Qed.

Lemma shrink_room : s = s1 + s2 -> no_holes false (l1 ++ (true, s1) :: (false, s2) :: l2) ->
  exists h',
    (lf ← gets lfree;
     when (o + s1 <? lf) (set_lfree (o + s1));;
     set_used (o + s1) 0;;
     next ← mem_next o;
     set_next (o + s1) next;;
     set_prev (o + s1) o;;
     set_next o (o + s1);;
     next2 ← mem_next (o + s1);
     when (negb (next2 =? MEM_SIZE_ALIGNED)) (set_prev next2 (o + s1))) h = Ok (tt, h') /\
    heap_ok h' (l1 ++ (true, s1) :: (false, s2) :: l2) /\ frame [o; o + s1; o + s1 + s2] (ram h) (ram h').
Proof using Hok H1 H2 M1 M2.
  pose proof lfree_used as Elf. intros -> Hh. pose proof (ok_block _ _ _ _ _ Hok) as [Hm Hb F [Hs Hs4] Ha Hbd]. fold o in F, Ha, Hbd.
  pose proof (first_free_range _ _ _ _ Hb) as [Hr1 Hr2]. pose proof (first_free_range _ _ _ _ (proj1 Ha)) as [Hr3 _].
  change (0 + total l1) with o in *. rewrite Z.add_assoc in *.
  erewrite bind_ok by reflexivity.
  rewrite (bind_ok _ _ _ _ _ (shrink_lfree h l1 (s1 + s2) l2 s1 s2 l2 (fun lf => o + s1 <? lf) Hok
    ltac:(intros E; rewrite E in Elf; apply Z.ltb_lt; lia) ltac:(intros E; rewrite E in Elf; specialize (Hr2 E); apply Z.ltb_ge; lia))).
  do 2 run. rewrite (proj1 F).
  destruct (shrink_chain h l1 (s1 + s2) o s1 s2 l2 Hm Hb) with (lf := first_free 0 (l1 ++ (true, s1) :: (false, s2) :: l2))
    as (m' & E & Hm' & Hc & F'); fold o; rewrite ?Z.add_assoc; try done.
  fold o in E, F'. eexists. split; [exact E|]. split; [|exact F']. now split.
Qed.

Lemma shrink_next s3 : s + s3 = s1 + s2 -> l2 <> [] -> hd (true, 0) l2 = (false, s3) ->
  no_holes false (l1 ++ (true, s1) :: (false, s2) :: tail l2) ->
  exists h',
    (next ← mem_next (o + s);
     lf ← gets lfree;
     when (lf =? o + s) (set_lfree (o + s1));;
     set_used (o + s1) 0;;
     set_next (o + s1) next;;
     set_prev (o + s1) o;;
     set_next o (o + s1);;
     next2 ← mem_next (o + s1);
     when (negb (next2 =? MEM_SIZE_ALIGNED)) (set_prev next2 (o + s1))) h = Ok (tt, h') /\
    heap_ok h' (l1 ++ (true, s1) :: (false, s2) :: tail l2) /\ frame [o; o + s1; o + s1 + s2] (ram h) (ram h').
Proof using Hok H1 H2 M1 M2.
  intros Es Hne Hhd Hh. pose proof (ok_block _ _ _ _ _ Hok) as [Hm Hb F [Hs Hs4] Ha Hbd]. fold o in F, Ha, Hbd.
  pose proof (first_free_range _ _ _ _ Hb) as [Hr1 Hr2].
  change (0 + total l1) with o in *. pose proof lfree_used as Elf.
  destruct l2 as [|[u t] l3]; [done|]. injection Hhd as -> ->. cbn [tail first_free] in *. rewrite mem_total_cons in Hbd.
  apply chain_cons in Ha as ((G1 & _) & [Ht _] & Ha). pose proof (chain_total _ _ _ _ Ha) as [Hc0 Hc1]. assert (20 <= s3) by exact Ht.
  run. rewrite G1. erewrite bind_ok by reflexivity.
  rewrite (bind_ok _ _ _ _ _ (shrink_lfree h l1 s _ s1 s2 l3 (fun lf => lf =? o + s) Hok
    ltac:(intros E; rewrite E in Elf; apply Z.eqb_eq; lia) ltac:(intros E; rewrite E in Elf; specialize (Hr2 E); apply Z.eqb_neq; lia))).
  run. replace (o + s + s3) with (o + s1 + s2) in * by lia.
  destruct (shrink_chain h l1 s (o + s) s1 s2 l3 Hm Hb) with (lf := first_free 0 (l1 ++ (true, s1) :: (false, s2) :: l3))
    as (m' & E & Hm' & Hc & F'); fold o; try done.
  fold o in E, F'. eexists. split; [exact E|]. split; [|exact F']. now split.
Qed.
End Shrink.

Lemma mem_trim_run h l1 s l2 newsize : heap_ok h (l1 ++ (true, s) :: l2) -> granted newsize <= s - 8 ->
  exists h', mem_trim (total l1 + 8) newsize h = Ok (Some (total l1 + 8), h') /\
    heap_ok h' (l1 ++ trimmed s (granted newsize) l2) /\
    frame [total l1; total l1 + 8 + kept s (granted newsize) l2; total l1 + s + match l2 with (false, s2) :: _ => s2 | _ => 0 end] (ram h) (ram h').
Proof.
  intros Hok Hn. pose proof (granted_spec newsize) as ([Hg _] & Hg4 & _). set (n := granted newsize) in *.
  pose proof (ok_block _ _ _ _ _ Hok) as HB. pose proof HB as [Hm Hb (F1 & F2 & F3) [Hs Hs4] Ha Hbd].
  pose proof (first_free_range _ _ _ _ Hb) as [Hr1 Hr2]. pose proof (first_free_range _ _ _ _ (proj1 Ha)) as [Hr3 _].
  change (0 + total l1) with (total l1) in *.
  assert (lfree h = if forallb fst l1 then first_free (total l1 + s) l2 else first_free 0 l1) as Elf
    by (rewrite (ok_lfree _ _ Hok); apply first_free_used).
  pose proof (trimmed_holes _ _ n _ (ok_holes _ _ Hok)) as Hh.
  unfold mem_trim. cbv zeta. fold (granted newsize). fold n.
  replace (MEM_SIZE_ALIGNED <? n) with false by (symmetry; apply Z.ltb_ge; heap_lia).
  replace ((total l1 + 8 <? 0) || (ram_end <=? total l1 + 8)) with false.
  2:{ symmetry. apply orb_false_intro; [apply Z.ltb_ge|apply Z.leb_gt]; heap_lia. }
  unfold SIZEOF_STRUCT_MEM. replace (total l1 + 8 - 8) with (total l1) by lia. run. rewrite F1.
  rewrite (wrap_small 16 (total l1)) by heap_lia. replace (total l1 + s - total l1 - 8) with (s - 8) by lia.
  rewrite (wrap_small 16 (s - 8)) by heap_lia.
  replace (s - 8 <? n) with false by (symmetry; apply Z.ltb_ge; lia).
  unfold trimmed, kept in *. destruct (Z.eqb_spec n (s - 8)) as [->|Hne].
  { exists h. split; [reflexivity|]. split; [done|apply frame_refl]. }
  run. rewrite (chain_used _ _ _ _ Ha), (wrap_small 16) by heap_lia. replace (total l1 + 8 + n) with (total l1 + (8 + n)) by lia.
  assert ((8 + n) mod 4 = 0) as N1 by now apply mod4_add.
  assert ((s - 8 - n) mod 4 = 0) as N2 by (now do 2 (apply mod4_sub; [|done])).
  destruct l2 as [|[[] s2] l2].
  1,2: change (1 =? 0) with false; change (b2z true =? 0) with false; cbv iota;
    change MIN_SIZE_ALIGNED with 12 in *; rewrite (wrap_small 32) by heap_lia; replace (n + 8 + 12) with (n + 20) by lia;
    destruct (Z.leb_spec (n + 20) (s - 8)) as [Hle|Hgt];
    [|exists h; split; [reflexivity|]; split; [done|apply frame_refl]];
    edestruct (shrink_room h l1) with (s1 := 8 + n) (s2 := s - 8 - n) as (h' & E & Hok' & F'); [exact Hok|lia|lia|done|done|lia|exact Hh|];
    exists h'; rewrite (bind_ok _ _ _ _ _ E); split; [reflexivity|]; split; [done|];
    eapply frame_mono; [|exact F']; rewrite Z.add_0_r; replace (total l1 + (8 + n) + (s - 8 - n)) with (total l1 + s) by lia; rewrite ?Z.add_assoc; done.
  rewrite mem_total_cons in Hbd. apply chain_cons in Ha as (_ & [Ht Ht4] & Ha). assert (20 <= s2) by exact Ht.
  destruct (shrink_next h l1 ((false, s2) :: l2) s (8 + n) (s - 8 - n + s2) Hok ltac:(lia) ltac:(lia) N1 ltac:(now apply mod4_add) s2)
    as (h' & E & Hok' & F'); [lia|done|done|exact Hh|].
  change (b2z false =? 0) with true. cbv iota. exists h'. rewrite (bind_ok _ _ _ _ _ E). split; [reflexivity|]. split; [done|].
  eapply frame_mono; [|exact F']. replace (total l1 + (8 + n) + (s - 8 - n + s2)) with (total l1 + s + s2) by lia. rewrite ?Z.add_assoc. done.
Qed.
