(* ===== verification/LwipHeap.v ===== *)
(** * LwipHeap: what the heap of lwIP promises

    For its clients the heap of [LwipMem] is a store of separate blocks of
    bytes: [spec_step] says what each operation may do to it, and the theorem
    is that the bytes of mem.c do that, whatever the operations and their
    order.  With it come the exact condition under which an allocation
    succeeds, that nothing is lost when everything is freed, and what becomes
    of requests whose size does not fit the 16 bits of [mem_size_t]. *)

From Stdlib Require Import ZArith Lia.
From stdpp Require Import base numbers list gmap fin_maps.
From S2P Require Import Prelude LwipMem.

(** ** The specification *)

(** The live blocks: the bytes at each pointer that was handed out. *)
Abbreviation store := (gmap Z (list Z)).

Definition overwrite (i : Z) (bs d : list Z) : list Z := put i bs d.

Inductive op :=
  | Malloc (size : Z)
  | Free (p : Z)
  | Trim (p newsize : Z)
  | Write (p i : Z) (bs : list Z).

Inductive spec_step (L : store) : op -> option Z -> store -> Prop :=
  | S_malloc size p d :
      size <= size_of d -> 8 <= p -> p mod 4 = 0 -> p + size_of d <= MEM_SIZE_ALIGNED ->
      (forall q e, L !! q = Some e -> p + size_of d + 8 <= q \/ q + size_of e + 8 <= p) ->
      spec_step L (Malloc size) (Some p) (<[p := d]> L)
  | S_full size : spec_step L (Malloc size) None L
  | S_free p d : L !! p = Some d -> spec_step L (Free p) None (delete p L)
  | S_trim p newsize d k :
      L !! p = Some d -> newsize <= Z.of_nat k -> (k <= length d)%nat ->
      spec_step L (Trim p newsize) (Some p) (<[p := take k d]> L)
  | S_write p i bs d : L !! p = Some d -> spec_step L (Write p i bs) None (<[p := overwrite i bs d]> L).

(** What a client may ask for: sizes below the last three of 16 bits, its
    own blocks, and writes within them. *)
Definition legal (L : store) (o : op) : Prop :=
  match o with
  | Malloc size => 0 <= size <= 65532
  | Free p => is_Some (L !! p)
  | Trim p newsize => exists d, L !! p = Some d /\ 0 <= newsize <= size_of d
  | Write p i bs => exists d, L !! p = Some d /\ 0 <= i /\ i + size_of bs <= size_of d
  end.

(** ** The program *)

Definition exec (o : op) : M heap (option Z) :=
  match o with
  | Malloc size => mem_malloc size
  | Free p => mem_free (Some p);; mret None
  | Trim p newsize => mem_trim p newsize
  | Write p i bs => ram_store (p + i) bs;; mret None
  end.

(** A client decides by what it was answered so far. *)
Abbreviation history := (list (op * option Z)).

Fixpoint session (n : nat) (client : history -> op) (hist : history) : M heap history :=
  match n with
  | O => mret hist
  | S n => r ← exec (client hist); session n client (hist ++ [(client hist, r)])
  end.

Inductive spec_run : history -> store -> Prop :=
  | R_start : spec_run [] ∅
  | R_step hist L o r L' : spec_run hist L -> spec_step L o r L' -> spec_run (hist ++ [(o, r)]) L'.

(** ** The blocks a heap holds *)

(** Pointer and length of the used blocks from [o] on. *)
Fixpoint entries (o : Z) (bs : list block) : list (Z * Z) :=
  match bs with
  | [] => []
  | (u, s) :: bs => (if (u : bool) then [(o + 8, s - 8)] else []) ++ entries (o + s) bs
  end.

Definition shows (m : list Z) (bs : list block) (L : store) : Prop :=
  forall p d, L !! p = Some d <-> exists k, (p, k) ∈ entries 0 bs /\ d = bytes_at p (Z.to_nat k) m.

Definition represents (h : heap) (L : store) : Prop := exists bs, heap_ok h bs /\ shows (ram h) bs L.

Lemma entries_app o l1 l2 : entries o (l1 ++ l2) = entries o l1 ++ entries (o + total l1) l2.
Proof.
  revert o. induction l1 as [|[u s] l1 IH]; intros o; cbn [app entries].
  - f_equal. cbn. lia.
  - now rewrite IH, mem_total_cons, <- app_assoc, Z.add_assoc.
Qed.

Lemma entries_range m p0 o l p k : seg m p0 o l -> (p, k) ∈ entries o l ->
  o + 8 <= p /\ p + k <= o + total l /\ 12 <= k /\ (p - o) mod 4 = 0 /\ k mod 4 = 0.
Proof.
  revert p0 o. induction l as [|[u s] l IH]; intros p0 o; cbn [seg entries]; [set_solver|].
  intros (_ & [Hs Hs4] & H). pose proof (proj1 (seg_total _ _ _ _ H)). rewrite mem_total_cons. assert (20 <= s) by exact Hs.
  change MEM_ALIGNMENT with 4 in Hs4.
  rewrite elem_of_app. intros [Hin|Hin].
  - destruct u; [|set_solver]. apply list_elem_of_singleton in Hin as [= -> ->].
    split; [lia|]. split; [lia|]. split; [lia|]. Z.div_mod_to_equations. lia.
  - apply (IH o (o + s) H) in Hin as (G1 & G2 & G3 & G4 & G5).
    split; [lia|]. split; [lia|]. split; [lia|]. split; [|done]. Z.div_mod_to_equations. lia.
Qed.

(** An entry is before the last block or is it. *)
Lemma entries_last m p0 o l p k : seg m p0 o l -> (p, k) ∈ entries o l -> p + k <= last_at p0 o l \/ last_at p0 o l + 8 <= p.
Proof.
  revert p0 o. induction l as [|[u s] l IH] using rev_ind; intros p0 o; [cbn; set_solver|].
  rewrite seg_app, entries_app, last_at_app, elem_of_app. cbn [seg last_at entries]. intros [H _] [Hin|Hin].
  - left. apply (entries_range _ _ _ _ _ _ H) in Hin as (_ & H2 & _). lia.
  - right. rewrite app_nil_r in Hin. destruct u; [|set_solver]. apply list_elem_of_singleton in Hin as [= -> ->]. lia.
Qed.

Lemma last_at_le m p0 o l : seg m p0 o l -> p0 <= o -> last_at p0 o l <= o + total l.
Proof.
  revert p0 o. induction l as [|[u s] l IH]; intros p0 o; cbn [seg last_at]; [cbn; lia|].
  intros (_ & [Hs _] & H) Hp. rewrite mem_total_cons. unfold SIZEOF_STRUCT_MEM, MIN_SIZE_ALIGNED in Hs.
  specialize (IH o (o + s) H ltac:(lia)). lia.
Qed.

Lemma in_entries bs p k : (p, k) ∈ entries 0 bs -> exists l1 l2, bs = l1 ++ (true, k + 8) :: l2 /\ p = total l1 + 8.
Proof.
  cut (forall o, (p, k) ∈ entries o bs -> exists l1 l2, bs = l1 ++ (true, k + 8) :: l2 /\ p = o + total l1 + 8).
  { intros H Hin. apply (H 0 Hin). }
  induction bs as [|[u s] bs IH]; intros o; cbn [entries]; [set_solver|]. rewrite elem_of_app. intros [Hin|Hin].
  - destruct u; [|set_solver]. apply list_elem_of_singleton in Hin as [= -> ->]. exists [], bs. cbn. split; [do 2 f_equal; lia|lia].
  - apply IH in Hin as (l1 & l2 & -> & ->). exists ((u, s) :: l1), l2. rewrite mem_total_cons. split; [done|lia].
Qed.

(** One block changes, the others keep their place and their bytes. *)
Lemma shows_change m m' bs bs' L E1 E2 (old new : option Z) p :
  shows m bs L ->
  let at_p o := match o with Some k => [(p, k)] | None => [] end in
  entries 0 bs = E1 ++ at_p old ++ E2 -> entries 0 bs' = E1 ++ at_p new ++ E2 ->
  (forall q k, (q, k) ∈ E1 ++ E2 -> q <> p /\ bytes_at q (Z.to_nat k) m' = bytes_at q (Z.to_nat k) m) ->
  shows m' bs' (match new with Some k => <[p := bytes_at p (Z.to_nat k) m']> L | None => delete p L end).
Proof.
  intros HL at_p E E' Hk q d. rewrite E'.
  assert (Ho : q <> p -> (L !! q = Some d <-> exists k, (q, k) ∈ E1 ++ at_p new ++ E2 /\ d = bytes_at q (Z.to_nat k) m')).
  { intros Hne. rewrite (HL q d), E. unfold at_p. split; intros (k & Hin & ->); exists k.
    - rewrite !elem_of_app in Hin. assert ((q, k) ∈ E1 ++ E2) as H by (rewrite elem_of_app; destruct old; set_solver).
      destruct (Hk _ _ H) as [_ Hb]. split; [|now rewrite Hb]. rewrite !elem_of_app. rewrite elem_of_app in H. tauto.
    - rewrite !elem_of_app in Hin. assert ((q, k) ∈ E1 ++ E2) as H by (rewrite elem_of_app; destruct new; set_solver).
      destruct (Hk _ _ H) as [_ Hb]. split; [|now rewrite Hb]. rewrite !elem_of_app. rewrite elem_of_app in H. tauto. }
  destruct (decide (q = p)) as [->|Hne].
  - assert (forall k, (p, k) ∈ E1 ++ E2 -> False) as Hno by (intros k Hin; now destruct (Hk _ _ Hin)).
    destruct new as [k0|]; unfold at_p.
    + rewrite lookup_insert_eq. split.
      * intros [= <-]. exists k0. split; [|done]. rewrite !elem_of_app. right. left. now apply list_elem_of_singleton.
      * intros (k & Hin & ->). rewrite !elem_of_app in Hin. destruct Hin as [Hin|[Hin|Hin]].
        -- destruct (Hno k). rewrite elem_of_app. now left.
        -- apply list_elem_of_singleton in Hin as [= ->]. done.
        -- destruct (Hno k). rewrite elem_of_app. now right.
    + rewrite lookup_delete_eq. split; [done|]. intros (k & Hin & _). cbn in Hin. now destruct (Hno k).
  - destruct new as [k0|]; [rewrite lookup_insert_ne by done|rewrite lookup_delete_ne by done]; now apply Ho.
Qed.

(** The free bytes a list of blocks begins with. *)
Definition gap (l2 : list block) : Z := match l2 with (false, s2) :: _ => s2 | _ => 0 end.

Lemma entries_around m l1 u s l2 q k : block_at m l1 u s l2 -> (q, k) ∈ entries 0 l1 ++ entries (total l1 + s) l2 ->
  8 <= q /\ 12 <= k /\ q + k <= MEM_SIZE_ALIGNED /\
  (q + k <= total l1 /\ (q + k <= last_at 0 0 l1 \/ last_at 0 0 l1 + 8 <= q) \/ total l1 + s + gap l2 + 8 <= q).
Proof.
  intros [Hm Hb _ [Hs _] Ha Hbd]. rewrite elem_of_app. intros [Hin|Hin].
  - pose proof (entries_range _ _ _ _ _ _ Hb Hin) as (H1 & H2 & H3 & _). pose proof (entries_last _ _ _ _ _ _ Hb Hin) as H4.
    split; [lia|]. split; [lia|]. split; [lia|]. left. split; [lia|exact H4].
  - pose proof (chain_total _ _ _ _ Ha) as [Ht _]. destruct Ha as [Ha _].
    pose proof (entries_range _ _ _ _ _ _ Ha Hin) as (H1 & H2 & H3 & _).
    split; [lia|]. split; [lia|]. split; [lia|]. right. unfold gap.
    destruct l2 as [|[[] s2] l2]; [lia|lia|]. cbn [entries app seg] in *.
    apply (entries_range m (total l1 + s)) in Hin as (H5 & _); [lia|]. apply Ha.
Qed.

Lemma frame_bytes T m m' q k : frame T m m' -> 0 <= q -> 0 <= k -> (forall t, t ∈ T -> t + 5 <= q \/ q + k <= t) ->
  bytes_at q (Z.to_nat k) m' = bytes_at q (Z.to_nat k) m.
Proof. intros [_ F] Hq Hk HT. apply F; [done|]. intros t Ht. specialize (HT t Ht). lia. Qed.

Lemma join_next_gap s l2 : fst (join_next s l2) = s + gap l2.
Proof. destruct l2 as [|[[] s2] l2]; cbn; lia. Qed.

Lemma entries_split o s n : entries o (split_block s n) = [(o + 8, if n + 20 <=? s - 8 then n else s - 8)].
Proof.
  unfold split_block, SIZEOF_STRUCT_MEM, MIN_SIZE_ALIGNED. replace (n + 8 + 12) with (n + 20) by lia.
  destruct (n + 20 <=? s - 8); cbn; [|done]. do 2 f_equal. lia.
Qed.

Lemma entries_freed l1 s l2 : entries 0 (freed l1 s l2) = entries 0 l1 ++ entries (total l1 + s) l2.
Proof.
  assert (forall l s l2, entries 0 (l ++ (false, s) :: l2) = entries 0 l ++ entries (total l + s) l2) as H.
  { intros l t r. now rewrite entries_app. }
  unfold freed. destruct (join_next s l2) as [s' l2'] eqn:Ej.
  assert (entries (total l1 + s') l2' = entries (total l1 + s) l2) as <-.
  { destruct l2 as [|[[] s2] l2]; cbn in Ej; injection Ej as <- <-; try done. cbn [entries app]. f_equal. lia. }
  destruct (join_prev_cases l1 s') as [[-> _]|(r & s1 & -> & ->)]; rewrite H; [done|].
  rewrite entries_app, mem_total_app. cbn. rewrite app_nil_r. do 2 f_equal. lia.
Qed.

Lemma entries_trimmed o s n l2 : n <= s - 8 -> entries o (trimmed s n l2) = [(o + 8, kept s n l2)] ++ entries (o + s) l2 /\ n <= kept s n l2 <= s - 8.
Proof.
  intros Hn. unfold trimmed, kept. destruct (Z.eqb_spec n (s - 8)) as [->|Hne].
  - replace (s - 8 + 20 <=? s - 8) with false by (symmetry; apply Z.leb_gt; lia).
    destruct l2 as [|[[] s2] l2]; (split; [done|lia]).
  - destruct l2 as [|[[] s2] l2].
    3:{ cbn. replace (o + (8 + n) + (s - 8 - n + s2)) with (o + s + s2) by lia. replace (8 + n - 8) with n by lia. split; [done|lia]. }
    1,2: destruct (n + 20 <=? s - 8); cbn; (split; [|lia]); f_equal; try (f_equal; lia).
    replace (o + (8 + n) + (s - 8 - n)) with (o + s) by lia. done.
Qed.

Lemma entries_at bs l1 u s l2 : bs = l1 ++ (u, s) :: l2 ->
  entries 0 bs = entries 0 l1 ++ (if u then [(total l1 + 8, s - 8)] else []) ++ entries (total l1 + s) l2.
Proof. intros ->. now rewrite entries_app. Qed.

Lemma gap_nonneg m l1 u s l2 : block_at m l1 u s l2 -> 0 <= gap l2.
Proof.
  intros [_ _ _ _ [Ha _] _]. destruct l2 as [|[[] s2] l2]; cbn; try lia. destruct Ha as (_ & [Ha _] & _).
  unfold SIZEOF_STRUCT_MEM, MIN_SIZE_ALIGNED in Ha. lia.
Qed.

(** *** Writes of a client within its block *)

Lemma bytes_put_inside p n i bs m : 0 <= p -> 0 <= i -> i + size_of bs <= Z.of_nat n -> p + Z.of_nat n <= size_of m ->
  bytes_at p n (put (p + i) bs m) = put i bs (bytes_at p n m).
Proof.
  intros Hp Hi Hb Hm. unfold bytes_at, put. replace (Z.to_nat (p + i)) with (Z.to_nat p + Z.to_nat i)%nat by lia.
  rewrite drop_app_le by (rewrite length_take; lia). rewrite skipn_firstn_comm.
  replace (Z.to_nat p + Z.to_nat i - Z.to_nat p)%nat with (Z.to_nat i) by lia.
  rewrite take_app, length_take, length_drop, take_take. replace (Nat.min n (Z.to_nat i)) with (Z.to_nat i) by lia.
  rewrite take_take. replace (Nat.min (Z.to_nat i) n) with (Z.to_nat i) by lia. f_equal.
  replace (n - Nat.min (Z.to_nat i) (length m - Z.to_nat p))%nat with (n - Z.to_nat i)%nat by lia.
  rewrite take_app, (take_ge bs) by lia. f_equal. rewrite skipn_firstn_comm, drop_drop.
  f_equal; [lia|]. f_equal. lia.
Qed.

Lemma chain_put m p o l q bs : full m -> 0 <= q -> q + size_of bs <= size_of m -> 0 <= o -> chain m p o l -> q + size_of bs <= o ->
  chain (put q bs m) p o l.
Proof.
  intros Hm Hq Hqm Ho [H (He & r & Hr)] Hb.
  assert (forall o' nx pv u, o <= o' -> hdr m o' nx pv u -> hdr (put q bs m) o' nx pv u) as Hh.
  { intros o' nx pv u Ho' (<- & <- & <-). unfold hdr, next_of, prev_of, used_of, field. rewrite !bytes_put_other by lia. done. }
  pose proof (seg_total _ _ _ _ H) as [Ht _]. split.
  - clear Ht He Hr. revert p o Ho H Hb Hh. induction l as [|[u s] l IH]; intros p o Ho; cbn [seg]; [done|].
    intros (H1 & [H2 H3] & H4) Hb Hh. split; [apply Hh; [lia|done]|]. split; [done|].
    unfold SIZEOF_STRUCT_MEM, MIN_SIZE_ALIGNED in H2. apply IH; [lia|done|lia|]. intros o' nx pv u' Ho'. apply Hh. lia.
  - split; [done|]. exists r. apply Hh; [lia|done].
Qed.

Lemma seg_put m p o l q bs : 0 <= q -> q + size_of bs <= size_of m -> 0 <= o -> seg m p o l -> o + total l <= q ->
  seg (put q bs m) p o l.
Proof.
  intros Hq Hqm. revert p o. induction l as [|[u s] l IH]; intros p o Ho; cbn [seg]; [done|].
  intros (H1 & [H2 H3] & H4) Hb. rewrite mem_total_cons in Hb. pose proof (proj1 (seg_total _ _ _ _ H4)).
  unfold SIZEOF_STRUCT_MEM, MIN_SIZE_ALIGNED in H2.
  split; [|split; [done|apply IH; [lia|done|lia]]].
  destruct H1 as (<- & <- & <-). unfold hdr, next_of, prev_of, used_of, field. rewrite !bytes_put_other by lia. done.
Qed.

Lemma block_put m l1 u s l2 i bs : block_at m l1 u s l2 -> 0 <= i -> i + size_of bs <= s - 8 ->
  block_at (put (total l1 + 8 + i) bs m) l1 u s l2.
Proof.
  intros [Hm Hb F Hs Ha Hbd] Hi Hn. unfold full, MEM_SIZE_ALIGNED, SIZEOF_STRUCT_MEM in *.
  split; [unfold full; rewrite length_put by lia; exact Hm| | |done| |done].
  - apply seg_put; [lia|lia|lia|done|lia].
  - destruct F as (F1 & F2 & F3). unfold hdr, next_of, prev_of, used_of, field in *. now rewrite !bytes_put_other by lia.
  - apply chain_put; [unfold full, MEM_SIZE_ALIGNED, SIZEOF_STRUCT_MEM; lia|lia|lia|lia|done|lia].
Qed.

Section Simulation.
Context (h : heap) (bs : list block) (L : store) (Hok : heap_ok h bs) (HL : shows (ram h) bs L).

Lemma shows_entry p d : L !! p = Some d -> exists l1 l2 s,
  bs = l1 ++ (true, s) :: l2 /\ p = total l1 + 8 /\ size_of d = s - 8 /\ d = bytes_at p (length d) (ram h).
Proof using All.
  intros Hp. apply HL in Hp as (k & Hin & ->). pose proof Hin as Hin'. apply in_entries in Hin as (l1 & l2 & E & ->).
  exists l1, l2, (k + 8). split; [done|]. split; [done|].
  assert (heap_ok h (l1 ++ (true, k + 8) :: l2)) as Hok' by now rewrite <- E.
  apply ok_block in Hok' as [Hm Hb _ [Hs _] Ha Hbd]. unfold full, MEM_SIZE_ALIGNED, SIZEOF_STRUCT_MEM in *.
  rewrite bytes_at_length by lia. split; [lia|done].
Qed.

Lemma sim_malloc size : 0 <= size <= 65532 ->
  exists r h' L', exec (Malloc size) h = Ok (r, h') /\ spec_step L (Malloc size) r L' /\ represents h' L'.
Proof using All.
  intros Hs. destruct (Z.eqb_spec size 0) as [->|Hne].
  { exists None, h, L. split; [reflexivity|]. split; [apply S_full|]. now exists bs. }
  pose proof (mem_malloc_run h bs size Hok ltac:(lia)) as H. cbn [exec].
  pose proof (granted_spec size) as (Hg & Hg4 & Hgs). set (n := granted size) in *.
  destruct (if MEM_SIZE_ALIGNED <? n then None else fit n bs) as [[[l1 s] l2]|].
  2:{ exists None, h, L. split; [exact H|]. split; [apply S_full|]. now exists bs. }
  destruct H as (Ebs & Hfit & h' & E & Hok' & F). set (o := total l1) in *.
  assert (block_at (ram h) l1 false s l2) as HB by (apply ok_block; now rewrite <- Ebs).
  set (k := if n + 20 <=? s - 8 then n else s - 8).
  assert (n <= k <= s - 8) as Hk by (unfold k; destruct (n + 20 <=? s - 8); lia).
  assert (forall q k, (q, k) ∈ entries 0 l1 ++ entries (o + s) l2 ->
    q <> o + 8 /\ bytes_at q (Z.to_nat k) (ram h') = bytes_at q (Z.to_nat k) (ram h)) as Hoth.
  { intros q kq Hin. destruct (entries_around _ _ _ _ _ _ _ HB Hin) as (G1 & G2 & _ & G3). fold o in G3.
    pose proof HB as [_ _ _ [G4 _] _ _]. pose proof (gap_nonneg _ _ _ _ _ HB) as G5.
    split; [lia|]. apply (frame_bytes _ _ _ _ _ F); [lia|lia|]. set_solver by lia. }
  exists (Some (o + 8)), h', (<[o + 8 := bytes_at (o + 8) (Z.to_nat k) (ram h')]> L).
  split; [exact E|].
  pose proof HB as [Hm Hb _ [Hs20 _] Ha Hbd]. fold o in Hbd, Ha.
  assert (length (bytes_at (o + 8) (Z.to_nat k) (ram h')) = Z.to_nat k) as Hlen.
  { apply bytes_at_length; [lia|]. destruct F as [-> _]. unfold full, SIZEOF_STRUCT_MEM in Hm. lia. }
  split.
  - apply S_malloc; rewrite ?Hlen; [lia|lia| |lia|].
    + pose proof (proj2 (seg_total _ _ _ _ Hb)) as Ho. fold o in Ho. Z.div_mod_to_equations. lia.
    + intros q e He. rewrite Z2Nat.id by lia. apply HL in He as (kq & Hin & ->).
      rewrite (entries_at _ _ _ _ _ Ebs) in Hin. cbn [app] in Hin.
      destruct (entries_around _ _ _ _ _ _ _ HB Hin) as (G1 & G2 & G3 & G4).
      unfold full, SIZEOF_STRUCT_MEM in Hm. rewrite bytes_at_length by lia. fold o in G4.
      pose proof (gap_nonneg _ _ _ _ _ HB) as G5. lia.
  - exists (l1 ++ split_block s n ++ l2). split; [exact Hok'|].
    apply (shows_change (ram h) (ram h') bs _ L (entries 0 l1) (entries (o + s) l2) None (Some k) (o + 8) HL); [|  |exact Hoth].
    + now rewrite (entries_at _ _ _ _ _ Ebs).
    + now rewrite !entries_app, entries_split, total_split.
Qed.

Lemma sim_free p : is_Some (L !! p) ->
  exists r h' L', exec (Free p) h = Ok (r, h') /\ spec_step L (Free p) r L' /\ represents h' L'.
Proof using All.
  intros [d Hp]. destruct (shows_entry p d Hp) as (l1 & l2 & s & Ebs & -> & _).
  pose proof (entries_at _ _ _ _ _ Ebs) as Ee. cbn [app] in Ee.
  destruct (mem_free_run h l1 s l2) as (h' & E & Hok' & F); [now rewrite <- Ebs|].
  assert (block_at (ram h) l1 true s l2) as HB by (apply ok_block; now rewrite <- Ebs).
  exists None, h', (delete (total l1 + 8) L). cbn [exec]. rewrite (bind_ok _ _ _ _ _ E). split; [done|].
  split; [exact (S_free _ _ _ Hp)|]. exists (freed l1 s l2). split; [exact Hok'|].
  apply (shows_change (ram h) (ram h') bs _ L (entries 0 l1) (entries (total l1 + s) l2) (Some (s - 8)) None (total l1 + 8) HL);
    [exact Ee|apply entries_freed|].
  intros q k Hin. destruct (entries_around _ _ _ _ _ _ _ HB Hin) as (G1 & G2 & _ & G3).
  pose proof (gap_nonneg _ _ _ _ _ HB) as G5. destruct HB as [_ Hb _ [G4 _] _ _].
  pose proof (last_at_le _ _ _ _ Hb ltac:(lia)) as G6. split; [lia|]. apply (frame_bytes _ _ _ _ _ F); [lia|lia|]. intros t. rewrite join_next_gap, !elem_of_cons, elem_of_nil. lia.
Qed.

Lemma sim_trim p newsize : (exists d, L !! p = Some d /\ 0 <= newsize <= size_of d) ->
  exists r h' L', exec (Trim p newsize) h = Ok (r, h') /\ spec_step L (Trim p newsize) r L' /\ represents h' L'.
Proof using All.
  intros (d & Hp & Hn). destruct (shows_entry p d Hp) as (l1 & l2 & s & Ebs & -> & Hd & Ed).
  pose proof (entries_at _ _ _ _ _ Ebs) as Ee. cbn [app] in Ee.
  assert (block_at (ram h) l1 true s l2) as HB by (apply ok_block; now rewrite <- Ebs).
  pose proof HB as [Hm Hb _ [Hs20 Hs4] Ha Hbd]. pose proof (granted_spec newsize) as (Hg & Hg4 & Hgs).
  assert (granted newsize <= s - 8) as Hle.
  { unfold granted, at_least_min, MIN_SIZE_ALIGNED in *. pose proof (align_size newsize) as [A1 A2].
    destruct (_ <? 12); [lia|]. unfold MEM_SIZE_ALIGNED in *. rewrite wrap_small by (Z.div_mod_to_equations; lia).
    Z.div_mod_to_equations. lia. }
  destruct (mem_trim_run h l1 s l2 newsize) as (h' & E & Hok' & F); [now rewrite <- Ebs|exact Hle|]. fold (gap l2) in F.
  pose proof (gap_nonneg _ _ _ _ _ HB) as G5.
  destruct (entries_trimmed (total l1) s (granted newsize) l2 Hle) as (Ek & Hk). set (k := kept s (granted newsize) l2) in *.
  exists (Some (total l1 + 8)), h', (<[total l1 + 8 := bytes_at (total l1 + 8) (Z.to_nat k) (ram h')]> L).
  split; [exact E|]. split.
  - replace (bytes_at (total l1 + 8) (Z.to_nat k) (ram h')) with (take (Z.to_nat k) d).
    { apply S_trim; [exact Hp| |lia]. unfold MEM_SIZE_ALIGNED in *. lia. }
    rewrite Ed. unfold bytes_at at 1. rewrite take_take. replace (Nat.min _ _) with (Z.to_nat k) by lia.
    fold (bytes_at (total l1 + 8) (Z.to_nat k) (ram h)). symmetry.
    apply (frame_bytes _ _ _ _ _ F); [lia|lia|]. intros t. rewrite !elem_of_cons, elem_of_nil. lia.
  - exists (l1 ++ trimmed s (granted newsize) l2). split; [exact Hok'|].
    apply (shows_change (ram h) (ram h') bs _ L (entries 0 l1) (entries (total l1 + s) l2) (Some (s - 8)) (Some k) (total l1 + 8) HL);
      [exact Ee|rewrite entries_app; change (0 + total l1) with (total l1); now rewrite Ek|].
    intros q kq Hin. destruct (entries_around _ _ _ _ _ _ _ HB Hin) as (G1 & G2 & _ & G3).
    split; [lia|]. apply (frame_bytes _ _ _ _ _ F); [lia|lia|]. intros t. rewrite !elem_of_cons, elem_of_nil. lia.
Qed.


Lemma sim_write p i b : (exists d, L !! p = Some d /\ 0 <= i /\ i + size_of b <= size_of d) ->
  exists r h' L', exec (Write p i b) h = Ok (r, h') /\ spec_step L (Write p i b) r L' /\ represents h' L'.
Proof using All.
  intros (d & Hp & Hi & Hn). destruct (shows_entry p d Hp) as (l1 & l2 & s & Ebs & -> & Hd & Ed).
  pose proof (entries_at _ _ _ _ _ Ebs) as Ee. cbn [app] in Ee.
  assert (block_at (ram h) l1 true s l2) as HB by (apply ok_block; now rewrite <- Ebs).
  pose proof HB as [Hm Hb F [Hs20 Hs4] Ha Hbd]. pose proof (gap_nonneg _ _ _ _ _ HB) as G5.
  unfold full, MEM_SIZE_ALIGNED, SIZEOF_STRUCT_MEM in *. set (m' := put (total l1 + 8 + i) b (ram h)).
  assert (block_at m' l1 true s l2) as HB' by (apply block_put; [done|lia|lia]).
  exists None, (mkHeap m' (lfree h)), (<[total l1 + 8 := overwrite i b d]> L). cbn [exec].
  rewrite (bind_ok _ _ _ _ _ (run_store (total l1 + 8 + i) b h ltac:(lia) ltac:(lia))).
  split; [done|]. split; [exact (S_write _ _ _ _ _ Hp)|]. exists bs. split.
  - apply block_at_iff in HB' as [Hm' Hc']. rewrite <- Ebs in Hc'. split; [done|done|apply Hok|apply (ok_lfree _ _ Hok)].
  - cbn [ram]. replace (overwrite i b d) with (bytes_at (total l1 + 8) (Z.to_nat (s - 8)) m').
    + apply (shows_change (ram h) m' bs bs L (entries 0 l1) (entries (total l1 + s) l2) (Some (s - 8)) (Some (s - 8)) (total l1 + 8) HL);
        [exact Ee|exact Ee|].
      intros q k Hin. destruct (entries_around _ _ _ _ _ _ _ HB Hin) as (G1 & G2 & G3 & G4).
      unfold MEM_SIZE_ALIGNED in *. split; [lia|]. apply bytes_put_other; lia.
    + unfold m', overwrite. rewrite bytes_put_inside by lia. f_equal. rewrite Ed. f_equal. lia.
Qed.

Lemma sim o : legal L o -> exists r h' L', exec o h = Ok (r, h') /\ spec_step L o r L' /\ represents h' L'.
Proof using All.
  destruct o as [size|p|p newsize|p i b]; cbn [legal]; [apply sim_malloc|apply sim_free|apply sim_trim|apply sim_write].
Qed.
End Simulation.

(** ** The theorems *)

Lemma session_runs n client hist h L :
  (forall hist L, spec_run hist L -> legal L (client hist)) -> spec_run hist L -> represents h L ->
  exists hist' h' L', session n client hist h = Ok (hist', h') /\ spec_run hist' L' /\ represents h' L' /\
    length hist' = (length hist + n)%nat.
Proof.
  intros Hc. revert hist h L. induction n as [|n IH]; intros hist h L Hr Hh; cbn [session].
  - exists hist, h, L. split; [done|]. split; [done|]. split; [done|]. lia.
  - destruct Hh as (bs & Hok & HL). destruct (sim h bs L Hok HL _ (Hc _ _ Hr)) as (r & h1 & L1 & E & Hs & Hh1).
    rewrite (bind_ok _ _ _ _ _ E). destruct (IH _ h1 L1 (R_step _ _ _ _ _ Hr Hs) Hh1) as (hist' & h' & L' & E' & H1 & H2 & H3).
    exists hist', h', L'. split; [done|]. split; [done|]. split; [done|]. rewrite H3, length_app. cbn. lia.
Qed.

Lemma init_represents h : full (ram h) -> exists h', mem_init h = Ok (tt, h') /\ represents h' ∅ /\ heap_ok h' [(false, MEM_SIZE_ALIGNED)].
Proof.
  intros Hm. destruct (mem_init_run h Hm) as (m' & E & Hok & _). eexists. split; [exact E|]. split; [|done].
  exists [(false, MEM_SIZE_ALIGNED)]. split; [done|]. intros p d. rewrite lookup_empty. cbn. set_solver.
Qed.

(** C27: From its initialisation on, the heap behaves as a store of separate
    blocks to any client that asks for no more than 65532 bytes at once and
    touches only the blocks it holds: no operation fails or runs out of
    fuel, what is handed out is aligned, large enough and apart from every
    live block and the structures before them, and the bytes of a live
    block are those that its owner wrote last, whatever is allocated, freed
    and shrunk around it. *)
Theorem heap_refines_store n client h :
  full (ram h) -> (forall hist L, spec_run hist L -> legal L (client hist)) ->
  exists hist h' L, (mem_init;; session n client []) h = Ok (hist, h') /\ spec_run hist L /\ represents h' L /\ length hist = n.
Proof.
  intros Hm Hc. destruct (init_represents h Hm) as (h0 & E & Hh & _). rewrite (bind_ok _ _ _ _ _ E).
  exact (session_runs n client [] h0 ∅ Hc R_start Hh).
Qed.

(** A client that gives back every block it gets before it asks for another. *)
Definition one_at_a_time (hist : history) : op :=
  match last hist with Some (Malloc _, Some p) => Free p | _ => Malloc 100 end.
Definition zero_heap : heap := mkHeap (repeat 0 (Z.to_nat RAM_HEAP_SIZE)) 0.

Lemma zero_heap_full : full (ram zero_heap).
Proof. unfold full, zero_heap. cbn [ram]. rewrite repeat_length. vm_compute. discriminate. Qed.

Lemma one_at_a_time_polite hist L : spec_run hist L -> legal L (one_at_a_time hist).
Proof.
  unfold one_at_a_time. destruct 1 as [|hist L o r L' _ Hs]; [cbn; lia|]. rewrite last_snoc.
  destruct Hs; cbn; try lia. rewrite lookup_insert_eq. now exists d.
Qed.

Lemma heap_refines_store_witness :
  exists hist h' L, (mem_init;; session 5 one_at_a_time []) zero_heap = Ok (hist, h') /\ spec_run hist L /\ represents h' L /\ length hist = 5%nat.
Proof. exact (heap_refines_store 5 one_at_a_time zero_heap zero_heap_full one_at_a_time_polite). Defined.

(** No block of the list can hold [n] bytes. *)
Definition no_room (n : Z) (bs : list block) : Prop := Forall (fun b => b.1 = true \/ b.2 - 8 < n) bs.

Lemma fit_before n bs l1 s l2 : fit n bs = Some (l1, s, l2) -> no_room n l1.
Proof.
  revert l1. induction bs as [|[u t] bs IH]; intros l1; cbn [fit]; [done|].
  destruct (negb u && (n <=? t - SIZEOF_STRUCT_MEM)) eqn:E; [intros [= <- <- <-]; constructor|].
  destruct (fit n bs) as [[[l1' s'] l2']|]; [|done]. cbn. intros [= <- <- <-]. constructor; [|now apply IH].
  unfold SIZEOF_STRUCT_MEM in E. apply andb_false_iff in E as [E|E]; [left; now destruct u|right; now apply Z.leb_gt in E].
Qed.

Lemma too_large n bs h : heap_ok h bs -> MEM_SIZE_ALIGNED < n -> no_room n bs.
Proof.
  intros Hok Hn. apply fit_None. apply (fit_small (ram h) 0 0); [apply Hok|].
  pose proof (chain_total _ _ _ _ (ok_chain _ _ Hok)). lia.
Qed.

(** C28: mem_malloc takes the first free block with room for the request,
    rounded up to words, puts the rest of it back as a free block if that is
    worth it, and fails, leaving the heap as it is, only if no free block has
    room. *)
Theorem malloc_first_fit h bs size : heap_ok h bs -> 0 < size ->
  let n := granted size in
  exists r h', mem_malloc size h = Ok (r, h') /\
    match r with
    | Some p => exists l1 s l2, bs = l1 ++ (false, s) :: l2 /\ no_room n l1 /\ n <= s - 8 /\
        p = total l1 + 8 /\ heap_ok h' (l1 ++ split_block s n ++ l2)
    | None => h' = h /\ no_room n bs
    end.
Proof.
  intros Hok Hs n. pose proof (mem_malloc_run h bs size Hok Hs) as H. fold n in H.
  destruct (Z.ltb_spec MEM_SIZE_ALIGNED n) as [Hn|Hn].
  - exists None, h. split; [exact H|]. split; [done|]. now apply (too_large n bs h).
  - destruct (fit n bs) as [[[l1 s] l2]|] eqn:Ef.
    + destruct H as (Ebs & Hfit & h' & E & Hok' & _). exists (Some (total l1 + 8)), h'. split; [exact E|].
      exists l1, s, l2. apply fit_before in Ef. done.
    + exists None, h. split; [exact H|]. split; [done|]. now apply fit_None.
Qed.

Lemma init_ok : exists h', mem_init zero_heap = Ok (tt, h') /\ heap_ok h' [(false, MEM_SIZE_ALIGNED)].
Proof. destruct (init_represents zero_heap zero_heap_full) as (h' & E & _ & H). exists h'. split; [exact E|exact H]. Qed.

Lemma malloc_first_fit_witness : exists h, mem_init zero_heap = Ok (tt, h) /\
  let n := granted 100 in
  exists r h', mem_malloc 100 h = Ok (r, h') /\
    match r with
    | Some p => exists l1 s l2, [(false, MEM_SIZE_ALIGNED)] = l1 ++ (false, s) :: l2 /\ no_room n l1 /\ n <= s - 8 /\
        p = total l1 + 8 /\ heap_ok h' (l1 ++ split_block s n ++ l2)
    | None => h' = h /\ no_room n [(false, MEM_SIZE_ALIGNED)]
    end.
Proof.
  destruct init_ok as (h & E & H). exists h. split; [exact E|]. exact (malloc_first_fit h _ 100 H ltac:(lia)).
Defined.

Lemma one_block h bs : heap_ok h bs -> entries 0 bs = [] -> bs = [(false, MEM_SIZE_ALIGNED)].
Proof.
  intros [_ Hc Hh _] He. pose proof (chain_total _ _ _ _ Hc) as [Ht _]. cbn in Ht. destruct bs as [|[[] s] bs]; [done|done|].
  destruct bs as [|[[] s2] bs]; [|done|cbn in Hh; naive_solver]. cbn in Ht. do 2 f_equal. lia.
Qed.

(** A heap without blocks is one free block, and has room for all of it. *)
Lemma empty_is_whole h size : represents h ∅ -> 0 < size <= MEM_SIZE_ALIGNED - SIZEOF_STRUCT_MEM ->
  heap_ok h [(false, MEM_SIZE_ALIGNED)] /\ exists h', mem_malloc size h = Ok (Some 8, h').
Proof.
  intros (bs & Hok & HL) Hs. assert (bs = [(false, MEM_SIZE_ALIGNED)]) as ->.
  { apply (one_block h); [done|]. destruct (entries 0 bs) as [|[p k] l] eqn:E; [done|]. exfalso.
    assert (L0 : (∅ : store) !! p = Some (bytes_at p (Z.to_nat k) (ram h))) by (apply HL; exists k; rewrite E; split; [left|done]).
    rewrite lookup_empty in L0. discriminate. }
  split; [done|]. pose proof (mem_malloc_run h _ size Hok ltac:(lia)) as H.
  pose proof (align_size size) as [A1 A2].
  assert (granted size <= MEM_SIZE_ALIGNED - 8) as Hg.
  { unfold granted, at_least_min, MEM_SIZE_ALIGNED, SIZEOF_STRUCT_MEM, MIN_SIZE_ALIGNED in *. destruct (_ <? 12); [lia|].
    rewrite wrap_small by lia. Z.div_mod_to_equations. lia. }
  replace (MEM_SIZE_ALIGNED <? granted size) with false in H by (symmetry; apply Z.ltb_ge; unfold MEM_SIZE_ALIGNED in *; lia).
  cbn [fit negb andb] in H. unfold SIZEOF_STRUCT_MEM in H. rewrite (proj2 (Z.leb_le _ _) Hg) in H.
  destruct H as (_ & _ & h' & E & _). now exists h'.
Qed.

(** The pointers a client was given and has not given back. *)
Definition hold (s : gset Z) (x : op * option Z) : gset Z :=
  match x with
  | (Malloc _, Some p) => {[ p ]} ∪ s
  | (Free p, _) => s ∖ {[ p ]}
  | _ => s
  end.
Definition held (hist : history) : gset Z := foldl hold ∅ hist.

Lemma held_dom hist L : spec_run hist L -> held hist = dom L.
Proof.
  induction 1 as [|hist L o r L' _ IH Hs]; [unfold held; cbn [foldl]; set_solver|].
  unfold held in *. rewrite foldl_app, IH. cbn [foldl].
  destruct Hs; cbn [hold]; rewrite ?dom_insert_L, ?dom_delete_L; try done;
    symmetry; apply subseteq_union_1_L, singleton_subseteq_l, elem_of_dom; now exists d.
Qed.

(** C29: Nothing is lost to fragments: whatever blocks a client allocated,
    shrank and gave back since the initialisation, in whatever order, once it
    has given back all of them the heap is one free block again, and a
    request for all of it succeeds at its start. *)
Theorem all_freed_is_whole n client h size :
  full (ram h) -> (forall hist L, spec_run hist L -> legal L (client hist)) ->
  0 < size <= MEM_SIZE_ALIGNED - SIZEOF_STRUCT_MEM ->
  exists hist h', (mem_init;; session n client []) h = Ok (hist, h') /\
    (held hist = ∅ -> heap_ok h' [(false, MEM_SIZE_ALIGNED)] /\
       exists h'', mem_malloc size h' = Ok (Some 8, h'')).
Proof.
  intros Hm Hc Hs. destruct (init_represents h Hm) as (h0 & E & Hh & _). rewrite (bind_ok _ _ _ _ _ E).
  destruct (session_runs n client [] h0 ∅ Hc R_start Hh) as (hist & h' & L & R & Hrun & Hr & _).
  exists hist, h'. split; [exact R|]. intros He. apply empty_is_whole; [|exact Hs].
  rewrite (held_dom _ _ Hrun) in He. apply dom_empty_iff_L in He. now subst L.
Qed.

(** A client that takes three blocks and then gives back what it holds. *)
Definition three_blocks (hist : history) : op :=
  if decide (length hist < 3)%nat then Malloc (100 * Z.of_nat (S (length hist)))
  else match elements (held hist) with p :: _ => Free p | [] => Malloc 0 end.

Lemma three_blocks_polite hist L : spec_run hist L -> legal L (three_blocks hist).
Proof.
  intros H. unfold three_blocks. destruct (decide _); [cbn; lia|].
  destruct (elements (held hist)) as [|p l] eqn:E; [cbn; lia|]. cbn.
  apply elem_of_dom. rewrite <- (held_dom _ _ H). apply elem_of_elements. rewrite E. left.
Qed.

(** It gives back the second first: the third then has free blocks on both
    sides, and the first one behind it. *)
Definition three_given_back : history :=
  [(Malloc 100, Some 8); (Malloc 200, Some 116); (Malloc 300, Some 324);
   (Free 116, None); (Free 324, None); (Free 8, None)].

Lemma all_freed_is_whole_witness :
  exists h', (mem_init;; session 6 three_blocks []) zero_heap = Ok (three_given_back, h') /\
    heap_ok h' [(false, MEM_SIZE_ALIGNED)] /\ exists h'', mem_malloc 10232 h' = Ok (Some 8, h'').
Proof.
  destruct (all_freed_is_whole 6 three_blocks zero_heap 10232 zero_heap_full three_blocks_polite) as (hist & h' & R & H).
  { unfold MEM_SIZE_ALIGNED, SIZEOF_STRUCT_MEM. lia. }
  assert (match (mem_init;; session 6 three_blocks []) zero_heap with Ok (x, _) => x | _ => [] end = three_given_back) as Eh
    by (vm_compute; reflexivity).
  rewrite R in Eh. subst hist. exists h'. split; [exact R|]. apply H. vm_compute. reflexivity.
Defined.

(** A request for one of the three largest sizes wraps to zero when it is
    rounded up to words, and is answered with a block of twelve bytes. *)
Theorem malloc_size_wraps h size : full (ram h) -> 65533 <= size <= 65535 ->
  exists h', (mem_init;; mem_malloc size) h = Ok (Some 8, h') /\
    heap_ok h' [(true, SIZEOF_STRUCT_MEM + 12); (false, MEM_SIZE_ALIGNED - SIZEOF_STRUCT_MEM - 12)].
Proof.
  intros Hm Hs. destruct (init_represents h Hm) as (h0 & E & _ & Hok). rewrite (bind_ok _ _ _ _ _ E).
  pose proof (mem_malloc_run h0 _ size Hok ltac:(lia)) as H.
  assert (granted size = 12) as Eg.
  { assert (size = 65533 \/ size = 65534 \/ size = 65535) as [->|[->| ->]] by lia; reflexivity. }
  rewrite Eg in H. destruct H as (_ & _ & h' & E' & Hok' & _). now exists h'.
Qed.

Lemma malloc_size_wraps_witness : exists h', (mem_init;; mem_malloc 65534) zero_heap = Ok (Some 8, h') /\
  heap_ok h' [(true, SIZEOF_STRUCT_MEM + 12); (false, MEM_SIZE_ALIGNED - SIZEOF_STRUCT_MEM - 12)].
Proof. exact (malloc_size_wraps zero_heap 65534 zero_heap_full ltac:(lia)). Defined.

(** [mem_calloc] allocates the product modulo 2^16 and zeroes all of it. *)
Lemma calloc_overruns : (mem_init;; mem_calloc 256 257) zero_heap = Fault OutOfBounds.
Proof. vm_compute. reflexivity. Qed.
