(* ===== verification/Pbuf.v ===== *)
(** * Pbuf: lwIP's packet buffers

    The functions of lib/lwip/src/core/pbuf.c the network server calls, on a
    heap that maps pointers to the live buffers of the receive pool; and the
    driver's copy of a frame into a chain of them (ethernetif.c).  A buffer
    that is returned to the pool leaves the heap, and an access to it is a
    fault.  Shows what the functions do to a chain, and that they leave the
    buffers outside it alone. *)

From Stdlib Require Import ZArith Lia.
From stdpp Require Import base numbers list gmap fin_maps.
From S2P Require Import Prelude.
#[local] Open Scope c_scope.

(** ** Buffers *)

Abbreviation ptr := nat.

(** [len] is the length of the payload. *)
Record pbuf := mkPbuf {
    p_next : option ptr;
    payload : list Z;
    tot_len : Z;
    p_ref : Z;
  }.

Abbreviation heap := (gmap nat pbuf).

Definition p_len (b : pbuf) : Z := Z.of_nat (length (payload b)).
Definition with_next (v : option ptr) (b : pbuf) := mkPbuf v (payload b) (tot_len b) (p_ref b).
Definition with_payload (v : list Z) (b : pbuf) := mkPbuf (p_next b) v (tot_len b) (p_ref b).
Definition with_tot_len (v : Z) (b : pbuf) := mkPbuf (p_next b) (payload b) v (p_ref b).
Definition with_ref (v : Z) (b : pbuf) := mkPbuf (p_next b) (payload b) (tot_len b) v.

Definition pbuf_at (p : ptr) : M heap pbuf := b ← gets (lookup p); deref DanglingPtr b.
Definition pbuf_put (p : ptr) (b : pbuf) : M heap unit := modify <[p := b]>.
Definition pbuf_update (p : ptr) (f : pbuf -> pbuf) : M heap unit := b ← pbuf_at p; pbuf_put p (f b).

Definition PBUF_POOL_SIZE : Z := 8.
Definition PBUF_POOL_BUFSIZE : Z := 500.

(** [memp_malloc(MEMP_PBUF_POOL)] and [memp_free]. *)
Definition memp_malloc_pbuf (b : pbuf) : M heap (option ptr) :=
  h ← get;
  if Z.of_nat (size h) <? PBUF_POOL_SIZE
  then let p := fresh (dom h) in pbuf_put p b;; mret (Some p)
  else mret None.
Definition memp_free_pbuf (p : ptr) : M heap unit := modify (delete p).

(** The loop ends since every turn but the last frees a buffer. *)
Fixpoint free_loop (fuel : nat) (p : option ptr) (count : Z) : M heap Z :=
  match fuel with
  | O => hang
  | S fuel =>
      match p with
      | None => mret count
      | Some p =>
          b ← pbuf_at p;
          let ref := u16 (p_ref b - 1) in
          pbuf_put p (with_ref ref b);;
          if ref =? 0 then
            memp_free_pbuf p;;
            free_loop fuel (p_next b) (u8 (count + 1))
          else mret count
      end
  end.

Definition pbuf_free (p : option ptr) : M heap Z :=
  match p with
  | None => mret 0
  | Some _ => h ← get; free_loop (S (size h)) p 0
  end.

Definition pbuf_ref (p : option ptr) : M heap unit :=
  match p with
  | Some p => pbuf_update p (fun b => with_ref (u16 (p_ref b + 1)) b)
  | None => mret tt
  end.

(** [for (p = h; p->next != NULL; p = p->next) p->tot_len += t->tot_len]:
    the last buffer of the chain. *)
Fixpoint cat_loop (fuel : nat) (p : ptr) (t : ptr) : M heap ptr :=
  match fuel with
  | O => hang
  | S fuel =>
      b ← pbuf_at p;
      match p_next b with
      | None => mret p
      | Some next =>
          bt ← pbuf_at t;
          pbuf_put p (with_tot_len (u16 (tot_len b + tot_len bt)) b);;
          cat_loop fuel next t
      end
  end.

Definition pbuf_cat (h t : option ptr) : M heap unit :=
  match h, t with
  | Some h, Some t =>
      m ← get;
      p ← cat_loop (S (size m)) h t;
      bt ← pbuf_at t;
      pbuf_update p (fun b => with_next (Some t) (with_tot_len (u16 (tot_len b + tot_len bt)) b))
  | _, _ => mret tt
  end.

Definition pbuf_chain (h t : option ptr) : M heap unit := pbuf_cat h t;; pbuf_ref t.

(** [pbuf_alloc(PBUF_RAW, length, PBUF_POOL)].  The tail: the buffers still
    to be linked behind [r]; [false] if the pool is empty. *)
Fixpoint alloc_tail (fuel : nat) (r : ptr) (rem_len : Z) : M heap bool :=
  match fuel with
  | O => hang
  | S fuel =>
      if 0 <? rem_len then
        let len := Z.min (u16 rem_len) PBUF_POOL_BUFSIZE in
        q ← memp_malloc_pbuf (mkPbuf None (replicate (Z.to_nat len) 0) (u16 rem_len) 1);
        match q with
        | None => mret false
        | Some q =>
            pbuf_update r (with_next (Some q));;
            alloc_tail fuel q (rem_len - len)
        end
      else mret true
  end.

Definition pbuf_alloc (length : Z) : M heap (option ptr) :=
  let len := Z.min length PBUF_POOL_BUFSIZE in
  p ← memp_malloc_pbuf (mkPbuf None (replicate (Z.to_nat len) 0) length 1);
  match p with
  | None => mret None
  | Some p =>
      ok ← alloc_tail (S (Z.to_nat length)) p (length - len);
      if (ok : bool) then mret (Some p) else pbuf_free (Some p);; mret None
  end.

(** [pbuf_header] with a negative increment: the first [n] bytes are hidden;
    [1] if the first buffer does not hold them. *)
Definition pbuf_header (p : option ptr) (n : Z) : M heap Z :=
  match p with
  | None => mret 0
  | Some p =>
      b ← pbuf_at p;
      if n <=? p_len b then
        pbuf_put p (with_tot_len (u16 (tot_len b - n)) (with_payload (drop (Z.to_nat n) (payload b)) b));;
        mret 0
      else mret 1
  end.

(** [pbuf_realloc]: the chain is cut to [new_len] bytes.  The loop steps over
    the buffers that are kept whole. *)
Fixpoint realloc_loop (fuel : nat) (q : option ptr) (rem_len grow : Z) : M heap (ptr * Z) :=
  match fuel with
  | O => hang
  | S fuel =>
      p ← deref NullDeref q;
      b ← pbuf_at p;
      if p_len b <? rem_len then
        pbuf_put p (with_tot_len (u16 (tot_len b + u16 grow)) b);;
        realloc_loop fuel (p_next b) (u16 (rem_len - p_len b)) grow
      else mret (p, rem_len)
  end.

Definition pbuf_realloc (p : ptr) (new_len : Z) : M heap unit :=
  b ← pbuf_at p;
  if tot_len b <=? new_len then mret tt
  else
    h ← get;
    qr ← realloc_loop (S (size h)) (Some p) new_len (new_len - tot_len b);
    let '(q, rem_len) := qr in
    pbuf_update q (fun b => with_tot_len rem_len (with_payload (take (Z.to_nat rem_len) (payload b)) b));;
    b ← pbuf_at q;
    (match p_next b with Some _ => pbuf_free (p_next b);; mret tt | None => mret tt end);;
    pbuf_update q (with_next None).

(** ** The driver *)

(** The loop over the chain: each buffer takes its length of the frame. *)
Fixpoint copy_frame (fuel : nat) (q : option ptr) (frame : list Z) : M heap unit :=
  match fuel with
  | O => hang
  | S fuel =>
      match q with
      | None => mret tt
      | Some q =>
          b ← pbuf_at q;
          let n := length (payload b) in
          part ← deref OutOfBounds (read_bytes 0 n frame);
          pbuf_put q (with_payload part b);;
          copy_frame fuel (p_next b) (drop n frame)
      end
  end.

(** The frame the hardware received, copied into buffers of the pool, or
    dropped when the pool has not enough of them. *)
Definition low_level_input (frame : list Z) : M heap (option ptr) :=
  p ← pbuf_alloc (u16 (Z.of_nat (length frame)));
  match p with
  | None => mret None
  | Some _ => h ← get; copy_frame (S (size h)) p frame;; mret p
  end.

(** ** Chains *)

(** The buffers from [p] on are those of [l], in order. *)
Fixpoint chain (h : heap) (p : option ptr) (l : list ptr) : Prop :=
  match l with
  | [] => p = None
  | x :: l => p = Some x /\ exists b, h !! x = Some b /\ chain h (p_next b) l
  end.

Definition payloads (h : heap) (l : list ptr) : list (list Z) :=
  map (fun p => from_option payload [] (h !! p)) l.

Lemma chain_fun h p l l' : chain h p l -> chain h p l' -> l = l'.
Proof.
  revert p l'. induction l as [|x l IH]; intros p [|x' l']; cbn [chain]; [done|intros -> [? _]; done|intros [? _] ->; done|].
  intros [-> (b & Hb & Hl)] ([= <-] & b' & Hb' & Hl'). f_equal. apply (IH (p_next b)); [done|congruence].
Qed.

Lemma chain_app h p l1 l2 :
  chain h p (l1 ++ l2) -> exists q, chain h q l2 /\ (forall x l, l2 = x :: l -> q = Some x).
Proof.
  revert p. induction l1 as [|x l1 IH]; intros p H; cbn [app chain] in H.
  - exists p. split; [done|]. intros x l ->. apply H.
  - destruct H as (-> & b & _ & H). exact (IH _ H).
Qed.

(** A chain that ends visits no buffer twice. *)
Lemma chain_nodup h p l : chain h p l -> NoDup l.
Proof.
  revert p. induction l as [|x l IH]; intros p H; [constructor|].
  pose proof H as H0. destruct H as (-> & b & Hb & Hl). constructor; [|exact (IH _ Hl)].
  intros (l1 & l2 & ->)%list_elem_of_split. destruct (chain_app h _ l1 (x :: l2) Hl) as (q & Hq & Eq).
  rewrite (Eq x l2 eq_refl) in Hq. pose proof (chain_fun _ _ _ _ H0 Hq) as E.
  apply (f_equal length) in E. cbn [length] in E. rewrite length_app in E. cbn [length] in E. lia.
Qed.

Lemma chain_live h p l x : chain h p l -> x ∈ l -> is_Some (h !! x).
Proof.
  revert p. induction l as [|y l IH]; intros p H Hx; [now apply elem_of_nil in Hx|].
  destruct H as (_ & b & Hb & Hl). apply elem_of_cons in Hx as [->|Hx]; [now exists b|exact (IH _ Hl Hx)].
Qed.

(** What keeps the links of a chain's buffers keeps the chain. *)
Lemma chain_agree h h' p l :
  (forall x, x ∈ l -> p_next <$> h !! x = p_next <$> h' !! x) -> chain h p l -> chain h' p l.
Proof.
  revert p. induction l as [|x l IH]; intros p Ha H; [done|].
  destruct H as (-> & b & Hb & Hl). split; [done|].
  pose proof (Ha x ltac:(left)) as Hx. rewrite Hb in Hx. cbn in Hx.
  destruct (h' !! x) as [b'|] eqn:Eb; [|done]. injection Hx as Hx. exists b'. split; [done|]. rewrite <- Hx.
  apply IH; [|done]. intros y Hy. apply Ha. now right.
Qed.

Lemma payloads_agree h h' l :
  (forall x, x ∈ l -> payload <$> h !! x = payload <$> h' !! x) -> payloads h l = payloads h' l.
Proof.
  intros Ha. unfold payloads. apply map_ext_in. intros x Hx%list_elem_of_In.
  specialize (Ha x Hx). destruct (h !! x), (h' !! x); try done; cbn in *; congruence.
Qed.

Lemma payloads_app h l1 l2 : payloads h (l1 ++ l2) = payloads h l1 ++ payloads h l2.
Proof. apply map_app. Qed.

(** A chain is no longer than the heap. *)
Lemma chain_size h p l : chain h p l -> (length l <= size h)%nat.
Proof.
  intros H. assert (size h = size (dom h : gset ptr)) as -> by (symmetry; apply size_dom).
  rewrite <- (size_list_to_set (C := gset ptr) l) by exact (chain_nodup _ _ _ H).
  apply subseteq_size. intros x Hx%elem_of_list_to_set. apply elem_of_dom. exact (chain_live _ _ _ _ H Hx).
Qed.

(** ** The functions on chains *)

Lemma pbuf_at_ok h p b : h !! p = Some b -> pbuf_at p h = Ok (b, h).
Proof. intros Hb. unfold pbuf_at. erewrite bind_ok by reflexivity. now rewrite Hb. Qed.

Lemma pbuf_update_ok h p b f : h !! p = Some b -> pbuf_update p f h = Ok (tt, <[p := f b]> h).
Proof. intros Hb. unfold pbuf_update. now rewrite (bind_ok _ _ _ _ _ (pbuf_at_ok _ _ _ Hb)). Qed.

(** What freeing a chain leaves: the buffers referred to once are gone, up
    to the first that is not. *)
Fixpoint freed (h : heap) (l : list ptr) : heap :=
  match l with
  | [] => h
  | x :: l =>
      match h !! x with
      | Some b => if u16 (p_ref b - 1) =? 0 then freed (delete x h) l else <[x := with_ref (u16 (p_ref b - 1)) b]> h
      | None => h
      end
  end.

Lemma freed_other h l x : x ∉ l -> freed h l !! x = h !! x.
Proof.
  revert h. induction l as [|y l IH]; intros h Hx; cbn [freed]; [done|].
  apply not_elem_of_cons in Hx as [Hxy Hx].
  destruct (h !! y) as [b|] eqn:Eb; [|done]. destruct (_ =? 0); [|now rewrite lookup_insert_ne].
  rewrite IH by done. now rewrite lookup_delete_ne.
Qed.

Lemma free_loop_spec fuel h p l count :
  chain h p l -> (length l < fuel)%nat -> exists n, free_loop fuel p count h = Ok (n, freed h l).
Proof.
  revert h p l count. induction fuel as [|fuel IH]; intros h p l count H Hf; [lia|].
  destruct l as [|x l]; cbn [free_loop freed].
  - cbn in H. subst p. now exists count.
  - pose proof (chain_nodup _ _ _ H) as Hnd. destruct H as (-> & b & Hb & Hl). rewrite Hb.
    rewrite (bind_ok _ _ _ _ _ (pbuf_at_ok _ _ _ Hb)). unfold pbuf_put, memp_free_pbuf. cbv zeta.
    erewrite bind_ok by reflexivity.
    destruct (u16 (p_ref b - 1) =? 0); [|now exists count].
    erewrite bind_ok by reflexivity. rewrite delete_insert_eq.
    apply IH; [|cbn [length] in Hf; lia]. apply (chain_agree h); [|done].
    intros y Hy. rewrite lookup_delete_ne; [done|]. intros ->. inversion Hnd. done.
Qed.

Lemma pbuf_free_spec h p l : chain h p l -> exists n, pbuf_free p h = Ok (n, freed h l).
Proof.
  intros H. pose proof (chain_size _ _ _ H) as Hs. destruct l as [|x l].
  - cbn in H. subst p. now exists 0.
  - pose proof H as (-> & _). unfold pbuf_free. erewrite bind_ok by reflexivity. apply free_loop_spec; [done|lia].
Qed.

(** The same buffers with the same data and counts. *)
Definition same_data (h h' : heap) : Prop :=
  forall x, payload <$> h !! x = payload <$> h' !! x /\ p_ref <$> h !! x = p_ref <$> h' !! x.
Definition same_links (h h' : heap) : Prop := forall x, p_next <$> h !! x = p_next <$> h' !! x.

Lemma put_same_data h p b b' :
  h !! p = Some b -> payload b' = payload b -> p_ref b' = p_ref b -> same_data h (<[p := b']> h).
Proof.
  intros Hb Hp Hr x. destruct (decide (x = p)) as [->|Hne].
  - rewrite lookup_insert_eq, Hb. cbn. now rewrite Hp, Hr.
  - now rewrite lookup_insert_ne.
Qed.

Lemma put_same_links h p b b' : h !! p = Some b -> p_next b' = p_next b -> same_links h (<[p := b']> h).
Proof.
  intros Hb Hn x. destruct (decide (x = p)) as [->|Hne].
  - rewrite lookup_insert_eq, Hb. cbn. now rewrite Hn.
  - now rewrite lookup_insert_ne.
Qed.

Lemma same_data_trans h1 h2 h3 : same_data h1 h2 -> same_data h2 h3 -> same_data h1 h3.
Proof. intros H1 H2 x. destruct (H1 x), (H2 x). split; congruence. Qed.

Lemma same_data_live h h' x : same_data h h' -> is_Some (h !! x) -> is_Some (h' !! x).
Proof. intros H [b Hb]. destruct (H x) as [H1 _]. rewrite Hb in H1. destruct (h' !! x); [eauto|done]. Qed.

Lemma cat_loop_spec fuel h x l t bt :
  chain h (Some x) (x :: l) -> (length l < fuel)%nat -> h !! t = Some bt -> t ∉ x :: l ->
  exists h' z, cat_loop fuel x t h = Ok (z, h') /\ last (x :: l) = Some z /\
    same_data h h' /\ same_links h h' /\ forall y, y ∉ x :: l -> h' !! y = h !! y.
Proof.
  revert h x l. induction fuel as [|fuel IH]; intros h x l H Hf Ht Hd; [lia|].
  pose proof (chain_nodup _ _ _ H) as Hnd. destruct H as (_ & b & Hb & Hl).
  cbn [cat_loop]. rewrite (bind_ok _ _ _ _ _ (pbuf_at_ok _ _ _ Hb)). destruct l as [|y l].
  - cbn in Hl. rewrite Hl. exists h, x. split_and!; done.
  - pose proof Hl as (En & _). rewrite En. rewrite (bind_ok _ _ _ _ _ (pbuf_at_ok _ _ _ Ht)). unfold pbuf_put.
    set (b' := with_tot_len (u16 (tot_len b + tot_len bt)) b).
    erewrite (bind_ok _ _ h) by reflexivity.
    pose proof (put_same_data h x b b' Hb eq_refl eq_refl) as S1. pose proof (put_same_links h x b b' Hb eq_refl) as L1.
    assert (t <> x) as Hne by (intros ->; apply Hd; left).
    destruct (IH (<[x := b']> h) y l) as (h' & z & E1 & Hz & S2 & L2 & F2).
    + rewrite En in Hl. apply (chain_agree h); [|exact Hl]. intros; apply L1.
    + cbn [length] in Hf. lia.
    + now rewrite lookup_insert_ne.
    + intros Hin. apply Hd. now right.
    + exists h', z. split; [exact E1|]. split; [exact Hz|]. split; [now apply (same_data_trans _ _ _ S1)|]. split.
      * intros q. now rewrite <- L2, <- L1.
      * intros q Hq. apply not_elem_of_cons in Hq as [Hqx Hq]. rewrite F2 by done. now rewrite lookup_insert_ne.
Qed.

(** Concatenation joins two chains that share no buffer, and changes neither
    data nor counts. *)
Lemma pbuf_cat_spec h x l t lt :
  chain h (Some x) (x :: l) -> chain h (Some t) (t :: lt) -> (forall y, y ∈ x :: l -> y ∉ t :: lt) ->
  exists h', pbuf_cat (Some x) (Some t) h = Ok (tt, h') /\ chain h' (Some x) ((x :: l) ++ t :: lt) /\
    same_data h h' /\ forall y, y ∉ x :: l -> h' !! y = h !! y.
Proof.
  intros Hx Ht Hd. pose proof (chain_size _ _ _ Hx) as Hs. pose proof Ht as (_ & bt & Hbt & _).
  assert (t ∉ x :: l) as Htl by (intros Hin; apply (Hd t Hin); left).
  destruct (cat_loop_spec (S (size h)) h x l t bt Hx ltac:(cbn [length] in Hs; lia) Hbt Htl)
    as (h1 & z & E1 & Hz & S1 & L1 & F1).
  unfold pbuf_cat. erewrite bind_ok by reflexivity. rewrite (bind_ok _ _ _ _ _ E1).
  rewrite (bind_ok _ _ h1 bt h1) by (apply pbuf_at_ok; now rewrite F1).
  destruct (h1 !! z) as [bz|] eqn:Ez.
  2:{ apply last_Some in Hz as [l' El]. assert (is_Some (h !! z)) as Hlive.
      { apply (chain_live _ _ _ _ Hx). rewrite El. apply elem_of_app. right. left. }
      apply (same_data_live _ _ _ S1) in Hlive as [b Hb]. congruence. }
  rewrite (pbuf_update_ok _ _ _ _ Ez). set (bz' := with_next _ _).
  exists (<[z := bz']> h1). split; [reflexivity|].
  assert (z ∈ x :: l) as Hzin by (apply last_Some in Hz as [l' ->]; apply elem_of_app; right; left).
  assert (chain (<[z := bz']> h1) (Some t) (t :: lt)) as Ht'.
  { apply (chain_agree h1); [|apply (chain_agree h); [|exact Ht]]; [|intros; apply L1].
    intros y Hy. rewrite lookup_insert_ne; [done|]. intros <-. exact (Hd z Hzin Hy). }
  split; [|split].
  - assert (chain h1 (Some x) (x :: l)) as Hx1 by (apply (chain_agree h); [intros; apply L1|exact Hx]).
    assert (NoDup (x :: l)) as Hnd by exact (chain_nodup _ _ _ Hx).
    clear -Hx1 Hz Ez Ht' Hnd. generalize dependent (Some x). revert Hz Hnd. generalize (x :: l) as lx. intros lx.
    induction lx as [|y lx IH]; intros Hz Hnd p H; [done|].
    destruct H as (-> & b & Hb & Hl). inversion_clear Hnd as [|? ? Hy Hnd']. destruct lx as [|y' lx].
    + injection Hz as ->. cbn [app]. split; [done|]. exists bz'. rewrite lookup_insert_eq. split; [done|exact Ht'].
    + rewrite last_cons_cons in Hz.
      assert (y <> z) as Hne by (intros ->; apply Hy; apply last_Some in Hz as [l' ->]; apply elem_of_app; right; left).
      cbn [app]. split; [done|]. exists b. rewrite lookup_insert_ne by done. split; [done|]. exact (IH Hz Hnd' _ Hl).
  - apply (same_data_trans _ _ _ S1). now apply (put_same_data _ _ bz).
  - intros y Hy. rewrite lookup_insert_ne by (intros <-; done). now apply F1.
Qed.

(** ** Allocation *)

(** The buffers [l] are new in [h'], each referred to once. *)
Definition fresh_in (h h' : heap) (l : list ptr) : Prop :=
  forall y, y ∈ l -> h !! y = None /\ exists b, h' !! y = Some b /\ p_ref b = 1.

Lemma memp_malloc_spec b h :
  memp_malloc_pbuf b h = Ok (None, h) \/
  exists p, memp_malloc_pbuf b h = Ok (Some p, <[p := b]> h) /\ h !! p = None.
Proof.
  unfold memp_malloc_pbuf. erewrite bind_ok by reflexivity. destruct (_ <? _); [right|now left].
  exists (fresh (dom h)). split; [reflexivity|]. apply not_elem_of_dom, is_fresh.
Qed.

Lemma chain_snoc h p l r q b :
  chain h (Some p) (l ++ [r]) -> h !! q = None -> p_next b = None ->
  forall br, h !! r = Some br ->
  chain (<[r := with_next (Some q) br]> (<[q := b]> h)) (Some p) (l ++ [r; q]).
Proof.
  intros H Hq Hb br Hr. pose proof (chain_nodup _ _ _ H) as Hnd.
  assert (r <> q) as Hrq by congruence. revert H Hnd. generalize (Some p).
  induction l as [|x l IH]; intros o H Hnd; cbn [app chain] in *.
  - destruct H as (-> & _). split; [done|]. exists (with_next (Some q) br). rewrite lookup_insert_eq.
    split; [done|]. split; [done|]. exists b. rewrite lookup_insert_ne, lookup_insert_eq by done. done.
  - destruct H as (-> & bx & Hx & Hl). inversion_clear Hnd as [|? ? Hxl Hnd']. split; [done|].
    exists bx. assert (x <> r) by (intros ->; apply Hxl, elem_of_app; right; left).
    rewrite !lookup_insert_ne by congruence. split; [done|]. exact (IH _ Hl Hnd').
Qed.

Lemma alloc_tail_spec fuel h p l r rem :
  chain h (Some p) (l ++ [r]) -> 0 <= rem < 2 ^ 16 -> (Z.to_nat rem < fuel)%nat ->
  exists ok h' l', alloc_tail fuel r rem h = Ok (ok, h') /\ chain h' (Some p) (l ++ r :: l') /\
    fresh_in h h' l' /\ (forall y, y ∉ r :: l' -> h' !! y = h !! y) /\
    payload <$> h' !! r = payload <$> h !! r /\ p_ref <$> h' !! r = p_ref <$> h !! r /\
    tot_len <$> h' !! r = tot_len <$> h !! r /\
    (ok = true -> Z.of_nat (length (concat (payloads h' l'))) = rem).
Proof.
  revert h l r rem. induction fuel as [|fuel IH]; intros h l r rem H Hr Hf; [lia|].
  cbn [alloc_tail]. destruct (Z.ltb_spec 0 rem) as [Hpos|Hz].
  2:{ exists true, h, []. split_and!; try done; [intros ? []%elem_of_nil|cbn; lia]. }
  rewrite (wrap_small 16) by lia. set (len := Z.min rem PBUF_POOL_BUFSIZE).
  assert (0 < len <= rem) as Hlen by (unfold len, PBUF_POOL_BUFSIZE; lia).
  set (b := mkPbuf None _ _ _). destruct (memp_malloc_spec b h) as [E|(q & E & Hq)]; rewrite (bind_ok _ _ _ _ _ E).
  { exists false, h, []. split_and!; try done. intros ? []%elem_of_nil. }
  destruct (chain_live _ _ _ r H) as [br Hbr]; [apply elem_of_app; right; left|].
  assert (r <> q) as Hrq by congruence.
  rewrite (bind_ok _ _ _ _ _ (pbuf_update_ok (<[q := b]> h) r br _ ltac:(now rewrite lookup_insert_ne))).
  set (h1 := <[r := _]> _).
  assert (h1 !! q = Some b) as Hq1 by (unfold h1; now rewrite lookup_insert_ne, lookup_insert_eq).
  pose proof (chain_snoc h p l r q b H Hq eq_refl br Hbr) as Hc. fold h1 in Hc.
  change (l ++ [r; q]) with (l ++ [r] ++ [q]) in Hc. rewrite app_assoc in Hc.
  destruct (IH h1 (l ++ [r]) q (rem - len) Hc ltac:(lia) ltac:(lia)) as (ok & h' & l' & E1 & Hc' & Hfr & Hoth & Hp & Hrf & _ & Hsum).
  pose proof (chain_nodup _ _ _ Hc') as Hnd. rewrite <- app_assoc in Hnd, Hc'. cbn [app] in Hnd, Hc'.
  apply NoDup_app in Hnd as (_ & _ & Hnd). inversion_clear Hnd as [|? ? Hrl _].
  assert (h' !! r = h1 !! r) as Hr' by (apply Hoth; exact Hrl).
  exists ok, h', (q :: l'). split; [exact E1|]. split; [exact Hc'|]. split; [|split; [|split; [|split; [|split]]]].
  - intros y [->|Hy]%elem_of_cons.
    + split; [done|]. rewrite Hq1 in Hrf. destruct (h' !! q) as [bq|]; [|done]. injection Hrf as Hrf. now exists bq.
    + destruct (Hfr y Hy) as [H1 H2]. split; [|done]. assert (y <> r) by (intros ->; apply Hrl; now right).
      unfold h1 in H1. rewrite lookup_insert_ne in H1 by done. apply lookup_insert_None in H1. tauto.
  - intros y Hy. rewrite !not_elem_of_cons in Hy. rewrite Hoth by (apply not_elem_of_cons; tauto).
    destruct Hy as (? & ? & ?). unfold h1. now rewrite !lookup_insert_ne by congruence.
  - rewrite Hr'. unfold h1. now rewrite lookup_insert_eq, Hbr.
  - rewrite Hr'. unfold h1. now rewrite lookup_insert_eq, Hbr.
  - rewrite Hr'. unfold h1. now rewrite lookup_insert_eq, Hbr.
  - intros Hok. cbn [payloads map concat]. fold (payloads h' l'). rewrite length_app.
    rewrite Hq1 in Hp. destruct (h' !! q) as [bq|]; [|done]. injection Hp as Hp. cbn [from_option]. rewrite Hp.
    unfold b. cbn [payload]. rewrite length_replicate. specialize (Hsum Hok). lia.
Qed.

Lemma freed_all h l :
  NoDup l -> (forall y, y ∈ l -> exists b, h !! y = Some b /\ p_ref b = 1) ->
  forall y, freed h l !! y = if decide (y ∈ l) then None else h !! y.
Proof.
  intros Hnd. revert h. induction Hnd as [|x l Hx Hnd IH]; intros h Hl y; cbn [freed].
  - rewrite decide_False by apply not_elem_of_nil. done.
  - destruct (Hl x ltac:(left)) as (b & -> & ->). change (u16 (1 - 1) =? 0) with true. cbv iota.
    rewrite IH.
    2:{ intros z Hz. destruct (Hl z ltac:(now right)) as (bz & Hbz & Hr). exists bz.
        rewrite lookup_delete_ne by (intros ->; done). done. }
    destruct (decide (y = x)) as [->|Hne].
    + rewrite decide_False, lookup_delete_eq by done. rewrite decide_True by left. done.
    + rewrite lookup_delete_ne by done. destruct (decide (y ∈ l)) as [Hin|Hin].
      * rewrite decide_True by (now right). done.
      * rewrite decide_False by (apply not_elem_of_cons; done). done.
Qed.

Lemma pbuf_alloc_spec n h :
  0 <= n < 2 ^ 16 ->
  pbuf_alloc n h = Ok (None, h) \/
  exists p l h', pbuf_alloc n h = Ok (Some p, h') /\ chain h' (Some p) (p :: l) /\ fresh_in h h' (p :: l) /\
    (forall y, y ∉ p :: l -> h' !! y = h !! y) /\ tot_len <$> h' !! p = Some n /\
    p_len <$> h' !! p = Some (Z.min n PBUF_POOL_BUFSIZE) /\ Z.of_nat (length (concat (payloads h' (p :: l)))) = n.
Proof.
  intros Hn. unfold pbuf_alloc. set (len := Z.min n PBUF_POOL_BUFSIZE).
  assert (0 <= len <= n) as Hlen by (unfold len, PBUF_POOL_BUFSIZE; lia).
  set (b := mkPbuf None _ _ _). destruct (memp_malloc_spec b h) as [E|(p & E & Hp)]; rewrite (bind_ok _ _ _ _ _ E).
  { now left. }
  assert (chain (<[p := b]> h) (Some p) ([] ++ [p])) as Hc by (split; [done|]; exists b; now rewrite lookup_insert_eq).
  destruct (alloc_tail_spec (S (Z.to_nat n)) _ p [] p (n - len) Hc ltac:(lia) ltac:(lia))
    as (ok & h' & l & E1 & Hc' & Hfr & Hoth & Hpay & Hrf & Htot & Hsum).
  rewrite (bind_ok _ _ _ _ _ E1). cbn [app] in Hc'. rewrite lookup_insert_eq in Hpay, Hrf, Htot.
  pose proof (chain_nodup _ _ _ Hc') as Hnd. inversion_clear Hnd as [|? ? Hpl Hnd'].
  assert (fresh_in h h' (p :: l)) as Hfresh.
  { intros y [->|Hy]%elem_of_cons.
    - split; [done|]. destruct (h' !! p) as [bp|]; [|done]. injection Hrf as Hrf. now exists bp.
    - destruct (Hfr y Hy) as [H1 H2]. split; [|done]. apply lookup_insert_None in H1. tauto. }
  assert (forall y, y ∉ p :: l -> h' !! y = h !! y) as Hout.
  { intros y Hy. rewrite Hoth by done. apply not_elem_of_cons in Hy as [Hne _]. now rewrite lookup_insert_ne. }
  destruct ok; [right|left].
  - exists p, l, h'. split; [done|]. split; [done|]. split; [done|]. split; [done|]. split; [exact Htot|].
    split; [destruct (h' !! p) as [bp|]; [|done]; injection Hpay as Hpay; cbn; unfold p_len; rewrite Hpay;
      unfold b; cbn [payload]; rewrite length_replicate; f_equal; lia|].
    cbn [payloads map concat]. fold (payloads h' l). rewrite length_app. specialize (Hsum eq_refl).
    destruct (h' !! p) as [bp|]; [|done]. injection Hpay as Hpay. cbn [from_option]. rewrite Hpay.
    unfold b. cbn [payload]. rewrite length_replicate. lia.
  - destruct (pbuf_free_spec _ _ _ Hc') as [k Ek]. rewrite (bind_ok _ _ _ _ _ Ek). unfold mret, M_ret. do 2 f_equal.
    apply map_eq. intros y. rewrite freed_all; [|now constructor|intros z Hz; exact (proj2 (Hfresh z Hz))].
    destruct (decide (y ∈ p :: l)) as [Hin|Hin]; [now rewrite (proj1 (Hfresh y Hin))|now apply Hout].
Qed.

Lemma copy_frame_spec fuel h q l frame :
  chain h q l -> (length l < fuel)%nat -> length (concat (payloads h l)) = length frame ->
  exists h', copy_frame fuel q frame h = Ok (tt, h') /\ concat (payloads h' l) = frame /\
    same_links h h' /\ (forall y, p_ref <$> h' !! y = p_ref <$> h !! y) /\
    (forall y, tot_len <$> h' !! y = tot_len <$> h !! y) /\ (forall y, p_len <$> h' !! y = p_len <$> h !! y) /\
    (forall y, y ∉ l -> h' !! y = h !! y).
Proof.
  revert h q l frame. induction fuel as [|fuel IH]; intros h q l frame H Hf Hlen; [lia|].
  destruct l as [|x l]; cbn [copy_frame].
  - cbn in H, Hlen. subst q. destruct frame; [|done]. exists h. done.
  - pose proof (chain_nodup _ _ _ H) as Hnd. inversion_clear Hnd as [|? ? Hx _].
    destruct H as (-> & b & Hb & Hl). rewrite (bind_ok _ _ _ _ _ (pbuf_at_ok _ _ _ Hb)).
    cbn [payloads map concat] in Hlen. fold (payloads h l) in Hlen. rewrite Hb, length_app in Hlen. cbn [from_option] in Hlen.
    unfold read_bytes. rewrite decide_True by lia. cbn [deref]. erewrite bind_ok by reflexivity.
    rewrite drop_0. set (part := take (length (payload b)) frame). unfold pbuf_put. erewrite bind_ok by reflexivity.
    set (h1 := <[x := with_payload part b]> h).
    pose proof (put_same_links h x b (with_payload part b) Hb eq_refl) as L1. fold h1 in L1.
    assert (payloads h1 l = payloads h l) as Hpl.
    { symmetry. apply payloads_agree. intros y Hy. unfold h1. rewrite lookup_insert_ne; [done|]. intros ->. done. }
    destruct (IH h1 (p_next b) l (drop (length (payload b)) frame)) as (h' & E1 & Hc & L2 & R2 & T2 & P2 & F2).
    + apply (chain_agree h); [intros; apply L1|exact Hl].
    + cbn [length] in Hf. lia.
    + rewrite Hpl, length_drop. lia.
    + exists h'. split; [exact E1|]. split; [|split; [|split; [|split; [|split]]]].
      * cbn [payloads map concat]. fold (payloads h' l). rewrite Hc, (F2 x Hx). unfold h1. rewrite lookup_insert_eq.
        cbn. apply take_drop.
      * intros y. now rewrite <- L2, <- L1.
      * intros y. rewrite R2. unfold h1. destruct (decide (y = x)) as [->|Hne];
          [now rewrite lookup_insert_eq, Hb|now rewrite lookup_insert_ne].
      * intros y. rewrite T2. unfold h1. destruct (decide (y = x)) as [->|Hne];
          [now rewrite lookup_insert_eq, Hb|now rewrite lookup_insert_ne].
      * intros y. rewrite P2. unfold h1. destruct (decide (y = x)) as [->|Hne];
          [rewrite lookup_insert_eq, Hb|now rewrite lookup_insert_ne].
        cbn. unfold p_len, part. cbn [payload with_payload]. rewrite length_take. do 2 f_equal. lia.
      * intros y Hy. apply not_elem_of_cons in Hy as [Hyx Hy]. rewrite F2 by done. unfold h1. now rewrite lookup_insert_ne.
Qed.

(** A received frame is copied into new buffers of the pool, or dropped. *)
Lemma low_level_input_spec frame h :
  Z.of_nat (length frame) < 2 ^ 16 ->
  low_level_input frame h = Ok (None, h) \/
  exists p l h', low_level_input frame h = Ok (Some p, h') /\ chain h' (Some p) (p :: l) /\
    fresh_in h h' (p :: l) /\ (forall y, y ∉ p :: l -> h' !! y = h !! y) /\ concat (payloads h' (p :: l)) = frame /\
    tot_len <$> h' !! p = Some (Z.of_nat (length frame)) /\
    p_len <$> h' !! p = Some (Z.min (Z.of_nat (length frame)) PBUF_POOL_BUFSIZE).
Proof.
  intros Hn. unfold low_level_input. rewrite (wrap_small 16) by lia.
  destruct (pbuf_alloc_spec (Z.of_nat (length frame)) h ltac:(lia)) as [E|(p & l & h1 & E & Hc & Hfr & Hout & Htot & Hpl & Hlen)];
    rewrite (bind_ok _ _ _ _ _ E); [now left|right].
  erewrite bind_ok by reflexivity. pose proof (chain_size _ _ _ Hc) as Hs.
  destruct (copy_frame_spec (S (size h1)) h1 (Some p) (p :: l) frame Hc ltac:(lia) ltac:(lia)) as (h' & E1 & Hp & L & R & T & P & F).
  rewrite (bind_ok _ _ _ _ _ E1). exists p, l, h'. split; [done|]. split; [|split; [|split; [|split; [done|now rewrite T, P]]]].
  - apply (chain_agree h1); [intros; apply L|exact Hc].
  - intros y Hy. destruct (Hfr y Hy) as (H1 & b & Hb & Hr). split; [done|].
    specialize (R y). rewrite Hb in R. cbn in R. destruct (h' !! y) as [b'|]; [|done]. injection R as R. exists b'. split; [done|]. lia.
  - intros y Hy. rewrite F by done. now apply Hout.
Qed.

(** A short frame is taken as long as the pool has a buffer, and none is when
    it has none. *)
Lemma low_level_input_short frame h :
  Z.of_nat (length frame) <= PBUF_POOL_BUFSIZE -> Z.of_nat (size h) < PBUF_POOL_SIZE ->
  low_level_input frame h <> Ok (None, h).
Proof.
  intros Hn Hh. unfold PBUF_POOL_BUFSIZE in Hn. unfold low_level_input. rewrite (wrap_small 16) by lia.
  destruct (pbuf_alloc_spec (Z.of_nat (length frame)) h ltac:(lia)) as [E|(p & l & h' & E & _)]; rewrite (bind_ok _ _ _ _ _ E).
  - exfalso. unfold pbuf_alloc, memp_malloc_pbuf in E. rewrite Z.min_l in E by (unfold PBUF_POOL_BUFSIZE; lia).
    rewrite bind_assoc in E. erewrite bind_ok in E by reflexivity. rewrite (proj2 (Z.ltb_lt _ _) Hh) in E.
    unfold pbuf_put in E. rewrite bind_assoc in E. erewrite bind_ok in E by reflexivity.
    erewrite bind_ok in E by reflexivity. rewrite Z.sub_diag in E. cbn [alloc_tail] in E. discriminate E.
  - erewrite bind_ok by reflexivity. intros E1. apply bind_inv in E1 as ([] & h1 & _ & E1). discriminate E1.
Qed.

Lemma low_level_input_full frame h : PBUF_POOL_SIZE <= Z.of_nat (size h) -> low_level_input frame h = Ok (None, h).
Proof.
  intros Hh. unfold low_level_input, pbuf_alloc, memp_malloc_pbuf, get, mbind, M_bind, mret, M_ret.
  now rewrite (proj2 (Z.ltb_ge _ _) Hh).
Qed.

(** Hiding the headers leaves the links, the counts and the other buffers. *)
Lemma pbuf_header_spec h p l n b :
  chain h (Some p) (p :: l) -> h !! p = Some b -> n <= p_len b ->
  exists h', pbuf_header (Some p) n h = Ok (0, h') /\ chain h' (Some p) (p :: l) /\
    payloads h' (p :: l) = drop (Z.to_nat n) (payload b) :: payloads h l /\
    tot_len <$> h' !! p = Some (u16 (tot_len b - n)) /\ (forall y, p_ref <$> h' !! y = p_ref <$> h !! y) /\ (forall y, y <> p -> h' !! y = h !! y).
Proof.
  intros H Hb Hn. unfold pbuf_header. rewrite (bind_ok _ _ _ _ _ (pbuf_at_ok _ _ _ Hb)).
  rewrite (proj2 (Z.leb_le _ _) Hn). unfold pbuf_put. erewrite bind_ok by reflexivity. set (b' := with_tot_len _ _).
  exists (<[p := b']> h). split; [done|]. split; [|split; [|split; [now rewrite lookup_insert_eq|split]]].
  - apply (chain_agree h); [intros; now apply (put_same_links h p b)|exact H].
  - pose proof (chain_nodup _ _ _ H) as Hnd. inversion_clear Hnd as [|? ? Hp _].
    cbn [payloads map]. rewrite lookup_insert_eq. cbn [from_option]. f_equal. apply payloads_agree.
    intros y Hy. rewrite lookup_insert_ne; [done|]. intros ->. done.
  - intros y. destruct (decide (y = p)) as [->|]; [now rewrite lookup_insert_eq, Hb|now rewrite lookup_insert_ne].
  - intros y Hy. now rewrite lookup_insert_ne.
Qed.

(** Cutting a chain whose buffers are referred to once: the bytes kept are
    the first ones, and the buffers not needed for them are freed. *)
Lemma realloc_loop_spec fuel h q l rem grow :
  chain h (Some q) (q :: l) -> (length l < fuel)%nat ->
  0 <= rem <= Z.of_nat (length (concat (payloads h (q :: l)))) -> rem < 2 ^ 16 ->
  exists h' l1 x l2 r, realloc_loop fuel (Some q) rem grow h = Ok ((x, r), h') /\ q :: l = l1 ++ x :: l2 /\
    same_data h h' /\ same_links h h' /\ (forall y, y ∉ l1 -> h' !! y = h !! y) /\
    0 <= r <= rem /\ (l1 = [] -> r = rem) /\
    (forall b, h !! q = Some b -> l1 <> [] -> tot_len <$> h' !! q = Some (u16 (tot_len b + u16 grow))) /\
    (forall b, h !! x = Some b -> r <= p_len b) /\
    take (Z.to_nat rem) (concat (payloads h (q :: l))) = concat (payloads h l1) ++ take (Z.to_nat r) (concat (payloads h [x])).
Proof.
  revert h q l rem. induction fuel as [|fuel IH]; intros h q l rem H Hf Hr Hw; [lia|].
  pose proof (chain_nodup _ _ _ H) as Hnd. inversion_clear Hnd as [|? ? Hql _].
  pose proof H as (_ & b & Hb & Hl). cbn [realloc_loop deref]. erewrite bind_ok by reflexivity.
  rewrite (bind_ok _ _ _ _ _ (pbuf_at_ok _ _ _ Hb)).
  assert (concat (payloads h (q :: l)) = payload b ++ concat (payloads h l)) as Ec by (cbn [payloads map concat]; now rewrite Hb).
  rewrite Ec, length_app in Hr. rewrite Ec. destruct (Z.ltb_spec (p_len b) rem) as [Hlt|Hge].
  - destruct l as [|q' l]; [cbn in Hr; unfold p_len in Hlt; lia|]. pose proof Hl as (En & _). rewrite En in Hl |- *.
    unfold pbuf_put. erewrite bind_ok by reflexivity. set (b1 := with_tot_len _ b).
    pose proof (put_same_data h q b b1 Hb eq_refl eq_refl) as S1. pose proof (put_same_links h q b b1 Hb eq_refl) as L1.
    unfold p_len in Hlt |- *. rewrite (wrap_small 16) by lia.
    assert (payloads (<[q:=b1]> h) (q' :: l) = payloads h (q' :: l)) as Ep.
    { symmetry. apply payloads_agree. intros y _. apply S1. }
    destruct (IH (<[q:=b1]> h) q' l (rem - Z.of_nat (length (payload b)))) as (h' & l1 & x & l2 & r & E1 & Es & S2 & L2 & F2 & Hr2 & _ & _ & Hx & Ht).
    + apply (chain_agree h); [intros; apply L1|exact Hl].
    + cbn [length] in Hf. lia.
    + rewrite Ep. lia.
    + lia.
    + exists h', (q :: l1), x, l2, r. split; [exact E1|]. split; [cbn [app]; now rewrite Es|].
      split; [now apply (same_data_trans _ _ _ S1)|]. split; [intros y; now rewrite <- L2, <- L1|].
      split; [intros y Hy; apply not_elem_of_cons in Hy as [Hyq Hy]; rewrite F2 by done; now rewrite lookup_insert_ne|].
      assert (x <> q) as Hxq by (intros ->; apply Hql; rewrite Es; apply elem_of_app; right; left).
      split; [lia|]. split; [done|].
      split; [intros b' Hb' _; rewrite F2, lookup_insert_eq by (intros Hin; apply Hql; rewrite Es; apply elem_of_app; now left);
        replace b' with b by congruence; reflexivity|].
      split; [intros bx Hbx; apply Hx; now rewrite lookup_insert_ne|].
      rewrite Ep in Ht. rewrite take_app_ge by lia.
      assert (payloads h (q :: l1) = payload b :: payloads h l1) as -> by (cbn [payloads map]; now rewrite Hb).
      cbn [concat]. rewrite <- app_assoc. f_equal.
      assert (payloads (<[q:=b1]> h) l1 = payloads h l1) as El1 by (symmetry; apply payloads_agree; intros y _; apply S1).
      assert (payloads (<[q:=b1]> h) [x] = payloads h [x]) as Ex by (symmetry; apply payloads_agree; intros y _; apply S1).
      rewrite El1, Ex in Ht. rewrite <- Ht. f_equal. lia.
  - exists h, [], q, l, rem. split; [reflexivity|]. split; [done|]. split; [now intros y|]. split; [now intros y|]. split; [done|].
    split; [lia|]. split; [done|]. split; [done|]. split; [intros b' Hb'; replace b' with b by congruence; exact Hge|].
    cbn [payloads map concat app]. rewrite Hb. cbn [from_option]. rewrite app_nil_r. unfold p_len in Hge.
    rewrite take_app_le by lia. done.
Qed.

(** Every buffer of the list is referred to once. *)
Definition single (h : heap) (l : list ptr) : Prop := forall y b, y ∈ l -> h !! y = Some b -> p_ref b = 1.

Lemma single_data h h' l : same_data h h' -> single h l -> single h' l.
Proof.
  intros Hs Hl y b Hy Hb. destruct (Hs y) as [_ Hr]. rewrite Hb in Hr. destruct (h !! y) as [b0|] eqn:E; [|done].
  injection Hr as Hr. rewrite <- Hr. exact (Hl y b0 Hy E).
Qed.

Lemma chain_split h p l1 x l2 b :
  chain h p (l1 ++ x :: l2) -> h !! x = Some b -> chain h (p_next b) l2.
Proof.
  intros H Hb. destruct (chain_app h p l1 (x :: l2) H) as (q & (_ & b' & Hb' & Hl) & _). congruence.
Qed.

(** A chain cut behind [x]. *)
Lemma chain_cut h p l1 x l2 b' :
  chain h p (l1 ++ x :: l2) -> p_next b' = None -> chain (<[x := b']> h) p (l1 ++ [x]).
Proof.
  intros H Hn. pose proof (chain_nodup _ _ _ H) as Hnd. revert p H Hnd.
  induction l1 as [|y l1 IH]; intros p H Hnd; cbn [app chain] in *.
  - destruct H as (-> & _). split; [done|]. exists b'. now rewrite lookup_insert_eq.
  - destruct H as (-> & b & Hb & Hl). inversion_clear Hnd as [|? ? Hy Hnd']. split; [done|]. exists b.
    rewrite lookup_insert_ne by (intros ->; apply Hy, elem_of_app; right; left). split; [exact Hb|]. exact (IH _ Hl Hnd').
Qed.

Lemma pbuf_realloc_spec h q l n :
  chain h (Some q) (q :: l) -> single h (q :: l) ->
  tot_len <$> h !! q = Some (Z.of_nat (length (concat (payloads h (q :: l))))) ->
  0 <= n <= Z.of_nat (length (concat (payloads h (q :: l)))) -> n < 2 ^ 16 ->
  exists h' l', pbuf_realloc q n h = Ok (tt, h') /\ chain h' (Some q) (q :: l') /\ (forall y, y ∈ q :: l' -> y ∈ q :: l) /\
    single h' (q :: l') /\ tot_len <$> h' !! q = Some n /\
    concat (payloads h' (q :: l')) = take (Z.to_nat n) (concat (payloads h (q :: l))) /\
    (forall y, y ∉ q :: l -> h' !! y = h !! y).
Proof.
  intros H Hs Ht Hn Hw. pose proof (chain_size _ _ _ H) as Hsz. set (tot := Z.of_nat _) in *.
  destruct (h !! q) as [b|] eqn:Hb; [|done]. injection Ht as Ht. unfold pbuf_realloc.
  rewrite (bind_ok _ _ _ _ _ (pbuf_at_ok _ _ _ Hb)), Ht. destruct (Z.leb_spec tot n) as [Hle|Hlt].
  { exists h, l. rewrite take_ge by lia. split_and!; try done. rewrite Hb. cbn. f_equal. lia. }
  erewrite bind_ok by reflexivity. cbn [length] in Hsz.
  destruct (realloc_loop_spec (S (size h)) h q l n (n - tot) H ltac:(lia) Hn Hw)
    as (h1 & l1 & x & l2 & r & E1 & Es & S1 & L1 & F1 & Hr & Hrn & Hq & Hx & Hp).
  rewrite (bind_ok _ _ _ _ _ E1). cbv beta iota. pose proof (chain_nodup _ _ _ H) as Hnd. rewrite Es in Hnd.
  assert (chain h1 (Some q) (l1 ++ x :: l2)) as H1 by (rewrite <- Es; apply (chain_agree h); [intros; apply L1|exact H]).
  destruct (chain_live _ _ _ x H1) as [bx Hbx]; [apply elem_of_app; right; left|].
  rewrite (bind_ok _ _ _ _ _ (pbuf_update_ok _ _ _ _ Hbx)). set (bx1 := with_tot_len _ _).
  rewrite (bind_ok _ _ _ bx1 _ (pbuf_at_ok _ _ _ (lookup_insert_eq _ _ _))).
  apply NoDup_app in Hnd as (_ & Hd & Hnd). inversion_clear Hnd as [|? ? Hxl2 Hnd2].
  set (h2 := <[x := bx1]> h1). pose proof (put_same_links h1 x bx bx1 Hbx eq_refl) as L2. fold h2 in L2.
  assert (chain h2 (p_next bx) l2) as H2.
  { apply (chain_agree h1); [intros; apply L2|]. exact (chain_split _ _ _ _ _ _ H1 Hbx). }
  assert (exists h3, (match p_next bx with Some _ => pbuf_free (p_next bx);; mret tt | None => mret tt end) h2 = Ok (tt, h3) /\
            forall y, y ∉ l2 -> h3 !! y = h2 !! y) as (h3 & E3 & F3).
  { destruct (p_next bx) as [z|] eqn:En; [|exists h2; done]. destruct (pbuf_free_spec _ _ _ H2) as [k Ek].
    exists (freed h2 l2). rewrite (bind_ok _ _ _ _ _ Ek). split; [done|]. intros y Hy. now apply freed_other. }
  change (p_next bx1) with (p_next bx). rewrite (bind_ok _ _ _ _ _ E3).
  assert (h3 !! x = Some bx1) as Hx3 by (rewrite F3 by done; apply lookup_insert_eq).
  rewrite (pbuf_update_ok _ _ _ _ Hx3). set (bx2 := with_next None bx1).
  assert (exists l', l1 ++ [x] = q :: l') as [l' El'].
  { destruct l1 as [|z l1]; cbn [app] in Es |- *; injection Es as <- _; eauto. }
  assert (forall y, y ∈ l1 -> y <> x /\ y ∉ l2) as Hl1.
  { intros y Hy. specialize (Hd y Hy). apply not_elem_of_cons in Hd. tauto. }
  assert (forall y, y ∈ l1 -> <[x:=bx2]> h3 !! y = h1 !! y) as Hk.
  { intros y Hy. destruct (Hl1 y Hy). rewrite lookup_insert_ne, F3 by done. unfold h2. now rewrite lookup_insert_ne. }
  pose proof (S1 x) as [Spx Srx]. rewrite Hbx in Spx, Srx.
  destruct (h !! x) as [b0|] eqn:Hb0; [|done]. injection Spx as Spx. injection Srx as Srx.
  assert (x ∈ q :: l) as Hxin by (rewrite Es; apply elem_of_app; right; left).
  exists (<[x := bx2]> h3), l'. split; [done|]. rewrite <- El'. split; [|split; [|split; [|split; [|split]]]].
  - apply (chain_agree (<[x := bx2]> h1)); [|now apply (chain_cut h1 _ l1 x l2)].
    intros y [Hy| ->%list_elem_of_singleton]%elem_of_app; [|now rewrite !lookup_insert_eq].
    rewrite Hk by done. rewrite lookup_insert_ne; [done|]. intros ->. now destruct (Hl1 y Hy).
  - intros y Hy. rewrite Es. apply elem_of_app in Hy as [Hy| ->%list_elem_of_singleton]; apply elem_of_app; [now left|right; left].
  - intros y b' Hy Hb'. apply elem_of_app in Hy as [Hy| ->%list_elem_of_singleton].
    + rewrite Hk in Hb' by done. apply (single_data h h1 (q :: l) S1 Hs y b'); [rewrite Es; apply elem_of_app; now left|done].
    + rewrite lookup_insert_eq in Hb'. injection Hb' as <-. cbn. rewrite <- Srx. exact (Hs x b0 Hxin Hb0).
  - destruct l1 as [|z l1].
    + cbn [app] in Es. injection Es as <- _. rewrite lookup_insert_eq. cbn. now rewrite Hrn.
    + pose proof Es as Ez. cbn [app] in Ez. injection Ez as <- _. rewrite Hk by left. rewrite (Hq b) by done.
      f_equal. rewrite Ht. unfold wrap. rewrite Zplus_mod_idemp_r. replace (tot + (n - tot)) with n by lia.
      apply Z.mod_small. lia.
  - rewrite payloads_app, concat_app, Hp. f_equal.
    + f_equal. unfold payloads. apply map_ext_in. intros y Hy%list_elem_of_In. rewrite Hk by done.
      destruct (S1 y) as [Sy _]. destruct (h !! y), (h1 !! y); try done; cbn in *; congruence.
    + cbn [payloads map concat]. rewrite lookup_insert_eq, Hb0. cbn. now rewrite Spx, !app_nil_r.
  - intros y Hy. rewrite Es in Hy. rewrite not_elem_of_app, not_elem_of_cons in Hy. destruct Hy as (Hy1 & Hyx & Hy2).
    rewrite lookup_insert_ne, F3 by done. unfold h2. rewrite lookup_insert_ne by done. now apply F1.
Qed.

(** What remains of a frame behind its headers. *)
Lemma frame_taken hdr data h :
  Z.of_nat (length hdr) <= PBUF_POOL_BUFSIZE -> Z.of_nat (length (hdr ++ data)) < 2 ^ 16 ->
  low_level_input (hdr ++ data) h = Ok (None, h) \/
  exists p l h1 h2, low_level_input (hdr ++ data) h = Ok (Some p, h1) /\
    pbuf_header (Some p) (Z.of_nat (length hdr)) h1 = Ok (0, h2) /\ chain h2 (Some p) (p :: l) /\
    fresh_in h h2 (p :: l) /\ (forall y, y ∉ p :: l -> h2 !! y = h !! y) /\
    concat (payloads h2 (p :: l)) = data /\ tot_len <$> h2 !! p = Some (Z.of_nat (length data)).
Proof.
  intros Hh Hn. destruct (low_level_input_spec _ h Hn) as [E|(p & l & h1 & E & Hc & Hf & Ho & Hd & Ht & Hl)]; [now left|right].
  destruct (chain_live _ _ _ p Hc) as [b Hb]; [left|]. rewrite Hb in Ht, Hl. injection Ht as Ht. injection Hl as Hl.
  rewrite length_app in Ht, Hl, Hn.
  destruct (pbuf_header_spec h1 p l (Z.of_nat (length hdr)) b Hc Hb ltac:(lia)) as (h2 & E2 & Hc2 & Hp2 & Ht2 & Hr2 & Ho2).
  exists p, l, h1, h2. split; [done|]. split; [done|]. split; [done|]. split; [|split; [|split]].
  - intros y Hy. destruct (Hf y Hy) as (H1 & b1 & Hb1 & Hr1). split; [done|].
    specialize (Hr2 y). rewrite Hb1 in Hr2. destruct (h2 !! y) as [b2|]; [|done]. injection Hr2 as Hr2. exists b2. split; [done|congruence].
  - intros y Hy. rewrite Ho2; [now apply Ho|]. intros ->. apply Hy. left.
  - rewrite Hp2. cbn [concat]. cbn [payloads map concat] in Hd. rewrite Hb in Hd. cbn [from_option] in Hd.
    fold (payloads h1 l) in Hd. rewrite Nat2Z.id. unfold p_len in Hl.
    rewrite <- (drop_app_le (payload b)) by lia. rewrite Hd. apply drop_app_length.
  - rewrite Ht2, Ht. f_equal. rewrite (wrap_small 16) by lia. lia.
Qed.

(** ** Ownership

    The server's chain: every buffer is referred to, and no counter is near
    its end.  A buffer has at most the reference of its predecessor and one
    more from [pbuf_chain]; the first may have kept one from when it became
    the first. *)
Record owned (h : heap) (p : option ptr) (l : list ptr) : Prop := {
    ow_chain : chain h p l;
    ow_refs : forall x b, x ∈ l -> h !! x = Some b -> 1 <= p_ref b <= 3;
    ow_tail : forall x b, x ∈ tail l -> h !! x = Some b -> p_ref b <= 2;
  }.

(** What may happen to the heap behind the server's back: buffers that are
    live and not the server's are as before, and have not become its. *)
Definition others_kept (h : heap) (l : list ptr) (h' : heap) (l' : list ptr) : Prop :=
  forall x, is_Some (h !! x) -> x ∉ l -> h' !! x = h !! x /\ x ∉ l'.

Lemma others_kept_refl h l : others_kept h l h l.
Proof. now intros x _ Hx. Qed.

Lemma others_kept_trans h1 l1 h2 l2 h3 l3 :
  others_kept h1 l1 h2 l2 -> others_kept h2 l2 h3 l3 -> others_kept h1 l1 h3 l3.
Proof.
  intros H1 H2 x Hx Hl. destruct (H1 x Hx Hl) as [E1 N1].
  destruct (H2 x ltac:(now rewrite E1) N1) as [E2 N2]. split; [congruence|done].
Qed.

Lemma owned_agree h h' p l : (forall x, x ∈ l -> h' !! x = h !! x) -> owned h p l -> owned h' p l.
Proof.
  intros Ha [H1 H2 H3]. split.
  - apply (chain_agree h); [|done]. intros x Hx. now rewrite Ha.
  - intros x b Hx. rewrite Ha by done. now apply H2.
  - intros x b Hx. rewrite Ha by (destruct l; [done|now right]). now apply H3.
Qed.

Lemma owned_nil h : owned h None [].
Proof. split; [done|intros x b Hx%elem_of_nil; done..]. Qed.

(** Buffers of a frame, new in the heap, are no others. *)
Lemma fresh_others h h' l lf :
  fresh_in h h' lf -> (forall y, y ∉ lf -> h' !! y = h !! y) -> (forall x, x ∈ l -> is_Some (h !! x)) ->
  (forall x, x ∈ l -> x ∉ lf) /\ others_kept h l h' l.
Proof.
  intros Hf Ho Hl. assert (forall x, is_Some (h !! x) -> x ∉ lf) as Hn.
  { intros x [b Hx] Hin. destruct (Hf x Hin). congruence. }
  split; [intros x Hx; apply Hn, Hl, Hx|]. intros x Hx Hxl. split; [apply Ho, Hn, Hx|done].
Qed.

(** Freeing the buffers of a frame. *)
Lemma free_frame h p lf :
  chain h p lf -> (forall y b, y ∈ lf -> h !! y = Some b -> p_ref b = 1) ->
  exists n h', pbuf_free p h = Ok (n, h') /\ (forall y, y ∉ lf -> h' !! y = h !! y).
Proof.
  intros Hc Hr. destruct (pbuf_free_spec h p lf Hc) as [n E]. exists n, (freed h lf). split; [done|].
  intros y Hy. now apply freed_other.
Qed.

(** The server takes over a frame when it has none. *)
Lemma own_frame h p lf :
  chain h p lf -> (forall y b, y ∈ lf -> h !! y = Some b -> p_ref b = 1) -> owned h p lf.
Proof.
  intros Hc Hr. split; [done| |].
  - intros x b Hx Hb. rewrite (Hr x b Hx Hb). lia.
  - intros x b Hx Hb. rewrite (Hr x b) by (destruct lf; [now apply elem_of_nil in Hx|now right]) || done. lia.
Qed.

(** The server appends a frame to what it has: the first buffer of the frame
    is counted twice. *)
Lemma chain_frame h x l t lt :
  owned h (Some x) (x :: l) -> chain h (Some t) (t :: lt) ->
  (forall y b, y ∈ t :: lt -> h !! y = Some b -> p_ref b = 1) -> (forall y, y ∈ x :: l -> y ∉ t :: lt) ->
  exists h', pbuf_chain (Some x) (Some t) h = Ok (tt, h') /\ owned h' (Some x) ((x :: l) ++ t :: lt) /\
    (forall y, payload <$> h' !! y = payload <$> h !! y) /\
    (exists b, h' !! t = Some b /\ p_ref b = 2) /\ (forall y, y <> t -> p_ref <$> h' !! y = p_ref <$> h !! y) /\
    (forall y, y ∉ (x :: l) ++ t :: lt -> h' !! y = h !! y).
Proof.
  intros [H1 H2 H3] Ht Hr Hd. destruct (pbuf_cat_spec h x l t lt H1 Ht Hd) as (h1 & E1 & Hc & Hs & Ho).
  assert (t ∉ x :: l) as Htl by (intros Hin; apply (Hd t Hin); left).
  assert (exists b, h1 !! t = Some b /\ p_ref b = 1) as (bt & Hbt & Hbr).
  { destruct (chain_live _ _ _ t Ht) as [b Hb]; [left|]. exists b. rewrite Ho by done. split; [done|].
    apply (Hr t); [left|done]. }
  unfold pbuf_chain. rewrite (bind_ok _ _ _ _ _ E1). cbn [pbuf_ref]. rewrite (pbuf_update_ok _ _ _ _ Hbt).
  rewrite Hbr. change (u16 (1 + 1)) with 2. set (h2 := <[t := _]> h1). exists h2. split; [done|].
  assert (h2 !! t = Some (with_ref 2 bt)) as Ht2 by (unfold h2; now rewrite lookup_insert_eq).
  assert (forall y b, y <> t -> h2 !! y = Some b -> exists b0, h !! y = Some b0 /\ p_ref b0 = p_ref b) as Hback.
  { intros y b Hy Hb. unfold h2 in Hb. rewrite lookup_insert_ne in Hb by done. destruct (Hs y) as [_ Hy'].
    rewrite Hb in Hy'. destruct (h !! y) as [b0|]; [|done]. injection Hy' as Hy'. eauto. }
  assert (forall y b, y ∈ (x :: l) ++ t :: lt -> h2 !! y = Some b -> 1 <= p_ref b <= 3) as Hrefs.
  { intros y b Hy Hb. destruct (decide (y = t)) as [->|Hne].
    - rewrite Ht2 in Hb. injection Hb as <-. cbn. lia.
    - destruct (Hback y b Hne Hb) as (b0 & Hb0 & <-). apply elem_of_app in Hy as [Hy|Hy]; [exact (H2 y b0 Hy Hb0)|].
      rewrite (Hr y b0 Hy Hb0). lia. }
  split; [split; [|exact Hrefs|]|split; [|split; [|split]]].
  - apply (chain_agree h1); [|done]. intros y _. unfold h2.
    destruct (decide (y = t)) as [->|Hne]; [now rewrite lookup_insert_eq, Hbt|now rewrite lookup_insert_ne].
  - intros y b Hy Hb. cbn [tail app] in Hy. destruct (decide (y = t)) as [->|Hne].
    + rewrite Ht2 in Hb. injection Hb as <-. cbn. lia.
    + destruct (Hback y b Hne Hb) as (b0 & Hb0 & <-). apply elem_of_app in Hy as [Hy|Hy]; [exact (H3 y b0 Hy Hb0)|].
      rewrite (Hr y b0 Hy Hb0). lia.
  - intros y. destruct (decide (y = t)) as [->|Hne].
    + rewrite Ht2. rewrite <- Ho, Hbt by done. done.
    + unfold h2. rewrite lookup_insert_ne by done. symmetry. apply Hs.
  - exists (with_ref 2 bt). done.
  - intros y Hy. unfold h2. rewrite lookup_insert_ne by done. symmetry. apply Hs.
  - intros y Hy. rewrite not_elem_of_app in Hy. destruct Hy as [Hy1 Hy2]. unfold h2.
    rewrite lookup_insert_ne by (intros <-; apply Hy2; left). now apply Ho.
Qed.

Lemma owned_head h h' y l b r :
  chain h (Some y) (y :: l) -> h !! y = Some b -> (forall z bz, z ∈ l -> h !! z = Some bz -> 1 <= p_ref bz <= 2) ->
  h' !! y = Some (with_ref r b) -> 1 <= r <= 3 -> (forall z, z ∈ l -> h' !! z = h !! z) -> owned h' (Some y) (y :: l).
Proof.
  intros Hc Hb Hl Hy Hr Ho. pose proof (chain_nodup _ _ _ Hc) as Hnd. inversion_clear Hnd as [|? ? Hyl _].
  assert (forall z bz, z ∈ l -> h' !! z = Some bz -> 1 <= p_ref bz <= 2) as Hl' by (intros z bz Hz; rewrite Ho by done; now apply Hl).
  split.
  - apply (chain_agree h); [|done]. intros z [->|Hz]%elem_of_cons; [now rewrite Hb, Hy|now rewrite Ho].
  - intros z bz [->|Hz]%elem_of_cons Hbz; [replace bz with (with_ref r b) by congruence; exact Hr|]. pose proof (Hl' z bz Hz Hbz). lia.
  - intros z bz Hz Hbz. now apply (Hl' z bz).
Qed.

(** The server lets go of its first buffer.  Referred to once, it is freed;
    otherwise it stays, and the next buffer has one reference more than
    before. *)
Lemma release_first h x l b :
  owned h (Some x) (x :: l) -> h !! x = Some b ->
  exists k h', (pbuf_ref (p_next b);; pbuf_free (Some x)) h = Ok (k, h') /\ owned h' (p_next b) l /\
    (forall y, payload <$> h' !! y = payload <$> h !! y \/ y = x) /\ (forall y, y ∉ x :: l -> h' !! y = h !! y) /\
    (forall y b0, y ∈ l -> h !! y = Some b0 -> exists b', h' !! y = Some b' /\ p_ref b0 <= p_ref b') /\
    (1 < p_ref b -> h' !! x = Some (with_ref (p_ref b - 1) b) /\
       forall y l' by0, l = y :: l' -> h !! y = Some by0 -> p_ref <$> h' !! y = Some (p_ref by0 + 1)).
Proof.
  intros [Hc Hr Ht] Hb. pose proof (chain_nodup _ _ _ Hc) as Hnd. inversion_clear Hnd as [|? ? Hxl Hnd'].
  pose proof (Hr x b ltac:(left) Hb) as Hrb. destruct Hc as (_ & b' & Hb' & Hl). replace b' with b in Hl by congruence. clear b' Hb'.
  (* the heap once the next buffer is referred to once more *)
  destruct l as [|y l].
  - cbn in Hl. rewrite Hl. cbn [pbuf_ref]. erewrite bind_ok by reflexivity.
    destruct (pbuf_free_spec h (Some x) [x]) as [k E]; [split; [done|]; exists b; split; [done|]; exact Hl|].
    exists k, (freed h [x]). split; [exact E|]. split; [apply owned_nil|]. cbn [freed]. rewrite Hb.
    rewrite (wrap_small 16) by lia. destruct (Z.eqb_spec (p_ref b - 1) 0) as [E1|E1].
    + split; [intros z; destruct (decide (z = x)); [now right|left; now rewrite lookup_delete_ne]|].
      split; [intros z Hz; rewrite lookup_delete_ne; [done|]; intros ->; apply Hz; left|].
      split; [now intros z b0 Hz%elem_of_nil|lia].
    + split; [intros z; destruct (decide (z = x)); [now right|left; now rewrite lookup_insert_ne]|].
      split; [intros z Hz; rewrite lookup_insert_ne; [done|]; intros ->; apply Hz; left|].
      split; [now intros z b0 Hz%elem_of_nil|]. intros _. split; [apply lookup_insert_eq|done].
  - pose proof Hl as (En & by0 & Hby & Hly). rewrite En. assert (y <> x) as Hyx by (intros ->; apply Hxl; left).
    pose proof (Ht y by0 ltac:(left) Hby) as Hty. pose proof (Hr y by0 ltac:(right; left) Hby) as Hry.
    cbn [pbuf_ref]. rewrite (bind_ok _ _ _ _ _ (pbuf_update_ok _ _ _ _ Hby)). rewrite (wrap_small 16) by lia.
    set (h1 := <[y := with_ref (p_ref by0 + 1) by0]> h).
    assert (h1 !! x = Some b) as Hb1 by (unfold h1; now rewrite lookup_insert_ne).
    assert (chain h1 (Some y) (y :: l)) as Hl1.
    { rewrite En in Hl. apply (chain_agree h); [|exact Hl]. intros z _. now apply (put_same_links h y by0). }
    destruct (pbuf_free_spec h1 (Some x) (x :: y :: l)) as [k E]; [split; [done|]; exists b; split; [done|]; now rewrite En|].
    set (h' := freed h1 (x :: y :: l)) in E. rewrite En in Hl.
    assert (exists r, h' !! y = Some (with_ref r by0) /\ p_ref by0 <= r <= p_ref by0 + 1 /\ (forall z, z <> x -> z <> y -> h' !! z = h !! z) /\
              (1 < p_ref b -> h' !! x = Some (with_ref (p_ref b - 1) b) /\ r = p_ref by0 + 1)) as (r & Hy & Hrr & Ho & Hx).
    { unfold h'. cbn [freed]. rewrite Hb1, (wrap_small 16) by lia. destruct (Z.eqb_spec (p_ref b - 1) 0) as [E1|E1].
      - rewrite lookup_delete_ne by done. unfold h1. rewrite lookup_insert_eq. cbn [p_ref with_ref].
        rewrite Z.add_simpl_r, (wrap_small 16) by lia. rewrite (proj2 (Z.eqb_neq _ _)) by lia.
        exists (p_ref by0). split; [apply lookup_insert_eq|]. split; [lia|]. split; [|lia].
        intros z Hzx Hzy. now rewrite lookup_insert_ne, lookup_delete_ne, lookup_insert_ne.
      - exists (p_ref by0 + 1). unfold h1. split; [now rewrite lookup_insert_ne, lookup_insert_eq|]. split; [lia|].
        split; [intros z Hzx Hzy; now rewrite !lookup_insert_ne|]. intros _. now rewrite lookup_insert_eq. }
    assert (forall z, z ∈ l -> z <> x /\ z <> y) as Hlz.
    { intros z Hz. inversion_clear Hnd' as [|? ? Hyl _]. split; intros ->; [apply Hxl; now right|done]. }
    exists k, h'. split; [exact E|]. split; [|split; [|split; [|split]]].
    + apply (owned_head h h' y l by0 r); try done; [|lia|intros z Hz; apply Ho; now apply Hlz].
      intros z bz Hz Hbz. pose proof (Hr z bz ltac:(right; now right) Hbz). pose proof (Ht z bz ltac:(now right) Hbz). lia.
    + intros z. destruct (decide (z = x)); [now right|left]. destruct (decide (z = y)) as [->|]; [now rewrite Hy, Hby|now rewrite Ho].
    + intros z Hz. rewrite !not_elem_of_cons in Hz. apply Ho; tauto.
    + intros z b0 [->|Hz]%elem_of_cons Hb0; [exists (with_ref r by0); split; [exact Hy|]; replace b0 with by0 by congruence; cbn; lia|].
      exists b0. destruct (Hlz z Hz). rewrite Ho by done. split; [exact Hb0|lia].
    + intros Hlt. destruct (Hx Hlt) as [Hx' ->]. split; [exact Hx'|]. intros y' l' b0 [= <- <-] Hb0. rewrite Hy. cbn. congruence.
Qed.
