(* ===== verification/Tcp.v ===== *)
(** * Tcp: the connections of lwIP

    The control blocks of lib/lwip/src/core/tcp.c as far as the network
    server sees them: the state of the connection, the callbacks that are
    registered, and the receive window.  What is sent is a list of segments;
    whether an attempt to send succeeds is the environment's choice.  Not
    modelled: sequence numbers of what is sent, retransmission, options. *)

From Stdlib Require Import ZArith Lia.
From stdpp Require Import base numbers list gmap.
From S2P Require Import Prelude Pbuf.
#[local] Open Scope c_scope.

(** ** Errors *)

Definition ERR_OK : Z := 0.
Definition ERR_MEM : Z := -1.
Definition ERR_BUF : Z := -2.
Definition ERR_ABRT : Z := -10.
Definition ERR_CONN : Z := -13.
Definition ERR_ARG : Z := -14.

(** ** State *)

Inductive tcp_state :=
  | CLOSED | LISTEN | SYN_SENT | SYN_RCVD | ESTABLISHED | FIN_WAIT_1 | FIN_WAIT_2
  | CLOSE_WAIT | CLOSING | LAST_ACK | TIME_WAIT.
#[export] Instance tcp_state_eq_dec : EqDecision tcp_state.
Proof. solve_decision. Defined.

(** What a connection's [recv] points to: nothing, lwIP's default, or the
    server's callback. *)
Inductive recv_fn := RecvNone | RecvDefault | RecvServer.

(** The other callbacks are the server's or null; [callback_arg] says
    whether the argument is the server's state or null. *)
Record tcp_pcb := mkPcb {
    state : tcp_state;
    callback_arg : bool;
    cb_accept : bool;
    cb_recv : recv_fn;
    cb_sent : bool;
    cb_err : bool;
    cb_poll : bool;
    pollinterval : Z;
    rcv_nxt : Z;
    rcv_wnd : Z;
    rcv_ann_wnd : Z;
    rcv_ann_right_edge : Z;
    mss : Z;
    rx_closed : bool;              (** the flag [TF_RXCLOSED] *)
    refused_data : option ptr;
  }.

Abbreviation pcb_id := nat.

(** Segments sent. *)
Inductive sent_t := SentData (pcb : pcb_id) (d : list Z) | SentFin (pcb : pcb_id) | SentRst (pcb : pcb_id) | SentAck (pcb : pcb_id).

Record tcp := mkTcp {
    t_heap : heap;                 (** the receive buffers *)
    t_pcbs : gmap pcb_id tcp_pcb;  (** the live control blocks *)
    t_accept : bool;               (** whether the listening block has the server's callback *)
    t_sent : list sent_t;
  }.

#[export] Program Instance tcp_heap : Lens heap tcp :=
  {| view := t_heap; over h t := mkTcp h (t_pcbs t) (t_accept t) (t_sent t) |}.
Solve Obligations with (intros; repeat match goal with x : tcp |- _ => destruct x end; reflexivity).

(** The results of sending, given what was sent before, the space in the
    send buffer, and which of several connections has been idle longest. *)
Class TcpEnv := {
    write_err : list sent_t -> pcb_id -> list Z -> Z;
    fin_err : list sent_t -> pcb_id -> Z;
    snd_buf : list sent_t -> pcb_id -> Z;
    oldest : list sent_t -> list pcb_id -> option pcb_id;
  }.

Definition with_state (v : tcp_state) (p : tcp_pcb) :=
  mkPcb v (callback_arg p) (cb_accept p) (cb_recv p) (cb_sent p) (cb_err p) (cb_poll p) (pollinterval p)
    (rcv_nxt p) (rcv_wnd p) (rcv_ann_wnd p) (rcv_ann_right_edge p) (mss p) (rx_closed p) (refused_data p).
Definition with_arg (v : bool) (p : tcp_pcb) :=
  mkPcb (state p) v (cb_accept p) (cb_recv p) (cb_sent p) (cb_err p) (cb_poll p) (pollinterval p)
    (rcv_nxt p) (rcv_wnd p) (rcv_ann_wnd p) (rcv_ann_right_edge p) (mss p) (rx_closed p) (refused_data p).
Definition with_recv (v : recv_fn) (p : tcp_pcb) :=
  mkPcb (state p) (callback_arg p) (cb_accept p) v (cb_sent p) (cb_err p) (cb_poll p) (pollinterval p)
    (rcv_nxt p) (rcv_wnd p) (rcv_ann_wnd p) (rcv_ann_right_edge p) (mss p) (rx_closed p) (refused_data p).
Definition with_sent (v : bool) (p : tcp_pcb) :=
  mkPcb (state p) (callback_arg p) (cb_accept p) (cb_recv p) v (cb_err p) (cb_poll p) (pollinterval p)
    (rcv_nxt p) (rcv_wnd p) (rcv_ann_wnd p) (rcv_ann_right_edge p) (mss p) (rx_closed p) (refused_data p).
Definition with_err (v : bool) (p : tcp_pcb) :=
  mkPcb (state p) (callback_arg p) (cb_accept p) (cb_recv p) (cb_sent p) v (cb_poll p) (pollinterval p)
    (rcv_nxt p) (rcv_wnd p) (rcv_ann_wnd p) (rcv_ann_right_edge p) (mss p) (rx_closed p) (refused_data p).
Definition with_poll (v : bool) (i : Z) (p : tcp_pcb) :=
  mkPcb (state p) (callback_arg p) (cb_accept p) (cb_recv p) (cb_sent p) (cb_err p) v i
    (rcv_nxt p) (rcv_wnd p) (rcv_ann_wnd p) (rcv_ann_right_edge p) (mss p) (rx_closed p) (refused_data p).
Definition with_rcv_nxt (v : Z) (p : tcp_pcb) :=
  mkPcb (state p) (callback_arg p) (cb_accept p) (cb_recv p) (cb_sent p) (cb_err p) (cb_poll p) (pollinterval p)
    v (rcv_wnd p) (rcv_ann_wnd p) (rcv_ann_right_edge p) (mss p) (rx_closed p) (refused_data p).
Definition with_rcv_wnd (v : Z) (p : tcp_pcb) :=
  mkPcb (state p) (callback_arg p) (cb_accept p) (cb_recv p) (cb_sent p) (cb_err p) (cb_poll p) (pollinterval p)
    (rcv_nxt p) v (rcv_ann_wnd p) (rcv_ann_right_edge p) (mss p) (rx_closed p) (refused_data p).
Definition with_rcv_ann_wnd (v : Z) (p : tcp_pcb) :=
  mkPcb (state p) (callback_arg p) (cb_accept p) (cb_recv p) (cb_sent p) (cb_err p) (cb_poll p) (pollinterval p)
    (rcv_nxt p) (rcv_wnd p) v (rcv_ann_right_edge p) (mss p) (rx_closed p) (refused_data p).
Definition with_rx_closed (v : bool) (p : tcp_pcb) :=
  mkPcb (state p) (callback_arg p) (cb_accept p) (cb_recv p) (cb_sent p) (cb_err p) (cb_poll p) (pollinterval p)
    (rcv_nxt p) (rcv_wnd p) (rcv_ann_wnd p) (rcv_ann_right_edge p) (mss p) v (refused_data p).
Definition with_refused (v : option ptr) (p : tcp_pcb) :=
  mkPcb (state p) (callback_arg p) (cb_accept p) (cb_recv p) (cb_sent p) (cb_err p) (cb_poll p) (pollinterval p)
    (rcv_nxt p) (rcv_wnd p) (rcv_ann_wnd p) (rcv_ann_right_edge p) (mss p) (rx_closed p) v.

(** Access through a pointer to a control block. *)
Definition pcb_at (c : pcb_id) : M tcp tcp_pcb := p ← gets (fun t => t_pcbs t !! c); deref DanglingPtr p.
Definition pcb_put (c : pcb_id) (p : tcp_pcb) : M tcp unit :=
  modify (fun t => mkTcp (t_heap t) (<[c := p]> (t_pcbs t)) (t_accept t) (t_sent t)).
Definition pcb_update (c : pcb_id) (f : tcp_pcb -> tcp_pcb) : M tcp unit := p ← pcb_at c; pcb_put c (f p).
(** [memp_free(MEMP_TCP_PCB, pcb)]. *)
Definition memp_free_pcb (c : pcb_id) : M tcp unit :=
  modify (fun t => mkTcp (t_heap t) (delete c (t_pcbs t)) (t_accept t) (t_sent t)).
Definition send (s : sent_t) : M tcp unit :=
  modify (fun t => mkTcp (t_heap t) (t_pcbs t) (t_accept t) (t_sent t ++ [s])).

(** ** Registration *)

Definition tcp_arg (c : pcb_id) (arg : bool) := pcb_update c (with_arg arg).
Definition tcp_recv (c : pcb_id) (f : recv_fn) := pcb_update c (with_recv f).
Definition tcp_sent (c : pcb_id) (f : bool) := pcb_update c (with_sent f).
Definition tcp_err (c : pcb_id) (f : bool) := pcb_update c (with_err f).
Definition tcp_poll (c : pcb_id) (f : bool) (interval : Z) := pcb_update c (with_poll f interval).
(** On the listening block, to which the server's [g_pcb] points. *)
Definition tcp_accept (f : bool) : M tcp unit :=
  modify (fun t => mkTcp (t_heap t) (t_pcbs t) f (t_sent t)).

(** ** The window *)

Definition MEMP_NUM_TCP_PCB : Z := 2.
Definition TCP_MSS : Z := 1500 - 40.
Definition TCP_WND : Z := 2 * TCP_MSS.
Definition TCP_WND_UPDATE_THRESHOLD : Z := TCP_WND / 4.

(** Comparison of sequence numbers: [(s32_t)(a - b) >= 0] and [> 0]. *)
Definition TCP_SEQ_GEQ (a b : Z) : bool := u32 (a - b) <? 2 ^ 31.
Definition TCP_SEQ_GT (a b : Z) : bool := TCP_SEQ_GEQ a b && negb (u32 (a - b) =? 0).
Definition TCP_SEQ_LEQ (a b : Z) : bool := negb (TCP_SEQ_GT a b).
Definition TCP_SEQ_BETWEEN (a b c : Z) : bool := TCP_SEQ_GEQ a b && TCP_SEQ_LEQ a c.

Definition tcp_update_rcv_ann_wnd (p : tcp_pcb) : Z * tcp_pcb :=
  let new_right_edge := u32 (rcv_nxt p + rcv_wnd p) in
  if TCP_SEQ_GEQ new_right_edge (u32 (rcv_ann_right_edge p + Z.min (TCP_WND / 2) (mss p)))
  then (u32 (new_right_edge - rcv_ann_right_edge p), with_rcv_ann_wnd (rcv_wnd p) p)
  else if TCP_SEQ_GT (rcv_nxt p) (rcv_ann_right_edge p) then (0, with_rcv_ann_wnd 0 p)
  else (0, with_rcv_ann_wnd (u16 (u32 (rcv_ann_right_edge p - rcv_nxt p))) p).

Definition tcp_recved (c : pcb_id) (len : Z) : M tcp unit :=
  p ← pcb_at c;
  let wnd := u16 (rcv_wnd p + len) in
  let p := with_rcv_wnd (if TCP_WND <? wnd then TCP_WND else wnd) p in
  let '(wnd_inflation, p) := tcp_update_rcv_ann_wnd p in
  pcb_put c p;;
  when (TCP_WND_UPDATE_THRESHOLD <=? wnd_inflation) (send (SentAck c)).

(** ** Sending and closing *)

Section Tcp.
Context `{TE : TcpEnv}.

Definition tcp_write (c : pcb_id) (d : list Z) : M tcp Z :=
  pcb_at c;;
  s ← gets t_sent;
  let err := write_err s c d in
  when (err =? 0) (send (SentData c d));; mret err.

Definition tcp_sndbuf (c : pcb_id) : M tcp Z := pcb_at c;; s ← gets t_sent; mret (snd_buf s c).

(** Of [tcp_pcb_purge], the refused data: the queues of segments to send
    are not part of the model. *)
Definition tcp_pcb_purge (c : pcb_id) : M tcp unit :=
  p ← pcb_at c;
  if bool_decide (state p = CLOSED \/ state p = TIME_WAIT \/ state p = LISTEN) then mret tt
  else
    match refused_data p with
    | Some q => zoom (pbuf_free (Some q));; pcb_put c (with_refused None p)
    | None => mret tt
    end.

(** Whatever is sent, the block is read. *)
Definition tcp_output (c : pcb_id) : M tcp unit := pcb_at c;; mret tt.

Definition tcp_send_fin (c : pcb_id) : M tcp Z :=
  s ← gets t_sent;
  let err := fin_err s c in
  when (err =? 0) (send (SentFin c));; mret err.

(** A fin was sent: the state that follows, and an attempt to send. *)
Definition close_to (c : pcb_id) (next : tcp_state) : M tcp Z :=
  err ← tcp_send_fin c;
  when (err =? 0) (pcb_update c (with_state next);; tcp_output c);;
  mret err.

(** For a connection; the listening block is never closed. *)
Definition tcp_close_shutdown (c : pcb_id) (rst_on_unacked_data : bool) : M tcp Z :=
  p ← pcb_at c;
  if rst_on_unacked_data && bool_decide (state p = ESTABLISHED \/ state p = CLOSE_WAIT)
     && (bool_decide (is_Some (refused_data p)) || negb (rcv_wnd p =? TCP_WND))
  then
    send (SentRst c);;
    tcp_pcb_purge c;;
    (if decide (state p = ESTABLISHED) then pcb_update c (with_state TIME_WAIT) else memp_free_pcb c);;
    mret 0
  else
    match state p with
    | CLOSED => memp_free_pcb c;; mret 0
    | SYN_SENT => tcp_pcb_purge c;; memp_free_pcb c;; mret 0
    | SYN_RCVD => close_to c FIN_WAIT_1
    | ESTABLISHED => close_to c FIN_WAIT_1
    | CLOSE_WAIT => close_to c LAST_ACK
    | _ => mret 0
    end.

Definition tcp_close (c : pcb_id) : M tcp Z :=
  p ← pcb_at c;
  when (negb (bool_decide (state p = LISTEN))) (pcb_put c (with_rx_closed true p));;
  tcp_close_shutdown c true.

Definition tcp_recv_null (c : pcb_id) (p : option ptr) (err : Z) : M tcp Z :=
  match p with
  | Some q =>
      b ← zoom (pbuf_at q);
      tcp_recved c (tot_len b);;
      zoom (pbuf_free (Some q));;
      mret 0
  | None => if err =? 0 then tcp_close c else mret 0
  end.

(** The new block of a connection request: [tcp_alloc]'s, with what
    [tcp_listen_input] sets, the callback of the listening block among it. *)
Definition tcp_alloc_listening (seqno : Z) (accept : bool) : tcp_pcb :=
  mkPcb SYN_RCVD false accept RecvDefault false false false 0 (u32 (seqno + 1)) TCP_WND TCP_WND (u32 (seqno + 1))
    536 false None.
End Tcp.

(** ** Sequence numbers *)

Lemma seq_geq a b d : u32 (a - b) = u32 d -> - (2 ^ 31) <= d < 2 ^ 31 -> TCP_SEQ_GEQ a b = (0 <=? d).
Proof.
  intros E Hd. unfold TCP_SEQ_GEQ. rewrite E. unfold wrap. destruct (Z.leb_spec 0 d).
  - rewrite Z.mod_small by lia. now apply Z.ltb_lt.
  - replace d with (d + 2 ^ 32 + (-1) * 2 ^ 32) by lia. rewrite Z_mod_plus_full, Z.mod_small by lia. apply Z.ltb_ge. lia.
Qed.

Lemma seq_leq a b d : u32 (a - b) = u32 d -> - (2 ^ 31) <= d < 2 ^ 31 -> TCP_SEQ_LEQ a b = (d <=? 0).
Proof.
  intros E Hd. unfold TCP_SEQ_LEQ, TCP_SEQ_GT. rewrite (seq_geq a b d E Hd), E.
  destruct (Z.leb_spec 0 d), (Z.leb_spec d 0); try lia; cbn [andb negb]; try reflexivity.
  - replace d with 0 by lia. reflexivity.
  - unfold wrap. rewrite Z.mod_small by lia. destruct (Z.eqb_spec d 0); [lia|reflexivity].
Qed.

Lemma seq_between a b c d e :
  u32 (a - b) = u32 d -> u32 (a - c) = u32 e -> - (2 ^ 31) <= d < 2 ^ 31 -> - (2 ^ 31) <= e < 2 ^ 31 ->
  TCP_SEQ_BETWEEN a b c = (0 <=? d) && (e <=? 0).
Proof. intros E1 E2 Hd He. unfold TCP_SEQ_BETWEEN. now rewrite (seq_geq a b d E1 Hd), (seq_leq a c e E2 He). Qed.

(** Differences of offsets into the stream, from the wrapped numbers. *)
Lemma u32_diff a b m : u32 (u32 a - (u32 b + m)) = u32 (a - b - m).
Proof.
  unfold wrap. rewrite Zminus_mod_idemp_l. replace (a - (b mod 2 ^ 32 + m)) with (a - m - b mod 2 ^ 32) by lia.
  rewrite Zminus_mod_idemp_r. f_equal. lia.
Qed.

Lemma s32_diff a b : - (2 ^ 31) <= a - b < 2 ^ 31 -> s32 (u32 a - u32 b) = a - b.
Proof.
  intros H. unfold s32, wrap. replace (a mod 2 ^ 32 - b mod 2 ^ 32 + 2 ^ 31) with (a mod 2 ^ 32 + 2 ^ 31 - b mod 2 ^ 32) by lia.
  rewrite Zminus_mod_idemp_r. replace (a mod 2 ^ 32 + 2 ^ 31 - b) with (2 ^ 31 - b + a mod 2 ^ 32) by lia.
  rewrite Zplus_mod_idemp_r, Z.mod_small by lia. lia.
Qed.

Lemma u32_eq a b : - (2 ^ 31) <= a - b < 2 ^ 31 -> (u32 a =? u32 b) = (a =? b).
Proof.
  intros H. destruct (Z.eqb_spec a b) as [->|Hne]; [apply Z.eqb_refl|]. apply Z.eqb_neq. intros E.
  pose proof (s32_diff a b H) as S. rewrite E, Z.sub_diag in S. change (s32 0) with 0 in S. lia.
Qed.
