(* ===== verification/TcpOut.v ===== *)
(** * TcpOut: the sending side of a connection

    What lib/lwip/src/core/tcp_out.c does with the data the server writes:
    [tcp_write], which copies it into segments, [tcp_output], which sends
    the segments the windows allow, the retransmissions, and of [tcp_receive]
    in tcp_in.c the part that takes an acknowledgement.  A segment is the
    list of its buffers' data.  The heap and the pool of constant buffers are
    the environment's.  Not modelled: the estimate of the round trip and the
    timers themselves, options of segments with data, checksums. *)

From Stdlib Require Import ZArith Lia.
From stdpp Require Import base numbers list.
From S2P Require Import Prelude LwipMem Pbuf Tcp.
#[local] Open Scope c_scope.

(** ** Constants *)

Definition TCP_SND_BUF : Z := 2 * TCP_MSS.
Definition TCP_SND_QUEUELEN : Z := 4 * TCP_SND_BUF / TCP_MSS.
Definition TCP_SNDQUEUELEN_OVERFLOW : Z := 0xffff - 3.
Definition TCP_OVERSIZE : Z := TCP_MSS.
Definition TCP_HLEN : Z := 20.
Definition MEMP_NUM_TCP_SEG : Z := 8.

Definition TCP_WRITE_FLAG_COPY : Z := 0x01.
Definition TCP_WRITE_FLAG_MORE : Z := 0x02.

Definition TF_ACK_DELAY : Z := 0x01.
Definition TF_ACK_NOW : Z := 0x02.
Definition TF_INFR : Z := 0x04.
Definition TF_FIN : Z := 0x20.
Definition TF_NODELAY : Z := 0x40.
Definition TF_NAGLEMEMERR : Z := 0x80.

Definition TCP_FIN : Z := 0x01.
Definition TCP_SYN : Z := 0x02.
Definition TCP_PSH : Z := 0x08.
Definition TCP_ACK : Z := 0x10.

Definition TF_SEG_OPTS_MSS : Z := 0x01.
Definition LWIP_TCP_OPT_LENGTH (flags : Z) : Z := if truthy (flags &&& TF_SEG_OPTS_MSS) then 4 else 0.

(** ** State *)

(** [seg_hdr] are the flags of the header, [seg_bufs] the data of each
    buffer of the chain. *)
Record tcp_seg := mkSeg { seg_seqno : Z; seg_hdr : Z; seg_flags : Z; seg_len : Z; seg_bufs : list (list Z) }.

#[export] Instance tcp_seg_eq_dec : EqDecision tcp_seg.
Proof. solve_decision. Defined.

Definition seg_data (g : tcp_seg) : list Z := concat (seg_bufs g).
Definition set_hdr (f : Z) (g : tcp_seg) : tcp_seg :=
  mkSeg (seg_seqno g) (seg_hdr g ||| f) (seg_flags g) (seg_len g) (seg_bufs g).
Definition TCP_TCPLEN (g : tcp_seg) : Z := seg_len g + b2z (truthy (seg_hdr g &&& (TCP_FIN ||| TCP_SYN))).
Definition pbuf_clen (bufs : list (list Z)) : Z := u8 (Z.of_nat (length bufs)).

(** The queues of a control block. *)
Record send_queue := mkSq {
    snd_lbb : Z; snd_buf : Z; snd_queuelen : Z; unsent_oversize : Z;
    unsent : list tcp_seg; unacked : list tcp_seg;
  }.

(** Its windows. *)
Record send_window := mkSw {
    lastack : Z; snd_nxt : Z; snd_wnd : Z; snd_wnd_max : Z; snd_wl1 : Z; snd_wl2 : Z;
    cwnd : Z; ssthresh : Z; dupacks : Z; acked : Z;
  }.

(** The parts of a control block that sending uses, with what it has sent,
    the free segments of the pool and the number of allocations so far.
    [is_input] is [tcp_input_pcb == pcb]. *)
Record sender := mkSnd {
    pcb_state : tcp_state; pcb_flags : Z; pcb_mss : Z; rtime : Z; is_input : bool;
    queues : send_queue; window : send_window;
    seg_free : Z; allocs : nat;
    wire : list tcp_seg;
  }.

Definition with_flags (v : Z) (s : sender) : sender :=
  mkSnd (pcb_state s) v (pcb_mss s) (rtime s) (is_input s) (queues s) (window s) (seg_free s) (allocs s) (wire s).
Definition with_rtime (v : Z) (s : sender) : sender :=
  mkSnd (pcb_state s) (pcb_flags s) (pcb_mss s) v (is_input s) (queues s) (window s) (seg_free s) (allocs s) (wire s).
Definition with_input (v : bool) (s : sender) : sender :=
  mkSnd (pcb_state s) (pcb_flags s) (pcb_mss s) (rtime s) v (queues s) (window s) (seg_free s) (allocs s) (wire s).
Definition with_queues (v : send_queue) (s : sender) : sender :=
  mkSnd (pcb_state s) (pcb_flags s) (pcb_mss s) (rtime s) (is_input s) v (window s) (seg_free s) (allocs s) (wire s).
Definition with_window (v : send_window) (s : sender) : sender :=
  mkSnd (pcb_state s) (pcb_flags s) (pcb_mss s) (rtime s) (is_input s) (queues s) v (seg_free s) (allocs s) (wire s).
Definition with_seg_free (v : Z) (s : sender) : sender :=
  mkSnd (pcb_state s) (pcb_flags s) (pcb_mss s) (rtime s) (is_input s) (queues s) (window s) v (allocs s) (wire s).
Definition with_allocs (v : nat) (s : sender) : sender :=
  mkSnd (pcb_state s) (pcb_flags s) (pcb_mss s) (rtime s) (is_input s) (queues s) (window s) (seg_free s) v (wire s).
Definition with_wire (v : list tcp_seg) (s : sender) : sender :=
  mkSnd (pcb_state s) (pcb_flags s) (pcb_mss s) (rtime s) (is_input s) (queues s) (window s) (seg_free s) (allocs s) v.

Definition with_unsent (v : list tcp_seg) (q : send_queue) : send_queue :=
  mkSq (snd_lbb q) (snd_buf q) (snd_queuelen q) (unsent_oversize q) v (unacked q).
Definition with_unacked (v : list tcp_seg) (q : send_queue) : send_queue :=
  mkSq (snd_lbb q) (snd_buf q) (snd_queuelen q) (unsent_oversize q) (unsent q) v.
Definition with_oversize (v : Z) (q : send_queue) : send_queue :=
  mkSq (snd_lbb q) (snd_buf q) (snd_queuelen q) v (unsent q) (unacked q).
Definition with_queuelen (v : Z) (q : send_queue) : send_queue :=
  mkSq (snd_lbb q) (snd_buf q) v (unsent_oversize q) (unsent q) (unacked q).

Definition on_queues (f : send_queue -> send_queue) : M sender unit := modify (fun s => with_queues (f (queues s)) s).
Definition on_window (f : send_window -> send_window) : M sender unit := modify (fun s => with_window (f (window s)) s).
Definition set_flag (f : Z) : M sender unit := modify (fun s => with_flags (pcb_flags s ||| f) s).
Definition clear_flag (f : Z) : M sender unit := modify (fun s => with_flags (Z.ldiff (pcb_flags s) f) s).
Definition emit_seg (g : tcp_seg) : M sender unit := modify (fun s => with_wire (wire s ++ [g]) s).

(** Comparison of sequence numbers: [(s32_t)(a - b) < 0]. *)
Definition TCP_SEQ_LT (a b : Z) : bool := negb (TCP_SEQ_GEQ a b).

(** ** Memory

    Whether the [n]-th request finds memory: in the heap for so many bytes,
    or in the pool of buffers for constant data. *)
Class SendMem := { ram_found : nat -> Z -> bool; rom_found : nat -> bool }.

Section Sending.
Context `{SM : SendMem}.

Definition counted (f : nat -> bool) : M sender bool := fun s =>
  Ok (f (allocs s), with_allocs (S (allocs s)) s).
Definition ram_malloc (size : Z) : M sender bool := counted (fun n => ram_found n size).
Definition rom_malloc : M sender bool := counted rom_found.

(** [tcp_seg_free]: the buffers go back with the segment. *)
Definition tcp_seg_free : M sender unit := modify (fun s => with_seg_free (seg_free s + 1) s).
Definition tcp_segs_free (l : list tcp_seg) : M sender unit := for_each l (fun _ => tcp_seg_free).

Definition tcp_create_segment (bufs : list (list Z)) (hdr seqno optflags : Z) : M sender (option tcp_seg) :=
  n ← gets seg_free;
  if n =? 0 then mret None
  else
    modify (with_seg_free (n - 1));;
    mret (Some (mkSeg seqno hdr optflags (u16 (Z.of_nat (length (concat bufs)))) bufs)).

(** The bytes left behind the data, or nothing. *)
Definition tcp_pbuf_prealloc (length max_length apiflags : Z) (first_seg : bool) : M sender (option Z) :=
  f ← gets pcb_flags;
  q ← gets queues;
  let alloc :=
    if length <? max_length then
      if truthy (apiflags &&& TCP_WRITE_FLAG_MORE) ||
         (negb (truthy (f &&& TF_NODELAY)) &&
          (negb first_seg || negb (bool_decide (unsent q = [])) || negb (bool_decide (unacked q = []))))
      then Z.min max_length (LWIP_MEM_ALIGN_SIZE (length + TCP_OVERSIZE)) else length
    else length in
  ok ← ram_malloc alloc;
  mret (if ok : bool then Some (alloc - length) else None).

(** ** [tcp_write] *)

Definition tcp_write_checks (len : Z) : M sender Z :=
  st ← gets pcb_state;
  q ← gets queues;
  if negb (bool_decide (st = ESTABLISHED \/ st = CLOSE_WAIT \/ st = SYN_SENT \/ st = SYN_RCVD)) then mret ERR_CONN
  else if len =? 0 then mret ERR_OK
  else if snd_buf q <? len then set_flag TF_NAGLEMEMERR;; mret ERR_MEM
  else if (TCP_SND_QUEUELEN <=? snd_queuelen q) || (TCP_SNDQUEUELEN_OVERFLOW <? snd_queuelen q)
  then set_flag TF_NAGLEMEMERR;; mret ERR_MEM
  else mret ERR_OK.

(** What the phases leave in the local variables: the bytes for the last
    buffer of [last_unsent], the buffer to append to that segment, and
    [oversize], [pos], [queuelen]. *)
Record phases := mkPh { oversize_used : Z; concat_p : option (list Z); ph_oversize : Z; ph_pos : Z; ph_queuelen : Z }.

Definition slice (pos len : Z) (d : list Z) : list Z := take (Z.to_nat len) (drop (Z.to_nat pos) d).

(** Phases 1 and 2: the rest of the last buffer, and a buffer more for the
    last segment.  [None] is [goto memerr]. *)
Definition extend_last (d : list Z) (apiflags mss_local : Z) : M sender (option phases) :=
  q ← gets queues;
  let len := Z.of_nat (length d) in
  let queuelen := snd_queuelen q in
  match last (unsent q) with
  | None => mret (Some (mkPh 0 None 0 0 queuelen))
  | Some last_unsent =>
      let space := u16 (mss_local - (seg_len last_unsent + LWIP_TCP_OPT_LENGTH (seg_flags last_unsent))) in
      let oversize := unsent_oversize q in
      let '(used, oversize, space) :=
        if 0 <? oversize then
          let used := if oversize <? len then oversize else len in
          (used, oversize - used, u16 (space - used))
        else (0, oversize, space) in
      let pos := used in
      if (pos <? len) && (0 <? space) && (0 <? seg_len last_unsent) then
        let seglen := if space <? len - pos then space else len - pos in
        if truthy (apiflags &&& TCP_WRITE_FLAG_COPY) then
          r ← tcp_pbuf_prealloc seglen space apiflags true;
          match r with
          | None => mret None
          | Some oversize => mret (Some (mkPh used (Some (slice pos seglen d)) oversize (pos + seglen) (u16 (queuelen + 1))))
          end
        else
          ok ← rom_malloc;
          if ok : bool then mret (Some (mkPh used (Some (slice pos seglen d)) oversize (pos + seglen) (u16 (queuelen + 1))))
          else mret None
      else mret (Some (mkPh used None oversize pos queuelen))
  end.

(** Phase 3: [queue] are the segments made so far; the result says whether
    all were made.  Every turn makes [queuelen] greater. *)
Fixpoint new_segments (fuel : nat) (d : list Z) (apiflags mss_local : Z) (queue : list tcp_seg) (oversize pos queuelen : Z)
    : M sender (bool * list tcp_seg * Z * Z) :=
  match fuel with
  | O => hang
  | S fuel =>
      let len := Z.of_nat (length d) in
      if pos <? len then
        let left := len - pos in
        let seglen := if mss_local <? left then mss_local else left in
        lbb ← gets (fun s => snd_lbb (queues s));
        p ← (if truthy (apiflags &&& TCP_WRITE_FLAG_COPY) then
               r ← tcp_pbuf_prealloc seglen mss_local apiflags (bool_decide (queue = []));
               mret (match r with Some oversize => Some ([slice pos seglen d], oversize) | None => None end)
             else
               ok ← rom_malloc;
               if ok : bool then
                 ok ← ram_malloc 0;
                 mret (if ok : bool then Some ([[]; slice pos seglen d], oversize) else None)
               else mret None);
        match p with
        | None => mret (false, queue, oversize, queuelen)
        | Some (bufs, oversize) =>
            let queuelen := u16 (queuelen + pbuf_clen bufs) in
            if (TCP_SND_QUEUELEN <? queuelen) || (TCP_SNDQUEUELEN_OVERFLOW <? queuelen)
            then mret (false, queue, oversize, queuelen)
            else
              seg ← tcp_create_segment bufs 0 (u32 (lbb + pos)) 0;
              match seg with
              | None => mret (false, queue, oversize, queuelen)
              | Some seg => new_segments fuel d apiflags mss_local (queue ++ [seg]) oversize (pos + seglen) queuelen
              end
        end
      else mret (true, queue, oversize, queuelen)
  end.

(** The last buffer of a chain gets longer. *)
Fixpoint append_tail (bufs : list (list Z)) (d : list Z) : list (list Z) :=
  match bufs with
  | [] => []
  | [b] => [b ++ d]
  | b :: bufs => b :: append_tail bufs d
  end.

(** The commit of phases 1 and 2 on the last segment. *)
Definition commit_last (d : list Z) (ph : phases) (g : tcp_seg) : tcp_seg :=
  let g :=
    if 0 <? oversize_used ph then
      mkSeg (seg_seqno g) (seg_hdr g) (seg_flags g) (u16 (seg_len g + oversize_used ph))
        (append_tail (seg_bufs g) (slice 0 (oversize_used ph) d))
    else g in
  match concat_p ph with
  | Some c => mkSeg (seg_seqno g) (seg_hdr g) (seg_flags g) (u16 (seg_len g + Z.of_nat (length c))) (seg_bufs g ++ [c])
  | None => g
  end.

Definition on_last (f : tcp_seg -> tcp_seg) (l : list tcp_seg) : list tcp_seg :=
  match last l with Some g => removelast l ++ [f g] | None => [] end.

(** [seg], on which the push flag is set: the last segment tampered with. *)
Definition touched (ph : phases) (oversize0 : Z) (queue : list tcp_seg) : bool :=
  (0 <? oversize0) || bool_decide (is_Some (concat_p ph)) || negb (bool_decide (queue = [])).

Definition tcp_write (d : list Z) (apiflags : Z) : M sender Z :=
  let len := Z.of_nat (length d) in
  err ← tcp_write_checks len;
  if negb (err =? ERR_OK) then mret err else
  s ← get;
  let mss_local := Z.min (pcb_mss s) (snd_wnd_max (window s) / 2) in
  let oversize0 := match unsent (queues s) with [] => 0 | _ => unsent_oversize (queues s) end in
  ph ← extend_last d apiflags mss_local;
  match ph with
  | None => set_flag TF_NAGLEMEMERR;; mret ERR_MEM
  | Some ph =>
      r ← new_segments (S (S (Z.to_nat TCP_SND_QUEUELEN))) d apiflags mss_local [] (ph_oversize ph) (ph_pos ph) (ph_queuelen ph);
      let '(ok, queue, oversize, queuelen) := r in
      if (ok : bool) then
        on_queues (fun q =>
          let last_unsent := on_last (commit_last d ph) (unsent q) in
          let all := last_unsent ++ queue in
          let all := if touched ph oversize0 queue && negb (truthy (apiflags &&& TCP_WRITE_FLAG_MORE))
                     then on_last (set_hdr TCP_PSH) all else all in
          mkSq (u32 (snd_lbb q + len)) (u16 (snd_buf q - len)) queuelen oversize all (unacked q));;
        mret ERR_OK
      else
        set_flag TF_NAGLEMEMERR;; tcp_segs_free queue;; mret ERR_MEM
  end.

(** ** Sending *)

(** [tcp_output_segment]; the segment has an address to go to. *)
Definition tcp_output_segment (g : tcp_seg) : M sender unit :=
  modify (fun s => with_rtime (if rtime s =? -1 then 0 else rtime s) s);; emit_seg g.

Definition tcp_send_empty_ack : M sender Z :=
  ok ← ram_malloc TCP_HLEN;
  if (ok : bool) then
    clear_flag (TF_ACK_DELAY ||| TF_ACK_NOW);;
    n ← gets (fun s => snd_nxt (window s));
    emit_seg (mkSeg n TCP_ACK 0 0 []);;
    mret ERR_OK
  else mret ERR_BUF.

Definition tcp_do_output_nagle (s : sender) : bool :=
  let q := queues s in
  bool_decide (unacked q = []) || truthy (pcb_flags s &&& (TF_NODELAY ||| TF_INFR)) ||
  match unsent q with [] => false | [g] => pcb_mss s <=? seg_len g | _ => true end ||
  ((snd_buf q =? 0) || (TCP_SND_QUEUELEN <=? snd_queuelen q)).

(** Insertion before the first segment that is not earlier. *)
Fixpoint insert_seg (g : tcp_seg) (l : list tcp_seg) : list tcp_seg :=
  match l with
  | [] => [g]
  | h :: l' => if TCP_SEQ_LT (seg_seqno h) (seg_seqno g) then h :: insert_seg g l' else g :: l
  end.

(** The queue of segments sent with one more. *)
Definition add_unacked (g : tcp_seg) (l : list tcp_seg) : list tcp_seg :=
  match last l with
  | None => [g]
  | Some useg => if TCP_SEQ_LT (seg_seqno g) (seg_seqno useg) then insert_seg g l else l ++ [g]
  end.

Definition within_window (g : tcp_seg) (wnd : Z) (w : send_window) : bool :=
  u32 (u32 (seg_seqno g - lastack w) + seg_len g) <=? wnd.

(** One segment after the other, while the window [wnd] allows it. *)
Fixpoint output_loop (fuel : nat) (wnd : Z) : M sender unit :=
  match fuel with
  | O => hang
  | S fuel =>
      s ← get;
      match unsent (queues s) with
      | g :: rest =>
          if within_window g wnd (window s) then
            if negb (tcp_do_output_nagle s) && negb (truthy (pcb_flags s &&& (TF_NAGLEMEMERR ||| TF_FIN)))
            then mret tt
            else
              on_queues (with_unsent rest);;
              g ← (if bool_decide (pcb_state s = SYN_SENT) then mret g
                   else clear_flag (TF_ACK_DELAY ||| TF_ACK_NOW);; mret (set_hdr TCP_ACK g));
              tcp_output_segment g;;
              let nxt := u32 (seg_seqno g + TCP_TCPLEN g) in
              on_window (fun w =>
                if TCP_SEQ_LT (snd_nxt w) nxt
                then mkSw (lastack w) nxt (snd_wnd w) (snd_wnd_max w) (snd_wl1 w) (snd_wl2 w) (cwnd w) (ssthresh w) (dupacks w) (acked w)
                else w);;
              (if 0 <? TCP_TCPLEN g then on_queues (fun q => with_unacked (add_unacked g (unacked q)) q) else tcp_seg_free);;
              output_loop fuel wnd
          else mret tt
      | [] => mret tt
      end
  end.

Definition tcp_output : M sender Z :=
  s ← get;
  if is_input s then mret ERR_OK else
  let wnd := Z.min (snd_wnd (window s)) (cwnd (window s)) in
  if truthy (pcb_flags s &&& TF_ACK_NOW) &&
     match unsent (queues s) with [] => true | g :: _ => negb (within_window g wnd (window s)) end
  then tcp_send_empty_ack
  else
    output_loop (S (length (unsent (queues s)))) wnd;;
    on_queues (fun q => match unsent q with [] => with_oversize 0 q | _ => q end);;
    clear_flag TF_NAGLEMEMERR;;
    mret ERR_OK.

(** ** Retransmission *)

(** All segments that were sent are sent again. *)
Definition tcp_rexmit_rto : M sender unit :=
  q ← gets queues;
  if bool_decide (unacked q = []) then mret tt
  else
    on_queues (fun q => with_unacked [] (with_unsent (unacked q ++ unsent q) q));;
    tcp_output;; mret tt.

(** The first one is queued again. *)
Definition tcp_rexmit : M sender unit :=
  q ← gets queues;
  match unacked q with
  | [] => mret tt
  | g :: rest =>
      on_queues (fun q =>
        let is_last := forallb (fun h => TCP_SEQ_LT (seg_seqno h) (seg_seqno g)) (unsent q) in
        let q := with_unacked rest (with_unsent (insert_seg g (unsent q)) q) in
        if is_last then with_oversize 0 q else q)
  end.

(** Half of what may be in flight, but at least two segments; the congestion
    window is that and the three segments that have arrived. *)
Definition fast_recovery (mss : Z) (w : send_window) : send_window :=
  let ss := if snd_wnd w <? cwnd w then snd_wnd w / 2 else cwnd w / 2 in
  let ss := if ss <? 2 * mss then u16 (2 * mss) else ss in
  mkSw (lastack w) (snd_nxt w) (snd_wnd w) (snd_wnd_max w) (snd_wl1 w) (snd_wl2 w) (u16 (ss + 3 * mss)) ss (dupacks w) (acked w).

Definition tcp_rexmit_fast : M sender unit :=
  s ← get;
  if negb (bool_decide (unacked (queues s) = [])) && negb (truthy (pcb_flags s &&& TF_INFR)) then
    tcp_rexmit;;
    on_window (fast_recovery (pcb_mss s));;
    set_flag TF_INFR
  else mret tt.

(** ** Acknowledgements *)

(** The update of the window by a segment's [seqno], [ackno] and [wnd]. *)
Definition update_window (seqno ackno wnd : Z) (w : send_window) : send_window :=
  if TCP_SEQ_LT (snd_wl1 w) seqno || ((snd_wl1 w =? seqno) && TCP_SEQ_LT (snd_wl2 w) ackno) ||
     ((snd_wl2 w =? ackno) && (snd_wnd w <? wnd))
  then mkSw (lastack w) (snd_nxt w) wnd (if snd_wnd_max w <? wnd then wnd else snd_wnd_max w) seqno ackno
         (cwnd w) (ssthresh w) (dupacks w) (acked w)
  else w.

Definition with_acked (v : Z) (w : send_window) : send_window :=
  mkSw (lastack w) (snd_nxt w) (snd_wnd w) (snd_wnd_max w) (snd_wl1 w) (snd_wl2 w) (cwnd w) (ssthresh w) (dupacks w) v.
Definition with_dupacks (v : Z) (w : send_window) : send_window :=
  mkSw (lastack w) (snd_nxt w) (snd_wnd w) (snd_wnd_max w) (snd_wl1 w) (snd_wl2 w) (cwnd w) (ssthresh w) v (acked w).
Definition with_cwnd (v : Z) (w : send_window) : send_window :=
  mkSw (lastack w) (snd_nxt w) (snd_wnd w) (snd_wnd_max w) (snd_wl1 w) (snd_wl2 w) v (ssthresh w) (dupacks w) (acked w).

(** An acknowledgement of nothing new. *)
Definition receive_dupack (ackno tcplen right_wnd_edge : Z) : M sender unit :=
  on_window (with_acked 0);;
  s ← get;
  let w := window s in
  if (tcplen =? 0) && (u32 (snd_wl2 w + snd_wnd w) =? right_wnd_edge) && (0 <=? rtime s) && (lastack w =? ackno) then
    on_window (fun w => if dupacks w <? u8 (dupacks w + 1) then with_dupacks (dupacks w + 1) w else w);;
    n ← gets (fun s => dupacks (window s));
    if 3 <? n then
      on_window (fun w => let c := u16 (cwnd w + pcb_mss s) in if cwnd w <? c then with_cwnd c w else w)
    else when (n =? 3) tcp_rexmit_fast
  else on_window (with_dupacks 0).

(** A segment that is acknowledged leaves the queue. *)
Definition release (g : tcp_seg) : M sender unit :=
  on_window (fun w => if negb (acked w =? 0) && truthy (seg_hdr g &&& TCP_FIN) then with_acked (acked w - 1) w else w);;
  on_queues (fun q => with_queuelen (u16 (snd_queuelen q - pbuf_clen (seg_bufs g))) q);;
  tcp_seg_free.

(** The segments sent that [ackno] covers; the list gets shorter. *)
Fixpoint free_unacked (fuel : nat) (ackno : Z) : M sender unit :=
  match fuel with
  | O => hang
  | S fuel =>
      q ← gets queues;
      match unacked q with
      | g :: rest =>
          if TCP_SEQ_LEQ (u32 (seg_seqno g + TCP_TCPLEN g)) ackno then
            on_queues (with_unacked rest);; release g;; free_unacked fuel ackno
          else mret tt
      | [] => mret tt
      end
  end.

(** An acknowledgement of new data. *)
Definition receive_newack (ackno : Z) : M sender unit :=
  s ← get;
  when (truthy (pcb_flags s &&& TF_INFR))
    (clear_flag TF_INFR;; on_window (fun w => with_cwnd (ssthresh w) w));;
  let n := u16 (u32 (ackno - lastack (window s))) in
  on_queues (fun q => mkSq (snd_lbb q) (u16 (snd_buf q + n)) (snd_queuelen q) (unsent_oversize q) (unsent q) (unacked q));;
  on_window (fun w =>
    let m := pcb_mss s in
    let c :=
      if cwnd w <? ssthresh w then (let c := u16 (cwnd w + m) in if cwnd w <? c then c else cwnd w)
      else (let c := u16 (cwnd w + m * m / cwnd w) in if cwnd w <? c then c else cwnd w) in
    mkSw ackno (snd_nxt w) (snd_wnd w) (snd_wnd_max w) (snd_wl1 w) (snd_wl2 w) c (ssthresh w) 0 n);;
  l ← gets (fun s => unacked (queues s));
  free_unacked (S (length l)) ackno;;
  modify (fun s => with_rtime (if bool_decide (unacked (queues s) = []) then -1 else 0) s).

(** After a retransmission also segments of the other queue. *)
Fixpoint free_unsent (fuel : nat) (ackno : Z) : M sender unit :=
  match fuel with
  | O => hang
  | S fuel =>
      s ← get;
      match unsent (queues s) with
      | g :: rest =>
          if TCP_SEQ_BETWEEN ackno (u32 (seg_seqno g + TCP_TCPLEN g)) (snd_nxt (window s)) then
            on_queues (fun q => let q := with_unsent rest q in match rest with [] => with_oversize 0 q | _ => q end);;
            release g;; free_unsent fuel ackno
          else mret tt
      | [] => mret tt
      end
  end.

(** The part of [tcp_receive] for a segment with the flag [TCP_ACK]. *)
Definition receive_ack (seqno ackno wnd tcplen : Z) : M sender unit :=
  w ← gets window;
  let right_wnd_edge := u32 (snd_wnd w + snd_wl2 w) in
  on_window (update_window seqno ackno wnd);;
  w ← gets window;
  (if TCP_SEQ_LEQ ackno (lastack w) then receive_dupack ackno tcplen right_wnd_edge
   else if TCP_SEQ_BETWEEN ackno (u32 (lastack w + 1)) (snd_nxt w) then receive_newack ackno
   else on_window (with_acked 0));;
  l ← gets (fun s => unsent (queues s));
  free_unsent (S (length l)) ackno.

(** Data that was accepted is acknowledged later, or at once if it is the
    second time. *)
Definition tcp_ack : M sender unit :=
  f ← gets pcb_flags;
  if truthy (f &&& TF_ACK_DELAY) then clear_flag TF_ACK_DELAY;; set_flag TF_ACK_NOW else set_flag TF_ACK_DELAY.

(** [tcp_input] around it: while the segment is processed nothing is sent;
    [data] says that it brought data. *)
Definition input_ack (seqno ackno wnd tcplen : Z) (data : bool) : M sender Z :=
  modify (with_input true);;
  receive_ack seqno ackno wnd tcplen;;
  when data tcp_ack;;
  modify (with_input false);;
  tcp_output.

(** What [tcp_fasttmr] does for a connection. *)
Definition fasttmr_ack : M sender unit :=
  f ← gets pcb_flags;
  when (truthy (f &&& TF_ACK_DELAY))
    (set_flag TF_ACK_NOW;; tcp_output;; clear_flag (TF_ACK_DELAY ||| TF_ACK_NOW)).
End Sending.
