(* ===== verification/TcpStream.v ===== *)
(** * TcpStream: what is written is what is sent

    The refinement of TcpOut.v to a stream of bytes: whatever the order of
    writes, acknowledgements, retransmissions and timers, every segment on
    the wire carries the bytes that were written, at their place, and a write
    either joins the stream whole or leaves it as it was. *)

From Stdlib Require Import ZArith Lia.
From stdpp Require Import base numbers list.
From S2P Require Import Prelude LwipMem Pbuf Tcp TcpOut.
#[local] Open Scope c_scope.

(** ** Segments with consecutive numbers *)

Record plain (mss : Z) (g : tcp_seg) : Prop := {
    pl_flags : seg_flags g = 0;
    pl_hdr : truthy (seg_hdr g &&& (TCP_FIN ||| TCP_SYN)) = false;
    pl_len : seg_len g = Z.of_nat (length (seg_data g));
    pl_range : 0 < seg_len g <= mss;
  }.

#[export] Instance plain_dec mss g : Decision (plain mss g).
Proof.
  refine (cast_if (decide (seg_flags g = 0 /\ truthy (seg_hdr g &&& (TCP_FIN ||| TCP_SYN)) = false /\
    seg_len g = Z.of_nat (length (seg_data g)) /\ 0 < seg_len g <= mss))); [split; tauto|intros []; tauto].
Defined.

Fixpoint numbered (mss n : Z) (l : list tcp_seg) : Prop :=
  match l with
  | [] => True
  | g :: l => seg_seqno g = u32 n /\ plain mss g /\ numbered mss (n + seg_len g) l
  end.

Definition stream_of (l : list tcp_seg) : list Z := concat (map seg_data l).
Definition total (l : list tcp_seg) : Z := Z.of_nat (length (stream_of l)).
Definition clen (bufs : list (list Z)) : Z := Z.of_nat (length bufs).
Definition buffers (l : list tcp_seg) : Z := Z.of_nat (length (concat (map seg_bufs l))).

Lemma total_cons g l : total (g :: l) = Z.of_nat (length (seg_data g)) + total l.
Proof. unfold total, stream_of. cbn [map concat]. rewrite length_app. lia. Qed.
Lemma stream_app l1 l2 : stream_of (l1 ++ l2) = stream_of l1 ++ stream_of l2.
Proof. unfold stream_of. now rewrite map_app, concat_app. Qed.
Lemma total_app l1 l2 : total (l1 ++ l2) = total l1 + total l2.
Proof. unfold total. rewrite stream_app, length_app. lia. Qed.
Lemma buffers_cons g l : buffers (g :: l) = clen (seg_bufs g) + buffers l.
Proof. unfold buffers, clen. cbn [map concat]. rewrite length_app. lia. Qed.
Lemma buffers_app l1 l2 : buffers (l1 ++ l2) = buffers l1 + buffers l2.
Proof. unfold buffers. rewrite map_app, concat_app, length_app. lia. Qed.
Lemma pbuf_clen_small bufs : clen bufs < 2 ^ 8 -> pbuf_clen bufs = clen bufs.
Proof. intros H. unfold pbuf_clen, clen in *. apply wrap_small. lia. Qed.
Lemma total_pos l : 0 <= total l.
Proof. unfold total. lia. Qed.

Lemma numbered_app m n l1 l2 : numbered m n (l1 ++ l2) <-> numbered m n l1 /\ numbered m (n + total l1) l2.
Proof.
  revert n. induction l1 as [|g l1 IH]; intros n; cbn [numbered app].
  - unfold total. cbn. rewrite Z.add_0_r. tauto.
  - rewrite IH, total_cons. destruct (decide (plain m g)) as [Hg|Hg]; [|tauto].
    rewrite <- (pl_len _ _ Hg), Z.add_assoc. tauto.
Qed.

Lemma numbered_plain m n l g : numbered m n l -> g ∈ l -> plain m g.
Proof.
  revert n. induction l as [|h l IH]; intros n; [intros _ H; now apply elem_of_nil in H|].
  intros (_ & H & Hl) [->|Hg]%elem_of_cons; [exact H|now apply (IH _ Hl)].
Qed.

Lemma plain_tcplen m g : plain m g -> TCP_TCPLEN g = seg_len g.
Proof. intros []. unfold TCP_TCPLEN. rewrite pl_hdr0. cbn. lia. Qed.

(** More bits of the header, as long as they do not count. *)
Lemma set_hdr_plain m f g : f &&& (TCP_FIN ||| TCP_SYN) = 0 -> plain m g -> plain m (set_hdr f g).
Proof.
  intros Hf []. split; try done. cbn [set_hdr seg_hdr]. rewrite Z.land_lor_distr_l, Hf, Z.lor_0_r. done.
Qed.

(** ** Memory *)

(** Apart from the memory that is left, and the flags. *)
Definition with_mem (n : nat) (free flags : Z) (s : sender) : sender :=
  with_allocs n (with_seg_free free (with_flags flags s)).

Section Stream.
Context `{SM : SendMem}.

Lemma prealloc_ok len max f first s :
  0 <= len <= max -> exists r, tcp_pbuf_prealloc len max f first s = Ok (r, with_allocs (S (allocs s)) s) /\
    (forall o, r = Some o -> 0 <= o /\ len + o <= max) /\ ((forall n size, ram_found n size = true) -> r <> None).
Proof.
  intros Hlen. unfold tcp_pbuf_prealloc, ram_malloc, counted. mred. eexists. split; [reflexivity|].
  match goal with |- context [ram_found _ ?x] => set (a := x) end.
  assert (len <= a <= max) as Ha.
  { subst a. pose proof (align_size (len + TCP_OVERSIZE)). assert (0 < TCP_OVERSIZE) by (now compute).
    destruct (Z.ltb_spec len max); [|lia]. destruct (_ || _); lia. }
  clearbody a. split.
  - intros o. destruct (ram_found _ _); [|discriminate]. intros [= <-]. lia.
  - intros ->. discriminate.
Qed.

(** ** New segments *)

Lemma slice_app pos n d : 0 <= pos -> 0 <= n -> slice pos n d ++ drop (Z.to_nat (pos + n)) d = drop (Z.to_nat pos) d.
Proof.
  intros Hp Hn. unfold slice. replace (Z.to_nat (pos + n)) with (Z.to_nat pos + Z.to_nat n)%nat by lia.
  rewrite <- drop_drop. apply take_drop.
Qed.

Lemma length_slice pos n d : 0 <= pos -> 0 <= n -> pos + n <= Z.of_nat (length d) -> Z.of_nat (length (slice pos n d)) = n.
Proof. intros. unfold slice. rewrite length_take, length_drop. lia. Qed.

Definition tail_room (m : Z) (over : Z) (l : list tcp_seg) : Prop :=
  match last l with Some g => 0 <= over /\ seg_len g + over <= m | None => over = 0 end.

(** What the loop makes of the bytes from [pos] on. *)
Record made (d : list Z) (m n pos over queuelen : Z) (l : list tcp_seg) (over' queuelen' : Z) : Prop := {
    md_data : stream_of l = drop (Z.to_nat pos) d;
    md_numbered : numbered m (n + pos) l;
    md_room : if bool_decide (l = []) then over' = over else tail_room m over' l;
    md_queuelen : queuelen' = queuelen + buffers l;
    md_limit : l <> [] -> queuelen' <= TCP_SND_QUEUELEN;
  }.

(** The buffers of one segment. *)
Lemma segment_bufs f m over first (sl : list Z) s :
  Z.of_nat (length sl) <= m -> (truthy (f &&& TCP_WRITE_FLAG_COPY) = false -> over = 0) ->
  exists p n, (if truthy (f &&& TCP_WRITE_FLAG_COPY) then
       r ← tcp_pbuf_prealloc (Z.of_nat (length sl)) m f first;
       mret (match r with Some oversize => Some ([sl], oversize) | None => None end)
     else
       ok ← rom_malloc;
       if ok : bool then
         ok ← ram_malloc 0;
         mret (if ok : bool then Some ([[]; sl], over) else None)
       else mret None) s = Ok (p, with_allocs n s) /\
  ((forall n size, ram_found n size = true) -> truthy (f &&& TCP_WRITE_FLAG_COPY) = true -> p <> None) /\
  forall bufs over', p = Some (bufs, over') ->
    concat bufs = sl /\ 0 <= over' /\ Z.of_nat (length sl) + over' <= m /\
    1 <= clen bufs <= 2 /\ (truthy (f &&& TCP_WRITE_FLAG_COPY) = true -> clen bufs = 1) /\
    (truthy (f &&& TCP_WRITE_FLAG_COPY) = false -> over' = 0).
Proof.
  intros Hm Hover. destruct (truthy _).
  - destruct (prealloc_ok (Z.of_nat (length sl)) m f first s ltac:(lia)) as (r & E & Hr & Hn). rewrite (bind_ok _ _ _ _ _ E).
    eexists _, _. split; [reflexivity|]. split; [intros Hram _; specialize (Hn Hram); now destruct r|].
    intros bufs over'. destruct r as [o|]; [|discriminate]. intros [= <- <-]. destruct (Hr o eq_refl).
    cbn. rewrite app_nil_r. unfold clen. cbn. repeat split; (lia || discriminate).
  - specialize (Hover eq_refl). subst over. unfold rom_malloc, ram_malloc, counted. mred.
    destruct (rom_found _); [destruct (ram_found _ _)|]; eexists _, _; (split; [reflexivity|]);
      (split; [discriminate|]); intros bufs over'; try discriminate.
    intros [= <- <-]. cbn. rewrite app_nil_r. unfold clen. cbn. repeat split; (lia || discriminate).
Qed.

Lemma new_segments_ok fuel d f m queue over pos ql s :
  0 < m < 2 ^ 16 -> 0 <= pos <= Z.of_nat (length d) -> 0 <= ql <= TCP_SND_QUEUELEN -> 0 <= seg_free s ->
  (Z.to_nat (TCP_SND_QUEUELEN - ql) < fuel)%nat -> (pos < Z.of_nat (length d) -> over = 0) ->
  exists ok l over' ql' n, new_segments fuel d f m queue over pos ql s =
      Ok (ok, queue ++ l, over', ql', with_mem n (seg_free s - Z.of_nat (length l)) (pcb_flags s) s) /\
    0 <= seg_free s - Z.of_nat (length l) /\
    (ok = true -> made d m (snd_lbb (queues s)) pos over ql l over' ql').
Proof.
  intros Hm. change TCP_SND_QUEUELEN with 8. revert queue over pos ql s. induction fuel as [|fuel IH]; intros queue over pos ql s Hpos Hql Hfree Hfuel Hover; [lia|].
  assert (forall b over' ql' n, b = false -> exists ok l over2 ql2 n2,
    Ok (b, queue, over', ql', with_allocs n s) = Ok (ok, queue ++ l, over2, ql2, with_mem n2 (seg_free s - Z.of_nat (length l)) (pcb_flags s) s) /\
    0 <= seg_free s - Z.of_nat (length l) /\ (ok = true -> made d m (snd_lbb (queues s)) pos over ql l over2 ql2)) as Hstop.
  { intros b over' ql' n ->. exists false, [], over', ql', n. rewrite app_nil_r, Z.sub_0_r. split; [now destruct s|]. split; [done|discriminate]. }
  cbn [new_segments]. destruct (Z.ltb_spec pos (Z.of_nat (length d))).
  2: { exists true, [], over, ql, (allocs s). rewrite app_nil_r, Z.sub_0_r. split; [now destruct s|]. split; [lia|]. intros _.
    split; try done; [|unfold buffers; cbn; lia]. rewrite drop_ge by lia. done. }
  set (seglen := if m <? _ then m else _). assert (0 < seglen <= m /\ pos + seglen <= Z.of_nat (length d)) as [Hsl Hsd]
    by (subst seglen; destruct (Z.ltb_spec m (Z.of_nat (length d) - pos)); lia).
  pose proof (length_slice pos seglen d ltac:(lia) ltac:(lia) Hsd) as Hls. set (sl := slice pos seglen d) in *.
  erewrite (bind_ok (gets _)) by reflexivity.
  destruct (segment_bufs f m over (bool_decide (queue = [])) sl s ltac:(lia) (fun _ => Hover ltac:(lia))) as (p & n & E & _ & Hp). rewrite Hls in E. rewrite (bind_ok _ _ _ _ _ E). clear E.
  destruct p as [[bufs over1]|]; [|exact (Hstop false over ql n eq_refl)]. destruct (Hp bufs over1 eq_refl) as (Hb & Ho1 & Ho2 & Hc & _ & Hz). clear Hp.
  rewrite (pbuf_clen_small bufs), (wrap_small 16) by lia. change TCP_SND_QUEUELEN with 8. change TCP_SNDQUEUELEN_OVERFLOW with 65532.
  destruct (Z.ltb_spec 8 (ql + clen bufs)); cbn [orb]; [exact (Hstop false over1 _ n eq_refl)|].
  destruct (Z.ltb_spec 65532 (ql + clen bufs)); [lia|].
  assert (tcp_create_segment bufs 0 (u32 (snd_lbb (queues s) + pos)) 0 (with_allocs n s) =
    if seg_free s =? 0 then Ok (None, with_allocs n s)
    else Ok (Some (mkSeg (u32 (snd_lbb (queues s) + pos)) 0 0 seglen bufs), with_mem n (seg_free s - 1) (pcb_flags s) s)) as Ec.
  { unfold tcp_create_segment. mred. cbn [with_allocs seg_free]. rewrite Hb, Hls, (wrap_small 16) by lia. now destruct (seg_free s =? 0). }
  destruct (Z.eqb_spec (seg_free s) 0); rewrite (bind_ok _ _ _ _ _ Ec); [exact (Hstop false over1 _ n eq_refl)|]. clear Hstop Ec.
  assert (pos + seglen < Z.of_nat (length d) -> over1 = 0) as Hz1.
  { intros Hlt. subst seglen. destruct (Z.ltb_spec m (Z.of_nat (length d) - pos)); lia. }
  set (g := mkSeg _ _ _ _ _). set (s1 := with_mem n _ _ s).
  destruct (IH (queue ++ [g]) over1 (pos + seglen) (ql + clen bufs) s1 ltac:(lia) ltac:(lia) ltac:(change (0 <= seg_free s - 1); lia) ltac:(lia) Hz1)
    as (ok & l & over2 & ql2 & n2 & E & Hf2 & Hmade). rewrite E. cbn [s1 with_mem with_allocs with_seg_free with_flags seg_free pcb_flags queues] in Hf2, Hmade |- *.
  exists ok, (g :: l), over2, ql2, n2. cbn [length]. rewrite <- app_assoc. split; [|split; [lia|]].
  { replace (seg_free s - Z.of_nat (S (length l))) with (seg_free s - 1 - Z.of_nat (length l)) by lia. reflexivity. }
  intros ->. destruct (Hmade eq_refl) as [D N R Q Lm]. assert (plain m g) as Hg.
  { split; try reflexivity; cbn [g seg_len]; [|lia]. unfold seg_data. cbn [g seg_bufs]. now rewrite Hb. }
  split.
  - unfold stream_of in *. cbn [map concat]. rewrite D. unfold seg_data. cbn [g seg_bufs]. rewrite Hb. apply slice_app; lia.
  - cbn [numbered g seg_seqno seg_len]. split; [reflexivity|]. split; [exact Hg|]. now rewrite <- Z.add_assoc.
  - rewrite bool_decide_eq_false_2 by discriminate. unfold tail_room in *. destruct l as [|h l].
    + cbn in R |- *. subst over2. lia.
    + rewrite bool_decide_eq_false_2 in R by discriminate. now rewrite last_cons_cons.
  - rewrite Q, buffers_cons. cbn [g seg_bufs]. lia.
  - intros _. destruct l as [|h l]; [unfold buffers in Q; cbn in Q; change TCP_SND_QUEUELEN with 8; lia|]. now apply Lm.
Qed.
(** ** The last segment *)

Lemma append_tail_ok bufs d :
  bufs <> [] -> concat (append_tail bufs d) = concat bufs ++ d /\ length (append_tail bufs d) = length bufs.
Proof.
  induction bufs as [|b bufs IH]; [done|]. intros _. destruct bufs as [|b' bufs]; [cbn; now rewrite !app_nil_r|].
  destruct IH as [H1 H2]; [done|]. change (append_tail (b :: b' :: bufs) d) with (b :: append_tail (b' :: bufs) d).
  cbn [concat length]. rewrite H1, H2. split; [now rewrite app_assoc|reflexivity].
Qed.

Lemma plain_bufs m g : plain m g -> seg_bufs g <> [].
Proof. intros [_ _ Hl Hr] E. unfold seg_data in Hl. rewrite E in Hl. cbn in Hl. lia. Qed.

(** The last segment [g] with the bytes before [ph_pos] of [d]. *)
Record extended (d : list Z) (m mss : Z) (g : tcp_seg) (ql : Z) (ph : phases) (g' : tcp_seg) : Prop := {
    xt_pos : 0 <= ph_pos ph <= Z.of_nat (length d);
    xt_plain : plain mss g';
    xt_seqno : seg_seqno g' = seg_seqno g;
    xt_data : seg_data g' = seg_data g ++ take (Z.to_nat (ph_pos ph)) d;
    xt_room : 0 <= ph_oversize ph /\ seg_len g' + ph_oversize ph <= m;
    xt_full : ph_pos ph < Z.of_nat (length d) -> ph_oversize ph = 0;
    xt_queuelen : ph_queuelen ph = ql + clen (seg_bufs g') - clen (seg_bufs g);
    xt_one : ql <= ph_queuelen ph <= ql + 1;
  }.

Lemma commit_extends d m mss g ql ph :
  plain mss g -> m <= mss -> m < 2 ^ 16 ->
  0 <= oversize_used ph -> (ph_pos ph < Z.of_nat (length d) -> ph_oversize ph = 0) -> 0 <= ph_oversize ph ->
  ph_pos ph = oversize_used ph + match concat_p ph with Some c => Z.of_nat (length c) | None => 0 end ->
  ph_pos ph <= Z.of_nat (length d) -> seg_len g + ph_pos ph + ph_oversize ph <= m ->
  match concat_p ph with Some c => c = slice (oversize_used ph) (Z.of_nat (length c)) d | None => True end ->
  ph_queuelen ph = ql + (if concat_p ph then 1 else 0) ->
  extended d m mss g ql ph (commit_last d ph g).
Proof.
  intros Hg Hm H16 Hu Hfull Ho Hpos Hle Hroom Hc Hq. pose proof (plain_bufs _ _ Hg) as Hb. destruct Hg as [G1 G2 G3 G4].
  unfold commit_last. set (g1 := if 0 <? oversize_used ph then _ else g).
  assert (seg_seqno g1 = seg_seqno g /\ seg_hdr g1 = seg_hdr g /\ seg_flags g1 = seg_flags g /\ seg_len g1 = seg_len g + oversize_used ph /\
    seg_data g1 = seg_data g ++ take (Z.to_nat (oversize_used ph)) d /\ clen (seg_bufs g1) = clen (seg_bufs g)) as (E1 & E2 & E3 & E4 & E5 & E6).
  { subst g1. destruct (Z.ltb_spec 0 (oversize_used ph)).
    - unfold seg_data, clen. cbn [seg_seqno seg_hdr seg_flags seg_len seg_bufs]. destruct (append_tail_ok (seg_bufs g) (slice 0 (oversize_used ph) d) Hb) as [-> ->].
      rewrite wrap_small by (destruct (concat_p ph); lia). repeat split; reflexivity.
    - replace (oversize_used ph) with 0 by lia. cbn. rewrite app_nil_r. repeat split; lia. }
  clearbody g1. destruct (concat_p ph) as [c|].
  - assert (seg_data (mkSeg (seg_seqno g1) (seg_hdr g1) (seg_flags g1) (u16 (seg_len g1 + Z.of_nat (length c))) (seg_bufs g1 ++ [c])) =
      seg_data g ++ take (Z.to_nat (ph_pos ph)) d) as Ed.
    { unfold seg_data in *. cbn [seg_bufs]. rewrite concat_app, E5. cbn [concat]. rewrite app_nil_r, <- app_assoc. f_equal.
      rewrite Hc at 1. unfold slice. rewrite Hpos. replace (Z.to_nat (oversize_used ph + Z.of_nat (length c))) with (Z.to_nat (oversize_used ph) + Z.to_nat (Z.of_nat (length c)))%nat by lia.
      now rewrite take_take_drop. }
    assert (Z.of_nat (length (seg_data g ++ take (Z.to_nat (ph_pos ph)) d)) = seg_len g1 + Z.of_nat (length c)) as El
      by (rewrite length_app, length_take; lia).
    split; try exact Ed; try assumption; cbn [seg_seqno seg_len seg_bufs]; try lia.
    + split; cbn [seg_flags seg_hdr seg_len]; try congruence; [rewrite Ed, El, wrap_small by lia; reflexivity|rewrite wrap_small by lia; lia].
    + rewrite wrap_small by lia. lia.
    + unfold clen in *. rewrite length_app. cbn [length]. lia.
  - rewrite Z.add_0_r in Hpos. split; try assumption; try lia; [|now rewrite Hpos].
    split; try congruence; [rewrite E5, length_app, length_take; lia|lia].
Qed.

Lemma extend_last_ok d f m mss l g s :
  unsent (queues s) = l ++ [g] -> plain mss g -> m <= mss -> m < 2 ^ 16 ->
  0 <= unsent_oversize (queues s) -> seg_len g + unsent_oversize (queues s) <= m ->
  0 <= snd_queuelen (queues s) <= TCP_SND_QUEUELEN ->
  exists r n, extend_last d f m s = Ok (r, with_allocs n s) /\
    (forall ph, r = Some ph -> extended d m mss g (snd_queuelen (queues s)) ph (commit_last d ph g)).
Proof.
  intros Hu Hg Hm H16 Ho Hroom Hql. change TCP_SND_QUEUELEN with 8 in Hql. unfold extend_last. erewrite bind_ok by reflexivity. rewrite Hu, last_snoc.
  pose proof Hg as [G1 G2 G3 G4]. rewrite G1. change (LWIP_TCP_OPT_LENGTH 0) with 0. rewrite Z.add_0_r, (wrap_small 16 (m - seg_len g)) by lia.
  set (len := Z.of_nat (length d)). set (over := unsent_oversize (queues s)) in *.
  match goal with |- context [if 0 <? over then ?a else ?b] => set (ph1 := if 0 <? over then a else b) end.
  assert (exists used over1, ph1 = (used, over1, m - seg_len g - used) /\ 0 <= used <= len /\ 0 <= over1 /\
    used + over1 = over /\ (used < len -> over1 = 0)) as (used & over1 & E1 & Hu1 & Ho1 & Hsum & Hz).
  { subst ph1. destruct (Z.ltb_spec 0 over).
    - set (used := if over <? len then over else len). assert (0 <= used <= len /\ used <= over /\ (used < len -> used = over)) as (? & ? & ?)
        by (subst used; destruct (Z.ltb_spec over len); lia). exists used, (over - used). rewrite (wrap_small 16 (m - seg_len g - used)) by lia. repeat split; lia.
    - exists 0, over. rewrite Z.sub_0_r. repeat split; lia. }
  clearbody ph1. subst ph1. cbv beta iota zeta.
  assert (forall over2 c, 0 <= over2 -> used + Z.of_nat (length c) <= len -> seg_len g + (used + Z.of_nat (length c)) + over2 <= m ->
    (used + Z.of_nat (length c) < len -> over2 = 0) -> c = slice used (Z.of_nat (length c)) d ->
    extended d m mss g (snd_queuelen (queues s)) (mkPh used (Some c) over2 (used + Z.of_nat (length c)) (u16 (snd_queuelen (queues s) + 1)))
      (commit_last d (mkPh used (Some c) over2 (used + Z.of_nat (length c)) (u16 (snd_queuelen (queues s) + 1))) g)) as Hx.
  { intros over2 c H1 H2 H3 H4 H5. apply commit_extends; cbn [oversize_used ph_pos ph_oversize concat_p ph_queuelen]; try assumption; try lia.
    rewrite wrap_small by lia. lia. }
  destruct (Z.ltb_spec used len); cbn [andb].
  2: { eexists _, (allocs s). split; [now destruct s|]. intros ph [= <-]. apply commit_extends; cbn; try assumption; lia. }
  destruct (Z.ltb_spec 0 (m - seg_len g - used)); cbn [andb].
  2: { eexists _, (allocs s). split; [now destruct s|]. intros ph [= <-]. apply commit_extends; cbn; try assumption; lia. }
  destruct (Z.ltb_spec 0 (seg_len g)); [|lia].
  set (seglen := if _ <? len - used then _ else _). assert (0 < seglen <= m - seg_len g - used /\ used + seglen <= len /\ (used + seglen < len -> seglen = m - seg_len g - used)) as (S1 & S2 & S3)
    by (subst seglen; destruct (Z.ltb_spec (m - seg_len g - used) (len - used)); lia). clearbody seglen.
  pose proof (length_slice used seglen d ltac:(lia) ltac:(lia) S2) as Hls. specialize (Hx) with (c := slice used seglen d). rewrite Hls in Hx.
  destruct (truthy (f &&& TCP_WRITE_FLAG_COPY)).
  - destruct (prealloc_ok seglen (m - seg_len g - used) f true s ltac:(lia)) as (r & E & Hr & _). rewrite (bind_ok _ _ _ _ _ E).
    destruct r as [over2|]; (eexists _, _; split; [reflexivity|]); intros ph; [|discriminate]. intros [= <-].
    destruct (Hr over2 eq_refl). apply Hx; try lia. reflexivity.
  - unfold rom_malloc, counted. mred. destruct (rom_found _); (eexists _, _; split; [reflexivity|]); intros ph; [|discriminate].
    intros [= <-]. apply Hx; try lia. reflexivity.
Qed.
(** ** The invariant

    [hist] are the bytes written so far, [isn] the number of the first; the
    segments hold those from [k] on, [a] are acknowledged, [n] were sent. *)
Definition on_stream (isn : Z) (hist : list Z) (g : tcp_seg) : Prop :=
  exists o, seg_seqno g = u32 (isn + Z.of_nat o) /\ seg_data g `prefix_of` drop o hist.

Definition mss_local (s : sender) : Z := Z.min (pcb_mss s) (snd_wnd_max (window s) / 2).
Definition in_flight (s : sender) : list tcp_seg := unacked (queues s) ++ unsent (queues s).

Record flowing (isn : Z) (hist : list Z) (k a n : Z) (s : sender) : Prop := {
    fl_numbered : numbered (mss_local s) (isn + k) (in_flight s);
    fl_data : stream_of (in_flight s) = drop (Z.to_nat k) hist;
    fl_range : 0 <= k <= a /\ a <= n <= Z.of_nat (length hist);
    fl_first : match in_flight s with g :: _ => a < k + seg_len g | [] => True end;
    fl_sent : k + total (unacked (queues s)) <= n;
    fl_lastack : lastack (window s) = u32 (isn + a);
    fl_nxt : snd_nxt (window s) = u32 (isn + n);
    fl_lbb : snd_lbb (queues s) = u32 (isn + Z.of_nat (length hist));
    fl_buf : snd_buf (queues s) = TCP_SND_BUF - (Z.of_nat (length hist) - a) /\ 0 <= snd_buf (queues s);
    fl_queuelen : snd_queuelen (queues s) = buffers (in_flight s) /\ snd_queuelen (queues s) <= TCP_SND_QUEUELEN;
    fl_mss : 0 < pcb_mss s <= TCP_MSS /\ 2 <= snd_wnd_max (window s);
    fl_room : tail_room (mss_local s) (unsent_oversize (queues s)) (unsent (queues s));
    fl_wire : Forall (on_stream isn hist) (wire s);
    fl_free : 0 <= seg_free s;
    fl_input : is_input s = false;
    fl_windows : 0 <= cwnd (window s) < 2 ^ 16 /\ 0 <= ssthresh (window s) < 2 ^ 16 /\ 0 <= snd_wnd (window s) < 2 ^ 16;
  }.

Lemma flowing_mem isn hist k a n s m free flags :
  flowing isn hist k a n s -> 0 <= free -> flowing isn hist k a n (with_mem m free flags s).
Proof. intros [] Hf. now split. Qed.

Lemma numbered_u32 m x y l : numbered m (u32 x + y) l <-> numbered m (x + y) l.
Proof.
  revert y. induction l as [|g l IH]; intros y; cbn [numbered]; [done|]. rewrite wrap_add_l, <- !Z.add_assoc. now rewrite IH.
Qed.

(** *** The last segment of a queue *)

Lemma on_last_snoc f l g : on_last f (l ++ [g]) = l ++ [f g].
Proof. unfold on_last. rewrite last_snoc. now rewrite removelast_last. Qed.

(** Marking the last segment changes nothing that counts. *)
Lemma mark_last f m n l :
  f &&& (TCP_FIN ||| TCP_SYN) = 0 -> let l' := on_last (set_hdr f) l in
  (numbered m n l -> numbered m n l') /\ stream_of l' = stream_of l /\ buffers l' = buffers l /\
  (forall r o, tail_room r o l' <-> tail_room r o l) /\ (forall x, (match l with g :: _ => x < n + seg_len g | [] => True end) ->
    match l' with g :: _ => x < n + seg_len g | [] => True end).
Proof.
  intros Hf. destruct l as [|g l _] using rev_ind; [done|]. cbv zeta. rewrite on_last_snoc. split; [|split; [|split; [|split]]].
  - rewrite !numbered_app. intros (H1 & H2 & H3 & _). split; [exact H1|]. split; [exact H2|]. split; [now apply set_hdr_plain|exact I].
  - rewrite !stream_app. reflexivity.
  - rewrite !buffers_app. reflexivity.
  - intros r o. unfold tail_room. now rewrite !last_snoc.
  - intros x. now destruct l.
Qed.

Lemma on_stream_grows isn hist d g : on_stream isn hist g -> on_stream isn (hist ++ d) g.
Proof.
  intros (o & H1 & H2). exists o. split; [exact H1|]. rewrite drop_app. now apply prefix_app_r.
Qed.

Lemma tail_room_app r o l1 l2 : l2 <> [] -> tail_room r o (l1 ++ l2) <-> tail_room r o l2.
Proof.
  intros Hne. destruct l2 as [|g l2 _] using rev_ind; [done|]. unfold tail_room. now rewrite app_assoc, !last_snoc.
Qed.

(** *** Writing *)

(** The queue [u] of unsent segments becomes [u'], which ends in the bytes
    [d]; [x] is the number of the first. *)
Record joins (m mss x : Z) (d : list Z) (u u' : list tcp_seg) (over' : Z) (ql ql' : Z) : Prop := {
    jn_numbered : numbered mss x u -> numbered mss x u';
    jn_data : stream_of u' = stream_of u ++ d;
    jn_queuelen : ql' = ql + buffers u' - buffers u;
    jn_limit : ql' <= TCP_SND_QUEUELEN;
    jn_room : tail_room m over' u';
    jn_first : forall y, match u with g :: _ => y < x + seg_len g | [] => y <= x end ->
      match u' with g :: _ => y < x + seg_len g | [] => False end;
  }.

(** Without segments, all of [d] goes into new ones. *)
Lemma joins_new m mss x d l over ql over' ql' :
  d <> [] -> 0 < m <= mss -> made d m x 0 over ql l over' ql' -> numbered mss x l -> joins m mss x d [] l over' ql ql'.
Proof.
  intros Hd Hm [D N R Q Lm] Hl. rewrite drop_0 in D. assert (l <> []) as Hne by (intros ->; now subst d).
  rewrite bool_decide_eq_false_2 in R by exact Hne. split; try done; [unfold buffers at 2; cbn; lia|now apply Lm|].
  intros y Hy. destruct l as [|g l]; [done|]. destruct Hl as (_ & Hg & _). pose proof (pl_range _ _ Hg). lia.
Qed.

Lemma numbered_weaken m m' n l : m <= m' -> numbered m n l -> numbered m' n l.
Proof.
  intros Hm. revert n. induction l as [|g l IH]; intros n; [done|]. intros (H1 & [] & H3). split; [exact H1|]. split; [|now apply IH].
  split; try done. lia.
Qed.

Lemma extended_len d m mss g ql ph g' : extended d m mss g ql ph g' -> plain mss g -> seg_len g' = seg_len g + ph_pos ph.
Proof. intros [P1 P2 P3 P4 P5 P6 P7 P8] Hg. rewrite (pl_len _ _ P2), P4, length_app, length_take, (pl_len _ _ Hg). lia. Qed.

(** The last segment is extended, and segments follow. *)
Lemma joins_more m mss x d u g ph l over' ql ql' :
  0 < m <= mss -> ql < TCP_SND_QUEUELEN ->
  extended d m mss g ql ph (commit_last d ph g) -> plain mss g ->
  made d m (x + total (u ++ [g])) (ph_pos ph) (ph_oversize ph) (ph_queuelen ph) l over' ql' ->
  joins m mss x d (u ++ [g]) (u ++ [commit_last d ph g] ++ l) over' ql ql'.
Proof.
  intros Hm Hql Hx Hg [D N R Q Lm]. set (g' := commit_last d ph g) in *. pose proof (extended_len _ _ _ _ _ _ _ Hx Hg) as El.
  destruct Hx as [P1 P2 P3 P4 P5 P6 P7 P8].
  split.
  - rewrite !numbered_app. intros (H1 & H2 & _). split; [exact H1|]. split; [split; [now rewrite P3|now split]|].
    apply (numbered_weaken m); [lia|]. rewrite !total_app, !total_cons in *. rewrite <- (pl_len _ _ P2), El, (pl_len _ _ Hg).
    change (total []) with 0 in *. replace (x + total u + (Z.of_nat (length (seg_data g)) + ph_pos ph + 0)) with (x + (total u + (Z.of_nat (length (seg_data g)) + 0)) + ph_pos ph) by lia.
    exact N.
  - rewrite !stream_app, D. unfold stream_of at 2 4. cbn [map concat]. rewrite !app_nil_r, P4, <- !app_assoc. do 2 f_equal. apply take_drop.
  - rewrite Q, P7, !buffers_app, !buffers_cons. change (buffers []) with 0. lia.
  - destruct l as [|h l]; [|apply Lm; discriminate]. rewrite Q. unfold buffers. cbn. lia.
  - destruct l as [|h l]; [|rewrite !tail_room_app by discriminate; rewrite bool_decide_eq_false_2 in R by discriminate; exact R].
    cbn in R. subst over'. rewrite app_nil_r. unfold tail_room. rewrite last_snoc. exact P5.
  - intros y Hy. destruct u as [|h u]; [|exact Hy]. cbn [app] in *. lia.
Qed.
Lemma write_checks_ok len s :
  0 < len -> exists err flags, tcp_write_checks len s = Ok (err, with_flags flags s) /\
    (err = ERR_OK /\ flags = pcb_flags s /\ len <= snd_buf (queues s) /\ snd_queuelen (queues s) < TCP_SND_QUEUELEN \/
     err = ERR_MEM /\ (snd_buf (queues s) < len \/ TCP_SND_QUEUELEN <= snd_queuelen (queues s)) \/ err = ERR_CONN).
Proof.
  intros Hlen. unfold tcp_write_checks. do 2 erewrite bind_ok by reflexivity. change TCP_SND_QUEUELEN with 8. change TCP_SNDQUEUELEN_OVERFLOW with 65532.
  destruct (bool_decide _); cbn [negb]; [|exists ERR_CONN, (pcb_flags s); split; [now destruct s|auto]].
  destruct (Z.eqb_spec len 0); [lia|].
  destruct (Z.ltb_spec (snd_buf (queues s)) len); [eexists _, _; split; [reflexivity|auto]|].
  destruct (Z.leb_spec 8 (snd_queuelen (queues s))); cbn [orb]; [eexists _, _; split; [reflexivity|auto]|].
  destruct (Z.ltb_spec 65532 (snd_queuelen (queues s))); [lia|]. exists ERR_OK, (pcb_flags s). split; [now destruct s|]. left. auto with lia.
Qed.

Lemma segs_free_ok l s : tcp_segs_free l s = Ok (tt, with_seg_free (seg_free s + Z.of_nat (length l)) s).
Proof.
  unfold tcp_segs_free. revert s. induction l as [|g l IH]; intros s; cbn [for_each]; [rewrite Z.add_0_r; now destruct s|].
  erewrite bind_ok by reflexivity. rewrite IH. cbn [length with_seg_free seg_free].
  replace (seg_free s + Z.of_nat (S (length l))) with (seg_free s + 1 + Z.of_nat (length l)) by lia. reflexivity.
Qed.

(** All three phases, as the queue sees them. *)
Lemma phases_ok d f m mss x s :
  d <> [] -> numbered mss x (unsent (queues s)) -> 0 < m <= mss -> m < 2 ^ 16 ->
  tail_room m (unsent_oversize (queues s)) (unsent (queues s)) -> 0 <= snd_queuelen (queues s) < TCP_SND_QUEUELEN ->
  exists r n, extend_last d f m s = Ok (r, with_allocs n s) /\ forall ph, r = Some ph ->
    0 <= ph_pos ph <= Z.of_nat (length d) /\ (ph_pos ph < Z.of_nat (length d) -> ph_oversize ph = 0) /\
    snd_queuelen (queues s) <= ph_queuelen ph <= snd_queuelen (queues s) + 1 /\
    forall l over' ql', made d m (x + total (unsent (queues s))) (ph_pos ph) (ph_oversize ph) (ph_queuelen ph) l over' ql' ->
      joins m mss x d (unsent (queues s)) (on_last (commit_last d ph) (unsent (queues s)) ++ l) over' (snd_queuelen (queues s)) ql'.
Proof.
  intros Hd Hn Hm H16 Hroom Hql. destruct (unsent (queues s)) as [|g u _] eqn:Eu using rev_ind.
  - unfold extend_last. erewrite bind_ok by reflexivity. rewrite Eu. cbn [last]. eexists _, (allocs s). split; [now destruct s|].
    intros ph [= <-]. cbn [ph_pos ph_oversize ph_queuelen]. split; [lia|]. split; [done|]. split; [lia|]. intros l over' ql' Hmade. change (total []) with 0 in Hmade. rewrite Z.add_0_r in Hmade.
    cbn [on_last last app]. eapply joins_new; [done|done|exact Hmade|]. apply (numbered_weaken m); [lia|].
    pose proof (md_numbered _ _ _ _ _ _ _ _ _ Hmade) as H. now rewrite Z.add_0_r in H.
  - apply numbered_app in Hn as [Hn1 (Hg1 & Hg & _)]. unfold tail_room in Hroom. rewrite last_snoc in Hroom.
    destruct (extend_last_ok d f m mss u g s Eu Hg ltac:(lia) H16 ltac:(lia) ltac:(lia) ltac:(lia)) as (r & n & E & Hr).
    exists r, n. split; [exact E|]. intros ph Hph. pose proof (Hr ph Hph) as Hx'. pose proof Hx' as [P1 P2 P3 P4 P5 P6 P7 P8].
    split; [exact P1|]. split; [exact P6|]. split; [exact P8|]. intros l over' ql' Hmade. rewrite on_last_snoc, <- app_assoc.
    apply (joins_more m mss x d u g ph l over' _ ql'); try done. lia.
Qed.

Lemma made_u32 d m x pos over ql l over' ql' : made d m (u32 x) pos over ql l over' ql' -> made d m x pos over ql l over' ql'.
Proof. intros [D N R Q Lm]. split; try done. now apply numbered_u32. Qed.

Lemma joins_mark m mss x d u u' over ql ql' :
  joins m mss x d u u' over ql ql' -> joins m mss x d u (on_last (set_hdr TCP_PSH) u') over ql ql'.
Proof.
  intros [J1 J2 J3 J4 J5 J6]. destruct (mark_last TCP_PSH mss x u' eq_refl) as (M1 & M2 & M3 & M4 & M5). split; try done.
  - intros H. now apply M1, J1.
  - now rewrite M2.
  - now rewrite M3.
  - now apply M4.
  - intros y Hy. specialize (M5 y). apply J6 in Hy. destruct u' as [|g u'] using rev_ind; [done|]. rewrite on_last_snoc in *.
    destruct u'; cbn [app] in *; now apply M5.
Qed.

Lemma in_flight_total isn hist k a n s : flowing isn hist k a n s -> k + total (in_flight s) = Z.of_nat (length hist).
Proof. intros []. unfold total. rewrite fl_data0, length_drop. lia. Qed.

(** The state with the queue that the commit leaves. *)
Lemma commit_flows isn hist k a n d u' over' ql' s :
  flowing isn hist k a n s -> d <> [] -> Z.of_nat (length d) <= snd_buf (queues s) ->
  joins (mss_local s) (mss_local s) (isn + k + total (unacked (queues s))) d (unsent (queues s)) u' over' (snd_queuelen (queues s)) ql' ->
  flowing isn (hist ++ d) k a n
    (with_queues (mkSq (u32 (snd_lbb (queues s) + Z.of_nat (length d))) (u16 (snd_buf (queues s) - Z.of_nat (length d))) ql' over' u' (unacked (queues s))) s).
Proof.
  intros [F1 F2 F3 F4 F5 F6 F7 F8 [F9 F9'] [F10 F10'] F11 F12 F13 F14 F15 F16] Hd Hlen [J1 J2 J3 J4 J5 J6].
  unfold in_flight in *. apply numbered_app in F1 as [N1 N2].
  assert (0 < Z.of_nat (length d)) by (destruct d; [done|cbn; lia]). assert (TCP_SND_BUF < 2 ^ 16) by (now compute).
  split; unfold in_flight; cbn [with_queues queues unacked unsent snd_lbb snd_buf snd_queuelen unsent_oversize pcb_mss window wire seg_free is_input]; try done.
  - apply numbered_app. split; [exact N1|]. now apply J1.
  - rewrite stream_app in F2 |- *. rewrite J2, app_assoc, F2, drop_app, (proj2 (Nat.sub_0_le _ _)) by lia. now rewrite drop_0.
  - rewrite length_app. lia.
  - destruct (unacked (queues s)) as [|g ua]; [|exact F4]. cbn [app] in *. change (total []) with 0 in *. rewrite Z.add_0_r in *.
    assert (match unsent (queues s) with g :: _ => isn + a < isn + k + seg_len g | [] => isn + a <= isn + k end) as Hf.
    { destruct (unsent (queues s)); [|lia]. change (stream_of []) with ([] : list Z) in F2.
      apply (f_equal length) in F2. rewrite length_drop in F2. cbn in F2. lia. }
    apply J6 in Hf. destruct u'; [done|]. lia.
  - rewrite F8, wrap_add_l, length_app. f_equal. lia.
  - rewrite wrap_small by lia. rewrite length_app. lia.
  - rewrite buffers_app in *. lia.
  - eapply Forall_impl; [exact F13|]. intros g. apply on_stream_grows.
Qed.

Lemma mss_local_range isn hist k a n s : flowing isn hist k a n s -> 0 < mss_local s <= pcb_mss s /\ mss_local s <= TCP_MSS /\ TCP_MSS < 2 ^ 16.
Proof.
  intros H. destruct (fl_mss _ _ _ _ _ _ H) as [H1 H2]. unfold mss_local. pose proof (Z.div_le_mono 2 _ 2 ltac:(lia) H2) as H3.
  change (2 / 2) with 1 in H3. assert (TCP_MSS < 2 ^ 16) by (now compute). lia.
Qed.

(** A write joins the stream whole, or is refused and leaves the queues alone. *)
Lemma write_flows isn hist k a n d f s :
  flowing isn hist k a n s -> d <> [] -> exists err s', tcp_write d f s = Ok (err, s') /\
    (err = ERR_OK /\ flowing isn (hist ++ d) k a n s' \/
     (err = ERR_MEM \/ err = ERR_CONN) /\ flowing isn hist k a n s' /\ queues s' = queues s).
Proof.
  intros Hf Hd. pose proof Hf as [F1 F2 F3 F4 F5 F6 F7 F8 [F9 F9'] [F10 F10'] F11 F12 F13 F14 F15 F16].
  unfold tcp_write. destruct (write_checks_ok (Z.of_nat (length d)) s ltac:(destruct d; [done|cbn; lia])) as (err & flags & E & Hc).
  rewrite (bind_ok _ _ _ _ _ E).
  assert (with_flags flags s = with_mem (allocs s) (seg_free s) flags s) as Em by reflexivity.
  destruct (decide (err = ERR_OK)) as [->|Hne].
  2: { exists err, (with_flags flags s). assert ((err =? ERR_OK) = false) as -> by now apply Z.eqb_neq.
    split; [reflexivity|]. right. split; [intuition|]. split; [|reflexivity]. rewrite Em. now apply flowing_mem. }
  destruct Hc as [(_ & -> & Hbuf & Hql)|[[? _]| ?]]; [|discriminate..]. change (negb (ERR_OK =? ERR_OK)) with false. cbv iota.
  replace (with_flags (pcb_flags s) s) with s by now destruct s. clear E Em. erewrite bind_ok by reflexivity. fold (mss_local s).
  pose proof (mss_local_range _ _ _ _ _ _ Hf) as Hm. pose proof F1 as F1'. unfold in_flight in F1'. apply numbered_app in F1' as [_ N2].
  assert (0 <= snd_queuelen (queues s)) as Hq0 by (rewrite F10; unfold buffers; lia).
  destruct (phases_ok d f (mss_local s) (mss_local s) _ s Hd N2 ltac:(lia) ltac:(lia) F12 ltac:(lia)) as (r & m & E & Hr).
  rewrite (bind_ok _ _ _ _ _ E). clear E.
  assert (forall n' free flags, 0 <= free -> exists err s', Ok (ERR_MEM, with_mem n' free flags s) = Ok (err, s') /\
    (err = ERR_OK /\ flowing isn (hist ++ d) k a n s' \/ (err = ERR_MEM \/ err = ERR_CONN) /\ flowing isn hist k a n s' /\ queues s' = queues s)) as Hmem.
  { intros n' free flags Hfree. eexists _, _. split; [reflexivity|]. right. split; [now left|]. split; [now apply flowing_mem|reflexivity]. }
  destruct r as [ph|]; [|exact (Hmem m (seg_free s) _ F14)].
  destruct (Hr ph eq_refl) as (Hpos & Hfull & Hq & Hj). clear Hr.
  destruct (new_segments_ok 10 d f (mss_local s) [] (ph_oversize ph) (ph_pos ph) (ph_queuelen ph) (with_allocs m s) ltac:(lia) Hpos ltac:(lia) F14 ltac:(change TCP_SND_QUEUELEN with 8; lia) Hfull)
    as (ok & l & over' & ql' & m' & E & Hfree & Hmade). change (S (S (Z.to_nat TCP_SND_QUEUELEN))) with 10%nat. rewrite (bind_ok _ _ _ _ _ E). clear E.
  cbn [app]. destruct ok; cbv iota beta.
  - specialize (Hmade eq_refl). cbn [with_allocs queues] in Hmade. rewrite F8 in Hmade. apply made_u32 in Hmade.
    pose proof (in_flight_total _ _ _ _ _ _ Hf) as Ht. unfold in_flight in Ht. rewrite total_app in Ht.
    replace (isn + Z.of_nat (length hist)) with (isn + k + total (unacked (queues s)) + total (unsent (queues s))) in Hmade by lia.
    apply Hj in Hmade. erewrite bind_ok by reflexivity. eexists _, _. split; [reflexivity|]. left. split; [reflexivity|].
    change (queues (with_mem _ _ _ _)) with (queues s).
    match goal with |- context [with_queues ?q _] =>
      change (flowing isn (hist ++ d) k a n (with_mem m' (seg_free s - Z.of_nat (length l)) (pcb_flags s) (with_queues q s))) end.
    apply flowing_mem; [|exact Hfree].
    apply commit_flows; try done. destruct (_ && _); [now apply joins_mark|exact Hmade].
  - erewrite bind_ok by reflexivity. rewrite (bind_ok _ _ _ _ _ (segs_free_ok _ _)).
    refine (Hmem m' (seg_free s - Z.of_nat (length l) + Z.of_nat (length l)) (pcb_flags s ||| TF_NAGLEMEMERR) _). lia.
Qed.
(** *** Sending *)

Definition with_nxt (v : Z) (w : send_window) : send_window :=
  mkSw (lastack w) v (snd_wnd w) (snd_wnd_max w) (snd_wl1 w) (snd_wl2 w) (cwnd w) (ssthresh w) (dupacks w) (acked w).

(** The state after the first segment of the queue, [g], was sent as [g']. *)
Definition sent (flags rt : Z) (g' : tcp_seg) (rest : list tcp_seg) (nxt : Z) (s : sender) : sender :=
  with_queues (with_unacked (add_unacked g' (unacked (queues s))) (with_unsent rest (queues s)))
    (with_window (with_nxt nxt (window s)) (with_wire (wire s ++ [g']) (with_rtime rt (with_flags flags s)))).

(** What is queued with its header marked. *)
Definition marked (g g' : tcp_seg) : Prop := exists h, h &&& (TCP_FIN ||| TCP_SYN) = 0 /\ g' = set_hdr h g.

Lemma marked_plain m g g' : marked g g' -> plain m g -> plain m g'.
Proof. intros (h & Hh & ->). now apply set_hdr_plain. Qed.

Lemma output_loop_sends fuel wnd m g rest s :
  unsent (queues s) = g :: rest -> plain m g -> within_window g wnd (window s) = true ->
  tcp_do_output_nagle s || truthy (pcb_flags s &&& (TF_NAGLEMEMERR ||| TF_FIN)) = true ->
  exists flags rt g', marked g g' /\
    output_loop (S fuel) wnd s =
      output_loop fuel wnd (sent flags rt g' rest
        (if TCP_SEQ_LT (snd_nxt (window s)) (u32 (seg_seqno g + seg_len g)) then u32 (seg_seqno g + seg_len g) else snd_nxt (window s)) s).
Proof.
  intros Hu Hg Hw Hn. pose proof (plain_tcplen _ _ Hg) as Htl. cbn [output_loop]. erewrite bind_ok by reflexivity. rewrite Hu, Hw.
  rewrite <- negb_orb, Hn. cbn [negb]. erewrite bind_ok by reflexivity.
  assert (exists h flags, h &&& (TCP_FIN ||| TCP_SYN) = 0 /\
    (if bool_decide (pcb_state (with_queues (with_unsent rest (queues s)) s) = SYN_SENT) then mret g
     else clear_flag (TF_ACK_DELAY ||| TF_ACK_NOW);; mret (set_hdr TCP_ACK g)) (with_queues (with_unsent rest (queues s)) s) =
    Ok (set_hdr h g, with_flags flags (with_queues (with_unsent rest (queues s)) s))) as (h & flags & Hh & E).
  { destruct (bool_decide _).
    - exists 0, (pcb_flags s). split; [done|]. unfold set_hdr. rewrite Z.lor_0_r. now destruct g, s.
    - exists TCP_ACK. eexists. split; [reflexivity|]. reflexivity. }
  exists flags, (if rtime s =? -1 then 0 else rtime s), (set_hdr h g). split; [now exists h|].
  rewrite (bind_ok _ _ _ _ _ E). clear E. pose proof (set_hdr_plain _ _ _ Hh Hg) as Hg'. pose proof (plain_tcplen _ _ Hg') as Htl'.
  pose proof (pl_range _ _ Hg). rewrite !Htl'. change (seg_len (set_hdr h g)) with (seg_len g). change (seg_seqno (set_hdr h g)) with (seg_seqno g).
  do 2 erewrite bind_ok by reflexivity. destruct (Z.ltb_spec 0 (seg_len g)); [|lia]. erewrite bind_ok by reflexivity.
  f_equal. destruct s as [? ? ? ? ? [] [] ? ? ?]. cbn. unfold sent. cbn. now destruct (TCP_SEQ_LT _ _).
Qed.
Lemma seq_lt c x y : - (2 ^ 31) <= x - y < 2 ^ 31 -> TCP_SEQ_LT (u32 (c + x)) (u32 (c + y)) = (x <? y).
Proof.
  intros H. unfold TCP_SEQ_LT. rewrite (seq_geq _ _ (x - y)) by (assumption || (pose proof (u32_diff (c + x) (c + y) 0) as E; rewrite Z.add_0_r in E; rewrite E; f_equal; lia)).
  destruct (Z.leb_spec 0 (x - y)), (Z.ltb_spec x y); (reflexivity || lia).
Qed.

(** What is in flight is little more than the send buffer. *)
Lemma flight_bound isn hist k a n s : flowing isn hist k a n s -> Z.of_nat (length hist) - k <= TCP_SND_BUF + TCP_MSS.
Proof.
  intros H. pose proof (in_flight_total _ _ _ _ _ _ H) as Ht. pose proof (mss_local_range _ _ _ _ _ _ H). destruct H. assert (0 <= TCP_MSS /\ 0 <= TCP_SND_BUF) by (now compute).
  destruct (in_flight s) as [|g l]; [change (total []) with 0 in Ht; lia|].
  destruct fl_numbered0 as (_ & Hg & _). pose proof (pl_range _ _ Hg). lia.
Qed.

(** The last segment sent has gone, and with it the room behind it. *)
Definition reset_oversize (q : send_queue) : send_queue := match unsent q with [] => with_oversize 0 q | _ => q end.

(** [flowing] but for that. *)
Definition draining (isn : Z) (hist : list Z) (k a n : Z) (s : sender) : Prop :=
  flowing isn hist k a n (with_queues (reset_oversize (queues s)) s).

Lemma reset_keeps q : unsent (reset_oversize q) = unsent q /\ unacked (reset_oversize q) = unacked q /\
  snd_lbb (reset_oversize q) = snd_lbb q /\ snd_buf (reset_oversize q) = snd_buf q /\ snd_queuelen (reset_oversize q) = snd_queuelen q.
Proof. unfold reset_oversize. destruct (unsent q) eqn:E; [|done]. cbn. now rewrite E. Qed.

Lemma flowing_draining isn hist k a n s : flowing isn hist k a n s -> draining isn hist k a n s.
Proof.
  intros H. unfold draining, reset_oversize. destruct (unsent (queues s)) eqn:E; [|now destruct s].
  pose proof (fl_room _ _ _ _ _ _ H) as Hr. rewrite E in Hr. cbn in Hr. destruct s as [? ? ? ? ? [] ? ? ? ?]. cbn in *. now subst.
Qed.

Lemma tail_room_cons r o g l : l <> [] -> tail_room r o (g :: l) -> tail_room r o l.
Proof. destruct l as [|h l]; [done|]. intros _. unfold tail_room. now rewrite last_cons_cons. Qed.

Lemma add_unacked_end m x l g : numbered m x (l ++ [g]) -> total l < 2 ^ 31 -> add_unacked g l = l ++ [g].
Proof.
  intros H Hb. destruct l as [|u l _] using rev_ind; [done|]. unfold add_unacked. rewrite last_snoc.
  apply numbered_app in H as [H (Hg & _ & _)]. apply numbered_app in H as [_ (Hu & _ & _)]. rewrite Hg, Hu.
  rewrite total_app, total_cons in *. change (total []) with 0 in *. pose proof (total_pos l).
  replace (x + total l) with (x + (total l)) by lia. rewrite seq_lt by lia.
  destruct (Z.ltb_spec (total l + (Z.of_nat (length (seg_data u)) + 0)) (total l)); [lia|reflexivity].
Qed.

(** A segment in flight lies on the stream. *)
Lemma in_flight_on_stream isn hist k l1 g l2 m :
  numbered m (isn + k) (l1 ++ g :: l2) -> stream_of (l1 ++ g :: l2) = drop (Z.to_nat k) hist -> 0 <= k ->
  on_stream isn hist g.
Proof.
  intros Hn Hd Hk. apply numbered_app in Hn as [_ (Hs & _ & _)]. exists (Z.to_nat (k + total l1)). pose proof (total_pos l1). split.
  - rewrite Hs. f_equal. lia.
  - rewrite stream_app in Hd. replace (Z.to_nat (k + total l1)) with (Z.to_nat k + length (stream_of l1))%nat by (unfold total in *; lia).
    rewrite <- drop_drop, <- Hd, drop_app_length. exists (stream_of l2). reflexivity.
Qed.

Lemma marked_on_stream isn hist g g' : marked g g' -> on_stream isn hist g -> on_stream isn hist g'.
Proof. intros (h & _ & ->) H. exact H. Qed.

Lemma marked_seg m x l1 g g' l2 : marked g g' -> numbered m x (l1 ++ g :: l2) -> numbered m x (l1 ++ g' :: l2).
Proof.
  intros Hm. rewrite !numbered_app. cbn [numbered]. intros (H1 & H2 & H3 & H4). pose proof (marked_plain _ _ _ Hm H3). destruct Hm as (h & _ & ->).
  tauto.
Qed.

Lemma sent_flows isn hist k a n flags rt g g' rest s :
  draining isn hist k a n s -> unsent (queues s) = g :: rest -> marked g g' ->
  exists n', draining isn hist k a n' (sent flags rt g' rest
    (if TCP_SEQ_LT (snd_nxt (window s)) (u32 (seg_seqno g + seg_len g)) then u32 (seg_seqno g + seg_len g) else snd_nxt (window s)) s).
Proof.
  intros Hf Hu Hmk. pose proof (flight_bound _ _ _ _ _ _ Hf) as Hb. pose proof (in_flight_total _ _ _ _ _ _ Hf) as Ht.
  unfold draining, reset_oversize in Hf. rewrite Hu in Hf. replace (with_queues (queues s) s) with s in Hf by now destruct s.
  destruct Hf as [F1 F2 F3 F4 F5 F6 F7 F8 [F9 F9'] [F10 F10'] F11 F12 F13 F14 F15 F16].
  unfold in_flight in F1, F2, F4, F10, Ht. unfold in_flight in Ht. cbn [with_queues queues] in Ht.
  destruct (reset_keeps (queues s)) as (R1 & R2 & _). rewrite R1, R2 in Ht. rewrite Hu in *. set (ua := unacked (queues s)) in *.
  pose proof (total_pos ua) as Hua. pose proof (total_pos rest) as Hrest. rewrite total_app, total_cons in Ht.
  pose proof F1 as F1'. apply numbered_app in F1' as [N1 (N2 & Hg & N3)]. pose proof (pl_range _ _ Hg) as Hr. pose proof (pl_len _ _ Hg) as Hl.
  assert (TCP_SND_BUF + TCP_MSS < 2 ^ 16) as Hc by (now compute).
  assert (seg_len g' = seg_len g /\ seg_data g' = seg_data g /\ seg_bufs g' = seg_bufs g) as (G1 & G2 & G3) by (destruct Hmk as (h & _ & ->); done).
  assert (numbered (mss_local s) (isn + k) ((ua ++ [g']) ++ rest)) as N' by (rewrite <- app_assoc; now apply (marked_seg _ _ _ g)).
  exists (Z.max n (k + total ua + seg_len g)). rewrite N2, F7. unfold draining, sent, reset_oversize.
  rewrite (wrap_add_l 32 (isn + k + total ua)). replace (isn + k + total ua + seg_len g) with (isn + (k + total ua + seg_len g)) by lia. rewrite seq_lt by lia.
  fold ua. rewrite (add_unacked_end (mss_local s) (isn + k)); [|apply numbered_app in N' as [N' _]; exact N'|lia].
  replace (if n <? k + total ua + seg_len g then u32 (isn + (k + total ua + seg_len g)) else u32 (isn + n))
    with (u32 (isn + Z.max n (k + total ua + seg_len g))) by (destruct (Z.ltb_spec n (k + total ua + seg_len g)); do 2 f_equal; lia).
  assert (buffers ((ua ++ [g']) ++ rest) = buffers (ua ++ g :: rest)) as EB
    by (rewrite !buffers_app, !buffers_cons, G3; change (buffers []) with 0; lia).
  assert (stream_of ((ua ++ [g']) ++ rest) = stream_of (ua ++ g :: rest)) as ES
    by (rewrite <- app_assoc, !stream_app; unfold stream_of; cbn [map concat]; now rewrite G2, app_nil_r).
  assert (total (ua ++ [g']) = total ua + seg_len g) as ET
    by (rewrite total_app, total_cons, G2; change (total []) with 0; lia).
  assert (match (ua ++ [g']) ++ rest with x :: _ => a < k + seg_len x | [] => True end) as EF
    by (rewrite <- app_assoc; destruct ua; cbn [app] in *; [now rewrite G1|exact F4]).
  assert (Forall (on_stream isn hist) (wire s ++ [g'])) as EW.
  { apply Forall_app. split; [exact F13|]. apply Forall_singleton. apply (marked_on_stream _ _ g); [exact Hmk|].
    now apply (in_flight_on_stream isn hist k ua g rest (mss_local s)). }
  destruct rest as [|h rest]; split; unfold in_flight; cbn [with_queues with_unacked with_unsent with_oversize with_window with_nxt with_wire with_rtime with_flags
    queues unsent unacked snd_lbb snd_buf snd_queuelen unsent_oversize window lastack snd_nxt snd_wnd snd_wnd_max cwnd wire pcb_mss seg_free is_input];
    try done; try lia; try (now rewrite ES); try (rewrite EB; lia).
Qed.

Lemma output_loop_flows fuel wnd isn hist k a n s :
  draining isn hist k a n s -> (length (unsent (queues s)) < fuel)%nat ->
  exists n' s', output_loop fuel wnd s = Ok (tt, s') /\ draining isn hist k a n' s' /\ wire s `prefix_of` wire s'.
Proof.
  revert n s. induction fuel as [|fuel IH]; intros n s Hf Hlen; [lia|].
  destruct (unsent (queues s)) as [|g rest] eqn:Hu.
  { exists n, s. split; [|now split]. cbn [output_loop]. erewrite bind_ok by reflexivity. now rewrite Hu. }
  destruct (within_window g wnd (window s)) eqn:Hw.
  2: { exists n, s. split; [|now split]. cbn [output_loop]. erewrite bind_ok by reflexivity. now rewrite Hu, Hw. }
  destruct (tcp_do_output_nagle s || truthy (pcb_flags s &&& (TF_NAGLEMEMERR ||| TF_FIN))) eqn:Hn.
  2: { exists n, s. split; [|now split]. cbn [output_loop]. erewrite bind_ok by reflexivity. now rewrite Hu, Hw, <- negb_orb, Hn. }
  assert (plain (mss_local s) g) as Hg.
  { pose proof (fl_numbered _ _ _ _ _ _ Hf) as H. unfold in_flight in H. cbn [with_queues queues] in H.
    destruct (reset_keeps (queues s)) as (R1 & R2 & _). rewrite R1, R2, Hu in H. apply numbered_app in H as [_ (_ & H & _)]. exact H. }
  destruct (output_loop_sends fuel wnd _ g rest s Hu Hg Hw Hn) as (flags & rt & g' & Hm & E). rewrite E.
  destruct (sent_flows isn hist k a n flags rt g g' rest s Hf Hu Hm) as (n' & Hf'). destruct (IH n' _ Hf' ltac:(cbn in *; lia)) as (n2 & s2 & E2 & H2 & Hw2).
  exists n2, s2. split; [exact E2|]. split; [exact H2|]. etrans; [|exact Hw2]. now apply prefix_app_r.
Qed.

Lemma empty_ack_flows isn hist k a n s :
  flowing isn hist k a n s -> exists err s', tcp_send_empty_ack s = Ok (err, s') /\ flowing isn hist k a n s'.
Proof.
  intros [F1 F2 F3 F4 F5 F6 F7 F8 F9 F10 F11 F12 F13 F14 F15 F16]. unfold tcp_send_empty_ack, ram_malloc, counted. mred.
  destruct (ram_found _ _); (eexists _, _; split; [reflexivity|]); (split; try done).
  cbn. apply Forall_app. split; [exact F13|]. apply Forall_singleton. exists (Z.to_nat n). cbn. split; [rewrite F7; f_equal; lia|apply prefix_nil].
Qed.

Lemma drained isn hist k a n s : draining isn hist k a n s ->
  exists s', (on_queues (fun q => match unsent q with [] => with_oversize 0 q | _ => q end);; clear_flag TF_NAGLEMEMERR;; mret ERR_OK) s = Ok (ERR_OK, s') /\
    flowing isn hist k a n s'.
Proof.
  intros H. eexists. split; [reflexivity|].
  exact (flowing_mem _ _ _ _ _ _ (allocs s) (seg_free s) (Z.ldiff (pcb_flags s) TF_NAGLEMEMERR) H (fl_free _ _ _ _ _ _ H)).
Qed.

Lemma output_flows isn hist k a n s :
  flowing isn hist k a n s -> exists err n' s', tcp_output s = Ok (err, s') /\ flowing isn hist k a n' s'.
Proof.
  intros Hf. unfold tcp_output. erewrite bind_ok by reflexivity. rewrite (fl_input _ _ _ _ _ _ Hf).
  destruct (_ && _); [destruct (empty_ack_flows _ _ _ _ _ _ Hf) as (err & s' & E & H); now exists err, n, s'|].
  destruct (output_loop_flows (S (length (unsent (queues s)))) (Z.min (snd_wnd (window s)) (cwnd (window s))) isn hist k a n s (flowing_draining _ _ _ _ _ _ Hf) ltac:(lia)) as (n' & s' & E & H & _).
  rewrite (bind_ok _ _ _ _ _ E). destruct (drained _ _ _ _ _ _ H) as (s2 & E2 & H2). exists ERR_OK, n', s2. split; [exact E2|exact H2].
Qed.
(** *** Retransmission of everything *)

Lemma tail_room_plain m o l1 l2 x :
  0 < m -> numbered m x (l1 ++ l2) -> tail_room m o l2 -> tail_room m o (l1 ++ l2).
Proof.
  intros Hm Hn Hr. destruct l2 as [|g l2]; [|now apply tail_room_app]. cbn in Hr. subst o. rewrite app_nil_r in *.
  destruct l1 as [|g l1 _] using rev_ind; [done|]. unfold tail_room. rewrite last_snoc. apply numbered_app in Hn as [_ (_ & Hg & _)].
  pose proof (pl_range _ _ Hg). lia.
Qed.

Lemma rto_requeues isn hist k a n s :
  flowing isn hist k a n s -> flowing isn hist k a n (with_queues (with_unacked [] (with_unsent (unacked (queues s) ++ unsent (queues s)) (queues s))) s).
Proof.
  intros Hf. pose proof (mss_local_range _ _ _ _ _ _ Hf) as Hm. pose proof (fl_range _ _ _ _ _ _ Hf).
  destruct Hf as [F1 F2 F3 F4 F5 F6 F7 F8 F9 F10 F11 F12 F13 F14 F15 F16]. split; try done.
  - change (k + total [] <= n). change (total []) with 0. lia.
  - cbn. refine (tail_room_plain _ _ _ _ (isn + k) _ F1 F12). apply Hm.
Qed.

Lemma rto_flows isn hist k a n s :
  flowing isn hist k a n s -> exists n' s', tcp_rexmit_rto s = Ok (tt, s') /\ flowing isn hist k a n' s'.
Proof.
  intros Hf. unfold tcp_rexmit_rto. erewrite bind_ok by reflexivity. destruct (bool_decide _); [now exists n, s|].
  erewrite bind_ok by reflexivity. destruct (output_flows _ _ _ _ _ _ (rto_requeues _ _ _ _ _ _ Hf)) as (err & n' & s' & E & H).
  rewrite (bind_ok _ _ _ _ _ E). now exists n', s'.
Qed.

(** *** Acknowledgements *)

(** Fields of the window that the stream does not depend on. *)
Lemma flowing_window isn hist k a n w s :
  flowing isn hist k a n s -> lastack w = lastack (window s) -> snd_nxt w = snd_nxt (window s) ->
  snd_wnd_max (window s) <= snd_wnd_max w -> 0 <= cwnd w < 2 ^ 16 -> 0 <= ssthresh w < 2 ^ 16 -> 0 <= snd_wnd w < 2 ^ 16 ->
  flowing isn hist k a n (with_window w s).
Proof.
  intros [F1 F2 F3 F4 F5 F6 F7 F8 F9 F10 F11 F12 F13 F14 F15 F16] H1 H2 H3 H4 H4' H5.
  assert (mss_local s <= mss_local (with_window w s)) as Hm.
  { unfold mss_local. cbn. pose proof (Z.div_le_mono _ _ 2 ltac:(lia) H3). lia. }
  split; try done; cbn; try congruence; [now apply (numbered_weaken (mss_local s))|lia|].
  unfold tail_room in *. destruct (last _); [lia|done].
Qed.

Lemma plain_no_fin m g : plain m g -> truthy (seg_hdr g &&& TCP_FIN) = false.
Proof.
  intros [_ H _ _]. unfold truthy in *. apply negb_false_iff, Z.eqb_eq in H. apply negb_false_iff, Z.eqb_eq.
  apply Z.bits_inj'. intros i Hi. apply (f_equal (fun z => Z.testbit z i)) in H. rewrite Z.bits_0 in *.
  rewrite Z.land_spec in *. rewrite Z.lor_spec in H. destruct (Z.testbit (seg_hdr g) i); [|done]. cbn in *. now destruct (Z.testbit TCP_FIN i).
Qed.

(** The first segments leave their queue, which becomes the one of [q]. *)
Definition released (l : list tcp_seg) (q : send_queue) (s : sender) : sender :=
  with_seg_free (seg_free s + Z.of_nat (length l)) (with_queues (with_queuelen (snd_queuelen (queues s) - buffers l) q) s).

Lemma release_ok m g s :
  plain m g -> 0 <= snd_queuelen (queues s) - clen (seg_bufs g) -> snd_queuelen (queues s) < 2 ^ 8 ->
  release g s = Ok (tt, with_seg_free (seg_free s + 1) (with_queues (with_queuelen (snd_queuelen (queues s) - clen (seg_bufs g)) (queues s)) s)).
Proof.
  intros Hg Hq Hq8. unfold release. rewrite pbuf_clen_small by lia. erewrite bind_ok by reflexivity. rewrite (plain_no_fin _ _ Hg), andb_false_r.
  erewrite bind_ok by reflexivity. cbn. rewrite wrap_small by (unfold clen in *; lia). now destruct s.
Qed.

(** The fields of an updated state. *)
Ltac fields := cbn [with_seg_free with_queues with_queuelen with_unacked with_unsent with_oversize queues snd_queuelen unsent unacked seg_free window].

Lemma free_unacked_ok fuel m isn y k l s :
  unacked (queues s) = l -> numbered m (isn + k) l -> - (2 ^ 30) <= k - y <= 2 ^ 30 -> total l < 2 ^ 30 ->
  0 <= snd_queuelen (queues s) - buffers l -> snd_queuelen (queues s) < 2 ^ 8 -> (length l < fuel)%nat ->
  exists l1 l2, l = l1 ++ l2 /\ free_unacked fuel (u32 (isn + y)) s = Ok (tt, released l1 (with_unacked l2 (queues s)) s) /\
    (l1 <> [] -> k + total l1 <= y) /\ match l2 with g :: _ => y < k + total l1 + seg_len g | [] => True end.
Proof.
  revert k l s. induction fuel as [|fuel IH]; intros k l s Hu Hn Hky Ht Hq Hq16 Hlen; [lia|]. cbn [free_unacked]. erewrite bind_ok by reflexivity. rewrite Hu.
  assert (unacked (queues s) = l -> s = released [] (with_unacked l (queues s)) s) as Hnil.
  { intros <-. unfold released. change (buffers []) with 0. cbn [length]. rewrite Z.sub_0_r, Z.add_0_r. now destruct s as [? ? ? ? ? [] ? ? ? ?]. }
  destruct l as [|g l].
  { exists [], []. split; [done|]. split; [now rewrite Hnil at 1|done]. }
  destruct Hn as (Hs & Hg & Hn). rewrite (plain_tcplen _ _ Hg), Hs, wrap_add_l, <- Z.add_assoc. pose proof (pl_range _ _ Hg) as Hr.
  rewrite total_cons, <- (pl_len _ _ Hg) in Ht. pose proof (total_pos l). rewrite buffers_cons in Hq. assert (0 <= buffers l /\ 0 <= clen (seg_bufs g)) as [? ?] by (unfold buffers, clen; lia).
  rewrite (seq_leq _ _ (k + seg_len g - y)); [|pose proof (u32_diff (isn + (k + seg_len g)) (isn + y) 0) as E; rewrite Z.add_0_r in E; rewrite E; f_equal; lia|lia].
  destruct (Z.leb_spec (k + seg_len g - y) 0).
  2: { exists [], (g :: l). split; [done|]. split; [now rewrite Hnil at 1|]. split; [done|]. change (total []) with 0. lia. }
  clear Hnil. erewrite bind_ok by reflexivity. rewrite (bind_ok _ _ _ _ _ (release_ok _ g (with_queues (with_unacked l (queues s)) s) Hg ltac:(fields; lia) ltac:(fields; lia))).
  set (s1 := with_seg_free _ _).
  destruct (IH (k + seg_len g) l s1 eq_refl ltac:(now rewrite <- Z.add_assoc in Hn) ltac:(lia) ltac:(lia) ltac:(subst s1; fields; lia) ltac:(subst s1; fields; lia) ltac:(cbn in Hlen; lia))
    as (l1 & l2 & -> & E & K1 & K2). exists (g :: l1), l2. split; [done|]. split; [|split].
  - rewrite E. unfold released. rewrite buffers_cons. cbn [length]. cbn.
    replace (snd_queuelen (queues s) - (clen (seg_bufs g) + buffers l1)) with (snd_queuelen (queues s) - clen (seg_bufs g) - buffers l1) by lia.
    replace (seg_free s + Z.of_nat (S (length l1))) with (seg_free s + 1 + Z.of_nat (length l1)) by lia. reflexivity.
  - intros _. rewrite total_cons, <- (pl_len _ _ Hg). destruct l1 as [|h l1]; [change (total []) with 0; lia|]. specialize (K1 ltac:(done)). lia.
  - rewrite total_cons, <- (pl_len _ _ Hg). destruct l2; [done|]. lia.
Qed.

Lemma free_unsent_ok fuel m isn y k n l s :
  unsent (queues s) = l -> snd_nxt (window s) = u32 (isn + n) -> numbered m (isn + k) l ->
  - (2 ^ 30) <= k - y <= 2 ^ 30 -> - (2 ^ 30) <= n - y <= 2 ^ 30 -> total l < 2 ^ 30 ->
  0 <= snd_queuelen (queues s) - buffers l -> snd_queuelen (queues s) < 2 ^ 8 -> (length l < fuel)%nat ->
  exists l1 l2 o, l = l1 ++ l2 /\ free_unsent fuel (u32 (isn + y)) s = Ok (tt, released l1 (with_oversize o (with_unsent l2 (queues s))) s) /\
    (l1 <> [] -> k + total l1 <= y <= n) /\ match l2 with g :: _ => y <= n -> y < k + total l1 + seg_len g | [] => True end /\
    o = (if bool_decide (l1 <> [] /\ l2 = []) then 0 else unsent_oversize (queues s)).
Proof.
  revert k l s. induction fuel as [|fuel IH]; intros k l s Hu Hx Hn Hky Hny Ht Hq Hq16 Hlen; [lia|]. cbn [free_unsent]. erewrite bind_ok by reflexivity. rewrite Hu.
  assert (unsent (queues s) = l -> s = released [] (with_oversize (unsent_oversize (queues s)) (with_unsent l (queues s))) s) as Hnil.
  { intros <-. unfold released. change (buffers []) with 0. cbn [length]. rewrite Z.sub_0_r, Z.add_0_r. now destruct s as [? ? ? ? ? [] ? ? ? ?]. }
  destruct l as [|g l].
  { exists [], [], (unsent_oversize (queues s)). split; [done|]. split; [now rewrite Hnil at 1|]. split; [done|]. split; [done|]. now rewrite bool_decide_eq_false_2 by tauto. }
  destruct Hn as (Hs & Hg & Hn). rewrite (plain_tcplen _ _ Hg), Hs, wrap_add_l, <- Z.add_assoc, Hx. pose proof (pl_range _ _ Hg) as Hr.
  rewrite total_cons, <- (pl_len _ _ Hg) in Ht. pose proof (total_pos l). rewrite buffers_cons in Hq. assert (0 <= buffers l /\ 0 <= clen (seg_bufs g)) as [? ?] by (unfold buffers, clen; lia).
  rewrite (seq_between _ _ _ (y - (k + seg_len g)) (y - n)); [|pose proof (u32_diff (isn + y) (isn + (k + seg_len g)) 0) as E; rewrite Z.add_0_r in E; rewrite E; f_equal; lia
    |pose proof (u32_diff (isn + y) (isn + n) 0) as E; rewrite Z.add_0_r in E; rewrite E; f_equal; lia|lia|lia].
  destruct (Z.leb_spec 0 (y - (k + seg_len g))), (Z.leb_spec (y - n) 0); cbn [andb].
  2-4: exists [], (g :: l), (unsent_oversize (queues s)); (split; [done|]); (split; [now rewrite Hnil at 1|]); (split; [done|]);
    (split; [change (total []) with 0; lia|]); now rewrite bool_decide_eq_false_2 by tauto.
  clear Hnil. erewrite (bind_ok (on_queues _)) by reflexivity. cbv beta zeta.
  replace (match l with [] => with_oversize 0 (with_unsent l (queues s)) | _ :: _ => with_unsent l (queues s) end)
    with (with_oversize (if bool_decide (l = []) then 0 else unsent_oversize (queues s)) (with_unsent l (queues s))) by (destruct l; [done|now destruct (queues s)]).
  rewrite (bind_ok _ _ _ _ _ (release_ok _ g (with_queues (with_oversize (if bool_decide (l = []) then 0 else unsent_oversize (queues s)) (with_unsent l (queues s))) s) Hg ltac:(fields; lia) ltac:(fields; lia))).
  set (s1 := with_seg_free _ _).
  destruct (IH (k + seg_len g) l s1 eq_refl Hx ltac:(now rewrite <- Z.add_assoc in Hn) ltac:(lia) ltac:(lia) ltac:(lia) ltac:(subst s1; fields; lia) ltac:(subst s1; fields; lia) ltac:(cbn in Hlen; lia))
    as (l1 & l2 & o & -> & E & H1' & H2' & Ho). exists (g :: l1), l2, o. split; [done|]. split; [|split; [|split]].
  - rewrite E. unfold released. rewrite buffers_cons. cbn [length]. cbn.
    replace (snd_queuelen (queues s) - (clen (seg_bufs g) + buffers l1)) with (snd_queuelen (queues s) - clen (seg_bufs g) - buffers l1) by lia.
    replace (seg_free s + Z.of_nat (S (length l1))) with (seg_free s + 1 + Z.of_nat (length l1)) by lia. reflexivity.
  - intros _. rewrite total_cons, <- (pl_len _ _ Hg). destruct l1 as [|h l1]; [change (total []) with 0; lia|]. specialize (H1' ltac:(done)). lia.
  - rewrite total_cons, <- (pl_len _ _ Hg). destruct l2; [done|]. lia.
  - subst o. cbn. destruct l1 as [|h l1], l2 as [|h' l2]; cbn; repeat (case_bool_decide); try reflexivity; intuition congruence.
Qed.
(** What is left when [y] is acknowledged. *)
Lemma acked_flows isn hist k a n y l1 l2 u1 u2 o w free flags rt s :
  flowing isn hist k a n s -> a <= y <= n ->
  unacked (queues s) = l1 ++ l2 -> unsent (queues s) = u1 ++ u2 ->
  (l1 <> [] -> k + total l1 <= y) -> match l2 with g :: _ => y < k + total l1 + seg_len g | [] => True end ->
  (u1 <> [] -> k + total (unacked (queues s)) + total u1 <= y) ->
  match u2 with g :: _ => y < k + total (unacked (queues s)) + total u1 + seg_len g | [] => True end ->
  o = (if bool_decide (u1 <> [] /\ u2 = []) then 0 else unsent_oversize (queues s)) ->
  lastack w = u32 (isn + y) -> snd_nxt w = snd_nxt (window s) -> snd_wnd_max w = snd_wnd_max (window s) ->
  0 <= cwnd w < 2 ^ 16 -> 0 <= ssthresh w < 2 ^ 16 -> 0 <= snd_wnd w < 2 ^ 16 -> 0 <= free ->
  flowing isn hist (k + total l1 + total u1) y n
    (with_queues (mkSq (snd_lbb (queues s)) (snd_buf (queues s) + (y - a)) (snd_queuelen (queues s) - buffers l1 - buffers u1) o u2 l2)
      (with_window w (with_seg_free free (with_flags flags (with_rtime rt s))))).
Proof.
  intros [F1 F2 F3 F4 F5 F6 F7 F8 [F9 F9'] [F10 F10'] F11 F12 F13 F14 F15 F16] Hy Eu Es Hl1 Hl2 Hu1 Hu2 -> W1 W2 W3 W4 W5 W6 Hfree.
  unfold in_flight in *. rewrite Eu, Es in *. rewrite total_app in *.
  pose proof (total_pos l1). pose proof (total_pos l2). pose proof (total_pos u1). pose proof (total_pos u2).
  assert (numbered (mss_local s) (isn + k) (l1 ++ l2 ++ u1 ++ u2)) as F1' by now rewrite app_assoc.
  assert (l2 = [] \/ u1 = []) as Hone.
  { destruct l2 as [|g l2]; [now left|]. right. destruct u1 as [|h u1]; [done|]. specialize (Hu1 ltac:(done)).
    apply numbered_app in F1' as [_ (_ & Hg & _)]. pose proof (total_cons g l2). pose proof (pl_len _ _ Hg). pose proof (total_pos l2). lia. }
  assert ((l1 ++ l2) ++ u1 ++ u2 = (l1 ++ u1) ++ l2 ++ u2) as Esw
    by (destruct Hone as [->| ->]; cbn [app]; rewrite ?app_nil_r, <- ?app_assoc; reflexivity).
  rewrite Esw in *. clear F1' Esw. apply numbered_app in F1 as [N1 N2]. rewrite !total_app in *. rewrite stream_app in F2. rewrite !buffers_app in F10.
  assert (0 <= buffers l1 /\ 0 <= buffers u1) as [? ?] by (unfold buffers; lia).
  assert (k + total l1 + total u1 <= y) as Hky.
  { destruct l1 as [|h l1], u1 as [|h' u1]; change (total []) with 0 in *; try (specialize (Hl1 ltac:(done))); try (specialize (Hu1 ltac:(done))); lia. }
  assert (Z.min (pcb_mss s) (snd_wnd_max w / 2) = mss_local s) as Em by (unfold mss_local; now rewrite W3).
  split; unfold in_flight; cbn [with_queues with_window with_seg_free with_flags with_rtime queues unacked unsent snd_lbb snd_buf snd_queuelen unsent_oversize
    pcb_mss window wire seg_free is_input lastack snd_nxt snd_wnd_max cwnd ssthresh snd_wnd]; try done; try congruence; try lia.
  - change (numbered (Z.min (pcb_mss s) (snd_wnd_max w / 2)) (isn + (k + total l1 + total u1)) (l2 ++ u2)).
    rewrite Em. now replace (isn + (k + total l1 + total u1)) with (isn + k + (total l1 + total u1)) by lia.
  - replace (Z.to_nat (k + total l1 + total u1)) with (Z.to_nat k + length (stream_of (l1 ++ u1)))%nat
      by (pose proof (total_app l1 u1) as Et; unfold total in Et at 1; lia).
    rewrite <- drop_drop, <- F2, drop_app_length. reflexivity.
  - destruct l2 as [|g l2]; cbn [app] in *.
    + change (total []) with 0 in *. destruct u2; [done|]. lia.
    + destruct Hone as [Hone| ->]; [discriminate|]. change (total []) with 0. lia.
  - destruct Hone as [->| ->]; change (total []) with 0 in *; lia.
  - rewrite buffers_app. lia.
  - change (tail_room (Z.min (pcb_mss s) (snd_wnd_max w / 2)) (if bool_decide (u1 <> [] /\ u2 = []) then 0 else unsent_oversize (queues s)) u2).
    rewrite Em. case_bool_decide as Hb.
    + destruct Hb as [_ ->]. done.
    + destruct u1 as [|h u1]; [exact F12|]. assert (u2 <> []) as Hne by (intros ->; now apply Hb). now apply (tail_room_app _ _ (h :: u1)).
Qed.

(** The state when the acknowledged segments have left the first queue. *)
Definition newly_acked (flags rt n : Z) (l1 l2 : list tcp_seg) (w : send_window) (s : sender) : sender :=
  with_queues (mkSq (snd_lbb (queues s)) (snd_buf (queues s) + n) (snd_queuelen (queues s) - buffers l1) (unsent_oversize (queues s)) (unsent (queues s)) l2)
    (with_window w (with_seg_free (seg_free s + Z.of_nat (length l1)) (with_flags flags (with_rtime rt s)))).

Lemma grown_range c x : 0 <= c < 2 ^ 16 -> 0 <= (if c <? u16 x then u16 x else c) < 2 ^ 16.
Proof. intros H. pose proof (wrap_range 16 x ltac:(lia)). destruct (c <? u16 x); lia. Qed.

Lemma newack_ok isn hist k a n y s :
  flowing isn hist k a n s -> a < y <= n ->
  exists l1 l2 w flags rt, receive_newack (u32 (isn + y)) (with_input true s) = Ok (tt, with_input true (newly_acked flags rt (y - a) l1 l2 w s)) /\
    unacked (queues s) = l1 ++ l2 /\
    (l1 <> [] -> k + total l1 <= y) /\ match l2 with g :: _ => y < k + total l1 + seg_len g | [] => True end /\
    lastack w = u32 (isn + y) /\ snd_nxt w = snd_nxt (window s) /\ snd_wnd_max w = snd_wnd_max (window s) /\
    0 <= cwnd w < 2 ^ 16 /\ 0 <= ssthresh w < 2 ^ 16 /\ 0 <= snd_wnd w < 2 ^ 16.
Proof.
  intros Hf Hy. pose proof (flight_bound _ _ _ _ _ _ Hf) as Hb. pose proof (in_flight_total _ _ _ _ _ _ Hf) as Ht.
  assert (TCP_SND_BUF + TCP_MSS < 2 ^ 16 /\ 0 < TCP_MSS) as Hc by (now compute). assert (TCP_SND_QUEUELEN < 2 ^ 8) as Hc2 by (now compute).
  pose proof Hf as [F1 F2 F3 F4 F5 F6 F7 F8 [F9 F9'] [F10 F10'] F11 F12 F13 F14 F15 (F16 & F17 & F18)].
  unfold in_flight in *. rewrite total_app in Ht. rewrite buffers_app in F10. pose proof (total_pos (unacked (queues s))). pose proof (total_pos (unsent (queues s))).
  assert (0 <= buffers (unacked (queues s)) /\ 0 <= buffers (unsent (queues s))) as [? ?] by (unfold buffers; lia).
  unfold receive_newack. erewrite bind_ok by reflexivity.
  assert (exists flags c, 0 <= c < 2 ^ 16 /\
    when (truthy (pcb_flags (with_input true s) &&& TF_INFR)) (clear_flag TF_INFR;; on_window (fun w => with_cwnd (ssthresh w) w)) (with_input true s) =
    Ok (tt, with_input true (with_window (with_cwnd c (window s)) (with_flags flags s)))) as (flags & c & Hcw & E).
  { destruct (truthy _).
    - eexists _, (ssthresh (window s)). split; [exact F17|reflexivity].
    - exists (pcb_flags s), (cwnd (window s)). split; [exact F16|]. now destruct s as [? ? ? ? ? [] [] ? ? ?]. }
  rewrite (bind_ok _ _ _ _ _ E). clear E. do 3 erewrite bind_ok by reflexivity.
  assert (u16 (u32 (u32 (isn + y) - lastack (window (with_input true s)))) = y - a) as En.
  { change (lastack (window (with_input true s))) with (lastack (window s)). rewrite F6. pose proof (u32_diff (isn + y) (isn + a) 0) as E. rewrite Z.add_0_r in E. rewrite E.
    replace (isn + y - (isn + a) - 0) with (y - a) by lia. rewrite (wrap_small 32), wrap_small by lia. reflexivity. }
  rewrite En.
  match goal with |- context [(_ ≫= _) ?st = _] => set (s2 := st) end. change (unacked (queues s2)) with (unacked (queues s)).
  apply numbered_app in F1 as [N1 _].
  destruct (free_unacked_ok (S (length (unacked (queues s)))) (mss_local s) isn y k (unacked (queues s)) s2 eq_refl N1 ltac:(lia) ltac:(lia)
    ltac:(change (snd_queuelen (queues s2)) with (snd_queuelen (queues s)); lia) ltac:(change (snd_queuelen (queues s2)) with (snd_queuelen (queues s)); lia) ltac:(lia))
    as (l1 & l2 & El & E & K1 & K2).
  rewrite (bind_ok _ _ _ _ _ E). clear E. exists l1, l2, (window s2), flags, (if bool_decide (l2 = []) then -1 else 0). split; [|split; [exact El|split; [exact K1|split; [exact K2|]]]].
  - unfold modify, newly_acked, released. subst s2. cbn. do 3 f_equal. rewrite wrap_small by lia. reflexivity.
  - subst s2. cbn. repeat split; try reflexivity; try lia; destruct (c <? ssthresh (window s)); apply grown_range; assumption.
Qed.
(** Neither an old acknowledgement nor one of what was not sent frees
    anything of the second queue. *)
Lemma free_unsent_stops fuel isn y o n m g rest s :
  unsent (queues s) = g :: rest -> seg_seqno g = u32 (isn + o) -> plain m g -> snd_nxt (window s) = u32 (isn + n) ->
  - (2 ^ 30) <= o + seg_len g - y <= 2 ^ 30 -> - (2 ^ 30) <= n - y <= 2 ^ 30 -> y < o + seg_len g \/ n < y ->
  free_unsent (S fuel) (u32 (isn + y)) s = Ok (tt, s).
Proof.
  intros Hu Hs Hg Hx H1 H2 H. cbn [free_unsent]. erewrite bind_ok by reflexivity. rewrite Hu, (plain_tcplen _ _ Hg), Hs, wrap_add_l, <- Z.add_assoc, Hx.
  rewrite (seq_between _ _ _ (y - (o + seg_len g)) (y - n)); [|pose proof (u32_diff (isn + y) (isn + (o + seg_len g)) 0) as E; rewrite Z.add_0_r in E; rewrite E; f_equal; lia
    |pose proof (u32_diff (isn + y) (isn + n) 0) as E; rewrite Z.add_0_r in E; rewrite E; f_equal; lia|lia|lia].
  destruct (Z.leb_spec 0 (y - (o + seg_len g))), (Z.leb_spec (y - n) 0); try reflexivity. lia.
Qed.

Lemma free_unsent_none isn hist k a n y s :
  flowing isn hist k a n s -> - (2 ^ 29) <= y - a <= 2 ^ 29 -> y <= a \/ n < y ->
  (l ← gets (fun s => unsent (queues s)); free_unsent (S (length l)) (u32 (isn + y))) (with_input true s) = Ok (tt, with_input true s).
Proof.
  intros Hf Hy H. pose proof (flight_bound _ _ _ _ _ _ Hf) as Hb. pose proof (in_flight_total _ _ _ _ _ _ Hf) as Ht.
  assert (TCP_SND_BUF + TCP_MSS < 2 ^ 16) as Hc by (now compute).
  destruct Hf as [F1 F2 F3 F4 F5 F6 F7 F8 F9 F10 F11 F12 F13 F14 F15 F16]. erewrite bind_ok by reflexivity. unfold in_flight in *. rewrite total_app in Ht.
  change (unsent (queues (with_input true s))) with (unsent (queues s)). destruct (unsent (queues s)) as [|g rest] eqn:Hu.
  { cbn [length free_unsent]. erewrite bind_ok by reflexivity. change (unsent (queues (with_input true s))) with (unsent (queues s)). now rewrite Hu. }
  apply numbered_app in F1 as [N1 (Hs & Hg & _)]. pose proof (total_pos (unacked (queues s))). pose proof (total_cons g rest). pose proof (total_pos rest).
  pose proof (pl_len _ _ Hg). pose proof (pl_range _ _ Hg).
  apply (free_unsent_stops _ isn y (k + total (unacked (queues s))) n (mss_local s) g rest); try assumption.
  - rewrite Hs. f_equal. lia.
  - lia.
  - lia.
  - destruct H as [H|H]; [left|now right]. destruct (unacked (queues s)) as [|h l]; cbn [app] in F4; [change (total []) with 0; lia|].
    destruct N1 as (_ & Hh & _). rewrite total_cons, <- (pl_len _ _ Hh). pose proof (total_pos l). lia.
Qed.

End Stream.
