(* ===== verification/TcpFlow.v ===== *)
(** * TcpFlow: acknowledgements, and the whole life of a connection

    The part of the refinement of TcpStream.v that concerns what comes in:
    an acknowledgement of new data, a duplicate, which may have the first
    segment sent again, and the answer to both.  On it, the theorems about
    every run of a connection. *)

From Stdlib Require Import ZArith Lia.
From stdpp Require Import base numbers list.
From S2P Require Import Prelude Pbuf Tcp TcpOut TcpStream.
#[local] Open Scope c_scope.

Section Flow.
Context `{SM : SendMem}.

(** The first segment in flight waits to be sent again, before the others. *)
Definition displaced (isn : Z) (hist : list Z) (k a n : Z) (s : sender) : Prop :=
  exists g rest u, unacked (queues s) = rest /\ unsent (queues s) = g :: u /\ truthy (pcb_flags s &&& TF_INFR) = true /\
    seg_len g <= Z.min (snd_wnd (window s)) (cwnd (window s)) /\
    flowing isn hist k a n (with_queues (with_unacked (g :: rest) (with_unsent u (queues s))) s).

Lemma insert_first x g l :
  seg_seqno g = u32 x -> match l with h :: _ => exists e, seg_seqno h = u32 (x + e) /\ 0 <= e < 2 ^ 31 | [] => True end ->
  insert_seg g l = g :: l /\ forallb (fun h => TCP_SEQ_LT (seg_seqno h) (seg_seqno g)) l = bool_decide (l = []).
Proof.
  intros Hg Hl. destruct l as [|h l]; [done|]. destruct Hl as (e & Hh & He).
  cbn [insert_seg forallb]. rewrite Hg, Hh. replace (u32 x) with (u32 (x + 0)) by (f_equal; lia). rewrite seq_lt by lia.
  destruct (Z.ltb_spec e 0); [lia|]. split; [reflexivity|]. now rewrite bool_decide_eq_false_2.
Qed.

Lemma next_seqno m x l1 l2 : numbered m x (l1 ++ l2) -> total l1 < 2 ^ 31 ->
  match l2 with h :: _ => exists e, seg_seqno h = u32 (x + e) /\ 0 <= e < 2 ^ 31 | [] => True end.
Proof.
  intros H Ht. apply numbered_app in H as [_ H]. destruct l2 as [|h l2]; [done|]. destruct H as (H & _).
  exists (total l1). pose proof (total_pos l1). auto with lia.
Qed.

(** The windows of the fast retransmission. *)
Lemma fast_recovery_ok m w :
  0 < m <= TCP_MSS -> 0 <= cwnd w < 2 ^ 16 -> 0 <= snd_wnd w < 2 ^ 16 ->
  3 * m <= cwnd (fast_recovery m w) < 2 ^ 16 /\ 0 <= ssthresh (fast_recovery m w) < 2 ^ 16.
Proof.
  intros Hm Hc Hw. assert (TCP_MSS = 1460) by reflexivity. unfold fast_recovery. cbn [cwnd ssthresh].
  set (ss1 := if snd_wnd w <? cwnd w then _ else _). assert (0 <= ss1 < 2 ^ 15) as H1
    by (subst ss1; destruct (_ <? _); pose proof (Z.div_lt_upper_bound (snd_wnd w) 2 (2 ^ 15)); pose proof (Z.div_lt_upper_bound (cwnd w) 2 (2 ^ 15));
        pose proof (Z.div_pos (snd_wnd w) 2); pose proof (Z.div_pos (cwnd w) 2); lia).
  clearbody ss1. rewrite (wrap_small 16 (2 * m)) by lia. destruct (Z.ltb_spec ss1 (2 * m)); rewrite wrap_small by lia; lia.
Qed.

(** A duplicate changes the windows, and the third sends the first segment
    again. *)
Lemma rexmit_fast_ok isn hist k a n s :
  flowing isn hist k a n s -> match unacked (queues s) with g :: _ => seg_len g <= snd_wnd (window s) | [] => True end ->
  exists s', tcp_rexmit_fast (with_input true s) = Ok (tt, with_input true s') /\ (flowing isn hist k a n s' \/ displaced isn hist k a n s').
Proof.
  intros Hf Hroom. unfold tcp_rexmit_fast. erewrite bind_ok by reflexivity. cbn [with_input queues pcb_flags].
  destruct (unacked (queues s)) as [|g rest] eqn:Hu; [rewrite bool_decide_eq_true_2 by done; exists s; auto|].
  rewrite bool_decide_eq_false_2 by done. cbn [negb andb]. destruct (truthy _) eqn:Hinfr; cbn [negb]; [exists s; auto|].
  pose proof (flight_bound _ _ _ _ _ _ Hf) as Hb. pose proof (in_flight_total _ _ _ _ _ _ Hf) as Ht. pose proof (mss_local_range _ _ _ _ _ _ Hf) as Hm.
  assert (TCP_SND_BUF + TCP_MSS < 2 ^ 16 /\ TCP_MSS = 1460) as [Hc Hc'] by (now compute).
  pose proof (fl_numbered _ _ _ _ _ _ Hf) as Hn. unfold in_flight in Hn, Ht. rewrite Hu in Hn, Ht. rewrite total_app in Ht.
  pose proof (fl_mss _ _ _ _ _ _ Hf) as [Hmss _]. pose proof (fl_range _ _ _ _ _ _ Hf). pose proof (total_pos (unsent (queues s))).
  pose proof (proj1 (proj2 Hn)) as Hg. pose proof (pl_range _ _ Hg) as Hr. pose proof (fl_windows _ _ _ _ _ _ Hf) as (W1 & W2 & W3).
  destruct (insert_first (isn + k) g (unsent (queues s)) (proj1 Hn) (next_seqno _ _ _ _ Hn ltac:(lia))) as [Hins Hlast].
  assert (tcp_rexmit (with_input true s) = Ok (tt, with_input true (with_queues (with_unacked rest (with_unsent (g :: unsent (queues s)) (queues s))) s))) as E.
  { unfold tcp_rexmit. erewrite bind_ok by reflexivity. cbn [with_input queues]. rewrite Hu. unfold on_queues, modify. cbn [with_input queues]. rewrite Hins, Hlast.
    do 2 f_equal. case_bool_decide as Hz; [|reflexivity]. pose proof (fl_room _ _ _ _ _ _ Hf) as Ho. rewrite Hz in *. cbn in Ho.
    destruct s as [? ? ? ? ? [] ? ? ? ?]. cbn in *. now subst. }
  rewrite (bind_ok _ _ _ _ _ E). clear E. erewrite bind_ok by reflexivity. unfold set_flag, modify. change (pcb_mss (with_input true s)) with (pcb_mss s).
  destruct (fast_recovery_ok (pcb_mss s) (window s) Hmss W1 W3) as [Hcw Hss].
  exists (with_flags (pcb_flags s ||| TF_INFR) (with_window (fast_recovery (pcb_mss s) (window s)) (with_queues (with_unacked rest (with_unsent (g :: unsent (queues s)) (queues s))) s))).
  split; [reflexivity|]. right. exists g, rest, (unsent (queues s)). split; [reflexivity|]. split; [reflexivity|]. split; [|split].
  - change (truthy ((pcb_flags s ||| TF_INFR) &&& TF_INFR) = true). unfold truthy. apply negb_true_iff, Z.eqb_neq. intros E.
    apply (f_equal (fun z => Z.testbit z 2)) in E. rewrite Z.land_spec, Z.lor_spec, orb_true_r in E. discriminate.
  - change (seg_len g <= Z.min (snd_wnd (window s)) (cwnd (fast_recovery (pcb_mss s) (window s)))). lia.
  - match goal with |- flowing _ _ _ _ _ ?x => replace x with (with_mem (allocs s) (seg_free s) (pcb_flags s ||| TF_INFR) (with_window (fast_recovery (pcb_mss s) (window s)) s)) end.
    + apply flowing_mem; [|exact (fl_free _ _ _ _ _ _ Hf)]. apply (flowing_window isn hist k a n); try reflexivity; try lia; assumption.
    + destruct s as [? ? ? ? ? [] ? ? ? ?]. cbn in *. now subst.
Qed.

(** The counters of duplicates. *)
Lemma flowing_counts isn hist k a n w s :
  flowing isn hist k a n s -> lastack w = lastack (window s) -> snd_nxt w = snd_nxt (window s) ->
  snd_wnd_max w = snd_wnd_max (window s) -> snd_wnd w = snd_wnd (window s) -> ssthresh w = ssthresh (window s) -> 0 <= cwnd w < 2 ^ 16 ->
  flowing isn hist k a n (with_window w s).
Proof.
  intros Hf H1 H2 H3 H4 H5 H6. pose proof (fl_windows _ _ _ _ _ _ Hf) as (W1 & W2 & W3).
  apply flowing_window; rewrite ?H4, ?H5; try assumption; lia.
Qed.

Lemma dupack_ok isn hist k a n ackno tcplen edge s :
  flowing isn hist k a n s -> match unacked (queues s) with g :: _ => seg_len g <= snd_wnd (window s) | [] => True end ->
  exists s', receive_dupack ackno tcplen edge (with_input true s) = Ok (tt, with_input true s') /\ (flowing isn hist k a n s' \/ displaced isn hist k a n s').
Proof.
  intros Hf Hroom. pose proof (fl_windows _ _ _ _ _ _ Hf) as (W1 & W2 & W3).
  assert (forall w, w = with_dupacks (dupacks w) (with_cwnd (cwnd w) (with_acked (acked w) (window s))) -> 0 <= cwnd w < 2 ^ 16 -> flowing isn hist k a n (with_window w s)) as Hw
    by (intros w E Hw; apply flowing_counts; try assumption; rewrite E; reflexivity).
  unfold receive_dupack. do 2 erewrite bind_ok by reflexivity.
  match goal with |- context [if ?c then _ else _] => destruct c end.
  2: { exists (with_window (with_dupacks 0 (with_acked 0 (window s))) s). split; [reflexivity|]. left. now apply Hw. }
  erewrite bind_ok by reflexivity.
  set (w0 := with_acked 0 (window s)). set (w := if dupacks w0 <? u8 (dupacks w0 + 1) then with_dupacks (dupacks w0 + 1) w0 else w0).
  assert (w = with_dupacks (dupacks w) (with_cwnd (cwnd w) (with_acked (acked w) (window s))) /\ cwnd w = cwnd (window s) /\ snd_wnd w = snd_wnd (window s)) as (Ew & Hcw & Hsw)
    by (subst w w0; destruct (_ <? _); repeat split; now destruct (window s)).
  match goal with |- context [(gets _ ≫= _) ?st] => change st with (with_input true (with_window w s)) end. clearbody w. erewrite bind_ok by reflexivity.
  assert (flowing isn hist k a n (with_window w s)) as Hf1 by (apply Hw; [exact Ew|lia]).
  destruct (3 <? _).
  - exists (with_window (if cwnd w <? u16 (cwnd w + pcb_mss s) then with_cwnd (u16 (cwnd w + pcb_mss s)) w else w) s). split; [reflexivity|]. left.
    pose proof (grown_range (cwnd w) (cwnd w + pcb_mss s) ltac:(lia)) as Hgr. destruct (_ <? _) in *; [|exact Hf1].
    exact (flowing_counts isn hist k a n (with_cwnd (u16 (cwnd w + pcb_mss s)) w) (with_window w s) Hf1 eq_refl eq_refl eq_refl eq_refl eq_refl Hgr).
  - unfold when. destruct (_ =? 3); [|now exists (with_window w s); auto].
    apply rexmit_fast_ok; [exact Hf1|]. change (queues (with_window w s)) with (queues s). change (window (with_window w s)) with w.
    now rewrite Hsw.
Qed.

(** New data is acknowledged: what it covers leaves both queues. *)
Lemma newack_flows isn hist k a n y s :
  flowing isn hist k a n s -> a < y <= n -> exists k' s',
    (receive_newack (u32 (isn + y));; l ← gets (fun s => unsent (queues s)); free_unsent (S (length l)) (u32 (isn + y))) (with_input true s) =
      Ok (tt, with_input true s') /\ flowing isn hist k' y n s'.
Proof.
  intros Hf Hy. pose proof (flight_bound _ _ _ _ _ _ Hf) as Hb. pose proof (in_flight_total _ _ _ _ _ _ Hf) as Ht.
  destruct (newack_ok _ _ _ _ _ _ _ Hf Hy) as (l1 & l2 & w & flags & rt & E & El & K1 & K2 & W1 & W2 & W3 & W4 & W5 & W6).
  rewrite (bind_ok _ _ _ _ _ E). clear E. erewrite bind_ok by reflexivity. set (na := newly_acked flags rt (y - a) l1 l2 w s).
  change (unsent (queues (with_input true na))) with (unsent (queues s)).
  assert (TCP_SND_BUF + TCP_MSS < 2 ^ 16 /\ TCP_SND_QUEUELEN < 2 ^ 8) as [Hc Hc2] by (now compute).
  pose proof (fl_numbered _ _ _ _ _ _ Hf) as Hn. unfold in_flight in Hn, Ht. apply numbered_app in Hn as [_ Hn]. rewrite total_app in Ht.
  pose proof (fl_range _ _ _ _ _ _ Hf) as Hr. pose proof (fl_queuelen _ _ _ _ _ _ Hf) as [Hq Hq']. unfold in_flight in Hq. rewrite buffers_app, El, buffers_app in Hq.
  pose proof (total_pos (unacked (queues s))). pose proof (total_pos (unsent (queues s))).
  assert (0 <= buffers l1 /\ 0 <= buffers l2) as [? ?] by (unfold buffers; lia).
  destruct (free_unsent_ok (S (length (unsent (queues s)))) (mss_local s) isn y (k + total (unacked (queues s))) n (unsent (queues s)) (with_input true na))
    as (u1 & u2 & o & Eu & E & K3 & K4 & Ho); try reflexivity; try lia.
  - change (snd_nxt w = u32 (isn + n)). rewrite W2. exact (fl_nxt _ _ _ _ _ _ Hf).
  - now rewrite Z.add_assoc.
  - change (snd_queuelen (queues (with_input true na))) with (snd_queuelen (queues s) - buffers l1). lia.
  - change (snd_queuelen (queues (with_input true na))) with (snd_queuelen (queues s) - buffers l1). lia.
  - rewrite E. exists (k + total l1 + total u1), (released u1 (with_oversize o (with_unsent u2 (queues na))) na). split; [reflexivity|].
    refine (acked_flows isn hist k a n y l1 l2 u1 u2 o w (seg_free s + Z.of_nat (length l1) + Z.of_nat (length u1)) flags rt s Hf ltac:(lia) El Eu K1 K2 _ _ Ho W1 W2 W3 W4 W5 W6 _).
    + intros Hne. apply K3 in Hne. lia.
    + destruct u2; [done|]. specialize (K4 ltac:(lia)). lia.
    + pose proof (fl_free _ _ _ _ _ _ Hf). change (0 <= seg_free s + Z.of_nat (length l1) + Z.of_nat (length u1)). lia.
Qed.

Lemma flight_ends isn hist k a n g rest s :
  flowing isn hist k a n s -> unacked (queues s) = g :: rest -> seg_seqno g = u32 (isn + k) /\ plain (mss_local s) g /\ a < k + seg_len g <= n.
Proof.
  intros Hf Hu. pose proof (fl_numbered _ _ _ _ _ _ Hf) as Hn. pose proof (fl_first _ _ _ _ _ _ Hf) as H1. pose proof (fl_sent _ _ _ _ _ _ Hf) as H2.
  unfold in_flight in Hn, H1. rewrite Hu in Hn, H1, H2. destruct Hn as (Hs & Hp & _). rewrite total_cons, <- (pl_len _ _ Hp) in H2.
  pose proof (total_pos rest). cbn [app] in H1. auto with lia.
Qed.

(** The window's update. *)
Lemma update_window_ok seqno ackno wnd w :
  let w' := update_window seqno ackno wnd w in
  lastack w' = lastack w /\ snd_nxt w' = snd_nxt w /\ snd_wnd_max w <= snd_wnd_max w' /\ cwnd w' = cwnd w /\ ssthresh w' = ssthresh w /\
  (snd_wnd w' = snd_wnd w \/ snd_wnd w' = wnd).
Proof.
  unfold update_window. destruct (_ || _); cbn; [|auto 10 with lia]. destruct (Z.ltb_spec (snd_wnd_max w) wnd); repeat split; (lia || now right).
Qed.

(** An acknowledgement that may come: its number near the last one, its
    window one of 16 bits; an old one leaves room for the first segment. *)
Definition may_come (seqno ackno wnd : Z) (s : sender) : Prop :=
  let d := s32 (ackno - lastack (window s)) in
  - (2 ^ 29) <= d <= 2 ^ 29 /\ u32 ackno = ackno /\ 0 <= wnd < 2 ^ 16 /\
  (d <= 0 -> match unacked (queues s) with g :: _ => seg_len g <= snd_wnd (update_window seqno ackno wnd (window s)) | [] => True end).

Lemma s32_back b x : u32 (b + s32 (x - u32 b)) = u32 x.
Proof.
  unfold s32, wrap. set (m := 2 ^ 32). replace (b + ((x - b mod m + 2 ^ 31) mod m - 2 ^ 31)) with ((x - b mod m + 2 ^ 31) mod m + (b - 2 ^ 31)) by lia.
  rewrite Zplus_mod_idemp_l. replace (x - b mod m + 2 ^ 31 + (b - 2 ^ 31)) with (x + b - b mod m) by lia.
  rewrite Zminus_mod_idemp_r. f_equal. lia.
Qed.

Lemma may_come_at isn hist k a n seqno ackno wnd s :
  flowing isn hist k a n s -> may_come seqno ackno wnd s ->
  exists y, ackno = u32 (isn + y) /\ s32 (ackno - lastack (window s)) = y - a /\ - (2 ^ 29) <= y - a <= 2 ^ 29.
Proof.
  intros Hf (Hd & Hu & _). rewrite (fl_lastack _ _ _ _ _ _ Hf) in *. exists (a + s32 (ackno - u32 (isn + a))).
  split; [|split; lia]. rewrite Z.add_assoc, s32_back. now symmetry.
Qed.

(** What a segment with the flag [TCP_ACK] does. *)
Lemma receive_flows isn hist k a n seqno ackno wnd tcplen s :
  flowing isn hist k a n s -> may_come seqno ackno wnd s -> exists k' a' s',
    receive_ack seqno ackno wnd tcplen (with_input true s) = Ok (tt, with_input true s') /\ (flowing isn hist k' a' n s' \/ displaced isn hist k' a' n s').
Proof.
  intros Hf Hm. pose proof (flight_bound _ _ _ _ _ _ Hf) as Hb. destruct (may_come_at _ _ _ _ _ _ _ _ _ Hf Hm) as (y & Ea & Ed & Hy).
  destruct Hm as (_ & _ & Hwnd & Hroom). rewrite Ed in Hroom. pose proof (fl_windows _ _ _ _ _ _ Hf) as (W1 & W2 & W3). pose proof (fl_range _ _ _ _ _ _ Hf) as Hr.
  destruct (update_window_ok seqno ackno wnd (window s)) as (U1 & U2 & U3 & U4 & U5 & U6). set (w := update_window seqno ackno wnd (window s)) in *.
  assert (flowing isn hist k a n (with_window w s)) as Hf1 by (apply flowing_window; rewrite ?U4, ?U5; try assumption; destruct U6 as [-> | ->]; lia).
  assert (TCP_SND_BUF + TCP_MSS < 2 ^ 16) as Hc by (now compute).
  unfold receive_ack. do 3 erewrite bind_ok by reflexivity. change (window (with_input true s)) with (window s). fold w.
  change (window (with_window w (with_input true s))) with w. change (with_window w (with_input true s)) with (with_input true (with_window w s)).
  rewrite U1, U2, (fl_lastack _ _ _ _ _ _ Hf), (fl_nxt _ _ _ _ _ _ Hf), Ea.
  assert (forall x, u32 (u32 (isn + y) - u32 (isn + x)) = u32 (y - x)) as Hdf
    by (intros x; pose proof (u32_diff (isn + y) (isn + x) 0) as E; rewrite Z.add_0_r in E; rewrite E; f_equal; lia).
  rewrite (seq_leq _ _ (y - a)) by (apply Hdf || lia). destruct (Z.leb_spec (y - a) 0).
  - destruct (dupack_ok isn hist k a n (u32 (isn + y)) tcplen (u32 (snd_wnd (window s) + snd_wl2 (window s))) (with_window w s) Hf1 (Hroom ltac:(lia))) as (s' & E & H').
    rewrite (bind_ok _ _ _ _ _ E). exists k, a, s'. split; [|exact H']. destruct H' as [H'|(g & rest & u & Hua & Hu & _ & _ & H')].
    + apply (free_unsent_none isn hist k a n); [exact H'|lia|lia].
    + erewrite bind_ok by reflexivity. destruct (flight_ends _ _ _ _ _ _ _ _ H' eq_refl) as (Hs & Hp & Hg). pose proof (pl_range _ _ Hp). pose proof (mss_local_range _ _ _ _ _ _ H').
      eapply (free_unsent_stops _ isn y k n _ g u); try exact Hu; try exact Hp; try exact Hs; try lia. exact (fl_nxt _ _ _ _ _ _ H').
  - rewrite wrap_add_l, <- Z.add_assoc. rewrite (seq_between _ _ _ (y - (a + 1)) (y - n)) by (apply Hdf || lia).
    destruct (Z.leb_spec 0 (y - (a + 1))), (Z.leb_spec (y - n) 0); try lia; cbn [andb].
    + destruct (newack_flows isn hist k a n y (with_window w s) Hf1 ltac:(lia)) as (k' & s' & E & H'). exists k', y, s'. split; [exact E|now left].
    + erewrite bind_ok by reflexivity. exists k, a, (with_window (with_acked 0 w) (with_window w s)). split; [|left].
      * apply (free_unsent_none isn hist k a n _ (with_window (with_acked 0 w) (with_window w s))); [|lia|lia].
        apply (flowing_counts _ _ _ _ _ (with_acked 0 w) (with_window w s)); try reflexivity; [exact Hf1|cbn; rewrite U4; exact W1].
      * apply (flowing_counts _ _ _ _ _ (with_acked 0 w) (with_window w s)); try reflexivity; [exact Hf1|cbn; rewrite U4; exact W1].
Qed.

(** *** The segment that waits to be sent again *)

(** It goes first, back to its place. *)
Lemma resent_flows isn hist k a n flags rt g g' rest u s :
  flowing isn hist k a n (with_queues (with_unacked (g :: rest) (with_unsent u (queues s))) s) -> marked g g' ->
  unacked (queues s) = rest -> unsent (queues s) = g :: u ->
  flowing isn hist k a n (sent flags rt g' u (snd_nxt (window s)) s).
Proof.
  intros Hf Hmk Hua Hu. pose proof (flight_bound _ _ _ _ _ _ Hf) as Hb. pose proof (in_flight_total _ _ _ _ _ _ Hf) as Ht.
  pose proof (flight_ends _ _ _ _ _ _ _ _ Hf eq_refl) as (Hs & Hp & Hg). assert (TCP_SND_BUF + TCP_MSS < 2 ^ 16) as Hc by (now compute).
  assert (seg_len g' = seg_len g /\ seg_data g' = seg_data g /\ seg_bufs g' = seg_bufs g /\ seg_seqno g' = seg_seqno g) as (G1 & G2 & G3 & G4) by (destruct Hmk as (h & _ & ->); done).
  destruct Hf as [F1 F2 F3 F4 F5 F6 F7 F8 [F9 F9'] [F10 F10'] F11 F12 F13 F14 F15 F16]. unfold in_flight in *.
  cbn [with_queues with_unacked with_unsent queues unsent unacked snd_lbb snd_buf snd_queuelen unsent_oversize window wire pcb_mss seg_free is_input app] in *.
  assert (on_stream isn hist g') as Hon.
  { apply (marked_on_stream _ _ g); [exact Hmk|]. eapply (in_flight_on_stream isn hist k [] g (rest ++ u)); [exact F1|exact F2|lia]. }
  assert (add_unacked g' (unacked (queues s)) = g' :: rest) as Ha.
  { rewrite Hua. unfold add_unacked. destruct rest as [|h rest _] using rev_ind; [done|]. rewrite last_snoc.
    pose proof F1 as Hn. rewrite <- app_assoc in Hn. rewrite total_cons, <- app_assoc, total_app in Ht. pose proof (total_pos rest). pose proof (total_pos ([h] ++ u)).
    pose proof (next_seqno (mss_local (with_queues (with_unacked (g :: rest ++ [h]) (with_unsent u (queues s))) s)) (isn + k) (g :: rest) (h :: u) Hn ltac:(rewrite total_cons; lia)) as (e & He & Hbd).
    rewrite G4, Hs, He. replace (isn + k) with (isn + k + 0) at 1 by lia. rewrite seq_lt by lia.
    destruct Hn as (_ & Hpg & Hn). pose proof (pl_range _ _ Hpg).
    assert (e <> 0) as Hne.
    { intros ->. apply numbered_app in Hn as [_ (Hh & _)]. rewrite He in Hh. pose proof (u32_eq (isn + k + 0) (isn + k + seg_len g + total rest)) as X.
      rewrite Hh, Z.eqb_refl in X. rewrite (pl_len _ _ Hpg) in *. specialize (X ltac:(lia)). symmetry in X. apply Z.eqb_eq in X. lia. }
    destruct (Z.ltb_spec 0 e); [|lia].
    apply insert_first with (x := isn + k); [now rewrite G4|]. apply (next_seqno (mss_local (with_queues (with_unacked (g :: rest ++ [h]) (with_unsent u (queues s))) s)) _ [g] (rest ++ [h])).
    - split; [exact Hs|]. split; [exact Hpg|]. change (h :: u) with ([h] ++ u) in Hn. rewrite app_assoc in Hn. now apply numbered_app in Hn as [Hn _].
    - unfold total, stream_of. cbn [map concat]. rewrite app_nil_r. lia. }
  assert (buffers (g' :: rest ++ u) = buffers (g :: rest ++ u)) as EB by (rewrite !buffers_cons, G3; reflexivity).
  assert (stream_of (g' :: rest ++ u) = stream_of (g :: rest ++ u)) as ES by (unfold stream_of; cbn [map concat]; now rewrite G2).
  assert (total (g' :: rest) = total (g :: rest)) as ET by (rewrite !total_cons; now rewrite G2).
  split; unfold in_flight; unfold sent; rewrite ?Ha; cbn [with_queues with_unacked with_unsent with_window with_nxt with_wire with_rtime with_flags
    queues unsent unacked snd_lbb snd_buf snd_queuelen unsent_oversize window lastack snd_nxt snd_wnd snd_wnd_max cwnd ssthresh wire pcb_mss seg_free is_input app];
    try done; try lia; try (now rewrite ES); try (rewrite EB; lia).
  - apply (marked_seg _ _ [] g); assumption.
  - apply Forall_app. split; [exact F13|]. now apply Forall_singleton.
Qed.

Lemma displaced_output isn hist k a n s :
  displaced isn hist k a n s -> is_input s = false -> exists err n' s', tcp_output s = Ok (err, s') /\ flowing isn hist k a n' s'.
Proof.
  intros (g & rest & u & Hua & Hu & Hinfr & Hroom & Hf) Hin. pose proof (flight_ends _ _ _ _ _ _ _ _ Hf eq_refl) as (Hs & Hp & Hg).
  pose proof (fl_range _ _ _ _ _ _ Hf) as Hr. pose proof (mss_local_range _ _ _ _ _ _ Hf) as Hm. pose proof (pl_range _ _ Hp) as Hl.
  pose proof (flight_bound _ _ _ _ _ _ Hf) as Hb. assert (TCP_SND_BUF + TCP_MSS < 2 ^ 16) as Hc by (now compute).
  unfold tcp_output. erewrite bind_ok by reflexivity. rewrite Hin, Hu. set (wnd := Z.min _ _).
  assert (within_window g wnd (window s) = true) as Hw.
  { unfold within_window. rewrite Hs. pose proof (fl_lastack _ _ _ _ _ _ Hf) as Hla. cbn [with_queues window] in Hla. rewrite Hla.
    pose proof (u32_diff (isn + k) (isn + a) 0) as E. rewrite Z.add_0_r in E. rewrite E, wrap_add_l, wrap_small by lia. apply Z.leb_le. lia. }
  rewrite Hw. cbn [negb]. rewrite andb_false_r.
  assert (tcp_do_output_nagle s || truthy (pcb_flags s &&& (TF_NAGLEMEMERR ||| TF_FIN)) = true) as Hn.
  { apply orb_true_iff. left. unfold tcp_do_output_nagle. rewrite Z.land_lor_distr_r. apply orb_true_iff. left. apply orb_true_iff. left. apply orb_true_iff. right.
    unfold truthy in *. apply negb_true_iff, Z.eqb_neq in Hinfr. apply negb_true_iff, Z.eqb_neq. intros E. apply Z.lor_eq_0_iff in E. tauto. }
  cbn [length]. destruct (output_loop_sends (S (length u)) wnd _ g u s Hu Hp Hw Hn) as (flags & rt & g' & Hmk & E).
  assert ((if TCP_SEQ_LT (snd_nxt (window s)) (u32 (seg_seqno g + seg_len g)) then u32 (seg_seqno g + seg_len g) else snd_nxt (window s)) = snd_nxt (window s)) as Ex.
  { rewrite Hs, wrap_add_l, <- Z.add_assoc. pose proof (fl_nxt _ _ _ _ _ _ Hf) as Hx. cbn [with_queues window] in Hx. rewrite Hx, seq_lt by lia.
    destruct (Z.ltb_spec n (k + seg_len g)); [lia|reflexivity]. }
  rewrite Ex in E. pose proof (resent_flows isn hist k a n flags rt g g' rest u s Hf Hmk Hua Hu) as Hf2.
  destruct (output_loop_flows (S (length u)) wnd isn hist k a n _ (flowing_draining _ _ _ _ _ _ Hf2) ltac:(cbn; lia)) as (n' & s' & E' & H' & _).
  rewrite <- E in E'. rewrite (bind_ok _ _ _ _ _ E'). destruct (drained _ _ _ _ _ _ H') as (s2 & E2 & H2). exists ERR_OK, n', s2. now split.
Qed.

(** *** Input, and the fast timer *)

Lemma tcp_ack_ok (data : bool) s : exists f, when data tcp_ack (with_input true s) = Ok (tt, with_input true (with_flags f s)) /\
  truthy (f &&& TF_INFR) = truthy (pcb_flags s &&& TF_INFR).
Proof.
  destruct data; [|exists (pcb_flags s); split; [now destruct s|reflexivity]]. unfold when, tcp_ack. erewrite bind_ok by reflexivity.
  assert (forall x y, (forall i, Z.testbit x i && Z.testbit TF_INFR i = Z.testbit y i && Z.testbit TF_INFR i) -> truthy (x &&& TF_INFR) = truthy (y &&& TF_INFR)) as Hb.
  { intros x y H. f_equal. apply Z.bits_inj'. intros i _. now rewrite !Z.land_spec. }
  assert (forall i, Z.testbit TF_INFR i = bool_decide (i = 2)) as Hi.
  { intros i. case_bool_decide as Hi; [now subst|]. destruct i as [|p|p]; [reflexivity| |reflexivity]. repeat (destruct p as [p|p|]; try reflexivity). contradiction. }
  destruct (truthy _); [exists (Z.ldiff (pcb_flags s) TF_ACK_DELAY ||| TF_ACK_NOW)|exists (pcb_flags s ||| TF_ACK_DELAY)]; (split; [reflexivity|]);
    apply Hb; intros i; rewrite Hi; case_bool_decide as H2; try (now rewrite !andb_false_r); subst i;
    rewrite !andb_true_r, ?Z.lor_spec, ?Z.ldiff_spec; change (Z.testbit TF_ACK_DELAY 2) with false; change (Z.testbit TF_ACK_NOW 2) with false;
    cbn [negb]; now rewrite ?andb_true_r, ?orb_false_r.
Qed.

Lemma displaced_flags isn hist k a n f s :
  displaced isn hist k a n s -> truthy (f &&& TF_INFR) = truthy (pcb_flags s &&& TF_INFR) -> displaced isn hist k a n (with_flags f s).
Proof.
  intros (g & rest & u & Hua & Hu & Hi & Hr & Hf) E. exists g, rest, u. split; [exact Hua|]. split; [exact Hu|]. split; [now rewrite <- Hi|]. split; [exact Hr|].
  exact (flowing_mem _ _ _ _ _ _ (allocs s) (seg_free s) f Hf (fl_free _ _ _ _ _ _ Hf)).
Qed.

Lemma input_ack_flows isn hist k a n seqno ackno wnd tcplen data s :
  flowing isn hist k a n s -> may_come seqno ackno wnd s -> exists err k' a' n' s',
    input_ack seqno ackno wnd tcplen data s = Ok (err, s') /\ flowing isn hist k' a' n' s'.
Proof.
  intros Hf Hm. unfold input_ack. erewrite bind_ok by reflexivity.
  destruct (receive_flows isn hist k a n seqno ackno wnd tcplen s Hf Hm) as (k' & a' & s1 & E & H1). rewrite (bind_ok _ _ _ _ _ E). clear E.
  destruct (tcp_ack_ok data s1) as (f & E & Hb). rewrite (bind_ok _ _ _ _ _ E). clear E. erewrite bind_ok by reflexivity.
  change (with_input false (with_input true (with_flags f s1))) with (with_input false (with_flags f s1)). destruct H1 as [H1|H1].
  - replace (with_input false (with_flags f s1)) with (with_flags f s1) by (destruct s1; pose proof (fl_input _ _ _ _ _ _ H1) as Hi; cbn in Hi |- *; now subst).
    pose proof (flowing_mem _ _ _ _ _ _ (allocs s1) (seg_free s1) f H1 (fl_free _ _ _ _ _ _ H1)) as H2.
    destruct (output_flows _ _ _ _ _ _ H2) as (err & n' & s2 & E & H3). now exists err, k', a', n', s2.
  - pose proof (displaced_flags _ _ _ _ _ f _ H1 Hb) as (g & rest & u & Hua & Hu & Hi & Hr & H2).
    destruct (displaced_output isn hist k' a' n (with_input false (with_flags f s1))) as (err & n' & s2 & E & H3); [|reflexivity|now exists err, k', a', n', s2].
    exists g, rest, u. split; [exact Hua|]. split; [exact Hu|]. split; [exact Hi|]. split; [exact Hr|].
    pose proof (fl_input _ _ _ _ _ _ H2) as Hin. destruct s1. cbn in *. now subst.
Qed.

Lemma fasttmr_flows isn hist k a n s :
  flowing isn hist k a n s -> exists n' s', fasttmr_ack s = Ok (tt, s') /\ flowing isn hist k a n' s'.
Proof.
  intros Hf. unfold fasttmr_ack. erewrite bind_ok by reflexivity. unfold when. destruct (truthy _); [|now exists n, s].
  erewrite bind_ok by reflexivity.
  pose proof (flowing_mem _ _ _ _ _ _ (allocs s) (seg_free s) (pcb_flags s ||| TF_ACK_NOW) Hf (fl_free _ _ _ _ _ _ Hf)) as H1.
  destruct (output_flows _ _ _ _ _ _ H1) as (err & n' & s2 & E & H2). change (with_mem _ _ _ s) with (with_flags (pcb_flags s ||| TF_ACK_NOW) s) in E.
  rewrite (bind_ok _ _ _ _ _ E). eexists n', _. split; [reflexivity|].
  exact (flowing_mem _ _ _ _ _ _ (allocs s2) (seg_free s2) _ H2 (fl_free _ _ _ _ _ _ H2)).
Qed.
End Flow.
