(* ===== verification/TcpRun.v ===== *)
(** * TcpRun: every run of a connection

    Events in any order, on a connection that was established: the
    application writes and sends, timers expire, acknowledgements come.  The
    theorems say that each is handled, that the wire carries nothing but the
    stream, that the oldest byte goes out again, and which replies a
    connection takes whole. *)

From Stdlib Require Import ZArith Lia.
From stdpp Require Import base numbers list.
From S2P Require Import Prelude Pbuf Tcp TcpOut TcpStream TcpFlow.
#[local] Open Scope c_scope.

Section Run.
Context `{SM : SendMem}.

Inductive event :=
  | Write (d : list Z) (apiflags : Z)
  | Output
  | Timeout
  | FastTimer
  | Ack (seqno ackno wnd tcplen : Z) (data : bool).

(** The bytes accepted so far grow by what a write accepts. *)
Definition happens (e : event) (hist : list Z) : M sender (list Z) :=
  match e with
  | Write d f => err ← tcp_write d f; mret (if err =? ERR_OK then hist ++ d else hist)
  | Output => tcp_output;; mret hist
  | Timeout => tcp_rexmit_rto;; mret hist
  | FastTimer => fasttmr_ack;; mret hist
  | Ack seqno ackno wnd tcplen data => input_ack seqno ackno wnd tcplen data;; mret hist
  end.

Fixpoint run (es : list event) (hist : list Z) : M sender (list Z) :=
  match es with
  | [] => mret hist
  | e :: es => hist ← happens e hist; run es hist
  end.

Lemma run_app es1 es2 hist s : run (es1 ++ es2) hist s = (hist ← run es1 hist; run es2 hist) s.
Proof.
  revert hist s. induction es1 as [|e es1 IH]; intros hist s; [reflexivity|]. cbn [app run]. rewrite bind_assoc.
  destruct (happens e hist s) as [[h s']| |] eqn:E; [|unfold mbind, M_bind; now rewrite E..].
  rewrite !(bind_ok _ _ _ _ _ E). apply IH.
Qed.

Definition allowed (e : event) (s : sender) : Prop :=
  match e with
  | Write d _ => d <> []
  | Ack seqno ackno wnd _ _ => may_come seqno ackno wnd s
  | _ => True
  end.

Fixpoint allowed_run (es : list event) (hist : list Z) (s : sender) : Prop :=
  match es with
  | [] => True
  | e :: es => allowed e s /\ match happens e hist s with Ok (hist, s) => allowed_run es hist s | _ => True end
  end.

(** A connection with nothing to send, [isn] the number of the first byte. *)
Record idle (isn : Z) (s : sender) : Prop := {
    id_queues : queues s = mkSq (u32 isn) TCP_SND_BUF 0 0 [] [];
    id_lastack : lastack (window s) = u32 isn;
    id_nxt : snd_nxt (window s) = u32 isn;
    id_mss : 0 < pcb_mss s <= TCP_MSS /\ 2 <= snd_wnd_max (window s);
    id_windows : 0 <= cwnd (window s) < 2 ^ 16 /\ 0 <= ssthresh (window s) < 2 ^ 16 /\ 0 <= snd_wnd (window s) < 2 ^ 16;
    id_rest : wire s = [] /\ 0 <= seg_free s /\ is_input s = false;
  }.

Lemma idle_flows isn s : idle isn s -> flowing isn [] 0 0 0 s.
Proof.
  intros [I1 I2 I3 I4 I5 (I6 & I7 & I8)]. split; unfold in_flight; rewrite ?I1, ?I6; cbn; rewrite ?Z.add_0_r; try done; try lia.
Qed.

Lemma happens_flows isn hist k a n e s :
  flowing isn hist k a n s -> allowed e s -> exists hist' k' a' n' s', happens e hist s = Ok (hist', s') /\ flowing isn hist' k' a' n' s'.
Proof.
  intros Hf Ha. destruct e as [d f| | | |seqno ackno wnd tcplen data]; cbn [happens allowed] in *.
  - destruct (write_flows isn hist k a n d f s Hf Ha) as (err & s' & E & H). rewrite (bind_ok _ _ _ _ _ E).
    destruct H as [[-> H]|([-> | ->] & H & _)]; eexists _, k, a, n, s'; (split; [reflexivity|exact H]).
  - destruct (output_flows _ _ _ _ _ _ Hf) as (err & n' & s' & E & H). rewrite (bind_ok _ _ _ _ _ E). now exists hist, k, a, n', s'.
  - destruct (rto_flows _ _ _ _ _ _ Hf) as (n' & s' & E & H). rewrite (bind_ok _ _ _ _ _ E). now exists hist, k, a, n', s'.
  - destruct (fasttmr_flows _ _ _ _ _ _ Hf) as (n' & s' & E & H). rewrite (bind_ok _ _ _ _ _ E). now exists hist, k, a, n', s'.
  - destruct (input_ack_flows isn hist k a n _ _ _ tcplen data _ Hf Ha) as (err & k' & a' & n' & s' & E & H).
    rewrite (bind_ok _ _ _ _ _ E). now exists hist, k', a', n', s'.
Qed.

Lemma run_flows isn es hist k a n s :
  flowing isn hist k a n s -> allowed_run es hist s -> exists hist' k' a' n' s', run es hist s = Ok (hist', s') /\ flowing isn hist' k' a' n' s'.
Proof.
  revert hist k a n s. induction es as [|e es IH]; intros hist k a n s Hf Ha; [now exists hist, k, a, n, s|].
  destruct Ha as [Ha Hes]. destruct (happens_flows _ _ _ _ _ _ _ Hf Ha) as (hist' & k' & a' & n' & s' & E & H).
  cbn [run]. rewrite (bind_ok _ _ _ _ _ E). rewrite E in Hes. now apply (IH hist' k' a' n').
Qed.

(** C13: What is written is what is sent: in every run of a connection each
    event is handled, every segment on the wire carries bytes that were
    accepted, at their place in the stream; every byte not yet acknowledged
    is still queued; and the counters of the send buffer and of the queue
    tell what is outstanding, within their limits. *)
Theorem wire_carries_stream isn es s :
  idle isn s -> allowed_run es [] s -> exists hist s' a, run es [] s = Ok (hist, s') /\
    Forall (on_stream isn hist) (wire s') /\
    lastack (window s') = u32 (isn + a) /\ 0 <= a <= Z.of_nat (length hist) /\
    drop (Z.to_nat a) hist `suffix_of` stream_of (in_flight s') /\
    snd_buf (queues s') = TCP_SND_BUF - (Z.of_nat (length hist) - a) /\ 0 <= snd_buf (queues s') /\
    snd_queuelen (queues s') = buffers (in_flight s') /\ snd_queuelen (queues s') <= TCP_SND_QUEUELEN.
Proof.
  intros Hi Ha. destruct (run_flows isn es [] 0 0 0 s (idle_flows _ _ Hi) Ha) as (hist & k & a & n & s' & E & H).
  exists hist, s', a. pose proof (fl_range _ _ _ _ _ _ H) as Hr. split; [exact E|]. split; [exact (fl_wire _ _ _ _ _ _ H)|].
  split; [exact (fl_lastack _ _ _ _ _ _ H)|]. split; [lia|]. split.
  - rewrite (fl_data _ _ _ _ _ _ H). replace (Z.to_nat a) with (Z.to_nat k + Z.to_nat (a - k))%nat by lia. rewrite <- drop_drop.
    exists (take (Z.to_nat (a - k)) (drop (Z.to_nat k) hist)). now rewrite take_drop.
  - pose proof (fl_buf _ _ _ _ _ _ H). pose proof (fl_queuelen _ _ _ _ _ _ H). tauto.
Qed.

(** *** The oldest byte *)

Lemma output_sends_first isn hist k a n g rest s :
  flowing isn hist k a n s -> unsent (queues s) = g :: rest -> within_window g (Z.min (snd_wnd (window s)) (cwnd (window s))) (window s) = true ->
  unacked (queues s) = [] -> exists n' s' g', tcp_output s = Ok (ERR_OK, s') /\ flowing isn hist k a n' s' /\ marked g g' /\ wire s ++ [g'] `prefix_of` wire s'.
Proof.
  intros Hf Hu Hw Hua. unfold tcp_output. erewrite bind_ok by reflexivity. rewrite (fl_input _ _ _ _ _ _ Hf), Hu. set (wnd := Z.min _ _) in *.
  rewrite Hw. cbn [negb]. rewrite andb_false_r. cbn [length].
  pose proof (fl_numbered _ _ _ _ _ _ Hf) as Hn. unfold in_flight in Hn. rewrite Hua, Hu in Hn. destruct Hn as (_ & Hp & _).
  assert (tcp_do_output_nagle s || truthy (pcb_flags s &&& (TF_NAGLEMEMERR ||| TF_FIN)) = true) as Hg
    by (unfold tcp_do_output_nagle; now rewrite Hua, bool_decide_eq_true_2).
  destruct (output_loop_sends (S (length rest)) wnd _ g rest s Hu Hp Hw Hg) as (flags & rt & g' & Hm & E).
  destruct (sent_flows isn hist k a n flags rt g g' rest s (flowing_draining _ _ _ _ _ _ Hf) Hu Hm) as (n1 & H1).
  destruct (output_loop_flows (S (length rest)) wnd isn hist k a n1 _ H1 ltac:(cbn; lia)) as (n' & s' & E' & H' & Hpre).
  rewrite <- E in E'. rewrite (bind_ok _ _ _ _ _ E'). destruct (drained _ _ _ _ _ _ H') as (s2 & E2 & H2).
  exists n', s2, g'. split; [exact E2|]. split; [exact H2|]. split; [exact Hm|].
  unfold on_queues, clear_flag, modify in E2. injection E2 as <-. exact Hpre.
Qed.

(** The event that has the oldest byte sent: the timer of the
    retransmission if something is on its way, else [tcp_output]. *)
Definition next_try (s : sender) : event := if bool_decide (unacked (queues s) = []) then Output else Timeout.

(** C14: No byte is stuck: in any run, as long as a byte is not acknowledged
    and the windows have room for the first segment queued, that segment,
    which holds the oldest such byte, goes out (again), whatever was lost
    before. *)
Theorem oldest_byte_goes_out isn es s hist s1 :
  idle isn s -> allowed_run es [] s -> run es [] s = Ok (hist, s1) ->
  match in_flight s1 with g :: _ => seg_len g <= Z.min (snd_wnd (window s1)) (cwnd (window s1)) | [] => False end ->
  exists hist' s2 g o b, happens (next_try s1) hist s1 = Ok (hist', s2) /\ wire s1 ++ [g] `prefix_of` wire s2 /\
    seg_seqno g = u32 (isn + Z.of_nat o) /\ seg_data g `prefix_of` drop o hist /\
    lastack (window s1) = u32 (isn + b) /\ Z.of_nat o <= b < Z.of_nat o + Z.of_nat (length (seg_data g)).
Proof.
  intros Hi Ha E Hwin. destruct (run_flows isn es [] 0 0 0 s (idle_flows _ _ Hi) Ha) as (hist' & k & a & n & s' & E' & Hf).
  rewrite E in E'. injection E' as <- <-.
  pose proof (flight_bound _ _ _ _ _ _ Hf) as Hb. pose proof (fl_range _ _ _ _ _ _ Hf) as Hr. assert (TCP_SND_BUF + TCP_MSS < 2 ^ 16) as Hc by (now compute).
  destruct (in_flight s1) as [|g rest] eqn:Hfl; [done|].
  pose proof (fl_numbered _ _ _ _ _ _ Hf) as Hn. rewrite Hfl in Hn. destruct Hn as (Hs & Hp & _). pose proof (pl_range _ _ Hp) as Hl.
  pose proof (fl_first _ _ _ _ _ _ Hf) as H1. rewrite Hfl in H1. pose proof (mss_local_range _ _ _ _ _ _ Hf) as Hm.
  assert (within_window g (Z.min (snd_wnd (window s1)) (cwnd (window s1))) (window s1) = true) as Hw.
  { unfold within_window. rewrite Hs, (fl_lastack _ _ _ _ _ _ Hf). pose proof (u32_diff (isn + k) (isn + a) 0) as Ed. rewrite Z.add_0_r in Ed.
    rewrite Ed, wrap_add_l, wrap_small by lia. apply Z.leb_le. lia. }
  assert (exists s0, flowing isn hist k a n s0 /\ unsent (queues s0) = g :: rest /\ unacked (queues s0) = [] /\ window s0 = window s1 /\ wire s0 = wire s1 /\
    happens (next_try s1) hist s1 = (tcp_output;; mret hist) s0) as (s0 & H0 & U0 & A0 & W0 & V0 & E0).
  { unfold next_try. destruct (bool_decide_reflect (unacked (queues s1) = [])) as [Hua|Hua].
    - exists s1. unfold in_flight in Hfl. rewrite Hua in Hfl. repeat (split; [assumption || reflexivity|]). reflexivity.
    - eexists. split; [exact (rto_requeues _ _ _ _ _ _ Hf)|]. split; [exact Hfl|]. split; [reflexivity|]. split; [reflexivity|]. split; [reflexivity|].
      cbn [happens]. unfold tcp_rexmit_rto. rewrite bind_assoc. erewrite bind_ok by reflexivity. rewrite bool_decide_eq_false_2 by exact Hua. mred.
      unfold on_queues, modify. now destruct (tcp_output _) as [[]| |]. }
  rewrite <- W0 in Hw. destruct (output_sends_first isn hist k a n g rest s0 H0 U0 Hw A0) as (n' & s2 & g' & E2 & H2 & (h & _ & ->) & Hpre).
  exists hist, s2, (set_hdr h g), (Z.to_nat k), a. rewrite E0, (bind_ok _ _ _ _ _ E2), <- V0. split; [reflexivity|]. split; [exact Hpre|].
  split; [cbn [set_hdr seg_seqno]; rewrite Hs, Z2Nat.id by lia; reflexivity|]. split.
  - pose proof (fl_data _ _ _ _ _ _ Hf) as Hd. rewrite Hfl in Hd. rewrite <- Hd. unfold stream_of. cbn [map concat]. now apply prefix_app_r.
  - split; [exact (fl_lastack _ _ _ _ _ _ Hf)|]. pose proof (pl_len _ _ Hp) as Hpl. change (seg_data (set_hdr h g)) with (seg_data g). lia.
Qed.
End Run.

(** ** A concrete connection

    Memory fails at the third request; the first number is just below the
    point where they start again from zero. *)
Definition scarce : SendMem := {| ram_found n _ := negb (Nat.eqb n 2); rom_found _ := true |}.
Definition fresh_connection : sender :=
  mkSnd ESTABLISHED TF_ACK_DELAY 1460 (-1) false (mkSq 4294967290 2920 0 0 [] [])
    (mkSw 4294967290 4294967290 5840 5840 7 4294967290 2920 5840 0 0) MEMP_NUM_TCP_SEG 0 [].
Definition zeros (n : nat) : list Z := repeat 0 n.

(** A write and the timer that sends it, two writes more, one without
    memory, duplicates until the first segment is sent again, an
    acknowledgement across the end of the numbers, and a timeout. *)
Definition busy_life : list event :=
  [Write (zeros 9) TCP_WRITE_FLAG_COPY; FastTimer; Write (zeros 1460) TCP_WRITE_FLAG_COPY; Write (zeros 100) TCP_WRITE_FLAG_COPY;
   Write (zeros 5) 0; Output; Ack 7 4294967290 5840 0 false; Ack 7 4294967290 5840 0 false; Ack 7 4294967290 5840 0 false;
   Ack 7 3 5840 12 true; Timeout; Write (zeros 700) TCP_WRITE_FLAG_COPY].

Lemma fresh_idle : idle 4294967290 fresh_connection.
Proof. split; vm_compute; intuition discriminate. Qed.

Lemma wire_carries_stream_witness :
  @allowed_run scarce busy_life [] fresh_connection /\
  exists hist s' a, @run scarce busy_life [] fresh_connection = Ok (hist, s') /\
    Forall (on_stream 4294967290 hist) (wire s') /\
    lastack (window s') = u32 (4294967290 + a) /\ 0 <= a <= Z.of_nat (length hist) /\
    drop (Z.to_nat a) hist `suffix_of` stream_of (in_flight s') /\
    snd_buf (queues s') = TCP_SND_BUF - (Z.of_nat (length hist) - a) /\ 0 <= snd_buf (queues s') /\
    snd_queuelen (queues s') = buffers (in_flight s') /\ snd_queuelen (queues s') <= TCP_SND_QUEUELEN.
Proof.
  assert (@allowed_run scarce busy_life [] fresh_connection) as Ha by (vm_compute; repeat split; discriminate).
  split; [exact Ha|]. exact (@wire_carries_stream scarce _ _ _ fresh_idle Ha).
Defined.

(** After the first write and the timer, its segment is sent again. *)
Lemma oldest_byte_goes_out_witness :
  match @run scarce (take 2 busy_life) [] fresh_connection with
  | Ok (hist, s1) => next_try s1 = Timeout /\
      exists hist' s2 g o b, @happens scarce (next_try s1) hist s1 = Ok (hist', s2) /\ wire s1 ++ [g] `prefix_of` wire s2 /\
        seg_seqno g = u32 (4294967290 + Z.of_nat o) /\ seg_data g `prefix_of` drop o hist /\
        lastack (window s1) = u32 (4294967290 + b) /\ Z.of_nat o <= b < Z.of_nat o + Z.of_nat (length (seg_data g))
  | _ => False
  end.
Proof.
  destruct (@run scarce (take 2 busy_life) [] fresh_connection) as [[hist s1]| |] eqn:E; [|discriminate E..].
  pose proof E as E'. vm_compute in E'. injection E' as <- <-. split; [reflexivity|].
  apply (@oldest_byte_goes_out scarce 4294967290 (take 2 busy_life) fresh_connection); [exact fresh_idle| |exact E|vm_compute; discriminate].
  vm_compute. repeat split; discriminate.
Defined.
