(* ===== verification/TcpTimer.v ===== *)
(** * TcpTimer: the slow timer of a connection

    Models what [tcp_slowtmr] of lwIP's tcp.c does for a connection that
    transfers data, every half second, and the variables it works on:
    the estimate of the round trip, the time-out and the count of
    retransmissions, and the persist timer, with all places of tcp_in.c and
    tcp_out.c that change them.  The functions are those of [TcpOut] with
    these variables added; without them they are the same ([projects]).
    Shows that the variables stay in range, when a connection is given up,
    when a closed window is probed, and what the timer does not cover. *)

From Stdlib Require Import ZArith Lia.
From stdpp Require Import base numbers list.
From S2P Require Import Prelude Pbuf Tcp TcpOut TcpStream TcpFlow TcpRun.
#[local] Open Scope c_scope.

(** ** The variables *)

Definition TCP_MAXRTX : Z := 12.
Definition tcp_backoff : list Z := [1; 2; 3; 4; 5; 6; 7; 7; 7; 7; 7; 7; 7].
Definition tcp_persist_backoff : list Z := [3; 6; 12; 24; 48; 96; 120].

(** The conversion to a signed 16-bit integer. *)
Definition s16 (z : Z) : Z := u16 (z + 2 ^ 15) - 2 ^ 15.

Record rtx := mkRtx {
    rto : Z; sa : Z; sv : Z; rttest : Z; rtseq : Z; nrtx : Z;
    persist_cnt : Z; persist_backoff : Z; tcp_ticks : Z;
  }.

Definition with_rto v r := mkRtx v (sa r) (sv r) (rttest r) (rtseq r) (nrtx r) (persist_cnt r) (persist_backoff r) (tcp_ticks r).
Definition with_est a v r := mkRtx (rto r) a v (rttest r) (rtseq r) (nrtx r) (persist_cnt r) (persist_backoff r) (tcp_ticks r).
Definition with_test t n r := mkRtx (rto r) (sa r) (sv r) t n (nrtx r) (persist_cnt r) (persist_backoff r) (tcp_ticks r).
Definition with_nrtx v r := mkRtx (rto r) (sa r) (sv r) (rttest r) (rtseq r) v (persist_cnt r) (persist_backoff r) (tcp_ticks r).
Definition with_persist c b r := mkRtx (rto r) (sa r) (sv r) (rttest r) (rtseq r) (nrtx r) c b (tcp_ticks r).
Definition with_ticks v r := mkRtx (rto r) (sa r) (sv r) (rttest r) (rtseq r) (nrtx r) (persist_cnt r) (persist_backoff r) v.

(** The variables of a new control block, [ticks] half seconds after the
    start. *)
Definition rtx_start (ticks : Z) : rtx := mkRtx 6 0 6 0 0 0 0 0 ticks.

Record timed := mkTimed { t_snd : sender; t_rtx : rtx }.

#[export] Program Instance timed_snd : Lens sender timed :=
  {| view := t_snd; over s t := mkTimed s (t_rtx t) |}.
Solve Obligations with (now intros; try match goal with t : timed |- _ => destruct t end).

Definition on_snd {A} (m : M sender A) : M timed A := zoom m.
Definition on_rtx (f : rtx -> rtx) : M timed unit := modify (fun t => mkTimed (t_snd t) (f (t_rtx t))).

(** [(sa >> 3) + sv] *)
Definition estimate (r : rtx) : Z := (sa r >>> 3) + sv r.

Section Timer.
Context `{SM : SendMem}.

(** ** Sending *)

(** What [tcp_output_segment] does with the measurement: the first segment
    sent while none runs starts one.  A segment without length is an
    acknowledgement, which is sent another way. *)
Definition start_test (r : rtx) (g : tcp_seg) : rtx :=
  if (rttest r =? 0) && (0 <? TCP_TCPLEN g) then with_test (tcp_ticks r) (seg_seqno g) r else r.

(** A function that sends segments, with the measurement of those it sent. *)
Definition measured {A} (m : M sender A) : M timed A :=
  w ← on_snd (gets wire);
  a ← on_snd m;
  w' ← on_snd (gets wire);
  on_rtx (fun r => foldl start_test r (drop (length w) w'));;
  mret a.

Definition t_rexmit_rto : M timed unit :=
  q ← on_snd (gets queues);
  if bool_decide (unacked q = []) then mret tt
  else
    on_snd (on_queues (fun q => with_unacked [] (with_unsent (unacked q ++ unsent q) q)));;
    on_rtx (fun r => with_nrtx (u8 (nrtx r + 1)) r);;
    on_rtx (fun r => with_test 0 (rtseq r) r);;
    measured tcp_output;; mret tt.

Definition t_rexmit : M timed unit :=
  q ← on_snd (gets queues);
  if bool_decide (unacked q = []) then mret tt
  else
    on_snd tcp_rexmit;;
    on_rtx (fun r => with_nrtx (u8 (nrtx r + 1)) r);;
    on_rtx (fun r => with_test 0 (rtseq r) r).

Definition t_rexmit_fast : M timed unit :=
  s ← on_snd get;
  if negb (bool_decide (unacked (queues s) = [])) && negb (truthy (pcb_flags s &&& TF_INFR)) then
    t_rexmit;;
    on_snd (on_window (fast_recovery (pcb_mss s)));;
    on_snd (set_flag TF_INFR)
  else mret tt.

(** One byte from the head of the queues, or the FIN at it. *)
Definition tcp_zero_window_probe : M sender unit :=
  s ← get;
  match in_flight s with
  | [] => mret tt
  | seg :: _ =>
      let is_fin := truthy (seg_hdr seg &&& TCP_FIN) && (seg_len seg =? 0) in
      let len := if is_fin then 0 else 1 in
      ok ← ram_malloc (TCP_HLEN + len);
      if (ok : bool) then
        if is_fin then emit_seg (mkSeg (seg_seqno seg) (TCP_ACK ||| TCP_FIN) 0 0 [])
        else
          d ← deref OutOfBounds (seg_data seg !! O);
          emit_seg (mkSeg (seg_seqno seg) TCP_ACK 0 1 [[d]])
      else mret tt
  end.

(** ** Acknowledgements *)

Definition t_receive_dupack (ackno tcplen right_wnd_edge : Z) : M timed unit :=
  on_snd (on_window (with_acked 0));;
  s ← on_snd get;
  let w := window s in
  if (tcplen =? 0) && (u32 (snd_wl2 w + snd_wnd w) =? right_wnd_edge) && (0 <=? rtime s) && (lastack w =? ackno) then
    on_snd (on_window (fun w => if dupacks w <? u8 (dupacks w + 1) then with_dupacks (dupacks w + 1) w else w));;
    n ← on_snd (gets (fun s => dupacks (window s)));
    if 3 <? n then
      on_snd (on_window (fun w => let c := u16 (cwnd w + pcb_mss s) in if cwnd w <? c then with_cwnd c w else w))
    else if n =? 3 then t_rexmit_fast else mret tt
  else on_snd (on_window (with_dupacks 0)).

Definition t_receive_newack (ackno : Z) : M timed unit :=
  on_rtx (with_nrtx 0);;
  on_rtx (fun r => with_rto (s16 (estimate r)) r);;
  on_snd (receive_newack ackno).

(** Whether the segment updates the window. *)
Definition updates (seqno ackno wnd : Z) (w : send_window) : bool :=
  TCP_SEQ_LT (snd_wl1 w) seqno || ((snd_wl1 w =? seqno) && TCP_SEQ_LT (snd_wl2 w) ackno) ||
  ((snd_wl2 w =? ackno) && (snd_wnd w <? wnd)).

(** A closed window starts the persist timer, an open one stops it. *)
Definition persist_timer (wnd : Z) (r : rtx) : rtx :=
  if wnd =? 0 then (if persist_backoff r =? 0 then with_persist 0 1 r else r)
  else if 0 <? persist_backoff r then with_persist (persist_cnt r) 0 r else r.

(** The estimate, when [ackno] covers the segment that is measured. *)
Definition take_test (ackno : Z) (r : rtx) : rtx :=
  if truthy (rttest r) && TCP_SEQ_LT (rtseq r) ackno then
    let m := s16 (tcp_ticks r - rttest r) in
    let m := s16 (m - (sa r >>> 3)) in
    let sa' := s16 (sa r + m) in
    let m := if m <? 0 then s16 (- m) else m in
    let m := s16 (m - (sv r >>> 2)) in
    let sv' := s16 (sv r + m) in
    with_test 0 (rtseq r) (with_rto (s16 ((sa' >>> 3) + sv')) (with_est sa' sv' r))
  else r.

Definition t_receive_ack (seqno ackno wnd tcplen : Z) : M timed unit :=
  w ← on_snd (gets window);
  let right_wnd_edge := u32 (snd_wnd w + snd_wl2 w) in
  on_snd (on_window (update_window seqno ackno wnd));;
  on_rtx (if updates seqno ackno wnd w then persist_timer wnd else id);;
  w ← on_snd (gets window);
  (if TCP_SEQ_LEQ ackno (lastack w) then t_receive_dupack ackno tcplen right_wnd_edge
   else if TCP_SEQ_BETWEEN ackno (u32 (lastack w + 1)) (snd_nxt w) then t_receive_newack ackno
   else on_snd (on_window (with_acked 0)));;
  l ← on_snd (gets (fun s => unsent (queues s)));
  on_snd (free_unsent (S (length l)) ackno);;
  on_rtx (take_test ackno).

Definition t_input_ack (seqno ackno wnd tcplen : Z) (data : bool) : M timed Z :=
  on_snd (modify (with_input true));;
  t_receive_ack seqno ackno wnd tcplen;;
  on_snd (when data tcp_ack);;
  on_snd (modify (with_input false));;
  measured tcp_output.

(** ** The timer *)

(** The congestion window after a time-out. *)
Definition shrink_window (mss : Z) (w : send_window) : send_window :=
  let eff_wnd := Z.min (cwnd w) (snd_wnd w) in
  let ss := eff_wnd >>> 1 in
  let ss := if ss <? mss <<< 1 then u16 (mss <<< 1) else ss in
  mkSw (lastack w) (snd_nxt w) (snd_wnd w) (snd_wnd_max w) (snd_wl1 w) (snd_wl2 w) mss ss (dupacks w) (acked w).

(** The part for a connection that transfers data; [true]: the control
    block is removed. *)
Definition tcp_slowtmr_pcb : M timed bool :=
  on_rtx (fun r => with_ticks (u32 (tcp_ticks r + 1)) r);;
  r ← gets t_rtx;
  if nrtx r =? TCP_MAXRTX then mret true
  else if 0 <? persist_backoff r then
    on_rtx (fun r => with_persist (u8 (persist_cnt r + 1)) (persist_backoff r) r);;
    r ← gets t_rtx;
    b ← deref OutOfBounds (tcp_persist_backoff !! Z.to_nat (persist_backoff r - 1));
    if b <=? persist_cnt r then
      on_rtx (fun r => with_persist 0 (if persist_backoff r <? 7 then persist_backoff r + 1 else persist_backoff r) r);;
      on_snd tcp_zero_window_probe;;
      mret false
    else mret false
  else
    on_snd (modify (fun s => with_rtime (if 0 <=? rtime s then s16 (rtime s + 1) else rtime s) s));;
    s ← on_snd get;
    if negb (bool_decide (unacked (queues s) = [])) && (rto r <=? rtime s) then
      (if bool_decide (pcb_state s = SYN_SENT) then mret tt
       else
         b ← deref OutOfBounds (tcp_backoff !! Z.to_nat (nrtx r));
         on_rtx (fun r => with_rto (s16 (estimate r <<< b)) r));;
      on_snd (modify (with_rtime 0));;
      on_snd (on_window (shrink_window (pcb_mss s)));;
      t_rexmit_rto;;
      mret false
    else mret false.
End Timer.

(** ** The functions without the timer's variables *)

Section Projection.
Context `{SM : SendMem}.

(** [m] does to the connection what [m'] does. *)
Definition projects {A} (m : M timed A) (m' : M sender A) : Prop := forall t,
  match m t with
  | Ok (a, t') => m' (t_snd t) = Ok (a, t_snd t')
  | Hang => m' (t_snd t) = Hang
  | Fault e => m' (t_snd t) = Fault e
  end.

Lemma projects_snd {A} (m : M sender A) : projects (on_snd m) m.
Proof. intros t. unfold on_snd, zoom. cbn. now destruct (m (t_snd t)) as [[a s]| |]. Qed.

Lemma projects_bind {A B} (m : M timed A) (m' : M sender A) (f : A -> M timed B) (f' : A -> M sender B) :
  projects m m' -> (forall a, projects (f a) (f' a)) -> projects (m ≫= f) (m' ≫= f').
Proof.
  intros Hm Hf t. specialize (Hm t). unfold mbind, M_bind.
  destruct (m t) as [[a t']| |]; rewrite Hm; [apply Hf|done|done].
Qed.

Lemma projects_rtx {A} (f : rtx -> rtx) (m : M timed A) (m' : M sender A) :
  projects m m' -> projects (on_rtx f;; m) m'.
Proof. intros Hm t. exact (Hm (mkTimed (t_snd t) (f (t_rtx t)))). Qed.

Lemma projects_ret {A} (a : A) : projects (mret a) (mret a).
Proof. intros t. reflexivity. Qed.

(** Variables that change at the end. *)
Lemma projects_last {A} (m : M timed A) (m' : M sender A) (f : rtx -> rtx) :
  projects m m' -> projects (a ← m; on_rtx f;; mret a) m'.
Proof.
  intros Hm t. specialize (Hm t). unfold mbind, M_bind. destruct (m t) as [[a t']| |]; exact Hm.
Qed.

Lemma projects_end (m : M timed unit) (m' : M sender unit) (f : rtx -> rtx) :
  projects m m' -> projects (m;; on_rtx f) m'.
Proof.
  intros Hm t. specialize (Hm t). unfold mbind, M_bind. destruct (m t) as [[[] t']| |]; exact Hm.
Qed.

Lemma projects_ext {A} (m : M timed A) (m' m'' : M sender A) :
  projects m m' -> (forall s, m'' s = m' s) -> projects m m''.
Proof. intros Hm He t. specialize (Hm t). rewrite He. exact Hm. Qed.

Lemma measured_projects {A} (m : M sender A) : projects (measured m) m.
Proof.
  intros t. unfold measured. rewrite (bind_ok _ _ t (wire (t_snd t)) t) by now destruct t.
  pose proof (projects_snd m t) as H. unfold mbind at 1, M_bind at 1.
  destruct (on_snd m t) as [[a t']| |]; exact H.
Qed.

Lemma t_rexmit_rto_projects : projects t_rexmit_rto tcp_rexmit_rto.
Proof.
  unfold t_rexmit_rto, tcp_rexmit_rto. apply projects_bind; [apply projects_snd|intros q].
  destruct (bool_decide _); [apply projects_ret|]. apply projects_bind; [apply projects_snd|intros _].
  apply projects_rtx, projects_rtx, projects_bind; [apply measured_projects|intros _; apply projects_ret].
Qed.

Lemma t_rexmit_projects : projects t_rexmit tcp_rexmit.
Proof.
  intros t. unfold t_rexmit. rewrite (bind_ok _ _ t (queues (t_snd t)) t) by now destruct t.
  destruct (bool_decide_reflect (unacked (queues (t_snd t)) = [])) as [E|E].
  - cbn. unfold tcp_rexmit. erewrite bind_ok by reflexivity. now rewrite E.
  - revert t E. intros t _. refine (_ t). refine (projects_ext _ (tcp_rexmit;; mret tt) _ _ _).
    + apply projects_bind; [apply projects_snd|intros _]. apply projects_rtx.
      intros t'. reflexivity.
    + intros s. unfold mbind, M_bind. now destruct (tcp_rexmit s) as [[[] s']| |].
Qed.

Lemma t_rexmit_fast_projects : projects t_rexmit_fast tcp_rexmit_fast.
Proof.
  unfold t_rexmit_fast, tcp_rexmit_fast. apply projects_bind; [apply projects_snd|intros s].
  destruct (_ && _); [|apply projects_ret].
  apply projects_bind; [apply t_rexmit_projects|intros _]. apply projects_bind; intros; apply projects_snd.
Qed.

Lemma t_receive_dupack_projects ackno tcplen edge :
  projects (t_receive_dupack ackno tcplen edge) (receive_dupack ackno tcplen edge).
Proof.
  unfold t_receive_dupack, receive_dupack. apply projects_bind; [apply projects_snd|intros _].
  apply projects_bind; [apply projects_snd|intros s]. cbn zeta. destruct (_ && _); [|apply projects_snd].
  apply projects_bind; [apply projects_snd|intros _]. apply projects_bind; [apply projects_snd|intros n].
  destruct (3 <? n); [apply projects_snd|]. unfold when. destruct (n =? 3); [apply t_rexmit_fast_projects|apply projects_ret].
Qed.

Lemma t_receive_ack_projects seqno ackno wnd tcplen :
  projects (t_receive_ack seqno ackno wnd tcplen) (receive_ack seqno ackno wnd tcplen).
Proof.
  unfold t_receive_ack, receive_ack. apply projects_bind; [apply projects_snd|intros w]. cbn zeta.
  apply projects_bind; [apply projects_snd|intros _]. apply projects_rtx.
  apply projects_bind; [apply projects_snd|intros w']. apply projects_bind.
  { destruct (TCP_SEQ_LEQ _ _); [apply t_receive_dupack_projects|].
    destruct (TCP_SEQ_BETWEEN _ _ _); [|apply projects_snd]. apply projects_rtx, projects_rtx, projects_snd. }
  intros _. apply projects_bind; [apply projects_snd|intros l]. apply projects_end, projects_snd.
Qed.

Lemma t_input_ack_projects seqno ackno wnd tcplen data :
  projects (t_input_ack seqno ackno wnd tcplen data) (input_ack seqno ackno wnd tcplen data).
Proof.
  unfold t_input_ack, input_ack. apply projects_bind; [apply projects_snd|intros _].
  apply projects_bind; [apply t_receive_ack_projects|intros _].
  apply projects_bind; [apply projects_snd|intros _]. apply projects_bind; [apply projects_snd|intros _].
  apply measured_projects.
Qed.

(** A run of the part is a run of the whole. *)
Lemma projects_ok {A} (m : M timed A) (m' : M sender A) t a s' :
  projects m m' -> m' (t_snd t) = Ok (a, s') -> exists r', m t = Ok (a, mkTimed s' r').
Proof.
  intros Hm E. specialize (Hm t). destruct (m t) as [[a1 t1]| |]; rewrite E in Hm; [|done|done].
  injection Hm as <- ->. exists (t_rtx t1). now destruct t1.
Qed.
End Projection.

(** ** The variables stay in range *)

(** The longest round trip that is allowed to be measured, in half seconds. *)
Definition longest_rtt : Z := 50.

Record in_range (most : Z) (r : rtx) : Prop := {
    ir_sa : 0 <= sa r <= 8 * longest_rtt;
    ir_sv : 3 <= sv r <= 4 * longest_rtt + 3;
    ir_rto : 0 < rto r < 2 ^ 15;
    ir_nrtx : 0 <= nrtx r <= most;
    ir_cnt : 0 <= persist_cnt r < 120;
    ir_persist : 0 <= persist_backoff r <= 7;
    ir_test : 0 <= rttest r < 2 ^ 32;
    ir_ticks : 0 <= tcp_ticks r < 2 ^ 32;
  }.

(** What an acknowledgement measures is not longer. *)
Definition prompt (ackno : Z) (r : rtx) : Prop :=
  truthy (rttest r) && TCP_SEQ_LT (rtseq r) ackno = true -> u32 (tcp_ticks r - rttest r) <= longest_rtt.

Lemma half_small z : - 2 ^ 15 <= z < 2 ^ 15 -> s16 z = z.
Proof. intros H. unfold s16. rewrite wrap_small; lia. Qed.

Lemma half_u32 z : 0 <= u32 z < 2 ^ 15 -> s16 z = u32 z.
Proof.
  intros H. unfold s16, wrap in *. rewrite (Z.div_mod z (2 ^ 32)) at 1 by lia.
  replace (2 ^ 32 * (z / 2 ^ 32) + z mod 2 ^ 32 + 2 ^ 15) with (z mod 2 ^ 32 + 2 ^ 15 + z / 2 ^ 32 * 2 ^ 16 * 2 ^ 16) by lia.
  rewrite Z.mod_add by lia. rewrite Z.mod_small; lia.
Qed.

Lemma shiftr3 x : x >>> 3 = x / 8.
Proof. now rewrite Z.shiftr_div_pow2. Qed.
Lemma shiftr2 x : x >>> 2 = x / 4.
Proof. now rewrite Z.shiftr_div_pow2. Qed.

Lemma estimate_range n r : in_range n r -> 3 <= estimate r <= 253.
Proof.
  intros [H1 H2 _ _ _ _ _ _]. unfold estimate, longest_rtt in *. rewrite shiftr3.
  pose proof (Z.div_pos (sa r) 8). pose proof (Z.div_le_mono (sa r) 400 8). change (400 / 8) with 50 in *. lia.
Qed.

Lemma take_test_range n ackno r : in_range n r -> prompt ackno r -> in_range n (take_test ackno r).
Proof.
  intros Hr Hp. unfold take_test. unfold prompt in Hp. destruct (truthy (rttest r) && _); [|exact Hr].
  specialize (Hp eq_refl). destruct Hr as [H1 H2 H3 H4 H5 H6 H7 H8]. unfold longest_rtt in *.
  pose proof (wrap_range 32 (tcp_ticks r - rttest r) ltac:(lia)) as Hm.
  rewrite (half_u32 (tcp_ticks r - rttest r)) by lia. set (m := u32 (tcp_ticks r - rttest r)) in *. clearbody m.
  rewrite !shiftr3, !shiftr2. pose proof (Z.div_mod (sa r) 8 ltac:(lia)). pose proof (Z.mod_pos_bound (sa r) 8 ltac:(lia)).
  pose proof (Z.div_mod (sv r) 4 ltac:(lia)). pose proof (Z.mod_pos_bound (sv r) 4 ltac:(lia)).
  set (qa := sa r / 8) in *. set (qv := sv r / 4) in *. clearbody qa qv.
  rewrite !(half_small (m - qa)) by lia. rewrite (half_small (sa r + (m - qa))) by lia.
  assert (exists e, (if m - qa <? 0 then s16 (- (m - qa)) else m - qa) = e /\ 0 <= e <= 50) as (e & -> & He).
  { eexists. split; [reflexivity|]. destruct (Z.ltb_spec (m - qa) 0); [rewrite half_small by lia; lia|lia]. }
  rewrite (half_small (e - qv)) by lia. rewrite (half_small (sv r + (e - qv))) by lia. set (a := sa r + (m - qa)).
  assert (0 <= a <= 400) as Ha by (unfold a; lia). pose proof (Z.div_pos a 8). pose proof (Z.div_le_mono a 400 8).
  change (400 / 8) with 50 in *. rewrite half_small by lia.
  split; cbn; unfold longest_rtt; try lia.
Qed.

Lemma start_test_range n r g : in_range n r -> in_range n (start_test r g).
Proof. intros []. unfold start_test. destruct (_ && _); [|now split]. now split. Qed.

Lemma start_tests_range n l r : in_range n r -> in_range n (foldl start_test r l).
Proof. revert r. induction l as [|g l IH]; intros r H; [exact H|]. apply IH. now apply start_test_range. Qed.

Lemma range_weaken n n' r : in_range n r -> n <= n' -> in_range n' r.
Proof. intros [] Hle. split; try assumption. lia. Qed.

(** *** What keeps a property of the variables *)

Section Keep.
Context `{SM : SendMem}.

Definition on_vars (P : rtx -> Prop) (t : timed) : Prop := P (t_rtx t).

Lemma vars_snd {A} P (m : M sender A) : keeps (on_vars P) (on_snd m).
Proof. intros t a t' H E. apply zoom_inv in E as (s & _ & ->). exact H. Qed.

Lemma vars_rtx (P : rtx -> Prop) f : (forall r, P r -> P (f r)) -> keeps (on_vars P) (on_rtx f).
Proof. intros Hf. apply keeps_modify. intros t. apply Hf. Qed.

Lemma vars_measured {A} (P : rtx -> Prop) (m : M sender A) :
  (forall l r, P r -> P (foldl start_test r l)) -> keeps (on_vars P) (measured m).
Proof.
  intros Hf. unfold measured. repeat (apply keeps_bind; [apply vars_snd|intros ?]).
  apply keeps_bind; [apply vars_rtx; intros r; apply Hf|intros ?; apply keeps_ret].
Qed.

(** What a segment with an acknowledgement finds. *)
Definition about_ack (most ackno : Z) (r : rtx) : Prop := in_range most r /\ prompt ackno r.

Lemma about_nrtx n ackno v r : 0 <= v <= n -> forall m, about_ack m ackno r -> about_ack n ackno (with_nrtx v r).
Proof. intros Hv m [[] Hp]. now split. Qed.

Lemma about_rto n ackno v r : 0 < v < 2 ^ 15 -> about_ack n ackno r -> about_ack n ackno (with_rto v r).
Proof. intros Hv [[] Hp]. now split. Qed.

Lemma about_no_test n ackno s r : about_ack n ackno r -> about_ack n ackno (with_test 0 s r).
Proof. intros [[] Hp]. split; [split; cbn; try assumption; lia|]. unfold prompt. cbn. discriminate. Qed.

(** The first copy of a segment that is sent again counts. *)
Lemma t_rexmit_counts n ackno t a t' :
  on_vars (about_ack n ackno) t -> 0 <= n < 255 -> t_rexmit t = Ok (a, t') -> on_vars (about_ack (n + 1) ackno) t'.
Proof.
  intros H Hn E. unfold t_rexmit in E. apply bind_inv in E as (q & t1 & E1 & E).
  pose proof (vars_snd _ _ _ _ _ H E1) as H1. clear H. destruct (bool_decide _).
  { injection E as <- <-. destruct H1 as [H Hp]. split; [|exact Hp]. eapply range_weaken; [exact H|lia]. }
  apply bind_inv in E as (u & t2 & E2 & E). pose proof (vars_snd _ _ _ _ _ H1 E2) as H2.
  injection E as <- <-. cbn. apply about_no_test. destruct H2 as [H2 Hp]. pose proof (ir_nrtx _ _ H2).
  apply (about_nrtx (n + 1) ackno _ _) with (m := n); [|now split]. rewrite wrap_small; lia.
Qed.

Lemma t_rexmit_fast_counts n ackno t a t' :
  on_vars (about_ack n ackno) t -> 0 <= n < 255 -> t_rexmit_fast t = Ok (a, t') -> on_vars (about_ack (n + 1) ackno) t'.
Proof.
  intros H Hn E. unfold t_rexmit_fast in E. apply bind_inv in E as (s & t1 & E1 & E).
  pose proof (vars_snd _ _ _ _ _ H E1) as H1. destruct (_ && _).
  - apply bind_inv in E as ([] & t2 & E2 & E). pose proof (t_rexmit_counts _ _ _ _ _ H1 Hn E2) as H2.
    apply bind_inv in E as ([] & t3 & E3 & E). eapply vars_snd, E. eapply vars_snd, E3. exact H2.
  - injection E as <- <-. destruct H1 as [H1 Hp]. split; [|exact Hp]. eapply range_weaken; [exact H1|lia].
Qed.
End Keep.

(** ** Runs with the timer *)

Section Runs.
Context `{SM : SendMem}.

Inductive tevent :=
  | TWrite (d : list Z) (apiflags : Z)
  | TOutput
  | TFast
  | TSlow
  | TAck (seqno ackno wnd tcplen : Z) (data : bool).

(** The bytes accepted so far, and whether the control block was removed. *)
Definition t_happens (e : tevent) (hist : list Z) : M timed (list Z * bool) :=
  match e with
  | TWrite d f => err ← on_snd (tcp_write d f); mret (if err =? ERR_OK then hist ++ d else hist, false)
  | TOutput => measured tcp_output;; mret (hist, false)
  | TFast => measured fasttmr_ack;; mret (hist, false)
  | TSlow => b ← tcp_slowtmr_pcb; mret (hist, b)
  | TAck seqno ackno wnd tcplen data => t_input_ack seqno ackno wnd tcplen data;; mret (hist, false)
  end.

Fixpoint t_run (es : list tevent) (hist : list Z) : M timed (list Z * bool) :=
  match es with
  | [] => mret (hist, false)
  | e :: es => r ← t_happens e hist; if (r.2 : bool) then mret r else t_run es r.1
  end.

(** The peer's acknowledgements come within [longest_rtt] of what they
    measure. *)
Definition t_comes (e : tevent) (t : timed) : Prop :=
  match e with
  | TWrite d _ => d <> []
  | TAck seqno ackno wnd _ _ => may_come seqno ackno wnd (t_snd t) /\ prompt ackno (t_rtx t)
  | _ => True
  end.

(** An acknowledgement that is the third duplicate. *)
Definition third_duplicate (ackno tcplen : Z) (w : send_window) : Prop :=
  dupacks w = 2 /\ lastack w = ackno /\ tcplen = 0.

(** It comes when the timer has sent the segment as often as it will; the
    code then sends it once more, at once. *)
Definition thirteenth (e : tevent) (t : timed) : Prop :=
  match e with
  | TAck _ ackno _ tcplen _ => nrtx (t_rtx t) = TCP_MAXRTX /\ third_duplicate ackno tcplen (window (t_snd t))
  | _ => False
  end.

Definition t_allowed (e : tevent) (t : timed) : Prop := t_comes e t /\ ~ thirteenth e t.

(** [P] holds of every event of a run and of the state it meets. *)
Fixpoint t_always (P : tevent -> timed -> Prop) (es : list tevent) (hist : list Z) (t : timed) : Prop :=
  match es with
  | [] => True
  | e :: es => P e t /\
      match t_happens e hist t with Ok ((hist, false), t) => t_always P es hist t | _ => True end
  end.

Lemma t_always_and P Q es hist t :
  t_always P es hist t -> t_always Q es hist t -> t_always (fun e t => P e t /\ Q e t) es hist t.
Proof.
  revert hist t. induction es as [|e es IH]; intros hist t; [done|]. cbn [t_always]. intros [HP Hs] [HQ Hs'].
  split; [done|]. destruct (t_happens e hist t) as [[[h []] t']| |]; auto.
Qed.

(** *** The timer *)

Lemma flowing_rtime isn hist k a n v s : flowing isn hist k a n s -> flowing isn hist k a n (with_rtime v s).
Proof. intros []. now split. Qed.

Lemma probe_flows isn hist k a n s :
  flowing isn hist k a n s -> exists s', tcp_zero_window_probe s = Ok (tt, s') /\ flowing isn hist k a n s' /\
    match in_flight s with
    | g :: _ => ram_found (allocs s) (TCP_HLEN + 1) = true -> exists d, seg_data g !! O = Some d /\
        wire s' = wire s ++ [mkSeg (seg_seqno g) TCP_ACK 0 1 [[d]]]
    | [] => True
    end.
Proof.
  intros Hf. unfold tcp_zero_window_probe. rewrite (bind_ok _ _ _ _ _ eq_refl).
  destruct (in_flight s) as [|g rest] eqn:Hfl; [now exists s|].
  pose proof (fl_numbered _ _ _ _ _ _ Hf) as Hn. rewrite Hfl in Hn. destruct Hn as (Hs & Hp & _).
  pose proof (pl_range _ _ Hp) as Hl. pose proof (pl_len _ _ Hp) as Hlen.
  replace (seg_len g =? 0) with false by lia. rewrite andb_false_r.
  destruct (seg_data g) as [|d ds] eqn:Hd; [cbn in Hlen; lia|].
  pose proof (flowing_mem _ _ _ _ _ _ (S (allocs s)) (seg_free s) (pcb_flags s) Hf (fl_free _ _ _ _ _ _ Hf)) as H1.
  unfold ram_malloc, counted. rewrite (bind_ok _ _ _ _ _ eq_refl). cbn iota.
  change (TCP_HLEN + 1) with 21. destruct (ram_found (allocs s) 21).
  - rewrite (bind_ok _ _ _ d _ eq_refl). eexists. split; [reflexivity|]. split; [|intros _; now exists d].
    destruct H1 as [F1 F2 F3 F4 F5 F6 F7 F8 F9 F10 F11 F12 F13 F14 F15 F16]. split; try done.
    cbn. apply Forall_app. split; [exact F13|]. apply Forall_singleton. exists (Z.to_nat k). cbn.
    rewrite Z2Nat.id by (pose proof (fl_range _ _ _ _ _ _ Hf); lia). split; [exact Hs|].
    pose proof (fl_data _ _ _ _ _ _ Hf) as Hdata. rewrite Hfl in Hdata. rewrite <- Hdata. unfold stream_of. cbn [map concat].
    rewrite Hd. cbn. apply prefix_cons, prefix_nil.
  - eexists. split; [reflexivity|]. split; [exact H1|discriminate].
Qed.

Lemma shrink_flows isn hist k a n s :
  flowing isn hist k a n s -> flowing isn hist k a n (with_window (shrink_window (pcb_mss s) (window s)) s).
Proof.
  intros Hf. pose proof (fl_windows _ _ _ _ _ _ Hf) as (W1 & W2 & W3). pose proof (fl_mss _ _ _ _ _ _ Hf) as (Hm & _).
  assert (TCP_MSS < 2 ^ 15) as Hc by now compute.
  apply flowing_window; try done; cbn; [lia|].
  rewrite Z.shiftl_mul_pow2, Z.shiftr_div_pow2 by lia. change (2 ^ 1) with 2.
  destruct (_ <? _); [apply wrap_range; lia|].
  assert (0 <= Z.min (cwnd (window s)) (snd_wnd (window s)) < 2 ^ 16) by lia.
  split; [apply Z.div_pos; lia|apply Z.div_lt_upper_bound; lia].
Qed.

Lemma backoff_found n : 0 <= n < TCP_MAXRTX -> exists b, tcp_backoff !! Z.to_nat n = Some b /\ 1 <= b <= 7.
Proof.
  intros H. unfold TCP_MAXRTX in H.
  assert (Forall (fun b => 1 <= b <= 7) tcp_backoff) as Hb by (unfold tcp_backoff; repeat constructor; lia).
  destruct (lookup_lt_is_Some_2 tcp_backoff (Z.to_nat n)) as [b E]; [cbn; lia|].
  exists b. split; [exact E|]. exact (Forall_lookup_1 _ _ _ _ Hb E).
Qed.

Lemma persist_found n : 0 < n <= 7 -> exists b, tcp_persist_backoff !! Z.to_nat (n - 1) = Some b /\ 3 <= b <= 120.
Proof.
  intros H.
  assert (Forall (fun b => 3 <= b <= 120) tcp_persist_backoff) as Hb by (unfold tcp_persist_backoff; repeat constructor; lia).
  destruct (lookup_lt_is_Some_2 tcp_persist_backoff (Z.to_nat (n - 1))) as [b E]; [cbn; lia|].
  exists b. split; [exact E|]. exact (Forall_lookup_1 _ _ _ _ Hb E).
Qed.

(** The time-out doubles without leaving its type. *)
Lemma backed_off e b : 3 <= e <= 253 -> 1 <= b <= 7 -> s16 (e <<< b) = e * 2 ^ b /\ 0 < e * 2 ^ b < 2 ^ 15.
Proof.
  intros He Hb. rewrite Z.shiftl_mul_pow2 by lia.
  assert (2 ^ 1 <= 2 ^ b <= 2 ^ 7) as Hp by (split; apply Z.pow_le_mono_r; lia).
  assert (0 < e * 2 ^ b < 2 ^ 15) by nia. split; [apply half_small; lia|lia].
Qed.

Lemma range_no_test n s r : in_range n r -> in_range n (with_test 0 s r).
Proof. intros []. split; cbn; try assumption. lia. Qed.

Lemma range_nrtx n v r m : 0 <= v <= n -> in_range m r -> in_range n (with_nrtx v r).
Proof. intros Hv []. now split. Qed.

Lemma t_rexmit_rto_counts n t a t' :
  in_range n (t_rtx t) -> 0 <= n < 255 -> t_rexmit_rto t = Ok (a, t') -> in_range (n + 1) (t_rtx t').
Proof.
  intros H Hn E. unfold t_rexmit_rto in E. apply bind_inv in E as (q & t1 & E1 & E).
  pose proof (vars_snd (in_range n) _ _ _ _ H E1) as H1. clear H. destruct (bool_decide _).
  { injection E as <- <-. eapply range_weaken; [exact H1|lia]. }
  apply bind_inv in E as (u & t2 & E2 & E). pose proof (vars_snd (in_range n) _ _ _ _ H1 E2) as H2.
  rewrite (bind_ok _ _ _ _ _ eq_refl), (bind_ok _ _ _ _ _ eq_refl) in E. apply bind_inv in E as (e & t3 & E3 & E).
  injection E as <- <-. refine (vars_measured (in_range (n + 1)) tcp_output _ _ _ _ _ E3).
  - intros l r. apply start_tests_range.
  - cbn. apply range_no_test. pose proof (ir_nrtx _ _ H2). apply (range_nrtx _ _ _ n); [|exact H2]. rewrite wrap_small; lia.
Qed.

(** The timer's turn when it only counts. *)
Definition ticked (t : timed) : rtx := with_ticks (u32 (tcp_ticks (t_rtx t) + 1)) (t_rtx t).

Lemma ticked_range n t : in_range n (t_rtx t) -> in_range n (ticked t).
Proof. intros []. split; cbn; try assumption. apply wrap_range. lia. Qed.

Lemma slow_removes t : nrtx (t_rtx t) = TCP_MAXRTX -> tcp_slowtmr_pcb t = Ok (true, mkTimed (t_snd t) (ticked t)).
Proof. intros H. unfold tcp_slowtmr_pcb. do 2 rewrite (bind_ok _ _ _ _ _ eq_refl). cbn. now rewrite H. Qed.

(** With the retransmission timer in charge: it counts, or it fires. *)
Definition fires (t : timed) : bool :=
  negb (bool_decide (unacked (queues (t_snd t)) = [])) &&
  (rto (t_rtx t) <=? (if 0 <=? rtime (t_snd t) then s16 (rtime (t_snd t) + 1) else rtime (t_snd t))).

Lemma slow_counts t :
  nrtx (t_rtx t) <> TCP_MAXRTX -> persist_backoff (t_rtx t) = 0 -> fires t = false ->
  tcp_slowtmr_pcb t =
  Ok (false, mkTimed (with_rtime (if 0 <=? rtime (t_snd t) then s16 (rtime (t_snd t) + 1) else rtime (t_snd t)) (t_snd t)) (ticked t)).
Proof.
  intros Hn Hp Hf. unfold tcp_slowtmr_pcb. do 2 rewrite (bind_ok _ _ _ _ _ eq_refl). cbn [t_rtx nrtx with_ticks].
  destruct (Z.eqb_spec (nrtx (t_rtx t)) TCP_MAXRTX); [done|]. cbn [persist_backoff with_ticks]. rewrite Hp. cbn [Z.ltb Z.compare].
  do 2 (erewrite bind_ok by reflexivity). unfold fires in Hf. cbn in Hf |- *. rewrite Hf. reflexivity.
Qed.

Lemma slow_fires t :
  in_range TCP_MAXRTX (t_rtx t) -> nrtx (t_rtx t) <> TCP_MAXRTX -> persist_backoff (t_rtx t) = 0 ->
  fires t = true -> exists v, 0 < v < 2 ^ 15 /\
  (pcb_state (t_snd t) <> SYN_SENT -> exists b, tcp_backoff !! Z.to_nat (nrtx (t_rtx t)) = Some b /\ v = estimate (t_rtx t) * 2 ^ b) /\
  tcp_slowtmr_pcb t =
  (t_rexmit_rto;; mret false)
    (mkTimed (with_window (shrink_window (pcb_mss (t_snd t)) (window (t_snd t))) (with_rtime 0 (t_snd t)))
       (with_rto v (ticked t))).
Proof.
  intros Hr Hn Hp Hf. pose proof (ir_nrtx _ _ Hr). destruct (backoff_found (nrtx (t_rtx t)) ltac:(lia)) as (b & Eb & Hb).
  destruct (backed_off (estimate (t_rtx t)) b (estimate_range _ _ Hr) Hb) as [E Hv].
  exists (if bool_decide (pcb_state (t_snd t) = SYN_SENT) then rto (t_rtx t) else estimate (t_rtx t) * 2 ^ b).
  split; [destruct (bool_decide _); [exact (ir_rto _ _ Hr)|exact Hv]|].
  split; [intros Hs; exists b; now rewrite bool_decide_eq_false_2 by exact Hs|].
  unfold tcp_slowtmr_pcb. do 2 rewrite (bind_ok _ _ _ _ _ eq_refl). cbn [t_rtx nrtx with_ticks].
  destruct (Z.eqb_spec (nrtx (t_rtx t)) TCP_MAXRTX); [done|]. cbn [persist_backoff with_ticks]. rewrite Hp. cbn [Z.ltb Z.compare].
  do 2 (erewrite bind_ok by reflexivity). unfold fires in Hf. cbn in Hf |- *. rewrite Hf.
  destruct (bool_decide (pcb_state (t_snd t) = SYN_SENT)).
  - do 3 (erewrite bind_ok by reflexivity). cbn. reflexivity.
  - erewrite bind_ok.
    2:{ rewrite Eb. reflexivity. }
    do 2 (erewrite bind_ok by reflexivity). cbn.
    change (estimate (with_ticks _ _)) with (estimate (t_rtx t)). rewrite E. reflexivity.
Qed.

(** A turn of the timer. *)
Lemma slow_flows isn hist k a n t :
  flowing isn hist k a n (t_snd t) -> in_range TCP_MAXRTX (t_rtx t) -> exists b n' t',
    tcp_slowtmr_pcb t = Ok (b, t') /\ flowing isn hist k a n' (t_snd t') /\ in_range TCP_MAXRTX (t_rtx t').
Proof.
  intros Hf Hr. destruct (decide (nrtx (t_rtx t) = TCP_MAXRTX)) as [Hn|Hn].
  { rewrite (slow_removes t Hn). eexists true, n, _. split; [reflexivity|]. split; [exact Hf|now apply ticked_range]. }
  pose proof (ir_persist _ _ Hr) as Hp. destruct (decide (persist_backoff (t_rtx t) = 0)) as [Hp0|Hp0].
  - destruct (fires t) eqn:Ef.
    + destruct (slow_fires t Hr Hn Hp0 Ef) as (v & Hv & _ & E). rewrite E.
      set (t1 := mkTimed _ _). assert (flowing isn hist k a n (t_snd t1)) as H1.
      { apply (shrink_flows _ _ _ _ _ (with_rtime 0 (t_snd t))). now apply flowing_rtime. }
      destruct (rto_flows _ _ _ _ _ _ H1) as (n' & s' & E' & H').
      destruct (projects_ok _ _ t1 _ _ t_rexmit_rto_projects E') as (r' & E2).
      rewrite (bind_ok _ _ _ _ _ E2). eexists false, n', _. split; [reflexivity|]. split; [exact H'|].
      pose proof (ir_nrtx _ _ Hr) as Hx.
      assert (in_range (nrtx (t_rtx t)) (t_rtx t1)) as Hr1.
      { pose proof (ticked_range _ _ Hr) as []. split; cbn; try assumption; cbn in *; lia. }
      eapply range_weaken; [exact (t_rexmit_rto_counts _ _ _ _ Hr1 ltac:(unfold TCP_MAXRTX in *; lia) E2)|lia].
    + rewrite (slow_counts t Hn Hp0 Ef). eexists false, n, _. split; [reflexivity|].
      split; [now apply flowing_rtime|now apply ticked_range].
  - destruct (persist_found (persist_backoff (t_rtx t)) ltac:(lia)) as (b & Eb & Hb).
    pose proof (ir_cnt _ _ Hr) as Hc. pose proof (ticked_range _ _ Hr) as Ht.
    unfold tcp_slowtmr_pcb. do 2 rewrite (bind_ok _ _ _ _ _ eq_refl). cbn [t_rtx nrtx with_ticks].
    destruct (Z.eqb_spec (nrtx (t_rtx t)) TCP_MAXRTX); [done|]. cbn [persist_backoff with_ticks].
    destruct (Z.ltb_spec 0 (persist_backoff (t_rtx t))); [|lia].
    do 2 (erewrite bind_ok by reflexivity). cbn [t_rtx persist_backoff with_ticks with_persist persist_cnt].
    erewrite bind_ok by (rewrite Eb; reflexivity). rewrite (wrap_small 8) by lia.
    destruct (Z.leb_spec b (persist_cnt (t_rtx t) + 1)).
    + erewrite bind_ok by reflexivity. destruct (probe_flows _ _ _ _ _ _ Hf) as (s' & E & H' & _).
      erewrite bind_ok by (unfold on_snd, zoom; cbn; rewrite E; reflexivity).
      eexists false, n, _. split; [reflexivity|]. split; [exact H'|].
      destruct Ht. split; cbn in *; try assumption; [lia|]. destruct (Z.ltb_spec (persist_backoff (t_rtx t)) 7); lia.
    + eexists false, n, _. split; [reflexivity|]. split; [exact Hf|].
      destruct Ht. split; cbn in *; try assumption; lia.
Qed.

(** *** An acknowledgement *)

Lemma about_weaken n m ackno r : about_ack n ackno r -> n <= m -> about_ack m ackno r.
Proof. intros [H Hp] Hle. split; [now apply (range_weaken n)|exact Hp]. Qed.

Lemma duplicate_update seqno ackno wnd a l w :
  third_duplicate a l (update_window seqno ackno wnd w) <-> third_duplicate a l w.
Proof. unfold third_duplicate, update_window. now destruct (_ || _). Qed.

Lemma dupack_range n m ackno tcplen edge t a t' :
  about_ack n ackno (t_rtx t) -> 0 <= n <= m -> m < 255 -> (third_duplicate ackno tcplen (window (t_snd t)) -> n < m) ->
  t_receive_dupack ackno tcplen edge t = Ok (a, t') -> about_ack m ackno (t_rtx t').
Proof.
  intros H Hn Hm Hd E. pose proof (about_weaken _ _ _ _ H (proj2 Hn)) as Hw. unfold t_receive_dupack in E.
  do 2 rewrite (bind_ok _ _ _ _ _ eq_refl) in E. cbn zeta in E. destruct (_ && _) eqn:Edup in E.
  2:{ refine (vars_snd (about_ack m ackno) _ _ _ _ _ E). exact Hw. }
  do 2 rewrite (bind_ok _ _ _ _ _ eq_refl) in E. cbn [t_snd over timed_snd] in E.
  destruct (3 <? _) in E; [refine (vars_snd (about_ack m ackno) _ _ _ _ _ E); exact Hw|].
  match type of E with context [?x =? 3] => destruct (Z.eqb_spec x 3) as [E3|]; [|injection E as <- <-; exact Hw] end.
  apply (about_weaken (n + 1)).
  - refine (t_rexmit_fast_counts n ackno _ _ _ _ ltac:(lia) E). exact H.
  - assert (n < m); [|lia]. apply Hd. apply andb_true_iff in Edup as [[[Et _]%andb_true_iff _]%andb_true_iff El'].
    apply Z.eqb_eq in Et, El'. split; [|now split]. cbn in E3. destruct (_ <? _) eqn:El in E3; [cbn in E3; lia|].
    cbn in E3, El. rewrite E3 in El. discriminate El.
Qed.

Lemma t_receive_ack_range n m seqno ackno wnd tcplen t a t' :
  about_ack n ackno (t_rtx t) -> 0 <= n <= m -> m < 255 -> (third_duplicate ackno tcplen (window (t_snd t)) -> n < m) ->
  t_receive_ack seqno ackno wnd tcplen t = Ok (a, t') -> in_range m (t_rtx t').
Proof.
  intros H Hn Hm Hd E. unfold t_receive_ack in E. rewrite (bind_ok _ _ _ _ _ eq_refl) in E. cbn zeta in E.
  do 3 rewrite (bind_ok _ _ _ _ _ eq_refl) in E. cbn [t_snd over view timed_snd t_rtx] in E.
  apply bind_inv in E as ([] & t1 & E1 & E). assert (about_ack m ackno (t_rtx t1)) as H1.
  - match type of E1 with (_ ?tt0 = _) => set (t0 := tt0) in E1 end.
    assert (about_ack n ackno (t_rtx t0)) as H0.
    { destruct H as [[] Hp]. cbn. destruct (updates _ _ _ _); [|now split]. unfold persist_timer.
      destruct (wnd =? 0); [destruct (_ =? 0)|destruct (0 <? _)]; (split; [split|]; cbn; (assumption || lia)). }
    destruct (TCP_SEQ_LEQ _ _) in E1.
    + apply (dupack_range n m ackno tcplen (u32 (snd_wnd (window (t_snd t)) + snd_wl2 (window (t_snd t)))) t0 () t1); try assumption.
      cbn. now rewrite duplicate_update.
    + pose proof (about_weaken _ _ _ _ H0 (proj2 Hn)) as Hw. destruct (TCP_SEQ_BETWEEN _ _ _) in E1.
      * unfold t_receive_newack in E1. do 2 rewrite (bind_ok _ _ _ _ _ eq_refl) in E1.
        refine (vars_snd (about_ack m ackno) _ _ _ _ _ E1). cbn. pose proof (estimate_range _ _ (proj1 Hw)).
        change (estimate (with_nrtx 0 _)) with (estimate (t_rtx t0)).
        apply about_rto; [rewrite half_small; lia|]. now apply (about_nrtx m ackno 0 _ ltac:(lia) m).
      * refine (vars_snd (about_ack m ackno) _ _ _ _ _ E1). exact Hw.
  - rewrite (bind_ok _ _ _ _ _ eq_refl) in E. apply bind_inv in E as ([] & t2 & E2 & E).
    assert (about_ack m ackno (t_rtx t2)) as H2 by (refine (vars_snd (about_ack m ackno) _ _ _ _ _ E2); exact H1).
    injection E as <- <-. cbn. apply take_test_range; [apply H2|apply H2].
Qed.

Lemma t_input_ack_range n m seqno ackno wnd tcplen data t a t' :
  about_ack n ackno (t_rtx t) -> 0 <= n <= m -> m < 255 -> (third_duplicate ackno tcplen (window (t_snd t)) -> n < m) ->
  t_input_ack seqno ackno wnd tcplen data t = Ok (a, t') -> in_range m (t_rtx t').
Proof.
  intros H Hn Hm Hd E. unfold t_input_ack in E. rewrite (bind_ok _ _ _ _ _ eq_refl) in E.
  apply bind_inv in E as ([] & t1 & E1 & E). assert (in_range m (t_rtx t1)) as H1
    by (refine (t_receive_ack_range n m _ _ _ _ _ _ _ _ Hn Hm _ E1); assumption).
  apply bind_inv in E as ([] & t2 & E2 & E). pose proof (vars_snd (in_range m) _ _ _ _ H1 E2) as H2.
  apply bind_inv in E as ([] & t3 & E3 & E). pose proof (vars_snd (in_range m) _ _ _ _ H2 E3) as H3.
  refine (vars_measured (in_range m) _ _ _ _ _ H3 E). intros l r. apply start_tests_range.
Qed.

(** *** Every event, and every run *)

Lemma t_happens_flows isn hist k a n e t :
  flowing isn hist k a n (t_snd t) -> in_range TCP_MAXRTX (t_rtx t) -> t_allowed e t ->
  exists hist' b k' a' n' t', t_happens e hist t = Ok ((hist', b), t') /\
    flowing isn hist' k' a' n' (t_snd t') /\ in_range TCP_MAXRTX (t_rtx t').
Proof.
  intros Hf Hr Ha.
  assert (forall A (m : M sender A) x t', measured m t = Ok (x, t') -> in_range TCP_MAXRTX (t_rtx t')) as Hme.
  { intros A m x t' E. refine (vars_measured (in_range _) _ _ _ _ _ Hr E). intros l r. apply start_tests_range. }
  destruct e as [d f| | | |seqno ackno wnd tcplen data]; cbn [t_happens] in *; destruct Ha as [Ha Hno]; cbn [t_comes thirteenth] in Ha, Hno.
  - destruct (write_flows isn hist k a n d f _ Hf Ha) as (err & s' & E & H).
    rewrite (bind_ok _ _ _ err (mkTimed s' (t_rtx t))) by (unfold on_snd, zoom; cbn; now rewrite E).
    destruct H as [[-> H]|([-> | ->] & H & _)]; (eexists _, _, k, a, n, _; split; [reflexivity|]; split; [exact H|exact Hr]).
  - destruct (output_flows _ _ _ _ _ _ Hf) as (err & n' & s' & E & H).
    destruct (projects_ok _ _ t _ _ (measured_projects _) E) as (r' & E2). rewrite (bind_ok _ _ _ _ _ E2).
    eexists _, _, k, a, n', _. split; [reflexivity|]. split; [exact H|exact (Hme _ _ _ _ E2)].
  - destruct (fasttmr_flows _ _ _ _ _ _ Hf) as (n' & s' & E & H).
    destruct (projects_ok _ _ t _ _ (measured_projects _) E) as (r' & E2). rewrite (bind_ok _ _ _ _ _ E2).
    eexists _, _, k, a, n', _. split; [reflexivity|]. split; [exact H|exact (Hme _ _ _ _ E2)].
  - destruct (slow_flows _ _ _ _ _ _ Hf Hr) as (b & n' & t' & E & H & Hr'). rewrite (bind_ok _ _ _ _ _ E).
    now eexists _, _, k, a, n', t'.
  - destruct Ha as (Hm & Hp).
    destruct (input_ack_flows isn hist k a n seqno ackno wnd tcplen data _ Hf Hm) as (err & k' & a' & n' & s' & E & H).
    destruct (projects_ok _ _ t _ _ (t_input_ack_projects _ _ _ _ _) E) as (r' & E2). rewrite (bind_ok _ _ _ _ _ E2).
    eexists _, _, k', a', n', _. split; [reflexivity|]. split; [exact H|]. pose proof (ir_nrtx _ _ Hr) as Hx.
    refine (t_input_ack_range (nrtx (t_rtx t)) TCP_MAXRTX _ _ _ _ _ _ _ _ _ Hx eq_refl _ E2).
    + split; [|exact Hp]. destruct Hr. split; try assumption. lia.
    + intros Hd2. destruct (decide (nrtx (t_rtx t) = TCP_MAXRTX)) as [Hn|Hn]; [now destruct Hno|lia].
Qed.

Lemma t_run_flows isn es hist k a n t :
  flowing isn hist k a n (t_snd t) -> in_range TCP_MAXRTX (t_rtx t) -> t_always t_allowed es hist t ->
  exists hist' b k' a' n' t', t_run es hist t = Ok ((hist', b), t') /\
    flowing isn hist' k' a' n' (t_snd t') /\ in_range TCP_MAXRTX (t_rtx t').
Proof.
  revert hist k a n t. induction es as [|e es IH]; intros hist k a n t Hf Hr Ha; [now exists hist, false, k, a, n, t|].
  destruct Ha as [Ha Hes]. destruct (t_happens_flows _ _ _ _ _ _ _ Hf Hr Ha) as (hist' & b & k' & a' & n' & t' & E & H & Hr').
  cbn [t_run]. rewrite (bind_ok _ _ _ _ _ E). rewrite E in Hes. cbn [snd fst]. destruct b.
  - now exists hist', true, k', a', n', t'.
  - now apply (IH hist' k' a' n').
Qed.

Lemma start_in_range ticks : 0 <= ticks < 2 ^ 32 -> in_range TCP_MAXRTX (rtx_start ticks).
Proof. intros H. split; cbn; unfold longest_rtt, TCP_MAXRTX; lia. Qed.

(** C16: In every run of a connection with its timer, with writes, turns of
    both timers and acknowledgements in any order, each measuring a round
    trip of 25 seconds at most, and with memory failing at any time, unless
    a third duplicate acknowledgement comes after the twelfth
    retransmission, every event is handled: the tables of the timer are read
    within their bounds, the time-out, which the retransmissions double,
    stays a positive 16-bit number, the estimate lies between 1.5 and 126.5
    seconds, the retransmissions are at most twelve; and what is sent, the
    probes of a closed window included, is the stream of the bytes accepted.
    In the excepted case a table is read beyond its end:
    [thirteenth_retransmission]. *)
Theorem timer_stays_in_range isn es s ticks :
  let t := mkTimed s (rtx_start ticks) in
  idle isn s -> 0 <= ticks < 2 ^ 32 ->
  t_always t_comes es [] t -> t_always (fun e t => ~ thirteenth e t) es [] t ->
  exists hist b t', t_run es [] t = Ok ((hist, b), t') /\
    0 < rto (t_rtx t') < 2 ^ 15 /\ 3 <= estimate (t_rtx t') <= 253 /\
    0 <= nrtx (t_rtx t') <= TCP_MAXRTX /\ 0 <= persist_backoff (t_rtx t') <= 7 /\
    Forall (on_stream isn hist) (wire (t_snd t')).
Proof.
  intros t Hi Ht Hc Hno. destruct (t_run_flows isn es [] 0 0 0 t (idle_flows _ _ Hi) (start_in_range _ Ht) (t_always_and _ _ _ _ _ Hc Hno))
    as (hist & b & k & a & n & t' & E & Hf & Hr).
  exists hist, b, t'. split; [exact E|]. split; [exact (ir_rto _ _ Hr)|]. split; [exact (estimate_range _ _ Hr)|].
  split; [exact (ir_nrtx _ _ Hr)|]. split; [exact (ir_persist _ _ Hr)|exact (fl_wire _ _ _ _ _ _ Hf)].
Qed.
End Runs.

(** ** A peer that is silent *)

Section Silence.
Context `{SM : SendMem}.

(** What sending leaves alone while a segment is on its way. *)
Definition under_way (rt mss wnd : Z) (st : tcp_state) (s : sender) : Prop :=
  rtime s = rt /\ pcb_mss s = mss /\ snd_wnd (window s) = wnd /\ pcb_state s = st /\ unacked (queues s) <> [].

Lemma way_queues rt mss wnd st f :
  (forall q, unacked q <> [] -> unacked (f q) <> []) -> keeps (under_way rt mss wnd st) (on_queues f).
Proof. intros Hf. apply keeps_modify. intros s (H1 & H2 & H3 & H4 & H5). unfold under_way. cbn. repeat split; auto. Qed.

Lemma way_window rt mss wnd st f :
  (forall w, snd_wnd (f w) = snd_wnd w) -> keeps (under_way rt mss wnd st) (on_window f).
Proof. intros Hf. apply keeps_modify. intros s (H1 & H2 & H3 & H4 & H5). unfold under_way. cbn. rewrite Hf. repeat split; auto. Qed.

Lemma way_flags rt mss wnd st f : keeps (under_way rt mss wnd st) (modify (fun s => with_flags (f s) s)).
Proof. apply keeps_modify. now intros s. Qed.

Lemma way_mem rt mss wnd st f : keeps (under_way rt mss wnd st) (counted f).
Proof. intros s a s' H [= _ <-]. exact H. Qed.

Lemma way_get rt mss wnd st : keeps (under_way rt mss wnd st) get.
Proof. intros s a s' H [= _ <-]. exact H. Qed.

Lemma insert_nonempty g l : insert_seg g l <> [].
Proof. destruct l as [|h l]; cbn; [done|]. now destruct (TCP_SEQ_LT _ _). Qed.

Lemma add_unacked_nonempty g l : add_unacked g l <> [].
Proof.
  unfold add_unacked. destruct (last l) as [u|]; [|done]. destruct (TCP_SEQ_LT _ _); [apply insert_nonempty|].
  destruct l; discriminate.
Qed.

Lemma way_emit rt mss wnd st g : keeps (under_way rt mss wnd st) (emit_seg g).
Proof. now apply keeps_modify. Qed.

Lemma way_segment rt mss wnd st g : rt <> -1 -> keeps (under_way rt mss wnd st) (tcp_output_segment g).
Proof.
  intros Hrt. apply keeps_bind; [|intros _; apply way_emit]. apply keeps_modify.
  intros s (H1 & H2). unfold under_way. cbn. rewrite H1. destruct (Z.eqb_spec rt (-1)); [done|]. repeat split; apply H2.
Qed.

Lemma way_output_loop rt mss wnd st fuel w : rt <> -1 -> keeps (under_way rt mss wnd st) (output_loop fuel w).
Proof.
  intros Hrt. induction fuel as [|fuel IH]; cbn [output_loop]; [apply keeps_hang|].
  apply keeps_bind; [apply way_get|intros s]. destruct (unsent (queues s)) as [|g rest]; [apply keeps_ret|].
  destruct (within_window _ _ _); [|apply keeps_ret]. destruct (_ && _); [apply keeps_ret|].
  apply keeps_bind; [now apply way_queues|intros _].
  apply keeps_bind.
  { destruct (bool_decide _); [apply keeps_ret|]. apply keeps_bind; [apply way_flags|intros _; apply keeps_ret]. }
  intros g'. apply keeps_bind; [now apply way_segment|intros _]. cbn zeta.
  apply keeps_bind; [apply way_window; intros w'; now destruct (TCP_SEQ_LT _ _)|intros _].
  apply keeps_bind; [|intros _; exact IH].
  destruct (0 <? _); [apply way_queues; intros q _; apply add_unacked_nonempty|]. now apply keeps_modify.
Qed.

Lemma way_output rt mss wnd st : rt <> -1 -> keeps (under_way rt mss wnd st) tcp_output.
Proof.
  intros Hrt. unfold tcp_output. apply keeps_bind; [apply way_get|intros s]. destruct (is_input s); [apply keeps_ret|].
  cbn zeta. destruct (_ && _).
  - unfold tcp_send_empty_ack. apply keeps_bind; [apply way_mem|intros ok]. destruct ok; [|apply keeps_ret].
    apply keeps_bind; [apply way_flags|intros _]. apply keeps_bind; [apply keeps_gets|intros n].
    apply keeps_bind; [apply way_emit|intros _; apply keeps_ret].
  - apply keeps_bind; [now apply way_output_loop|intros _]. apply keeps_bind; [|intros _].
    { apply way_queues. intros q. now destruct (unsent q). }
    apply keeps_bind; [apply way_flags|intros _; apply keeps_ret].
Qed.

Lemma way_fasttmr rt mss wnd st : rt <> -1 -> keeps (under_way rt mss wnd st) fasttmr_ack.
Proof.
  intros Hrt. unfold fasttmr_ack. apply keeps_bind; [apply keeps_gets|intros f]. apply keeps_when.
  apply keeps_bind; [apply way_flags|intros _]. apply keeps_bind; [now apply way_output|intros _; apply way_flags].
Qed.

(** The first segment sent again is on its way again. *)
Lemma output_restarts g rest s e s' :
  is_input s = false -> unsent (queues s) = g :: rest -> unacked (queues s) = [] -> rtime s <> -1 ->
  within_window g (Z.min (snd_wnd (window s)) (cwnd (window s))) (window s) = true -> 0 < seg_len g ->
  tcp_output s = Ok (e, s') -> under_way (rtime s) (pcb_mss s) (snd_wnd (window s)) (pcb_state s) s'.
Proof.
  intros Hi Hu Ha Hrt Hw Hl E. unfold tcp_output in E. rewrite (bind_ok _ _ _ _ _ eq_refl), Hi, Hu in E. cbn zeta in E.
  rewrite Hw in E. cbn [negb] in E. rewrite andb_false_r in E. cbn [length output_loop] in E.
  rewrite bind_assoc, (bind_ok _ _ _ _ _ eq_refl), Hu, Hw in E.
  assert (tcp_do_output_nagle s = true) as Hn by (unfold tcp_do_output_nagle; now rewrite Ha).
  rewrite Hn in E. cbn [negb andb] in E. rewrite bind_assoc, (bind_ok _ _ _ _ _ eq_refl) in E.
  set (rt := rtime s) in *. set (m := pcb_mss s) in *. set (wnd := snd_wnd (window s)) in *. set (st := pcb_state s) in *.
  set (P := under_way rt m wnd st).
  assert (forall B (k : M sender B), keeps P k -> forall t b t', P t -> k t = Ok (b, t') -> P t') as Hk by (intros B k H; exact H).
  apply bind_inv in E as ([] & s2 & E & E2).
  refine (Hk _ _ _ _ _ _ _ E2).
  { apply keeps_bind; [|intros _].
    - apply way_queues. intros q. now destruct (unsent q).
    - apply keeps_bind; [apply way_flags|intros _; apply keeps_ret]. }
  clear E2. apply bind_inv in E as (g' & s3 & E3 & E).
  assert (rtime s3 = rt /\ pcb_mss s3 = m /\ snd_wnd (window s3) = wnd /\ pcb_state s3 = st /\ seg_len g' = seg_len g) as (R1 & R2 & R3 & R4 & R5).
  { destruct (bool_decide _); injection E3 as <- <-; now cbn. }
  clear E3. assert (0 <? TCP_TCPLEN g' = true) as Ht.
  { unfold TCP_TCPLEN. rewrite R5. destruct (truthy _); cbn [b2z]; lia. }
  rewrite Ht in E. apply bind_inv in E as ([] & s4 & E4 & E). unfold tcp_output_segment in E4.
  rewrite (bind_ok _ _ _ _ _ eq_refl) in E4. injection E4 as <-.
  do 2 rewrite (bind_ok _ _ _ _ _ eq_refl) in E.
  match type of E with (get ≫= ?f) ?s5 = _ => assert (P s5) as H5; [|refine (Hk _ (get ≫= f) _ _ _ _ H5 E)] end.
  - unfold P, under_way. cbn. rewrite R1. destruct (Z.eqb_spec rt (-1)); [done|].
    repeat split; try assumption; [|apply add_unacked_nonempty]. now destruct (TCP_SEQ_LT _ _).
  - exact (way_output_loop rt m wnd st (S (length rest)) (Z.min wnd (cwnd (window s))) Hrt).
Qed.

Lemma way_write rt mss wnd st d f : keeps (under_way rt mss wnd st) (tcp_write d f).
Proof.
  assert (forall b, keeps (under_way rt mss wnd st) (set_flag b)) as Hset by (intros b; apply way_flags).
  assert (forall length most api first, keeps (under_way rt mss wnd st) (tcp_pbuf_prealloc length most api first)) as Hpre.
  { intros. unfold tcp_pbuf_prealloc. do 2 (apply keeps_bind; [apply keeps_gets|intros ?]). cbn zeta.
    apply keeps_bind; [apply way_mem|intros ?; apply keeps_ret]. }
  assert (forall bufs hdr n o, keeps (under_way rt mss wnd st) (tcp_create_segment bufs hdr n o)) as Hseg.
  { intros. unfold tcp_create_segment. apply keeps_bind; [apply keeps_gets|intros n']. destruct (_ =? _); [apply keeps_ret|].
    apply keeps_bind; [now apply keeps_modify|intros _; apply keeps_ret]. }
  unfold tcp_write. cbn zeta. apply keeps_bind.
  { unfold tcp_write_checks. keeping; apply Hset. }
  intros err. destruct (negb _); [apply keeps_ret|]. apply keeps_bind; [apply way_get|intros s].
  apply keeps_bind.
  { unfold extend_last. cbn zeta. apply keeps_bind; [apply keeps_gets|intros q]. destruct (last _) as [u|]; [|apply keeps_ret].
    destruct (if 0 <? _ then _ else _) as [[used oversize] space]. destruct (_ && _); [|apply keeps_ret].
    destruct (truthy _); (apply keeps_bind; [apply Hpre || apply way_mem|intros []; apply keeps_ret]). }
  intros [ph|]; [|apply keeps_bind; [apply Hset|intros _; apply keeps_ret]].
  apply keeps_bind.
  { generalize (S (S (Z.to_nat TCP_SND_QUEUELEN))), (@nil tcp_seg), (ph_oversize ph), (ph_pos ph), (ph_queuelen ph).
    intros fuel. induction fuel as [|fuel IH]; intros queue oversize pos queuelen; cbn [new_segments]; [apply keeps_hang|]. cbn zeta.
    destruct (_ <? _); [|apply keeps_ret]. apply keeps_bind; [apply keeps_gets|intros lbb]. apply keeps_bind.
    { destruct (truthy _); [apply keeps_bind; [apply Hpre|intros ?; apply keeps_ret]|].
      apply keeps_bind; [apply way_mem|intros []; [|apply keeps_ret]]. apply keeps_bind; [apply way_mem|intros ?; apply keeps_ret]. }
    intros [[bufs ov]|]; [|apply keeps_ret]. destruct (_ || _); [apply keeps_ret|].
    apply keeps_bind; [apply Hseg|intros [seg|]; [apply IH|apply keeps_ret]]. }
  intros [[[ok queue] oversize] queuelen]. destruct ok.
  - apply keeps_bind; [now apply way_queues|intros _; apply keeps_ret].
  - apply keeps_bind; [apply Hset|intros _]. apply keeps_bind; [|intros _; apply keeps_ret].
    apply keeps_for_each. intros g _. now apply keeps_modify.
Qed.

(** ** Giving up *)

(** What is left of the time-outs after the [n]-th retransmission, in turns
    of the timer, for an estimate [e]. *)
Definition timeouts_left (e n : Z) : Z :=
  foldr (fun b x => e * 2 ^ b + x) 0 (drop (Z.to_nat n) (take 11 tcp_backoff)).

(** The turn of the timer in which the connection is given up. *)
Definition gives_up_in (t : timed) : Z :=
  if nrtx (t_rtx t) =? TCP_MAXRTX then 1
  else (rto (t_rtx t) - rtime (t_snd t)) + timeouts_left (estimate (t_rtx t)) (nrtx (t_rtx t)) + 1.

(** A connection that waits for an acknowledgement: something was sent, the
    peer's window has room for a segment, and the timer runs. *)
Record waiting (isn : Z) (hist : list Z) (t : timed) : Prop := {
    wt_flows : exists k a n, flowing isn hist k a n (t_snd t);
    wt_range : in_range TCP_MAXRTX (t_rtx t);
    wt_open : persist_backoff (t_rtx t) = 0;
    wt_sent : unacked (queues (t_snd t)) <> [];
    wt_room : pcb_mss (t_snd t) <= snd_wnd (window (t_snd t));
    wt_timer : 0 <= rtime (t_snd t) < rto (t_rtx t);
    wt_state : pcb_state (t_snd t) <> SYN_SENT;
  }.

Lemma timeouts_step e n b :
  tcp_backoff !! Z.to_nat n = Some b -> 0 <= n -> n < 11 -> timeouts_left e n = e * 2 ^ b + timeouts_left e (n + 1).
Proof.
  intros E H0 Hn. unfold timeouts_left. rewrite (drop_S _ b).
  - cbn [foldr]. now replace (Z.to_nat (n + 1)) with (S (Z.to_nat n)) by lia.
  - rewrite lookup_take_lt by lia. exact E.
Qed.

Lemma timeouts_end e n : 11 <= n -> timeouts_left e n = 0.
Proof. intros Hn. unfold timeouts_left. now rewrite drop_ge by (cbn; lia). Qed.

(** The first segment in flight fits a window of one segment. *)
Lemma oldest_within isn hist k a n g rest wnd s :
  flowing isn hist k a n s -> in_flight s = g :: rest -> pcb_mss s <= wnd ->
  within_window g wnd (window s) = true /\ 0 < seg_len g.
Proof.
  intros Hf Hfl Hw. pose proof (fl_numbered _ _ _ _ _ _ Hf) as Hn. rewrite Hfl in Hn. destruct Hn as (Hs & Hp & _).
  pose proof (pl_range _ _ Hp) as Hl. pose proof (fl_first _ _ _ _ _ _ Hf) as H1. rewrite Hfl in H1.
  pose proof (fl_range _ _ _ _ _ _ Hf) as Hr. pose proof (fl_mss _ _ _ _ _ _ Hf) as (Hm & _). assert (TCP_MSS < 2 ^ 16) as Hc by (now compute).
  assert (mss_local s <= pcb_mss s) as Hml by (unfold mss_local; lia). split; [|lia].
  unfold within_window. rewrite Hs, (fl_lastack _ _ _ _ _ _ Hf). pose proof (u32_diff (isn + k) (isn + a) 0) as Ed. rewrite Z.add_0_r in Ed.
  rewrite Ed, wrap_add_l, wrap_small by lia. apply Z.leb_le. lia.
Qed.

(** Apart from a measurement and the time, the same. *)
Definition same_vars (r r' : rtx) : Prop :=
  rto r' = rto r /\ sa r' = sa r /\ sv r' = sv r /\ nrtx r' = nrtx r /\ persist_backoff r' = persist_backoff r.

Lemma same_start r l r' : same_vars r r' -> same_vars r (foldl start_test r' l).
Proof.
  revert r'. induction l as [|g l IH]; intros r' H; [exact H|]. apply IH. unfold start_test. now destruct (_ && _).
Qed.

Lemma measured_same {A} (m : M sender A) t a t' : measured m t = Ok (a, t') -> same_vars (t_rtx t) (t_rtx t').
Proof.
  intros E. refine (vars_measured (same_vars (t_rtx t)) m _ _ _ _ _ E); [intros l r; apply same_start|]. now repeat split.
Qed.

Lemma measured_range {A} n (m : M sender A) t a t' : measured m t = Ok (a, t') -> in_range n (t_rtx t) -> in_range n (t_rtx t').
Proof. intros E H. refine (vars_measured (in_range n) m _ _ _ _ H E). intros l r. apply start_tests_range. Qed.

Lemma gives_up_same t t' :
  rtime (t_snd t') = rtime (t_snd t) -> same_vars (t_rtx t) (t_rtx t') -> gives_up_in t' = gives_up_in t.
Proof. intros Hr (H1 & H2 & H3 & H4 & _). unfold gives_up_in, estimate. now rewrite Hr, H1, H2, H3, H4. Qed.

(** What the connection does by itself leaves it waiting. *)
Lemma waiting_kept isn hist hist' t t' :
  waiting isn hist t -> (exists k a n, flowing isn hist' k a n (t_snd t')) ->
  under_way (rtime (t_snd t)) (pcb_mss (t_snd t)) (snd_wnd (window (t_snd t))) (pcb_state (t_snd t)) (t_snd t') ->
  in_range TCP_MAXRTX (t_rtx t') -> same_vars (t_rtx t) (t_rtx t') ->
  waiting isn hist' t' /\ gives_up_in t' = gives_up_in t.
Proof.
  intros Hw Hf (U1 & U2 & U3 & U4 & U5) Hr Hs. split; [|now apply gives_up_same].
  destruct Hw as [_ _ W3 _ W5 W6 W7]. destruct Hs as (S1 & _ & _ & _ & S5). split; try assumption; congruence.
Qed.

Lemma waiting_way isn hist t : waiting isn hist t ->
  under_way (rtime (t_snd t)) (pcb_mss (t_snd t)) (snd_wnd (window (t_snd t))) (pcb_state (t_snd t)) (t_snd t) /\ rtime (t_snd t) <> -1.
Proof. intros []. split; [now repeat split|lia]. Qed.

Lemma waiting_sends {A} isn hist t (m : M sender A) :
  waiting isn hist t ->
  (forall k a n, flowing isn hist k a n (t_snd t) -> exists x n' s', m (t_snd t) = Ok (x, s') /\ flowing isn hist k a n' s') ->
  (forall rt mss wnd st, rt <> -1 -> keeps (under_way rt mss wnd st) m) ->
  exists x t', measured m t = Ok (x, t') /\ waiting isn hist t' /\ gives_up_in t' = gives_up_in t.
Proof.
  intros Hw Hm Hk. destruct (wt_flows _ _ _ Hw) as (k & a & n & Hf). destruct (waiting_way _ _ _ Hw) as [Hu Hrt].
  destruct (Hm _ _ _ Hf) as (x & n' & s' & E & H). destruct (projects_ok _ _ t _ _ (measured_projects m) E) as (r' & E2).
  exists x, (mkTimed s' r'). split; [exact E2|].
  apply (waiting_kept isn hist hist t); [exact Hw|now exists k, a, n'|exact (Hk _ _ _ _ Hrt _ _ _ Hu E)| |exact (measured_same _ _ _ _ E2)].
  exact (measured_range _ _ _ _ _ E2 (wt_range _ _ _ Hw)).
Qed.

Definition silent (e : tevent) : Prop :=
  match e with TWrite d _ => d <> [] | TAck _ _ _ _ _ => False | _ => True end.

Definition is_slow (e : tevent) : bool := match e with TSlow => true | _ => false end.

Lemma waiting_event isn hist e t :
  waiting isn hist t -> silent e -> is_slow e = false ->
  exists hist' t', t_happens e hist t = Ok ((hist', false), t') /\ waiting isn hist' t' /\ gives_up_in t' = gives_up_in t.
Proof.
  intros Hw Hs He. destruct e as [d f| | | |]; cbn in Hs; try done; cbn [t_happens].
  - destruct (wt_flows _ _ _ Hw) as (k & a & n & Hf). destruct (waiting_way _ _ _ Hw) as [Hu Hrt].
    destruct (write_flows isn hist k a n d f _ Hf Hs) as (err & s' & E & H).
    rewrite (bind_ok _ _ _ err (mkTimed s' (t_rtx t))) by (unfold on_snd, zoom; cbn; now rewrite E).
    pose proof (way_write _ _ _ _ _ _ _ _ _ Hu E) as Hu'.
    assert (forall h, flowing isn h k a n s' -> waiting isn h (mkTimed s' (t_rtx t)) /\ gives_up_in (mkTimed s' (t_rtx t)) = gives_up_in t) as Hh.
    { intros h Hh. apply (waiting_kept isn hist h t); [exact Hw|now exists k, a, n|exact Hu'|exact (wt_range _ _ _ Hw)|now repeat split]. }
    destruct H as [[-> H]|([-> | ->] & H & _)]; (eexists _, _; split; [reflexivity|]; now apply Hh).
  - destruct (waiting_sends isn hist t tcp_output Hw) as (x & t' & E & H).
    + intros k a n Hf. destruct (output_flows _ _ _ _ _ _ Hf) as (x & n' & s' & E & H). now exists x, n', s'.
    + intros rt mss wnd st. apply way_output.
    + rewrite (bind_ok _ _ _ _ _ E). eexists _, _. split; [reflexivity|exact H].
  - destruct (waiting_sends isn hist t fasttmr_ack Hw) as (x & t' & E & H).
    + intros k a n Hf. destruct (fasttmr_flows _ _ _ _ _ _ Hf) as (n' & s' & E & H). now exists tt, n', s'.
    + intros rt mss wnd st. apply way_fasttmr.
    + rewrite (bind_ok _ _ _ _ _ E). eexists _, _. split; [reflexivity|exact H].
Qed.

Lemma gives_up_late isn hist t : waiting isn hist t -> (gives_up_in t = 1 /\ nrtx (t_rtx t) = TCP_MAXRTX) \/ (2 <= gives_up_in t /\ nrtx (t_rtx t) <> TCP_MAXRTX).
Proof.
  intros Hw. unfold gives_up_in. destruct (Z.eqb_spec (nrtx (t_rtx t)) TCP_MAXRTX); [now left|right].
  split; [|assumption]. pose proof (wt_timer _ _ _ Hw). pose proof (estimate_range _ _ (wt_range _ _ _ Hw)).
  assert (forall l, 0 <= foldr (fun b x => estimate (t_rtx t) * 2 ^ b + x) 0 l) as Hl.
  { induction l as [|b l IH]; cbn [foldr]; [lia|]. pose proof (Z.pow_nonneg 2 b ltac:(lia)). nia. }
  pose proof (Hl (drop (Z.to_nat (nrtx (t_rtx t))) (take 11 tcp_backoff))). unfold timeouts_left. lia.
Qed.

Lemma waiting_counts isn hist t :
  waiting isn hist t -> nrtx (t_rtx t) <> TCP_MAXRTX -> rtime (t_snd t) + 1 < rto (t_rtx t) ->
  exists t', tcp_slowtmr_pcb t = Ok (false, t') /\ waiting isn hist t' /\ gives_up_in t' = gives_up_in t - 1.
Proof.
  intros Hw Hn Hlt. pose proof (wt_timer _ _ _ Hw) as Ht. pose proof (ir_rto _ _ (wt_range _ _ _ Hw)) as Hr.
  assert ((if 0 <=? rtime (t_snd t) then s16 (rtime (t_snd t) + 1) else rtime (t_snd t)) = rtime (t_snd t) + 1) as E.
  { destruct (Z.leb_spec 0 (rtime (t_snd t))); [|lia]. apply half_small. lia. }
  assert (fires t = false) as Hf.
  { unfold fires. rewrite E. destruct (Z.leb_spec (rto (t_rtx t)) (rtime (t_snd t) + 1)); [lia|apply andb_false_r]. }
  rewrite (slow_counts t Hn (wt_open _ _ _ Hw) Hf), E. eexists. split; [reflexivity|]. split.
  - destruct Hw as [(k & a & n & W1) W2 W3 W4 W5 W6 W7]. split; cbn; try assumption; [|now apply ticked_range|lia].
    exists k, a, n. now apply flowing_rtime.
  - unfold gives_up_in. cbn. destruct (Z.eqb_spec (nrtx (t_rtx t)) TCP_MAXRTX); [done|].
    change (estimate (ticked t)) with (estimate (t_rtx t)). lia.
Qed.

(** The time-out: everything that was sent is queued again, and the first
    segment goes out. *)
Lemma rto_restarts isn hist t :
  (exists k a n, flowing isn hist k a n (t_snd t)) -> unacked (queues (t_snd t)) <> [] -> rtime (t_snd t) <> -1 ->
  pcb_mss (t_snd t) <= Z.min (snd_wnd (window (t_snd t))) (cwnd (window (t_snd t))) -> 0 <= nrtx (t_rtx t) < 255 ->
  exists t' g o, t_rexmit_rto t = Ok (tt, t') /\ (exists k a n, flowing isn hist k a n (t_snd t')) /\
    under_way (rtime (t_snd t)) (pcb_mss (t_snd t)) (snd_wnd (window (t_snd t))) (pcb_state (t_snd t)) (t_snd t') /\
    same_vars (with_nrtx (nrtx (t_rtx t) + 1) (t_rtx t)) (t_rtx t') /\
    wire (t_snd t) ++ [g] `prefix_of` wire (t_snd t') /\ head (in_flight (t_snd t)) = Some o /\ seg_seqno g = seg_seqno o /\ seg_data g = seg_data o.
Proof.
  intros (k & a & n & Hf) Hu Hrt Hw Hn. set (s := t_snd t) in *.
  set (s1 := with_queues (with_unacked [] (with_unsent (unacked (queues s) ++ unsent (queues s)) (queues s))) s).
  pose proof (rto_requeues _ _ _ _ _ _ Hf) as H1. fold s1 in H1.
  destruct (unacked (queues s)) as [|g rest] eqn:Eu; [done|].
  assert (in_flight s = g :: rest ++ unsent (queues s)) as Hfl by (unfold in_flight; now rewrite Eu).
  destruct (oldest_within _ _ _ _ _ _ _ _ _ Hf Hfl Hw) as [Hin Hl].
  destruct (output_sends_first isn hist k a n g (rest ++ unsent (queues s)) s1 H1 eq_refl Hin eq_refl) as (n' & s2 & g' & E & H2 & (h & _ & ->) & Hpre).
  set (t1 := mkTimed s1 (with_test 0 (rtseq (t_rtx t)) (with_nrtx (u8 (nrtx (t_rtx t) + 1)) (t_rtx t)))).
  destruct (projects_ok _ _ t1 _ _ (measured_projects tcp_output) E) as (r' & E2).
  exists (mkTimed s2 r'), (set_hdr h g), g. split.
  { unfold t_rexmit_rto. rewrite (bind_ok _ _ t (queues s) t) by (unfold s; now destruct t).
    cbn beta. rewrite bool_decide_eq_false_2 by (intros E0; fold s in E0; rewrite Eu in E0; discriminate E0). do 3 rewrite (bind_ok _ _ _ _ _ eq_refl).
    cbn. fold s. rewrite Eu. now rewrite (bind_ok _ _ _ _ _ E2). }
  split; [now exists k, a, n'|]. split.
  { exact (output_restarts g (rest ++ unsent (queues s)) s1 _ _ (fl_input _ _ _ _ _ _ H1) eq_refl eq_refl Hrt Hin Hl E). }
  split.
  { pose proof (measured_same _ _ _ _ E2) as (S1 & S2 & S3 & S4 & S5). cbn in S1, S2, S3, S4, S5.
    unfold same_vars. cbn. rewrite S4, (wrap_small 8) by lia. now repeat split. }
  split; [exact Hpre|]. split; [now rewrite Hfl|]. now split.
Qed.

Lemma waiting_fires isn hist t :
  waiting isn hist t -> nrtx (t_rtx t) <> TCP_MAXRTX -> rto (t_rtx t) = rtime (t_snd t) + 1 ->
  exists t' g o, tcp_slowtmr_pcb t = Ok (false, t') /\ waiting isn hist t' /\ gives_up_in t' = gives_up_in t - 1 /\
    wire (t_snd t) ++ [g] `prefix_of` wire (t_snd t') /\ head (in_flight (t_snd t)) = Some o /\ seg_seqno g = seg_seqno o /\ seg_data g = seg_data o.
Proof.
  intros Hw Hn He. pose proof (wt_timer _ _ _ Hw) as Ht. pose proof (wt_range _ _ _ Hw) as Hr. pose proof (ir_rto _ _ Hr) as Hrt.
  pose proof (ir_nrtx _ _ Hr) as Hx.
  assert (fires t = true) as Hf.
  { unfold fires. rewrite bool_decide_eq_false_2 by exact (wt_sent _ _ _ Hw). cbn [negb andb].
    destruct (Z.leb_spec 0 (rtime (t_snd t))); [|lia]. rewrite half_small by lia. lia. }
  destruct (slow_fires t Hr Hn (wt_open _ _ _ Hw) Hf) as (v & Hv & Hb & E).
  destruct (Hb (wt_state _ _ _ Hw)) as (b & Eb & ->). rewrite E. clear E Hb. set (t1 := mkTimed _ _).
  destruct (wt_flows _ _ _ Hw) as (k & a & n & Hfl).
  destruct (rto_restarts isn hist t1) as (t' & g & o & E & H1 & H2 & H3 & H4 & H5 & H6 & H7).
  - exists k, a, n. apply (shrink_flows _ _ _ _ _ (with_rtime 0 (t_snd t))). now apply flowing_rtime.
  - exact (wt_sent _ _ _ Hw).
  - cbn. lia.
  - cbn. pose proof (wt_room _ _ _ Hw). lia.
  - cbn. unfold TCP_MAXRTX in *. lia.
  - exists t', g, o. rewrite (bind_ok _ _ _ _ _ E). split; [reflexivity|].
    destruct H2 as (U1 & U2 & U3 & U4 & U5). destruct H3 as (S1 & S2 & S3 & S4 & S5). cbn in U1, U2, U3, U4, S1, S2, S3, S4, S5.
    assert (estimate (t_rtx t') = estimate (t_rtx t)) as Hest by (unfold estimate; now rewrite S2, S3).
    split; [|split; [|now split]].
    + split; [exact H1| | | exact U5| | |].
      * pose proof (t_rexmit_rto_counts (nrtx (t_rtx t)) t1 () t') as Hc.
        eapply range_weaken; [apply Hc; [|unfold TCP_MAXRTX in *; lia|exact E]|lia].
        pose proof (ticked_range _ _ Hr) as []. split; cbn; try assumption; cbn in *; lia.
      * rewrite S5. exact (wt_open _ _ _ Hw).
      * rewrite U2, U3. exact (wt_room _ _ _ Hw).
      * rewrite U1, S1. lia.
      * rewrite U4. exact (wt_state _ _ _ Hw).
    + unfold gives_up_in. rewrite S1, S4, U1, Hest. destruct (Z.eqb_spec (nrtx (t_rtx t)) TCP_MAXRTX); [done|].
      destruct (Z.eqb_spec (nrtx (t_rtx t) + 1) TCP_MAXRTX) as [E1|E1]; unfold TCP_MAXRTX in *.
      * rewrite timeouts_end by lia. lia.
      * rewrite (timeouts_step _ _ b Eb) by lia. lia.
Qed.

(** C15: A peer that is silent while a segment is on its way, and whose
    window holds a full segment, is given up in a turn of the timer that is
    known in advance, whatever the application writes and sends meanwhile:
    after what is left of the time-out, and of the ones after it, each twice
    the one before, up to 128 times the estimate, until the twelfth
    retransmission, in the next turn; not earlier, and not later. *)
Theorem silent_peer_given_up isn hist es t :
  waiting isn hist t -> Forall silent es -> let slow := Z.of_nat (length (filter is_slow es)) in
  exists hist' t', t_run es hist t = Ok ((hist', bool_decide (gives_up_in t <= slow)), t') /\
    (slow < gives_up_in t -> waiting isn hist' t' /\ gives_up_in t' = gives_up_in t - slow).
Proof.
  intros Hw Hs. revert hist t Hw. induction Hs as [|e es He Hs IH]; intros hist t Hw; cbn zeta.
  { exists hist, t. pose proof (gives_up_late _ _ _ Hw). rewrite bool_decide_eq_false_2 by (cbn; lia). split; [done|]. cbn. intros _. split; [exact Hw|lia]. }
  cbn [t_run]. destruct (is_slow e) eqn:Esl.
  - destruct e; try discriminate. cbn [t_happens]. rewrite filter_cons_True by done. cbn [length].
    destruct (gives_up_late _ _ _ Hw) as [[Hg Hn]|[Hg Hn]].
    + rewrite bind_assoc, (bind_ok _ _ _ _ _ (slow_removes t Hn)). rewrite bool_decide_eq_true_2 by lia.
      eexists _, _. split; [reflexivity|lia].
    + assert (exists t', tcp_slowtmr_pcb t = Ok (false, t') /\ waiting isn hist t' /\ gives_up_in t' = gives_up_in t - 1) as (t' & E & Hw' & Hg').
      { pose proof (wt_timer _ _ _ Hw). destruct (decide (rtime (t_snd t) + 1 < rto (t_rtx t))) as [Hlt|Hge].
        - exact (waiting_counts _ _ _ Hw Hn Hlt).
        - destruct (waiting_fires _ _ _ Hw Hn ltac:(lia)) as (t' & _ & _ & H1 & H2 & H3 & _). eauto. }
      rewrite bind_assoc, (bind_ok _ _ _ _ _ E), (bind_ok _ _ _ _ _ eq_refl). cbn [snd fst].
      destruct (IH hist t' Hw') as (hist' & t2 & E2 & H2). exists hist', t2. rewrite E2. cbn zeta in H2. split.
      * f_equal. f_equal. f_equal. apply bool_decide_ext. lia.
      * intros Hlt. destruct (H2 ltac:(lia)) as [H3 H4]. split; [exact H3|lia].
  - rewrite filter_cons_False by (rewrite Esl; auto). destruct (waiting_event isn hist e t Hw He Esl) as (hist1 & t1 & E & Hw1 & Hg1).
    rewrite (bind_ok _ _ _ _ _ E). cbn [snd fst]. rewrite <- Hg1. exact (IH hist1 t1 Hw1).
Qed.

(** ** A closed window *)

(** The turns until the next probe. *)
Definition probe_in (r : rtx) : Z :=
  Z.max 1 (default 0 (tcp_persist_backoff !! Z.to_nat (persist_backoff r - 1)) - persist_cnt r).

Lemma slow_persists isn hist k a n t :
  flowing isn hist k a n (t_snd t) -> in_range TCP_MAXRTX (t_rtx t) -> nrtx (t_rtx t) <> TCP_MAXRTX -> 0 < persist_backoff (t_rtx t) ->
  exists t', tcp_slowtmr_pcb t = Ok (false, t') /\ flowing isn hist k a n (t_snd t') /\ in_range TCP_MAXRTX (t_rtx t') /\
    nrtx (t_rtx t') = nrtx (t_rtx t) /\ 0 < persist_backoff (t_rtx t') /\
    if probe_in (t_rtx t) =? 1
    then match in_flight (t_snd t) with
         | g :: _ => ram_found (allocs (t_snd t)) (TCP_HLEN + 1) = true -> exists d, seg_data g !! O = Some d /\
             wire (t_snd t') = wire (t_snd t) ++ [mkSeg (seg_seqno g) TCP_ACK 0 1 [[d]]]
         | [] => True
         end
    else t_snd t' = t_snd t /\ probe_in (t_rtx t') = probe_in (t_rtx t) - 1.
Proof.
  intros Hf Hr Hn Hp. destruct (persist_found (persist_backoff (t_rtx t)) ltac:(pose proof (ir_persist _ _ Hr); lia)) as (b & Eb & Hb).
  pose proof (ir_cnt _ _ Hr) as Hc. pose proof (ticked_range _ _ Hr) as Ht.
  unfold tcp_slowtmr_pcb. do 2 rewrite (bind_ok _ _ _ _ _ eq_refl). cbn [t_rtx nrtx with_ticks].
  destruct (Z.eqb_spec (nrtx (t_rtx t)) TCP_MAXRTX); [done|]. cbn [persist_backoff with_ticks].
  destruct (Z.ltb_spec 0 (persist_backoff (t_rtx t))); [|lia].
  do 2 (erewrite bind_ok by reflexivity). cbn [t_rtx persist_backoff with_ticks with_persist persist_cnt].
  erewrite bind_ok by (rewrite Eb; reflexivity). rewrite (wrap_small 8) by lia.
  unfold probe_in. rewrite Eb. change (default 0 (Some b)) with b.
  destruct (Z.leb_spec b (persist_cnt (t_rtx t) + 1)).
  - rewrite Z.max_l by lia. cbn [Z.eqb Pos.eqb]. erewrite bind_ok by reflexivity.
    destruct (probe_flows _ _ _ _ _ _ Hf) as (s' & E & H' & Hs').
    erewrite bind_ok by (unfold on_snd, zoom; cbn; rewrite E; reflexivity).
    eexists. split; [reflexivity|]. split; [exact H'|]. split.
    { destruct Ht. split; cbn in *; try assumption; [lia|]. destruct (Z.ltb_spec (persist_backoff (t_rtx t)) 7); lia. }
    split; [reflexivity|]. split; [|exact Hs']. cbn. destruct (_ <? 7); lia.
  - destruct (Z.eqb_spec (Z.max 1 (b - persist_cnt (t_rtx t))) 1); [lia|].
    eexists. split; [reflexivity|]. split; [exact Hf|]. split; [destruct Ht; split; cbn in *; try assumption; lia|].
    split; [reflexivity|]. split; [exact Hp|]. split; [reflexivity|]. cbn. rewrite Eb. change (default 0 (Some b)) with b. lia.
Qed.

(** C17: A window that is closed is probed: while the persist timer runs,
    something is queued and the retransmissions are not used up, a turn of
    the timer at most a minute away sends, if there is memory for it, the
    first byte of the segment that holds the oldest byte not acknowledged
    (which is that byte itself, unless the peer took part of a segment); up
    to that turn nothing else is sent, and the connection is not given up. *)
Theorem closed_window_probed isn hist k a n t :
  flowing isn hist k a n (t_snd t) -> in_range TCP_MAXRTX (t_rtx t) -> nrtx (t_rtx t) <> TCP_MAXRTX ->
  0 < persist_backoff (t_rtx t) -> in_flight (t_snd t) <> [] -> ram_found (allocs (t_snd t)) (TCP_HLEN + 1) = true ->
  exists t' d g rest, 1 <= probe_in (t_rtx t) <= 120 /\
    t_run (repeat TSlow (Z.to_nat (probe_in (t_rtx t)))) hist t = Ok ((hist, false), t') /\
    wire (t_snd t') = wire (t_snd t) ++ [mkSeg (u32 (isn + k)) TCP_ACK 0 1 [[d]]] /\ hist !! Z.to_nat k = Some d /\
    in_flight (t_snd t) = g :: rest /\ seg_seqno g = u32 (isn + k) /\ k <= a < k + seg_len g /\
    0 < persist_backoff (t_rtx t').
Proof.
  intros Hf Hr Hn Hp Hfl Hram.
  assert (1 <= probe_in (t_rtx t) <= 120) as Hb.
  { pose proof (ir_cnt _ _ Hr). destruct (persist_found (persist_backoff (t_rtx t)) ltac:(pose proof (ir_persist _ _ Hr); lia)) as (b & Eb & Hb).
    unfold probe_in. rewrite Eb. change (default 0 (Some b)) with b. lia. }
  remember (Z.to_nat (probe_in (t_rtx t)) - 1)%nat as j eqn:Ej. revert t Hf Hr Hn Hp Hfl Hram Hb Ej.
  induction j as [|j IH]; intros t Hf Hr Hn Hp Hfl Hram Hb Ej;
    destruct (slow_persists _ _ _ _ _ _ Hf Hr Hn Hp) as (t1 & E & Hf1 & Hr1 & Hn1 & Hp1 & Hw).
  - assert (probe_in (t_rtx t) = 1) as E1 by lia. rewrite E1 in Hw |- *. cbn [Z.eqb Pos.eqb] in Hw.
    pose proof (fl_numbered _ _ _ _ _ _ Hf) as Hnum. pose proof (fl_data _ _ _ _ _ _ Hf) as Hdata.
    pose proof (fl_first _ _ _ _ _ _ Hf) as Hfst. destruct (in_flight (t_snd t)) as [|g rest]; [done|]. destruct (Hw Hram) as (d & Hd & Ewire). destruct Hnum as (Hs & _).
    exists t1, d, g, rest. split; [lia|]. change (repeat TSlow (Z.to_nat 1)) with [TSlow]. cbn [t_run t_happens].
    rewrite bind_assoc, (bind_ok _ _ _ _ _ E). split; [reflexivity|]. rewrite Ewire, Hs. split; [reflexivity|].
    split; [|split; [done|split; [done|split; [pose proof (fl_range _ _ _ _ _ _ Hf); lia|exact Hp1]]]].
    unfold stream_of in Hdata. cbn [map concat] in Hdata. rewrite <- (Nat.add_0_r (Z.to_nat k)), <- lookup_drop, <- Hdata.
    apply lookup_app_l_Some. exact Hd.
  - destruct (Z.eqb_spec (probe_in (t_rtx t)) 1); [lia|]. destruct Hw as [Hs1 Hp2]. rewrite Hs1 in Hf1.
    destruct (IH t1) as (t' & d & g & rest & _ & R & H1 & H2 & Hfl' & H3); rewrite ?Hs1, ?Hn1; try assumption; try lia.
    exists t', d, g, rest. split; [exact Hb|]. rewrite Hs1 in H1, Hfl'. split; [|now split].
    replace (Z.to_nat (probe_in (t_rtx t))) with (S (Z.to_nat (probe_in (t_rtx t1)))) by lia.
    cbn [repeat t_run t_happens]. rewrite bind_assoc, (bind_ok _ _ _ _ _ E). exact R.
Qed.

(** ** A window too small for the first segment *)

(** Nothing is on its way, and the first segment queued does not fit. *)
Record too_small (t : timed) : Prop := {
    ts_input : is_input (t_snd t) = false;
    ts_unacked : unacked (queues (t_snd t)) = [];
    ts_window : match unsent (queues (t_snd t)) with
                | g :: _ => within_window g (Z.min (snd_wnd (window (t_snd t))) (cwnd (window (t_snd t)))) (window (t_snd t)) = false
                | [] => False
                end;
    ts_flags : pcb_flags (t_snd t) &&& (TF_ACK_DELAY ||| TF_ACK_NOW) = 0;
    ts_persist : persist_backoff (t_rtx t) = 0;
    ts_nrtx : nrtx (t_rtx t) <> TCP_MAXRTX;
  }.

Lemma no_ack_flags f : f &&& (TF_ACK_DELAY ||| TF_ACK_NOW) = 0 -> f &&& TF_ACK_NOW = 0 /\ f &&& TF_ACK_DELAY = 0.
Proof.
  intros H. change (TF_ACK_DELAY ||| TF_ACK_NOW) with 3 in H. change TF_ACK_NOW with 2. change TF_ACK_DELAY with 1.
  assert (forall i, Z.testbit (f &&& 3) i = false) as Hb by (intros i; rewrite H; apply Z.testbit_0_l).
  split; apply Z.bits_inj'; intros i Hi; rewrite Z.testbit_0_l, Z.land_spec.
  - specialize (Hb i). rewrite Z.land_spec in Hb. destruct (decide (i = 1)) as [->|]; [exact Hb|].
    replace (Z.testbit 2 i) with false; [apply andb_false_r|]. symmetry. change 2 with (2 ^ 1). apply Z.pow2_bits_false. lia.
  - specialize (Hb i). rewrite Z.land_spec in Hb. destruct (decide (i = 0)) as [->|]; [exact Hb|].
    replace (Z.testbit 1 i) with false; [apply andb_false_r|]. symmetry. change 1 with (2 ^ 0). apply Z.pow2_bits_false. lia.
Qed.

Lemma too_small_output t : too_small t -> exists s', tcp_output (t_snd t) = Ok (ERR_OK, s') /\ wire s' = wire (t_snd t) /\
  forall r, persist_backoff r = 0 -> nrtx r <> TCP_MAXRTX -> too_small (mkTimed s' r).
Proof.
  intros [H1 H2 H3 H4 H5 H6]. destruct (no_ack_flags _ H4) as [Hf _]. unfold tcp_output. rewrite (bind_ok _ _ _ _ _ eq_refl), H1, Hf.
  destruct (unsent (queues (t_snd t))) as [|g rest] eqn:Hu; [done|]. cbn [truthy Z.eqb negb andb length output_loop].
  rewrite bind_assoc, (bind_ok _ _ _ _ _ eq_refl), Hu, H3. do 3 rewrite (bind_ok _ _ _ _ _ eq_refl).
  eexists. split; [reflexivity|]. split; [reflexivity|]. intros r Hp Hn. split; cbn; rewrite ?Hu; try assumption.
  apply Z.bits_inj'. intros i Hi. rewrite Z.land_spec, Z.ldiff_spec, Z.testbit_0_l.
  assert (Z.testbit (pcb_flags (t_snd t) &&& (TF_ACK_DELAY ||| TF_ACK_NOW)) i = false) as Hb by (rewrite H4; apply Z.testbit_0_l).
  rewrite Z.land_spec in Hb. destruct (Z.testbit (pcb_flags (t_snd t)) i); [|reflexivity]. cbn [andb] in *. rewrite Hb. apply andb_false_r.
Qed.

(** C18: What the timers do not cover: when nothing is on its way, no
    acknowledgement is owed and the peer's window is open but smaller than the first segment queued, nothing
    is sent, whatever the timers do and how often, until the peer says
    something: the persist timer runs for windows of no byte only, and a
    segment once made is not divided. *)
Theorem small_window_stalls es hist t :
  too_small t -> Forall (fun e => e = TOutput \/ e = TFast \/ e = TSlow) es ->
  exists t', t_run es hist t = Ok ((hist, false), t') /\ wire (t_snd t') = wire (t_snd t) /\ too_small t'.
Proof.
  intros H Hes. revert t H. induction Hes as [|e es He _ IH]; intros t H; [now exists t|]. cbn [t_run].
  assert (exists t1, t_happens e hist t = Ok ((hist, false), t1) /\ wire (t_snd t1) = wire (t_snd t) /\ too_small t1) as (t1 & E & Hw & H1).
  { pose proof H as [S1 S2 S3 S4 S5 S6]. destruct (no_ack_flags _ S4) as [Hf1 Hf2]. destruct He as [-> |[-> | ->]]; cbn [t_happens].
    - destruct (too_small_output t H) as (s' & E & Hw & H').
      destruct (projects_ok _ _ t _ _ (measured_projects tcp_output) E) as (r' & E2).
      pose proof (measured_same _ _ _ _ E2) as (_ & _ & _ & Q4 & Q5). cbn in Q4, Q5.
      rewrite (bind_ok _ _ _ _ _ E2). eexists. split; [reflexivity|]. split; [exact Hw|]. apply H'; congruence.
    - assert (fasttmr_ack (t_snd t) = Ok (tt, t_snd t)) as E.
      { unfold fasttmr_ack. rewrite (bind_ok _ _ _ _ _ eq_refl), Hf2. reflexivity. }
      destruct (projects_ok _ _ t _ _ (measured_projects fasttmr_ack) E) as (r' & E2).
      pose proof (measured_same _ _ _ _ E2) as (_ & _ & _ & Q4 & Q5). cbn in Q4, Q5.
      rewrite (bind_ok _ _ _ _ _ E2). eexists. split; [reflexivity|]. split; [reflexivity|]. split; cbn; try assumption; congruence.
    - assert (fires t = false) as Hf by (unfold fires; rewrite S2; reflexivity).
      rewrite (bind_ok _ _ _ _ _ (slow_counts t S6 S5 Hf)). eexists. split; [reflexivity|]. split; [reflexivity|]. now split. }
  rewrite (bind_ok _ _ _ _ _ E). cbn [snd fst]. destruct (IH t1 H1) as (t' & E' & Hw' & H'). exists t'. rewrite Hw', Hw. now split.
Qed.
End Silence.

(** ** Concrete connections *)

(** What a concrete run may do is decided by evaluation. *)
Ltac allowed_now := vm_compute; repeat split; first [discriminate | exact (fun H => H) | intros; discriminate | intros (? & ? & ? & ?); discriminate].

Definition ample : SendMem := {| ram_found _ _ := true; rom_found _ := true |}.
Definition fresh_timed : timed := mkTimed fresh_connection (rtx_start 1000).

(** A line is sent; the peer does not answer. *)
Definition one_line : list tevent := [TWrite (zeros 9) TCP_WRITE_FLAG_COPY; TFast].
Definition sent_line : timed :=
  match @t_run ample one_line [] fresh_timed with Ok (_, t) => t | _ => fresh_timed end.

Lemma sent_line_run : @t_run ample one_line [] fresh_timed = Ok ((zeros 9, false), sent_line).
Proof. vm_compute. reflexivity. Qed.

Lemma sent_line_waits : waiting 4294967290 (zeros 9) sent_line.
Proof.
  destruct (@t_run_flows ample 4294967290 one_line [] 0 0 0 fresh_timed (idle_flows _ _ fresh_idle) (start_in_range 1000 ltac:(lia)))
    as (h & b & k & a & n & t' & E & Hf & Hr).
  { allowed_now. }
  rewrite sent_line_run in E. injection E as <- <- <-. split; [now exists k, a, n|exact Hr|..]; vm_compute; intuition discriminate.
Qed.

(** It is given up after 4603 turns of the timer, 38 minutes. *)
Lemma silent_peer_given_up_witness :
  gives_up_in sent_line = 4603 /\
  (exists h t, @t_run ample (repeat TSlow (Z.to_nat 4602)) (zeros 9) sent_line = Ok ((h, false), t)) /\
  (exists h t, @t_run ample (repeat TSlow (Z.to_nat 4603)) (zeros 9) sent_line = Ok ((h, true), t)).
Proof.
  assert (gives_up_in sent_line = 4603) as Hg by (vm_compute; reflexivity).
  assert (forall j, Forall silent (repeat TSlow j) /\ filter is_slow (repeat TSlow j) = repeat TSlow j) as Hs.
  { induction j as [|j [IH1 IH2]]; cbn [repeat]; [now split|]. split; [now constructor|].
    now rewrite filter_cons_True, IH2 by done. }
  split; [exact Hg|]. split.
  - destruct (@silent_peer_given_up ample _ _ (repeat TSlow (Z.to_nat 4602)) _ sent_line_waits (proj1 (Hs _))) as (h & t & E & _).
    rewrite (proj2 (Hs _)), repeat_length, Hg, bool_decide_eq_false_2 in E by lia. eauto.
  - destruct (@silent_peer_given_up ample _ _ (repeat TSlow (Z.to_nat 4603)) _ sent_line_waits (proj1 (Hs _))) as (h & t & E & _).
    rewrite (proj2 (Hs _)), repeat_length, Hg, bool_decide_eq_true_2 in E by lia. eauto.
Defined.

(** The first retransmission starts a measurement at once, although the
    comment in [tcp_rexmit_rto] says that none is taken of it. *)
Lemma retransmission_is_measured :
  exists t, @t_run ample (repeat TSlow 6) (zeros 9) sent_line = Ok ((zeros 9, false), t) /\
  nrtx (t_rtx t) = 1 /\ rttest (t_rtx t) = tcp_ticks (t_rtx t) /\ rtseq (t_rtx t) = 4294967290.
Proof. eexists. split; [vm_compute; reflexivity|]. now vm_compute. Qed.

(** After twelve retransmissions the peer is there again, but has not seen
    what was sent: its third duplicate acknowledgement has the segment sent
    once more, the timer's test for the number twelve misses, and the next
    time-out reads beyond the table. *)
Definition comes_back : list tevent :=
  repeat TSlow (Z.to_nat 4602) ++ repeat (TAck 7 4294967290 5840 0 false) 3.

Lemma thirteenth_retransmission :
  (exists h t, @t_run ample comes_back (zeros 9) sent_line = Ok ((h, false), t) /\ nrtx (t_rtx t) = 13) /\
  @t_run ample (comes_back ++ repeat TSlow 768) (zeros 9) sent_line = Fault OutOfBounds.
Proof. split; [eexists _, _; split|]; vm_compute; reflexivity. Qed.

(** Writes, both timers, and acknowledgements, with memory failing once. *)
Definition timed_life : list tevent :=
  [TWrite (zeros 9) TCP_WRITE_FLAG_COPY; TFast; TSlow; TSlow; TWrite (zeros 1460) TCP_WRITE_FLAG_COPY; TWrite (zeros 5) 0; TOutput;
   TAck 7 3 5840 12 true; TSlow; TAck 8 1463 0 0 false] ++ repeat TSlow 20 ++ [TAck 9 1463 5840 0 false; TSlow].

Lemma timer_stays_in_range_witness :
  (@t_always scarce t_comes timed_life [] fresh_timed /\
   @t_always scarce (fun e t => ~ thirteenth e t) timed_life [] fresh_timed) /\
  exists hist b t', @t_run scarce timed_life [] fresh_timed = Ok ((hist, b), t') /\
    0 < rto (t_rtx t') < 2 ^ 15 /\ 3 <= estimate (t_rtx t') <= 253 /\
    0 <= nrtx (t_rtx t') <= TCP_MAXRTX /\ 0 <= persist_backoff (t_rtx t') <= 7 /\
    Forall (on_stream 4294967290 hist) (wire (t_snd t')).
Proof.
  assert (@t_always scarce t_comes timed_life [] fresh_timed) as Ha by allowed_now.
  assert (@t_always scarce (fun e t => ~ thirteenth e t) timed_life [] fresh_timed) as Hno by allowed_now.
  split; [now split|]. exact (@timer_stays_in_range scarce _ _ _ 1000 fresh_idle ltac:(lia) Ha Hno).
Defined.

Lemma run_result (h h' : list Z) (b b' : bool) (t t' : timed) :
  Ok ((h, b), t) = Ok ((h', b'), t') -> h = h' /\ t = t'.
Proof. now intros [= -> _ ->]. Qed.

(** The acknowledgement of the line closes the window before another line. *)
Definition closed_life : list tevent :=
  one_line ++ [TWrite (zeros 100) TCP_WRITE_FLAG_COPY; TAck 8 3 0 0 false].
Definition closed_line : timed :=
  match @t_run ample closed_life [] fresh_timed with Ok (_, t) => t | _ => fresh_timed end.

Lemma closed_window_probed_witness :
  probe_in (t_rtx closed_line) = 3 /\ exists k d t',
  @t_run ample (repeat TSlow (Z.to_nat 3)) (zeros 109) closed_line = Ok ((zeros 109, false), t') /\
  wire (t_snd t') = wire (t_snd closed_line) ++ [mkSeg (u32 (4294967290 + k)) TCP_ACK 0 1 [[d]]] /\ zeros 109 !! Z.to_nat k = Some d.
Proof.
  assert (@t_run ample closed_life [] fresh_timed = Ok ((zeros 109, false), closed_line)) as E0 by (vm_compute; reflexivity).
  assert (probe_in (t_rtx closed_line) = 3) as Hp by (vm_compute; reflexivity). split; [exact Hp|].
  destruct (@t_run_flows ample 4294967290 closed_life [] 0 0 0 fresh_timed (idle_flows _ _ fresh_idle) (start_in_range 1000 ltac:(lia)))
    as (h & b & k & a & n & t' & E & Hf & Hr).
  { clear. allowed_now. }
  rewrite E0 in E. destruct (run_result _ _ _ _ _ _ E) as [<- <-].
  assert (nrtx (t_rtx closed_line) <> TCP_MAXRTX) as H1 by (vm_compute; discriminate).
  assert (0 < persist_backoff (t_rtx closed_line)) as H2 by (vm_compute; reflexivity).
  assert (in_flight (t_snd closed_line) <> []) as H3 by (vm_compute; discriminate).
  destruct (@closed_window_probed ample _ _ _ _ _ _ Hf Hr H1 H2 H3 eq_refl) as (t' & d & g & rest & _ & R & Hw & Hd & _).
  rewrite Hp in R. exists k, d, t'. split; [exact R|]. split; [exact Hw|exact Hd].
Defined.

(** The acknowledgement leaves a window of five bytes, the next line has
    nine. *)
Definition narrow_life : list tevent :=
  one_line ++ [TAck 8 3 5 0 false; TWrite (zeros 9) TCP_WRITE_FLAG_COPY].
Definition narrow_line : timed :=
  match @t_run ample narrow_life [] fresh_timed with Ok (_, t) => t | _ => fresh_timed end.

Lemma small_window_stalls_witness :
  too_small narrow_line /\ exists t', @t_run ample (repeat TSlow 1000) (zeros 18) narrow_line = Ok ((zeros 18, false), t') /\
    wire (t_snd t') = wire (t_snd narrow_line) /\ too_small t'.
Proof.
  assert (too_small narrow_line) as H by (split; vm_compute; (reflexivity || discriminate)).
  split; [exact H|]. apply (@small_window_stalls ample (repeat TSlow 1000) (zeros 18) narrow_line H).
  apply Forall_forall. intros e He. right. right. exact (repeat_spec _ _ _ (proj1 (list_elem_of_In _ _) He)).
Defined.
