(* ===== verification/TcpReply.v ===== *)
(** * TcpReply: which replies a connection takes whole

    The firmware writes a reply in many pieces and looks at no result.  On a
    connection with nothing outstanding, and with memory, the pieces are
    packed into full segments, so that all of them fit as long as together
    they fit the send buffer; whatever comes after that is lost. *)

From Stdlib Require Import ZArith Lia.
From stdpp Require Import base numbers list.
From S2P Require Import Prelude LwipMem Pbuf Tcp TcpOut TcpStream TcpFlow TcpRun.
#[local] Open Scope c_scope.

Abbreviation COPY := TCP_WRITE_FLAG_COPY.

Section Reply.
Context `{SM : SendMem}.
Hypothesis memory : forall n size, ram_found n size = true.

Definition nodelay (s : sender) : bool := truthy (pcb_flags s &&& TF_NODELAY).

(** The room that [tcp_pbuf_prealloc] leaves. *)
Lemma prealloc_room len max first s :
  nodelay s = false -> 0 <= len <= max -> max <= TCP_MSS ->
  tcp_pbuf_prealloc len max COPY first s =
    Ok (Some (if negb first || negb (bool_decide (unsent (queues s) = [])) || negb (bool_decide (unacked (queues s) = [])) then max - len else 0),
        with_allocs (S (allocs s)) s).
Proof.
  intros Hn Hlen Hmax. unfold nodelay in Hn. unfold tcp_pbuf_prealloc, ram_malloc, counted. mred. rewrite memory, Hn. change (truthy (COPY &&& TCP_WRITE_FLAG_MORE)) with false. cbn [orb andb negb].
  do 3 f_equal. pose proof (align_size (len + TCP_OVERSIZE)). change TCP_OVERSIZE with TCP_MSS in *.
  destruct (Z.ltb_spec len max); [|destruct (_ || _); lia]. destruct (_ || _); [|lia]. rewrite Z.min_l by lia. reflexivity.
Qed.

(** The last segment is filled up. *)
Lemma extend_last_full d m mss l g s :
  d <> [] -> unsent (queues s) = l ++ [g] -> plain mss g -> m <= mss -> m <= TCP_MSS -> nodelay s = false ->
  0 <= unsent_oversize (queues s) -> seg_len g + unsent_oversize (queues s) <= m ->
  0 <= snd_queuelen (queues s) < TCP_SND_QUEUELEN ->
  unsent_oversize (queues s) = 0 \/ seg_len g + unsent_oversize (queues s) = m ->
  exists ph n, extend_last d COPY m s = Ok (Some ph, with_allocs n s) /\
    seg_len g + ph_pos ph + ph_oversize ph = m /\
    (seg_len g + unsent_oversize (queues s) = m -> ph_queuelen ph = snd_queuelen (queues s)).
Proof.
  intros Hd Hu Hg Hm Hmss Hnd Ho Hroom Hql Htail. change TCP_SND_QUEUELEN with 8 in Hql. assert (TCP_MSS < 2 ^ 16) by (now compute).
  unfold extend_last. erewrite bind_ok by reflexivity. rewrite Hu, last_snoc. pose proof Hg as [G1 G2 G3 G4].
  rewrite G1. change (LWIP_TCP_OPT_LENGTH 0) with 0. rewrite Z.add_0_r, (wrap_small 16 (m - seg_len g)) by lia.
  set (len := Z.of_nat (length d)). set (over := unsent_oversize (queues s)) in *.
  assert (0 < len) as Hlen by (subst len; destruct d; [done|cbn; lia]).
  destruct (Z.ltb_spec 0 over) as [Hpos|Hz].
  - destruct Htail as [Htail|Htail]; [lia|]. set (used := if over <? len then over else len).
    assert (0 <= used <= len /\ used <= over /\ (used < len -> used = over)) as (? & ? & Hused) by (subst used; destruct (Z.ltb_spec over len); lia). clearbody used.
    rewrite (wrap_small 16 (m - seg_len g - used)) by lia. cbv beta iota zeta.
    destruct (Z.ltb_spec used len); cbn [andb].
    + specialize (Hused ltac:(lia)). subst used. destruct (Z.ltb_spec 0 (m - seg_len g - over)); [lia|]. cbn [andb].
      eexists _, (allocs s). split; [now destruct s|]. cbn [ph_pos ph_oversize ph_queuelen]. lia.
    + eexists _, (allocs s). split; [now destruct s|]. cbn [ph_pos ph_oversize ph_queuelen]. lia.
  - assert (over = 0) as Hover by lia. cbv beta iota zeta. destruct (Z.ltb_spec 0 len); [|lia]. cbn [andb].
    destruct (Z.ltb_spec 0 (m - seg_len g)); cbn [andb].
    2: { eexists _, (allocs s). split; [now destruct s|]. cbn [ph_pos ph_oversize ph_queuelen]. lia. }
    destruct (Z.ltb_spec 0 (seg_len g)); [|lia]. rewrite Z.sub_0_r.
    set (seglen := if _ <? len then _ else _). assert (0 < seglen <= m - seg_len g) as S1 by (subst seglen; destruct (Z.ltb_spec (m - seg_len g) len); lia). clearbody seglen.
    change (truthy (COPY &&& TCP_WRITE_FLAG_COPY)) with true. cbv iota.
    rewrite (bind_ok _ _ _ _ _ (prealloc_room seglen (m - seg_len g) true s Hnd ltac:(lia) ltac:(lia))). rewrite Hu.
    rewrite (bool_decide_eq_false_2 (l ++ [g] = [])) by (now destruct l). cbn [negb orb].
    eexists _, _. split; [reflexivity|]. cbn [ph_pos ph_oversize ph_queuelen]. lia.
Qed.

(** New segments are full but for the last, which has room behind it unless
    it is the only one. *)
Lemma new_segments_full fuel j d m queue over pos ql s :
  nodelay s = false -> 0 < m <= TCP_MSS -> 0 <= pos <= Z.of_nat (length d) ->
  Z.of_nat (length d) - pos <= Z.of_nat j * m -> Z.of_nat j <= seg_free s -> 0 <= ql -> ql + Z.of_nat j <= TCP_SND_QUEUELEN -> (j < fuel)%nat ->
  exists l over' n, new_segments fuel d COPY m queue over pos ql s =
      Ok (true, queue ++ l, over', ql + Z.of_nat (length l), with_mem n (seg_free s - Z.of_nat (length l)) (pcb_flags s) s) /\
    (length l <= j)%nat /\ (pos < Z.of_nat (length d) -> l <> []) /\ (l = [] -> over' = over) /\
    forall l' g, l = l' ++ [g] -> Forall (fun h => seg_len h = m) l' /\
      (seg_len g + over' = m \/ over' = 0 /\ l' = [] /\ queue = [] /\ unsent (queues s) = []).
Proof.
  intros Hnd Hm. assert (TCP_MSS < 2 ^ 16) as H16 by (now compute). change TCP_SND_QUEUELEN with 8. revert j queue over pos ql s Hnd.
  induction fuel as [|fuel IH]; intros j queue over pos ql s Hnd Hpos Hj Hfree Hql Hlim Hfuel; [lia|]. cbn [new_segments].
  destruct (Z.ltb_spec pos (Z.of_nat (length d))).
  2: { exists [], over, (allocs s). rewrite app_nil_r. cbn [length]. rewrite Z.add_0_r, Z.sub_0_r. split; [now destruct s|]. split; [lia|]. split; [lia|]. split; [done|].
       intros l' g E. now destruct l'. }
  destruct j as [|j]; [lia|].
  set (seglen := if m <? _ then m else _). assert (0 < seglen <= m /\ pos + seglen <= Z.of_nat (length d) /\ (seglen < m -> pos + seglen = Z.of_nat (length d))) as (Hsl & Hsd & Hlast)
    by (subst seglen; destruct (Z.ltb_spec m (Z.of_nat (length d) - pos)); lia).
  pose proof (length_slice pos seglen d ltac:(lia) ltac:(lia) Hsd) as Hls. set (sl := slice pos seglen d) in *. clearbody seglen.
  erewrite (bind_ok (gets _)) by reflexivity. change (truthy (COPY &&& TCP_WRITE_FLAG_COPY)) with true. cbv iota. rewrite bind_assoc.
  rewrite (bind_ok _ _ _ _ _ (prealloc_room seglen m (bool_decide (queue = [])) s Hnd ltac:(lia) ltac:(lia))).
  set (over1 := if negb _ || _ || _ then m - seglen else 0). erewrite (bind_ok (mret _)) by reflexivity. cbv iota.
  change (pbuf_clen [sl]) with 1. rewrite (wrap_small 16) by lia. change TCP_SND_QUEUELEN with 8. change TCP_SNDQUEUELEN_OVERFLOW with 65532.
  destruct (Z.ltb_spec 8 (ql + 1)); [lia|]. destruct (Z.ltb_spec 65532 (ql + 1)); [lia|]. cbn [orb].
  assert (tcp_create_segment [sl] 0 (u32 (snd_lbb (queues s) + pos)) 0 (with_allocs (S (allocs s)) s) =
    Ok (Some (mkSeg (u32 (snd_lbb (queues s) + pos)) 0 0 seglen [sl]), with_mem (S (allocs s)) (seg_free s - 1) (pcb_flags s) s)) as Ec.
  { unfold tcp_create_segment. mred. cbn [with_allocs seg_free]. destruct (Z.eqb_spec (seg_free s) 0); [lia|]. cbn [concat]. rewrite app_nil_r, Hls, (wrap_small 16) by lia. reflexivity. }
  rewrite (bind_ok _ _ _ _ _ Ec). clear Ec. set (g := mkSeg _ _ _ _ _). set (s1 := with_mem _ _ _ s).
  destruct (IH j (queue ++ [g]) over1 (pos + seglen) (ql + 1) s1 Hnd ltac:(lia) ltac:(destruct (Z.eq_dec seglen m); nia) ltac:(change (Z.of_nat j <= seg_free s - 1); lia) ltac:(lia) ltac:(lia) ltac:(lia))
    as (l & over' & n & E & K1 & K2 & K3 & K4). rewrite E. exists (g :: l), over', n. cbn [length]. rewrite <- app_assoc. split; [|split; [lia|split; [done|split; [done|]]]].
  - replace (ql + Z.of_nat (S (length l))) with (ql + 1 + Z.of_nat (length l)) by lia. replace (seg_free s - Z.of_nat (S (length l))) with (seg_free s - 1 - Z.of_nat (length l)) by lia. reflexivity.
  - intros l' g' El. destruct l as [|h l].
    + destruct l' as [|? l']; [|now destruct l']. injection El as <-. split; [done|]. rewrite (K3 eq_refl). subst over1. change (seg_len g) with seglen.
      destruct (bool_decide_reflect (queue = [])), (bool_decide_reflect (unsent (queues s) = [])); cbn [negb orb]; destruct (bool_decide (unacked _ = [])); cbn [negb]; auto; left; lia.
    + destruct l' as [|h' l']; [now destruct l|]. injection El as <- El. destruct (K4 l' g' El) as [F [R|(_ & _ & R & _)]]; [|now destruct queue].
      split; [|now left]. constructor; [|exact F]. change (seg_len g) with seglen. destruct (Z.eq_dec seglen m) as [|Hne]; [done|]. exfalso.
      specialize (Hlast ltac:(lia)). destruct fuel; [lia|]. cbn [new_segments] in E. destruct (Z.ltb_spec (pos + seglen) (Z.of_nat (length d))); [lia|].
      injection E as E. rewrite <- app_assoc in E. apply app_inv_head in E. discriminate.
Qed.

(** *** Packed queues *)

(** All segments but the last are full; behind the last there is room, unless
    it is one fresh buffer. *)
Definition shape (m over : Z) (l : list tcp_seg) : Prop :=
  forall l' g, l = l' ++ [g] -> Forall (fun h => seg_len h = m) l' /\ (over = 0 /\ buffers l = 1 \/ seg_len g + over = m).

Lemma shape_mark m over f l : f &&& (TCP_FIN ||| TCP_SYN) = 0 -> shape m over l -> shape m over (on_last (set_hdr f) l).
Proof.
  intros Hf H. destruct (mark_last f m 0 l Hf) as (_ & _ & Hb & _). intros l' g E. rewrite Hb. destruct l as [|h l _] using rev_ind; [now destruct l'|].
  rewrite on_last_snoc in E. apply app_inj_tail in E as [<- <-]. exact (H l h eq_refl).
Qed.

Record packed (s : sender) : Prop := {
    pk_state : pcb_state s = ESTABLISHED \/ pcb_state s = CLOSE_WAIT;
    pk_nodelay : nodelay s = false;
    pk_unacked : unacked (queues s) = [];
    pk_shape : shape (mss_local s) (unsent_oversize (queues s)) (unsent (queues s));
    pk_bufs : buffers (unsent (queues s)) <= 1 + Z.of_nat (length (unsent (queues s)));
    pk_free : 2 <= seg_free s + Z.of_nat (length (unsent (queues s)));
  }.

Lemma full_total m mss x l : numbered mss x l -> Forall (fun h => seg_len h = m) l -> total l = m * Z.of_nat (length l).
Proof.
  revert x. induction l as [|g l IH]; intros x Hn Hf; [unfold total; cbn; lia|]. inversion_clear Hf. destruct Hn as (_ & Hg & Hn).
  rewrite total_cons, <- (pl_len _ _ Hg), (IH _ Hn) by assumption. cbn [length]. lia.
Qed.

(** The two first phases of a write to a packed queue, and the third. *)
Lemma packed_phases isn hist k a n d s :
  flowing isn hist k a n s -> packed s -> d <> [] -> total (unsent (queues s)) + Z.of_nat (length d) <= 2 * mss_local s ->
  exists ph n1 l over' n2 v,
    extend_last d COPY (mss_local s) s = Ok (Some ph, with_allocs n1 s) /\
    new_segments 10 d COPY (mss_local s) [] (ph_oversize ph) (ph_pos ph) (ph_queuelen ph) (with_allocs n1 s) =
      Ok (true, l, over', ph_queuelen ph + Z.of_nat (length l), with_mem n2 (seg_free s - Z.of_nat (length l)) (pcb_flags s) s) /\
    v = on_last (commit_last d ph) (unsent (queues s)) ++ l /\ length v = (length (unsent (queues s)) + length l)%nat /\
    (buffers v = ph_queuelen ph + Z.of_nat (length l) -> shape (mss_local s) over' v) /\
    ph_queuelen ph + Z.of_nat (length l) <= 1 + Z.of_nat (length v).
Proof.
  intros Hf [P1 P2 P3 P4 P5 P6] Hd Htot. pose proof (mss_local_range _ _ _ _ _ _ Hf) as Hm. pose proof (fl_queuelen _ _ _ _ _ _ Hf) as [Hql _].
  pose proof (fl_numbered _ _ _ _ _ _ Hf) as Hn. unfold in_flight in Hn, Hql. rewrite P3 in Hn, Hql. cbn [app] in Hn, Hql. set (m := mss_local s) in *.
  pose proof (fl_room _ _ _ _ _ _ Hf) as Hroom. destruct (unsent (queues s)) as [|g u _] eqn:Eu using rev_ind.
  - assert (extend_last d COPY m s = Ok (Some (mkPh 0 None 0 0 0), with_allocs (allocs s) s)) as E
      by (unfold extend_last; erewrite bind_ok by reflexivity; rewrite Eu, Hql; now destruct s).
    change (total []) with 0 in Htot. cbn [length] in P6.
    destruct (new_segments_full 10 2 d m [] 0 0 0 (with_allocs (allocs s) s) P2 ltac:(lia) ltac:(lia) ltac:(lia) ltac:(cbn; lia) ltac:(lia) ltac:(now compute) ltac:(lia))
      as (l & over' & n2 & E2 & K1 & K2 & K3 & K4).
    exists (mkPh 0 None 0 0 0), (allocs s), l, over', n2, l. split; [exact E|]. split; [exact E2|]. split; [reflexivity|]. split; [reflexivity|].
    cbn [ph_queuelen]. rewrite Z.add_0_l. split; [|lia]. intros Hb l' g El. destruct (K4 l' g El) as [F [R|(R1 & -> & _)]]; (split; [exact F|]); [now right|left].
    rewrite Hb, El. split; [exact R1|reflexivity].
  - unfold tail_room in Hroom. rewrite last_snoc in Hroom. destruct (P4 u g eq_refl) as [Ffull Htail]. apply numbered_app in Hn as [Hnu (_ & Hg & _)].
    pose proof (full_total _ _ _ _ Hnu Ffull) as Hfu. rewrite total_app, total_cons, <- (pl_len _ _ Hg), Hfu in Htot. change (total []) with 0 in Htot.
    pose proof (pl_range _ _ Hg) as Hlen. assert (0 < Z.of_nat (length d)) as Hd0 by (destruct d; [done|cbn; lia]). rewrite length_app in P5, P6. cbn [length] in P5, P6.
    assert (length u <= 1)%nat as Hu1 by (destruct (length u) as [|[|?]]; lia || nia).
    assert (0 <= buffers (u ++ [g])) as Hb0 by (unfold buffers; lia).
    assert (0 <= snd_queuelen (queues s) < TCP_SND_QUEUELEN) as Hqr by (change TCP_SND_QUEUELEN with 8; lia).
    destruct (extend_last_full d m m u g s Hd Eu Hg ltac:(lia) ltac:(lia) P2 ltac:(lia) ltac:(lia) Hqr ltac:(destruct Htail as [[? _]|?]; auto)) as (ph & n1 & E & Hfull & Hsame).
    destruct (extend_last_ok d COPY m m u g s Eu Hg ltac:(lia) ltac:(lia) ltac:(lia) ltac:(lia) ltac:(lia)) as (r & n1' & E' & Hx).
    rewrite E in E'. injection E' as <- _. specialize (Hx ph eq_refl). pose proof (extended_len _ _ _ _ _ _ _ Hx Hg) as El. destruct Hx as [X1 X2 X3 X4 X5 X6 X7 X8].
    set (j := if ph_pos ph <? Z.of_nat (length d) then (1 - length u)%nat else 0%nat).
    assert (Z.of_nat (length d) - ph_pos ph <= Z.of_nat j * m /\ (j <= 1 - length u)%nat /\ (ph_pos ph = Z.of_nat (length d) -> j = 0%nat)) as (Hj1 & Hj2 & Hj3).
    { subst j. destruct (Z.ltb_spec (ph_pos ph) (Z.of_nat (length d))); [|lia]. specialize (X6 ltac:(lia)). destruct (length u) as [|[|?]]; cbn; lia. }
    assert (ph_queuelen ph <= 1 + Z.of_nat (length u + 1)) as Hq.
    { destruct Htail as [[_ Hb]|Hr]; [|specialize (Hsame Hr)]; lia. }
    destruct (new_segments_full 10 j d m [] (ph_oversize ph) (ph_pos ph) (ph_queuelen ph) (with_allocs n1 s) P2 ltac:(lia) X1 Hj1 ltac:(cbn; lia) ltac:(lia) ltac:(change TCP_SND_QUEUELEN with 8; lia) ltac:(lia))
      as (l & over' & n2 & E2 & K1 & K2 & K3 & K4).
    exists ph, n1, l, over', n2, ((u ++ [commit_last d ph g]) ++ l). split; [exact E|]. split; [exact E2|]. rewrite on_last_snoc. split; [reflexivity|].
    split; [rewrite !length_app; cbn; lia|]. split; [|rewrite !length_app; cbn; lia]. intros _ l' h Eh.
    destruct l as [|h1 l1 _] using rev_ind.
    + rewrite app_nil_r in Eh. apply app_inj_tail in Eh as [<- <-]. split; [exact Ffull|right]. rewrite El, (K3 eq_refl). exact Hfull.
    + rewrite app_assoc in Eh. apply app_inj_tail in Eh as [<- <-]. destruct (K4 l1 h1 eq_refl) as [F1 [R|(_ & _ & _ & R)]].
      2: { exfalso. cbn in R. rewrite Eu in R. now destruct u. }
      split; [|now right]. apply Forall_app. split; [|exact F1]. apply Forall_app. split; [exact Ffull|]. apply Forall_singleton. rewrite El.
      assert (ph_pos ph < Z.of_nat (length d)) as Hlt by (destruct (Z.eq_dec (ph_pos ph) (Z.of_nat (length d))) as [Heq|]; [rewrite length_app in K1; cbn in K1; specialize (Hj3 Heq); lia|lia]).
      rewrite (X6 Hlt) in Hfull. lia.
Qed.

Lemma packed_few isn hist k a n s :
  flowing isn hist k a n s -> packed s -> total (unsent (queues s)) < 2 * mss_local s -> snd_queuelen (queues s) < TCP_SND_QUEUELEN.
Proof.
  intros Hf [P1 P2 P3 P4 P5 P6] Htot. pose proof (mss_local_range _ _ _ _ _ _ Hf) as Hm. destruct (fl_queuelen _ _ _ _ _ _ Hf) as [-> _].
  pose proof (fl_numbered _ _ _ _ _ _ Hf) as Hn. unfold in_flight in *. rewrite P3 in *. cbn [app] in *. change TCP_SND_QUEUELEN with 8.
  destruct (unsent (queues s)) as [|g u _] using rev_ind; [now compute|]. destruct (P4 u g eq_refl) as [F _]. apply numbered_app in Hn as [Hn _].
  rewrite total_app, (full_total _ _ _ _ Hn F) in Htot. pose proof (total_pos [g]). rewrite length_app in P5. cbn in P5. nia.
Qed.

Lemma checks_pass len s :
  pcb_state s = ESTABLISHED \/ pcb_state s = CLOSE_WAIT -> 0 < len <= snd_buf (queues s) -> 0 <= snd_queuelen (queues s) < TCP_SND_QUEUELEN ->
  tcp_write_checks len s = Ok (ERR_OK, s).
Proof.
  intros Hst Hlen Hq. unfold tcp_write_checks. mred. rewrite bool_decide_eq_true_2 by tauto. cbn [negb].
  destruct (Z.eqb_spec len 0); [lia|]. destruct (Z.ltb_spec (snd_buf (queues s)) len); [lia|]. change TCP_SND_QUEUELEN with 8 in *. change TCP_SNDQUEUELEN_OVERFLOW with 65532.
  destruct (Z.leb_spec 8 (snd_queuelen (queues s))); [lia|]. destruct (Z.ltb_spec 65532 (snd_queuelen (queues s))); [lia|reflexivity].
Qed.

Lemma packed_write isn hist k a n d s :
  flowing isn hist k a n s -> packed s -> d <> [] ->
  Z.of_nat (length hist) - k + Z.of_nat (length d) <= 2 * mss_local s -> Z.of_nat (length d) <= snd_buf (queues s) ->
  exists s', tcp_write d COPY s = Ok (ERR_OK, s') /\ flowing isn (hist ++ d) k a n s' /\ packed s' /\ mss_local s' = mss_local s.
Proof.
  intros Hf Hp Hd Htot Hbuf. pose proof (in_flight_total _ _ _ _ _ _ Hf) as Ht. unfold in_flight in Ht. rewrite (pk_unacked _ Hp) in Ht. cbn [app] in Ht.
  assert (0 < Z.of_nat (length d)) as Hd0 by (destruct d; [done|cbn; lia]).
  destruct (packed_phases isn hist k a n d s Hf Hp Hd ltac:(lia)) as (ph & n1 & l & over' & n2 & v & E1 & E2 & Ev & Hlv & Hshape & Hbufs).
  destruct (write_flows isn hist k a n d COPY s Hf Hd) as (err & s' & E & Hw).
  assert (0 <= snd_queuelen (queues s)) as Hq0 by (destruct (fl_queuelen _ _ _ _ _ _ Hf) as [-> _]; unfold buffers; lia).
  pose proof (packed_few _ _ _ _ _ _ Hf Hp ltac:(lia)) as Hq. pose proof (checks_pass (Z.of_nat (length d)) s (pk_state _ Hp) ltac:(lia) ltac:(lia)) as Ec.
  pose proof E as E0. unfold tcp_write in E. rewrite (bind_ok _ _ _ _ _ Ec) in E. change (negb (ERR_OK =? ERR_OK)) with false in E. cbv iota in E. erewrite bind_ok in E by reflexivity.
  fold (mss_local s) in E. rewrite (bind_ok _ _ _ _ _ E1) in E. change (S (S (Z.to_nat TCP_SND_QUEUELEN))) with 10%nat in E. rewrite (bind_ok _ _ _ _ _ E2) in E. cbv iota beta in E.
  erewrite bind_ok in E by reflexivity. cbv beta zeta in E. change (queues (with_mem _ _ _ s)) with (queues s) in E. rewrite <- Ev in E. set (u' := if _ && _ then on_last (set_hdr TCP_PSH) v else v) in E.
  assert (length u' = length v /\ buffers u' = buffers v /\ (shape (mss_local s) over' v -> shape (mss_local s) over' u')) as (Hl' & Hb' & Hs').
  { subst u'. destruct (_ && _); [|done]. destruct (mark_last TCP_PSH 0 0 v eq_refl) as (_ & _ & Hb & _). split; [|split; [exact Hb|now apply shape_mark]].
    destruct v as [|h v _] using rev_ind; [done|]. rewrite on_last_snoc, !length_app. reflexivity. }
  clearbody u'. injection E as <- Es. destruct Hw as [[_ Hw]|[[?|?] _]]; [|discriminate..].
  exists s'. split; [exact E0|]. split; [exact Hw|].
  pose proof (fl_queuelen _ _ _ _ _ _ Hw) as [Hql _]. unfold in_flight in Hql. subst s'. cbn in Hql. rewrite (pk_unacked _ Hp) in Hql. cbn [app] in Hql.
  rewrite Hb' in Hql. split; [|reflexivity]. destruct Hp as [P1 P2 P3 P4 P5 P6]. split; cbn.
  - exact P1.
  - exact P2.
  - exact P3.
  - apply Hs', Hshape. now symmetry.
  - lia.
  - lia.
Qed.

(** *** Whole replies *)

Abbreviation pieces ds := (map (fun d => Write d COPY) ds).

Lemma packed_writes isn hist k a n ds s :
  flowing isn hist k a n s -> packed s -> Forall (fun d => d <> []) ds ->
  Z.of_nat (length hist) - k + Z.of_nat (length (concat ds)) <= 2 * mss_local s -> Z.of_nat (length (concat ds)) <= snd_buf (queues s) ->
  exists s', run (pieces ds) hist s = Ok (hist ++ concat ds, s') /\ flowing isn (hist ++ concat ds) k a n s' /\ packed s' /\ mss_local s' = mss_local s.
Proof.
  revert hist s. induction ds as [|d ds IH]; intros hist s Hf Hp Hne Htot Hbuf; [exists s; cbn; now rewrite app_nil_r|].
  inversion_clear Hne as [|? ? Hd Hds]. cbn [concat] in *. rewrite length_app in Htot, Hbuf.
  destruct (packed_write isn hist k a n d s Hf Hp Hd ltac:(lia) ltac:(lia)) as (s1 & E & H1 & P1 & M1).
  cbn [map run happens]. rewrite bind_assoc, (bind_ok _ _ _ _ _ E). change (ERR_OK =? ERR_OK) with true. cbv iota. erewrite bind_ok by reflexivity.
  rewrite app_assoc, <- M1. apply IH; try assumption; rewrite ?M1, ?length_app; try lia.
  destruct (fl_buf _ _ _ _ _ _ H1) as [-> _]. destruct (fl_buf _ _ _ _ _ _ Hf) as [Hb _]. rewrite length_app. lia.
Qed.

(** A piece that does not fit is refused, and sets a flag. *)
Lemma refused_piece d s :
  pcb_state s = ESTABLISHED \/ pcb_state s = CLOSE_WAIT -> d <> [] -> snd_buf (queues s) < Z.of_nat (length d) ->
  tcp_write d COPY s = Ok (ERR_MEM, with_flags (pcb_flags s ||| TF_NAGLEMEMERR) s).
Proof.
  intros Hst Hd Hlen. unfold tcp_write, tcp_write_checks. mred. rewrite bool_decide_eq_true_2 by tauto. cbn [negb].
  destruct (Z.eqb_spec (Z.of_nat (length d)) 0); [destruct d; [done|cbn in *; lia]|]. destruct (Z.ltb_spec (snd_buf (queues s)) (Z.of_nat (length d))); [reflexivity|lia].
Qed.

(** Everything sent before is acknowledged, and the connection can take a
    reply: it is open both ways, or half closed by the peer. *)
Record ready (isn : Z) (hist : list Z) (s : sender) : Prop := {
    rd_run : exists es s0, idle isn s0 /\ allowed_run es [] s0 /\ run es [] s0 = Ok (hist, s);
    rd_flight : in_flight s = [];
    rd_state : pcb_state s = ESTABLISHED \/ pcb_state s = CLOSE_WAIT;
    rd_nodelay : nodelay s = false;
    rd_free : 2 <= seg_free s;
  }.

Lemma ready_packed isn hist s : ready isn hist s ->
  exists k n, flowing isn hist k k n s /\ packed s /\ k = Z.of_nat (length hist) /\ snd_buf (queues s) = TCP_SND_BUF.
Proof.
  intros [(es & s0 & Hi & Ha & E) Hfl Hst Hnd Hfree]. destruct (run_flows isn es [] 0 0 0 s0 (idle_flows _ _ Hi) Ha) as (hist' & k & a & n & s' & E' & Hf).
  rewrite E in E'. injection E' as <- <-. pose proof (in_flight_total _ _ _ _ _ _ Hf) as Ht. rewrite Hfl in Ht. change (total []) with 0 in Ht.
  unfold in_flight in Hfl. apply app_eq_nil in Hfl as [Hua Hu]. destruct (fl_buf _ _ _ _ _ _ Hf) as [Hb _]. pose proof (fl_range _ _ _ _ _ _ Hf).
  assert (a = k) as -> by lia. exists k, n. split; [exact Hf|]. split; [|lia]. split; try assumption; rewrite Hu; try (cbn; lia); [|now compute].
  intros l' g El. now destruct l'.
Qed.

(** C19: A reply is taken whole: on a connection that is ready, with memory,
    all pieces of a reply are accepted, however many they are, if together
    they fit the send buffer and two segments. *)
Theorem reply_taken_whole isn hist s ds :
  ready isn hist s -> Forall (fun d => d <> []) ds -> Z.of_nat (length (concat ds)) <= Z.min TCP_SND_BUF (2 * mss_local s) ->
  exists s', run (pieces ds) hist s = Ok (hist ++ concat ds, s').
Proof.
  intros Hr Hds Hlen. destruct (ready_packed _ _ _ Hr) as (k & n & Hf & Hp & -> & Hb).
  destruct (packed_writes isn hist _ _ n ds s Hf Hp Hds ltac:(lia) ltac:(lia)) as (s' & E & _). now exists s'.
Qed.

(** A longer reply arrives with a hole: the piece that does not fit is
    dropped, and the pieces after it that fit follow in its place. *)
Theorem long_reply_has_hole isn hist s ds d ds' :
  ready isn hist s -> Forall (fun d => d <> []) (ds ++ d :: ds') ->
  TCP_SND_BUF < Z.of_nat (length (concat ds)) + Z.of_nat (length d) ->
  Z.of_nat (length (concat ds)) + Z.of_nat (length (concat ds')) <= Z.min TCP_SND_BUF (2 * mss_local s) ->
  exists s', run (pieces (ds ++ d :: ds')) hist s = Ok (hist ++ concat ds ++ concat ds', s').
Proof.
  intros Hr Hds Hlong Hlen. destruct (ready_packed _ _ _ Hr) as (k & n & Hf & Hp & Hk & Hb). apply Forall_app in Hds as [Hds Hds']. inversion_clear Hds' as [|? ? Hd Hds2].
  destruct (packed_writes isn hist _ _ n ds s Hf Hp Hds ltac:(lia) ltac:(lia)) as (s1 & E1 & Hf1 & Hp1 & M1).
  rewrite map_app, run_app, (bind_ok _ _ _ _ _ E1). cbn [map run happens]. rewrite bind_assoc.
  destruct (fl_buf _ _ _ _ _ _ Hf1) as [Hb1 _]. rewrite length_app in Hb1.
  rewrite (bind_ok _ _ _ _ _ (refused_piece d s1 (pk_state _ Hp1) Hd ltac:(lia))). change (ERR_MEM =? ERR_OK) with false. cbv iota. erewrite bind_ok by reflexivity.
  pose proof (flowing_mem _ _ _ _ _ _ (allocs s1) (seg_free s1) (pcb_flags s1 ||| TF_NAGLEMEMERR) Hf1 (fl_free _ _ _ _ _ _ Hf1)) as Hf2.
  assert (packed (with_flags (pcb_flags s1 ||| TF_NAGLEMEMERR) s1)) as Hp2.
  { destruct Hp1 as [P1 P2 P3 P4 P5 P6]. split; try assumption. unfold nodelay in *. cbn. rewrite Z.land_lor_distr_l. change (TF_NAGLEMEMERR &&& TF_NODELAY) with 0. now rewrite Z.lor_0_r. }
  change (with_mem _ _ _ s1) with (with_flags (pcb_flags s1 ||| TF_NAGLEMEMERR) s1) in Hf2. rewrite app_assoc.
  destruct (packed_writes isn _ _ _ n ds' _ Hf2 Hp2 Hds2) as (s' & E & _).
  - change (mss_local (with_flags _ s1)) with (mss_local s1). rewrite M1, length_app. lia.
  - change (queues (with_flags _ s1)) with (queues s1). lia.
  - now exists s'.
Qed.
End Reply.

(** ** Concrete replies *)

Definition ample : SendMem := {| ram_found _ _ := true; rom_found _ := true |}.

(** Nine bytes were written, sent and acknowledged. *)
Definition first_reply : list event := [Write (zeros 9) COPY; Output; Ack 8 3 5840 0 false].

(** What holds of the connection after that. *)
Definition after_first (P : list Z -> sender -> Prop) : Prop :=
  match @run ample first_reply [] fresh_connection with Ok (hist, s) => P hist s | _ => False end.

Lemma after_first_ready (P : list Z -> sender -> Prop) :
  (forall hist s, @ready ample 4294967290 hist s -> mss_local s = 1460 -> P hist s) -> after_first P.
Proof.
  intros H. unfold after_first. destruct (@run ample first_reply [] fresh_connection) as [[hist s]| |] eqn:E; [|discriminate E..].
  pose proof E as E'. vm_compute in E'. injection E' as <- <-. apply H; [|reflexivity]. split.
  - exists first_reply, fresh_connection. split; [exact fresh_idle|]. split; [vm_compute; repeat split; discriminate|exact E].
  - reflexivity.
  - now left.
  - reflexivity.
  - vm_compute. discriminate.
Defined.

(** A reply of 2920 bytes in eleven pieces is taken. *)
Lemma reply_taken_whole_witness :
  let ds := repeat (zeros 150) 9 ++ [zeros 110; zeros 1460] in
  after_first (fun hist s => exists s', @run ample (map (fun d => Write d COPY) ds) hist s = Ok (hist ++ concat ds, s')).
Proof.
  intros ds. apply after_first_ready. intros hist s Hr Hm. apply (@reply_taken_whole ample (fun _ _ => eq_refl) 4294967290 hist s ds Hr).
  - subst ds. repeat constructor; discriminate.
  - rewrite Hm. vm_compute. discriminate.
Defined.

(** One of 2923 bytes loses the piece that would end at 2921. *)
Lemma long_reply_has_hole_witness :
  let ds := [zeros 5; zeros 3; zeros 1460] in let ds' := [zeros 2] in
  after_first (fun hist s => exists s', @run ample (map (fun d => Write d COPY) (ds ++ zeros 1453 :: ds')) hist s = Ok (hist ++ concat ds ++ concat ds', s')).
Proof.
  intros ds ds'. apply after_first_ready. intros hist s Hr Hm. apply (@long_reply_has_hole ample (fun _ _ => eq_refl) 4294967290 hist s ds (zeros 1453) ds' Hr).
  - subst ds ds'. repeat constructor; discriminate.
  - vm_compute. reflexivity.
  - rewrite Hm. vm_compute. discriminate.
Defined.
