(* ===== verification/Timing.v ===== *)
(** * Timing: the millisecond clock

    Models src/timing.c and the SysTick handler of src/interrupts.c: the
    variable [LocalTime], its increment by the interrupt, and [delay].  The
    interrupts that arrive between two reads of the clock are those of the
    environment's [ticks]; none arrives while interrupts are masked.  Shows
    for how long [delay] waits, that it ends, and that it does not wait at
    all when the end of the delay lies beyond the wrap of the clock. *)

From Stdlib Require Import ZArith Lia.
From stdpp Require Import base numbers list.
From S2P Require Import Prelude Hw.

Section Timing.
Context `{E : Env}.

Definition SYSTEMTICK_PERIOD_MS := 1.
Definition CORE_CLOCK_SPEED := 168000000.

Definition time_update : M hw unit :=
  modify (with_clock (fun c => mkClock (u32 (local_time c + SYSTEMTICK_PERIOD_MS)) (time_reads c))).

Definition SysTick_Handler : M hw unit := time_update.

(** A read of the volatile [LocalTime], after the interrupts that came
  since the last one. *)
Definition LocalTime : M hw Z := fun h =>
  let n := if primask h then O else ticks (time_reads (clock h)) in
  (for_each (seqZ 0 (Z.of_nat n)) (fun _ => SysTick_Handler);;
   modify (with_clock (fun c => mkClock (local_time c) (S (time_reads c))));;
   gets (fun h => local_time (clock h))) h.

Definition delay (nCount : Z) : M hw unit :=
  t ← LocalTime;
  let timingdelay := u32 (t + nCount) in
  while poll_fuel (t ← LocalTime; mret (t <? timingdelay)) (mret tt).

(** ** The clock at its reads *)

(** The interrupts that the [n]-th read of the clock finds, unmasked. *)
Definition after_time_read (h : hw) : hw :=
  let n := if primask h then O else ticks (time_reads (clock h)) in
  with_clock (fun c => mkClock (u32 (local_time c + Z.of_nat n)) (S (time_reads c))) h.

Lemma LocalTime_ok h :
  0 <= local_time (clock h) < 2 ^ 32 ->
  LocalTime h = Ok (local_time (clock (after_time_read h)), after_time_read h).
Proof.
  intros Hr. unfold LocalTime, after_time_read.
  generalize (if primask h then O else ticks (time_reads (clock h))) as n. intros n.
  rewrite (bind_ok _ _ _ tt
    (with_clock (fun c => mkClock (u32 (local_time c + Z.of_nat n)) (time_reads c)) h));
    [reflexivity|].
  induction n as [|n IH].
  - destruct h as [? ? ? ? [lt tr] ? ?]. cbn in *. unfold with_clock. cbn.
    now rewrite Z.add_0_r, wrap_small.
  - rewrite seqZ_S.
    rewrite for_each_app, (bind_ok _ _ _ _ _ IH).
    cbn [for_each]. erewrite bind_ok by reflexivity.
    unfold mret, M_ret, with_clock, SYSTEMTICK_PERIOD_MS. cbn -[Z.of_nat].
    rewrite wrap_add_l. do 5 f_equal. lia.
Qed.

Lemma after_time_read_range h :
  0 <= local_time (clock (after_time_read h)) < 2 ^ 32.
Proof. cbn. apply wrap_range. lia. Qed.

(** Only the clock changes at its reads. *)
Definition same_but_clock (h h' : hw) : Prop := exists c, h' = with_clock (fun _ => c) h.

Lemma same_but_clock_trans h1 h2 h3 :
  same_but_clock h1 h2 -> same_but_clock h2 h3 -> same_but_clock h1 h3.
Proof. intros [c1 ->] [c2 ->]. now exists c2. Qed.

Lemma same_but_clock_read h : same_but_clock h (after_time_read h).
Proof. eexists. reflexivity. Qed.

(** ** How long [delay] waits

  [SysTickSlow]: at most one interrupt comes between two polls (a poll
  takes a few cycles, the interrupts are a millisecond apart).
  [SysTickWithin k]: among any [k] polls one at least sees an interrupt. *)
Definition SysTickSlow : Prop := forall n, (ticks n <= 1)%nat.
Definition SysTickWithin (k : nat) : Prop :=
  forall n, exists m, (n <= m < n + k)%nat /\ (1 <= ticks m)%nat.

(** Until the interrupt comes, the polling loop stays where it is. *)
Lemma poll_until_tick n d target body_fuel h :
  primask h = false ->
  (forall m, (time_reads (clock h) <= m < time_reads (clock h) + d)%nat -> ticks m = O) ->
  ticks (time_reads (clock h) + d) = n ->
  0 <= local_time (clock h) < 2 ^ 32 -> local_time (clock h) < target ->
  exists h', same_but_clock h h' /\ time_reads (clock h') = (time_reads (clock h) + S d)%nat /\
    local_time (clock h') = u32 (local_time (clock h) + Z.of_nat n) /\
    while (S d + body_fuel) (t ← LocalTime; mret (t <? target)) (mret tt) h =
    (if local_time (clock h') <? target
     then while body_fuel (t ← LocalTime; mret (t <? target)) (mret tt) h'
     else Ok (tt, h')).
Proof.
  intros Hpm. revert h Hpm.
  induction d as [|d IH]; intros h Hpm Hz Hn Hr Hlt.
  - exists (after_time_read h). rewrite Nat.add_0_r in Hn.
    assert (Hlt' : local_time (clock (after_time_read h)) = u32 (local_time (clock h) + Z.of_nat n))
      by (cbn; now rewrite Hpm, Hn).
    split_and!; [apply same_but_clock_read|cbn; lia|done|].
    cbn [while Nat.add]. rewrite bind_assoc, (bind_ok _ _ _ _ _ (LocalTime_ok h Hr)).
    unfold mbind, M_bind, mret, M_ret. now destruct (_ <? target).
  - assert (Hz0 : ticks (time_reads (clock h)) = O) by (apply Hz; lia).
    assert (Hl1 : local_time (clock (after_time_read h)) = local_time (clock h)).
    { cbn. rewrite Hpm, Hz0, Z.add_0_r. now apply wrap_small. }
    assert (Hr1 : time_reads (clock (after_time_read h)) = S (time_reads (clock h))) by done.
    destruct (IH (after_time_read h)) as (h' & Hs & Htr & Hlt' & Hw).
    + done.
    + intros m Hm. apply Hz. rewrite Hr1 in Hm. lia.
    + rewrite Hr1. replace (S (time_reads (clock h)) + d)%nat
        with (time_reads (clock h) + S d)%nat by lia. done.
    + now rewrite Hl1.
    + now rewrite Hl1.
    + rewrite Hl1 in Hlt'. rewrite Hr1 in Htr.
      exists h'. split_and!; [eapply same_but_clock_trans; [apply same_but_clock_read|exact Hs]|lia|done|].
      rewrite <- Hw. cbn [while Nat.add].
      rewrite bind_assoc, (bind_ok _ _ _ _ _ (LocalTime_ok h Hr)), Hl1.
      unfold mbind at 1, M_bind at 1, mret at 1, M_ret at 1.
      destruct (Z.ltb_spec (local_time (clock h)) target); [|lia]. reflexivity.
Qed.

Lemma first_tick n k :
  (exists m, (n <= m < n + k)%nat /\ (1 <= ticks m)%nat) ->
  exists d, (d < k)%nat /\ (1 <= ticks (n + d))%nat /\
    (forall m, (n <= m < n + d)%nat -> ticks m = O).
Proof.
  revert n. induction k as [|k IH]; intros n (m & Hm & Ht); [lia|].
  destruct (ticks n) as [|t] eqn:En.
  - destruct (IH (S n)) as (d & Hd & Ht' & Hz).
    { exists m. assert (m <> n) by (intros ->; lia). split; [lia|done]. }
    exists (S d). split_and!; [lia| |].
    + replace (n + S d)%nat with (S n + d)%nat by lia. done.
    + intros m' Hm'. destruct (decide (m' = n)) as [->|]; [done|]. apply Hz. lia.
  - exists O. rewrite Nat.add_0_r. split_and!; [lia|lia|]. intros; lia.
Qed.

Lemma delay_loop k target left h fuel :
  SysTickSlow -> SysTickWithin k ->
  primask h = false -> 0 <= local_time (clock h) < 2 ^ 32 -> target < 2 ^ 32 ->
  local_time (clock h) + Z.of_nat left = target -> (0 < left)%nat -> (left * k <= fuel)%nat ->
  exists h', while fuel (t ← LocalTime; mret (t <? target)) (mret tt) h = Ok (tt, h') /\
    same_but_clock h h' /\ local_time (clock h') = target.
Proof.
  intros Hslow Hlive. revert h fuel.
  induction left as [|left IH]; intros h fuel Hpm Hr Ht Heq Hpos Hf; [lia|].
  destruct (first_tick _ k (Hlive (time_reads (clock h)))) as (d & Hd & Htick & Hz).
  assert (Hone : ticks (time_reads (clock h) + d) = 1%nat) by (specialize (Hslow (time_reads (clock h) + d)%nat); lia).
  replace fuel with (S d + (fuel - S d))%nat by nia.
  destruct (poll_until_tick 1 d target (fuel - S d) h Hpm Hz Hone Hr ltac:(lia))
    as (h1 & Hs1 & _ & Hl1 & Hw).
  rewrite Hw. clear Hw. rewrite wrap_small in Hl1 by lia.
  destruct (decide (left = O)) as [->|Hleft].
  - exists h1. destruct (Z.ltb_spec (local_time (clock h1)) target); [lia|].
    split_and!; [done|done|lia].
  - destruct (Z.ltb_spec (local_time (clock h1)) target); [|lia].
    destruct (IH h1 (fuel - S d)%nat) as (h2 & Hw2 & Hs2 & Hl2); try lia.
    + destruct Hs1 as [c ->]. exact Hpm.
    + exists h2. split_and!; [exact Hw2|now apply same_but_clock_trans with h1|done].
Qed.

(** ** Properties *)

(** With interrupts enabled, [delay(n)] ends and returns exactly at the
  tick [t + n], where [t] is the time it read first, as long as [t + n]
  does not wrap: given that at most one tick arrives between two polls and
  at least one in any [k] polls, [n * k] polls are enough. *)
Theorem delay_waits k n h :
  SysTickSlow -> SysTickWithin k ->
  primask h = false -> 0 <= local_time (clock h) < 2 ^ 32 ->
  let t := local_time (clock (after_time_read h)) in
  0 < n -> t + n < 2 ^ 32 -> (Z.to_nat n * k <= poll_fuel)%nat ->
  exists h', delay n h = Ok (tt, h') /\ local_time (clock h') = t + n /\ same_but_clock h h'.
Proof.
  intros Hslow Hlive Hpm Hr t Hn Ht Hf. unfold delay.
  rewrite (bind_ok _ _ _ _ _ (LocalTime_ok h Hr)). fold t.
  rewrite wrap_small by (pose proof (after_time_read_range h); fold t in H; lia).
  destruct (delay_loop k (t + n) (Z.to_nat n) (after_time_read h) poll_fuel)
    as (h' & Hw & Hs & Hl); try done; try (fold t; lia).
  - exact (after_time_read_range h).
  - exists h'. split_and!; [exact Hw|exact Hl|].
    eapply same_but_clock_trans; [apply same_but_clock_read|exact Hs].
Qed.

(** When [t + n] does not fit in 32 bits, [delay(n)] does not wait: it
  returns at its second look at the clock, whenever the clock has not
  meanwhile wrapped itself. *)
Theorem delay_wraps_at_once n h :
  0 <= local_time (clock h) < 2 ^ 32 -> 0 <= n < 2 ^ 32 -> (0 < poll_fuel)%nat ->
  let h1 := after_time_read h in
  let h2 := after_time_read h1 in
  2 ^ 32 <= local_time (clock h1) + n ->
  local_time (clock h1) <= local_time (clock h2) ->
  delay n h = Ok (tt, h2).
Proof.
  intros Hr Hn Hf h1 h2 Hw Hle. unfold delay.
  rewrite (bind_ok _ _ _ _ _ (LocalTime_ok h Hr)). fold h1.
  pose proof (after_time_read_range h) as Hr1. fold h1 in Hr1.
  destruct poll_fuel as [|fuel]; [lia|]. cbn [while].
  rewrite bind_assoc, (bind_ok _ _ _ _ _ (LocalTime_ok h1 Hr1)). fold h2.
  assert (Hu : u32 (local_time (clock h1) + n) = local_time (clock h1) + n - 2 ^ 32).
  { unfold wrap. replace (local_time (clock h1) + n)
      with (local_time (clock h1) + n - 2 ^ 32 + 1 * 2 ^ 32) at 1 by lia.
    rewrite Z.mod_add by lia. apply Z.mod_small. lia. }
  rewrite Hu. erewrite bind_ok by reflexivity.
  destruct (Z.ltb_spec (local_time (clock h2)) (local_time (clock h1) + n - 2 ^ 32)); [lia|done].
Qed.
End Timing.

Lemma delay_waits_witness :
  exists h', @delay plain_env 5 hw_reset = Ok (tt, h') /\ local_time (clock h') = 6.
Proof.
  destruct (@delay_waits plain_env 1 5 hw_reset) as (h' & H1 & H2 & _);
    [ intros n; apply le_n | intros n; exists n; split; [lia|apply le_n] | reflexivity | cbn; lia | lia | reflexivity
    | apply Nat.leb_le; reflexivity | ].
  exists h'. split; [exact H1|exact H2].
Defined.

(** The clock 1 ms before its wrap, with interrupts masked. *)
Definition late_hw : hw := with_primask true (with_clock (fun _ => mkClock 0xFFFFFFFF 0) hw_reset).

Lemma delay_wraps_at_once_witness :
  exists h', @delay plain_env 1000 late_hw = Ok (tt, h') /\ local_time (clock h') = 0xFFFFFFFF.
Proof.
  eexists. split.
  - apply (@delay_wraps_at_once plain_env 1000 late_hw);
      [ cbn; lia | lia | apply Nat.ltb_lt; reflexivity | vm_compute; discriminate | vm_compute; discriminate ].
  - reflexivity.
Defined.
