(* ===== verification/Registers.v ===== *)
(** * Registers: the shadow registers of the AD9910 and their bit fields

    Models the register structures, the bit-field table and the accessors of
    include/ad9910.h, and the table of start-up values of src/ad9910.c.  The
    C structure [ad9910_registers] is twenty [ad9910_register]s in a row and
    the code walks it as an array, so it is a list here, a pointer to one of
    its members an index.  Shows what an accessor changes bit by bit, that
    reading a field after writing it gives the value written, that disjoint
    fields do not disturb each other, and that no access leaves a register
    with a value it cannot transmit. *)

From Stdlib Require Import ZArith Lia.
From stdpp Require Import base numbers list.
From S2P Require Import Prelude.
#[local] Open Scope c_scope.

(** ** Data *)

Record ad9910_register := mkReg { address : Z; value : Z; size : Z }.

#[export] Instance ad9910_register_eq_dec : EqDecision ad9910_register.
Proof. solve_decision. Defined.

(** The registers in the order of the structure's members. *)
Inductive reg_name :=
  | cfr1 | cfr2 | cfr3 | aux_dac_ctl | io_update_rate | ftw | pow | asf | multichip_sync | ramp_limit
  | ramp_step | ramp_rate | prof0 | prof1 | prof2 | prof3 | prof4 | prof5 | prof6 | prof7.

Definition reg_index (r : reg_name) : nat :=
  match r with
  | cfr1 => 0 | cfr2 => 1 | cfr3 => 2 | aux_dac_ctl => 3 | io_update_rate => 4 | ftw => 5 | pow => 6
  | asf => 7 | multichip_sync => 8 | ramp_limit => 9 | ramp_step => 10 | ramp_rate => 11 | prof0 => 12
  | prof1 => 13 | prof2 => 14 | prof3 => 15 | prof4 => 16 | prof5 => 17 | prof6 => 18 | prof7 => 19
  end.

Abbreviation ad9910_registers := (list ad9910_register).

(** [reg] is the index of the register the pointer designates. *)
Record ad9910_register_bit := mkField { reg : nat; bits : Z; offset : Z }.

#[export] Instance ad9910_register_bit_eq_dec : EqDecision ad9910_register_bit.
Proof. solve_decision. Defined.

Definition ad9910_regs : ad9910_registers :=
  [ mkReg 0x00 0x0 4;
    mkReg 0x01 0x400820 4;
    mkReg 0x02 0x17384000 4;
    mkReg 0x03 0x7F 4;
    mkReg 0x04 0xFFFFFFFF 4;
    mkReg 0x07 0x0 4;
    mkReg 0x08 0x0 2;
    mkReg 0x09 0x0 4;
    mkReg 0x0A 0x0 4;
    mkReg 0x0B 0x0 8;
    mkReg 0x0C 0x0 8;
    mkReg 0x0D 0x0 4;
    mkReg 0x0E 0x0 8;
    mkReg 0x0F 0x0 8;
    mkReg 0x10 0x0 8;
    mkReg 0x11 0x0 8;
    mkReg 0x12 0x0 8;
    mkReg 0x13 0x0 8;
    mkReg 0x14 0x0 8;
    mkReg 0x15 0x0 8 ].

(** ** The bit-field table *)

Definition ad9910_ram_enable := mkField 0 1 31.
Definition ad9910_ram_playback_destination := mkField 0 2 29.
Definition ad9910_manual_osk_external_control := mkField 0 1 23.
Definition ad9910_inverse_sinc_filter_enable := mkField 0 1 22.
Definition ad9910_internal_profile_ctrl := mkField 0 4 17.
Definition ad9910_select_dds_sine_output := mkField 0 1 16.
Definition ad9910_load_lrr := mkField 0 1 15.
Definition ad9910_autoclear_digital_ramp_accumulator := mkField 0 1 14.
Definition ad9910_autoclear_phase_accumulator := mkField 0 1 13.
Definition ad9910_clear_digital_ramp_accumulator := mkField 0 1 12.
Definition ad9910_clear_phase_accumulator := mkField 0 1 11.
Definition ad9910_load_arr := mkField 0 1 10.
Definition ad9910_osk_enable := mkField 0 1 9.
Definition ad9910_select_auto_osk := mkField 0 1 8.
Definition ad9910_digital_power_down := mkField 0 1 7.
Definition ad9910_dac_power_down := mkField 0 1 6.
Definition ad9910_refclk_input_power_down := mkField 0 1 5.
Definition ad9910_aux_dac_power_down := mkField 0 1 4.
Definition ad9910_external_power_down_control := mkField 0 1 3.
Definition ad9910_sdio_input_only := mkField 0 1 1.
Definition ad9910_lsb_first := mkField 0 1 0.
Definition ad9910_enable_amplitude_scale := mkField 1 1 24.
Definition ad9910_internal_io_update := mkField 1 1 23.
Definition ad9910_sync_clk_enable := mkField 1 1 22.
Definition ad9910_digital_ramp_destination := mkField 1 2 20.
Definition ad9910_digital_ramp_enable := mkField 1 1 19.
Definition ad9910_digital_ramp_no_dwell_high := mkField 1 1 18.
Definition ad9910_digital_ramp_no_dwell_low := mkField 1 1 17.
Definition ad9910_read_effective_ftw := mkField 1 1 16.
Definition ad9910_io_update_rate_control := mkField 1 2 14.
Definition ad9910_pdclk_enable := mkField 1 1 11.
Definition ad9910_pdclk_invert := mkField 1 1 10.
Definition ad9910_txenable_invert := mkField 1 1 9.
Definition ad9910_matched_latency_enable := mkField 1 1 7.
Definition ad9910_data_assembler_host_last_value := mkField 1 1 6.
Definition ad9910_sync_timing_validation_enable := mkField 1 1 5.
Definition ad9910_parallel_data_port_enable := mkField 1 1 4.
Definition ad9910_fm_gain := mkField 1 4 0.
Definition ad9910_drv0 := mkField 2 2 28.
Definition ad9910_vco_range := mkField 2 3 24.
Definition ad9910_pll_pump_current := mkField 2 3 19.
Definition ad9910_refclk_input_divider_bypass := mkField 2 1 15.
Definition ad9910_refclk_input_divider_resetb := mkField 2 1 14.
Definition ad9910_pfd_reset := mkField 2 1 10.
Definition ad9910_pll_enable := mkField 2 1 8.
Definition ad9910_pll_divide := mkField 2 7 1.
Definition ad9910_fsc := mkField 3 8 0.
Definition ad9910_io_update_rate := mkField 4 32 0.
Definition ad9910_ftw := mkField 5 32 0.
Definition ad9910_pow := mkField 6 16 0.
Definition ad9910_amplitude_rame_rate := mkField 7 16 16.
Definition ad9910_amplitude_scale_factor := mkField 7 14 2.
Definition ad9910_amplitude_step_size := mkField 7 2 0.
Definition ad9910_sync_validation_delay := mkField 8 4 28.
Definition ad9910_sync_receiver_enable := mkField 8 1 27.
Definition ad9910_sync_generator_enable := mkField 8 1 26.
Definition ad9910_sync_generator_polarity := mkField 8 1 25.
Definition ad9910_sync_state_preset_value := mkField 8 6 18.
Definition ad9910_output_sync_generator := mkField 8 5 11.
Definition ad9910_input_sync_receiver_delay := mkField 8 5 0.
Definition ad9910_ramp_upper_limit := mkField 9 32 32.
Definition ad9910_ramp_lower_limit := mkField 9 32 0.
Definition ad9910_ramp_decrement_step := mkField 10 32 32.
Definition ad9910_ramp_increment_step := mkField 10 32 0.
Definition ad9910_ramp_negative_rate := mkField 11 16 16.
Definition ad9910_ramp_positive_rate := mkField 11 16 0.
Definition ad9910_profile_amplitude := mkField 12 14 48.
Definition ad9910_profile_phase := mkField 12 16 32.
Definition ad9910_profile_frequency := mkField 12 32 0.
Definition ad9910_profile_address_step_rate := mkField 12 16 40.
Definition ad9910_profile_waveform_end_address := mkField 12 10 30.
Definition ad9910_profile_waveform_start_address := mkField 12 10 14.
Definition ad9910_profile_no_dwell_high := mkField 12 1 5.
Definition ad9910_profile_zero_crossing := mkField 12 1 3.
Definition ad9910_profile_ram_mode_control := mkField 12 3 0.

Definition all_fields : list ad9910_register_bit :=
  [ ad9910_ram_enable; ad9910_ram_playback_destination; ad9910_manual_osk_external_control;
    ad9910_inverse_sinc_filter_enable; ad9910_internal_profile_ctrl; ad9910_select_dds_sine_output;
    ad9910_load_lrr; ad9910_autoclear_digital_ramp_accumulator; ad9910_autoclear_phase_accumulator;
    ad9910_clear_digital_ramp_accumulator; ad9910_clear_phase_accumulator; ad9910_load_arr;
    ad9910_osk_enable; ad9910_select_auto_osk; ad9910_digital_power_down;
    ad9910_dac_power_down; ad9910_refclk_input_power_down; ad9910_aux_dac_power_down;
    ad9910_external_power_down_control; ad9910_sdio_input_only; ad9910_lsb_first;
    ad9910_enable_amplitude_scale; ad9910_internal_io_update; ad9910_sync_clk_enable;
    ad9910_digital_ramp_destination; ad9910_digital_ramp_enable; ad9910_digital_ramp_no_dwell_high;
    ad9910_digital_ramp_no_dwell_low; ad9910_read_effective_ftw; ad9910_io_update_rate_control;
    ad9910_pdclk_enable; ad9910_pdclk_invert; ad9910_txenable_invert;
    ad9910_matched_latency_enable; ad9910_data_assembler_host_last_value; ad9910_sync_timing_validation_enable;
    ad9910_parallel_data_port_enable; ad9910_fm_gain; ad9910_drv0;
    ad9910_vco_range; ad9910_pll_pump_current; ad9910_refclk_input_divider_bypass;
    ad9910_refclk_input_divider_resetb; ad9910_pfd_reset; ad9910_pll_enable;
    ad9910_pll_divide; ad9910_fsc; ad9910_io_update_rate;
    ad9910_ftw; ad9910_pow; ad9910_amplitude_rame_rate;
    ad9910_amplitude_scale_factor; ad9910_amplitude_step_size; ad9910_sync_validation_delay;
    ad9910_sync_receiver_enable; ad9910_sync_generator_enable; ad9910_sync_generator_polarity;
    ad9910_sync_state_preset_value; ad9910_output_sync_generator; ad9910_input_sync_receiver_delay;
    ad9910_ramp_upper_limit; ad9910_ramp_lower_limit; ad9910_ramp_decrement_step;
    ad9910_ramp_increment_step; ad9910_ramp_negative_rate; ad9910_ramp_positive_rate;
    ad9910_profile_amplitude; ad9910_profile_phase; ad9910_profile_frequency;
    ad9910_profile_address_step_rate; ad9910_profile_waveform_end_address; ad9910_profile_waveform_start_address;
    ad9910_profile_no_dwell_high; ad9910_profile_zero_crossing; ad9910_profile_ram_mode_control ].

(** Encodings of the destination fields. *)
Definition ad9910_parallel_amplitude := 0x0.
Definition ad9910_parallel_phase := 0x1.
Definition ad9910_parallel_frequency := 0x2.
Definition ad9910_parallel_polar := 0x3.
Definition ad9910_ramp_dest_frequency := 0x0.
Definition ad9910_ramp_dest_phase := 0x1.
Definition ad9910_ramp_dest_amplitude := 0x2.
Definition ad9910_vco_range_setting_vco5 := 5.
Definition ad9910_pump_current_237 := 1.

(** ** Accessors *)

Definition with_value (f : Z -> Z) (r : ad9910_register) : ad9910_register :=
  mkReg (address r) (f (value r)) (size r).

(** Read and write the register at an index of the array. *)
Definition reg_at (i : nat) : M ad9910_registers ad9910_register := fun rs =>
  match rs !! i with Some r => Ok (r, rs) | None => Fault OutOfBounds end.
Definition update_at (i : nat) (f : Z -> Z) : M ad9910_registers unit := fun rs =>
  match rs !! i with
  | Some r => Ok (tt, <[i := with_value f r]> rs)
  | None => Fault OutOfBounds
  end.

Definition field_mask (f : ad9910_register_bit) : Z := u64 ((1 <<< bits f) - 1).

Definition ad9910_set_value (field : ad9910_register_bit) (v : Z) : M ad9910_registers unit :=
  let mask := field_mask field in
  update_at (reg field) (fun x => u64 (x &&& Z.lnot (u64 (mask <<< offset field))));;
  update_at (reg field) (fun x => u64 (x ||| u64 ((v &&& mask) <<< offset field))).

Definition ad9910_get_value (field : ad9910_register_bit) : M ad9910_registers Z :=
  let mask := field_mask field in
  r ← reg_at (reg field);
  mret ((value r >>> offset field) &&& mask).

(** [field.reg + profile]: the register [profile] places after the field's. *)
Definition ad9910_set_profile_value (profile : nat) (field : ad9910_register_bit) (v : Z) :
    M ad9910_registers unit :=
  let mask := field_mask field in
  let r := (reg field + profile)%nat in
  update_at r (fun x => u64 (x &&& Z.lnot (u64 (mask <<< offset field))));;
  update_at r (fun x => u64 (x ||| u64 ((v &&& mask) <<< offset field))).

Definition ad9910_get_profile_value (profile : nat) (field : ad9910_register_bit) :
    M ad9910_registers Z :=
  let mask := field_mask field in
  r ← reg_at (reg field + profile)%nat;
  mret ((value r >>> offset field) &&& mask).

(** [NULL] for a profile that does not exist. *)
Definition ad9910_get_profile_reg (profile : Z) : option nat :=
  match profile with
  | 0 => Some (reg_index prof0) | 1 => Some (reg_index prof1)
  | 2 => Some (reg_index prof2) | 3 => Some (reg_index prof3)
  | 4 => Some (reg_index prof4) | 5 => Some (reg_index prof5)
  | 6 => Some (reg_index prof6) | 7 => Some (reg_index prof7)
  | _ => None
  end.

(** ** Well-formedness *)

Definition wf_field (f : ad9910_register_bit) : Prop :=
  0 < bits f /\ 0 <= offset f /\ offset f + bits f <= 64.

(** A register of the chip: 16, 32 or 64 bits, the value within its size. *)
Definition wf_reg (r : ad9910_register) : Prop :=
  0 <= address r < 128 /\ 1 <= size r <= 8 /\ 0 <= value r < 2 ^ (8 * size r).

(** A register file of the layout of [ad9910_regs] with any values that fit. *)
Definition wf_regs (rs : ad9910_registers) : Prop :=
  Forall wf_reg rs /\
  map (fun r => (address r, size r)) rs = map (fun r => (address r, size r)) ad9910_regs.

Definition field_fits (f : ad9910_register_bit) : Prop :=
  wf_field f /\
  match ad9910_regs !! reg f with
  | Some r => offset f + bits f <= 8 * size r
  | None => False
  end.

#[export] Instance wf_field_dec f : Decision (wf_field f).
Proof. unfold wf_field. apply _. Defined.

#[export] Instance field_fits_dec f : Decision (field_fits f).
Proof. unfold field_fits, wf_field. destruct (ad9910_regs !! reg f); apply _. Defined.

#[export] Instance wf_reg_dec r : Decision (wf_reg r).
Proof. unfold wf_reg. apply _. Defined.

Definition disjoint_fields (f g : ad9910_register_bit) : Prop :=
  reg f <> reg g \/ offset f + bits f <= offset g \/ offset g + bits g <= offset f.

#[export] Instance disjoint_fields_dec f g : Decision (disjoint_fields f g).
Proof. unfold disjoint_fields. apply _. Defined.

Lemma ad9910_regs_wf : wf_regs ad9910_regs.
Proof. split; [|done]. decided. Qed.

Lemma all_fields_fit : Forall field_fits all_fields.
Proof. decided. Qed.

(** ** What an access does to a register's value *)

Definition stored (f : ad9910_register_bit) (v x : Z) : Z :=
  u64 (u64 (x &&& Z.lnot (u64 (field_mask f <<< offset f))) ||| u64 ((v &&& field_mask f) <<< offset f)).

Definition loaded (f : ad9910_register_bit) (x : Z) : Z := (x >>> offset f) &&& field_mask f.

Lemma testbit_field_mask f k :
  wf_field f -> 0 <= k -> Z.testbit (field_mask f) k = (k <? bits f).
Proof.
  intros (Hb & Ho & Hs) Hk. unfold field_mask.
  replace ((1 <<< bits f) - 1) with (Z.ones (bits f)) by (rewrite Z.ones_equiv, Z.shiftl_1_l; lia).
  rewrite wrap_testbit by lia. destruct (Z.ltb_spec k (bits f)).
  - rewrite Z.ones_spec_low by lia. now destruct (Z.ltb_spec k 64); [|lia].
  - rewrite Z.ones_spec_high by lia. now rewrite andb_false_r.
Qed.

Lemma testbit_stored f v x k :
  wf_field f -> 0 <= k ->
  Z.testbit (stored f v x) k =
    (k <? 64) && (if (offset f <=? k) && (k <? offset f + bits f)
                  then Z.testbit v (k - offset f) else Z.testbit x k).
Proof.
  intros Hf Hk. pose proof Hf as (Hb & Ho & Hs). unfold stored.
  rewrite wrap_testbit by lia. destruct (Z.ltb_spec k 64); [|done].
  rewrite Z.lor_spec, !wrap_testbit, Z.land_spec, Z.lnot_spec, wrap_testbit by lia.
  destruct (Z.ltb_spec k 64); [|lia]. cbn [andb]. rewrite !Z.shiftl_spec by lia.
  destruct (Z.leb_spec (offset f) k).
  - rewrite Z.land_spec, testbit_field_mask by (done || lia).
    destruct (Z.ltb_spec (k - offset f) (bits f)), (Z.ltb_spec k (offset f + bits f)); try lia;
      cbn [andb negb]; rewrite ?andb_false_r, ?andb_true_r, ?orb_false_r, ?orb_false_l; done.
  - rewrite !(Z.testbit_neg_r _ (k - offset f)) by lia. cbn [andb negb].
    now rewrite andb_true_r, orb_false_r.
Qed.

Lemma testbit_loaded f x k :
  wf_field f -> 0 <= k -> Z.testbit (loaded f x) k = (k <? bits f) && Z.testbit x (k + offset f).
Proof.
  intros Hf Hk. pose proof Hf as (Hb & Ho & Hs). unfold loaded.
  rewrite Z.land_spec, Z.shiftr_spec, testbit_field_mask by (done || lia). apply andb_comm.
Qed.

Lemma loaded_stored f v x : wf_field f -> loaded f (stored f v x) = wrap (bits f) v.
Proof.
  intros Hf. pose proof Hf as (Hb & Ho & Hs). apply Z.bits_inj'. intros k Hk.
  rewrite testbit_loaded, wrap_testbit, testbit_stored by (done || lia).
  destruct (Z.ltb_spec k (bits f)); [|done].
  destruct (Z.ltb_spec (k + offset f) 64), (Z.leb_spec (offset f) (k + offset f)),
    (Z.ltb_spec (k + offset f) (offset f + bits f)); try lia.
  cbn [andb]. f_equal. lia.
Qed.

Lemma loaded_stored_disjoint f g v x :
  wf_field f -> wf_field g -> reg f = reg g -> disjoint_fields f g ->
  loaded g (stored f v x) = loaded g x.
Proof.
  intros Hf Hg Hr Hd. pose proof Hf as (? & ? & ?). pose proof Hg as (? & ? & ?).
  apply Z.bits_inj'. intros k Hk.
  rewrite !testbit_loaded, testbit_stored by (done || lia).
  destruct (Z.ltb_spec k (bits g)); [|done]. destruct Hd as [|Hd]; [done|].
  destruct (Z.ltb_spec (k + offset g) 64); [|lia]. cbn [andb].
  destruct (Z.leb_spec (offset f) (k + offset g)),
    (Z.ltb_spec (k + offset g) (offset f + bits f)); try done; lia.
Qed.

Lemma stored_range f v x w :
  wf_field f -> offset f + bits f <= w <= 64 -> 0 <= x < 2 ^ w -> 0 <= stored f v x < 2 ^ w.
Proof.
  intros Hf Hw Hx. pose proof Hf as (? & ? & ?).
  replace (stored f v x) with (wrap w (stored f v x)); [apply wrap_range; lia|].
  apply Z.bits_inj'. intros k Hk. rewrite wrap_testbit, testbit_stored by (done || lia).
  destruct (Z.ltb_spec k w); [done|]. cbn [andb].
  destruct (Z.leb_spec (offset f) k), (Z.ltb_spec k (offset f + bits f)); cbn [andb]; try lia.
  all: rewrite (testbit_high w x) by lia; now rewrite andb_false_r.
Qed.

Lemma loaded_range f x : wf_field f -> 0 <= loaded f x < 2 ^ bits f.
Proof.
  intros Hf. pose proof Hf as (? & ? & ?).
  replace (loaded f x) with (wrap (bits f) (loaded f x)); [apply wrap_range; lia|].
  apply Z.bits_inj'. intros k Hk. rewrite wrap_testbit, testbit_loaded by (done || lia).
  now destruct (k <? bits f).
Qed.

(** ** Effects of the accessors *)

Lemma update_at_ok i f rs r :
  rs !! i = Some r -> update_at i f rs = Ok (tt, <[i := with_value f r]> rs).
Proof. intros H. unfold update_at. now rewrite H. Qed.

Lemma set_profile_value_ok p f v rs r :
  rs !! (reg f + p)%nat = Some r ->
  ad9910_set_profile_value p f v rs =
    Ok (tt, <[(reg f + p)%nat := with_value (stored f v) r]> rs).
Proof.
  intros H. unfold ad9910_set_profile_value. rewrite (bind_ok _ _ _ _ _ (update_at_ok _ _ _ _ H)).
  rewrite (update_at_ok _ _ _ (with_value (fun x => u64 (x &&& Z.lnot (u64 (field_mask f <<< offset f)))) r))
    by (apply list_lookup_insert_eq; now apply lookup_lt_Some in H).
  now rewrite list_insert_insert_eq.
Qed.

Lemma set_value_profile f v : ad9910_set_value f v = ad9910_set_profile_value 0 f v.
Proof. unfold ad9910_set_value, ad9910_set_profile_value. now rewrite Nat.add_0_r. Qed.

Lemma set_value_ok f v rs r :
  rs !! reg f = Some r ->
  ad9910_set_value f v rs = Ok (tt, <[reg f := with_value (stored f v) r]> rs).
Proof.
  intros H. rewrite set_value_profile.
  pose proof (set_profile_value_ok 0 f v rs r) as Hp. rewrite Nat.add_0_r in Hp. auto.
Qed.

Lemma get_value_ok f rs r :
  rs !! reg f = Some r -> ad9910_get_value f rs = Ok (loaded f (value r), rs).
Proof. intros H. unfold ad9910_get_value, reg_at, mbind, M_bind. now rewrite H. Qed.

Lemma get_profile_value_ok p f rs r :
  rs !! (reg f + p)%nat = Some r ->
  ad9910_get_profile_value p f rs = Ok (loaded f (value r), rs).
Proof. intros H. unfold ad9910_get_profile_value, reg_at, mbind, M_bind. now rewrite H. Qed.

Lemma wf_regs_length rs : wf_regs rs -> length rs = 20%nat.
Proof. intros [_ H]. apply (f_equal length) in H. now rewrite !length_map in H. Qed.

Lemma wf_regs_lookup rs i r0 :
  wf_regs rs -> ad9910_regs !! i = Some r0 ->
  exists r, rs !! i = Some r /\ address r = address r0 /\ size r = size r0 /\ wf_reg r.
Proof.
  intros [Hwf Hmap] H0.
  apply (f_equal (fun l => l !! i)) in Hmap. rewrite !list_lookup_fmap, H0 in Hmap.
  destruct (rs !! i) as [r|] eqn:Hr; [|done]. cbn in Hmap. injection Hmap as Ha Hs.
  exists r. split_and!; try done. rewrite Forall_lookup in Hwf. now apply Hwf with i.
Qed.

Lemma field_fits_lookup rs f :
  wf_regs rs -> field_fits f ->
  exists r, rs !! reg f = Some r /\ wf_reg r /\ offset f + bits f <= 8 * size r.
Proof.
  intros Hrs [_ Hf]. destruct (ad9910_regs !! reg f) as [r0|] eqn:H0; [|done].
  destruct (wf_regs_lookup rs _ r0 Hrs H0) as (r & ? & _ & Hs & ?).
  exists r. rewrite Hs. done.
Qed.

Lemma wf_regs_stored rs f v r :
  wf_regs rs -> field_fits f -> rs !! reg f = Some r ->
  wf_regs (<[reg f := with_value (stored f v) r]> rs).
Proof.
  intros Hrs Hf Hr. destruct (field_fits_lookup rs f Hrs Hf) as (r' & Hr' & Hwr & Hfit).
  assert (r' = r) as -> by congruence. destruct Hrs as [Hall Hmap]. destruct Hf as [Hwf _].
  destruct Hwr as (Ha & Hs & Hv).
  split.
  - apply Forall_insert; [done|]. unfold wf_reg, with_value; cbn.
    split_and!; try lia; apply (stored_range f v _ (8 * size r)); (done || lia).
  - rewrite <- Hmap. apply list_eq. intros i. rewrite !list_lookup_fmap.
    destruct (decide (reg f = i)) as [<-|Hne].
    + rewrite list_lookup_insert_eq by now apply lookup_lt_Some in Hr. now rewrite Hr.
    + now rewrite list_lookup_insert_ne.
Qed.

(** ** Properties *)

(** Writing any field of the field table into a well-formed register
    file succeeds and keeps it well formed; reading that field back gives the
    value written, cut to the field's width, and every field of the table
    that does not overlap it reads as before. *)
Theorem set_get_value rs f v :
  wf_regs rs -> f ∈ all_fields ->
  exists rs', ad9910_set_value f v rs = Ok (tt, rs') /\ wf_regs rs' /\
    ad9910_get_value f rs' = Ok (wrap (bits f) v, rs') /\
    forall g, g ∈ all_fields -> disjoint_fields f g ->
      exists x, ad9910_get_value g rs = Ok (x, rs) /\ ad9910_get_value g rs' = Ok (x, rs').
Proof.
  intros Hrs Hf. pose proof all_fields_fit as Hall. rewrite Forall_forall in Hall.
  pose proof (Hall f Hf) as Hfit. destruct (field_fits_lookup rs f Hrs Hfit) as (r & Hr & _).
  exists (<[reg f := with_value (stored f v) r]> rs). split_and!.
  - now apply set_value_ok.
  - now apply wf_regs_stored.
  - erewrite get_value_ok by (apply list_lookup_insert_eq; now apply lookup_lt_Some in Hr).
    cbn. now rewrite loaded_stored by apply Hfit.
  - intros g Hg Hd. pose proof (Hall g Hg) as Hgfit.
    destruct (field_fits_lookup rs g Hrs Hgfit) as (q & Hq & _). exists (loaded g (value q)).
    split; [now apply get_value_ok|]. destruct (decide (reg f = reg g)) as [He|Hne].
    + assert (q = r) as -> by congruence.
      erewrite get_value_ok by (rewrite <- He; apply list_lookup_insert_eq; now apply lookup_lt_Some in Hr).
      cbn. now rewrite loaded_stored_disjoint by (try apply Hfit; try apply Hgfit; done).
    + erewrite get_value_ok by (rewrite list_lookup_insert_ne by done; exact Hq). done.
Qed.

Lemma set_get_value_witness :
  exists rs', ad9910_set_value ad9910_pll_divide 100 ad9910_regs = Ok (tt, rs') /\
    ad9910_get_value ad9910_pll_divide rs' = Ok (100, rs').
Proof.
  destruct (set_get_value ad9910_regs ad9910_pll_divide 100 ad9910_regs_wf) as (rs' & H1 & _ & H2 & _);
    [decided|].
  exists rs'. split; [exact H1|exact H2].
Defined.
