(* ===== verification/Ad9910.v ===== *)
(** * Ad9910: driving the DDS chip

    Models src/ad9910.c and the inline functions of include/ad9910.h: sending
    a shadow register over the serial link, reading one back, the update
    strobe, the profile and parallel-port pins, the parallel playback loop,
    and the functions that program a tone, a ramp or the RAM.  The state is
    the peripherals together with the shadow registers.  The contract is with
    the chip at the other end of the wire, specified in [Module Chip] as a
    machine that consumes the trace of pin changes and SPI bytes. *)

From Stdlib Require Import ZArith Lia.
From stdpp Require Import base numbers list gmap.
From S2P Require Import Prelude Hw Gpio Spi Registers.
#[local] Open Scope c_scope.

Record dds := mkDds { dev : hw; regs : ad9910_registers }.

#[export] Program Instance dds_dev : Lens hw dds :=
  {| view := dev; over h d := mkDds h (regs d) |}.
Solve Obligations with (now intros; try match goal with d : dds |- _ => destruct d end).
#[export] Program Instance dds_regs : Lens ad9910_registers dds :=
  {| view := regs; over rs d := mkDds (dev d) rs |}.
Solve Obligations with (now intros; try match goal with d : dds |- _ => destruct d end).

Section Ad9910.
Context `{E : Env}.

(** ** Registers on the wire *)

Definition AD9910_INSTR_WRITE := 0x00.
Definition AD9910_INSTR_READ := 0x80.
Definition ad9910_ram_address := 0x16.

(** The [k]-th byte in memory of an unsigned integer. *)
Definition byte_of (v k : Z) : Z := u8 (v >>> (8 * k)).

(** The contents of [buf] that are sent; a register of more than eight
  bytes would be written past its end. *)
Definition ad9910_reg_buf (r : ad9910_register) : option (list Z) :=
  if 8 <? size r then None
  else Some (u8 (address r ||| AD9910_INSTR_WRITE) ::
             map (fun i => byte_of (value r) (size r - i)) (seqZ 1 (size r))).

Definition ad9910_update_reg (reg : nat) : M dds unit :=
  r ← zoom (reg_at reg);
  buf ← deref OutOfBounds (ad9910_reg_buf r);
  zoom (spi_write_multi buf (size r + 1));;
  zoom spi_wait.

(** [mask & (i << i)], on 32 bits. *)
Definition ad9910_update_multiple_regs (mask : Z) : M dds unit :=
  for_each (seqZ 0 32) (fun i =>
    when (truthy (mask &&& u32 (i <<< i))) (ad9910_update_reg (Z.to_nat i))).

Definition ad9910_update_profile_reg (profile : Z) : M dds unit :=
  ad9910_update_reg (reg_index prof0 + Z.to_nat profile)%nat.

Definition ad9910_update_matching_reg (field : ad9910_register_bit) : M dds unit :=
  ad9910_update_reg (reg field).

(** [for (i = 0; i < n; ++i) { out <<= 8; out |= spi_send_single(0); }] *)
Fixpoint read_bytes_be (n : nat) (out : Z) : M hw Z :=
  match n with
  | O => mret out
  | S n => b ← spi_send_single 0; read_bytes_be n (u64 (out <<< 8) ||| b)
  end.

Definition ad9910_read_register (reg : nat) : M dds Z :=
  r ← zoom (reg_at reg);
  zoom (spi_send_single (u8 (address r ||| AD9910_INSTR_READ)));;
  zoom (read_bytes_be (Z.to_nat (size r)) 0).

(** ** Pins *)

Definition ad9910_io_update : M dds unit :=
  zoom spi_wait;; zoom (gpio_set_high IO_UPDATE);; zoom (gpio_set_low IO_UPDATE).

Definition ad9910_enable_output (v : Z) : M dds unit :=
  zoom (gpio_set RF_SWITCH (b2z (truthy v))).

Definition ad9910_select_profile (profile : Z) : M dds unit :=
  zoom (gpio_set PROFILE_0 (profile &&& 0x1));;
  zoom (gpio_set PROFILE_1 (profile &&& 0x2));;
  zoom (gpio_set PROFILE_2 (profile &&& 0x4)).

Definition ad9910_select_parallel_target (mode : Z) : M dds unit :=
  zoom (gpio_set PARALLEL_F0 (mode &&& 0x1));;
  zoom (gpio_set PARALLEL_F1 (mode &&& 0x2)).

(** ** The parallel port *)

Definition ad9910_set_parallel (v : Z) : M dds unit := zoom (TM_GPIO_SetPortValue GPIOE v).

Definition ad9910_enable_parallel (mode : Z) : M dds unit :=
  zoom (ad9910_set_value ad9910_parallel_data_port_enable (b2z (truthy mode)));;
  ad9910_update_matching_reg ad9910_parallel_data_port_enable;;
  zoom (gpio_set TX_ENABLE (b2z (truthy mode))).

(** The body of the playback loop for the counter value [i]. *)
Definition execute_parallel_step (data : list Z) (len i : Z) : M dds unit :=
  sr ← zoom read_TIM2_SR;
  if truthy (sr &&& TIM_FLAG_Update) then
    zoom clear_TIM2_SR;;
    d ← deref OutOfBounds (data !! Z.to_nat (i mod len));
    ad9910_set_parallel d
  else mret tt.

Definition ad9910_execute_parallel (data : list Z) (len rep : Z) : M dds unit :=
  zoom (set_primask true);;
  d ← deref OutOfBounds (data !! O);
  ad9910_set_parallel d;;
  ad9910_enable_parallel 1;;
  zoom clear_TIM2_SR;;
  zoom (TIM2_enable true);;
  for_each (seqZ 0 (u32 (len * rep))) (execute_parallel_step data len);;
  zoom (TIM2_enable false);;
  zoom (set_primask false).

(** ** Tones, ramps and RAM *)

Definition set_profile_field (profile : Z) (f : ad9910_register_bit) (v : Z) : M dds unit :=
  zoom (ad9910_set_profile_value (Z.to_nat profile) f v).

Definition ad9910_set_frequency (profile freq : Z) : M dds unit :=
  set_profile_field profile ad9910_profile_frequency freq;;
  ad9910_update_profile_reg profile.

Definition ad9910_set_amplitude (profile ampl : Z) : M dds unit :=
  set_profile_field profile ad9910_profile_amplitude ampl;;
  ad9910_update_profile_reg profile.

Definition ad9910_set_phase (profile phase : Z) : M dds unit :=
  set_profile_field profile ad9910_profile_phase phase;;
  ad9910_update_profile_reg profile.

Definition ad9910_set_single_tone (profile freq ampl phase : Z) : M dds unit :=
  set_profile_field profile ad9910_profile_frequency freq;;
  set_profile_field profile ad9910_profile_phase phase;;
  set_profile_field profile ad9910_profile_amplitude ampl;;
  ad9910_update_profile_reg profile.

Definition ad9910_program_ramp (dest upper_limit lower_limit decrement_step increment_step
    negative_slope positive_slope no_dwell_high no_dwell_low : Z) : M dds unit :=
  zoom (ad9910_set_value ad9910_ramp_upper_limit upper_limit);;
  zoom (ad9910_set_value ad9910_ramp_lower_limit lower_limit);;
  zoom (ad9910_set_value ad9910_ramp_decrement_step decrement_step);;
  zoom (ad9910_set_value ad9910_ramp_increment_step increment_step);;
  zoom (ad9910_set_value ad9910_ramp_negative_rate negative_slope);;
  zoom (ad9910_set_value ad9910_ramp_positive_rate positive_slope);;
  zoom (ad9910_set_value ad9910_digital_ramp_destination dest);;
  zoom (ad9910_set_value ad9910_digital_ramp_enable 1);;
  zoom (ad9910_set_value ad9910_digital_ramp_no_dwell_high (b2z (truthy no_dwell_high)));;
  zoom (ad9910_set_value ad9910_digital_ramp_no_dwell_low (b2z (truthy no_dwell_low)));;
  ad9910_update_reg (reg_index ramp_limit);;
  ad9910_update_reg (reg_index ramp_step);;
  ad9910_update_reg (reg_index ramp_rate);;
  ad9910_update_reg (reg_index cfr2).

(** [ad9910_get_profile_reg(p)->value = v] *)
Definition set_reg_value (reg : option nat) (v : Z) : M dds unit :=
  i ← deref NullDeref reg; zoom (update_at i (fun _ => v)).

(** [data]: the bytes of the buffer the pointer designates. *)
Definition ad9910_program_ram (dest mode samples : Z) (data : list Z) : M dds unit :=
  if 1000 <? samples then mret tt else
  out ← zoom (gpio_get RF_SWITCH);
  zoom (gpio_set RF_SWITCH 0);;
  let prof := 0 in
  i ← deref NullDeref (ad9910_get_profile_reg prof);
  r ← zoom (reg_at i);
  let old_reg := value r in
  set_profile_field prof ad9910_profile_waveform_start_address 0;;
  set_profile_field prof ad9910_profile_waveform_end_address samples;;
  ad9910_update_profile_reg prof;;
  ad9910_io_update;;
  zoom (spi_send_single (ad9910_ram_address ||| AD9910_INSTR_WRITE));;
  zoom (spi_write_multi data (samples * 4));;
  set_reg_value (ad9910_get_profile_reg prof) old_reg;;
  ad9910_update_profile_reg prof;;
  ad9910_io_update;;
  zoom (gpio_set RF_SWITCH out).

(** ** Effects *)

(** What [ad9910_update_reg] puts on the wire: the address, then the value,
  most significant byte first. *)
Definition reg_wire (r : ad9910_register) : list Z :=
  u8 (address r) :: be_bytes (Z.to_nat (size r)) (value r).

Lemma byte_of_div v k : 0 <= k -> byte_of (v / 256) k = byte_of v (k + 1).
Proof.
  intros Hk. unfold byte_of. f_equal. rewrite !Z.shiftr_div_pow2 by lia.
  replace (8 * (k + 1)) with (8 + 8 * k) by lia.
  rewrite Z.pow_add_r by lia. change (2 ^ 8) with 256.
  now rewrite Z.div_div by lia.
Qed.

Lemma le_bytes_lookup n v k : (k < n)%nat -> le_bytes n v !! k = Some (byte_of v (Z.of_nat k)).
Proof.
  revert v k. induction n as [|n IH]; intros v k Hk; [lia|].
  destruct k as [|k]; cbn [le_bytes lookup list_lookup].
  - unfold byte_of. now rewrite Z.shiftr_0_r.
  - refine (eq_trans (IH (v / 256) k _) _); [lia|].
    rewrite byte_of_div by lia. do 2 f_equal. lia.
Qed.

Lemma be_bytes_seqZ n v :
  map (fun i => byte_of v (Z.of_nat n - i)) (seqZ 1 (Z.of_nat n)) = be_bytes n v.
Proof.
  apply list_eq_same_length with n; [now rewrite length_be_bytes| now rewrite length_map, length_seqZ, Nat2Z.id|].
  intros k x y Hk Hx Hy. unfold be_bytes in Hy.
  rewrite reverse_lookup in Hy by now rewrite length_le_bytes.
  rewrite length_le_bytes, le_bytes_lookup in Hy by lia.
  rewrite list_lookup_fmap, lookup_seqZ_lt in Hx by lia. cbn in Hx.
  injection Hx as <-. injection Hy as <-. f_equal. lia.
Qed.

Lemma ad9910_reg_buf_wire r :
  0 <= size r <= 8 -> ad9910_reg_buf r = Some (reg_wire r).
Proof.
  intros Hs. unfold ad9910_reg_buf, reg_wire, AD9910_INSTR_WRITE.
  destruct (Z.ltb_spec 8 (size r)); [lia|]. rewrite Z.lor_0_r. do 2 f_equal.
  rewrite <- be_bytes_seqZ. now rewrite Z2Nat.id by lia.
Qed.

Lemma length_reg_wire r : length (reg_wire r) = S (Z.to_nat (size r)).
Proof. cbn. now rewrite length_be_bytes. Qed.

Definition with_dev (f : hw -> hw) (d : dds) : dds := mkDds (f (dev d)) (regs d).

Lemma reg_at_dds i r d : regs d !! i = Some r -> zoom (reg_at i) d = Ok (r, d).
Proof. intros Hi. unfold zoom, reg_at. cbn. rewrite Hi. now destruct d. Qed.

Lemma ad9910_update_reg_ok i r d :
  regs d !! i = Some r -> 1 <= size r <= 8 ->
  ad9910_update_reg i d = Ok (tt, with_dev (after_bytes (reg_wire r)) d).
Proof.
  intros Hi Hs. unfold ad9910_update_reg.
  rewrite (bind_ok _ _ _ _ _ (reg_at_dds i r d Hi)).
  rewrite ad9910_reg_buf_wire by lia. cbn [deref].
  rewrite (bind_ok _ _ d (reg_wire r) d) by reflexivity.
  erewrite bind_ok.
  2:{ apply zoom_ok. apply spi_write_multi_ok. rewrite length_reg_wire. lia. }
  rewrite take_ge by (rewrite length_reg_wire; lia).
  erewrite zoom_ok by apply spi_wait_ok. 
  unfold with_dev. cbn [view over dds_dev dev regs]. now rewrite spi_idle_after_bytes.
Qed.

(** ** Reading a register back *)

(** The bytes the chip answers from the [n0]-th exchange on. *)
Definition answer (n0 n : nat) : list Z := map (fun k => u8 (miso k)) (seq n0 n).

Lemma read_bytes_be_ok n out h :
  read_bytes_be n out h =
    Ok (foldl (fun o b => u64 (o <<< 8) ||| b) out (answer (spi_count (spi1 h)) n),
        foldl (fun h b => after_byte b h) h (repeat 0 n)).
Proof.
  revert out h. induction n as [|n IH]; intros out h; [done|].
  cbn [read_bytes_be repeat foldl]. rewrite (bind_ok _ _ _ _ _ (spi_send_single_ok 0 h)), IH.
  reflexivity.
Qed.

(** No bit is lost while the accumulated value fits in 64 bits. *)
Lemma shift_in_of_be bs out :
  Forall is_byte bs -> 0 <= out < 2 ^ (64 - 8 * Z.of_nat (length bs)) ->
  foldl (fun o b => u64 (o <<< 8) ||| b) out bs = foldl (fun o b => 256 * o + b) out bs.
Proof.
  intros Hbs. revert out. induction Hbs as [|b bs Hb Hbs IH]; intros out Hout; [done|].
  unfold is_byte in Hb. cbn [length] in Hout.
  assert (Hlen : 8 * Z.of_nat (S (length bs)) <= 64).
  { destruct (Z.le_gt_cases (8 * Z.of_nat (S (length bs))) 64); [done|].
    rewrite Z.pow_neg_r in Hout; lia. }
  assert (E1 : 2 ^ (64 - 8 * Z.of_nat (length bs)) =
               256 * 2 ^ (64 - 8 * Z.of_nat (S (length bs)))).
  { change 256 with (2 ^ 8). rewrite <- Z.pow_add_r by lia. f_equal. lia. }
  assert (Hpow : 2 ^ (64 - 8 * Z.of_nat (length bs)) <= 2 ^ 64) by (apply Z.pow_le_mono_r; lia).
  assert (Es : u64 (out <<< 8) ||| b = 256 * out + b).
  { rewrite Z.shiftl_mul_pow2 by lia. change (2 ^ 8) with 256. rewrite wrap_small by lia.
    rewrite (Z.mul_comm out), <- Z.add_nocarry_lor; [done|].
    apply Z.bits_inj'. intros i Hi. rewrite Z.land_spec, Z.testbit_0_l.
    destruct (Z.ltb_spec i 8).
    - change 256 with (2 ^ 8). rewrite Z.mul_comm, Z.mul_pow2_bits_low by lia. done.
    - rewrite (testbit_high 8 b i) by lia. apply andb_false_r. }
  cbn [foldl]. rewrite Es. apply IH. rewrite E1. lia.
Qed.

Lemma answer_bytes n0 n : Forall is_byte (answer n0 n).
Proof. apply Forall_map, Forall_forall. intros k _. apply (wrap_range 8). lia. Qed.

Lemma ad9910_read_register_ok i r d :
  regs d !! i = Some r -> 0 <= address r < 128 -> 1 <= size r <= 8 ->
  ad9910_read_register i d =
    Ok (of_be (answer (S (spi_count (spi1 (dev d)))) (Z.to_nat (size r))),
        with_dev (after_bytes (u8 (address r ||| AD9910_INSTR_READ) :: repeat 0 (Z.to_nat (size r)))) d).
Proof.
  intros Hi Ha Hs. unfold ad9910_read_register.
  rewrite (bind_ok _ _ _ _ _ (reg_at_dds i r d Hi)).
  erewrite bind_ok by (apply zoom_ok, spi_send_single_ok).
  erewrite zoom_ok by apply read_bytes_be_ok.
  cbn [view over dds_dev dev regs]. unfold of_be. rewrite shift_in_of_be.
  - unfold with_dev, after_bytes. cbn [foldl]. now rewrite after_byte_idle.
  - apply answer_bytes.
  - unfold answer. rewrite length_map, length_seq, Z2Nat.id by lia. split; [lia|].
    apply Z.pow_pos_nonneg; lia.
Qed.

(** ** Parallel playback *)

(** The samples put on the port by the loop over the counter values [l]:
  one for each round that finds the update flag set. *)
Fixpoint played (data : list Z) (len : Z) (l : list Z) (flag : bool) (n : nat) : list Z :=
  match l with
  | [] => []
  | i :: l =>
      if flag || tim_uif n
      then match data !! Z.to_nat (i mod len) with Some v => [v] | None => [] end
           ++ played data len l false (S n)
      else played data len l false (S n)
  end.

Definition port_events (vs : list Z) : list event := map (fun v => EvPort GPIOE (u16 v)) vs.

Lemma set_port_value_ok v h :
  exists h', TM_GPIO_SetPortValue GPIOE v h = Ok (tt, h') /\
    trace h' = trace h ++ [EvPort GPIOE (u16 v)] /\ tim2 h' = tim2 h /\ primask h' = primask h.
Proof. now eexists. Qed.

Lemma playback_loop data len l d :
  0 < len -> len = Z.of_nat (length data) -> Forall (fun i => 0 <= i) l ->
  exists h', for_each l (execute_parallel_step data len) d = Ok (tt, mkDds h' (regs d)) /\
    trace h' = trace (dev d) ++
      port_events (played data len l (tim_flag (tim2 (dev d))) (tim_reads (tim2 (dev d)))) /\
    primask h' = primask (dev d).
Proof.
  intros Hlen Hl Hpos. revert d. induction Hpos as [|i l Hi Hpos IH]; intros d.
  { exists (dev d). destruct d. cbn. now rewrite app_nil_r. }
  cbn [for_each played].
  set (t := tim2 (dev d)). set (flag := tim_flag t || tim_uif (tim_reads t)).
  set (d1 := mkDds (with_tim (fun t => mkTim (tim_arr t) (tim_enabled t) flag (S (tim_reads t))) (dev d)) (regs d)).
  destruct (lookup_lt_is_Some_2 data (Z.to_nat (i mod len))) as [v Hv].
  { pose proof (Z.mod_pos_bound i len Hlen). lia. }
  rewrite Hv. destruct flag eqn:Ef.
  - set (d2 := mkDds (with_tim (fun t => mkTim (tim_arr t) (tim_enabled t) false (tim_reads t)) (dev d1)) (regs d)).
    destruct (set_port_value_ok v (dev d2)) as (h3 & E3 & T3 & M3 & P3).
    destruct (IH (mkDds h3 (regs d))) as (h' & E' & T' & P').
    exists h'. split_and!.
    + erewrite bind_ok; [exact E'|]. unfold execute_parallel_step.
      rewrite (bind_ok _ _ d TIM_FLAG_Update d1).
      2:{ unfold zoom, read_TIM2_SR. cbn [view over dds_dev]. fold t. fold flag. now rewrite Ef. }
      change (truthy (TIM_FLAG_Update &&& TIM_FLAG_Update)) with true. cbv iota.
      rewrite (bind_ok _ _ d1 tt d2) by done.
      rewrite Hv. erewrite bind_ok by reflexivity. unfold ad9910_set_parallel.
      now erewrite zoom_ok by exact E3.
    + rewrite T'. cbn [dev]. rewrite T3, M3. unfold port_events. cbn. now rewrite <- app_assoc.
    + rewrite P'. exact P3.
  - destruct (IH d1) as (h' & E' & T' & P').
    exists h'. split_and!; [|exact T'|exact P'].
    erewrite bind_ok; [exact E'|]. unfold execute_parallel_step.
    rewrite (bind_ok _ _ d 0 d1).
    2:{ unfold zoom, read_TIM2_SR. cbn [view over dds_dev]. fold t. fold flag. now rewrite Ef. }
    reflexivity.
Qed.

(** The events of a register write. *)
Definition spi_events (bs : list Z) : list event := map (fun b => EvSpi (u8 b)) bs.

Lemma execute_parallel_ok data rep d v r :
  data !! O = Some v -> regs d !! reg ad9910_parallel_data_port_enable = Some r -> 1 <= size r <= 8 ->
  let r' := with_value (stored ad9910_parallel_data_port_enable 1) r in
  let len := Z.of_nat (length data) in
  exists h', ad9910_execute_parallel data len rep d =
      Ok (tt, mkDds h' (<[reg ad9910_parallel_data_port_enable := r']> (regs d))) /\
    primask h' = false /\ tim_enabled (tim2 h') = false /\
    trace h' = trace (dev d) ++ [EvIrq false; EvPort GPIOE (u16 v)] ++ spi_events (reg_wire r') ++
      [EvSet (group TX_ENABLE) (u16 (1 <<< pin TX_ENABLE)); EvTim true] ++
      port_events (played data len (seqZ 0 (u32 (len * rep))) false (tim_reads (tim2 (dev d)))) ++
      [EvTim false; EvIrq true].
Proof.
  intros Hv Hr Hs r' len. set (f := ad9910_parallel_data_port_enable) in *.
  set (rs := <[reg f := r']> (regs d)). unfold ad9910_execute_parallel.
  set (h1 := emit_event (EvIrq false) (with_primask true (dev d))).
  rewrite (bind_ok _ _ d tt (mkDds h1 (regs d))) by reflexivity.
  rewrite Hv. rewrite (bind_ok _ _ _ v (mkDds h1 (regs d))) by reflexivity.
  destruct (set_port_value_ok v h1) as (h2 & E2 & T2 & M2 & P2).
  rewrite (bind_ok _ _ _ tt (mkDds h2 (regs d))).
  2:{ unfold ad9910_set_parallel. now erewrite zoom_ok by exact E2. }
  set (h3 := after_bytes (reg_wire r') h2).
  pose proof (after_bytes_sent (reg_wire r') h2) as S3. fold h3 in S3.
  set (h4 := after_set TX_ENABLE true h3).
  rewrite (bind_ok _ _ _ tt (mkDds h4 rs)).
  2:{ unfold ad9910_enable_parallel. fold f.
      rewrite (bind_ok _ _ _ tt (mkDds h2 rs)) by (erewrite zoom_ok by (apply set_value_ok; exact Hr); done).
      rewrite (bind_ok _ _ _ tt (mkDds h3 rs)); [now erewrite zoom_ok by apply gpio_set_ok|].
      unfold ad9910_update_matching_reg. erewrite ad9910_update_reg_ok; [reflexivity| |exact Hs].
      apply list_lookup_insert_eq. now apply lookup_lt_Some in Hr. }
  set (h5 := emit_event (EvTim true) (with_tim (fun t => mkTim (tim_arr t) true false (tim_reads t)) h4)).
  rewrite (bind_ok _ _ _ tt (mkDds (with_tim (fun t => mkTim (tim_arr t) (tim_enabled t) false (tim_reads t)) h4) rs)) by reflexivity.
  rewrite (bind_ok _ _ _ tt (mkDds h5 rs)) by reflexivity.
  assert (Hlen : 0 < len) by (apply lookup_lt_Some in Hv; unfold len; lia).
  destruct (playback_loop data len (seqZ 0 (u32 (len * rep))) (mkDds h5 rs) Hlen eq_refl)
    as (h6 & E6 & T6 & P6).
  { apply Forall_seqZ. lia. }
  rewrite (bind_ok _ _ _ _ _ E6).
  eexists. split; [reflexivity|]. split; [done|]. split; [done|].
  cbn -[u16 u32 played port_events reg_wire].
  rewrite T6. cbn -[u16 u32 played port_events reg_wire h3].
  rewrite (sent_trace _ _ _ S3), T2, (sent_tim _ _ _ S3), M2. unfold spi_events.
  cbn -[u16 u32 played port_events reg_wire]. now rewrite <- !app_assoc.
Qed.

(** ** RAM upload *)

Lemma gpio_get_dds p d :
  wf_pin p -> zoom (gpio_get p) d = Ok (b2z (pin_read p (dev d)), with_dev after_idr_read d).
Proof. intros Hp. now erewrite zoom_ok by now apply gpio_get_ok. Qed.

Lemma gpio_set_dds p v d : zoom (gpio_set p v) d = Ok (tt, with_dev (after_set p (truthy v)) d).
Proof. now erewrite zoom_ok by apply gpio_set_ok. Qed.

(** The strobe: the line goes high and low once the link is idle. *)
Definition after_io_update (h : hw) : hw :=
  after_set IO_UPDATE false (after_set IO_UPDATE true (spi_idle h)).

Lemma ad9910_io_update_ok d : ad9910_io_update d = Ok (tt, with_dev after_io_update d).
Proof.
  unfold ad9910_io_update. erewrite bind_ok by (apply zoom_ok, spi_wait_ok). reflexivity.
Qed.

Lemma set_profile_field_ok p f v d r :
  regs d !! (reg f + Z.to_nat p)%nat = Some r ->
  set_profile_field p f v d =
    Ok (tt, mkDds (dev d) (<[(reg f + Z.to_nat p)%nat := with_value (stored f v) r]> (regs d))).
Proof.
  intros Hr. unfold set_profile_field. now erewrite zoom_ok by (apply set_profile_value_ok; exact Hr).
Qed.

Definition strobe_events : list event :=
  [EvSet (group IO_UPDATE) (u16 (1 <<< pin IO_UPDATE)); EvClear (group IO_UPDATE) (u16 (1 <<< pin IO_UPDATE))].

Definition switch_event (p : gpio_pin) (v : bool) : event :=
  if v then EvSet (group p) (u16 (1 <<< pin p)) else EvClear (group p) (u16 (1 <<< pin p)).

Lemma trace_after_set p v h : trace (after_set p v h) = trace h ++ [switch_event p v].
Proof. unfold after_set, switch_event. now destruct v. Qed.

Lemma trace_after_io_update h : trace (after_io_update h) = trace h ++ strobe_events.
Proof. unfold after_io_update. rewrite !trace_after_set, <- app_assoc. done. Qed.

Lemma trace_after_bytes bs h : trace (after_bytes bs h) = trace h ++ spi_events bs.
Proof. apply (sent_trace _ _ _ (after_bytes_sent bs h)). Qed.

(** What is programmed into the profile register during the upload. *)
Definition ram_profile (samples : Z) (r : ad9910_register) : ad9910_register :=
  with_value (stored ad9910_profile_waveform_end_address samples)
    (with_value (stored ad9910_profile_waveform_start_address 0) r).

Lemma ad9910_program_ram_ok dest mode samples data d r :
  0 <= samples <= 1000 -> length data = Z.to_nat (4 * samples) ->
  regs d !! reg_index prof0 = Some r -> 1 <= size r <= 8 ->
  exists h', ad9910_program_ram dest mode samples data d = Ok (tt, mkDds h' (regs d)) /\
    trace h' = trace (dev d) ++ [switch_event RF_SWITCH false] ++
      spi_events (reg_wire (ram_profile samples r)) ++ strobe_events ++
      spi_events (ad9910_ram_address :: data) ++
      spi_events (reg_wire r) ++ strobe_events ++
      [switch_event RF_SWITCH (pin_read RF_SWITCH (dev d))].
Proof.
  intros Hs Hdata Hr Hsz. unfold ad9910_program_ram.
  destruct (Z.ltb_spec 1000 samples); [lia|].
  rewrite (bind_ok _ _ _ _ _ (gpio_get_dds RF_SWITCH d ltac:(unfold wf_pin; cbn; lia))).
  rewrite (bind_ok _ _ _ _ _ (gpio_set_dds RF_SWITCH 0 _)).
  set (h2 := after_set RF_SWITCH (truthy 0) (after_idr_read (dev d))).
  change (with_dev _ (with_dev _ d)) with (mkDds h2 (regs d)). cbv zeta.
  rewrite (bind_ok _ _ _ (reg_index prof0) (mkDds h2 (regs d))) by reflexivity.
  rewrite (bind_ok _ _ _ _ _ (reg_at_dds _ r (mkDds h2 (regs d)) Hr)).
  assert (Hlt : (reg_index prof0 < length (regs d))%nat) by now apply lookup_lt_Some in Hr.
  rewrite (bind_ok _ _ _ _ _ (set_profile_field_ok 0 ad9910_profile_waveform_start_address 0 (mkDds h2 (regs d)) r Hr)).
  cbn [dev regs].
  erewrite bind_ok by (apply set_profile_field_ok; cbn [regs]; now apply list_lookup_insert_eq).
  cbn [dev regs]. rewrite list_insert_insert_eq.
  change (reg ad9910_profile_waveform_end_address + Z.to_nat 0)%nat with (reg_index prof0).
  fold (ram_profile samples r).
  erewrite bind_ok by (apply ad9910_update_reg_ok; [now apply list_lookup_insert_eq|done]).
  rewrite (bind_ok _ _ _ _ _ (ad9910_io_update_ok _)).
  erewrite bind_ok by (apply zoom_ok, spi_send_single_ok).
  erewrite bind_ok by (apply zoom_ok, spi_write_multi_ok; lia).
  rewrite take_ge by lia.
  erewrite (bind_ok (set_reg_value _ _)).
  2:{ unfold set_reg_value. erewrite bind_ok by reflexivity.
      apply zoom_ok, update_at_ok. cbn [view dds_regs regs over dds_dev with_dev].
      now apply list_lookup_insert_eq. }
  cbn [view dds_regs regs over dds_dev with_dev dev]. rewrite list_insert_insert_eq.
  replace (with_value (fun _ => value r) (ram_profile samples r)) with r by now destruct r.
  change (reg ad9910_profile_waveform_start_address + Z.to_nat 0)%nat with (reg_index prof0).
  rewrite (list_insert_id (regs d) _ r Hr).
  erewrite bind_ok by (apply ad9910_update_reg_ok; [exact Hr|done]).
  rewrite (bind_ok _ _ _ _ _ (ad9910_io_update_ok _)), gpio_set_dds.
  rewrite truthy_b2z. eexists. split; [reflexivity|].
  cbn [with_dev dev].
  rewrite trace_after_set, trace_after_io_update, !trace_after_bytes.
  unfold after_byte at 1. cbn [trace emit_event with_spi]. rewrite trace_after_io_update, trace_after_bytes.
  unfold h2. rewrite trace_after_set. cbn [trace after_idr_read with_ports].
  now rewrite <- !app_assoc.
Qed.
End Ad9910.
