(* ===== verification/Chip.v ===== *)
(** * Chip: the contract with the AD9910

    What the chip at the other end of the wires makes of the program's
    output, as an abstract machine over the trace of Hw.v: an instruction
    byte names a register and the direction, the bytes that follow are its
    value, most significant first; a rising edge of IO_UPDATE, or a change of
    the lines that select the profile, moves the buffered registers to the
    active ones; IO_RESET ends what the serial port was receiving, DDS_RESET
    forgets everything.  The theorems are the refinement
    of src/ad9910.c to this machine: a function that programs a register
    file leaves the chip with the values of the shadow registers. *)

From Stdlib Require Import ZArith Lia.
From stdpp Require Import base numbers list gmap.
From S2P Require Import Prelude Hw Gpio Spi Registers Ad9910.
#[local] Open Scope c_scope.

(** ** The abstract machine *)

Inductive serial :=
  | Idle                               (** the next byte is an instruction *)
  | Writing (a : Z) (n : nat) (acc : Z)  (** [n] bytes of register [a] to come *)
  | Reading (n : nat)                  (** [n] bytes are being read *)
  | Unknown.                           (** an instruction for no register *)

Record chip := mkChip {
    serial_port : serial;
    buffer : gmap Z Z;      (** values written, by register address *)
    active : gmap Z Z;      (** values in effect *)
    strobe : bool;          (** level of IO_UPDATE *)
    profile : bool * bool * bool;  (** levels of PROFILE_0 to PROFILE_2 *)
  }.

(** The number of data bytes of a register. *)
Definition chip_size (a : Z) : option nat :=
  match filter (fun r => address r = a) ad9910_regs with
  | r :: _ => Some (Z.to_nat (size r))
  | [] => None
  end.

Definition with_serial (s : serial) (c : chip) := mkChip s (buffer c) (active c) (strobe c) (profile c).

(** A register was written. *)
Definition written (a v : Z) (c : chip) : chip :=
  mkChip Idle (<[a := v]> (buffer c)) (active c) (strobe c) (profile c).

Definition chip_byte (b : Z) (c : chip) : chip :=
  match serial_port c with
  | Idle =>
      match chip_size (b &&& 0x1F) with
      | None => with_serial Unknown c
      | Some n => if Z.testbit b 7 then with_serial (Reading n) c
                  else with_serial (Writing (b &&& 0x1F) n 0) c
      end
  | Writing a n acc =>
      let acc := 256 * acc + b in
      match n with
      | S (S n) => with_serial (Writing a (S n) acc) c
      | _ => written a acc c
      end
  | Reading (S (S n)) => with_serial (Reading (S n)) c
  | Reading _ => with_serial Idle c
  | Unknown => c
  end.

(** Whether the pin [q] is among the pins [m] of the port [p]. *)
Definition drives (q : gpio_pin) (p : port) (m : Z) : bool :=
  bool_decide (p = group q) && Z.testbit m (pin q).

Definition profile_lines (p : port) (m : Z) (v : bool) (l : bool * bool * bool) : bool * bool * bool :=
  let '(x, y, z) := l in
  (if drives PROFILE_0 p m then v else x, if drives PROFILE_1 p m then v else y, if drives PROFILE_2 p m then v else z).

(** The lines [m] of the port [p] are driven to [v]. *)
Definition chip_lines (p : port) (m : Z) (v : bool) (c : chip) : chip :=
  let c := if v && drives DDS_RESET p m then mkChip Idle ∅ ∅ (strobe c) (profile c) else c in
  let c := if v && drives IO_RESET p m then with_serial Idle c else c in
  let st := if drives IO_UPDATE p m then v else strobe c in
  let pr := profile_lines p m v (profile c) in
  let update := (negb (strobe c) && st) || negb (bool_decide (pr = profile c)) in
  mkChip (serial_port c) (buffer c) (if update then buffer c else active c) st pr.

Definition chip_event (c : chip) (e : event) : chip :=
  match e with
  | EvSpi b => chip_byte b c
  | EvSet p m => chip_lines p m true c
  | EvClear p m => chip_lines p m false c
  | EvPort p v => chip_lines p (Z.lxor v 0xFFFF) false (chip_lines p v true c)
  | _ => c
  end.

Definition chip_run (t : list event) (c : chip) : chip := foldl chip_event c t.

(** At power-on the lines are low. *)
Definition chip_reset : chip := mkChip Idle ∅ ∅ false (false, false, false).

(** The chip as the trace of a machine state leaves it. *)
Definition chip_of (d : dds) : chip := chip_run (trace (dev d)) chip_reset.

(** The chip is ready for an instruction and holds in its buffer, for each
    register of [rs], the shadow value. *)
Definition ready (d : dds) : Prop := serial_port (chip_of d) = Idle.
Definition holds (d : dds) (i : nat) : Prop :=
  exists r, regs d !! i = Some r /\ buffer (chip_of d) !! address r = Some (value r).

(** ** A write transaction *)

Lemma chip_run_app t1 t2 c : chip_run (t1 ++ t2) c = chip_run t2 (chip_run t1 c).
Proof. unfold chip_run. apply foldl_app. Qed.

Lemma chip_data_bytes bs a acc c :
  bs <> [] ->
  foldl (fun c b => chip_byte b c) (with_serial (Writing a (length bs) acc) c) bs =
  written a (foldl (fun acc b => 256 * acc + b) acc bs) c.
Proof.
  revert acc. induction bs as [|b bs IH]; intros acc Hne; [done|].
  destruct bs as [|b' bs]; [done|].
  cbn [foldl length]. exact (IH (256 * acc + b) ltac:(done)).
Qed.

Lemma chip_run_spi bs c :
  chip_run (map (fun b => EvSpi (u8 b)) bs) c = foldl (fun c b => chip_byte b c) c (map u8 bs).
Proof. revert c. induction bs as [|b bs IH]; intros c; [done|]. exact (IH _). Qed.

Lemma chip_size_regs i r :
  ad9910_regs !! i = Some r ->
  chip_size (address r) = Some (Z.to_nat (size r)) /\ 0 <= address r < 32 /\ 1 <= size r <= 8.
Proof.
  intros Hi. apply list_elem_of_lookup_2 in Hi. revert r Hi. apply Forall_forall.
  decided.
Qed.

Lemma wf_regs_reg rs i r :
  wf_regs rs -> rs !! i = Some r ->
  chip_size (address r) = Some (Z.to_nat (size r)) /\ 0 <= address r < 32 /\ 1 <= size r <= 8 /\
  0 <= value r < 2 ^ (8 * size r).
Proof.
  intros Hrs Hi. assert (Hlt : (i < length ad9910_regs)%nat).
  { apply lookup_lt_Some in Hi. now rewrite (wf_regs_length _ Hrs) in Hi. }
  destruct (lookup_lt_is_Some_2 _ _ Hlt) as [r0 H0].
  destruct (wf_regs_lookup rs i r0 Hrs H0) as (r' & Hr' & Ha & Hs & (_ & _ & Hv)).
  assert (r' = r) as -> by congruence.
  rewrite Ha, Hs. rewrite <- Hs at 4. pose proof (chip_size_regs i r0 H0). tauto.
Qed.

Lemma chip_write rs i r c :
  wf_regs rs -> rs !! i = Some r -> serial_port c = Idle ->
  chip_run (map (fun b => EvSpi (u8 b)) (reg_wire r)) c =
  written (address r) (value r) c.
Proof.
  intros Hrs Hi Hc. destruct (wf_regs_reg rs i r Hrs Hi) as (Hsz & Ha & Hs & Hv).
  rewrite chip_run_spi. unfold reg_wire. cbn [map foldl].
  rewrite map_u8_bytes by apply be_bytes_is_byte.
  rewrite wrap_wrap, wrap_small by lia.
  unfold chip_byte at 2. rewrite Hc.
  replace (address r &&& 31) with (address r)
    by (change 31 with (Z.ones 5); rewrite Z.land_ones by lia; symmetry; apply Z.mod_small; lia).
  rewrite Hsz, (testbit_high 5 (address r) 7) by lia.
  rewrite <- (length_be_bytes (Z.to_nat (size r)) (value r)) at 1.
  rewrite chip_data_bytes.
  2:{ intros H. apply (f_equal length) in H. rewrite length_be_bytes in H. cbn in H. lia. }
  fold (of_be (be_bytes (Z.to_nat (size r)) (value r))).
  rewrite of_be_be_bytes, Z2Nat.id, wrap_small by lia. done.
Qed.

(** ** The abstract specification and refinement

    A program state seen abstractly: the shadow registers and the chip.  A
    C function on the [dds] state implements a function on that view when,
    from any state with well-formed registers and the chip ready, it returns,
    leaves such a state, and changes the view as that function says. *)

Record view_of := mkView { shadow : ad9910_registers; remote : chip }.

Definition abs (d : dds) : view_of := mkView (regs d) (chip_of d).

Definition dds_ok (d : dds) : Prop := wf_regs (regs d) /\ ready d.

Definition implements (m : M dds unit) (g : view_of -> view_of) : Prop :=
  forall d, dds_ok d -> exists d', m d = Ok (tt, d') /\ dds_ok d' /\ abs d' = g (abs d).

(** The operations of the abstract view. *)
Definition spec_set (f : ad9910_register_bit) (v : Z) (w : view_of) : view_of :=
  mkView (alter (with_value (stored f v)) (reg f) (shadow w)) (remote w).

Definition spec_send (i : nat) (w : view_of) : view_of :=
  match shadow w !! i with
  | Some r => mkView (shadow w) (written (address r) (value r) (remote w))
  | None => w
  end.

Definition spec_strobe (w : view_of) : view_of :=
  let c := remote w in
  mkView (shadow w) (mkChip (serial_port c) (buffer c) (if strobe c then active c else buffer c) false (profile c)).

(** A pin is driven. *)
Definition chip_pin (p : gpio_pin) (v : bool) (c : chip) : chip := chip_lines (group p) (u16 (1 <<< pin p)) v c.
Definition spec_pin (p : gpio_pin) (v : bool) (w : view_of) : view_of := mkView (shadow w) (chip_pin p v (remote w)).

Definition spec_profile (n : Z) (w : view_of) : view_of :=
  spec_pin PROFILE_2 (truthy (n &&& 0x4)) (spec_pin PROFILE_1 (truthy (n &&& 0x2)) (spec_pin PROFILE_0 (truthy (n &&& 0x1)) w)).

(** The pins that are lines of the chip. *)
Definition chip_line (p : gpio_pin) : bool :=
  bool_decide (p ∈ [IO_UPDATE; IO_RESET; DDS_RESET; PROFILE_0; PROFILE_1; PROFILE_2]).

(** The field of the register [p] places further. *)
Definition shift_field (p : nat) (f : ad9910_register_bit) : ad9910_register_bit :=
  mkField (reg f + p) (bits f) (offset f).

Lemma implements_seq m1 m2 g1 g2 :
  implements m1 g1 -> implements m2 g2 -> implements (m1;; m2) (fun w => g2 (g1 w)).
Proof.
  intros H1 H2 d Hd. destruct (H1 d Hd) as (d1 & E1 & Hd1 & A1).
  destruct (H2 d1 Hd1) as (d2 & E2 & Hd2 & A2).
  exists d2. rewrite (bind_ok _ _ _ _ _ E1). rewrite A2, A1. done.
Qed.

Lemma implements_ext m g g' : (forall w, g w = g' w) -> implements m g -> implements m g'.
Proof.
  intros Hg H d Hd. destruct (H d Hd) as (d' & ? & ? & Ha). exists d'. now rewrite <- Hg.
Qed.

Lemma implements_ret : implements (mret tt) (fun w => w).
Proof. intros d Hd. now exists d. Qed.

Lemma implements_for_each {A} (l : list A) f g :
  (forall a, a ∈ l -> implements (f a) (g a)) ->
  implements (for_each l f) (fun w => foldl (fun w a => g a w) w l).
Proof.
  induction l as [|a l IH]; intros H; [apply implements_ret|].
  cbn [for_each foldl].
  apply (implements_seq _ _ (g a) (fun w => foldl (fun w a => g a w) w l)).
  - apply H. left.
  - apply IH. intros b Hb. apply H. now right.
Qed.

(** A step on the peripherals alone, by the events it adds. *)
Lemma implements_dev (m : M hw unit) (t : list event) (g : view_of -> view_of) :
  (forall h, exists h', m h = Ok (tt, h') /\ trace h' = trace h ++ t) ->
  (forall w, serial_port (remote w) = Idle -> serial_port (remote (g w)) = Idle) ->
  (forall w, serial_port (remote w) = Idle -> g w = mkView (shadow w) (chip_run t (remote w))) ->
  implements (zoom m) g.
Proof.
  intros Hm Hrd Hg d [Hwf Hr]. destruct (Hm (dev d)) as (h' & E1 & Ht).
  assert (Habs : abs (mkDds h' (regs d)) = g (abs d)).
  { rewrite Hg by done. unfold abs, chip_of. cbn. now rewrite Ht, chip_run_app. }
  exists (mkDds h' (regs d)). split_and!; [now erewrite zoom_ok by exact E1|split; [done|]|done].
  unfold ready. change (chip_of (mkDds h' (regs d))) with (remote (abs (mkDds h' (regs d)))).
  rewrite Habs. now apply Hrd.
Qed.

Section Refinement.
Context `{E : Env}.

Lemma update_reg_implements i :
  (i < 20)%nat -> implements (ad9910_update_reg i) (spec_send i).
Proof.
  intros Hi d [Hwf Hr].
  destruct (lookup_lt_is_Some_2 (regs d) i) as [r H]; [now rewrite wf_regs_length|].
  destruct (wf_regs_reg _ _ _ Hwf H) as (_ & _ & Hs & _).
  exists (with_dev (after_bytes (reg_wire r)) d).
  assert (Hc : chip_of (with_dev (after_bytes (reg_wire r)) d) = remote (spec_send i (abs d))).
  { unfold chip_of at 1. cbn [dev with_dev].
    rewrite (sent_trace _ _ _ (after_bytes_sent (reg_wire r) (dev d))), chip_run_app.
    unfold spec_send. cbn [shadow abs]. rewrite H. exact (chip_write _ _ _ _ Hwf H Hr). }
  split_and!; [now apply ad9910_update_reg_ok|split; [done|]|].
  - unfold ready. rewrite Hc. unfold spec_send. cbn. now rewrite H.
  - unfold abs at 1. rewrite Hc. unfold spec_send. cbn. now rewrite H.
Qed.

Lemma set_value_implements f v :
  field_fits f -> implements (zoom (ad9910_set_value f v)) (spec_set f v).
Proof.
  intros Hf d [Hwf Hr]. destruct (field_fits_lookup _ f Hwf Hf) as (r & H & _ & _).
  exists (mkDds (dev d) (<[reg f := with_value (stored f v) r]> (regs d))).
  split_and!.
  - erewrite zoom_ok by (apply set_value_ok; exact H). done.
  - split; [now apply wf_regs_stored|exact Hr].
  - unfold abs, spec_set. cbn. now rewrite (alter_insert _ _ _ _ H).
Qed.

Lemma set_profile_field_implements p f v :
  field_fits (shift_field (Z.to_nat p) f) ->
  implements (set_profile_field p f v) (spec_set (shift_field (Z.to_nat p) f) v).
Proof. intros Hf. exact (set_value_implements _ v Hf). Qed.

(** Pins that are no lines of the chip do not concern its registers. *)
Lemma drives_pin q p : wf_pin p -> wf_pin q -> drives q (group p) (u16 (1 <<< pin p)) = bool_decide (p = q).
Proof.
  intros Hp Hq. unfold drives. rewrite testbit_pin_mask by (unfold wf_pin in *; lia).
  destruct p as [g n], q as [g' n']. cbn [group pin]. unfold bool_decide.
  repeat case_decide; destruct (Z.eqb_spec n' n); cbn; congruence.
Qed.

Lemma chip_pin_other p v c : wf_pin p -> chip_line p = false -> chip_pin p v c = c.
Proof.
  intros Hp Hl. unfold chip_pin, chip_lines, profile_lines.
  assert (forall q, wf_pin q -> chip_line q = true -> drives q (group p) (u16 (1 <<< pin p)) = false) as Hq.
  { intros q Hq Hlq. rewrite drives_pin by done. apply bool_decide_eq_false. congruence. }
  rewrite !Hq by (reflexivity || (unfold wf_pin; cbn; lia)). rewrite !andb_false_r.
  destruct c as [ser bu ac st [[x y] z]]. cbn. rewrite bool_decide_true by done. now destruct st.
Qed.

Lemma chip_lines_idle p m v c : serial_port c = Idle -> serial_port (chip_lines p m v c) = Idle.
Proof. intros H. unfold chip_lines. now destruct (v && drives DDS_RESET p m), (v && drives IO_RESET p m). Qed.

Lemma gpio_set_implements p v : implements (zoom (gpio_set p v)) (spec_pin p (truthy v)).
Proof.
  apply (implements_dev _ [if truthy v then EvSet (group p) (u16 (1 <<< pin p))
                           else EvClear (group p) (u16 (1 <<< pin p))]).
  - intros h. eexists. split; [apply gpio_set_ok|]. unfold after_set. now destruct (truthy v).
  - intros w Hw. now apply chip_lines_idle.
  - intros w _. unfold spec_pin, chip_pin. now destruct (truthy v).
Qed.

Lemma spec_pin_other p v w : wf_pin p -> chip_line p = false -> spec_pin p v w = w.
Proof. intros Hp Hl. unfold spec_pin. rewrite chip_pin_other by done. now destruct w. Qed.

Lemma gpio_set_silent p v : wf_pin p -> chip_line p = false -> implements (zoom (gpio_set p v)) (fun w => w).
Proof.
  intros Hp Hl. eapply implements_ext; [|apply gpio_set_implements]. intros w. cbn. now rewrite spec_pin_other.
Qed.

(** The lines of the chip, one by one. *)
Lemma strobe_high c :
  chip_pin IO_UPDATE true c = mkChip (serial_port c) (buffer c) (if strobe c then active c else buffer c) true (profile c).
Proof.
  destruct c as [ser bu ac st [[x y] z]]. unfold chip_pin, chip_lines, profile_lines. cbn.
  rewrite bool_decide_true by done. now destruct st.
Qed.
Lemma strobe_low c : chip_pin IO_UPDATE false c = mkChip (serial_port c) (buffer c) (active c) false (profile c).
Proof.
  destruct c as [ser bu ac st [[x y] z]]. unfold chip_pin, chip_lines, profile_lines. cbn.
  rewrite bool_decide_true by done. now destruct st.
Qed.
Lemma reset_high c : chip_pin DDS_RESET true c = mkChip Idle ∅ ∅ (strobe c) (profile c).
Proof.
  destruct c as [ser bu ac st [[x y] z]]. unfold chip_pin, chip_lines, profile_lines. cbn.
  rewrite bool_decide_true by done. now destruct st.
Qed.
Lemma reset_low c : chip_pin DDS_RESET false c = c.
Proof.
  destruct c as [ser bu ac st [[x y] z]]. unfold chip_pin, chip_lines, profile_lines. cbn.
  rewrite bool_decide_true by done. now destruct st.
Qed.
Lemma io_reset_high c : chip_pin IO_RESET true c = with_serial Idle c.
Proof.
  destruct c as [ser bu ac st [[x y] z]]. unfold chip_pin, chip_lines, profile_lines. cbn.
  rewrite bool_decide_true by done. now destruct st.
Qed.
Lemma io_reset_low c : chip_pin IO_RESET false c = c.
Proof.
  destruct c as [ser bu ac st [[x y] z]]. unfold chip_pin, chip_lines, profile_lines. cbn.
  rewrite bool_decide_true by done. now destruct st.
Qed.

Lemma io_update_implements : implements ad9910_io_update spec_strobe.
Proof.
  unfold ad9910_io_update.
  set (m := spi_wait;; gpio_set_high IO_UPDATE;; gpio_set_low IO_UPDATE).
  assert (Hm : implements (zoom m) spec_strobe).
  { apply (implements_dev m [EvSet GPIOD 0x800; EvClear GPIOD 0x800]).
    - intros h. eexists. unfold m. rewrite (bind_ok _ _ _ _ _ (spi_wait_ok h)).
      rewrite (bind_ok _ _ _ _ _ (gpio_set_high_ok _ _)). split; [apply gpio_set_low_ok|].
      cbn. now rewrite <- app_assoc.
    - done.
    - intros w _. change (spec_strobe w = mkView (shadow w) (chip_pin IO_UPDATE false (chip_pin IO_UPDATE true (remote w)))).
      now rewrite strobe_low, strobe_high. }
  intros d Hd. destruct (Hm d Hd) as (d' & E1 & H). exists d'. split; [|done].
  rewrite <- E1. unfold m. rewrite zoom_bind. unfold mbind at 1 3, M_bind at 1 3.
  destruct (zoom spi_wait d) as [[[] d1]| |]; [|done|done]. now rewrite zoom_bind.
Qed.

(** ** Programs *)

Lemma profile_field_fits p f :
  (p < 8)%nat ->
  f ∈ [ad9910_profile_frequency; ad9910_profile_phase; ad9910_profile_amplitude;
       ad9910_profile_waveform_start_address; ad9910_profile_waveform_end_address] ->
  field_fits (shift_field p f).
Proof.
  intros Hp Hf. assert (Hall : Forall (fun p => Forall (fun f => field_fits (shift_field p f))
    [ad9910_profile_frequency; ad9910_profile_phase; ad9910_profile_amplitude;
     ad9910_profile_waveform_start_address; ad9910_profile_waveform_end_address]) (seq 0 8)).
  { decided. }
  rewrite Forall_forall in Hall. specialize (Hall p ltac:(apply elem_of_seq; lia)).
  rewrite Forall_forall in Hall. now apply Hall.
Qed.

Lemma update_profile_reg_implements p :
  0 <= p < 8 -> implements (ad9910_update_profile_reg p) (spec_send (12 + Z.to_nat p)).
Proof. intros Hp. apply update_reg_implements. cbn. lia. Qed.

(** The abstract view of [ad9910_set_single_tone]. *)
Definition spec_single_tone (p freq ampl phase : Z) (w : view_of) : view_of :=
  let sh := shift_field (Z.to_nat p) in
  spec_send (12 + Z.to_nat p)
    (spec_set (sh ad9910_profile_amplitude) ampl
      (spec_set (sh ad9910_profile_phase) phase
        (spec_set (sh ad9910_profile_frequency) freq w))).

Ltac run_set := apply set_profile_field_implements, profile_field_fits; [lia|set_solver].

Lemma single_tone_implements p freq ampl phase :
  0 <= p < 8 ->
  implements (ad9910_set_single_tone p freq ampl phase) (spec_single_tone p freq ampl phase).
Proof.
  intros Hp. unfold ad9910_set_single_tone, spec_single_tone. cbv zeta.
  eapply implements_ext; [intros w; symmetry|].
  2:{ apply implements_seq; [run_set|apply implements_seq; [run_set|apply implements_seq; [run_set|]]].
      now apply update_profile_reg_implements. }
  reflexivity.
Qed.

(** [ad9910_program_ramp] on the abstract view. *)
Definition spec_ramp (dest ul ll dec inc neg pos ndh ndl : Z) (w : view_of) : view_of :=
  spec_send (reg_index cfr2) (spec_send (reg_index ramp_rate)
  (spec_send (reg_index ramp_step) (spec_send (reg_index ramp_limit)
    (spec_set ad9910_digital_ramp_no_dwell_low (b2z (truthy ndl))
    (spec_set ad9910_digital_ramp_no_dwell_high (b2z (truthy ndh))
    (spec_set ad9910_digital_ramp_enable 1 (spec_set ad9910_digital_ramp_destination dest
    (spec_set ad9910_ramp_positive_rate pos (spec_set ad9910_ramp_negative_rate neg
    (spec_set ad9910_ramp_increment_step inc (spec_set ad9910_ramp_decrement_step dec
    (spec_set ad9910_ramp_lower_limit ll (spec_set ad9910_ramp_upper_limit ul w))))))))))))).

Lemma field_in_fits f : f ∈ all_fields -> field_fits f.
Proof. intros Hf. pose proof all_fields_fit as H. rewrite Forall_forall in H. auto. Qed.

Ltac implements_step :=
  lazymatch goal with
  | |- implements (zoom (ad9910_set_value _ _)) _ => apply set_value_implements; decided
  | |- implements (ad9910_update_reg _) _ => apply update_reg_implements; cbn; lia
  | |- implements (zoom (gpio_set ?p _)) _ =>
      first [ apply gpio_set_silent; [unfold wf_pin; cbn; lia|reflexivity] | apply gpio_set_implements ]
  | |- implements ad9910_io_update _ => apply io_update_implements
  | |- implements (mbind _ _) _ => eapply implements_seq
  end.

(** Proves [implements m g] when [g] is the composition of the steps. *)
Ltac implements_tac :=
  eapply implements_ext; [|solve [repeat implements_step]]; reflexivity.

Lemma program_ramp_implements dest ul ll dec inc neg pos ndh ndl :
  implements (ad9910_program_ramp dest ul ll dec inc neg pos ndh ndl)
             (spec_ramp dest ul ll dec inc neg pos ndh ndl).
Proof. unfold ad9910_program_ramp. implements_tac. Qed.

Lemma enable_parallel_implements mode :
  implements (ad9910_enable_parallel mode)
    (fun w => spec_send (reg_index cfr2)
                (spec_set ad9910_parallel_data_port_enable (b2z (truthy mode)) w)).
Proof. unfold ad9910_enable_parallel, ad9910_update_matching_reg. implements_tac. Qed.

Lemma select_profile_implements p : implements (ad9910_select_profile p) (spec_profile p).
Proof. unfold ad9910_select_profile. implements_tac. Qed.

Lemma select_parallel_target_implements m : implements (ad9910_select_parallel_target m) (fun w => w).
Proof. unfold ad9910_select_parallel_target. implements_tac. Qed.

Lemma enable_output_implements v : implements (ad9910_enable_output v) (fun w => w).
Proof. unfold ad9910_enable_output. implements_tac. Qed.
End Refinement.

(** ** Fields of the shadow registers and of the chip's registers *)

Definition address_of (i : nat) : Z :=
  match ad9910_regs !! i with Some r => address r | None => -1 end.

Definition shadow_field (f : ad9910_register_bit) (w : view_of) : option Z :=
  (fun r => loaded f (value r)) <$> shadow w !! reg f.

Definition chip_field (f : ad9910_register_bit) (w : view_of) : option Z :=
  loaded f <$> buffer (remote w) !! address_of (reg f).

Section Fields.
Implicit Types w : view_of.

Lemma wf_set f v w : wf_regs (shadow w) -> field_fits f -> wf_regs (shadow (spec_set f v w)).
Proof.
  intros Hw Hf. destruct (field_fits_lookup _ f Hw Hf) as (r & Hr & _).
  unfold spec_set. cbn. rewrite (alter_insert _ _ _ _ Hr). now apply wf_regs_stored.
Qed.

Lemma wf_send i w : wf_regs (shadow w) -> wf_regs (shadow (spec_send i w)).
Proof. unfold spec_send. now destruct (shadow w !! i). Qed.

Lemma shadow_send f i w : shadow_field f (spec_send i w) = shadow_field f w.
Proof. unfold shadow_field, spec_send. now destruct (shadow w !! i). Qed.

Lemma shadow_set_same f v w :
  wf_regs (shadow w) -> field_fits f -> shadow_field f (spec_set f v w) = Some (wrap (bits f) v).
Proof.
  intros Hw Hf. destruct (field_fits_lookup _ f Hw Hf) as (r & Hr & _).
  unfold shadow_field, spec_set. cbn. rewrite list_lookup_alter_eq, Hr. cbn.
  f_equal. apply loaded_stored, Hf.
Qed.

Lemma shadow_set_other f g v w :
  field_fits f -> field_fits g -> disjoint_fields g f ->
  shadow_field f (spec_set g v w) = shadow_field f w.
Proof.
  intros [Hf _] [Hg _] Hd. unfold shadow_field, spec_set. cbn.
  destruct (decide (reg g = reg f)) as [He|].
  - rewrite <- He, list_lookup_alter_eq. destruct (shadow w !! reg g); [|done].
    cbn. f_equal. now apply loaded_stored_disjoint.
  - now rewrite list_lookup_alter_ne.
Qed.

Lemma chip_set f g v w : chip_field f (spec_set g v w) = chip_field f w.
Proof. done. Qed.

Lemma address_of_wf rs i r : wf_regs rs -> rs !! i = Some r -> address r = address_of i.
Proof.
  intros Hw Hr. pose proof (lookup_lt_Some _ _ _ Hr) as Hlt. rewrite (wf_regs_length _ Hw) in Hlt.
  destruct (lookup_lt_is_Some_2 ad9910_regs i Hlt) as [r0 H0].
  destruct (wf_regs_lookup rs i r0 Hw H0) as (r' & Hr' & Ha & _).
  unfold address_of. rewrite H0. congruence.
Qed.

Lemma address_of_inj i j :
  (i < 20)%nat -> (j < 20)%nat -> address_of i = address_of j -> i = j.
Proof.
  intros Hi Hj. assert (H : Forall (fun i => Forall (fun j => address_of i = address_of j -> i = j)
    (seq 0 20)) (seq 0 20)) by decided.
  rewrite Forall_forall in H. specialize (H i ltac:(apply elem_of_seq; lia)).
  rewrite Forall_forall in H. apply H. apply elem_of_seq. lia.
Qed.

Lemma chip_send_same f w :
  wf_regs (shadow w) -> field_fits f -> chip_field f (spec_send (reg f) w) = shadow_field f w.
Proof.
  intros Hw Hf. destruct (field_fits_lookup _ f Hw Hf) as (r & Hr & _).
  unfold chip_field, shadow_field, spec_send. rewrite Hr. cbn.
  rewrite <- (address_of_wf _ _ _ Hw Hr). now rewrite lookup_insert_eq.
Qed.

Lemma chip_send_other f i w :
  wf_regs (shadow w) -> field_fits f -> reg f <> i ->
  chip_field f (spec_send i w) = chip_field f w.
Proof.
  intros Hw Hf Hne. destruct (field_fits_lookup _ f Hw Hf) as (r & Hr & _).
  unfold chip_field, spec_send. destruct (shadow w !! i) as [r'|] eqn:Hr'; [|done]. cbn.
  rewrite lookup_insert_ne; [done|].
  rewrite (address_of_wf _ _ _ Hw Hr'). intros He. apply Hne. symmetry.
  apply lookup_lt_Some in Hr, Hr'. rewrite (wf_regs_length _ Hw) in Hr, Hr'.
  now apply address_of_inj.
Qed.
End Fields.

(** Computes a field of a composition of [spec_set] and [spec_send]. *)
Ltac wf_tac :=
  repeat first [assumption | apply wf_send | apply wf_set; [|decided]].
Ltac field_step :=
  first
    [ rewrite shadow_send
    | rewrite shadow_set_same by (wf_tac || decided)
    | rewrite shadow_set_other by decided
    | rewrite chip_set
    | match goal with |- context [chip_field ?f (spec_send ?i ?w)] =>
        first [ rewrite (chip_send_other f i w) by (first [wf_tac; fail | decided | done])
              | change (chip_field f (spec_send i w)) with (chip_field f (spec_send (reg f) w));
                rewrite (chip_send_same f w) by (first [wf_tac; fail | decided]) ] end ].
Ltac fields := repeat field_step.

(** ** Properties *)

Section Properties.
Context `{E : Env}.

(** Sending a shadow register puts one write transaction on the wire, the
  address byte and the value most significant byte first; the chip, if it
  was ready, is ready again and holds the shadow value in that register,
  and no other register or active value of the chip, no shadow register and
  no pin changes. *)
Theorem update_reg_reaches_chip i r d :
  dds_ok d -> regs d !! i = Some r ->
  exists d', ad9910_update_reg i d = Ok (tt, d') /\ regs d' = regs d /\
    trace (dev d') = trace (dev d) ++
      map EvSpi (address r :: be_bytes (Z.to_nat (size r)) (value r)) /\
    serial_port (chip_of d') = Idle /\
    buffer (chip_of d') = <[address r := value r]> (buffer (chip_of d)) /\
    active (chip_of d') = active (chip_of d).
Proof.
  intros Hd Hi. pose proof Hd as [Hwf _].
  destruct (wf_regs_reg _ _ _ Hwf Hi) as (_ & Ha & Hs & _).
  destruct (update_reg_implements i) with (d := d) as (d' & E1 & Hd' & Habs); [|done|].
  { apply lookup_lt_Some in Hi. now rewrite (wf_regs_length _ Hwf) in Hi. }
  pose proof (ad9910_update_reg_ok i r d Hi Hs) as E2.
  assert (d' = with_dev (after_bytes (reg_wire r)) d) as -> by congruence.
  unfold spec_send in Habs. cbn [shadow abs] in Habs. rewrite Hi in Habs.
  injection Habs as Hc. exists (with_dev (after_bytes (reg_wire r)) d).
  split_and!; [exact E1|done| |apply Hd'|now rewrite Hc|now rewrite Hc].
  cbn [with_dev dev]. rewrite trace_after_bytes. f_equal. unfold spi_events, reg_wire.
  cbn [map]. rewrite wrap_wrap, wrap_small by lia. f_equal.
  pose proof (be_bytes_is_byte (Z.to_nat (size r)) (value r)) as Hb.
  induction Hb as [|b l Hb _ IH]; [done|]. cbn [map]. rewrite IH. f_equal. f_equal.
  now apply wrap_small.
Qed.

(** The register [r] of index [i] gets the value [v] and is sent. *)
Definition reprogrammed (i : nat) (r : ad9910_register) (v : Z) (d : dds) : dds :=
  let r' := mkReg (address r) v (size r) in
  mkDds (after_bytes (reg_wire r') (dev d)) (<[i := r']> (regs d)).

Lemma reprogrammed_chip i r v d :
  dds_ok d -> wf_regs (<[i := mkReg (address r) v (size r)]> (regs d)) -> regs d !! i = Some r ->
  dds_ok (reprogrammed i r v d) /\
  trace (dev (reprogrammed i r v d)) = trace (dev d) ++ map EvSpi (address r :: be_bytes (Z.to_nat (size r)) v) /\
  chip_of (reprogrammed i r v d) = written (address r) v (chip_of d).
Proof.
  intros [Hwf Hr] Hwf' Hi. set (r' := mkReg (address r) v (size r)) in *.
  assert ((<[i := r']> (regs d)) !! i = Some r') as Hi' by (apply list_lookup_insert_eq; now apply lookup_lt_Some in Hi).
  assert (chip_of (reprogrammed i r v d) = written (address r) v (chip_of d)) as Hc.
  { unfold chip_of at 1. cbn [reprogrammed dev]. fold r'.
    rewrite (sent_trace _ _ _ (after_bytes_sent (reg_wire r') (dev d))), chip_run_app.
    exact (chip_write _ _ _ _ Hwf' Hi' Hr). }
  split; [split; [exact Hwf'|unfold ready; now rewrite Hc]|]. split; [|exact Hc].
  cbn [reprogrammed dev]. fold r'. rewrite trace_after_bytes. f_equal. unfold spi_events, reg_wire. cbn [map].
  destruct (wf_regs_reg _ _ _ Hwf' Hi') as (_ & Ha & _). cbn [address r'] in Ha.
  rewrite wrap_wrap, wrap_small by (cbn [address r']; lia). f_equal. cbn [size value r'].
  pose proof (be_bytes_is_byte (Z.to_nat (size r)) v) as Hb.
  induction Hb as [|b l Hb _ IH]; [done|]. cbn [map]. rewrite IH. f_equal. f_equal. now apply wrap_small.
Qed.

(** The value of a profile register with the words of a tone. *)
Definition tone (freq ampl phase x : Z) : Z :=
  stored ad9910_profile_amplitude ampl (stored ad9910_profile_phase phase (stored ad9910_profile_frequency freq x)).

Lemma single_tone_runs p freq ampl phase r d :
  0 <= p < 8 -> regs d !! (12 + Z.to_nat p)%nat = Some r -> 1 <= size r <= 8 ->
  ad9910_set_single_tone p freq ampl phase d =
    Ok (tt, reprogrammed (12 + Z.to_nat p) r (tone freq ampl phase (value r)) d).
Proof.
  intros Hp Hr Hs. set (i := (12 + Z.to_nat p)%nat) in *.
  assert (forall f v d r, reg f = 12%nat -> regs d !! i = Some r ->
    set_profile_field p f v d = Ok (tt, mkDds (dev d) (<[i := with_value (stored f v) r]> (regs d)))) as Hset.
  { intros f v d0 r0 Hf H0. unfold set_profile_field. erewrite zoom_ok; [reflexivity|].
    cbn [view dds_regs]. rewrite (set_profile_value_ok (Z.to_nat p) f v (regs d0) r0); rewrite Hf; done. }
  pose proof (lookup_lt_Some _ _ _ Hr) as Hlt. unfold ad9910_set_single_tone.
  rewrite (bind_ok _ _ _ _ _ (Hset ad9910_profile_frequency freq d r eq_refl Hr)).
  erewrite bind_ok by (apply Hset; [done|]; cbn [regs]; apply list_lookup_insert_eq, Hlt). cbn [dev regs].
  erewrite bind_ok by (apply Hset; [done|]; cbn [regs]; apply list_lookup_insert_eq; now rewrite length_insert). cbn [dev regs].
  rewrite !list_insert_insert_eq. unfold ad9910_update_profile_reg. change (reg_index prof0 + Z.to_nat p)%nat with i.
  erewrite ad9910_update_reg_ok; [reflexivity|cbn [regs]; apply list_lookup_insert_eq, Hlt|exact Hs].
Qed.

(** C2: Programming a single tone into profile [p] sends one register, that of
  the profile: its address, then its eight bytes.  The value has the 32-bit
  frequency word, the 16-bit phase and the 14-bit amplitude given, and the
  other bits it had.  It is the shadow register's and, in the chip, the one
  written to the buffer; all else is as before: the other registers and the
  other state of driver and peripherals, and of the chip the other buffered
  registers, every active one, and the lines. *)
Theorem single_tone_at_chip p freq ampl phase d :
  0 <= p < 8 -> dds_ok d ->
  let i := (12 + Z.to_nat p)%nat in
  exists r v, regs d !! i = Some r /\ let d' := reprogrammed i r v d in
    ad9910_set_single_tone p freq ampl phase d = Ok (tt, d') /\ dds_ok d' /\
    trace (dev d') = trace (dev d) ++ map EvSpi ((0x0E + p) :: be_bytes 8 v) /\
    chip_of d' = written (0x0E + p) v (chip_of d) /\
    loaded ad9910_profile_frequency v = u32 freq /\
    loaded ad9910_profile_phase v = u16 phase /\
    loaded ad9910_profile_amplitude v = wrap 14 ampl /\
    (forall g, wf_field g -> reg g = reg ad9910_profile_frequency ->
       Forall (disjoint_fields g) [ad9910_profile_frequency; ad9910_profile_phase; ad9910_profile_amplitude] ->
       loaded g v = loaded g (value r)).
Proof.
  intros Hp Hd i. pose proof Hd as [Hwf _].
  destruct (lookup_lt_is_Some_2 (regs d) i) as [r Hr]; [rewrite (wf_regs_length _ Hwf); unfold i; lia|].
  assert (Haddr : address r = 0x0E + p /\ size r = 8).
  { assert (H : Forall (fun k => exists q, ad9910_regs !! (12 + k)%nat = Some q /\ address q = 0x0E + Z.of_nat k /\ size q = 8) (seq 0 8)).
    { cbn [seq]. repeat (constructor; [eexists; split; [reflexivity|now split]|]). constructor. }
    rewrite Forall_forall in H. destruct (H (Z.to_nat p)) as (q & Hq & Hqa & Hqs); [apply elem_of_seq; lia|].
    destruct (wf_regs_lookup _ _ _ Hwf Hq) as (r' & Hr' & Ha & Hs & _). assert (r' = r) as -> by (unfold i in Hr; congruence).
    rewrite Ha, Hs. lia. }
  destruct Haddr as [Haddr Hsize]. exists r, (tone freq ampl phase (value r)). split; [exact Hr|].
  pose proof (single_tone_runs p freq ampl phase r d Hp Hr ltac:(lia)) as E1.
  assert (wf_regs (<[i := mkReg (address r) (tone freq ampl phase (value r)) (size r)]> (regs d))) as Hwf'.
  { destruct (single_tone_implements p freq ampl phase Hp d Hd) as (d1 & E2 & [Hwf1 _] & _).
    rewrite E1 in E2. injection E2 as <-. exact Hwf1. }
  destruct (reprogrammed_chip _ _ _ _ Hd Hwf' Hr) as (Hok & Ht & Hc). rewrite Haddr in Hc. rewrite Haddr, Hsize in Ht.
  split; [exact E1|]. split; [exact Hok|]. split; [exact Ht|]. split; [exact Hc|]. unfold tone.
  rewrite !(loaded_stored_disjoint ad9910_profile_amplitude) by decided.
  rewrite !(loaded_stored_disjoint ad9910_profile_phase) by decided.
  rewrite !loaded_stored by decided. do 3 (split; [done|]). intros g Hg Hreg Hdis.
  rewrite !Forall_cons in Hdis. destruct Hdis as (D1 & D2 & D3 & _).
  assert (forall f x y, wf_field f -> reg f = reg g -> disjoint_fields g f -> loaded g (stored f x y) = loaded g y) as Hl.
  { intros f x y Hf Hfg Hdf. apply loaded_stored_disjoint; try done. unfold disjoint_fields in *. lia. }
  rewrite !Hl; try done; decided.
Qed.

(** Programming a ramp leaves in the chip the two limits, the two steps
  and the two rates given, each cut to its field, and in its control
  register the destination, the dwell bits, and the enable bit set (the
  header says the function does not enable the ramp generator). *)
Theorem program_ramp_at_chip dest ul ll dec inc neg pos ndh ndl d :
  dds_ok d ->
  exists d', ad9910_program_ramp dest ul ll dec inc neg pos ndh ndl d = Ok (tt, d') /\ dds_ok d' /\
    chip_field ad9910_ramp_upper_limit (abs d') = Some (u32 ul) /\
    chip_field ad9910_ramp_lower_limit (abs d') = Some (u32 ll) /\
    chip_field ad9910_ramp_decrement_step (abs d') = Some (u32 dec) /\
    chip_field ad9910_ramp_increment_step (abs d') = Some (u32 inc) /\
    chip_field ad9910_ramp_negative_rate (abs d') = Some (u16 neg) /\
    chip_field ad9910_ramp_positive_rate (abs d') = Some (u16 pos) /\
    chip_field ad9910_digital_ramp_destination (abs d') = Some (wrap 2 dest) /\
    chip_field ad9910_digital_ramp_no_dwell_high (abs d') = Some (b2z (truthy ndh)) /\
    chip_field ad9910_digital_ramp_no_dwell_low (abs d') = Some (b2z (truthy ndl)) /\
    chip_field ad9910_digital_ramp_enable (abs d') = Some 1.
Proof.
  intros Hd. destruct (program_ramp_implements dest ul ll dec inc neg pos ndh ndl d Hd)
    as (d' & E1 & Hd' & Habs).
  exists d'. split; [exact E1|]. split; [exact Hd'|]. rewrite Habs. clear E1 Hd' Habs d'.
  assert (Hwf : wf_regs (shadow (abs d))) by apply Hd. generalize dependent (abs d). intros w Hwf.
  unfold spec_ramp. split_and!; fields; f_equal; try done; now destruct (truthy _).
Qed.

(** The update strobe makes every value written so far active in the chip
  at once, provided the line was low before, and leaves the line low and
  the serial link ready. *)
Theorem io_update_activates d :
  dds_ok d -> strobe (chip_of d) = false ->
  exists d', ad9910_io_update d = Ok (tt, d') /\ dds_ok d' /\ regs d' = regs d /\
    active (chip_of d') = buffer (chip_of d) /\ buffer (chip_of d') = buffer (chip_of d) /\
    strobe (chip_of d') = false /\ pin_level_out IO_UPDATE (dev d') = false.
Proof.
  intros Hd Hs. destruct (io_update_implements d Hd) as (d' & E1 & Hd' & Habs).
  assert (d' = with_dev after_io_update d) as He.
  { rewrite ad9910_io_update_ok in E1. congruence. }
  exists d'. unfold spec_strobe in Habs. cbn in Habs. rewrite Hs in Habs.
  injection Habs as Hr Hc. rewrite Hc. split_and!; try done.
  rewrite He. unfold after_io_update. cbn [with_dev dev].
  rewrite after_set_level by (unfold wf_pin; cbn; lia). now rewrite decide_True.
Qed.

(** The indices that [ad9910_update_multiple_regs] selects. *)
Definition selected (mask : Z) : list Z :=
  filter (fun i => truthy (mask &&& u32 (i <<< i)) = true) (seqZ 0 32).

Lemma update_multiple_selected mask d :
  ad9910_update_multiple_regs mask d = for_each (selected mask) (fun i => ad9910_update_reg (Z.to_nat i)) d.
Proof.
  unfold ad9910_update_multiple_regs, selected. generalize (seqZ 0 32) as l. intros l.
  revert d. induction l as [|i l IH]; intros d; [done|]. rewrite filter_cons. cbn [for_each].
  destruct (truthy (mask &&& u32 (i <<< i))) eqn:Ei; cbn [when].
  - rewrite decide_True by done. cbn [for_each]. unfold mbind, M_bind.
    destruct (ad9910_update_reg (Z.to_nat i) d) as [[[] d1]| |]; [apply IH|done|done].
  - rewrite decide_False by done. erewrite bind_ok by reflexivity. apply IH.
Qed.

(** The function that updates several registers sends, in order, exactly
  the registers [i] for which the mask meets [i << i] (not [1 << i]).  So
  the mask that holds the bit of the ramp-limit register's address sends
  the multichip, ramp-step and ramp-rate registers and never the limit. *)
Theorem update_multiple_regs_sends mask d :
  dds_ok d -> Forall (fun i => i < 20) (selected mask) ->
  (exists d', ad9910_update_multiple_regs mask d = Ok (tt, d') /\ dds_ok d' /\
    abs d' = foldl (fun w i => spec_send (Z.to_nat i) w) (abs d) (selected mask)) /\
  selected (1 <<< 0x0B) = [8; 10; 11] /\ address_of (reg_index ramp_limit) = 0x0B.
Proof.
  intros Hd Hs. split; [|now vm_compute]. rewrite update_multiple_selected.
  refine (implements_for_each (selected mask) (fun i => ad9910_update_reg (Z.to_nat i)) _ _ d Hd).
  intros i Hi. apply update_reg_implements.
  assert (0 <= i).
  { apply list_elem_of_filter in Hi as [_ Hi]. apply elem_of_seqZ in Hi. lia. }
  rewrite Forall_forall in Hs. specialize (Hs i Hi). lia.
Qed.

(** Reading a register sends its address with the read bit and as many
  zero bytes as the register has; if the chip answers with the bytes of a
  value of that size, most significant first, that value is the result. *)
Theorem read_register_decodes i r v d :
  dds_ok d -> regs d !! i = Some r -> 0 <= v < 2 ^ (8 * size r) ->
  let n := Z.to_nat (size r) in
  answer (S (spi_count (spi1 (dev d)))) n = be_bytes n v ->
  exists d', ad9910_read_register i d = Ok (v, d') /\ regs d' = regs d /\
    spi_bytes (trace (dev d')) = spi_bytes (trace (dev d)) ++ (address r + 0x80) :: repeat 0 n.
Proof.
  intros [Hwf _] Hi Hv n Ha.
  destruct (wf_regs_reg _ _ _ Hwf Hi) as (_ & Haddr & Hs & _).
  eexists. split; [|split].
  - rewrite (ad9910_read_register_ok i r d Hi) by lia. fold n. rewrite Ha, of_be_be_bytes.
    unfold n. rewrite Z2Nat.id, wrap_small by lia. reflexivity.
  - done.
  - cbn [with_dev dev]. rewrite trace_after_bytes, spi_bytes_app. unfold spi_events.
    rewrite spi_bytes_map. cbn [map].
    rewrite (map_u8_bytes (repeat 0 _)) by (apply Forall_replicate || (apply Forall_forall; intros x Hx;
      apply list_elem_of_In, repeat_spec in Hx; subst; unfold is_byte; lia)).
    rewrite wrap_wrap. do 2 f_equal.
    assert (H : Forall (fun k => u8 (Z.of_nat k ||| AD9910_INSTR_READ) = Z.of_nat k + 0x80) (seq 0 32)) by decided.
    rewrite Forall_forall in H. specialize (H (Z.to_nat (address r)) ltac:(apply elem_of_seq; lia)).
    now rewrite Z2Nat.id in H by lia.
Qed.

(** What is played are the samples of the rounds that find the flag set. *)
Lemma played_rounds data n0 k m :
  0 <= k -> data <> [] -> let len := Z.of_nat (length data) in
  Forall2 (fun i v => data !! Z.to_nat (i mod len) = Some v)
    (filter (fun i => tim_uif (n0 + Z.to_nat i) = true) (seqZ k (Z.of_nat m)))
    (played data len (seqZ k (Z.of_nat m)) false (n0 + Z.to_nat k)).
Proof.
  intros Hk Hne len. revert k Hk. induction m as [|m IH]; intros k Hk; [constructor|].
  rewrite seqZ_cons by lia. replace (Z.pred (Z.of_nat (S m))) with (Z.of_nat m) by lia.
  rewrite filter_cons. cbn [played orb]. specialize (IH (Z.succ k) ltac:(lia)).
  replace (n0 + Z.to_nat (Z.succ k))%nat with (S (n0 + Z.to_nat k)) in IH by lia.
  destruct (tim_uif (n0 + Z.to_nat k)); [|exact IH]. rewrite decide_True by done.
  destruct (lookup_lt_is_Some_2 data (Z.to_nat (k mod len))) as [v Hv].
  { assert (0 < len) by (unfold len; destruct data; [done|cbn [length]; lia]).
    pose proof (Z.mod_pos_bound k len). unfold len in *. lia. }
  rewrite Hv. constructor; [exact Hv|exact IH].
Qed.

(** C21: Playback puts the first sample on the port before the port is enabled
  and the timer runs; then of the [len * rep] rounds (modulo 2^32) the round
  [i] puts the sample [i mod len] on the port if it finds the timer's update
  flag set, and a round that finds it clear puts nothing there: its sample
  is lost, not repeated in a later one.  Interrupts are masked throughout
  and enabled at the end, the timer is stopped. *)
Theorem execute_parallel_plays data rep v r d :
  wf_regs (regs d) -> data !! O = Some v -> regs d !! reg_index cfr2 = Some r ->
  let len := Z.of_nat (length data) in
  let finds_flag i := tim_uif (tim_reads (tim2 (dev d)) + Z.to_nat i) = true in
  exists d' out, ad9910_execute_parallel data len rep d = Ok (tt, d') /\
    primask (dev d') = false /\ tim_enabled (tim2 (dev d')) = false /\
    trace (dev d') = trace (dev d) ++ [EvIrq false; EvPort GPIOE (u16 v)] ++
      spi_events (reg_wire (with_value (stored ad9910_parallel_data_port_enable 1) r)) ++
      [switch_event TX_ENABLE true; EvTim true] ++ port_events out ++ [EvTim false; EvIrq true] /\
    Forall2 (fun i x => data !! Z.to_nat (i mod len) = Some x)
      (filter finds_flag (seqZ 0 (u32 (len * rep)))) out.
Proof.
  intros Hwf Hv Hr len finds_flag. destruct (wf_regs_reg _ _ _ Hwf Hr) as (_ & _ & Hs & _).
  destruct (execute_parallel_ok data rep d v r Hv Hr Hs) as (h' & E1 & Hp & Ht & Htr).
  exists (mkDds h' (<[reg ad9910_parallel_data_port_enable :=
                      with_value (stored ad9910_parallel_data_port_enable 1) r]> (regs d))).
  eexists. split; [exact E1|]. split; [exact Hp|]. split; [exact Ht|]. split; [exact Htr|].
  pose proof (wrap_range 32 (len * rep) ltac:(lia)).
  pose proof (played_rounds data (tim_reads (tim2 (dev d))) 0 (Z.to_nat (u32 (len * rep)))) as H1.
  rewrite Z2Nat.id, Nat.add_0_r in H1 by lia. apply H1; [done|now destruct data].
Qed.

(** C20: Uploading up to 1000 samples to the RAM switches the output off, loads
  the window 0..[samples] into profile 0 and strobes, sends the RAM
  address and the whole buffer, sends the old profile value and strobes,
  and switches the output back to the level it had; the shadow registers
  are as before.  More samples than 1000 change nothing at all. *)
Theorem program_ram_uploads dest mode samples data r d :
  wf_regs (regs d) -> regs d !! reg_index prof0 = Some r ->
  0 <= samples -> length data = Z.to_nat (4 * samples) ->
  (1000 < samples -> ad9910_program_ram dest mode samples data d = Ok (tt, d)) /\
  (samples <= 1000 ->
    exists h', ad9910_program_ram dest mode samples data d = Ok (tt, mkDds h' (regs d)) /\
      trace h' = trace (dev d) ++ [switch_event RF_SWITCH false] ++
        spi_events (reg_wire (ram_profile samples r)) ++ strobe_events ++
        spi_events (ad9910_ram_address :: data) ++
        spi_events (reg_wire r) ++ strobe_events ++
        [switch_event RF_SWITCH (pin_read RF_SWITCH (dev d))] /\
      loaded ad9910_profile_waveform_end_address (value (ram_profile samples r)) = samples /\
      loaded ad9910_profile_waveform_start_address (value (ram_profile samples r)) = 0).
Proof.
  intros Hwf Hr Hs Hdata. destruct (wf_regs_reg _ _ _ Hwf Hr) as (_ & _ & Hsz & _). split.
  - intros Hbig. unfold ad9910_program_ram. destruct (Z.ltb_spec 1000 samples); [done|lia].
  - intros Hle. destruct (ad9910_program_ram_ok dest mode samples data d r) as (h' & E1 & Ht);
      [lia|done|done|done|]. exists h'. split; [exact E1|]. split; [exact Ht|].
    unfold ram_profile. cbn [value with_value].
    rewrite (loaded_stored_disjoint ad9910_profile_waveform_end_address
               ad9910_profile_waveform_start_address) by decided.
    rewrite !loaded_stored by decided. split; [|done].
    apply wrap_small. change (2 ^ bits ad9910_profile_waveform_end_address) with 1024. lia.
Qed.
End Properties.

(** ** A concrete state *)

Definition dds_boot : dds := mkDds hw_reset ad9910_regs.

Lemma dds_boot_ok : dds_ok dds_boot.
Proof. split; [apply ad9910_regs_wf|reflexivity]. Qed.

Lemma update_reg_reaches_chip_witness :
  exists d', @ad9910_update_reg plain_env 1 dds_boot = Ok (tt, d') /\
    trace (dev d') = map EvSpi [1; 0; 0x40; 0x08; 0x20].
Proof.
  destruct (@update_reg_reaches_chip plain_env 1 (mkReg 0x01 0x400820 4) dds_boot dds_boot_ok eq_refl)
    as (d' & H1 & _ & H2 & _).
  exists d'. split; [exact H1|exact H2].
Defined.

Lemma single_tone_at_chip_witness :
  exists d' v, @ad9910_set_single_tone plain_env 3 0x1999999A 0x3FFF 0 dds_boot = Ok (tt, d') /\
    chip_of d' = written 0x11 v chip_reset /\ loaded ad9910_profile_frequency v = 0x1999999A.
Proof.
  destruct (@single_tone_at_chip plain_env 3 0x1999999A 0x3FFF 0 dds_boot ltac:(lia) dds_boot_ok)
    as (r & v & _ & H1 & _ & _ & H2 & H3 & _).
  eexists _, v. split; [exact H1|]. split; [exact H2|exact H3].
Defined.

Lemma program_ramp_at_chip_witness :
  exists d', @ad9910_program_ramp plain_env 0 20 10 1 2 3 4 1 0 dds_boot = Ok (tt, d') /\
    chip_field ad9910_ramp_upper_limit (abs d') = Some 20.
Proof.
  destruct (@program_ramp_at_chip plain_env 0 20 10 1 2 3 4 1 0 dds_boot dds_boot_ok)
    as (d' & H1 & _ & H2 & _).
  exists d'. split; [exact H1|exact H2].
Defined.

Lemma io_update_activates_witness :
  exists d', ad9910_io_update dds_boot = Ok (tt, d') /\ active (chip_of d') = ∅.
Proof.
  destruct (io_update_activates dds_boot dds_boot_ok eq_refl) as (d' & H1 & _ & _ & H2 & _).
  exists d'. split; [exact H1|exact H2].
Defined.

Lemma update_multiple_regs_sends_witness :
  exists d', @ad9910_update_multiple_regs plain_env (1 <<< 0x0B) dds_boot = Ok (tt, d') /\ dds_ok d'.
Proof.
  destruct (@update_multiple_regs_sends plain_env (1 <<< 0x0B) dds_boot dds_boot_ok) as ((d' & H1 & H2 & _) & _);
    [decided|].
  exists d'. split; [exact H1|exact H2].
Defined.

Lemma read_register_decodes_witness :
  exists d', @ad9910_read_register plain_env 0 dds_boot = Ok (0x01020304, d').
Proof.
  destruct (@read_register_decodes plain_env 0 (mkReg 0x00 0x0 4) 0x01020304 dds_boot dds_boot_ok eq_refl)
    as (d' & H1 & _); [cbn; lia|reflexivity|].
  exists d'. exact H1.
Defined.

(** A timer half as fast as the loop: every second round finds the flag. *)
Definition slow_timer : Env :=
  {| pin_level := @pin_level plain_env; spi_time := @spi_time plain_env; miso := @miso plain_env; ticks := @ticks plain_env; tim_uif := Nat.odd; poll_fuel := @poll_fuel plain_env |}.

Lemma execute_parallel_plays_witness :
  exists d', @ad9910_execute_parallel slow_timer [5; 6; 7] 3 2 dds_boot = Ok (tt, d') /\
    exists out, out = [6; 5; 7] /\
      Forall2 (fun i x => [5; 6; 7] !! Z.to_nat (i mod 3) = Some x) [1; 3; 5] out.
Proof.
  destruct (@execute_parallel_plays slow_timer [5; 6; 7] 2 5 (mkReg 0x01 0x400820 4) dds_boot)
    as (d' & out & H1 & _ & _ & _ & H2); [apply dds_boot_ok|reflexivity|reflexivity|].
  exists d'. split; [exact H1|]. exists out.
  assert (Forall2 (fun i x => [5; 6; 7] !! Z.to_nat (i mod 3) = Some x) [1; 3; 5] out) as H3 by exact H2.
  split; [|exact H3].
  do 3 (apply Forall2_cons_inv_l in H3 as (? & ? & Hx & H3 & ->); cbn in Hx; injection Hx as <-).
  now apply Forall2_nil_inv_l in H3 as ->.
Defined.

Lemma program_ram_uploads_witness :
  exists h', @ad9910_program_ram plain_env 0 0 1 [1; 2; 3; 4] dds_boot = Ok (tt, mkDds h' ad9910_regs).
Proof.
  destruct (@program_ram_uploads plain_env 0 0 1 [1; 2; 3; 4] (mkReg 0x0E 0x0 8) dds_boot) as (_ & H2);
    [apply dds_boot_ok|reflexivity|lia|reflexivity|].
  destruct (H2 ltac:(lia)) as (h' & H3 & _). exists h'. exact H3.
Defined.
