(* ===== verification/Flash.v ===== *)
(** * Flash: the flash controller and the emulated EEPROM

    Models the four functions of the vendor's stm32f4xx_flash.c that the
    firmware calls, on a model of the flash controller (its lock, control and
    status registers, and a memory whose bits programming can only clear),
    and include/eeprom.h with src/eeprom.c on top of them.  How long an
    operation keeps the controller busy and with which error flags it ends is
    left to the environment. *)

From Stdlib Require Import ZArith Lia.
From stdpp Require Import base numbers list gmap.
From S2P Require Import Prelude.
#[local] Open Scope c_scope.

(** ** The controller

    [flash_time n]: how many status reads the [n]-th operation (an erase or a
    programmed byte) stays busy for; [flash_fault n]: the error flags it sets. *)
Class FlashEnv := { flash_time : nat -> nat; flash_fault : nat -> Z }.

Record flash := mkFlash {
    f_cr : Z;             (** CR *)
    f_err : Z;            (** the error flags of SR; they stay until cleared *)
    f_busy : nat;         (** status reads until the operation is over *)
    f_ops : nat;          (** operations started so far *)
    f_key : bool;         (** the first unlock key has been written *)
    f_mem : gmap Z Z;     (** contents that are not erased, by address *)
  }.

Definition FLASH_KEY1 := 0x45670123.
Definition FLASH_KEY2 := 0xCDEF89AB.
Definition FLASH_CR_PG := 0x00000001.
Definition FLASH_CR_SER := 0x00000002.
Definition FLASH_CR_STRT := 0x00010000.
Definition FLASH_CR_LOCK := 0x80000000.
Definition FLASH_PSIZE_BYTE := 0x00000000.
Definition FLASH_PSIZE_HALF_WORD := 0x00000100.
Definition FLASH_PSIZE_WORD := 0x00000200.
Definition FLASH_PSIZE_DOUBLE_WORD := 0x00000300.
Definition CR_PSIZE_MASK := 0xFFFFFCFF.
Definition SECTOR_MASK := 0xFFFFFF07.
Definition FLASH_FLAG_OPERR := 0x00000002.
Definition FLASH_FLAG_WRPERR := 0x00000010.
Definition FLASH_FLAG_PGSERR := 0x00000080.
Definition FLASH_FLAG_RDERR := 0x00000100.
Definition FLASH_FLAG_BSY := 0x00010000.
Definition FLASH_ERRORS := 0x000001F2.

Definition flash_reset : flash := mkFlash FLASH_CR_LOCK 0 0 0 false ∅.

(** The byte at an address; erased memory reads as ones. *)
Definition mem_byte (m : gmap Z Z) (a : Z) : Z := default 0xFF (m !! a).
Definition flash_byte (f : flash) (a : Z) : Z := mem_byte (f_mem f) a.
Definition flash_bytes (f : flash) (a : Z) (n : nat) : list Z :=
  map (fun i => flash_byte f (a + i)) (seqZ 0 (Z.of_nat n)).

(** The 16K sectors 0 to 3, the only ones the firmware erases. *)
Definition in_sector (s a : Z) : Prop := 0x08000000 + s * 0x4000 <= a < 0x08000000 + (s + 1) * 0x4000.

#[export] Instance in_sector_dec s a : Decision (in_sector s a).
Proof. unfold in_sector. apply _. Defined.

Section Flash.
Context `{FlashEnv}.

Definition locked (f : flash) : bool := truthy (f_cr f &&& FLASH_CR_LOCK).

(** The end of an operation: busy for a while, then perhaps error flags; a
  failed operation leaves the memory alone. *)
Definition flash_op (g : gmap Z Z -> gmap Z Z) (f : flash) : flash :=
  let e := flash_fault (f_ops f) &&& FLASH_ERRORS in
  mkFlash (f_cr f) (f_err f ||| e) (flash_time (f_ops f)) (S (f_ops f)) (f_key f)
          (if e =? 0 then g (f_mem f) else f_mem f).

Definition read_CR : M flash Z := gets f_cr.

(** A write to CR has no effect while it is locked; setting STRT with SER
  erases the sector selected by bits 3 to 7. *)
Definition write_CR (v : Z) : M flash unit := fun f =>
  if locked f then Ok (tt, f) else
  let f := mkFlash (u32 v) (f_err f) (f_busy f) (f_ops f) (f_key f) (f_mem f) in
  if truthy (v &&& FLASH_CR_STRT) && truthy (v &&& FLASH_CR_SER)
  then Ok (tt, flash_op (fun m => filter (fun p => ~ in_sector ((v >>> 3) &&& 31) p.1) m)
                 (mkFlash (Z.ldiff (u32 v) FLASH_CR_STRT) (f_err f) (f_busy f) (f_ops f) (f_key f) (f_mem f)))
  else Ok (tt, f).

Definition modify_CR (g : Z -> Z) : M flash unit := v ← read_CR; write_CR (g v).

Definition write_KEYR (k : Z) : M flash unit := fun f =>
  Ok (tt, if k =? FLASH_KEY1 then mkFlash (f_cr f) (f_err f) (f_busy f) (f_ops f) true (f_mem f)
          else if (k =? FLASH_KEY2) && f_key f
          then mkFlash (Z.ldiff (f_cr f) FLASH_CR_LOCK) (f_err f) (f_busy f) (f_ops f) false (f_mem f)
          else f).

Definition read_SR : M flash Z := fun f =>
  match f_busy f with
  | O => Ok (f_err f &&& FLASH_ERRORS, f)
  | S n => Ok (FLASH_FLAG_BSY, mkFlash (f_cr f) (f_err f) n (f_ops f) (f_key f) (f_mem f))
  end.

(** A byte written to the memory: programming clears bits; without PG it is
  a sequence error. *)
Definition write_flash (a b : Z) : M flash unit := fun f =>
  if negb (locked f) && truthy (f_cr f &&& FLASH_CR_PG)
  then Ok (tt, flash_op (fun m => <[a := mem_byte m a &&& u8 b]> m) f)
  else Ok (tt, mkFlash (f_cr f) (f_err f ||| FLASH_FLAG_PGSERR) (f_busy f) (f_ops f) (f_key f) (f_mem f)).

(** ** The vendor's functions *)

Inductive FLASH_Status :=
  | FLASH_BUSY | FLASH_ERROR_RD | FLASH_ERROR_PGS | FLASH_ERROR_PGP | FLASH_ERROR_PGA
  | FLASH_ERROR_WRP | FLASH_ERROR_PROGRAM | FLASH_ERROR_OPERATION | FLASH_COMPLETE.

#[export] Instance FLASH_Status_eq_dec : EqDecision FLASH_Status.
Proof. solve_decision. Defined.

Definition FLASH_Unlock : M flash unit :=
  cr ← read_CR;
  when (truthy (cr &&& FLASH_CR_LOCK)) (write_KEYR FLASH_KEY1;; write_KEYR FLASH_KEY2).

Definition FLASH_Lock : M flash unit := modify_CR (fun cr => cr ||| FLASH_CR_LOCK).

Definition FLASH_GetStatus : M flash FLASH_Status :=
  sr ← read_SR;
  if (sr &&& FLASH_FLAG_BSY) =? FLASH_FLAG_BSY then mret FLASH_BUSY else
  sr ← read_SR;
  if truthy (sr &&& FLASH_FLAG_WRPERR) then mret FLASH_ERROR_WRP else
  sr ← read_SR;
  if truthy (sr &&& FLASH_FLAG_RDERR) then mret FLASH_ERROR_RD else
  sr ← read_SR;
  if truthy (sr &&& 0xE0) then mret FLASH_ERROR_PROGRAM else
  sr ← read_SR;
  if truthy (sr &&& FLASH_FLAG_OPERR) then mret FLASH_ERROR_OPERATION else
  mret FLASH_COMPLETE.

(** Polls until the operation is over: one round more than it is busy for. *)
Fixpoint wait_status (fuel : nat) : M flash FLASH_Status :=
  match fuel with
  | O => hang
  | S fuel => status ← FLASH_GetStatus;
              match status with FLASH_BUSY => wait_status fuel | _ => mret status end
  end.

Definition FLASH_WaitForLastOperation : M flash FLASH_Status := fun f =>
  wait_status (S (f_busy f)) f.

Definition VoltageRange_1 := 0.
Definition VoltageRange_2 := 1.
Definition VoltageRange_3 := 2.

Definition FLASH_EraseSector (FLASH_Sector VoltageRange : Z) : M flash FLASH_Status :=
  let tmp_psize :=
    if VoltageRange =? VoltageRange_1 then FLASH_PSIZE_BYTE
    else if VoltageRange =? VoltageRange_2 then FLASH_PSIZE_HALF_WORD
    else if VoltageRange =? VoltageRange_3 then FLASH_PSIZE_WORD
    else FLASH_PSIZE_DOUBLE_WORD in
  status ← FLASH_WaitForLastOperation;
  if decide (status = FLASH_COMPLETE) then
    modify_CR (fun cr => cr &&& CR_PSIZE_MASK);;
    modify_CR (fun cr => cr ||| tmp_psize);;
    modify_CR (fun cr => cr &&& SECTOR_MASK);;
    modify_CR (fun cr => cr ||| (FLASH_CR_SER ||| FLASH_Sector));;
    modify_CR (fun cr => cr ||| FLASH_CR_STRT);;
    status ← FLASH_WaitForLastOperation;
    modify_CR (fun cr => cr &&& Z.lnot FLASH_CR_SER);;
    modify_CR (fun cr => cr &&& SECTOR_MASK);;
    mret status
  else mret status.

Definition FLASH_ProgramByte (Address Data : Z) : M flash FLASH_Status :=
  status ← FLASH_WaitForLastOperation;
  if decide (status = FLASH_COMPLETE) then
    modify_CR (fun cr => cr &&& CR_PSIZE_MASK);;
    modify_CR (fun cr => cr ||| FLASH_PSIZE_BYTE);;
    modify_CR (fun cr => cr ||| FLASH_CR_PG);;
    write_flash Address Data;;
    status ← FLASH_WaitForLastOperation;
    modify_CR (fun cr => cr &&& Z.lnot FLASH_CR_PG);;
    mret status
  else mret status.

(** ** The emulated EEPROM *)

Inductive eeprom_id := eeprom_block0 | eeprom_block1 | eeprom_block2.

Definition FLASH_Sector (id : eeprom_id) : Z :=
  match id with eeprom_block0 => 0x08 | eeprom_block1 => 0x10 | eeprom_block2 => 0x18 end.

Definition eeprom_get (id : eeprom_id) (addr : Z) : Z := 0x08000000 + FLASH_Sector id * 0x800 + u16 addr.
Definition eeprom_get_end (id : eeprom_id) : Z := 0x08000000 + FLASH_Sector id * 0x800 + 0x4000.
Definition eeprom_get_size (id : eeprom_id) : Z := 0x4000.

(** The loop of [eeprom_write] from index [i] on, over the bytes left. *)
Fixpoint eeprom_write_loop (id : eeprom_id) (addr i : Z) (data : list Z) : M flash Z :=
  match data with
  | [] => FLASH_Lock;; mret 0
  | b :: data =>
      FLASH_WaitForLastOperation;;
      status ← FLASH_ProgramByte (eeprom_get id (addr + i)) b;
      if decide (status <> FLASH_COMPLETE) then FLASH_Lock;; mret 1
      else eeprom_write_loop id addr (i + 1) data
  end.

Definition eeprom_write (id : eeprom_id) (addr : Z) (data : list Z) : M flash Z :=
  FLASH_Unlock;; eeprom_write_loop id addr 0 data.

Definition eeprom_erase (id : eeprom_id) : M flash Z :=
  FLASH_Unlock;;
  status ← FLASH_EraseSector (FLASH_Sector id) VoltageRange_3;
  FLASH_Lock;;
  mret (if decide (status <> FLASH_COMPLETE) then 1 else 0).
End Flash.

(** ** Effects *)

Section FlashLemmas.
Context `{FE : FlashEnv}.

(** Between the calls of the library the control register holds nothing but
  the lock bit and the size of the last operation. *)
Definition cr_rest (lock : Z) (f : flash) : Prop :=
  f_key f = false /\ (f_cr f = lock \/ f_cr f = lock + FLASH_PSIZE_WORD) /\ f_err f = f_err f &&& FLASH_ERRORS.
Definition rest : flash -> Prop := cr_rest FLASH_CR_LOCK.
Definition unlocked : flash -> Prop := cr_rest 0.

Definition settled (f : flash) : flash :=
  mkFlash (f_cr f) (f_err f) 0 (f_ops f) (f_key f) (f_mem f).

(** The status that error flags stand for. *)
Definition status_of (e : Z) : FLASH_Status :=
  if truthy (e &&& FLASH_FLAG_WRPERR) then FLASH_ERROR_WRP
  else if truthy (e &&& FLASH_FLAG_RDERR) then FLASH_ERROR_RD
  else if truthy (e &&& 0xE0) then FLASH_ERROR_PROGRAM
  else if truthy (e &&& FLASH_FLAG_OPERR) then FLASH_ERROR_OPERATION
  else FLASH_COMPLETE.

Lemma errors_not_busy e : ((e &&& FLASH_ERRORS) &&& FLASH_FLAG_BSY =? FLASH_FLAG_BSY) = false.
Proof.
  rewrite <- Z.land_assoc. change (FLASH_ERRORS &&& FLASH_FLAG_BSY) with 0.
  now rewrite Z.land_0_r.
Qed.

Lemma status_not_busy e : status_of e <> FLASH_BUSY.
Proof. unfold status_of. now repeat destruct (truthy _). Qed.

Lemma status_complete e : e = e &&& FLASH_ERRORS -> status_of e = FLASH_COMPLETE <-> e = 0.
Proof.
  intros He. split; [|now intros ->]. unfold status_of, truthy.
  destruct (e &&& FLASH_FLAG_WRPERR =? 0) eqn:E1; [|done].
  destruct (e &&& FLASH_FLAG_RDERR =? 0) eqn:E2; [|done].
  destruct (e &&& 0xE0 =? 0) eqn:E3; [|done].
  destruct (e &&& FLASH_FLAG_OPERR =? 0) eqn:E4; [|done]. intros _.
  apply Z.eqb_eq in E1, E2, E3, E4. rewrite He.
  change FLASH_ERRORS with (FLASH_FLAG_WRPERR ||| FLASH_FLAG_RDERR ||| 0xE0 ||| FLASH_FLAG_OPERR).
  rewrite !Z.land_lor_distr_r. now rewrite E1, E2, E3, E4.
Qed.

Lemma get_status_idle f :
  f_busy f = O -> FLASH_GetStatus f = Ok (status_of (f_err f &&& FLASH_ERRORS), f).
Proof.
  intros Hb.
  assert (Hr : read_SR f = Ok (f_err f &&& FLASH_ERRORS, f)) by (unfold read_SR; now rewrite Hb).
  unfold FLASH_GetStatus, status_of.
  repeat (rewrite (bind_ok _ _ _ _ _ Hr); rewrite ?errors_not_busy;
          match goal with |- (if ?b then _ else _) _ = _ => destruct b; [done|] | _ => idtac end).
  done.
Qed.

Lemma wait_any f :
  FLASH_WaitForLastOperation f = Ok (status_of (f_err f &&& FLASH_ERRORS), settled f).
Proof.
  unfold FLASH_WaitForLastOperation. remember (f_busy f) as n eqn:En. symmetry in En.
  revert f En. induction n as [|n IH]; intros f En; cbn [wait_status].
  - rewrite (bind_ok _ _ _ _ _ (get_status_idle f En)).
    assert (settled f = f) as -> by (destruct f; cbn in *; now subst).
    pose proof (status_not_busy (f_err f &&& FLASH_ERRORS)). now destruct (status_of _).
  - set (f1 := mkFlash (f_cr f) (f_err f) n (f_ops f) (f_key f) (f_mem f)).
    rewrite (bind_ok _ _ _ FLASH_BUSY f1).
    2:{ unfold FLASH_GetStatus. rewrite (bind_ok _ _ _ FLASH_FLAG_BSY f1); [done|].
        unfold read_SR. now rewrite En. }
    exact (IH f1 eq_refl).
Qed.

Lemma wait_ok f :
  f_err f = f_err f &&& FLASH_ERRORS ->
  FLASH_WaitForLastOperation f = Ok (status_of (f_err f), settled f).
Proof. intros He. now rewrite wait_any, <- He. Qed.

(** Whatever state the controller is in, the calls return. *)
Lemma flash_wait_ends : ends FLASH_WaitForLastOperation.
Proof. intros f. rewrite wait_any. discriminate. Qed.

Lemma write_CR_ends v : ends (write_CR v).
Proof. intros f. unfold write_CR. now repeat case_match. Qed.

Lemma write_flash_ends a b : ends (write_flash a b).
Proof. intros f. unfold write_flash. now case_match. Qed.

Lemma write_KEYR_ends k : ends (write_KEYR k).
Proof. done. Qed.

#[local] Hint Resolve flash_wait_ends write_CR_ends write_flash_ends write_KEYR_ends : ends.

Lemma FLASH_Unlock_ends : ends FLASH_Unlock.
Proof. unfold FLASH_Unlock, read_CR, when. ending. Qed.

Lemma FLASH_Lock_ends : ends FLASH_Lock.
Proof. unfold FLASH_Lock, modify_CR, read_CR. ending. Qed.

Lemma program_byte_ends a b : ends (FLASH_ProgramByte a b).
Proof. unfold FLASH_ProgramByte, modify_CR, read_CR. ending. Qed.

Lemma erase_sector_ends n v : ends (FLASH_EraseSector n v).
Proof. unfold FLASH_EraseSector, modify_CR, read_CR. ending. Qed.

#[local] Hint Resolve FLASH_Unlock_ends FLASH_Lock_ends program_byte_ends erase_sector_ends : ends.

Lemma eeprom_erase_ends id : ends (eeprom_erase id).
Proof. unfold eeprom_erase. ending. Qed.

Lemma eeprom_write_ends id addr data : ends (eeprom_write id addr data).
Proof.
  unfold eeprom_write. ending. generalize 0. induction data as [|b data IH]; intros i;
    cbn [eeprom_write_loop]; ending.
Qed.

Lemma settled_settled f : settled (settled f) = settled f.
Proof. done. Qed.

(** The outcome of the operation started in state [f]. *)
Definition op_errors (f : flash) : Z := flash_fault (f_ops f) &&& FLASH_ERRORS.

Record after_op (g : gmap Z Z -> gmap Z Z) (f f' : flash) : Prop := {
  ao_rest : unlocked f';
  ao_idle : f_busy f' = O;
  ao_ops : f_ops f' = S (f_ops f);
  ao_err : f_err f' = f_err f ||| op_errors f;
  ao_mem : f_mem f' = if op_errors f =? 0 then g (f_mem f) else f_mem f;
  }.

Lemma lor_errors f :
  f_err f = f_err f &&& FLASH_ERRORS ->
  f_err f ||| op_errors f = (f_err f ||| op_errors f) &&& FLASH_ERRORS.
Proof.
  intros He. rewrite Z.land_lor_distr_l, <- He. f_equal. unfold op_errors.
  now rewrite <- Z.land_assoc, Z.land_diag.
Qed.

Lemma program_byte_ok a b f :
  unlocked f -> f_err f = 0 ->
  exists f', FLASH_ProgramByte a b f = Ok (status_of (op_errors f), f') /\
    after_op (fun m => <[a := mem_byte m a &&& u8 b]> m) f f'.
Proof.
  intros (Hk & Hcr & He) H0. unfold FLASH_ProgramByte.
  rewrite (bind_ok _ _ _ _ _ (wait_ok f He)), H0. cbn [status_of].
  rewrite decide_True by done.
  set (f1 := mkFlash FLASH_CR_PG 0 0 (f_ops f) false (f_mem f)).
  set (f2 := flash_op (fun m => <[a := mem_byte m a &&& u8 b]> m) f1).
  set (f3 := mkFlash 0 (op_errors f) 0 (S (f_ops f)) false (f_mem f2)).
  assert (Hpre : forall A (k : unit -> M flash A),
    (modify_CR (fun cr => cr &&& CR_PSIZE_MASK);; modify_CR (fun cr => cr ||| FLASH_PSIZE_BYTE);;
     x ← modify_CR (fun cr => cr ||| FLASH_CR_PG); k x) (settled f) = k tt f1).
  { intros A k. destruct f as [cr er bu op ke me]; cbn in *; subst. now destruct Hcr as [-> | ->]. }
  exists f3. split.
  - rewrite Hpre, (bind_ok _ _ _ tt f2) by done.
    erewrite bind_ok by (apply wait_ok; exact (lor_errors f1 eq_refl)).
    rewrite (bind_ok _ _ _ tt f3) by done. done.
  - split; try done.
    + split_and!; [done|now left|]. exact (lor_errors f1 eq_refl).
    + now rewrite H0.
Qed.

Lemma program_byte_failed a b f :
  unlocked f -> f_err f <> 0 ->
  FLASH_ProgramByte a b f = Ok (status_of (f_err f), settled f) /\ status_of (f_err f) <> FLASH_COMPLETE.
Proof.
  intros (Hk & Hcr & He) H0.
  assert (Hs : status_of (f_err f) <> FLASH_COMPLETE) by (rewrite status_complete; done).
  split; [|done]. unfold FLASH_ProgramByte.
  rewrite (bind_ok _ _ _ _ _ (wait_ok f He)). now rewrite decide_False.
Qed.

Lemma unlock_ok f :
  rest f -> exists f', FLASH_Unlock f = Ok (tt, f') /\ unlocked f' /\
    f_err f' = f_err f /\ f_ops f' = f_ops f /\ f_mem f' = f_mem f.
Proof.
  intros (Hk & Hcr & He). destruct f as [cr er bu op ke me]; cbn in *; subst.
  destruct Hcr as [-> | ->]; (eexists; split; [reflexivity|]; split; [|done]).
  - split_and!; [done|now left|done].
  - split_and!; [done|now right|done].
Qed.

Lemma lock_ok f :
  unlocked f -> exists f', FLASH_Lock f = Ok (tt, f') /\ rest f' /\
    f_err f' = f_err f /\ f_ops f' = f_ops f /\ f_mem f' = f_mem f.
Proof.
  intros (Hk & Hcr & He). destruct f as [cr er bu op ke me]; cbn in *; subst.
  destruct Hcr as [-> | ->]; (eexists; split; [reflexivity|]; split; [|done]).
  - split_and!; [done|now left|done].
  - split_and!; [done|now right|done].
Qed.

Definition sector_of (id : eeprom_id) : Z :=
  match id with eeprom_block0 => 1 | eeprom_block1 => 2 | eeprom_block2 => 3 end.

Definition erase_mem (s : Z) (m : gmap Z Z) : gmap Z Z := filter (fun p => ~ in_sector s p.1) m.

Lemma erase_sector_ok id f :
  unlocked f -> f_err f = 0 ->
  exists f', FLASH_EraseSector (FLASH_Sector id) VoltageRange_3 f = Ok (status_of (op_errors f), f') /\
    after_op (erase_mem (sector_of id)) f f'.
Proof.
  intros (Hk & Hcr & He) H0. unfold FLASH_EraseSector.
  rewrite (bind_ok _ _ _ _ _ (wait_ok f He)), H0. cbn [status_of].
  rewrite decide_True by done. cbv zeta.
  set (f1 := mkFlash (FLASH_PSIZE_WORD ||| FLASH_CR_SER ||| FLASH_Sector id) 0 0 (f_ops f) false (f_mem f)).
  set (f2 := flash_op (erase_mem (sector_of id)) f1).
  set (f3 := mkFlash FLASH_PSIZE_WORD (op_errors f) 0 (S (f_ops f)) false (f_mem f2)).
  set (tmp := if VoltageRange_3 =? VoltageRange_1 then _ else _).
  assert (Hpre : forall A (k : unit -> M flash A),
    (modify_CR (fun cr => cr &&& CR_PSIZE_MASK);; modify_CR (fun cr => cr ||| tmp);;
     modify_CR (fun cr => cr &&& SECTOR_MASK);;
     modify_CR (fun cr => cr ||| (FLASH_CR_SER ||| FLASH_Sector id));;
     x ← modify_CR (fun cr => cr ||| FLASH_CR_STRT); k x) (settled f) = k tt f2).
  { intros A k. destruct f as [cr er bu op ke me]; cbn in *; subst.
    destruct Hcr as [-> | ->]; now destruct id. }
  exists f3. split.
  - rewrite Hpre. erewrite bind_ok by (apply wait_ok; exact (lor_errors f1 eq_refl)).
    assert (Hpost : forall A (k : unit -> M flash A),
      (modify_CR (fun cr => cr &&& Z.lnot FLASH_CR_SER);;
       x ← modify_CR (fun cr => cr &&& SECTOR_MASK); k x) (settled f2) = k tt f3).
    { intros A k. unfold f3, f2, f1. now destruct id. }
    rewrite Hpost. done.
  - split; try done.
    + split_and!; [done|now right|]. exact (lor_errors f1 eq_refl).
    + now rewrite H0.
Qed.

(** The memory after programming [data] from address [a] on, the first
  operation being the [n]-th, and whether every operation succeeded. *)
Fixpoint program (a : Z) (data : list Z) (n : nat) (m : gmap Z Z) : gmap Z Z * bool :=
  match data with
  | [] => (m, true)
  | b :: data =>
      if flash_fault n &&& FLASH_ERRORS =? 0
      then program (a + 1) data (S n) (<[a := mem_byte m a &&& u8 b]> m)
      else (m, false)
  end.

Lemma eeprom_get_add id addr i :
  0 <= addr -> 0 <= i -> addr + i < 0x4000 -> eeprom_get id (addr + i) = eeprom_get id addr + i.
Proof. intros. unfold eeprom_get. rewrite !wrap_small by lia. lia. Qed.

Lemma eeprom_write_loop_ok id addr i data f :
  unlocked f -> f_err f = 0 -> 0 <= addr -> 0 <= i -> addr + i + Z.of_nat (length data) <= 0x4000 ->
  let r := program (eeprom_get id addr + i) data (f_ops f) (f_mem f) in
  exists f', eeprom_write_loop id addr i data f = Ok (if r.2 then 0 else 1, f') /\
    rest f' /\ f_mem f' = r.1 /\ (if r.2 then f_err f' = 0 else f_err f' <> 0) /\
    (if r.2 then f_ops f' = (f_ops f + length data)%nat else True).
Proof.
  revert i f. induction data as [|b data IH]; intros i f Hu H0 Ha Hi Hlen; cbn [eeprom_write_loop program length].
  { destruct (lock_ok f Hu) as (f' & E1 & Hr & He & Ho & Hm). exists f'. cbn [fst snd].
    rewrite (bind_ok _ _ _ _ _ E1). split_and!; try congruence; try done. lia. }
  cbn [length] in Hlen. pose proof Hu as (Hk & Hcr & Herr).
  rewrite (bind_ok _ _ _ _ _ (wait_ok f Herr)).
  assert (Hu' : unlocked (settled f)) by done.
  destruct (program_byte_ok (eeprom_get id (addr + i)) b (settled f) Hu' H0) as (f1 & E1 & [Hr1 Hb1 Ho1 He1 Hm1]).
  rewrite (bind_ok _ _ _ _ _ E1). rewrite eeprom_get_add in Hm1 by lia.
  change (op_errors (settled f)) with (op_errors f) in *.
  change (f_err (settled f)) with (f_err f) in *. change (f_mem (settled f)) with (f_mem f) in *.
  change (f_ops (settled f)) with (f_ops f) in *. rewrite H0, Z.lor_0_l in He1.
  assert (Hoe : op_errors f = op_errors f &&& FLASH_ERRORS)
    by (unfold op_errors; now rewrite <- Z.land_assoc, Z.land_diag).
  fold (op_errors f). destruct (Z.eqb_spec (op_errors f) 0) as [Hz|Hnz].
  - rewrite Hz. rewrite decide_False by tauto.
    destruct (IH (i + 1) f1) as (f' & E2 & Hr2 & Hm2 & He2 & Ho2); try done; try lia; try congruence.
    rewrite Ho1, Hm1 in *. rewrite !Z.add_assoc in *. exists f'.
    split_and!; try done. destruct (program _ _ _ _).2; [lia|done].
  - rewrite decide_True by (rewrite status_complete; done).
    destruct (lock_ok f1 Hr1) as (f' & E2 & Hr2 & He2 & _ & Hm2). exists f'.
    rewrite (bind_ok _ _ _ _ _ E2). cbn [fst snd]. split_and!; try congruence; done.
Qed.

Lemma eeprom_write_ok id addr data f :
  rest f -> f_err f = 0 -> 0 <= addr -> addr + Z.of_nat (length data) <= 0x4000 ->
  let r := program (eeprom_get id addr) data (f_ops f) (f_mem f) in
  exists f', eeprom_write id addr data f = Ok (if r.2 then 0 else 1, f') /\
    rest f' /\ f_mem f' = r.1 /\ (if r.2 then f_err f' = 0 else f_err f' <> 0) /\
    (if r.2 then f_ops f' = (f_ops f + length data)%nat else True).
Proof.
  intros Hr H0 Ha Hlen. destruct (unlock_ok f Hr) as (f1 & E1 & Hu & He & Ho & Hm).
  unfold eeprom_write. rewrite (bind_ok _ _ _ _ _ E1).
  destruct (eeprom_write_loop_ok id addr 0 data f1) as (f' & H1); try done; try lia.
  exists f'. rewrite Z.add_0_r, Ho, Hm in H1. exact H1.
Qed.

Lemma eeprom_write_failed id addr data f :
  rest f -> f_err f <> 0 -> data <> [] ->
  exists f', eeprom_write id addr data f = Ok (1, f') /\ rest f' /\ f_err f' = f_err f /\ f_mem f' = f_mem f.
Proof.
  intros Hr H0 Hd. destruct (unlock_ok f Hr) as (f1 & E1 & Hu & He & Ho & Hm).
  unfold eeprom_write. rewrite (bind_ok _ _ _ _ _ E1). destruct data as [|b data]; [done|].
  cbn [eeprom_write_loop]. pose proof Hu as (_ & _ & Herr).
  rewrite (bind_ok _ _ _ _ _ (wait_ok f1 Herr)).
  destruct (program_byte_failed (eeprom_get id (addr + 0)) b (settled f1)) as [E2 Hs]; [done|cbn; congruence|].
  rewrite (bind_ok _ _ _ _ _ E2), decide_True by done.
  destruct (lock_ok (settled (settled f1))) as (f' & E3 & Hr3 & He3 & _ & Hm3); [done|].
  exists f'. rewrite (bind_ok _ _ _ _ _ E3). cbn in *. split_and!; try congruence; done.
Qed.

Lemma eeprom_erase_ok id f :
  rest f -> f_err f = 0 ->
  exists f', eeprom_erase id f = Ok (if op_errors f =? 0 then 0 else 1, f') /\ rest f' /\
    f_ops f' = S (f_ops f) /\ f_err f' = op_errors f /\
    f_mem f' = if op_errors f =? 0 then erase_mem (sector_of id) (f_mem f) else f_mem f.
Proof.
  intros Hr H0. destruct (unlock_ok f Hr) as (f1 & E1 & Hu & He & Ho & Hm).
  unfold eeprom_erase. rewrite (bind_ok _ _ _ _ _ E1).
  destruct (erase_sector_ok id f1 Hu ltac:(congruence)) as (f2 & E2 & [Hr2 _ Ho2 He2 Hm2]).
  rewrite (bind_ok _ _ _ _ _ E2).
  destruct (lock_ok f2 Hr2) as (f' & E3 & Hr3 & He3 & Ho3 & Hm3). rewrite (bind_ok _ _ _ _ _ E3).
  assert (Hoe : op_errors f1 = op_errors f) by (unfold op_errors; now rewrite Ho).
  rewrite Hoe, He, H0, Z.lor_0_l in *. exists f'. split_and!; try congruence; try done.
  assert (Hfe : op_errors f = op_errors f &&& FLASH_ERRORS)
    by (unfold op_errors; now rewrite <- Z.land_assoc, Z.land_diag).
  - unfold mret, M_ret. do 2 f_equal. destruct (Z.eqb_spec (op_errors f) 0) as [Hz|Hnz].
    + rewrite Hz. now rewrite decide_False by tauto.
    + rewrite decide_True; [done|]. now rewrite status_complete.
  - rewrite Hm3, Hm2, Hm. done.
Qed.

(** Programming into erased memory stores the bytes as they are. *)
Lemma program_erased a data n m :
  (forall k, flash_fault k = 0) -> Forall is_byte data ->
  (forall i, 0 <= i < Z.of_nat (length data) -> mem_byte m (a + i) = 0xFF) ->
  (program a data n m).2 = true /\
  map (fun i => mem_byte (program a data n m).1 (a + i)) (seqZ 0 (Z.of_nat (length data))) = data /\
  forall x, ~ (a <= x < a + Z.of_nat (length data)) -> mem_byte (program a data n m).1 x = mem_byte m x.
Proof.
  intros Hf Hd. revert a n m. induction Hd as [|b data Hb Hd IH]; intros a n m Hm.
  { done. }
  cbn [program length]. rewrite Hf. cbn [Z.land Z.eqb].
  destruct (IH (a + 1) (S n) (<[a:=mem_byte m a &&& u8 b]> m)) as (H1 & H2 & H3).
  { intros i Hi. unfold mem_byte at 1. rewrite lookup_insert_ne by lia.
    replace (a + 1 + i) with (a + (i + 1)) by lia. apply Hm. cbn [length]. lia. }
  assert (Hhead : mem_byte m a &&& u8 b = b).
  { rewrite <- (Z.add_0_r a) at 1. rewrite Hm by (cbn [length]; lia). unfold is_byte in Hb.
    rewrite wrap_small by lia. change 0xFF with (Z.ones 8). rewrite Z.land_comm, Z.land_ones by lia.
    apply Z.mod_small. lia. }
  split_and!; [done| |].
  - replace (Z.of_nat (S (length data))) with (1 + Z.of_nat (length data)) by lia.
    rewrite seqZ_app, map_app by lia. cbn [seqZ]. change (seqZ 0 1) with [0]. cbn [map app].
    f_equal.
    + rewrite Z.add_0_r, H3 by lia. unfold mem_byte at 1. now rewrite lookup_insert_eq.
    + etrans; [|exact H2]. change (0 + 1) with (Z.succ 0).
      apply list_eq_same_length with (Z.to_nat (Z.of_nat (length data)));
        [now rewrite length_map, length_seqZ|now rewrite length_map, length_seqZ|].
      intros i x y Hi Hx Hy. rewrite list_lookup_fmap, lookup_seqZ_lt in Hx, Hy by lia.
      cbn in Hx, Hy. injection Hx as <-. injection Hy as <-. f_equal. lia.
  - intros x Hx. rewrite H3 by lia. unfold mem_byte at 1. rewrite lookup_insert_ne; [done|lia].
Qed.

Lemma mem_byte_erase s m x :
  mem_byte (erase_mem s m) x = if decide (in_sector s x) then 0xFF else mem_byte m x.
Proof.
  unfold mem_byte, erase_mem. rewrite map_lookup_filter. case_decide as Hd.
  - destruct (m !! x) as [y|]; cbn; [|done]. case_guard as Hg; cbn in Hg; first [done|tauto].
  - destruct (m !! x) as [y|]; cbn; [|done]. case_guard as Hg; cbn in Hg; first [done|tauto].
Qed.

Lemma eeprom_erase_failed id f :
  rest f -> f_err f <> 0 ->
  exists f', eeprom_erase id f = Ok (1, f') /\ rest f' /\ f_err f' = f_err f /\ f_mem f' = f_mem f.
Proof.
  intros Hr H0. destruct (unlock_ok f Hr) as (f1 & E1 & Hu & He & Ho & Hm).
  unfold eeprom_erase. rewrite (bind_ok _ _ _ _ _ E1). pose proof Hu as (_ & _ & Herr).
  assert (Hs : status_of (f_err f1) <> FLASH_COMPLETE) by (rewrite status_complete by done; congruence).
  rewrite (bind_ok _ _ _ (status_of (f_err f1)) (settled f1)).
  2:{ unfold FLASH_EraseSector. rewrite (bind_ok _ _ _ _ _ (wait_ok f1 Herr)). now rewrite decide_False. }
  destruct (lock_ok (settled f1)) as (f' & E3 & Hr3 & He3 & _ & Hm3); [done|].
  exists f'. rewrite (bind_ok _ _ _ _ _ E3), decide_True by done.
  cbn in He3, Hm3. split_and!; try congruence; done.
Qed.

Lemma program_fault a data n m k :
  (k < length data)%nat -> (forall j, (j < k)%nat -> flash_fault (n + j) &&& FLASH_ERRORS = 0) ->
  flash_fault (n + k) &&& FLASH_ERRORS <> 0 ->
  program a data n m = ((program a (take k data) n m).1, false).
Proof.
  revert a n m k. induction data as [|b data IH]; intros a n m k Hk Hj Hf; cbn [length] in Hk; [lia|].
  destruct k as [|k]; cbn [take program].
  - rewrite Nat.add_0_r in Hf. now destruct (Z.eqb_spec (flash_fault n &&& FLASH_ERRORS) 0).
  - pose proof (Hj O ltac:(lia)) as H0. rewrite Nat.add_0_r in H0. rewrite H0. cbn [Z.eqb].
    apply IH; [lia| |].
    + intros j Hjk. replace (S n + j)%nat with (n + S j)%nat by lia. apply Hj. lia.
    + replace (S n + k)%nat with (n + S k)%nat by lia. exact Hf.
Qed.

Lemma rest_locked f : rest f -> locked f = true.
Proof. intros (_ & [Hc|Hc] & _); unfold locked; now rewrite Hc. Qed.

Lemma eeprom_write_erased id addr data f :
  rest f -> f_err f = 0 -> (forall k, flash_fault k = 0) -> Forall is_byte data ->
  0 <= addr -> addr + Z.of_nat (length data) <= eeprom_get_size id ->
  flash_bytes f (eeprom_get id addr) (length data) = replicate (length data) 0xFF ->
  exists f', eeprom_write id addr data f = Ok (0, f') /\ rest f' /\ f_err f' = 0 /\
    f_ops f' = (f_ops f + length data)%nat /\
    flash_bytes f' (eeprom_get id addr) (length data) = data /\
    forall x, ~ (eeprom_get id addr <= x < eeprom_get id addr + Z.of_nat (length data)) ->
      flash_byte f' x = flash_byte f x.
Proof.
  intros Hr H0 Hf Hd Ha Hlen Hff. unfold eeprom_get_size in Hlen.
  destruct (eeprom_write_ok id addr data f Hr H0 Ha Hlen) as (f' & E1 & Hr' & Hm' & He' & Ho').
  destruct (program_erased (eeprom_get id addr) data (f_ops f) (f_mem f) Hf Hd) as (P1 & P2 & P3).
  { intros i Hi. unfold flash_bytes, flash_byte in Hff.
    assert (Hl := f_equal (fun l => l !! Z.to_nat i) Hff). cbv beta in Hl.
    rewrite list_lookup_fmap, lookup_seqZ_lt in Hl by lia.
    rewrite lookup_replicate_2 in Hl by lia. cbn in Hl. injection Hl as Hl.
    now rewrite Z2Nat.id in Hl by lia. }
  rewrite P1 in E1, He', Ho'. exists f'. unfold flash_bytes, flash_byte. rewrite Hm'.
  split_and!; [exact E1|exact Hr'|exact He'|exact Ho'|exact P2|exact P3].
Qed.

(** ** Properties *)

(** If the flash reports no fault, writing bytes into an erased part of an
  EEPROM block returns 0, locks the flash again, leaves exactly those bytes
  to be read there, and changes no other byte of the memory. *)
Theorem eeprom_write_stores id addr data f :
  rest f -> f_err f = 0 -> (forall k, flash_fault k = 0) -> Forall is_byte data ->
  0 <= addr -> addr + Z.of_nat (length data) <= eeprom_get_size id ->
  flash_bytes f (eeprom_get id addr) (length data) = replicate (length data) 0xFF ->
  exists f', eeprom_write id addr data f = Ok (0, f') /\ locked f' = true /\
    flash_bytes f' (eeprom_get id addr) (length data) = data /\
    forall x, ~ (eeprom_get id addr <= x < eeprom_get id addr + Z.of_nat (length data)) ->
      flash_byte f' x = flash_byte f x.
Proof.
  intros Hr H0 Hf Hd Ha Hlen Hff.
  destruct (eeprom_write_erased id addr data f Hr H0 Hf Hd Ha Hlen Hff) as (f' & E1 & Hr' & _ & _ & H1 & H2).
  exists f'. split_and!; [exact E1|now apply rest_locked|exact H1|exact H2].
Qed.

(** When the operation for byte [k] is the first to fail, the write stops
  there with result 1, the bytes before [k] programmed, and the flash
  locked.  The error flags are never cleared, so from then on every erase
  and every write of at least one byte fails and changes nothing. *)
Theorem eeprom_write_error_sticks id addr data f k :
  rest f -> f_err f = 0 -> 0 <= addr -> addr + Z.of_nat (length data) <= eeprom_get_size id ->
  (k < length data)%nat -> (forall j, (j < k)%nat -> flash_fault (f_ops f + j) &&& FLASH_ERRORS = 0) ->
  flash_fault (f_ops f + k) &&& FLASH_ERRORS <> 0 ->
  exists f', eeprom_write id addr data f = Ok (1, f') /\ locked f' = true /\
    f_mem f' = (program (eeprom_get id addr) (take k data) (f_ops f) (f_mem f)).1 /\
    (forall id' addr' data', data' <> [] ->
      exists f'', eeprom_write id' addr' data' f' = Ok (1, f'') /\ f_mem f'' = f_mem f') /\
    (forall id', exists f'', eeprom_erase id' f' = Ok (1, f'') /\ f_mem f'' = f_mem f').
Proof.
  intros Hr H0 Ha Hlen Hk Hj Hf.
  destruct (eeprom_write_ok id addr data f Hr H0 Ha Hlen) as (f' & E1 & Hr' & Hm' & He' & _).
  rewrite (program_fault _ _ _ _ k Hk Hj Hf) in *. cbn [fst snd] in *.
  exists f'. split_and!; [exact E1|now apply rest_locked|exact Hm'| |].
  - intros id' addr' data' Hd'.
    destruct (eeprom_write_failed id' addr' data' f' Hr' He' Hd') as (f'' & E2 & _ & _ & Hm2). eauto.
  - intros id'. destruct (eeprom_erase_failed id' f' Hr' He') as (f'' & E2 & _ & _ & Hm2). eauto.
Qed.
End FlashLemmas.
#[export] Hint Resolve eeprom_erase_ends eeprom_write_ends : ends.

(** Controllers without faults, and with one at the third operation. *)
Definition good_flash : FlashEnv := {| flash_time := fun _ => 3%nat; flash_fault := fun _ => 0 |}.
Definition bad_flash : FlashEnv :=
  {| flash_time := fun _ => 3%nat; flash_fault := fun n => if (n =? 2)%nat then FLASH_FLAG_WRPERR else 0 |}.

Lemma flash_reset_rest : rest flash_reset.
Proof. split_and!; [done|now left|done]. Qed.

Lemma eeprom_write_stores_witness :
  exists f', @eeprom_write good_flash eeprom_block1 4 [1; 2; 3] flash_reset = Ok (0, f') /\
    flash_bytes f' 0x08008004 3 = [1; 2; 3].
Proof.
  destruct (@eeprom_write_stores good_flash eeprom_block1 4 [1; 2; 3] flash_reset) as (f' & H1 & _ & H2 & _);
    [ apply flash_reset_rest | reflexivity | reflexivity | repeat constructor; unfold is_byte; lia
    | lia | cbn; unfold eeprom_get_size; lia | reflexivity | ].
  exists f'. split; [exact H1|exact H2].
Defined.

Lemma eeprom_write_error_sticks_witness :
  exists f', @eeprom_write bad_flash eeprom_block1 0 [1; 2; 3] flash_reset = Ok (1, f') /\
    f_mem f' = {[ 0x08008000 := 1; 0x08008001 := 2 ]}.
Proof.
  destruct (@eeprom_write_error_sticks bad_flash eeprom_block1 0 [1; 2; 3] flash_reset 2)
    as (f' & H1 & _ & H2 & _);
    [ apply flash_reset_rest | reflexivity | lia | cbn; unfold eeprom_get_size; lia | cbn; lia
    | intros [|[|j]] Hj; try reflexivity; lia | cbn; discriminate | ].
  exists f'. split; [exact H1|]. rewrite H2. reflexivity.
Defined.
