(* ===== verification/Crc.v ===== *)
(** * Crc: the CRC unit

    Models src/crc.c and the vendor functions it calls, on a model of the
    CRC-32 unit of the processor (polynomial 0x04C11DB7, a word at a time,
    most significant bit first, only while its clock is enabled).  The state
    of this file and of Config.v is the peripherals, the flash and the CRC
    data register.  Shows that the unit's step is injective, so that a change
    confined to one word of a buffer always changes the sum. *)

From Stdlib Require Import ZArith Lia.
From stdpp Require Import base numbers list gmap.
From S2P Require Import Prelude Hw Flash.
#[local] Open Scope c_scope.

Record store := mkStore { st_hw : hw; st_flash : flash; st_crc : Z }.

#[export] Program Instance store_hw : Lens hw store :=
  {| view := st_hw; over h s := mkStore h (st_flash s) (st_crc s) |}.
Solve Obligations with (now intros; try match goal with s : store |- _ => destruct s end).
#[export] Program Instance store_flash : Lens flash store :=
  {| view := st_flash; over f s := mkStore (st_hw s) f (st_crc s) |}.
Solve Obligations with (now intros; try match goal with s : store |- _ => destruct s end).

(** ** The unit *)

Definition CRC_POLY := 0x04C11DB7.
Definition RCC_AHB1ENR_CRCEN := 0x00001000.

Definition crc_bit (x : Z) : Z :=
  u32 (if Z.testbit x 31 then (x <<< 1) ^^^ CRC_POLY else x <<< 1).

Fixpoint crc_bits (n : nat) (x : Z) : Z :=
  match n with O => x | S n => crc_bits n (crc_bit x) end.

(** A word written to the data register. *)
Definition crc_word (dr w : Z) : Z := crc_bits 32 (dr ^^^ w).

Definition crc_clocked (s : store) : bool := truthy (AHB1ENR (rcc (st_hw s)) &&& RCC_AHB1ENR_CRCEN).

Definition with_crc (f : Z -> Z) (s : store) : store := mkStore (st_hw s) (st_flash s) (f (st_crc s)).

Definition write_CRC_DR (w : Z) : M store unit := fun s =>
  Ok (tt, if crc_clocked s then with_crc (fun dr => crc_word dr w) s else s).
Definition read_CRC_DR : M store Z := gets (fun s => if crc_clocked s then st_crc s else 0).
Definition reset_CRC_DR : M store unit := fun s =>
  Ok (tt, if crc_clocked s then with_crc (fun _ => 0xFFFFFFFF) s else s).

(** ** The code *)

Definition crc_init : M store unit := zoom (set_AHB1ENR RCC_AHB1ENR_CRCEN).
Definition crc_deinit : M store unit := zoom (clear_AHB1ENR RCC_AHB1ENR_CRCEN).

Definition CRC_ResetDR : M store unit := reset_CRC_DR.

Definition CRC_CalcBlockCRC (pBuffer : list Z) (BufferLength : Z) : M store Z :=
  for_each (seqZ 0 BufferLength) (fun index =>
    w ← deref OutOfBounds (pBuffer !! Z.to_nat index); write_CRC_DR w);;
  read_CRC_DR.

Definition crc_continue (buf : list Z) (len : Z) : M store Z := CRC_CalcBlockCRC buf len.

Definition crc (buf : list Z) (len : Z) : M store Z := CRC_ResetDR;; crc_continue buf len.

(** ** Effects *)

(** The sum of a list of words, continued from [dr]. *)
Definition crc_from (dr : Z) (ws : list Z) : Z := foldl crc_word dr ws.

#[global] Opaque crc_word.

Lemma crc_from_app dr l1 l2 : crc_from dr (l1 ++ l2) = crc_from (crc_from dr l1) l2.
Proof. unfold crc_from. apply foldl_app. Qed.

Lemma crc_from_cons dr w l : crc_from dr (w :: l) = crc_from (crc_word dr w) l.
Proof. exact (foldl_cons_eq crc_word dr w l). Qed.

Lemma crc_from_snoc dr w l : crc_from dr (l ++ [w]) = crc_word (crc_from dr l) w.
Proof. rewrite crc_from_app. exact (foldl_cons_eq crc_word (crc_from dr l) w []). Qed.

Lemma crc_continue_ok buf len s :
  crc_clocked s = true -> 0 <= len <= Z.of_nat (length buf) ->
  crc_continue buf len s =
    Ok (crc_from (st_crc s) (take (Z.to_nat len) buf),
        with_crc (fun dr => crc_from dr (take (Z.to_nat len) buf)) s).
Proof.
  intros Hc Hlen. unfold crc_continue, CRC_CalcBlockCRC.
  rewrite (bind_ok _ _ s tt (with_crc (fun dr => crc_from dr (take (Z.to_nat len) buf)) s)).
  { unfold read_CRC_DR, gets. change (crc_clocked (with_crc _ s)) with (crc_clocked s). now rewrite Hc. }
  rewrite <- (Z2Nat.id len) at 1 by lia.
  assert (Hk : (Z.to_nat len <= length buf)%nat) by lia. clear Hlen.
  induction (Z.to_nat len) as [|k IH]; [now destruct s|].
  rewrite seqZ_S.
  rewrite for_each_app, (bind_ok _ _ _ _ _ (IH ltac:(lia))). cbn [for_each].
  destruct (lookup_lt_is_Some_2 buf k ltac:(lia)) as [w Hw]. rewrite Nat2Z.id, Hw. cbn [deref].
  unfold mbind, M_bind, mret, M_ret, write_CRC_DR.
  change (crc_clocked (with_crc _ s)) with (crc_clocked s). rewrite Hc.
  rewrite (take_S_r _ _ _ Hw). unfold with_crc. cbn [st_hw st_flash st_crc]. rewrite crc_from_snoc. reflexivity.
Qed.

Lemma crc_ok buf len s :
  crc_clocked s = true -> 0 <= len <= Z.of_nat (length buf) ->
  let sum := crc_from 0xFFFFFFFF (take (Z.to_nat len) buf) in
  crc buf len s = Ok (sum, with_crc (fun _ => sum) s).
Proof.
  intros Hc Hlen sum. unfold crc.
  rewrite (bind_ok _ _ s tt (with_crc (fun _ => 0xFFFFFFFF) s)).
  - now rewrite crc_continue_ok by done.
  - unfold CRC_ResetDR, reset_CRC_DR. now rewrite Hc.
Qed.

(** ** The step of the unit can be undone *)

Definition crc_unbit (y : Z) : Z :=
  if Z.testbit y 0 then ((y ^^^ CRC_POLY) >>> 1) ||| (1 <<< 31) else y >>> 1.

Lemma testbit_crc_bit x i :
  0 <= i -> Z.testbit (crc_bit x) i =
    (i <? 32) && xorb (Z.testbit x (i - 1)) (Z.testbit x 31 && Z.testbit CRC_POLY i).
Proof.
  intros Hi. unfold crc_bit. rewrite wrap_testbit by lia. f_equal.
  destruct (Z.testbit x 31); rewrite ?Z.lxor_spec, Z.shiftl_spec by lia; cbn [andb];
    now rewrite ?xorb_false_r.
Qed.

Lemma crc_unbit_bit x : 0 <= x < 2 ^ 32 -> crc_unbit (crc_bit x) = x.
Proof.
  intros Hx. apply Z.bits_inj'. intros i Hi. unfold crc_unbit.
  rewrite (testbit_crc_bit x 0), (Z.testbit_neg_r x (0 - 1)) by lia.
  change (Z.testbit CRC_POLY 0) with true. cbn [Z.ltb Z.compare andb]. rewrite xorb_false_l, andb_true_r.
  destruct (Z.testbit x 31) eqn:E31.
  - rewrite Z.lor_spec, Z.shiftr_spec, Z.lxor_spec, testbit_crc_bit, testbit_pow, E31 by lia.
    replace (i + 1 - 1) with i by lia. cbn [andb].
    destruct (Z.ltb_spec (i + 1) 32), (Z.eqb_spec i 31); try lia; cbn [andb].
    + rewrite orb_false_r, xorb_assoc, xorb_nilpotent, xorb_false_r. done.
    + subst i. rewrite E31. apply orb_true_r.
    + rewrite (testbit_high 32 x i) by lia.
      rewrite (testbit_high 32 CRC_POLY (i + 1)) by (unfold CRC_POLY; lia). done.
  - rewrite Z.shiftr_spec, testbit_crc_bit, E31 by lia. replace (i + 1 - 1) with i by lia.
    cbn [andb]. rewrite xorb_false_r.
    destruct (Z.ltb_spec (i + 1) 32); [done|]. cbn [andb].
    destruct (Z.eqb_spec i 31) as [->|]; [done|]. symmetry. apply (testbit_high 32); lia.
Qed.

Lemma crc_bit_range x : 0 <= crc_bit x < 2 ^ 32.
Proof. apply wrap_range. lia. Qed.

Lemma crc_bits_S n x : crc_bits (S n) x = crc_bits n (crc_bit x).
Proof. reflexivity. Qed.

Lemma crc_bits_range n x : 0 <= x < 2 ^ 32 -> 0 <= crc_bits n x < 2 ^ 32.
Proof.
  revert x. induction n as [|n IH]; intros x Hx; [done|]. cbn [crc_bits]. apply IH, crc_bit_range.
Qed.

Lemma crc_bits_inj n x y :
  0 <= x < 2 ^ 32 -> 0 <= y < 2 ^ 32 -> crc_bits n x = crc_bits n y -> x = y.
Proof.
  revert x y. induction n as [|n IH]; intros x y Hx Hy H; [done|]. cbn [crc_bits] in H.
  apply IH in H; [|apply crc_bit_range..].
  rewrite <- (crc_unbit_bit x Hx), <- (crc_unbit_bit y Hy). now rewrite H.
Qed.

Lemma lxor_range a b : 0 <= a < 2 ^ 32 -> 0 <= b < 2 ^ 32 -> 0 <= a ^^^ b < 2 ^ 32.
Proof.
  intros Ha Hb. replace (a ^^^ b) with (u32 (a ^^^ b)); [apply wrap_range; lia|].
  apply Z.bits_inj'. intros i Hi. rewrite wrap_testbit, Z.lxor_spec by lia.
  destruct (Z.ltb_spec i 32); [done|]. now rewrite (testbit_high 32 a), (testbit_high 32 b) by lia.
Qed.

Definition is_word (w : Z) : Prop := 0 <= w < 2 ^ 32.

#[local] Transparent crc_word.
#[global] Opaque crc_bits.

Lemma crc_word_range d w : is_word d -> is_word w -> is_word (crc_word d w).
Proof. intros Hd Hw. unfold crc_word. now apply (crc_bits_range 32), lxor_range. Qed.

Lemma crc_word_word d w : is_word (crc_word d w).
Proof. unfold crc_word. rewrite (crc_bits_S 31). apply (crc_bits_range 31), crc_bit_range. Qed.

Lemma crc_word_inj_word d w w' :
  is_word d -> is_word w -> is_word w' -> crc_word d w = crc_word d w' -> w = w'.
Proof.
  intros Hd Hw Hw' H. unfold crc_word in H. apply (crc_bits_inj 32) in H; [|now apply lxor_range..].
  rewrite <- (Z.lxor_0_l w), <- (Z.lxor_0_l w'), <- (Z.lxor_nilpotent d), !Z.lxor_assoc. now rewrite H.
Qed.

Lemma crc_word_inj_state d d' w :
  is_word d -> is_word d' -> is_word w -> crc_word d w = crc_word d' w -> d = d'.
Proof.
  intros Hd Hd' Hw H. unfold crc_word in H. apply (crc_bits_inj 32) in H; [|now apply lxor_range..].
  rewrite <- (Z.lxor_0_r d), <- (Z.lxor_0_r d'), <- (Z.lxor_nilpotent w), <- !Z.lxor_assoc. now rewrite H.
Qed.

#[global] Opaque crc_word.

Lemma crc_from_range ws d : is_word d -> Forall is_word ws -> is_word (crc_from d ws).
Proof.
  intros Hd Hws. revert d Hd. induction Hws as [|w ws Hw Hws IH]; intros d Hd; [done|].
  rewrite crc_from_cons. apply IH. now apply crc_word_range.
Qed.

Lemma crc_from_word ws d : is_word d -> is_word (crc_from d ws).
Proof.
  revert d. induction ws as [|w ws IH]; intros d Hd; [done|].
  rewrite crc_from_cons. apply IH, crc_word_word.
Qed.

Lemma crc_from_inj ws d d' :
  is_word d -> is_word d' -> Forall is_word ws -> crc_from d ws = crc_from d' ws -> d = d'.
Proof.
  intros Hd Hd' Hws. revert d d' Hd Hd'. induction Hws as [|w ws Hw Hws IH]; intros d d' Hd Hd' H; [done|].
  rewrite !crc_from_cons in H. apply IH in H; [|now apply crc_word_range..].
  exact (crc_word_inj_state d d' w Hd Hd' Hw H).
Qed.

Lemma crc_one_word d l1 l2 w w' :
  is_word d -> Forall is_word l1 -> Forall is_word l2 -> is_word w -> is_word w' -> w <> w' ->
  crc_from d (l1 ++ w :: l2) <> crc_from d (l1 ++ w' :: l2).
Proof.
  intros Hd H1 H2 Hw Hw' Hne H. apply Hne. rewrite !crc_from_app, !crc_from_cons in H.
  pose proof (crc_from_range l1 d Hd H1) as Hd1.
  apply crc_from_inj in H; [|now apply crc_word_range..|done].
  exact (crc_word_inj_word _ w w' Hd1 Hw Hw' H).
Qed.

(** ** Properties *)

(** The sum of two buffers in a row is the sum of the first continued over
    the second; and two buffers of words that differ in exactly one word
    never have the same sum, whatever the rest. *)
Theorem crc_continues_and_detects l1 l2 s :
  crc_clocked s = true -> Forall is_word l1 -> Forall is_word l2 ->
  let n1 := Z.of_nat (length l1) in
  let n2 := Z.of_nat (length l2) in
  (exists x s', crc (l1 ++ l2) (n1 + n2) s = Ok (x, s') /\
    (crc l1 n1;; crc_continue l2 n2) s = Ok (x, s')) /\
  forall w w', is_word w -> is_word w' -> w <> w' ->
    exists x x' s1 s2, crc (l1 ++ w :: l2) (n1 + 1 + n2) s = Ok (x, s1) /\
      crc (l1 ++ w' :: l2) (n1 + 1 + n2) s = Ok (x', s2) /\ x <> x'.
Proof.
  intros Hc H1 H2 n1 n2. split.
  - eexists _, _. split.
    + apply crc_ok; [done|]. rewrite length_app. lia.
    + erewrite bind_ok by (apply crc_ok; [done|lia]).
      rewrite crc_continue_ok by (done || lia).
      rewrite !take_ge by (rewrite ?length_app; lia). unfold with_crc. cbn [st_hw st_flash st_crc].
      now rewrite crc_from_app.
  - intros w w' Hw Hw' Hne. eexists _, _, _, _.
    split; [apply crc_ok; [done|rewrite length_app; cbn [length]; lia]|].
    split; [apply crc_ok; [done|rewrite length_app; cbn [length]; lia]|].
    rewrite !take_ge by (rewrite length_app; cbn [length]; lia).
    apply crc_one_word; try done; unfold is_word; lia.
Qed.

Lemma crc_continues_and_detects_witness :
  exists x s', crc [1; 2; 3] 3 (mkStore (with_rcc (fun _ => mkRcc 0x1000 0 0) hw_reset) flash_reset 0) =
    Ok (x, s').
Proof.
  destruct (crc_continues_and_detects [1] [2; 3]
    (mkStore (with_rcc (fun _ => mkRcc 0x1000 0 0) hw_reset) flash_reset 0)) as ((x & s' & H1 & _) & _);
    [reflexivity|repeat constructor; unfold is_word; lia|repeat constructor; unfold is_word; lia|].
  exists x, s'. exact H1.
Defined.
