(* ===== verification/Config.v ===== *)
(** * Config: the persistent configuration

    Models src/config.c: a structure of network addresses kept with its CRC
    in the second emulated EEPROM block, and replaced by default values when
    the CRC does not match.  A pointer to a [struct config] designates either
    an object in RAM or the memory-mapped flash.  Shows that what is written
    is what is read back, that reading a damaged block repairs it, and that
    damage within one field is always noticed. *)

From Stdlib Require Import ZArith Lia.
From stdpp Require Import base numbers list gmap.
From S2P Require Import Prelude Hw Flash Crc.
#[local] Open Scope c_scope.

(** ** Data *)

Record ethernet_config := mkEthConf { c_address : list Z; c_submask : list Z; c_gateway : list Z }.
Record config := mkConfig { ethernet : ethernet_config }.

Definition CONFIG_EEPROM := eeprom_block1.

Definition default_config : config :=
  mkConfig (mkEthConf [172; 31; 10; 50] [255; 255; 255; 0] [172; 31; 10; 1]).

(** The structure in memory: three arrays of four bytes. *)
Definition sizeof_config := 12.
Definition config_bytes (c : config) : list Z :=
  c_address (ethernet c) ++ c_submask (ethernet c) ++ c_gateway (ethernet c).
Definition config_of_bytes (bs : list Z) : config :=
  mkConfig (mkEthConf (take 4 bs) (take 4 (drop 4 bs)) (take 4 (drop 8 bs))).

Inductive conf_ptr := RamConf (c : config) | FlashConf (addr : Z).

(** The [n] little-endian words at the start of a byte buffer. *)
Definition words_of (n : nat) (bs : list Z) : list Z :=
  map (fun i => of_le (take 4 (drop (4 * i) bs))) (seq 0 n).

Section Config.
Context `{FE : FlashEnv}.

Definition load_flash (a : Z) (n : nat) : M store (list Z) := gets (fun s => flash_bytes (st_flash s) a n).

Definition load_config (p : conf_ptr) : M store (list Z) :=
  match p with
  | RamConf c => mret (config_bytes c)
  | FlashConf a => load_flash a (Z.to_nat sizeof_config)
  end.

(** ** The code *)

Definition calculate_config_crc (conf : conf_ptr) : M store Z :=
  crc_init;;
  bs ← load_config conf;
  crc (words_of (Z.to_nat (sizeof_config / 4)) bs) (sizeof_config / 4).

Definition config_write (conf : conf_ptr) : M store unit :=
  zoom (eeprom_erase CONFIG_EEPROM);;
  crcsum ← calculate_config_crc conf;
  zoom (eeprom_write CONFIG_EEPROM 0 (le_bytes 4 crcsum));;
  bs ← load_config conf;
  zoom (eeprom_write CONFIG_EEPROM 4 bs);;
  mret tt.

Definition config_get : M store conf_ptr :=
  let crc_stored := eeprom_get CONFIG_EEPROM 0 in
  let conf := FlashConf (eeprom_get CONFIG_EEPROM 4) in
  crc_calc ← calculate_config_crc conf;
  stored ← load_flash crc_stored 4;
  when (negb (of_le stored =? crc_calc)) (config_write (RamConf default_config));;
  mret conf.

(** ** Effects *)

Definition wf_config (c : config) : Prop :=
  length (c_address (ethernet c)) = 4%nat /\ length (c_submask (ethernet c)) = 4%nat /\
  length (c_gateway (ethernet c)) = 4%nat /\ Forall is_byte (config_bytes c).

Definition base : Z := eeprom_get CONFIG_EEPROM 0.

(** The sum of twelve bytes, and the bytes and the sum in the flash. *)
Definition sum_of (bs : list Z) : Z := crc_from 0xFFFFFFFF (words_of 3 bs).
Definition stored_bytes (f : flash) : list Z := flash_bytes f (base + 4) 12.
Definition stored_sum (f : flash) : Z := of_le (flash_bytes f base 4).
Definition valid (f : flash) : Prop := stored_sum f = sum_of (stored_bytes f).

Definition with_clocked (s : store) : store :=
  mkStore (with_rcc (fun r => mkRcc (Z.lor (AHB1ENR r) RCC_AHB1ENR_CRCEN) (APB1ENR r) (APB2ENR r)) (st_hw s))
          (st_flash s) (st_crc s).

Lemma with_clocked_clocked s : crc_clocked (with_clocked s) = true.
Proof.
  unfold crc_clocked. cbn [with_clocked st_hw rcc with_rcc AHB1ENR].
  change RCC_AHB1ENR_CRCEN with (1 <<< 12). rewrite truthy_land_bit, Z.lor_spec, testbit_pow by lia.
  apply orb_true_r.
Qed.

Lemma length_words_of n bs : length (words_of n bs) = n.
Proof. unfold words_of. now rewrite length_map, length_seq. Qed.

Lemma calculate_config_crc_ok p bs s :
  load_config p (with_clocked s) = Ok (bs, with_clocked s) ->
  calculate_config_crc p s = Ok (sum_of bs, with_crc (fun _ => sum_of bs) (with_clocked s)).
Proof.
  intros Hl. unfold calculate_config_crc. rewrite (bind_ok _ _ s tt (with_clocked s)) by reflexivity.
  rewrite (bind_ok _ _ _ _ _ Hl). change (sizeof_config / 4) with 3. change (Z.to_nat 3) with 3%nat.
  rewrite crc_ok.
  - rewrite take_ge by (rewrite length_words_of; cbn; lia). reflexivity.
  - apply with_clocked_clocked.
  - rewrite length_words_of. lia.
Qed.

Lemma words_of_words n bs : Forall is_byte bs -> Forall is_word (words_of n bs).
Proof.
  intros Hb. apply Forall_map, Forall_forall. intros i _.
  change (0 <= of_le (take 4 (drop (4 * i) bs)) < 2 ^ 32).
  assert (Hc : Forall is_byte (take 4 (drop (4 * i) bs))) by now apply Forall_take, Forall_drop.
  pose proof (of_le_bound _ Hc) as Hr. rewrite length_take in Hr.
  remember (length (drop (4 * i) bs)) as k. clear Heqk.
  pose proof (Z.pow_le_mono_r 2 (8 * Z.of_nat (4 `min` k)) 32 ltac:(lia) ltac:(lia)) as Hp. lia.
Qed.

Lemma sum_of_range bs : Forall is_byte bs -> is_word (sum_of bs).
Proof. intros Hb. apply crc_from_range; [unfold is_word; lia|now apply words_of_words]. Qed.

Lemma flash_bytes_ext f f' a n :
  (forall x, a <= x < a + Z.of_nat n -> flash_byte f' x = flash_byte f x) -> flash_bytes f' a n = flash_bytes f a n.
Proof.
  intros Hx. unfold flash_bytes. apply map_ext_in. intros i Hi.
  apply list_elem_of_In, elem_of_seqZ in Hi. apply Hx. lia.
Qed.

Lemma erased_bytes s m a n :
  (forall i, 0 <= i < Z.of_nat n -> in_sector s (a + i)) ->
  map (fun i => mem_byte (erase_mem s m) (a + i)) (seqZ 0 (Z.of_nat n)) = replicate n 0xFF.
Proof.
  intros Hs. apply list_eq_same_length with n; [now rewrite length_replicate|now rewrite length_map, length_seqZ, Nat2Z.id|].
  intros k x y Hk Hx Hy. rewrite list_lookup_fmap, lookup_seqZ_lt in Hx by lia. cbn in Hx.
  rewrite lookup_replicate_2 in Hy by lia. injection Hx as <-. injection Hy as <-.
  rewrite mem_byte_erase, decide_True; [done|]. apply Hs. lia.
Qed.

Record config_stored (c : config) (s s' : store) : Prop := {
  cs_rest : rest (st_flash s');
  cs_err : f_err (st_flash s') = 0;
  cs_bytes : stored_bytes (st_flash s') = config_bytes c;
  cs_sum : stored_sum (st_flash s') = sum_of (config_bytes c);
  cs_other : forall x, ~ in_sector 2 x -> flash_byte (st_flash s') x = flash_byte (st_flash s) x;
  }.

Lemma erased_region f f' a n :
  f_mem f' = erase_mem 2 (f_mem f) -> base <= a -> a + Z.of_nat n <= base + 0x4000 ->
  flash_bytes f' a n = replicate n 0xFF.
Proof.
  intros Hm Ha Hn. unfold flash_bytes, flash_byte. rewrite Hm. apply erased_bytes.
  intros i Hi. unfold in_sector, base, eeprom_get in *. cbn in *. change (u16 0) with 0 in *. lia.
Qed.

Lemma config_write_ok c s :
  rest (st_flash s) -> f_err (st_flash s) = 0 -> (forall k, flash_fault k = 0) -> wf_config c ->
  exists s', config_write (RamConf c) s = Ok (tt, s') /\ config_stored c s s'.
Proof.
  intros Hr H0 Hf (Hl1 & Hl2 & Hl3 & Hb). unfold config_write.
  assert (Hlen : length (config_bytes c) = 12%nat) by (unfold config_bytes; rewrite !length_app; lia).
  destruct (eeprom_erase_ok CONFIG_EEPROM (st_flash s) Hr H0) as (f1 & E1 & Hr1 & _ & He1 & Hm1).
  assert (Hz : op_errors (st_flash s) = 0) by (unfold op_errors; now rewrite Hf).
  rewrite Hz in E1, He1, Hm1. cbn [Z.eqb] in E1, Hm1.
  rewrite (bind_ok _ _ s _ _ (zoom_ok _ s _ _ E1)). cbn [view over store_flash].
  set (s1 := mkStore (st_hw s) f1 (st_crc s)).
  rewrite (bind_ok _ _ s1 _ _ (calculate_config_crc_ok (RamConf c) (config_bytes c) s1 eq_refl)).
  set (s2 := with_crc _ _). set (sum := sum_of (config_bytes c)).
  assert (Hbase : base = 0x08008000) by reflexivity.
  destruct (eeprom_write_erased CONFIG_EEPROM 0 (le_bytes 4 sum) f1) as (f3 & E3 & Hr3 & He3 & _ & Hs3 & Hx3);
    rewrite ?length_le_bytes; try done; try (cbn; unfold eeprom_get_size; lia).
  { apply le_bytes_is_byte. }
  { apply (erased_region (st_flash s)); [done|fold base; lia|fold base; lia]. }
  rewrite (bind_ok _ _ s2 _ _ (zoom_ok _ s2 _ _ E3)).
  set (s3 := over f3 s2). rewrite (bind_ok _ _ s3 (config_bytes c) s3) by reflexivity.
  rewrite length_le_bytes in Hs3, Hx3. fold base in Hs3, Hx3.
  destruct (eeprom_write_erased CONFIG_EEPROM 4 (config_bytes c) f3) as (f4 & E4 & Hr4 & He4 & _ & Hs4 & Hx4);
    rewrite ?Hlen; try done; try (cbn; unfold eeprom_get_size; lia).
  { change (eeprom_get CONFIG_EEPROM 4) with (base + 4). rewrite (flash_bytes_ext f1 f3).
    - apply (erased_region (st_flash s)); [done|lia|lia].
    - intros x Hx. apply Hx3. lia. }
  rewrite (bind_ok _ _ s3 _ _ (zoom_ok _ s3 _ _ E4)).
  rewrite Hlen in Hs4, Hx4. change (eeprom_get CONFIG_EEPROM 4) with (base + 4) in Hs4, Hx4.
  exists (over f4 s3). split; [reflexivity|].
  assert (Hfl : st_flash (over f4 s3) = f4) by reflexivity.
  split; rewrite ?Hfl; try done.
  - unfold stored_sum. rewrite (flash_bytes_ext f3 f4) by (intros x Hx; apply Hx4; lia).
    change (Z.of_nat 4) with 4 in Hs3. rewrite Hs3. apply of_le_small.
    pose proof (sum_of_range _ Hb) as Hw. exact Hw.
  - intros x Hx. rewrite Hx4, Hx3 by (unfold in_sector in Hx; lia).
    unfold flash_byte. rewrite Hm1. change (sector_of CONFIG_EEPROM) with 2. now rewrite mem_byte_erase, decide_False.
Qed.

Lemma flash_bytes_bytes f a n : (forall x, is_byte (flash_byte f x)) -> Forall is_byte (flash_bytes f a n).
Proof. intros H. apply Forall_map, Forall_forall. intros i _. apply H. Qed.

Lemma default_config_wf : wf_config default_config.
Proof. split_and!; try done. cbn. repeat constructor; lia. Qed.

(** Reading the configuration: what it computes, before a possible repair. *)
Lemma config_get_valid s :
  valid (st_flash s) ->
  exists s', config_get s = Ok (FlashConf (base + 4), s') /\ st_flash s' = st_flash s.
Proof.
  intros Hv. unfold config_get. cbv zeta.
  rewrite (bind_ok _ _ s _ _ (calculate_config_crc_ok (FlashConf (base + 4)) (stored_bytes (st_flash s)) s eq_refl)).
  erewrite bind_ok by reflexivity.
  change (of_le _) with (stored_sum (st_flash s)). rewrite Hv, Z.eqb_refl. cbn [negb when].
  eexists. split; reflexivity.
Qed.

Lemma config_get_invalid s :
  rest (st_flash s) -> f_err (st_flash s) = 0 -> (forall k, flash_fault k = 0) -> ~ valid (st_flash s) ->
  exists s', config_get s = Ok (FlashConf (base + 4), s') /\ config_stored default_config s s'.
Proof.
  intros Hr H0 Hf Hv. unfold config_get. cbv zeta.
  rewrite (bind_ok _ _ s _ _ (calculate_config_crc_ok (FlashConf (base + 4)) (stored_bytes (st_flash s)) s eq_refl)).
  erewrite bind_ok by reflexivity.
  change (of_le _) with (stored_sum (st_flash s)).
  destruct (Z.eqb_spec (stored_sum (st_flash s)) (sum_of (stored_bytes (st_flash s)))); [done|].
  cbn [negb when].
  set (s2 := with_crc _ _).
  destruct (config_write_ok default_config s2 Hr H0 Hf default_config_wf) as (s3 & E3 & Hs3).
  rewrite (bind_ok _ _ _ _ _ E3). exists s3. split; [reflexivity|]. destruct Hs3. now split.
Qed.

Lemma config_of_bytes_bytes c : wf_config c -> config_of_bytes (config_bytes c) = c.
Proof.
  intros (H1 & H2 & H3 & _). destruct c as [[a m g]]. unfold config_of_bytes, config_bytes. cbn in *.
  do 2 f_equal.
  - now apply take_app_length'.
  - rewrite drop_app_length' by done. now apply take_app_length'.
  - rewrite app_assoc, drop_app_length' by (rewrite length_app; lia). apply take_ge. lia.
Qed.

Lemma words_of_config c :
  wf_config c ->
  words_of 3 (config_bytes c) =
    [of_le (c_address (ethernet c)); of_le (c_submask (ethernet c)); of_le (c_gateway (ethernet c))].
Proof.
  intros Hwf. pose proof (config_of_bytes_bytes c Hwf) as Hc.
  change (words_of 3 (config_bytes c)) with
    [of_le (c_address (ethernet (config_of_bytes (config_bytes c))));
     of_le (c_submask (ethernet (config_of_bytes (config_bytes c))));
     of_le (c_gateway (ethernet (config_of_bytes (config_bytes c))))].
  now rewrite Hc.
Qed.

Lemma of_le_inj l l' :
  Forall is_byte l -> Forall is_byte l' -> length l = length l' -> of_le l = of_le l' -> l = l'.
Proof.
  intros Hl Hl' Hlen H. rewrite <- (le_bytes_of_le l Hl), <- (le_bytes_of_le l' Hl'). now rewrite H, Hlen.
Qed.

Lemma of_le_word l : Forall is_byte l -> length l = 4%nat -> is_word (of_le l).
Proof. intros Hl Hlen. pose proof (of_le_bound l Hl) as H. rewrite Hlen in H. exact H. Qed.

Lemma wf_config_fields c :
  wf_config c ->
  Forall is_byte (c_address (ethernet c)) /\ Forall is_byte (c_submask (ethernet c)) /\
  Forall is_byte (c_gateway (ethernet c)).
Proof. intros (_ & _ & _ & H). unfold config_bytes in H. rewrite !Forall_app in H. tauto. Qed.

(** Configurations that differ in exactly one field. *)
Definition one_field_differs (c c' : config) : Prop :=
  let e := ethernet c in
  let e' := ethernet c' in
  (c_address e <> c_address e' /\ c_submask e = c_submask e' /\ c_gateway e = c_gateway e') \/
  (c_address e = c_address e' /\ c_submask e <> c_submask e' /\ c_gateway e = c_gateway e') \/
  (c_address e = c_address e' /\ c_submask e = c_submask e' /\ c_gateway e <> c_gateway e').

Lemma one_field_sum c c' :
  wf_config c -> wf_config c' -> one_field_differs c c' -> sum_of (config_bytes c) <> sum_of (config_bytes c').
Proof.
  intros Hc Hc' Hd. pose proof Hc as (La & Lm & Lg & _). pose proof Hc' as (La' & Lm' & Lg' & _).
  destruct (wf_config_fields c Hc) as (Ba & Bm & Bg). destruct (wf_config_fields c' Hc') as (Ba' & Bm' & Bg').
  unfold sum_of. rewrite !words_of_config by done.
  assert (Hi : is_word 0xFFFFFFFF) by (unfold is_word; lia).
  destruct Hd as [(Hne & -> & ->) | [(-> & Hne & ->) | (-> & -> & Hne)]].
  - apply (crc_one_word 0xFFFFFFFF [] [_; _]); try done; repeat constructor; try (now apply of_le_word).
    intros H. now apply Hne, of_le_inj; try congruence.
  - apply (crc_one_word 0xFFFFFFFF [_] [_]); try done; repeat constructor; try (now apply of_le_word).
    intros H. now apply Hne, of_le_inj; try congruence.
  - apply (crc_one_word 0xFFFFFFFF [_; _] []); try done; repeat constructor; try (now apply of_le_word).
    intros H. now apply Hne, of_le_inj; try congruence.
Qed.

(** ** Properties *)

(** C37: On a flash without faults, writing a configuration and then asking
  for it returns a pointer at which exactly that configuration is stored,
  and nothing outside the block's sector has changed. *)
Theorem config_write_get c s :
  rest (st_flash s) -> f_err (st_flash s) = 0 -> (forall k, flash_fault k = 0) -> wf_config c ->
  exists p s', (config_write (RamConf c);; config_get) s = Ok (p, s') /\
    load_config p s' = Ok (config_bytes c, s') /\ config_of_bytes (config_bytes c) = c /\
    forall x, ~ in_sector 2 x -> flash_byte (st_flash s') x = flash_byte (st_flash s) x.
Proof.
  intros Hr H0 Hf Hc. destruct (config_write_ok c s Hr H0 Hf Hc) as (s1 & E1 & [_ _ Hb Hs Ho]).
  rewrite (bind_ok _ _ _ _ _ E1).
  destruct (config_get_valid s1) as (s2 & E2 & Hf2); [unfold valid; now rewrite Hb|].
  exists (FlashConf (base + 4)), s2. split_and!; [exact E2| |now apply config_of_bytes_bytes|].
  - cbn [load_config]. unfold load_flash, gets. rewrite Hf2. change (Z.to_nat sizeof_config) with 12%nat.
    fold (stored_bytes (st_flash s1)). now rewrite Hb.
  - intros x Hx. rewrite Hf2. now apply Ho.
Qed.

(** Whatever the flash contains, asking for the configuration returns a
  pointer to one whose stored CRC is right: the stored one, untouched, if
  its CRC matched, and the default configuration otherwise. *)
Theorem config_get_repairs s :
  rest (st_flash s) -> f_err (st_flash s) = 0 -> (forall k, flash_fault k = 0) ->
  exists p s' bs, config_get s = Ok (p, s') /\ load_config p s' = Ok (bs, s') /\
    stored_sum (st_flash s') = sum_of bs /\
    (valid (st_flash s) -> bs = stored_bytes (st_flash s) /\ st_flash s' = st_flash s) /\
    (~ valid (st_flash s) -> bs = config_bytes default_config).
Proof.
  intros Hr H0 Hf. destruct (decide (stored_sum (st_flash s) = sum_of (stored_bytes (st_flash s)))) as [Hv|Hv].
  - destruct (config_get_valid s Hv) as (s' & E1 & Hfl).
    exists (FlashConf (base + 4)), s', (stored_bytes (st_flash s)).
    split_and!; [exact E1| |rewrite Hfl; exact Hv|intros _; split; [reflexivity|exact Hfl]|intros H; contradiction].
    cbn [load_config]. unfold load_flash, gets. now rewrite Hfl.
  - destruct (config_get_invalid s Hr H0 Hf Hv) as (s' & E1 & [_ _ Hb Hs _]).
    exists (FlashConf (base + 4)), s', (config_bytes default_config).
    split_and!; [exact E1| |exact Hs|intros H; contradiction|intros _; reflexivity].
    cbn [load_config]. unfold load_flash, gets. change (Z.to_nat sizeof_config) with 12%nat.
    fold (stored_bytes (st_flash s')). now rewrite Hb.
Qed.

(** If a stored configuration is altered within any one of its fields,
  and only there, the next request for it notices and yields the default
  configuration. *)
Theorem config_damage_noticed c c' f s :
  stored_bytes f = config_bytes c -> valid f ->
  wf_config c -> wf_config c' -> one_field_differs c c' ->
  stored_bytes (st_flash s) = config_bytes c' -> stored_sum (st_flash s) = stored_sum f ->
  rest (st_flash s) -> f_err (st_flash s) = 0 -> (forall k, flash_fault k = 0) ->
  exists p s', config_get s = Ok (p, s') /\ load_config p s' = Ok (config_bytes default_config, s').
Proof.
  intros Hb Hv Hc Hc' Hd Hb' Hs' Hr H0 Hf.
  assert (Hv' : ~ valid (st_flash s)).
  { unfold valid in *. rewrite Hs', Hb', Hv, Hb. now apply one_field_sum. }
  destruct (config_get_invalid s Hr H0 Hf Hv') as (s' & E1 & [_ _ Hb1 _ _]).
  exists (FlashConf (base + 4)), s'. split; [exact E1|].
  cbn [load_config]. unfold load_flash, gets. change (Z.to_nat sizeof_config) with 12%nat.
  fold (stored_bytes (st_flash s')). now rewrite Hb1.
Qed.
End Config.

(** ** Witnesses *)

Definition store_reset : store := mkStore hw_reset flash_reset 0.

Definition home_config : config :=
  mkConfig (mkEthConf [192; 168; 0; 2] [255; 255; 255; 0] [192; 168; 0; 1]).

Lemma home_config_wf : wf_config home_config.
Proof. split_and!; try done. cbn. repeat constructor; lia. Qed.

Lemma config_write_get_witness :
  exists p s', (@config_write good_flash (RamConf home_config);; @config_get good_flash) store_reset = Ok (p, s') /\
    load_config p s' = Ok ([192; 168; 0; 2; 255; 255; 255; 0; 192; 168; 0; 1], s').
Proof.
  destruct (@config_write_get good_flash home_config store_reset flash_reset_rest eq_refl
    (fun _ => eq_refl) home_config_wf) as (p & s' & H1 & H2 & _).
  exists p, s'. split; [exact H1|exact H2].
Defined.

Lemma config_get_repairs_witness :
  exists p s' bs, @config_get good_flash store_reset = Ok (p, s') /\ load_config p s' = Ok (bs, s').
Proof.
  destruct (@config_get_repairs good_flash store_reset flash_reset_rest eq_refl (fun _ => eq_refl))
    as (p & s' & bs & H1 & H2 & _).
  exists p, s', bs. split; [exact H1|exact H2].
Defined.

(** A flash that holds the home configuration but for the last byte of its
    address. *)
Definition home_flash (b : Z) : flash :=
  mkFlash FLASH_CR_LOCK 0 0 0 false
    (@program good_flash base (le_bytes 4 (sum_of (config_bytes home_config)) ++
       [192; 168; 0; b] ++ drop 4 (config_bytes home_config)) 0 ∅).1.

Definition other_config : config :=
  mkConfig (mkEthConf [192; 168; 0; 3] [255; 255; 255; 0] [192; 168; 0; 1]).

Lemma config_damage_noticed_witness :
  exists p s', @config_get good_flash (mkStore hw_reset (home_flash 3) 0) = Ok (p, s') /\
    load_config p s' = Ok (config_bytes default_config, s').
Proof.
  destruct (@config_damage_noticed good_flash home_config other_config (home_flash 2)
    (mkStore hw_reset (home_flash 3) 0)) as (p & s' & H1 & H2).
  - vm_compute. reflexivity.
  - vm_compute. reflexivity.
  - apply home_config_wf.
  - split_and!; try reflexivity. cbn. repeat constructor; lia.
  - left. split; [discriminate|split; reflexivity].
  - vm_compute. reflexivity.
  - vm_compute. reflexivity.
  - split_and!; [reflexivity|left; reflexivity|reflexivity].
  - reflexivity.
  - reflexivity.
  - exists p, s'. split; [exact H1|exact H2].
Defined.
