(* ===== verification/Float.v ===== *)
(** * Float: single and double precision arithmetic

    The floating-point types of the Cortex-M4 build as the Standard Library's
    [spec_float]: [float] is binary32, [double] binary64, with the roundings
    C performs at each operation and conversion.  A NaN has neither sign nor
    payload here.  Shows that a [float] survives being stored as four bytes. *)

From Stdlib Require Import ZArith Lia SpecFloat.
From stdpp Require Import base numbers list.
From S2P Require Import Prelude.
#[local] Open Scope c_scope.

Abbreviation float := spec_float (only parsing).

Definition fdiv : float -> float -> float := SFdiv 24 128.
Definition fmul : float -> float -> float := SFmul 24 128.
Definition ddiv : float -> float -> float := SFdiv 53 1024.
Definition dmul : float -> float -> float := SFmul 53 1024.

(** Conversions from integers and between the two precisions. *)
Definition f32_of_Z (z : Z) : float := binary_normalize 24 128 z 0 false.
Definition f64_of_Z (z : Z) : float := binary_normalize 53 1024 z 0 false.

Definition round_to (prec emax : Z) (x : float) : float :=
  match x with
  | S754_finite s m e => binary_round prec emax s m e
  | _ => x
  end.
Definition f64_of_f32 : float -> float := round_to 53 1024.
Definition f32_of_f64 : float -> float := round_to 24 128.

(** The integer nearest to [m * 2^e], ties to even. *)
Definition nearest (m : positive) (e : Z) : Z :=
  if 0 <=? e then Z.pos m * 2 ^ e
  else
    let q := Z.pos m / 2 ^ (- e) in
    let r := Z.pos m mod 2 ^ (- e) in
    let half := 2 ^ (- e - 1) in
    if (half <? r) || ((half =? r) && Z.odd q) then q + 1 else q.

Definition nearbyintf (x : float) : float :=
  match x with
  | S754_finite s m e =>
      match nearest m e with
      | 0 => S754_zero s
      | n => binary_normalize 24 128 (if s then - n else n) 0 s
      end
  | _ => x
  end.

(** [(uint32_t)x]: the fraction is dropped; undefined if the result does not
    fit. *)
Definition u32_of_f32 (x : float) : option Z :=
  match x with
  | S754_zero _ => Some 0
  | S754_finite s m e =>
      let t := if 0 <=? e then Z.pos m * 2 ^ e else Z.pos m / 2 ^ (- e) in
      if s then (if t =? 0 then Some 0 else None)
      else if t <? 2 ^ 32 then Some t else None
  | _ => None
  end.

(** ** The four bytes of a [float] *)

Definition f32_bits (x : float) : Z :=
  match x with
  | S754_zero s => b2z s * 2 ^ 31
  | S754_infinity s => b2z s * 2 ^ 31 + 0x7F800000
  | S754_nan => 0x7FC00000
  | S754_finite s m e =>
      if Z.pos m <? 2 ^ 23 then b2z s * 2 ^ 31 + Z.pos m
      else b2z s * 2 ^ 31 + (e + 150) * 2 ^ 23 + (Z.pos m - 2 ^ 23)
  end.

Definition f32_of_bits (b : Z) : float :=
  let s := 2 ^ 31 <=? b in
  let ex := (b / 2 ^ 23) mod 256 in
  let fr := b mod 2 ^ 23 in
  if ex =? 255 then (if fr =? 0 then S754_infinity s else S754_nan)
  else if ex =? 0 then (match fr with Z.pos m => S754_finite s m (-149) | _ => S754_zero s end)
  else match fr + 2 ^ 23 with Z.pos m => S754_finite s m (ex - 150) | _ => S754_nan end.

(** A value of the binary32 format. *)
Definition is_f32 (x : float) : Prop :=
  match x with
  | S754_finite _ m e =>
      (Z.pos m < 2 ^ 23 /\ e = -149) \/ (2 ^ 23 <= Z.pos m < 2 ^ 24 /\ -149 <= e <= 104)
  | _ => True
  end.

Lemma b2z_range b : 0 <= b2z b <= 1.
Proof. destruct b; cbn; lia. Qed.

Lemma f32_bits_split s ex fr :
  0 <= ex < 256 -> 0 <= fr < 2 ^ 23 ->
  let b := b2z s * 2 ^ 31 + ex * 2 ^ 23 + fr in
  (2 ^ 31 <=? b) = s /\ (b / 2 ^ 23) mod 256 = ex /\ b mod 2 ^ 23 = fr.
Proof.
  intros Hex Hfr b. subst b. split_and!.
  - destruct s; cbn [b2z]; [apply Z.leb_le|apply Z.leb_gt]; lia.
  - replace (b2z s * 2 ^ 31 + ex * 2 ^ 23 + fr) with (fr + (b2z s * 256 + ex) * 2 ^ 23) by lia.
    rewrite Z.div_add, (Z.div_small fr) by lia.
    replace (0 + (b2z s * 256 + ex)) with (ex + b2z s * 256) by lia.
    rewrite Z.mod_add by lia. apply Z.mod_small. lia.
  - replace (b2z s * 2 ^ 31 + ex * 2 ^ 23 + fr) with (fr + (b2z s * 256 + ex) * 2 ^ 23) by lia.
    rewrite Z.mod_add by lia. apply Z.mod_small. lia.
Qed.

Lemma f32_of_bits_bits x : is_f32 x -> f32_of_bits (f32_bits x) = x.
Proof.
  assert (Hdec : forall s ex fr, 0 <= ex < 256 -> 0 <= fr < 2 ^ 23 ->
    f32_of_bits (b2z s * 2 ^ 31 + ex * 2 ^ 23 + fr) =
    if ex =? 255 then (if fr =? 0 then S754_infinity s else S754_nan)
    else if ex =? 0 then (match fr with Z.pos m => S754_finite s m (-149) | _ => S754_zero s end)
    else match fr + 2 ^ 23 with Z.pos m => S754_finite s m (ex - 150) | _ => S754_nan end).
  { intros s ex fr Hex Hfr. destruct (f32_bits_split s ex fr Hex Hfr) as (H1 & H2 & H3).
    unfold f32_of_bits. now rewrite H1, H2, H3. }
  destruct x as [s|s| |s m e]; cbn [is_f32 f32_bits].
  - intros _. replace (b2z s * 2 ^ 31) with (b2z s * 2 ^ 31 + 0 * 2 ^ 23 + 0) by lia.
    now rewrite Hdec by lia.
  - intros _. replace (b2z s * 2 ^ 31 + 0x7F800000) with (b2z s * 2 ^ 31 + 255 * 2 ^ 23 + 0) by lia.
    now rewrite Hdec by lia.
  - done.
  - intros [[Hm ->]|[Hm He]].
    + destruct (Z.ltb_spec (Z.pos m) (2 ^ 23)); [|lia].
      replace (b2z s * 2 ^ 31 + Z.pos m) with (b2z s * 2 ^ 31 + 0 * 2 ^ 23 + Z.pos m) by lia.
      now rewrite Hdec by lia.
    + destruct (Z.ltb_spec (Z.pos m) (2 ^ 23)); [lia|]. rewrite Hdec by lia.
      destruct (Z.eqb_spec (e + 150) 255); [lia|]. destruct (Z.eqb_spec (e + 150) 0); [lia|].
      replace (Z.pos m - 2 ^ 23 + 2 ^ 23) with (Z.pos m) by lia. f_equal. lia.
Qed.

Lemma f32_bits_range x : is_f32 x -> 0 <= f32_bits x < 2 ^ 32.
Proof.
  destruct x as [s|s| |s m e]; cbn [is_f32 f32_bits]; intros H; try pose proof (b2z_range s); try lia.
  destruct (Z.ltb_spec (Z.pos m) (2 ^ 23)); lia.
Qed.
