(* ===== verification/Convert.v ===== *)
(** * Convert: physical units and the playback clock

    Models the floating-point functions of src/ad9910.c: frequency,
    amplitude and phase to register words and back, and the update rate of
    the parallel port, which is the period of timer 2.  [powf] and [log10f]
    come from the C library and are parameters. *)

From Stdlib Require Import ZArith Lia SpecFloat.
From stdpp Require Import base numbers list.
From S2P Require Import Prelude Hw Float.
#[local] Open Scope c_scope.

Class Libm := { powf : spec_float -> spec_float -> spec_float; log10f : spec_float -> spec_float }.

(** Functions for runs that convert no amplitude. *)
Definition no_libm : Libm := {| powf := fun _ y => y; log10f := fun x => x |}.

Definition ad9910_bits_amplitude := 14.
Definition ad9910_bits_phase := 16.
Definition ad9910_bits_frequency := 32.
Definition ad9910_precision_amplitude := 1 <<< ad9910_bits_amplitude.
Definition ad9910_precision_phase := 1 <<< ad9910_bits_phase.
Definition ad9910_precision_frequency := 1 <<< ad9910_bits_frequency.
Definition ad9910_max_amplitude := ad9910_precision_amplitude - 1.
Definition ad9910_max_phase := ad9910_precision_phase - 1.
Definition ad9910_max_frequency := ad9910_precision_frequency - 1.
Definition ad9910_mask_amplitude := ad9910_precision_amplitude - 1.
Definition ad9910_mask_phase := ad9910_precision_phase - 1.

(** The constants [1e9] and [M_PI] of type [double]. *)
Definition d_1e9 : spec_float := f64_of_Z 1000000000.
Definition M_PI : spec_float := S754_finite false 7074237752028440 (-51).

(** [None] where the conversion to an integer is undefined. *)
Definition ad9910_convert_frequency (f : spec_float) : option Z :=
  u32_of_f32 (nearbyintf (f32_of_f64
    (dmul (ddiv (f64_of_f32 f) d_1e9) (f64_of_Z ad9910_max_frequency)))).

Definition ad9910_backconvert_frequency (f : Z) : spec_float :=
  f32_of_f64 (ddiv (dmul (f64_of_Z f) d_1e9) (f64_of_Z ad9910_max_frequency)).

Section Amplitude.
Context `{Libm}.

Definition ad9910_convert_amplitude (f : spec_float) : option Z :=
  a ← u32_of_f32 (nearbyintf
        (fmul (powf (f32_of_Z 10) (fdiv f (f32_of_Z 20))) (f32_of_Z ad9910_max_amplitude)));
  Some (u32 (ad9910_mask_amplitude &&& a)).

Definition ad9910_backconvert_amplitude (a : Z) : spec_float :=
  fmul (f32_of_Z 20)
    (log10f (fdiv (f32_of_Z (a &&& ad9910_mask_amplitude)) (f32_of_Z ad9910_max_amplitude))).
End Amplitude.

Definition ad9910_convert_phase (f : spec_float) : option Z :=
  p ← u32_of_f32 (nearbyintf (f32_of_f64
        (ddiv (f64_of_f32 (fdiv (fmul f (f32_of_Z ad9910_max_phase)) (f32_of_Z 2))) M_PI)));
  Some (u32 (ad9910_mask_phase &&& p)).

Definition ad9910_backconvert_phase (v : Z) : spec_float :=
  f32_of_f64 (ddiv (dmul (dmul (f64_of_Z 2) M_PI) (f64_of_f32 (f32_of_Z (v &&& ad9910_mask_phase))))
                   (f64_of_Z ad9910_max_phase)).

(** ** The update rate of the parallel port *)

Definition half_clock : spec_float := f32_of_Z (168000000 / 2).

Definition ad9910_set_parallel_frequency (freq : spec_float) : M hw spec_float :=
  interval ← deref BadConversion (u32_of_f32 (nearbyintf (fdiv half_clock freq)));
  TIM2_setup (u32 (interval - 1));;
  mret (fdiv half_clock (f32_of_Z interval)).

Definition ad9910_get_parallel_frequency : M hw spec_float :=
  arr ← read_TIM2_ARR;
  mret (fdiv half_clock (f32_of_Z (u32 (arr + 1)))).

(** ** Properties *)

Lemma u32_of_f32_range x n : u32_of_f32 x = Some n -> 0 <= n < 2 ^ 32.
Proof.
  destruct x as [s|s| |s m e]; cbn [u32_of_f32]; try congruence; [intros [= <-]; lia|].
  assert (Ht : 0 <= (if 0 <=? e then Z.pos m * 2 ^ e else Z.pos m / 2 ^ (- e))).
  { destruct (Z.leb_spec 0 e); [pose proof (Z.pow_nonneg 2 e ltac:(lia)); lia|].
    apply Z.div_pos; [lia|]. apply Z.pow_pos_nonneg; lia. }
  destruct s; [destruct (_ =? 0); [intros [= <-]; lia|done]|].
  destruct (Z.ltb_spec (if 0 <=? e then Z.pos m * 2 ^ e else Z.pos m / 2 ^ (- e)) (2 ^ 32)); [|done].
  intros [= <-]. lia.
Qed.

(** After the update rate of the parallel port has been set, the rate read
    back from the timer is the rate the setter returned, for every frequency
    for which the setter is defined, and the timer's period is one less than
    the rounded number of half-clock cycles. *)
Theorem parallel_frequency_roundtrip freq n h :
  u32_of_f32 (nearbyintf (fdiv half_clock freq)) = Some n ->
  exists f h', ad9910_set_parallel_frequency freq h = Ok (f, h') /\
    ad9910_get_parallel_frequency h' = Ok (f, h') /\
    tim_arr (tim2 h') = u32 (n - 1) /\ tim_enabled (tim2 h') = false.
Proof.
  intros Hn. pose proof (u32_of_f32_range _ _ Hn) as Hr.
  exists (fdiv half_clock (f32_of_Z n)). eexists. split.
  { unfold ad9910_set_parallel_frequency. rewrite Hn. reflexivity. }
  split; [|split; [|reflexivity]].
  - unfold ad9910_get_parallel_frequency, read_TIM2_ARR, mbind, M_bind, gets, mret, M_ret.
    cbn [tim2 with_tim tim_arr]. rewrite wrap_wrap, wrap_add_l.
    replace (n - 1 + 1) with n by lia. now rewrite wrap_small.
  - cbn [tim2 with_tim tim_arr]. apply wrap_wrap.
Qed.

Lemma parallel_frequency_roundtrip_witness :
  exists f h', ad9910_set_parallel_frequency (f32_of_Z 1000000) hw_reset = Ok (f, h') /\
    tim_arr (tim2 h') = 83.
Proof.
  destruct (parallel_frequency_roundtrip (f32_of_Z 1000000) 84 hw_reset) as (f & h' & H1 & _ & H2 & _);
    [vm_compute; reflexivity|].
  exists f, h'. split; [exact H1|]. rewrite H2. reflexivity.
Defined.

(** The frequency word is rounded to a [float] before it becomes an
    integer, so 100 MHz is programmed as 429496736, 7 steps of 0.23 Hz above
    the word 429496729 it should be, and 399 MHz 46 steps below; at 1 GHz the
    rounded word no longer fits and the conversion is undefined. *)
Theorem convert_frequency_is_coarse :
  ad9910_convert_frequency (f32_of_Z 100000000) = Some 429496736 /\
  100000000 * ad9910_max_frequency / 1000000000 = 429496729 /\
  ad9910_convert_frequency (f32_of_Z 399000000) = Some 1713691904 /\
  399000000 * ad9910_max_frequency / 1000000000 = 1713691950 /\
  ad9910_convert_frequency (f32_of_Z 1000000000) = None.
Proof. now vm_compute. Qed.
