(* ===== verification/Data.v ===== *)
(** * Data: named binary data segments

    Models src/data.c: a table of twenty named segments, each owning a heap
    block.  The heap is the set of live blocks: [free] of anything else is a
    fault.  Shows that a free slot is found whenever there is one, that
    deleting a segment releases its block and its slot and no other, and that
    clearing the table never frees a block twice. *)

From Stdlib Require Import ZArith Lia.
From stdpp Require Import base numbers list gmap sets.
From S2P Require Import Prelude.

Definition MAX_DATA_SEGMENTS := 20.

(** [begin] is the address of the block, 0 for none. *)
Record binary_data := mkData { name : list Z; begin : Z; end_ : Z }.

Record data_state := mkDataState {
    bin_data_list : list binary_data;
    blocks : gset Z;           (** live heap blocks *)
  }.

Definition unused : binary_data := mkData (replicate 8 0) 0 0.
Definition data_reset : data_state := mkDataState (replicate 20 unused) ∅.

Definition in_use (d : binary_data) : bool := negb (hd 0 (name d) =? 0).

(** [strncmp(a, b, n) == 0], on strings that end where their list does. *)
Fixpoint strncmp_eq (n : nat) (a b : list Z) : bool :=
  match n with
  | O => true
  | S n => (hd 0 a =? hd 0 b) && ((hd 0 a =? 0) || strncmp_eq n (tl a) (tl b))
  end.

(** The first index from [i] on whose element satisfies [p]. *)
Fixpoint first_index {A} (p : A -> bool) (i : nat) (l : list A) : option nat :=
  match l with
  | [] => None
  | x :: l => if p x then Some i else first_index p (S i) l
  end.

(** A pointer into the table is an index; [None] is [NULL]. *)
Definition new_data_segment : M data_state (option nat) :=
  gets (fun s => first_index (fun d => negb (in_use d)) 0 (bin_data_list s)).

Definition get_data_segment (id : list Z) : M data_state (option nat) :=
  gets (fun s => first_index (fun d => strncmp_eq 7 id (name d)) 0 (bin_data_list s)).

Definition free_block (p : Z) : M data_state unit := fun s =>
  if decide (p ∈ blocks s) then Ok (tt, mkDataState (bin_data_list s) (blocks s ∖ {[p]}))
  else Fault DanglingPtr.

Definition free_data_segment (i : nat) : M data_state unit :=
  d ← gets (fun s => bin_data_list s !! i);
  d ← deref OutOfBounds d;
  when (negb (begin d =? 0)) (free_block (begin d));;
  modify (fun s => mkDataState (<[i := unused]> (bin_data_list s)) (blocks s)).

Definition free_all_data_segments : M data_state unit :=
  for_each (seq 0 20) free_data_segment.

Definition delete_data_segment (id : list Z) : M data_state unit :=
  data ← get_data_segment id;
  match data with
  | Some data => free_data_segment data
  | None => mret tt
  end.

(** ** Lemmas *)

(** Every segment with a block owns it alone. *)
Definition owners (l : list binary_data) : list Z := filter (fun p => p <> 0) (map begin l).

Definition wf_data (s : data_state) : Prop :=
  length (bin_data_list s) = 20%nat /\ NoDup (owners (bin_data_list s)) /\
  forall p, p ∈ owners (bin_data_list s) -> p ∈ blocks s.

Lemma first_index_spec {A} (p : A -> bool) i l :
  match first_index p i l with
  | Some k => exists j x, k = (i + j)%nat /\ l !! j = Some x /\ p x = true /\
                forall j' y, (j' < j)%nat -> l !! j' = Some y -> p y = false
  | None => forall j x, l !! j = Some x -> p x = false
  end.
Proof.
  revert i. induction l as [|x l IH]; intros i; cbn [first_index]; [done|].
  destruct (p x) eqn:Ex.
  - exists O, x. split_and!; [lia|done|done|intros; lia].
  - specialize (IH (S i)). destruct (first_index p (S i) l) as [k|].
    + destruct IH as (j & y & -> & Hj & Hy & Hb). exists (S j), y. split_and!; [lia|done|done|].
      intros [|j'] z Hlt Hz; [cbn in Hz; congruence|]. apply (Hb j'); [lia|done].
    + intros [|j] y Hy; [cbn in Hy; congruence|]. now apply (IH j).
Qed.

Lemma owners_middle l1 d l2 :
  owners (l1 ++ d :: l2) = owners l1 ++ owners [d] ++ owners l2.
Proof. unfold owners. now rewrite map_app, (map_app _ [d] l2), !filter_app. Qed.

Lemma owners_one d : owners [d] = if decide (begin d = 0) then [] else [begin d].
Proof.
  unfold owners. cbn [map]. rewrite filter_cons, filter_nil.
  destruct (decide (begin d = 0)), (decide (begin d <> 0)); tauto.
Qed.

Lemma owners_nonzero p l : p ∈ owners l -> p <> 0.
Proof. unfold owners. intros H. now apply list_elem_of_filter in H as [? _]. Qed.

Lemma owners_replace l1 d l2 :
  NoDup (owners (l1 ++ d :: l2)) ->
  NoDup (owners (l1 ++ unused :: l2)) /\
  forall p, p ∈ owners (l1 ++ unused :: l2) <-> p ∈ owners (l1 ++ d :: l2) /\ p <> begin d.
Proof.
  rewrite !owners_middle, (owners_one unused), owners_one. cbn [begin unused].
  rewrite (decide_True (P := 0 = 0)) by done. cbn [app].
  destruct (decide (begin d = 0)) as [H0|H0]; cbn [app].
  - intros Hnd. split; [done|]. intros p. split; [|intros [Hp _]; exact Hp]. intros Hp. split; [done|].
    rewrite H0. rewrite elem_of_app in Hp. destruct Hp as [Hp|Hp]; now apply owners_nonzero in Hp.
  - intros Hnd. apply NoDup_app in Hnd as (H1 & H2 & H3). apply NoDup_cons in H3 as [H3 H4].
    split; [apply NoDup_app; set_solver|].
    intros p. rewrite !elem_of_app, elem_of_cons. split.
    + intros [Hp|Hp]; (split; [tauto|]); intros ->; [now apply (H2 _ Hp); left|done].
    + intros [[Hp|[Hp|Hp]] Hne]; tauto.
Qed.

Lemma owners_insert l i d :
  l !! i = Some d -> NoDup (owners l) ->
  NoDup (owners (<[i := unused]> l)) /\
  forall p, p ∈ owners (<[i := unused]> l) <-> p ∈ owners l /\ p <> begin d.
Proof.
  intros Hi. rewrite insert_take_drop by (apply lookup_lt_Some in Hi; exact Hi).
  pose proof (owners_replace (take i l) d (drop (S i) l)) as H.
  now rewrite (take_drop_middle l i d Hi) in H.
Qed.

Lemma free_data_segment_ok i s :
  wf_data s -> (i < 20)%nat ->
  exists d s', bin_data_list s !! i = Some d /\ free_data_segment i s = Ok (tt, s') /\ wf_data s' /\
    bin_data_list s' = <[i := unused]> (bin_data_list s) /\
    blocks s' = if decide (begin d = 0) then blocks s else blocks s ∖ {[begin d]}.
Proof.
  intros (Hlen & Hnd & Hown) Hi.
  destruct (lookup_lt_is_Some_2 (bin_data_list s) i) as [d Hd]; [lia|].
  destruct (owners_insert _ _ _ Hd Hnd) as [Hnd' Hin].
  assert (Hfree : when (negb (begin d =? 0)) (free_block (begin d)) s =
    Ok (tt, mkDataState (bin_data_list s) (if decide (begin d = 0) then blocks s else blocks s ∖ {[begin d]}))).
  { destruct (Z.eqb_spec (begin d) 0) as [H0|H0]; cbn [negb when].
    - rewrite decide_True by done. now destruct s.
    - rewrite (decide_False (P := begin d = 0)) by done. unfold free_block.
      rewrite decide_True; [done|]. apply Hown. unfold owners. apply list_elem_of_filter.
      split; [done|]. apply list_elem_of_fmap. exists d. split; [done|]. now apply list_elem_of_lookup_2 with i. }
  eexists d, _. split; [done|]. split.
  { unfold free_data_segment. erewrite bind_ok by reflexivity. rewrite Hd.
    erewrite bind_ok by reflexivity. rewrite (bind_ok _ _ _ _ _ Hfree). reflexivity. }
  cbn [bin_data_list blocks]. split; [|done]. split_and!; cbn [bin_data_list blocks].
  - now rewrite length_insert.
  - done.
  - intros p Hp. apply Hin in Hp as [Hp Hne]. apply Hown in Hp. destruct (decide _); [done|]. set_solver.
Qed.

(** ** Properties *)

(** Clearing the table succeeds from every well-formed state (no block is
    freed twice, none that is not live), and leaves a well-formed state with
    every slot free; a new segment is then the first slot. *)
Theorem free_all_data_segments_clears s :
  wf_data s ->
  exists s', free_all_data_segments s = Ok (tt, s') /\ wf_data s' /\
    bin_data_list s' = replicate 20 unused /\ new_data_segment s' = Ok (Some O, s').
Proof.
  intros Hwf. unfold free_all_data_segments.
  assert (Hgen : forall n k s, wf_data s -> (k + n = 20)%nat ->
    take k (bin_data_list s) = replicate k unused ->
    exists s', for_each (seq k n) free_data_segment s = Ok (tt, s') /\ wf_data s' /\
      bin_data_list s' = replicate 20 unused).
  { clear. induction n as [|n IH]; intros k s Hwf Hk Ht.
    - exists s. split_and!; [done|done|]. replace k with 20%nat in Ht by lia.
      rewrite take_ge in Ht by (destruct Hwf; lia). done.
    - destruct (free_data_segment_ok k s Hwf ltac:(lia)) as (d & s1 & Hd & E1 & Hwf1 & Hl1 & _).
      destruct (IH (S k) s1 Hwf1 ltac:(lia)) as (s' & E2 & H2).
      { rewrite Hl1. apply lookup_lt_Some in Hd as Hlt.
        rewrite (take_S_r _ _ unused) by now apply list_lookup_insert_eq.
        rewrite take_insert_ge by lia. rewrite Ht.
        rewrite replicate_S_end. done. }
      exists s'. cbn [seq for_each]. rewrite (bind_ok _ _ _ _ _ E1). done. }
  destruct (Hgen 20%nat O s Hwf eq_refl eq_refl) as (s' & E1 & Hwf' & Hl).
  exists s'. split_and!; [exact E1|done|done|]. unfold new_data_segment, gets. now rewrite Hl.
Qed.

(** One segment named "a" that owns the block at 0x20001000. *)
Definition one_segment : data_state :=
  mkDataState (<[3%nat := mkData [97; 0; 0; 0; 0; 0; 0; 0] 0x20001000 0x20001010]> (replicate 20 unused))
              {[ 0x20001000 ]}.

Lemma one_segment_wf : wf_data one_segment.
Proof.
  split_and!; [reflexivity| |].
  - change (owners (bin_data_list one_segment)) with [0x20001000]. apply NoDup_singleton.
  - change (owners (bin_data_list one_segment)) with [0x20001000]. intros p Hp.
    apply list_elem_of_singleton in Hp as ->. unfold one_segment. cbn [blocks]. set_solver.
Qed.

Lemma free_all_data_segments_clears_witness :
  exists s', free_all_data_segments one_segment = Ok (tt, s') /\ bin_data_list s' = replicate 20 unused.
Proof.
  destruct (free_all_data_segments_clears one_segment) as (s' & H1 & _ & H2 & _).
  - apply one_segment_wf.
  - exists s'. split; [exact H1|exact H2].
Defined.

(** [get_data_segment] finds the first segment whose name agrees with the
    given one on the first seven characters, and [NULL] only if there is
    none; deleting by name frees exactly that segment's block and slot. *)
Theorem delete_data_segment_frees_one id s :
  wf_data s ->
  match first_index (fun d => strncmp_eq 7 id (name d)) 0 (bin_data_list s) with
  | Some i =>
      exists d s', bin_data_list s !! i = Some d /\ strncmp_eq 7 id (name d) = true /\
        (forall j e, (j < i)%nat -> bin_data_list s !! j = Some e -> strncmp_eq 7 id (name e) = false) /\
        delete_data_segment id s = Ok (tt, s') /\ wf_data s' /\
        bin_data_list s' = <[i := unused]> (bin_data_list s) /\
        blocks s' = if decide (begin d = 0) then blocks s else blocks s ∖ {[begin d]}
  | None =>
      (forall j e, bin_data_list s !! j = Some e -> strncmp_eq 7 id (name e) = false) /\
      delete_data_segment id s = Ok (tt, s)
  end.
Proof.
  intros Hwf.
  pose proof (first_index_spec (fun d => strncmp_eq 7 id (name d)) 0 (bin_data_list s)) as Hs.
  unfold delete_data_segment, get_data_segment.
  destruct (first_index _ 0 (bin_data_list s)) as [i|] eqn:Ei.
  - destruct Hs as (j & d & -> & Hd & Hm & Hb). cbn [Nat.add] in *.
    destruct (free_data_segment_ok j s Hwf) as (d' & s' & Hd' & E1 & Hwf' & Hl & Hbl).
    { apply lookup_lt_Some in Hd. destruct Hwf as [Hlen _]. lia. }
    assert (d' = d) as -> by congruence.
    exists d, s'. split_and!; try done. erewrite bind_ok by reflexivity. now rewrite Ei.
  - split; [exact Hs|]. erewrite bind_ok by reflexivity. now rewrite Ei.
Qed.

Lemma delete_data_segment_frees_one_witness :
  exists s', delete_data_segment [97] one_segment = Ok (tt, s') /\ wf_data s'.
Proof.
  destruct (delete_data_segment_frees_one [97] one_segment one_segment_wf) as (d & s' & _ & _ & _ & H1 & H2 & _).
  exists s'. split; [exact H1|exact H2].
Defined.
