(* ===== verification/Board.v ===== *)
(** * Board: the program's global state and its link map

    The variables the upper layers share: the peripherals, the shadow
    registers, the flash and CRC unit, the command queue, and the sample
    buffer of the parallel port.  Each lower component sees its part through
    a lens.  The addresses the linker gives to the objects whose pointers are
    stored in byte buffers are an interface, [Link]. *)

From Stdlib Require Import ZArith Lia.
From stdpp Require Import base numbers list.
From S2P Require Import Prelude Hw Gpio Registers Ad9910 Flash Crc.

(** The queue of include/commands.h: the buffer, the number of bytes used
    ([end - begin]) and the repeat count. *)
Record queue := mkQueue { q_buf : list Z; q_end : nat; q_repeat : Z }.

Record board := mkBoard {
    b_hw : hw;
    b_regs : ad9910_registers;
    b_flash : flash;
    b_crc : Z;
    b_queue : queue;
    b_update : Z;          (** [update_registers] of commands.c *)
    b_samples : list Z;    (** [parallel.buffer] of scpi.c *)
  }.

#[export] Program Instance board_dds : Lens dds board :=
  {| view b := mkDds (b_hw b) (b_regs b);
     over d b := mkBoard (dev d) (regs d) (b_flash b) (b_crc b) (b_queue b) (b_update b) (b_samples b) |}.
Solve Obligations with (intros; repeat match goal with x : board |- _ => destruct x | x : dds |- _ => destruct x end; reflexivity).

#[export] Program Instance board_store : Lens store board :=
  {| view b := mkStore (b_hw b) (b_flash b) (b_crc b);
     over s b := mkBoard (st_hw s) (b_regs b) (st_flash s) (st_crc s) (b_queue b) (b_update b) (b_samples b) |}.
Solve Obligations with (intros; repeat match goal with x : board |- _ => destruct x | x : store |- _ => destruct x end; reflexivity).

#[export] Program Instance board_hw : Lens hw board :=
  {| view := b_hw;
     over h b := mkBoard h (b_regs b) (b_flash b) (b_crc b) (b_queue b) (b_update b) (b_samples b) |}.
Solve Obligations with (intros; repeat match goal with x : board |- _ => destruct x end; reflexivity).

#[export] Program Instance board_queue : Lens queue board :=
  {| view := b_queue;
     over q b := mkBoard (b_hw b) (b_regs b) (b_flash b) (b_crc b) q (b_update b) (b_samples b) |}.
Solve Obligations with (intros; repeat match goal with x : board |- _ => destruct x end; reflexivity).

Definition set_update (v : Z) : M board unit :=
  modify (fun b => mkBoard (b_hw b) (b_regs b) (b_flash b) (b_crc b) (b_queue b) v (b_samples b)).

Definition set_samples (v : list Z) : M board unit :=
  modify (fun b => mkBoard (b_hw b) (b_regs b) (b_flash b) (b_crc b) (b_queue b) (b_update b) v).

(** ** The link map

    Where the linker puts the field descriptors of include/ad9910.h and the
    sample buffer.  Different descriptors have different 32-bit addresses. *)
Class Link := {
    field_addr : ad9910_register_bit -> Z;
    field_at : Z -> option ad9910_register_bit;
    samples_addr : Z;
    field_addr_range : forall f, f ∈ all_fields -> 0 <= field_addr f < 2 ^ 32;
    field_at_addr : forall f, f ∈ all_fields -> field_at (field_addr f) = Some f;
    field_at_in : forall a f, field_at a = Some f -> f ∈ all_fields;
    samples_addr_range : 0 <= samples_addr < 2 ^ 32;
  }.

(** The port a base address designates. *)
Definition port_at (a : Z) : option port :=
  if a =? GPIO_BASE GPIOA then Some GPIOA else if a =? GPIO_BASE GPIOB then Some GPIOB
  else if a =? GPIO_BASE GPIOC then Some GPIOC else if a =? GPIO_BASE GPIOD then Some GPIOD
  else if a =? GPIO_BASE GPIOE then Some GPIOE else None.

Lemma port_at_base p : port_at (GPIO_BASE p) = Some p.
Proof. now destruct p. Qed.

Lemma GPIO_BASE_range p : 0 <= GPIO_BASE p < 2 ^ 32.
Proof. destruct p; cbn; lia. Qed.

(** A link map: the descriptors from 0x08020000 on, twelve bytes each. *)
Definition plain_addr (f : ad9910_register_bit) : Z :=
  0x08020000 + 12 * (match list_find (eq f) all_fields with Some (i, _) => Z.of_nat i | None => 0 end).
Definition plain_at (a : Z) : option ad9910_register_bit :=
  if (a - 0x08020000) mod 12 =? 0 then all_fields !! Z.to_nat ((a - 0x08020000) / 12) else None.

Lemma plain_addr_range f : f ∈ all_fields -> 0 <= plain_addr f < 2 ^ 32.
Proof.
  revert f. apply Forall_forall. decided.
Qed.

Lemma plain_at_addr f : f ∈ all_fields -> plain_at (plain_addr f) = Some f.
Proof. revert f. apply Forall_forall. decided. Qed.

Lemma plain_at_in a f : plain_at a = Some f -> f ∈ all_fields.
Proof. unfold plain_at. case_match; [apply list_elem_of_lookup_2|discriminate]. Qed.

Definition plain_link : Link := {|
  field_addr := plain_addr; field_at := plain_at; samples_addr := 0x20000400;
  field_addr_range := plain_addr_range; field_at_addr := plain_at_addr;
  field_at_in := plain_at_in;
  samples_addr_range := ltac:(lia) |}.

Definition board_reset : board :=
  mkBoard hw_reset ad9910_regs flash_reset 0 (mkQueue (replicate 1024 0) 0 0) 0 (replicate 16 0).
