(* ===== verification/Commands.v ===== *)
(** * Commands: the command queue

    Models src/commands.c and include/commands.h.  The queue is a byte buffer
    of headers (a one-byte enumeration) followed by the structures' bytes as
    the compiler lays them out (little endian, four-byte pointers and
    integers); execution walks these bytes.  Shows that a queue filled by the
    queueing functions is a sequence of commands, that executing the bytes
    performs exactly those commands in order, once more than the repeat
    count, that the walk always ends, and what the saved start-up sequence
    does at the next boot. *)

From Stdlib Require Import ZArith Lia SpecFloat.
From stdpp Require Import base numbers list.
From S2P Require Import Prelude Hw Gpio Spi Timing Registers Ad9910 Flash Crc Float Convert Board.
#[local] Open Scope c_scope.

Definition COMMAND_QUEUE_LENGTH := 1024.
Definition STARTUP_EEPROM := eeprom_block0.

Definition command_type_end := 0.
Definition command_type_register := 1.
Definition command_type_pin := 2.
Definition command_type_trigger := 3.
Definition command_type_wait := 4.
Definition command_type_update := 5.
Definition command_type_spi_write := 6.
Definition command_type_parallel := 7.
Definition command_type_parallel_frequency := 8.

(** The sizes of the structures. *)
Definition sizeof_command := 1.
Definition sizeof_command_register := 8.
Definition sizeof_command_pin := 12.
Definition sizeof_command_wait := 4.
Definition sizeof_command_parallel := 12.
Definition sizeof_command_parallel_frequency := 4.

(** Unsigned loads from a byte buffer. *)
Definition load (n : nat) (off : Z) (mem : list Z) : option Z :=
  of_le <$> read_bytes (Z.to_nat off) n mem.
Definition load32 := load 4.

Section Commands.
Context `{E : Env} `{FE : FlashEnv} `{L : Link}.

(** ** Filling the queue *)

Definition command_queue (type : Z) (cmd : list Z) : M queue Z := fun q =>
  let len := sizeof_command + Z.of_nat (length cmd) in
  if COMMAND_QUEUE_LENGTH <? Z.of_nat (q_end q) + len then Ok (1, q) else
  match write_bytes (q_end q) (u8 type :: cmd) (q_buf q) with
  | Some buf => Ok (0, mkQueue buf (q_end q + S (length cmd)) (q_repeat q))
  | None => Fault OutOfBounds
  end.

(** The structures in memory. *)
Definition command_register (reg value : Z) : list Z := le_bytes 4 reg ++ le_bytes 4 value.
Definition command_pin (p : gpio_pin) (value : Z) : list Z :=
  le_bytes 4 (GPIO_BASE (group p)) ++ le_bytes 4 (pin p) ++ le_bytes 4 value.
Definition command_wait (delay : Z) : list Z := le_bytes 4 delay.
Definition command_parallel (data length repeats : Z) : list Z :=
  le_bytes 4 data ++ le_bytes 4 length ++ le_bytes 4 repeats.
Definition command_parallel_frequency (frequency : spec_float) : list Z :=
  le_bytes 4 (f32_bits frequency).

Definition command_queue_pin (p : gpio_pin) (value : Z) : M queue Z :=
  command_queue command_type_pin (command_pin p value).
Definition command_queue_trigger : M queue Z := command_queue command_type_trigger [].
Definition command_queue_update : M queue Z := command_queue command_type_update [].
Definition command_queue_wait (delay : Z) : M queue Z :=
  command_queue command_type_wait (command_wait delay).
Definition command_queue_parallel (data length repeats : Z) : M queue Z :=
  command_queue command_type_parallel (command_parallel data length repeats).
Definition command_queue_parallel_frequency (frequency : spec_float) : M queue Z :=
  command_queue command_type_parallel_frequency (command_parallel_frequency frequency).

Definition get_command_length (type : Z) : Z :=
  sizeof_command +
  (if type =? command_type_register then sizeof_command_register
   else if type =? command_type_pin then sizeof_command_pin
   else if type =? command_type_wait then sizeof_command_wait
   else 0).

(** The loop of [find_last_command] from offset [cur] on. *)
Fixpoint find_last_from (fuel : nat) (mem : list Z) (end_ cur : Z) : M queue (option Z) :=
  match fuel with
  | O => hang
  | S fuel =>
      if cur <? end_ then
        t ← deref OutOfBounds (mem !! Z.to_nat cur);
        let len := get_command_length t in
        if cur + len =? end_ then mret (Some cur)
        else find_last_from fuel mem end_ (cur + len)
      else mret None
  end.

(** Every round advances by one byte at least. *)
Definition find_last_command : M queue (option Z) := fun q =>
  find_last_from (S (q_end q)) (q_buf q) (Z.of_nat (q_end q)) 0 q.

Definition command_queue_register (reg value : Z) : M queue Z :=
  last ← find_last_command;
  t ← match last with
      | Some cur => gets (fun q => q_buf q !! Z.to_nat cur)
      | None => mret None
      end;
  when (bool_decide (t = Some command_type_spi_write))
    (modify (fun q => mkQueue (q_buf q) (q_end q - 1) (q_repeat q)));;
  r1 ← command_queue command_type_register (command_register reg value);
  r2 ← command_queue command_type_spi_write [];
  mret (r1 + r2).

Definition commands_clear : M queue unit := modify (fun q => mkQueue (q_buf q) 0 (q_repeat q)).
Definition commands_repeat (count : Z) : M queue unit := modify (fun q => mkQueue (q_buf q) (q_end q) count).
Definition get_commands_repeat : M queue Z := gets q_repeat.

(** ** Executing commands

  [mem]: the bytes from the start of the queue to the end of the object
  they are in; [cur]: the offset of the structure. *)

Definition execute_command_register_only (mem : list Z) (cur : Z) : M board Z :=
  reg ← deref OutOfBounds (load32 cur mem);
  f ← deref DanglingPtr (field_at reg);
  value ← deref OutOfBounds (load32 (cur + 4) mem);
  zoom (zoom (ad9910_set_value f value) : M dds unit);;
  r ← zoom (zoom (reg_at (Registers.reg f)) : M dds ad9910_register);
  u ← gets b_update;
  set_update (u32 (u ||| (1 <<< address r)));;
  mret sizeof_command_register.

(** The variant the SCPI layer calls: it sends the register at once. *)
Definition execute_command_register (f : ad9910_register_bit) (value : Z) : M board Z :=
  zoom (zoom (ad9910_set_value f value) : M dds unit);;
  zoom (ad9910_update_matching_reg f);;
  mret sizeof_command_register.

Definition execute_command_spi_write : M board Z :=
  u ← gets b_update;
  zoom (ad9910_update_multiple_regs u);;
  set_update 0;;
  mret 0.

(** [gpio_set] of a pin whose number is known at run time only: the shift in
    it is undefined beyond the width. *)
Definition set_any_pin (p : gpio_pin) (value : Z) : M board unit :=
  if 32 <=? pin p then fail IntOverflow else zoom (gpio_set p value).

Definition execute_command_pin (mem : list Z) (cur : Z) : M board Z :=
  g ← deref OutOfBounds (load32 cur mem);
  p ← deref DanglingPtr (port_at g);
  n ← deref OutOfBounds (load32 (cur + 4) mem);
  value ← deref OutOfBounds (load32 (cur + 8) mem);
  set_any_pin (mkPin p n) value;;
  mret sizeof_command_pin.

(** Waits for a pulse on the IO_UPDATE line, as an input. *)
Definition wait_trigger : M board unit :=
  zoom (gpio_set_pin_mode_input IO_UPDATE);;
  zoom (while poll_fuel (v ← gpio_get IO_UPDATE; mret (v =? 0)) (mret tt));;
  zoom (while poll_fuel (v ← gpio_get IO_UPDATE; mret (v =? 1)) (mret tt));;
  zoom (gpio_set_pin_mode_output IO_UPDATE).

Definition execute_command_trigger : M board Z := wait_trigger;; mret 0.

Definition execute_command_wait (mem : list Z) (cur : Z) : M board Z :=
  d ← deref OutOfBounds (load32 cur mem);
  zoom (delay d);;
  mret sizeof_command_wait.

Definition execute_command_update : M board Z :=
  zoom ad9910_io_update;; mret 0.

(** [data] must point to the sample buffer. *)
Definition execute_command_parallel (mem : list Z) (cur : Z) : M board Z :=
  data ← deref OutOfBounds (load32 cur mem);
  length ← deref OutOfBounds (load32 (cur + 4) mem);
  repeats ← deref OutOfBounds (load32 (cur + 8) mem);
  samples ← gets b_samples;
  samples ← deref DanglingPtr (if data =? samples_addr then Some samples else None);
  zoom (ad9910_execute_parallel samples length repeats);;
  mret sizeof_command_parallel.

Definition execute_command_parallel_frequency (mem : list Z) (cur : Z) : M board Z :=
  f ← deref OutOfBounds (load32 cur mem);
  zoom (ad9910_set_parallel_frequency (f32_of_bits f));;
  mret sizeof_command_parallel_frequency.

Definition execute_command (mem : list Z) (cur : Z) : M board Z :=
  t ← deref OutOfBounds (mem !! Z.to_nat cur);
  n ← (if t =? command_type_register then execute_command_register_only mem (cur + 1)
       else if t =? command_type_pin then execute_command_pin mem (cur + 1)
       else if t =? command_type_trigger then execute_command_trigger
       else if t =? command_type_wait then execute_command_wait mem (cur + 1)
       else if t =? command_type_update then execute_command_update
       else if t =? command_type_spi_write then execute_command_spi_write
       else if t =? command_type_parallel then execute_command_parallel mem (cur + 1)
       else if t =? command_type_parallel_frequency then execute_command_parallel_frequency mem (cur + 1)
       else mret 0);
  mret (sizeof_command + n).

(** The inner loop of [execute_commands]. *)
Fixpoint run_queue (fuel : nat) (mem : list Z) (end_ cur : Z) : M board unit :=
  match fuel with
  | O => hang
  | S fuel =>
      if cur <? end_ then
        n ← execute_command mem cur;
        run_queue fuel mem end_ (cur + n)
      else mret tt
  end.

(** Each command is one byte at least, so [end_] rounds are enough.  The
  counter [i] of the repeat loop takes the values from 0 to [repeat]. *)
Definition execute_commands (mem : list Z) (end_ repeat : Z) : M board unit :=
  zoom (gpio_set_high LED_FRONT);;
  for_each (seqZ 0 (repeat + 1)) (fun _ => run_queue (S (Z.to_nat end_)) mem end_ 0);;
  zoom (gpio_set_low LED_FRONT).

Definition commands_execute : M board unit :=
  q ← gets b_queue;
  execute_commands (q_buf q) (Z.of_nat (q_end q)) (q_repeat q).

(** ** The start-up sequence *)

Definition startup_command_clear : M board unit :=
  zoom (zoom (eeprom_erase STARTUP_EEPROM) : M store Z);; mret tt.

(** The block read as memory: [n] bytes from offset [off]. *)
Definition startup_bytes (off n : Z) : M board (list Z) :=
  gets (fun b => flash_bytes (b_flash b) (eeprom_get STARTUP_EEPROM off) (Z.to_nat n)).

(** The little-endian words of a list of bytes. *)
Fixpoint words (n : nat) (bs : list Z) : list Z :=
  match n with
  | O => []
  | S n => of_le (take 4 bs) :: words n (drop 4 bs)
  end.

(** The CRC of everything in the block behind the stored one. *)
Definition crc_bytes : Z := eeprom_get_size STARTUP_EEPROM - 4.
Definition crc_words : Z := crc_bytes / 4.

Definition startup_crc : M board Z :=
  zoom crc_init;;
  bs ← startup_bytes 4 crc_bytes;
  zoom (crc (words (Z.to_nat crc_words) bs) crc_words).

Definition startup_command_execute : M board unit :=
  crc_calc ← startup_crc;
  crc_saved ← startup_bytes 0 4;
  if negb (crc_calc =? of_le crc_saved) then mret tt else
  len ← startup_bytes 4 4;
  mem ← startup_bytes 8 (crc_bytes - 4);
  execute_commands mem (of_le len) 0.

Definition startup_command_save : M board unit :=
  startup_command_clear;;
  q ← gets b_queue;
  let len := Z.of_nat (q_end q) in
  zoom (zoom (eeprom_write STARTUP_EEPROM 4 (le_bytes 4 len)) : M store Z);;
  zoom (zoom (eeprom_write STARTUP_EEPROM 8 (take (q_end q) (q_buf q))) : M store Z);;
  crcsum ← startup_crc;
  zoom (zoom (eeprom_write STARTUP_EEPROM 0 (le_bytes 4 crcsum)) : M store Z);;
  mret tt.

(** ** The commands the bytes stand for *)

Inductive cmd :=
  | CRegister (f : ad9910_register_bit) (value : Z)
  | CPin (p : gpio_pin) (value : Z)
  | CTrigger
  | CWait (d : Z)
  | CUpdate
  | CSpiWrite
  | CParallel (length repeats : Z)
  | CParallelFrequency (f : spec_float).

Definition wf_cmd (c : cmd) : Prop :=
  match c with
  | CRegister f v => f ∈ all_fields /\ 0 <= v < 2 ^ 32
  | CPin p v => 0 <= pin p < 2 ^ 32 /\ 0 <= v < 2 ^ 32
  | CWait d => 0 <= d < 2 ^ 32
  | CParallel len rep => 0 <= len < 2 ^ 32 /\ 0 <= rep < 2 ^ 32
  | CParallelFrequency f => is_f32 f
  | _ => True
  end.

Definition cmd_type (c : cmd) : Z :=
  match c with
  | CRegister _ _ => command_type_register | CPin _ _ => command_type_pin
  | CTrigger => command_type_trigger | CWait _ => command_type_wait
  | CUpdate => command_type_update | CSpiWrite => command_type_spi_write
  | CParallel _ _ => command_type_parallel | CParallelFrequency _ => command_type_parallel_frequency
  end.

Definition cmd_payload (c : cmd) : list Z :=
  match c with
  | CRegister f v => command_register (field_addr f) v
  | CPin p v => command_pin p v
  | CWait d => command_wait d
  | CParallel len rep => command_parallel samples_addr len rep
  | CParallelFrequency f => command_parallel_frequency f
  | _ => []
  end.

Definition encode (c : cmd) : list Z := cmd_type c :: cmd_payload c.
Definition encode_all (cs : list cmd) : list Z := concat (map encode cs).

(** What a command does, without the bytes. *)
Definition perform (c : cmd) : M board unit :=
  match c with
  | CRegister f v =>
      zoom (zoom (ad9910_set_value f v) : M dds unit);;
      r ← zoom (zoom (reg_at (Registers.reg f)) : M dds ad9910_register);
      u ← gets b_update;
      set_update (u32 (u ||| (1 <<< address r)))
  | CPin p v => set_any_pin p v
  | CTrigger => wait_trigger
  | CWait d => zoom (delay d)
  | CUpdate => zoom ad9910_io_update
  | CSpiWrite =>
      u ← gets b_update; zoom (ad9910_update_multiple_regs u);; set_update 0
  | CParallel len rep => samples ← gets b_samples; zoom (ad9910_execute_parallel samples len rep)
  | CParallelFrequency f => zoom (ad9910_set_parallel_frequency f);; mret tt
  end.

Lemma load_at mem cur pre z n rest :
  (0 < n)%nat -> 0 <= cur -> drop (Z.to_nat cur) mem = pre ++ le_bytes n z ++ rest ->
  load n (cur + Z.of_nat (length pre)) mem = Some (wrap (8 * Z.of_nat n) z).
Proof.
  intros Hn Hc Hd. unfold load, read_bytes.
  assert (Hlen := f_equal length Hd). rewrite length_drop, !length_app, length_le_bytes in Hlen.
  replace (Z.to_nat (cur + Z.of_nat (length pre))) with (Z.to_nat cur + length pre)%nat by lia.
  rewrite decide_True by lia. rewrite <- drop_drop, Hd, drop_app_length.
  rewrite take_app_length' by now rewrite length_le_bytes. cbn. f_equal. apply of_le_le_bytes.
Qed.

Lemma type_at (mem : list Z) cur t rest :
  drop (Z.to_nat cur) mem = t :: rest -> mem !! Z.to_nat cur = Some t.
Proof. intros Hd. rewrite <- (Nat.add_0_r (Z.to_nat cur)), <- lookup_drop, Hd. reflexivity. Qed.

Lemma drop_succ (mem : list Z) cur t rest :
  0 <= cur -> drop (Z.to_nat cur) mem = t :: rest -> drop (Z.to_nat (cur + 1)) mem = rest.
Proof.
  intros Hc Hd. replace (Z.to_nat (cur + 1)) with (Z.to_nat cur + 1)%nat by lia.
  now rewrite <- drop_drop, Hd.
Qed.

Lemma deref_ok {A} e (o : option A) a (b : board) : o = Some a -> deref e o b = Ok (a, b).
Proof. now intros ->. Qed.

Lemma load32_at mem cur z rest :
  0 <= cur -> drop (Z.to_nat cur) mem = le_bytes 4 z ++ rest -> load32 cur mem = Some (u32 z).
Proof.
  intros Hc Hd. pose proof (load_at _ _ [] _ 4 _ ltac:(lia) Hc Hd) as H.
  cbn [length] in H. now rewrite Z.add_0_r in H.
Qed.

Lemma load32_2 mem cur z1 z2 rest :
  0 <= cur -> drop (Z.to_nat cur) mem = le_bytes 4 z1 ++ le_bytes 4 z2 ++ rest ->
  load32 cur mem = Some (u32 z1) /\ load32 (cur + 4) mem = Some (u32 z2).
Proof.
  intros Hc Hd. split; [now apply (load32_at _ _ _ _ Hc Hd)|].
  pose proof (load_at _ _ (le_bytes 4 z1) _ 4 _ ltac:(lia) Hc Hd) as H. now rewrite length_le_bytes in H.
Qed.

Lemma load32_3 mem cur x y z rest :
  0 <= cur -> drop (Z.to_nat cur) mem = le_bytes 4 x ++ le_bytes 4 y ++ le_bytes 4 z ++ rest ->
  load32 cur mem = Some (u32 x) /\ load32 (cur + 4) mem = Some (u32 y) /\ load32 (cur + 8) mem = Some (u32 z).
Proof.
  intros Hc Hd. destruct (load32_2 _ _ _ _ _ Hc Hd) as [L1 L2]. split; [exact L1|]. split; [exact L2|].
  pose proof (load_at mem cur (le_bytes 4 x ++ le_bytes 4 y) z 4 rest ltac:(lia) Hc) as H.
  rewrite <- app_assoc in H. specialize (H Hd). now rewrite length_app, !length_le_bytes in H.
Qed.

(** Executing the bytes of a command performs it and advances over them. *)
Lemma execute_command_encode mem cur c rest b :
  wf_cmd c -> 0 <= cur -> drop (Z.to_nat cur) mem = encode c ++ rest ->
  execute_command mem cur b = (perform c;; mret (Z.of_nat (length (encode c)))) b.
Proof.
  intros Hwf Hcur Hd. unfold execute_command. cbn [encode app] in Hd.
  rewrite (bind_ok _ _ b _ b (deref_ok _ _ _ b (type_at _ _ _ _ Hd))).
  pose proof (drop_succ _ _ _ _ Hcur Hd) as Hp.
  assert (Hcur' : 0 <= cur + 1) by lia. revert Hp Hcur'. generalize (cur + 1) as k. intros k Hp Hk.
  clear Hd Hcur. destruct c as [f v|p v| |d| | |len rep|f]; cbn [cmd_type cmd_payload wf_cmd] in *;
    cbn [Z.eqb Pos.eqb command_type_register command_type_pin command_type_trigger command_type_wait
         command_type_update command_type_spi_write command_type_parallel command_type_parallel_frequency].
  - destruct Hwf as [Hf Hv]. unfold command_register in Hp. rewrite <- app_assoc in Hp.
    destruct (load32_2 mem k _ _ _ Hk Hp) as [L1 L2].
    rewrite wrap_small in L1 by now apply field_addr_range. rewrite wrap_small in L2 by done.
    unfold execute_command_register_only, perform. rewrite L1, L2. cbn [deref].
    mred. rewrite (field_at_addr f Hf). mcase.
  - destruct Hwf as [Hp' Hv]. destruct p as [g n]. unfold command_pin in Hp. cbn [group pin] in *. rewrite <- !app_assoc in Hp.
    destruct (load32_3 mem k _ _ _ _ Hk Hp) as (L1 & L2 & L3).
    rewrite wrap_small in L1 by apply GPIO_BASE_range. rewrite wrap_small in L2 by done.
    rewrite wrap_small in L3 by done.
    unfold execute_command_pin, perform. rewrite L1, L2, L3. mred. rewrite port_at_base.
    mcase.
  - unfold execute_command_trigger, perform. mcase.
  - unfold command_wait in Hp. pose proof (load32_at _ _ _ _ Hk Hp) as L1. rewrite wrap_small in L1 by done.
    unfold execute_command_wait, perform. rewrite L1. mcase.
  - unfold execute_command_update, perform. mcase.
  - unfold execute_command_spi_write, perform. mcase.
  - destruct Hwf as [Hlen Hrep]. unfold command_parallel in Hp. rewrite <- !app_assoc in Hp.
    destruct (load32_3 mem k _ _ _ _ Hk Hp) as (L1 & L2 & L3).
    rewrite wrap_small in L1 by apply samples_addr_range. rewrite wrap_small in L2, L3 by done.
    unfold execute_command_parallel, perform.
    rewrite L1, L2, L3. mred. rewrite Z.eqb_refl. mcase.
  - unfold command_parallel_frequency in Hp. pose proof (load32_at _ _ _ _ Hk Hp) as L1.
    rewrite wrap_small in L1 by now apply f32_bits_range.
    unfold execute_command_parallel_frequency, perform. rewrite L1. mred.
    rewrite f32_of_bits_bits by done. mcase.
Qed.

Lemma length_encode_pos c : (1 <= length (encode c))%nat.
Proof. cbn. lia. Qed.

(** Walking the bytes of a list of commands performs them in order. *)
Lemma run_queue_encode cs mem rest cur fuel b :
  Forall wf_cmd cs -> 0 <= cur -> drop (Z.to_nat cur) mem = encode_all cs ++ rest ->
  (length (encode_all cs) < fuel)%nat ->
  run_queue fuel mem (cur + Z.of_nat (length (encode_all cs))) cur b = for_each cs perform b.
Proof.
  intros Hwf. revert cur fuel b. induction Hwf as [|c cs Hc Hcs IH]; intros cur fuel b Hcur Hd Hf.
  - destruct fuel as [|fuel]; [cbn in Hf; lia|]. cbn [run_queue encode_all map concat length].
    destruct (Z.ltb_spec cur (cur + Z.of_nat 0)); [lia|done].
  - change (encode_all (c :: cs)) with (encode c ++ encode_all cs) in *.
    rewrite length_app in *. pose proof (length_encode_pos c) as Hpos.
    destruct fuel as [|fuel]; [lia|]. cbn [run_queue for_each].
    destruct (Z.ltb_spec cur (cur + Z.of_nat (length (encode c) + length (encode_all cs)))); [|lia].
    rewrite <- app_assoc in Hd.
    unfold mbind at 1, M_bind at 1. rewrite (execute_command_encode mem cur c _ b Hc Hcur Hd).
    unfold mbind, M_bind, mret, M_ret. destruct (perform c b) as [[[] b1]| |]; [|done|done].
    replace (cur + Z.of_nat (length (encode c) + length (encode_all cs)))
      with (cur + Z.of_nat (length (encode c)) + Z.of_nat (length (encode_all cs))) by lia.
    apply IH; [lia| |lia].
    replace (Z.to_nat (cur + Z.of_nat (length (encode c)))) with (Z.to_nat cur + length (encode c))%nat by lia.
    rewrite <- drop_drop, Hd. apply drop_app_length.
Qed.

(** What [execute_commands] does on the bytes of [cs]. *)
Definition perform_all (cs : list cmd) (repeat : Z) : M board unit :=
  zoom (gpio_set_high LED_FRONT);;
  for_each (seqZ 0 (repeat + 1)) (fun _ => for_each cs perform);;
  zoom (gpio_set_low LED_FRONT).

Lemma for_each_ext {S A} (l : list A) (f g : A -> M S unit) s :
  (forall a s, f a s = g a s) -> for_each l f s = for_each l g s.
Proof.
  intros Hfg. revert s. induction l as [|a l IH]; intros s; [done|]. cbn [for_each].
  unfold mbind, M_bind. rewrite Hfg. destruct (g a s) as [[[] s']| |]; [apply IH|done|done].
Qed.

Lemma execute_commands_encode cs mem rest repeat b :
  Forall wf_cmd cs -> mem = encode_all cs ++ rest ->
  execute_commands mem (Z.of_nat (length (encode_all cs))) repeat b = perform_all cs repeat b.
Proof.
  intros Hwf ->. unfold execute_commands, perform_all. rewrite Nat2Z.id.
  unfold mbind at 1 3, M_bind at 1 3. destruct (zoom (gpio_set_high LED_FRONT) b) as [[[] b1]| |]; [|done|done].
  unfold mbind, M_bind. erewrite for_each_ext; [reflexivity|].
  intros i s. exact (run_queue_encode cs _ rest 0 (S (length (encode_all cs))) s Hwf ltac:(lia) eq_refl ltac:(lia)).
Qed.

(** ** The queue as a list of commands *)

Definition queue_holds (q : queue) (cs : list cmd) : Prop :=
  length (q_buf q) = 1024%nat /\ (q_end q <= 1024)%nat /\ take (q_end q) (q_buf q) = encode_all cs /\
  Forall wf_cmd cs.

Lemma queue_holds_length q cs : queue_holds q cs -> q_end q = length (encode_all cs).
Proof. intros (H1 & H2 & <- & _). rewrite length_take. lia. Qed.

Lemma queue_holds_buf q cs :
  queue_holds q cs -> q_buf q = encode_all cs ++ drop (q_end q) (q_buf q).
Proof. intros (_ & _ & <- & _). now rewrite take_drop. Qed.

Lemma encode_all_app cs1 cs2 : encode_all (cs1 ++ cs2) = encode_all cs1 ++ encode_all cs2.
Proof. unfold encode_all. now rewrite map_app, concat_app. Qed.

Lemma cmd_type_byte c : u8 (cmd_type c) = cmd_type c.
Proof. now destruct c. Qed.

Lemma command_queue_ok c cs q :
  queue_holds q cs -> wf_cmd c ->
  if decide (length (encode_all (cs ++ [c])) <= 1024)%nat
  then exists q', command_queue (cmd_type c) (cmd_payload c) q = Ok (0, q') /\
         queue_holds q' (cs ++ [c]) /\ q_repeat q' = q_repeat q
  else command_queue (cmd_type c) (cmd_payload c) q = Ok (1, q).
Proof.
  intros Hq Hc. pose proof (queue_holds_length _ _ Hq) as Hend. destruct Hq as (H1 & H2 & H3 & H4).
  rewrite encode_all_app, length_app. change (encode_all [c]) with (encode c ++ []). rewrite app_nil_r.
  unfold command_queue, sizeof_command, COMMAND_QUEUE_LENGTH. cbn [encode length].
  case_decide as Hfit.
  - destruct (Z.ltb_spec 1024 (Z.of_nat (q_end q) + (1 + Z.of_nat (length (cmd_payload c))))); [lia|].
    rewrite cmd_type_byte. unfold write_bytes at 1. cbn [length].
    rewrite decide_True by lia.
    set (buf := take (q_end q) (q_buf q) ++ _).
    assert (Hw : write_bytes (q_end q) (encode c) (q_buf q) = Some buf).
    { unfold write_bytes. cbn [encode length]. now rewrite decide_True by lia. }
    eexists. split; [reflexivity|]. split; [|reflexivity]. split_and!; cbn [q_buf q_end].
    + rewrite (length_write_bytes _ _ _ _ Hw). done.
    + lia.
    + pose proof (write_bytes_prefix _ _ _ _ Hw) as Hpre. cbn [encode length] in Hpre.
      rewrite encode_all_app. change (encode_all [c]) with (encode c ++ []). rewrite app_nil_r, <- H3.
      exact Hpre.
    + apply Forall_app. split; [done|]. now constructor.
  - destruct (Z.ltb_spec 1024 (Z.of_nat (q_end q) + (1 + Z.of_nat (length (cmd_payload c))))); [done|lia].
Qed.

(** Commands whose length [get_command_length] knows. *)
Definition plain_cmd (c : cmd) : Prop :=
  match c with CParallel _ _ | CParallelFrequency _ => False | _ => True end.

Lemma get_command_length_plain c :
  plain_cmd c -> get_command_length (cmd_type c) = Z.of_nat (length (encode c)).
Proof.
  destruct c; cbn [plain_cmd]; try done; intros _; unfold encode; cbn [cmd_payload length];
    unfold command_register, command_pin, command_wait; now rewrite ?length_app, ?length_le_bytes.
Qed.

Lemma find_last_from_ok cs0 c mem rest cur fuel q :
  Forall plain_cmd (cs0 ++ [c]) -> 0 <= cur ->
  drop (Z.to_nat cur) mem = encode_all (cs0 ++ [c]) ++ rest ->
  (length (encode_all (cs0 ++ [c])) < fuel)%nat ->
  find_last_from fuel mem (cur + Z.of_nat (length (encode_all (cs0 ++ [c])))) cur q =
    Ok (Some (cur + Z.of_nat (length (encode_all cs0))), q).
Proof.
  revert cur fuel. induction cs0 as [|c0 cs0 IH]; intros cur fuel Hpl Hcur Hd Hf.
  - change ([] ++ [c]) with [c] in *. change (encode_all [c]) with (encode c ++ []) in *.
    rewrite app_nil_r in *. apply Forall_cons in Hpl as [Hc _]. pose proof (length_encode_pos c).
    destruct fuel as [|fuel]; [lia|]. cbn [find_last_from].
    destruct (Z.ltb_spec cur (cur + Z.of_nat (length (encode c)))); [|lia].
    rewrite (type_at _ _ _ _ Hd). mred. rewrite (get_command_length_plain c Hc), Z.eqb_refl.
    cbn. now rewrite Z.add_0_r.
  - change ((c0 :: cs0) ++ [c]) with (c0 :: (cs0 ++ [c])) in *.
    change (encode_all (c0 :: cs0 ++ [c])) with (encode c0 ++ encode_all (cs0 ++ [c])) in *.
    change (encode_all (c0 :: cs0)) with (encode c0 ++ encode_all cs0).
    rewrite !length_app in *. apply Forall_cons in Hpl as [Hc Hpl]. pose proof (length_encode_pos c0).
    assert (Hlast : (1 <= length (encode_all (cs0 ++ [c])))%nat).
    { rewrite encode_all_app, length_app. change (encode_all [c]) with (encode c ++ []).
      rewrite app_nil_r. pose proof (length_encode_pos c). lia. }
    destruct fuel as [|fuel]; [lia|]. cbn [find_last_from].
    destruct (Z.ltb_spec cur (cur + Z.of_nat (length (encode c0) + length (encode_all (cs0 ++ [c]))))); [|lia].
    rewrite <- app_assoc in Hd. rewrite (type_at _ _ _ _ Hd). mred. rewrite (get_command_length_plain c0 Hc).
    destruct (Z.eqb_spec (cur + Z.of_nat (length (encode c0)))
      (cur + Z.of_nat (length (encode c0) + length (encode_all (cs0 ++ [c]))))); [lia|].
    replace (cur + Z.of_nat (length (encode c0) + length (encode_all (cs0 ++ [c]))))
      with (cur + Z.of_nat (length (encode c0)) + Z.of_nat (length (encode_all (cs0 ++ [c])))) by lia.
    rewrite IH; [do 3 f_equal; lia|done|lia| |lia].
    replace (Z.to_nat (cur + Z.of_nat (length (encode c0)))) with (Z.to_nat cur + length (encode c0))%nat by lia.
    rewrite <- drop_drop, Hd. apply drop_app_length.
Qed.

Lemma find_last_command_ok cs0 c q :
  queue_holds q (cs0 ++ [c]) -> Forall plain_cmd (cs0 ++ [c]) ->
  find_last_command q = Ok (Some (Z.of_nat (length (encode_all cs0))), q).
Proof.
  intros Hq Hpl. unfold find_last_command. pose proof (queue_holds_length _ _ Hq) as Hend.
  pose proof (queue_holds_buf _ _ Hq) as Hbuf. rewrite Hend.
  exact (find_last_from_ok cs0 c (q_buf q) _ 0 (S (length (encode_all (cs0 ++ [c])))) q Hpl ltac:(lia) Hbuf ltac:(lia)).
Qed.

Definition ends_with_spi (cs : list cmd) : bool :=
  match last cs with Some CSpiWrite => true | _ => false end.
Definition strip_spi (cs : list cmd) : list cmd := if ends_with_spi cs then removelast cs else cs.

Lemma is_spi_type c : bool_decide (Some (cmd_type c) = Some command_type_spi_write) = match c with CSpiWrite => true | _ => false end.
Proof. now destruct c. Qed.

(** The state in which the two new commands are appended. *)
Lemma strip_ok cs q :
  queue_holds q cs -> Forall plain_cmd cs ->
  exists q', queue_holds q' (strip_spi cs) /\ q_repeat q' = q_repeat q /\
    forall A (k : M queue A),
      (last ← find_last_command;
       t ← match last with
           | Some cur => gets (fun q => q_buf q !! Z.to_nat cur)
           | None => mret None
           end;
       when (bool_decide (t = Some command_type_spi_write))
         (modify (fun q => mkQueue (q_buf q) (q_end q - 1) (q_repeat q)));; k) q = k q'.
Proof.
  intros Hq Hpl. destruct cs as [|c cs0 _] using rev_ind.
  - exists q. split; [exact Hq|]. split; [done|]. intros A k.
    pose proof (queue_holds_length _ _ Hq) as He. destruct q as [buf e r]. cbn in He.
    subst e. reflexivity.
  - unfold strip_spi, ends_with_spi. rewrite last_snoc, removelast_last.
    pose proof (find_last_command_ok _ _ _ Hq Hpl) as Hfl.
    pose proof (queue_holds_buf _ _ Hq) as Hbuf. pose proof (queue_holds_length _ _ Hq) as Hend.
    assert (Ht : q_buf q !! Z.to_nat (Z.of_nat (length (encode_all cs0))) = Some (cmd_type c)).
    { rewrite Nat2Z.id, Hbuf, encode_all_app, <- app_assoc, lookup_app_r by lia.
      now rewrite Nat.sub_diag. }
    set (q1 := mkQueue (q_buf q) (q_end q - 1) (q_repeat q)).
    exists (match c with CSpiWrite => q1 | _ => q end).
    assert (Hrun : forall A (k : M queue A),
      (last ← find_last_command;
       t ← match last with
           | Some cur => gets (fun q => q_buf q !! Z.to_nat cur)
           | None => mret None
           end;
       when (bool_decide (t = Some command_type_spi_write))
         (modify (fun q => mkQueue (q_buf q) (q_end q - 1) (q_repeat q)));; k) q =
      k (match c with CSpiWrite => q1 | _ => q end)).
    { intros A k. rewrite (bind_ok _ _ _ _ _ Hfl). erewrite bind_ok by reflexivity.
      rewrite Ht, is_spi_type. now destruct c. }
    destruct Hq as (H1 & H2 & H3 & H4). apply Forall_app in H4 as H5. destruct H5 as [H5 _].
    destruct c; (split; [|split; [reflexivity|exact Hrun]]); try (split_and!; done).
    split_and!; cbn [q1 q_buf q_end]; [done|lia| |done].
    rewrite encode_all_app, length_app in Hend. change (length (encode_all [CSpiWrite])) with 1%nat in Hend.
    replace (q_end q - 1)%nat with (length (encode_all cs0)) by lia.
    rewrite Hbuf, encode_all_app, <- app_assoc. apply take_app_length.
Qed.

Lemma command_queue_register_ok cs f v q :
  queue_holds q cs -> Forall plain_cmd cs -> f ∈ all_fields -> 0 <= v < 2 ^ 32 ->
  (length (encode_all (strip_spi cs)) + 10 <= 1024)%nat ->
  exists q', command_queue_register (field_addr f) v q = Ok (0, q') /\
    queue_holds q' (strip_spi cs ++ [CRegister f v; CSpiWrite]) /\ q_repeat q' = q_repeat q.
Proof.
  intros Hq Hpl Hf Hv Hfit. destruct (strip_ok cs q Hq Hpl) as (q1 & Hq1 & Hr1 & Hrun).
  unfold command_queue_register. rewrite Hrun. clear Hrun.
  pose proof (command_queue_ok (CRegister f v) _ _ Hq1 (conj Hf Hv)) as H2.
  rewrite decide_True in H2.
  2:{ rewrite encode_all_app, length_app. cbn [encode_all map concat encode cmd_payload app length].
      rewrite app_nil_r. unfold command_register. rewrite length_app, !length_le_bytes. lia. }
  destruct H2 as (q2 & E2 & Hq2 & Hr2).
  pose proof (command_queue_ok CSpiWrite _ _ Hq2 I) as H3.
  rewrite decide_True in H3.
  2:{ rewrite !encode_all_app, !length_app. cbn [encode_all map concat encode cmd_payload app length].
      rewrite app_nil_r. unfold command_register. rewrite length_app, !length_le_bytes. lia. }
  destruct H3 as (q3 & E3 & Hq3 & Hr3).
  exists q3. cbn [cmd_type cmd_payload] in E2, E3. rewrite (bind_ok _ _ _ _ _ E2), (bind_ok _ _ _ _ _ E3).
  split; [reflexivity|]. rewrite <- app_assoc in Hq3. split; [exact Hq3|congruence].
Qed.

(** ** The walk ends *)

Definition returns {S A} (P : A -> Prop) (m : M S A) : Prop := forall s a s', m s = Ok (a, s') -> P a.

Lemma returns_bind {S A B} (P : B -> Prop) (m : M S A) (f : A -> M S B) :
  (forall a, returns P (f a)) -> returns P (m ≫= f).
Proof. intros Hf s b s' H. apply bind_inv in H as (a & s1 & _ & H). exact (Hf a s1 b s' H). Qed.

Lemma returns_ret {S A} (P : A -> Prop) (a : A) : P a -> returns (S := S) P (mret a).
Proof. intros Ha s b s' [= <- <-]. exact Ha. Qed.

Ltac returns_tac := repeat (apply returns_bind; intros ?); apply returns_ret.

Lemma execute_command_advances mem cur b n b' : execute_command mem cur b = Ok (n, b') -> 1 <= n.
Proof.
  revert b n b'. change (returns (fun n => 1 <= n) (execute_command mem cur)).
  unfold execute_command. apply returns_bind. intros t.
  assert (Hn : forall m : M board Z, returns (fun n => 0 <= n) m ->
    returns (fun n => 1 <= n) (n ← m; mret (sizeof_command + n))).
  { intros m Hm s a s' H. apply bind_inv in H as (n & s1 & H1 & [= <- <-]).
    apply Hm in H1. unfold sizeof_command. lia. }
  apply Hn.
  repeat match goal with |- returns _ (if ?c then _ else _) => destruct c end;
    unfold execute_command_register_only, execute_command_pin, execute_command_trigger, execute_command_wait,
      execute_command_update, execute_command_spi_write, execute_command_parallel,
      execute_command_parallel_frequency; returns_tac;
    unfold sizeof_command_register, sizeof_command_pin, sizeof_command_wait, sizeof_command_parallel,
      sizeof_command_parallel_frequency; lia.
Qed.

Lemma run_queue_enough mem end_ fuel cur b :
  (Z.to_nat (end_ - cur) < fuel)%nat ->
  run_queue fuel mem end_ cur b = run_queue (S (Z.to_nat (end_ - cur))) mem end_ cur b.
Proof.
  remember (Z.to_nat (end_ - cur)) as k eqn:Hk.
  revert fuel cur b Hk. induction (lt_wf k) as [k _ IH]. intros fuel cur b Hk Hf.
  destruct fuel as [|fuel]; [lia|]. cbn [run_queue]. destruct (Z.ltb_spec cur end_) as [Hlt|]; [|done].
  unfold mbind, M_bind. destruct (execute_command mem cur b) as [[n b1]| |] eqn:Ex; [|done|done].
  apply execute_command_advances in Ex.
  rewrite (IH (Z.to_nat (end_ - (cur + n))) ltac:(lia) fuel (cur + n) b1 eq_refl ltac:(lia)).
  now rewrite (IH (Z.to_nat (end_ - (cur + n))) ltac:(lia) k (cur + n) b1 eq_refl ltac:(lia)).
Qed.

(** ** The start-up block *)

Definition with_flash (f : flash) (b : board) : board :=
  mkBoard (b_hw b) (b_regs b) f (b_crc b) (b_queue b) (b_update b) (b_samples b).

Lemma zoom_flash {A} (m : M flash A) b a f :
  m (b_flash b) = Ok (a, f) -> zoom (zoom m : M store A) b = Ok (a, with_flash f b).
Proof. intros H. erewrite zoom_ok by (apply zoom_ok; exact H). now destruct b. Qed.

Definition block : Z := eeprom_get STARTUP_EEPROM 0.

Lemma crc_bytes_eq : crc_bytes = 16380.
Proof. reflexivity. Qed.
Lemma crc_words_eq : crc_words = 4095.
Proof. reflexivity. Qed.
#[local] Opaque crc_bytes crc_words.

Definition block_sum (f : flash) : Z :=
  crc_from 0xFFFFFFFF (words (Z.to_nat crc_words) (flash_bytes f (block + 4) (Z.to_nat crc_bytes))).

(** The CRC unit has been used. *)
Definition after_crc (x : Z) (b : board) : board :=
  mkBoard (with_rcc (fun r => mkRcc (Z.lor (AHB1ENR r) RCC_AHB1ENR_CRCEN) (APB1ENR r) (APB2ENR r)) (b_hw b))
    (b_regs b) (b_flash b) x (b_queue b) (b_update b) (b_samples b).

Lemma after_crc_flash x f f' b : with_flash f' (after_crc x (with_flash f b)) = after_crc x (with_flash f' b).
Proof. reflexivity. Qed.

Lemma length_words n bs : length (words n bs) = n.
Proof. revert bs. induction n as [|n IH]; intros bs; [done|]. cbn [words length]. now rewrite IH. Qed.

Lemma startup_crc_ok b : startup_crc b = Ok (block_sum (b_flash b), after_crc (block_sum (b_flash b)) b).
Proof.
  unfold startup_crc. set (b1 := after_crc (b_crc b) b).
  rewrite (bind_ok _ _ b tt b1) by reflexivity.
  unfold startup_bytes. erewrite bind_ok by reflexivity.
  change (eeprom_get STARTUP_EEPROM 4) with (block + 4).
  erewrite zoom_ok.
  2:{ apply crc_ok.
      - unfold crc_clocked. cbn [view board_store st_hw b1 after_crc b_hw rcc with_rcc AHB1ENR].
        change RCC_AHB1ENR_CRCEN with (1 <<< 12). rewrite truthy_land_bit, Z.lor_spec, testbit_pow by lia.
        apply orb_true_r.
      - rewrite length_words, crc_words_eq. lia. }
  rewrite take_ge by (rewrite length_words; lia).
  reflexivity.
Qed.

Lemma block_sum_word f : is_word (block_sum f).
Proof. unfold block_sum. apply crc_from_word. unfold is_word. lia. Qed.

Lemma block_sum_ext f f' :
  flash_bytes f' (block + 4) (Z.to_nat crc_bytes) = flash_bytes f (block + 4) (Z.to_nat crc_bytes) ->
  block_sum f' = block_sum f.
Proof. exact (f_equal (fun l => crc_from 0xFFFFFFFF (words (Z.to_nat crc_words) l)) (x := _) (y := _)). Qed.

Lemma block_sum_eq f :
  block_sum f = crc_from 0xFFFFFFFF (words (Z.to_nat crc_words) (flash_bytes f (block + 4) (Z.to_nat crc_bytes))).
Proof. exact eq_refl. Qed.

#[local] Opaque block_sum.

Lemma flash_bytes_app f a n m :
  flash_bytes f a (n + m) = flash_bytes f a n ++ flash_bytes f (a + Z.of_nat n) m.
Proof.
  unfold flash_bytes. rewrite Nat2Z.inj_add, seqZ_app, map_app by lia. f_equal.
  apply list_eq_same_length with m; [now rewrite length_map, length_seqZ, Nat2Z.id..|].
  intros k x y Hk Hx Hy. rewrite list_lookup_fmap, lookup_seqZ_lt in Hx, Hy by lia.
  cbn in Hx, Hy. injection Hx as <-. injection Hy as <-. f_equal. lia.
Qed.

Lemma flash_bytes_same f f' a n :
  (forall x, a <= x < a + Z.of_nat n -> flash_byte f' x = flash_byte f x) -> flash_bytes f' a n = flash_bytes f a n.
Proof.
  intros Hx. unfold flash_bytes. apply map_ext_in. intros i Hi.
  apply list_elem_of_In, elem_of_seqZ in Hi. apply Hx. lia.
Qed.

Lemma flash_bytes_erased f f' s a n :
  f_mem f' = erase_mem s (f_mem f) -> (forall x, a <= x < a + Z.of_nat n -> in_sector s x) ->
  flash_bytes f' a n = replicate n 0xFF.
Proof.
  intros Hm Hs. unfold flash_bytes, flash_byte. rewrite Hm.
  apply list_eq_same_length with n; [now rewrite length_replicate|now rewrite length_map, length_seqZ, Nat2Z.id|].
  intros k x y Hk Hx Hy. rewrite list_lookup_fmap, lookup_seqZ_lt in Hx by lia. cbn in Hx.
  rewrite lookup_replicate_2 in Hy by lia. injection Hx as <-. injection Hy as <-.
  rewrite mem_byte_erase, decide_True; [done|]. apply Hs. lia.
Qed.

Lemma flash_bytes_prefix f a n N l :
  (n <= N)%nat -> flash_bytes f a n = l -> exists junk, flash_bytes f a N = l ++ junk.
Proof.
  intros Hn <-. exists (flash_bytes f (a + Z.of_nat n) (N - n)). rewrite <- flash_bytes_app.
  f_equal. lia.
Qed.

Lemma crc_bytes_room n : (n <= 1024)%nat -> (n <= Z.to_nat (crc_bytes - 4))%nat.
Proof. rewrite crc_bytes_eq. lia. Qed.

Lemma startup_clear_ok b :
  rest (b_flash b) -> f_err (b_flash b) = 0 -> (forall k, flash_fault k = 0) ->
  exists f, startup_command_clear b = Ok (tt, with_flash f b) /\ rest f /\ f_err f = 0 /\
    f_mem f = erase_mem 1 (f_mem (b_flash b)).
Proof.
  intros Hr H0 Hf. unfold startup_command_clear.
  destruct (eeprom_erase_ok STARTUP_EEPROM (b_flash b) Hr H0) as (f & E1 & Hr1 & _ & He1 & Hm1).
  assert (Hz : op_errors (b_flash b) = 0) by (unfold op_errors; now rewrite Hf).
  rewrite Hz in E1, He1, Hm1. cbn [Z.eqb] in E1, Hm1.
  exists f. rewrite (bind_ok _ _ _ _ _ (zoom_flash _ b _ _ E1)). done.
Qed.

Lemma in_block x : block <= x < block + 0x4000 -> in_sector 1 x.
Proof. unfold in_sector. change block with 0x08004000. lia. Qed.

Lemma encode_all_bytes cs : Forall is_byte (encode_all cs).
Proof.
  induction cs as [|c cs IH]; [constructor|]. change (encode_all (c :: cs)) with (encode c ++ encode_all cs).
  apply Forall_app. split; [|exact IH]. unfold encode. constructor; [rewrite <- cmd_type_byte; apply (wrap_range 8); lia|].
  destruct c; cbn [cmd_payload];
    unfold command_register, command_pin, command_wait, command_parallel, command_parallel_frequency;
    repeat (apply Forall_app; split); try apply le_bytes_is_byte; repeat constructor; unfold is_byte; lia.
Qed.

(** What the flash holds after the sequence has been saved. *)
Lemma startup_save_ok b cs :
  rest (b_flash b) -> f_err (b_flash b) = 0 -> (forall k, flash_fault k = 0) -> queue_holds (b_queue b) cs ->
  exists f x, startup_command_save b = Ok (tt, after_crc x (with_flash f b)) /\ rest f /\ f_err f = 0 /\
    of_le (flash_bytes f block 4) = block_sum f /\
    flash_bytes f (block + 4) 4 = le_bytes 4 (Z.of_nat (length (encode_all cs))) /\
    (exists junk, flash_bytes f (block + 8) (Z.to_nat (crc_bytes - 4)) = encode_all cs ++ junk).
Proof.
  intros Hr H0 Hf Hq. pose proof (encode_all_bytes cs) as Hb. unfold startup_command_save.
  destruct (startup_clear_ok b Hr H0 Hf) as (f1 & E1 & Hr1 & He1 & Hm1).
  rewrite (bind_ok _ _ _ _ _ E1). erewrite bind_ok by reflexivity. cbn [b_queue with_flash].
  pose proof Hq as (_ & Hend & Htake & _). rewrite Htake. rewrite (queue_holds_length _ _ Hq) in *.
  set (n := length (encode_all cs)) in *. cbv zeta.
  assert (Hblk : block = 0x08004000) by reflexivity.
  assert (Ha : forall k, 0 <= k < 0x4000 -> eeprom_get STARTUP_EEPROM k = block + k).
  { intros k Hk. change block with (eeprom_get STARTUP_EEPROM 0). unfold eeprom_get.
    rewrite !wrap_small by lia. lia. }
  assert (Her : forall a m, block <= a -> a + Z.of_nat m <= block + 0x4000 -> flash_bytes f1 a m = replicate m 0xFF).
  { intros a m Ha1 Ha2. apply (flash_bytes_erased (b_flash b) f1 1); [exact Hm1|].
    intros x Hx. apply in_block. lia. }
  destruct (eeprom_write_erased STARTUP_EEPROM 4 (le_bytes 4 (Z.of_nat n)) f1 Hr1 He1 Hf
    (le_bytes_is_byte _ _) ltac:(lia)) as (f2 & E2 & Hr2 & He2 & _ & Hs2 & Hx2);
    [rewrite length_le_bytes; unfold eeprom_get_size; lia
    |rewrite length_le_bytes, Ha by lia; apply Her; lia|].
  rewrite length_le_bytes, Ha in Hs2, Hx2 by lia.
  rewrite (bind_ok _ _ _ _ _ (zoom_flash _ (with_flash f1 b) _ _ E2)).
  destruct (eeprom_write_erased STARTUP_EEPROM 8 (encode_all cs) f2 Hr2 He2 Hf Hb ltac:(lia))
    as (f3 & E3 & Hr3 & He3 & _ & Hs3 & Hx3);
    [fold n; unfold eeprom_get_size; lia
    |fold n; rewrite Ha by lia; rewrite (flash_bytes_same f1 f2) by (intros x Hx; apply Hx2; lia); apply Her; lia|].
  fold n in Hs3, Hx3. rewrite Ha in Hs3, Hx3 by lia.
  rewrite (bind_ok _ _ _ _ _ (zoom_flash _ (with_flash f2 (with_flash f1 b)) _ _ E3)).
  change (with_flash f3 (with_flash f2 (with_flash f1 b))) with (with_flash f3 b).
  rewrite (bind_ok _ _ _ _ _ (startup_crc_ok (with_flash f3 b))). cbn [b_flash with_flash].
  pose proof (block_sum_word f3) as Hsum.
  remember (block_sum f3) as sum eqn:Hsumeq.
  destruct (eeprom_write_erased STARTUP_EEPROM 0 (le_bytes 4 sum) f3 Hr3 He3 Hf (le_bytes_is_byte _ _) ltac:(lia))
    as (f4 & E4 & Hr4 & He4 & _ & Hs4 & Hx4);
    [rewrite length_le_bytes; unfold eeprom_get_size; lia
    |rewrite length_le_bytes, Ha by lia;
     rewrite (flash_bytes_same f2 f3) by (intros x Hx; apply Hx3; lia);
     rewrite (flash_bytes_same f1 f2) by (intros x Hx; apply Hx2; lia); apply Her; lia|].
  rewrite length_le_bytes, Ha, Z.add_0_r in Hs4, Hx4 by lia.
  rewrite (bind_ok _ _ _ _ _ (zoom_flash _ (after_crc sum (with_flash f3 b)) _ _ E4)), after_crc_flash.
  exists f4, sum. split; [reflexivity|]. split; [exact Hr4|]. split; [exact He4|].
  assert (Hsame : forall a m, block + 4 <= a -> flash_bytes f4 a m = flash_bytes f3 a m).
  { intros a m Ha1. apply flash_bytes_same. intros x Hx. apply Hx4. lia. }
  split_and!.
  - change (Z.of_nat 4) with 4 in Hs4. rewrite Hs4.
    assert (Hb4 : block_sum f4 = sum) by (rewrite Hsumeq; apply block_sum_ext, Hsame; lia).
    rewrite Hb4. apply of_le_small. exact Hsum.
  - rewrite Hsame by lia. rewrite (flash_bytes_same f2 f3) by (intros x Hx; apply Hx3; lia). exact Hs2.
  - rewrite Hsame by lia. apply (flash_bytes_prefix f3 (block + 8) n); [|exact Hs3].
    apply crc_bytes_room. exact Hend.
Qed.

Lemma words_erased n : words n (replicate (4 * n) 0xFF) = replicate n 0xFFFFFFFF.
Proof.
  induction n as [|n IH]; [done|]. replace (4 * S n)%nat with (S (S (S (S (4 * n))))) by lia.
  change (of_le [0xFF; 0xFF; 0xFF; 0xFF] :: words n (replicate (4 * n) 0xFF) = replicate (S n) 0xFFFFFFFF).
  rewrite IH. reflexivity.
Qed.

Lemma erased_sum : crc_from 0xFFFFFFFF (replicate (Z.to_nat 4095) 0xFFFFFFFF) = 2857608698.
Proof. vm_compute. reflexivity. Qed.

Lemma block_sum_erased f f' : f_mem f' = erase_mem 1 (f_mem f) -> block_sum f' = 2857608698.
Proof.
  intros Hm. rewrite <- erased_sum, block_sum_eq.
  rewrite (flash_bytes_erased f f' 1) by (exact Hm || (intros x Hx; apply in_block; rewrite crc_bytes_eq in Hx; lia)).
  rewrite crc_words_eq, crc_bytes_eq. replace (Z.to_nat 16380) with (4 * Z.to_nat 4095)%nat by lia.
  rewrite words_erased. exact eq_refl.
Qed.

Lemma perform_all_once cs b :
  perform_all cs 0 b =
  (zoom (gpio_set_high LED_FRONT);; for_each cs perform;; zoom (gpio_set_low LED_FRONT)) b.
Proof.
  unfold perform_all. change (seqZ 0 (0 + 1)) with [0]. cbn [for_each].
  unfold mbind, M_bind. destruct (zoom (gpio_set_high LED_FRONT) b) as [[[] b1]| |]; [|done|done].
  now destruct (for_each cs perform b1) as [[[] b2]| |].
Qed.

(** ** Properties *)

(** The queueing function of a command. *)
Definition enqueue (c : cmd) : M queue Z :=
  match c with
  | CRegister f v => command_queue_register (field_addr f) v
  | CPin p v => command_queue_pin p v
  | CTrigger => command_queue_trigger
  | CWait d => command_queue_wait d
  | CUpdate => command_queue_update
  | CSpiWrite => command_queue command_type_spi_write []
  | CParallel len rep => command_queue_parallel samples_addr len rep
  | CParallelFrequency f => command_queue_parallel_frequency f
  end.

(** Queueing a command other than a register change appends its bytes and
  returns 0 when they fit in the 1024 bytes of the buffer, and otherwise
  returns 1 and leaves the queue as it is; so a queue that is a sequence of
  commands stays one. *)
Theorem enqueue_appends c cs q :
  queue_holds q cs -> wf_cmd c -> (forall f v, c <> CRegister f v) ->
  ((length (encode_all cs) + length (encode c) <= 1024)%nat ->
     exists q', enqueue c q = Ok (0, q') /\ queue_holds q' (cs ++ [c]) /\ q_repeat q' = q_repeat q) /\
  ((1024 < length (encode_all cs) + length (encode c))%nat -> enqueue c q = Ok (1, q)).
Proof.
  intros Hq Hc Hne. pose proof (command_queue_ok c cs q Hq Hc) as H.
  assert (He : enqueue c = command_queue (cmd_type c) (cmd_payload c))
    by (destruct c; try reflexivity; now destruct (Hne f value)).
  rewrite He. rewrite encode_all_app, length_app in H.
  change (encode_all [c]) with (encode c ++ []) in H. rewrite app_nil_r in H.
  destruct (decide _); split; intros; (exact H || lia).
Qed.

(** Queueing a register change on a queue without parallel-port commands
  removes the SPI write that ended the queue, if there was one, and appends
  the change and one SPI write, so that consecutive changes share a write. *)
Theorem enqueue_register_batches cs f v q :
  queue_holds q cs -> Forall plain_cmd cs -> f ∈ all_fields -> 0 <= v < 2 ^ 32 ->
  (length (encode_all (strip_spi cs)) + 10 <= 1024)%nat ->
  exists q', enqueue (CRegister f v) q = Ok (0, q') /\
    queue_holds q' (strip_spi cs ++ [CRegister f v; CSpiWrite]) /\ q_repeat q' = q_repeat q.
Proof. intros. now apply command_queue_register_ok. Qed.

(** C1: Executing the queue performs the commands it holds, in order, [repeat]
  + 1 times, with the front LED on meanwhile: the walk over the bytes
  decodes every header and every structure as it was queued, and ends
  exactly at the end of the queue. *)
Theorem commands_execute_performs cs b :
  queue_holds (b_queue b) cs ->
  commands_execute b = perform_all cs (q_repeat (b_queue b)) b.
Proof.
  intros Hq. unfold commands_execute. erewrite bind_ok by reflexivity.
  rewrite (queue_holds_length _ _ Hq).
  apply execute_commands_encode with (rest := drop (q_end (b_queue b)) (q_buf (b_queue b)));
    [apply Hq|now apply queue_holds_buf].
Qed.

(** Whatever bytes are executed, each command advances by at least one
  byte, and the walk never stops for lack of rounds: from any fuel beyond
  the number of bytes left the result is the same. *)
Theorem run_queue_ends mem end_ fuel cur b :
  (Z.to_nat (end_ - cur) < fuel)%nat ->
  run_queue fuel mem end_ cur b = run_queue (S (Z.to_nat (end_ - cur))) mem end_ cur b /\
  forall n b', execute_command mem cur b = Ok (n, b') -> 1 <= n.
Proof.
  intros Hf. split; [now apply run_queue_enough|]. intros n b'. apply execute_command_advances.
Qed.

(** On a flash without faults, after the queue has been saved as start-up
  sequence a board that finds the flash so performs exactly its commands,
  once. *)
Theorem startup_saved_runs b cs :
  rest (b_flash b) -> f_err (b_flash b) = 0 -> (forall k, flash_fault k = 0) -> queue_holds (b_queue b) cs ->
  exists b', startup_command_save b = Ok (tt, b') /\
    forall b1, b_flash b1 = b_flash b' -> exists x, startup_command_execute b1 =
      (zoom (gpio_set_high LED_FRONT);; for_each cs perform;; zoom (gpio_set_low LED_FRONT)) (after_crc x b1).
Proof.
  intros Hr H0 Hf Hq. destruct (startup_save_ok b cs Hr H0 Hf Hq) as (f & x & E1 & _ & _ & Hsum & Hlen & junk & Hmem).
  exists (after_crc x (with_flash f b)). split; [exact E1|]. intros b1 Hfl. change (b_flash b1 = f) in Hfl.
  exists (block_sum f). unfold startup_command_execute.
  rewrite (bind_ok _ _ _ _ _ (startup_crc_ok b1)). rewrite Hfl.
  set (b2 := after_crc (block_sum f) b1). assert (b_flash b2 = f) as Hfl2 by exact Hfl. unfold startup_bytes.
  rewrite (bind_ok _ _ b2 (flash_bytes f block 4) b2) by (now rewrite <- Hfl2).
  rewrite Hsum, Z.eqb_refl. cbn [negb].
  rewrite (bind_ok _ _ b2 (flash_bytes f (block + 4) 4) b2) by (now rewrite <- Hfl2).
  rewrite (bind_ok _ _ b2 (flash_bytes f (block + 8) (Z.to_nat (crc_bytes - 4))) b2) by (now rewrite <- Hfl2).
  rewrite Hlen, Hmem, of_le_small.
  2:{ pose proof (queue_holds_length _ _ Hq) as <-. destruct Hq as (_ & Hend & _).
      change (2 ^ (8 * Z.of_nat 4)) with (2 ^ 32). lia. }
  rewrite (execute_commands_encode cs _ junk 0 b2) by (apply Hq || reflexivity).
  apply perform_all_once.
Qed.

(** After the start-up sequence has been cleared the next boot performs
  nothing: the CRC of an erased block is not the erased CRC word. *)
Theorem startup_cleared_idle b :
  rest (b_flash b) -> f_err (b_flash b) = 0 -> (forall k, flash_fault k = 0) ->
  exists b', startup_command_clear b = Ok (tt, b') /\
    exists x, startup_command_execute b' = Ok (tt, after_crc x b').
Proof.
  intros Hr H0 Hf. destruct (startup_clear_ok b Hr H0 Hf) as (f & E1 & _ & _ & Hm).
  exists (with_flash f b). split; [exact E1|]. exists (block_sum f).
  unfold startup_command_execute. rewrite (bind_ok _ _ _ _ _ (startup_crc_ok (with_flash f b))).
  cbn [b_flash with_flash]. set (b2 := after_crc (block_sum f) (with_flash f b)). unfold startup_bytes.
  rewrite (bind_ok _ _ b2 (flash_bytes f block 4) b2) by reflexivity.
  rewrite (block_sum_erased _ _ Hm).
  rewrite (flash_bytes_erased (b_flash b) f 1) by (exact Hm || (intros x Hx; apply in_block; lia)).
  reflexivity.
Qed.
End Commands.

(** ** Witnesses *)

Definition demo_cmds : list cmd := [CRegister ad9910_pll_divide 50; CSpiWrite].

Definition demo_queue (L : Link) (cs : list cmd) : queue :=
  let bs := @encode_all L cs in mkQueue (bs ++ replicate (1024 - length bs) 0) (length bs) 0.

Definition demo_board (cs : list cmd) : board :=
  mkBoard hw_reset ad9910_regs flash_reset 0 (demo_queue plain_link cs) 0 (replicate 16 0).

Lemma demo_queue_holds : @queue_holds plain_link (demo_queue plain_link demo_cmds) demo_cmds.
Proof.
  split_and!; [reflexivity|cbn; lia|reflexivity|].
  apply Forall_cons. split; [split; [decided|lia]|]. apply Forall_cons. split; [exact I|constructor].
Qed.

Lemma enqueue_appends_witness :
  exists q', @enqueue plain_link (CWait 10) (demo_queue plain_link demo_cmds) = Ok (0, q') /\
    @queue_holds plain_link q' (demo_cmds ++ [CWait 10]).
Proof.
  destruct (@enqueue_appends plain_link (CWait 10) demo_cmds _ demo_queue_holds) as [H _];
    [cbn; lia|done|].
  destruct (H ltac:(cbn; lia)) as (q' & H1 & H2 & _). exists q'. split; [exact H1|exact H2].
Defined.

Lemma enqueue_register_batches_witness :
  exists q', @enqueue plain_link (CRegister ad9910_pll_enable 1) (demo_queue plain_link demo_cmds) = Ok (0, q') /\
    @queue_holds plain_link q' [CRegister ad9910_pll_divide 50; CRegister ad9910_pll_enable 1; CSpiWrite].
Proof.
  destruct (@enqueue_register_batches plain_link demo_cmds ad9910_pll_enable 1 _ demo_queue_holds)
    as (q' & H1 & H2 & _); [repeat constructor|decided|lia|cbn; lia|].
  exists q'. split; [exact H1|exact H2].
Defined.

Lemma commands_execute_performs_witness :
  @commands_execute plain_env plain_link (demo_board demo_cmds) =
  @perform_all plain_env demo_cmds 0 (demo_board demo_cmds).
Proof. apply (@commands_execute_performs plain_env plain_link demo_cmds). apply demo_queue_holds. Defined.

Lemma run_queue_ends_witness :
  @run_queue plain_env plain_link 100 [5; 5; 9] 3 0 board_reset =
  @run_queue plain_env plain_link 4 [5; 5; 9] 3 0 board_reset.
Proof. apply (@run_queue_ends plain_env plain_link [5; 5; 9] 3 100 0 board_reset). cbn. lia. Defined.

Lemma startup_saved_runs_witness :
  exists b', @startup_command_save good_flash (demo_board demo_cmds) = Ok (tt, b').
Proof.
  destruct (@startup_saved_runs plain_env good_flash plain_link (demo_board demo_cmds) demo_cmds
    flash_reset_rest eq_refl (fun _ => eq_refl) demo_queue_holds) as (b' & H1 & _).
  exists b'. exact H1.
Defined.

Lemma startup_cleared_idle_witness :
  exists b', @startup_command_clear good_flash board_reset = Ok (tt, b').
Proof.
  destruct (@startup_cleared_idle plain_env good_flash plain_link board_reset
    flash_reset_rest eq_refl (fun _ => eq_refl)) as (b' & H1 & _).
  exists b'. exact H1.
Defined.

(** The walk that looks for the last command does not know the length of
    a parallel-port command and reads its payload as commands: with 16 samples
    and a repeat count of 0x06000000 it takes the last byte of the count for
    an SPI write and drops it, so that after the next register change the
    queue is no longer the sequence of commands that was queued. *)
Theorem parallel_payload_misread :
  let q := demo_queue plain_link [CParallel 16 0x06000000] in
  exists q', @enqueue plain_link (CRegister ad9910_pll_enable 1) q = Ok (0, q') /\
    q_end q' = 22%nat /\
    length (@encode_all plain_link [CParallel 16 0x06000000; CRegister ad9910_pll_enable 1; CSpiWrite]) = 23%nat /\
    take 13 (q_buf q') = take 12 (@encode plain_link (CParallel 16 0x06000000)) ++ [command_type_register].
Proof. eexists. split; [vm_compute; reflexivity|]. split_and!; vm_compute; reflexivity. Qed.
