(* ===== verification/Boot.v ===== *)
(** * Boot: bringing up the DDS

    Models [ad9910_init] of src/ad9910.c, which resets the chip, programs the
    PLL over a slow link, waits for it to lock, sends every register over a
    fast link, and runs the saved start-up sequence unless the red button is
    held, in which case that sequence is cleared.  Shows that the wait for the
    PLL always ends, and that after the start-up the chip holds the shadow
    registers with the PLL and the output path set up. *)

From Stdlib Require Import ZArith Lia.
From stdpp Require Import base numbers list gmap.
From S2P Require Import Prelude Hw Gpio Spi Timing Registers Ad9910 Chip Flash Crc Board Commands.
#[local] Open Scope c_scope.

Section Boot.
Context `{E : Env} `{FE : FlashEnv} `{L : Link}.

Definition ad9910_pll_lock_timeout := 10000000.
Definition RCC_APB1Periph_TIM2 := 0x00000001.

(** [while (gpio_get(PLL_LOCK) == 0 && i < timeout) ++i;] *)
Fixpoint pll_wait (fuel : nat) (timeout i : Z) : M hw unit :=
  match fuel with
  | O => hang
  | S fuel =>
      v ← gpio_get PLL_LOCK;
      if (v =? 0) && (i <? timeout) then pll_wait fuel timeout (i + 1) else mret tt
  end.

Definition set_field (f : ad9910_register_bit) (v : Z) : M board unit :=
  zoom (zoom (ad9910_set_value f v) : M dds unit).

(** The registers in the order in which they are sent. *)
Definition init_registers : list reg_name :=
  [cfr1; cfr2; cfr3; aux_dac_ctl; io_update_rate; ftw; pow; asf; multichip_sync; ramp_limit;
   ramp_step; ramp_rate; prof0; prof1; prof2; prof3; prof4; prof5; prof6; prof7].

(** Everything before the start-up sequence. *)
Definition ad9910_bring_up : M board unit :=
  zoom (set_APB1ENR RCC_APB1Periph_TIM2);;
  zoom gpio_init;;
  zoom (gpio_set_high LED_ORANGE);;
  zoom (gpio_set_high DDS_RESET);;
  zoom (delay 1);;
  zoom (gpio_set_low DDS_RESET);;
  zoom spi_init_slow;;
  zoom (gpio_set_high IO_RESET);;
  zoom (delay 1);;
  zoom (gpio_set_low IO_RESET);;
  set_field ad9910_pll_enable 1;;
  set_field ad9910_pll_divide 100;;
  set_field ad9910_vco_range ad9910_vco_range_setting_vco5;;
  set_field ad9910_pll_pump_current ad9910_pump_current_237;;
  zoom (ad9910_update_reg (reg_index cfr3));;
  zoom spi_wait;;
  zoom (gpio_set_high IO_UPDATE);;
  zoom (delay 1);;
  zoom (gpio_set_low IO_UPDATE);;
  zoom spi_deinit;;
  zoom spi_init_fast;;
  zoom (gpio_set_high LED_RED);;
  zoom (pll_wait (S (Z.to_nat ad9910_pll_lock_timeout)) ad9910_pll_lock_timeout 0);;
  zoom (gpio_set_low LED_RED);;
  set_field ad9910_sdio_input_only 1;;
  set_field ad9910_pdclk_enable 1;;
  set_field ad9910_inverse_sinc_filter_enable 1;;
  set_field ad9910_enable_amplitude_scale 1;;
  set_field ad9910_matched_latency_enable 1;;
  for_each init_registers (fun r => zoom (ad9910_update_reg (reg_index r)));;
  zoom (ad9910_select_profile 0);;
  zoom (ad9910_select_parallel_target 0);;
  zoom (ad9910_enable_parallel 0);;
  zoom (gpio_set_high TX_ENABLE);;
  zoom (ad9910_enable_output 1).

Definition ad9910_init : M board unit :=
  ad9910_bring_up;;
  v ← zoom (gpio_get RED_BUTTON);
  if v =? 0 then startup_command_execute else startup_command_clear.

(** [main] up to its loop, after [sysclock_init], which sets up the clock that
    is already running here; of [ethernet_init] what it does to the board's
    own pins: the transceiver's reset, and the light when the server listens. *)
Definition start_up : M board unit :=
  ad9910_init;;
  zoom (gpio_set_high LED_ORANGE);;
  zoom (gpio_set_low ETHERNET_RESET);;
  zoom (gpio_set_high ETHERNET_RESET);;
  zoom (gpio_set_high LED_ORANGE).

(** ** Waiting for the PLL *)

Lemma pll_wait_ends fuel timeout i h :
  (Z.to_nat (timeout - i) < fuel)%nat ->
  exists n, pll_wait fuel timeout i h = Ok (tt, Nat.iter n after_idr_read h) /\
    (1 <= n <= S (Z.to_nat (timeout - i)))%nat /\
    (Z.of_nat n <= timeout - i -> pin_read PLL_LOCK (Nat.iter (n - 1) after_idr_read h) = true).
Proof.
  revert i h. induction fuel as [|fuel IH]; intros i h Hf; [lia|]. cbn [pll_wait].
  rewrite (bind_ok _ _ _ _ _ (gpio_get_ok PLL_LOCK h ltac:(unfold wf_pin; cbn; lia))).
  destruct (pin_read PLL_LOCK h) eqn:Ep; cbn [b2z Z.eqb andb].
  - exists 1%nat. split; [done|]. split; [lia|]. intros _. exact Ep.
  - destruct (Z.ltb_spec i timeout).
    + destruct (IH (i + 1) (after_idr_read h) ltac:(lia)) as (n & E1 & Hn & Hl).
      exists (S n). rewrite Nat.iter_succ_r. split; [exact E1|]. split; [lia|].
      intros Hle. specialize (Hl ltac:(lia)). replace (S n - 1)%nat with (S (n - 1)) by lia.
      now rewrite Nat.iter_succ_r.
    + exists 1%nat. split; [done|]. split; [lia|]. lia.
Qed.

(** ** What leaves the chip and the clock alone *)

Definition quiet {A} (m : M hw A) : Prop :=
  forall h, exists a h', m h = Ok (a, h') /\ clock h' = clock h /\ primask h' = primask h /\
    forall c, chip_run (trace h') c = chip_run (trace h) c.

Lemma quiet_ret {A} (a : A) : quiet (mret a).
Proof. intros h. now exists a, h. Qed.

Lemma quiet_bind {A B} (m : M hw A) (f : A -> M hw B) : quiet m -> (forall a, quiet (f a)) -> quiet (m ≫= f).
Proof.
  intros Hm Hf h. destruct (Hm h) as (a & h1 & E1 & C1 & P1 & T1). destruct (Hf a h1) as (b & h2 & E2 & C2 & P2 & T2).
  exists b, h2. rewrite (bind_ok _ _ _ _ _ E1). split; [exact E2|]. split; [congruence|]. split; [congruence|].
  intros c. now rewrite T2.
Qed.

Lemma quiet_modify f :
  (forall h, clock (f h) = clock h /\ primask (f h) = primask h /\ trace (f h) = trace h) -> quiet (modify f).
Proof.
  intros Hf h. destruct (Hf h) as (C & P & T). exists tt, (f h). split; [done|]. split; [done|]. split; [done|].
  intros c. now rewrite T.
Qed.

Lemma quiet_gets {A} (f : hw -> A) : quiet (gets f).
Proof. intros h. now exists (f h), h. Qed.

Lemma quiet_emit e : (forall c, chip_event c e = c) -> quiet (emit e).
Proof. intros He h. exists tt, (emit_event e h). repeat (split; [done|]). intros c.
  change (trace (emit_event e h)) with (trace h ++ [e]). rewrite chip_run_app. apply He.
Qed.

Lemma quiet_for_each {A} (l : list A) f : (forall a, quiet (f a)) -> quiet (for_each l f).
Proof.
  intros Hf. induction l as [|a l IH]; cbn [for_each]; [apply quiet_ret|]. apply quiet_bind; [apply Hf|]. now intros _.
Qed.

Lemma quiet_modify_port p f : quiet (modify_port p f).
Proof. now apply quiet_modify. Qed.

Lemma quiet_run {A} (m : M hw A) (g : hw -> hw) :
  (forall h, exists a, m h = Ok (a, g h)) -> (forall h, clock (g h) = clock h /\ primask (g h) = primask h /\ trace (g h) = trace h) ->
  quiet m.
Proof.
  intros Hm Hg h. destruct (Hm h) as [a Ea], (Hg h) as (C & P & T). exists a, (g h). split; [exact Ea|]. split; [done|]. split; [done|].
  intros c. now rewrite T.
Qed.

Ltac quieten :=
  repeat match goal with
  | |- quiet (_ ≫= _) => apply quiet_bind; [|intros ?]
  | |- quiet (mret _) => apply quiet_ret
  | |- quiet (gets _) => apply quiet_gets
  | |- quiet (for_each _ _) => apply quiet_for_each; intros ?
  | |- quiet (modify_port _ _) => apply quiet_modify_port
  | |- quiet (emit _) => apply quiet_emit; reflexivity
  | |- quiet (modify _) => apply quiet_modify; now intros
  | |- quiet (if ?b then _ else _) => destruct b
  end.

Lemma quiet_gpio_init : quiet gpio_init.
Proof.
  unfold gpio_init. rewrite gpio_init_calls_table. intros h.
  enough (quiet (for_each (map init_pin pin_table) (fun call => call))) as H by exact (H h).
  generalize pin_table. intros l. induction l as [|e l IH]; cbn [map for_each]; [apply quiet_ret|].
  apply quiet_bind; [|now intros _]. destruct e as [p []];
    unfold init_pin, gpio_init_output, gpio_init_output_pulldown, gpio_init_output_pullup, gpio_init_input, TM_GPIO_Init, TM_GPIO_INT_EnableClock, set_AHB1ENR, TM_GPIO_INT_Init,
    TM_GPIO_INT_Init_pin, read_MODER, write_MODER; cbn [fst snd]; quieten.
Qed.

Lemma quiet_spi_init prescaler : quiet (spi_init prescaler).
Proof.
  unfold spi_init, set_APB2ENR, TM_GPIO_InitAlternate, TM_GPIO_INT_EnableClock, set_AHB1ENR, TM_GPIO_INT_Init,
    TM_GPIO_INT_Init_pin, read_MODER, write_MODER, SPI_Init, modify_CR1. cbv zeta. quieten.
Qed.

Lemma quiet_gpio_set p v : wf_pin p -> chip_line p = false -> quiet (gpio_set p v).
Proof.
  intros Hp Hne h. exists tt, (after_set p (truthy v) h). split; [apply gpio_set_ok|]. split; [now destruct (truthy v)|].
  split; [now destruct (truthy v)|]. intros c. rewrite trace_after_set, chip_run_app. set (c1 := chip_run (trace h) c).
  transitivity (chip_pin p (truthy v) c1); [now destruct (truthy v)|now apply chip_pin_other].
Qed.

Lemma quiet_spi_wait : quiet spi_wait.
Proof. apply (quiet_run _ spi_idle); [intros h; exists tt; apply spi_wait_ok|done]. Qed.

Lemma quiet_pll_wait : quiet (pll_wait (S (Z.to_nat ad9910_pll_lock_timeout)) ad9910_pll_lock_timeout 0).
Proof.
  intros h. destruct (pll_wait_ends (S (Z.to_nat ad9910_pll_lock_timeout)) ad9910_pll_lock_timeout 0 h) as (n & E1 & _);
    [unfold ad9910_pll_lock_timeout; lia|].
  exists tt, (Nat.iter n after_idr_read h). split; [exact E1|]. clear E1. generalize n. intros k.
  induction k as [|k (C & P & T)]; [done|]. rewrite Nat.iter_succ. split; [exact C|]. split; [exact P|exact T].
Qed.

(** *** The clock under the driver's functions *)

Section Timeless.
Variable k : clock_state * bool.
Let P (h : hw) : Prop := (clock h, primask h) = k.
Let Q (d : dds) : Prop := P (dev d).

#[local] Instance timeless_dev : Within P Q.
Proof. now split. Qed.
#[local] Instance timeless_regs : Within (fun _ : ad9910_registers => True) Q.
Proof. now split. Qed.

Lemma timeless_busy : keeps P spi_is_busy.
Proof. unfold spi_is_busy. assert (keeps P read_SPI1_SR) by (intros h a h' H [= _ <-]; exact H). keeping. Qed.
Lemma timeless_wait : keeps P spi_wait.
Proof. intros h a h' H E1. unfold spi_wait in E1. revert H E1. apply keeps_while; [apply timeless_busy|apply keeps_ret]. Qed.
Lemma timeless_write b : keeps P (write_SPI1_DR b).
Proof. intros h a h' H E1. unfold write_SPI1_DR in E1. destruct (spi_pending _); [|done]. now injection E1 as _ <-. Qed.
Lemma timeless_read : keeps P read_SPI1_DR.
Proof. intros h a h' H [= _ <-]. exact H. Qed.
Lemma timeless_multi data n : keeps P (spi_write_multi data n).
Proof.
  pose proof timeless_wait. pose proof timeless_read. pose proof timeless_write. unfold spi_write_multi. keeping.
Qed.
Lemma timeless_gpio_set p v : keeps P (gpio_set p v).
Proof. intros h a h' H. rewrite gpio_set_ok. intros [= _ <-]. now destruct (truthy v). Qed.
Lemma timeless_update_reg i : keeps Q (ad9910_update_reg i).
Proof.
  unfold ad9910_update_reg. apply keeps_bind; [refine (keeps_zoom (fun _ => True) _ _); apply keeps_True|intros r].
  apply keeps_bind; [apply keeps_deref|intros buf]. apply keeps_bind; [|intros _]; refine (keeps_zoom P _ _);
    [apply timeless_multi|apply timeless_wait].
Qed.
Lemma timeless_set_value f v : keeps Q (zoom (ad9910_set_value f v)).
Proof. refine (keeps_zoom (fun _ => True) _ _). apply keeps_True. Qed.
Lemma timeless_set p v : keeps Q (zoom (gpio_set p v)).
Proof. refine (keeps_zoom P _ _). apply timeless_gpio_set. Qed.
End Timeless.

Definition untimed (m : M dds unit) : Prop := forall k, keeps (fun d => (clock (dev d), primask (dev d)) = k) m.

Lemma untimed_bind m1 m2 : untimed m1 -> untimed m2 -> untimed (m1;; m2).
Proof. intros H1 H2 k. apply keeps_bind; [apply H1|intros _; apply H2]. Qed.

Lemma untimed_select_profile p : untimed (ad9910_select_profile p).
Proof. repeat apply untimed_bind; intros k; apply timeless_set. Qed.
Lemma untimed_select_parallel_target m : untimed (ad9910_select_parallel_target m).
Proof. apply untimed_bind; intros k; apply timeless_set. Qed.
Lemma untimed_enable_parallel m : untimed (ad9910_enable_parallel m).
Proof.
  unfold ad9910_enable_parallel. repeat apply untimed_bind; intros k;
    [apply timeless_set_value|apply timeless_update_reg|apply timeless_set].
Qed.
Lemma untimed_enable_output v : untimed (ad9910_enable_output v).
Proof. intros k. apply timeless_set. Qed.

(** *** Steps of the board

    The driver's state is sound, interrupts are on, and the clock has not
    passed [t]. *)
Record powered (t : Z) (b : board) : Prop := {
    pw_dds : dds_ok (view b);
    pw_irq : primask (b_hw b) = false;
    pw_time : 0 <= local_time (clock (b_hw b)) <= t;
  }.

Definition same_rest (b b' : board) : Prop :=
  b_flash b' = b_flash b /\ b_crc b' = b_crc b /\ b_queue b' = b_queue b /\ b_update b' = b_update b /\ b_samples b' = b_samples b.

(** The step [m] returns, after [n] milliseconds at most, and does [g] to
    the shadow registers and the chip. *)
Definition boots (m : M board unit) (n : Z) (g : view_of -> view_of) : Prop :=
  forall t b, powered t b -> t + n < 2 ^ 32 ->
  exists b', m b = Ok (tt, b') /\ powered (t + n) b' /\ abs (view b') = g (abs (view b)) /\ same_rest b b'.

Lemma boots_seq m1 m2 n1 n2 g1 g2 :
  boots m1 n1 g1 -> boots m2 n2 g2 -> 0 <= n2 -> boots (m1;; m2) (n1 + n2) (fun w => g2 (g1 w)).
Proof.
  intros H1 H2 Hn t b Hb Ht. destruct (H1 t b Hb ltac:(lia)) as (b1 & E1 & Hb1 & A1 & R1).
  destruct (H2 (t + n1) b1 Hb1 ltac:(lia)) as (b2 & E2 & Hb2 & A2 & R2). exists b2. rewrite (bind_ok _ _ _ _ _ E1).
  split; [exact E2|]. rewrite Z.add_assoc. split; [exact Hb2|]. split; [now rewrite A2, A1|].
  unfold same_rest in *. intuition congruence.
Qed.

Lemma boots_quiet (m : M hw unit) : quiet m -> boots (zoom m) 0 (fun w => w).
Proof.
  intros Hm t b [[Hwf Hr] Hi Ht] _. destruct (Hm (b_hw b)) as ([] & h & E1 & C & P & T). exists (over h b).
  assert (abs (view (over h b)) = abs (view b)) as Ha by (unfold abs, chip_of; cbn; now rewrite T).
  split; [exact (zoom_ok m b tt h E1)|]. rewrite Z.add_0_r. split; [|split; [exact Ha|done]].
  split; [split; [exact Hwf|]|cbn; congruence|cbn; now rewrite C]. unfold ready.
  change (chip_of (view (over h b))) with (remote (abs (view (over h b)))). now rewrite Ha.
Qed.

Lemma boots_dds (m : M dds unit) g : implements m g -> untimed m -> boots (zoom m) 0 g.
Proof.
  intros Hm Hu t b [Hd Hi Ht] _. destruct (Hm (view b) Hd) as (d & E1 & Hd' & A).
  pose proof (Hu _ (view b) tt d eq_refl E1) as K. injection K as C P. exists (over d b).
  rewrite Z.add_0_r. assert (view (over d b) = d) as V by (now destruct d). split; [exact (zoom_ok m b tt d E1)|]. split; [split; [now rewrite V| |]|split; [now rewrite V|done]]; cbn in *.
  - now rewrite P.
  - now rewrite C.
Qed.

Lemma boots_ext m n n' g g' : boots m n g -> n = n' -> (forall w, g w = g' w) -> boots m n' g'.
Proof. intros H -> Hg t b Hb Ht. destruct (H t b Hb Ht) as (b' & ? & ? & A & ?). exists b'. now rewrite <- Hg. Qed.

Lemma boots_for_each {A} (l : list A) f (g : A -> view_of -> view_of) :
  (forall a, a ∈ l -> boots (f a) 0 (g a)) -> boots (for_each l f) 0 (fun w => foldl (fun w a => g a w) w l).
Proof.
  induction l as [|a l IH]; intros H; cbn [for_each foldl].
  - intros t b Hb _. rewrite Z.add_0_r. now exists b.
  - refine (boots_seq _ _ 0 0 (g a) (fun w => foldl (fun w a => g a w) w l) _ _ _); [apply H; left| |done].
    apply IH. intros a' Ha. apply H. now right.
Qed.

Lemma boots_set_field f v : field_fits f -> boots (set_field f v) 0 (spec_set f v).
Proof. intros Hf. apply boots_dds; [now apply set_value_implements|]. intros k. apply timeless_set_value. Qed.

Lemma boots_update_reg i : (i < 20)%nat -> boots (zoom (ad9910_update_reg i)) 0 (spec_send i).
Proof. intros Hi. apply boots_dds; [now apply update_reg_implements|]. intros k. apply timeless_update_reg. Qed.

Lemma boots_high p : wf_pin p -> chip_line p = false -> boots (zoom (gpio_set_high p)) 0 (fun w => w).
Proof. intros Hp Hne. apply boots_quiet. exact (quiet_gpio_set p 1 Hp Hne). Qed.
Lemma boots_low p : wf_pin p -> chip_line p = false -> boots (zoom (gpio_set_low p)) 0 (fun w => w).
Proof. intros Hp Hne. apply boots_quiet. exact (quiet_gpio_set p 0 Hp Hne). Qed.

Lemma boots_pin p v : boots (zoom (gpio_set p v)) 0 (spec_pin p (truthy v)).
Proof.
  intros t b [[Hwf Hr] Hi Ht] _. set (h := after_set p (truthy v) (b_hw b)). exists (over h b).
  assert (abs (view (over h b)) = spec_pin p (truthy v) (abs (view b))) as Ha.
  { unfold abs, chip_of. change (trace (dev (view (over h b)))) with (trace h). unfold h. rewrite trace_after_set, chip_run_app.
    unfold spec_pin, chip_pin. cbn [shadow remote]. f_equal. now destruct (truthy v). }
  split; [exact (zoom_ok _ b tt h (gpio_set_ok p v (b_hw b)))|]. rewrite Z.add_0_r. split; [|split; [exact Ha|done]].
  split; [split; [exact Hwf|]|cbn; unfold h; now destruct (truthy v)|cbn; unfold h; now destruct (truthy v)].
  unfold ready. change (chip_of (view (over h b))) with (remote (abs (view (over h b)))). rewrite Ha. now apply chip_lines_idle.
Qed.

Lemma boots_delay k n :
  SysTickSlow -> SysTickWithin k -> 0 < n -> (Z.to_nat n * k <= poll_fuel)%nat -> boots (zoom (delay n)) (n + 1) (fun w => w).
Proof.
  intros Hslow Hlive Hn Hf t b [[Hwf Hr] Hi Ht] Hlt.
  assert (local_time (clock (after_time_read (b_hw b))) <= local_time (clock (b_hw b)) + 1) as Hl.
  { cbn. rewrite Hi. specialize (Hslow (time_reads (clock (b_hw b)))). rewrite wrap_small; lia. }
  destruct (delay_waits k n (b_hw b) Hslow Hlive Hi ltac:(lia) Hn ltac:(lia) Hf) as (h & E1 & Hh & c & ->).
  exists (over (with_clock (fun _ => c) (b_hw b)) b). split; [exact (zoom_ok _ b tt _ E1)|].
  pose proof (after_time_read_range (b_hw b)). split; [|done]. split; [done|exact Hi|]. cbn in *. lia.
Qed.

(** ** The whole start-up, up to the start-up sequence

    What it does to the shadow registers and the chip. *)
Definition spec_pulse (p : gpio_pin) (w : view_of) : view_of := spec_pin p false (spec_pin p true w).

Definition spec_pll (w : view_of) : view_of :=
  spec_pulse IO_UPDATE (spec_send (reg_index cfr3)
    (spec_set ad9910_pll_pump_current ad9910_pump_current_237 (spec_set ad9910_vco_range ad9910_vco_range_setting_vco5
      (spec_set ad9910_pll_divide 100 (spec_set ad9910_pll_enable 1 w))))).

Definition spec_output (w : view_of) : view_of :=
  spec_set ad9910_matched_latency_enable 1 (spec_set ad9910_enable_amplitude_scale 1
    (spec_set ad9910_inverse_sinc_filter_enable 1 (spec_set ad9910_pdclk_enable 1 (spec_set ad9910_sdio_input_only 1 w)))).

Definition send_all (l : list reg_name) (w : view_of) : view_of := foldl (fun w r => spec_send (reg_index r) w) w l.

Definition spec_boot (w : view_of) : view_of :=
  spec_send (reg_index cfr2) (spec_set ad9910_parallel_data_port_enable 0 (spec_profile 0
    (send_all init_registers (spec_output (spec_pll (spec_pulse IO_RESET (spec_pulse DDS_RESET w))))))).

Section BringUp.
Variable k : nat.
Hypothesis slow : SysTickSlow.
Hypothesis live : SysTickWithin k.
Hypothesis patient : (k <= poll_fuel)%nat.

Ltac boot_step :=
  lazymatch goal with
  | |- boots (zoom (gpio_set_high ?p)) _ _ =>
      first [apply boots_high; [unfold wf_pin; cbn; lia|reflexivity] | exact (boots_pin p 1)]
  | |- boots (zoom (gpio_set_low ?p)) _ _ =>
      first [apply boots_low; [unfold wf_pin; cbn; lia|reflexivity] | exact (boots_pin p 0)]
  | |- boots (zoom (delay _)) _ _ => apply (boots_delay k); [exact slow|exact live|lia|cbn; lia]
  | |- boots (set_field _ _) _ _ => apply boots_set_field; decided
  | |- boots (zoom (ad9910_update_reg _)) _ _ => apply boots_update_reg; cbn; lia
  | |- boots (for_each _ _) _ _ => apply boots_for_each; intros r _; apply boots_update_reg; destruct r; cbn; lia
  | |- boots (zoom gpio_init) _ _ => apply boots_quiet, quiet_gpio_init
  | |- boots (zoom spi_init_slow) _ _ => apply boots_quiet, quiet_spi_init
  | |- boots (zoom spi_init_fast) _ _ => apply boots_quiet, quiet_spi_init
  | |- boots (zoom (pll_wait _ _ _)) _ _ => apply boots_quiet, quiet_pll_wait
  | |- boots (zoom spi_wait) _ _ => apply boots_quiet, quiet_spi_wait
  | |- boots (zoom spi_deinit) _ _ => apply boots_quiet, quiet_modify; now intros
  | |- boots (zoom (set_APB1ENR _)) _ _ => apply boots_quiet, quiet_modify; now intros
  | |- boots (zoom (ad9910_select_profile _)) _ _ => apply boots_dds; [apply select_profile_implements|apply untimed_select_profile]
  | |- boots (zoom (ad9910_select_parallel_target _)) _ _ =>
      apply boots_dds; [apply select_parallel_target_implements|apply untimed_select_parallel_target]
  | |- boots (zoom (ad9910_enable_parallel _)) _ _ => apply boots_dds; [apply enable_parallel_implements|apply untimed_enable_parallel]
  | |- boots (zoom (ad9910_enable_output _)) _ _ => apply boots_dds; [apply enable_output_implements|apply untimed_enable_output]
  | |- boots (_ ≫= _) _ _ => eapply boots_seq
  end.

Lemma bring_up_boots : boots ad9910_bring_up 6 spec_boot.
Proof.
  unfold ad9910_bring_up. eapply boots_ext; [repeat boot_step; lia|reflexivity|].
  intros w. unfold spec_boot, send_all, spec_output, spec_pll, spec_pulse. change (b2z (truthy 0)) with 0. reflexivity.
Qed.
End BringUp.

(** *** What that leaves in the chip *)

Definition synced (i : nat) (w : view_of) : Prop :=
  exists r, shadow w !! i = Some r /\ buffer (remote w) !! address_of i = Some (value r).

Lemma synced_send i w : wf_regs (shadow w) -> (i < 20)%nat -> synced i (spec_send i w).
Proof.
  intros Hw Hi. destruct (lookup_lt_is_Some_2 (shadow w) i) as [r Hr]; [now rewrite wf_regs_length|].
  unfold synced, spec_send. rewrite Hr. exists r. split; [exact Hr|]. cbn. rewrite (address_of_wf _ _ _ Hw Hr). apply lookup_insert_eq.
Qed.

Lemma synced_send_other i j w : wf_regs (shadow w) -> (i < 20)%nat -> (j < 20)%nat -> synced i w -> synced i (spec_send j w).
Proof.
  intros Hw Hi Hj (r & Hr & Hb). destruct (decide (i = j)) as [<-|Hne]; [now apply synced_send|].
  unfold synced, spec_send. destruct (shadow w !! j) as [r'|] eqn:Hr'; [|now exists r]. exists r. split; [exact Hr|]. cbn.
  rewrite lookup_insert_ne; [exact Hb|]. rewrite (address_of_wf _ _ _ Hw Hr'). intros Ea. apply Hne. symmetry. now apply address_of_inj.
Qed.

Lemma profile_buffer n w : buffer (remote (spec_profile n w)) = buffer (remote w).
Proof. unfold spec_profile, spec_pin. cbn [remote]. now destruct (truthy (n &&& 4)), (truthy (n &&& 2)), (truthy (n &&& 1)). Qed.

Lemma profile_shadow n w : shadow (spec_profile n w) = shadow w.
Proof. reflexivity. Qed.
Lemma pulse_shadow p w : shadow (spec_pulse p w) = shadow w.
Proof. reflexivity. Qed.

Lemma synced_profile i n w : synced i w -> synced i (spec_profile n w).
Proof. intros (r & Hr & Hb). exists r. rewrite profile_buffer, profile_shadow. now split. Qed.

(** Selecting the profile that is selected changes nothing. *)
Lemma profile_stays w : profile (remote w) = (false, false, false) -> spec_profile 0 w = w.
Proof.
  destruct w as [sh [ser bu ac st pr]]. cbn [remote profile]. intros ->. unfold spec_profile, spec_pin. cbn [shadow remote].
  now destruct st.
Qed.

Lemma reg_index_lt r : (reg_index r < 20)%nat.
Proof. destruct r; cbn; lia. Qed.

Lemma send_all_keeps l w :
  shadow (send_all l w) = shadow w /\ active (remote (send_all l w)) = active (remote w) /\
  profile (remote (send_all l w)) = profile (remote w).
Proof.
  revert w. induction l as [|r l IH]; intros w; [done|]. change (send_all (r :: l) w) with (send_all l (spec_send (reg_index r) w)).
  destruct (IH (spec_send (reg_index r) w)) as (-> & -> & ->). unfold spec_send. now destruct (shadow w !! reg_index r).
Qed.

Lemma send_all_synced l i w :
  wf_regs (shadow w) -> (i < 20)%nat -> synced i w \/ i ∈ map reg_index l -> synced i (send_all l w).
Proof.
  revert w. induction l as [|r l IH]; intros w Hw Hi [Hs|Hin]; [done|now apply elem_of_nil in Hin|..];
    change (send_all (r :: l) w) with (send_all l (spec_send (reg_index r) w)); (apply IH; [now apply wf_send|exact Hi|]).
  - left. apply synced_send_other; try done. apply reg_index_lt.
  - cbn [map] in Hin. apply elem_of_cons in Hin as [->|Hin]; [left; now apply synced_send|now right].
Qed.

Lemma every_register i : (i < 20)%nat -> i ∈ map reg_index init_registers.
Proof. intros Hi. do 20 (destruct i as [|i]; [decided|]). lia. Qed.

Lemma synced_set i f v w : i <> reg f -> synced i w -> synced i (spec_set f v w).
Proof. intros Hne (r & Hr & Hb). exists r. split; [|exact Hb]. cbn. now rewrite list_lookup_alter_ne. Qed.

Lemma synced_field f w : field_fits f -> synced (reg f) w -> chip_field f w = shadow_field f w.
Proof. intros _ (r & Hr & Hb). unfold chip_field, shadow_field. now rewrite Hr, Hb. Qed.

Lemma wf_boot w : wf_regs (shadow w) -> wf_regs (shadow (spec_output (spec_pll w))).
Proof.
  intros Hw. unfold spec_output. wf_tac.
Qed.

Lemma boot_synced i w : wf_regs (shadow w) -> (i < 20)%nat -> synced i (spec_boot w).
Proof.
  intros Hw Hi. unfold spec_boot. set (w0 := spec_pulse IO_RESET _).
  assert (wf_regs (shadow w0)) as Hw0 by (unfold w0; now rewrite !pulse_shadow). pose proof (wf_boot w0 Hw0) as Hw1.
  set (w1 := spec_output (spec_pll w0)) in *. set (w2 := spec_profile 0 (send_all init_registers w1)).
  assert (wf_regs (shadow w2)) as Hw2.
  { unfold w2. rewrite profile_shadow. now rewrite (proj1 (send_all_keeps _ _)). }
  assert (wf_regs (shadow (spec_set ad9910_parallel_data_port_enable 0 w2))) as Hw3 by (apply wf_set; [exact Hw2|decided]).
  destruct (decide (i = reg_index cfr2)) as [->|Hne]; [apply synced_send; [exact Hw3|cbn; lia]|].
  apply synced_send_other; [exact Hw3|exact Hi|cbn; lia|]. apply synced_set; [exact Hne|]. apply synced_profile.
  apply send_all_synced; [exact Hw1|exact Hi|]. right. now apply every_register.
Qed.

(** The fields the start-up sets. *)
Definition boot_fields : list (ad9910_register_bit * Z) :=
  [(ad9910_pll_enable, 1); (ad9910_pll_divide, 100); (ad9910_vco_range, ad9910_vco_range_setting_vco5);
   (ad9910_pll_pump_current, ad9910_pump_current_237); (ad9910_sdio_input_only, 1); (ad9910_pdclk_enable, 1);
   (ad9910_inverse_sinc_filter_enable, 1); (ad9910_enable_amplitude_scale, 1); (ad9910_matched_latency_enable, 1);
   (ad9910_parallel_data_port_enable, 0)].

(** The shadow registers are those with the fields set. *)
Definition set_all (l : list (ad9910_register_bit * Z)) (w : view_of) : view_of :=
  foldl (fun w fv => spec_set fv.1 fv.2 w) w l.

Lemma shadow_set_cong f v w w' : shadow w = shadow w' -> shadow (spec_set f v w) = shadow (spec_set f v w').
Proof. intros E1. cbn. now rewrite E1. Qed.

Lemma spec_send_shadow i w : shadow (spec_send i w) = shadow w.
Proof. unfold spec_send. now destruct (shadow w !! i). Qed.

Lemma pll_shadow w : shadow (spec_pll w) = shadow (set_all (take 4 boot_fields) w).
Proof. unfold spec_pll. rewrite pulse_shadow. apply spec_send_shadow. Qed.

Lemma boot_shadow w : shadow (spec_boot w) = shadow (set_all boot_fields w).
Proof.
  unfold spec_boot. rewrite spec_send_shadow. change (set_all boot_fields w) with
    (spec_set ad9910_parallel_data_port_enable 0 (spec_output (set_all (take 4 boot_fields) w))).
  apply shadow_set_cong. rewrite profile_shadow, (proj1 (send_all_keeps _ _)). do 5 apply shadow_set_cong.
  rewrite pll_shadow. do 4 apply shadow_set_cong. now rewrite !pulse_shadow.
Qed.

Lemma boot_fields_fit f v : (f, v) ∈ boot_fields -> field_fits f.
Proof.
  assert (Forall (fun fv : ad9910_register_bit * Z => field_fits fv.1) boot_fields) as H by decided.
  rewrite Forall_forall in H. intros Hf. exact (H _ Hf).
Qed.

Lemma boot_field f v w : wf_regs (shadow w) -> (f, v) ∈ boot_fields -> shadow_field f (spec_boot w) = Some v.
Proof.
  intros Hw Hf. unfold shadow_field. rewrite boot_shadow. fold (shadow_field f (set_all boot_fields w)).
  unfold boot_fields in Hf. rewrite !elem_of_cons in Hf. unfold set_all, boot_fields. cbn [foldl fst snd].
  repeat (destruct Hf as [[= -> ->]|Hf]); [fields; reflexivity..|now apply elem_of_nil in Hf].
Qed.

Lemma boot_other f w :
  field_fits f -> Forall (fun fv => disjoint_fields fv.1 f) boot_fields -> shadow_field f (spec_boot w) = shadow_field f w.
Proof.
  intros Hf Hd. unfold shadow_field. rewrite boot_shadow. fold (shadow_field f (set_all boot_fields w)).
  assert (Forall (fun fv : ad9910_register_bit * Z => field_fits fv.1) boot_fields) as Hfit by decided. fold (shadow_field f w).
  revert w Hd Hfit. generalize boot_fields. intros l. induction l as [|[g v] l IH]; intros w Hd Hfit; [done|].
  apply Forall_cons_1 in Hd as [Hd Hds], Hfit as [Hg Hfs]. change (set_all ((g, v) :: l) w) with (set_all l (spec_set g v w)).
  rewrite IH by done. now apply shadow_set_other.
Qed.

Lemma remote_send i w :
  active (remote (spec_send i w)) = active (remote w) /\ profile (remote (spec_send i w)) = profile (remote w) /\
  strobe (remote (spec_send i w)) = strobe (remote w).
Proof. unfold spec_send. now destruct (shadow w !! i). Qed.

Lemma remote_set f v w : remote (spec_set f v w) = remote w.
Proof. reflexivity. Qed.

(** The strobe, from low to high and back. *)
Lemma remote_strobed w :
  strobe (remote w) = false ->
  active (remote (spec_pulse IO_UPDATE w)) = buffer (remote w) /\
  profile (remote (spec_pulse IO_UPDATE w)) = profile (remote w).
Proof. intros Hs. unfold spec_pulse, spec_pin. cbn [remote]. rewrite strobe_low, strobe_high. cbn. now rewrite Hs. Qed.

Lemma remote_cleared w :
  let c := remote (spec_pulse IO_RESET (spec_pulse DDS_RESET w)) in
  buffer c = ∅ /\ strobe c = strobe (remote w) /\ profile c = profile (remote w).
Proof. unfold spec_pulse, spec_pin. cbn [remote]. now rewrite io_reset_low, io_reset_high, reset_low, reset_high. Qed.

(** Only CFR3 takes effect, with the value it keeps. *)
Lemma boot_active w :
  wf_regs (shadow w) -> strobe (remote w) = false -> profile (remote w) = (false, false, false) ->
  exists r, shadow (spec_boot w) !! reg_index cfr3 = Some r /\
    active (remote (spec_boot w)) = {[ address_of (reg_index cfr3) := value r ]}.
Proof.
  intros Hw Hs Hp. destruct (remote_cleared w) as (C1 & C2 & C3).
  set (w0 := spec_pulse IO_RESET (spec_pulse DDS_RESET w)) in *. cbv zeta in C1, C2, C3.
  assert (wf_regs (shadow w0)) as Hw0 by (unfold w0; now rewrite !pulse_shadow).
  set (w1 := set_all (take 4 boot_fields) w0).
  assert (wf_regs (shadow w1)) as Hw1 by (unfold w1, set_all; cbn [foldl take boot_fields fst snd]; wf_tac).
  assert (remote w1 = remote w0) as R1 by reflexivity.
  destruct (lookup_lt_is_Some_2 (shadow w1) (reg_index cfr3)) as [r Hr]; [rewrite (wf_regs_length _ Hw1); cbn; lia|].
  assert (spec_pll w0 = spec_pulse IO_UPDATE (spec_send (reg_index cfr3) w1)) as Epll by reflexivity.
  assert (active (remote (spec_pll w0)) = {[ address_of (reg_index cfr3) := value r ]} /\
          profile (remote (spec_pll w0)) = (false, false, false)) as [Ha Hpr].
  { destruct (remote_send (reg_index cfr3) w1) as (_ & S2 & S3). rewrite Epll.
    destruct (remote_strobed (spec_send (reg_index cfr3) w1)) as [-> ->]; [now rewrite S3, R1, C2|].
    rewrite S2, R1, C3. split; [|exact Hp]. unfold spec_send. rewrite Hr. cbn [remote written buffer].
    rewrite R1, C1, (address_of_wf _ _ _ Hw1 Hr). apply insert_empty. }
  exists r. split.
  - rewrite boot_shadow. change (set_all boot_fields w) with
      (spec_set ad9910_parallel_data_port_enable 0 (spec_output (set_all (take 4 boot_fields) w))).
    assert (shadow (set_all (take 4 boot_fields) w) = shadow w1) as E1.
    { unfold w1, w0. do 4 apply shadow_set_cong. now rewrite !pulse_shadow. }
    unfold spec_output, spec_set. cbn [shadow]. rewrite !list_lookup_alter_ne by (cbn; lia). now rewrite E1.
  - unfold spec_boot. fold w0. rewrite (proj1 (remote_send _ _)).
    destruct (send_all_keeps init_registers (spec_output (spec_pll w0))) as (_ & S2 & S3).
    rewrite remote_set, profile_stays; [rewrite S2; exact Ha|rewrite S3; exact Hpr].
Qed.

(** ** Properties *)

(** The wait for the PLL ends after at most ten million and one looks at
  the lock line, and before the limit only because the line was high. *)
Theorem pll_wait_bounded h :
  exists n, pll_wait (S (Z.to_nat ad9910_pll_lock_timeout)) ad9910_pll_lock_timeout 0 h =
      Ok (tt, Nat.iter n after_idr_read h) /\
    Z.of_nat n <= ad9910_pll_lock_timeout + 1 /\
    (Z.of_nat n <= ad9910_pll_lock_timeout -> pin_read PLL_LOCK (Nat.iter (n - 1) after_idr_read h) = true).
Proof.
  destruct (pll_wait_ends (S (Z.to_nat ad9910_pll_lock_timeout)) ad9910_pll_lock_timeout 0 h) as (n & E1 & Hn & Hl);
    [unfold ad9910_pll_lock_timeout; lia|].
  exists n. split; [exact E1|]. rewrite Z.sub_0_r in *. split; [unfold ad9910_pll_lock_timeout in *; lia|exact Hl].
Qed.

(** C9: Whatever the PLL does, the start-up reaches the start-up sequence.
  Then every register of the chip holds the shadow value, with the PLL, the
  amplitude scale and the filter set up and the other fields as the
  program's constants have them; flash and queue are untouched.  If the
  lines of strobe and profile were low, as they are after power-on, exactly
  one register has taken effect, CFR3 with the value it holds: the one
  strobe came before the others were sent, and selecting the profile that
  is selected is none.  The rest takes effect with the next strobe. *)
Theorem boot_programs_chip k t b :
  SysTickSlow -> SysTickWithin k -> (k <= poll_fuel)%nat -> powered t b -> t + 6 < 2 ^ 32 ->
  exists b1, ad9910_init b =
      (v ← zoom (gpio_get RED_BUTTON); if v =? 0 then startup_command_execute else startup_command_clear) b1 /\
    (forall i, (i < 20)%nat -> synced i (abs (view b1))) /\ ready (view b1) /\
    (forall f v, (f, v) ∈ boot_fields -> chip_field f (abs (view b1)) = Some v) /\
    (forall f, field_fits f -> Forall (fun fv => disjoint_fields fv.1 f) boot_fields ->
      chip_field f (abs (view b1)) = shadow_field f (abs (view b))) /\
    (strobe (chip_of (view b)) = false -> profile (chip_of (view b)) = (false, false, false) ->
      exists v, active (chip_of (view b1)) = {[ address_of (reg_index cfr3) := v ]} /\
        buffer (chip_of (view b1)) !! address_of (reg_index cfr3) = Some v) /\
    same_rest b b1.
Proof.
  intros Hslow Hlive Hk Hb Ht. destruct (bring_up_boots k Hslow Hlive Hk t b Hb Ht) as (b1 & E1 & [[Hwf1 Hr] _ _] & A & R).
  pose proof (proj1 (pw_dds _ _ Hb)) as Hwf. exists b1. unfold ad9910_init. rewrite (bind_ok _ _ _ _ _ E1).
  assert (forall f, field_fits f -> chip_field f (abs (view b1)) = shadow_field f (abs (view b1))) as Hchip.
  { intros f Hf. apply synced_field; [exact Hf|]. rewrite A. apply boot_synced; [exact Hwf|].
    destruct (field_fits_lookup _ f Hwf1 Hf) as (r & Hlk & _). apply lookup_lt_Some in Hlk. now rewrite (wf_regs_length _ Hwf1) in Hlk. }
  split; [reflexivity|]. split; [intros i Hi; rewrite A; now apply boot_synced|]. split; [exact Hr|]. split; [|split; [|split; [|exact R]]].
  - intros f v Hf. rewrite Hchip, A by (revert f v Hf; apply boot_fields_fit). now apply boot_field.
  - intros f Hf Hd. rewrite Hchip, A by exact Hf. now apply boot_other.
  - intros Hs Hp. change (chip_of (view b1)) with (remote (abs (view b1))). rewrite A.
    destruct (boot_active (abs (view b)) Hwf Hs Hp) as (r & Hlk & Ha). exists (value r). split; [exact Ha|].
    destruct (boot_synced (reg_index cfr3) (abs (view b)) Hwf ltac:(cbn; lia)) as (r' & Hr' & Hb').
    rewrite Hlk in Hr'. now injection Hr' as <-.
Qed.

(** C10: What was saved survives the power: on a board that starts with the
  flash the save left, the start-up brings up the chip and then reads the
  red button, once; if it is not held, exactly the saved commands are
  performed, once, and if it is held, none of them, but the saved queue is
  cleared. *)
Theorem saved_queue_starts k t b cs :
  rest (b_flash b) -> f_err (b_flash b) = 0 -> (forall n, flash_fault n = 0) -> queue_holds (b_queue b) cs ->
  SysTickSlow -> SysTickWithin k -> (k <= poll_fuel)%nat -> t + 6 < 2 ^ 32 ->
  exists b', startup_command_save b = Ok (tt, b') /\
    forall b0, powered t b0 -> b_flash b0 = b_flash b' ->
      exists b2 x, (forall i, (i < 20)%nat -> synced i (abs (view b2))) /\ ready (view b2) /\ b_flash b2 = b_flash b' /\
        let b1 := over (after_idr_read (b_hw b2)) b2 in
        ad9910_init b0 =
          if pin_read RED_BUTTON (b_hw b2) then startup_command_clear b1
          else (zoom (gpio_set_high LED_FRONT);; for_each cs perform;; zoom (gpio_set_low LED_FRONT)) (after_crc x b1).
Proof.
  intros Hr H0 Hf Hq Hslow Hlive Hk Ht. destruct (startup_saved_runs b cs Hr H0 Hf Hq) as (b' & E1 & Hrun). exists b'. split; [exact E1|].
  intros b0 Hb0 Hfl. destruct (bring_up_boots k Hslow Hlive Hk t b0 Hb0 Ht) as (b2 & E2 & [[Hwf2 Hr2] _ _] & A & (Rf & _)).
  set (b1 := over (after_idr_read (b_hw b2)) b2).
  assert (zoom (gpio_get RED_BUTTON) b2 = Ok (b2z (pin_read RED_BUTTON (b_hw b2)), b1)) as Eg.
  { exact (zoom_ok _ b2 _ _ (gpio_get_ok RED_BUTTON (b_hw b2) ltac:(unfold wf_pin; cbn; lia))). }
  assert (b_flash b1 = b_flash b') as Hfl1 by (change (b_flash b2 = b_flash b'); congruence).
  destruct (Hrun b1 Hfl1) as [x Ex]. exists b2, x. split; [|split; [exact Hr2|split; [exact Hfl1|]]].
  - intros i Hi. rewrite A. apply boot_synced; [exact (proj1 (pw_dds _ _ Hb0))|exact Hi].
  - cbv zeta. unfold ad9910_init. rewrite (bind_ok _ _ _ _ _ E2), (bind_ok _ _ _ _ _ Eg).
    destruct (pin_read RED_BUTTON (b_hw b2)); [done|exact Ex].
Qed.
End Boot.

(** ** Witnesses *)

Lemma saved_queue_starts_witness :
  exists b', @startup_command_save good_flash (demo_board demo_cmds) = Ok (tt, b') /\
    exists b2 x, (forall i, (i < 20)%nat -> synced i (abs (view b2))) /\ b_flash b2 = b_flash b' /\
      let b1 := over (after_idr_read (b_hw b2)) b2 in
      @ad9910_init plain_env good_flash plain_link (mkBoard hw_reset ad9910_regs (b_flash b') 0 (mkQueue (replicate 1024 0) 0 0) 0 (replicate 16 0)) =
        if @pin_read plain_env RED_BUTTON (b_hw b2) then @startup_command_clear good_flash b1
        else (zoom (gpio_set_high LED_FRONT);; for_each demo_cmds (@perform plain_env);; zoom (gpio_set_low LED_FRONT)) (after_crc x b1).
Proof.
  destruct (@saved_queue_starts plain_env good_flash plain_link 1 0 (demo_board demo_cmds) demo_cmds
    flash_reset_rest eq_refl (fun _ => eq_refl) demo_queue_holds) as (b' & E1 & H).
  - intros n. apply le_n.
  - intros n. exists n. split; [lia|apply le_n].
  - apply Nat.leb_le. reflexivity.
  - lia.
  - exists b'. split; [exact E1|].
    destruct (H (mkBoard hw_reset ad9910_regs (b_flash b') 0 (mkQueue (replicate 1024 0) 0 0) 0 (replicate 16 0))) as (b2 & x & H1 & _ & H2 & H3).
    + split; [apply dds_boot_ok|reflexivity|cbn; lia].
    + reflexivity.
    + exists b2, x. split; [exact H1|]. split; [exact H2|exact H3].
Defined.

Lemma boot_programs_chip_witness :
  exists b1, (forall i, (i < 20)%nat -> synced i (abs (view b1))) /\
    chip_field ad9910_pll_divide (abs (view b1)) = Some 100 /\
    exists v, active (chip_of (view b1)) = {[ 0x02 := v ]}.
Proof.
  destruct (@boot_programs_chip plain_env good_flash plain_link 1 0 board_reset) as (b1 & _ & H1 & _ & H2 & _ & H3 & _).
  - intros n. apply le_n.
  - intros n. exists n. split; [lia|apply le_n].
  - apply Nat.leb_le. reflexivity.
  - split; [apply dds_boot_ok|reflexivity|cbn; lia].
  - lia.
  - exists b1. split; [exact H1|]. split; [apply H2; do 1 (apply elem_of_cons; right); apply elem_of_cons; now left|].
    destruct (H3 eq_refl eq_refl) as (v & H4 & _). now exists v.
Defined.
