(* ===== verification/ScpiFifo.v ===== *)
(** * ScpiFifo: the error queue's ring buffer

    libscpi's fifo.c: a ring of [int16_t] error codes with read and write
    indices and a count.  [fifo_refines_queue] shows that a run of any
    sequence of its operations gives the results of a bounded list. *)

From Stdlib Require Import ZArith Lia.
From stdpp Require Import base numbers list.
From S2P Require Import Prelude.

(** The value of an [int16_t] assignment. *)
Definition s16 (z : Z) : Z := wrap 16 (z + 2 ^ 15) - 2 ^ 15.

Lemma s16_small z : - 2 ^ 15 <= z < 2 ^ 15 -> s16 z = z.
Proof. intros Hz. unfold s16. rewrite wrap_small; lia. Qed.

(** [scpi_error_t] is its code: the device-dependent information is left out
    of a bare-metal build. *)
Record scpi_fifo_t := mkFifo { wr : Z; rd : Z; count : Z; size : Z; data : list Z }.

Definition fifo_init (d : list Z) (sz : Z) : scpi_fifo_t := mkFifo 0 0 0 sz d.

Definition fifo_clear (fifo : scpi_fifo_t) : scpi_fifo_t :=
  mkFifo 0 0 0 (size fifo) (data fifo).

Definition fifo_is_empty (fifo : scpi_fifo_t) : bool := count fifo =? 0.
Definition fifo_is_full (fifo : scpi_fifo_t) : bool := count fifo =? size fifo.

(** [value] is [None] for a null pointer. *)
Definition fifo_add (fifo : scpi_fifo_t) (value : option Z) : bool * scpi_fifo_t :=
  if fifo_is_full fifo then (false, fifo)
  else match value with
  | None => (false, fifo)
  | Some v =>
      (true, mkFifo (s16 (Z.rem (wr fifo + 1) (size fifo))) (rd fifo)
                    (s16 (count fifo + 1)) (size fifo)
                    (<[Z.to_nat (wr fifo) := v]> (data fifo)))
  end.

(** The second component is the object [value] points to after the call. *)
Definition fifo_remove (fifo : scpi_fifo_t) (value : option Z)
    : bool * option Z * scpi_fifo_t :=
  if fifo_is_empty fifo then (false, value, fifo)
  else
    let value := match value with
                 | Some v => Some (default v (data fifo !! Z.to_nat (rd fifo)))
                 | None => None
                 end in
    (true, value,
     mkFifo (wr fifo) (s16 (Z.rem (rd fifo + 1) (size fifo)))
            (s16 (count fifo - 1)) (size fifo) (data fifo)).

Definition fifo_remove_last (fifo : scpi_fifo_t) (value : option Z)
    : bool * option Z * scpi_fifo_t :=
  if fifo_is_empty fifo then (false, value, fifo)
  else
    let w := s16 (Z.rem (wr fifo + size fifo - 1) (size fifo)) in
    let value := match value with
                 | Some v => Some (default v (data fifo !! Z.to_nat w))
                 | None => None
                 end in
    (true, value, mkFifo w (rd fifo) (s16 (count fifo - 1)) (size fifo) (data fifo)).

Definition fifo_count (fifo : scpi_fifo_t) : Z := count fifo.

(** ** The bounded queue it implements *)

(** The elements in order of arrival, starting at [rd]. *)
Definition slot (fifo : scpi_fifo_t) (k : Z) : Z := (rd fifo + k) mod size fifo.
Definition element (fifo : scpi_fifo_t) (k : Z) : Z :=
  data fifo !!! Z.to_nat (slot fifo k).
Definition contents (fifo : scpi_fifo_t) : list Z :=
  element fifo <$> seqZ 0 (count fifo).

Record fifo_wf (fifo : scpi_fifo_t) : Prop := {
    wf_size : 0 < size fifo < 2 ^ 15;
    wf_data : Z.of_nat (length (data fifo)) = size fifo;
    wf_count : 0 <= count fifo <= size fifo;
    wf_rd : 0 <= rd fifo < size fifo;
    wf_wr : wr fifo = slot fifo (count fifo);
  }.

(** What each call does to the list. *)
Inductive fifo_op := OpAdd (v : Z) | OpRemove | OpRemoveLast | OpClear.

Definition fifo_do (op : fifo_op) (fifo : scpi_fifo_t) : option Z * scpi_fifo_t :=
  match op with
  | OpAdd v => let '(ok, fifo) := fifo_add fifo (Some v) in (Some (b2z ok), fifo)
  | OpRemove =>
      let '(ok, v, fifo) := fifo_remove fifo (Some 0) in (if ok then v else None, fifo)
  | OpRemoveLast =>
      let '(ok, v, fifo) := fifo_remove_last fifo (Some 0) in (if ok then v else None, fifo)
  | OpClear => (None, fifo_clear fifo)
  end.

Definition queue_do (cap : nat) (op : fifo_op) (q : list Z) : option Z * list Z :=
  match op with
  | OpAdd v => if decide (length q < cap)%nat then (Some 1, q ++ [v]) else (Some 0, q)
  | OpRemove => (head q, tail q)
  | OpRemoveLast => (last q, take (pred (length q)) q)
  | OpClear => (None, [])
  end.

Fixpoint run_ops {Q} (f : fifo_op -> Q -> option Z * Q) (ops : list fifo_op) (q : Q)
    : list (option Z) * Q :=
  match ops with
  | [] => ([], q)
  | op :: ops => let '(r, q) := f op q in let '(rs, q) := run_ops f ops q in (r :: rs, q)
  end.

(** ** The ring's indices *)

Lemma slot_range fifo k : 0 < size fifo -> 0 <= slot fifo k < size fifo.
Proof. intros. now apply Z.mod_pos_bound. Qed.

Lemma slot_inj fifo j k :
  0 < size fifo -> 0 <= j < size fifo -> 0 <= k < size fifo -> slot fifo j = slot fifo k -> j = k.
Proof.
  intros Hs Hj Hk E. unfold slot in E.
  rewrite <- (Z.mod_small j (size fifo)), <- (Z.mod_small k (size fifo)) by lia.
  replace j with ((rd fifo + j) - rd fifo) by lia. replace k with ((rd fifo + k) - rd fifo) by lia.
  rewrite Zminus_mod, E, <- Zminus_mod. reflexivity.
Qed.

Lemma length_contents fifo : 0 <= count fifo -> Z.of_nat (length (contents fifo)) = count fifo.
Proof. intros. unfold contents. rewrite length_fmap, length_seqZ. lia. Qed.

Lemma mod_rem a b : 0 <= a -> 0 < b < 2 ^ 15 -> s16 (Z.rem a b) = a mod b.
Proof.
  intros Ha Hb. rewrite Z.rem_mod_nonneg by lia. apply s16_small.
  pose proof (Z.mod_pos_bound a b). lia.
Qed.

Lemma fifo_init_wf d sz :
  Z.of_nat (length d) = sz -> 0 < sz < 2 ^ 15 ->
  fifo_wf (fifo_init d sz) /\ contents (fifo_init d sz) = [].
Proof.
  intros Hl Hs. split; [constructor; unfold slot; cbn; try lia; now rewrite Z.mod_0_l by lia|].
  reflexivity.
Qed.

(** ** Each operation *)

Lemma fifo_add_ok fifo v :
  fifo_wf fifo -> count fifo < size fifo ->
  exists fifo', fifo_add fifo (Some v) = (true, fifo') /\ fifo_wf fifo' /\
    size fifo' = size fifo /\ contents fifo' = contents fifo ++ [v].
Proof.
  intros [Hs Hd Hc Hr Hw] Hlt. unfold fifo_add, fifo_is_full.
  destruct (Z.eqb_spec (count fifo) (size fifo)) as [|_]; [lia|]. eexists. split; [reflexivity|].
  pose proof (slot_range fifo (count fifo) ltac:(lia)) as Hwr.
  rewrite mod_rem, s16_small by lia. rewrite Hw. split_and!; [constructor; cbn|reflexivity|].
  - lia.
  - now rewrite length_insert.
  - lia.
  - lia.
  - unfold slot. cbn. rewrite Zplus_mod_idemp_l. f_equal. lia.
  - unfold contents. cbn [count].
    replace (count fifo + 1) with (Z.of_nat (S (Z.to_nat (count fifo)))) by lia.
    rewrite seqZ_S, fmap_app, Z2Nat.id by lia. cbn [fmap list_fmap]. f_equal.
    + apply list_fmap_ext. intros i k Hk. apply lookup_seqZ in Hk as [-> ?].
      unfold element. cbn. unfold slot at 1. cbn. fold (slot fifo (0 + Z.of_nat i)).
      apply list_lookup_total_insert_ne. intros E. apply Z2Nat.inj in E; [|apply slot_range; lia..].
      apply slot_inj in E; lia.
    + unfold element. cbn. unfold slot at 1. cbn. fold (slot fifo (count fifo)).
      now rewrite list_lookup_total_insert_eq by lia.
Qed.

Lemma fifo_add_full fifo v :
  count fifo = size fifo -> fifo_add fifo v = (false, fifo).
Proof. intros E. unfold fifo_add, fifo_is_full. now rewrite E, Z.eqb_refl. Qed.

Lemma contents_lookup fifo k :
  0 <= k < count fifo -> contents fifo !! Z.to_nat k = Some (element fifo k).
Proof.
  intros Hk. unfold contents. rewrite list_lookup_fmap, lookup_seqZ_lt by lia.
  cbn. do 2 f_equal. lia.
Qed.

Lemma data_slot fifo k v :
  fifo_wf fifo -> default v (data fifo !! Z.to_nat (slot fifo k)) = element fifo k.
Proof.
  intros [Hs Hd _ _ _]. pose proof (slot_range fifo k ltac:(lia)) as Hk. unfold element.
  destruct (lookup_lt_is_Some_2 (data fifo) (Z.to_nat (slot fifo k)) ltac:(lia)) as [x Hx].
  now rewrite (list_lookup_total_correct _ _ _ Hx), Hx.
Qed.

Lemma slot_0 fifo : fifo_wf fifo -> slot fifo 0 = rd fifo.
Proof. intros [? ? ? ? ?]. unfold slot. rewrite Z.add_0_r. apply Z.mod_small. lia. Qed.

Lemma contents_cons fifo :
  0 < count fifo ->
  contents fifo = element fifo 0 :: ((fun k => element fifo (k + 1)) <$> seqZ 0 (count fifo - 1)).
Proof.
  intros Hc. unfold contents. rewrite seqZ_cons by lia. cbn [fmap list_fmap]. f_equal.
  replace (Z.succ 0) with (1 + 0) by lia. rewrite <- fmap_add_seqZ, <- list_fmap_compose.
  replace (Z.pred (count fifo)) with (count fifo - 1) by lia.
  apply list_fmap_ext. intros i k _. cbn. f_equal. lia.
Qed.

Lemma fifo_remove_ok fifo v :
  fifo_wf fifo -> 0 < count fifo ->
  exists fifo' x l, contents fifo = x :: l /\ fifo_remove fifo (Some v) = (true, Some x, fifo') /\
    fifo_wf fifo' /\ size fifo' = size fifo /\ contents fifo' = l.
Proof.
  intros Hwf Hlt. pose proof Hwf as [Hs Hd Hc Hr Hw]. unfold fifo_remove, fifo_is_empty.
  destruct (Z.eqb_spec (count fifo) 0) as [|_]; [lia|].
  pose proof (data_slot fifo 0 v Hwf) as E0. rewrite (slot_0 fifo Hwf) in E0. rewrite E0.
  rewrite contents_cons by lia. do 3 eexists. split; [reflexivity|]. split; [reflexivity|].
  rewrite mod_rem, s16_small by lia.
  assert (Hsl : forall k, slot (mkFifo (wr fifo) ((rd fifo + 1) mod size fifo) (count fifo - 1)
                            (size fifo) (data fifo)) k = slot fifo (k + 1)).
  { intros k. unfold slot. cbn. rewrite Zplus_mod_idemp_l. f_equal. lia. }
  split_and!; [constructor; try rewrite Hsl; cbn|reflexivity|].
  - lia.
  - done.
  - lia.
  - apply Z.mod_pos_bound. lia.
  - rewrite Hw. f_equal. lia.
  - unfold contents, element. cbn [count data].
    apply list_fmap_ext. intros i k _. now rewrite Hsl.
Qed.

Lemma fifo_remove_last_ok fifo v :
  fifo_wf fifo -> 0 < count fifo ->
  exists fifo' x l, contents fifo = l ++ [x] /\
    fifo_remove_last fifo (Some v) = (true, Some x, fifo') /\
    fifo_wf fifo' /\ size fifo' = size fifo /\ contents fifo' = l.
Proof.
  intros Hwf Hlt. pose proof Hwf as [Hs Hd Hc Hr Hw]. unfold fifo_remove_last, fifo_is_empty.
  destruct (Z.eqb_spec (count fifo) 0) as [|_]; [lia|].
  pose proof (slot_range fifo (count fifo) ltac:(lia)) as Hwr.
  assert (Hm : s16 (Z.rem (wr fifo + size fifo - 1) (size fifo)) = slot fifo (count fifo - 1)).
  { rewrite mod_rem by lia. rewrite Hw. unfold slot.
    replace ((rd fifo + count fifo) mod size fifo + size fifo - 1)
      with ((rd fifo + count fifo) mod size fifo + (-1) + 1 * size fifo) by lia.
    rewrite Z.mod_add, Zplus_mod_idemp_l by lia. f_equal. lia. }
  rewrite Hm, data_slot, s16_small by (done || lia).
  exists (mkFifo (slot fifo (count fifo - 1)) (rd fifo) (count fifo - 1) (size fifo) (data fifo)).
  exists (element fifo (count fifo - 1)), (element fifo <$> seqZ 0 (count fifo - 1)).
  split_and!; [|reflexivity|constructor; cbn; try lia; done|reflexivity|reflexivity].
  unfold contents. replace (count fifo) with (Z.of_nat (S (Z.to_nat (count fifo - 1)))) at 1 by lia.
  rewrite seqZ_S, fmap_app, Z2Nat.id by lia. reflexivity.
Qed.

Lemma fifo_clear_ok fifo :
  fifo_wf fifo ->
  fifo_wf (fifo_clear fifo) /\ size (fifo_clear fifo) = size fifo /\ contents (fifo_clear fifo) = [].
Proof.
  intros [Hs Hd _ _ _]. split_and!; [constructor; unfold slot; cbn; try lia; try done|reflexivity..].
Qed.

Lemma fifo_do_queue op fifo :
  fifo_wf fifo ->
  exists r fifo', fifo_do op fifo = (r, fifo') /\ fifo_wf fifo' /\ size fifo' = size fifo /\
    queue_do (Z.to_nat (size fifo)) op (contents fifo) = (r, contents fifo').
Proof.
  intros Hwf. pose proof (wf_count _ Hwf) as Hc. pose proof (wf_size _ Hwf) as Hs.
  pose proof (length_contents fifo ltac:(lia)) as Hl.
  assert (He : count fifo = 0 -> contents fifo = []) by (intros E; apply nil_length_inv; lia).
  destruct op as [v| | |]; cbn [fifo_do queue_do].
  - destruct (decide (count fifo = size fifo)) as [E|E].
    + rewrite fifo_add_full by done. do 2 eexists. rewrite decide_False by lia. done.
    + destruct (fifo_add_ok fifo v Hwf ltac:(lia)) as (f' & -> & Hwf' & Hs' & Hq).
      do 2 eexists. rewrite decide_True, <- Hq by lia. done.
  - destruct (decide (count fifo = 0)) as [E|E].
    + unfold fifo_remove, fifo_is_empty. rewrite (proj2 (Z.eqb_eq _ _) E). do 2 eexists.
      cbv beta iota. split_and!; try done. rewrite He by done. done.
    + destruct (fifo_remove_ok fifo 0 Hwf ltac:(lia)) as (f' & x & l & -> & -> & Hwf' & Hs' & <-).
      do 2 eexists. done.
  - destruct (decide (count fifo = 0)) as [E|E].
    + unfold fifo_remove_last, fifo_is_empty. rewrite (proj2 (Z.eqb_eq _ _) E). do 2 eexists.
      cbv beta iota. split_and!; try done. rewrite He by done. done.
    + destruct (fifo_remove_last_ok fifo 0 Hwf ltac:(lia)) as (f' & x & l & -> & -> & Hwf' & Hs' & <-).
      do 2 eexists. rewrite last_snoc, length_app, Nat.add_1_r. cbn [pred length].
      rewrite take_app_length' by lia. done.
  - destruct (fifo_clear_ok fifo Hwf) as (Hwf' & Hs' & E). do 2 eexists. rewrite E. done.
Qed.

(** C35: however the error queue is used, it answers as a first-in first-out
    list that holds at most [size] codes: every sequence of additions,
    removals at either end and clears, started on a freshly initialised ring,
    returns the results of the same operations on a list, never reads or
    writes outside the array, and leaves the list's elements in the ring. *)
Theorem fifo_refines_queue d sz ops :
  Z.of_nat (length d) = sz -> 0 < sz < 2 ^ 15 ->
  let '(rs, fifo) := run_ops fifo_do ops (fifo_init d sz) in
  run_ops (queue_do (length d)) ops [] = (rs, contents fifo) /\ fifo_wf fifo.
Proof.
  intros Hl Hs. destruct (fifo_init_wf d sz Hl Hs) as [Hwf E]. rewrite <- E.
  assert (Hsz : Z.to_nat (size (fifo_init d sz)) = length d) by (cbn; lia).
  clear E. revert Hwf Hsz. generalize (fifo_init d sz) as fifo.
  induction ops as [|op ops IH]; intros fifo Hwf Hsz; [done|]. cbn [run_ops].
  destruct (fifo_do_queue op fifo Hwf) as (r & f' & -> & Hwf' & Hs' & Hq).
  rewrite Hsz in Hq. rewrite Hq. specialize (IH f' Hwf' ltac:(congruence)).
  destruct (run_ops fifo_do ops f') as [rs f'']. destruct IH as [-> ?]. done.
Qed.

Lemma fifo_refines_queue_witness :
  (Z.of_nat (length [0; 0]) = 2 /\ 0 < 2 < 2 ^ 15) /\
  let ops := [OpAdd 5; OpAdd 6; OpAdd 7; OpRemoveLast; OpAdd 8; OpRemove; OpRemove; OpRemove] in
  let '(rs, fifo) := run_ops fifo_do ops (fifo_init [0; 0] 2) in
  run_ops (queue_do (length [0; 0])) ops [] = (rs, contents fifo) /\ fifo_wf fifo.
Proof. split; [cbn; lia|]. apply (fifo_refines_queue [0; 0] 2); cbn; lia. Defined.
