(* ===== verification/Lexer.v ===== *)
(** * Lexer: libscpi's token recognisers

    lexer.c: each recogniser of the SCPI grammar moves a cursor over the line
    and describes what it passed as a token.  The line is the memory [mem]
    the pointers point into; a pointer is an index of it.  A [char] is an
    unsigned byte, as on ARM. *)

From Stdlib Require Import ZArith Lia.
From stdpp Require Import base numbers list.
From S2P Require Import Prelude.

(** ** Characters (ctype.h in the C locale) *)

Definition chr_in (lo hi c : Z) : bool := (lo <=? c) && (c <=? hi).
Definition isdigit (c : Z) : bool := chr_in 48 57 c.
Definition isalpha (c : Z) : bool := chr_in 65 90 c || chr_in 97 122 c.
Definition isalnum (c : Z) : bool := isalpha c || isdigit c.
Definition isxdigit (c : Z) : bool := isdigit c || chr_in 65 70 c || chr_in 97 102 c.

Definition isws (c : Z) : bool := (c =? 32) || (c =? 9).
Definition isbdigit (c : Z) : bool := (c =? 48) || (c =? 49).
Definition isqdigit (c : Z) : bool := chr_in 48 55 c.
Definition isplusmn (c : Z) : bool := (c =? 43) || (c =? 45).
Definition isH (c : Z) : bool := (c =? 104) || (c =? 72).
Definition isB (c : Z) : bool := (c =? 98) || (c =? 66).
Definition isQ (c : Z) : bool := (c =? 113) || (c =? 81).
Definition isE (c : Z) : bool := (c =? 101) || (c =? 69).
Definition isascii7bit (c : Z) : bool := chr_in 0 127 c.
Definition isNonzeroDigit (c : Z) : bool := isdigit c && negb (c =? 48).
Definition isProgramExpression (c : Z) : bool :=
  if chr_in 32 126 c
  then negb (c =? 34) && negb (c =? 35) && negb (c =? 39)
       && negb (c =? 40) && negb (c =? 41) && negb (c =? 59)
  else false.
(** The characters of a mnemonic after its first. *)
Definition ismnemonic (c : Z) : bool := isalnum c || (c =? 95).

(** ** Tokens and the cursor *)

Inductive scpi_token_type_t :=
  | SCPI_TOKEN_COMMA
  | SCPI_TOKEN_SEMICOLON
  | SCPI_TOKEN_COLON
  | SCPI_TOKEN_SPECIFIC_CHARACTER
  | SCPI_TOKEN_QUESTION
  | SCPI_TOKEN_NL
  | SCPI_TOKEN_HEXNUM
  | SCPI_TOKEN_OCTNUM
  | SCPI_TOKEN_BINNUM
  | SCPI_TOKEN_PROGRAM_MNEMONIC
  | SCPI_TOKEN_DECIMAL_NUMERIC_PROGRAM_DATA
  | SCPI_TOKEN_DECIMAL_NUMERIC_PROGRAM_DATA_WITH_SUFFIX
  | SCPI_TOKEN_SUFFIX_PROGRAM_DATA
  | SCPI_TOKEN_ARBITRARY_BLOCK_PROGRAM_DATA
  | SCPI_TOKEN_SINGLE_QUOTE_PROGRAM_DATA
  | SCPI_TOKEN_DOUBLE_QUOTE_PROGRAM_DATA
  | SCPI_TOKEN_PROGRAM_EXPRESSION
  | SCPI_TOKEN_COMPOUND_PROGRAM_HEADER
  | SCPI_TOKEN_INCOMPLETE_COMPOUND_PROGRAM_HEADER
  | SCPI_TOKEN_COMMON_PROGRAM_HEADER
  | SCPI_TOKEN_INCOMPLETE_COMMON_PROGRAM_HEADER
  | SCPI_TOKEN_COMPOUND_QUERY_PROGRAM_HEADER
  | SCPI_TOKEN_COMMON_QUERY_PROGRAM_HEADER
  | SCPI_TOKEN_WS
  | SCPI_TOKEN_ALL_PROGRAM_DATA
  | SCPI_TOKEN_INVALID
  | SCPI_TOKEN_UNKNOWN.

#[export] Instance token_type_eq_dec : EqDecision scpi_token_type_t.
Proof. solve_decision. Defined.

Record scpi_token_t := mkTok { t_type : scpi_token_type_t; t_ptr : Z; t_len : Z }.
Record lex_state_t := mkLex { l_buffer : Z; l_pos : Z; l_len : Z }.

Definition l_end (st : lex_state_t) : Z := l_buffer st + l_len st.

(** [state->pos = p] and [state->pos += n]. *)
Definition set_pos (p : Z) (st : lex_state_t) : lex_state_t := mkLex (l_buffer st) p (l_len st).
Definition adv (n : Z) (st : lex_state_t) : lex_state_t := set_pos (l_pos st + n) st.

Definition SKIP_NONE : Z := 0.
Definition SKIP_OK : Z := 1.
Definition SKIP_INCOMPLETE : Z := -1.

Definition iseos (st : lex_state_t) : bool := l_end st <=? l_pos st.
Definition scpiLex_IsEos (st : lex_state_t) : bool := iseos st.

(** The token of a recogniser that assigns the type only when it passed
    something. *)
Definition token_from (ty : scpi_token_type_t) (p : Z) (st : lex_state_t) : scpi_token_t :=
  let n := l_pos st - p in
  mkTok (if 0 <? n then ty else SCPI_TOKEN_UNKNOWN) p n.

Section Lexer.
Variable mem : list Z.

(** [state->pos[0]]. *)
Definition cur (st : lex_state_t) : Z := default 0 (mem !! Z.to_nat (l_pos st)).
Definition ischr (st : lex_state_t) (chr : Z) : bool := cur st =? chr.
Definition look (p : Z -> bool) (st : lex_state_t) : bool := negb (iseos st) && p (cur st).

(** ** Skipping *)

(** [while (!iseos(state) && p(state->pos[0])) { state->pos++; n++; }] *)
Fixpoint skip_loop (fuel : nat) (p : Z -> bool) (n : Z) (st : lex_state_t) : Z * lex_state_t :=
  match fuel with
  | O => (n, st)
  | S fuel => if look p st then skip_loop fuel p (n + 1) (adv 1 st) else (n, st)
  end.
Definition skip_while (p : Z -> bool) (st : lex_state_t) : Z * lex_state_t :=
  skip_loop (Z.to_nat (l_end st - l_pos st)) p 0 st.

(** [if (!iseos(state) && p(state->pos[0])) { state->pos++; return SKIP_OK; }
    else return SKIP_NONE;] *)
Definition skip_one (p : Z -> bool) (st : lex_state_t) : Z * lex_state_t :=
  if look p st then (SKIP_OK, adv 1 st) else (SKIP_NONE, st).

Definition skipWs := skip_while isws.
Definition skipDigit := skip_one isdigit.
Definition skipNumbers := skip_while isdigit.
Definition skipPlusmn := skip_one isplusmn.
Definition skipAlpha := skip_while isalpha.
Definition skipChr (st : lex_state_t) (chr : Z) := skip_one (fun c => c =? chr) st.
Definition skipSlashDot := skip_one (fun c => (c =? 47) || (c =? 46)).
Definition skipStar := skip_one (fun c => c =? 42).
Definition skipColon := skip_one (fun c => c =? 58).
Definition skipHexNum := skip_while isxdigit.
Definition skipOctNum := skip_while isqdigit.
Definition skipBinNum := skip_while isbdigit.

Definition skipProgramMnemonic (st : lex_state_t) : Z * lex_state_t :=
  let startPos := l_pos st in
  let st := if look isalpha st then snd (skip_while ismnemonic (adv 1 st)) else st in
  if iseos st then ((l_pos st - startPos) * SKIP_INCOMPLETE, st)
  else ((l_pos st - startPos) * SKIP_OK, st).

Definition skipCommonProgramHeader (st : lex_state_t) : Z * lex_state_t :=
  let '(star, st) := skipStar st in
  if truthy star then
    let '(res, st) := skipProgramMnemonic st in
    if (res =? SKIP_NONE) && iseos st then (SKIP_INCOMPLETE, st)
    else if res <=? SKIP_INCOMPLETE then (SKIP_OK, st)
    else if SKIP_OK <=? res then (SKIP_OK, st)
    else (SKIP_INCOMPLETE, st)
  else (SKIP_NONE, st).

(** [while (skipColon(state)) ...]: each turn passes a colon. *)
Fixpoint compound_loop (fuel : nat) (st : lex_state_t) : Z * lex_state_t :=
  match fuel with
  | O => (SKIP_OK, st)
  | S fuel =>
      let '(colon, st) := skipColon st in
      if truthy colon then
        let '(res, st) := skipProgramMnemonic st in
        if res <=? SKIP_INCOMPLETE then (SKIP_OK, st)
        else if res =? SKIP_NONE then (SKIP_INCOMPLETE, st)
        else compound_loop fuel st
      else (SKIP_OK, st)
  end.

Definition skipCompoundProgramHeader (st : lex_state_t) : Z * lex_state_t :=
  let '(firstColon, st) := skipColon st in
  let '(res, st) := skipProgramMnemonic st in
  if SKIP_OK <=? res then compound_loop (S (Z.to_nat (l_end st - l_pos st))) st
  else if res <=? SKIP_INCOMPLETE then (SKIP_OK, st)
  else if truthy firstColon then (SKIP_INCOMPLETE, st)
  else (SKIP_NONE, st).

Definition skipMantisa (st : lex_state_t) : Z * lex_state_t :=
  let someNumbers := 0 in
  let '(_, st) := skipPlusmn st in
  let '(n, st) := skipNumbers st in
  let someNumbers := someNumbers + n in
  let '(dot, st) := skipChr st 46 in
  if truthy dot
  then let '(n, st) := skipNumbers st in (someNumbers + n, st)
  else (someNumbers, st).

Definition skipExponent (st : lex_state_t) : Z * lex_state_t :=
  if look isE st then
    let st := adv 1 st in
    let '(_, st) := skipWs st in
    let '(_, st) := skipPlusmn st in
    skipNumbers st
  else (0, st).

(** ** Tokens *)

(** Each recogniser returns its result, the token and the cursor. *)

Definition scpiLex_WhiteSpace (st : lex_state_t) : Z * scpi_token_t * lex_state_t :=
  let p := l_pos st in
  let '(_, st) := skipWs st in
  let token := token_from SCPI_TOKEN_WS p st in
  (t_len token, token, st).

Definition scpiLex_ProgramHeader (st : lex_state_t) : Z * scpi_token_t * lex_state_t :=
  let p := l_pos st in
  let '(res, st) := skipCommonProgramHeader st in
  let '(ty, st) :=
    if SKIP_OK <=? res then
      let '(q, st) := skipChr st 63 in
      if SKIP_OK <=? q then (SCPI_TOKEN_COMMON_QUERY_PROGRAM_HEADER, st)
      else (SCPI_TOKEN_COMMON_PROGRAM_HEADER, st)
    else if res <=? SKIP_INCOMPLETE then (SCPI_TOKEN_INCOMPLETE_COMMON_PROGRAM_HEADER, st)
    else
      let '(res, st) := skipCompoundProgramHeader st in
      if SKIP_OK <=? res then
        let '(q, st) := skipChr st 63 in
        if SKIP_OK <=? q then (SCPI_TOKEN_COMPOUND_QUERY_PROGRAM_HEADER, st)
        else (SCPI_TOKEN_COMPOUND_PROGRAM_HEADER, st)
      else if res <=? SKIP_INCOMPLETE then (SCPI_TOKEN_INCOMPLETE_COMPOUND_PROGRAM_HEADER, st)
      else (SCPI_TOKEN_UNKNOWN, st) in
  if decide (ty <> SCPI_TOKEN_UNKNOWN)
  then (l_pos st - p, mkTok ty p (l_pos st - p), st)
  else (0, mkTok ty p 0, set_pos p st).

Definition scpiLex_CharacterProgramData (st : lex_state_t) : Z * scpi_token_t * lex_state_t :=
  let p := l_pos st in
  let st := if look isalpha st then snd (skip_while ismnemonic (adv 1 st)) else st in
  let token := token_from SCPI_TOKEN_PROGRAM_MNEMONIC p st in
  (t_len token, token, st).

Definition scpiLex_DecimalNumericProgramData (st : lex_state_t)
    : Z * scpi_token_t * lex_state_t :=
  let p := l_pos st in
  let '(n, st) := skipMantisa st in
  let st :=
    if truthy n then
      let rollback := l_pos st in
      let '(_, st) := skipWs st in
      let '(e, st) := skipExponent st in
      if negb (truthy e) then set_pos rollback st else st
    else set_pos p st in
  let token := token_from SCPI_TOKEN_DECIMAL_NUMERIC_PROGRAM_DATA p st in
  (t_len token, token, st).

(** [while (skipSlashDot(state)) ...]: each turn passes a slash or a dot. *)
Fixpoint suffix_loop (fuel : nat) (st : lex_state_t) : lex_state_t :=
  match fuel with
  | O => st
  | S fuel =>
      let '(sep, st) := skipSlashDot st in
      if truthy sep then
        let '(_, st) := skipAlpha st in
        let '(_, st) := skipChr st 45 in
        let '(_, st) := skipDigit st in
        suffix_loop fuel st
      else st
  end.

Definition scpiLex_SuffixProgramData (st : lex_state_t) : Z * scpi_token_t * lex_state_t :=
  let p := l_pos st in
  let '(_, st) := skipChr st 47 in
  let '(n, st) := skipAlpha st in
  let st :=
    if truthy n then
      let '(_, st) := skipChr st 45 in
      let '(_, st) := skipDigit st in
      suffix_loop (S (Z.to_nat (l_end st - l_pos st))) st
    else st in
  let n := l_pos st - p in
  if 0 <? n then (n, mkTok SCPI_TOKEN_SUFFIX_PROGRAM_DATA p n, st)
  else (0, mkTok SCPI_TOKEN_UNKNOWN p 0, set_pos p st).

Definition scpiLex_NondecimalNumericData (st : lex_state_t) : Z * scpi_token_t * lex_state_t :=
  let p := l_pos st in
  let '(hash, st) := skipChr st 35 in
  let '(someNumbers, ty, st) :=
    if truthy hash then
      if look isH st then
        let '(n, st) := skipHexNum (adv 1 st) in (n, SCPI_TOKEN_HEXNUM, st)
      else if look isQ st then
        let '(n, st) := skipOctNum (adv 1 st) in (n, SCPI_TOKEN_OCTNUM, st)
      else if look isB st then
        let '(n, st) := skipBinNum (adv 1 st) in (n, SCPI_TOKEN_BINNUM, st)
      else (0, SCPI_TOKEN_UNKNOWN, st)
    else (0, SCPI_TOKEN_UNKNOWN, st) in
  if truthy someNumbers then
    let token := mkTok ty (p + 2) (l_pos st - (p + 2)) in
    (if 0 <? t_len token then t_len token + 2 else 0, token, st)
  else (0, mkTok SCPI_TOKEN_UNKNOWN p 0, set_pos p st).

(** The quote is doubled inside the string; the loop stops before the
    closing quote. *)
Fixpoint skipQuote_loop (fuel : nat) (quote : Z) (st : lex_state_t) : lex_state_t :=
  match fuel with
  | O => st
  | S fuel =>
      if negb (iseos st) then
        if isascii7bit (cur st) && negb (ischr st quote)
        then skipQuote_loop fuel quote (adv 1 st)
        else if ischr st quote then
          let st := adv 1 st in
          if negb (iseos st) && ischr st quote
          then skipQuote_loop fuel quote (adv 1 st)
          else adv (-1) st
        else st
      else st
  end.
Definition skipQuoteProgramData (st : lex_state_t) (quote : Z) : lex_state_t :=
  skipQuote_loop (S (Z.to_nat (l_end st - l_pos st))) quote st.
Definition skipDoubleQuoteProgramData (st : lex_state_t) := skipQuoteProgramData st 34.
Definition skipSingleQuoteProgramData (st : lex_state_t) := skipQuoteProgramData st 39.

Definition scpiLex_StringProgramData (st : lex_state_t) : Z * scpi_token_t * lex_state_t :=
  let p := l_pos st in
  let '(ty, st) :=
    if negb (iseos st) then
      if ischr st 34 then
        let st := skipDoubleQuoteProgramData (adv 1 st) in
        (SCPI_TOKEN_DOUBLE_QUOTE_PROGRAM_DATA,
         if negb (iseos st) && ischr st 34 then adv 1 st else set_pos p st)
      else if ischr st 39 then
        let st := skipSingleQuoteProgramData (adv 1 st) in
        (SCPI_TOKEN_SINGLE_QUOTE_PROGRAM_DATA,
         if negb (iseos st) && ischr st 39 then adv 1 st else set_pos p st)
      else (SCPI_TOKEN_UNKNOWN, st)
    else (SCPI_TOKEN_UNKNOWN, st) in
  let n := l_pos st - p in
  if 0 <? n then (n, mkTok ty p n, st)
  else (0, mkTok SCPI_TOKEN_UNKNOWN p 0, set_pos p st).

(** [for (; i > 0; i--)]: the digits of the length, while there are any;
    returns the [i] it stopped at. *)
Fixpoint block_digits (i : nat) (n : Z) (st : lex_state_t) : nat * Z * lex_state_t :=
  match i with
  | O => (O, n, st)
  | S i' =>
      if look isdigit st then block_digits i' (n * 10 + (cur st - 48)) (adv 1 st)
      else (i, n, st)
  end.

Definition scpiLex_ArbitraryBlockProgramData (st : lex_state_t)
    : Z * scpi_token_t * lex_state_t :=
  let ptr := l_pos st in
  let '(hash, st) := skipChr st 35 in
  let '(validData, p, n, st) :=
    if truthy hash then
      if look isNonzeroDigit st then
        let '(i, arbitraryBlockLength, st) :=
          block_digits (Z.to_nat (cur st - 48)) 0 (adv 1 st) in
        if decide (i = O) then
          let st := adv arbitraryBlockLength st in
          (1, l_pos st - arbitraryBlockLength, arbitraryBlockLength, st)
        else if iseos st then (0, ptr, 0, st)
        else (-1, ptr, 0, st)
      else if iseos st then (0, ptr, 0, st)
      else (-1, ptr, 0, st)
    else (-1, ptr, 0, st) in
  let '(token, st) :=
    if validData =? 1 then (mkTok SCPI_TOKEN_ARBITRARY_BLOCK_PROGRAM_DATA p n, st)
    else if validData =? 0 then (mkTok SCPI_TOKEN_UNKNOWN p 0, set_pos (l_end st) st)
    else (mkTok SCPI_TOKEN_UNKNOWN p 0, set_pos p st) in
  (t_len token + (t_ptr token - ptr), token, st).

Definition skipProgramExpression (st : lex_state_t) : lex_state_t :=
  snd (skip_while isProgramExpression st).

(** [len] is the length the token has when the function is called: it is
    read when there is no opening parenthesis. *)
Definition scpiLex_ProgramExpression (len : Z) (st : lex_state_t)
    : Z * scpi_token_t * lex_state_t :=
  let p := l_pos st in
  let '(n, st) :=
    if look (fun c => c =? 40) st then
      let st := skipProgramExpression (adv 1 st) in
      if look (fun c => c =? 41) st
      then let st := adv 1 st in (l_pos st - p, st) else (0, st)
    else (len, st) in
  if 0 <? n then (n, mkTok SCPI_TOKEN_PROGRAM_EXPRESSION p n, st)
  else (0, mkTok SCPI_TOKEN_UNKNOWN p 0, set_pos p st).

(** The recognisers of one given character. *)
Definition lex_chr (ty : scpi_token_type_t) (chr : Z) (st : lex_state_t)
    : Z * scpi_token_t * lex_state_t :=
  let p := l_pos st in
  let '(r, st) := skipChr st chr in
  if truthy r then (1, mkTok ty p 1, st) else (0, mkTok SCPI_TOKEN_UNKNOWN p 0, st).
Definition scpiLex_Comma := lex_chr SCPI_TOKEN_COMMA 44.
Definition scpiLex_Semicolon := lex_chr SCPI_TOKEN_SEMICOLON 59.
Definition scpiLex_Colon := lex_chr SCPI_TOKEN_COLON 58.
Definition scpiLex_SpecificCharacter (st : lex_state_t) (chr : Z) :=
  lex_chr SCPI_TOKEN_SPECIFIC_CHARACTER chr st.

Definition scpiLex_NewLine (st : lex_state_t) : Z * scpi_token_t * lex_state_t :=
  let p := l_pos st in
  let '(_, st) := skipChr st 13 in
  let '(_, st) := skipChr st 10 in
  let n := l_pos st - p in
  if 0 <? n then (n, mkTok SCPI_TOKEN_NL p n, st)
  else (0, mkTok SCPI_TOKEN_UNKNOWN p 0, set_pos p st).
End Lexer.

(** ** The cursor stays on the line *)

(** [ext st st']: the cursor moved forward, not past the end of the line. *)
Record ext (st st' : lex_state_t) : Prop := {
    ext_buffer : l_buffer st' = l_buffer st;
    ext_len : l_len st' = l_len st;
    ext_forward : l_pos st <= l_pos st';
    ext_inside : l_pos st' <= Z.max (l_pos st) (l_end st);
  }.

Lemma ext_refl st : ext st st.
Proof. constructor; lia. Qed.

Lemma ext_trans st1 st2 st3 : ext st1 st2 -> ext st2 st3 -> ext st1 st3.
Proof. intros [] []. unfold l_end in *. constructor; unfold l_end; congruence || lia. Qed.

#[export] Instance ext_preorder : PreOrder ext.
Proof. split; [exact ext_refl|intros ???; apply ext_trans]. Qed.

Lemma ext_adv1 st : iseos st = false -> ext st (adv 1 st).
Proof. unfold iseos. intros H. apply Z.leb_gt in H. constructor; cbn; unfold l_end in *; lia. Qed.

Lemma ext_back st1 st2 p :
  ext st1 st2 -> l_pos st1 <= p <= l_pos st2 -> ext st1 (set_pos p st2).
Proof. intros [] ?. constructor; cbn; lia. Qed.

Section Moves.
Variable mem : list Z.

Lemma look_eos p st : look mem p st = true -> iseos st = false.
Proof. unfold look. destruct (iseos st); [done|done]. Qed.

Lemma skip_loop_ext fuel p n st : ext st (snd (skip_loop mem fuel p n st)).
Proof.
  revert n st. induction fuel as [|fuel IH]; intros n st; cbn [skip_loop]; [apply ext_refl|].
  destruct (look mem p st) eqn:E; [|apply ext_refl].
  eapply ext_trans; [apply ext_adv1, (look_eos p), E|apply IH].
Qed.

Lemma skip_while_ext p st n st' : skip_while mem p st = (n, st') -> ext st st'.
Proof. unfold skip_while. intros E. generalize (skip_loop_ext (Z.to_nat (l_end st - l_pos st)) p 0 st). now rewrite E. Qed.

Lemma skip_loop_count fuel p n st :
  fst (skip_loop mem fuel p n st) - n = l_pos (snd (skip_loop mem fuel p n st)) - l_pos st.
Proof.
  revert n st. induction fuel as [|fuel IH]; intros n st; cbn [skip_loop]; [cbn; lia|].
  destruct (look mem p st); [|cbn; lia]. specialize (IH (n + 1) (adv 1 st)). cbn in IH. lia.
Qed.

Lemma skip_while_count p st n st' :
  skip_while mem p st = (n, st') -> n = l_pos st' - l_pos st.
Proof.
  unfold skip_while. intros E. generalize (skip_loop_count (Z.to_nat (l_end st - l_pos st)) p 0 st).
  rewrite E. cbn. lia.
Qed.

Lemma skip_one_ext p st n st' :
  skip_one mem p st = (n, st') -> ext st st' /\ n = l_pos st' - l_pos st /\ (n = 0 \/ n = 1).
Proof.
  unfold skip_one. destruct (look mem p st) eqn:E; intros [= <- <-].
  - split; [apply ext_adv1, (look_eos p), E|]. cbn. unfold SKIP_OK. lia.
  - split; [apply ext_refl|]. unfold SKIP_NONE. lia.
Qed.

Lemma skip_one_none p st st' : skip_one mem p st = (0, st') -> st' = st.
Proof. unfold skip_one. destruct (look mem p st); [discriminate|]. now intros [= ->]. Qed.

Lemma snd_skip_while_ext p st : ext st (snd (skip_while mem p st)).
Proof. destruct (skip_while mem p st) eqn:E. eapply skip_while_ext, E. Qed.

Lemma mnemonic_ext st : ext st (if look mem isalpha st then snd (skip_while mem ismnemonic (adv 1 st)) else st).
Proof.
  destruct (look mem isalpha st) eqn:E; [|apply ext_refl].
  eapply ext_trans; [apply ext_adv1, (look_eos isalpha), E|apply snd_skip_while_ext].
Qed.
End Moves.


(** [moves] runs the recognisers of an equation [f st = (..., st')]: it
    cases on every call and test and reduces what they say of the cursor to
    linear arithmetic. *)
Lemma iseos_spec st : iseos st = true <-> l_end st <= l_pos st.
Proof. apply Z.leb_le. Qed.

Ltac move1 :=
  match goal with
  | E : skip_while _ _ _ = (_, _) |- _ =>
      pose proof (skip_while_ext _ _ _ _ _ E); pose proof (skip_while_count _ _ _ _ _ E); clear E
  | E : skip_one _ _ _ = (_, _) |- _ =>
      destruct (skip_one_ext _ _ _ _ _ E) as (? & ? & ?); clear E
  | E : look _ _ _ = true |- _ => apply look_eos in E
  | E : look _ _ _ = false |- _ => clear E
  | E : (_, _) = (_, _) |- _ => injection E as; subst
  | E : iseos ?s = true |- _ => apply iseos_spec in E
  | E : iseos ?s = false |- _ => apply Z.leb_gt in E
  | E : (_ <=? _) = true |- _ => apply Z.leb_le in E
  | E : (_ <=? _) = false |- _ => apply Z.leb_gt in E
  | E : (_ <? _) = true |- _ => apply Z.ltb_lt in E
  | E : (_ <? _) = false |- _ => apply Z.ltb_ge in E
  end.
Ltac moves := repeat progress move1.
Ltac moves_cases := repeat (first [progress move1 | case_match; try discriminate]).
Ltac ext_chain := repeat first [reflexivity | etransitivity; [eassumption|]].
Ltac ext_lia :=
  repeat match goal with H : ext _ _ |- _ => destruct H end;
  unfold token_from, SKIP_OK, SKIP_NONE, SKIP_INCOMPLETE in *;
  cbn [l_pos l_buffer l_len set_pos adv t_len t_ptr t_type snd fst] in *; unfold l_end in *;
  cbn [l_pos l_buffer l_len set_pos adv] in *;
  try (constructor; unfold l_end; cbn [l_pos l_buffer l_len set_pos adv]); lia.

Section Composite.
Variable mem : list Z.

Lemma skipProgramMnemonic_ext st r st' :
  skipProgramMnemonic mem st = (r, st') ->
  ext st st' /\ Z.abs r = l_pos st' - l_pos st.
Proof.
  unfold skipProgramMnemonic. intros E. pose proof (mnemonic_ext mem st) as Hm.
  revert Hm E. generalize (if look mem isalpha st then snd (skip_while mem ismnemonic (adv 1 st)) else st).
  intros st1 Hm E. pose proof (ext_forward _ _ Hm).
  unfold SKIP_INCOMPLETE, SKIP_OK in E. destruct (iseos st1); injection E as <- <-; split; (done || lia).
Qed.

Lemma skipCommonProgramHeader_ext st r st' :
  skipCommonProgramHeader mem st = (r, st') ->
  ext st st' /\ (r = 0 -> st' = st) /\ (r <> 0 -> l_pos st < l_pos st').
Proof.
  unfold skipCommonProgramHeader, skipStar. intros E.
  destruct (skip_one _ _ _) as [star st1] eqn:E1.
  assert (star = 0 -> st1 = st) by (intros ->; eapply skip_one_none, E1).
  apply skip_one_ext in E1 as (H1 & H2 & H3).
  destruct (truthy star) eqn:Es.
  - destruct (skipProgramMnemonic mem st1) as [res st2] eqn:E2.
    apply skipProgramMnemonic_ext in E2 as [H4 H5].
    assert (star = 1) by (destruct H3 as [->| ->]; done).
    assert (st' = st2 /\ r <> 0) as [-> Hr] by (unfold SKIP_OK, SKIP_INCOMPLETE in E; moves_cases; split; (done || lia)).
    split; [now transitivity st1|]. split; [done|]. intros _. ext_lia.
  - injection E as <- <-. split; [done|]. split; [|done]. intros _.
    destruct H3 as [->| ->]; [auto|done].
Qed.

Lemma compound_loop_ext fuel st r st' : compound_loop mem fuel st = (r, st') -> ext st st' /\ r <> 0.
Proof.
  revert st. induction fuel as [|fuel IH]; intros st; cbn [compound_loop].
  { intros [= <- <-]. split; [reflexivity|done]. }
  unfold skipColon. destruct (skip_one _ _ _) as [c st1] eqn:E1.
  apply skip_one_ext in E1 as (H1 & H2 & H3).
  destruct (truthy c); [|intros [= <- <-]; done].
  destruct (skipProgramMnemonic mem st1) as [res st2] eqn:E2.
  apply skipProgramMnemonic_ext in E2 as [H4 H5].
  intros E. assert (ext st st2) by (now transitivity st1).
  repeat case_match; try (injection E as <- <-; done).
  apply IH in E as [??]. split; [now transitivity st2|done].
Qed.

Lemma skipCompoundProgramHeader_ext st r st' :
  skipCompoundProgramHeader mem st = (r, st') ->
  ext st st' /\ (r <> 0 -> l_pos st < l_pos st').
Proof.
  unfold skipCompoundProgramHeader, skipColon. intros E.
  destruct (skip_one _ _ _) as [c st1] eqn:E1. apply skip_one_ext in E1 as (H1 & H2 & H3).
  destruct (skipProgramMnemonic mem st1) as [res st2] eqn:E2.
  apply skipProgramMnemonic_ext in E2 as [H4 H5]. unfold SKIP_OK, SKIP_INCOMPLETE, SKIP_NONE in E.
  assert (ext st st2) by (now transitivity st1).
  destruct (Z.leb_spec 1 res).
  - apply compound_loop_ext in E as [H6 H7]. split; [now transitivity st2|]. intros _. ext_lia.
  - destruct (Z.leb_spec res (-1)); [injection E as <- <-; split; [done|]; intros _; ext_lia|].
    destruct (truthy c) eqn:Ec; injection E as <- <-; split; try done. intros _.
    assert (c = 1) by (destruct H3 as [->| ->]; done). ext_lia.
Qed.

Lemma suffix_loop_ext fuel st : ext st (suffix_loop mem fuel st).
Proof.
  revert st. induction fuel as [|fuel IH]; intros st; cbn [suffix_loop]; [reflexivity|].
  unfold skipSlashDot, skipAlpha, skipChr, skipDigit.
  repeat match goal with |- context [let '(_, _) := ?f in _] => destruct f eqn:? end.
  case_match; moves; [|done]. etransitivity; [|apply IH].
  ext_chain.
Qed.

Lemma skipQuote_loop_ext fuel q st : ext st (skipQuote_loop mem fuel q st).
Proof.
  revert st. induction fuel as [|fuel IH]; intros st; cbn [skipQuote_loop]; [reflexivity|].
  destruct (iseos st) eqn:Ee; cbn [negb]; [reflexivity|]. pose proof (ext_adv1 st Ee) as Hadv.
  case_match; [etransitivity; [exact Hadv|apply IH]|].
  destruct (ischr mem st q); [|reflexivity].
  destruct (iseos (adv 1 st)) eqn:Ee1; cbn [negb andb]; [ext_lia|].
  case_match; [|ext_lia].
  etransitivity; [exact Hadv|]. etransitivity; [apply ext_adv1, Ee1|apply IH].
Qed.
End Composite.

(** ** What a recogniser reports is what it passed *)

(** The returned length is the distance the cursor moved; the token is
    unknown exactly when that is zero, and otherwise ends at the cursor. *)
Definition took (st : lex_state_t) (res : Z * scpi_token_t * lex_state_t) : Prop :=
  let '(n, tok, st') := res in
  ext st st' /\ n = l_pos st' - l_pos st /\ 0 <= t_len tok /\
  (t_type tok = SCPI_TOKEN_UNKNOWN <-> n = 0) /\
  (0 < n -> l_pos st <= t_ptr tok /\ t_ptr tok + t_len tok = l_pos st').

(** The recognisers but that of blocks, whose token may reach beyond the
    line; [chr] is the character asked for. *)
Definition recognisers (mem : list Z) (chr : Z) : list (lex_state_t -> Z * scpi_token_t * lex_state_t) :=
  [ scpiLex_WhiteSpace mem; scpiLex_ProgramHeader mem; scpiLex_CharacterProgramData mem;
    scpiLex_DecimalNumericProgramData mem; scpiLex_SuffixProgramData mem;
    scpiLex_NondecimalNumericData mem; scpiLex_StringProgramData mem;
    scpiLex_ProgramExpression mem 0; scpiLex_Comma mem; scpiLex_Semicolon mem;
    scpiLex_Colon mem; (fun st => scpiLex_SpecificCharacter mem st chr); scpiLex_NewLine mem ].

(** The recogniser of blocks: what begins the block is on the line; the
    contents follow it and are as long as it says, wherever the line ends.
    Without a block nothing is reported, and the cursor is where it was, or
    at the line's end if the line ends where the block begins. *)
Definition took_block (st : lex_state_t) (res : Z * scpi_token_t * lex_state_t) : Prop :=
  let '(n, tok, st') := res in
  l_buffer st' = l_buffer st /\ l_len st' = l_len st /\ 0 <= t_len tok /\
  (t_type tok = SCPI_TOKEN_ARBITRARY_BLOCK_PROGRAM_DATA /\
     l_pos st < t_ptr tok <= l_end st /\ l_pos st' = t_ptr tok + t_len tok /\ n = l_pos st' - l_pos st \/
   t_type tok = SCPI_TOKEN_UNKNOWN /\ n = 0 /\ t_len tok = 0 /\
     (l_pos st' = l_pos st \/ l_pos st' = l_end st)).

Ltac took_cases :=
  split_and!; intros; try done; try congruence; try lia; try (split; intros; (congruence || lia)).

Lemma token_from_took ty st st' :
  ty <> SCPI_TOKEN_UNKNOWN -> ext st st' ->
  took st (t_len (token_from ty (l_pos st) st'), token_from ty (l_pos st) st', st').
Proof.
  intros Hty He. pose proof (ext_forward _ _ He). unfold took, token_from. cbn.
  split; [done|]. split; [done|]. split; [lia|]. split; [|lia].
  destruct (Z.ltb_spec 0 (l_pos st' - l_pos st)); split; try done; lia.
Qed.

(** The recognisers that test the length themselves and back off. *)
Lemma tested_took ty st st' :
  ty <> SCPI_TOKEN_UNKNOWN -> ext st st' ->
  took st (if 0 <? l_pos st' - l_pos st
           then (l_pos st' - l_pos st, mkTok ty (l_pos st) (l_pos st' - l_pos st), st')
           else (0, mkTok SCPI_TOKEN_UNKNOWN (l_pos st) 0, set_pos (l_pos st) st')).
Proof.
  intros Hty He. destruct (Z.ltb_spec 0 (l_pos st' - l_pos st)); unfold took; cbn.
  - took_cases.
  - split; [|took_cases]. apply (ext_back _ _ _ He). destruct He. lia.
Qed.

Lemma nothing_took st st' :
  ext st st' -> took st (0, mkTok SCPI_TOKEN_UNKNOWN (l_pos st) 0, set_pos (l_pos st) st').
Proof.
  intros He. unfold took. cbn. split; [|took_cases].
  apply (ext_back _ _ _ He). destruct He. lia.
Qed.

Section Took.
Variable mem : list Z.

Lemma WhiteSpace_took st : took st (scpiLex_WhiteSpace mem st).
Proof.
  unfold scpiLex_WhiteSpace, skipWs. destruct (skip_while _ _ _) as [n st1] eqn:E. moves.
  now apply token_from_took.
Qed.

Lemma CharacterProgramData_took st : took st (scpiLex_CharacterProgramData mem st).
Proof. unfold scpiLex_CharacterProgramData. apply token_from_took; [done|apply mnemonic_ext]. Qed.

Lemma lex_chr_took ty chr st : ty <> SCPI_TOKEN_UNKNOWN -> took st (lex_chr mem ty chr st).
Proof.
  intros Hty. unfold lex_chr, skipChr. destruct (skip_one _ _ _) as [r st1] eqn:E.
  pose proof (skip_one_none mem (fun c => c =? chr) st st1) as Hn.
  destruct (skip_one_ext _ _ _ _ _ E) as (He & Hr & [Hr'|Hr']); rewrite Hr' in *; cbn [truthy negb Z.eqb].
  - rewrite (Hn E). unfold took. cbn. took_cases.
  - unfold took. cbn. took_cases.
Qed.

Lemma NewLine_took st : took st (scpiLex_NewLine mem st).
Proof.
  unfold scpiLex_NewLine, skipChr.
  destruct (skip_one mem _ st) as [r1 st1] eqn:E1. destruct (skip_one mem _ st1) as [r2 st2] eqn:E2.
  moves. apply tested_took; [done|]. now transitivity st1.
Qed.

Lemma ProgramExpression_took st : took st (scpiLex_ProgramExpression mem 0 st).
Proof.
  unfold scpiLex_ProgramExpression, skipProgramExpression.
  destruct (look _ _ st) eqn:E1; [|apply nothing_took; reflexivity].
  apply look_eos, ext_adv1 in E1.
  pose proof (snd_skip_while_ext mem isProgramExpression (adv 1 st)) as E2.
  destruct (look _ _ (snd _)) eqn:E3.
  - apply look_eos, ext_adv1 in E3. apply tested_took; [done|].
    etransitivity; [exact E1|]. etransitivity; [exact E2|exact E3].
  - cbv beta iota zeta. cbn [Z.ltb Z.compare]. apply nothing_took. now transitivity (adv 1 st).
Qed.

Lemma StringProgramData_took st : took st (scpiLex_StringProgramData mem st).
Proof.
  unfold scpiLex_StringProgramData.
  assert (Hq : forall q ty, ty <> SCPI_TOKEN_UNKNOWN -> iseos st = false ->
            let st1 := skipQuoteProgramData mem (adv 1 st) q in
            let st' := if negb (iseos st1) && ischr mem st1 q then adv 1 st1
                       else set_pos (l_pos st) st1 in
            took st (let n := l_pos st' - l_pos st in
              if 0 <? n then (n, mkTok ty (l_pos st) n, st')
              else (0, mkTok SCPI_TOKEN_UNKNOWN (l_pos st) 0, set_pos (l_pos st) st'))).
  { intros q ty Hty He st1. assert (E1 : ext st st1).
    { etransitivity; [apply ext_adv1, He|apply skipQuote_loop_ext]. }
    cbv zeta. apply tested_took; [done|].
    destruct (iseos st1) eqn:Ee1; cbn [negb andb]; [|destruct (ischr mem st1 q)].
    - apply (ext_back _ _ _ E1). destruct E1. lia.
    - etransitivity; [exact E1|apply ext_adv1, Ee1].
    - apply (ext_back _ _ _ E1). destruct E1. lia. }
  assert (Hu : took st (let n := l_pos st - l_pos st in
              if 0 <? n then (n, mkTok SCPI_TOKEN_UNKNOWN (l_pos st) n, st)
              else (0, mkTok SCPI_TOKEN_UNKNOWN (l_pos st) 0, set_pos (l_pos st) st))).
  { rewrite Z.sub_diag. apply nothing_took. reflexivity. }
  destruct (iseos st) eqn:Ee; cbn [negb]; [exact Hu|].
  destruct (ischr mem st 34); [exact (Hq 34 SCPI_TOKEN_DOUBLE_QUOTE_PROGRAM_DATA ltac:(done) eq_refl)|].
  destruct (ischr mem st 39); [exact (Hq 39 SCPI_TOKEN_SINGLE_QUOTE_PROGRAM_DATA ltac:(done) eq_refl)|].
  exact Hu.
Qed.

Lemma skipMantisa_ext st n st' : skipMantisa mem st = (n, st') -> ext st st'.
Proof.
  unfold skipMantisa, skipPlusmn, skipNumbers, skipChr.
  destruct (skip_one mem isplusmn st) as [r1 st1] eqn:E1.
  destruct (skip_while mem isdigit st1) as [r2 st2] eqn:E2.
  destruct (skip_one mem _ st2) as [r3 st3] eqn:E3.
  destruct (skip_while mem isdigit st3) as [r4 st4] eqn:E4.
  moves; (destruct (truthy _); intros [= <- <-]);
    ext_chain.
Qed.

Lemma skipExponent_ext st n st' : skipExponent mem st = (n, st') -> ext st st'.
Proof.
  unfold skipExponent, skipPlusmn, skipNumbers, skipWs.
  destruct (look mem isE st) eqn:E; [|now intros [= <- <-]]. apply look_eos, ext_adv1 in E.
  destruct (skip_while mem isws (adv 1 st)) as [r1 st1] eqn:E1.
  destruct (skip_one mem isplusmn st1) as [r2 st2] eqn:E2. intros E3.
  moves; ext_chain.
Qed.

Lemma DecimalNumericProgramData_took st : took st (scpiLex_DecimalNumericProgramData mem st).
Proof.
  unfold scpiLex_DecimalNumericProgramData, skipWs.
  destruct (skipMantisa mem st) as [n st1] eqn:E1. apply skipMantisa_ext in E1.
  apply token_from_took; [done|]. pose proof (ext_forward _ _ E1).
  destruct (truthy n); [|apply (ext_back _ _ _ E1); lia].
  destruct (skip_while mem isws st1) as [w st2] eqn:E2.
  destruct (skipExponent mem st2) as [e st3] eqn:E3. apply skipExponent_ext in E3. moves.
  assert (ext st st3) as E4 by (etransitivity; [exact E1|]; now transitivity st2).
  destruct (truthy e); [exact E4|]. apply (ext_back _ _ _ E4).
  split; [done|]. etransitivity; eapply ext_forward; eassumption.
Qed.

Lemma SuffixProgramData_took st : took st (scpiLex_SuffixProgramData mem st).
Proof.
  unfold scpiLex_SuffixProgramData, skipChr, skipAlpha, skipDigit.
  destruct (skip_one mem _ st) as [r st1] eqn:E1. destruct (skip_while mem _ st1) as [n st2] eqn:E2.
  moves. assert (ext st st2) by (now transitivity st1).
  apply tested_took; [done|]. destruct (truthy _); [|done].
  destruct (skip_one mem _ st2) as [r3 st3] eqn:E3. destruct (skip_one mem _ st3) as [r4 st4] eqn:E4.
  moves; (etransitivity; [|apply suffix_loop_ext]; ext_chain).
Qed.

Lemma NondecimalNumericData_took st : took st (scpiLex_NondecimalNumericData mem st).
Proof.
  unfold scpiLex_NondecimalNumericData, skipChr, skipHexNum, skipOctNum, skipBinNum.
  destruct (skip_one mem _ st) as [r st1] eqn:E1. destruct (skip_one_ext _ _ _ _ _ E1) as (H1 & H2 & H3).
  assert (Hd : forall n ty st2, ty <> SCPI_TOKEN_UNKNOWN -> truthy r = true -> l_pos st1 < l_end st1 ->
            ext (adv 1 st1) st2 -> n = l_pos st2 - l_pos (adv 1 st1) ->
            took st (if truthy n then
              let token := mkTok ty (l_pos st + 2) (l_pos st2 - (l_pos st + 2)) in
              (if 0 <? t_len token then t_len token + 2 else 0, token, st2)
              else (0, mkTok SCPI_TOKEN_UNKNOWN (l_pos st) 0, set_pos (l_pos st) st2))).
  { intros n ty st2 Hty Hr He H4 Hn. assert (r = 1) by (destruct H3 as [->| ->]; done).
    apply Z.leb_gt, ext_adv1 in He. assert (ext st st2).
    { etransitivity; [exact H1|]. etransitivity; [exact He|exact H4]. }
    pose proof (ext_forward _ _ H4). cbn in *.
    destruct (truthy n) eqn:En; [|now apply nothing_took].
    unfold truthy in En. apply negb_true_iff, Z.eqb_neq in En. unfold took. cbn.
    destruct (Z.ltb_spec 0 (l_pos st2 - (l_pos st + 2))); [|lia]. took_cases. }
  assert (Hz : forall st2, ext st st2 -> took st (if truthy 0 then
              let token := mkTok SCPI_TOKEN_UNKNOWN (l_pos st + 2) (l_pos st2 - (l_pos st + 2)) in
              (if 0 <? t_len token then t_len token + 2 else 0, token, st2)
              else (0, mkTok SCPI_TOKEN_UNKNOWN (l_pos st) 0, set_pos (l_pos st) st2)))
    by (intros; now apply nothing_took).
  destruct (truthy r) eqn:Er; [|now apply Hz].
  destruct (look mem isH st1) eqn:EH; [|destruct (look mem isQ st1) eqn:EQ; [|destruct (look mem isB st1) eqn:EB]];
    [..|now apply Hz];
    (destruct (skip_while mem _ _) as [n st2] eqn:E2; moves; apply Hd; done).
Qed.

Lemma ProgramHeader_took st : took st (scpiLex_ProgramHeader mem st).
Proof.
  unfold scpiLex_ProgramHeader.
  destruct (skipCommonProgramHeader mem st) as [res st1] eqn:E1.
  apply skipCommonProgramHeader_ext in E1 as (H1 & H2 & H3).
  assert (Hq : forall st2 ty1 ty2, ext st st2 -> l_pos st < l_pos st2 ->
            ty1 <> SCPI_TOKEN_UNKNOWN -> ty2 <> SCPI_TOKEN_UNKNOWN ->
            took st (let '(ty, st3) := let '(q, st3) := skipChr mem st2 63 in
                       if SKIP_OK <=? q then (ty1, st3) else (ty2, st3) in
                     if decide (ty <> SCPI_TOKEN_UNKNOWN)
                     then (l_pos st3 - l_pos st, mkTok ty (l_pos st) (l_pos st3 - l_pos st), st3)
                     else (0, mkTok ty (l_pos st) 0, set_pos (l_pos st) st3))).
  { intros st2 ty1 ty2 He Hp Ht1 Ht2. unfold skipChr. destruct (skip_one _ _ _) as [q st3] eqn:E.
    destruct (skip_one_ext _ _ _ _ _ E) as (He3 & _ & Hq).
    assert (ext st st3) by (now transitivity st2). pose proof (ext_forward _ _ He3).
    destruct Hq as [->| ->]; cbn; rewrite decide_True by done; unfold took; cbn; took_cases. }
  unfold SKIP_OK, SKIP_INCOMPLETE in *.
  destruct (Z.leb_spec 1 res); [apply Hq; try done; apply H3; lia|].
  destruct (Z.leb_spec res (-1)).
  { specialize (H3 ltac:(lia)). rewrite decide_True by done. unfold took. cbn. took_cases. }
  rewrite (H2 ltac:(lia)).
  destruct (skipCompoundProgramHeader mem st) as [res2 st2] eqn:E2.
  apply skipCompoundProgramHeader_ext in E2 as (H4 & H5).
  destruct (Z.leb_spec 1 res2); [apply Hq; try done; apply H5; lia|].
  destruct (Z.leb_spec res2 (-1)).
  - specialize (H5 ltac:(lia)). rewrite decide_True by done. unfold took. cbn. took_cases.
  - rewrite decide_False by naive_solver. now apply nothing_took.
Qed.

Lemma block_digits_ext i n st k m st' :
  block_digits mem i n st = (k, m, st') -> 0 <= n -> ext st st' /\ 0 <= m.
Proof.
  revert n st. induction i as [|i IH]; intros n st; cbn [block_digits]; [now intros [= <- <- <-]|].
  destruct (look mem isdigit st) eqn:E; [|now intros [= <- <- <-]].
  pose proof (look_eos mem _ _ E) as He. unfold look in E. rewrite He in E. cbn [negb andb] in E.
  unfold isdigit in E. apply andb_true_iff in E as [E _]. apply Z.leb_le in E.
  intros Hb Hn. apply IH in Hb as [Hx Hm]; [|lia]. split; [|exact Hm].
  etransitivity; [apply ext_adv1, He|exact Hx].
Qed.

Lemma ArbitraryBlock_took st : took_block st (scpiLex_ArbitraryBlockProgramData mem st).
Proof.
  unfold scpiLex_ArbitraryBlockProgramData, skipChr.
  destruct (skip_one mem _ st) as [r st1] eqn:E1. destruct (skip_one_ext _ _ _ _ _ E1) as (H1 & H2 & H3). clear E1.
  assert (forall v st2, ext st st2 -> took_block st
    (let '(token, st3) := if v =? 1 then (mkTok SCPI_TOKEN_ARBITRARY_BLOCK_PROGRAM_DATA (l_pos st) 0, st2)
       else if v =? 0 then (mkTok SCPI_TOKEN_UNKNOWN (l_pos st) 0, set_pos (l_end st2) st2)
       else (mkTok SCPI_TOKEN_UNKNOWN (l_pos st) 0, set_pos (l_pos st) st2) in
     (t_len token + (t_ptr token - l_pos st), token, st3)) \/ v = 1) as Hnone.
  { intros v st2 []. destruct (Z.eqb_spec v 1); [now right|left].
    assert (l_end st2 = l_end st) by (unfold l_end; congruence).
    destruct (v =? 0); unfold took_block; cbn [l_buffer l_len l_pos set_pos t_len t_type t_ptr];
      split_and!; try done; try lia; right; split_and!; try done; try lia; auto. }
  assert (forall v st2, v <> 1 -> ext st st2 -> took_block st
    (let '(token, st3) := if v =? 1 then (mkTok SCPI_TOKEN_ARBITRARY_BLOCK_PROGRAM_DATA (l_pos st) 0, st2)
       else if v =? 0 then (mkTok SCPI_TOKEN_UNKNOWN (l_pos st) 0, set_pos (l_end st2) st2)
       else (mkTok SCPI_TOKEN_UNKNOWN (l_pos st) 0, set_pos (l_pos st) st2) in
     (t_len token + (t_ptr token - l_pos st), token, st3))) as Hn.
  { intros v st2 Hv He. now destruct (Hnone v st2 He). }
  clear Hnone. destruct (truthy r) eqn:Er; [|now apply (Hn (-1) st1)].
  destruct (look mem isNonzeroDigit st1) eqn:E2.
  2:{ destruct (iseos st1); [now apply (Hn 0 st1)|now apply (Hn (-1) st1)]. }
  apply look_eos, ext_adv1 in E2.
  destruct (block_digits _ _ _ _) as [[k m] st2] eqn:E3. apply block_digits_ext in E3 as [E3 Hm]; [|done].
  assert (ext (adv 1 st1) st2) by exact E3. assert (ext st st2) as He by (etransitivity; [exact H1|now transitivity (adv 1 st1)]).
  destruct (decide (k = O)); [|destruct (iseos st2); [now apply (Hn 0 st2)|now apply (Hn (-1) st2)]].
  cbv beta iota zeta. unfold Z.eqb, Pos.eqb.
  assert (r = 1) by (destruct H3 as [->| ->]; done).
  pose proof (ext_inside _ _ E2). pose proof (ext_inside _ _ E3). pose proof (ext_inside _ _ H1).
  pose proof (ext_forward _ _ E3). pose proof (ext_len _ _ H1). pose proof (ext_buffer _ _ H1). destruct He.
  unfold took_block, l_end in *. cbn in *. split_and!; try done.
  left. split_and!; try done; lia.
Qed.
End Took.



(** ** Reading a given text *)

(** The characters from the cursor to the end of the line are [l]. *)
Definition at_text (mem : list Z) (st : lex_state_t) (l : list Z) : Prop :=
  0 <= l_pos st /\ l_end st = l_pos st + Z.of_nat (length l) /\
  take (length l) (drop (Z.to_nat (l_pos st)) mem) = l.

(** A whole line. *)
Definition line (l : list Z) : lex_state_t := mkLex 0 0 (Z.of_nat (length l)).

Lemma at_line l : at_text l (line l) l.
Proof. split_and!; [done|done|]. cbn. now rewrite firstn_all. Qed.

(** The first character of the rest does not satisfy [p]. *)
Definition stops (p : Z -> bool) (r : list Z) : Prop :=
  match r with c :: _ => p c = false | [] => True end.

(** The string [s] between quotes [q], and the value of decimal digits. *)
Definition escape (q : Z) (s : list Z) : list Z :=
  flat_map (fun c => if c =? q then [q; q] else [c]) s.
Definition quoted (q : Z) (s : list Z) : list Z := q :: escape q s ++ [q].
Definition digits_value (ds : list Z) (n : Z) : Z :=
  foldl (fun n c => n * 10 + (c - 48)) n ds.

Section Text.
Context {mem : list Z}.
#[local] Abbreviation at_ := (at_text mem).

Lemma at_nil st : at_ st [] -> iseos st = true.
Proof. intros (_ & He & _). apply Z.leb_le. cbn in He. lia. Qed.

Lemma at_app st a r : at_ st (a ++ r) -> at_ (adv (Z.of_nat (length a)) st) r.
Proof.
  intros (H0 & He & Ht). unfold at_text, l_end, adv, set_pos in *.
  rewrite length_app in *. cbn [l_pos l_buffer l_len] in *. split_and!; [lia|lia|].
  apply (f_equal (drop (length a))) in Ht. rewrite drop_app_length in Ht.
  rewrite <- Ht at 2. rewrite skipn_firstn_comm, drop_drop. f_equal; [lia|]. f_equal. lia.
Qed.

Lemma at_cons st c l :
  at_ st (c :: l) -> iseos st = false /\ cur mem st = c /\ at_ (adv 1 st) l.
Proof.
  intros H. split_and!.
  - destruct H as (_ & He & _). apply Z.leb_gt. cbn [length] in He. lia.
  - destruct H as (_ & _ & Ht). unfold cur.
    apply (f_equal (fun l => l !! 0%nat)) in Ht. cbn [length lookup list_lookup] in Ht.
    rewrite lookup_take_lt, lookup_drop, Nat.add_0_r in Ht by lia. now rewrite Ht.
  - exact (at_app st [c] l H).
Qed.

Lemma look_cons p st c l : at_ st (c :: l) -> look mem p st = p c.
Proof. intros H. destruct (at_cons _ _ _ H) as (He & Hc & _). unfold look. now rewrite He, Hc. Qed.

Lemma look_stops p st r : at_ st r -> stops p r -> look mem p st = false.
Proof.
  intros H Hs. destruct r as [|c r].
  - unfold look. now rewrite (at_nil st H).
  - now rewrite (look_cons p st c r).
Qed.

Lemma skip_one_at p st c r : at_ st (c :: r) -> p c = true -> skip_one mem p st = (1, adv 1 st).
Proof. intros H Hp. unfold skip_one. now rewrite (look_cons p st c r), Hp. Qed.

Lemma skip_one_stops p st r : at_ st r -> stops p r -> skip_one mem p st = (0, st).
Proof. intros H Hp. unfold skip_one. now rewrite (look_stops p st r). Qed.

Lemma adv_adv m n st : adv m (adv n st) = adv (n + m) st.
Proof. unfold adv, set_pos. cbn. f_equal. lia. Qed.

Lemma adv_0 st : adv 0 st = st.
Proof. destruct st. unfold adv, set_pos. cbn. f_equal. lia. Qed.

Lemma skip_loop_at fuel p n st a r :
  at_ st (a ++ r) -> Forall (fun c => p c = true) a -> stops p r -> (length a <= fuel)%nat ->
  skip_loop mem fuel p n st = (n + Z.of_nat (length a), adv (Z.of_nat (length a)) st).
Proof.
  intros H Ha Hr. revert fuel n st H. induction Ha as [|c a Hc Ha IH]; intros fuel n st H Hf.
  - cbn in *. rewrite adv_0, Z.add_0_r. destruct fuel; [done|]. cbn. now rewrite (look_stops p st r).
  - destruct fuel as [|fuel]; [cbn in Hf; lia|]. cbn [skip_loop app] in *.
    rewrite (look_cons p st c (a ++ r) H), Hc.
    rewrite IH by (first [apply (at_cons st c (a ++ r) H) | cbn in Hf; lia]).
    rewrite adv_adv. cbn [length]. f_equal; [lia|f_equal; lia].
Qed.

(** A run of [skip_while] passes the longest prefix of the rest. *)
Lemma skip_while_at p st a r :
  at_ st (a ++ r) -> Forall (fun c => p c = true) a -> stops p r ->
  skip_while mem p st = (Z.of_nat (length a), adv (Z.of_nat (length a)) st).
Proof.
  intros H Ha Hr. unfold skip_while. rewrite (skip_loop_at _ p 0 st a r); try done.
  destruct H as (_ & He & _). rewrite length_app in He. lia.
Qed.

(** ** Strings *)

Lemma skipQuote_loop_at fuel q st s r :
  at_ st (escape q s ++ q :: r) -> Forall (fun c => isascii7bit c = true) s ->
  stops (fun c => c =? q) r -> (length (escape q s) < fuel)%nat ->
  skipQuote_loop mem fuel q st = adv (Z.of_nat (length (escape q s))) st.
Proof.
  intros H Hs Hr. revert fuel st H. induction Hs as [|c s Hc Hs IH]; intros fuel st H Hf.
  - destruct fuel as [|fuel]; [cbn in Hf; lia|]. cbn [escape flat_map app length skipQuote_loop] in *.
    destruct (at_cons _ _ _ H) as (He & Hq & H1). rewrite He, adv_0. cbn [negb].
    unfold ischr. rewrite Hq, Z.eqb_refl, andb_false_r.
    pose proof (look_stops (fun c => c =? q) (adv 1 st) r H1 Hr) as Hl. unfold look in Hl.
    rewrite Hl. rewrite adv_adv. apply adv_0.
  - destruct fuel as [|fuel]; [cbn in Hf; lia|]. cbn [escape flat_map] in *. fold (escape q s) in *.
    destruct (Z.eqb_spec c q) as [->|Hne]; cbn [app length skipQuote_loop] in *;
      destruct (at_cons _ _ _ H) as (He & Hq & H1); rewrite He; cbn [negb]; unfold ischr at 1; rewrite Hq.
    + rewrite Z.eqb_refl, andb_false_r. unfold ischr at 1. rewrite Hq, Z.eqb_refl.
      destruct (at_cons _ _ _ H1) as (He1 & Hq1 & H2). unfold ischr. rewrite He1, Hq1, Z.eqb_refl. cbn [negb andb].
      rewrite (IH fuel) by (done || lia). rewrite !adv_adv. f_equal. lia.
    + rewrite Hc, (proj2 (Z.eqb_neq _ _) Hne). cbn [negb andb].
      rewrite (IH fuel) by (done || lia). rewrite !adv_adv. f_equal. lia.
Qed.

(** A quoted string is passed as one token, its quotes included. *)
Lemma string_token q ty st s r :
  (q, ty) = (34, SCPI_TOKEN_DOUBLE_QUOTE_PROGRAM_DATA) \/
  (q, ty) = (39, SCPI_TOKEN_SINGLE_QUOTE_PROGRAM_DATA) ->
  Forall (fun c => isascii7bit c = true) s -> stops (fun c => c =? q) r ->
  at_ st (quoted q s ++ r) ->
  let n := Z.of_nat (length (quoted q s)) in
  scpiLex_StringProgramData mem st = (n, mkTok ty (l_pos st) n, adv n st).
Proof.
  intros Hq Hs Hr H. unfold quoted in *. rewrite <- app_comm_cons, <- app_assoc in H. cbn [app] in H.
  destruct (at_cons _ _ _ H) as (He & Hc & H1).
  assert (Hloop : skipQuoteProgramData mem (adv 1 st) q = adv (1 + Z.of_nat (length (escape q s))) st).
  { unfold skipQuoteProgramData. rewrite (skipQuote_loop_at _ q (adv 1 st) s r); try done; [now rewrite adv_adv|].
    destruct H1 as (_ & H1 & _). rewrite length_app in H1. cbn [length] in H1. lia. }
  pose proof (at_app _ _ _ H1) as H2. rewrite adv_adv in H2.
  destruct (at_cons _ _ _ H2) as (He2 & Hc2 & _).
  assert (Hn : Z.of_nat (length (q :: escape q s ++ [q])) = 2 + Z.of_nat (length (escape q s)))
    by (cbn [length]; rewrite length_app; cbn [length]; lia).
  assert (Hfin : forall t, (let n := l_pos (adv 1 (adv (1 + Z.of_nat (length (escape q s))) st)) - l_pos st in
             if 0 <? n then (n, mkTok t (l_pos st) n, adv 1 (adv (1 + Z.of_nat (length (escape q s))) st))
             else (0, mkTok SCPI_TOKEN_UNKNOWN (l_pos st) 0, set_pos (l_pos st) (adv 1 (adv (1 + Z.of_nat (length (escape q s))) st)))) =
           (Z.of_nat (length (q :: escape q s ++ [q])),
            mkTok t (l_pos st) (Z.of_nat (length (q :: escape q s ++ [q]))),
            adv (Z.of_nat (length (q :: escape q s ++ [q]))) st)).
  { intros t. rewrite adv_adv, Hn. cbn [l_pos adv set_pos].
    replace (l_pos st + (1 + Z.of_nat (length (escape q s)) + 1) - l_pos st)
      with (2 + Z.of_nat (length (escape q s))) by lia.
    destruct (Z.ltb_spec 0 (2 + Z.of_nat (length (escape q s)))); [|lia]. f_equal. f_equal. lia. }
  unfold scpiLex_StringProgramData, skipDoubleQuoteProgramData, skipSingleQuoteProgramData, ischr.
  rewrite He, Hc. cbn [negb].
  destruct Hq as [[= -> ->]|[= -> ->]]; cbn [Z.eqb Pos.eqb];
    rewrite Hloop, He2, Hc2; cbn [negb andb Z.eqb Pos.eqb]; apply Hfin.
Qed.

(** ** Blocks *)

Lemma block_digits_at ds n st r :
  at_ st (ds ++ r) -> Forall (fun c => isdigit c = true) ds ->
  block_digits mem (length ds) n st = (0%nat, digits_value ds n, adv (Z.of_nat (length ds)) st).
Proof.
  intros H Hd. revert n st H. induction Hd as [|c ds Hc Hd IH]; intros n st H; cbn [length block_digits].
  - now rewrite adv_0.
  - cbn [app] in H. destruct (at_cons _ _ _ H) as (He & Hcur & H1).
    rewrite (look_cons isdigit st c (ds ++ r) H), Hc, Hcur, IH by done. rewrite adv_adv. cbn [digits_value foldl].
    repeat f_equal. lia.
Qed.

(** A block header announces the block: the token is the announced number
    of bytes after the header, whether or not they are on the line. *)
Lemma block_token st ds r :
  (1 <= length ds <= 9)%nat -> Forall (fun c => isdigit c = true) ds ->
  at_ st (35 :: (48 + Z.of_nat (length ds)) :: ds ++ r) -> 
  let h := 2 + Z.of_nat (length ds) in
  let n := digits_value ds 0 in
  scpiLex_ArbitraryBlockProgramData mem st =
    (h + n, mkTok SCPI_TOKEN_ARBITRARY_BLOCK_PROGRAM_DATA (l_pos st + h) n, adv (h + n) st).
Proof.
  intros Hl Hd H h n. unfold scpiLex_ArbitraryBlockProgramData, skipChr.
  rewrite (skip_one_at _ st 35 _ H) by done. cbn [truthy negb Z.eqb].
  destruct (at_cons _ _ _ H) as (_ & _ & H1). destruct (at_cons _ _ _ H1) as (_ & Hc & H2).
  assert (Hnz : isNonzeroDigit (48 + Z.of_nat (length ds)) = true).
  { unfold isNonzeroDigit, isdigit, chr_in. apply andb_true_iff. split;
      [apply andb_true_iff; split; apply Z.leb_le; lia|apply negb_true_iff, Z.eqb_neq; lia]. }
  rewrite (look_cons isNonzeroDigit _ _ _ H1), Hnz, Hc.
  replace (Z.to_nat (48 + Z.of_nat (length ds) - 48)) with (length ds) by lia.
  rewrite (block_digits_at ds 0 _ r H2 Hd). rewrite decide_True by done. cbn [Z.eqb].
  fold n. rewrite !adv_adv. cbn [l_pos adv set_pos t_len t_ptr]. unfold h.
  f_equal; [cbn [t_len t_ptr]; f_equal; [lia|f_equal; lia]|f_equal; lia].
Qed.
End Text.
