(* ===== verification/ScpiCore.v ===== *)
(** * ScpiCore: libscpi's context, status registers and error queue

    The state [scpi_t] of the SCPI library, its IEEE 488.2 status registers
    (ieee488.c) and its error queue (error.c).  [status_consistent] shows the
    status byte always summarises the registers and the queue. *)

From Stdlib Require Import ZArith Lia String Ascii.
From stdpp Require Import base numbers list.
From S2P Require Import Prelude ScpiFifo Lexer.

#[local] Open Scope c_scope.

(** The bytes of a string literal. *)
Fixpoint str (s : string) : list Z :=
  match s with
  | EmptyString => []
  | String a s => Z.of_N (N_of_ascii a) :: str s
  end.

Arguments str s%_string.

(** ** The context *)

(** The application's callbacks; those that may be null are options.  They
    act on the bytes queued for the connection. *)
Record scpi_interface_t := mkIface {
    if_error : option (Z -> list Z -> Z * list Z);
    if_write : list Z -> list Z -> Z * list Z;
    if_control : option (Z -> Z -> list Z -> Z * list Z);
    if_flush : option (list Z -> Z * list Z);
    if_reset : option (list Z -> Z * list Z);
  }.

Inductive message_termination_t :=
  | SCPI_MESSAGE_TERMINATION_NONE
  | SCPI_MESSAGE_TERMINATION_NL
  | SCPI_MESSAGE_TERMINATION_SEMICOLON.

Record scpi_parser_state_t := mkParser {
    programHeader : scpi_token_t;
    programData : scpi_token_t;
    numberOfParameters : Z;
    termination : message_termination_t;
  }.

Record scpi_t := mkScpi {
    interface : option scpi_interface_t;
    output_count : Z;
    input_count : Z;
    cmd_error : bool;
    error_queue : scpi_fifo_t;
    registers : list Z;
    parser_state : scpi_parser_state_t;
    lex_state : lex_state_t;   (** [param_list.lex_state] *)
    cmd_raw : Z * Z;   (** [param_list.cmd_raw]: data and length *)
    idn : list (option (list Z));
    arbitrary_reminding : Z;
    memory : list Z;   (** the memory that holds the line *)
    sink : list Z;   (** the bytes given to ethernet_copy_queue *)
  }.

Definition with_output_count (v : Z) (c : scpi_t) : scpi_t :=
  mkScpi (interface c) v (input_count c) (cmd_error c) (error_queue c) (registers c)
    (parser_state c) (lex_state c) (cmd_raw c) (idn c) (arbitrary_reminding c) (memory c)
    (sink c).
Definition with_input_count (v : Z) (c : scpi_t) : scpi_t :=
  mkScpi (interface c) (output_count c) v (cmd_error c) (error_queue c) (registers c)
    (parser_state c) (lex_state c) (cmd_raw c) (idn c) (arbitrary_reminding c) (memory c)
    (sink c).
Definition with_cmd_error (v : bool) (c : scpi_t) : scpi_t :=
  mkScpi (interface c) (output_count c) (input_count c) v (error_queue c) (registers c)
    (parser_state c) (lex_state c) (cmd_raw c) (idn c) (arbitrary_reminding c) (memory c)
    (sink c).
Definition with_error_queue (v : scpi_fifo_t) (c : scpi_t) : scpi_t :=
  mkScpi (interface c) (output_count c) (input_count c) (cmd_error c) v (registers c)
    (parser_state c) (lex_state c) (cmd_raw c) (idn c) (arbitrary_reminding c) (memory c)
    (sink c).
Definition with_registers (v : list Z) (c : scpi_t) : scpi_t :=
  mkScpi (interface c) (output_count c) (input_count c) (cmd_error c) (error_queue c) v
    (parser_state c) (lex_state c) (cmd_raw c) (idn c) (arbitrary_reminding c) (memory c)
    (sink c).
Definition with_parser_state (v : scpi_parser_state_t) (c : scpi_t) : scpi_t :=
  mkScpi (interface c) (output_count c) (input_count c) (cmd_error c) (error_queue c)
    (registers c) v (lex_state c) (cmd_raw c) (idn c) (arbitrary_reminding c) (memory c)
    (sink c).
Definition with_lex_state (v : lex_state_t) (c : scpi_t) : scpi_t :=
  mkScpi (interface c) (output_count c) (input_count c) (cmd_error c) (error_queue c)
    (registers c) (parser_state c) v (cmd_raw c) (idn c) (arbitrary_reminding c) (memory c)
    (sink c).
Definition with_cmd_raw (v : Z * Z) (c : scpi_t) : scpi_t :=
  mkScpi (interface c) (output_count c) (input_count c) (cmd_error c) (error_queue c)
    (registers c) (parser_state c) (lex_state c) v (idn c) (arbitrary_reminding c) (memory c)
    (sink c).
Definition with_arbitrary_reminding (v : Z) (c : scpi_t) : scpi_t :=
  mkScpi (interface c) (output_count c) (input_count c) (cmd_error c) (error_queue c)
    (registers c) (parser_state c) (lex_state c) (cmd_raw c) (idn c) v (memory c) (sink c).
Definition with_memory (v : list Z) (c : scpi_t) : scpi_t :=
  mkScpi (interface c) (output_count c) (input_count c) (cmd_error c) (error_queue c)
    (registers c) (parser_state c) (lex_state c) (cmd_raw c) (idn c) (arbitrary_reminding c) v
    (sink c).
Definition with_sink (v : list Z) (c : scpi_t) : scpi_t :=
  mkScpi (interface c) (output_count c) (input_count c) (cmd_error c) (error_queue c)
    (registers c) (parser_state c) (lex_state c) (cmd_raw c) (idn c) (arbitrary_reminding c)
    (memory c) v.


(** ** Status registers *)

Inductive scpi_reg_name_t :=
  | SCPI_REG_STB | SCPI_REG_SRE | SCPI_REG_ESR | SCPI_REG_ESE
  | SCPI_REG_OPER | SCPI_REG_OPERE | SCPI_REG_QUES | SCPI_REG_QUESE
  | SCPI_REG_COUNT.

#[export] Instance reg_name_eq_dec : EqDecision scpi_reg_name_t.
Proof. solve_decision. Defined.

Definition reg_index (name : scpi_reg_name_t) : nat :=
  match name with
  | SCPI_REG_STB => 0 | SCPI_REG_SRE => 1 | SCPI_REG_ESR => 2 | SCPI_REG_ESE => 3
  | SCPI_REG_OPER => 4 | SCPI_REG_OPERE => 5 | SCPI_REG_QUES => 6 | SCPI_REG_QUESE => 7
  | SCPI_REG_COUNT => 8
  end.

Definition STB_QMA : Z := 0x04.
Definition STB_QES : Z := 0x08.
Definition STB_ESR : Z := 0x20.
Definition STB_SRQ : Z := 0x40.
Definition STB_OPS : Z := 0x80.
Definition ESR_OPC : Z := 0x01.
Definition ESR_REQ : Z := 0x02.
Definition ESR_QER : Z := 0x04.
Definition ESR_DER : Z := 0x08.
Definition ESR_EER : Z := 0x10.
Definition ESR_CER : Z := 0x20.
Definition ESR_URQ : Z := 0x40.
Definition ESR_PON : Z := 0x80.
Definition SCPI_CTRL_SRQ : Z := 1.

Definition SCPI_RegGet (context : scpi_t) (name : scpi_reg_name_t) : Z :=
  if decide (name = SCPI_REG_COUNT) then 0
  else default 0 (registers context !! reg_index name).

Definition put_reg (name : scpi_reg_name_t) (val : Z) (context : scpi_t) : scpi_t :=
  with_registers (<[reg_index name := val]> (registers context)) context.

Definition writeControl (context : scpi_t) (ctrl val : Z) : Z * scpi_t :=
  match interface context with
  | Some i => match if_control i with
              | Some f => let '(r, out) := f ctrl val (sink context) in (r, with_sink out context)
              | None => (0, context)
              end
  | None => (0, context)
  end.

(** [SCPI_RegSet] calls itself through [regUpdate] and [regUpdateSTB]; the
    calls are nested at most three deep ([RegSet_depth]). *)
Fixpoint RegSet (depth : nat) (context : scpi_t) (name : scpi_reg_name_t) (val : Z) : scpi_t :=
  match depth with
  | O => context
  | S depth =>
      let regUpdate c n := RegSet depth c n (SCPI_RegGet c n) in
      let regUpdateSTB c v mask stbBits :=
        if truthy (v &&& SCPI_RegGet c mask)
        then RegSet depth c SCPI_REG_STB (SCPI_RegGet c SCPI_REG_STB ||| stbBits)
        else RegSet depth c SCPI_REG_STB (Z.ldiff (SCPI_RegGet c SCPI_REG_STB) stbBits) in
      if decide (name = SCPI_REG_COUNT) then context
      else
        let old_val := SCPI_RegGet context name in
        let context := put_reg name val context in
        let '(context, val, srq) :=
          match name with
          | SCPI_REG_STB =>
              let mask := Z.ldiff (SCPI_RegGet context SCPI_REG_SRE) STB_SRQ in
              if truthy (val &&& mask) then
                let val := val ||| STB_SRQ in
                (context, val, negb (old_val =? val))
              else (context, Z.ldiff val STB_SRQ, false)
          | SCPI_REG_SRE => (regUpdate context SCPI_REG_STB, val, false)
          | SCPI_REG_ESR => (regUpdateSTB context val SCPI_REG_ESE STB_ESR, val, false)
          | SCPI_REG_ESE => (regUpdate context SCPI_REG_ESR, val, false)
          | SCPI_REG_QUES => (regUpdateSTB context val SCPI_REG_QUESE STB_QES, val, false)
          | SCPI_REG_QUESE => (regUpdate context SCPI_REG_QUES, val, false)
          | SCPI_REG_OPER => (regUpdateSTB context val SCPI_REG_OPERE STB_OPS, val, false)
          | SCPI_REG_OPERE => (regUpdate context SCPI_REG_OPER, val, false)
          | SCPI_REG_COUNT => (context, val, false)
          end in
        let context := put_reg name val context in
        if (srq : bool) then snd (writeControl context SCPI_CTRL_SRQ (SCPI_RegGet context SCPI_REG_STB))
        else context
  end.

Definition SCPI_RegSet : scpi_t -> scpi_reg_name_t -> Z -> scpi_t := RegSet 3.

Definition regUpdate (context : scpi_t) (name : scpi_reg_name_t) : scpi_t :=
  SCPI_RegSet context name (SCPI_RegGet context name).

Definition SCPI_RegSetBits (context : scpi_t) (name : scpi_reg_name_t) (bits : Z) : scpi_t :=
  SCPI_RegSet context name (SCPI_RegGet context name ||| bits).

Definition SCPI_RegClearBits (context : scpi_t) (name : scpi_reg_name_t) (bits : Z) : scpi_t :=
  SCPI_RegSet context name (Z.ldiff (SCPI_RegGet context name) bits).

Definition regUpdateSTB (context : scpi_t) (val : Z) (mask : scpi_reg_name_t) (stbBits : Z) : scpi_t :=
  if truthy (val &&& SCPI_RegGet context mask)
  then SCPI_RegSetBits context SCPI_REG_STB stbBits
  else SCPI_RegClearBits context SCPI_REG_STB stbBits.

Definition SCPI_EventClear (context : scpi_t) : scpi_t := SCPI_RegSet context SCPI_REG_ESR 0.

(** ** Errors *)

Definition SCPI_ERROR_NO_ERROR : Z := 0.
Definition SCPI_ERROR_INVALID_CHARACTER : Z := -101.
Definition SCPI_ERROR_INVALID_SEPARATOR : Z := -103.
Definition SCPI_ERROR_DATA_TYPE_ERROR : Z := -104.
Definition SCPI_ERROR_PARAMETER_NOT_ALLOWED : Z := -108.
Definition SCPI_ERROR_MISSING_PARAMETER : Z := -109.
Definition SCPI_ERROR_UNDEFINED_HEADER : Z := -113.
Definition SCPI_ERROR_INVALID_SUFFIX : Z := -131.
Definition SCPI_ERROR_SUFFIX_NOT_ALLOWED : Z := -138.
Definition SCPI_ERROR_INVALID_STRING_DATA : Z := -151.
Definition SCPI_ERROR_EXPRESSION_PARSING_ERROR : Z := -170.
Definition SCPI_ERROR_EXECUTION_ERROR : Z := -200.
Definition SCPI_ERROR_DATA_OUT_OF_RANGE : Z := -222.
Definition SCPI_ERROR_TOO_MUCH_DATA : Z := -223.
Definition SCPI_ERROR_ILLEGAL_PARAMETER_VALUE : Z := -224.
Definition SCPI_ERROR_SYSTEM_ERROR : Z := -310.
Definition SCPI_ERROR_QUEUE_OVERFLOW : Z := -350.
Definition SCPI_ERROR_INPUT_BUFFER_OVERRUN : Z := -363.

(** [SCPI_ErrorTranslate] of the library's minimal list of errors. *)
Definition SCPI_ErrorTranslate (err : Z) : list Z :=
  if err =? 0 then str "No error"
  else if err =? -101 then str "Invalid character"
  else if err =? -103 then str "Invalid separator"
  else if err =? -104 then str "Data type error"
  else if err =? -108 then str "Parameter not allowed"
  else if err =? -109 then str "Missing parameter"
  else if err =? -113 then str "Undefined header"
  else if err =? -131 then str "Invalid suffix"
  else if err =? -138 then str "Suffix not allowed"
  else if err =? -151 then str "Invalid string data"
  else if err =? -170 then str "Expression error"
  else if err =? -200 then str "Execution error"
  else if err =? -224 then str "Illegal parameter value"
  else if err =? -310 then str "System error"
  else if err =? -350 then str "Queue overflow"
  else if err =? -363 then str "Input buffer overrun"
  else str "Unknown error".

Definition SCPI_ErrorInit (context : scpi_t) (d : list Z) (sz : Z) : scpi_t :=
  with_error_queue (fifo_init d sz) context.

Definition SCPI_ErrorCount (context : scpi_t) : Z := fifo_count (error_queue context).

Definition interface_error (context : scpi_t) (err : Z) : scpi_t :=
  match interface context with
  | Some i => match if_error i with
              | Some f => with_sink (snd (f err (sink context))) context
              | None => context
              end
  | None => context
  end.

Definition SCPI_ErrorEmitEmpty (context : scpi_t) : scpi_t :=
  if (SCPI_ErrorCount context =? 0) && truthy (SCPI_RegGet context SCPI_REG_STB &&& STB_QMA)
  then interface_error (SCPI_RegClearBits context SCPI_REG_STB STB_QMA) 0
  else context.

Definition SCPI_ErrorEmit (context : scpi_t) (err : Z) : scpi_t :=
  interface_error (SCPI_RegSetBits context SCPI_REG_STB STB_QMA) err.

Definition SCPI_ErrorClear (context : scpi_t) : scpi_t :=
  SCPI_ErrorEmitEmpty (with_error_queue (fifo_clear (error_queue context)) context).

(** The popped code; 0 if there is none. *)
Definition SCPI_ErrorPop (context : scpi_t) : Z * scpi_t :=
  let '(_, error, q) := fifo_remove (error_queue context) (Some 0) in
  (default 0 error, SCPI_ErrorEmitEmpty (with_error_queue q context)).

Definition SCPI_ErrorAddInternal (context : scpi_t) (err : Z) : bool * scpi_t :=
  let '(ok, q) := fifo_add (error_queue context) (Some err) in
  if ok then (true, with_error_queue q context)
  else
    let '(_, _, q) := fifo_remove_last q (Some err) in
    let '(_, q) := fifo_add q (Some SCPI_ERROR_QUEUE_OVERFLOW) in
    (false, with_error_queue q context).

Definition errs : list (Z * Z * Z) :=
  [ (-100, -199, ESR_CER); (-200, -299, ESR_EER); (-300, -399, ESR_DER); (1, 32767, ESR_DER);
    (-400, -499, ESR_QER); (-500, -599, ESR_PON); (-600, -699, ESR_URQ); (-700, -799, ESR_REQ);
    (-800, -899, ESR_OPC) ].

(** The information text is discarded by a bare-metal build. *)
Definition SCPI_ErrorPushEx (context : scpi_t) (err : Z) : scpi_t :=
  let '(ok, context) := SCPI_ErrorAddInternal context err in
  let queue_overflow := negb ok in
  let context :=
    foldl (fun context '(from, to, esrBit) =>
             if (err <=? from) && (to <=? err)
             then SCPI_RegSetBits context SCPI_REG_ESR esrBit else context) context errs in
  let context := SCPI_ErrorEmit context err in
  let context := if queue_overflow then SCPI_ErrorEmit context SCPI_ERROR_QUEUE_OVERFLOW
                 else context in
  with_cmd_error true context.

Definition SCPI_ErrorPush (context : scpi_t) (err : Z) : scpi_t := SCPI_ErrorPushEx context err.

(** [*CLS]. *)
Definition SCPI_CoreCls (context : scpi_t) : scpi_t :=
  let context := SCPI_EventClear context in
  let context := SCPI_ErrorClear context in
  let context := SCPI_RegSet context SCPI_REG_OPER 0 in
  SCPI_RegSet context SCPI_REG_QUES 0.

(** [*OPC]. *)
Definition SCPI_CoreOpc (context : scpi_t) : scpi_t := SCPI_RegSetBits context SCPI_REG_ESR ESR_OPC.

(** [STATus:PRESet]. *)
Definition SCPI_StatusPreset (context : scpi_t) : scpi_t := SCPI_RegSet context SCPI_REG_QUES 0.

(** ** The effect on the registers *)

(** The status byte with its service request bit recomputed, and with a
    summary bit set or cleared first. *)
Definition with_srq (stb sre : Z) : Z :=
  if truthy (stb &&& Z.ldiff sre STB_SRQ) then stb ||| STB_SRQ else Z.ldiff stb STB_SRQ.
Definition summarise (stb bits : Z) (cond : bool) : Z := if cond then stb ||| bits else Z.ldiff stb bits.

(** The registers after [SCPI_RegSet name v]. *)
Definition regs_after (name : scpi_reg_name_t) (v : Z) (r : list Z) : list Z :=
  match r with
  | [stb; sre; esr; ese; oper; opere; ques; quese] =>
      match name with
      | SCPI_REG_STB => [with_srq v sre; sre; esr; ese; oper; opere; ques; quese]
      | SCPI_REG_SRE => [with_srq stb v; v; esr; ese; oper; opere; ques; quese]
      | SCPI_REG_ESR => [with_srq (summarise stb STB_ESR (truthy (v &&& ese))) sre;
                         sre; v; ese; oper; opere; ques; quese]
      | SCPI_REG_ESE => [with_srq (summarise stb STB_ESR (truthy (esr &&& v))) sre;
                         sre; esr; v; oper; opere; ques; quese]
      | SCPI_REG_OPER => [with_srq (summarise stb STB_OPS (truthy (v &&& opere))) sre;
                          sre; esr; ese; v; opere; ques; quese]
      | SCPI_REG_OPERE => [with_srq (summarise stb STB_OPS (truthy (oper &&& v))) sre;
                           sre; esr; ese; oper; v; ques; quese]
      | SCPI_REG_QUES => [with_srq (summarise stb STB_QES (truthy (v &&& quese))) sre;
                          sre; esr; ese; oper; opere; v; quese]
      | SCPI_REG_QUESE => [with_srq (summarise stb STB_QES (truthy (ques &&& v))) sre;
                           sre; esr; ese; oper; opere; ques; v]
      | SCPI_REG_COUNT => r
      end
  | _ => r
  end.

(** What the application's callbacks may change: the sink. *)
Definition same_but_registers (c c' : scpi_t) : Prop :=
  interface c' = interface c /\ output_count c' = output_count c /\ input_count c' = input_count c /\
  cmd_error c' = cmd_error c /\ error_queue c' = error_queue c /\ parser_state c' = parser_state c /\
  lex_state c' = lex_state c /\ cmd_raw c' = cmd_raw c /\ idn c' = idn c /\
  arbitrary_reminding c' = arbitrary_reminding c /\ memory c' = memory c.

#[export] Instance same_but_registers_preorder : PreOrder same_but_registers.
Proof.
  unfold same_but_registers. split; [intros c; tauto|]. intros c1 c2 c3. intuition congruence.
Qed.

Lemma writeControl_same c ctrl v :
  registers (snd (writeControl c ctrl v)) = registers c /\ same_but_registers c (snd (writeControl c ctrl v)).
Proof.
  unfold writeControl. destruct (interface c) as [i|] eqn:E; [|split; [done|reflexivity]].
  destruct (if_control i) as [f|]; [|split; [done|reflexivity]].
  destruct (f ctrl v (sink c)). unfold same_but_registers. cbn. intuition congruence.
Qed.

Lemma put_reg_same name v c : same_but_registers c (put_reg name v c).
Proof. unfold same_but_registers. cbn. tauto. Qed.

Definition eight (r : list Z) : Prop := length r = 8%nat.

Lemma eight_inv r : eight r -> exists a b c d e f g h, r = [a; b; c; d; e; f; g; h].
Proof.
  unfold eight. intros H. do 8 (destruct r as [|? r]; [discriminate|]). destruct r; [|discriminate].
  eauto 9.
Qed.

Lemma RegGet_spec c name : SCPI_RegGet c name = default 0 (registers c !! reg_index name) \/ name = SCPI_REG_COUNT.
Proof. unfold SCPI_RegGet. case_decide; auto. Qed.

Lemma RegSet_stb d c v :
  eight (registers c) ->
  registers (RegSet (S d) c SCPI_REG_STB v) = regs_after SCPI_REG_STB v (registers c) /\
  same_but_registers c (RegSet (S d) c SCPI_REG_STB v).
Proof.
  intros Hr. destruct (eight_inv _ Hr) as (stb & sre & ? & ? & ? & ? & ? & ? & E).
  cbn [RegSet]. rewrite decide_False by done. unfold with_srq.
  assert (Hsre : SCPI_RegGet (put_reg SCPI_REG_STB v c) SCPI_REG_SRE = sre)
    by (unfold SCPI_RegGet, put_reg; cbn; now rewrite E).
  rewrite Hsre, E. cbn [regs_after]. unfold with_srq. destruct (truthy _).
  - destruct (negb _).
    + edestruct writeControl_same as [Hc Hs]. rewrite Hc. split; [unfold put_reg; cbn; now rewrite E|].
      etransitivity; [|exact Hs]. do 2 (etransitivity; [|apply put_reg_same]). reflexivity.
    + split; [unfold put_reg; cbn; now rewrite E|].
      do 2 (etransitivity; [|apply put_reg_same]). reflexivity.
  - split; [unfold put_reg; cbn; now rewrite E|]. do 2 (etransitivity; [|apply put_reg_same]). reflexivity.
Qed.

Lemma put_reg_registers name v c : registers (put_reg name v c) = <[reg_index name := v]> (registers c).
Proof. reflexivity. Qed.

Lemma RegGet_registers c name r :
  registers c = r -> name <> SCPI_REG_COUNT -> SCPI_RegGet c name = default 0 (r !! reg_index name).
Proof. intros <- Hn. unfold SCPI_RegGet. now rewrite decide_False. Qed.

(** A call that only sets the status byte on the way. *)
Lemma RegSet_via_stb d c name v x :
  eight (registers c) ->
  let c1 := put_reg name v c in
  let c2 := put_reg name v (RegSet (S d) c1 SCPI_REG_STB x) in
  registers c2 = <[reg_index name := v]> (regs_after SCPI_REG_STB x (<[reg_index name := v]> (registers c))) /\
  same_but_registers c c2.
Proof.
  intros Hr c1 c2. assert (H1 : eight (registers c1)).
  { unfold c1, eight. rewrite put_reg_registers, length_insert. exact Hr. }
  destruct (RegSet_stb d c1 x H1) as [E Hs]. unfold c2. rewrite put_reg_registers, E. split; [reflexivity|].
  etransitivity; [|apply put_reg_same]. etransitivity; [|exact Hs]. apply put_reg_same.
Qed.

Definition event_reg (name : scpi_reg_name_t) : bool :=
  match name with SCPI_REG_SRE | SCPI_REG_ESR | SCPI_REG_OPER | SCPI_REG_QUES => true | _ => false end.

Lemma RegSet_event d c name v :
  eight (registers c) -> event_reg name = true ->
  registers (RegSet (S (S d)) c name v) = regs_after name v (registers c) /\
  same_but_registers c (RegSet (S (S d)) c name v).
Proof.
  intros Hr Hn. destruct (eight_inv _ Hr) as (stb & sre & esr & ese & oper & opere & ques & quese & E).
  remember (S d) as d1 eqn:Hd. cbn [RegSet]. rewrite decide_False by now destruct name.
  assert (Hg : forall n, n <> SCPI_REG_COUNT ->
            SCPI_RegGet (put_reg name v c) n = default 0 (<[reg_index name := v]> (registers c) !! reg_index n))
    by (intros n Hn'; now apply RegGet_registers).
  pose proof (fun x => RegSet_via_stb d c name v x Hr) as Hv. cbv zeta in Hv. rewrite E in Hv, Hg |- *.
  subst d1. destruct name; try discriminate Hn; rewrite !Hg by done; cbn in Hv |- *; try exact (Hv _);
    unfold id; destruct (truthy _); exact (Hv _).
Qed.

Lemma RegSet_regs d c name v :
  eight (registers c) ->
  registers (RegSet (S (S (S d))) c name v) = regs_after name v (registers c) /\
  same_but_registers c (RegSet (S (S (S d))) c name v).
Proof.
  intros Hr.
  assert (Hen : forall ev, event_reg ev = true -> ev <> SCPI_REG_SRE -> 
    let c1 := put_reg name v c in
    let c2 := put_reg name v (RegSet (S (S d)) c1 ev (SCPI_RegGet c1 ev)) in
    registers c2 = <[reg_index name := v]>
      (regs_after ev (SCPI_RegGet c1 ev) (<[reg_index name := v]> (registers c))) /\
    same_but_registers c c2).
  { intros ev Hev _ c1 c2. assert (H1 : eight (registers c1))
      by (unfold c1, eight; rewrite put_reg_registers, length_insert; exact Hr).
    destruct (RegSet_event d c1 ev (SCPI_RegGet c1 ev) H1 Hev) as [E Hs].
    unfold c2. rewrite put_reg_registers, E. split; [reflexivity|].
    etransitivity; [|apply put_reg_same]. etransitivity; [|exact Hs]. apply put_reg_same. }
  destruct (event_reg name) eqn:Hev; [now apply (RegSet_event (S d))|].
  destruct (decide (name = SCPI_REG_STB)) as [->|Hstb]; [now apply (RegSet_stb (S (S d)))|].
  destruct (decide (name = SCPI_REG_COUNT)) as [->|Hcount].
  { cbn [RegSet]. rewrite decide_True by done. split; [|reflexivity]. now destruct (eight_inv _ Hr) as (? & ? & ? & ? & ? & ? & ? & ? & ->). }
  destruct (eight_inv _ Hr) as (stb & sre & esr & ese & oper & opere & ques & quese & E).
  remember (S (S d)) as d2 eqn:Hd. cbn [RegSet]. rewrite decide_False by done.
  assert (Hg : forall n, n <> SCPI_REG_COUNT ->
            SCPI_RegGet (put_reg name v c) n = default 0 (<[reg_index name := v]> (registers c) !! reg_index n))
    by (intros n Hn'; now apply RegGet_registers).
  cbv zeta in Hen. destruct name; try discriminate Hev; try done;
    [specialize (Hen SCPI_REG_ESR eq_refl ltac:(done))
    |specialize (Hen SCPI_REG_OPER eq_refl ltac:(done))
    |specialize (Hen SCPI_REG_QUES eq_refl ltac:(done))];
    rewrite E, Hg in Hen by done; rewrite E in Hen; rewrite Hg, E by done; exact Hen.
Qed.

(** The nesting of the calls is at most three: with more, the result is the
    same, so [SCPI_RegSet] satisfies the recursive equation of the code. *)
Lemma RegSet_depth d c name v :
  (eight (registers c)) -> registers (RegSet (S (S (S d))) c name v) = registers (SCPI_RegSet c name v).
Proof. intros Hr. unfold SCPI_RegSet. now rewrite (proj1 (RegSet_regs d c name v Hr)), (proj1 (RegSet_regs 0 c name v Hr)). Qed.

Lemma SCPI_RegSet_spec c name v :
  eight (registers c) ->
  registers (SCPI_RegSet c name v) = regs_after name v (registers c) /\
  same_but_registers c (SCPI_RegSet c name v).
Proof. apply RegSet_regs. Qed.

Lemma length_regs_after name v r : eight r -> eight (regs_after name v r).
Proof. intros Hr. destruct (eight_inv _ Hr) as (? & ? & ? & ? & ? & ? & ? & ? & ->). now destruct name. Qed.

(** ** The status byte summarises the registers and the queue *)

(** Bits 3, 5 and 7 of the status byte say whether an enabled event of the
    register they summarise is set, bit 2 whether the error queue holds an
    error, and bit 6 whether a bit enabled for service requests is set. *)
Definition summary (r : list Z) (pending : bool) : Prop :=
  match r with
  | [stb; sre; esr; ese; oper; opere; ques; quese] =>
      truthy (stb &&& STB_QMA) = pending /\
      truthy (stb &&& STB_QES) = truthy (ques &&& quese) /\
      truthy (stb &&& STB_ESR) = truthy (esr &&& ese) /\
      truthy (stb &&& STB_OPS) = truthy (oper &&& opere) /\
      truthy (stb &&& STB_SRQ) = truthy (stb &&& Z.ldiff sre STB_SRQ)
  | _ => False
  end.

Record status_ok (c : scpi_t) : Prop := {
    so_eight : eight (registers c);
    so_queue : fifo_wf (error_queue c);
    so_summary : summary (registers c) (0 <? SCPI_ErrorCount c);
  }.

Lemma stb_bit_spec z b i : 0 <= i -> b = 1 <<< i -> truthy (z &&& b) = Z.testbit z i.
Proof. intros Hi ->. now apply truthy_land_bit. Qed.

Lemma QMA_bit z : truthy (z &&& STB_QMA) = Z.testbit z 2.
Proof. now apply stb_bit_spec. Qed.
Lemma QES_bit z : truthy (z &&& STB_QES) = Z.testbit z 3.
Proof. now apply stb_bit_spec. Qed.
Lemma ESR_bit z : truthy (z &&& STB_ESR) = Z.testbit z 5.
Proof. now apply stb_bit_spec. Qed.
Lemma SRQ_bit z : truthy (z &&& STB_SRQ) = Z.testbit z 6.
Proof. now apply stb_bit_spec. Qed.
Lemma OPS_bit z : truthy (z &&& STB_OPS) = Z.testbit z 7.
Proof. now apply stb_bit_spec. Qed.

Create Rewrite HintDb stb.
#[export] Hint Rewrite QMA_bit QES_bit ESR_bit SRQ_bit OPS_bit : stb.

Lemma with_srq_bit stb sre i : 0 <= i -> i <> 6 -> Z.testbit (with_srq stb sre) i = Z.testbit stb i.
Proof.
  intros Hi Hne. assert (Hb : Z.testbit STB_SRQ i = false)
    by (change STB_SRQ with (1 <<< 6); rewrite testbit_pow by lia; now apply Z.eqb_neq).
  unfold with_srq. destruct (truthy _); rewrite ?Z.lor_spec, ?Z.ldiff_spec, Hb;
    [apply orb_false_r|apply andb_true_r].
Qed.

(** Bit 6 says whether another enabled bit is set. *)
Lemma with_srq_srq stb sre :
  Z.testbit (with_srq stb sre) 6 = truthy (with_srq stb sre &&& Z.ldiff sre STB_SRQ).
Proof.
  assert (E : with_srq stb sre &&& Z.ldiff sre STB_SRQ = stb &&& Z.ldiff sre STB_SRQ).
  { apply Z.bits_inj'. intros i Hi. rewrite !Z.land_spec, !Z.ldiff_spec.
    destruct (decide (i = 6)) as [->|Hne]; [now rewrite !andb_false_r|]. now rewrite with_srq_bit. }
  rewrite E. unfold with_srq. destruct (truthy _).
  - rewrite Z.lor_spec. apply orb_true_r.
  - rewrite Z.ldiff_spec. apply andb_false_r.
Qed.

Lemma summarise_bit stb b cond i :
  Z.testbit (summarise stb b cond) i = if Z.testbit b i then cond else Z.testbit stb i.
Proof.
  unfold summarise. destruct cond; rewrite ?Z.lor_spec, ?Z.ldiff_spec; destruct (Z.testbit b i); cbn.
  - apply orb_true_r.
  - apply orb_false_r.
  - apply andb_false_r.
  - apply andb_true_r.
Qed.

Lemma summary_after name v r pending :
  name <> SCPI_REG_STB -> summary r pending -> summary (regs_after name v r) pending.
Proof.
  intros Hn Hs. do 8 (destruct r as [|? r]; [done|]). destruct r; [|done].
  unfold summary in Hs. destruct Hs as (H1 & H2 & H3 & H4 & H5). autorewrite with stb in *.
  destruct name; try done; cbn [regs_after summary]; autorewrite with stb;
    [..|split_and!; assumption];
    rewrite with_srq_srq, !with_srq_bit, ?summarise_bit by done;
    split_and!; first [assumption | reflexivity].
Qed.

(** [status_with p c]: the status byte summarises the registers and says [p]
    of the queue. *)
Definition status_with (p : bool) (c : scpi_t) : Prop :=
  eight (registers c) /\ fifo_wf (error_queue c) /\ summary (registers c) p.

Lemma status_ok_with c : status_ok c <-> status_with (0 <? SCPI_ErrorCount c) c.
Proof. split; [intros []; now split_and!|intros (? & ? & ?); now constructor]. Qed.

Lemma RegSet_with p c name v :
  name <> SCPI_REG_STB -> status_with p c ->
  status_with p (SCPI_RegSet c name v) /\ error_queue (SCPI_RegSet c name v) = error_queue c.
Proof.
  intros Hn (H8 & Hq & Hs). destruct (SCPI_RegSet_spec c name v H8) as [E Hsame].
  destruct Hsame as (_ & _ & _ & _ & Hq' & _). unfold status_with. rewrite E, Hq'. split_and!; try done.
  - now apply length_regs_after.
  - now apply summary_after.
Qed.

(** Setting or clearing the bit of the queue. *)
Lemma set_QMA_with p c b :
  status_with p c ->
  let c' := SCPI_RegSet c SCPI_REG_STB (summarise (SCPI_RegGet c SCPI_REG_STB) STB_QMA b) in
  status_with b c' /\ error_queue c' = error_queue c.
Proof.
  intros (H8 & Hq & Hs) c'.
  destruct (SCPI_RegSet_spec c SCPI_REG_STB (summarise (SCPI_RegGet c SCPI_REG_STB) STB_QMA b) H8) as [E Hsame].
  fold c' in E, Hsame. destruct Hsame as (_ & _ & _ & _ & Hq' & _). unfold status_with. rewrite Hq', E.
  split_and!; try done; [now apply length_regs_after|].
  destruct (eight_inv _ H8) as (stb & sre & esr & ese & oper & opere & ques & quese & Er).
  rewrite (RegGet_registers c SCPI_REG_STB _ Er) by done. rewrite Er in Hs |- *. cbn [regs_after reg_index lookup list_lookup].
  unfold summary in *. destruct Hs as (H1 & H2 & H3 & H4 & H5). autorewrite with stb in *.
  rewrite with_srq_srq, !with_srq_bit, !summarise_bit by done.
  split_and!; first [assumption | reflexivity].
Qed.

Lemma interface_error_same c err :
  registers (interface_error c err) = registers c /\ same_but_registers c (interface_error c err).
Proof.
  unfold interface_error. destruct (interface c) as [i|] eqn:E; [|split; [done|reflexivity]].
  destruct (if_error i) as [f|]; [|split; [done|reflexivity]].
  unfold same_but_registers. cbn. intuition congruence.
Qed.

Lemma interface_error_with p c err :
  status_with p c ->
  status_with p (interface_error c err) /\ error_queue (interface_error c err) = error_queue c.
Proof.
  intros (H8 & Hq & Hs). destruct (interface_error_same c err) as [E (_ & _ & _ & _ & Hq' & _)].
  unfold status_with. rewrite E, Hq'. done.
Qed.

Lemma ErrorEmit_with p c err :
  status_with p c ->
  status_with true (SCPI_ErrorEmit c err) /\ error_queue (SCPI_ErrorEmit c err) = error_queue c.
Proof.
  intros H. destruct (set_QMA_with p c true H) as [H1 Hq1]. cbn [summarise] in H1, Hq1.
  destruct (interface_error_with true _ err H1) as [H2 Hq2]. unfold SCPI_ErrorEmit, SCPI_RegSetBits.
  split; [exact H2|congruence].
Qed.

Lemma ErrorEmitEmpty_with p c :
  status_with p c -> (0 < SCPI_ErrorCount c -> p = true) -> 
  status_ok (SCPI_ErrorEmitEmpty c) /\ error_queue (SCPI_ErrorEmitEmpty c) = error_queue c.
Proof.
  intros H Hp. rewrite status_ok_with. unfold SCPI_ErrorEmitEmpty.
  assert (Hc : 0 <= SCPI_ErrorCount c) by (destruct H as (_ & [] & _); unfold SCPI_ErrorCount, fifo_count; lia).
  assert (Hbit : truthy (SCPI_RegGet c SCPI_REG_STB &&& STB_QMA) = p).
  { destruct H as (H8 & _ & Hs). destruct (eight_inv _ H8) as (stb & sre & esr & ese & oper & opere & ques & quese & Er).
    rewrite (RegGet_registers c SCPI_REG_STB _ Er) by done. rewrite Er in Hs. apply Hs. }
  rewrite Hbit. destruct (Z.eqb_spec (SCPI_ErrorCount c) 0) as [E0|E0]; cbn [andb].
  - destruct p; cbn [andb].
    + destruct (set_QMA_with true c false H) as [H1 Hq1]. cbn [summarise] in H1, Hq1.
      destruct (interface_error_with false _ 0 H1) as [H2 Hq2]. unfold SCPI_RegClearBits.
      unfold SCPI_ErrorCount in *. rewrite Hq2, Hq1, E0. done.
    + rewrite E0. done.
  - rewrite Hp in H by lia. split; [|done]. destruct (Z.ltb_spec 0 (SCPI_ErrorCount c)); [done|lia].
Qed.

(** ** What an error leaves behind *)

(** The standard event bit of a class of errors. *)
Definition esr_bit (err : Z) : Z :=
  if decide (-199 <= err <= -100) then ESR_CER
  else if decide (-299 <= err <= -200) then ESR_EER
  else if decide (-399 <= err <= -300) then ESR_DER
  else if decide (-499 <= err <= -400) then ESR_QER
  else if decide (-599 <= err <= -500) then ESR_PON
  else if decide (-699 <= err <= -600) then ESR_URQ
  else if decide (-799 <= err <= -700) then ESR_REQ
  else if decide (-899 <= err <= -800) then ESR_OPC
  else 0.

(** The queue after an error: a full queue's last code gives way to the
    overflow code. *)
Definition queue_push (cap : nat) (err : Z) (q : list Z) : list Z :=
  if decide (length q < cap)%nat then q ++ [err]
  else take (pred cap) q ++ [SCPI_ERROR_QUEUE_OVERFLOW].

Lemma ErrorAddInternal_spec c err :
  fifo_wf (error_queue c) ->
  exists q ok, SCPI_ErrorAddInternal c err = (ok, with_error_queue q c) /\ fifo_wf q /\
    size q = size (error_queue c) /\ 0 < count q /\
    contents q = queue_push (Z.to_nat (size q)) err (contents (error_queue c)).
Proof.
  intros Hwf. set (q := error_queue c) in *.
  pose proof (wf_count _ Hwf). pose proof (wf_size _ Hwf).
  pose proof (length_contents q ltac:(lia)) as Hl. unfold SCPI_ErrorAddInternal, queue_push. fold q.
  destruct (decide (count q = size q)) as [E|E].
  - rewrite fifo_add_full by done.
    destruct (fifo_remove_last_ok q err Hwf ltac:(lia)) as (q1 & x & l & Hc1 & -> & Hwf1 & Hs1 & Hq1).
    pose proof (wf_count _ Hwf1). pose proof (length_contents q1 ltac:(lia)) as Hl1.
    rewrite Hc1, length_app in Hl. cbn [length] in Hl. rewrite Hq1 in Hl1.
    destruct (fifo_add_ok q1 SCPI_ERROR_QUEUE_OVERFLOW Hwf1 ltac:(lia)) as (q2 & -> & Hwf2 & Hs2 & Hq2).
    pose proof (wf_count _ Hwf2). pose proof (length_contents q2 ltac:(lia)) as Hl2.
    rewrite Hq2, length_app in Hl2. cbn [length] in Hl2.
    exists q2, false. split_and!; try done; [congruence|lia|].
    rewrite Hc1, length_app, decide_False by (cbn [length]; lia). rewrite Hq2, Hq1. f_equal.
    rewrite take_app_length' by lia. done.
  - destruct (fifo_add_ok q err Hwf ltac:(lia)) as (q1 & -> & Hwf1 & Hs1 & Hq1).
    pose proof (wf_count _ Hwf1). pose proof (length_contents q1 ltac:(lia)) as Hl1.
    rewrite Hq1, length_app in Hl1. cbn [length] in Hl1.
    exists q1, true. split_and!; try done; [lia|]. rewrite decide_True by lia. done.
Qed.

Lemma RegSetBits_ESR p c b :
  status_with p c ->
  let c' := SCPI_RegSetBits c SCPI_REG_ESR b in
  status_with p c' /\ error_queue c' = error_queue c /\
  SCPI_RegGet c' SCPI_REG_ESR = SCPI_RegGet c SCPI_REG_ESR ||| b.
Proof.
  intros H c'. destruct (RegSet_with p c SCPI_REG_ESR (SCPI_RegGet c SCPI_REG_ESR ||| b) ltac:(done) H) as [H1 Hq1].
  split_and!; try done. destruct H as (H8 & _ & _).
  destruct (SCPI_RegSet_spec c SCPI_REG_ESR (SCPI_RegGet c SCPI_REG_ESR ||| b) H8) as [E _].
  unfold c', SCPI_RegSetBits. rewrite (RegGet_registers _ SCPI_REG_ESR _ E) by done.
  destruct (eight_inv _ H8) as (stb & sre & esr & ese & oper & opere & ques & quese & ->). reflexivity.
Qed.

Definition err_class (err : Z) (e : Z * Z * Z) : bool :=
  let '(from, to, _) := e in (err <=? from) && (to <=? err).

(** The loop over the classes. *)
Lemma errs_fold p err l c :
  status_with p c ->
  let c' := foldl (fun context '(from, to, esrBit) =>
              if (err <=? from) && (to <=? err)
              then SCPI_RegSetBits context SCPI_REG_ESR esrBit else context) c l in
  status_with p c' /\ error_queue c' = error_queue c /\
  SCPI_RegGet c' SCPI_REG_ESR =
    foldl (fun v e => if err_class err e then v ||| e.2 else v) (SCPI_RegGet c SCPI_REG_ESR) l.
Proof.
  revert c. induction l as [|[[from to] b] l IH]; intros c H; [done|]. cbn [foldl err_class snd].
  destruct ((err <=? from) && (to <=? err)); [|now apply IH].
  destruct (RegSetBits_ESR p c b H) as (H1 & Hq1 & <-).
  destruct (IH _ H1) as (H2 & Hq2 & E2). rewrite Hq2, Hq1. done.
Qed.

Ltac class_bools :=
  repeat match goal with
  | |- context [(?a <=? ?b) && (?c <=? ?d)] =>
      first [ replace ((a <=? b) && (c <=? d)) with true
                by (symmetry; apply andb_true_iff; rewrite !Z.leb_le; lia)
            | replace ((a <=? b) && (c <=? d)) with false
                by (symmetry; apply not_true_is_false; rewrite andb_true_iff, !Z.leb_le; lia) ]
  end.

Lemma errs_bit err v :
  foldl (fun v e => if err_class err e then v ||| e.2 else v) v errs = v ||| esr_bit err.
Proof.
  unfold errs, esr_bit. cbn [foldl err_class snd].
  repeat case_decide; class_bools; try reflexivity. now rewrite Z.lor_0_r.
Qed.

Lemma ErrorEmit_ESR p c err :
  status_with p c -> SCPI_RegGet (SCPI_ErrorEmit c err) SCPI_REG_ESR = SCPI_RegGet c SCPI_REG_ESR.
Proof.
  intros (H8 & _ & _). unfold SCPI_ErrorEmit, SCPI_RegSetBits.
  destruct (SCPI_RegSet_spec c SCPI_REG_STB (SCPI_RegGet c SCPI_REG_STB ||| STB_QMA) H8) as [E _].
  destruct (interface_error_same (SCPI_RegSet c SCPI_REG_STB (SCPI_RegGet c SCPI_REG_STB ||| STB_QMA)) err) as [E' _].
  rewrite E in E'. rewrite (RegGet_registers _ SCPI_REG_ESR _ E') by done.
  destruct (eight_inv _ H8) as (stb & sre & esr & ese & oper & opere & ques & quese & Er).
  rewrite (RegGet_registers _ SCPI_REG_ESR _ Er), Er by done. reflexivity.
Qed.

Lemma error_push_fact c err :
  status_ok c ->
  let c' := SCPI_ErrorPush c err in
  status_ok c' /\
  contents (error_queue c') =
    queue_push (Z.to_nat (size (error_queue c))) err (contents (error_queue c)) /\
  size (error_queue c') = size (error_queue c) /\
  SCPI_RegGet c' SCPI_REG_ESR = SCPI_RegGet c SCPI_REG_ESR ||| esr_bit err /\
  cmd_error c' = true.
Proof.
  intros H c'. apply status_ok_with in H.
  destruct (ErrorAddInternal_spec c err (proj1 (proj2 H))) as (q & ok & Eq & Hq & Hsz & Hpos & Hcon).
  destruct H as (H8 & _ & Hs).
  assert (H1 : status_with (0 <? SCPI_ErrorCount c) (with_error_queue q c)) by (split_and!; done).
  destruct (errs_fold _ err errs _ H1) as (H2 & Hq2 & E2). rewrite errs_bit in E2.
  unfold c', SCPI_ErrorPush, SCPI_ErrorPushEx. rewrite Eq. revert H2 Hq2 E2.
  generalize (foldl (fun context '(from, to, esrBit) =>
              if (err <=? from) && (to <=? err)
              then SCPI_RegSetBits context SCPI_REG_ESR esrBit else context) (with_error_queue q c) errs).
  intros c2 H2 Hq2 E2. destruct (ErrorEmit_with _ c2 err H2) as [H3 Hq3].
  pose proof (ErrorEmit_ESR _ c2 err H2) as E3.
  assert (Hend : forall c3, status_with true c3 -> error_queue c3 = q ->
            SCPI_RegGet c3 SCPI_REG_ESR = SCPI_RegGet c SCPI_REG_ESR ||| esr_bit err ->
            status_ok (with_cmd_error true c3) /\
            contents (error_queue (with_cmd_error true c3)) =
              queue_push (Z.to_nat (size (error_queue c))) err (contents (error_queue c)) /\
            size (error_queue (with_cmd_error true c3)) = size (error_queue c) /\
            SCPI_RegGet (with_cmd_error true c3) SCPI_REG_ESR = SCPI_RegGet c SCPI_REG_ESR ||| esr_bit err /\
            cmd_error (with_cmd_error true c3) = true).
  { intros c3 Hc3 Hq3' E3'. split_and!; try done; cbn; rewrite ?Hq3'; [|congruence|done].
    apply status_ok_with. unfold SCPI_ErrorCount, fifo_count. cbn. rewrite Hq3'.
    destruct (Z.ltb_spec 0 (count q)); [exact Hc3|lia]. }
  destruct ok; cbn [negb].
  - apply Hend; [done|rewrite Hq3, Hq2; reflexivity|rewrite E3, E2; reflexivity].
  - destruct (ErrorEmit_with _ _ SCPI_ERROR_QUEUE_OVERFLOW H3) as [H4 Hq4].
    pose proof (ErrorEmit_ESR _ _ SCPI_ERROR_QUEUE_OVERFLOW H3) as E4.
    apply Hend; [done|rewrite Hq4, Hq3, Hq2; reflexivity|rewrite E4, E3, E2; reflexivity].
Qed.

(** pushing an error records it.  The code joins the queue, or, when the
    queue is full, the newest entry is replaced by the overflow code; the
    standard event register gets the bit of the code's class, where a code
    outside -100 to -899, the positive device-defined ones included, has
    none; the command is marked as failed; and the status byte still
    summarises the registers and the queue. *)
Theorem error_push_records c err :
  status_ok c ->
  let c' := SCPI_ErrorPush c err in
  status_ok c' /\
  contents (error_queue c') =
    queue_push (Z.to_nat (size (error_queue c))) err (contents (error_queue c)) /\
  size (error_queue c') = size (error_queue c) /\
  SCPI_RegGet c' SCPI_REG_ESR = SCPI_RegGet c SCPI_REG_ESR ||| esr_bit err /\
  cmd_error c' = true.
Proof. apply error_push_fact. Qed.

(** ** Reachable contexts *)

(** [SCPI_Init]: the zeroed structure with the application's interface,
    identification and error queue. *)
Definition SCPI_Init (iface : option scpi_interface_t) (ids : list (option (list Z)))
    (error_queue_data : list Z) (error_queue_size : Z) (mem out : list Z) : scpi_t :=
  let tok0 := mkTok SCPI_TOKEN_COMMA 0 0 in
  SCPI_ErrorInit
    (mkScpi iface 0 0 false (mkFifo 0 0 0 0 []) (replicate 8 0)
       (mkParser tok0 tok0 0 SCPI_MESSAGE_TERMINATION_NONE) (mkLex 0 0 0) (0, 0) ids 0 mem out)
    error_queue_data error_queue_size.

(** The ways in which the library and its handlers touch registers and
    queue; only the queue's own bit of the status byte is written directly. *)
Inductive status_op :=
  | DoRegSet (name : scpi_reg_name_t) (val : Z)
  | DoPush (err : Z)
  | DoPop
  | DoCls
  | DoOpc
  | DoPreset.

Definition status_do (op : status_op) (c : scpi_t) : scpi_t :=
  match op with
  | DoRegSet name val => if decide (name = SCPI_REG_STB) then c else SCPI_RegSet c name val
  | DoPush err => SCPI_ErrorPush c err
  | DoPop => snd (SCPI_ErrorPop c)
  | DoCls => SCPI_CoreCls c
  | DoOpc => SCPI_CoreOpc c
  | DoPreset => SCPI_StatusPreset c
  end.

Lemma Init_ok iface ids d sz mem out :
  Z.of_nat (length d) = sz -> 0 < sz < 2 ^ 15 -> status_ok (SCPI_Init iface ids d sz mem out).
Proof.
  intros Hl Hs. constructor; [done|exact (proj1 (fifo_init_wf d sz Hl Hs))|].
  cbn. split_and!; done.
Qed.

Lemma RegSet_ok c name v : name <> SCPI_REG_STB -> status_ok c -> status_ok (SCPI_RegSet c name v).
Proof.
  intros Hn H. apply status_ok_with in H. destruct (RegSet_with _ c name v Hn H) as [H1 Hq1].
  apply status_ok_with. unfold SCPI_ErrorCount in *. now rewrite Hq1.
Qed.

(** Taking codes out of the queue. *)
Lemma drain_ok c q :
  status_ok c -> fifo_wf q -> count q <= SCPI_ErrorCount c ->
  status_ok (SCPI_ErrorEmitEmpty (with_error_queue q c)) /\
  error_queue (SCPI_ErrorEmitEmpty (with_error_queue q c)) = q.
Proof.
  intros H Hq Hle. apply status_ok_with in H. destruct H as (H8 & _ & Hs).
  apply (ErrorEmitEmpty_with (0 <? SCPI_ErrorCount c) (with_error_queue q c)); [done|].
  intros Hc. change (0 < count q) in Hc. apply Z.ltb_lt. lia.
Qed.

Lemma fifo_remove_queue q :
  fifo_wf q -> exists ok r q', fifo_remove q (Some 0) = (ok, Some r, q') /\ fifo_wf q' /\
    count q' <= count q /\ r = default 0 (head (contents q)) /\ contents q' = tail (contents q).
Proof.
  intros Hwf. pose proof (wf_count _ Hwf). pose proof (length_contents q ltac:(lia)) as Hl.
  destruct (decide (count q = 0)) as [E|E].
  - unfold fifo_remove, fifo_is_empty. rewrite (proj2 (Z.eqb_eq _ _) E).
    assert (E0 : contents q = []) by (apply nil_length_inv; lia).
    do 3 eexists. split; [reflexivity|]. rewrite E0. split_and!; done.
  - destruct (fifo_remove_ok q 0 Hwf ltac:(lia)) as (q' & x & l & Hc & -> & Hwf' & _ & Hq').
    pose proof (wf_count _ Hwf'). pose proof (length_contents q' ltac:(lia)) as Hl'.
    rewrite Hc in Hl |- *. rewrite Hq' in Hl'. cbn [length] in Hl.
    do 3 eexists. split_and!; try done. lia.
Qed.

Lemma ErrorPop_spec c :
  status_ok c ->
  exists c', SCPI_ErrorPop c = (default 0 (head (contents (error_queue c))), c') /\ status_ok c' /\
    contents (error_queue c') = tail (contents (error_queue c)).
Proof.
  intros H. destruct (fifo_remove_queue _ (so_queue _ H)) as (ok & r & q' & Er & Hwf & Hle & Hr & Hc).
  unfold SCPI_ErrorPop. rewrite Er. eexists. split; [cbn; now rewrite Hr|].
  destruct (drain_ok c q' H Hwf Hle) as [H1 E1]. split; [exact H1|]. now rewrite E1.
Qed.

Lemma ErrorClear_ok c : status_ok c -> status_ok (SCPI_ErrorClear c).
Proof.
  intros H. destruct (fifo_clear_ok _ (so_queue _ H)) as (Hwf & _ & _).
  apply drain_ok; try done. pose proof (wf_count _ (so_queue _ H)).
  unfold SCPI_ErrorCount, fifo_count. cbn. lia.
Qed.

(** C4: in every context reachable from initialisation, by any sequence of
    register writes, pushed, popped and cleared errors, and status commands,
    the status byte summarises the rest: each summary bit is set exactly
    when an enabled event is, the queue bit exactly when the queue holds an
    error, and the service request bit exactly when another enabled bit is
    set. *)
Theorem status_consistent iface ids d sz mem out ops :
  Z.of_nat (length d) = sz -> 0 < sz < 2 ^ 15 ->
  status_ok (foldl (fun c op => status_do op c) (SCPI_Init iface ids d sz mem out) ops).
Proof.
  intros Hl Hs. generalize (Init_ok iface ids d sz mem out Hl Hs).
  generalize (SCPI_Init iface ids d sz mem out) as c.
  induction ops as [|op ops IH]; intros c H; [exact H|]. cbn [foldl]. apply IH.
  destruct op as [name v|err| | | |]; cbn [status_do].
  - case_decide; [exact H|now apply RegSet_ok].
  - exact (proj1 (error_push_fact c err H)).
  - destruct (ErrorPop_spec c H) as (c' & -> & H' & _). exact H'.
  - unfold SCPI_CoreCls, SCPI_EventClear. apply RegSet_ok, RegSet_ok, ErrorClear_ok, RegSet_ok; done.
  - now apply RegSet_ok.
  - now apply RegSet_ok.
Qed.

(** An error and a service request enabled for errors. *)
Lemma status_consistent_witness :
  (Z.of_nat (length [0; 0]) = 2 /\ 0 < 2 < 2 ^ 15) /\
  status_ok (foldl (fun c op => status_do op c) (SCPI_Init None [] [0; 0] 2 [] [])
               [DoRegSet SCPI_REG_SRE 4; DoPush (-113); DoPop]).
Proof. split; [cbn; lia|]. apply status_consistent; cbn; lia. Defined.

Lemma error_push_records_witness :
  let c := SCPI_Init None [] [0; 0] 2 [] [] in
  status_ok c /\
  let c' := SCPI_ErrorPush c (-113) in
  status_ok c' /\
  contents (error_queue c') =
    queue_push (Z.to_nat (size (error_queue c))) (-113) (contents (error_queue c)) /\
  size (error_queue c') = size (error_queue c) /\
  SCPI_RegGet c' SCPI_REG_ESR = SCPI_RegGet c SCPI_REG_ESR ||| esr_bit (-113) /\
  cmd_error c' = true.
Proof.
  assert (H : status_ok (SCPI_Init None [] [0; 0] 2 [] [])) by (apply Init_ok; cbn; lia).
  split; [exact H|exact (error_push_records _ (-113) H)].
Defined.
