(* ===== verification/ScpiMatch.v ===== *)
(** * ScpiMatch: matching headers against command patterns

    utils.c: comparing a mnemonic with a pattern such as [FREQuency], a
    header with a pattern such as [SYSTem:ERRor[:NEXT]?], and completing a
    header from the one before it on the line.  A string is the list of its
    bytes; reading at its end gives the terminating zero. *)

From Stdlib Require Import ZArith Lia String.
From stdpp Require Import base numbers list.
From S2P Require Import Prelude Lexer ScpiCore.

Definition islower (c : Z) : bool := chr_in 97 122 c.
Definition isupper (c : Z) : bool := chr_in 65 90 c.
Definition tolower (c : Z) : Z := if isupper c then c + 32 else c.

(** The index of the first of the first [size] characters that is in [set]. *)
Fixpoint strnpbrk (s : list Z) (size : Z) (set : list Z) : option Z :=
  match s with
  | [] => None
  | c :: s =>
      if size =? 0 then None
      else if c =? 0 then None
      else if existsb (Z.eqb c) set then Some 0
      else match strnpbrk s (size - 1) set with Some i => Some (i + 1) | None => None end
  end.

(** [strncasecmp(s1, s2, n) == 0]. *)
Fixpoint strncasecmp_eq (n : nat) (s1 s2 : list Z) : bool :=
  match n with
  | O => true
  | S n =>
      let c1 := default 0 (head s1) in
      let c2 := default 0 (head s2) in
      if negb (tolower c1 =? tolower c2) then false
      else if c1 =? 0 then true
      else strncasecmp_eq n (tail s1) (tail s2)
  end.

Definition compareStr (str1 : list Z) (len1 : Z) (str2 : list Z) (len2 : Z) : bool :=
  if negb (len1 =? len2) then false else strncasecmp_eq (Z.to_nat len2) str1 str2.

(** With [num] null, as in every call of the program. *)
Definition compareStrAndNum (str1 : list Z) (len1 : Z) (str2 : list Z) (len2 : Z) : bool :=
  if len2 <? len1 then false
  else if strncasecmp_eq (Z.to_nat len1) str1 str2
  then forallb isdigit (take (Z.to_nat (len2 - len1)) (drop (Z.to_nat len1) str2))
  else false.

Fixpoint patternSeparatorShortPos (pattern : list Z) (len : Z) : Z :=
  match pattern with
  | [] => 0
  | c :: pattern =>
      if (len <=? 0) || (c =? 0) || islower c then 0
      else 1 + patternSeparatorShortPos pattern (len - 1)
  end.

(** The conversions of [len] to [size_t] and of the result to [int]. *)
Definition patternSeparatorPos (pattern : list Z) (len : Z) : Z :=
  match strnpbrk pattern (u32 len) (str "?:[]") with
  | None => s32 len
  | Some separator => separator
  end.

Definition cmdSeparatorPos (cmd : list Z) (len : Z) : Z :=
  match strnpbrk cmd (u32 len) (str ":?") with
  | None => s32 len
  | Some separator => separator
  end.

Definition matchPattern (pattern : list Z) (pattern_len : Z) (s : list Z) (str_len : Z) : bool :=
  if (0 <? pattern_len) && (default 0 (pattern !! Z.to_nat (pattern_len - 1)) =? 35) then
    let new_pattern_len := pattern_len - 1 in
    let pattern_sep_pos_short := patternSeparatorShortPos pattern new_pattern_len in
    compareStrAndNum pattern new_pattern_len s str_len ||
    compareStrAndNum pattern pattern_sep_pos_short s str_len
  else
    let pattern_sep_pos_short := patternSeparatorShortPos pattern pattern_len in
    compareStr pattern pattern_len s str_len ||
    compareStr pattern pattern_sep_pos_short s str_len.

(** ** Headers *)

Section MatchCommand.
Variables pattern cmd : list Z.

(** [pattern_ptr[k]] and [cmd_ptr[k]] for offsets [pp] and [cp]. *)
Definition pch (pp k : Z) : Z := default 0 (pattern !! Z.to_nat (pp + k)).
Definition cch (cp k : Z) : Z := default 0 (cmd !! Z.to_nat (cp + k)).
Definition pattern_at (pp : Z) : list Z := drop (Z.to_nat pp) pattern.
Definition cmd_at (cp : Z) : list Z := drop (Z.to_nat cp) cmd.

(** Are all the remaining parts of the pattern optional? *)
Fixpoint rest_optional (fuel : nat) (pp pl : Z) (brackets : Z) : option bool :=
  match fuel with
  | O => None
  | S fuel =>
      if pl =? 0 then Some true
      else
        let pattern_sep_pos := patternSeparatorPos (pattern_at pp) pl in
        let c := pch pp pattern_sep_pos in
        let brackets := if c =? 91 then brackets + 1 else if c =? 93 then brackets - 1 else brackets in
        let pp := pp + (pattern_sep_pos + 1) in
        let pl := pl - (pattern_sep_pos + 1) in
        if brackets =? 0 then
          if (0 <? pl) && (pch pp 0 =? 91) then rest_optional fuel pp pl brackets
          else Some (pl =? 0)
        else rest_optional fuel pp pl brackets
  end.

(** The loop of [matchCommand]; [None] when it takes more than [fuel] turns. *)
Fixpoint match_loop (fuel : nat) (pp pl cp cl brackets : Z) : option bool :=
  match fuel with
  | O => None
  | S fuel =>
      let pattern_sep_pos := patternSeparatorPos (pattern_at pp) pl in
      let cmd_sep_pos := cmdSeparatorPos (cmd_at cp) cl in
      if matchPattern (pattern_at pp) pattern_sep_pos (cmd_at cp) cmd_sep_pos then
        let pp := pp + pattern_sep_pos in let pl := pl - pattern_sep_pos in
        let cp := cp + cmd_sep_pos in let cl := cl - cmd_sep_pos in
        if (pl =? 0) && (cl =? 0) then Some true
        else if (pl =? 0) && (0 <? cl) then Some false
        else if cl =? 0 then rest_optional fuel pp pl brackets
        else if (0 <? pl) && ((pch pp 0 =? cch cp 0) && (pch pp 0 =? 58))
        then match_loop fuel (pp + 1) (pl - 1) (cp + 1) (cl - 1) brackets
        else if (1 <? pl) && (pch pp 1 =? cch cp 0) && (pch pp 0 =? 91) && (pch pp 1 =? 58)
        then match_loop fuel (pp + 2) (pl - 2) (cp + 1) (cl - 1) (brackets + 1)
        else if (1 <? pl) && (pch pp 1 =? cch cp 0) && (pch pp 0 =? 93) && (pch pp 1 =? 58)
        then match_loop fuel (pp + 2) (pl - 2) (cp + 1) (cl - 1) (brackets - 1)
        else if (2 <? pl) && (pch pp 2 =? cch cp 0) && (pch pp 0 =? 93) && (pch pp 1 =? 91)
                && (pch pp 2 =? 58)
        then match_loop fuel (pp + 3) (pl - 3) (cp + 1) (cl - 1) brackets
        else Some false
      else
        let pp := pp + pattern_sep_pos in let pl := pl - pattern_sep_pos in
        if (pch pp 0 =? 93) && (pch pp 1 =? 58)
        then match_loop fuel (pp + 2) (pl - 2) cp cl (brackets - 1)
        else if (2 <? pl) && (pch pp 0 =? 93) && (pch pp 1 =? 91) && (pch pp 2 =? 58)
        then match_loop fuel (pp + 3) (pl - 3) cp cl brackets
        else Some false
  end.

(** [numbers] is null.  [cmd] is the header's [len] bytes, which hold no
    zero byte. *)
Definition matchCommand : option bool :=
  let pl := Z.of_nat (length pattern) in
  let cl := Z.of_nat (length cmd) in
  let query := pch 0 (pl - 1) =? 63 in
  if query && negb (cch 0 (cl - 1) =? 63) then Some false
  else
    let '(pl, cl) := if query then (pl - 1, cl - 1) else (pl, cl) in
    let '(pp, pl, brackets) := if pch 0 0 =? 91 then (1, pl - 1, 1) else (0, pl, 0) in
    let '(pp, pl) := if pch pp 0 =? 58 then (pp + 1, pl - 1) else (pp, pl) in
    let start cp cl := match_loop (S (S (length pattern))) pp pl cp cl brackets in
    if (cch 0 0 =? 58) && (2 <=? cl) then
      if negb (cch 0 1 =? 42) then start 1 (cl - 1) else Some false
    else start 0 cl.
End MatchCommand.

(** ** Compound headers *)

(** The length of [prev]'s header up to and including its last colon. *)
Fixpoint last_colon (mem : list Z) (ptr : Z) (i : nat) : Z :=
  match i with
  | O => 0
  | S i' => if default 0 (mem !! Z.to_nat (ptr + Z.of_nat i')) =? 58 then Z.of_nat i
            else last_colon mem ptr i'
  end.

(** [memmove(to, from, n)]. *)
Definition memmove (to from n : Z) (mem : list Z) : option (list Z) :=
  if (to <? 0) || (from <? 0) then None
  else match read_bytes (Z.to_nat from) (Z.to_nat n) mem with
       | Some bs => write_bytes (Z.to_nat to) bs mem
       | None => None
       end.

(** The result is [None] when the move leaves the memory.  A token whose
    [ptr] is null has length 0, as [cmd_prev] at the start of a line. *)
Definition composeCompoundCommand (prev current : scpi_token_t) (mem : list Z)
    : option (bool * scpi_token_t * list Z) :=
  let first p := default 0 (mem !! Z.to_nat (t_ptr p)) in
  if t_len current =? 0 then Some (false, current, mem)
  else if t_len prev =? 0 then Some (true, current, mem)
  else if (first current =? 42) || (first current =? 58) then Some (true, current, mem)
  else if first prev =? 42 then Some (true, current, mem)
  else
    let i := last_colon mem (t_ptr prev) (Z.to_nat (t_len prev)) in
    if i =? 0 then Some (true, current, mem)
    else
      let current := mkTok (t_type current) (t_ptr current - i) (t_len current + i) in
      match memmove (t_ptr current) (t_ptr prev) i mem with
      | Some mem => Some (true, current, mem)
      | None => None
      end.

(** ** Examples *)

Example match_short : matchCommand (str "SYSTem:ERRor[:NEXT]?") (str "syst:err?") = Some true.
Proof. vm_compute. reflexivity. Qed.
Example match_long : matchCommand (str "SYSTem:ERRor[:NEXT]?") (str ":SYSTem:ERRor:NEXT?") = Some true.
Proof. vm_compute. reflexivity. Qed.
Example match_not_query : matchCommand (str "SYSTem:ERRor[:NEXT]?") (str "SYST:ERR") = Some false.
Proof. vm_compute. reflexivity. Qed.
Example match_partial : matchCommand (str "OUTput:STATe") (str "OUTPU:STAT") = Some false.
Proof. vm_compute. reflexivity. Qed.

(** ** Matching a header word by word *)

(** The short form of a keyword: what precedes its first lower-case letter. *)
Fixpoint short_form (k : list Z) : list Z :=
  match k with
  | [] => []
  | c :: k => if islower c then [] else c :: short_form k
  end.

Definition same_letters (w k : list Z) : bool := bool_decide (tolower <$> w = tolower <$> k).

(** A word is the long or the short form of a keyword, in any case. *)
Definition keyword_match (k w : list Z) : bool := same_letters w k || same_letters w (short_form k).

Fixpoint keywords_match (kws ws : list (list Z)) : bool :=
  match kws, ws with
  | [], [] => true
  | k :: kws, w :: ws => keyword_match k w && keywords_match kws ws
  | _, _ => false
  end.

(** Words joined by colons. *)
Fixpoint join (ws : list (list Z)) : list Z :=
  match ws with
  | [] => []
  | [w] => w
  | w :: ws => w ++ 58 :: join ws
  end.

(** A keyword or word: not empty, and without the characters of patterns. *)
Definition word_char (c : Z) : bool :=
  negb ((c =? 0) || (c =? 63) || (c =? 58) || (c =? 91) || (c =? 93) || (c =? 35)).
Definition is_word (w : list Z) : Prop := w <> [] /\ Forall (fun c => word_char c = true) w.

#[export] Instance is_word_dec w : Decision (is_word w).
Proof. unfold is_word. apply _. Defined.

Lemma word_char_spec c :
  word_char c = true -> c <> 0 /\ c <> 63 /\ c <> 58 /\ c <> 91 /\ c <> 93 /\ c <> 35.
Proof. unfold word_char. rewrite negb_true_iff, !orb_false_iff, !Z.eqb_neq. tauto. Qed.

Lemma strnpbrk_none a r set :
  Forall (fun c => c <> 0 /\ existsb (Z.eqb c) set = false) a ->
  strnpbrk (a ++ r) (Z.of_nat (length a)) set = None.
Proof.
  induction 1 as [|c a [Hc Hs] _ IH]; cbn [app length strnpbrk].
  - destruct r; [done|]. reflexivity.
  - destruct (Z.eqb_spec (Z.of_nat (S (length a))) 0); [lia|].
    rewrite (proj2 (Z.eqb_neq _ _) Hc), Hs.
    replace (Z.of_nat (S (length a)) - 1) with (Z.of_nat (length a)) by lia. now rewrite IH.
Qed.

Lemma strnpbrk_some a c r set n :
  Forall (fun c => c <> 0 /\ existsb (Z.eqb c) set = false) a ->
  c <> 0 -> existsb (Z.eqb c) set = true -> Z.of_nat (length a) < n ->
  strnpbrk (a ++ c :: r) n set = Some (Z.of_nat (length a)).
Proof.
  intros Ha Hc Hs. revert n. induction Ha as [|x a [Hx Hxs] _ IH]; intros n Hn; cbn [app length strnpbrk] in *.
  - destruct (Z.eqb_spec n 0); [lia|]. now rewrite (proj2 (Z.eqb_neq _ _) Hc), Hs.
  - destruct (Z.eqb_spec n 0); [lia|]. rewrite (proj2 (Z.eqb_neq _ _) Hx), Hxs, IH by lia. f_equal. lia.
Qed.

Lemma word_not_in_set w set :
  (forall c, word_char c = true -> existsb (Z.eqb c) set = false) ->
  Forall (fun c => word_char c = true) w ->
  Forall (fun c => c <> 0 /\ existsb (Z.eqb c) set = false) w.
Proof. intros Hset Hw. eapply Forall_impl; [exact Hw|]. intros c Hc. split; [|auto]. now destruct (word_char_spec c Hc). Qed.

Lemma pattern_set c : word_char c = true -> existsb (Z.eqb c) (str "?:[]") = false.
Proof.
  intros Hc. destruct (word_char_spec c Hc) as (? & ? & ? & ? & ? & ?). cbn.
  repeat (rewrite (proj2 (Z.eqb_neq _ _)) by done). reflexivity.
Qed.

Lemma cmd_set c : word_char c = true -> existsb (Z.eqb c) (str ":?") = false.
Proof.
  intros Hc. destruct (word_char_spec c Hc) as (? & ? & ? & ? & ? & ?). cbn.
  repeat (rewrite (proj2 (Z.eqb_neq _ _)) by done). reflexivity.
Qed.

Lemma s32_small z : 0 <= z < 2 ^ 31 -> s32 z = z.
Proof. intros Hz. unfold s32. rewrite wrap_small; lia. Qed.

Lemma strncasecmp_app a b x y :
  length a = length b -> Forall (fun c => word_char c = true) a ->
  strncasecmp_eq (length a) (a ++ x) (b ++ y) = same_letters b a.
Proof.
  intros Hl Ha. unfold same_letters. revert b Hl. induction Ha as [|c a Hc Ha IH]; intros [|d b] Hl; try discriminate.
  - reflexivity.
  - cbn [length app strncasecmp_eq head tail default from_option fmap list_fmap].
    destruct (word_char_spec c Hc) as (Hc0 & _). unfold id. rewrite (proj2 (Z.eqb_neq _ _) Hc0).
    destruct (Z.eqb_spec (tolower c) (tolower d)) as [E|E]; cbn [negb].
    + rewrite IH by (cbn in Hl; lia). apply bool_decide_ext. cbn. rewrite E. split; [now intros ->|now intros [=]].
    + symmetry. apply bool_decide_eq_false. cbn. congruence.
Qed.

Lemma short_form_prefix k : exists r, k = short_form k ++ r.
Proof.
  induction k as [|c k [r IH]]; [exists []; done|]. cbn. destruct (islower c); [now exists (c :: k)|].
  exists r. cbn. now f_equal.
Qed.

Lemma ShortPos_spec k r :
  Forall (fun c => word_char c = true) k ->
  patternSeparatorShortPos (k ++ r) (Z.of_nat (length k)) = Z.of_nat (length (short_form k)).
Proof.
  induction 1 as [|c k Hc Hk IH]; cbn [app length patternSeparatorShortPos short_form].
  - destruct r; [done|reflexivity].
  - destruct (word_char_spec c Hc) as (Hc0 & _). rewrite (proj2 (Z.eqb_neq _ _) Hc0).
    destruct (Z.leb_spec (Z.of_nat (S (length k))) 0); [lia|]. cbn [orb].
    destruct (islower c); [done|]. replace (Z.of_nat (S (length k)) - 1) with (Z.of_nat (length k)) by lia.
    rewrite IH. cbn [length]. lia.
Qed.

Lemma same_letters_length w k : length w <> length k -> same_letters w k = false.
Proof.
  intros Hl. apply bool_decide_eq_false. intros E. apply (f_equal length) in E. now rewrite !length_fmap in E.
Qed.

Lemma compareStr_spec a b x y :
  Forall (fun c => word_char c = true) a ->
  compareStr (a ++ x) (Z.of_nat (length a)) (b ++ y) (Z.of_nat (length b)) = same_letters b a.
Proof.
  intros Ha. unfold compareStr. destruct (Z.eqb_spec (Z.of_nat (length a)) (Z.of_nat (length b))) as [E|E]; cbn [negb].
  - rewrite Nat2Z.id. rewrite <- (Nat2Z.inj _ _ E). apply strncasecmp_app; [lia|done].
  - symmetry. apply same_letters_length. lia.
Qed.

(** A pattern word is compared as a keyword. *)
Lemma matchPattern_spec k w x y :
  is_word k -> 
  matchPattern (k ++ x) (Z.of_nat (length k)) (w ++ y) (Z.of_nat (length w)) = keyword_match k w.
Proof.
  intros [Hne Hk]. unfold matchPattern.
  assert (Hlast : (default 0 ((k ++ x) !! Z.to_nat (Z.of_nat (length k) - 1)) =? 35) = false).
  { apply Z.eqb_neq. destruct k as [|c0 k0] eqn:Ek; [done|]. rewrite <- Ek in *.
    assert (Hl : (length k <> 0)%nat) by (rewrite Ek; cbn; lia).
    rewrite lookup_app_l by lia.
    destruct (lookup_lt_is_Some_2 k (Z.to_nat (Z.of_nat (length k) - 1)) ltac:(lia)) as [c Hc]. rewrite Hc.
    cbn. unfold id. eapply Forall_lookup_1 in Hk; [|exact Hc]. now destruct (word_char_spec c Hk) as (_&_&_&_&_&?). }
  rewrite Hlast, andb_false_r. rewrite compareStr_spec, ShortPos_spec by done. unfold keyword_match. f_equal.
  destruct (short_form_prefix k) as [r Hr]. rewrite Hr at 1. rewrite <- app_assoc.
  apply compareStr_spec. rewrite Hr in Hk. now apply Forall_app in Hk as [? _].
Qed.

(** ** The loop over the words *)

Definition join_tail (ws : list (list Z)) : list Z :=
  match ws with [] => [] | _ => 58 :: join ws end.

Lemma join_cons w ws : join (w :: ws) = w ++ join_tail ws.
Proof. destruct ws; [cbn; now rewrite app_nil_r|reflexivity]. Qed.

Lemma zlen_app {A} (a b : list A) : Z.of_nat (length (a ++ b)) = Z.of_nat (length a) + Z.of_nat (length b).
Proof. rewrite length_app. lia. Qed.

Lemma at_offset (pre rest : list Z) i :
  default 0 ((pre ++ rest) !! Z.to_nat (Z.of_nat (length pre) + Z.of_nat i)) = default 0 (rest !! i).
Proof. rewrite lookup_app_r by lia. do 2 f_equal. lia. Qed.

Lemma drop_offset (pre rest : list Z) : drop (Z.to_nat (Z.of_nat (length pre))) (pre ++ rest) = rest.
Proof. rewrite Nat2Z.id. apply drop_app_length. Qed.

Lemma is_word_head w : is_word w -> exists c r, w = c :: r /\ word_char c = true.
Proof. intros [Hne Hw]. destruct Hw as [|c r Hc _]; [done|eauto]. Qed.

Lemma join_head ws : ws <> [] -> Forall is_word ws -> exists c r, join ws = c :: r /\ word_char c = true.
Proof.
  intros Hne Hw. destruct Hw as [|w ws Hw _]; [done|]. rewrite join_cons.
  destruct (is_word_head w Hw) as (c & r & -> & Hc). eexists _, _. split; [reflexivity|exact Hc].
Qed.

(** Where the separator of a word is found. *)
Lemma sep_pos set w rest n :
  (forall c, word_char c = true -> existsb (Z.eqb c) set = false) -> is_word w ->
  (rest = [] \/ exists c r, rest = c :: r /\ c <> 0 /\ existsb (Z.eqb c) set = true) ->
  n = Z.of_nat (length w) + Z.of_nat (length rest) -> 0 <= n < 2 ^ 31 ->
  forall suf, match strnpbrk (w ++ rest ++ suf) (u32 n) set with None => s32 n | Some i => i end
              = Z.of_nat (length w).
Proof.
  intros Hset [_ Hw] Hrest Hn Hb suf. rewrite (wrap_small 32) by lia.
  pose proof (word_not_in_set w set Hset Hw) as Hw'.
  destruct Hrest as [->|(c & r & -> & Hc & Hs)].
  - cbn [length] in Hn. rewrite Hn, Z.add_0_r. rewrite strnpbrk_none by done. apply s32_small. lia.
  - cbn [app length] in *. rewrite strnpbrk_some; [reflexivity|done..|lia].
Qed.

Section Loop.
Variables pattern cmd : list Z.

Lemma rest_not_optional fuel pre kws psuf :
  pattern = pre ++ 58 :: join kws ++ psuf -> kws <> [] -> Forall is_word kws ->
  Z.of_nat (length pattern) < 2 ^ 31 ->
  rest_optional pattern (S fuel) (Z.of_nat (length pre)) (1 + Z.of_nat (length (join kws))) 0 = Some false.
Proof.
  intros Hp Hne Hk Hb. destruct (join_head kws Hne Hk) as (c & r & Hj & Hc).
  assert (Hpos : Z.of_nat (length (join kws)) = 1 + Z.of_nat (length r)) by (rewrite Hj; cbn [length]; lia).
  cbn [rest_optional]. destruct (Z.eqb_spec (1 + Z.of_nat (length (join kws))) 0); [lia|].
  unfold pattern_at, patternSeparatorPos, pch. rewrite Hp, drop_offset.
  assert (Hs : strnpbrk (58 :: join kws ++ psuf) (u32 (1 + Z.of_nat (length (join kws)))) (str "?:[]") = Some 0).
  { rewrite (wrap_small 32) by (rewrite Hp in Hb; rewrite zlen_app in Hb; cbn [length] in Hb; rewrite length_app in Hb; lia).
    apply (strnpbrk_some [] 58); try done. cbn [length]. lia. }
  rewrite Hs, Hj.
  assert (H0 : default 0 ((pre ++ 58 :: (c :: r) ++ psuf) !! Z.to_nat (Z.of_nat (length pre) + 0)) = 58)
    by exact (at_offset pre (58 :: (c :: r) ++ psuf) 0).
  assert (H1 : default 0 ((pre ++ 58 :: (c :: r) ++ psuf) !! Z.to_nat (Z.of_nat (length pre) + 1)) = c)
    by exact (at_offset pre (58 :: (c :: r) ++ psuf) 1).
  rewrite Z.add_0_l, !Z.add_0_r. rewrite Z.add_0_r in H0. rewrite H0, H1.
  destruct (word_char_spec c Hc) as (_ & _ & _ & Hc91 & _).
  cbn [Z.eqb Pos.eqb]. rewrite (proj2 (Z.eqb_neq _ _) Hc91), andb_false_r.
  f_equal. apply Z.eqb_neq. cbn [length]. lia.
Qed.

Lemma match_words kws : forall ws pre prec psuf cmid csuf fuel,
  kws <> [] -> ws <> [] -> Forall is_word kws -> Forall is_word ws ->
  (psuf = [] \/ psuf = [63]) -> (cmid = [] \/ cmid = [63]) ->
  pattern = pre ++ join kws ++ psuf -> cmd = prec ++ (join ws ++ cmid) ++ csuf ->
  Z.of_nat (length pattern) < 2 ^ 31 -> Z.of_nat (length cmd) < 2 ^ 31 ->
  (length kws < fuel)%nat ->
  match_loop pattern cmd fuel (Z.of_nat (length pre)) (Z.of_nat (length (join kws)))
    (Z.of_nat (length prec)) (Z.of_nat (length (join ws ++ cmid))) 0
  = Some (keywords_match kws ws && bool_decide (cmid = [])).
Proof.
  induction kws as [|k kws IH]; intros ws pre prec psuf cmid csuf fuel Hk0 Hw0 Hk Hw Hps Hcm Hp Hc Hpb Hcb Hf;
    [done|]. clear Hk0. destruct ws as [|w ws]; [done|]. clear Hw0.
  apply Forall_cons in Hk as [Hk Hks]. apply Forall_cons in Hw as [Hw Hws].
  destruct fuel as [|fuel]; [lia|]. cbn [length] in Hf.
  rewrite !join_cons in *. repeat rewrite <- app_assoc in Hp. repeat rewrite <- app_assoc in Hc.
  assert (Hpl : Z.of_nat (length (k ++ join_tail kws)) = Z.of_nat (length k) + Z.of_nat (length (join_tail kws)))
    by apply zlen_app.
  assert (Hcl : Z.of_nat (length ((w ++ join_tail ws) ++ cmid)) =
                Z.of_nat (length w) + Z.of_nat (length (join_tail ws ++ cmid)))
    by (rewrite <- app_assoc; apply zlen_app).
  assert (Hps' : patternSeparatorPos (pattern_at pattern (Z.of_nat (length pre)))
                   (Z.of_nat (length (k ++ join_tail kws))) = Z.of_nat (length k)).
  { unfold patternSeparatorPos, pattern_at. rewrite Hp, drop_offset. apply sep_pos; [apply pattern_set|done| |done|].
    - destruct kws; [now left|right]. eexists _, _. split; [reflexivity|done].
    - rewrite Hp in Hpb. rewrite !length_app in Hpb. rewrite length_app. lia. }
  assert (Hcs' : cmdSeparatorPos (cmd_at cmd (Z.of_nat (length prec)))
                   (Z.of_nat (length ((w ++ join_tail ws) ++ cmid))) = Z.of_nat (length w)).
  { unfold cmdSeparatorPos, cmd_at. rewrite Hc, drop_offset.
    rewrite (app_assoc (join_tail ws)). apply sep_pos; [apply cmd_set|done| |done|].
    - destruct ws; [destruct Hcm as [->| ->]; [now left|right]|right]; eexists _, _; (split; [reflexivity|done]).
    - rewrite Hc in Hcb. rewrite !length_app in *. lia. }
  cbn [match_loop]. rewrite Hps', Hcs'.
  assert (Hm : matchPattern (pattern_at pattern (Z.of_nat (length pre))) (Z.of_nat (length k))
                 (cmd_at cmd (Z.of_nat (length prec))) (Z.of_nat (length w)) = keyword_match k w).
  { unfold pattern_at, cmd_at. rewrite Hp, Hc, !drop_offset. now apply matchPattern_spec. }
  rewrite Hm. clear Hm Hps' Hcs'. cbn [keywords_match].
  rewrite Hpl, Hcl. replace (Z.of_nat (length k) + Z.of_nat (length (join_tail kws)) - Z.of_nat (length k))
    with (Z.of_nat (length (join_tail kws))) by lia.
  replace (Z.of_nat (length w) + Z.of_nat (length (join_tail ws ++ cmid)) - Z.of_nat (length w))
    with (Z.of_nat (length (join_tail ws ++ cmid))) by lia.
  rewrite <- !zlen_app.
  assert (Hpch : forall i, pch pattern (Z.of_nat (length (pre ++ k))) (Z.of_nat i) =
                           default 0 ((join_tail kws ++ psuf) !! i))
    by (intros i; unfold pch; rewrite Hp, app_assoc; apply at_offset).
  assert (Hcch : cch cmd (Z.of_nat (length (prec ++ w))) 0 =
                           default 0 ((join_tail ws ++ cmid ++ csuf) !! 0%nat))
    by (unfold cch; rewrite Hc, (app_assoc prec); apply (at_offset (prec ++ w) _ 0)).
  pose proof (Hpch 0%nat) as Hp0. change (Z.of_nat 0) with 0 in Hp0.
  destruct (keyword_match k w); cbn [andb].
  - destruct kws as [|k2 kws].
    + cbn [join_tail length]. cbn [keywords_match]. rewrite Z.eqb_refl. cbn [andb].
      destruct ws as [|w2 ws]; [|cbn; reflexivity].
      destruct Hcm as [->| ->]; reflexivity.
    + cbn [join_tail] in *. cbn [app lookup list_lookup default from_option] in Hp0. unfold id in Hp0.
      rewrite Hp0. replace (Z.of_nat (length (58 :: join (k2 :: kws)))) with (1 + Z.of_nat (length (join (k2 :: kws))))
        by (cbn [length]; lia).
      destruct (Z.eqb_spec (1 + Z.of_nat (length (join (k2 :: kws)))) 0); [lia|]. cbn [andb].
      destruct ws as [|w2 ws].
      * cbn [join_tail app keywords_match] in *. destruct Hcm as [->| ->]; cbn [length app] in *.
        -- rewrite Z.eqb_refl. destruct fuel as [|fuel]; [lia|]. rewrite app_assoc in Hp.
           apply (rest_not_optional fuel (pre ++ k) (k2 :: kws) psuf Hp); try done.
        -- cbn [lookup list_lookup default from_option] in Hcch. unfold id in Hcch. rewrite Hcch.
           cbn [Z.eqb Pos.eqb andb]. rewrite !andb_false_r. reflexivity.
      * cbn [join_tail app] in *. cbn [lookup list_lookup default from_option] in Hcch. unfold id in Hcch. rewrite Hcch.
        cbn [length]. destruct (Z.eqb_spec (Z.of_nat (S (length (join (w2 :: ws) ++ cmid)))) 0); [lia|].
        destruct (Z.ltb_spec 0 (1 + Z.of_nat (length (join (k2 :: kws))))); [|lia]. cbn [Z.eqb Pos.eqb andb].
        assert (Hrec := IH (w2 :: ws) ((pre ++ k) ++ [58]) ((prec ++ w) ++ [58]) psuf cmid csuf fuel
                  ltac:(done) ltac:(done) Hks Hws Hps Hcm).
        rewrite !length_app in Hrec. cbn [length] in Hrec. rewrite !length_app. cbn [length]. rewrite <- Hrec; [f_equal; lia|..].
        -- rewrite Hp. now rewrite <- !app_assoc.
        -- rewrite Hc. now rewrite <- !app_assoc.
        -- exact Hpb.
        -- exact Hcb.
        -- cbn [length] in *; lia.
  - rewrite Hp0. assert (Hne : (default 0 ((join_tail kws ++ psuf) !! 0%nat) =? 93) = false).
    { destruct kws; cbn; [|reflexivity]. destruct Hps as [->| ->]; reflexivity. }
    rewrite Hne, !andb_false_r. reflexivity.
Qed.
End Loop.

Definition query_mark (q : bool) : list Z := if q then [63] else [].
Definition colon_mark (b : bool) : list Z := if b then [58] else [].

Lemma join_chars ws : Forall is_word ws -> Forall (fun c => c <> 63 /\ c <> 91) (join ws).
Proof.
  induction 1 as [|w ws [_ Hw] Hws IH]; [constructor|]. rewrite join_cons. apply Forall_app. split.
  - eapply Forall_impl; [exact Hw|]. intros c Hc. now destruct (word_char_spec c Hc) as (_ & ? & _ & ? & _).
  - destruct ws; [constructor|]. constructor; [done|exact IH].
Qed.

Lemma last_not_query l q :
  l <> [] -> Forall (fun c => c <> 63 /\ c <> 91) l ->
  (default 0 ((l ++ query_mark q) !! Z.to_nat (Z.of_nat (length (l ++ query_mark q)) - 1)) =? 63) = q.
Proof.
  intros Hne Hl. rewrite length_app. destruct q; cbn [query_mark length].
  - rewrite lookup_app_r by lia.
    replace (Z.to_nat (Z.of_nat (length l + 1) - 1) - length l)%nat with 0%nat by lia. reflexivity.
  - rewrite app_nil_r, Nat.add_0_r. apply Z.eqb_neq.
    assert (length l <> 0%nat) by (destruct l; cbn; [done|lia]).
    destruct (lookup_lt_is_Some_2 l (Z.to_nat (Z.of_nat (length l) - 1)) ltac:(lia)) as [c Hc]. rewrite Hc.
    eapply Forall_lookup_1 in Hl; [|exact Hc]. apply Hl.
Qed.

(** C3: a header matches a pattern word by word.  For a pattern of keywords
    without optional parts, and a header of words, with or without a leading
    colon, [matchCommand] ends and answers yes exactly when both or neither
    are queries, the header has as many words as the pattern has keywords,
    and each word is, in any mixture of cases, the long form of its keyword
    or its short form. *)
Theorem matchCommand_by_words kws ws pq cq colon :
  kws <> [] -> ws <> [] -> Forall is_word kws -> Forall is_word ws ->
  (colon = true -> head (join ws) <> Some 42) ->
  Z.of_nat (length (join kws)) < 2 ^ 30 -> Z.of_nat (length (join ws)) < 2 ^ 30 ->
  matchCommand (join kws ++ query_mark pq) (colon_mark colon ++ join ws ++ query_mark cq)
  = Some (keywords_match kws ws && bool_decide (pq = cq)).
Proof.
  intros Hk0 Hw0 Hk Hw Hcol Hkb Hwb.
  pose proof (join_chars kws Hk) as Hkc. pose proof (join_chars ws Hw) as Hwc.
  destruct (join_head kws Hk0 Hk) as (k0 & kr & Ek & Hkh). destruct (join_head ws Hw0 Hw) as (w0 & wr & Ew & Hwh).
  destruct (word_char_spec k0 Hkh) as (_ & _ & Hk58 & Hk91 & _). destruct (word_char_spec w0 Hwh) as (_ & _ & Hw58 & _).
  set (P := join kws ++ query_mark pq). set (C := colon_mark colon ++ join ws ++ query_mark cq).
  assert (HP : (pch P 0 (Z.of_nat (length P) - 1) =? 63) = pq)
    by (unfold pch; rewrite Z.add_0_l; apply last_not_query; [rewrite Ek; done|done]).
  assert (HC : (cch C 0 (Z.of_nat (length C) - 1) =? 63) = cq).
  { unfold cch. rewrite Z.add_0_l. unfold C. rewrite app_assoc. apply last_not_query.
    - rewrite Ew. destruct colon; done.
    - apply Forall_app. split; [destruct colon; repeat constructor; done|done]. }
  assert (HP0 : pch P 0 0 = k0) by (unfold pch, P; rewrite Ek; reflexivity).
  assert (HPlen : Z.of_nat (length P) = Z.of_nat (length (join kws)) + (if pq then 1 else 0))
    by (unfold P; rewrite zlen_app; destruct pq; reflexivity).
  assert (HClen : Z.of_nat (length C) = (if colon then 1 else 0) + Z.of_nat (length (join ws)) + (if cq then 1 else 0))
    by (unfold C; rewrite !zlen_app; destruct colon, cq; cbn [colon_mark query_mark length]; lia).
  assert (Hfuel : (length kws < S (S (length P)))%nat).
  { unfold P. rewrite length_app. clear -Hk. assert (length kws <= S (length (join kws)))%nat; [|lia].
    induction Hk as [|k ks Hk Hks IH]; [cbn; lia|]. destruct (is_word_head k Hk) as (c & r & -> & _).
    rewrite join_cons. destruct ks; cbn [length join_tail app] in *; rewrite ?length_app; cbn [length]; lia. }
  assert (Hmain : (pq = true -> cq = true) ->
    match_loop P C (S (S (length P))) 0 (Z.of_nat (length (join kws))) (Z.of_nat (length (colon_mark colon)))
      (Z.of_nat (length (join ws ++ (if pq then [] else query_mark cq)))) 0
    = Some (keywords_match kws ws && bool_decide (pq = cq))).
  { intros Hq. rewrite (match_words P C kws ws [] (colon_mark colon) (query_mark pq)
      (if pq then [] else query_mark cq) (if pq then query_mark cq else [])); try done.
    - f_equal. f_equal. apply bool_decide_ext. destruct pq, cq; cbn; intuition (done || discriminate).
    - destruct pq; [now right|now left].
    - destruct pq; [now left|]. destruct cq; [now right|now left].
    - unfold C. destruct pq; rewrite ?app_nil_r; done.
    - rewrite HPlen. destruct pq; lia.
    - rewrite HClen. destruct colon, cq; lia. }
  unfold matchCommand. fold (length P). rewrite HP, HC.
  destruct (pq && negb cq) eqn:Epq.
  { destruct pq, cq; try discriminate Epq. rewrite bool_decide_eq_false_2, andb_false_r by done. reflexivity. }
  specialize (Hmain ltac:(destruct pq, cq; done)).
  assert (Hpl : (if pq then (Z.of_nat (length P) - 1, Z.of_nat (length C) - 1)
                 else (Z.of_nat (length P), Z.of_nat (length C))) =
                (Z.of_nat (length (join kws)),
                 (if colon then 1 else 0) + Z.of_nat (length (join ws ++ (if pq then [] else query_mark cq))))).
  { rewrite HPlen, HClen, zlen_app. destruct pq, cq; try discriminate Epq; destruct colon; cbn [query_mark length];
      f_equal; lia. }
  rewrite Hpl, HP0, (proj2 (Z.eqb_neq _ _) Hk91), HP0, (proj2 (Z.eqb_neq _ _) Hk58).
  destruct colon; cbn [colon_mark length] in Hmain.
  - assert (H0 : cch C 0 0 = 58) by reflexivity.
    assert (H1 : cch C 0 1 = w0) by (unfold cch, C; rewrite Ew; reflexivity).
    rewrite H0, H1, zlen_app, Ew. cbn [length].
    destruct (Z.leb_spec 2 (1 + (Z.of_nat (S (length wr)) + Z.of_nat (length (if pq then [] else query_mark cq))))); [|lia].
    assert (w0 <> 42) by (intros ->; apply (Hcol eq_refl); now rewrite Ew).
    rewrite (proj2 (Z.eqb_neq w0 42)) by done. cbn [Z.eqb Pos.eqb andb negb].
    rewrite zlen_app, Ew in Hmain. cbn [length] in Hmain. rewrite <- Hmain. f_equal. lia.
  - assert (H0 : cch C 0 0 = w0) by (unfold cch, C; rewrite Ew; reflexivity).
    rewrite H0, (proj2 (Z.eqb_neq _ _) Hw58). cbn [andb]. rewrite Z.add_0_l. exact Hmain.
Qed.

Lemma matchCommand_by_words_witness :
  let kws := [str "RAMP"; str "BOUNDary"; str "MAXimum"] in
  let ws := [str "ramp"; str "bound"; str "Max"] in
  (Forall is_word kws /\ Forall is_word ws) /\
  matchCommand (join kws ++ query_mark true) (colon_mark true ++ join ws ++ query_mark true)
  = Some (keywords_match kws ws && bool_decide (true = true)).
Proof.
  split; [split; decided|].
  apply matchCommand_by_words; first [done | decided | (vm_compute; done)].
Defined.

(** ** The loop ends *)

(** The brackets open after the first [i] characters. *)
Fixpoint depth (p : list Z) (i : nat) : Z :=
  match i, p with
  | S i, c :: p => (if c =? 91 then 1 else if c =? 93 then -1 else 0) + depth p i
  | _, _ => 0
  end.

Definition stripped (p : list Z) : Z :=
  let n := Z.of_nat (length p) in
  if default 0 (p !! Z.to_nat (n - 1)) =? 63 then n - 1 else n.

(** A pattern whose optional rest is found wherever a header may end. *)
Definition pattern_ok (p : list Z) : bool :=
  (Z.of_nat (length p) <? 2 ^ 30) && forallb (fun c => negb (c =? 0)) p &&
  forallb (fun i => match rest_optional p (S (length p - i)) (Z.of_nat i) (stripped p - Z.of_nat i)
                            (depth p i) with Some _ => true | None => false end)
    (seq 0 (S (Z.to_nat (stripped p)))).

Lemma depth_drop p i j : depth p (i + j) = depth p i + depth (drop i p) j.
Proof.
  revert p. induction i as [|i IH]; intros p; [cbn; now destruct p|].
  destruct p as [|c p]; [cbn; now destruct j|]. cbn [depth Nat.add drop]. rewrite IH. lia.
Qed.

Lemma depth_1 p c : head p = Some c -> depth p 1 = if c =? 91 then 1 else if c =? 93 then -1 else 0.
Proof. destruct p as [|c' p]; [done|]. intros [= ->]. cbn. destruct p; apply Z.add_0_r. Qed.

Lemma strnpbrk_spec s n set :
  0 <= n -> Forall (fun c => c <> 0) s ->
  match strnpbrk s n set with
  | Some i => 0 <= i < n /\ i < Z.of_nat (length s) /\
      Forall (fun c => existsb (Z.eqb c) set = false) (take (Z.to_nat i) s)
  | None => Forall (fun c => existsb (Z.eqb c) set = false) (take (Z.to_nat n) s)
  end.
Proof.
  intros Hn Hs. revert n Hn. induction Hs as [|c s Hc Hs IH]; intros n Hn; cbn [strnpbrk].
  { rewrite take_nil. constructor. }
  destruct (Z.eqb_spec n 0) as [->|]; [constructor|]. rewrite (proj2 (Z.eqb_neq _ _) Hc).
  destruct (existsb (Z.eqb c) set) eqn:E; [cbn [length Z.to_nat take]; split_and!; (lia || constructor)|].
  specialize (IH (n - 1) ltac:(lia)). destruct (strnpbrk s (n - 1) set) as [i|].
  - destruct IH as (H1 & H2 & H3). split_and!; [lia..|cbn [length]; lia|].
    replace (Z.to_nat (i + 1)) with (S (Z.to_nat i)) by lia. now constructor.
  - replace (Z.to_nat n) with (S (Z.to_nat (n - 1))) by lia. now constructor.
Qed.

Lemma no_brackets_depth s n :
  Forall (fun c => existsb (Z.eqb c) (str "?:[]") = false) (take n s) -> depth s n = 0.
Proof.
  change (str "?:[]") with [63; 58; 91; 93].
  revert s. induction n as [|n IH]; intros s H; [now destruct s|]. destruct s as [|c s]; [done|].
  cbn [take] in H. apply Forall_cons in H as [Hc H]. cbn in Hc. rewrite !orb_false_iff in Hc.
  destruct Hc as (_ & _ & H91 & H93 & _). cbn [depth]. rewrite H91, H93, (IH s H). reflexivity.
Qed.

Section Ends.
Variables p cmd : list Z.
Hypothesis Hlen : Z.of_nat (length p) < 2 ^ 30.
Hypothesis Hnz : Forall (fun c => c <> 0) p.

Lemma sep_spec pp pl :
  0 <= pp -> 0 <= pl -> pp + pl <= Z.of_nat (length p) ->
  let sep := patternSeparatorPos (pattern_at p pp) pl in
  0 <= sep <= pl /\ depth p (Z.to_nat (pp + sep)) = depth p (Z.to_nat pp).
Proof.
  intros Hpp Hpl Hle sep. unfold sep, patternSeparatorPos. rewrite (wrap_small 32) by lia.
  assert (Hnz' : Forall (fun c => c <> 0) (pattern_at p pp)) by (now apply Forall_drop).
  pose proof (strnpbrk_spec (pattern_at p pp) pl (str "?:[]") Hpl Hnz') as H.
  destruct (strnpbrk _ _ _) as [i|].
  - destruct H as (H1 & _ & H3). split; [lia|].
    rewrite Z2Nat.inj_add, depth_drop by lia. fold (pattern_at p pp). unfold pattern_at in *.
    rewrite (no_brackets_depth _ _ H3). lia.
  - rewrite s32_small by lia. split; [lia|]. rewrite Z2Nat.inj_add, depth_drop by lia. unfold pattern_at in *.
    rewrite (no_brackets_depth _ _ H). lia.
Qed.

Lemma rest_optional_mono fuel fuel' pp pl b r :
  (fuel <= fuel')%nat -> rest_optional p fuel pp pl b = Some r -> rest_optional p fuel' pp pl b = Some r.
Proof.
  revert fuel' pp pl b. induction fuel as [|fuel IH]; intros [|fuel'] pp pl b Hle; try (done || lia).
  cbn [rest_optional]. destruct (pl =? 0); [done|].
  match goal with |- (if ?x then _ else _) = _ -> _ => destruct x end;
    [match goal with |- (if ?x then _ else _) = _ -> _ => destruct x end|];
    (exact (fun H => H) || (apply IH; lia)).
Qed.

(** One character further: the depth changes by what the character is. *)
Lemma depth_step pp : 0 <= pp ->
  depth p (Z.to_nat (pp + 1)) =
    depth p (Z.to_nat pp) + (if pch p pp 0 =? 91 then 1 else if pch p pp 0 =? 93 then -1 else 0).
Proof.
  intros Hpp. replace (Z.to_nat (pp + 1)) with (Z.to_nat pp + 1)%nat by lia. rewrite depth_drop. f_equal.
  pose proof (lookup_drop p (Z.to_nat pp) 0) as Hl. rewrite Nat.add_0_r in Hl.
  unfold pch. rewrite Z.add_0_r, <- Hl.
  destruct (drop (Z.to_nat pp) p) as [|c l]; [done|]. now rewrite (depth_1 _ c).
Qed.

Lemma pch_shift pp k : pch p pp k = pch p (pp + k) 0.
Proof. unfold pch. do 3 f_equal. lia. Qed.

Variable plen : Z.
Hypothesis Hplen : plen <= Z.of_nat (length p).
(** Behind the stripped length there is a question mark or the end. *)
Hypothesis Htail : forall i, plen <= i -> pch p i 0 <> 93 /\ pch p i 0 <> 58.
Hypothesis Hrest : forall i, (i <= Z.to_nat plen)%nat ->
  rest_optional p (S (length p - i)) (Z.of_nat i) (plen - Z.of_nat i) (depth p i) <> None.

Lemma match_loop_ends fuel pp pl cp cl b :
  0 <= pp -> 0 <= pl -> pp + pl = plen -> b = depth p (Z.to_nat pp) ->
  (length p - Z.to_nat pp + 1 < fuel)%nat -> match_loop p cmd fuel pp pl cp cl b <> None.
Proof.
  revert pp pl cp cl b. induction fuel as [|fuel IH]; intros pp pl cp cl b Hpp Hpl Hsum Hb Hf; [lia|].
  cbn [match_loop]. destruct (sep_spec pp pl Hpp Hpl ltac:(lia)) as [Hsep Hd].
  set (sep := patternSeparatorPos (pattern_at p pp) pl) in *.
  rewrite <- Hd in Hb. set (q := pp + sep) in *. set (ql := pl - sep) in *.
  assert (Hq : q + ql = plen /\ pp <= q /\ 0 <= ql) by lia. destruct Hq as (Hq & Hppq & Hql).
  clearbody q ql. clear Hd.
  assert (Hgo : forall k b', 0 < k <= ql -> b' = depth p (Z.to_nat (q + k)) ->
            forall cp cl, match_loop p cmd fuel (q + k) (ql - k) cp cl b' <> None)
    by (intros k b' Hk Hb' cp' cl'; apply IH; lia).
  assert (H2 : forall c0, pch p q 0 = c0 -> c0 <> 91 -> c0 <> 93 -> depth p (Z.to_nat (q + 1)) = b).
  { intros c0 E H91 H93. rewrite depth_step, E, <- Hb by lia.
    rewrite (proj2 (Z.eqb_neq _ _) H91), (proj2 (Z.eqb_neq _ _) H93). lia. }
  pose proof (depth_step q ltac:(lia)) as Hd1. rewrite <- Hb in Hd1.
  pose proof (depth_step (q + 1) ltac:(lia)) as Hd2. pose proof (depth_step (q + 2) ltac:(lia)) as Hd3.
  rewrite <- (pch_shift q 1) in Hd2. rewrite <- (pch_shift q 2) in Hd3.
  replace (q + 1 + 1) with (q + 2) in Hd2 by lia. replace (q + 2 + 1) with (q + 3) in Hd3 by lia.
  destruct (matchPattern _ _ _ _).
  - destruct ((ql =? 0) && _); [done|]. destruct ((ql =? 0) && _); [done|].
    destruct (_ =? 0).
    + pose proof (Hrest (Z.to_nat q) ltac:(lia)) as Hr. rewrite Z2Nat.id in Hr by lia.
      replace (plen - q) with ql in Hr by lia. rewrite <- Hb in Hr.
      destruct (rest_optional p (S (length p - Z.to_nat q)) q ql b) as [r|] eqn:E; [|done].
      rewrite (rest_optional_mono (S (length p - Z.to_nat q)) fuel _ _ _ _ ltac:(lia) E). done.
    + repeat case_match; try done; rewrite !andb_true_iff, !Z.ltb_lt, ?Z.eqb_eq in *;
        repeat match goal with H : _ /\ _ |- _ => destruct H end;
        repeat match goal with H : pch p q _ = _ |- _ => first [rewrite H in Hd1 | rewrite H in Hd2 | rewrite H in Hd3] end;
        cbn in Hd1, Hd2, Hd3; apply Hgo; try lia.
  - pose proof (Htail q) as Ht0. pose proof (Htail (q + 1)) as Ht1. rewrite <- (pch_shift q 1) in Ht1.
    repeat case_match; try done; rewrite !andb_true_iff, ?Z.ltb_lt, ?Z.eqb_eq in *;
        repeat match goal with H : _ /\ _ |- _ => destruct H end;
        repeat match goal with H : pch p q _ = _ |- _ => first [rewrite H in Hd1 | rewrite H in Hd2 | rewrite H in Hd3] end;
        cbn in Hd1, Hd2, Hd3; apply Hgo; try lia;
        (destruct (decide (plen <= q)); [now destruct Ht0|];
         destruct (decide (plen <= q + 1)); [now destruct Ht1|lia]).
Qed.
End Ends.

(** [matchCommand] ends for every header. *)
Lemma matchCommand_ends p cmd : pattern_ok p = true -> matchCommand p cmd <> None.
Proof.
  unfold pattern_ok. rewrite !andb_true_iff. intros [[Hlen Hnz] Hrest]. apply Z.ltb_lt in Hlen.
  assert (Hnz' : Forall (fun c => c <> 0) p).
  { apply Forall_forall. intros c Hc. rewrite forallb_forall in Hnz. apply list_elem_of_In, Hnz in Hc.
    apply negb_true_iff, Z.eqb_neq in Hc. exact Hc. }
  assert (Hrest' : forall i, (i <= Z.to_nat (stripped p))%nat ->
    rest_optional p (S (length p - i)) (Z.of_nat i) (stripped p - Z.of_nat i) (depth p i) <> None).
  { intros i Hi. rewrite forallb_forall in Hrest. specialize (Hrest i ltac:(apply in_seq; lia)).
    destruct (rest_optional _ _ _ _ _); done. }
  clear Hnz Hrest. set (plen := stripped p) in *.
  assert (Hq : (pch p 0 (Z.of_nat (length p) - 1) =? 63) = true /\ plen = Z.of_nat (length p) - 1 /\ 0 <= plen \/
               (pch p 0 (Z.of_nat (length p) - 1) =? 63) = false /\ plen = Z.of_nat (length p)).
  { unfold plen, stripped, pch. rewrite Z.add_0_l. destruct (Z.eqb_spec (default 0 (p !! Z.to_nat (Z.of_nat (length p) - 1))) 63) as [E|E];
      [left|right; done]. split_and!; try done. destruct p; [discriminate E|cbn [length]; lia]. }
  assert (Hbeyond : forall i, Z.of_nat (length p) <= i -> pch p i 0 = 0).
  { intros i Hi. unfold pch. rewrite lookup_ge_None_2 by lia. reflexivity. }
  assert (Htail : forall i, plen <= i -> pch p i 0 <> 93 /\ pch p i 0 <> 58 /\ pch p i 0 <> 91).
  { intros i Hi. destruct Hq as [(E & Hp & H0)|(_ & Hp)]; [|rewrite Hbeyond by lia; done].
    destruct (decide (i = Z.of_nat (length p) - 1)) as [->|]; [|rewrite Hbeyond by lia; done].
    apply Z.eqb_eq in E. rewrite pch_shift, Z.add_0_l in E. now rewrite E. }
  assert (Hstart : forall pp pl cp cl b, 0 <= pp -> 0 <= pl -> pp + pl = plen -> b = depth p (Z.to_nat pp) ->
            match_loop p cmd (S (S (length p))) pp pl cp cl b <> None).
  { intros. eapply (match_loop_ends p cmd Hlen Hnz' plen); try done; try lia.
    - intros i Hi. destruct (Htail i Hi) as (? & ? & _). done. }
  unfold matchCommand.
  assert (Hpl : forall cl, exists cl', (if pch p 0 (Z.of_nat (length p) - 1) =? 63
                 then (Z.of_nat (length p) - 1, cl - 1) else (Z.of_nat (length p), cl)) = (plen, cl'))
    by (intros cl; destruct Hq as [(-> & -> & _)|(-> & ->)]; eauto).
  destruct (_ && negb _); [done|]. destruct (Hpl (Z.of_nat (length cmd))) as [cl ->].
  assert (Hp0 : 0 <= plen) by (destruct Hq as [(_ & _ & ?)|(_ & ->)]; lia).
  pose proof (depth_step p 0 ltac:(lia)) as Hd1. pose proof (depth_step p 1 ltac:(lia)) as Hd2.
  assert (Hd0 : depth p 0 = 0) by (now destruct p). assert (Hd0' : depth p (Z.to_nat 0) = 0) by exact Hd0. rewrite Hd0' in Hd1.
  assert (Hat : forall pp b, b = depth p (Z.to_nat pp) -> 0 <= pp <= plen -> forall pl cp cl, pl = plen - pp ->
            match_loop p cmd (S (S (length p))) pp pl cp cl b <> None)
    by (intros pp b Hb Hpp pl cp cl' ->; apply Hstart; (lia || exact Hb)).
  clear Hstart. change (0 + 1) with 1 in *. change (1 + 1) with 2 in *.
  pose proof (Htail 0) as Ht0. pose proof (Htail 1) as Ht1.
  destruct (Z.eqb_spec (pch p 0 0) 91) as [E91|E91].
  - assert (0 < plen) by (destruct (decide (plen <= 0)); [now destruct Ht0 as (_ & _ & ?)|lia]).
    destruct (Z.eqb_spec (pch p 1 0) 58) as [E58|E58].
    + assert (1 < plen) by (destruct (decide (plen <= 1)); [now destruct Ht1 as (_ & ? & _)|lia]).
      rewrite E58, Hd1 in Hd2. change (58 =? 91) with false in Hd2. change (58 =? 93) with false in Hd2.
      assert (H2 := Hat 2 1 ltac:(rewrite Hd2; reflexivity) ltac:(lia)). clear -H2.
      destruct (_ && _); [destruct (negb _); [|done]|]; apply H2; lia.
    + assert (H1 := Hat 1 1 ltac:(rewrite Hd1; reflexivity) ltac:(lia)). clear -H1.
      destruct (_ && _); [destruct (negb _); [|done]|]; apply H1; lia.
  - destruct (Z.eqb_spec (pch p 0 0) 58) as [E58|E58].
    + assert (0 < plen) by (destruct (decide (plen <= 0)); [now destruct Ht0 as (_ & ? & _)|lia]).
      rewrite E58 in Hd1. assert (H1 := Hat 1 0 ltac:(rewrite Hd1; reflexivity) ltac:(lia)). clear -H1.
      destruct (_ && _); [destruct (negb _); [|done]|]; apply H1; lia.
    + assert (H0 := Hat 0 0 ltac:(symmetry; exact Hd0) ltac:(lia)). clear -H0.
      destruct (_ && _); [destruct (negb _); [|done]|]; apply H0; lia.
Qed.

(** ** Completing a header *)

(** The bytes of a token. *)
Definition slice (mem : list Z) (t : scpi_token_t) : list Z :=
  take (Z.to_nat (t_len t)) (drop (Z.to_nat (t_ptr t)) mem).

(** The path of a header: what precedes its last word, with the colon. *)
Fixpoint path (h : list Z) : list Z :=
  match h with
  | [] => []
  | c :: h => if existsb (Z.eqb 58) (c :: h) then c :: path h else []
  end.

Lemma path_no_colon h : existsb (Z.eqb 58) h = false -> path h = [].
Proof. intros H. destruct h; [done|]. cbn [path]. now rewrite H. Qed.

Lemma path_snoc h c : path (h ++ [c]) = if c =? 58 then h ++ [c] else path h.
Proof.
  induction h as [|x h IH]; cbn [app path].
  - cbn [existsb]. rewrite orb_false_r, (Z.eqb_sym 58 c). now destruct (c =? 58).
  - rewrite IH. rewrite app_comm_cons, existsb_app. cbn [existsb]. rewrite orb_false_r, (Z.eqb_sym 58 c).
    destruct (c =? 58); [now rewrite orb_true_r|]. rewrite orb_false_r.
    destruct (existsb (Z.eqb 58) h) eqn:E; [reflexivity|]. now rewrite path_no_colon.
Qed.

Lemma last_colon_path mem ptr n :
  0 <= ptr -> (Z.to_nat ptr + n <= length mem)%nat ->
  last_colon mem ptr n = Z.of_nat (length (path (take n (drop (Z.to_nat ptr) mem)))) /\
  path (take n (drop (Z.to_nat ptr) mem)) =
    take (length (path (take n (drop (Z.to_nat ptr) mem)))) (drop (Z.to_nat ptr) mem).
Proof.
  intros Hp. induction n as [|n IH]; intros Hn; [done|]. cbn [last_colon].
  destruct (lookup_lt_is_Some_2 mem (Z.to_nat ptr + n) ltac:(lia)) as [c Hc].
  replace (Z.to_nat (ptr + Z.of_nat n)) with (Z.to_nat ptr + n)%nat by lia. rewrite Hc. cbn [default from_option]. unfold id.
  assert (Hs : take (S n) (drop (Z.to_nat ptr) mem) = take n (drop (Z.to_nat ptr) mem) ++ [c])
    by (apply take_S_r; rewrite lookup_drop; exact Hc).
  destruct (IH ltac:(lia)) as [IH1 IH2]. rewrite Hs, path_snoc. destruct (c =? 58).
  - rewrite <- Hs, length_take, length_drop. split; [lia|]. f_equal. lia.
  - split; [exact IH1|exact IH2].
Qed.

(** a header that starts neither with a colon nor with a star is
    completed with the path of the header before it: the token afterwards
    reads as that path followed by the header, whatever of the line is
    overwritten lies before the header's end, and the move never leaves the
    line. *)
Theorem compose_prepends_path prev cur mem :
  0 <= t_ptr prev -> 0 < t_len prev -> t_ptr prev + t_len prev <= t_ptr cur ->
  0 < t_len cur -> t_ptr cur + t_len cur <= Z.of_nat (length mem) ->
  head (slice mem cur) <> Some 42 -> head (slice mem cur) <> Some 58 -> head (slice mem prev) <> Some 42 ->
  exists cur' mem',
    composeCompoundCommand prev cur mem = Some (true, cur', mem') /\
    slice mem' cur' = path (slice mem prev) ++ slice mem cur /\
    t_type cur' = t_type cur /\ t_ptr cur' + t_len cur' = t_ptr cur + t_len cur /\
    t_ptr prev <= t_ptr cur' /\ length mem' = length mem /\
    drop (Z.to_nat (t_ptr cur)) mem' = drop (Z.to_nat (t_ptr cur)) mem.
Proof.
  intros Hp0 Hpl Hpc Hcl Hcm Hc42 Hc58 Hp42.
  assert (Hhead : forall t, 0 <= t_ptr t -> 0 < t_len t -> forall c,
            head (slice mem t) <> Some c -> t_ptr t + t_len t <= Z.of_nat (length mem) ->
            (default 0 (mem !! Z.to_nat (t_ptr t)) =? c) = false).
  { intros t H1 H2 c H3 H4. destruct (lookup_lt_is_Some_2 mem (Z.to_nat (t_ptr t)) ltac:(lia)) as [x Hx].
    rewrite Hx. apply Z.eqb_neq. intros Hxc. apply H3. unfold slice.
    rewrite (drop_S mem x) by exact Hx. destruct (Z.to_nat (t_len t)) as [|n] eqn:En; [lia|]. cbn. now f_equal. }
  destruct (last_colon_path mem (t_ptr prev) (Z.to_nat (t_len prev)) Hp0 ltac:(lia)) as [Hi Hpath].
  fold (slice mem prev) in Hi, Hpath. set (k := length (path (slice mem prev))) in *.
  assert (Hk : (k <= Z.to_nat (t_len prev))%nat).
  { unfold k. clear. assert (H : forall h, (length (path h) <= length h)%nat).
    { induction h as [|c h IH]; [done|]. cbn [path]. case_match; cbn [length]; lia. }
    etransitivity; [apply H|]. unfold slice. rewrite length_take. lia. }
  unfold composeCompoundCommand.
  rewrite (proj2 (Z.eqb_neq (t_len cur) 0)), (proj2 (Z.eqb_neq (t_len prev) 0)) by lia.
  rewrite !(Hhead cur), (Hhead prev) by (done || lia). cbn [orb]. rewrite Hi.
  destruct (Z.eqb_spec (Z.of_nat k) 0) as [E|E].
  - exists cur, mem. assert (Hnil : path (slice mem prev) = []) by (apply nil_length_inv; unfold k in E; lia).
    rewrite Hnil. cbn [app]. split_and!; (done || lia).
  - unfold memmove. cbn [t_ptr]. destruct (Z.ltb_spec (t_ptr cur - Z.of_nat k) 0); [lia|].
    destruct (Z.ltb_spec (t_ptr prev) 0); [lia|]. cbn [orb]. rewrite Nat2Z.id.
    unfold read_bytes. rewrite decide_True by lia. rewrite <- Hpath.
    unfold write_bytes. rewrite decide_True by (fold k; lia). fold k.
    set (a := Z.to_nat (t_ptr cur - Z.of_nat k)). assert (Ha : (a + k = Z.to_nat (t_ptr cur))%nat) by lia.
    rewrite Ha. do 2 eexists. split; [reflexivity|]. cbn [t_type t_ptr t_len].
    set (c := Z.to_nat (t_ptr cur)) in *.
    assert (Hla : length (take a mem) = a) by (rewrite length_take; lia).
    split_and!; try lia; try done.
    + unfold slice at 1. cbn [t_ptr t_len]. fold a.
      rewrite drop_app_length' by lia.
      change (slice mem cur) with (take (Z.to_nat (t_len cur)) (drop c mem)).
      rewrite take_app_ge by (fold k; lia). fold k. do 2 f_equal. lia.
    + rewrite !length_app, Hla, length_drop. fold k. lia.
    + rewrite (app_assoc (take a mem)). apply drop_app_length'. rewrite length_app, Hla. fold k. lia.
Qed.

(** [FREQ 1] after [OUT:AMPL 1]. *)
Lemma compose_prepends_path_witness :
  let mem := str "OUT:AMPL 1;FREQ 1" in
  let prev := mkTok SCPI_TOKEN_COMPOUND_PROGRAM_HEADER 0 8 in
  let cur := mkTok SCPI_TOKEN_COMPOUND_PROGRAM_HEADER 11 4 in
  (0 <= t_ptr prev /\ t_ptr cur + t_len cur <= Z.of_nat (length mem)) /\
  exists cur' mem',
    composeCompoundCommand prev cur mem = Some (true, cur', mem') /\
    slice mem' cur' = path (slice mem prev) ++ slice mem cur /\
    t_type cur' = t_type cur /\ t_ptr cur' + t_len cur' = t_ptr cur + t_len cur /\
    t_ptr prev <= t_ptr cur' /\ length mem' = length mem /\
    drop (Z.to_nat (t_ptr cur)) mem' = drop (Z.to_nat (t_ptr cur)) mem.
Proof.
  split; [cbn; lia|]. apply compose_prepends_path; first [cbn; lia | vm_compute; discriminate].
Defined.
