(* ===== verification/ScpiNumber.v ===== *)
(** * ScpiNumber: integers as text

    utils.c: writing integers in the bases of SCPI and reading them back with
    the strtol family of the C library.  [uint32_text_roundtrip] shows that
    reading a written number gives the number. *)

From Stdlib Require Import ZArith Lia String.
From stdpp Require Import base numbers list.
From S2P Require Import Prelude Lexer ScpiCore ScpiMatch.

(** ** Writing *)

Definition digit_char (d : Z) : Z := default 0 (str "0123456789ABCDEF" !! Z.to_nat d).

(** The divisor of the first digit, for a [w]-bit number, and the base used. *)
Definition top_divisor32 (base : Z) : Z * Z :=
  if base =? 2 then (0x80000000, 2)
  else if base =? 8 then (0x40000000, 8)
  else if base =? 16 then (0x10000000, 16)
  else (1000000000, 10).
Definition top_divisor64 (base : Z) : Z * Z :=
  if base =? 2 then (0x8000000000000000, 2)
  else if base =? 8 then (0x8000000000000000, 8)
  else if base =? 16 then (0x1000000000000000, 16)
  else (10000000000000000000, 10).

(** [while ((uval / x) == 0) x /= base]; [None] for a division by zero or
    when the fuel ends. *)
Fixpoint leading_divisor (fuel : nat) (uval x base : Z) : option Z :=
  match fuel with
  | O => None
  | S fuel =>
      if x =? 0 then None
      else if uval / x =? 0 then leading_divisor fuel uval (x / base) base else Some x
  end.

(** [do { ... } while (x && (pos < len))]; [room] is [len - pos]. *)
Fixpoint write_digits (fuel : nat) (uval x base room : Z) : list Z :=
  match fuel with
  | O => []
  | S fuel =>
      let digit := wrap 8 (uval / x) in
      let add := if 0 <? room then [digit_char digit] else [] in
      let room := if 0 <? room then room - 1 else room in
      let uval := uval - digit * x in
      let x := x / base in
      if truthy x && (0 <? room) then add ++ write_digits fuel uval x base room else add
  end.

(** The characters written to a buffer of [len] bytes. *)
Definition ToStrBaseSign (w : Z) (top : Z -> Z * Z) (val len base : Z) (sign : bool) : option (list Z) :=
  let uval := val in
  if uval =? 0 then Some (if 0 <? len then [48] else [])
  else
    let '(x, base) := top base in
    let neg := sign && (2 ^ (w - 1) <=? val) && (base =? 10) in
    let uval := if neg then wrap w (- val) else uval in
    let minus := if neg && (0 <? len) then [45] else [] in
    match leading_divisor (Z.to_nat w + 1) uval x base with
    | None => None
    | Some x =>
        Some (minus ++ write_digits (Z.to_nat w + 1) uval x base (len - Z.of_nat (length minus)))
    end.

Definition UInt32ToStrBaseSign (val len base : Z) (sign : bool) : option (list Z) :=
  ToStrBaseSign 32 top_divisor32 val len base sign.
Definition UInt64ToStrBaseSign (val len base : Z) (sign : bool) : option (list Z) :=
  ToStrBaseSign 64 top_divisor64 val len base sign.
Definition SCPI_Int32ToStr (val len : Z) := UInt32ToStrBaseSign (u32 val) len 10 true.
Definition SCPI_UInt32ToStrBase (val len base : Z) := UInt32ToStrBaseSign val len base false.
Definition SCPI_Int64ToStr (val len : Z) := UInt64ToStrBaseSign (u64 val) len 10 true.
Definition SCPI_UInt64ToStrBase (val len base : Z) := UInt64ToStrBaseSign val len base false.

(** ** Reading: the strtol family *)

Definition isspace (c : Z) : bool := (c =? 32) || chr_in 9 13 c.

Definition digit_val (base c : Z) : option Z :=
  let d := if isdigit c then c - 48 else if isalpha c then tolower c - 87 else base in
  if d <? base then Some d else None.

(** The value of the leading digits and their number. *)
Fixpoint scan_digits (base : Z) (s : list Z) (acc n : Z) : Z * Z :=
  match s with
  | [] => (acc, n)
  | c :: s => match digit_val base c with
              | Some d => scan_digits base s (acc * base + d) (n + 1)
              | None => (acc, n)
              end
  end.

Fixpoint count_space (s : list Z) : Z :=
  match s with c :: s => if isspace c then 1 + count_space s else 0 | [] => 0 end.

(** The length of a prefix [0x] before hexadecimal digits. *)
Definition hex_prefix (base : Z) (s : list Z) : Z :=
  match s with
  | c0 :: c1 :: c2 :: _ =>
      if (base =? 16) && (c0 =? 48) && ((c1 =? 120) || (c1 =? 88)) && isxdigit c2 then 2 else 0
  | _ => 0
  end.

(** Sign, magnitude and number of characters used, 0 if there is no number. *)
Definition strto (s : list Z) (base : Z) : bool * Z * Z :=
  let ws := count_space s in
  let s1 := drop (Z.to_nat ws) s in
  let c := default 0 (head s1) in
  let neg := c =? 45 in
  let sg := if (c =? 45) || (c =? 43) then 1 else 0 in
  let s2 := drop (Z.to_nat sg) s1 in
  let prefix := hex_prefix base s2 in
  let '(v, n) := scan_digits base (drop (Z.to_nat prefix) s2) 0 0 in
  if n =? 0 then (false, 0, 0) else (neg, v, ws + sg + prefix + n).

(** Out of range, the unsigned functions give the largest value, the signed
    ones the nearest. *)
Definition strtou (w : Z) (s : list Z) (base : Z) : Z * Z :=
  let '(neg, v, used) := strto s base in
  (if 2 ^ w <=? v then 2 ^ w - 1 else if (neg : bool) then wrap w (- v) else v, used).
Definition strtos (w : Z) (s : list Z) (base : Z) : Z * Z :=
  let '(neg, v, used) := strto s base in
  let z := if (neg : bool) then - v else v in
  (Z.max (- 2 ^ (w - 1)) (Z.min z (2 ^ (w - 1) - 1)), used).

(** The value stored and the number of characters used. *)
Definition strBaseToInt32 (s : list Z) (base : Z) : Z * Z := strtos 32 s base.
Definition strBaseToUInt32 (s : list Z) (base : Z) : Z * Z := strtou 32 s base.
Definition strBaseToInt64 (s : list Z) (base : Z) : Z * Z := strtos 64 s base.
Definition strBaseToUInt64 (s : list Z) (base : Z) : Z * Z := strtou 64 s base.

Example write_hex : UInt32ToStrBaseSign 0xBEEF 33 16 false = Some (str "BEEF").
Proof. vm_compute. reflexivity. Qed.
Example write_negative : SCPI_Int32ToStr (-113) 33 = Some (str "-113").
Proof. vm_compute. reflexivity. Qed.
Example read_hex : strBaseToUInt32 (str "0xBEEF;") 16 = (0xBEEF, 6).
Proof. vm_compute. reflexivity. Qed.

(** ** What is written *)

(** A number below [base ^ S k] written with the divisor [base ^ k] is [S k]
    digits, the first not 0 if the number is at least [base ^ k]. *)
Definition bases : list Z := [2; 8; 10; 16].

Lemma digit_char_val b d :
  b ∈ bases -> 0 <= d < b -> digit_val b (digit_char d) = Some d.
Proof.
  intros Hb Hd.
  assert (H : Forall (fun b => Forall (fun d => digit_val b (digit_char d) = Some d) (seqZ 0 b)) bases)
    by decided.
  rewrite Forall_forall in H. specialize (H b Hb). rewrite Forall_forall in H. apply H.
  apply elem_of_seqZ. lia.
Qed.

Lemma bases_range b : b ∈ bases -> 2 <= b <= 16.
Proof. intros Hb. assert (H : Forall (fun b => 2 <= b <= 16) bases) by decided. rewrite Forall_forall in H. now apply H. Qed.

Lemma pow_div b k : 2 <= b -> b ^ Z.of_nat (S k) / b = b ^ Z.of_nat k.
Proof.
  intros Hb. rewrite Nat2Z.inj_succ, Z.pow_succ_r, Z.mul_comm by lia. apply Z.div_mul. lia.
Qed.

Lemma write_digits_scan b k : forall fuel uval room r acc n,
  b ∈ bases -> 0 <= uval < b ^ Z.of_nat (S k) -> Z.of_nat (S k) <= room -> (k < fuel)%nat ->
  scan_digits b (write_digits fuel uval (b ^ Z.of_nat k) b room ++ r) acc n =
    scan_digits b r (acc * b ^ Z.of_nat (S k) + uval) (n + Z.of_nat (S k)).
Proof.
  induction k as [|k IH]; intros fuel uval room r acc n Hb Hu Hr Hf; (destruct fuel as [|fuel]; [lia|]);
    pose proof (bases_range b Hb) as Hb'; cbn [write_digits].
  - change (b ^ Z.of_nat 0) with 1. rewrite Z.pow_1_r in Hu. rewrite Z.div_1_r.
    rewrite (wrap_small 8) by lia. destruct (Z.ltb_spec 0 room); [|lia].
    rewrite (Z.div_small 1 b) by lia. cbn [truthy negb Z.eqb andb app scan_digits].
    rewrite digit_char_val by (done || lia). f_equal. now rewrite Z.pow_1_r.
  - assert (Hp : 0 < b ^ Z.of_nat (S k)) by (apply Z.pow_pos_nonneg; lia).
    assert (Hp0 : 0 < b ^ Z.of_nat k) by (apply Z.pow_pos_nonneg; lia).
    assert (Hs : b ^ Z.of_nat (S (S k)) = b * b ^ Z.of_nat (S k)) by (rewrite (Nat2Z.inj_succ (S k)), Z.pow_succ_r by lia; lia).
    assert (Hd : 0 <= uval / b ^ Z.of_nat (S k) < b).
    { split; [apply Z.div_pos; lia|]. apply Z.div_lt_upper_bound; lia. }
    rewrite (wrap_small 8) by lia. destruct (Z.ltb_spec 0 room); [|lia]. rewrite pow_div by lia.
    destruct (Z.ltb_spec 0 (room - 1)); [|lia].
    assert (Ht : truthy (b ^ Z.of_nat k) = true) by (unfold truthy; rewrite (proj2 (Z.eqb_neq _ _)) by lia; done).
    rewrite Ht. cbn [andb app scan_digits]. rewrite digit_char_val by done.
    pose proof (Z.div_mod uval (b ^ Z.of_nat (S k)) ltac:(lia)) as Hdm.
    pose proof (Z.mod_pos_bound uval (b ^ Z.of_nat (S k)) Hp).
    rewrite IH by (done || lia). f_equal; [|lia]. rewrite Hs. lia.
Qed.

Lemma write_digits_length b k : forall fuel uval room,
  b ∈ bases -> Z.of_nat (S k) <= room -> (k < fuel)%nat ->
  length (write_digits fuel uval (b ^ Z.of_nat k) b room) = S k.
Proof.
  induction k as [|k IH]; intros fuel uval room Hb Hr Hf; (destruct fuel as [|fuel]; [lia|]);
    pose proof (bases_range b Hb) as Hb'; cbn [write_digits]; (destruct (Z.ltb_spec 0 room); [|lia]).
  - change (b ^ Z.of_nat 0) with 1. rewrite (Z.div_small 1 b) by lia. reflexivity.
  - rewrite pow_div by lia. destruct (Z.ltb_spec 0 (room - 1)); [|lia].
    assert (0 < b ^ Z.of_nat k) by (apply Z.pow_pos_nonneg; lia).
    assert (Ht : truthy (b ^ Z.of_nat k) = true) by (unfold truthy; rewrite (proj2 (Z.eqb_neq _ _)) by lia; done).
    rewrite Ht. cbn [andb app length]. f_equal. apply IH; [done|lia..].
Qed.

(** The loop that drops leading zeros ends at the number's first digit. *)
Lemma leading_divisor_spec b k : forall fuel uval,
  2 <= b -> 0 < uval -> (k < fuel)%nat ->
  exists j, (j <= k)%nat /\ leading_divisor fuel uval (b ^ Z.of_nat k) b = Some (b ^ Z.of_nat j) /\
    b ^ Z.of_nat j <= uval /\ (uval < b ^ Z.of_nat (S k) -> uval < b ^ Z.of_nat (S j)).
Proof.
  induction k as [|k IH]; intros fuel uval Hb Hu Hf; (destruct fuel as [|fuel]; [lia|]); cbn [leading_divisor].
  - change (b ^ Z.of_nat 0) with 1. rewrite Z.div_1_r. cbn [Z.eqb].
    rewrite (proj2 (Z.eqb_neq _ _)) by lia. exists 0%nat. split_and!; [lia|reflexivity|cbn; lia|done].
  - assert (Hp : 0 < b ^ Z.of_nat (S k)) by (apply Z.pow_pos_nonneg; lia).
    rewrite (proj2 (Z.eqb_neq (b ^ Z.of_nat (S k)) 0)) by lia.
    destruct (Z.eqb_spec (uval / b ^ Z.of_nat (S k)) 0) as [E|E].
    + rewrite pow_div by lia. destruct (IH fuel uval Hb Hu ltac:(lia)) as (j & Hj & -> & H1 & H2).
      exists j. split_and!; [lia|reflexivity|done|]. intros _. apply H2.
      apply Z.div_small_iff in E; lia.
    + exists (S k). split_and!; [lia|reflexivity| |done].
      assert (0 <= uval / b ^ Z.of_nat (S k)) by (apply Z.div_pos; lia).
      rewrite <- (Z.mul_1_r (b ^ Z.of_nat (S k))).
      apply Z.le_trans with (b ^ Z.of_nat (S k) * (uval / b ^ Z.of_nat (S k))); [nia|]. now apply Z.mul_div_le.
Qed.

Lemma digit_char_plain b d :
  b ∈ bases -> 0 < d < b ->
  let c := digit_char d in isalnum c = true /\ c <> 48 /\ isspace c = false /\ c <> 43 /\ c <> 45.
Proof.
  intros Hb Hd.
  assert (H : Forall (fun b => Forall (fun d => isalnum (digit_char d) = true /\ digit_char d <> 48 /\
    isspace (digit_char d) = false /\ digit_char d <> 43 /\ digit_char d <> 45) (seqZ 1 (b - 1))) bases)
    by decided.
  rewrite Forall_forall in H. specialize (H b Hb). rewrite Forall_forall in H. apply H.
  apply elem_of_seqZ. lia.
Qed.

(** The digits of a positive number. *)
Lemma magnitude_text b k fuel fuel' u room :
  b ∈ bases -> 0 < u < b ^ Z.of_nat (S k) -> (k < fuel)%nat -> (k < fuel')%nat -> Z.of_nat (S k) <= room ->
  exists c t x, leading_divisor fuel u (b ^ Z.of_nat k) b = Some x /\ 
    write_digits fuel' u x b room = c :: t /\
    (length (c :: t) <= S k)%nat /\
    isalnum c = true /\ c <> 48 /\ isspace c = false /\ c <> 43 /\ c <> 45 /\
    forall r, scan_digits b ((c :: t) ++ r) 0 0 = scan_digits b r u (Z.of_nat (length (c :: t))).
Proof.
  intros Hb Hu Hf Hf' Hr. pose proof (bases_range b Hb) as Hb'.
  destruct (leading_divisor_spec b k fuel u ltac:(lia) ltac:(lia) Hf) as (j & Hj & HL & H1 & H2).
  specialize (H2 ltac:(lia)).
  pose proof (fun r => write_digits_scan b j fuel' u room r 0 0 Hb ltac:(lia) ltac:(lia) ltac:(lia)) as Hscan.
  pose proof (write_digits_length b j fuel' u room Hb ltac:(lia) ltac:(lia)) as Hlen.
  assert (Hp : 0 < b ^ Z.of_nat j) by (apply Z.pow_pos_nonneg; lia).
  assert (Hd : 0 < u / b ^ Z.of_nat j < b).
  { split; [apply Z.div_str_pos; lia|]. apply Z.div_lt_upper_bound; [lia|].
    rewrite Nat2Z.inj_succ, Z.pow_succ_r in H2 by lia. lia. }
  assert (Hhead : exists t, write_digits fuel' u (b ^ Z.of_nat j) b room = digit_char (u / b ^ Z.of_nat j) :: t).
  { destruct fuel' as [|fuel']; [lia|]. cbn [write_digits]. rewrite (wrap_small 8) by lia.
    destruct (Z.ltb_spec 0 room); [|lia]. case_match; eexists; reflexivity. }
  destruct Hhead as [t Ht]. rewrite Ht in *.
  destruct (digit_char_plain b _ Hb Hd) as (Ha & H48 & Hsp & H43 & H45).
  exists (digit_char (u / b ^ Z.of_nat j)), t, (b ^ Z.of_nat j). split_and!; try done; [lia|].
  intros r. rewrite Hscan, Hlen. f_equal; lia.
Qed.

Lemma scan_stops b r acc n :
  stops isalnum r -> b <= 36 -> scan_digits b r acc n = (acc, n).
Proof.
  intros Hr Hb. destruct r as [|c r]; [done|]. cbn [scan_digits stops] in *.
  unfold digit_val, isalnum in *. apply orb_false_iff in Hr as [-> ->].
  destruct (Z.ltb_spec b b); [lia|done].
Qed.

(** Reading a number that starts with a digit other than 0, after an optional
    minus sign. *)
Lemma strto_text b (neg : bool) c t r v n :
  c <> 48 -> isspace c = false -> c <> 43 -> c <> 45 -> 
  scan_digits b ((c :: t) ++ r) 0 0 = (v, n) -> 0 < n ->
  strto ((if neg then [45] else []) ++ (c :: t) ++ r) b = (neg, v, b2z neg + n).
Proof.
  intros H48 Hsp H43 H45 Hs Hn. unfold strto.
  assert (Hws : count_space ((if neg then [45] else []) ++ (c :: t) ++ r) = 0)
    by (destruct neg; cbn; [reflexivity|now rewrite Hsp]).
  rewrite Hws.
  set (s2 := (c :: t) ++ r) in *.
  assert (Hpre : hex_prefix b s2 = 0).
  { unfold s2, hex_prefix. cbn [app]. destruct (t ++ r) as [|c1 [|c2 l]]; [done|done|].
    rewrite (proj2 (Z.eqb_neq c 48)) by done. now rewrite andb_false_r. }
  assert (Hsign : drop (Z.to_nat (if (default 0 (head ((if neg then [45] else []) ++ s2)) =? 45) ||
                     (default 0 (head ((if neg then [45] else []) ++ s2)) =? 43) then 1 else 0))
                    ((if neg then [45] else []) ++ s2) = s2 /\
                  (default 0 (head ((if neg then [45] else []) ++ s2)) =? 45) = neg /\
                  (if (default 0 (head ((if neg then [45] else []) ++ s2)) =? 45) ||
                     (default 0 (head ((if neg then [45] else []) ++ s2)) =? 43) then 1 else 0) = b2z neg).
  { destruct neg; [done|]. change (default 0 (head ([] ++ s2))) with c.
    rewrite (proj2 (Z.eqb_neq c 43)), (proj2 (Z.eqb_neq c 45)) by done. done. }
  destruct Hsign as (Hd & Hneg & Hsg). cbv zeta. change (drop (Z.to_nat 0) ?l) with l.
  rewrite Hd, Hsg, Hneg, Hpre. change (drop (Z.to_nat 0) s2) with s2. rewrite Hs.
  rewrite (proj2 (Z.eqb_neq n 0)) by lia. f_equal. lia.
Qed.

Lemma strto_zero b r : b ∈ bases -> stops isalnum r -> strto (48 :: r) b = (false, 0, 1).
Proof.
  intros Hb Hr. pose proof (bases_range b Hb).
  assert (Hpre : hex_prefix b (48 :: r) = 0).
  { unfold hex_prefix. destruct r as [|c1 [|c2 l]]; [done|done|]. cbn [stops] in Hr.
    destruct (Z.eqb_spec c1 120) as [->|]; [discriminate Hr|].
    destruct (Z.eqb_spec c1 88) as [->|]; [discriminate Hr|]. cbn [orb]. now rewrite andb_false_r. }
  unfold strto. change (count_space (48 :: r)) with 0. cbv zeta.
  change (drop (Z.to_nat 0) (48 :: r)) with (48 :: r).
  change (drop (Z.to_nat (if (default 0 (head (48 :: r)) =? 45) || (default 0 (head (48 :: r)) =? 43) then 1 else 0)) (48 :: r))
    with (48 :: r).
  rewrite Hpre. change (drop (Z.to_nat 0) (48 :: r)) with (48 :: r). cbn [scan_digits].
  assert (Hd : digit_val b 48 = Some 0)
    by (unfold digit_val; change (isdigit 48) with true; cbv iota zeta; destruct (Z.ltb_spec (48 - 48) b); [done|lia]).
  rewrite Hd, scan_stops by (done || lia). reflexivity.
Qed.

Lemma uint32_text_fact val b r :
  b ∈ bases -> 0 <= val < 2 ^ 32 -> stops isalnum r ->
  exists text, SCPI_UInt32ToStrBase val 33 b = Some text /\ (length text < 33)%nat /\
    strBaseToUInt32 (text ++ r) b = (val, Z.of_nat (length text)).
Proof.
  intros Hb Hv Hr. pose proof (bases_range b Hb) as Hb'.
  unfold SCPI_UInt32ToStrBase, UInt32ToStrBaseSign, ToStrBaseSign, strBaseToUInt32, strtou.
  destruct (Z.eqb_spec val 0) as [->|Hne].
  { exists [48]. split; [done|]. split; [cbn; lia|]. cbn [app]. now rewrite (strto_zero b r Hb Hr). }
  assert (Htop : exists k, top_divisor32 b = (b ^ Z.of_nat k, b) /\ 2 ^ 32 <= b ^ Z.of_nat (S k) /\ (k < 32)%nat).
  { assert (Hcases : b = 2 \/ b = 8 \/ b = 10 \/ b = 16) by (apply list_elem_of_In in Hb; cbn in Hb; intuition lia).
    destruct Hcases as [->|[->|[->| ->]]];
      [exists 31%nat|exists 10%nat|exists 9%nat|exists 7%nat]; (split; [reflexivity|]); (split; [vm_compute; done|lia]). }
  destruct Htop as (k & -> & Hk & Hk32). cbn [andb].
  destruct (magnitude_text b k (Z.to_nat 32 + 1) (Z.to_nat 32 + 1) val (33 - Z.of_nat (@length Z []))
              Hb ltac:(lia) ltac:(lia) ltac:(lia) ltac:(cbn; lia))
    as (c & t & x & -> & Hw & Hlen & _ & H48 & Hsp & H43 & H45 & Hscan).
  cbv zeta. rewrite Hw. exists (c :: t). split; [reflexivity|]. split; [lia|].
  specialize (Hscan r). rewrite (scan_stops b r) in Hscan by (done || lia).
  pose proof (strto_text b false c t r _ _ H48 Hsp H43 H45 Hscan ltac:(cbn [length]; lia)) as Hs.
  cbn [app] in Hs. cbn [app]. rewrite Hs. cbn [b2z].
  destruct (Z.leb_spec (2 ^ 32) val); [lia|]. done.
Qed.

(** Decimal digits. *)
Lemma scan_counts b s acc n : let '(_, k) := scan_digits b s acc n in n <= k <= n + Z.of_nat (length s).
Proof.
  revert acc n. induction s as [|c s IH]; intros acc n; cbn [scan_digits length]; [lia|].
  destruct (digit_val b c); [|lia]. specialize (IH (acc * b + z) (n + 1)).
  destruct (scan_digits b s (acc * b + z) (n + 1)). lia.
Qed.

Lemma scan_all_digits s acc n v :
  scan_digits 10 s acc n = (v, n + Z.of_nat (length s)) ->
  Forall (fun c => isdigit c = true) s /\ digits_value s acc = v.
Proof.
  revert acc n. induction s as [|c s IH]; intros acc n; cbn [scan_digits length].
  - intros [= <- _]. done.
  - unfold digit_val. pose proof (scan_counts 10 s (acc * 10 + (c - 48)) (n + 1)) as Hc.
    destruct (isdigit c) eqn:Ed.
    + destruct (Z.ltb_spec (c - 48) 10) as [_|Hge].
      2:{ unfold isdigit, chr_in in Ed. apply andb_true_iff in Ed as [_ Ed%Z.leb_le]. lia. }
      intros H. destruct (IH (acc * 10 + (c - 48)) (n + 1)) as [H1 H2]; [rewrite H; f_equal; lia|].
      split; [now constructor|]. cbn [digits_value foldl]. now rewrite <- H2.
    + assert (isalpha c = true -> 10 <= tolower c - 87) as Hal.
      { intros Ha. unfold isalpha, chr_in in Ha. unfold tolower, isupper, chr_in.
        apply orb_true_iff in Ha. rewrite !andb_true_iff, !Z.leb_le in Ha.
        destruct (Z.leb_spec 65 c), (Z.leb_spec c 90); cbn [andb]; lia. }
      intros H. case_match eqn:Ev; [|injection H as _ H; lia].
      destruct (isalpha c); [specialize (Hal eq_refl)|].
      * destruct (Z.ltb_spec (tolower c - 87) 10); [lia|done].
      * done.
Qed.

Lemma decimal_digits fuel fuel' u room :
  0 < u < 2 ^ 32 -> (9 < fuel)%nat -> (9 < fuel')%nat -> 10 <= room ->
  exists x, leading_divisor fuel u (10 ^ 9) 10 = Some x /\
    let t := write_digits fuel' u x 10 room in
    (1 <= length t <= 10)%nat /\ 10 ^ (Z.of_nat (length t) - 1) <= u /\
    Forall (fun c => isdigit c = true) t /\ digits_value t 0 = u.
Proof.
  intros Hu Hf Hf' Hr.
  destruct (leading_divisor_spec 10 9 fuel u) as (j & Hj & Hx & H1 & H2); [lia..|].
  specialize (H2 ltac:(lia)). exists (10 ^ Z.of_nat j). split; [exact Hx|]. cbv zeta.
  assert (10 ∈ bases) as Hb by decided.
  pose proof (write_digits_length 10 j fuel' u room Hb ltac:(lia) ltac:(lia)) as Hl.
  pose proof (write_digits_scan 10 j fuel' u room [] 0 0 Hb ltac:(lia) ltac:(lia) ltac:(lia)) as Hs.
  rewrite app_nil_r in Hs. rewrite Hl. split; [lia|].
  split; [replace (Z.of_nat (S j) - 1) with (Z.of_nat j) by lia; exact H1|].
  apply (scan_all_digits _ 0 0). rewrite Hs, Hl. reflexivity.
Qed.

(** A decimal number is written with its sign and its digits. *)
Definition decimal_text (v : Z) (text : list Z) : Prop :=
  exists t, text = (if v <? 0 then [45] else []) ++ t /\ (1 <= length t <= 10)%nat /\
    10 ^ (Z.of_nat (length t) - 1) <= Z.max 1 (Z.abs v) /\
    Forall (fun c => isdigit c = true) t /\ digits_value t 0 = Z.abs v.

Lemma uint32_decimal v room :
  0 <= v < 2 ^ 32 -> 10 <= room ->
  exists text, SCPI_UInt32ToStrBase v room 10 = Some text /\ decimal_text v text.
Proof.
  intros Hv Hr. unfold SCPI_UInt32ToStrBase, UInt32ToStrBaseSign, ToStrBaseSign, decimal_text.
  destruct (Z.ltb_spec v 0); [lia|]. rewrite Z.abs_eq by lia.
  destruct (Z.eqb_spec v 0) as [->|Hne].
  - destruct (Z.ltb_spec 0 room); [|lia]. exists [48]. split; [done|]. exists [48]. split_and!; try done; cbn; try lia.
    now constructor.
  - destruct (decimal_digits (Z.to_nat 32 + 1) (Z.to_nat 32 + 1) v room ltac:(lia)) as (x & Hx & Hlen & Hlo & Hd & Hval);
      [cbn; lia..|]. cbn [andb]. change (top_divisor32 10) with (10 ^ 9, 10). cbv iota beta zeta. rewrite Hx.
    cbn [length]. change (Z.of_nat 0) with 0. rewrite Z.sub_0_r. eexists. split; [reflexivity|]. 
    eexists. split; [reflexivity|]. split_and!; try done; lia.
Qed.

Lemma int32_decimal v room :
  - 2 ^ 31 <= v < 2 ^ 31 -> 11 <= room ->
  exists text, UInt32ToStrBaseSign (u32 v) room 10 true = Some text /\ decimal_text v text.
Proof.
  intros Hv Hr. destruct (Z.ltb_spec v 0) as [Hneg|].
  2:{ rewrite (wrap_small 32) by lia. destruct (uint32_decimal v room ltac:(lia) ltac:(lia)) as (text & E & Ht).
      exists text. split; [|exact Ht]. rewrite <- E. unfold SCPI_UInt32ToStrBase, UInt32ToStrBaseSign, ToStrBaseSign.
      destruct (Z.leb_spec (2 ^ (32 - 1)) v); [lia|]. reflexivity. }
  unfold UInt32ToStrBaseSign, ToStrBaseSign, decimal_text.
  assert (u32 v = v + 2 ^ 32) as Hw by (unfold wrap; rewrite <- (Z.mod_add _ 1) by lia; now rewrite Z.mod_small by lia).
  rewrite Hw. destruct (Z.eqb_spec (v + 2 ^ 32) 0); [lia|]. change (top_divisor32 10) with (10 ^ 9, 10). cbv iota beta zeta.
  destruct (Z.leb_spec (2 ^ (32 - 1)) (v + 2 ^ 32)); [|lia]. destruct (Z.ltb_spec 0 room); [|lia].
  cbn [andb Z.eqb Pos.eqb length]. change (Z.of_nat 1) with 1.
  assert (wrap 32 (- (v + 2 ^ 32)) = - v) as ->
    by (unfold wrap; rewrite <- (Z.mod_add _ 1) by lia; rewrite Z.mod_small by lia; lia).
  destruct (decimal_digits (Z.to_nat 32 + 1) (Z.to_nat 32 + 1) (- v) (room - 1) ltac:(lia)) as (x & Hx & Hlen & Hlo & Hd & Hval);
    [cbn; lia..|]. rewrite Hx. eexists. split; [reflexivity|]. destruct (Z.ltb_spec v 0); [|lia].
  eexists. split; [reflexivity|]. split_and!; try done; lia.
Qed.

(** an integer written in any of the four bases, followed by something
    that is not a letter or a digit, is read back: the text fits the reply
    buffer of 33 bytes, and reading it in its base uses exactly its
    characters and gives the number. *)
Theorem uint32_text_roundtrip val b r :
  b ∈ bases -> 0 <= val < 2 ^ 32 -> stops isalnum r ->
  exists text, SCPI_UInt32ToStrBase val 33 b = Some text /\ (length text < 33)%nat /\
    strBaseToUInt32 (text ++ r) b = (val, Z.of_nat (length text)).
Proof. apply uint32_text_fact. Qed.

Lemma uint32_text_roundtrip_witness :
  (16 ∈ bases /\ 0 <= 48879 < 2 ^ 32 /\ stops isalnum (str ";")) /\
  exists text, SCPI_UInt32ToStrBase 48879 33 16 = Some text /\ (length text < 33)%nat /\
    strBaseToUInt32 (text ++ str ";") 16 = (48879, Z.of_nat (length text)).
Proof.
  assert (Hb : 16 ∈ bases) by decided. split; [split; [exact Hb|split; [lia|reflexivity]]|].
  apply uint32_text_roundtrip; [exact Hb|lia|reflexivity].
Defined.
