(* ===== verification/ScpiParser.v ===== *)
(** * ScpiParser: command lines, parameters and replies

    libscpi's parser.c: splitting a line into headers and data, finding the
    command of a header, fetching its parameters and writing its reply.  The
    handlers of the commands run on a larger state [W] of which [scpi_t] is
    a part. *)

From Stdlib Require Import ZArith Lia String.
From stdpp Require Import base numbers list.
From S2P Require Import Prelude ScpiFifo Lexer ScpiCore ScpiMatch ScpiNumber.

Definition SCPI_RES_OK : Z := 1.
Definition SCPI_RES_ERR : Z := -1.

(** ** Program messages *)

Section Messages.
Variable mem : list Z.

(** One parameter; the returned length includes the white space around it. *)
Definition scpiParser_parseProgramData (st : lex_state_t) : Z * scpi_token_t * lex_state_t :=
  let '(realLen, _, st) := scpiLex_WhiteSpace mem st in
  let '(result, token, st) := scpiLex_NondecimalNumericData mem st in
  let '(result, token, st) :=
    if result =? 0 then scpiLex_CharacterProgramData mem st else (result, token, st) in
  let '(result, token, st) :=
    if result =? 0 then
      let '(result, token, st) := scpiLex_DecimalNumericProgramData mem st in
      if negb (result =? 0) then
        let '(wsLen, _, st) := scpiLex_WhiteSpace mem st in
        let '(suffixLen, _, st) := scpiLex_SuffixProgramData mem st in
        if 0 <? suffixLen then
          let n := t_len token + (wsLen + suffixLen) in
          (n, mkTok SCPI_TOKEN_DECIMAL_NUMERIC_PROGRAM_DATA_WITH_SUFFIX (t_ptr token) n, st)
        else (result, token, st)
      else (result, token, st)
    else (result, token, st) in
  let '(result, token, st) :=
    if result =? 0 then scpiLex_StringProgramData mem st else (result, token, st) in
  let '(result, token, st) :=
    if result =? 0 then scpiLex_ArbitraryBlockProgramData mem st else (result, token, st) in
  let '(result, token, st) :=
    if result =? 0 then scpiLex_ProgramExpression mem (t_len token) st else (result, token, st) in
  let '(wsLen, _, st) := scpiLex_WhiteSpace mem st in
  (result + (realLen + wsLen), token, st).

(** [for (result = 1; result != 0; result = scpiLex_Comma(state, &tmp))];
    [n] and [k] are [token->len] and [paramCount]. *)
Fixpoint all_data_loop (fuel : nat) (p result n k : Z) (st : lex_state_t)
    : scpi_token_t * Z * lex_state_t :=
  match fuel with
  | O => (mkTok SCPI_TOKEN_ALL_PROGRAM_DATA p n, k, st)
  | S fuel =>
      let n := n + result in
      let '(result, tmp, st) := scpiParser_parseProgramData st in
      if decide (t_type tmp <> SCPI_TOKEN_UNKNOWN) then
        let n := n + result in
        let k := k + 1 in
        let '(result, _, st) := scpiLex_Comma mem st in
        if result =? 0 then (mkTok SCPI_TOKEN_ALL_PROGRAM_DATA p n, k, st)
        else all_data_loop fuel p result n k st
      else (mkTok SCPI_TOKEN_UNKNOWN p 0, -1, st)
  end.

(** Each turn but the first passes a comma of the line. *)
Definition scpiParser_parseAllProgramData (st : lex_state_t) : scpi_token_t * Z * lex_state_t :=
  let '(token, paramCount, st) :=
    all_data_loop (S (S (Z.to_nat (l_end st - l_pos st)))) (l_pos st) 1 (-1) 0 st in
  let token := if t_len token =? -1 then mkTok (t_type token) (t_ptr token) 0 else token in
  (token, paramCount, st).

Definition invalidateToken (ptr : Z) : scpi_token_t := mkTok SCPI_TOKEN_UNKNOWN ptr 0.

Definition scpiParser_detectProgramMessageUnit (buf len : Z) : Z * scpi_parser_state_t :=
  let st := mkLex buf buf len in
  let '(_, _, st) := scpiLex_WhiteSpace mem st in
  let '(h, header, st) := scpiLex_ProgramHeader mem st in
  let '(header, pdata, nparams, st) :=
    if 0 <=? h then
      let '(w, _, st) := scpiLex_WhiteSpace mem st in
      if 0 <? w then
        let '(pdata, n, st) := scpiParser_parseAllProgramData st in (header, pdata, n, st)
      else (header, invalidateToken (l_pos st), 0, st)
    else (invalidateToken buf, invalidateToken buf, 0, st) in
  let '(result, tmp, st) := scpiLex_NewLine mem st in
  let '(result, tmp, st) :=
    if result =? 0 then scpiLex_Semicolon mem st else (result, tmp, st) in
  let '(header, pdata, st) :=
    if negb (scpiLex_IsEos st) && (result =? 0)
    then (mkTok SCPI_TOKEN_INVALID (t_ptr header) 1, invalidateToken buf, adv 1 st)
    else (header, pdata, st) in
  let term :=
    if decide (t_type tmp = SCPI_TOKEN_SEMICOLON) then SCPI_MESSAGE_TERMINATION_SEMICOLON
    else if decide (t_type tmp = SCPI_TOKEN_NL) then SCPI_MESSAGE_TERMINATION_NL
    else SCPI_MESSAGE_TERMINATION_NONE in
  (l_pos st - buf, mkParser header pdata nparams term).
End Messages.

(** ** Replies *)

Definition push (err : Z) : M scpi_t unit := modify (fun c => SCPI_ErrorPush c err).

(** Calls through a null [interface] are not defined. *)
Definition writeData (d : list Z) : M scpi_t Z :=
  if 0 <? Z.of_nat (length d) then
    i ← gets interface;
    i ← deref NullDeref i;
    out ← gets sink;
    let '(r, out) := if_write i d out in
    modify (with_sink out);; mret r
  else mret 0.

Definition flushData : M scpi_t Z :=
  i ← gets interface;
  match i with
  | Some i =>
      match if_flush i with
      | Some f => out ← gets sink; let '(r, out) := f out in modify (with_sink out);; mret r
      | None => mret SCPI_RES_OK
      end
  | None => mret SCPI_RES_OK
  end.

Definition writeDelimiter : M scpi_t Z :=
  n ← gets output_count; if 0 <? n then writeData (str ",") else mret 0.

(** [SCPI_LINE_ENDING]: carriage return and line feed. *)
Definition writeNewLine : M scpi_t Z :=
  n ← gets output_count;
  if 0 <? n then (len ← writeData [13; 10]; flushData;; mret len) else mret 0.

Definition writeSemicolon : M scpi_t Z :=
  n ← gets output_count; if 0 <? n then writeData (str ";") else mret 0.

Definition count_output : M scpi_t unit := modify (fun c => with_output_count (output_count c + 1) c).

Definition SCPI_ResultCharacters (d : list Z) : M scpi_t Z :=
  r1 ← writeDelimiter; r2 ← writeData d; count_output;; mret (r1 + r2).

Definition getBasePrefix (base : Z) : option (list Z) :=
  if base =? 2 then Some (str "#B") else if base =? 8 then Some (str "#Q")
  else if base =? 16 then Some (str "#H") else None.

Definition result_base (text : option (list Z)) (base : Z) : M scpi_t Z :=
  buffer ← deref OutOfBounds text;
  r1 ← writeDelimiter;
  r2 ← match getBasePrefix base with Some p => writeData p | None => mret 0 end;
  r3 ← writeData buffer;
  count_output;; mret (r1 + r2 + r3).

Definition resultUInt32BaseSign (val base : Z) (sign : bool) : M scpi_t Z :=
  result_base (UInt32ToStrBaseSign val 33 base sign) base.
Definition resultUInt64BaseSign (val base : Z) (sign : bool) : M scpi_t Z :=
  result_base (UInt64ToStrBaseSign val 65 base sign) base.
Definition SCPI_ResultInt32 (val : Z) := resultUInt32BaseSign (u32 val) 10 true.
Definition SCPI_ResultUInt32Base (val base : Z) := resultUInt32BaseSign val base false.
Definition SCPI_ResultInt64 (val : Z) := resultUInt64BaseSign (u64 val) 10 true.
Definition SCPI_ResultUInt64Base (val base : Z) := resultUInt64BaseSign val base false.
Definition SCPI_ResultBool (val : bool) := resultUInt32BaseSign (b2z val) 10 false.

(** The loop over the quotes of the text: what precedes each quote and the
    quote are written, and the quote once more. *)
Fixpoint text_loop (fuel : nat) (d : list Z) : M scpi_t Z :=
  match fuel with
  | O => hang
  | S fuel =>
      match strnpbrk d (Z.of_nat (length d)) [34] with
      | Some quote =>
          r1 ← writeData (take (Z.to_nat (quote + 1)) d);
          r2 ← writeData [34];
          r ← text_loop fuel (drop (Z.to_nat (quote + 1)) d);
          mret (r1 + r2 + r)
      | None => writeData d
      end
  end.

(** [d] is a C string: it holds no zero byte. *)
Definition SCPI_ResultText (d : list Z) : M scpi_t Z :=
  r1 ← writeDelimiter;
  r2 ← writeData [34];
  r3 ← text_loop (S (length d)) d;
  r4 ← writeData [34];
  count_output;; mret (r1 + r2 + r3 + r4).

(** The description is limited to 255 bytes; the library's are shorter, and
    hold no quote. *)
Definition SCPI_STD_ERROR_DESC_MAX_STRING_LENGTH : Z := 255.
Definition SCPI_ResultError (error : Z) : M scpi_t Z :=
  let text := SCPI_ErrorTranslate error in
  let outputlimit := SCPI_STD_ERROR_DESC_MAX_STRING_LENGTH in
  let text := if outputlimit <? Z.of_nat (length text) then take (Z.to_nat outputlimit) text else text in
  r1 ← SCPI_ResultInt32 error;
  r2 ← writeDelimiter;
  r3 ← writeData [34];
  r4 ← writeData text;
  r5 ← writeData [34];
  mret (r1 + r2 + r3 + r4 + r5).

Definition SCPI_ResultArbitraryBlockHeader (len : Z) : M scpi_t Z :=
  digits ← deref OutOfBounds (SCPI_UInt32ToStrBase (u32 len) 10 10);
  modify (with_arbitrary_reminding len);;
  writeData (35 :: (Z.of_nat (length digits) + 48) :: digits).

Definition SCPI_ResultArbitraryBlockData (d : list Z) : M scpi_t Z :=
  n ← gets arbitrary_reminding;
  if n <? Z.of_nat (length d) then push SCPI_ERROR_SYSTEM_ERROR;; mret 0
  else
    modify (with_arbitrary_reminding (n - Z.of_nat (length d)));;
    (if n - Z.of_nat (length d) =? 0 then count_output else mret tt);;
    writeData d.

Definition SCPI_ResultArbitraryBlock (d : list Z) : M scpi_t Z :=
  r1 ← SCPI_ResultArbitraryBlockHeader (Z.of_nat (length d));
  r2 ← SCPI_ResultArbitraryBlockData d;
  mret (r1 + r2).

(** ** Parameters *)

(** The result and the parameter's token. *)
Definition SCPI_Parameter (mandatory : bool) : M scpi_t (bool * scpi_token_t) :=
  let none := invalidateToken 0 in
  st ← gets lex_state;
  if l_end st <=? l_pos st then
    if mandatory then push SCPI_ERROR_MISSING_PARAMETER;; mret (false, none)
    else mret (false, mkTok SCPI_TOKEN_PROGRAM_MNEMONIC 0 0)
  else
    mem ← gets memory;
    n ← gets input_count;
    comma ←
      (if negb (n =? 0) then
         let '(_, parameter, st) := scpiLex_Comma mem st in
         modify (with_lex_state st);;
         mret (bool_decide (t_type parameter = SCPI_TOKEN_COMMA))
       else mret true);
    if negb comma then push SCPI_ERROR_INVALID_SEPARATOR;; mret (false, none)
    else
      modify (fun c => with_input_count (input_count c + 1) c);;
      st ← gets lex_state;
      let '(_, parameter, st) := scpiParser_parseProgramData mem st in
      modify (with_lex_state st);;
      match t_type parameter with
      | SCPI_TOKEN_HEXNUM | SCPI_TOKEN_OCTNUM | SCPI_TOKEN_BINNUM
      | SCPI_TOKEN_PROGRAM_MNEMONIC | SCPI_TOKEN_DECIMAL_NUMERIC_PROGRAM_DATA
      | SCPI_TOKEN_DECIMAL_NUMERIC_PROGRAM_DATA_WITH_SUFFIX
      | SCPI_TOKEN_ARBITRARY_BLOCK_PROGRAM_DATA | SCPI_TOKEN_SINGLE_QUOTE_PROGRAM_DATA
      | SCPI_TOKEN_DOUBLE_QUOTE_PROGRAM_DATA | SCPI_TOKEN_PROGRAM_EXPRESSION =>
          mret (true, parameter)
      | _ => push SCPI_ERROR_INVALID_STRING_DATA;; mret (false, none)
      end.

Definition SCPI_ParamIsNumber (parameter : scpi_token_t) (suffixAllowed : bool) : bool :=
  match t_type parameter with
  | SCPI_TOKEN_HEXNUM | SCPI_TOKEN_OCTNUM | SCPI_TOKEN_BINNUM
  | SCPI_TOKEN_DECIMAL_NUMERIC_PROGRAM_DATA => true
  | SCPI_TOKEN_DECIMAL_NUMERIC_PROGRAM_DATA_WITH_SUFFIX => suffixAllowed
  | _ => false
  end.

(** The bytes from a token's start on, as the C library's readers see them. *)
Definition token_string (mem : list Z) (t : scpi_token_t) : list Z := drop (Z.to_nat (t_ptr t)) mem.

(** The result and what is stored, if anything is; [w] is the width. *)
Definition ParamSignTo (w : Z) (parameter : scpi_token_t) (sign : bool) : M scpi_t (bool * option Z) :=
  mem ← gets memory;
  let s := token_string mem parameter in
  let unsigned base := let '(v, n) := strtou w s base in mret (0 <? n, Some v) in
  match t_type parameter with
  | SCPI_TOKEN_HEXNUM => unsigned 16
  | SCPI_TOKEN_OCTNUM => unsigned 8
  | SCPI_TOKEN_BINNUM => unsigned 2
  | SCPI_TOKEN_DECIMAL_NUMERIC_PROGRAM_DATA
  | SCPI_TOKEN_DECIMAL_NUMERIC_PROGRAM_DATA_WITH_SUFFIX =>
      if sign then let '(v, n) := strtos w s 10 in mret (0 <? n, Some (wrap w v))
      else unsigned 10
  | _ => mret (false, None)
  end.
Definition ParamSignToUInt32 := ParamSignTo 32.
Definition ParamSignToUInt64 := ParamSignTo 64.

(** The number of a parameter that must be one without a suffix. *)
Definition ParamSign (to : scpi_token_t -> M scpi_t (bool * option Z)) (mandatory : bool)
    : M scpi_t (bool * option Z) :=
  p ← SCPI_Parameter mandatory;
  let '(result, param) := p in
  if (result : bool) then
    if SCPI_ParamIsNumber param false then to param
    else if SCPI_ParamIsNumber param true
    then push SCPI_ERROR_SUFFIX_NOT_ALLOWED;; mret (false, None)
    else push SCPI_ERROR_DATA_TYPE_ERROR;; mret (false, None)
  else mret (false, None).
Definition ParamSignUInt32 (mandatory sign : bool) :=
  ParamSign (fun param => ParamSignToUInt32 param sign) mandatory.
Definition ParamSignUInt64 (mandatory sign : bool) :=
  ParamSign (fun param => ParamSignToUInt64 param sign) mandatory.

(** The stored bits as an [int32_t]. *)
Definition SCPI_ParamInt32 (mandatory : bool) : M scpi_t (bool * option Z) :=
  r ← ParamSignUInt32 mandatory true;
  let '(ok, v) := r in mret (ok, s32 <$> v).
Definition SCPI_ParamUInt32 (mandatory : bool) := ParamSignUInt32 mandatory false.
Definition SCPI_ParamUInt64 (mandatory : bool) := ParamSignUInt64 mandatory false.

(** The start and the length of the characters. *)
Definition SCPI_ParamCharacters (mandatory : bool) : M scpi_t (option (Z * Z)) :=
  p ← SCPI_Parameter mandatory;
  let '(result, param) := p in
  if (result : bool) then
    match t_type param with
    | SCPI_TOKEN_SINGLE_QUOTE_PROGRAM_DATA | SCPI_TOKEN_DOUBLE_QUOTE_PROGRAM_DATA =>
        mret (Some (t_ptr param + 1, t_len param - 2))
    | _ => mret (Some (t_ptr param, t_len param))
    end
  else mret None.

Definition SCPI_ParamArbitraryBlock (mandatory : bool) : M scpi_t (option (Z * Z)) :=
  p ← SCPI_Parameter mandatory;
  let '(result, param) := p in
  if (result : bool) then
    if decide (t_type param = SCPI_TOKEN_ARBITRARY_BLOCK_PROGRAM_DATA)
    then mret (Some (t_ptr param, t_len param))
    else push SCPI_ERROR_DATA_TYPE_ERROR;; mret None
  else mret None.

(** [for (i_from = 1, i_to = 0; i_from < param.len - 1; i_from++) ...]: the
    characters copied to [buffer], at most [buffer_len - 1] read. *)
Fixpoint copy_loop (fuel : nat) (text : list Z) (quote buffer_len i_from : Z) : list Z :=
  match fuel with
  | O => []
  | S fuel =>
      if i_from <? Z.of_nat (length text) - 1 then
        if buffer_len <=? i_from then []
        else
          let c := default 0 (text !! Z.to_nat i_from) in
          c :: copy_loop fuel text quote buffer_len (if c =? quote then i_from + 2 else i_from + 1)
      else []
  end.

(** The copied text, without the zero that ends it if there is room. *)
Definition SCPI_ParamCopyText (buffer_len : Z) (mandatory : bool) : M scpi_t (option (list Z)) :=
  p ← SCPI_Parameter mandatory;
  let '(result, param) := p in
  mem ← gets memory;
  let text := take (Z.to_nat (t_len param)) (token_string mem param) in
  if (result : bool) then
    match t_type param with
    | SCPI_TOKEN_SINGLE_QUOTE_PROGRAM_DATA => mret (Some (copy_loop (length text) text 39 buffer_len 1))
    | SCPI_TOKEN_DOUBLE_QUOTE_PROGRAM_DATA => mret (Some (copy_loop (length text) text 34 buffer_len 1))
    | _ => push SCPI_ERROR_DATA_TYPE_ERROR;; mret None
    end
  else mret None.

(** A list of choices: its entries, and whether [SCPI_CHOICE_LIST_END] ends it. *)
Record choices_t := mkChoices { entries : list (list Z * Z); ended : bool }.

(** Searching a list without an end leaves the array. *)
Definition SCPI_ParamToChoice (parameter : scpi_token_t) (options : choices_t) : M scpi_t (bool * option Z) :=
  mem ← gets memory;
  if decide (t_type parameter = SCPI_TOKEN_PROGRAM_MNEMONIC) then
    match list_find (fun o => matchPattern o.1 (Z.of_nat (length o.1))
                                (token_string mem parameter) (t_len parameter) = true) (entries options) with
    | Some (_, o) => mret (true, Some o.2)
    | None =>
        if ended options then push SCPI_ERROR_ILLEGAL_PARAMETER_VALUE;; mret (false, None)
        else fail OutOfBounds
    end
  else push SCPI_ERROR_DATA_TYPE_ERROR;; mret (false, None).

Definition SCPI_ChoiceToName (options : choices_t) (tag : Z) : option (list Z) :=
  match list_find (fun o => o.2 = tag) (entries options) with
  | Some (_, o) => Some o.1
  | None => None
  end.

Definition bool_options : choices_t := mkChoices [(str "OFF", 0); (str "ON", 1)] true.

Definition SCPI_ParamBool (mandatory : bool) : M scpi_t (bool * option bool) :=
  p ← SCPI_Parameter mandatory;
  let '(result, param) := p in
  if (result : bool) then
    if decide (t_type param = SCPI_TOKEN_DECIMAL_NUMERIC_PROGRAM_DATA) then
      r ← ParamSignToUInt32 param true;
      let '(_, v) := r in mret (true, truthy <$> v)
    else
      r ← SCPI_ParamToChoice param bool_options;
      let '(ok, v) := r in mret (ok, truthy <$> v)
  else mret (false, None).

Definition SCPI_ParamChoice (options : choices_t) (mandatory : bool) : M scpi_t (bool * option Z) :=
  p ← SCPI_Parameter mandatory;
  let '(result, param) := p in
  if (result : bool) then SCPI_ParamToChoice param options else mret (false, None).

(** ** Commands *)

Section Parse.
Context {W : Type} `{L : Lens scpi_t W}.

(** A command's pattern and its handler. *)
Record scpi_command_t := mkCommand { cmd_pattern : list Z; cmd_callback : option (M W Z) }.

(** The parameter list is already set; returns whether the command was
    executed without error. *)
Definition processCommand (cmd : scpi_command_t) : M W bool :=
  zoom writeSemicolon;;
  zoom (modify (fun c =>
    with_arbitrary_reminding 0 (with_input_count 0 (with_output_count 0 (with_cmd_error false c)))));;
  result ←
    match cmd_callback cmd with
    | Some callback =>
        r ← callback;
        err ← zoom (gets cmd_error);
        if negb (r =? SCPI_RES_OK) then
          (if err : bool then mret tt else zoom (push SCPI_ERROR_EXECUTION_ERROR));; mret false
        else mret (negb err)
    | None => mret true
    end;
  st ← zoom (gets lex_state);
  err ← zoom (gets cmd_error);
  if (l_pos st <? l_end st) && negb err
  then zoom (push SCPI_ERROR_PARAMETER_NOT_ALLOWED);; mret false
  else mret result.

(** The first command whose pattern matches the header. *)
Fixpoint findCommandHeader (cmdlist : list scpi_command_t) (header : list Z)
    : M W (option scpi_command_t) :=
  match cmdlist with
  | [] => mret None
  | cmd :: cmdlist =>
      match matchCommand (cmd_pattern cmd) header with
      | Some true => mret (Some cmd)
      | Some false => findCommandHeader cmdlist header
      | None => hang
      end
  end.

Variable cmdlist : list scpi_command_t.

Definition set_header (t : scpi_token_t) (ps : scpi_parser_state_t) : scpi_parser_state_t :=
  mkParser t (programData ps) (numberOfParameters ps) (termination ps).

Definition token_text (mem : list Z) (t : scpi_token_t) : list Z :=
  take (Z.to_nat (t_len t)) (token_string mem t).

(** The unit found at [data]: its command is executed, or an error pushed.
    Returns the result and the header to complete the next one with. *)
Definition parse_unit (cmd_prev : scpi_token_t) : M W (bool * scpi_token_t) :=
  ps ← zoom (gets parser_state);
  if decide (t_type (programHeader ps) = SCPI_TOKEN_INVALID)
  then zoom (push SCPI_ERROR_INVALID_CHARACTER);; mret (false, cmd_prev)
  else if 0 <? t_len (programHeader ps) then
    mem ← zoom (gets memory);
    r ← deref OutOfBounds (composeCompoundCommand cmd_prev (programHeader ps) mem);
    let '(_, header, mem) := r in
    zoom (modify (fun c => with_memory mem (with_parser_state (set_header header ps) c)));;
    found ← findCommandHeader cmdlist (token_text mem header);
    match found with
    | Some cmd =>
        let pdata := programData ps in
        zoom (modify (fun c =>
          with_cmd_raw (t_ptr header, t_len header)
            (with_lex_state (mkLex (t_ptr pdata) (t_ptr pdata) (t_len pdata)) c)));;
        result ← processCommand cmd;
        ps ← zoom (gets parser_state);
        mret (result, programHeader ps)
    | None => zoom (push SCPI_ERROR_UNDEFINED_HEADER);; mret (false, cmd_prev)
    end
  else mret (true, cmd_prev).

Fixpoint parse_loop (fuel : nat) (data len : Z) (result : bool) (cmd_prev : scpi_token_t) : M W bool :=
  match fuel with
  | O => hang
  | S fuel =>
      mem ← zoom (gets memory);
      let '(r, ps) := scpiParser_detectProgramMessageUnit mem data len in
      zoom (modify (with_parser_state ps));;
      u ← parse_unit cmd_prev;
      let '(ok, cmd_prev) := u in
      let result := result && ok in
      if r <? len then parse_loop fuel (data + r) (len - r) result cmd_prev
      else mret result
  end.

(** Every turn but the last shortens the line ([unit_progress]). *)
Definition SCPI_Parse (data len : Z) : M W bool :=
  zoom (modify (with_output_count 0));;
  result ← parse_loop (S (Z.to_nat len)) data len true (mkTok SCPI_TOKEN_UNKNOWN 0 0);
  zoom writeNewLine;;
  mret result.
End Parse.
Arguments scpi_command_t W : clear implicits.

(** ** Every message unit makes progress *)

(** The cursor moves forward, possibly past the end of the line. *)
Definition fwd (st st' : lex_state_t) : Prop :=
  l_buffer st' = l_buffer st /\ l_len st' = l_len st /\ l_pos st <= l_pos st'.

#[export] Instance fwd_preorder : PreOrder fwd.
Proof. unfold fwd. split; [intros st; lia|intros s1 s2 s3 (? & ? & ?) (? & ? & ?); split_and!; congruence || lia]. Qed.

Lemma ext_fwd st st' : ext st st' -> fwd st st'.
Proof. intros []. now split_and!. Qed.

Lemma took_fwd st r t st' : took st (r, t, st') -> fwd st st' /\ r = l_pos st' - l_pos st.
Proof. intros (He & Hr & _). split; [now apply ext_fwd|exact Hr]. Qed.

Section Progress.
Variable mem : list Z.

Lemma block_digits_fwd i n st i' n' st' :
  0 <= n -> block_digits mem i n st = (i', n', st') -> ext st st' /\ 0 <= n'.
Proof.
  revert n st. induction i as [|i IH]; intros n st Hn; cbn [block_digits].
  - intros [= <- <- <-]. split; [reflexivity|done].
  - destruct (look mem isdigit st) eqn:E; [|intros [= <- <- <-]; split; [reflexivity|done]].
    assert (Hd : 0 <= cur mem st - 48).
    { unfold look, isdigit, chr_in in E. rewrite !andb_true_iff, !Z.leb_le in E. lia. }
    intros H. apply IH in H as [H1 H2]; [|lia]. split; [|done].
    etransitivity; [apply ext_adv1, (look_eos mem isdigit), E|exact H1].
Qed.

Lemma Block_fwd st r t st' : scpiLex_ArbitraryBlockProgramData mem st = (r, t, st') -> fwd st st'.
Proof.
  unfold scpiLex_ArbitraryBlockProgramData, skipChr. destruct (skip_one mem _ st) as [h st1] eqn:E1.
  destruct (skip_one_ext _ _ _ _ _ E1) as (H1 & H2 & H3).
  destruct (truthy h) eqn:Eh.
  - assert (Hst : l_pos st < l_end st).
    { assert (h = 1) by (destruct H3 as [->| ->]; done). destruct H1. unfold l_end in *. lia. }
    assert (Hbad : fwd st (set_pos (l_pos st) st1)) by (destruct H1; split_and!; cbn; lia).
    assert (Hinc : fwd st (set_pos (l_end st1) st1)).
    { destruct H1. unfold fwd, l_end in *. cbn. split_and!; lia. }
    destruct (look mem isNonzeroDigit st1) eqn:El.
    + destruct (block_digits mem _ 0 (adv 1 st1)) as [[i n] st2] eqn:E2.
      apply block_digits_fwd in E2 as [H4 H5]; [|lia].
      assert (H6 : ext st st2).
      { etransitivity; [exact H1|]. etransitivity; [apply ext_adv1, (look_eos mem isNonzeroDigit), El|exact H4]. }
      case_decide; [|destruct (iseos st2) eqn:E3]; cbn [Z.eqb Pos.eqb]; intros [= <- <- <-].
      * destruct H6. unfold fwd, adv, set_pos. cbn. split_and!; lia.
      * destruct H6. unfold fwd, l_end in *. cbn. split_and!; lia.
      * destruct H6. unfold fwd. cbn. split_and!; lia.
    + destruct (iseos st1); cbn [Z.eqb Pos.eqb]; intros [= <- <- <-]; done.
  - cbn [Z.eqb]. intros [= <- <- <-]. destruct H1. unfold fwd. cbn. split_and!; lia.
Qed.

Lemma Expression_fwd len st r t st' : scpiLex_ProgramExpression mem len st = (r, t, st') -> fwd st st'.
Proof.
  unfold scpiLex_ProgramExpression. intros E.
  destruct (look mem (fun c => c =? 40) st) eqn:E1.
  - assert (Hb : forall s : lex_state_t, ext st s -> fwd st (set_pos (l_pos st) s))
      by (intros s []; unfold fwd; cbn; split_and!; lia).
    apply look_eos, ext_adv1 in E1.
    assert (E2 : ext st (skipProgramExpression mem (adv 1 st)))
      by (etransitivity; [exact E1|apply snd_skip_while_ext]).
    destruct (look mem (fun c => c =? 41) _) eqn:E3.
    + apply look_eos, ext_adv1 in E3. assert (E4 : ext st (adv 1 (skipProgramExpression mem (adv 1 st)))) by (etransitivity; eassumption).
      destruct (0 <? _); injection E as <- <- <-; [now apply ext_fwd|now apply Hb].
    + cbn in E. injection E as <- <- <-. now apply Hb.
  - destruct (0 <? len); injection E as <- <- <-; [reflexivity|]. unfold fwd. cbn. split_and!; lia.
Qed.

Lemma WhiteSpace_fwd st r t st' : scpiLex_WhiteSpace mem st = (r, t, st') -> fwd st st'.
Proof. intros E. pose proof (WhiteSpace_took mem st) as H. rewrite E in H. now apply took_fwd in H. Qed.

(** An alternative tried only when the ones before it passed nothing. *)
Lemma alternative_fwd (f : lex_state_t -> Z * scpi_token_t * lex_state_t) st0 r t st r' t' st' :
  (forall s r t s', f s = (r, t, s') -> fwd s s') -> fwd st0 st ->
  (if r =? 0 then f st else (r, t, st)) = (r', t', st') -> fwd st0 st'.
Proof.
  intros Hf H0. destruct (r =? 0); [intros E; etransitivity; [exact H0|now apply Hf in E]|].
  now intros [= <- <- <-].
Qed.

Lemma took_fwd_of (f : lex_state_t -> Z * scpi_token_t * lex_state_t) :
  (forall s, took s (f s)) -> forall s r t s', f s = (r, t, s') -> fwd s s'.
Proof. intros Hf s r t s' E. pose proof (Hf s) as H. rewrite E in H. now apply took_fwd in H. Qed.

Lemma decimal_fwd st0 st r t r' t' st' :
  fwd st0 st ->
  (if r =? 0 then
      let '(result, token, st) := scpiLex_DecimalNumericProgramData mem st in
      if negb (result =? 0) then
        let '(wsLen, _, st) := scpiLex_WhiteSpace mem st in
        let '(suffixLen, _, st) := scpiLex_SuffixProgramData mem st in
        if 0 <? suffixLen then
          let n := t_len token + (wsLen + suffixLen) in
          (n, mkTok SCPI_TOKEN_DECIMAL_NUMERIC_PROGRAM_DATA_WITH_SUFFIX (t_ptr token) n, st)
        else (result, token, st)
      else (result, token, st)
    else (r, t, st)) = (r', t', st') -> fwd st0 st'.
Proof.
  intros H0. destruct (r =? 0); [|now intros [= <- <- <-]].
  destruct (scpiLex_DecimalNumericProgramData mem st) as [[r1 t1] s1] eqn:E1.
  apply (took_fwd_of _ (DecimalNumericProgramData_took mem)) in E1.
  assert (H1 : fwd st0 s1) by (etransitivity; eassumption).
  destruct (r1 =? 0); cbn [negb]; [now intros [= <- <- <-]|].
  destruct (scpiLex_WhiteSpace mem s1) as [[r2 t2] s2] eqn:E2. apply WhiteSpace_fwd in E2.
  destruct (scpiLex_SuffixProgramData mem s2) as [[r3 t3] s3] eqn:E3.
  apply (took_fwd_of _ (SuffixProgramData_took mem)) in E3.
  assert (H3 : fwd st0 s3) by (do 2 (etransitivity; [|eassumption]); exact H1).
  destruct (0 <? r3); now intros [= <- <- <-].
Qed.

Lemma parseProgramData_fwd st r t st' : scpiParser_parseProgramData mem st = (r, t, st') -> fwd st st'.
Proof.
  unfold scpiParser_parseProgramData.
  destruct (scpiLex_WhiteSpace mem st) as [[r0 t0] s0] eqn:E0. apply WhiteSpace_fwd in E0.
  destruct (scpiLex_NondecimalNumericData mem s0) as [[r1 t1] s1] eqn:E1.
  apply (took_fwd_of _ (NondecimalNumericData_took mem)) in E1.
  assert (H1 : fwd st s1) by (etransitivity; eassumption).
  destruct (if r1 =? 0 then scpiLex_CharacterProgramData mem s1 else _) as [[r2 t2] s2] eqn:E2.
  apply (alternative_fwd _ _ _ _ _ _ _ _ (took_fwd_of _ (CharacterProgramData_took mem)) H1) in E2.
  match goal with |- context [if r2 =? 0 then ?x else ?y] => destruct (if r2 =? 0 then x else y) as [[r3 t3] s3] eqn:E3 end.
  apply (decimal_fwd _ _ _ _ _ _ _ E2) in E3.
  destruct (if r3 =? 0 then scpiLex_StringProgramData mem s3 else _) as [[r4 t4] s4] eqn:E4.
  apply (alternative_fwd _ _ _ _ _ _ _ _ (took_fwd_of _ (StringProgramData_took mem)) E3) in E4.
  destruct (if r4 =? 0 then scpiLex_ArbitraryBlockProgramData mem s4 else _) as [[r5 t5] s5] eqn:E5.
  apply (alternative_fwd _ _ _ _ _ _ _ _ (fun s r t s' => Block_fwd s r t s') E4) in E5.
  destruct (if r5 =? 0 then scpiLex_ProgramExpression mem (t_len t5) s5 else _) as [[r6 t6] s6] eqn:E6.
  apply (alternative_fwd _ _ _ _ _ _ _ _ (fun s r t s' => Expression_fwd (t_len t5) s r t s') E5) in E6.
  destruct (scpiLex_WhiteSpace mem s6) as [[r7 t7] s7] eqn:E7. apply WhiteSpace_fwd in E7.
  intros [= <- <- <-]. etransitivity; eassumption.
Qed.

Lemma all_data_loop_fwd fuel p result n k st t k' st' :
  all_data_loop mem fuel p result n k st = (t, k', st') -> fwd st st'.
Proof.
  revert result n k st. induction fuel as [|fuel IH]; intros result n k st; cbn [all_data_loop].
  { now intros [= <- <- <-]. }
  destruct (scpiParser_parseProgramData mem st) as [[r1 t1] s1] eqn:E1. apply parseProgramData_fwd in E1.
  case_decide; [|now intros [= <- <- <-]].
  destruct (scpiLex_Comma mem s1) as [[r2 t2] s2] eqn:E2.
  apply (took_fwd_of (scpiLex_Comma mem)) in E2; [|intros s; now apply lex_chr_took].
  assert (H2 : fwd st s2) by (etransitivity; eassumption).
  destruct (r2 =? 0); [now intros [= <- <- <-]|]. intros E. apply IH in E. etransitivity; eassumption.
Qed.

Lemma parseAll_fwd st t k st' : scpiParser_parseAllProgramData mem st = (t, k, st') -> fwd st st'.
Proof.
  unfold scpiParser_parseAllProgramData. destruct (all_data_loop _ _ _ _ _ _ _) as [[t1 k1] s1] eqn:E.
  apply all_data_loop_fwd in E. now intros [= <- <- <-].
Qed.

(** A message unit of a line that is not empty is not empty. *)
Lemma unit_progress buf len :
  let r := fst (scpiParser_detectProgramMessageUnit mem buf len) in 0 <= r /\ (0 < len -> 0 < r).
Proof.
  cbv zeta. unfold scpiParser_detectProgramMessageUnit. set (s0 := mkLex buf buf len).
  destruct (scpiLex_WhiteSpace mem s0) as [[r1 t1] s1] eqn:E1. apply WhiteSpace_fwd in E1.
  destruct (scpiLex_ProgramHeader mem s1) as [[r2 t2] s2] eqn:E2.
  apply (took_fwd_of _ (ProgramHeader_took mem)) in E2.
  assert (H2 : fwd s0 s2) by (etransitivity; eassumption).
  match goal with |- context [if 0 <=? r2 then ?x else ?y] => destruct (if 0 <=? r2 then x else y) as [[[h d] np] s3] eqn:E3 end.
  assert (H3 : fwd s0 s3).
  { destruct (0 <=? r2); [|injection E3 as <- <- <- <-; exact H2].
    destruct (scpiLex_WhiteSpace mem s2) as [[r4 t4] s4] eqn:E4. apply WhiteSpace_fwd in E4.
    assert (H4 : fwd s0 s4) by (etransitivity; eassumption).
    destruct (0 <? r4); [|injection E3 as <- <- <- <-; exact H4].
    destruct (scpiParser_parseAllProgramData mem s4) as [[t5 k5] s5] eqn:E5. apply parseAll_fwd in E5.
    injection E3 as <- <- <- <-. etransitivity; eassumption. }
  destruct (scpiLex_NewLine mem s3) as [[r6 t6] s6] eqn:E6.
  pose proof (NewLine_took mem s3) as H6. rewrite E6 in H6. apply took_fwd in H6 as [H6 Hr6].
  assert (H6' : fwd s0 s6) by (etransitivity; eassumption).
  destruct (if r6 =? 0 then scpiLex_Semicolon mem s6 else (r6, t6, s6)) as [[r7 t7] s7] eqn:E7.
  assert (H7 : fwd s0 s7 /\ (r7 <> 0 -> l_pos s0 < l_pos s7)).
  { destruct (Z.eqb_spec r6 0) as [E0|E0].
    - pose proof (lex_chr_took mem SCPI_TOKEN_SEMICOLON 59 s6 ltac:(done)) as H.
      unfold scpiLex_Semicolon in E7. rewrite E7 in H. apply took_fwd in H as [H Hr].
      split; [etransitivity; eassumption|]. intros Hne. destruct H6' as (_ & _ & ?), H as (_ & _ & ?). lia.
    - injection E7 as <- <- <-. split; [exact H6'|]. intros _.
      destruct H3 as (_ & _ & ?), H6 as (_ & _ & ?). lia. }
  destruct H7 as [(Hb & Hl & Hf) Hne]. cbn [l_pos l_buffer l_len s0] in *.
  unfold scpiLex_IsEos. destruct (iseos s7) eqn:Ee; cbn [negb andb].
  - cbn [fst]. apply iseos_spec in Ee. unfold l_end in Ee. lia.
  - destruct (Z.eqb_spec r7 0); cbn [fst adv set_pos l_pos]; [lia|]. specialize (Hne ltac:(done)). lia.
Qed.
End Progress.

(** ** Parsing ends *)

Lemma push_ends err : ends (push err).
Proof. apply ends_modify. Qed.

Lemma writeData_ends d : ends (writeData d).
Proof. unfold writeData. ending. Qed.
#[export] Hint Resolve push_ends writeData_ends : ends.

Lemma flushData_ends : ends flushData.
Proof. unfold flushData. ending. Qed.
#[export] Hint Resolve flushData_ends : ends.

Lemma writeNewLine_ends : ends writeNewLine.
Proof. unfold writeNewLine. ending. Qed.
Lemma writeSemicolon_ends : ends writeSemicolon.
Proof. unfold writeSemicolon. ending. Qed.
#[export] Hint Resolve writeNewLine_ends writeSemicolon_ends : ends.

Section ParseEnds.
Context {W : Type} `{L : Lens scpi_t W}.

(** A handler that ends, behind a pattern with which every header can be
    compared. *)
Definition command_ends (cmd : scpi_command_t W) : Prop :=
  pattern_ok (cmd_pattern cmd) = true /\
  match cmd_callback cmd with Some callback => ends callback | None => True end.

Lemma processCommand_ends cmd : command_ends cmd -> ends (processCommand cmd).
Proof.
  intros [_ Hcb]. unfold processCommand. destruct (cmd_callback cmd); ending.
Qed.

Lemma findCommandHeader_in (cmdlist : list (scpi_command_t W)) header w cmd w' :
  findCommandHeader cmdlist header w = Ok (Some cmd, w') -> cmd ∈ cmdlist /\ w' = w.
Proof.
  induction cmdlist as [|c l IH]; cbn [findCommandHeader]; [discriminate|].
  destruct (matchCommand _ _) as [[]|]; [|intros H|discriminate].
  - intros [= <- <-]. split; [apply elem_of_cons; now left|done].
  - destruct (IH H) as [H1 ->]. split; [apply elem_of_cons; now right|done].
Qed.

Lemma findCommandHeader_ends (cmdlist : list (scpi_command_t W)) header :
  Forall command_ends cmdlist -> ends (findCommandHeader cmdlist header).
Proof.
  induction 1 as [|c l [Hp _] _ IH]; cbn [findCommandHeader]; [ending|].
  pose proof (matchCommand_ends (cmd_pattern c) header Hp) as Hm.
  destruct (matchCommand _ _) as [[]|]; [ending|exact IH|done].
Qed.

Lemma parse_unit_ends cmdlist cmd_prev :
  Forall command_ends cmdlist -> ends (parse_unit cmdlist cmd_prev).
Proof.
  intros Hc. unfold parse_unit. apply ends_bind; [ending|intros ps].
  case_decide; [ending|]. case_match; [|ending].
  apply ends_bind; [ending|intros mem]. apply ends_bind; [ending|intros [[b header] mem']].
  apply ends_bind; [ending|intros _].
  apply (ends_bind_post (fun found => forall cmd, found = Some cmd -> cmd ∈ cmdlist)).
  - now apply findCommandHeader_ends.
  - intros w found w' E cmd ->. now apply findCommandHeader_in in E as [? _].
  - intros [cmd|] Hin; [|ending]. rewrite Forall_forall in Hc.
    pose proof (processCommand_ends cmd (Hc cmd (Hin cmd eq_refl))). ending.
Qed.

(** With more fuel than bytes of the line the loop ends: every turn that
    goes on has passed a message unit, which is not empty. *)
Lemma parse_loop_ends cmdlist fuel data len result cmd_prev :
  Forall command_ends cmdlist -> (Z.to_nat len < fuel)%nat ->
  ends (parse_loop cmdlist fuel data len result cmd_prev).
Proof.
  intros Hc. revert data len result cmd_prev. induction fuel as [|fuel IH]; intros data len result cmd_prev Hf; [lia|].
  cbn [parse_loop]. apply ends_bind; [ending|intros mem].
  pose proof (unit_progress mem data len) as Hr.
  destruct (scpiParser_detectProgramMessageUnit mem data len) as [r ps]. cbn [fst] in Hr.
  apply ends_bind; [ending|intros _]. apply ends_bind; [now apply parse_unit_ends|intros [ok prev]].
  destruct (Z.ltb_spec r len); [|ending]. apply IH. lia.
Qed.
End ParseEnds.
