(* ===== verification/Decimal.v ===== *)
(** * Decimal: numbers as text in the C library

    [strtod], the [%.15lg], [%d] and [%llx] conversions of [snprintf] and the
    [%hhu] conversion of [sscanf], as the C standard specifies them.  Numbers
    in decimal are converted exactly and then rounded once, to nearest, ties
    to even. *)

From Stdlib Require Import ZArith Lia SpecFloat String.
From stdpp Require Import base numbers list.
From S2P Require Import Prelude Lexer Float ScpiCore ScpiMatch ScpiNumber.

(** ** Reading a double *)

(** The double nearest to [m * 10^e], with the sign [s].  A value below
    [2^(-s-2)] of the last place is represented by a sticky bit, which does
    not change the rounding. *)
Definition f64_of_decimal (s : bool) (m e : Z) : spec_float :=
  let signed z := if s then - z else z in
  if m =? 0 then S754_zero s
  else if 400 <? e then S754_infinity s
  else if e <? - (Z.log2 m + 401) then S754_zero s
  else if 0 <=? e then binary_normalize 53 1024 (signed (m * 10 ^ e)) 0 s
  else
    let sh := 4 * (- e) + 64 in
    let q := m * 2 ^ sh / 10 ^ (- e) in
    let r := (m * 2 ^ sh) mod 10 ^ (- e) in
    binary_normalize 53 1024 (signed (2 * q + (if r =? 0 then 0 else 1))) (- sh - 1) s.

(** Digits with an optional point: the digits as an integer, the number of
    those behind the point, and the number of characters (0 if there is no
    digit). *)
Definition scan_mantissa (base : Z) (s : list Z) : Z * Z * Z :=
  let '(a, n1) := scan_digits base s 0 0 in
  let s1 := drop (Z.to_nat n1) s in
  if default 0 (head s1) =? 46 then
    let '(b, n2) := scan_digits base (drop 1 s1) a 0 in
    if n1 + n2 =? 0 then (0, 0, 0) else (b, n2, n1 + 1 + n2)
  else (a, 0, n1).

(** An exponent behind one of the letters [l], if there is a complete one. *)
Definition scan_exponent (l : list Z) (s : list Z) : Z * Z :=
  if bool_decide (default 0 (head s) ∈ l) then
    let s1 := drop 1 s in
    let c := default 0 (head s1) in
    let sg := if (c =? 45) || (c =? 43) then 1 else 0 in
    let '(v, n) := scan_digits 10 (drop (Z.to_nat sg) s1) 0 0 in
    if n =? 0 then (0, 0) else (if c =? 45 then - v else v, 1 + sg + n)
  else (0, 0).

(** The value and the number of characters used, 0 if there is no number. *)
Definition strtod (s : list Z) : spec_float * Z :=
  let ws := count_space s in
  let s1 := drop (Z.to_nat ws) s in
  let c := default 0 (head s1) in
  let neg := c =? 45 in
  let sg := if (c =? 45) || (c =? 43) then 1 else 0 in
  let s2 := drop (Z.to_nat sg) s1 in
  let word w := strncasecmp_eq (length w) s2 w in
  if word (str "infinity") then (S754_infinity neg, ws + sg + 8)
  else if word (str "inf") then (S754_infinity neg, ws + sg + 3)
  else if word (str "nan") then (S754_nan, ws + sg + 3)
  else
    let x := drop 2 s2 in
    let '(hm, hf, hn) := scan_mantissa 16 x in
    if (default 0 (head s2) =? 48) && (tolower (default 0 (s2 !! 1%nat)) =? 120) && (0 <? hn) then
      let '(he, hk) := scan_exponent [112; 80] (drop (Z.to_nat hn) x) in
      (binary_normalize 53 1024 (if neg then - hm else hm) (he - 4 * hf) neg, ws + sg + 2 + hn + hk)
    else
      let '(m, f, n) := scan_mantissa 10 s2 in
      if n =? 0 then (S754_zero false, 0)
      else
        let '(e, k) := scan_exponent [101; 69] (drop (Z.to_nat n) s2) in
        (f64_of_decimal neg m (e - f), ws + sg + n + k).

(** ** Writing numbers *)

(** The [n] last decimal digits of a number. *)
Definition digits_of (n : nat) (z : Z) : list Z :=
  map (fun i => 48 + (z / 10 ^ Z.of_nat (n - 1 - i)) mod 10) (seq 0 n).

Fixpoint strip_zeros (ds : list Z) : list Z :=
  match ds with
  | [] => []
  | d :: ds => match strip_zeros ds with
               | [] => if d =? 48 then [] else [d]
               | r => d :: r
               end
  end.

(** [%d] of an integer of up to twenty digits. *)
Fixpoint drop_zeros (ds : list Z) : list Z :=
  match ds with
  | [] => []
  | [d] => [d]
  | d :: ds => if d =? 48 then drop_zeros ds else d :: ds
  end.
Definition fmt_d (z : Z) : list Z :=
  (if z <? 0 then [45] else []) ++ drop_zeros (digits_of 20 (Z.abs z)).

(** [%.16llx]. *)
Definition fmt_llx16 (z : Z) : list Z :=
  map (fun i => let d := (z / 16 ^ Z.of_nat (15 - i)) mod 16 in if d <? 10 then 48 + d else 87 + d)
    (seq 0 16).

(** [%-16s]. *)
Definition fmt_s16 (s : list Z) : list Z := s ++ replicate (16 - length s) 32.

(** The decimal exponent of [num / den]. *)
Definition exponent10 (num den : Z) : Z :=
  let est := (Z.log2 num - Z.log2 den) * 30103 / 100000 in
  let le10 k := if 0 <=? k then den * 10 ^ k <=? num else den <=? num * 10 ^ (- k) in
  if le10 (est + 1) then est + 1 else if le10 est then est else est - 1.

(** Fifteen significant digits and the exponent of the first. *)
Definition digits15 (num den : Z) : Z * Z :=
  let x := exponent10 num den in
  let k := 14 - x in
  let n := if 0 <=? k then num * 10 ^ k else num in
  let d := if 0 <=? k then den else den * 10 ^ (- k) in
  let q := n / d in
  let r := n mod d in
  let q := if (d <? 2 * r) || ((d =? 2 * r) && Z.odd q) then q + 1 else q in
  if q =? 10 ^ 15 then (10 ^ 14, x + 1) else (q, x).

(** [%.15lg]. *)
Definition fmt_g15 (v : spec_float) : list Z :=
  let sign (s : bool) := if s then [45] else [] in
  match v with
  | S754_zero s => sign s ++ [48]
  | S754_infinity s => sign s ++ str "inf"
  | S754_nan => str "nan"
  | S754_finite s m e =>
      let num := if 0 <=? e then Z.pos m * 2 ^ e else Z.pos m in
      let den := if 0 <=? e then 1 else 2 ^ (- e) in
      let '(q, x) := digits15 num den in
      let ds := digits_of 15 q in
      let point ds := match ds with [] => [] | _ => 46 :: ds end in
      sign s ++
      (if (x <? -4) || (15 <=? x) then
         take 1 ds ++ point (strip_zeros (drop 1 ds)) ++ [101; if x <? 0 then 45 else 43] ++
         (if Z.abs x <? 100 then digits_of 2 (Z.abs x) else digits_of 3 (Z.abs x))
       else if 0 <=? x then
         take (Z.to_nat (x + 1)) ds ++ point (strip_zeros (drop (Z.to_nat (x + 1)) ds))
       else [48] ++ point (replicate (Z.to_nat (- x - 1)) 48 ++ strip_zeros ds))
  end.

(** ** Reading four octets *)

(** [%hhu]: the value stored and the rest of the text. *)
Definition scan_hhu (s : list Z) : option (Z * list Z) :=
  let '(v, n) := strtou 32 s 10 in
  if n =? 0 then None else Some (u8 v, drop (Z.to_nat n) s).

(** [sscanf] with [k] conversions [%hhu] separated by points: the values
    stored before the first failure. *)
Fixpoint scan_octets (k : nat) (s : list Z) : list Z :=
  match k with
  | O => []
  | S k =>
      match scan_hhu s with
      | None => []
      | Some (v, rest) =>
          v :: (if default 0 (head rest) =? 46 then scan_octets k (drop 1 rest) else [])
      end
  end.

(** ** Examples *)

Example strtod_100MHz : strtod (str "100e6 HZ") = (f64_of_Z 100000000, 5).
Proof. vm_compute. reflexivity. Qed.
Example strtod_tenth : strtod (str "-.1") = (S754_finite true 7205759403792794 (-56), 3).
Proof. vm_compute. reflexivity. Qed.
Example strtod_max : strtod (str "1.7976931348623157e308") = (S754_finite false 9007199254740991 971, 22).
Proof. vm_compute. reflexivity. Qed.
Example strtod_overflow : strtod (str "1.7976931348623159e308") = (S754_infinity false, 22).
Proof. vm_compute. reflexivity. Qed.
Example strtod_denormal : strtod (str "4.9e-324") = (S754_finite false 1 (-1074), 8).
Proof. vm_compute. reflexivity. Qed.
Example strtod_space : strtod (str "1 E 3") = (f64_of_Z 1, 1).
Proof. vm_compute. reflexivity. Qed.
Example strtod_hex : strtod (str "0x10") = (f64_of_Z 16, 4).
Proof. vm_compute. reflexivity. Qed.
Example fmt_g15_tenth : fmt_g15 (fst (strtod (str "0.1"))) = str "0.1".
Proof. vm_compute. reflexivity. Qed.
Example fmt_g15_large : fmt_g15 (fst (strtod (str "-2.5e100"))) = str "-2.5e+100".
Proof. vm_compute. reflexivity. Qed.
Example fmt_g15_round : fmt_g15 (fst (strtod (str "999999999999999.9"))) = str "1e+15".
Proof. vm_compute. reflexivity. Qed.
Example fmt_g15_small : fmt_g15 (fst (strtod (str "0.00001"))) = str "1e-05".
Proof. vm_compute. reflexivity. Qed.
Example fmt_g15_freq : fmt_g15 (f64_of_Z 100000000) = str "100000000".
Proof. vm_compute. reflexivity. Qed.
Example octets_ok : scan_octets 4 (str "192.168.1.30") = [192; 168; 1; 30].
Proof. vm_compute. reflexivity. Qed.
Example octets_partial : scan_octets 4 (str "10.0.x.1") = [10; 0].
Proof. vm_compute. reflexivity. Qed.
