(* ===== verification/ScpiUnits.v ===== *)
(** * ScpiUnits: numbers with units

    libscpi's units.c, and the conversion of a parameter to a double of
    parser.c.  The table holds the units the build compiles: electric,
    frequency, power and time. *)

From Stdlib Require Import ZArith Lia SpecFloat String.
From stdpp Require Import base numbers list.
From S2P Require Import Prelude Lexer Float ScpiCore ScpiMatch ScpiNumber ScpiParser Decimal.

(** ** Data *)

Inductive scpi_unit_t :=
  | SCPI_UNIT_NONE | SCPI_UNIT_VOLT | SCPI_UNIT_AMPER | SCPI_UNIT_OHM | SCPI_UNIT_HERTZ
  | SCPI_UNIT_CELSIUS | SCPI_UNIT_SECOND | SCPI_UNIT_METER | SCPI_UNIT_GRAY | SCPI_UNIT_BECQUEREL
  | SCPI_UNIT_MOLE | SCPI_UNIT_DEGREE | SCPI_UNIT_GRADE | SCPI_UNIT_RADIAN | SCPI_UNIT_REVOLUTION
  | SCPI_UNIT_STERADIAN | SCPI_UNIT_SIEVERT | SCPI_UNIT_FARAD | SCPI_UNIT_COULOMB
  | SCPI_UNIT_SIEMENS | SCPI_UNIT_ELECTRONVOLT | SCPI_UNIT_JOULE | SCPI_UNIT_NEWTON | SCPI_UNIT_LUX
  | SCPI_UNIT_HENRY | SCPI_UNIT_ASTRONOMIC_UNIT | SCPI_UNIT_INCH | SCPI_UNIT_FOOT
  | SCPI_UNIT_PARSEC | SCPI_UNIT_MILE | SCPI_UNIT_NAUTICAL_MILE | SCPI_UNIT_LUMEN
  | SCPI_UNIT_CANDELA | SCPI_UNIT_WEBER | SCPI_UNIT_TESLA | SCPI_UNIT_ATOMIC_MASS
  | SCPI_UNIT_KILOGRAM | SCPI_UNIT_WATT | SCPI_UNIT_DBM | SCPI_UNIT_ATMOSPHERE
  | SCPI_UNIT_INCH_OF_MERCURY | SCPI_UNIT_MM_OF_MERCURY | SCPI_UNIT_PASCAL | SCPI_UNIT_TORT
  | SCPI_UNIT_BAR | SCPI_UNIT_DECIBEL | SCPI_UNIT_UNITLESS | SCPI_UNIT_FAGRENHEIT
  | SCPI_UNIT_KELVIN | SCPI_UNIT_DAY | SCPI_UNIT_YEAR | SCPI_UNIT_STROKES | SCPI_UNIT_POISE
  | SCPI_UNIT_LITER.
#[export] Instance scpi_unit_eq_dec : EqDecision scpi_unit_t.
Proof. solve_decision. Defined.

Record scpi_unit_def_t := mkUnit { u_name : list Z; u_unit : scpi_unit_t; u_mult : spec_float }.

Definition scpi_units_def : list scpi_unit_def_t :=
  [ mkUnit (str "PF") SCPI_UNIT_FARAD (f64_of_decimal false 1 (-12));
    mkUnit (str "NF") SCPI_UNIT_FARAD (f64_of_decimal false 1 (-9));
    mkUnit (str "UF") SCPI_UNIT_FARAD (f64_of_decimal false 1 (-6));
    mkUnit (str "MF") SCPI_UNIT_FARAD (f64_of_decimal false 1 (-3));
    mkUnit (str "F") SCPI_UNIT_FARAD (f64_of_decimal false 1 0);
    mkUnit (str "UA") SCPI_UNIT_AMPER (f64_of_decimal false 1 (-6));
    mkUnit (str "MA") SCPI_UNIT_AMPER (f64_of_decimal false 1 (-3));
    mkUnit (str "A") SCPI_UNIT_AMPER (f64_of_decimal false 1 0);
    mkUnit (str "KA") SCPI_UNIT_AMPER (f64_of_decimal false 1 3);
    mkUnit (str "UV") SCPI_UNIT_VOLT (f64_of_decimal false 1 (-6));
    mkUnit (str "MV") SCPI_UNIT_VOLT (f64_of_decimal false 1 (-3));
    mkUnit (str "V") SCPI_UNIT_VOLT (f64_of_decimal false 1 0);
    mkUnit (str "KV") SCPI_UNIT_VOLT (f64_of_decimal false 1 3);
    mkUnit (str "OHM") SCPI_UNIT_OHM (f64_of_decimal false 1 0);
    mkUnit (str "KOHM") SCPI_UNIT_OHM (f64_of_decimal false 1 3);
    mkUnit (str "MOHM") SCPI_UNIT_OHM (f64_of_decimal false 1 6);
    mkUnit (str "UH") SCPI_UNIT_HENRY (f64_of_decimal false 1 (-6));
    mkUnit (str "MH") SCPI_UNIT_HENRY (f64_of_decimal false 1 (-3));
    mkUnit (str "H") SCPI_UNIT_HENRY (f64_of_decimal false 1 0);
    mkUnit (str "HZ") SCPI_UNIT_HERTZ (f64_of_decimal false 1 0);
    mkUnit (str "KHZ") SCPI_UNIT_HERTZ (f64_of_decimal false 1 3);
    mkUnit (str "MHZ") SCPI_UNIT_HERTZ (f64_of_decimal false 1 6);
    mkUnit (str "GHZ") SCPI_UNIT_HERTZ (f64_of_decimal false 1 9);
    mkUnit (str "W") SCPI_UNIT_WATT (f64_of_decimal false 1 0);
    mkUnit (str "DBM") SCPI_UNIT_DBM (f64_of_decimal false 1 0);
    mkUnit (str "DBMW") SCPI_UNIT_DBM (f64_of_decimal false 1 0);
    mkUnit (str "PS") SCPI_UNIT_SECOND (f64_of_decimal false 1 (-12));
    mkUnit (str "NS") SCPI_UNIT_SECOND (f64_of_decimal false 1 (-9));
    mkUnit (str "US") SCPI_UNIT_SECOND (f64_of_decimal false 1 (-6));
    mkUnit (str "MS") SCPI_UNIT_SECOND (f64_of_decimal false 1 (-3));
    mkUnit (str "S") SCPI_UNIT_SECOND (f64_of_decimal false 1 0);
    mkUnit (str "MIN") SCPI_UNIT_SECOND (f64_of_decimal false 60 0);
    mkUnit (str "HR") SCPI_UNIT_SECOND (f64_of_decimal false 3600 0);
    mkUnit (str "D") SCPI_UNIT_DAY (f64_of_decimal false 1 0);
    mkUnit (str "ANN") SCPI_UNIT_YEAR (f64_of_decimal false 1 0) ].

Definition SCPI_NUM_NUMBER : Z := 0.
Definition SCPI_NUM_MIN : Z := 1.
Definition SCPI_NUM_MAX : Z := 2.
Definition SCPI_NUM_DEF : Z := 3.
Definition SCPI_NUM_UP : Z := 4.
Definition SCPI_NUM_DOWN : Z := 5.
Definition SCPI_NUM_NAN : Z := 6.
Definition SCPI_NUM_INF : Z := 7.
Definition SCPI_NUM_NINF : Z := 8.
Definition SCPI_NUM_AUTO : Z := 9.

Definition scpi_special_numbers_def : choices_t :=
  mkChoices
    [ (str "MINimum", SCPI_NUM_MIN); (str "MAXimum", SCPI_NUM_MAX); (str "DEFault", SCPI_NUM_DEF);
      (str "UP", SCPI_NUM_UP); (str "DOWN", SCPI_NUM_DOWN); (str "NAN", SCPI_NUM_NAN);
      (str "INFinity", SCPI_NUM_INF); (str "NINF", SCPI_NUM_NINF); (str "AUTO", SCPI_NUM_AUTO) ]
    true.

(** The union holds [n_tag] if [n_special], and [n_value] if not; the member
    not stored is never read. *)
Record scpi_number_t := mkNumber {
    n_special : bool; n_value : spec_float; n_tag : Z; n_unit : scpi_unit_t; n_base : Z;
  }.

(** ** Units *)

Definition skipWhitespace (cmd : list Z) (len : Z) : Z := count_space (take (Z.to_nat len) cmd).

Fixpoint translateUnit (units : list scpi_unit_def_t) (unit : list Z) (len : Z)
    : option scpi_unit_def_t :=
  match units with
  | [] => None
  | u :: units =>
      if compareStr unit len (u_name u) (Z.of_nat (length (u_name u))) then Some u
      else translateUnit units unit len
  end.

Definition d_one : spec_float := f64_of_Z 1.

Fixpoint translateUnitInverse (units : list scpi_unit_def_t) (unit : scpi_unit_t) : option (list Z) :=
  match units with
  | [] => None
  | u :: units =>
      if decide (u_unit u = unit) then
        if SFeqb (u_mult u) d_one then Some (u_name u) else translateUnitInverse units unit
      else translateUnitInverse units unit
  end.

(** The number in base units, if the text is a unit. *)
Definition transformNumber (unit : list Z) (len : Z) (value : scpi_number_t)
    : M scpi_t (bool * scpi_number_t) :=
  let s := skipWhitespace unit len in
  if s =? len then
    mret (true, mkNumber (n_special value) (n_value value) (n_tag value) SCPI_UNIT_NONE (n_base value))
  else
    match translateUnit scpi_units_def (drop (Z.to_nat s) unit) (len - s) with
    | None => push SCPI_ERROR_INVALID_SUFFIX;; mret (false, value)
    | Some unitDef =>
        mret (true, mkNumber (n_special value) (dmul (n_value value) (u_mult unitDef)) (n_tag value)
                      (u_unit unitDef) (n_base value))
    end.

(** ** Parameters *)

Definition strToDouble (s : list Z) : spec_float * Z := strtod s.

Definition SCPI_ParamToDouble (parameter : scpi_token_t) : M scpi_t (bool * spec_float) :=
  match t_type parameter with
  | SCPI_TOKEN_HEXNUM | SCPI_TOKEN_OCTNUM | SCPI_TOKEN_BINNUM =>
      r ← ParamSignToUInt64 parameter false;
      let '(result, valint) := r in mret (result, f64_of_Z (default 0 valint))
  | SCPI_TOKEN_DECIMAL_NUMERIC_PROGRAM_DATA
  | SCPI_TOKEN_DECIMAL_NUMERIC_PROGRAM_DATA_WITH_SUFFIX =>
      mem ← gets memory;
      let '(v, n) := strToDouble (token_string mem parameter) in
      mret (0 <? n, v)
  | _ => mret (false, S754_zero false)
  end.

(** The base of a number, as its token tells. *)
Definition number_base (ty : scpi_token_type_t) : Z :=
  match ty with
  | SCPI_TOKEN_BINNUM => 2
  | SCPI_TOKEN_HEXNUM => 16
  | SCPI_TOKEN_OCTNUM => 8
  | _ => 10
  end.

Definition SCPI_ParamNumber (special : choices_t) (mandatory : bool)
    : M scpi_t (bool * scpi_number_t) :=
  let zero := S754_zero false in
  p ← SCPI_Parameter mandatory;
  let '(result, param) := p in
  let base := number_base (t_type param) in
  if negb result then mret (false, mkNumber false zero 0 SCPI_UNIT_NONE base) else
  mem ← gets memory;
  let state := mkLex (t_ptr param) (t_ptr param) (t_len param) in
  match t_type param with
  | SCPI_TOKEN_DECIMAL_NUMERIC_PROGRAM_DATA
  | SCPI_TOKEN_HEXNUM | SCPI_TOKEN_OCTNUM | SCPI_TOKEN_BINNUM =>
      r ← SCPI_ParamToDouble param;
      mret (true, mkNumber false (snd r) 0 SCPI_UNIT_NONE base)
  | SCPI_TOKEN_DECIMAL_NUMERIC_PROGRAM_DATA_WITH_SUFFIX =>
      let '(_, _, state) := scpiLex_DecimalNumericProgramData mem state in
      let '(_, _, state) := scpiLex_WhiteSpace mem state in
      let '(_, token, _) := scpiLex_SuffixProgramData mem state in
      r ← SCPI_ParamToDouble param;
      transformNumber (token_string mem token) (t_len token)
        (mkNumber false (snd r) 0 SCPI_UNIT_NONE base)
  | SCPI_TOKEN_PROGRAM_MNEMONIC =>
      let '(_, _, state) := scpiLex_WhiteSpace mem state in
      let '(_, token, _) := scpiLex_CharacterProgramData mem state in
      r ← SCPI_ParamToChoice token special;
      let '(ok, tag) := r in
      mret (ok, mkNumber true zero (default 0 tag) SCPI_UNIT_NONE base)
  | _ => mret (false, mkNumber false zero 0 SCPI_UNIT_NONE base)
  end.

(** ** Replies *)

Definition SCPI_DoubleToStr (v : spec_float) : list Z := fmt_g15 v.

(** The text for a buffer that it fits in. *)
Definition SCPI_NumberToStr (special : choices_t) (value : scpi_number_t) : list Z :=
  if n_special value then default [] (SCPI_ChoiceToName special (n_tag value))
  else
    let result := SCPI_DoubleToStr (n_value value) in
    match translateUnitInverse scpi_units_def (n_unit value) with
    | Some unit => result ++ str " " ++ unit
    | None => result
    end.
