(* ===== verification/ScpiExpr.v ===== *)
(** * ScpiExpr: numeric lists and channel lists

    expression.c: the entry at an index of a list in parentheses, such as
    (1,3:5) or (@1!2:3!4,5), read from the start for every index.  The
    firmware registers no command that takes one. *)

From Stdlib Require Import ZArith Lia SpecFloat String.
From stdpp Require Import base numbers list.
From S2P Require Import Prelude ScpiFifo Lexer ScpiCore ScpiNumber ScpiParser Decimal ScpiUnits.

Inductive scpi_expr_result_t := SCPI_EXPR_OK | SCPI_EXPR_ERROR | SCPI_EXPR_NO_MORE.

#[export] Instance expr_result_eq_dec : EqDecision scpi_expr_result_t.
Proof. solve_decision. Defined.

(** The inside of the parentheses. *)
Definition inside (param : scpi_token_t) : lex_state_t := mkLex (t_ptr param + 1) (t_ptr param + 1) (t_len param - 2).

(** ** Numeric lists *)

(** What [isRange], [valueFrom] and [valueTo] point to. *)
Record list_entry := mkEntry { e_range : bool; e_from : scpi_token_t; e_to : scpi_token_t }.

Section Numeric.
Variable mem : list Z.

Definition numericRange (e : list_entry) (state : lex_state_t) : scpi_expr_result_t * list_entry * lex_state_t :=
  let '(n, from, state) := scpiLex_DecimalNumericProgramData mem state in
  if truthy n then
    let '(c, to, state) := scpiLex_Colon mem state in
    if truthy c then
      let '(n, to, state) := scpiLex_DecimalNumericProgramData mem state in
      (if truthy n then SCPI_EXPR_OK else SCPI_EXPR_ERROR, mkEntry true from to, state)
    else (SCPI_EXPR_OK, mkEntry false from to, state)
  else (SCPI_EXPR_NO_MORE, mkEntry (e_range e) from (e_to e), state).

(** The loop with [k] turns left. *)
Fixpoint numeric_loop (k : nat) (e : list_entry) (lex : lex_state_t) : scpi_expr_result_t * list_entry * lex_state_t :=
  match k with
  | O => (SCPI_EXPR_OK, e, lex)
  | S k =>
      let '(res, e, lex) := numericRange e lex in
      if decide (res <> SCPI_EXPR_OK) then (res, e, lex)
      else
        match k with
        | O => (res, e, lex)
        | S _ =>
            let '(c, token, lex) := scpiLex_Comma mem lex in
            let e := mkEntry (e_range e) token (e_to e) in
            if truthy c then numeric_loop k e lex
            else (if scpiLex_IsEos lex then SCPI_EXPR_NO_MORE else SCPI_EXPR_ERROR, e, lex)
        end
  end.
End Numeric.

(** [param] and [out] are [None] for null pointers. *)
Definition SCPI_ExprNumericListEntry (param : option scpi_token_t) (index : Z) (out : option list_entry)
    : M scpi_t (scpi_expr_result_t * option list_entry) :=
  match param, out with
  | Some param, Some e =>
      if negb (bool_decide (t_type param = SCPI_TOKEN_PROGRAM_EXPRESSION)) then
        push SCPI_ERROR_DATA_TYPE_ERROR;; mret (SCPI_EXPR_ERROR, out)
      else
        mem ← gets memory;
        let '(res, e, _) := numeric_loop mem (Z.to_nat (index + 1)) e (inside param) in
        when (bool_decide (res = SCPI_EXPR_ERROR)) (push SCPI_ERROR_EXPRESSION_PARSING_ERROR);;
        mret (res, Some e)
  | _, _ => push SCPI_ERROR_SYSTEM_ERROR;; mret (SCPI_EXPR_ERROR, out)
  end.

(** An [int32_t] through a pointer: what was there when nothing is read. *)
Definition SCPI_ParamToInt32 (parameter : scpi_token_t) (value : Z) : M scpi_t Z :=
  r ← ParamSignToUInt32 parameter true;
  mret (match snd r with Some v => s32 v | None => value end).

(** [unset] are the local variables before they are assigned. *)
Definition SCPI_ExprNumericListEntryInt (unset : scpi_token_t) (param : option scpi_token_t) (index : Z) (isRange : bool) (valueFrom valueTo : Z)
    : M scpi_t (scpi_expr_result_t * bool * Z * Z) :=
  r ← SCPI_ExprNumericListEntry param index (Some (mkEntry false unset unset));
  match r with
  | (SCPI_EXPR_OK, Some e) =>
      valueFrom ← SCPI_ParamToInt32 (e_from e) valueFrom;
      valueTo ← (if e_range e then SCPI_ParamToInt32 (e_to e) valueTo else mret valueTo);
      mret (SCPI_EXPR_OK, e_range e, valueFrom, valueTo)
  | (res, _) => mret (res, isRange, valueFrom, valueTo)
  end.

Definition SCPI_ExprNumericListEntryDouble (unset : scpi_token_t) (param : option scpi_token_t) (index : Z) (isRange : bool)
    (valueFrom valueTo : spec_float) : M scpi_t (scpi_expr_result_t * bool * spec_float * spec_float) :=
  r ← SCPI_ExprNumericListEntry param index (Some (mkEntry false unset unset));
  match r with
  | (SCPI_EXPR_OK, Some e) =>
      from ← SCPI_ParamToDouble (e_from e);
      valueTo ← (if e_range e then to ← SCPI_ParamToDouble (e_to e); mret (snd to) else mret valueTo);
      mret (SCPI_EXPR_OK, e_range e, snd from, valueTo)
  | (res, _) => mret (res, isRange, valueFrom, valueTo)
  end.

(** ** Channel lists *)

(** [values[i] = v]. *)
Definition set_value (i v : Z) (values : list Z) : option (list Z) :=
  if (0 <=? i) && (i <? Z.of_nat (length values)) then Some (<[Z.to_nat i := v]> values) else None.
Definition value_at (i : Z) (values : list Z) : Z := default 0 (values !! Z.to_nat i).

(** [values] is the array, of which [len] elements may be written; the
    number of dimensions is left as it was unless there is a result. *)
Fixpoint channel_loop (fuel : nat) (i len : Z) (values : list Z) (dims : Z) (state : lex_state_t)
    : M scpi_t (scpi_expr_result_t * list Z * Z * lex_state_t) :=
  match fuel with
  | O => hang
  | S fuel =>
      mem ← gets memory;
      let '(n, param, state) := scpiLex_DecimalNumericProgramData mem state in
      if truthy n then
        values ← (if i <? len then
                    v ← SCPI_ParamToInt32 param (value_at i values);
                    deref OutOfBounds (set_value i v values)
                  else mret values);
        let '(c, _, state) := scpiLex_SpecificCharacter mem state 33 in
        if truthy c then channel_loop fuel (i + 1) len values dims state
        else mret (SCPI_EXPR_OK, values, i + 1, state)
      else mret (if i =? 0 then SCPI_EXPR_NO_MORE else SCPI_EXPR_ERROR, values, dims, state)
  end.

(** Every turn but the last passes a number and an exclamation mark. *)
Definition channelSpec (len : Z) (values : list Z) (dims : Z) (state : lex_state_t) : M scpi_t (scpi_expr_result_t * list Z * Z * lex_state_t) :=
  channel_loop (S (Z.to_nat (l_end state - l_pos state))) 0 len values dims state.

(** What the output pointers point to. *)
Record channel_entry := mkChannel { c_range : bool; c_from : list Z; c_to : list Z; c_dimensions : Z }.

(** The local variables [fromDimensions] and [toDimensions] are used only
    when they are assigned. *)
Definition channelRange (len : Z) (e : channel_entry) (state : lex_state_t) : M scpi_t (scpi_expr_result_t * channel_entry * lex_state_t) :=
  mem ← gets memory;
  r ← channelSpec len (c_from e) 0 state;
  let '(err, from, fromDimensions, state) := r in
  let e := mkChannel (c_range e) from (c_to e) (c_dimensions e) in
  match err with
  | SCPI_EXPR_OK =>
      let '(c, _, state) := scpiLex_Colon mem state in
      if truthy c then
        r ← channelSpec len (c_to e) 0 state;
        let '(err, to, toDimensions, state) := r in
        let e := mkChannel true (c_from e) to (c_dimensions e) in
        if decide (err <> SCPI_EXPR_OK) then mret (SCPI_EXPR_ERROR, e, state)
        else if negb (fromDimensions =? toDimensions) then mret (SCPI_EXPR_ERROR, e, state)
        else mret (err, mkChannel true (c_from e) to fromDimensions, state)
      else mret (SCPI_EXPR_OK, mkChannel false (c_from e) (c_to e) fromDimensions, state)
  | _ => mret (SCPI_EXPR_ERROR, e, state)
  end.

(** The loop with [k] turns left; only the last stores values. *)
Fixpoint channel_entries (k : nat) (len : Z) (e : channel_entry) (lex : lex_state_t) : M scpi_t (scpi_expr_result_t * channel_entry * lex_state_t) :=
  match k with
  | O => mret (SCPI_EXPR_OK, e, lex)
  | S k =>
      mem ← gets memory;
      r ← channelRange (match k with O => len | S _ => 0 end) e lex;
      let '(res, e, lex) := r in
      if decide (res <> SCPI_EXPR_OK) then mret (res, e, lex)
      else
        match k with
        | O => mret (res, e, lex)
        | S _ =>
            let '(c, _, lex) := scpiLex_Comma mem lex in
            if truthy c then channel_entries k len e lex
            else mret (if scpiLex_IsEos lex then SCPI_EXPR_NO_MORE else SCPI_EXPR_ERROR, e, lex)
        end
  end.

(** [out] is [None] when one of the pointers that must not be null is. *)
Definition SCPI_ExprChannelListEntry (param : option scpi_token_t) (index len : Z) (out : option channel_entry)
    : M scpi_t (scpi_expr_result_t * option channel_entry) :=
  match param, out with
  | Some param, Some e =>
      if negb (bool_decide (t_type param = SCPI_TOKEN_PROGRAM_EXPRESSION)) then
        push SCPI_ERROR_DATA_TYPE_ERROR;; mret (SCPI_EXPR_ERROR, out)
      else
        mem ← gets memory;
        let '(c, _, lex) := scpiLex_SpecificCharacter mem (inside param) 64 in
        if negb (truthy c) then push SCPI_ERROR_EXPRESSION_PARSING_ERROR;; mret (SCPI_EXPR_ERROR, out)
        else
          r ← channel_entries (Z.to_nat (index + 1)) len e lex;
          let '(res, e, lex) := r in
          when (bool_decide (res = SCPI_EXPR_ERROR)) (push SCPI_ERROR_EXPRESSION_PARSING_ERROR);;
          if bool_decide (res = SCPI_EXPR_NO_MORE) && negb (scpiLex_IsEos lex) then
            push SCPI_ERROR_EXPRESSION_PARSING_ERROR;; mret (SCPI_EXPR_ERROR, Some e)
          else mret (res, Some e)
  | _, _ => push SCPI_ERROR_SYSTEM_ERROR;; mret (SCPI_EXPR_ERROR, out)
  end.

(** ** Reading what was written *)

(** The texts [ws] with [c] between them. *)
Fixpoint joined (c : Z) (ws : list (list Z)) : list Z :=
  match ws with
  | [] => []
  | [w] => w
  | w :: ws => w ++ c :: joined c ws
  end.

(** A number, a channel and an entry as text. *)
Definition num (v : Z) : list Z := default [] (SCPI_Int32ToStr v 33).
Definition spec (ns : list Z) : list Z := joined 33 (map num ns).
Definition entry (e : list Z * option (list Z)) : list Z :=
  spec (fst e) ++ match snd e with Some ms => 58 :: spec ms | None => [] end.
Definition channel_list (es : list (list Z * option (list Z))) : list Z := 64 :: joined 44 (map entry es).

Definition int32 (v : Z) : Prop := - 2 ^ 31 <= v < 2 ^ 31.
(** A channel has at least one dimension, and both ends of a range the same
    number. *)
Definition proper (e : list Z * option (list Z)) : Prop :=
  fst e <> [] /\ Forall int32 (fst e) /\
  match snd e with Some ms => length ms = length (fst e) /\ Forall int32 ms | None => True end.

Lemma num_text v : int32 v -> decimal_text v (num v).
Proof.
  intros Hv. destruct (int32_decimal v 33 Hv ltac:(lia)) as (text & E & Ht). unfold num, SCPI_Int32ToStr. now rewrite E.
Qed.

(** What may follow a number in a list. *)
Definition separator (c : Z) : bool := (c =? 33) || (c =? 58) || (c =? 44) || (c =? 41).
Definition separated (r : list Z) : Prop := match r with c :: _ => separator c = true | [] => True end.

Lemma separated_stops r p : separated r -> (forall c, separator c = true -> p c = false) -> stops p r.
Proof. intros Hr Hp. destruct r as [|c r]; [done|]. now apply Hp. Qed.

Lemma separator_cases c : separator c = true -> c = 33 \/ c = 58 \/ c = 44 \/ c = 41.
Proof. unfold separator. rewrite !orb_true_iff, !Z.eqb_eq. tauto. Qed.

Section Text.
Context {mem : list Z}.
Abbreviation at_ := (at_text mem).

Lemma number_token st v r :
  int32 v -> at_ st (num v ++ r) -> separated r ->
  scpiLex_DecimalNumericProgramData mem st =
    (Z.of_nat (length (num v)), mkTok SCPI_TOKEN_DECIMAL_NUMERIC_PROGRAM_DATA (l_pos st) (Z.of_nat (length (num v))), adv (Z.of_nat (length (num v))) st).
Proof.
  intros Hv H Hr. destruct (num_text v Hv) as (t & Et & Hlen & _ & Hd & _). rewrite Et in *.
  set (sg := if v <? 0 then [45] else []) in *. rewrite <- app_assoc in H.
  assert (forall p, (forall c, separator c = true -> p c = false) -> stops p r) as Hst by (intros p; now apply separated_stops).
  unfold scpiLex_DecimalNumericProgramData, skipMantisa.
  assert (skipPlusmn mem st = (Z.of_nat (length sg), adv (Z.of_nat (length sg)) st)) as ->.
  { subst sg. destruct (v <? 0); cbn [app] in H.
    - exact (skip_one_at _ _ _ _ H eq_refl).
    - unfold skipPlusmn. rewrite (skip_one_stops isplusmn st (t ++ r) H), adv_0; [reflexivity|].
      destruct t as [|c t]; [cbn in Hlen; lia|]. inversion_clear Hd as [|? ? Hc _]. cbn. unfold isdigit, chr_in, isplusmn in *. lia. }
  pose proof (at_app st sg _ H) as H1. unfold skipNumbers.
  rewrite (skip_while_at isdigit _ t r H1 Hd) by (apply Hst; intros c [->|[->|[->| ->]]]%separator_cases; reflexivity).
  rewrite adv_adv. pose proof (at_app _ t _ H1) as H2. rewrite adv_adv in H2. unfold skipChr.
  rewrite (skip_one_stops _ _ r H2) by (apply Hst; intros c [->|[->|[->| ->]]]%separator_cases; reflexivity).
  change (truthy 0) with false. cbv iota beta. rewrite Z.add_0_l. assert (truthy (Z.of_nat (length t)) = true) as -> by (unfold truthy; lia).
  unfold skipWs. rewrite (skip_while_at isws _ [] r H2 ltac:(constructor)) by (apply Hst; intros c [->|[->|[->| ->]]]%separator_cases; reflexivity).
  cbn [length]. change (Z.of_nat 0) with 0. rewrite adv_0. unfold skipExponent.
  rewrite (look_stops isE _ r H2) by (apply Hst; intros c [->|[->|[->| ->]]]%separator_cases; reflexivity).
  change (negb (truthy 0)) with true. cbv iota. rewrite length_app.
  replace (set_pos _ (adv _ st)) with (adv (Z.of_nat (length sg + length t)) st) by (unfold adv, set_pos; cbn; f_equal; lia).
  unfold token_from. cbn [adv set_pos l_pos t_len]. replace (l_pos st + Z.of_nat (length sg + length t) - l_pos st) with (Z.of_nat (length sg + length t)) by lia.
  destruct (Z.ltb_spec 0 (Z.of_nat (length sg + length t))); [reflexivity|lia].
Qed.

Lemma scan_number t r acc n :
  Forall (fun c => isdigit c = true) t -> stops isalnum r ->
  scan_digits 10 (t ++ r) acc n = (digits_value t acc, n + Z.of_nat (length t)).
Proof.
  intros Ht Hr. revert acc n. induction Ht as [|c t Hc Ht IH]; intros acc n; cbn [app].
  - rewrite scan_stops by (done || lia). cbn. now rewrite Z.add_0_r.
  - cbn [scan_digits]. unfold digit_val. rewrite Hc. assert (48 <= c <= 57) as Hr' by (unfold isdigit, chr_in in Hc; lia).
    destruct (Z.ltb_spec (c - 48) 10); [|lia]. rewrite IH. cbn [length]. unfold digits_value at 2. cbn [foldl]. f_equal. lia.
Qed.

Lemma number_read v r : int32 v -> stops isalnum r -> strtos 32 (num v ++ r) 10 = (v, Z.of_nat (length (num v))).
Proof.
  intros Hv Hr. destruct (num_text v Hv) as (t & Et & Hlen & _ & Hd & Hval). rewrite Et.
  assert (exists c t', t = c :: t' /\ 48 <= c <= 57) as (c & t' & Ec & Hc).
  { destruct t as [|c t']; [cbn in Hlen; lia|]. inversion_clear Hd as [|? ? Hc _]. unfold isdigit, chr_in in Hc. exists c, t'. split; [reflexivity|lia]. }
  pose proof (scan_number t r 0 0 Hd Hr) as Hs. rewrite Z.add_0_l, Hval in Hs.
  assert (forall x, 48 <= x <= 57 -> isspace x = false /\ (x =? 45) = false /\ (x =? 43) = false) as Hx by (intros x H; unfold isspace, chr_in; lia).
  destruct (Hx c Hc) as (Hsp & Hm & Hp). unfold strtos, strto. destruct (Z.ltb_spec v 0) as [Hneg|Hpos]; cbn [app].
  - cbn [count_space]. change (isspace 45) with false. cbv iota. change (Z.to_nat 0) with 0%nat. cbn [drop head default from_option]. change (id 45) with 45. change (45 =? 45) with true. cbn [orb]. cbv iota.
    change (Z.to_nat 1) with 1%nat. cbn [drop]. rewrite ?drop_0.
    assert (hex_prefix 10 (t ++ r) = 0) as -> by (unfold hex_prefix; destruct (t ++ r) as [|? [|? [|? ?]]]; reflexivity).
    change (Z.to_nat 0) with 0%nat. rewrite ?drop_0, Hs. destruct (Z.eqb_spec (Z.of_nat (length t)) 0); [lia|]. cbn [length]. unfold int32 in Hv. f_equal; lia.
  - rewrite Ec in *. cbn [app] in *. cbn [count_space]. rewrite Hsp. change (Z.to_nat 0) with 0%nat. cbn [drop head default from_option]. change (id c) with c. rewrite Hm, Hp. cbn [orb]. cbv iota.
    change (Z.to_nat 0) with 0%nat. rewrite ?drop_0.
    assert (hex_prefix 10 (c :: t' ++ r) = 0) as -> by (unfold hex_prefix; destruct (t' ++ r) as [|? [|? ?]]; reflexivity).
    change (Z.to_nat 0) with 0%nat. rewrite ?drop_0, Hs. destruct (Z.eqb_spec (Z.of_nat (length (c :: t'))) 0) as [E0|]; [cbn in E0; lia|]. unfold int32 in Hv. f_equal; lia.
Qed.

(** The cursor stands before [l], and the closing parenthesis follows. *)
Definition before (post : list Z) (st : lex_state_t) (l : list Z) : Prop :=
  at_ st l /\ drop (Z.to_nat (l_pos st)) mem = l ++ 41 :: post.

Lemma before_app post st a r : before post st (a ++ r) -> before post (adv (Z.of_nat (length a)) st) r.
Proof.
  intros [H Hd]. split; [now apply at_app|]. pose proof (proj1 H). unfold adv, set_pos. cbn [l_pos].
  rewrite Z2Nat.inj_add, Nat2Z.id, <- drop_drop, Hd, <- app_assoc by lia. apply drop_app_length.
Qed.

Lemma before_cons post st c r : before post st (c :: r) -> before post (adv 1 st) r.
Proof. exact (before_app post st [c] r). Qed.

Lemma chr_token ty c st r : at_ st (c :: r) -> lex_chr mem ty c st = (1, mkTok ty (l_pos st) 1, adv 1 st).
Proof. intros H. unfold lex_chr, skipChr. now rewrite (skip_one_at _ st c r H) by apply Z.eqb_refl. Qed.

Lemma chr_missing ty c st r : at_ st r -> stops (fun x => x =? c) r -> exists tok, lex_chr mem ty c st = (0, tok, st).
Proof. intros H Hr. unfold lex_chr, skipChr. rewrite (skip_one_stops _ st r H Hr). now eexists. Qed.

(** The token of the number [v]. *)
Definition reads (tok : scpi_token_t) (v : Z) : Prop :=
  t_type tok = SCPI_TOKEN_DECIMAL_NUMERIC_PROGRAM_DATA /\ exists r, token_string mem tok = num v ++ r /\ stops isalnum r.

Lemma number_reads post st v r :
  before post st (num v ++ r) -> separated r ->
  reads (mkTok SCPI_TOKEN_DECIMAL_NUMERIC_PROGRAM_DATA (l_pos st) (Z.of_nat (length (num v)))) v.
Proof.
  intros [_ Hd] Hr. split; [reflexivity|]. exists (r ++ 41 :: post). unfold token_string. cbn [t_ptr]. split; [rewrite Hd; now rewrite <- app_assoc|].
  destruct r as [|x r]; [reflexivity|]. cbn [separated] in Hr. cbn [app stops]. destruct (separator_cases x Hr) as [->|[->|[->| ->]]]; reflexivity.
Qed.

Lemma param_number tok v old c : memory c = mem -> int32 v -> reads tok v -> SCPI_ParamToInt32 tok old c = Ok (v, c).
Proof.
  intros Hc Hv (Hty & r & Hs & Hr). unfold SCPI_ParamToInt32, ParamSignToUInt32, ParamSignTo. rewrite bind_assoc. erewrite bind_ok by reflexivity.
  rewrite Hty, Hc, Hs, number_read by assumption. erewrite bind_ok by reflexivity. unfold mret, M_ret. do 2 f_equal. cbn [snd]. unfold s32, int32 in *.
  rewrite wrap_add_l, wrap_small by lia. lia.
Qed.

(** The first numbers of a channel go into the array. *)
Fixpoint stored (len i : Z) (ns values : list Z) : list Z :=
  match ns with
  | [] => values
  | n :: ns => stored len (i + 1) ns (if i <? len then <[Z.to_nat i := n]> values else values)
  end.

Lemma stored_none i ns values : 0 <= i -> stored 0 i ns values = values.
Proof.
  revert i. induction ns as [|n ns IH]; intros i Hi; [done|]. cbn [stored]. destruct (Z.ltb_spec i 0); [lia|]. apply IH. lia.
Qed.

Lemma stored_length len i ns values : length (stored len i ns values) = length values.
Proof.
  revert i values. induction ns as [|n ns IH]; intros i values; [done|]. cbn [stored]. rewrite IH. destruct (_ <? _); [apply length_insert|done].
Qed.

Lemma stored_all len i ns values :
  0 <= i -> i + Z.of_nat (length ns) <= len -> len <= Z.of_nat (length values) ->
  stored len i ns values = take (Z.to_nat i) values ++ ns ++ drop (Z.to_nat i + length ns) values.
Proof.
  revert i values. induction ns as [|n ns IH]; intros i values Hi Hlen Hv; cbn [stored length] in *.
  - rewrite Nat.add_0_r. cbn. now rewrite take_drop.
  - destruct (Z.ltb_spec i len); [|lia]. rewrite IH by (rewrite ?length_insert; lia). replace (Z.to_nat (i + 1)) with (S (Z.to_nat i)) by lia.
    rewrite (take_S_r _ _ n) by (rewrite list_lookup_insert_eq by lia; reflexivity). rewrite take_insert_ge by lia. rewrite <- app_assoc. cbn [app].
    rewrite drop_insert_lt by lia. do 4 f_equal. lia.
Qed.

Lemma joined_cons c w ws : joined c (w :: ws) = w ++ match ws with [] => [] | _ => c :: joined c ws end.
Proof. destruct ws; cbn; [now rewrite app_nil_r|reflexivity]. Qed.

(** The digits of a channel, up to the separator after it. *)
Lemma channel_loop_reads post len c fuel ns i values dims st r :
  memory c = mem -> Forall int32 ns -> ns <> [] -> before post st (spec ns ++ r) -> separated r -> stops (fun x => x =? 33) r ->
  0 <= i -> len <= Z.of_nat (length values) -> (length ns <= fuel)%nat ->
  channel_loop fuel i len values dims st c =
    Ok ((SCPI_EXPR_OK, stored len i ns values, i + Z.of_nat (length ns), adv (Z.of_nat (length (spec ns))) st), c).
Proof.
  intros Hc Hns Hne H Hr Hr33 Hi Hlen Hfuel. revert i values dims st fuel H Hi Hlen Hfuel Hne. induction Hns as [|n ns Hn Hns IH]; intros i values dims st fuel H Hi Hlen Hfuel Hne; [done|].
  destruct fuel as [|fuel]; [cbn in Hfuel; lia|]. cbn [channel_loop]. erewrite bind_ok by reflexivity. rewrite Hc.
  unfold spec in *. cbn [map] in *. rewrite joined_cons in *. set (tl := match map num ns with [] => [] | _ => 33 :: joined 33 (map num ns) end) in *.
  rewrite <- app_assoc in H. assert (separated (tl ++ r)) as Hsep by (subst tl; destruct (map num ns); [exact Hr|reflexivity]).
  rewrite (number_token st n (tl ++ r) Hn (proj1 H) Hsep). pose proof (num_text n Hn) as (t & Et & Hl & _).
  assert (truthy (Z.of_nat (length (num n))) = true) as -> by (apply negb_true_iff, Z.eqb_neq; rewrite Et, length_app; lia).
  assert ((if i <? len then v ← SCPI_ParamToInt32 (mkTok SCPI_TOKEN_DECIMAL_NUMERIC_PROGRAM_DATA (l_pos st) (Z.of_nat (length (num n)))) (value_at i values);
             deref OutOfBounds (set_value i v values) else mret values) c =
    Ok (if i <? len then <[Z.to_nat i := n]> values else values, c)) as E.
  { destruct (Z.ltb_spec i len); [|reflexivity]. rewrite (bind_ok _ _ _ _ _ (param_number _ n _ c Hc Hn (number_reads post st n (tl ++ r) H Hsep))).
    unfold set_value. destruct (Z.leb_spec 0 i); [|lia]. destruct (Z.ltb_spec i (Z.of_nat (length values))); [reflexivity|lia]. }
  rewrite (bind_ok _ _ _ _ _ E). clear E. pose proof (before_app _ _ _ _ H) as H1. subst tl. destruct ns as [|n' ns].
  - cbn [map app] in *. rewrite app_nil_r. destruct (chr_missing SCPI_TOKEN_SPECIFIC_CHARACTER 33 _ r (proj1 H1) Hr33) as (tok & Es).
    unfold scpiLex_SpecificCharacter. rewrite Es. reflexivity.
  - cbn [map app] in H1. unfold scpiLex_SpecificCharacter. rewrite (chr_token SCPI_TOKEN_SPECIFIC_CHARACTER 33 _ _ (proj1 H1)). change (truthy 1) with true. cbv iota.
    apply before_cons in H1. rewrite IH; [| |lia|destruct (i <? len); rewrite ?length_insert; lia|cbn in Hfuel |- *; lia|done].
    + rewrite !adv_adv, length_app. cbn [stored length map]. 
      replace (i + 1 + Z.of_nat (S (length ns))) with (i + Z.of_nat (S (S (length ns)))) by lia.
      match goal with |- Ok (_, adv ?a _, _) = Ok (_, adv ?b _, _) => replace a with b by lia end. reflexivity.
    + exact H1.
Qed.

Lemma spec_length ns : Forall int32 ns -> (length ns <= length (spec ns))%nat.
Proof.
  intros H. induction H as [|n ns Hn Hns IH]; [done|]. unfold spec in *. cbn [map]. rewrite joined_cons, length_app.
  pose proof (num_text n Hn) as (t & Et & Hl & _). rewrite Et, length_app. destruct ns; cbn [map length] in *; lia.
Qed.

Lemma channelSpec_reads post len c ns values dims st r :
  memory c = mem -> Forall int32 ns -> ns <> [] -> before post st (spec ns ++ r) -> separated r -> stops (fun x => x =? 33) r -> len <= Z.of_nat (length values) ->
  channelSpec len values dims st c = Ok ((SCPI_EXPR_OK, stored len 0 ns values, Z.of_nat (length ns), adv (Z.of_nat (length (spec ns))) st), c).
Proof.
  intros Hc Hns Hne H Hr Hr33 Hlen. unfold channelSpec. destruct (proj1 H) as (_ & He & _). rewrite length_app in He. pose proof (spec_length ns Hns).
  rewrite (channel_loop_reads post len c _ ns 0 values dims st r) by (try assumption; lia). now rewrite Z.add_0_l.
Qed.

(** What an entry leaves in the arrays. *)
Definition read_entry (len : Z) (e : list Z * option (list Z)) (out : channel_entry) : channel_entry :=
  mkChannel (match snd e with Some _ => true | None => false end) (stored len 0 (fst e) (c_from out))
    (match snd e with Some ms => stored len 0 ms (c_to out) | None => c_to out end) (Z.of_nat (length (fst e))).

Lemma channelRange_reads post len c e out st r :
  memory c = mem -> proper e -> before post st (entry e ++ r) -> r = [] \/ (exists r', r = 44 :: r') ->
  len <= Z.of_nat (length (c_from out)) -> len <= Z.of_nat (length (c_to out)) ->
  channelRange len out st c = Ok ((SCPI_EXPR_OK, read_entry len e out, adv (Z.of_nat (length (entry e))) st), c).
Proof.
  intros Hc (Hne & Hns & Hms) H Hr Hf Ht. destruct e as [ns ms]. unfold entry in *. cbn [fst snd] in *.
  assert (separated r /\ stops (fun x => x =? 33) r /\ stops (fun x => x =? 58) r) as (R1 & R2 & R3) by (destruct Hr as [->|(r' & ->)]; done).
  unfold channelRange. erewrite bind_ok by reflexivity. rewrite <- app_assoc in H. set (tl := match ms with Some ms => 58 :: spec ms | None => [] end ++ r) in *.
  assert (separated tl /\ stops (fun x => x =? 33) tl) as [T1 T2] by (subst tl; destruct ms; [done|now split]).
  rewrite (bind_ok _ _ _ _ _ (channelSpec_reads post len c ns _ 0 st tl Hc Hns Hne H T1 T2 Hf)). rewrite Hc. apply before_app in H. cbn [c_range c_from c_to c_dimensions]. subst tl.
  unfold scpiLex_Colon, read_entry. cbn [fst snd]. destruct ms as [ms|].
  - cbn [app] in H. rewrite (chr_token SCPI_TOKEN_COLON 58 _ _ (proj1 H)). change (truthy 1) with true. cbv iota. apply before_cons in H. destruct Hms as [Hl Hms].
    assert (ms <> []) as Hmne by (destruct ms, ns; done).
    rewrite (bind_ok _ _ _ _ _ (channelSpec_reads post len c ms _ 0 _ r Hc Hms Hmne H R1 R2 Ht)).
    destruct (decide (SCPI_EXPR_OK <> SCPI_EXPR_OK)) as [?|_]; [done|]. rewrite Hl, Z.eqb_refl. cbn [negb]. rewrite !adv_adv, length_app. cbn [length].
    match goal with |- mret (_, _, adv ?a _) _ = Ok (_, _, adv ?b _, _) => replace a with b by lia end. reflexivity.
  - cbn [app] in H. destruct (chr_missing SCPI_TOKEN_COLON 58 _ r (proj1 H) R3) as (tok & ->). rewrite app_nil_r. reflexivity.
Qed.

(** The turns up to the one that stores. *)
Lemma channel_entries_read post len c es k out st :
  memory c = mem -> Forall proper es -> es <> [] -> before post st (joined 44 (map entry es)) ->
  len <= Z.of_nat (length (c_from out)) -> len <= Z.of_nat (length (c_to out)) -> 0 <= len ->
  exists res out' st', channel_entries (S k) len out st c = Ok ((res, out', st'), c) /\
    match es !! k with
    | Some e => res = SCPI_EXPR_OK /\ out' = read_entry len e out
    | None => res = SCPI_EXPR_NO_MORE /\ scpiLex_IsEos st' = true
    end.
Proof.
  intros Hc Hes. revert k out st. induction Hes as [|e es He Hes IH]; intros k out st Hne H Hf Ht Hlen; [done|].
  cbn [map] in H. rewrite joined_cons in H. set (r := match map entry es with [] => [] | _ => 44 :: joined 44 (map entry es) end) in *.
  assert (r = [] \/ exists r', r = 44 :: r') as Hr by (subst r; destruct (map entry es); [now left|right; now eexists]).
  cbn [channel_entries]. erewrite bind_ok by reflexivity. set (n := match k with O => len | S _ => 0 end). assert (0 <= n <= len) as Hn by (subst n; destruct k; lia).
  rewrite (bind_ok _ _ _ _ _ (channelRange_reads post n c e out st r Hc He H Hr ltac:(lia) ltac:(lia))).
  destruct (decide (SCPI_EXPR_OK <> SCPI_EXPR_OK)) as [?|_]; [done|]. destruct k as [|k]; [now eexists _, _, _|].
  apply before_app in H. rewrite Hc. change ((e :: es) !! S k) with (es !! k). unfold scpiLex_Comma. destruct es as [|e' es].
  - destruct (chr_missing SCPI_TOKEN_COMMA 44 _ r (proj1 H) I) as (tok & ->). change (truthy 0) with false. cbv iota.
    unfold scpiLex_IsEos. rewrite (at_nil _ (proj1 H)). eexists _, _, _. split; [reflexivity|]. rewrite lookup_nil. split; [reflexivity|]. exact (at_nil _ (proj1 H)).
  - subst r. cbn [map] in H. rewrite (chr_token SCPI_TOKEN_COMMA 44 _ _ (proj1 H)). change (truthy 1) with true. cbv iota. apply before_cons in H.
    destruct (IH k (read_entry n e out) (adv 1 (adv (Z.of_nat (length (entry e))) st)) ltac:(done) H) as (res & out' & st' & E & Hres).
    + cbn [read_entry c_from]. rewrite stored_length. lia.
    + cbn [read_entry c_to]. destruct (snd e); rewrite ?stored_length; lia.
    + exact Hlen.
    + exists res, out', st'. split; [exact E|]. destruct ((e' :: es) !! k); [|exact Hres]. destruct Hres as [-> ->]. split; [reflexivity|].
      unfold read_entry. cbn [c_from c_to c_range c_dimensions]. subst n. rewrite stored_none by lia. destruct (snd e); [rewrite stored_none by lia|]; reflexivity.
Qed.

(** *** Numeric lists *)

(** A number or a range, as text and as an entry of a channel list. *)
Definition number_entry (e : Z * option Z) : list Z * option (list Z) := ([fst e], (fun w => [w]) <$> snd e).
Definition number_proper (e : Z * option Z) : Prop := int32 (fst e) /\ match snd e with Some w => int32 w | None => True end.

Definition found (e : Z * option Z) (out : list_entry) : Prop :=
  reads (e_from out) (fst e) /\ match snd e with Some w => e_range out = true /\ reads (e_to out) w | None => e_range out = false end.

Lemma numericRange_reads post e out st r :
  number_proper e -> before post st (entry (number_entry e) ++ r) -> r = [] \/ (exists r', r = 44 :: r') ->
  exists out', numericRange mem out st = (SCPI_EXPR_OK, out', adv (Z.of_nat (length (entry (number_entry e)))) st) /\ found e out'.
Proof.
  destruct e as [v w]. intros [Hv Hw] H Hr. unfold entry, number_entry, spec in *. cbn [fst snd map joined] in *. rewrite <- app_assoc in H.
  assert (separated r /\ stops (fun x => x =? 58) r) as (R1 & R2) by (destruct Hr as [->|(r' & ->)]; done).
  set (tl := match (fun w => [w]) <$> w with Some ms => 58 :: joined 33 (map num ms) | None => [] end ++ r) in *.
  assert (separated tl) as T1 by (subst tl; destruct w; [done|exact R1]).
  assert (forall x, int32 x -> truthy (Z.of_nat (length (num x))) = true) as Htr
    by (intros x Hx; pose proof (num_text x Hx) as (t & Et & Hl & _); apply negb_true_iff, Z.eqb_neq; rewrite Et, length_app; lia).
  unfold numericRange. rewrite (number_token st v tl Hv (proj1 H) T1), (Htr v Hv). pose proof (number_reads post st v tl H T1) as Hf. apply before_app in H.
  unfold scpiLex_Colon. subst tl. destruct w as [w|]; cbn [fmap option_fmap option_map map joined app] in *.
  - rewrite (chr_token SCPI_TOKEN_COLON 58 _ _ (proj1 H)). change (truthy 1) with true. cbv iota. apply before_cons in H.
    rewrite (number_token _ w r Hw (proj1 H) R1), (Htr w Hw). eexists. rewrite !adv_adv, length_app. cbn [length]. split.
    + match goal with |- (_, _, adv ?a _) = (_, _, adv ?b _) => replace a with b by lia end. reflexivity.
    + split; [exact Hf|]. split; [reflexivity|]. pose proof (number_reads post _ w r H R1) as Hf2. now rewrite adv_adv in Hf2.
  - destruct (chr_missing SCPI_TOKEN_COLON 58 _ r (proj1 H) R2) as (tok & ->). rewrite app_nil_r. eexists. split; [reflexivity|]. split; [exact Hf|reflexivity].
Qed.

Lemma numeric_loop_reads post es k out st :
  Forall number_proper es -> before post st (joined 44 (map entry (map number_entry es))) -> es <> [] ->
  exists res out' st', numeric_loop mem (S k) out st = (res, out', st') /\
    match es !! k with Some e => res = SCPI_EXPR_OK /\ found e out' | None => res = SCPI_EXPR_NO_MORE end.
Proof.
  intros Hes. revert k out st. induction Hes as [|e es He Hes IH]; intros k out st H Hne; [done|].
  cbn [map] in H. rewrite joined_cons in H. set (r := match map entry (map number_entry es) with [] => [] | _ => 44 :: joined 44 (map entry (map number_entry es)) end) in *.
  assert (r = [] \/ exists r', r = 44 :: r') as Hr by (subst r; destruct (map entry _); [now left|right; now eexists]).
  cbn [numeric_loop]. destruct (numericRange_reads post e out st r He H Hr) as (out' & -> & Hfound).
  destruct (decide (SCPI_EXPR_OK <> SCPI_EXPR_OK)) as [?|_]; [done|]. destruct k as [|k]; [now eexists _, _, _|].
  apply before_app in H. change ((e :: es) !! S k) with (es !! k). unfold scpiLex_Comma. destruct es as [|e' es].
  - destruct (chr_missing SCPI_TOKEN_COMMA 44 _ r (proj1 H) I) as (tok & ->). change (truthy 0) with false. cbv iota.
    unfold scpiLex_IsEos. rewrite (at_nil _ (proj1 H)). eexists _, _, _. split; [reflexivity|]. now rewrite lookup_nil.
  - subst r. cbn [map] in H. rewrite (chr_token SCPI_TOKEN_COMMA 44 _ _ (proj1 H)). change (truthy 1) with true. cbv iota. apply before_cons in H.
    exact (IH k _ _ H ltac:(done)).
Qed.
End Text.

(** The parameter that is [l] in parentheses, [n] bytes into the memory. *)
Definition expression (n : nat) (l : list Z) : scpi_token_t :=
  mkTok SCPI_TOKEN_PROGRAM_EXPRESSION (Z.of_nat n) (Z.of_nat (length l) + 2).

Lemma inside_before mem pre post l :
  mem = pre ++ 40 :: l ++ 41 :: post -> before (mem := mem) post (inside (expression (length pre) l)) l.
Proof.
  intros Hmem. unfold before, at_text, inside, expression, l_end. cbn [l_pos l_buffer l_len t_ptr t_len].
  assert (drop (Z.to_nat (Z.of_nat (length pre) + 1)) mem = l ++ 41 :: post) as E.
  { rewrite Hmem. replace (Z.to_nat (Z.of_nat (length pre) + 1)) with (length pre + 1)%nat by lia. rewrite <- drop_drop, drop_app_length. reflexivity. }
  rewrite E. split; [|reflexivity]. split; [lia|]. split; [lia|]. now rewrite take_app_length.
Qed.

(** A channel list is read as it was written: the entry at an index of a
    list of channels and ranges, written with the library's own integers, is
    found, its numbers stand at the start of the arrays if these are long
    enough, and an index beyond the end finds no more; the context is as
    before. *)
Theorem channel_list_roundtrip c pre post es index len out :
  memory c = pre ++ 40 :: channel_list es ++ 41 :: post -> Forall proper es -> es <> [] -> 0 <= index ->
  0 <= len -> len <= Z.of_nat (length (c_from out)) -> len <= Z.of_nat (length (c_to out)) ->
  Forall (fun e => Z.of_nat (length (fst e)) <= len) es ->
  exists res out', SCPI_ExprChannelListEntry (Some (expression (length pre) (channel_list es)))
      index len (Some out) c = Ok ((res, Some out'), c) /\
    match es !! Z.to_nat index with
    | Some (ns, ms) => res = SCPI_EXPR_OK /\ c_dimensions out' = Z.of_nat (length ns) /\ take (length ns) (c_from out') = ns /\
        match ms with Some ms => c_range out' = true /\ take (length ms) (c_to out') = ms | None => c_range out' = false end
    | None => res = SCPI_EXPR_NO_MORE
    end.
Proof.
  intros Hmem Hes Hne Hi Hlen Hf Ht Hfit. unfold SCPI_ExprChannelListEntry. cbn [t_type]. rewrite bool_decide_eq_true_2 by reflexivity. cbn [negb].
  erewrite bind_ok by reflexivity. pose proof (inside_before (memory c) pre post _ Hmem) as H. set (st := inside _) in *.
  unfold channel_list in H. unfold scpiLex_SpecificCharacter. rewrite (chr_token SCPI_TOKEN_SPECIFIC_CHARACTER 64 st _ (proj1 H)). change (negb (truthy 1)) with false. cbv iota.
  apply before_cons in H. replace (Z.to_nat (index + 1)) with (S (Z.to_nat index)) by lia.
  destruct (channel_entries_read post len c es (Z.to_nat index) out _ eq_refl Hes Hne H Hf Ht Hlen) as (res & out' & st' & E & Hres). rewrite (bind_ok _ _ _ _ _ E).
  destruct (es !! Z.to_nat index) as [[ns ms]|] eqn:Hk.
  - destruct Hres as [-> ->]. do 2 rewrite bool_decide_eq_false_2 by discriminate. cbn [andb when]. erewrite bind_ok by reflexivity.
    eexists _, _. split; [reflexivity|]. split; [reflexivity|]. split; [reflexivity|].
    rewrite Forall_forall in Hes, Hfit. apply list_elem_of_lookup_2 in Hk. specialize (Hfit _ Hk). destruct (Hes _ Hk) as (_ & _ & Hms). cbn [fst snd] in *.
    cbn [read_entry c_from c_to c_range fst snd]. rewrite stored_all by lia. change (Z.to_nat 0) with 0%nat. rewrite take_0, app_nil_l. rewrite take_app_length. split; [reflexivity|]. destruct ms as [ms|]; [|reflexivity].
    split; [reflexivity|]. rewrite stored_all by lia. change (Z.to_nat 0) with 0%nat. rewrite take_0, app_nil_l. now rewrite take_app_length.
  - destruct Hres as [-> Heos]. rewrite (bool_decide_eq_false_2 (SCPI_EXPR_NO_MORE = SCPI_EXPR_ERROR)) by discriminate. rewrite (bool_decide_eq_true_2 (SCPI_EXPR_NO_MORE = SCPI_EXPR_NO_MORE)) by reflexivity. rewrite Heos. cbn [andb negb when].
    erewrite bind_ok by reflexivity. now eexists _, _.
Qed.

(** A numeric list is read as it was written, too; beyond its end nothing is
    assigned. *)
Theorem numeric_list_roundtrip c pre post es index unset isRange valueFrom valueTo :
  let text := joined 44 (map entry (map number_entry es)) in
  memory c = pre ++ 40 :: text ++ 41 :: post -> Forall number_proper es -> es <> [] -> 0 <= index ->
  SCPI_ExprNumericListEntryInt unset (Some (expression (length pre) text)) index isRange valueFrom valueTo c =
    Ok (match es !! Z.to_nat index with
        | Some (v, Some w) => (SCPI_EXPR_OK, true, v, w)
        | Some (v, None) => (SCPI_EXPR_OK, false, v, valueTo)
        | None => (SCPI_EXPR_NO_MORE, isRange, valueFrom, valueTo)
        end, c).
Proof.
  intros text Hmem Hes Hne Hi. unfold SCPI_ExprNumericListEntryInt, SCPI_ExprNumericListEntry. cbn [expression t_type]. rewrite bool_decide_eq_true_2 by reflexivity. cbn [negb].
  rewrite bind_assoc. erewrite bind_ok by reflexivity. replace (Z.to_nat (index + 1)) with (S (Z.to_nat index)) by lia.
  pose proof (inside_before (memory c) pre post text Hmem) as H. fold (expression (length pre) text).
  destruct (numeric_loop_reads post es (Z.to_nat index) (mkEntry false unset unset) _ Hes H Hne) as (res & out' & st' & -> & Hres).
  rewrite Forall_forall in Hes. destruct (es !! Z.to_nat index) as [[v w]|] eqn:Hk.
  - destruct Hres as (-> & Hf & Ht). apply list_elem_of_lookup_2 in Hk. destruct (Hes _ Hk) as [Hv Hw]. cbn [fst snd] in *.
    rewrite bool_decide_eq_false_2 by discriminate. cbn [when]. rewrite bind_assoc. do 2 erewrite bind_ok by reflexivity. cbv beta iota.
    rewrite (bind_ok _ _ _ _ _ (param_number _ v _ c eq_refl Hv Hf)). destruct w as [w|].
    + destruct Ht as [-> Ht]. rewrite (bind_ok _ _ _ _ _ (param_number _ w _ c eq_refl Hw Ht)). reflexivity.
    + rewrite Ht. reflexivity.
  - rewrite Hres, bool_decide_eq_false_2 by discriminate. reflexivity.
Qed.

(** The lists that an entry is looked up in: 1!2:3!4, then 5, then -6!7!8. *)
Definition some_channels : list (list Z * option (list Z)) := [([1; 2], Some [3; 4]); ([5], None); ([-6; 7; 8], None)].
Definition list_context : scpi_t := SCPI_Init None [] [0; 0] 2 (str "ROUT (@1!2:3!4,5,-6!7!8);*OPC?") [].

Lemma channel_list_roundtrip_witness :
  let c := list_context in
  let param := expression 5 (channel_list some_channels) in
  let out := mkChannel false [0; 0; 0] [0; 0; 0] 0 in
  (exists res out', SCPI_ExprChannelListEntry (Some param) 0 3 (Some out) c = Ok ((res, Some out'), c) /\
    res = SCPI_EXPR_OK /\ c_dimensions out' = 2 /\ take 2 (c_from out') = [1; 2] /\ c_range out' = true /\ take 2 (c_to out') = [3; 4]) /\
  (exists res out', SCPI_ExprChannelListEntry (Some param) 3 3 (Some out) c = Ok ((res, Some out'), c) /\ res = SCPI_EXPR_NO_MORE).
Proof.
  assert (Forall proper some_channels) as Hp by (unfold some_channels, proper; repeat constructor; (discriminate || (intros; discriminate))).
  split.
  - exact (channel_list_roundtrip list_context (str "ROUT ") (str ";*OPC?") some_channels 0 3 (mkChannel false [0; 0; 0] [0; 0; 0] 0) eq_refl Hp ltac:(discriminate) ltac:(lia) ltac:(lia) ltac:(cbn; lia) ltac:(cbn; lia)
      ltac:(repeat constructor; cbn; lia)).
  - exact (channel_list_roundtrip list_context (str "ROUT ") (str ";*OPC?") some_channels 3 3 (mkChannel false [0; 0; 0] [0; 0; 0] 0) eq_refl Hp ltac:(discriminate) ltac:(lia) ltac:(lia) ltac:(cbn; lia) ltac:(cbn; lia)
      ltac:(repeat constructor; cbn; lia)).
Defined.
