(* ===== verification/ScpiCommon.v ===== *)
(** * ScpiCommon: the common commands

    The handlers of libscpi's ieee488.c and minimal.c, each a command of the
    firmware's table or ready to be one.  What the query of the error queue
    replies is shown in ScpiReply. *)

From Stdlib Require Import ZArith Lia String.
From stdpp Require Import base numbers list.
From S2P Require Import Prelude ScpiFifo Lexer ScpiCore ScpiMatch ScpiNumber ScpiParser.

(** ** IEEE 488.2 *)

Definition core (f : scpi_t -> scpi_t) : M scpi_t Z := modify f;; mret SCPI_RES_OK.

(** Handlers of [*CLS], [*OPC] and [STATus:PRESet]. *)
Definition SCPI_CoreCls_cmd : M scpi_t Z := core SCPI_CoreCls.
Definition SCPI_CoreOpc_cmd : M scpi_t Z := core SCPI_CoreOpc.
Definition SCPI_StatusPreset_cmd : M scpi_t Z := core SCPI_StatusPreset.

(** The parameter as [scpi_reg_val_t]. *)
Definition set_reg_param (name : scpi_reg_name_t) (fail : Z) : M scpi_t Z :=
  r ← SCPI_ParamInt32 true;
  match r with
  | (true, v) => modify (fun c => SCPI_RegSet c name (u16 (default 0 v)));; mret SCPI_RES_OK
  | (false, _) => mret fail
  end.

Definition reg_query (name : scpi_reg_name_t) : M scpi_t Z :=
  v ← gets (fun c => SCPI_RegGet c name);
  SCPI_ResultInt32 v;; mret SCPI_RES_OK.

Definition SCPI_CoreEse : M scpi_t Z := set_reg_param SCPI_REG_ESE SCPI_RES_ERR.
Definition SCPI_CoreEseQ : M scpi_t Z := reg_query SCPI_REG_ESE.
Definition SCPI_CoreEsrQ : M scpi_t Z :=
  v ← gets (fun c => SCPI_RegGet c SCPI_REG_ESR);
  SCPI_ResultInt32 v;;
  modify (fun c => SCPI_RegSet c SCPI_REG_ESR 0);;
  mret SCPI_RES_OK.

Definition SCPI_ResultMnemonic (d : list Z) : M scpi_t Z := SCPI_ResultCharacters d.

Definition SCPI_CoreIdnQ : M scpi_t Z :=
  ids ← gets idn;
  for_each (seq 0 4) (fun i =>
    match ids !! i with
    | Some (Some s) => SCPI_ResultMnemonic s;; mret tt
    | _ => SCPI_ResultMnemonic (str "0");; mret tt
    end);;
  mret SCPI_RES_OK.

Definition SCPI_CoreOpcQ : M scpi_t Z := SCPI_ResultInt32 1;; mret SCPI_RES_OK.

Definition SCPI_CoreRst : M scpi_t Z :=
  i ← gets interface;
  match i with
  | Some i =>
      match if_reset i with
      | Some f => out ← gets sink; let '(r, out) := f out in modify (with_sink out);; mret r
      | None => mret SCPI_RES_OK
      end
  | None => mret SCPI_RES_OK
  end.

Definition SCPI_CoreSre : M scpi_t Z := set_reg_param SCPI_REG_SRE SCPI_RES_ERR.
Definition SCPI_CoreSreQ : M scpi_t Z := reg_query SCPI_REG_SRE.
Definition SCPI_CoreStbQ : M scpi_t Z := reg_query SCPI_REG_STB.
Definition SCPI_CoreTstQ : M scpi_t Z := SCPI_ResultInt32 0;; mret SCPI_RES_OK.
Definition SCPI_CoreWai : M scpi_t Z := mret SCPI_RES_OK.

(** ** The commands SCPI requires *)

Definition SCPI_Stub : M scpi_t Z := mret SCPI_RES_OK.
Definition SCPI_StubQ : M scpi_t Z := SCPI_ResultInt32 0;; mret SCPI_RES_OK.

Definition SCPI_STD_VERSION_REVISION : list Z := str "1999.0".
Definition SCPI_SystemVersionQ : M scpi_t Z :=
  SCPI_ResultMnemonic SCPI_STD_VERSION_REVISION;; mret SCPI_RES_OK.

Definition SCPI_SystemErrorNextQ : M scpi_t Z :=
  error ← (fun c => let '(e, c) := SCPI_ErrorPop c in Ok (e, c));
  SCPI_ResultError error;; mret SCPI_RES_OK.

Definition SCPI_SystemErrorCountQ : M scpi_t Z :=
  n ← gets SCPI_ErrorCount;
  SCPI_ResultInt32 n;; mret SCPI_RES_OK.

Definition SCPI_StatusQuestionableEventQ : M scpi_t Z :=
  v ← gets (fun c => SCPI_RegGet c SCPI_REG_QUES);
  SCPI_ResultInt32 v;;
  modify (fun c => SCPI_RegSet c SCPI_REG_QUES 0);;
  mret SCPI_RES_OK.
Definition SCPI_StatusQuestionableEnableQ : M scpi_t Z := reg_query SCPI_REG_QUESE.
Definition SCPI_StatusQuestionableEnable : M scpi_t Z := set_reg_param SCPI_REG_QUESE SCPI_RES_OK.

(** ** The handlers end *)

Lemma core_ends f : ends (core f).
Proof. unfold core. ending. Qed.
