(* ===== verification/ScpiReply.v ===== *)
(** * ScpiReply: what the client reads

    The replies of libscpi's parser.c, written through an interface that
    sends every byte (as the firmware's does), and read back by the library's
    own recognisers: numbers, quoted texts, blocks, and the error queue. *)

From Stdlib Require Import ZArith Lia String.
From stdpp Require Import base numbers list.
From S2P Require Import Prelude ScpiFifo Lexer ScpiCore ScpiMatch ScpiNumber ScpiParser ScpiCommon.
#[local] Open Scope c_scope.

(** ** Bytes sent *)

Definition said (d : list Z) (c : scpi_t) : scpi_t := with_sink (sink c ++ d) c.
Definition counted (c : scpi_t) : scpi_t := with_output_count (output_count c + 1) c.
Definition delimiter (c : scpi_t) : list Z := if 0 <? output_count c then str "," else [].

(** The interface sends every byte it is given. *)
Class Sends (c : scpi_t) : Prop :=
  sends : exists i, interface c = Some i /\
    forall d out, if_write i d out = (Z.of_nat (length d), out ++ d).

#[export] Instance said_sends d c : Sends c -> Sends (said d c).
Proof. done. Qed.
#[export] Instance counted_sends c : Sends c -> Sends (counted c).
Proof. done. Qed.
#[export] Instance reminding_sends v c : Sends c -> Sends (with_arbitrary_reminding v c).
Proof. done. Qed.

Lemma said_said a b c : said b (said a c) = said (a ++ b) c.
Proof. unfold said, with_sink. cbn. now rewrite app_assoc. Qed.

Lemma said_nil c : said [] c = c.
Proof. unfold said, with_sink. rewrite app_nil_r. now destruct c. Qed.

(** [m] sends [d] and does nothing else. *)
Definition says (d : list Z) (m : M scpi_t Z) : Prop :=
  forall c, Sends c -> m c = Ok (Z.of_nat (length d), said d c).

Lemma writeData_says d : says d (writeData d).
Proof.
  intros c (i & Hi & Hw). unfold writeData. destruct (Z.ltb_spec 0 (Z.of_nat (length d))) as [H|H].
  - erewrite bind_ok by reflexivity. rewrite Hi. erewrite bind_ok by reflexivity. erewrite bind_ok by reflexivity.
    now rewrite Hw.
  - assert (d = []) as -> by (apply nil_length_inv; lia). now rewrite said_nil.
Qed.

Lemma writeDelimiter_says c :
  Sends c -> writeDelimiter c = Ok (Z.of_nat (length (delimiter c)), said (delimiter c) c).
Proof.
  intros Hc. unfold writeDelimiter, delimiter. erewrite bind_ok by reflexivity.
  destruct (0 <? output_count c); [now apply writeData_says|now rewrite said_nil].
Qed.

Lemma result_base_says text c :
  Sends c -> result_base (Some text) 10 c =
    Ok (Z.of_nat (length (delimiter c ++ text)), counted (said (delimiter c ++ text) c)).
Proof.
  intros Hc. unfold result_base. erewrite bind_ok by reflexivity.
  rewrite (bind_ok _ _ _ _ _ (writeDelimiter_says c Hc)). erewrite bind_ok by reflexivity.
  rewrite (bind_ok _ _ _ _ _ (writeData_says text _ (said_sends _ _ Hc))). erewrite bind_ok by reflexivity.
  rewrite said_said, length_app, Nat2Z.inj_add, Z.add_0_r. reflexivity.
Qed.

Lemma ResultInt32_says v c :
  Sends c -> - 2 ^ 31 <= v < 2 ^ 31 ->
  exists text, decimal_text v text /\
    SCPI_ResultInt32 v c = Ok (Z.of_nat (length (delimiter c ++ text)), counted (said (delimiter c ++ text) c)).
Proof.
  intros Hc Hv. destruct (int32_decimal v 33 Hv ltac:(lia)) as (text & E & Ht). exists text. split; [done|].
  unfold SCPI_ResultInt32, resultUInt32BaseSign. rewrite E. now apply result_base_says.
Qed.

(** ** Texts *)

Lemma strnpbrk_quote d :
  Forall (fun c => c <> 0) d ->
  match strnpbrk d (Z.of_nat (length d)) [34] with
  | Some i => exists a b, d = a ++ 34 :: b /\ Forall (fun c => c <> 34) a /\ i = Z.of_nat (length a)
  | None => Forall (fun c => c <> 34) d
  end.
Proof.
  induction 1 as [|c d Hc Hd IH]; [constructor|]. cbn [strnpbrk existsb].
  destruct (Z.eqb_spec (Z.of_nat (length (c :: d))) 0) as [E|_]; [done|].
  destruct (Z.eqb_spec c 0) as [E|_]; [done|]. rewrite orb_false_r.
  destruct (Z.eqb_spec c 34) as [->|Hne]; [now exists [], d|].
  replace (Z.of_nat (length (c :: d)) - 1) with (Z.of_nat (length d)) by (cbn [length]; lia).
  destruct (strnpbrk d _ [34]) as [i|]; [|now constructor].
  destruct IH as (a & b & -> & Ha & ->). exists (c :: a), b. split; [done|]. split; [now constructor|]. cbn [length]. lia.
Qed.

Lemma escape_plain q a : Forall (fun c => c <> q) a -> escape q a = a.
Proof.
  induction 1 as [|c a Hc Ha IH]; [done|]. cbn [escape flat_map]. fold (escape q a).
  rewrite (proj2 (Z.eqb_neq _ _) Hc), IH. done.
Qed.

Lemma escape_app q a b : escape q (a ++ b) = escape q a ++ escape q b.
Proof. apply flat_map_app. Qed.

Lemma text_loop_says fuel d :
  Forall (fun c => c <> 0) d -> (length d < fuel)%nat -> says (escape 34 d) (text_loop fuel d).
Proof.
  revert d. induction fuel as [|fuel IH]; intros d Hd Hf c Hc; [lia|]. cbn [text_loop].
  pose proof (strnpbrk_quote d Hd) as Hs. destruct (strnpbrk d _ [34]) as [i|].
  - destruct Hs as (a & b & -> & Ha & ->). replace (Z.to_nat (Z.of_nat (length a) + 1)) with (length (a ++ [34]))
      by (rewrite length_app; cbn; lia).
    change (a ++ 34 :: b) with (a ++ [34] ++ b) in *. rewrite app_assoc, take_app_length, drop_app_length.
    apply Forall_app in Hd as [_ [_ Hb]%Forall_cons].
    rewrite (bind_ok _ _ _ _ _ (writeData_says (a ++ [34]) c Hc)).
    rewrite (bind_ok _ _ _ _ _ (writeData_says [34] _ (said_sends _ _ Hc))).
    rewrite (bind_ok _ _ _ _ _ (IH b Hb ltac:(rewrite !length_app in Hf; cbn in Hf; lia) _ (said_sends _ _ (said_sends _ _ Hc)))).
    rewrite !said_said, !escape_app, (escape_plain 34 a Ha). unfold mret, M_ret. cbn [escape flat_map Z.eqb Pos.eqb app].
    rewrite <- !app_assoc. cbn [app]. do 2 f_equal. rewrite !length_app. cbn [length]. lia.
  - rewrite (escape_plain 34 d Hs). now apply writeData_says.
Qed.

Lemma ResultText_says d c :
  Sends c -> Forall (fun c => c <> 0) d ->
  SCPI_ResultText d c =
    Ok (Z.of_nat (length (delimiter c ++ quoted 34 d)), counted (said (delimiter c ++ quoted 34 d) c)).
Proof.
  intros Hc Hd. unfold SCPI_ResultText, quoted. rewrite (bind_ok _ _ _ _ _ (writeDelimiter_says c Hc)).
  rewrite (bind_ok _ _ _ _ _ (writeData_says [34] _ (said_sends _ _ Hc))).
  rewrite (bind_ok _ _ _ _ _ (text_loop_says (S (length d)) d Hd ltac:(lia) _ (said_sends _ _ (said_sends _ _ Hc)))).
  rewrite !said_said. erewrite bind_ok by (apply writeData_says; exact (said_sends _ _ Hc)).
  erewrite bind_ok by reflexivity. rewrite said_said. unfold mret, M_ret. rewrite <- !app_assoc. cbn [app].
  do 2 f_equal. rewrite !length_app. cbn [length]. rewrite !length_app. cbn [length]. lia.
Qed.

(** Reading drops the quotes around the text and every second one inside. *)
Lemma copy_loop_text fuel q d pre post room :
  (length (escape q d) < fuel)%nat -> Z.of_nat (length pre) + Z.of_nat (length (escape q d)) <= room ->
  length post = 1%nat ->
  copy_loop fuel (pre ++ escape q d ++ post) q room (Z.of_nat (length pre)) = d.
Proof.
  revert fuel pre. induction d as [|c d IH]; intros fuel pre Hf Hr Hpost; (destruct fuel as [|fuel]; [lia|]);
    cbn [copy_loop]; rewrite !length_app, Hpost.
  - cbn [escape flat_map length]. destruct (Z.ltb_spec (Z.of_nat (length pre)) (Z.of_nat (length pre + (0 + 1)) - 1)); [lia|done].
  - cbn [escape flat_map] in *. fold (escape q d) in *.
    set (e := if c =? q then [q; q] else [c]) in *.
    assert ((e ++ escape q d ++ post) !! 0%nat = Some c /\ (1 <= length e <= 2)%nat /\
            (if c =? q then 2 else 1) = Z.of_nat (length e)) as (Hhd & Hle & Hstep)
      by (unfold e; destruct (Z.eqb_spec c q) as [->|]; cbn; split_and!; (done || lia)).
    rewrite length_app in Hf, Hr |- *.
    destruct (Z.ltb_spec (Z.of_nat (length pre)) (Z.of_nat (length pre + (length e + length (escape q d) + 1)) - 1)); [|lia].
    destruct (Z.leb_spec room (Z.of_nat (length pre))); [lia|].
    rewrite Nat2Z.id, <- (app_assoc e), lookup_app_r, Nat.sub_diag, Hhd by lia. cbn [default]. f_equal.
    replace (if c =? q then _ else _) with (Z.of_nat (length (pre ++ e)))
      by (rewrite length_app; destruct (c =? q); lia).
    rewrite app_assoc. apply IH; [lia| |done]. rewrite length_app. lia.
Qed.

(** ** Blocks *)

Definition block (d : list Z) (head : list Z) : list Z := 35 :: (48 + Z.of_nat (length head)) :: head ++ d.

Lemma ResultArbitraryBlock_says d c :
  Sends c -> Z.of_nat (length d) < 10 ^ 9 ->
  exists head, (1 <= length head <= 9)%nat /\ Forall (fun c => isdigit c = true) head /\
    digits_value head 0 = Z.of_nat (length d) /\
    SCPI_ResultArbitraryBlock d c =
      Ok (Z.of_nat (length (block d head)), with_arbitrary_reminding 0 (counted (said (block d head) c))).
Proof.
  intros Hc Hn. destruct (uint32_decimal (Z.of_nat (length d)) 10 ltac:(lia) ltac:(lia)) as (head & E & t & Et & Hl & Hlo & Hd & Hv).
  rewrite (proj2 (Z.ltb_ge _ _)) in Et by lia. cbn [app] in Et. subst head. rewrite Z.abs_eq in * by lia.
  assert (length t <= 9)%nat as Hl9.
  { destruct (decide (length t = 10%nat)) as [E10|]; [rewrite E10 in Hlo; change (10 ^ (Z.of_nat 10 - 1)) with (10 ^ 9) in Hlo; lia|lia]. }
  exists t. split_and!; try done; [lia|].
  unfold SCPI_ResultArbitraryBlock, SCPI_ResultArbitraryBlockHeader, SCPI_ResultArbitraryBlockData.
  rewrite (wrap_small 32) by lia. rewrite E. rewrite bind_assoc.
  erewrite bind_ok by reflexivity. rewrite bind_assoc. erewrite bind_ok by reflexivity.
  rewrite (bind_ok _ _ _ _ _ (writeData_says _ _ (reminding_sends _ _ Hc))).
  set (c1 := said _ _). assert (arbitrary_reminding c1 = Z.of_nat (length d)) as Hr by reflexivity.
  rewrite bind_assoc. rewrite (bind_ok _ _ c1 (Z.of_nat (length d)) c1) by (unfold gets; now rewrite Hr).
  destruct (Z.ltb_spec (Z.of_nat (length d)) (Z.of_nat (length d))); [lia|]. rewrite Z.sub_diag. cbn [Z.eqb].
  rewrite !bind_assoc. erewrite bind_ok by reflexivity. rewrite !bind_assoc. erewrite bind_ok by reflexivity.
  erewrite bind_ok by (apply writeData_says; apply counted_sends, reminding_sends, said_sends, reminding_sends, Hc).
  unfold mret, M_ret, c1, block. do 2 f_equal.
  - cbn [length]. rewrite !length_app. lia.
  - unfold said, counted, with_sink, with_arbitrary_reminding, with_output_count. cbn.
    rewrite (Z.add_comm (Z.of_nat _)), <- app_assoc. reflexivity.
Qed.

(** ** Round trips *)

Lemma at_prefix mem st d r : at_text mem st (d ++ r) -> take (length d) (drop (Z.to_nat (l_pos st)) mem) = d.
Proof.
  intros (_ & _ & H). apply (f_equal (take (length d))) in H.
  rewrite take_take, length_app, Nat.min_l, take_app_length in H by lia. exact H.
Qed.

(** A context whose interface sends what it is given. *)
Definition reply_client : scpi_t :=
  SCPI_Init (Some (mkIface None (fun d out => (Z.of_nat (length d), out ++ d)) None None None))
    [] [0; 0] 2 [] [].

(** a text reply is the text in quotes, each quote in it doubled, after
    a comma if it is not the first reply of the line.  Whoever reads it with
    the library's own recogniser of strings finds one token, the reply and
    nothing of what follows; and copying the parameter out of that token
    with room for it gives the text back. *)
Theorem text_reply_roundtrip d c mem st r room :
  Sends c -> Forall (fun c => 1 <= c <= 127) d -> stops (fun c => c =? 34) r ->
  Z.of_nat (length (escape 34 d)) < room ->
  exists reply, SCPI_ResultText d c =
      Ok (Z.of_nat (length (delimiter c ++ reply)), counted (said (delimiter c ++ reply) c)) /\
    let n := Z.of_nat (length reply) in
    (at_text mem st (reply ++ r) ->
     scpiLex_StringProgramData mem st = (n, mkTok SCPI_TOKEN_DOUBLE_QUOTE_PROGRAM_DATA (l_pos st) n, adv n st)) /\
    copy_loop (length reply) reply 34 room 1 = d.
Proof.
  intros Hc Hd Hr Hroom. exists (quoted 34 d). split.
  - apply ResultText_says; [done|]. eapply Forall_impl; [exact Hd|]. cbv beta. lia.
  - cbv zeta. split.
    + apply string_token; [now left| |done]. eapply Forall_impl; [exact Hd|]. cbv beta. intros x Hx.
      unfold isascii7bit, chr_in. apply andb_true_iff. rewrite !Z.leb_le. lia.
    + apply (copy_loop_text _ 34 d [34] [34]); [|cbn [length]; lia|done].
      unfold quoted. cbn [length]. rewrite length_app. lia.
Qed.

Lemma text_reply_roundtrip_witness :
  let d := str "a" ++ [34] ++ str "b" in
  let c := reply_client in
  let mem := quoted 34 d ++ str ";" in
  (Sends c /\ Forall (fun c => 1 <= c <= 127) d /\ stops (fun c => c =? 34) (str ";") /\
   Z.of_nat (length (escape 34 d)) < 10) /\
  exists reply, SCPI_ResultText d c =
      Ok (Z.of_nat (length (delimiter c ++ reply)), counted (said (delimiter c ++ reply) c)) /\
    let n := Z.of_nat (length reply) in
    (at_text mem (line mem) (reply ++ str ";") ->
     scpiLex_StringProgramData mem (line mem) =
       (n, mkTok SCPI_TOKEN_DOUBLE_QUOTE_PROGRAM_DATA (l_pos (line mem)) n, adv n (line mem))) /\
    copy_loop (length reply) reply 34 10 1 = d.
Proof.
  intros d c mem.
  assert (Sends c) as H1 by (eexists; split; [reflexivity|done]).
  assert (Forall (fun c => 1 <= c <= 127) d) as H2 by (unfold d; cbn; repeat (constructor; [lia|]); constructor).
  split; [split_and!; try done; cbn; lia|].
  apply (text_reply_roundtrip d c mem (line mem) (str ";") 10); done.
Defined.

(** C40: a block reply of fewer than a thousand million bytes announces its
    length: its header says how many digits
    and how many bytes follow.  The recogniser of blocks finds those bytes
    and no others, whatever they are and whatever follows, and the context
    is owed nothing more. *)
Theorem block_reply_roundtrip d c mem st r :
  Sends c -> Z.of_nat (length d) < 10 ^ 9 ->
  exists h, SCPI_ResultArbitraryBlock d c =
      Ok (Z.of_nat (length (h ++ d)), with_arbitrary_reminding 0 (counted (said (h ++ d) c))) /\
    (at_text mem st ((h ++ d) ++ r) ->
     let n := Z.of_nat (length d) in let k := Z.of_nat (length h) in
     scpiLex_ArbitraryBlockProgramData mem st =
       (k + n, mkTok SCPI_TOKEN_ARBITRARY_BLOCK_PROGRAM_DATA (l_pos st + k) n, adv (k + n) st) /\
     take (length d) (drop (Z.to_nat (l_pos st + k)) mem) = d).
Proof.
  intros Hc Hn. destruct (ResultArbitraryBlock_says d c Hc Hn) as (head & Hl & Hd & Hv & E).
  exists (35 :: (48 + Z.of_nat (length head)) :: head). split; [exact E|].
  intros Hat n k. split.
  - assert (at_text mem st (35 :: (48 + Z.of_nat (length head)) :: head ++ (d ++ r))) as H1 by (rewrite app_assoc; exact Hat).
    rewrite (block_token st head (d ++ r) Hl Hd H1), Hv. fold n.
    replace (2 + Z.of_nat (length head)) with k by (unfold k; cbn [length]; lia). reflexivity.
  - rewrite <- app_assoc in Hat. pose proof (at_app _ _ _ Hat) as H2. fold k in H2.
    apply (at_prefix mem _ d r H2).
Qed.

Lemma block_reply_roundtrip_witness :
  let d := [35; 0; 255; 10] in
  let mem := str "#14" ++ d ++ str ";" in
  (Sends reply_client /\ Z.of_nat (length d) < 10 ^ 9) /\
  exists h, SCPI_ResultArbitraryBlock d reply_client =
      Ok (Z.of_nat (length (h ++ d)), with_arbitrary_reminding 0 (counted (said (h ++ d) reply_client))) /\
    (at_text mem (line mem) ((h ++ d) ++ str ";") ->
     let n := Z.of_nat (length d) in let k := Z.of_nat (length h) in
     scpiLex_ArbitraryBlockProgramData mem (line mem) =
       (k + n, mkTok SCPI_TOKEN_ARBITRARY_BLOCK_PROGRAM_DATA (l_pos (line mem) + k) n, adv (k + n) (line mem)) /\
     take (length d) (drop (Z.to_nat (l_pos (line mem) + k)) mem) = d).
Proof.
  intros d mem. assert (Sends reply_client) as H1 by (eexists; split; [reflexivity|done]).
  split; [split; [done|reflexivity]|]. now apply (block_reply_roundtrip d reply_client mem (line mem) (str ";")).
Defined.

(** ** The error queue *)

Lemma RegSet_sink depth c name v i :
  interface c = Some i -> if_control i = None ->
  sink (RegSet depth c name v) = sink c /\ interface (RegSet depth c name v) = Some i.
Proof.
  intros Hi Hn. revert c name v Hi. induction depth as [|depth IH]; intros c name v Hi; [done|].
  assert (forall c ctrl v, interface c = Some i -> snd (writeControl c ctrl v) = c) as Hctl.
  { intros c0 ctrl v0 H0. unfold writeControl. now rewrite H0, Hn. }
  cbn [RegSet]. destruct (decide (name = SCPI_REG_COUNT)); [done|].
  assert (forall n x, sink (RegSet depth (put_reg name v c) n x) = sink c /\
                      interface (RegSet depth (put_reg name v c) n x) = Some i) as Hrec by (intros; exact (IH (put_reg name v c) _ _ Hi)).
  destruct name; repeat match goal with |- context [if ?b then _ else _] => destruct b end;
    rewrite ?Hctl; try (split; [done|exact Hi]); try exact Hi; try apply Hrec.
Qed.

(** Taking the last code out of the queue tells the client so: the error
    callback is called with 0. *)
Lemma ErrorPop_says c i f :
  status_ok c -> interface c = Some i -> if_control i = None -> if_error i = Some f ->
  let c1 := snd (SCPI_ErrorPop c) in
  interface c1 = Some i /\ output_count c1 = output_count c /\
  sink c1 = if SCPI_ErrorCount c =? 1 then snd (f 0 (sink c)) else sink c.
Proof.
  intros H Hi Hn Hf c1. unfold c1, SCPI_ErrorPop.
  destruct (fifo_remove_queue _ (so_queue _ H)) as (ok & r & q' & Er & Hwf & Hle & Hr & Hc).
  rewrite Er. cbn [snd]. pose proof (so_queue _ H) as Hq.
  assert (0 <= count q') as H0 by apply Hwf. pose proof (wf_count _ Hq) as Hcount.
  assert (count q' = Z.max 0 (count (error_queue c) - 1)) as Hnew.
  { pose proof (length_contents q' H0) as L1. pose proof (length_contents (error_queue c) ltac:(lia)) as L2.
    rewrite Hc in L1. destruct (contents (error_queue c)) as [|x l]; cbn [tail length] in *; lia. }
  assert (truthy (SCPI_RegGet c SCPI_REG_STB &&& STB_QMA) = (0 <? SCPI_ErrorCount c)) as Hbit.
  { destruct H as [H8 _ Hs]. destruct (eight_inv _ H8) as (stb & sre & esr & ese & oper & opere & ques & quese & E).
    rewrite (RegGet_registers c SCPI_REG_STB _ E) by done. rewrite E in Hs. apply Hs. }
  unfold SCPI_ErrorEmitEmpty. set (cq := with_error_queue q' c).
  change (SCPI_RegGet cq SCPI_REG_STB) with (SCPI_RegGet c SCPI_REG_STB). rewrite Hbit.
  change (SCPI_ErrorCount cq) with (count q'). change (SCPI_ErrorCount c) with (count (error_queue c)) in *.
  destruct (Z.eqb_spec (count (error_queue c)) 1) as [E1|E1].
  - rewrite E1 in *. replace (count q') with 0 by lia. cbn [Z.eqb andb Z.ltb Z.compare].
    unfold SCPI_RegClearBits, SCPI_RegSet.
    destruct (RegSet_sink 3 cq SCPI_REG_STB (Z.ldiff (SCPI_RegGet cq SCPI_REG_STB) STB_QMA) i Hi Hn) as [Hs1 Hi1].
    destruct (SCPI_RegSet_spec cq SCPI_REG_STB (Z.ldiff (SCPI_RegGet cq SCPI_REG_STB) STB_QMA) (so_eight _ H)) as [_ Hsame].
    unfold interface_error. rewrite Hi1, Hf. cbn [interface output_count sink with_sink]. rewrite Hs1, Hi1.
    split_and!; [done|apply Hsame|done].
  - replace ((count q' =? 0) && (0 <? count (error_queue c))) with false; [done|].
    symmetry. apply andb_false_iff. rewrite Z.eqb_neq, Z.ltb_ge. lia.
Qed.

Lemma ResultError_says e c :
  Sends c -> 0 <= output_count c -> - (2 ^ 15) <= e < 2 ^ 15 ->
  exists text, decimal_text e text /\
    let reply := delimiter c ++ text ++ str "," ++ [34] ++ SCPI_ErrorTranslate e ++ [34] in
    SCPI_ResultError e c = Ok (Z.of_nat (length reply), counted (said reply c)).
Proof.
  intros Hc Hn He. destruct (ResultInt32_says e c Hc ltac:(lia)) as (text & Ht & E1). exists text. split; [done|].
  cbv zeta. unfold SCPI_ResultError. rewrite (bind_ok _ _ _ _ _ E1). set (c1 := counted _).
  assert (Sends c1) as Hc1 by exact Hc.
  assert (SCPI_STD_ERROR_DESC_MAX_STRING_LENGTH <? Z.of_nat (length (SCPI_ErrorTranslate e)) = false) as ->.
  { apply Z.ltb_ge. unfold SCPI_ErrorTranslate, SCPI_STD_ERROR_DESC_MAX_STRING_LENGTH.
    repeat case_match; vm_compute; discriminate. }
  assert (delimiter c1 = str ",") as Hd.
  { unfold delimiter. change (output_count c1) with (output_count c + 1).
    destruct (Z.ltb_spec 0 (output_count c + 1)); [done|lia]. }
  rewrite (bind_ok _ _ _ _ _ (writeDelimiter_says c1 Hc1)), Hd.
  do 2 (erewrite bind_ok by (apply writeData_says; exact Hc1)).
  erewrite bind_ok by (apply writeData_says; exact Hc1). unfold mret, M_ret. do 2 f_equal.
  - rewrite !length_app. cbn [length]. lia.
  - rewrite !said_said. unfold c1, said, counted, with_sink, with_output_count. cbn. rewrite <- !app_assoc. reflexivity.
Qed.

(** [SYSTem:ERRor?] takes the oldest code out of the queue, 0 if there is
    none, and replies with its number and its description in quotes.  The
    other codes stay, in their order, and the status byte stays right.
    Taking the last code also calls the error callback, with 0: what that
    sends comes before the reply. *)
Theorem error_query c i f :
  status_ok c -> Sends c -> interface c = Some i -> if_control i = None -> if_error i = Some f ->
  0 <= output_count c -> Forall (fun e => - (2 ^ 15) <= e < 2 ^ 15) (contents (error_queue c)) ->
  let e := default 0 (head (contents (error_queue c))) in
  let told := if SCPI_ErrorCount c =? 1 then snd (f 0 (sink c)) else sink c in
  exists text c', SCPI_SystemErrorNextQ c = Ok (SCPI_RES_OK, c') /\ decimal_text e text /\
    sink c' = told ++ delimiter c ++ text ++ str "," ++ [34] ++ SCPI_ErrorTranslate e ++ [34] /\
    contents (error_queue c') = tail (contents (error_queue c)) /\ status_ok c'.
Proof.
  intros H Hs Hi Hn Hf Ho Hr e told.
  destruct (ErrorPop_spec c H) as (c1 & E1 & Hok & Hc1). destruct (ErrorPop_says c i f H Hi Hn Hf) as (Hi1 & Ho1 & Hs1).
  rewrite E1 in Hi1, Ho1, Hs1. cbn [snd] in *. fold told in Hs1.
  assert (Sends c1) as Hsend by (destruct Hs as (i' & Hi' & Hw); exists i'; split; [congruence|done]).
  assert (- (2 ^ 15) <= e < 2 ^ 15) as He.
  { unfold e. destruct (contents (error_queue c)) as [|x l]; [cbn; lia|]. now apply Forall_cons in Hr as [? _]. }
  destruct (ResultError_says e c1 Hsend ltac:(lia) He) as (text & Ht & E2).
  set (reply := delimiter c1 ++ _) in E2. exists text, (counted (said reply c1)).
  split; [|split; [done|split]].
  - unfold SCPI_SystemErrorNextQ. rewrite (bind_ok _ _ c e c1) by (now rewrite E1). now rewrite (bind_ok _ _ _ _ _ E2).
  - cbn [sink counted said with_sink with_output_count]. unfold reply, delimiter. now rewrite Hs1, Ho1.
  - split; [exact Hc1|]. destruct Hok as [H1 H2 H3]. now split.
Qed.

Definition error_client : scpi_t :=
  SCPI_ErrorPush
    (SCPI_Init (Some (mkIface (Some (fun e out => (0, out ++ [e])))
                        (fun d out => (Z.of_nat (length d), out ++ d)) None None None))
       [] [0; 0] 2 [] []) SCPI_ERROR_UNDEFINED_HEADER.

Lemma error_query_witness :
  let c := error_client in
  let i := mkIface (Some (fun e out => (0, out ++ [e]))) (fun d out => (Z.of_nat (length d), out ++ d)) None None None in
  let f := fun (e : Z) (out : list Z) => (0, out ++ [e]) in
  (status_ok c /\ Sends c /\ interface c = Some i /\ if_control i = None /\ if_error i = Some f /\
   0 <= output_count c /\ Forall (fun e => - (2 ^ 15) <= e < 2 ^ 15) (contents (error_queue c)) /\
   contents (error_queue c) = [SCPI_ERROR_UNDEFINED_HEADER]) /\
  let e := default 0 (head (contents (error_queue c))) in
  let told := if SCPI_ErrorCount c =? 1 then snd (f 0 (sink c)) else sink c in
  exists text c', SCPI_SystemErrorNextQ c = Ok (SCPI_RES_OK, c') /\ decimal_text e text /\
    sink c' = told ++ delimiter c ++ text ++ str "," ++ [34] ++ SCPI_ErrorTranslate e ++ [34] /\
    contents (error_queue c') = tail (contents (error_queue c)) /\ status_ok c'.
Proof.
  intros c i f.
  assert (status_ok c) as H1 by (apply error_push_fact, Init_ok; cbn; lia).
  assert (Sends c) as H2 by (exists i; split; [reflexivity|done]).
  assert (contents (error_queue c) = [SCPI_ERROR_UNDEFINED_HEADER]) as H3 by reflexivity.
  assert (Forall (fun e => - (2 ^ 15) <= e < 2 ^ 15) (contents (error_queue c))) as H4
    by (rewrite H3; constructor; [unfold SCPI_ERROR_UNDEFINED_HEADER; lia|constructor]).
  split; [split_and!; try done; cbn; lia|]. apply (error_query c i f); try done; cbn; lia.
Defined.
