(* ===== verification/ScpiInput.v ===== *)
(** * ScpiInput: buffered input and arrays

    The rest of libscpi's parser.c: [SCPI_Input], which collects what arrives
    in pieces until a line is complete, the results and parameters that are
    arrays, in text or in binary form, and the byte swaps of utils.c.  The
    firmware calls none of them: it has the whole line when it parses, and
    sends single values. *)

From Stdlib Require Import ZArith Lia SpecFloat String.
From stdpp Require Import base numbers list.
From S2P Require Import Prelude ScpiFifo Lexer ScpiCore ScpiMatch ScpiNumber ScpiParser Decimal ScpiUnits ScpiReply.
#[local] Open Scope c_scope.

(** ** Buffered input *)

(** [context->buffer]: its array is the context's [memory], its length that
    of the array; [in_position] is how much of it is filled. *)
Record input (W : Type) := mkInput { in_world : W; in_position : Z }.
Arguments mkInput {W} _ _.
Arguments in_world {W} _.
Arguments in_position {W} _.

Section Input.
Context {W : Type} `{L : Lens scpi_t W}.
Variable cmdlist : list (scpi_command_t W).

#[export] Instance input_world : Lens W (input W).
Proof.
  refine {| view := in_world; over w i := mkInput w (in_position i) |}; [done|now intros []|done].
Defined.
#[export] Instance input_context : Lens scpi_t (input W).
Proof.
  refine {| view i := view (in_world i); over c i := mkInput (over c (in_world i)) (in_position i) |}.
  - intros c i. cbn. apply view_over.
  - intros []. cbn. now rewrite over_view.
  - intros c c' i. cbn. now rewrite over_over.
Defined.

Definition set_position (p : Z) : M (input W) unit := modify (fun i => mkInput (in_world i) p).

(** [memcpy(&data[p], bs, n)]. *)
Definition buffer_store (p : Z) (bs : list Z) : M (input W) unit :=
  mem ← zoom (gets memory);
  mem ← deref OutOfBounds (if 0 <=? p then write_bytes (Z.to_nat p) bs mem else None);
  zoom (modify (with_memory mem)).

(** [memmove(data, data + from, n)]. *)
Definition buffer_move (from n : Z) : M (input W) unit :=
  mem ← zoom (gets memory);
  bs ← deref OutOfBounds (if (0 <=? from) && (0 <=? n) then read_bytes (Z.to_nat from) (Z.to_nat n) mem else None);
  buffer_store 0 bs.

(** The loop that looks for complete lines; [tot] is [totcmdlen]. *)
Fixpoint input_loop (fuel : nat) (tot : Z) (result : bool) : M (input W) bool :=
  match fuel with
  | O => hang
  | S fuel =>
      mem ← zoom (gets memory);
      position ← gets in_position;
      let '(cmdlen, ps) := scpiParser_detectProgramMessageUnit mem tot (position - tot) in
      zoom (modify (with_parser_state ps));;
      let tot := tot + cmdlen in
      match termination ps with
      | SCPI_MESSAGE_TERMINATION_NL =>
          result ← zoom (SCPI_Parse cmdlist 0 tot);
          position ← gets in_position;
          buffer_move tot (position - tot);;
          set_position (position - tot);;
          input_loop fuel 0 result
      | _ =>
          if decide (t_type (programHeader ps) = SCPI_TOKEN_UNKNOWN) then mret result
          else if position <=? tot then mret result
          else input_loop fuel tot result
      end
  end.

(** Every turn uses up bytes of the buffer, or passes some of them. *)
Definition SCPI_Input (data : list Z) : M (input W) bool :=
  let len := Z.of_nat (length data) in
  position ← gets in_position;
  if len =? 0 then
    buffer_store position [0];;
    result ← zoom (SCPI_Parse cmdlist 0 position);
    set_position 0;;
    mret result
  else
    mem ← zoom (gets memory);
    let buffer_free := Z.of_nat (length mem) - position in
    if buffer_free - 1 <? len then
      set_position 0;;
      buffer_store 0 [0];;
      zoom (push SCPI_ERROR_INPUT_BUFFER_OVERRUN);;
      mret false
    else
      buffer_store position data;;
      set_position (position + len);;
      buffer_store (position + len) [0];;
      input_loop (S (S (2 * Z.to_nat (position + len)))) 0 true.
End Input.

(** ** Byte order *)

Inductive scpi_array_format_t := SCPI_FORMAT_ASCII | SCPI_FORMAT_NORMAL | SCPI_FORMAT_SWAPPED.
Definition SCPI_FORMAT_BIGENDIAN := SCPI_FORMAT_NORMAL.
Definition SCPI_FORMAT_LITTLEENDIAN := SCPI_FORMAT_SWAPPED.

#[export] Instance array_format_eq_dec : EqDecision scpi_array_format_t.
Proof. solve_decision. Defined.

(** The first byte in memory of 0x01020304, on a little endian machine. *)
Definition SCPI_GetNativeFormat : scpi_array_format_t :=
  match le_bytes 4 0x01020304 with
  | c :: _ => if c =? 1 then SCPI_FORMAT_BIGENDIAN else SCPI_FORMAT_LITTLEENDIAN
  | [] => SCPI_FORMAT_LITTLEENDIAN
  end.

Definition SCPI_Swap16 (val : Z) : Z := ((val &&& 0x00FF) <<< 8) ||| ((val &&& 0xFF00) >>> 8).
Definition SCPI_Swap32 (val : Z) : Z :=
  ((val &&& 0x000000FF) <<< 24) ||| ((val &&& 0x0000FF00) <<< 8)
  ||| ((val &&& 0x00FF0000) >>> 8) ||| ((val &&& 0xFF000000) >>> 24).
Definition SCPI_Swap64 (val : Z) : Z :=
  ((val &&& 0x00000000000000FF) <<< 56) ||| ((val &&& 0x000000000000FF00) <<< 40)
  ||| ((val &&& 0x0000000000FF0000) <<< 24) ||| ((val &&& 0x00000000FF000000) <<< 8)
  ||| ((val &&& 0x000000FF00000000) >>> 8) ||| ((val &&& 0x0000FF0000000000) >>> 24)
  ||| ((val &&& 0x00FF000000000000) >>> 40) ||| ((val &&& 0xFF00000000000000) >>> 56).

(** ** Arrays *)

(** The elements as they lie in memory; [n] is their size. *)
Definition array_bytes (n : nat) (array : list Z) : list Z := concat (map (le_bytes n) array).

Fixpoint sum_of (l : list Z) (f : Z -> M scpi_t Z) : M scpi_t Z :=
  match l with
  | [] => mret 0
  | a :: l => r ← f a; s ← sum_of l f; mret (r + s)
  end.

(** [array] holds the elements as unsigned integers, floating-point numbers
    as their bits. *)
Definition produceResultArrayBinary (array : list Z) (item_size : nat) (format : scpi_array_format_t) : M scpi_t Z :=
  let count := Z.of_nat (length array) in
  if decide (SCPI_GetNativeFormat = format) then
    match item_size with
    | 1%nat | 2%nat | 4%nat | 8%nat => SCPI_ResultArbitraryBlock (array_bytes item_size array)
    | _ => push SCPI_ERROR_SYSTEM_ERROR;; mret 0
    end
  else
    let swapped (swap : Z -> Z) :=
      sum_of array (fun val => SCPI_ResultArbitraryBlockData (le_bytes item_size (swap val))) in
    let header := SCPI_ResultArbitraryBlockHeader (count * Z.of_nat item_size) in
    match item_size with
    | 1%nat => r1 ← header; r2 ← SCPI_ResultArbitraryBlockData (array_bytes 1 array); mret (r1 + r2)
    | 2%nat => r1 ← header; r2 ← swapped SCPI_Swap16; mret (r1 + r2)
    | 4%nat => r1 ← header; r2 ← swapped SCPI_Swap32; mret (r1 + r2)
    | 8%nat => r1 ← header; r2 ← swapped SCPI_Swap64; mret (r1 + r2)
    | _ => push SCPI_ERROR_SYSTEM_ERROR;; mret 0
    end.

(** [RESULT_ARRAY]: [func] writes an element as text. *)
Definition RESULT_ARRAY (func : Z -> M scpi_t Z) (item_size : nat) (array : list Z) (format : scpi_array_format_t) : M scpi_t Z :=
  if decide (format = SCPI_FORMAT_ASCII) then sum_of array func
  else produceResultArrayBinary (map (wrap (8 * Z.of_nat item_size)) array) item_size format.

Definition SCPI_ResultArrayInt8 := RESULT_ARRAY SCPI_ResultInt32 1.
Definition SCPI_ResultArrayUInt8 := RESULT_ARRAY (fun v => SCPI_ResultUInt32Base v 10) 1.
Definition SCPI_ResultArrayInt16 := RESULT_ARRAY SCPI_ResultInt32 2.
Definition SCPI_ResultArrayUInt16 := RESULT_ARRAY (fun v => SCPI_ResultUInt32Base v 10) 2.
Definition SCPI_ResultArrayInt32 := RESULT_ARRAY SCPI_ResultInt32 4.
Definition SCPI_ResultArrayUInt32 := RESULT_ARRAY (fun v => SCPI_ResultUInt32Base v 10) 4.
Definition SCPI_ResultArrayInt64 := RESULT_ARRAY SCPI_ResultInt64 8.
Definition SCPI_ResultArrayUInt64 := RESULT_ARRAY (fun v => SCPI_ResultUInt64Base v 10) 8.

(** [PARAM_ARRAY_TEMPLATE]: up to [i_count] elements into [data]; the loop
    with the number of elements read and whether one is still mandatory. *)
Fixpoint param_array_loop (func : bool -> M scpi_t (bool * option Z)) (room : nat) (data : list Z) (o_count : nat) (mandatory : bool)
    : M scpi_t (bool * list Z * nat) :=
  match room with
  | O => mret (negb mandatory, data, o_count)
  | S room =>
      r ← func mandatory;
      let '(ok, v) := r in
      let data := match v with Some v => <[o_count := v]> data | None => data end in
      if (ok : bool) then param_array_loop func room data (S o_count) false
      else mret (negb mandatory, data, o_count)
  end.

(** [data] has room for [i_count] elements; [*o_count] is left as it was if
    the format is not text. *)
Definition PARAM_ARRAY (func : bool -> M scpi_t (bool * option Z)) (data : list Z) (i_count o_count : nat) (format : scpi_array_format_t) (mandatory : bool)
    : M scpi_t (bool * list Z * nat) :=
  if decide (format <> SCPI_FORMAT_ASCII) then mret (false, data, o_count)
  else param_array_loop func i_count data 0 mandatory.

Definition SCPI_ParamArrayInt32 := PARAM_ARRAY SCPI_ParamInt32.
Definition SCPI_ParamArrayUInt32 := PARAM_ARRAY SCPI_ParamUInt32.
Definition SCPI_ParamArrayUInt64 := PARAM_ARRAY SCPI_ParamUInt64.

(** ** Values of 64 bits *)

Definition s64 (z : Z) : Z := wrap 64 (z + 2 ^ 63) - 2 ^ 63.

Definition SCPI_ParamInt64 (mandatory : bool) : M scpi_t (bool * option Z) :=
  r ← ParamSignUInt64 mandatory true;
  let '(ok, v) := r in mret (ok, s64 <$> v).
Definition SCPI_ParamArrayInt64 := PARAM_ARRAY SCPI_ParamInt64.

Definition SCPI_ResultDouble (val : spec_float) : M scpi_t Z :=
  r1 ← writeDelimiter; r2 ← writeData (SCPI_DoubleToStr val); count_output;; mret (r1 + r2).

(** The value stays what it was where none is stored. *)
Definition SCPI_ParamDouble (value : spec_float) (mandatory : bool) : M scpi_t (bool * spec_float) :=
  p ← SCPI_Parameter mandatory;
  let '(result, param) := p in
  if (result : bool) then
    if SCPI_ParamIsNumber param false then
      r ← SCPI_ParamToDouble param;
      mret (true, snd r)
    else if SCPI_ParamIsNumber param true then push SCPI_ERROR_SUFFIX_NOT_ALLOWED;; mret (false, value)
    else push SCPI_ERROR_DATA_TYPE_ERROR;; mret (false, value)
  else mret (false, value).

Definition SCPI_Match (pattern value : list Z) : option bool := matchCommand pattern value.
Definition SCPI_ParamIsValid (parameter : scpi_token_t) : bool :=
  if decide (t_type parameter = SCPI_TOKEN_UNKNOWN) then false else true.
Definition SCPI_ParamErrorOccurred : M scpi_t bool := gets cmd_error.

(** ** A line that is not complete *)

Definition newline (c : Z) : Prop := c = 13 \/ c = 10.

Section Detect.
Variable mem : list Z.

Lemma skip_one_took p st r st' : skip_one mem p st = (r, st') ->
  (r = SKIP_OK /\ l_pos st < l_end st /\ p (cur mem st) = true /\ st' = adv 1 st) \/ (r = SKIP_NONE /\ st' = st).
Proof.
  unfold skip_one, look, iseos. destruct (Z.leb_spec (l_end st) (l_pos st)); cbn [negb andb]; [intros [= <- <-]; now right|].
  destruct (p (cur mem st)) eqn:E; intros [= <- <-]; [left|right]; done.
Qed.

Lemma NewLine_found st r t st' : scpiLex_NewLine mem st = (r, t, st') -> t_type t = SCPI_TOKEN_NL ->
  0 < r /\ l_pos st' = l_pos st + r /\ l_pos st' <= l_end st /\ l_end st' = l_end st /\ newline (cur mem st).
Proof.
  unfold scpiLex_NewLine, skipChr.
  destruct (skip_one mem _ st) as [r1 s1] eqn:E1. destruct (skip_one mem _ s1) as [r2 s2] eqn:E2.
  apply skip_one_took in E1, E2. unfold newline.
  destruct E1 as [(_ & H1 & C1 & ->)|(_ & ->)], E2 as [(_ & H2 & C2 & ->)|(_ & ->)]; cbn in *;
    unfold l_end in *; cbn in *;
    match goal with |- context [if 0 <? ?n then _ else _] => destruct (Z.ltb_spec 0 n) as [Hn|Hn] end;
    intros [= <- <- <-] Ht; cbn in *; try discriminate; try lia;
    rewrite ?Z.eqb_eq in *; (split; [lia|]; split; [lia|]; split; [lia|]; split; [lia|]; lia).
Qed.

Lemma detect_newline buf len r ps : 0 <= buf -> scpiParser_detectProgramMessageUnit mem buf len = (r, ps) ->
  termination ps = SCPI_MESSAGE_TERMINATION_NL ->
  0 < r <= len /\ exists i, buf <= i < buf + len /\ newline (default 0 (mem !! Z.to_nat i)).
Proof.
  intros Hbuf. unfold scpiParser_detectProgramMessageUnit. set (s0 := mkLex buf buf len).
  destruct (scpiLex_WhiteSpace mem s0) as [[r1 t1] s1] eqn:E1. apply WhiteSpace_fwd in E1.
  destruct (scpiLex_ProgramHeader mem s1) as [[r2 t2] s2] eqn:E2.
  apply (took_fwd_of _ (ProgramHeader_took mem)) in E2.
  assert (H2 : fwd s0 s2) by (etransitivity; eassumption).
  match goal with |- context [if 0 <=? r2 then ?x else ?y] => destruct (if 0 <=? r2 then x else y) as [[[h d] np] s3] eqn:E3 end.
  assert (H3 : fwd s0 s3).
  { destruct (0 <=? r2); [|injection E3 as <- <- <- <-; exact H2].
    destruct (scpiLex_WhiteSpace mem s2) as [[r4 t4] s4] eqn:E4. apply WhiteSpace_fwd in E4.
    assert (H4 : fwd s0 s4) by (etransitivity; eassumption).
    destruct (0 <? r4); [|injection E3 as <- <- <- <-; exact H4].
    destruct (scpiParser_parseAllProgramData mem s4) as [[t5 k5] s5] eqn:E5. apply parseAll_fwd in E5.
    injection E3 as <- <- <- <-. etransitivity; eassumption. }
  destruct H3 as (Hb & Hl & Hp). cbn [l_pos l_buffer l_len s0] in *.
  destruct (scpiLex_NewLine mem s3) as [[r6 t6] s6] eqn:E6. pose proof (NewLine_found _ _ _ _ E6) as HN.
  destruct (Z.eqb_spec r6 0) as [->|Hr6].
  - destruct (scpiLex_Semicolon mem s6) as [[r7 t7] s7] eqn:E7.
    assert (t_type t7 <> SCPI_TOKEN_NL) as Ht7.
    { unfold scpiLex_Semicolon, lex_chr in E7. destruct (skipChr mem s6 59) as [q s8]. destruct (truthy q); injection E7 as <- <- <-; done. }
    destruct (negb (scpiLex_IsEos s7) && (r7 =? 0)); intros [= <- <-]; cbn [termination];
      (case_decide; [done|]; rewrite decide_False by done; done).
  - cbv iota beta. rewrite (proj2 (Z.eqb_neq _ _) Hr6), andb_false_r. intros [= <- <-]. cbn [termination]. case_decide; [done|]. case_decide as Hnl; [|done]. intros _.
    destruct (HN Hnl) as (G1 & G2 & G3 & _ & G4). unfold l_end in *. split; [lia|]. exists (l_pos s3). split; [lia|exact G4].
Qed.
End Detect.

(** ** Input ends *)

Section InputEnds.
Context {W : Type} `{L : Lens scpi_t W}.
Variable cmdlist : list (scpi_command_t W).
Hypothesis Hends : Forall command_ends cmdlist.

Lemma SCPI_Parse_ends data len : ends (SCPI_Parse cmdlist data len).
Proof using Hends.
  unfold SCPI_Parse. apply ends_bind; [ending|intros _].
  apply ends_bind; [apply parse_loop_ends; [exact Hends|lia]|intros r]. ending.
Qed.

(** Computations on the context leave the position. *)
Lemma zoom_position {A} (m : M W A) i a i' : zoom m i = Ok (a, i') -> in_position i' = in_position i.
Proof using. intros H. apply zoom_inv in H as (w & _ & ->). reflexivity. Qed.
Lemma zoom_position_context {A} (m : M scpi_t A) (i : input W) a i' : zoom m i = Ok (a, i') -> in_position i' = in_position i.
Proof using. intros H. apply zoom_inv in H as (w & _ & ->). reflexivity. Qed.

Lemma buffer_store_ends p bs : ends (buffer_store (W := W) p bs).
Proof using. unfold buffer_store. ending. Qed.
Lemma buffer_store_position p bs (i : input W) u i' : buffer_store p bs i = Ok (u, i') -> in_position i' = in_position i.
Proof using.
  unfold buffer_store. intros H. apply bind_inv in H as (mem & i1 & H1 & H). apply bind_inv in H as (mem' & i2 & H2 & H).
  apply zoom_position_context in H1, H. unfold deref in H2. case_match; [|done]. injection H2 as -> ->. congruence.
Qed.

Lemma buffer_move_ends from n : ends (buffer_move (W := W) from n).
Proof using. unfold buffer_move. apply ends_bind; [ending|intros]. apply ends_bind; [ending|intros]. apply buffer_store_ends. Qed.

Lemma input_loop_ends fuel tot result (i : input W) :
  0 <= tot -> (Z.to_nat (2 * in_position i - tot) < fuel)%nat -> input_loop cmdlist fuel tot result i <> Hang.
Proof using Hends.
  revert tot result i. induction fuel as [|fuel IH]; intros tot result i Ht Hf; [lia|].
  cbn [input_loop]. set (mem := memory (view (in_world i))).
  erewrite bind_ok by (apply zoom_ok; reflexivity). rewrite over_view.
  erewrite bind_ok by reflexivity. change (memory (view i)) with mem.
  pose proof (unit_progress mem tot (in_position i - tot)) as Hr.
  destruct (scpiParser_detectProgramMessageUnit mem tot (in_position i - tot)) as [r ps] eqn:Ed. cbn [fst] in Hr.
  pose proof (detect_newline mem _ _ _ _ Ht Ed) as Hnl.
  erewrite bind_ok by (apply zoom_ok; reflexivity). set (i1 := over _ i).
  assert (in_position i1 = in_position i) as P1 by reflexivity. clearbody i1.
  assert (Hgo : (if decide (t_type (programHeader ps) = SCPI_TOKEN_UNKNOWN) then mret result
                 else if in_position i <=? tot + r then mret result else input_loop cmdlist fuel (tot + r) result) i1 <> Hang).
  { case_decide; [done|]. destruct (Z.leb_spec (in_position i) (tot + r)); [done|]. apply IH; lia. }
  destruct (termination ps); [exact Hgo| |exact Hgo]. destruct Hnl as [Hnl _]; [done|]. clear Hgo.
  pose proof (ends_zoom (W := input W) _ (SCPI_Parse_ends 0 (tot + r)) i1) as He.
  unfold mbind at 1, M_bind at 1. destruct (zoom (SCPI_Parse cmdlist 0 (tot + r)) i1) as [[ok i2]| |] eqn:E2; [|done|done].
  apply zoom_position in E2. erewrite bind_ok by reflexivity.
  pose proof (buffer_move_ends (tot + r) (in_position i2 - (tot + r)) i2) as He3.
  unfold mbind at 1, M_bind at 1. destruct (buffer_move _ _ i2) as [[u i3]| |]; [|done|done].
  erewrite bind_ok by reflexivity. apply IH; cbn [in_position]; lia.
Qed.

(** Input ends, whatever arrives and in whatever pieces, for commands
    that end. *)
Theorem SCPI_Input_ends data (i : input W) : 0 <= in_position i -> SCPI_Input cmdlist data i <> Hang.
Proof using Hends.
  intros Hp. unfold SCPI_Input. erewrite bind_ok by reflexivity. destruct (Z.of_nat (length data) =? 0).
  - apply (ends_bind _ _ (buffer_store_ends _ _)). intros _.
    apply ends_bind; [apply ends_zoom, SCPI_Parse_ends|intros r]. unfold set_position. ending.
  - erewrite bind_ok by (apply zoom_ok; reflexivity). rewrite over_view.
    destruct (_ <? _).
    { unfold set_position. apply (ends_bind (modify _)); [ending|intros _].
      apply ends_bind; [apply buffer_store_ends|intros _]. ending. }
    unfold mbind at 1, M_bind at 1. pose proof (buffer_store_ends (in_position i) data i) as H1.
    destruct (buffer_store (in_position i) data i) as [[u i1]| |] eqn:E1; [|done|done]. apply buffer_store_position in E1.
    erewrite bind_ok by reflexivity. set (i2 := mkInput _ _).
    pose proof (buffer_store_ends (in_position i + Z.of_nat (length data)) [0] i2) as H2.
    unfold mbind at 1, M_bind at 1. destruct (buffer_store _ [0] i2) as [[u2 i3]| |] eqn:E3; [|done|done]. apply buffer_store_position in E3.
    apply input_loop_ends; [lia|]. rewrite E3. cbn [in_position i2]. lia.
Qed.
End InputEnds.

(** ** Input in pieces *)

Lemma write_bytes_Some off bs m : (off + length bs <= length m)%nat ->
  write_bytes off bs m = Some (take off m ++ bs ++ drop (off + length bs) m).
Proof. intros H. unfold write_bytes. now rewrite decide_True by done. Qed.

(** A piece, the zero behind it, and the next piece over that zero. *)
Lemma write_pieces p c d m m1 m2 : d <> [] -> (p + length c + length d <= length m)%nat ->
  write_bytes p c m = Some m1 -> write_bytes (p + length c) [0] m1 = Some m2 ->
  write_bytes (p + length c) d m2 = write_bytes p (c ++ d) m.
Proof.
  intros Hd Hl H1 H2. assert (0 < length d)%nat by (destruct d; [done|cbn; lia]).
  pose proof (length_write_bytes _ _ _ _ H1) as L1. pose proof (length_write_bytes _ _ _ _ H2) as L2.
  rewrite write_bytes_Some in H1 by lia. rewrite write_bytes_Some in H2 by (cbn; lia).
  rewrite !write_bytes_Some by (rewrite ?length_app; lia). injection H2 as <-. f_equal.
  assert (take (p + length c) m1 = take p m ++ c) as Ht.
  { injection H1 as <-. rewrite app_assoc. apply take_app_length'. rewrite length_app, length_take. lia. }
  rewrite take_app_length' by (rewrite length_take; lia). rewrite Ht, <- !app_assoc. do 3 f_equal.
  rewrite !drop_app_ge by (rewrite ?length_take; lia). rewrite length_take.
  replace (_ - _ - _)%nat with (S (length d - 1)) by lia.
  cbn [drop]. rewrite drop_drop. injection H1 as <-.
  rewrite app_assoc, drop_app_ge by (rewrite length_app, length_take; cbn; lia). rewrite drop_drop. f_equal.
  rewrite !length_app, length_take. cbn [length]. lia.
Qed.

Section Pieces.
Context {W : Type} `{L : Lens scpi_t W}.
Variable cmdlist : list (scpi_command_t W).

Definition at_position (p : Z) (i : input W) : input W := mkInput (in_world i) p.
Definition content (i : input W) : list Z := memory (view i).
Definition with_content (m : list Z) (i : input W) : input W := over (with_memory m (view i)) i.
Definition with_parser (ps : scpi_parser_state_t) (i : input W) : input W := over (with_parser_state ps (view i)) i.

Lemma run_store_buffer p bs (i : input W) m : 0 <= p -> write_bytes (Z.to_nat p) bs (content i) = Some m ->
  buffer_store p bs i = Ok (tt, with_content m i).
Proof using.
  intros Hp Hw. unfold buffer_store. erewrite bind_ok by (apply zoom_ok; reflexivity). rewrite over_view.
  rewrite (proj2 (Z.leb_le 0 p) Hp). unfold content in Hw. rewrite Hw. erewrite bind_ok by reflexivity.
  erewrite zoom_ok by reflexivity. reflexivity.
Qed.

(** Nothing is done but to look for the end of the line. *)
Lemma quiet_loop fuel tot result (i : input W) :
  0 <= tot -> (Z.to_nat (2 * in_position i - tot) < fuel)%nat ->
  (forall j, 0 <= j < in_position i -> ~ newline (default 0 (content i !! Z.to_nat j))) ->
  exists ps, input_loop cmdlist fuel tot result i = Ok (result, with_parser ps i).
Proof using.
  revert tot i. induction fuel as [|fuel IH]; intros tot i Ht Hf Hn; [lia|].
  cbn [input_loop]. erewrite bind_ok by (apply zoom_ok; reflexivity). rewrite over_view.
  erewrite bind_ok by reflexivity. change (memory (view i)) with (content i).
  pose proof (unit_progress (content i) tot (in_position i - tot)) as Hr.
  destruct (scpiParser_detectProgramMessageUnit (content i) tot (in_position i - tot)) as [r ps] eqn:Ed. cbn [fst] in Hr.
  erewrite bind_ok by (apply zoom_ok; reflexivity). fold (with_parser ps i).
  assert (Hgo : exists ps', (if decide (t_type (programHeader ps) = SCPI_TOKEN_UNKNOWN) then mret result
                 else if in_position i <=? tot + r then mret result else input_loop cmdlist fuel (tot + r) result) (with_parser ps i)
                 = Ok (result, with_parser ps' i)).
  { case_decide; [now exists ps|]. destruct (Z.leb_spec (in_position i) (tot + r)); [now exists ps|].
    destruct (IH (tot + r) (with_parser ps i)) as [ps' E]; [lia|cbn; lia| |].
    - intros j Hj. unfold content, with_parser. rewrite view_over. apply Hn. exact Hj.
    - exists ps'. rewrite E. unfold with_parser. now rewrite view_over, over_over. }
  destruct (termination ps) eqn:Et; [exact Hgo| |exact Hgo].
  destruct (detect_newline (content i) _ _ _ _ Ht Ed Et) as (_ & j & Hj & Hnl). destruct (Hn j); [lia|exact Hnl].
Qed.

Lemma loop_parser ps fuel tot result (i : input W) :
  input_loop cmdlist (S fuel) tot result (with_parser ps i) = input_loop cmdlist (S fuel) tot result i.
Proof using.
  cbn [input_loop]. erewrite bind_ok by (apply zoom_ok; reflexivity). rewrite over_view. symmetry.
  erewrite bind_ok by (apply zoom_ok; reflexivity). rewrite over_view.
  erewrite bind_ok by reflexivity. symmetry. erewrite bind_ok by reflexivity.
  unfold with_parser at 1 2. rewrite view_over. cbn [memory with_parser_state].
  change (in_position (with_parser ps i)) with (in_position i).
  destruct (scpiParser_detectProgramMessageUnit _ _ _) as [r ps'].
  erewrite bind_ok by (apply zoom_ok; reflexivity). symmetry. erewrite bind_ok by (apply zoom_ok; reflexivity).
  unfold with_parser. now rewrite view_over, over_over.
Qed.

(** What is in the buffer holds no end of a line. *)
Definition pending (i : input W) : Prop :=
  0 <= in_position i /\ forall j, 0 <= j < in_position i -> ~ newline (default 0 (content i !! Z.to_nat j)).

(** [SCPI_Input] with room for the data, up to its loop. *)
Lemma SCPI_Input_fits d (i : input W) m1 m2 : 0 <= in_position i -> d <> [] ->
  in_position i + Z.of_nat (length d) < Z.of_nat (length (content i)) ->
  write_bytes (Z.to_nat (in_position i)) d (content i) = Some m1 ->
  write_bytes (Z.to_nat (in_position i) + length d) [0] m1 = Some m2 ->
  SCPI_Input cmdlist d i = input_loop cmdlist (S (S (2 * Z.to_nat (in_position i + Z.of_nat (length d))))) 0 true
    (at_position (in_position i + Z.of_nat (length d)) (with_content m2 i)).
Proof using.
  intros Hp Hd Hl H1 H2. unfold SCPI_Input. erewrite bind_ok by reflexivity.
  replace (Z.of_nat (length d) =? 0) with false by (symmetry; apply Z.eqb_neq; destruct d; [done|cbn; lia]).
  erewrite bind_ok by (apply zoom_ok; reflexivity). rewrite over_view. change (memory (view i)) with (content i).
  replace (_ <? _) with false by (symmetry; apply Z.ltb_ge; lia).
  rewrite (bind_ok _ _ _ _ _ (run_store_buffer _ _ _ _ Hp H1)).
  erewrite bind_ok by reflexivity.
  erewrite bind_ok.
  2:{ apply (run_store_buffer _ _ _ m2); [lia|]. unfold content. cbn. rewrite view_over.
      rewrite Z2Nat.inj_add, Nat2Z.id by lia. exact H2. }
  f_equal. unfold with_content, at_position. cbn. now rewrite view_over, over_over.
Qed.

Lemma piece_kept p c m m1 m2 j : (p + length c < length m)%nat -> (j < p + length c)%nat ->
  write_bytes p c m = Some m1 -> write_bytes (p + length c) [0] m1 = Some m2 ->
  m2 !! j = if decide (j < p)%nat then m !! j else c !! (j - p)%nat.
Proof using.
  intros Hl Hj H1 H2. pose proof (length_write_bytes _ _ _ _ H1) as L1.
  rewrite write_bytes_Some in H1 by lia. rewrite write_bytes_Some in H2 by (cbn; lia).
  injection H2 as <-. rewrite lookup_app_l by (rewrite length_take; lia). rewrite lookup_take_lt by lia.
  injection H1 as <-. case_decide.
  - rewrite lookup_app_l by (rewrite length_take; lia). now rewrite lookup_take_lt by lia.
  - rewrite lookup_app_r by (rewrite length_take; lia). rewrite length_take.
    rewrite lookup_app_l by lia. f_equal. lia.
Qed.

Lemma two_pieces c d (i : input W) :
  pending i -> c <> [] -> Forall (fun x => ~ newline x) c -> d <> [] ->
  in_position i + Z.of_nat (length (c ++ d)) < Z.of_nat (length (content i)) ->
  exists i', SCPI_Input cmdlist c i = Ok (true, i') /\ pending i' /\
    in_position i' = in_position i + Z.of_nat (length c) /\ length (content i') = length (content i) /\
    SCPI_Input cmdlist d i' = SCPI_Input cmdlist (c ++ d) i.
Proof using.
  intros [Hp Hn] Hc Hcn Hd Hl. rewrite length_app in Hl. set (p := Z.to_nat (in_position i)).
  assert (exists m1, write_bytes p c (content i) = Some m1) as [m1 H1] by (rewrite write_bytes_Some by lia; eauto).
  pose proof (length_write_bytes _ _ _ _ H1) as L1.
  assert (exists m2, write_bytes (p + length c) [0] m1 = Some m2) as [m2 H2] by (rewrite write_bytes_Some by (cbn; lia); eauto).
  pose proof (length_write_bytes _ _ _ _ H2) as L2.
  assert (exists n1, write_bytes (p + length c) d m2 = Some n1) as [n1 H3] by (rewrite write_bytes_Some by lia; eauto).
  pose proof (length_write_bytes _ _ _ _ H3) as L3.
  assert (exists n2, write_bytes (p + length c + length d) [0] n1 = Some n2) as [n2 H4] by (rewrite write_bytes_Some by (cbn; lia); eauto).
  pose proof (write_pieces p c d (content i) _ _ Hd ltac:(lia) H1 H2) as Hw. rewrite H3 in Hw.
  set (i1 := at_position (in_position i + Z.of_nat (length c)) (with_content m2 i)).
  assert (content i1 = m2) as C1 by (unfold content, i1, with_content, at_position; cbn; now rewrite view_over).
  assert (forall j, 0 <= j < in_position i1 -> ~ newline (default 0 (content i1 !! Z.to_nat j))) as Hn1.
  { intros j Hj. cbn [in_position i1 at_position] in Hj. rewrite C1, (piece_kept p c (content i) m1 m2) by (first [done | lia]).
    case_decide; [apply Hn; lia|]. destruct (c !! (Z.to_nat j - p)%nat) as [x|] eqn:E.
    - cbn. exact (proj1 (Forall_forall _ _) Hcn x (list_elem_of_lookup_2 _ _ _ E)).
    - apply lookup_ge_None in E. lia. }
  destruct (quiet_loop (S (S (2 * Z.to_nat (in_position i1)))) 0 true i1) as [ps E]; [lia|lia|exact Hn1|].
  assert (content (with_parser ps i1) = m2) as C2 by (unfold with_parser; rewrite <- C1; unfold content at 1; now rewrite view_over).
  exists (with_parser ps i1). split; [rewrite (SCPI_Input_fits c i m1 m2) by (first [done | lia]); exact E|].
  split. { split; [cbn; lia|]. intros j Hj. rewrite C2, <- C1. apply Hn1. exact Hj. }
  split; [done|]. split; [rewrite C2; lia|].
  rewrite (SCPI_Input_fits (c ++ d) i n1 n2).
  2-6: first [done | now destruct c | rewrite length_app; lia | now rewrite length_app, Nat.add_assoc].
  assert (Z.to_nat (in_position (with_parser ps i1)) = (p + length c)%nat) as Ep by (cbn; lia).
  rewrite (SCPI_Input_fits d (with_parser ps i1) n1 n2).
  2-6: rewrite ?Ep, ?C2; first [done | cbn; lia].
  change (in_position (with_parser ps i1)) with (in_position i + Z.of_nat (length c)).
  replace (in_position i + Z.of_nat (length c) + Z.of_nat (length d)) with (in_position i + Z.of_nat (length (c ++ d))) by (rewrite length_app; lia).
  set (P := in_position i + _).
  rewrite <- (loop_parser ps _ _ _ (at_position P (with_content n2 i))). f_equal.
  unfold with_parser, with_content, at_position. cbn. f_equal. now rewrite !view_over, !over_over.
Qed.
End Pieces.

(** C30: A line that arrives in pieces is the same to [SCPI_Input] as the
    line at once: pieces without an end of line, followed by a last piece,
    leave the same result and the same state, replies and errors included,
    for any commands, provided that all of it fits the buffer.  Where the
    pieces are cut matters only at the line's end: [line_end_split]. *)
Theorem input_in_pieces {W} `{L : Lens scpi_t W} (cmdlist : list (scpi_command_t W)) pieces d (i : input W) :
  pending i -> Forall (fun c => c <> [] /\ Forall (fun x => ~ newline x) c) pieces -> d <> [] ->
  in_position i + Z.of_nat (length (concat pieces ++ d)) < Z.of_nat (length (content i)) ->
  (for_each pieces (fun c => SCPI_Input cmdlist c;; mret tt);; SCPI_Input cmdlist d) i =
    SCPI_Input cmdlist (concat pieces ++ d) i.
Proof.
  intros Hi Hp Hd. revert i Hi. induction Hp as [|c pieces [Hc Hcn] _ IH]; intros i Hi Hl; [done|].
  cbn [for_each concat] in *. rewrite <- app_assoc in *.
  assert (concat pieces ++ d <> []) as Hd' by (intros [_ ?]%app_nil; done).
  destruct (two_pieces cmdlist c (concat pieces ++ d) i Hi Hc Hcn Hd' Hl) as (i' & E & Hi' & Hp' & Hc' & E').
  rewrite <- E', bind_assoc, bind_assoc, (bind_ok _ _ _ _ _ E). erewrite bind_ok by reflexivity. apply IH; [exact Hi'|].
  rewrite length_app in Hl. lia.
Qed.

#[local] Instance context_itself : Lens scpi_t scpi_t.
Proof. refine {| view c := c; over c _ := c |}; done. Defined.

Lemma input_in_pieces_witness :
  let i := mkInput (with_memory (repeat 0 32) reply_client) 0 in
  let pieces := [str "*I"; str "DN"] in
  (pending i /\ Forall (fun c => c <> [] /\ Forall (fun x => ~ newline x) c) pieces) /\
  (for_each pieces (fun c => SCPI_Input [] c;; mret tt);; SCPI_Input [] (63 :: [10])) i =
    SCPI_Input [] (concat pieces ++ 63 :: [10]) i.
Proof.
  intros i pieces. assert (pending i) as H1 by (split; [done|intros j Hj; cbn in Hj; lia]).
  assert (Forall (fun c => c <> [] /\ Forall (fun x => ~ newline x) c) pieces) as H2
    by (unfold newline; repeat (constructor; [split; [done|cbn; repeat (constructor; [lia|]); constructor]|]); constructor).
  split; [done|]. apply (input_in_pieces [] pieces (63 :: [10]) i H1 H2); [done|reflexivity].
Defined.

(** A line whose end is cut between CR and LF is taken at the CR; the LF
    that follows is an empty line, and succeeds whatever the line did. *)
Lemma line_end_split :
  let i := mkInput (with_memory (repeat 0 32) reply_client) 0 in
  (exists i1, SCPI_Input [] (str "FOO" ++ [13; 10]) i = Ok (false, i1)) /\
  (exists i2, (SCPI_Input [] (str "FOO" ++ [13]);; SCPI_Input [] [10]) i = Ok (true, i2)).
Proof. split; eexists; vm_compute; reflexivity. Qed.

(** ** The byte swaps reverse the bytes *)

Lemma byte_of v a : 0 <= a -> v &&& (Z.ones 8 <<< a) = u8 (v >>> a) <<< a.
Proof.
  intros Ha. apply Z.bits_inj'. intros i Hi. rewrite Z.land_spec, !Z.shiftl_spec by lia.
  destruct (Z.ltb_spec i a); [now rewrite !(Z.testbit_neg_r _ (i - a)), andb_false_r by lia|].
  rewrite wrap_testbit, Z.shiftr_spec, Z.testbit_ones by lia. replace (i - a + a) with i by lia.
  destruct (Z.leb_spec 0 (i - a)); [|lia]. now rewrite andb_comm.
Qed.

Lemma shifted_up v a k : 0 <= a -> 0 <= k -> (v &&& (Z.ones 8 <<< a)) <<< k = u8 (v >>> a) <<< (a + k).
Proof. intros Ha Hk. now rewrite byte_of, Z.shiftl_shiftl by lia. Qed.
Lemma shifted_down v a k : 0 <= k <= a -> (v &&& (Z.ones 8 <<< a)) >>> k = u8 (v >>> a) <<< (a - k).
Proof. intros H. now rewrite byte_of, Z.shiftr_shiftl_l by lia. Qed.

Lemma join_bytes a b k : 0 <= k -> 0 <= b < 256 -> (a <<< (k + 8)) ||| (b <<< k) = (256 * a + b) <<< k.
Proof.
  intros Hk Hb. rewrite Z.add_comm, <- Z.shiftl_shiftl, <- Z.shiftl_lor by lia. f_equal.
  rewrite Z.shiftl_mul_pow2 by lia. change (2 ^ 8) with 256. pose proof (Z.add_lor_land (a * 256) b) as Hs.
  assert (Z.land (a * 256) b = 0) as E; [|lia].
  apply Z.bits_inj'. intros i Hi. rewrite Z.land_spec, Z.bits_0. change 256 with (2 ^ 8). rewrite Z.mul_pow2_bits by lia.
  destruct (Z.ltb_spec i 8); [now rewrite Z.testbit_neg_r by lia|].
  rewrite (testbit_high 8 b i) by (change (2 ^ 8) with 256; lia). apply andb_false_r.
Qed.

Lemma u8_byte z : 0 <= u8 z < 256.
Proof. exact (wrap_range 8 z ltac:(lia)). Qed.

Lemma le_bytes_shift n v : le_bytes (S n) v = u8 v :: le_bytes n (v >>> 8).
Proof. cbn [le_bytes]. now rewrite Z.shiftr_div_pow2 by lia. Qed.

Lemma be_of_bytes l n : Forall is_byte l -> length l = n -> le_bytes n (of_be l) = reverse l.
Proof.
  intros Hl Hn. rewrite <- (reverse_involutive l), of_be_reverse. rewrite reverse_involutive.
  rewrite <- Hn, <- length_reverse. apply le_bytes_of_le. now apply Forall_reverse.
Qed.

(** The shifts of [le_bytes_shift], as constants. *)
Ltac sums :=
  change (8 + 8 + 8 + 8 + 8 + 8 + 8) with 56; change (8 + 8 + 8 + 8 + 8 + 8) with 48; change (8 + 8 + 8 + 8 + 8) with 40;
  change (8 + 8 + 8 + 8) with 32; change (8 + 8 + 8) with 24; change (8 + 8) with 16.

Lemma Swap16_value v : SCPI_Swap16 v = of_be (le_bytes 2 v).
Proof.
  unfold SCPI_Swap16. change 0x00FF with (Z.ones 8 <<< 0). change 0xFF00 with (Z.ones 8 <<< 8).
  rewrite (shifted_up v 0 8), (shifted_down v 8 8) by lia. change (0 + 8) with (8 - 8 + 8).
  rewrite (join_bytes _ _ (8 - 8)) by (try apply u8_byte; lia).
  rewrite !le_bytes_shift, Z.shiftl_0_r, Z.shiftr_0_r. unfold of_be. cbn [le_bytes foldl]. lia.
Qed.

Lemma Swap32_value v : SCPI_Swap32 v = of_be (le_bytes 4 v).
Proof.
  unfold SCPI_Swap32. change 0x000000FF with (Z.ones 8 <<< 0). change 0x0000FF00 with (Z.ones 8 <<< 8).
  change 0x00FF0000 with (Z.ones 8 <<< 16). change 0xFF000000 with (Z.ones 8 <<< 24).
  rewrite (shifted_up v 0 24), (shifted_up v 8 8), (shifted_down v 16 8), (shifted_down v 24 24) by lia.
  rewrite (join_bytes _ _ 16), (join_bytes _ _ 8), (join_bytes _ _ 0) by (try apply u8_byte; lia).
  rewrite !le_bytes_shift, !Z.shiftr_shiftr, Z.shiftl_0_r, Z.shiftr_0_r by lia. unfold of_be. cbn [le_bytes foldl]. sums. lia.
Qed.

Lemma Swap64_value v : SCPI_Swap64 v = of_be (le_bytes 8 v).
Proof.
  unfold SCPI_Swap64. change 0x00000000000000FF with (Z.ones 8 <<< 0). change 0x000000000000FF00 with (Z.ones 8 <<< 8).
  change 0x0000000000FF0000 with (Z.ones 8 <<< 16). change 0x00000000FF000000 with (Z.ones 8 <<< 24).
  change 0x000000FF00000000 with (Z.ones 8 <<< 32). change 0x0000FF0000000000 with (Z.ones 8 <<< 40).
  change 0x00FF000000000000 with (Z.ones 8 <<< 48). change 0xFF00000000000000 with (Z.ones 8 <<< 56).
  rewrite (shifted_up v 0 56), (shifted_up v 8 40), (shifted_up v 16 24), (shifted_up v 24 8),
    (shifted_down v 32 8), (shifted_down v 40 24), (shifted_down v 48 40), (shifted_down v 56 56) by lia.
  rewrite (join_bytes _ _ 48), (join_bytes _ _ 40), (join_bytes _ _ 32), (join_bytes _ _ 24), (join_bytes _ _ 16),
    (join_bytes _ _ 8), (join_bytes _ _ 0) by (try apply u8_byte; lia).
  rewrite !le_bytes_shift, !Z.shiftr_shiftr, Z.shiftl_0_r, Z.shiftr_0_r by lia. unfold of_be. cbn [le_bytes foldl]. sums. lia.
Qed.

(** ** Binary arrays are blocks *)

(** The bytes of an array in a format: most significant byte first or last. *)
Definition encode (format : scpi_array_format_t) (n : nat) (array : list Z) : list Z :=
  concat (map (if decide (format = SCPI_FORMAT_NORMAL) then be_bytes n else le_bytes n) array).

Definition item_size_ok (n : nat) : Prop := n = 1%nat \/ n = 2%nat \/ n = 4%nat \/ n = 8%nat.

Definition owed (d : list Z) (c : scpi_t) : scpi_t :=
  let r := arbitrary_reminding c - Z.of_nat (length d) in
  said d (if r =? 0 then counted (with_arbitrary_reminding r c) else with_arbitrary_reminding r c).

Lemma BlockData_run d c : Sends c -> Z.of_nat (length d) <= arbitrary_reminding c ->
  SCPI_ResultArbitraryBlockData d c = Ok (Z.of_nat (length d), owed d c).
Proof.
  intros Hc Hd. unfold SCPI_ResultArbitraryBlockData, owed. erewrite bind_ok by reflexivity.
  rewrite (proj2 (Z.ltb_ge _ _) Hd). erewrite bind_ok by reflexivity.
  destruct (_ =? 0); (erewrite bind_ok by reflexivity); apply writeData_says; first [now apply counted_sends, reminding_sends | now apply reminding_sends].
Qed.

(** Pieces of a block one after the other are the block. *)
Lemma pieces_run (f : Z -> list Z) l c : Sends c -> l <> [] -> Forall (fun a => f a <> []) l ->
  Z.of_nat (length (concat (map f l))) <= arbitrary_reminding c ->
  sum_of l (fun a => SCPI_ResultArbitraryBlockData (f a)) c = SCPI_ResultArbitraryBlockData (concat (map f l)) c.
Proof.
  intros Hc Hl Hf. revert c Hc Hl. induction Hf as [|a l Ha Hf IH]; intros c Hc Hl Hn; [done|]. clear Hl.
  cbn [sum_of map concat] in *. rewrite length_app in Hn. rewrite (bind_ok _ _ _ _ _ (BlockData_run (f a) _ Hc ltac:(lia))).
  destruct l as [|b l].
  - cbn [sum_of map concat]. rewrite app_nil_r. erewrite bind_ok by reflexivity. rewrite (BlockData_run _ _ Hc) by lia.
    unfold mret, M_ret. do 2 f_equal. lia.
  - assert (0 < length (concat (map f (b :: l))))%nat as Hpos.
    { apply Forall_cons in Hf as [Hb _]. cbn [map concat]. rewrite length_app. destruct (f b); [done|cbn; lia]. }
    set (c1 := owed (f a) c). assert (c1 = said (f a) (with_arbitrary_reminding (arbitrary_reminding c - Z.of_nat (length (f a))) c)) as E1.
    { unfold c1, owed. destruct (Z.eqb_spec (arbitrary_reminding c - Z.of_nat (length (f a))) 0); [lia|done]. }
    assert (Sends c1) as Hc1 by (rewrite E1; now apply said_sends, reminding_sends).
    assert (arbitrary_reminding c1 = arbitrary_reminding c - Z.of_nat (length (f a))) as R1 by now rewrite E1.
    rewrite (bind_ok _ _ _ _ _ (eq_trans (IH c1 Hc1 ltac:(done) ltac:(rewrite R1; lia)) (BlockData_run (concat (map f (b :: l))) _ Hc1 ltac:(rewrite R1; lia)))).
    rewrite (BlockData_run _ _ Hc) by (rewrite length_app; lia). unfold mret, M_ret. do 2 f_equal; [rewrite length_app; lia|].
    unfold owed. rewrite R1, length_app, Nat2Z.inj_add, Z.sub_add_distr. rewrite E1.
    destruct (_ =? 0); unfold said, counted, with_arbitrary_reminding, with_sink, with_output_count; cbn; now rewrite <- app_assoc.
Qed.

Lemma reverse_one n v : n = 1%nat -> le_bytes n v = be_bytes n v.
Proof. now intros ->. Qed.

Lemma be_of_value n v : le_bytes n (of_be (le_bytes n v)) = be_bytes n v.
Proof. apply be_of_bytes; [apply le_bytes_is_byte|apply length_le_bytes]. Qed.

Lemma length_encode format n array : length (encode format n array) = (length array * n)%nat.
Proof.
  unfold encode. induction array as [|v array IH]; [done|]. cbn [map concat length]. rewrite length_app, IH.
  destruct (decide _); rewrite ?length_le_bytes, ?length_be_bytes; lia.
Qed.

Lemma native_little : SCPI_GetNativeFormat = SCPI_FORMAT_SWAPPED.
Proof. reflexivity. Qed.

(** The header of a block, and what is owed after it. *)
Lemma header_run n c : Sends c -> 0 <= n < 10 ^ 9 ->
  exists h, SCPI_ResultArbitraryBlockHeader n c = Ok (Z.of_nat (length h), said h (with_arbitrary_reminding n c)).
Proof.
  intros Hc Hn. destruct (uint32_decimal n 10 ltac:(lia) ltac:(lia)) as (head & E & _).
  unfold SCPI_ResultArbitraryBlockHeader. rewrite (wrap_small 32) by lia. rewrite E. erewrite bind_ok by reflexivity.
  erewrite bind_ok by reflexivity. eexists. apply writeData_says. now apply reminding_sends.
Qed.

(** C31: The binary result of an array that is not empty, and whose length has
    no more than nine digits, is a block of its elements' bytes, in each
    format in the order the format says, on this machine whose own order is
    least significant byte first: the swapping of 2, 4 and 8 byte elements,
    sent one by one, amounts to one block of the reversed elements. *)
Theorem array_is_block array n format c :
  Sends c -> item_size_ok n -> array <> [] -> Z.of_nat (length array * n) < 10 ^ 9 -> format <> SCPI_FORMAT_ASCII ->
  produceResultArrayBinary array n format c = SCPI_ResultArbitraryBlock (encode format n array) c.
Proof.
  intros Hc Hn Ha Hl Hf. unfold produceResultArrayBinary. rewrite native_little. destruct format; [done| |].
  - rewrite decide_False by done. cbv zeta.
    assert (forall swap, (forall v, le_bytes n (swap v) = be_bytes n v) -> (0 < n)%nat ->
      (r1 ← SCPI_ResultArbitraryBlockHeader (Z.of_nat (length array) * Z.of_nat n);
       r2 ← sum_of array (fun v => SCPI_ResultArbitraryBlockData (le_bytes n (swap v))); mret (r1 + r2)) c =
      SCPI_ResultArbitraryBlock (encode SCPI_FORMAT_NORMAL n array) c) as Hswap.
    { intros swap Hs Hn0. unfold SCPI_ResultArbitraryBlock. rewrite length_encode, Nat2Z.inj_mul.
      destruct (header_run (Z.of_nat (length array) * Z.of_nat n) c Hc ltac:(lia)) as [h E].
      rewrite !(bind_ok _ _ _ _ _ E).
      assert (concat (map (fun v => le_bytes n (swap v)) array) = encode SCPI_FORMAT_NORMAL n array) as Ee
        by (unfold encode; rewrite decide_True by done; f_equal; apply map_ext; exact Hs).
      assert (sum_of array (fun v => SCPI_ResultArbitraryBlockData (le_bytes n (swap v))) (said h (with_arbitrary_reminding (Z.of_nat (length array) * Z.of_nat n) c)) =
        SCPI_ResultArbitraryBlockData (encode SCPI_FORMAT_NORMAL n array) (said h (with_arbitrary_reminding (Z.of_nat (length array) * Z.of_nat n) c))) as Es.
      { rewrite <- Ee. apply (pieces_run (fun v => le_bytes n (swap v))); [now apply said_sends, reminding_sends|done| |].
        - apply Forall_forall. intros v _ E0. apply (f_equal length) in E0. rewrite length_le_bytes in E0. cbn in E0. lia.
        - rewrite Ee, length_encode. cbn. lia. }
      unfold mbind, M_bind. now rewrite Es. }
    destruct Hn as [->|[->|[->| ->]]].
    + unfold SCPI_ResultArbitraryBlock. rewrite length_encode, Nat2Z.inj_mul. reflexivity.
    + apply Hswap; [intros v; rewrite Swap16_value; apply be_of_value|lia].
    + apply Hswap; [intros v; rewrite Swap32_value; apply be_of_value|lia].
    + apply Hswap; [intros v; rewrite Swap64_value; apply be_of_value|lia].
  - rewrite decide_True by done. destruct Hn as [->|[->|[->| ->]]]; reflexivity.
Qed.

Lemma array_is_block_witness :
  (Sends reply_client /\ item_size_ok 2) /\
  produceResultArrayBinary [0x0102; 0x0304] 2 SCPI_FORMAT_NORMAL reply_client =
    SCPI_ResultArbitraryBlock (encode SCPI_FORMAT_NORMAL 2 [0x0102; 0x0304]) reply_client.
Proof.
  assert (Sends reply_client) as H1 by (eexists; split; [reflexivity|done]).
  assert (item_size_ok 2) as H2 by (right; now left).
  split; [done|]. apply (array_is_block [0x0102; 0x0304] 2 SCPI_FORMAT_NORMAL reply_client H1 H2); done.
Defined.

(** Of an empty array whose bytes are to be swapped only the header is sent,
    which does not count as a result: no new line will follow. *)
Definition sent (r : res (Z * scpi_t)) : option (Z * Z * list Z) :=
  match r with Ok (n, c) => Some (n, output_count c, sink c) | _ => None end.

Lemma empty_array_not_counted :
  sent (SCPI_ResultArrayInt16 [] SCPI_FORMAT_NORMAL reply_client) = Some (3, 0, str "#10") /\
  sent (SCPI_ResultArrayInt16 [] SCPI_FORMAT_SWAPPED reply_client) = Some (3, 1, str "#10").
Proof. split; vm_compute; reflexivity. Qed.
