(* ===== verification/Scpi.v ===== *)
(** * Scpi: the firmware's commands

    src/scpi.c: the command table and its handlers, on the program's whole
    state, and the parts of src/ethernet.c they reach: the copy of a block
    that spans packets, and the loop that feeds packets to the parser.

    A command that acts on the chip is, in program mode, appended to the
    queue, and otherwise executed at once; [process_command] is that choice. *)

From Stdlib Require Import ZArith Lia SpecFloat String.
From stdpp Require Import base numbers list.
From S2P Require Import Prelude Hw Gpio Registers Ad9910 Flash Crc Config Float Convert Board Commands.
From S2P Require Import ScpiFifo Lexer ScpiCore ScpiMatch ScpiNumber ScpiParser Decimal ScpiUnits ScpiCommon.
#[local] Open Scope c_scope.

(** ** State *)

(** [es.pin]: the packet being read.  [LinePacket]: the one whose bytes the
    parser works on, in the memory of the SCPI context. *)
Inductive pin_t := NoPacket | LinePacket | Packet (payload : list Z).

Record firmware := mkFirmware {
    fw_scpi : scpi_t;
    fw_board : board;
    fw_mode : Z;             (** [current_mode] *)
    fw_execute : bool;       (** [command_execute_flag] *)
    fw_length : Z;           (** [parallel.length] *)
    fw_repeats : Z;          (** [parallel.repeats] *)
    fw_pin : pin_t;
    fw_packets : list (list Z);   (** the packets the network will deliver *)
  }.

#[export] Program Instance firmware_scpi : Lens scpi_t firmware :=
  {| view := fw_scpi;
     over c w := mkFirmware c (fw_board w) (fw_mode w) (fw_execute w) (fw_length w) (fw_repeats w)
                   (fw_pin w) (fw_packets w) |}.
Solve Obligations with (intros; repeat match goal with x : firmware |- _ => destruct x end; reflexivity).

#[export] Program Instance firmware_board : Lens board firmware :=
  {| view := fw_board;
     over b w := mkFirmware (fw_scpi w) b (fw_mode w) (fw_execute w) (fw_length w) (fw_repeats w)
                   (fw_pin w) (fw_packets w) |}.
Solve Obligations with (intros; repeat match goal with x : firmware |- _ => destruct x end; reflexivity).

Definition set_mode (v : Z) : M firmware unit :=
  modify (fun w => mkFirmware (fw_scpi w) (fw_board w) v (fw_execute w) (fw_length w) (fw_repeats w)
                     (fw_pin w) (fw_packets w)).
Definition set_execute (v : bool) : M firmware unit :=
  modify (fun w => mkFirmware (fw_scpi w) (fw_board w) (fw_mode w) v (fw_length w) (fw_repeats w)
                     (fw_pin w) (fw_packets w)).
Definition set_length (v : Z) : M firmware unit :=
  modify (fun w => mkFirmware (fw_scpi w) (fw_board w) (fw_mode w) (fw_execute w) v (fw_repeats w)
                     (fw_pin w) (fw_packets w)).
Definition set_repeats (v : Z) : M firmware unit :=
  modify (fun w => mkFirmware (fw_scpi w) (fw_board w) (fw_mode w) (fw_execute w) (fw_length w) v
                     (fw_pin w) (fw_packets w)).
Definition set_pin (p : pin_t) (ps : list (list Z)) : M firmware unit :=
  modify (fun w => mkFirmware (fw_scpi w) (fw_board w) (fw_mode w) (fw_execute w) (fw_length w)
                     (fw_repeats w) p ps).

(** A function of the library, of the driver, of the store. *)
Definition lib {A} (m : M scpi_t A) : M firmware A := zoom m.
Definition drv {A} (m : M board A) : M firmware A := zoom m.
Definition on_hw {A} (m : M hw A) : M firmware A := drv (zoom m).
Definition on_regs {A} (m : M ad9910_registers A) : M firmware A := drv (zoom (zoom m : M dds A)).
Definition on_dds {A} (m : M dds A) : M firmware A := drv (zoom m).
Definition on_store {A} (m : M store A) : M firmware A := drv (zoom m).
Definition on_queue {A} (m : M queue A) : M firmware A := drv (zoom m).

Definition scpi_push (err : Z) : M firmware unit := lib (push err).
(** [SCPI_ErrorPush(context, err); return SCPI_RES_ERR;] *)
Definition reject (err : Z) : M firmware Z := scpi_push err;; mret SCPI_RES_ERR.

(** ** Callbacks of the library *)

Definition scpi_mode_normal : Z := 0.
Definition scpi_mode_program : Z := 1.
Definition scpi_mode_execute : Z := 2.

Definition scpi_mode_choices : choices_t :=
  mkChoices [ (str "NORMal", scpi_mode_normal); (str "PROGram", scpi_mode_program);
              (str "EXECute", scpi_mode_execute) ] true.

Definition PARALLEL_BUF_SIZE : Z := 1024 * 60.
Definition SCPI_ERROR_QUEUE_SIZE : Z := 17.

(** [**ERROR: %d, "%s"]. *)
Definition scpi_error (err : Z) (out : list Z) : Z * list Z :=
  (0, out ++ str "**ERROR: " ++ fmt_d (s16 err) ++ str ", " ++ [34] ++ SCPI_ErrorTranslate err ++ [34]).

Definition scpi_write (d : list Z) (out : list Z) : Z * list Z := (Z.of_nat (length d), out ++ d).

Definition scpi_interface : scpi_interface_t := mkIface (Some scpi_error) scpi_write None None None.

Definition scpi_init (out : list Z) : scpi_t :=
  SCPI_Init (Some scpi_interface)
    [Some (str "LOREM-IPSUM"); Some (str "CamDDS"); None; Some (str "2016-04-26")]
    (replicate (Z.to_nat SCPI_ERROR_QUEUE_SIZE) 0) SCPI_ERROR_QUEUE_SIZE [] out.

Section Handlers.
Context `{E : Env} `{FE : FlashEnv} `{Lk : Link} `{Lm : Libm}.

(** ** The network *)

(** [ethernet_next_packet]: the next packet, once there is one. *)
Definition ethernet_next_packet : M firmware unit :=
  ps ← gets fw_packets;
  match ps with
  | [] => hang
  | p :: ps => set_pin (Packet p) ps
  end.

(** [es.pin->payload], as long as [es.pin->len]. *)
Definition pin_payload : M firmware (list Z) :=
  p ← gets fw_pin;
  match p with
  | NoPacket => fail NullDeref
  | LinePacket => lib (gets memory)
  | Packet payload => mret payload
  end.

(** The rounds of [ethernet_copy_data] from [i] on: what they copy.  Every
    round but the last takes a packet. *)
Fixpoint copy_data (fuel : nat) (len i offset : Z) : M firmware (list Z) :=
  match fuel with
  | O => hang
  | S fuel =>
      if i <? len then
        payload ← pin_payload;
        let copy_len := Z.min (u32 (Z.of_nat (length payload) - offset)) (len - i) in
        part ← deref OutOfBounds (read_bytes (Z.to_nat offset) (Z.to_nat copy_len) payload);
        let i := i + copy_len in
        when (i <? len) ethernet_next_packet;;
        rest ← copy_data fuel len i 0;
        mret (part ++ rest)
      else mret []
  end.

Definition ethernet_copy_data (len offset : Z) : M firmware (list Z) :=
  ps ← gets fw_packets;
  copy_data (S (S (length ps))) len 0 offset.

(** ** Commands to the queue or to the chip *)

(** [DEFINE_PROCESS_COMMAND]. *)
Definition process_command (execute : M board Z) (queue_it : M queue Z) : M firmware unit :=
  mode ← gets fw_mode;
  if mode =? scpi_mode_program then on_queue queue_it;; mret tt
  else drv execute;; mret tt.

Definition scpi_process_command_pin (p : gpio_pin) (value : Z) : M firmware unit :=
  process_command (execute_command_pin (command_pin p value) 0) (command_queue_pin p value).
Definition scpi_process_command_register (f : ad9910_register_bit) (value : Z) : M firmware unit :=
  process_command (execute_command_register f value) (command_queue_register (field_addr f) value).
Definition scpi_process_command_trigger : M firmware unit :=
  process_command execute_command_trigger command_queue_trigger.
Definition scpi_process_command_update : M firmware unit :=
  process_command execute_command_update command_queue_update.
Definition scpi_process_command_wait (delay : Z) : M firmware unit :=
  process_command (execute_command_wait (command_wait delay) 0) (command_queue_wait delay).
Definition scpi_process_command_parallel (data length repeats : Z) : M firmware unit :=
  process_command (execute_command_parallel (command_parallel data length repeats) 0)
    (command_queue_parallel data length repeats).

Definition scpi_process_wait (time : Z) : M firmware unit := scpi_process_command_wait time.
Definition scpi_process_trigger : M firmware unit := scpi_process_command_trigger.

(** ** Parameters *)

(** The conversion of a double to [uint32_t]. *)
Definition u32_of_f64 : spec_float -> option Z := u32_of_f32.

Definition f64 (m e : Z) : spec_float := f64_of_decimal false m e.
Definition lt0 (x : spec_float) : bool := SFltb x (f64_of_Z 0).
Definition gt (x y : spec_float) : bool := SFltb y x.

(** What the parameter functions share: the number, or [None] if there is
    none, in which case the error has been pushed or is the caller's. *)
Definition param_number : M firmware (option scpi_number_t) :=
  r ← lib (SCPI_ParamNumber scpi_special_numbers_def true);
  let '(ok, value) := r in mret (if (ok : bool) then Some value else None).

(** [None] is [SCPI_RES_ERR]. *)
Definition refuse (err : Z) : M firmware (option Z) := scpi_push err;; mret None.
Definition accept (o : option Z) : M firmware (option Z) :=
  v ← deref BadConversion o; mret (Some v).

Definition scpi_param_frequency : M firmware (option Z) :=
  r ← param_number;
  match r with
  | None => mret None
  | Some value =>
      if n_special value then
        if n_tag value =? SCPI_NUM_MIN then mret (Some 0)
        else if n_tag value =? SCPI_NUM_MAX then
          accept (ad9910_convert_frequency (f32_of_f64 (f64 400 6)))
        else refuse SCPI_ERROR_ILLEGAL_PARAMETER_VALUE
      else if decide (n_unit value = SCPI_UNIT_NONE) then
        if lt0 (n_value value) || gt (n_value value) (f64_of_Z ad9910_max_frequency)
        then refuse SCPI_ERROR_DATA_OUT_OF_RANGE
        else accept (u32_of_f64 (n_value value))
      else if decide (n_unit value = SCPI_UNIT_HERTZ) then
        if lt0 (n_value value) || gt (n_value value) (f64 400 6)
        then refuse SCPI_ERROR_DATA_OUT_OF_RANGE
        else accept (ad9910_convert_frequency (f32_of_f64 (n_value value)))
      else refuse SCPI_ERROR_INVALID_SUFFIX
  end.

Definition scpi_param_amplitude : M firmware (option Z) :=
  r ← param_number;
  match r with
  | None => mret None
  | Some value =>
      if n_special value then
        if n_tag value =? SCPI_NUM_MIN then mret (Some 0)
        else if n_tag value =? SCPI_NUM_MAX then mret (Some ad9910_max_amplitude)
        else refuse SCPI_ERROR_ILLEGAL_PARAMETER_VALUE
      else if decide (n_unit value = SCPI_UNIT_NONE) then
        if lt0 (n_value value) || gt (n_value value) (f64_of_Z ad9910_max_amplitude)
        then refuse SCPI_ERROR_DATA_OUT_OF_RANGE
        else accept (u32_of_f64 (n_value value))
      else if decide (n_unit value = SCPI_UNIT_DBM) then
        if gt (n_value value) (f64_of_Z 0) then refuse SCPI_ERROR_DATA_OUT_OF_RANGE
        else accept (ad9910_convert_amplitude (f32_of_f64 (n_value value)))
      else refuse SCPI_ERROR_INVALID_SUFFIX
  end.

(** [*rate = nearbyintf(1e9 / value.value)]. *)
Definition ramp_rate_of (v : spec_float) : option Z :=
  u32_of_f32 (nearbyintf (f32_of_f64 (ddiv (f64 1 9) v))).

Definition scpi_param_ramp_rate : M firmware (option Z) :=
  r ← param_number;
  match r with
  | None => mret None
  | Some value =>
      if n_special value then
        if n_tag value =? SCPI_NUM_MIN then mret (Some 0xFFFF)
        else if n_tag value =? SCPI_NUM_MAX then mret (Some 1)
        else refuse SCPI_ERROR_ILLEGAL_PARAMETER_VALUE
      else if decide (n_unit value = SCPI_UNIT_NONE) then
        if lt0 (n_value value) || gt (n_value value) (f64_of_Z 0xFFFF)
        then refuse SCPI_ERROR_DATA_OUT_OF_RANGE
        else accept (u32_of_f64 (n_value value))
      else if decide (n_unit value = SCPI_UNIT_HERTZ) then
        if SFltb (n_value value) (ddiv (f64 1 9) (f64_of_Z 0xFFFF)) || gt (n_value value) (f64 1 9)
        then refuse SCPI_ERROR_DATA_OUT_OF_RANGE
        else accept (ramp_rate_of (n_value value))
      else refuse SCPI_ERROR_INVALID_SUFFIX
  end.

Definition scpi_param_ramp : M firmware (option Z) :=
  r ← param_number;
  match r with
  | None => mret None
  | Some value =>
      if n_special value then refuse SCPI_ERROR_ILLEGAL_PARAMETER_VALUE
      else if decide (n_unit value = SCPI_UNIT_NONE) then
        if lt0 (n_value value) || gt (n_value value) (f64_of_Z ad9910_max_frequency)
        then refuse SCPI_ERROR_DATA_OUT_OF_RANGE
        else accept (u32_of_f64 (n_value value))
      else if decide (n_unit value = SCPI_UNIT_DBM) then
        if gt (n_value value) (f64_of_Z 0) then refuse SCPI_ERROR_DATA_OUT_OF_RANGE
        else accept ((fun a => u32 (a <<< 18)) <$> ad9910_convert_amplitude (f32_of_f64 (n_value value)))
      else if decide (n_unit value = SCPI_UNIT_HERTZ) then
        if lt0 (n_value value) || gt (n_value value) (f64 400 6)
        then refuse SCPI_ERROR_DATA_OUT_OF_RANGE
        else accept (ad9910_convert_frequency (f32_of_f64 (n_value value)))
      else refuse SCPI_ERROR_INVALID_SUFFIX
  end.

(** The result, and the four bytes [target] points to afterwards: the
    conversions before the first that fails have been stored. *)
Definition scpi_param_ip_address (target : list Z) : M firmware (Z * list Z) :=
  let refused target := scpi_push SCPI_ERROR_ILLEGAL_PARAMETER_VALUE;; mret (SCPI_RES_ERR, target) in
  r ← lib (SCPI_ParamCharacters true);
  match r with
  | None => refused target
  | Some (input, len) =>
      if 15 <? len then refused target
      else
        mem ← lib (gets memory);
        let octets := scan_octets 4 (take (Z.to_nat len) (drop (Z.to_nat input) mem)) in
        let target := octets ++ drop (length octets) target in
        if negb (Z.of_nat (length octets) =? 4) then refused target else mret (SCPI_RES_OK, target)
  end.

(** ** Replies *)

Definition scpi_print_unit (value : spec_float) (unit : scpi_unit_t) : M firmware Z :=
  let number := mkNumber false (f64_of_f32 value) 0 unit 10 in
  lib (SCPI_ResultCharacters (SCPI_NumberToStr scpi_special_numbers_def number));;
  mret SCPI_RES_OK.
Definition scpi_print_amplitude (amplitude : spec_float) : M firmware Z :=
  scpi_print_unit amplitude SCPI_UNIT_DBM.
Definition scpi_print_frequency (freq : spec_float) : M firmware Z := scpi_print_unit freq SCPI_UNIT_HERTZ.
Definition scpi_print_phase (phase : spec_float) : M firmware Z := scpi_print_unit phase SCPI_UNIT_RADIAN.

(** [%hhu.%hhu.%hhu.%hhu], into 16 bytes: the longest text has 15. *)
Definition scpi_print_ip_address (source : list Z) : M firmware Z :=
  let octet i := fmt_d (u8 (default 0 (source !! i))) in
  lib (SCPI_ResultCharacters
         (octet 0%nat ++ [46] ++ octet 1%nat ++ [46] ++ octet 2%nat ++ [46] ++ octet 3%nat));;
  mret SCPI_RES_OK.

Definition scpi_print_pin (pin : gpio_pin) : M firmware Z :=
  v ← on_hw (gpio_get pin);
  lib (SCPI_ResultBool (truthy v));;
  mret SCPI_RES_OK.

Definition scpi_print_register (reg : ad9910_register_bit) (printer : Z -> M firmware Z) : M firmware Z :=
  v ← on_regs (ad9910_get_value reg); printer v.

Definition ad9910_ramp_dest_frequency : Z := 0.
Definition ad9910_ramp_dest_phase : Z := 1.
Definition ad9910_ramp_dest_amplitude : Z := 2.

Definition scpi_print_ramp (value : Z) : M firmware Z :=
  dest ← on_regs (ad9910_get_value ad9910_digital_ramp_destination);
  if dest =? ad9910_ramp_dest_frequency then scpi_print_frequency (ad9910_backconvert_frequency value)
  else if dest =? ad9910_ramp_dest_phase then scpi_print_phase (ad9910_backconvert_phase value)
  else if dest =? ad9910_ramp_dest_amplitude then scpi_print_amplitude (ad9910_backconvert_amplitude value)
  else mret SCPI_RES_ERR.

(** The result of [SCPI_ResultBool], the number of bytes, is returned. *)
Definition scpi_print_boolean (value : Z) : M firmware Z := lib (SCPI_ResultBool (truthy value)).

(** A choice's name; the pointer is not set if there is none. *)
Definition print_choice (options : choices_t) (tag : Z) : M firmware Z :=
  name ← deref DanglingPtr (SCPI_ChoiceToName options tag);
  lib (SCPI_ResultCharacters name);;
  mret SCPI_RES_OK.

(** ** Handlers *)

Definition scpi_parse_register_command (reg : ad9910_register_bit) (parser : M firmware (option Z))
    : M firmware Z :=
  r ← parser;
  match r with
  | None => mret SCPI_RES_ERR
  | Some value => scpi_process_command_register reg value;; mret SCPI_RES_OK
  end.

Definition scpi_parse_pin_command (pin : gpio_pin) : M firmware Z :=
  r ← lib (SCPI_ParamBool true);
  match r with
  | (true, v) => scpi_process_command_pin pin (b2z (default false v));; mret SCPI_RES_OK
  | (false, _) => mret SCPI_RES_ERR
  end.

(** A parameter that must be one of the choices. *)
Definition with_choice (options : choices_t) (k : Z -> M firmware Z) : M firmware Z :=
  r ← lib (SCPI_ParamChoice options true);
  match r with
  | (true, Some value) => k value
  | _ => mret SCPI_RES_ERR
  end.

Definition scpi_callback_test_q : M firmware Z := lib (SCPI_ResultInt32 0);; mret SCPI_RES_OK.

Definition scpi_callback_mode : M firmware Z :=
  with_choice scpi_mode_choices (fun value =>
    set_mode value;;
    when (value =? scpi_mode_execute) (set_execute true;; set_mode scpi_mode_normal);;
    mret SCPI_RES_OK).
Definition scpi_callback_mode_q : M firmware Z :=
  mode ← gets fw_mode; print_choice scpi_mode_choices mode.

(** [parallel.buffer] as bytes. *)
Definition sample_bytes (samples : list Z) : list Z := concat (map (le_bytes 2) samples).
Fixpoint samples_of (bs : list Z) : list Z :=
  match bs with
  | b0 :: b1 :: bs => of_le [b0; b1] :: samples_of bs
  | _ => []
  end.

Definition scpi_callback_parallel_data : M firmware Z :=
  r ← lib (SCPI_ParamArbitraryBlock true);
  match r with
  | None => mret SCPI_RES_ERR
  | Some (_, len) =>
      if PARALLEL_BUF_SIZE <? len then reject SCPI_ERROR_TOO_MUCH_DATA
      else
        set_length len;;
        st ← lib (gets lex_state);
        raw ← lib (gets cmd_raw);
        bytes ← ethernet_copy_data len (u32 (l_pos st - fst raw - len));
        samples ← drv (gets b_samples);
        drv (set_samples (samples_of (bytes ++ drop (length bytes) (sample_bytes samples))));;
        lib (SCPI_ResultUInt32Base (Z.of_nat (length bytes)) 10);;
        mret SCPI_RES_OK
  end.

Definition scpi_callback_parallel_data_q : M firmware Z :=
  samples ← drv (gets b_samples);
  n ← gets fw_length;
  lib (SCPI_ResultArbitraryBlock (take (Z.to_nat n) (sample_bytes samples)));;
  mret SCPI_RES_OK.

Definition scpi_callback_parallel_frequency : M firmware Z :=
  r ← param_number;
  match r with
  | None => mret SCPI_RES_ERR
  | Some value =>
      if negb (n_special value) || bool_decide (n_unit value <> SCPI_UNIT_HERTZ)
      then reject SCPI_ERROR_ILLEGAL_PARAMETER_VALUE
      else if lt0 (n_value value) || gt (n_value value) (f64 1 6)
      then reject SCPI_ERROR_DATA_OUT_OF_RANGE
      else
        mode ← gets fw_mode;
        let frequency := f32_of_f64 (n_value value) in
        (if mode =? scpi_mode_program
         then on_queue (command_queue_parallel_frequency frequency);; mret tt
         else on_hw (ad9910_set_parallel_frequency frequency);; mret tt);;
        mret SCPI_RES_OK
  end.

Definition scpi_callback_parallel_frequency_q : M firmware Z :=
  f ← on_hw ad9910_get_parallel_frequency; scpi_print_frequency f.

Definition scpi_callback_parallel_ncycles : M firmware Z :=
  r ← lib (SCPI_ParamUInt32 true);
  match r with
  | (true, v) => set_repeats (default 0 v);; mret SCPI_RES_OK
  | (false, _) => mret SCPI_RES_ERR
  end.
Definition scpi_callback_parallel_ncycles_q : M firmware Z :=
  n ← gets fw_repeats; lib (SCPI_ResultUInt32Base n 10);; mret SCPI_RES_OK.

(** The value given is read and not used. *)
Definition scpi_callback_parallel_state : M firmware Z :=
  r ← lib (SCPI_ParamBool true);
  match r with
  | (true, _) =>
      n ← gets fw_length; k ← gets fw_repeats;
      scpi_process_command_parallel samples_addr n k;; mret SCPI_RES_OK
  | (false, _) => mret SCPI_RES_ERR
  end.
Definition scpi_callback_parallel_state_q : M firmware Z :=
  scpi_print_register ad9910_parallel_data_port_enable scpi_print_boolean.

Definition parallel_target_choices : choices_t :=
  mkChoices [ (str "FREQuency", 2); (str "AMPLitude", 0); (str "PHASe", 1); (str "POLar", 3) ] true.

Definition scpi_callback_parallel_target : M firmware Z :=
  with_choice parallel_target_choices (fun value =>
    scpi_process_command_pin PARALLEL_F0 (value &&& 1);;
    scpi_process_command_pin PARALLEL_F1 (b2z (truthy (value &&& 2)));;
    mret SCPI_RES_OK).
Definition scpi_callback_parallel_target_q : M firmware Z :=
  f0 ← on_hw (gpio_get PARALLEL_F0);
  f1 ← on_hw (gpio_get PARALLEL_F1);
  print_choice parallel_target_choices (f0 ||| (f1 <<< 1)).

Definition scpi_callback_output_state : M firmware Z := scpi_parse_pin_command RF_SWITCH.
Definition scpi_callback_output_state_q : M firmware Z := scpi_print_pin RF_SWITCH.

Definition scpi_callback_output_frequency : M firmware Z :=
  scpi_parse_register_command ad9910_profile_frequency scpi_param_frequency.
Definition scpi_callback_output_frequency_q : M firmware Z :=
  freq ← on_regs (ad9910_get_profile_value 0 ad9910_profile_frequency);
  scpi_print_frequency (ad9910_backconvert_frequency freq).

Definition scpi_callback_output_amplitude : M firmware Z :=
  scpi_parse_register_command ad9910_profile_amplitude scpi_param_amplitude.
Definition scpi_callback_output_amplitude_q : M firmware Z :=
  ampl ← on_regs (ad9910_get_profile_value 0 ad9910_profile_amplitude);
  scpi_print_amplitude (ad9910_backconvert_amplitude ampl).

Definition scpi_callback_ramp_boundary_minimum : M firmware Z :=
  scpi_parse_register_command ad9910_ramp_lower_limit scpi_param_ramp.
Definition scpi_callback_ramp_boundary_minimum_q : M firmware Z :=
  scpi_print_register ad9910_ramp_lower_limit scpi_print_ramp.
Definition scpi_callback_ramp_boundary_maximum : M firmware Z :=
  scpi_parse_register_command ad9910_ramp_upper_limit scpi_param_ramp.
Definition scpi_callback_ramp_boundary_maximum_q : M firmware Z :=
  scpi_print_register ad9910_ramp_upper_limit scpi_print_ramp.
Definition scpi_callback_ramp_step_up : M firmware Z :=
  scpi_parse_register_command ad9910_ramp_increment_step scpi_param_ramp.
Definition scpi_callback_ramp_step_up_q : M firmware Z :=
  scpi_print_register ad9910_ramp_increment_step scpi_print_ramp.
Definition scpi_callback_ramp_step_down : M firmware Z :=
  scpi_parse_register_command ad9910_ramp_decrement_step scpi_param_ramp.
Definition scpi_callback_ramp_step_down_q : M firmware Z :=
  scpi_print_register ad9910_ramp_decrement_step scpi_print_ramp.
Definition scpi_callback_ramp_rate_up : M firmware Z :=
  scpi_parse_register_command ad9910_ramp_positive_rate scpi_param_ramp_rate.
Definition scpi_callback_ramp_rate_up_q : M firmware Z :=
  v ← on_regs (ad9910_get_value ad9910_ramp_positive_rate);
  scpi_print_frequency (ad9910_backconvert_frequency v).
Definition scpi_callback_ramp_rate_down : M firmware Z :=
  scpi_parse_register_command ad9910_ramp_negative_rate scpi_param_ramp_rate.
Definition scpi_callback_ramp_rate_down_q : M firmware Z :=
  v ← on_regs (ad9910_get_value ad9910_ramp_negative_rate);
  scpi_print_frequency (ad9910_backconvert_frequency v).

Definition ramp_mode_choices : choices_t :=
  mkChoices [ (str "SINGle", 0); (str "DOWNSAWtooth", 1); (str "UPSAWtooth", 2);
              (str "OSCillating", 3) ] true.

Definition scpi_callback_ramp_mode : M firmware Z :=
  with_choice ramp_mode_choices (fun value =>
    let low := value &&& 1 in
    let high := value &&& 2 in
    scpi_process_command_register ad9910_digital_ramp_no_dwell_high high;;
    scpi_process_command_register ad9910_digital_ramp_no_dwell_low low;;
    mret SCPI_RES_OK).
Definition scpi_callback_ramp_mode_q : M firmware Z :=
  low ← on_regs (ad9910_get_value ad9910_digital_ramp_no_dwell_low);
  high ← on_regs (ad9910_get_value ad9910_digital_ramp_no_dwell_high);
  print_choice ramp_mode_choices (low ||| (high <<< 1)).

Definition scpi_callback_ramp_direction : M firmware Z := scpi_parse_pin_command DRCTL.
Definition scpi_callback_ramp_direction_q : M firmware Z := scpi_print_pin DRCTL.

Definition ramp_target_off : Z := 0xFF.
Definition ramp_target_choices : choices_t :=
  mkChoices [ (str "OFF", ramp_target_off); (str "AMPLitude", ad9910_ramp_dest_amplitude);
              (str "FREQuency", ad9910_ramp_dest_frequency); (str "PHASe", ad9910_ramp_dest_phase) ] true.

Definition scpi_callback_ramp_target : M firmware Z :=
  with_choice ramp_target_choices (fun value =>
    (if value =? ramp_target_off then scpi_process_command_register ad9910_digital_ramp_enable 0
     else scpi_process_command_register ad9910_digital_ramp_destination value;;
          scpi_process_command_register ad9910_digital_ramp_enable 1);;
    mret SCPI_RES_OK).
Definition scpi_callback_ramp_target_q : M firmware Z :=
  enabled ← on_regs (ad9910_get_value ad9910_digital_ramp_enable);
  value ← (if truthy enabled then on_regs (ad9910_get_value ad9910_digital_ramp_destination)
           else mret ramp_target_off);
  print_choice ramp_target_choices value.

Definition print_helper : list (reg_name * list Z) :=
  [ (cfr1, str "CFR1:"); (cfr2, str "CFR2:"); (cfr3, str "CFR3:"); (aux_dac_ctl, str "AUX DAC CTL:");
    (io_update_rate, str "IO UPDATE RATE:"); (ftw, str "FTW:"); (Registers.pow, str "POW:");
    (asf, str "ASF:"); (multichip_sync, str "MULTICHIP SYNC:"); (ramp_limit, str "RAMP LIMIT:");
    (ramp_step, str "RAMP STEP:"); (ramp_rate, str "RAMP RATE:"); (prof0, str "PROFILE 0:");
    (prof1, str "PROFILE 1:"); (prof2, str "PROFILE 2:"); (prof3, str "PROFILE 3:");
    (prof4, str "PROFILE 4:"); (prof5, str "PROFILE 5:"); (prof6, str "PROFILE 6:");
    (prof7, str "PROFILE 7:") ].

(** [sizeof(header)] counts the zero that ends the text. *)
Definition register_header : list Z :=
  str "Register:               DDS              Shadow" ++ [0].

(** The register is read from the chip before its shadow is. *)
Definition scpi_callback_register_q : M firmware Z :=
  lib (SCPI_ResultCharacters register_header);;
  for_each print_helper (fun '(name, text) =>
    v ← on_dds (ad9910_read_register (Registers.reg_index name));
    r ← on_regs (reg_at (Registers.reg_index name));
    lib (SCPI_ResultCharacters
           ([10] ++ fmt_s16 text ++ str "0x" ++ fmt_llx16 v ++ str " 0x" ++
            fmt_llx16 (Registers.value r)));;
    mret tt);;
  mret SCPI_RES_OK.

Definition scpi_callback_system_pll_q : M firmware Z := scpi_print_pin PLL_LOCK.
Definition scpi_callback_startup_clear : M firmware Z := drv startup_command_clear;; mret SCPI_RES_OK.
Definition scpi_callback_startup_save : M firmware Z := drv startup_command_save;; mret SCPI_RES_OK.

(** The stored configuration, copied. *)
Definition config_copy : M store config :=
  p ← config_get; bs ← load_config p; mret (config_of_bytes bs).

(** The setters differ in the field they read and store.  [SCPI_RES_ERR] is
    not zero, so that [!scpi_param_ip_address(...)] never holds. *)
Definition set_network (get : ethernet_config -> list Z)
    (put : list Z -> ethernet_config -> ethernet_config) : M firmware Z :=
  conf ← on_store config_copy;
  r ← scpi_param_ip_address (get (ethernet conf));
  let '(result, target) := r in
  if result =? 0 then mret SCPI_RES_ERR
  else
    on_store (config_write (RamConf (mkConfig (put target (ethernet conf)))));;
    mret SCPI_RES_OK.

Definition put_address (t : list Z) (e : ethernet_config) := mkEthConf t (c_submask e) (c_gateway e).
Definition put_submask (t : list Z) (e : ethernet_config) := mkEthConf (c_address e) t (c_gateway e).

Definition scpi_callback_system_network_address : M firmware Z := set_network c_address put_address.
Definition scpi_callback_system_network_submask : M firmware Z := set_network c_submask put_submask.
(** As the code has it, the submask. *)
Definition scpi_callback_system_network_gateway : M firmware Z := set_network c_submask put_submask.

Definition print_network (get : ethernet_config -> list Z) : M firmware Z :=
  conf ← on_store config_copy; scpi_print_ip_address (get (ethernet conf)).
Definition scpi_callback_system_network_address_q : M firmware Z := print_network c_address.
Definition scpi_callback_system_network_submask_q : M firmware Z := print_network c_submask.
Definition scpi_callback_system_network_gateway_q : M firmware Z := print_network c_gateway.

Definition scpi_callback_trigger_send : M firmware Z := scpi_process_command_update;; mret SCPI_RES_OK.

(** The list has no end mark. *)
Definition wait_choices : choices_t := mkChoices [ (str "MINimal", 0); (str "TRIGger", 1) ] false.

Definition scpi_callback_wait : M firmware Z :=
  r ← lib (SCPI_ParamNumber wait_choices true);
  let '(ok, value) := r in
  if negb ok then mret SCPI_RES_ERR
  else if n_special value then
    if n_tag value =? 0 then scpi_process_wait 1;; mret SCPI_RES_OK
    else if n_tag value =? 1 then scpi_process_trigger;; mret SCPI_RES_OK
    else mret SCPI_RES_ERR
  else if decide (n_unit value = SCPI_UNIT_SECOND) then
    t ← deref BadConversion (u32_of_f64 (dmul (n_value value) (f64_of_Z 1000)));
    scpi_process_wait t;; mret SCPI_RES_OK
  else if decide (n_unit value = SCPI_UNIT_NONE) then
    t ← deref BadConversion (u32_of_f64 (n_value value));
    scpi_process_wait t;; mret SCPI_RES_OK
  else reject SCPI_ERROR_INVALID_SUFFIX.

Definition scpi_callback_trigger_wait : M firmware Z := scpi_callback_wait.

Definition scpi_callback_sequence_clear : M firmware Z := on_queue commands_clear;; mret SCPI_RES_OK.

Definition scpi_callback_sequence_ncycles : M firmware Z :=
  r ← param_number;
  match r with
  | None => mret SCPI_RES_ERR
  | Some value =>
      if n_special value then
        if n_tag value =? SCPI_NUM_INF then on_queue (commands_repeat (u32 (-1)));; mret SCPI_RES_OK
        else reject SCPI_ERROR_ILLEGAL_PARAMETER_VALUE
      else if decide (n_unit value = SCPI_UNIT_NONE) then
        n ← deref BadConversion (u32_of_f64 (n_value value));
        on_queue (commands_repeat n);; mret SCPI_RES_OK
      else reject SCPI_ERROR_INVALID_SUFFIX
  end.
Definition scpi_callback_sequence_ncycles_q : M firmware Z :=
  n ← on_queue get_commands_repeat;
  lib (SCPI_ResultUInt32Base n 10);; mret SCPI_RES_OK.

(** ** The table *)

Definition command (pattern : list Z) (m : M firmware Z) : scpi_command_t firmware :=
  mkCommand pattern (Some m).

(** [SCPI_PATTERNS_BOTH]: pattern, setter and query. *)
Definition patterns_both : list (list Z * M firmware Z * M firmware Z) :=
  [ (str "MODE", scpi_callback_mode, scpi_callback_mode_q);
    (str "OUTput:STATe", scpi_callback_output_state, scpi_callback_output_state_q);
    (str "OUTput:AMPLitude", scpi_callback_output_amplitude, scpi_callback_output_amplitude_q);
    (str "OUTput:FREQuency", scpi_callback_output_frequency, scpi_callback_output_frequency_q);
    (str "PARallel:DATa", scpi_callback_parallel_data, scpi_callback_parallel_data_q);
    (str "PARallel:FREQuency", scpi_callback_parallel_frequency, scpi_callback_parallel_frequency_q);
    (str "PARallel:NCYCles", scpi_callback_parallel_ncycles, scpi_callback_parallel_ncycles_q);
    (str "PARallel:STATe", scpi_callback_parallel_state, scpi_callback_parallel_state_q);
    (str "PARallel:TARget", scpi_callback_parallel_target, scpi_callback_parallel_target_q);
    (str "RAMP:BOUNDary:MAXimum", scpi_callback_ramp_boundary_maximum, scpi_callback_ramp_boundary_maximum_q);
    (str "RAMP:BOUNDary:MINimum", scpi_callback_ramp_boundary_minimum, scpi_callback_ramp_boundary_minimum_q);
    (str "RAMP:DIRection", scpi_callback_ramp_direction, scpi_callback_ramp_direction_q);
    (str "RAMP:MODE", scpi_callback_ramp_mode, scpi_callback_ramp_mode_q);
    (str "RAMP:RATE:DOWN", scpi_callback_ramp_rate_down, scpi_callback_ramp_rate_down_q);
    (str "RAMP:RATE:UP", scpi_callback_ramp_rate_up, scpi_callback_ramp_rate_up_q);
    (str "RAMP:STEP:DOWN", scpi_callback_ramp_step_down, scpi_callback_ramp_step_down_q);
    (str "RAMP:STEP:UP", scpi_callback_ramp_step_up, scpi_callback_ramp_step_up_q);
    (str "RAMP:TARget", scpi_callback_ramp_target, scpi_callback_ramp_target_q);
    (str "SEQuence:NCYCles", scpi_callback_sequence_ncycles, scpi_callback_sequence_ncycles_q);
    (str "SYSTem:NETwork:ADDRess", scpi_callback_system_network_address, scpi_callback_system_network_address_q);
    (str "SYSTem:NETwork:GATEway", scpi_callback_system_network_gateway, scpi_callback_system_network_gateway_q);
    (str "SYSTem:NETwork:SUBmask", scpi_callback_system_network_submask, scpi_callback_system_network_submask_q) ].

Definition patterns_no_query : list (list Z * M firmware Z) :=
  [ (str "SEQuence:CLEAR", scpi_callback_sequence_clear);
    (str "STARTup:CLEAR", scpi_callback_startup_clear);
    (str "STARTup:SAVE", scpi_callback_startup_save);
    (str "TRIGger:SEND", scpi_callback_trigger_send);
    (str "TRIGger:WAIT", scpi_callback_trigger_wait);
    (str "WAIT", scpi_callback_wait) ].

Definition patterns_only_query : list (list Z * M firmware Z) :=
  [ (str "*TST", scpi_callback_test_q);
    (str "REGister", scpi_callback_register_q);
    (str "SYSTem:PLL", scpi_callback_system_pll_q) ].

(** The library's own handlers. *)
Definition patterns_core : list (list Z * M scpi_t Z) :=
  [ (str "*CLS", SCPI_CoreCls_cmd); (str "*ESE", SCPI_CoreEse); (str "*ESE?", SCPI_CoreEseQ);
    (str "*ESR?", SCPI_CoreEsrQ); (str "*IDN?", SCPI_CoreIdnQ); (str "*OPC", SCPI_CoreOpc_cmd);
    (str "*OPC?", SCPI_CoreOpcQ); (str "*RST", SCPI_CoreRst); (str "*SRE", SCPI_CoreSre);
    (str "*SRE?", SCPI_CoreSreQ); (str "*STB?", SCPI_CoreStbQ); (str "*WAI", SCPI_CoreWai);
    (str "SYSTem:ERRor[:NEXT]?", SCPI_SystemErrorNextQ);
    (str "SYSTem:ERRor:COUNt?", SCPI_SystemErrorCountQ);
    (str "SYSTem:VERSion?", SCPI_SystemVersionQ) ].

Definition scpi_commands : list (scpi_command_t firmware) :=
  map (fun '(p, m) => command p (lib m)) patterns_core ++
  map (fun '(p, m, _) => command p m) patterns_both ++
  map (fun '(p, _, m) => command (p ++ str "?") m) patterns_both ++
  map (fun '(p, m) => command p m) patterns_no_query ++
  map (fun '(p, m) => command (p ++ str "?") m) patterns_only_query.

(** ** The main loop *)

Definition scpi_process (data len : Z) : M firmware bool := SCPI_Parse scpi_commands data len.

(** One round of [ethernet_loop]. *)
Definition ethernet_round : M firmware unit :=
  ethernet_next_packet;;
  execute ← gets fw_execute;
  when execute (drv commands_execute;; set_execute false);;
  payload ← pin_payload;
  lib (modify (with_memory payload));;
  ps ← gets fw_packets;
  set_pin LinePacket ps;;
  scpi_process 0 (Z.of_nat (length payload));;
  mret tt.
End Handlers.
