(* ===== verification/ScpiEnds.v ===== *)
(** * ScpiEnds: every line of commands comes to an end

    For each operation the handlers of Scpi.v reach, down to the polling
    loops of the SPI unit and the flash controller, that it ends in every
    state; and from there that parsing any line ends, as long as it names
    none of the commands that wait for the outside. *)

From Stdlib Require Import ZArith Lia SpecFloat String.
From stdpp Require Import base numbers list.
From S2P Require Import Prelude Hw Gpio Spi Registers Ad9910 Flash Crc Config Float Convert Board Commands.
From S2P Require Import ScpiFifo Lexer ScpiCore ScpiMatch ScpiNumber ScpiParser Decimal ScpiUnits ScpiCommon Scpi.
#[local] Open Scope c_scope.

#[local] Hint Constants Opaque : ends.

(** ** The hardware *)

Section Hardware.
Context `{E : Env}.

Lemma gpio_set_ends p v : ends (gpio_set p v).
Proof. intros h. rewrite gpio_set_ok. discriminate. Qed.

Lemma gpio_get_ends p : ends (gpio_get p).
Proof. intros h. discriminate. Qed.

Lemma spi_send_single_ends b : ends (spi_send_single b).
Proof. intros h. rewrite spi_send_single_ok. discriminate. Qed.

Lemma spi_wait_ends : ends spi_wait.
Proof. intros h. rewrite spi_wait_ok. discriminate. Qed.

Lemma write_DR_ends b : ends (write_SPI1_DR b).
Proof. intros h. unfold write_SPI1_DR. now case_match. Qed.

Lemma read_DR_ends : ends read_SPI1_DR.
Proof. intros h. discriminate. Qed.

#[local] Hint Resolve spi_wait_ends write_DR_ends read_DR_ends : ends.

Lemma spi_write_multi_ends data n : ends (spi_write_multi data n).
Proof. unfold spi_write_multi. ending. Qed.
End Hardware.
#[export] Hint Resolve gpio_set_ends gpio_get_ends spi_send_single_ends spi_wait_ends
  spi_write_multi_ends : ends.

(** ** Driver, flash and queue *)

Section Driver.
Context `{E : Env} `{FE : FlashEnv} `{Lk : Link}.

Lemma reg_at_ends i : ends (reg_at i).
Proof. intros rs. unfold reg_at. now case_match. Qed.

Lemma update_at_ends i f : ends (update_at i f).
Proof. intros rs. unfold update_at. now case_match. Qed.

#[local] Hint Resolve reg_at_ends update_at_ends : ends.

Lemma set_value_ends f v : ends (ad9910_set_value f v).
Proof. unfold ad9910_set_value. ending. Qed.

Lemma get_value_ends f : ends (ad9910_get_value f).
Proof. unfold ad9910_get_value. ending. Qed.

Lemma get_profile_value_ends p f : ends (ad9910_get_profile_value p f).
Proof. unfold ad9910_get_profile_value. ending. Qed.

Lemma update_reg_ends i : ends (ad9910_update_reg i).
Proof. unfold ad9910_update_reg. ending. Qed.

#[local] Hint Resolve set_value_ends get_value_ends get_profile_value_ends update_reg_ends : ends.

Lemma update_matching_reg_ends f : ends (ad9910_update_matching_reg f).
Proof. unfold ad9910_update_matching_reg. ending. Qed.

Lemma io_update_ends : ends ad9910_io_update.
Proof. unfold ad9910_io_update, gpio_set_high, gpio_set_low. ending; intros ?; discriminate. Qed.

Lemma read_bytes_be_ends n out : ends (read_bytes_be n out).
Proof. revert out. induction n as [|n IH]; intros out; cbn [read_bytes_be]; ending. Qed.

#[local] Hint Resolve update_matching_reg_ends io_update_ends read_bytes_be_ends : ends.

Lemma read_register_ends i : ends (ad9910_read_register i).
Proof. unfold ad9910_read_register. ending. Qed.

Lemma execute_parallel_ends data len rep : ends (ad9910_execute_parallel data len rep).
Proof.
  unfold ad9910_execute_parallel, ad9910_set_parallel, ad9910_enable_parallel, execute_parallel_step,
    ad9910_set_parallel, TM_GPIO_SetPortValue, write_ODR, set_primask, TIM2_enable, clear_TIM2_SR, emit,
    modify_port.
  ending; intros ?; discriminate.
Qed.

Lemma set_parallel_frequency_ends f : ends (ad9910_set_parallel_frequency f).
Proof. unfold ad9910_set_parallel_frequency, TIM2_setup. ending. Qed.

Lemma crc_ends buf n : ends (crc buf n).
Proof.
  unfold crc, CRC_ResetDR, crc_continue, CRC_CalcBlockCRC, reset_CRC_DR, write_CRC_DR, read_CRC_DR.
  ending; intros ?; repeat case_match; discriminate.
Qed.

#[local] Hint Resolve read_register_ends execute_parallel_ends set_parallel_frequency_ends crc_ends : ends.

Lemma load_config_ends p : ends (load_config p).
Proof. unfold load_config, load_flash. ending. Qed.

#[local] Hint Resolve load_config_ends : ends.

Lemma config_crc_ends p : ends (calculate_config_crc p).
Proof. unfold calculate_config_crc, crc_init, set_AHB1ENR. ending. Qed.

#[local] Hint Resolve config_crc_ends : ends.

Lemma config_write_ends p : ends (config_write p).
Proof. unfold config_write. ending. Qed.

#[local] Hint Resolve config_write_ends : ends.

Lemma config_copy_ends : ends config_copy.
Proof. unfold config_copy, config_get, load_flash. ending. Qed.

Lemma startup_clear_ends : ends startup_command_clear.
Proof. unfold startup_command_clear. ending. Qed.

#[local] Hint Resolve startup_clear_ends : ends.

Lemma startup_bytes_ends off n : ends (startup_bytes off n).
Proof. apply ends_gets. Qed.

Lemma startup_crc_ends : ends startup_crc.
Proof.
  unfold startup_crc. apply ends_bind; [apply ends_zoom, ends_modify|intros _].
  apply ends_bind; [apply startup_bytes_ends|intros bs]. apply ends_zoom, crc_ends.
Qed.

#[local] Hint Resolve startup_bytes_ends startup_crc_ends : ends.

Lemma startup_save_ends : ends startup_command_save.
Proof. unfold startup_command_save. ending. Qed.

Lemma command_queue_ends t cmd : ends (command_queue t cmd).
Proof. intros q. unfold command_queue. repeat case_match; discriminate. Qed.

(** A command advances the search for the last one. *)
Lemma command_length_pos t : 0 < get_command_length t.
Proof. unfold get_command_length. repeat case_match; vm_compute; reflexivity. Qed.

Lemma find_last_ends : ends find_last_command.
Proof.
  intros q. unfold find_last_command.
  enough (forall fuel cur, (Z.to_nat (Z.of_nat (q_end q) - cur) < fuel)%nat -> 0 <= cur ->
    ends (find_last_from fuel (q_buf q) (Z.of_nat (q_end q)) cur)) as H by (apply H; lia).
  induction fuel as [|fuel IH]; intros cur Hf Hc; [lia|]. cbn [find_last_from].
  destruct (Z.ltb_spec cur (Z.of_nat (q_end q))); [|ending].
  ending. pose proof (command_length_pos a). apply IH; lia.
Qed.

#[local] Hint Resolve command_queue_ends find_last_ends : ends.

Lemma queue_register_ends r v : ends (command_queue_register r v).
Proof. unfold command_queue_register. ending. Qed.

Lemma execute_pin_ends mem cur : ends (execute_command_pin mem cur).
Proof. unfold execute_command_pin, set_any_pin. ending. Qed.

Lemma execute_register_ends f v : ends (execute_command_register f v).
Proof. unfold execute_command_register. ending. Qed.

Lemma execute_update_ends : ends execute_command_update.
Proof. unfold execute_command_update. ending. Qed.

Lemma execute_command_parallel_ends mem cur : ends (execute_command_parallel mem cur).
Proof. unfold execute_command_parallel. ending. Qed.
End Driver.
#[export] Hint Resolve get_value_ends get_profile_value_ends reg_at_ends read_register_ends
  set_parallel_frequency_ends config_copy_ends config_write_ends startup_clear_ends startup_save_ends
  command_queue_ends queue_register_ends execute_pin_ends execute_register_ends execute_update_ends
  execute_command_parallel_ends : ends.

(** ** The library *)

Lemma count_output_ends : ends count_output.
Proof. apply ends_modify. Qed.

Lemma writeDelimiter_ends : ends writeDelimiter.
Proof. unfold writeDelimiter. ending. Qed.
#[export] Hint Resolve count_output_ends writeDelimiter_ends : ends.

Lemma ResultCharacters_ends d : ends (SCPI_ResultCharacters d).
Proof. unfold SCPI_ResultCharacters. ending. Qed.

Lemma result_base_ends t b : ends (result_base t b).
Proof. unfold result_base. ending. Qed.
#[export] Hint Resolve ResultCharacters_ends result_base_ends : ends.

Lemma ResultInt32_ends v : ends (SCPI_ResultInt32 v).
Proof. apply result_base_ends. Qed.

Lemma ResultUInt32Base_ends v b : ends (SCPI_ResultUInt32Base v b).
Proof. apply result_base_ends. Qed.

Lemma ResultBool_ends v : ends (SCPI_ResultBool v).
Proof. apply result_base_ends. Qed.
#[export] Hint Resolve ResultInt32_ends ResultUInt32Base_ends ResultBool_ends : ends.

Lemma ResultError_ends e : ends (SCPI_ResultError e).
Proof. unfold SCPI_ResultError. ending. Qed.

Lemma ResultArbitraryBlock_ends d : ends (SCPI_ResultArbitraryBlock d).
Proof.
  unfold SCPI_ResultArbitraryBlock, SCPI_ResultArbitraryBlockHeader, SCPI_ResultArbitraryBlockData. ending.
Qed.

Lemma Parameter_ends m : ends (SCPI_Parameter m).
Proof. unfold SCPI_Parameter. ending. Qed.

Lemma ParamSignTo_ends w p sign : ends (ParamSignTo w p sign).
Proof. unfold ParamSignTo. ending. Qed.

Lemma ParamToChoice_ends p options : ends (SCPI_ParamToChoice p options).
Proof. unfold SCPI_ParamToChoice. ending. Qed.
#[export] Hint Resolve ResultError_ends ResultArbitraryBlock_ends Parameter_ends ParamSignTo_ends
  ParamToChoice_ends : ends.

Lemma ParamSignUInt32_ends m sign : ends (ParamSignUInt32 m sign).
Proof. unfold ParamSignUInt32, ParamSign, ParamSignToUInt32. ending. Qed.
#[export] Hint Resolve ParamSignUInt32_ends : ends.

Lemma ParamInt32_ends m : ends (SCPI_ParamInt32 m).
Proof. unfold SCPI_ParamInt32. ending. Qed.

Lemma ParamUInt32_ends m : ends (SCPI_ParamUInt32 m).
Proof. apply ParamSignUInt32_ends. Qed.

Lemma ParamCharacters_ends m : ends (SCPI_ParamCharacters m).
Proof. unfold SCPI_ParamCharacters. ending. Qed.

Lemma ParamArbitraryBlock_ends m : ends (SCPI_ParamArbitraryBlock m).
Proof. unfold SCPI_ParamArbitraryBlock. ending. Qed.

Lemma ParamBool_ends m : ends (SCPI_ParamBool m).
Proof. unfold SCPI_ParamBool, ParamSignToUInt32. ending. Qed.

Lemma ParamChoice_ends options m : ends (SCPI_ParamChoice options m).
Proof. unfold SCPI_ParamChoice. ending. Qed.

Lemma ParamToDouble_ends p : ends (SCPI_ParamToDouble p).
Proof. unfold SCPI_ParamToDouble, ParamSignToUInt64. ending. Qed.

Lemma transformNumber_ends u n v : ends (transformNumber u n v).
Proof. unfold transformNumber. ending. Qed.
#[export] Hint Resolve ParamInt32_ends ParamUInt32_ends ParamCharacters_ends ParamArbitraryBlock_ends
  ParamBool_ends ParamChoice_ends ParamToDouble_ends transformNumber_ends : ends.

Lemma ParamNumber_ends options m : ends (SCPI_ParamNumber options m).
Proof. unfold SCPI_ParamNumber. ending. Qed.
#[export] Hint Resolve ParamNumber_ends : ends.

(** ** The common commands *)

Lemma core_commands_end : Forall (fun c => ends c.2) patterns_core.
Proof.
  repeat constructor; cbn [snd];
    unfold SCPI_CoreCls_cmd, SCPI_CoreOpc_cmd, core, SCPI_CoreEse, SCPI_CoreEseQ, SCPI_CoreEsrQ,
      SCPI_CoreIdnQ, SCPI_CoreOpcQ, SCPI_CoreRst, SCPI_CoreSre, SCPI_CoreSreQ, SCPI_CoreStbQ, SCPI_CoreWai,
      SCPI_SystemErrorNextQ, SCPI_SystemErrorCountQ, SCPI_SystemVersionQ, set_reg_param, reg_query,
      SCPI_ResultMnemonic;
    ending.
  intros c. now destruct (SCPI_ErrorPop c).
Qed.

(** ** The firmware's handlers *)

Section Firmware.
Context `{E : Env} `{FE : FlashEnv} `{Lk : Link} `{Lm : Libm}.

Lemma push_scpi_ends err : ends (scpi_push err).
Proof. apply ends_zoom, push_ends. Qed.

Lemma set_pin_ends p ps : ends (set_pin p ps).
Proof. apply ends_modify. Qed.
#[local] Hint Resolve push_scpi_ends set_pin_ends : ends.

Lemma reject_ends err : ends (reject err).
Proof. unfold reject. ending. Qed.

Lemma refuse_ends err : ends (refuse err).
Proof. unfold refuse. ending. Qed.

Lemma accept_ends o : ends (accept o).
Proof. unfold accept. ending. Qed.

Lemma param_number_ends : ends param_number.
Proof. unfold param_number, lib. ending. Qed.
#[local] Hint Resolve reject_ends refuse_ends accept_ends param_number_ends : ends.

Lemma process_command_ends execute queue_it :
  ends execute -> ends queue_it -> ends (process_command execute queue_it).
Proof. intros He Hq. unfold process_command, on_queue, drv. ending. Qed.

Lemma process_pin_ends p v : ends (scpi_process_command_pin p v).
Proof. apply process_command_ends; [ending|]. apply command_queue_ends. Qed.

Lemma process_register_ends f v : ends (scpi_process_command_register f v).
Proof. apply process_command_ends; ending. Qed.

Lemma process_update_ends : ends scpi_process_command_update.
Proof. apply process_command_ends; [ending|]. apply command_queue_ends. Qed.

Lemma process_parallel_ends d n k : ends (scpi_process_command_parallel d n k).
Proof. apply process_command_ends; [ending|]. apply command_queue_ends. Qed.
#[local] Hint Resolve process_pin_ends process_register_ends process_update_ends process_parallel_ends : ends.

Lemma param_functions_end :
  ends scpi_param_frequency /\ ends scpi_param_amplitude /\ ends scpi_param_ramp_rate /\ ends scpi_param_ramp.
Proof.
  unfold scpi_param_frequency, scpi_param_amplitude, scpi_param_ramp_rate, scpi_param_ramp.
  split_and!; ending.
Qed.

Lemma register_command_ends reg parser : ends parser -> ends (scpi_parse_register_command reg parser).
Proof. intros Hp. unfold scpi_parse_register_command. ending. Qed.

Lemma pin_command_ends p : ends (scpi_parse_pin_command p).
Proof. unfold scpi_parse_pin_command, lib. ending. Qed.

Lemma with_choice_ends options k : (forall v, ends (k v)) -> ends (with_choice options k).
Proof. intros Hk. unfold with_choice, lib. ending. Qed.

Lemma print_unit_ends v u : ends (scpi_print_unit v u).
Proof. unfold scpi_print_unit, lib. ending. Qed.

Lemma print_choice_ends options tag : ends (print_choice options tag).
Proof. unfold print_choice, lib. ending. Qed.
#[local] Hint Resolve print_unit_ends print_choice_ends : ends.

Lemma print_pin_ends p : ends (scpi_print_pin p).
Proof. unfold scpi_print_pin, on_hw, drv, lib. ending. Qed.

Lemma print_frequency_ends v : ends (scpi_print_frequency v).
Proof. apply print_unit_ends. Qed.
#[local] Hint Resolve print_frequency_ends : ends.

Lemma print_ramp_ends v : ends (scpi_print_ramp v).
Proof.
  unfold scpi_print_ramp, scpi_print_phase, scpi_print_amplitude, on_regs, drv. ending.
Qed.

Lemma print_register_ends reg printer : (forall v, ends (printer v)) -> ends (scpi_print_register reg printer).
Proof. intros Hp. unfold scpi_print_register, on_regs, drv. ending. Qed.

Lemma param_ip_address_ends target : ends (scpi_param_ip_address target).
Proof. unfold scpi_param_ip_address, lib. ending. Qed.
#[local] Hint Resolve param_ip_address_ends : ends.

Lemma set_network_ends get put : ends (set_network get put).
Proof. unfold set_network, on_store, drv. ending. Qed.

Lemma print_network_ends get : ends (print_network get).
Proof. unfold print_network, scpi_print_ip_address, on_store, drv, lib. ending. Qed.
#[local] Hint Resolve print_pin_ends print_ramp_ends pin_command_ends set_network_ends print_network_ends : ends.

Lemma patterns_both_end :
  Forall (fun '(p, set, query) => (p = str "PARallel:DATa" \/ ends set) /\ ends query) patterns_both.
Proof.
  destruct param_functions_end as (? & ? & ? & ?).
  unfold patterns_both. repeat apply Forall_cons_2; try apply Forall_nil_2.
  all: split; [try (left; reflexivity); right|].
  all: unfold scpi_callback_mode_q, scpi_callback_output_state, scpi_callback_output_state_q,
    scpi_callback_output_amplitude_q, scpi_callback_output_frequency_q, scpi_callback_parallel_data_q,
    scpi_callback_parallel_frequency, scpi_callback_parallel_frequency_q, scpi_callback_parallel_ncycles,
    scpi_callback_parallel_ncycles_q, scpi_callback_parallel_state, scpi_callback_parallel_state_q,
    scpi_callback_parallel_target_q, scpi_callback_ramp_direction, scpi_callback_ramp_direction_q,
    scpi_callback_ramp_mode_q, scpi_callback_ramp_rate_down_q, scpi_callback_ramp_rate_up_q,
    scpi_callback_ramp_target_q, scpi_callback_sequence_ncycles, scpi_callback_sequence_ncycles_q,
    scpi_callback_system_network_address, scpi_callback_system_network_address_q,
    scpi_callback_system_network_gateway, scpi_callback_system_network_gateway_q,
    scpi_callback_system_network_submask, scpi_callback_system_network_submask_q, commands_repeat,
    get_commands_repeat, scpi_print_amplitude, command_queue_parallel_frequency, ad9910_get_parallel_frequency, read_TIM2_ARR, set_repeats, on_hw, on_regs, on_queue,
    drv, lib.
  all: first [ apply register_command_ends; assumption
             | apply with_choice_ends; intros v; unfold set_mode, set_execute; ending
             | apply print_register_ends; intros v; unfold scpi_print_boolean, lib; ending
             | ending ].
Qed.

Lemma patterns_no_query_end :
  Forall (fun '(p, m) => p = str "TRIGger:WAIT" \/ p = str "WAIT" \/ ends m) patterns_no_query.
Proof.
  unfold patterns_no_query. repeat apply Forall_cons_2; try apply Forall_nil_2.
  all: first [ left; reflexivity | right; left; reflexivity | right; right ].
  all: unfold scpi_callback_sequence_clear, scpi_callback_startup_clear, scpi_callback_startup_save,
    scpi_callback_trigger_send, commands_clear, on_queue, drv; ending.
Qed.

Lemma patterns_only_query_end : Forall (fun '(_, m) => ends m) patterns_only_query.
Proof.
  unfold patterns_only_query. repeat apply Forall_cons_2; try apply Forall_nil_2.
  all: unfold scpi_callback_test_q, scpi_callback_register_q, scpi_callback_system_pll_q, on_dds, on_regs,
    drv, lib; ending.
Qed.

(** The commands that wait: for the clock, for the trigger line, for packets. *)
Definition waiting : list (list Z) := [str "WAIT"; str "TRIGger:WAIT"; str "PARallel:DATa"].

Lemma patterns_well_formed cmd : cmd ∈ scpi_commands -> pattern_ok (cmd_pattern cmd) = true.
Proof.
  assert (forallb (fun c => pattern_ok (cmd_pattern c)) scpi_commands = true) as H by (vm_compute; reflexivity).
  rewrite forallb_forall in H. intros Hin. apply H. now apply list_elem_of_In.
Qed.

Lemma commands_end cmd : cmd ∈ scpi_commands -> cmd_pattern cmd ∈ waiting \/ command_ends cmd.
Proof.
  intros Hin. pose proof (patterns_well_formed cmd Hin) as Hp. unfold scpi_commands in Hin. rewrite !elem_of_app, !list_elem_of_fmap in Hin.
  unfold waiting. rewrite !elem_of_cons.
  pose proof (proj1 (Forall_forall _ _) core_commands_end) as H1.
  pose proof (proj1 (Forall_forall _ _) patterns_both_end) as H2.
  pose proof (proj1 (Forall_forall _ _) patterns_no_query_end) as H3.
  pose proof (proj1 (Forall_forall _ _) patterns_only_query_end) as H4.
  destruct Hin as [([p m] & -> & H)|[([[p m] q] & -> & H)|[([[p m] q] & -> & H)|[([p m] & -> & H)|([p m] & -> & H)]]]].
  - right. split; [exact Hp|]. apply ends_zoom. exact (H1 _ H).
  - destruct (H2 _ H) as [[->|He] _]; [left; cbn; tauto|]. right. now split.
  - destruct (H2 _ H) as [_ He]. right. now split.
  - destruct (H3 _ H) as [->|[->|He]]; [left; cbn; tauto|left; cbn; tauto|]. right. now split.
  - right. split; [exact Hp|]. exact (H4 _ H).
Qed.

(** A table with the firmware's patterns, and its handlers but for those of
    the commands that wait, of which it has any that end. *)
Definition but_for_waiting (cmd cmd' : scpi_command_t firmware) : Prop :=
  cmd_pattern cmd' = cmd_pattern cmd /\
  if decide (cmd_pattern cmd ∈ waiting)
  then match cmd_callback cmd' with Some callback => ends callback | None => True end
  else cmd' = cmd.

Lemma program_mode_queues execute queue_it w :
  fw_mode w = scpi_mode_program -> ends queue_it -> process_command execute queue_it w <> Hang.
Proof.
  intros Hm Hq. unfold process_command. erewrite bind_ok by reflexivity. rewrite Hm, Z.eqb_refl.
  assert (ends (on_queue queue_it;; mret tt : M firmware unit)) as H by (unfold on_queue, drv; ending).
  apply H.
Qed.

Lemma wait_queued w : fw_mode w = scpi_mode_program -> scpi_callback_wait w <> Hang.
Proof.
  intros Hm. unfold scpi_callback_wait, lib.
  pose proof (ends_zoom (W := firmware) _ (ParamNumber_ends wait_choices true) w) as He.
  destruct (zoom (SCPI_ParamNumber wait_choices true) w) as [[[ok value] w1]| |] eqn:E1; [|done|].
  2:{ unfold mbind, M_bind. now rewrite E1. }
  erewrite bind_ok by exact E1.
  assert (fw_mode w1 = scpi_mode_program) as Hm1.
  { apply zoom_inv in E1 as (c & _ & ->). exact Hm. }
  clear - Hm1. revert w1 Hm1.
  assert (forall t w, fw_mode w = scpi_mode_program ->
    (scpi_process_wait t;; mret SCPI_RES_OK) w <> Hang) as Hw.
  { intros t w Hm H. unfold mbind, M_bind in H.
    pose proof (program_mode_queues (execute_command_wait (command_wait t) 0) (command_queue_wait t) w Hm
      (command_queue_ends _ _)) as Hq.
    unfold scpi_process_wait, scpi_process_command_wait in H. now destruct (process_command _ _ w) as [[]| |]. }
  intros w Hm. cbv beta iota zeta. destruct (negb ok); [discriminate|]. destruct (n_special value).
  - destruct (n_tag value =? 0); [now apply Hw|]. destruct (n_tag value =? 1); [|discriminate].
    intros H. unfold mbind, M_bind in H.
    pose proof (program_mode_queues execute_command_trigger command_queue_trigger w Hm
      (command_queue_ends _ _)) as Hq.
    unfold scpi_process_trigger, scpi_process_command_trigger in H.
    now destruct (process_command _ _ w) as [[]| |].
  - case_decide; [|case_decide]; [| |apply reject_ends].
    + destruct (u32_of_f64 _); [|discriminate]. now apply Hw.
    + destruct (u32_of_f64 _); [|discriminate]. now apply Hw.
Qed.

(** C7: Every line of commands comes to an end, whatever its bytes, the state
    it is parsed in and the times the SPI unit and the flash take, provided
    that the handlers of the three commands that wait for the clock, the
    trigger line or more packets do.  In program mode the first two always
    do, since the wait is queued and not performed. *)
Theorem scpi_lines_end cmds data len :
  Forall2 but_for_waiting scpi_commands cmds ->
  ends (SCPI_Parse cmds data len) /\
  (forall w, fw_mode w = scpi_mode_program ->
     scpi_callback_wait w <> Hang /\ scpi_callback_trigger_wait w <> Hang).
Proof.
  intros Hc. split; [|intros w Hm; split; now apply wait_queued].
  assert (Forall command_ends cmds) as Hends.
  { apply Forall_forall. intros cmd' Hin'.
    apply list_elem_of_lookup in Hin' as [i Hi].
    destruct (Forall2_lookup_r _ _ _ _ _ Hc Hi) as (cmd & Hin & Hp & Hcb).
    apply list_elem_of_lookup_2 in Hin.
    case_decide as Hw; [|subst; now destruct (commands_end cmd Hin)].
    split; [|exact Hcb]. rewrite Hp. now apply patterns_well_formed. }
  unfold SCPI_Parse. ending. apply parse_loop_ends; [exact Hends|lia].
Qed.
End Firmware.

(** A table whose waits return at once. *)
Definition no_waits (cmd : scpi_command_t firmware) : scpi_command_t firmware :=
  if decide (cmd_pattern cmd ∈ waiting) then mkCommand (cmd_pattern cmd) None else cmd.

Lemma no_waits_same cmd : but_for_waiting cmd (no_waits cmd).
Proof. unfold but_for_waiting, no_waits. now case_decide. Qed.

Lemma scpi_lines_end_witness :
  let cmds := map no_waits (@scpi_commands plain_env good_flash plain_link no_libm) in
  Forall2 but_for_waiting (@scpi_commands plain_env good_flash plain_link no_libm) cmds /\
  ends (SCPI_Parse cmds 0 21).
Proof.
  intros cmds.
  assert (Forall2 but_for_waiting (@scpi_commands plain_env good_flash plain_link no_libm) cmds) as H.
  { apply Forall2_fmap_r, Forall_Forall2_diag, Forall_true. exact no_waits_same. }
  split; [exact H|].
  exact (proj1 (@scpi_lines_end plain_env good_flash plain_link no_libm cmds 0 21 H)).
Defined.
