(* ===== verification/ScpiKeeps.v ===== *)
(** * ScpiKeeps: the invariant of the whole program

    A state of the firmware is sound when the chip's serial port waits for
    an instruction, the shadow registers are those of the chip with values
    of their width, queue and sample buffer have their sizes, and the status
    byte summarises the registers and errors of the SCPI library.  Every
    command of the table keeps it so, whatever its parameters, and so does
    the loop over packets: [firmware_sound]. *)

From Stdlib Require Import ZArith Lia SpecFloat String.
From stdpp Require Import base numbers list.
From S2P Require Import Prelude Hw Gpio Spi Timing Registers Ad9910 Chip Flash Crc Config Float Convert Board Commands Boot.
From S2P Require Import ScpiFifo Lexer ScpiCore ScpiMatch ScpiNumber ScpiParser Decimal ScpiUnits ScpiCommon Scpi.
#[local] Open Scope c_scope.

#[local] Hint Constants Opaque : keeps.

(** ** The invariants of the parts *)

(** The chip waits for an instruction. *)
Definition hw_sound (h : hw) : Prop := serial_port (chip_run (trace h) chip_reset) = Idle.

Definition store_sound (s : store) : Prop := hw_sound (st_hw s).

Definition queue_sound (q : queue) : Prop :=
  length (q_buf q) = Z.to_nat COMMAND_QUEUE_LENGTH /\ (q_end q <= length (q_buf q))%nat.

Record board_sound (b : board) : Prop := {
    bs_hw : hw_sound (b_hw b);
    bs_regs : wf_regs (b_regs b);
    bs_queue : queue_sound (b_queue b);
    bs_samples : 2 * Z.of_nat (length (b_samples b)) = PARALLEL_BUF_SIZE;
  }.

Record firmware_sound (w : firmware) : Prop := {
    fs_scpi : status_ok (fw_scpi w);
    fs_board : board_sound (fw_board w);
    fs_mode : fw_mode w = scpi_mode_normal \/ fw_mode w = scpi_mode_program;
    fs_length : 0 <= fw_length w <= PARALLEL_BUF_SIZE;
  }.

#[export] Instance dds_within_hw : Within hw_sound dds_ok.
Proof. split; [intros d Hd; apply Hd|intros d h [Hr _] Hh; split; [exact Hr|exact Hh]]. Qed.
#[export] Instance dds_within_regs : Within wf_regs dds_ok.
Proof. split; [intros d Hd; apply Hd|intros d rs [_ Hh] Hr; split; [exact Hr|exact Hh]]. Qed.
#[export] Instance store_within_hw : Within hw_sound store_sound.
Proof. split; [intros s Hs; exact Hs|intros s h _ Hh; exact Hh]. Qed.
#[export] Instance store_within_flash : Within (fun _ : flash => True) store_sound.
Proof. split; [done|intros s f Hs _; exact Hs]. Qed.
#[export] Instance board_within_dds : Within dds_ok board_sound.
Proof. split; [intros b []; now split|intros b d [] [? ?]; now constructor]. Qed.
#[export] Instance board_within_store : Within store_sound board_sound.
Proof. split; [intros b []; assumption|intros b s [] ?; now constructor]. Qed.
#[export] Instance board_within_hw : Within hw_sound board_sound.
Proof. split; [intros b []; assumption|intros b h [] ?; now constructor]. Qed.
#[export] Instance board_within_queue : Within queue_sound board_sound.
Proof. split; [intros b []; assumption|intros b q [] ?; now constructor]. Qed.
#[export] Instance firmware_within_scpi : Within status_ok firmware_sound.
Proof. split; [intros w []; assumption|intros w c [] ?; now constructor]. Qed.
#[export] Instance firmware_within_board : Within board_sound firmware_sound.
Proof. split; [intros w []; assumption|intros w b [] ?; now constructor]. Qed.

(** ** Hardware *)

#[export] Hint Extern 2 (_ ∈ all_fields) => decided : keeps.

(** A step that leaves the trace as it is. *)
#[export] Hint Extern 1 (keeps hw_sound (modify _)) =>
  (apply keeps_modify; let H := fresh in intros ? H; exact H) : keeps.

Section Hardware.
Context `{E : Env}.

Definition not_spi (e : event) : Prop := match e with EvSpi _ => False | _ => True end.

Lemma emit_keeps e : not_spi e -> keeps hw_sound (emit e).
Proof.
  intros He. apply keeps_modify. intros h H. unfold hw_sound in *. cbn [emit_event trace].
  rewrite chip_run_app. cbn [chip_run foldl]. destruct e; cbn [chip_event]; try done; repeat apply chip_lines_idle; exact H.
Qed.

Lemma write_BSRRL_keeps p v : keeps hw_sound (write_BSRRL p v).
Proof. unfold write_BSRRL, modify_port. keeping. now apply emit_keeps. Qed.
Lemma write_BSRRH_keeps p v : keeps hw_sound (write_BSRRH p v).
Proof. unfold write_BSRRH, modify_port. keeping. now apply emit_keeps. Qed.
Lemma write_ODR_keeps p v : keeps hw_sound (write_ODR p v).
Proof. unfold write_ODR, modify_port. keeping. now apply emit_keeps. Qed.
Lemma write_MODER_keeps p v : keeps hw_sound (write_MODER p v).
Proof. unfold write_MODER, modify_port. keeping. now apply emit_keeps. Qed.
Lemma read_IDR_keeps p : keeps hw_sound (read_IDR p).
Proof. intros h v h' H [= _ <-]. exact H. Qed.
Lemma TIM2_enable_keeps on : keeps hw_sound (TIM2_enable on).
Proof. unfold TIM2_enable. keeping. now apply emit_keeps. Qed.
Lemma set_primask_keeps b : keeps hw_sound (set_primask b).
Proof. unfold set_primask. keeping. now apply emit_keeps. Qed.
Lemma read_TIM2_SR_keeps : keeps hw_sound read_TIM2_SR.
Proof. intros h v h' H [= _ <-]. exact H. Qed.

#[local] Hint Resolve write_BSRRL_keeps write_BSRRH_keeps write_ODR_keeps write_MODER_keeps
  read_IDR_keeps TIM2_enable_keeps set_primask_keeps read_TIM2_SR_keeps : keeps.

Lemma gpio_set_keeps p v : keeps hw_sound (gpio_set p v).
Proof.
  unfold gpio_set, gpio_set_high, gpio_set_low, TM_GPIO_SetPinHigh, TM_GPIO_SetPinLow. keeping.
Qed.
Lemma gpio_get_keeps p : keeps hw_sound (gpio_get p).
Proof. unfold gpio_get, TM_GPIO_GetInputPinValue. keeping. Qed.
Lemma gpio_set_pin_mode_input_keeps p : keeps hw_sound (gpio_set_pin_mode_input p).
Proof. unfold gpio_set_pin_mode_input, gpio_change_pin_mode, read_MODER. keeping. Qed.
Lemma gpio_set_pin_mode_output_keeps p : keeps hw_sound (gpio_set_pin_mode_output p).
Proof. unfold gpio_set_pin_mode_output, gpio_change_pin_mode, read_MODER. keeping. Qed.

Lemma LocalTime_keeps : keeps hw_sound LocalTime.
Proof.
  intros h. revert h. unfold LocalTime. intros h.
  generalize (if primask h then O else ticks (time_reads (clock h))). intros n. revert h.
  change (keeps hw_sound (for_each (seqZ 0 (Z.of_nat n)) (fun _ => SysTick_Handler);;
   modify (with_clock (fun c => mkClock (local_time c) (S (time_reads c))));;
   gets (fun h => local_time (clock h)))).
  unfold SysTick_Handler, time_update. keeping.
Qed.
#[local] Hint Resolve LocalTime_keeps : keeps.

Lemma delay_keeps n : keeps hw_sound (delay n).
Proof. unfold delay. keeping. Qed.

Lemma set_parallel_frequency_keeps f : keeps hw_sound (ad9910_set_parallel_frequency f).
Proof. unfold ad9910_set_parallel_frequency, TIM2_setup. keeping. Qed.
Lemma get_parallel_frequency_keeps : keeps hw_sound ad9910_get_parallel_frequency.
Proof. unfold ad9910_get_parallel_frequency, read_TIM2_ARR. keeping. Qed.
End Hardware.
#[export] Hint Resolve write_ODR_keeps TIM2_enable_keeps set_primask_keeps read_TIM2_SR_keeps
  gpio_set_keeps gpio_get_keeps gpio_set_pin_mode_input_keeps gpio_set_pin_mode_output_keeps
  delay_keeps set_parallel_frequency_keeps get_parallel_frequency_keeps : keeps.

(** ** The driver *)

Section Driver.
Context `{E : Env}.

Lemma implements_keeps m g : implements m g -> keeps dds_ok m.
Proof.
  intros H. apply keeps_of_run. intros d Hd. destruct (H d Hd) as (d' & E1 & Hd' & _). eauto.
Qed.

Lemma reg_at_keeps i : keeps wf_regs (reg_at i).
Proof. intros rs r rs' H. unfold reg_at. case_match; [intros [= _ <-]; exact H|discriminate]. Qed.

Lemma get_value_keeps f : keeps wf_regs (ad9910_get_value f).
Proof. pose proof reg_at_keeps. unfold ad9910_get_value. keeping. Qed.
Lemma get_profile_value_keeps p f : keeps wf_regs (ad9910_get_profile_value p f).
Proof. pose proof reg_at_keeps. unfold ad9910_get_profile_value. keeping. Qed.

Lemma set_value_keeps f v : f ∈ all_fields -> keeps dds_ok (zoom (ad9910_set_value f v)).
Proof. intros Hf. eapply implements_keeps, set_value_implements. now apply field_in_fits. Qed.

Lemma update_reg_keeps i : keeps dds_ok (ad9910_update_reg i).
Proof.
  destruct (decide (i < 20)%nat) as [Hi|Hi]; [eapply implements_keeps, update_reg_implements, Hi|].
  intros d a d' [Hwf _] H. exfalso. unfold ad9910_update_reg, reg_at, zoom in H.
  apply bind_inv in H as (r & d1 & H & _). cbn [view dds_regs] in H.
  destruct (regs d !! i) eqn:Er; [|discriminate].
  apply lookup_lt_Some in Er. rewrite (wf_regs_length _ Hwf) in Er. lia.
Qed.

Lemma chip_read_bytes bs c :
  bs <> [] -> serial_port (foldl (fun c b => chip_byte b c) (with_serial (Reading (length bs)) c) bs) = Idle.
Proof.
  revert c. induction bs as [|b bs IH]; intros c Hne; [done|].
  destruct bs as [|b' bs]; [done|]. cbn [foldl length]. exact (IH c ltac:(done)).
Qed.

Lemma read_register_keeps i : keeps dds_ok (ad9910_read_register i).
Proof.
  intros d v d' [Hwf Hr] H. unfold ad9910_read_register in H.
  destruct (regs d !! i) as [r|] eqn:Hi.
  2:{ exfalso. apply bind_inv in H as (r & d1 & H & _). unfold zoom, reg_at in H.
      cbn [view dds_regs] in H. rewrite Hi in H. discriminate. }
  fold (ad9910_read_register i) in H.
  destruct (wf_regs_reg _ _ _ Hwf Hi) as (Hsz & Ha & Hs & _).
  rewrite (ad9910_read_register_ok i r d Hi) in H by lia. injection H as _ <-.
  split; [exact Hwf|]. unfold ready, chip_of. cbn [with_dev dev].
  rewrite trace_after_bytes, chip_run_app. fold (chip_of d). unfold spi_events. rewrite chip_run_spi.
  cbn [map foldl]. unfold chip_byte at 2. unfold ready in Hr. rewrite Hr, wrap_wrap.
  assert (H : Forall (fun k => (u8 (Z.of_nat k ||| AD9910_INSTR_READ) &&& 0x1F) = Z.of_nat k /\
                        Z.testbit (u8 (Z.of_nat k ||| AD9910_INSTR_READ)) 7 = true) (seq 0 32)) by decided.
  rewrite Forall_forall in H. destruct (H (Z.to_nat (address r)) ltac:(apply elem_of_seq; lia)) as [H1 H2].
  rewrite Z2Nat.id in H1, H2 by lia. rewrite H1, H2, Hsz.
  replace (Z.to_nat (Registers.size r)) with (length (map u8 (repeat 0 (Z.to_nat (Registers.size r))))) at 1
    by now rewrite length_map, repeat_length.
  apply chip_read_bytes. destruct (Z.to_nat (Registers.size r)) eqn:En; [lia|done].
Qed.

Lemma io_update_keeps : keeps dds_ok ad9910_io_update.
Proof. eapply implements_keeps, io_update_implements. Qed.

#[local] Hint Resolve set_value_keeps update_reg_keeps : keeps.

Lemma update_multiple_keeps mask : keeps dds_ok (ad9910_update_multiple_regs mask).
Proof. unfold ad9910_update_multiple_regs. keeping. Qed.

Lemma update_matching_keeps f : keeps dds_ok (ad9910_update_matching_reg f).
Proof. apply update_reg_keeps. Qed.

#[local] Hint Resolve update_matching_keeps : keeps.

Lemma execute_parallel_keeps data len rep : keeps dds_ok (ad9910_execute_parallel data len rep).
Proof.
  unfold ad9910_execute_parallel, ad9910_set_parallel, ad9910_enable_parallel, execute_parallel_step,
    ad9910_set_parallel, TM_GPIO_SetPortValue, clear_TIM2_SR.
  keeping.
Qed.
End Driver.
#[export] Hint Resolve reg_at_keeps get_value_keeps get_profile_value_keeps set_value_keeps read_register_keeps io_update_keeps
  update_multiple_keeps update_matching_keeps execute_parallel_keeps : keeps.

(** ** Storage and queue *)

Section Storage.
Context `{E : Env} `{FE : FlashEnv} `{Lk : Link}.

Lemma write_CRC_DR_keeps w : keeps store_sound (write_CRC_DR w).
Proof. intros s a s' H [= _ <-]. now case_match. Qed.
Lemma reset_CRC_DR_keeps : keeps store_sound reset_CRC_DR.
Proof. intros s a s' H [= _ <-]. now case_match. Qed.
#[local] Hint Resolve write_CRC_DR_keeps reset_CRC_DR_keeps : keeps.

Lemma crc_init_keeps : keeps store_sound crc_init.
Proof. unfold crc_init, set_AHB1ENR. keeping. Qed.

Lemma crc_keeps buf n : keeps store_sound (crc buf n).
Proof. unfold crc, CRC_ResetDR, crc_continue, CRC_CalcBlockCRC, read_CRC_DR. keeping. Qed.
#[local] Hint Resolve crc_init_keeps crc_keeps : keeps.

Lemma load_config_keeps p : keeps store_sound (load_config p).
Proof. unfold load_config, load_flash. keeping. Qed.
#[local] Hint Resolve load_config_keeps : keeps.

Lemma config_write_keeps p : keeps store_sound (config_write p).
Proof. unfold config_write, calculate_config_crc. keeping. Qed.
#[local] Hint Resolve config_write_keeps : keeps.

Lemma config_copy_keeps : keeps store_sound config_copy.
Proof. unfold config_copy, config_get, calculate_config_crc, load_flash. keeping. Qed.

Lemma startup_bytes_keeps off n : keeps board_sound (startup_bytes off n).
Proof. apply keeps_gets. Qed.
#[local] Hint Resolve startup_bytes_keeps : keeps.

Lemma startup_crc_keeps : keeps board_sound startup_crc.
Proof. unfold startup_crc. keeping. Qed.
#[local] Hint Resolve startup_crc_keeps : keeps.

Lemma startup_clear_keeps : keeps board_sound startup_command_clear.
Proof. unfold startup_command_clear. keeping. Qed.
#[local] Hint Resolve startup_clear_keeps : keeps.

Lemma startup_save_keeps : keeps board_sound startup_command_save.
Proof. unfold startup_command_save. keeping. Qed.

(** A command that does not fit is refused. *)
Lemma command_queue_keeps t cmd : keeps queue_sound (command_queue t cmd).
Proof.
  intros q r q' [H1 H2]. unfold command_queue. case_match eqn:Hfit; [intros [= _ <-]; now split|].
  case_match eqn:Hw; [|discriminate]. intros [= _ <-]. apply length_write_bytes in Hw.
  unfold queue_sound. cbn [q_buf q_end]. rewrite Hw. split; [exact H1|].
  apply Z.ltb_ge in Hfit. unfold COMMAND_QUEUE_LENGTH, sizeof_command in *. lia.
Qed.

Lemma find_last_keeps : keeps queue_sound find_last_command.
Proof.
  intros q. unfold find_last_command. generalize (S (q_end q)) 0 (q_buf q) (Z.of_nat (q_end q)).
  intros fuel cur mem e. revert q. change (keeps queue_sound (find_last_from fuel mem e cur)).
  revert cur. induction fuel as [|fuel IH]; intros cur; cbn [find_last_from]; keeping.
Qed.
#[local] Hint Resolve command_queue_keeps find_last_keeps : keeps.

Lemma queue_register_keeps r v : keeps queue_sound (command_queue_register r v).
Proof.
  unfold command_queue_register. keeping. apply keeps_modify. intros q [H1 H2]. split; [exact H1|cbn; lia].
Qed.

Lemma commands_clear_keeps : keeps queue_sound commands_clear.
Proof. apply keeps_modify. intros q [H1 H2]. split; [exact H1|cbn; lia]. Qed.
Lemma commands_repeat_keeps n : keeps queue_sound (commands_repeat n).
Proof. apply keeps_modify. intros q H. exact H. Qed.
Lemma get_commands_repeat_keeps : keeps queue_sound get_commands_repeat.
Proof. apply keeps_gets. Qed.

(** ** Commands *)

Lemma set_update_keeps v : keeps board_sound (set_update v).
Proof. apply keeps_modify. intros b []. now constructor. Qed.

Lemma execute_register_keeps f v : f ∈ all_fields -> keeps board_sound (execute_command_register f v).
Proof. intros Hf. unfold execute_command_register. keeping. Qed.

#[local] Hint Resolve set_update_keeps : keeps.

Lemma register_only_keeps mem cur : keeps board_sound (execute_command_register_only mem cur).
Proof.
  unfold execute_command_register_only. apply keeps_bind; [keeping|intros a].
  apply (keeps_bind_post _ (fun f => f ∈ all_fields)); [keeping| |intros f Hf; keeping].
  intros b f b' _. destruct (field_at a) eqn:Ef; [intros [= <- _]; exact (field_at_in a _ Ef)|discriminate].
Qed.

Lemma execute_pin_keeps mem cur : keeps board_sound (execute_command_pin mem cur).
Proof. unfold execute_command_pin, set_any_pin. keeping. Qed.
Lemma execute_trigger_keeps : keeps board_sound execute_command_trigger.
Proof. unfold execute_command_trigger, wait_trigger. keeping. Qed.
Lemma execute_wait_keeps mem cur : keeps board_sound (execute_command_wait mem cur).
Proof. unfold execute_command_wait. keeping. Qed.
Lemma execute_update_keeps : keeps board_sound execute_command_update.
Proof. unfold execute_command_update. keeping. Qed.
Lemma execute_command_parallel_keeps mem cur : keeps board_sound (execute_command_parallel mem cur).
Proof. unfold execute_command_parallel. keeping. Qed.

#[local] Hint Resolve register_only_keeps execute_pin_keeps execute_trigger_keeps execute_wait_keeps
  execute_update_keeps execute_command_parallel_keeps : keeps.

Lemma execute_command_keeps mem cur : keeps board_sound (execute_command mem cur).
Proof.
  unfold execute_command, execute_command_spi_write, execute_command_parallel_frequency. keeping.
Qed.
#[local] Hint Resolve execute_command_keeps : keeps.

Lemma run_queue_keeps fuel mem end_ cur : keeps board_sound (run_queue fuel mem end_ cur).
Proof. revert cur. induction fuel as [|fuel IH]; intros cur; cbn [run_queue]; keeping. Qed.
#[local] Hint Resolve run_queue_keeps : keeps.

Lemma gpio_set_high_keeps p : keeps hw_sound (gpio_set_high p).
Proof. apply (gpio_set_keeps p 1). Qed.
Lemma gpio_set_low_keeps p : keeps hw_sound (gpio_set_low p).
Proof. apply (gpio_set_keeps p 0). Qed.
#[local] Hint Resolve gpio_set_high_keeps gpio_set_low_keeps : keeps.

Lemma commands_execute_keeps : keeps board_sound commands_execute.
Proof. unfold commands_execute, execute_commands. keeping. Qed.

Lemma set_samples_keeps v :
  2 * Z.of_nat (length v) = PARALLEL_BUF_SIZE -> keeps board_sound (set_samples v).
Proof. intros Hv. apply keeps_modify. intros b []. now constructor. Qed.
End Storage.
#[export] Hint Resolve config_copy_keeps config_write_keeps startup_clear_keeps startup_save_keeps
  command_queue_keeps queue_register_keeps commands_clear_keeps commands_repeat_keeps
  get_commands_repeat_keeps execute_register_keeps execute_pin_keeps execute_trigger_keeps
  execute_wait_keeps execute_update_keeps execute_command_parallel_keeps commands_execute_keeps
  set_samples_keeps : keeps.

(** ** The library *)

Lemma status_ok_same c c' :
  registers c' = registers c -> error_queue c' = error_queue c -> status_ok c -> status_ok c'.
Proof.
  intros Hr Hq []. constructor; unfold SCPI_ErrorCount in *; now rewrite ?Hr, ?Hq.
Qed.

(** Steps on the rest of the context. *)
#[export] Hint Extern 1 (keeps status_ok (modify _)) =>
  (apply keeps_modify; let c := fresh in let H := fresh in intros c H;
   apply (status_ok_same c); [reflexivity|reflexivity|exact H]) : keeps.

Lemma push_keeps err : keeps status_ok (push err).
Proof. apply keeps_modify. intros c H. exact (proj1 (error_push_fact c err H)). Qed.

Lemma RegSet_keeps name (f : scpi_t -> Z) :
  name <> SCPI_REG_STB -> keeps status_ok (modify (fun c => SCPI_RegSet c name (f c))).
Proof. intros Hn. apply keeps_modify. intros c H. now apply RegSet_ok. Qed.

Lemma CoreCls_ok c : status_ok c -> status_ok (SCPI_CoreCls c).
Proof.
  intros H. unfold SCPI_CoreCls, SCPI_EventClear. now apply RegSet_ok, RegSet_ok, ErrorClear_ok, RegSet_ok.
Qed.

Lemma ErrorPop_keeps : keeps status_ok (fun c => let '(e, c) := SCPI_ErrorPop c in Ok (e, c)).
Proof.
  apply keeps_of_run. intros c H. destruct (ErrorPop_spec c H) as (c' & E & H' & _). rewrite E. eauto.
Qed.

Lemma writeData_keeps d : keeps status_ok (writeData d).
Proof. unfold writeData. keeping. Qed.
Lemma flushData_keeps : keeps status_ok flushData.
Proof. unfold flushData. keeping. Qed.
#[export] Hint Resolve push_keeps writeData_keeps flushData_keeps ErrorPop_keeps : keeps.

Lemma writeNewLine_keeps : keeps status_ok writeNewLine.
Proof. unfold writeNewLine. keeping. Qed.
Lemma writeSemicolon_keeps : keeps status_ok writeSemicolon.
Proof. unfold writeSemicolon. keeping. Qed.
Lemma writeDelimiter_keeps : keeps status_ok writeDelimiter.
Proof. unfold writeDelimiter. keeping. Qed.
Lemma count_output_keeps : keeps status_ok count_output.
Proof. unfold count_output. keeping. Qed.
#[export] Hint Resolve writeNewLine_keeps writeSemicolon_keeps writeDelimiter_keeps count_output_keeps : keeps.

Lemma ResultCharacters_keeps d : keeps status_ok (SCPI_ResultCharacters d).
Proof. unfold SCPI_ResultCharacters. keeping. Qed.
Lemma result_base_keeps t b : keeps status_ok (result_base t b).
Proof. unfold result_base. keeping. Qed.
#[export] Hint Resolve ResultCharacters_keeps result_base_keeps : keeps.

Lemma ResultInt32_keeps v : keeps status_ok (SCPI_ResultInt32 v).
Proof. apply result_base_keeps. Qed.
Lemma ResultUInt32Base_keeps v b : keeps status_ok (SCPI_ResultUInt32Base v b).
Proof. apply result_base_keeps. Qed.
Lemma ResultBool_keeps v : keeps status_ok (SCPI_ResultBool v).
Proof. apply result_base_keeps. Qed.
#[export] Hint Resolve ResultInt32_keeps ResultUInt32Base_keeps ResultBool_keeps : keeps.

Lemma ResultError_keeps e : keeps status_ok (SCPI_ResultError e).
Proof. unfold SCPI_ResultError. keeping. Qed.
Lemma ResultArbitraryBlock_keeps d : keeps status_ok (SCPI_ResultArbitraryBlock d).
Proof.
  unfold SCPI_ResultArbitraryBlock, SCPI_ResultArbitraryBlockHeader, SCPI_ResultArbitraryBlockData. keeping.
Qed.
Lemma Parameter_keeps m : keeps status_ok (SCPI_Parameter m).
Proof. unfold SCPI_Parameter. keeping. Qed.
Lemma ParamSignTo_keeps w p sign : keeps status_ok (ParamSignTo w p sign).
Proof. unfold ParamSignTo. keeping. Qed.
Lemma ParamToChoice_keeps p options : keeps status_ok (SCPI_ParamToChoice p options).
Proof. unfold SCPI_ParamToChoice. keeping. Qed.
#[export] Hint Resolve ResultError_keeps ResultArbitraryBlock_keeps Parameter_keeps ParamSignTo_keeps
  ParamToChoice_keeps : keeps.

Lemma ParamSignUInt32_keeps m sign : keeps status_ok (ParamSignUInt32 m sign).
Proof. unfold ParamSignUInt32, ParamSign, ParamSignToUInt32. keeping. Qed.
#[export] Hint Resolve ParamSignUInt32_keeps : keeps.

Lemma ParamInt32_keeps m : keeps status_ok (SCPI_ParamInt32 m).
Proof. unfold SCPI_ParamInt32. keeping. Qed.
Lemma ParamUInt32_keeps m : keeps status_ok (SCPI_ParamUInt32 m).
Proof. apply ParamSignUInt32_keeps. Qed.
Lemma ParamCharacters_keeps m : keeps status_ok (SCPI_ParamCharacters m).
Proof. unfold SCPI_ParamCharacters. keeping. Qed.
Lemma ParamArbitraryBlock_keeps m : keeps status_ok (SCPI_ParamArbitraryBlock m).
Proof. unfold SCPI_ParamArbitraryBlock. keeping. Qed.
Lemma ParamBool_keeps m : keeps status_ok (SCPI_ParamBool m).
Proof. unfold SCPI_ParamBool, ParamSignToUInt32. keeping. Qed.
Lemma ParamChoice_keeps options m : keeps status_ok (SCPI_ParamChoice options m).
Proof. unfold SCPI_ParamChoice. keeping. Qed.
Lemma ParamToDouble_keeps p : keeps status_ok (SCPI_ParamToDouble p).
Proof. unfold SCPI_ParamToDouble, ParamSignToUInt64. keeping. Qed.
Lemma transformNumber_keeps u n v : keeps status_ok (transformNumber u n v).
Proof. unfold transformNumber. keeping. Qed.
#[export] Hint Resolve ParamInt32_keeps ParamUInt32_keeps ParamCharacters_keeps ParamArbitraryBlock_keeps
  ParamBool_keeps ParamChoice_keeps ParamToDouble_keeps transformNumber_keeps : keeps.

Lemma ParamNumber_keeps options m : keeps status_ok (SCPI_ParamNumber options m).
Proof. unfold SCPI_ParamNumber. keeping. Qed.
#[export] Hint Resolve ParamNumber_keeps : keeps.

(** The common commands. *)
Lemma core_keeps f : (forall c, status_ok c -> status_ok (f c)) -> keeps status_ok (core f).
Proof. intros Hf. unfold core. keeping. now apply keeps_modify. Qed.

Lemma set_reg_param_keeps name e : name <> SCPI_REG_STB -> keeps status_ok (set_reg_param name e).
Proof.
  intros Hn. unfold set_reg_param. keeping. now apply (RegSet_keeps name (fun _ => u16 (default 0 _))).
Qed.

Lemma reg_query_keeps name : keeps status_ok (reg_query name).
Proof. unfold reg_query. keeping. Qed.
#[export] Hint Resolve set_reg_param_keeps reg_query_keeps : keeps.

Lemma patterns_core_keep : Forall (fun pm => keeps status_ok pm.2) patterns_core.
Proof.
  unfold patterns_core. repeat (apply Forall_cons; split); [..|now apply Forall_nil]; cbn [snd];
    unfold SCPI_CoreCls_cmd, SCPI_CoreEse, SCPI_CoreEseQ, SCPI_CoreEsrQ, SCPI_CoreIdnQ, SCPI_CoreOpc_cmd,
      SCPI_CoreOpcQ, SCPI_CoreRst, SCPI_CoreSre, SCPI_CoreSreQ, SCPI_CoreStbQ, SCPI_CoreWai,
      SCPI_SystemErrorNextQ, SCPI_SystemErrorCountQ, SCPI_SystemVersionQ, SCPI_ResultMnemonic; keeping.
  - apply core_keeps, CoreCls_ok.
  - now apply (RegSet_keeps SCPI_REG_ESR (fun _ => 0)).
  - apply core_keeps. intros c H. now apply RegSet_ok.
Qed.

(** ** The parser

    It keeps every invariant of the whole program that holds the library's
    and that the handlers keep. *)

Section Parse.
Context {W : Type} `{L : Lens scpi_t W} (Q : W -> Prop) `{I : !Within status_ok Q}.

Definition command_keeps (cmd : scpi_command_t W) : Prop :=
  match cmd_callback cmd with Some callback => keeps Q callback | None => True end.

Lemma processCommand_keeps cmd : command_keeps cmd -> keeps Q (processCommand cmd).
Proof. unfold command_keeps, processCommand. intros Hcb. destruct (cmd_callback cmd); keeping. Qed.

Lemma findCommandHeader_keeps (cmdlist : list (scpi_command_t W)) header :
  keeps Q (findCommandHeader cmdlist header).
Proof. induction cmdlist as [|c l IH]; cbn [findCommandHeader]; keeping. Qed.
#[local] Hint Resolve findCommandHeader_keeps : keeps.

Lemma parse_unit_keeps cmdlist cmd_prev :
  Forall command_keeps cmdlist -> keeps Q (parse_unit cmdlist cmd_prev).
Proof.
  intros Hc. unfold parse_unit. apply keeps_bind; [keeping|intros ps].
  case_decide; [keeping|]. case_match; [|keeping].
  apply keeps_bind; [keeping|intros mem]. apply keeps_bind; [keeping|intros [[b header] mem']].
  apply keeps_bind; [keeping|intros _].
  apply (keeps_bind_post _ (fun found => forall cmd, found = Some cmd -> cmd ∈ cmdlist)).
  - keeping.
  - intros w found w' _ E cmd ->. now apply findCommandHeader_in in E as [? _].
  - intros [cmd|] Hin; [|keeping]. rewrite Forall_forall in Hc.
    pose proof (processCommand_keeps cmd (Hc cmd (Hin cmd eq_refl))). keeping.
Qed.

Lemma SCPI_Parse_keeps cmdlist data len :
  Forall command_keeps cmdlist -> keeps Q (SCPI_Parse cmdlist data len).
Proof.
  intros Hc. unfold SCPI_Parse. apply keeps_bind; [keeping|intros _].
  apply keeps_bind; [|intros ok; keeping]. generalize (S (Z.to_nat len)) (mkTok SCPI_TOKEN_UNKNOWN 0 0) true.
  intros fuel. revert data len. induction fuel as [|fuel IH]; intros data len prev result; cbn [parse_loop]; [keeping|].
  pose proof (parse_unit_keeps cmdlist prev Hc). keeping.
Qed.
End Parse.

(** ** Blocks of samples *)

(** A block's length is not negative. *)
Definition block_length_ok (t : scpi_token_t) : Prop :=
  t_type t = SCPI_TOKEN_ARBITRARY_BLOCK_PROGRAM_DATA -> 0 <= t_len t.

Section Blocks.
Variable mem : list Z.

Definition token_of (x : Z * scpi_token_t * lex_state_t) : scpi_token_t := snd (fst x).

Lemma block_length st : block_length_ok (token_of (scpiLex_ArbitraryBlockProgramData mem st)).
Proof.
  unfold scpiLex_ArbitraryBlockProgramData. destruct (skipChr mem st 35) as [h st1].
  destruct (truthy h); [destruct (look mem isNonzeroDigit st1)|].
  - destruct (block_digits mem _ 0 (adv 1 st1)) as [[i n] st2] eqn:E2.
    apply block_digits_fwd in E2 as [_ Hn]; [|lia].
    case_decide; [|destruct (iseos st2)]; intros Ht; cbn in *; done.
  - destruct (iseos st1); intros Ht; done.
  - intros Ht. done.
Qed.

(** No other recogniser reports a block. *)
Lemma token_from_no_block ty p st :
  ty <> SCPI_TOKEN_ARBITRARY_BLOCK_PROGRAM_DATA -> block_length_ok (token_from ty p st).
Proof. intros Hty Ht. cbn in Ht. case_match; congruence. Qed.

Lemma Nondecimal_no_block st : block_length_ok (token_of (scpiLex_NondecimalNumericData mem st)).
Proof.
  unfold scpiLex_NondecimalNumericData. destruct (skipChr mem st 35) as [h st1].
  destruct (truthy h); [|done]. repeat case_match; intros Ht; cbn in Ht; simplify_eq.
Qed.

Lemma Character_no_block st : block_length_ok (token_of (scpiLex_CharacterProgramData mem st)).
Proof. unfold scpiLex_CharacterProgramData. now apply token_from_no_block. Qed.

Lemma Decimal_no_block st : block_length_ok (token_of (scpiLex_DecimalNumericProgramData mem st)).
Proof.
  unfold scpiLex_DecimalNumericProgramData. destruct (skipMantisa mem st) as [n st1].
  now apply token_from_no_block.
Qed.

Lemma String_no_block st : block_length_ok (token_of (scpiLex_StringProgramData mem st)).
Proof. unfold scpiLex_StringProgramData. repeat case_match; intros Ht; cbn in Ht; simplify_eq. Qed.

Lemma Expression_no_block len st : block_length_ok (token_of (scpiLex_ProgramExpression mem len st)).
Proof. unfold scpiLex_ProgramExpression. repeat case_match; intros Ht; cbn in Ht; simplify_eq. Qed.

(** The recognisers are tried in turn. *)
Lemma alternative_block (f : scpi_token_t -> lex_state_t -> Z * scpi_token_t * lex_state_t) x :
  (forall t st, block_length_ok (token_of (f t st))) -> block_length_ok (token_of x) ->
  block_length_ok (token_of (let '(r, t, st) := x in if r =? 0 then f t st else (r, t, st))).
Proof. intros Hf Hx. destruct x as [[r t] st]. destruct (r =? 0); [apply Hf|exact Hx]. Qed.

Lemma decimal_block st :
  block_length_ok (token_of
    (let '(result, token, st) := scpiLex_DecimalNumericProgramData mem st in
     if negb (result =? 0) then
       let '(wsLen, _, st) := scpiLex_WhiteSpace mem st in
       let '(suffixLen, _, st) := scpiLex_SuffixProgramData mem st in
       if 0 <? suffixLen then
         let n := t_len token + (wsLen + suffixLen) in
         (n, mkTok SCPI_TOKEN_DECIMAL_NUMERIC_PROGRAM_DATA_WITH_SUFFIX (t_ptr token) n, st)
       else (result, token, st)
     else (result, token, st))).
Proof.
  pose proof (Decimal_no_block st) as Hd. destruct (scpiLex_DecimalNumericProgramData mem st) as [[r t] st1].
  destruct (negb _); [|exact Hd]. destruct (scpiLex_WhiteSpace mem st1) as [[w ?] st2].
  destruct (scpiLex_SuffixProgramData mem st2) as [[n ?] st3]. destruct (0 <? n); [done|exact Hd].
Qed.

Lemma data_block_length st : block_length_ok (token_of (scpiParser_parseProgramData mem st)).
Proof.
  unfold scpiParser_parseProgramData. destruct (scpiLex_WhiteSpace mem st) as [[n ?] st1].
  pose proof (alternative_block (fun _ => scpiLex_CharacterProgramData mem) _
    (fun _ => Character_no_block) (Nondecimal_no_block st1)) as H1.
  cbv beta in H1. destruct (scpiLex_NondecimalNumericData mem st1) as [[r2 t2] st2].
  set (x1 := if r2 =? 0 then _ else _) in *. clearbody x1.
  pose proof (alternative_block (fun _ st => _) x1 (fun _ => decimal_block) H1) as H2.
  cbv beta in H2. destruct x1 as [[r3 t3] st3].
  set (x2 := if r3 =? 0 then _ else _) in *. clearbody x2.
  pose proof (alternative_block (fun _ => scpiLex_StringProgramData mem) x2 (fun _ => String_no_block) H2) as H3.
  cbv beta in H3. destruct x2 as [[r4 t4] st4].
  set (x3 := if r4 =? 0 then _ else _) in *. clearbody x3.
  pose proof (alternative_block (fun _ => scpiLex_ArbitraryBlockProgramData mem) x3 (fun _ => block_length) H3) as H4.
  cbv beta in H4. destruct x3 as [[r5 t5] st5].
  set (x4 := if r5 =? 0 then _ else _) in *. clearbody x4.
  pose proof (alternative_block (fun t => scpiLex_ProgramExpression mem (t_len t)) x4
    (fun t => Expression_no_block (t_len t)) H4) as H5.
  cbv beta in H5. destruct x4 as [[r6 t6] st6].
  set (x5 := if r6 =? 0 then _ else _) in *. clearbody x5.
  destruct x5 as [[r7 t7] st7]. destruct (scpiLex_WhiteSpace mem st7) as [[w ?] st8]. exact H5.
Qed.
End Blocks.

(** What [ParamArbitraryBlock] returns has a length. *)
Lemma ParamArbitraryBlock_length m c r c' :
  SCPI_ParamArbitraryBlock m c = Ok (Some r, c') -> 0 <= snd r.
Proof.
  unfold SCPI_ParamArbitraryBlock. intros H. apply bind_inv in H as ([ok t] & c1 & H1 & H2).
  assert (Ht : ok = true -> block_length_ok t).
  { intros ->. unfold SCPI_Parameter in H1. apply bind_inv in H1 as (st & ? & _ & H1).
    destruct (l_end st <=? l_pos st); [destruct m; discriminate|].
    apply bind_inv in H1 as (mem & ? & _ & H1). apply bind_inv in H1 as (k & ? & _ & H1).
    apply bind_inv in H1 as (comma & ? & _ & H1). destruct (negb comma); [discriminate|].
    apply bind_inv in H1 as ([] & ? & _ & H1). apply bind_inv in H1 as (st1 & ? & _ & H1).
    pose proof (data_block_length mem st1) as Hb.
    destruct (scpiParser_parseProgramData mem st1) as [[? t1] st2].
    apply bind_inv in H1 as ([] & ? & _ & H1).
    destruct (t_type t1) eqn:Et; try discriminate; injection H1 as <- _; exact Hb. }
  destruct ok; [|discriminate]. case_decide as Hty; [|discriminate]. injection H2 as <- _. exact (Ht eq_refl Hty).
Qed.

(** ** The handlers *)

(** Steps on the other variables of the firmware. *)
#[export] Hint Extern 1 (keeps firmware_sound (set_execute _)) =>
  (apply keeps_modify; intros ? []; now constructor) : keeps.
#[export] Hint Extern 1 (keeps firmware_sound (set_repeats _)) =>
  (apply keeps_modify; intros ? []; now constructor) : keeps.
#[export] Hint Extern 1 (keeps firmware_sound (set_pin _ _)) =>
  (apply keeps_modify; intros ? []; now constructor) : keeps.

Section Handlers.
Context `{E : Env} `{FE : FlashEnv} `{Lk : Link} `{Lm : Libm}.

Lemma set_mode_keeps v :
  v = scpi_mode_normal \/ v = scpi_mode_program -> keeps firmware_sound (set_mode v).
Proof. intros Hv. apply keeps_modify. intros w []. now constructor. Qed.

Lemma set_length_keeps v : 0 <= v <= PARALLEL_BUF_SIZE -> keeps firmware_sound (set_length v).
Proof. intros Hv. apply keeps_modify. intros w []. now constructor. Qed.

Lemma lib_keeps {A} (m : M scpi_t A) : keeps status_ok m -> keeps firmware_sound (lib m).
Proof. intros H. exact (keeps_zoom _ _ H). Qed.
Lemma drv_keeps {A} (m : M board A) : keeps board_sound m -> keeps firmware_sound (drv m).
Proof. intros H. exact (keeps_zoom _ _ H). Qed.
Lemma on_hw_keeps {A} (m : M hw A) : keeps hw_sound m -> keeps firmware_sound (on_hw m).
Proof. intros H. exact (drv_keeps _ (keeps_zoom _ _ H)). Qed.
Lemma on_dds_keeps {A} (m : M dds A) : keeps dds_ok m -> keeps firmware_sound (on_dds m).
Proof. intros H. exact (drv_keeps _ (keeps_zoom _ _ H)). Qed.
Lemma on_regs_keeps {A} (m : M ad9910_registers A) : keeps wf_regs m -> keeps firmware_sound (on_regs m).
Proof. intros H. exact (drv_keeps _ (keeps_zoom _ _ (keeps_zoom _ _ H))). Qed.
Lemma on_store_keeps {A} (m : M store A) : keeps store_sound m -> keeps firmware_sound (on_store m).
Proof. intros H. exact (drv_keeps _ (keeps_zoom _ _ H)). Qed.
Lemma on_queue_keeps {A} (m : M queue A) : keeps queue_sound m -> keeps firmware_sound (on_queue m).
Proof. intros H. exact (drv_keeps _ (keeps_zoom _ _ H)). Qed.
#[local] Hint Resolve lib_keeps drv_keeps on_hw_keeps on_dds_keeps on_regs_keeps on_store_keeps
  on_queue_keeps : keeps.

Lemma scpi_push_keeps err : keeps firmware_sound (scpi_push err).
Proof. unfold scpi_push. keeping. Qed.
#[local] Hint Resolve scpi_push_keeps : keeps.

Lemma reject_keeps err : keeps firmware_sound (reject err).
Proof. unfold reject. keeping. Qed.
Lemma refuse_keeps err : keeps firmware_sound (refuse err).
Proof. unfold refuse. keeping. Qed.
Lemma accept_keeps o : keeps firmware_sound (accept o).
Proof. unfold accept. keeping. Qed.
Lemma param_number_keeps : keeps firmware_sound param_number.
Proof. unfold param_number. keeping. Qed.
#[local] Hint Resolve reject_keeps refuse_keeps accept_keeps param_number_keeps : keeps.

Lemma ethernet_next_packet_keeps : keeps firmware_sound ethernet_next_packet.
Proof. unfold ethernet_next_packet. keeping. Qed.
Lemma pin_payload_keeps : keeps firmware_sound pin_payload.
Proof. unfold pin_payload. keeping. Qed.
#[local] Hint Resolve ethernet_next_packet_keeps pin_payload_keeps : keeps.

Lemma copy_data_keeps fuel len i offset : keeps firmware_sound (copy_data fuel len i offset).
Proof. revert i offset. induction fuel as [|fuel IH]; intros i offset; cbn [copy_data]; keeping. Qed.
#[local] Hint Resolve copy_data_keeps : keeps.

Lemma ethernet_copy_data_keeps len offset : keeps firmware_sound (ethernet_copy_data len offset).
Proof. unfold ethernet_copy_data. keeping. Qed.
#[local] Hint Resolve ethernet_copy_data_keeps : keeps.

Lemma process_command_keeps ex qu :
  keeps board_sound ex -> keeps queue_sound qu -> keeps firmware_sound (process_command ex qu).
Proof. intros H1 H2. unfold process_command. keeping. Qed.

Lemma process_pin_keeps p v : keeps firmware_sound (scpi_process_command_pin p v).
Proof. apply process_command_keeps; [keeping|unfold command_queue_pin; keeping]. Qed.
Lemma process_register_keeps f v :
  f ∈ all_fields -> keeps firmware_sound (scpi_process_command_register f v).
Proof. intros Hf. apply process_command_keeps; keeping. Qed.
Lemma process_trigger_keeps : keeps firmware_sound scpi_process_command_trigger.
Proof. apply process_command_keeps; [keeping|unfold command_queue_trigger; keeping]. Qed.
Lemma process_update_keeps : keeps firmware_sound scpi_process_command_update.
Proof. apply process_command_keeps; [keeping|unfold command_queue_update; keeping]. Qed.
Lemma process_wait_keeps d : keeps firmware_sound (scpi_process_command_wait d).
Proof. apply process_command_keeps; [keeping|unfold command_queue_wait; keeping]. Qed.
Lemma process_parallel_keeps a n k : keeps firmware_sound (scpi_process_command_parallel a n k).
Proof. apply process_command_keeps; [keeping|unfold command_queue_parallel; keeping]. Qed.
#[local] Hint Resolve process_pin_keeps process_register_keeps process_trigger_keeps process_update_keeps
  process_wait_keeps process_parallel_keeps : keeps.

Lemma param_frequency_keeps : keeps firmware_sound scpi_param_frequency.
Proof. unfold scpi_param_frequency. keeping. Qed.
Lemma param_amplitude_keeps : keeps firmware_sound scpi_param_amplitude.
Proof. unfold scpi_param_amplitude. keeping. Qed.
Lemma param_ramp_rate_keeps : keeps firmware_sound scpi_param_ramp_rate.
Proof. unfold scpi_param_ramp_rate. keeping. Qed.
Lemma param_ramp_keeps : keeps firmware_sound scpi_param_ramp.
Proof. unfold scpi_param_ramp. keeping. Qed.
Lemma param_ip_address_keeps t : keeps firmware_sound (scpi_param_ip_address t).
Proof. unfold scpi_param_ip_address. keeping. Qed.
#[local] Hint Resolve param_frequency_keeps param_amplitude_keeps param_ramp_rate_keeps param_ramp_keeps
  param_ip_address_keeps : keeps.

Lemma parse_register_keeps reg parser :
  reg ∈ all_fields -> keeps firmware_sound parser -> keeps firmware_sound (scpi_parse_register_command reg parser).
Proof. intros Hf Hp. unfold scpi_parse_register_command. keeping. Qed.
Lemma parse_pin_keeps p : keeps firmware_sound (scpi_parse_pin_command p).
Proof. unfold scpi_parse_pin_command. keeping. Qed.
Lemma print_unit_keeps v u : keeps firmware_sound (scpi_print_unit v u).
Proof. unfold scpi_print_unit. keeping. Qed.
Lemma print_pin_keeps p : keeps firmware_sound (scpi_print_pin p).
Proof. unfold scpi_print_pin. keeping. Qed.
Lemma print_choice_keeps o t : keeps firmware_sound (print_choice o t).
Proof. unfold print_choice. keeping. Qed.
Lemma set_network_keeps g p : keeps firmware_sound (set_network g p).
Proof. unfold set_network. keeping. Qed.
Lemma print_network_keeps g : keeps firmware_sound (print_network g).
Proof. unfold print_network, scpi_print_ip_address. keeping. Qed.
Lemma print_register_keeps f pr :
  (forall v, keeps firmware_sound (pr v)) -> keeps firmware_sound (scpi_print_register f pr).
Proof. intros Hp. unfold scpi_print_register. keeping. Qed.
Lemma with_choice_keeps o k : (forall v, keeps firmware_sound (k v)) -> keeps firmware_sound (with_choice o k).
Proof. intros Hk. unfold with_choice. keeping. Qed.
#[local] Hint Resolve parse_register_keeps parse_pin_keeps print_unit_keeps print_pin_keeps
  print_choice_keeps set_network_keeps print_network_keeps print_register_keeps : keeps.

(** A choice is one of the list. *)
Lemma ParamChoice_in o m c v c' :
  SCPI_ParamChoice o m c = Ok ((true, Some v), c') -> v ∈ map snd (entries o).
Proof.
  unfold SCPI_ParamChoice. intros H. apply bind_inv in H as ([ok t] & c1 & _ & H).
  destruct ok; [|discriminate]. unfold SCPI_ParamToChoice in H. apply bind_inv in H as (mem & c2 & _ & H).
  case_decide; [|discriminate]. destruct (list_find _ _) as [[i x]|] eqn:Ef.
  - injection H as <- _. apply list_find_Some in Ef as (Hi & _).
    apply list_elem_of_fmap. exists x. split; [done|]. exact (list_elem_of_lookup_2 _ _ _ Hi).
  - destruct (ended o); discriminate.
Qed.

Lemma with_choice_in_keeps o k :
  (forall v, v ∈ map snd (entries o) -> keeps firmware_sound (k v)) -> keeps firmware_sound (with_choice o k).
Proof.
  intros Hk. unfold with_choice.
  apply (keeps_bind_post _ (fun r => forall v, r = (true, Some v) -> v ∈ map snd (entries o))); [keeping| |].
  - intros w r w' _ H v ->. apply zoom_inv in H as (c & H & _). exact (ParamChoice_in _ _ _ _ _ H).
  - intros [[] [v|]] Hr; keeping.
Qed.

Lemma callback_mode_keeps : keeps firmware_sound scpi_callback_mode.
Proof.
  apply with_choice_in_keeps. intros v Hv w r w' [H1 H2 H3 H4] E1.
  cbn in Hv. rewrite !elem_of_cons in Hv.
  destruct Hv as [->|[->|[->|Hv%elem_of_nil]]]; [..|done]; injection E1 as _ <-; constructor; cbn; auto.
Qed.

(** A block has the length asked for. *)
Lemma copy_data_length fuel len i offset w bs w' :
  0 <= i <= len -> copy_data fuel len i offset w = Ok (bs, w') -> Z.of_nat (length bs) = len - i.
Proof.
  revert i offset w bs w'. induction fuel as [|fuel IH]; intros i offset w bs w' Hi H; [discriminate|].
  cbn [copy_data] in H. destruct (Z.ltb_spec i len); [|injection H as <- _; cbn; lia].
  apply bind_inv in H as (payload & w1 & _ & H).
  set (n := Z.min (u32 (Z.of_nat (length payload) - offset)) (len - i)) in H.
  assert (Hn : 0 <= n <= len - i) by (pose proof (wrap_range 32 (Z.of_nat (length payload) - offset)); lia).
  clearbody n. apply bind_inv in H as (part & w2 & Hp & H).
  assert (Hlen : length part = Z.to_nat n).
  { unfold read_bytes in Hp. case_decide; [|discriminate]. injection Hp as <- _.
    rewrite length_take, length_drop. lia. }
  apply bind_inv in H as ([] & w3 & _ & H). apply bind_inv in H as (rest & w4 & H & E1).
  injection E1 as <- _. apply IH in H; [|lia]. rewrite length_app. lia.
Qed.

Lemma length_sample_bytes l : length (sample_bytes l) = (2 * length l)%nat.
Proof.
  induction l as [|x l IH]; [done|]. unfold sample_bytes in *. cbn [map concat length].
  rewrite length_app, length_le_bytes, IH. lia.
Qed.

Lemma length_samples_of n bs : length bs = (2 * n)%nat -> length (samples_of bs) = n.
Proof.
  revert bs. induction n as [|n IH]; intros [|b0 [|b1 bs]] H; cbn in H; try lia; [done|].
  cbn [samples_of length]. rewrite IH; lia.
Qed.

Lemma callback_parallel_data_keeps : keeps firmware_sound scpi_callback_parallel_data.
Proof.
  unfold scpi_callback_parallel_data.
  apply (keeps_bind_post _ (fun r => forall x, r = Some x -> 0 <= snd x)); [keeping| |].
  { intros w r w' _ H x ->. apply zoom_inv in H as (c & H & _). exact (ParamArbitraryBlock_length _ _ _ _ H). }
  intros [[p len]|] Hr; [|keeping]. specialize (Hr _ eq_refl). cbn [snd] in Hr.
  destruct (Z.ltb_spec PARALLEL_BUF_SIZE len) as [|Hlen]; [keeping|].
  apply keeps_bind; [now apply set_length_keeps|intros _].
  apply keeps_bind; [keeping|intros st]. apply keeps_bind; [keeping|intros raw].
  apply (keeps_bind_post _ (fun bs => Z.of_nat (length bs) = len)); [keeping| |].
  { intros w bs w' _ H. unfold ethernet_copy_data in H. apply bind_inv in H as (ps & w1 & _ & H).
    apply copy_data_length in H; lia. }
  intros bs Hbs.
  apply (keeps_bind_post _ (fun l => 2 * Z.of_nat (length l) = PARALLEL_BUF_SIZE)); [keeping| |].
  { intros w l w' [] [= <- _]. apply bs_samples. assumption. }
  intros l Hl. keeping. apply drv_keeps, set_samples_keeps.
  rewrite (length_samples_of (length l)); [exact Hl|].
  rewrite length_app, length_drop, length_sample_bytes. lia.
Qed.

Lemma sequence_ncycles_keeps : keeps firmware_sound scpi_callback_sequence_ncycles.
Proof. unfold scpi_callback_sequence_ncycles. keeping. Qed.

Lemma wait_keeps : keeps firmware_sound scpi_callback_wait.
Proof. unfold scpi_callback_wait, scpi_process_wait, scpi_process_trigger. keeping. Qed.

Lemma register_q_keeps : keeps firmware_sound scpi_callback_register_q.
Proof. unfold scpi_callback_register_q. keeping. Qed.
#[local] Hint Resolve callback_mode_keeps callback_parallel_data_keeps sequence_ncycles_keeps wait_keeps
  register_q_keeps : keeps.

Lemma queue_parallel_frequency_keeps f : keeps queue_sound (command_queue_parallel_frequency f).
Proof. unfold command_queue_parallel_frequency. keeping. Qed.
Lemma print_ramp_keeps v : keeps firmware_sound (scpi_print_ramp v).
Proof. unfold scpi_print_ramp, scpi_print_frequency, scpi_print_phase, scpi_print_amplitude. keeping. Qed.
Lemma print_boolean_keeps v : keeps firmware_sound (scpi_print_boolean v).
Proof. unfold scpi_print_boolean. keeping. Qed.
#[local] Hint Resolve queue_parallel_frequency_keeps print_ramp_keeps print_boolean_keeps : keeps.

Ltac handlers_keep :=
  repeat (apply Forall_cons; split); [..|now apply Forall_nil]; cbn [fst snd].

Lemma patterns_both_keep :
  Forall (fun '(_, m, q) => keeps firmware_sound m /\ keeps firmware_sound q) patterns_both.
Proof.
  unfold patterns_both. handlers_keep; split;
  unfold scpi_callback_mode_q, scpi_callback_parallel_data_q, scpi_callback_parallel_frequency,
    scpi_callback_parallel_frequency_q, scpi_callback_parallel_ncycles, scpi_callback_parallel_ncycles_q,
    scpi_callback_parallel_state, scpi_callback_parallel_state_q, scpi_callback_parallel_target,
    scpi_callback_parallel_target_q, scpi_callback_output_state, scpi_callback_output_state_q,
    scpi_callback_output_frequency, scpi_callback_output_frequency_q, scpi_callback_output_amplitude,
    scpi_callback_output_amplitude_q, scpi_callback_ramp_boundary_minimum,
    scpi_callback_ramp_boundary_minimum_q, scpi_callback_ramp_boundary_maximum,
    scpi_callback_ramp_boundary_maximum_q, scpi_callback_ramp_step_up, scpi_callback_ramp_step_up_q,
    scpi_callback_ramp_step_down, scpi_callback_ramp_step_down_q, scpi_callback_ramp_rate_up,
    scpi_callback_ramp_rate_up_q, scpi_callback_ramp_rate_down, scpi_callback_ramp_rate_down_q,
    scpi_callback_ramp_mode, scpi_callback_ramp_mode_q, scpi_callback_ramp_direction,
    scpi_callback_ramp_direction_q, scpi_callback_ramp_target, scpi_callback_ramp_target_q,
    scpi_callback_system_network_address, scpi_callback_system_network_submask,
    scpi_callback_system_network_gateway, scpi_callback_system_network_address_q,
    scpi_callback_system_network_submask_q, scpi_callback_system_network_gateway_q,
    scpi_callback_sequence_ncycles_q, scpi_print_frequency, scpi_print_amplitude;
  repeat (keeping; try (apply with_choice_keeps; intros ?)).
Qed.

Lemma patterns_no_query_keep : Forall (fun '(_, m) => keeps firmware_sound m) patterns_no_query.
Proof.
  unfold patterns_no_query. handlers_keep;
    unfold scpi_callback_sequence_clear, scpi_callback_startup_clear, scpi_callback_startup_save,
      scpi_callback_trigger_send, scpi_callback_trigger_wait; keeping.
Qed.

Lemma patterns_only_query_keep : Forall (fun '(_, m) => keeps firmware_sound m) patterns_only_query.
Proof.
  unfold patterns_only_query. handlers_keep;
    unfold scpi_callback_test_q, scpi_callback_system_pll_q; keeping.
Qed.

Lemma scpi_commands_keep : Forall (command_keeps firmware_sound) scpi_commands.
Proof.
  unfold scpi_commands. rewrite !Forall_app. split_and!; apply Forall_map.
  - eapply Forall_impl; [exact patterns_core_keep|]. intros [p m] Hm. exact (lib_keeps m Hm).
  - eapply Forall_impl; [exact patterns_both_keep|]. intros [[p m] q] [Hm _]. exact Hm.
  - eapply Forall_impl; [exact patterns_both_keep|]. intros [[p m] q] [_ Hq]. exact Hq.
  - eapply Forall_impl; [exact patterns_no_query_keep|]. intros [p m] Hm. exact Hm.
  - eapply Forall_impl; [exact patterns_only_query_keep|]. intros [p m] Hm. exact Hm.
Qed.

Lemma scpi_process_keeps data len : keeps firmware_sound (scpi_process data len).
Proof. apply SCPI_Parse_keeps; [apply _|apply scpi_commands_keep]. Qed.
#[local] Hint Resolve scpi_process_keeps : keeps.

Lemma ethernet_round_keeps : keeps firmware_sound ethernet_round.
Proof. unfold ethernet_round. keeping. Qed.

(** *** The start-up *)

Lemma quiet_keeps (m : M hw unit) : quiet m -> keeps hw_sound m.
Proof.
  intros Hm. apply keeps_of_run. intros h H. destruct (Hm h) as ([] & h' & E1 & _ & _ & T). exists tt, h'. split; [exact E1|].
  unfold hw_sound. now rewrite T.
Qed.

Lemma bring_up_keeps : keeps board_sound ad9910_bring_up.
Proof.
  pose proof (quiet_keeps _ quiet_gpio_init). pose proof (fun p => quiet_keeps _ (quiet_spi_init p)).
  pose proof (quiet_keeps _ quiet_pll_wait). pose proof (quiet_keeps _ quiet_spi_wait). pose proof gpio_set_high_keeps. pose proof gpio_set_low_keeps. pose proof update_reg_keeps.
  unfold ad9910_bring_up, set_field, spi_init_slow, spi_init_fast, set_APB1ENR, spi_deinit, SPI1_reset,
    ad9910_select_profile, ad9910_select_parallel_target, ad9910_enable_parallel, ad9910_enable_output. keeping.
Qed.

Lemma startup_execute_keeps : keeps board_sound startup_command_execute.
Proof.
  unfold startup_command_execute. apply keeps_bind; [apply startup_crc_keeps|intros calc].
  apply keeps_bind; [apply startup_bytes_keeps|intros saved]. destruct (negb _); [apply keeps_ret|].
  apply keeps_bind; [apply startup_bytes_keeps|intros len]. apply keeps_bind; [apply startup_bytes_keeps|intros mem].
  unfold execute_commands. apply keeps_bind; [refine (keeps_zoom hw_sound _ _); apply gpio_set_high_keeps|intros []].
  apply keeps_bind; [|intros []; refine (keeps_zoom hw_sound _ _); apply gpio_set_low_keeps].
  apply keeps_for_each. intros r Hr. apply run_queue_keeps.
Qed.

Lemma init_keeps : keeps board_sound ad9910_init.
Proof.
  unfold ad9910_init. apply keeps_bind; [apply bring_up_keeps|intros []]. apply keeps_bind; [|intros v].
  - refine (keeps_zoom hw_sound _ _). intros h a h' H [= _ <-]. exact H.
  - destruct (v =? 0); [apply startup_execute_keeps|apply startup_clear_keeps].
Qed.

Lemma start_up_keeps : keeps board_sound start_up.
Proof.
  unfold start_up. apply keeps_bind; [apply init_keeps|intros []].
  repeat (apply keeps_bind; [|intros []]); refine (keeps_zoom hw_sound _ _);
    first [apply gpio_set_high_keeps|apply gpio_set_low_keeps].
Qed.

(** ** The states the main loop reaches *)

(** After initialisation: the command layer's variables as they are
    defined, the board as the start-up left it, and the packets that will come. *)
Definition firmware_start (b : board) (out : list Z) (packets : list (list Z)) : firmware :=
  mkFirmware (scpi_init out) b scpi_mode_normal false 0 0 NoPacket packets.

(** The client reads what was sent, and sends further packets. *)
Definition client (packets : list (list Z)) (w : firmware) : firmware :=
  mkFirmware (with_sink [] (fw_scpi w)) (fw_board w) (fw_mode w) (fw_execute w) (fw_length w)
    (fw_repeats w) (fw_pin w) (fw_packets w ++ packets).

Inductive reachable (b : board) : firmware -> Prop :=
  | reach_start b' out packets : start_up b = Ok (tt, b') -> reachable b (firmware_start b' out packets)
  | reach_round w w' : reachable b w -> ethernet_round w = Ok (tt, w') -> reachable b w'
  | reach_client w packets : reachable b w -> reachable b (client packets w).

(** C5: Whatever packets a client sends, in every state the main loop reaches
    from power-on the program is sound: the chip's serial port waits for
    an instruction, so that the next register goes where it is meant to; the
    shadow registers have the chip's addresses and sizes and values that fit
    their width; the queue lies in its buffer; the sample buffer has its size
    and the block announced by the client fits in it; the mode is normal or
    program; and the status byte summarises the status registers and the
    error queue. *)
Theorem firmware_stays_sound b w : board_sound b -> reachable b w -> firmware_sound w.
Proof.
  intros Hb. induction 1 as [b' out packets E1|w w' _ IH E1|w packets _ [IH1 IH2 IH3 IH4]].
  - apply (start_up_keeps b tt b' Hb) in E1.
    constructor; [now apply Init_ok|exact E1|now left|cbn; unfold PARALLEL_BUF_SIZE; lia].
  - exact (ethernet_round_keeps w tt w' IH E1).
  - constructor; try assumption. now apply (status_ok_same (fw_scpi w)).
Qed.
End Handlers.

(** ** At concrete inputs *)

Definition board_start : board :=
  mkBoard hw_reset ad9910_regs flash_reset 0 (mkQueue (replicate 1024 0) 0 0) 0
    (replicate (Z.to_nat (PARALLEL_BUF_SIZE / 2)) 0).

Lemma board_start_sound : board_sound board_start.
Proof.
  constructor; [reflexivity|exact (proj1 dds_boot_ok)|split; [reflexivity|cbn; lia]|].
  unfold board_start. cbn [b_samples]. rewrite length_replicate. reflexivity.
Qed.

Definition returned {A} (r : res A) : bool := match r with Ok _ => true | _ => false end.

(** Two packets: a block that ends in the second, a sequence, its execution. *)
Definition some_packets : list (list Z) :=
  [ str "PAR:DAT #15hel"; str "lo"; str "MODE PROG;OUTP:FREQ 5;STAT ON;:MODE EXEC"; str "RAMP:MODE OSC;MODE?" ].

(** All input lines high: the PLL is locked, and the button held. *)
Definition lines_high : Env :=
  {| pin_level := fun _ _ => 0xFFFF; spi_time := fun _ => 2%nat; miso := fun n => Z.of_nat n;
     ticks := fun _ => 1%nat; tim_uif := fun _ => true; poll_fuel := 1000 |}.

Lemma firmware_stays_sound_witness :
  let round := @ethernet_round lines_high good_flash plain_link no_libm in
  exists b w, @start_up lines_high good_flash plain_link board_start = Ok (tt, b) /\
    (round;; round;; round) (firmware_start b [] some_packets) = Ok (tt, w) /\ firmware_sound w.
Proof.
  intros round.
  assert (match @start_up lines_high good_flash plain_link board_start with
          | Ok (_, b) => returned ((round;; round;; round) (firmware_start b [] some_packets))
          | _ => false
          end = true) as H by (vm_compute; reflexivity).
  destruct (@start_up lines_high good_flash plain_link board_start) as [[[] b]| |] eqn:E0; [|discriminate|discriminate].
  destruct ((round;; round;; round) (firmware_start b [] some_packets)) as [[[] w]| |] eqn:E1; [|discriminate|discriminate].
  exists b, w. split; [reflexivity|]. split; [exact E1|]. clear H.
  apply (@firmware_stays_sound lines_high good_flash plain_link no_libm board_start w board_start_sound).
  apply bind_inv in E1 as ([] & w1 & H1 & E1). apply bind_inv in E1 as ([] & w2 & H2 & H3).
  eapply reach_round; [|exact H3]. eapply reach_round; [|exact H2]. eapply reach_round; [|exact H1].
  now apply reach_start.
Defined.
