(* ===== verification/ScpiEffects.v ===== *)
(** * ScpiEffects: what the commands do to the chip and to the flash

    The composition of the layers below Scpi.v: a register command reaches
    the chip at once, or, in program mode, when the queue is executed, if
    the register is one of those the queue's SPI write sends; the network
    commands change the stored configuration; and a block is assembled from
    the packets it is spread over. *)

From Stdlib Require Import ZArith Lia SpecFloat String.
From stdpp Require Import base numbers list gmap.
From S2P Require Import Prelude Hw Gpio Spi Registers Ad9910 Chip Flash Crc Config Float Convert Board Commands.
From S2P Require Import ScpiFifo Lexer ScpiCore ScpiMatch ScpiNumber ScpiParser Decimal ScpiUnits ScpiCommon Scpi ScpiKeeps.
#[local] Open Scope c_scope.

(** ** The chip behind the board *)

Definition board_view (b : board) : view_of := abs (view b).
Definition firmware_view (w : firmware) : view_of := board_view (fw_board w).

Section Effects.
Context `{E : Env} `{FE : FlashEnv} `{Lk : Link} `{Lm : Libm}.

Lemma fits_index f : field_fits f -> (reg f < 20)%nat.
Proof. intros [_ H]. destruct (ad9910_regs !! reg f) eqn:Er; [|done]. exact (lookup_lt_Some _ _ _ Er). Qed.

(** A driver function on the board. *)
Lemma run_dds (m : M dds unit) g b :
  implements m g -> dds_ok (view b) ->
  exists d, zoom m b = Ok (tt, over d b) /\ dds_ok d /\ abs d = g (board_view b).
Proof.
  intros Hm Hb. destruct (Hm _ Hb) as (d & E1 & Hd & Ha). exists d.
  split; [now apply zoom_ok|]. now split.
Qed.

Lemma zoom_hw_dds {A} (m : M hw A) (b : board) : zoom m b = zoom (zoom m : M dds A) b.
Proof. unfold zoom. cbn. destruct (m (b_hw b)) as [[a h]| |]; [|done|done]. now destruct b. Qed.

(** A pin that is no line of the chip. *)
Lemma run_pin p v b :
  wf_pin p -> chip_line p = false -> dds_ok (view b) ->
  exists d, zoom (gpio_set p v) b = Ok (tt, over d b) /\ dds_ok d /\ abs d = board_view b.
Proof.
  intros Hp Hne Hb. rewrite zoom_hw_dds. now apply (run_dds _ (fun w => w)), Hb; apply gpio_set_silent.
Qed.

(** ** Registers at once *)

Definition spec_register (f : ad9910_register_bit) (v : Z) (w : view_of) : view_of :=
  spec_send (reg f) (spec_set f v w).

Lemma execute_register_run f v b :
  f ∈ all_fields -> dds_ok (view b) ->
  exists d, execute_command_register f v b = Ok (sizeof_command_register, over d b) /\ dds_ok d /\
    abs d = spec_register f v (board_view b).
Proof.
  intros Hf Hb. pose proof (field_in_fits _ Hf) as Hfit.
  destruct (run_dds _ _ b (set_value_implements f v Hfit) Hb) as (d1 & E1 & Hd1 & A1).
  destruct (run_dds _ _ (over d1 b) (update_reg_implements (reg f) (fits_index _ Hfit))) as (d2 & E2 & Hd2 & A2).
  { now rewrite view_over. }
  exists d2. unfold execute_command_register. rewrite (bind_ok _ _ _ _ _ E1).
  unfold ad9910_update_matching_reg. rewrite (bind_ok _ _ _ _ _ E2).
  split; [now rewrite over_over|]. split; [exact Hd2|].
  rewrite A2. unfold spec_register. f_equal. unfold board_view. now rewrite view_over.
Qed.

Lemma execute_register_exact f v b r :
  f ∈ all_fields -> dds_ok (view b) -> regs (view b) !! reg f = Some r ->
  execute_command_register f v b =
    Ok (sizeof_command_register, over (reprogrammed (reg f) r (stored f v (value r)) (view b)) b) /\
  wf_regs (<[reg f := mkReg (address r) (stored f v (value r)) (Registers.size r)]> (regs (view b))).
Proof.
  intros Hf [Hwf _] Hr. destruct (wf_regs_reg _ _ _ Hwf Hr) as (_ & _ & Hs & _).
  split; [|exact (wf_regs_stored _ _ _ _ Hwf (field_in_fits _ Hf) Hr)].
  set (d1 := mkDds (dev (view b)) (<[reg f := with_value (stored f v) r]> (regs (view b)))).
  assert (zoom (zoom (ad9910_set_value f v) : M dds unit) b = Ok (tt, over d1 b)) as E1.
  { apply zoom_ok. unfold d1. erewrite zoom_ok; [reflexivity|]. now apply set_value_ok. }
  set (d2 := reprogrammed (reg f) r (stored f v (value r)) (view b)).
  assert (zoom (ad9910_update_matching_reg f) (over d1 b) = Ok (tt, over d2 (over d1 b))) as E2.
  { apply zoom_ok. rewrite view_over. unfold ad9910_update_matching_reg, d1.
    rewrite (ad9910_update_reg_ok (reg f) (with_value (stored f v) r)); [reflexivity| |exact Hs].
    cbn [regs]. apply list_lookup_insert_eq. now apply lookup_lt_Some in Hr. }
  unfold execute_command_register. rewrite (bind_ok _ _ _ _ _ E1), (bind_ok _ _ _ _ _ E2). now rewrite over_over.
Qed.

(** C6: Outside program mode a register command takes effect when its line is
  parsed: the register of its field gets the value, cut to the field, and
  keeps its other fields; it is sent, its address and then its bytes, and
  nothing else is.  So the value is in the shadow register and in the
  register of the chip's buffer, and everything else is as before: of the
  program's state, and of the chip the other registers, those in effect,
  and the lines. *)
Theorem register_command_at_chip f v w :
  let d := view (fw_board w) in
  f ∈ all_fields -> fw_mode w <> scpi_mode_program -> dds_ok d ->
  exists r, regs d !! reg f = Some r /\
    let x := stored f v (value r) in
    let d' := reprogrammed (reg f) r x d in
    scpi_process_command_register f v w = Ok (tt, over (over d' (fw_board w)) w) /\ dds_ok d' /\
    trace (dev d') = trace (dev d) ++ map EvSpi (address r :: be_bytes (Z.to_nat (Registers.size r)) x) /\
    chip_of d' = written (address r) x (chip_of d) /\
    loaded f x = wrap (bits f) v /\
    (forall g, field_fits g -> reg g = reg f -> disjoint_fields g f -> loaded g x = loaded g (value r)).
Proof.
  intros d Hf Hm Hb. pose proof (field_in_fits _ Hf) as Hfit. destruct (field_fits_lookup _ f (proj1 Hb) Hfit) as (r & Hr & _).
  destruct (execute_register_exact f v (fw_board w) r Hf Hb Hr) as [E1 Hwf'].
  destruct (reprogrammed_chip _ _ _ _ Hb Hwf' Hr) as (Hok & Ht & Hc).
  exists r. split; [exact Hr|]. cbv zeta. split; [|split; [exact Hok|split; [exact Ht|split; [exact Hc|split]]]].
  - unfold scpi_process_command_register, process_command. erewrite bind_ok by reflexivity.
    rewrite (proj2 (Z.eqb_neq _ _) Hm). unfold drv. now rewrite (bind_ok _ _ _ _ _ (zoom_ok _ _ _ _ E1)).
  - apply loaded_stored, Hfit.
  - intros g [Hg _] Hreg Hd. apply loaded_stored_disjoint; [apply Hfit|exact Hg|done|].
    unfold disjoint_fields in *. lia.
Qed.

(** ** Registers by way of the queue *)

(** Whether the SPI write that follows a queued change of register [i] sends
    that register. *)
Definition queue_sends (i : nat) : bool := truthy ((1 <<< address_of i) &&& u32 (Z.of_nat i <<< Z.of_nat i)).

Definition spec_selected (mask : Z) (w : view_of) : view_of :=
  foldl (fun w i => spec_send (Z.to_nat i) w) w (selected mask).

(** The mark of one register selects registers of the chip; that of the last
    profile also selects an index beyond them. *)
Lemma selected_range i : (i < 19)%nat -> Forall (fun k => 0 <= k < 20) (selected (1 <<< address_of i)).
Proof.
  intros Hi. assert (Forall (fun i => Forall (fun k => 0 <= k < 20) (selected (1 <<< address_of i))) (seq 0 19)) as H
    by decided.
  rewrite Forall_forall in H. apply H. apply elem_of_seq. lia.
Qed.

Lemma update_selected_implements i :
  (i < 19)%nat -> implements (ad9910_update_multiple_regs (1 <<< address_of i)) (spec_selected (1 <<< address_of i)).
Proof.
  intros Hi d Hd. rewrite update_multiple_selected.
  refine (implements_for_each (selected _) (fun i => ad9910_update_reg (Z.to_nat i)) (fun i => spec_send (Z.to_nat i)) _ d Hd).
  intros k Hk. apply update_reg_implements.
  pose proof (proj1 (Forall_forall _ _) (selected_range i Hi) k Hk) as Hr. cbv beta in Hr. lia.
Qed.

(** Sending registers leaves the shadow; a register's field at the chip is
    the shadow's if it was among those sent. *)
Lemma send_all_field f l w :
  wf_regs (shadow w) -> field_fits f -> Forall (fun k => 0 <= k) l ->
  let w' := foldl (fun w i => spec_send (Z.to_nat i) w) w l in
  shadow_field f w' = shadow_field f w /\
  chip_field f w' = if decide (Z.of_nat (reg f) ∈ l) then shadow_field f w else chip_field f w.
Proof.
  intros Hw Hf Hl. revert w Hw. induction Hl as [|i l Hi Hl IH]; intros w Hw; cbn [foldl].
  - rewrite decide_False by apply not_elem_of_nil. done.
  - destruct (IH (spec_send (Z.to_nat i) w) (wf_send _ _ Hw)) as [-> ->].
    rewrite shadow_send. split; [done|].
    destruct (decide (Z.of_nat (reg f) ∈ l)) as [Hin|Hin].
    + rewrite decide_True by (apply elem_of_cons; now right). done.
    + destruct (decide (reg f = Z.to_nat i)) as [He|He].
      * rewrite decide_True by (apply elem_of_cons; left; lia). rewrite <- He. now apply chip_send_same.
      * rewrite decide_False.
        2:{ intros [E1|E1]%elem_of_cons; [lia|done]. }
        now apply chip_send_other.
Qed.

Lemma queue_sends_selected i :
  (i < 20)%nat -> (Z.of_nat i ∈ selected (1 <<< address_of i)) <-> queue_sends i = true.
Proof.
  intros Hi. unfold selected, queue_sends. rewrite list_elem_of_filter, elem_of_seqZ. intuition lia.
Qed.

(** A register change and the SPI write behind it, from a board with no
    register marked. *)
Lemma perform_register_run f v b :
  f ∈ all_fields -> (reg f < 19)%nat -> dds_ok (view b) -> b_update b = 0 ->
  exists d, for_each [CRegister f v; CSpiWrite] perform b = Ok (tt, over d b) /\ dds_ok d /\
    abs d = spec_selected (1 <<< address_of (reg f)) (spec_set f v (board_view b)).
Proof.
  intros Hf Hi Hb Hu. pose proof (field_in_fits _ Hf) as Hfit.
  destruct (run_dds _ _ b (set_value_implements f v Hfit) Hb) as (d1 & E1 & Hd1 & A1).
  destruct (field_fits_lookup _ f (proj1 Hd1) Hfit) as (r & Hr & _).
  pose proof (address_of_wf _ _ _ (proj1 Hd1) Hr) as Haddr.
  set (mask := 1 <<< address_of (reg f)) in *.
  assert (Hmask : u32 (0 ||| mask) = mask).
  { rewrite Z.lor_0_l. apply wrap_small. unfold mask.
    assert (Forall (fun i => 0 <= 1 <<< address_of i < 2 ^ 32) (seq 0 20)) as H by decided.
    rewrite Forall_forall in H. apply H, elem_of_seq. lia. }
  set (b2 := over d1 b).
  pose (b3 := mkBoard (b_hw b2) (b_regs b2) (b_flash b2) (b_crc b2) (b_queue b2) mask (b_samples b2)).
  assert (view b3 = d1) as Hv3 by (now destruct b, d1).
  destruct (run_dds _ _ b3 (update_selected_implements (reg f) Hi)) as (d4 & E4 & Hd4 & A4); [now rewrite Hv3|].
  exists d4. split; [|split; [exact Hd4|rewrite A4; unfold board_view; rewrite Hv3; now rewrite A1]].
  cbn [for_each perform].
  assert (zoom (zoom (reg_at (reg f)) : M dds ad9910_register) b2 = Ok (r, b2)) as E2.
  { erewrite zoom_ok by (unfold b2; rewrite view_over; exact (reg_at_dds _ _ _ Hr)).
    unfold b2. now rewrite over_over. }
  rewrite (bind_ok (_ ≫= _) _ b tt b3).
  2:{ rewrite (bind_ok _ _ _ _ _ E1). fold b2. rewrite (bind_ok _ _ _ _ _ E2).
      erewrite bind_ok by reflexivity. unfold set_update, modify.
      replace (b_update b2) with (b_update b) by now destruct b, d1. rewrite Hu, Haddr. fold mask. rewrite Hmask. reflexivity. }
  erewrite bind_ok.
  2:{ erewrite bind_ok by reflexivity. change (b_update b3) with mask. rewrite (bind_ok _ _ _ _ _ E4). reflexivity. }
  unfold mret, M_ret. do 2 f_equal. destruct b, d1, d4. cbn in Hu. now subst.
Qed.

Lemma execute_register_queue f v b :
  queue_holds (b_queue b) [CRegister f v; CSpiWrite] -> q_repeat (b_queue b) = 0 ->
  f ∈ all_fields -> (reg f < 19)%nat -> dds_ok (view b) -> b_update b = 0 ->
  exists d, commands_execute b = Ok (tt, over d b) /\ dds_ok d /\
    abs d = spec_selected (1 <<< address_of (reg f)) (spec_set f v (board_view b)).
Proof.
  intros Hq Hrep Hf Hi Hb Hu.
  unfold commands_execute. erewrite bind_ok by reflexivity. rewrite (queue_holds_length _ _ Hq).
  rewrite (execute_commands_encode [CRegister f v; CSpiWrite] _ (drop (q_end (b_queue b)) (q_buf (b_queue b))));
    [|apply Hq|now apply queue_holds_buf].
  rewrite Hrep, perform_all_once.
  assert (wf_pin LED_FRONT) as Hled by (unfold wf_pin; cbn; lia).
  destruct (run_pin LED_FRONT 1 b Hled ltac:(done) Hb) as (d1 & E1 & Hd1 & A1).
  destruct (perform_register_run f v (over d1 b) Hf Hi) as (d2 & E2 & Hd2 & A2).
  { now rewrite view_over. }
  { now destruct b, d1. }
  destruct (run_pin LED_FRONT 0 (over d2 b) Hled ltac:(done)) as (d3 & E3 & Hd3 & A3).
  { now rewrite view_over. }
  exists d3. change (gpio_set_high LED_FRONT) with (gpio_set LED_FRONT 1).
  change (gpio_set_low LED_FRONT) with (gpio_set LED_FRONT 0).
  rewrite over_over in E2, E3. rewrite (bind_ok _ _ _ _ _ E1), (bind_ok _ _ _ _ _ E2), E3.
  split; [done|]. split; [exact Hd3|]. rewrite A3. unfold board_view at 1. rewrite view_over, A2.
  unfold board_view. now rewrite view_over, A1.
Qed.

(** C38: In program mode a register command is put into the queue, here an
  empty one that is executed once, and takes effect in the chip when that
  happens, if the register is one the queue's SPI
  write finds.  After the queue has run once the shadow register holds the
  value in any case; the chip's register holds it if [queue_sends] says so,
  and its old value if not, since the write tests the mark with [i << i]:
  that loses CFR1, CFR3, the update rate, the synchronisation, the ramp's
  limits, steps and rates, and profiles 4 to 6. *)
Theorem queued_register_at_chip f v w :
  f ∈ all_fields -> (reg f < 19)%nat -> 0 <= v < 2 ^ 32 -> fw_mode w = scpi_mode_program ->
  let b := fw_board w in
  queue_holds (b_queue b) [] -> q_repeat (b_queue b) = 0 -> b_update b = 0 -> dds_ok (view b) ->
  (exists w', (scpi_process_command_register f v;; drv commands_execute) w = Ok (tt, w') /\
    dds_ok (view (fw_board w')) /\
    shadow_field f (firmware_view w') = Some (wrap (bits f) v) /\
    chip_field f (firmware_view w') =
      if queue_sends (reg f) then Some (wrap (bits f) v) else chip_field f (firmware_view w)) /\
  map address_of (filter (fun i => queue_sends i = false) (seq 0 19)) =
    [0x00; 0x02; 0x04; 0x0A; 0x0B; 0x0C; 0x0D; 0x12; 0x13; 0x14].
Proof.
  intros Hf Hi Hv Hm b Hq Hrep Hu Hb. split; [|vm_compute; reflexivity].
  pose proof (field_in_fits _ Hf) as Hfit.
  destruct (command_queue_register_ok [] f v (b_queue b) Hq ltac:(constructor) Hf Hv) as (q & Eq & Hq1 & Hr1);
    [cbn; lia|]. change (strip_spi [] ++ _) with [CRegister f v; CSpiWrite] in Hq1.
  assert (b_queue (over q b) = q /\ view (over q b) = (view b : dds) /\ b_update (over q b) = 0) as (Hbq & Hbv & Hbu)
    by (split_and!; now destruct b).
  destruct (execute_register_queue f v (over q b)) as (d & Ed & Hd & Ha); rewrite ?Hbq, ?Hbv; try done; [congruence|].
  exists (over (over d (over q b)) w).
  assert (view (over (over d (over q b)) w) = over d (over q b)) as Hvw by apply view_over.
  assert (view (fw_board (over (over d (over q b)) w)) = d) as Hvd.
  { change (fw_board (over (over d (over q b)) w)) with (view (over (over d (over q b)) w)).
    rewrite Hvw. apply view_over. }
  split; [|rewrite Hvd; split; [exact Hd|]].
  - unfold scpi_process_command_register, process_command.
    rewrite bind_assoc. erewrite bind_ok by reflexivity. rewrite Hm. cbn [Z.eqb scpi_mode_program Pos.eqb].
    rewrite bind_assoc. unfold on_queue, drv.
    erewrite (bind_ok _ _ w) by (apply zoom_ok, zoom_ok; exact Eq).
    erewrite bind_ok by reflexivity. erewrite zoom_ok by (rewrite view_over; exact Ed).
    now rewrite over_over.
  - unfold firmware_view, board_view. rewrite Hvd, Ha.
    assert (wf_regs (shadow (spec_set f v (board_view (over q b))))) as Hw.
    { apply wf_set; [|done]. unfold board_view. rewrite Hbv. apply Hb. }
    destruct (send_all_field f (selected (1 <<< address_of (reg f))) _ Hw Hfit) as [H1 H2].
    { eapply Forall_impl; [exact (selected_range _ Hi)|]. cbv beta. lia. }
    unfold spec_selected. rewrite H1, H2. unfold board_view in Hw |- *. rewrite Hbv in Hw |- *.
    rewrite shadow_set_same by (done || apply Hb). split; [done|]. rewrite chip_set.
    pose proof (queue_sends_selected (reg f) ltac:(lia)) as Hs.
    destruct (queue_sends (reg f)); [rewrite decide_True by tauto|rewrite decide_False by intuition done]; done.
Qed.

(** ** The ramp's mode *)

Lemma process_register_run f v w :
  f ∈ all_fields -> fw_mode w <> scpi_mode_program -> dds_ok (view (fw_board w)) ->
  exists w', scpi_process_command_register f v w = Ok (tt, w') /\ fw_mode w' = fw_mode w /\
    dds_ok (view (fw_board w')) /\ firmware_view w' = spec_register f v (firmware_view w) /\
    fw_scpi w' = fw_scpi w.
Proof.
  intros Hf Hm Hb. destruct (execute_register_run f v (fw_board w) Hf Hb) as (d & E1 & Hd & Ha).
  exists (over (over d (fw_board w)) w).
  assert (view (fw_board (over (over d (fw_board w)) w)) = d) as Hvd.
  { change (fw_board (over (over d (fw_board w)) w)) with (view (over (over d (fw_board w)) w)).
    rewrite (view_over (over d (fw_board w)) w). apply view_over. }
  unfold firmware_view, board_view in *. rewrite Hvd. split_and!; try done.
  unfold scpi_process_command_register, process_command. erewrite bind_ok by reflexivity.
  rewrite (proj2 (Z.eqb_neq _ _) Hm). unfold drv. now rewrite (bind_ok _ _ _ _ _ (zoom_ok _ _ _ _ E1)).
Qed.

(** Of the four ramp modes only two can be set.  The high bit of the mode
  is passed as 2 to a field of one bit, so that after [RAMP:MODE] the chip
  dwells at the upper end whatever was asked for, and only the bit for the
  lower end is as requested. *)
Theorem ramp_mode_loses_high value c w :
  SCPI_ParamChoice ramp_mode_choices true (fw_scpi w) = Ok ((true, Some value), c) ->
  fw_mode w <> scpi_mode_program -> dds_ok (view (fw_board w)) ->
  exists w', scpi_callback_ramp_mode w = Ok (SCPI_RES_OK, w') /\ fw_scpi w' = c /\
    chip_field ad9910_digital_ramp_no_dwell_high (firmware_view w') = Some 0 /\
    chip_field ad9910_digital_ramp_no_dwell_low (firmware_view w') = Some (value mod 2).
Proof.
  intros Hp Hm Hb. set (w1 := over c w).
  destruct (process_register_run ad9910_digital_ramp_no_dwell_high (value &&& 2) w1 ltac:(decided) Hm Hb)
    as (w2 & E2 & Hm2 & Hb2 & V2 & S2).
  destruct (process_register_run ad9910_digital_ramp_no_dwell_low (value &&& 1) w2 ltac:(decided) ltac:(now rewrite Hm2) Hb2)
    as (w3 & E3 & _ & _ & V3 & S3).
  exists w3. split; [|split; [now rewrite S3, S2|]].
  - unfold scpi_callback_ramp_mode, with_choice, lib.
    rewrite (bind_ok _ _ _ _ _ (zoom_ok _ w _ _ Hp)). fold w1. cbv beta iota zeta.
    now rewrite (bind_ok _ _ _ _ _ E2), (bind_ok _ _ _ _ _ E3).
  - rewrite V3, V2. assert (wf_regs (shadow (firmware_view w1))) as Hw by apply Hb.
    generalize dependent (firmware_view w1). intros u _ Hw. unfold spec_register.
    split.
    + change (reg ad9910_digital_ramp_no_dwell_low) with (reg ad9910_digital_ramp_no_dwell_high).
      rewrite chip_send_same by (wf_tac || decided). fields. f_equal.
      apply Z.bits_inj'. intros i Hi. rewrite wrap_testbit, Z.land_spec, Z.testbit_0_l by (done || lia).
      destruct (Z.ltb_spec i (bits ad9910_digital_ramp_no_dwell_high)) as [Hlt|]; [|done]. cbn in Hlt.
      replace i with 0 by lia. apply andb_false_r.
    + fields. f_equal. change 1 with (Z.ones 1) at 1. rewrite Z.land_ones by lia. apply Zmod_mod.
Qed.

(** ** The stored network addresses *)

(** The flash is idle and holds a configuration with its sum. *)
Record stores (c : config) (s : store) : Prop := {
    sr_rest : Flash.rest (st_flash s);
    sr_err : f_err (st_flash s) = 0;
    sr_bytes : stored_bytes (st_flash s) = config_bytes c;
    sr_sum : stored_sum (st_flash s) = sum_of (config_bytes c);
  }.

Definition firmware_store (w : firmware) : store := view (fw_board w).

Lemma config_copy_run c s :
  stores c s -> wf_config c -> exists s', config_copy s = Ok (c, s') /\ stores c s'.
Proof.
  intros [H1 H2 H3 H4] Hc.
  destruct (config_get_valid s) as (s' & E1 & Hf); [unfold valid; congruence|].
  exists s'. split; [|split; now rewrite Hf].
  unfold config_copy. rewrite (bind_ok _ _ _ _ _ E1). erewrite bind_ok by reflexivity.
  rewrite Hf. change (Z.to_nat sizeof_config) with 12%nat. fold (stored_bytes (st_flash s)).
  rewrite H3, config_of_bytes_bytes by done. reflexivity.
Qed.

Lemma config_write_run c c0 s :
  (forall k, flash_fault k = 0) -> stores c0 s -> wf_config c ->
  exists s', config_write (RamConf c) s = Ok (tt, s') /\ stores c s'.
Proof.
  intros Hff [H1 H2 _ _] Hc. destruct (config_write_ok c s H1 H2 Hff Hc) as (s' & E1 & []).
  exists s'. split; [exact E1|]. now split.
Qed.

(** A computation on the library's context alone. *)
Definition off_board {A} (m : M firmware A) : Prop :=
  forall w a w', m w = Ok (a, w') -> fw_board w' = fw_board w /\
    forall b, m (over b w) = Ok (a, over b w').

Lemma off_board_bind {A B} (m : M firmware A) (f : A -> M firmware B) :
  off_board m -> (forall a, off_board (f a)) -> off_board (m ≫= f).
Proof.
  intros Hm Hf w b w' H. apply bind_inv in H as (a & w1 & H1 & H2).
  destruct (Hm _ _ _ H1) as [E1 F1]. destruct (Hf _ _ _ _ H2) as [E2 F2].
  split; [congruence|]. intros x. rewrite (bind_ok _ _ _ _ _ (F1 x)). apply F2.
Qed.

Lemma off_board_ret {A} (a : A) : off_board (mret a).
Proof. intros w a' w' [= <- <-]. done. Qed.

Lemma off_board_lib {A} (m : M scpi_t A) : off_board (lib m).
Proof.
  intros w a w' H. apply zoom_inv in H as (c & H & ->). split; [done|].
  intros b. unfold lib, zoom. cbn [view firmware_scpi] in *. destruct w. cbn in *. now rewrite H.
Qed.

Lemma ip_address_off_board t : off_board (scpi_param_ip_address t).
Proof.
  assert (forall t : list Z, off_board (scpi_push SCPI_ERROR_ILLEGAL_PARAMETER_VALUE;; mret (SCPI_RES_ERR, t))) as Hr.
  { intros t'. apply off_board_bind; [apply off_board_lib|intros _; apply off_board_ret]. }
  unfold scpi_param_ip_address. apply off_board_bind; [apply off_board_lib|intros [[input len]|]; [|apply Hr]].
  destruct (15 <? len); [apply Hr|]. apply off_board_bind; [apply off_board_lib|intros mem]. cbv zeta.
  destruct (negb _); [apply Hr|apply off_board_ret].
Qed.

Lemma length_scan_octets k s : (length (scan_octets k s) <= k)%nat.
Proof.
  revert s. induction k as [|k IH]; intros s; cbn [scan_octets]; [done|].
  destruct (scan_hhu s) as [[v r]|]; cbn [length]; [|lia].
  destruct (_ =? 46); cbn [length]; [|lia]. specialize (IH (drop 1 r)). lia.
Qed.

Lemma scan_octets_bytes k s : Forall is_byte (scan_octets k s).
Proof.
  revert s. induction k as [|k IH]; intros s; cbn [scan_octets]; [constructor|].
  destruct (scan_hhu s) as [[v r]|] eqn:Ev; constructor.
  - unfold scan_hhu in Ev. destruct (strtou 32 s 10) as [u n]. destruct (n =? 0); [done|].
    injection Ev as <- _. apply (wrap_range 8). lia.
  - destruct (_ =? 46); [apply IH|constructor].
Qed.

(** Four bytes stay four bytes, and the result is never zero. *)
Lemma ip_address_result t w r t' w' :
  length t = 4%nat -> Forall is_byte t -> scpi_param_ip_address t w = Ok ((r, t'), w') ->
  length t' = 4%nat /\ Forall is_byte t' /\ r <> 0.
Proof.
  intros Hl Hb H. unfold scpi_param_ip_address in H. apply bind_inv in H as (o & w1 & _ & H).
  assert (forall (t0 : list Z) w0, length t0 = 4%nat -> Forall is_byte t0 ->
    (scpi_push SCPI_ERROR_ILLEGAL_PARAMETER_VALUE;; mret (SCPI_RES_ERR, t0)) w0 = Ok ((r, t'), w') ->
    length t' = 4%nat /\ Forall is_byte t' /\ r <> 0) as Hr.
  { intros t0 w0 H1 H2 H0. apply bind_inv in H0 as ([] & w2 & _ & [= <- <- _]). done. }
  destruct o as [[input len]|]; [|now apply Hr in H]. destruct (15 <? len); [now apply Hr in H|].
  apply bind_inv in H as (mem & w2 & _ & H). cbv zeta in H.
  set (oc := scan_octets 4 _) in H. pose proof (length_scan_octets 4 (take (Z.to_nat len) (drop (Z.to_nat input) mem))) as Hoc.
  fold oc in Hoc.
  assert (length (oc ++ drop (length oc) t) = 4%nat) as H1 by (rewrite length_app, length_drop; lia).
  assert (Forall is_byte (oc ++ drop (length oc) t)) as H2.
  { apply Forall_app. split; [apply scan_octets_bytes|now apply Forall_drop]. }
  destruct (negb _); [exact (Hr _ _ H1 H2 H)|]. injection H as <- <- _. done.
Qed.

(** The setters: what they read and change, and their handler. *)
Definition network_setters :
    list ((ethernet_config -> list Z) * (list Z -> ethernet_config -> ethernet_config) * M firmware Z) :=
  [ (c_address, put_address, scpi_callback_system_network_address);
    (c_submask, put_submask, scpi_callback_system_network_submask);
    (c_submask, put_submask, scpi_callback_system_network_gateway) ].

(** A network setter stores whatever scanning the parameter left in the
  four bytes, even when the parameter is refused and its error reported:
  the handler reports success and the flash holds the configuration with
  that field, its sum right.  The third setter, the gateway's, changes the
  submask; so no command ever changes the stored gateway. *)
Theorem network_setters_store get put handler c t r w w1 :
  (get, put, handler) ∈ network_setters ->
  (forall k, flash_fault k = 0) -> stores c (firmware_store w) -> wf_config c ->
  scpi_param_ip_address (get (ethernet c)) w = Ok ((r, t), w1) ->
  exists w', handler w = Ok (SCPI_RES_OK, w') /\ fw_scpi w' = fw_scpi w1 /\
    stores (mkConfig (put t (ethernet c))) (firmware_store w') /\
    get (put t (ethernet c)) = t /\ c_gateway (put t (ethernet c)) = c_gateway (ethernet c).
Proof.
  intros Hin Hff Hs Hc Hp.
  assert (handler = set_network get put /\
    ((get, put) = (c_address, put_address) \/ (get, put) = (c_submask, put_submask))) as [-> Hgp].
  { unfold network_setters in Hin. rewrite !elem_of_cons in Hin.
    destruct Hin as [[= -> -> ->]|[[= -> -> ->]|[[= -> -> ->]|Hin%elem_of_nil]]]; [..|done]; auto. }
  pose proof Hc as (Ha & Hm & Hg & Hb). unfold config_bytes in Hb. rewrite !Forall_app in Hb.
  assert (length (get (ethernet c)) = 4%nat /\ Forall is_byte (get (ethernet c))) as [Hl Hbt]
    by (destruct Hgp as [[= -> ->]|[= -> ->]]; tauto).
  destruct (ip_address_result _ _ _ _ _ Hl Hbt Hp) as (Hl' & Hbt' & Hr).
  assert (wf_config (mkConfig (put t (ethernet c)))) as Hc'.
  { unfold wf_config, config_bytes. rewrite !Forall_app.
    destruct Hgp as [[= -> ->]|[= -> ->]]; cbn; tauto. }
  destruct (config_copy_run c _ Hs Hc) as (s1 & E1 & Hs1).
  set (b1 := over s1 (fw_board w)).
  destruct (ip_address_off_board _ _ _ _ Hp) as [Hbw Hrun].
  destruct (config_write_run (mkConfig (put t (ethernet c))) c s1 Hff Hs1 Hc') as (s2 & E2 & Hs2).
  exists (over (over s2 b1) w1). split; [|split; [done|split; [|destruct Hgp as [[= -> ->]|[= -> ->]]; done]]].
  - unfold set_network, on_store, drv.
    rewrite (bind_ok _ _ w _ _ (zoom_ok _ w _ _ (zoom_ok _ (fw_board w) _ _ E1))). fold b1.
    rewrite (bind_ok _ _ _ _ _ (Hrun b1)). rewrite (proj2 (Z.eqb_neq _ _) Hr).
    erewrite bind_ok.
    2:{ apply zoom_ok, zoom_ok. rewrite view_over. unfold b1. rewrite view_over. exact E2. }
    rewrite view_over, over_over. reflexivity.
  - unfold firmware_store. change (fw_board (over (over s2 b1) w1)) with (over s2 b1). now rewrite view_over.
Qed.

(** ** Blocks that span packets *)

Definition payload_of (w : firmware) : option (list Z) :=
  match fw_pin w with
  | NoPacket => None
  | LinePacket => Some (memory (fw_scpi w))
  | Packet p => Some p
  end.

Definition with_pin (p : pin_t) (ps : list (list Z)) (w : firmware) : firmware :=
  mkFirmware (fw_scpi w) (fw_board w) (fw_mode w) (fw_execute w) (fw_length w) (fw_repeats w) p ps.

Lemma pin_payload_run w p : payload_of w = Some p -> pin_payload w = Ok (p, w).
Proof.
  intros H. unfold pin_payload. erewrite bind_ok by reflexivity. unfold payload_of in H.
  destruct (fw_pin w); [done|injection H as <-|now injection H as <-].
  unfold lib, zoom, gets. cbn. now destruct w.
Qed.

(** The copy is the stream of bytes from the offset on: the rest of this
    packet, and the packets that follow. *)
Lemma copy_data_run fuel len i offset p w :
  payload_of w = Some p -> (length (fw_packets w) + 2 <= fuel)%nat ->
  0 <= offset <= Z.of_nat (length p) ->
  Forall (fun p => Z.of_nat (length p) < 2 ^ 32) (p :: fw_packets w) ->
  0 <= i <= len -> len - i <= Z.of_nat (length p) - offset + Z.of_nat (length (concat (fw_packets w))) ->
  exists pin ps, copy_data fuel len i offset w =
    Ok (take (Z.to_nat (len - i)) (drop (Z.to_nat offset) p ++ concat (fw_packets w)), with_pin pin ps w).
Proof.
  revert i offset p w. induction fuel as [|fuel IH]; intros i offset p w Hp Hfuel Ho Hsz Hi Hlen; [lia|].
  cbn [copy_data]. destruct (Z.ltb_spec i len) as [Hlt|].
  2:{ replace (len - i) with 0 by lia. exists (fw_pin w), (fw_packets w). now destruct w. }
  rewrite (bind_ok _ _ _ _ _ (pin_payload_run w p Hp)).
  apply Forall_cons in Hsz as [Hszp Hsz]. rewrite (wrap_small 32) by lia.
  set (n := Z.min (Z.of_nat (length p) - offset) (len - i)).
  unfold read_bytes. rewrite decide_True by lia. cbn [deref]. erewrite bind_ok by reflexivity.
  destruct (Z.ltb_spec (i + n) len) as [Hmore|Hdone]; cbn [when].
  - destruct (fw_packets w) as [|p' ps] eqn:Eps; [cbn in Hlen; lia|].
    rewrite (bind_ok _ _ w tt (with_pin (Packet p') ps w)).
    2:{ unfold ethernet_next_packet. erewrite bind_ok by reflexivity. now rewrite Eps. }
    apply Forall_cons in Hsz as [Hszp' Hsz]. cbn [concat] in Hlen. rewrite length_app in Hlen.
    destruct (IH (i + n) 0 p' (with_pin (Packet p') ps w)) as (pin & ps' & E1); cbn [fw_packets with_pin]; try done; try lia.
    { cbn in Hfuel. lia. } { now apply Forall_cons. }
    exists pin, ps'. rewrite (bind_ok _ _ _ _ _ E1). cbn [fw_packets with_pin concat]. unfold mret, M_ret. do 2 f_equal.
    assert (n = Z.of_nat (length p) - offset) as -> by lia.
    rewrite (take_ge (drop _ p)) by (rewrite length_drop; lia).
    change (Z.to_nat 0) with 0%nat. rewrite drop_0.
    rewrite (take_app (drop (Z.to_nat offset) p)), length_drop.
    rewrite (take_ge (drop (Z.to_nat offset) p)) by (rewrite length_drop; lia). do 2 f_equal. lia.
  - assert (len - i <= Z.of_nat (length p) - offset) by lia.
    assert (n = len - i) as -> by lia. erewrite bind_ok by reflexivity.
    exists (fw_pin w), (fw_packets w). destruct fuel as [|fuel]; [lia|]. cbn [copy_data].
    destruct (Z.ltb_spec (i + (len - i)) len); [lia|]. erewrite bind_ok by reflexivity.
    unfold mret, M_ret. rewrite app_nil_r. rewrite take_app_le by (rewrite length_drop; lia). now destruct w.
Qed.

Lemma sample_bytes_of n bs :
  length bs = (2 * n)%nat -> Forall is_byte bs -> sample_bytes (samples_of bs) = bs.
Proof.
  revert bs. induction n as [|n IH]; intros [|b0 [|b1 bs]] Hl Hb; cbn in Hl; try lia; [done|].
  apply Forall_cons in Hb as [H0 Hb]. apply Forall_cons in Hb as [H1 Hb].
  cbn [samples_of]. unfold sample_bytes. cbn [map concat]. fold (sample_bytes (samples_of bs)).
  rewrite IH by (done || lia).
  change 2%nat with (length [b0; b1]). rewrite le_bytes_of_le; [reflexivity|].
  apply Forall_cons. split; [done|]. apply Forall_cons. split; [done|constructor].
Qed.

Lemma sample_bytes_bytes l : Forall is_byte (sample_bytes l).
Proof.
  induction l as [|x l IH]; [constructor|]. unfold sample_bytes. cbn [map concat].
  apply Forall_app. split; [apply le_bytes_is_byte|exact IH].
Qed.

(** A reply needs the interface and leaves it. *)
Lemma writeData_run d c i :
  interface c = Some i -> exists r c', writeData d c = Ok (r, c') /\ interface c' = Some i.
Proof.
  intros Hi. unfold writeData. destruct (0 <? _); [|now exists 0, c].
  erewrite bind_ok by reflexivity. rewrite Hi. erewrite bind_ok by reflexivity. erewrite bind_ok by reflexivity.
  destruct (if_write i d (sink c)) as [r out]. now exists r, (with_sink out c).
Qed.

Lemma writeDelimiter_run c i :
  interface c = Some i -> exists r c', writeDelimiter c = Ok (r, c') /\ interface c' = Some i.
Proof.
  intros Hi. unfold writeDelimiter. erewrite bind_ok by reflexivity.
  destruct (0 <? _); [now apply writeData_run|now exists 0, c].
Qed.

Lemma ResultUInt32_run v c i :
  interface c = Some i -> 0 <= v < 2 ^ 32 ->
  exists r c', SCPI_ResultUInt32Base v 10 c = Ok (r, c') /\ interface c' = Some i.
Proof.
  intros Hi Hv. destruct (uint32_text_fact v 10 [] ltac:(decided) Hv I) as (text & Et & _).
  unfold SCPI_ResultUInt32Base, resultUInt32BaseSign, result_base, SCPI_UInt32ToStrBase in *. rewrite Et.
  erewrite bind_ok by reflexivity. destruct (writeDelimiter_run c i Hi) as (r1 & c1 & E1 & H1).
  rewrite (bind_ok _ _ _ _ _ E1). cbn [getBasePrefix Z.eqb Pos.eqb]. erewrite bind_ok by reflexivity.
  destruct (writeData_run text c1 i H1) as (r3 & c3 & E3 & H3). rewrite (bind_ok _ _ _ _ _ E3).
  now do 2 eexists.
Qed.

(** C39: [PARallel:DATa] puts as many bytes as the block announces into the
  sample buffer, little-endian, keeps the rest of the buffer, and sets the
  length.  The bytes are those of the stream of packets from the place
  [ptr - h] of the packet on, where [ptr] is the block's first byte and [h]
  the place where the command's header starts: the block itself if the
  command is the first of its packet, and otherwise bytes in front of it. *)
Theorem parallel_data_stores w c i ptr len h n :
  SCPI_ParamArbitraryBlock true (fw_scpi w) = Ok (Some (ptr, len), c) ->
  interface c = Some i -> cmd_raw c = (h, n) -> l_pos (lex_state c) = ptr + len -> fw_pin w = LinePacket ->
  h <= ptr <= h + Z.of_nat (length (memory c)) -> 0 <= len <= PARALLEL_BUF_SIZE ->
  2 * Z.of_nat (length (b_samples (fw_board w))) = PARALLEL_BUF_SIZE ->
  Forall (fun p => Z.of_nat (length p) < 2 ^ 32 /\ Forall is_byte p) (memory c :: fw_packets w) ->
  ptr - h + len <= Z.of_nat (length (memory c ++ concat (fw_packets w))) ->
  exists w', scpi_callback_parallel_data w = Ok (SCPI_RES_OK, w') /\ fw_length w' = len /\
    take (Z.to_nat len) (sample_bytes (b_samples (fw_board w'))) =
      take (Z.to_nat len) (drop (Z.to_nat (ptr - h)) (memory c ++ concat (fw_packets w))) /\
    drop (Z.to_nat len) (sample_bytes (b_samples (fw_board w'))) =
      drop (Z.to_nat len) (sample_bytes (b_samples (fw_board w))).
Proof.
  intros Hp Hif Hraw Hpos Hpin Hptr Hlen Hsamples Hpk Hroom.
  pose proof (proj1 (Forall_forall _ _) Hpk) as Hpk'.
  assert (Forall (fun p => Z.of_nat (length p) < 2 ^ 32) (memory c :: fw_packets w)) as Hsz.
  { apply Forall_forall. intros p Hin. exact (proj1 (Hpk' p Hin)). }
  assert (Forall is_byte (memory c ++ concat (fw_packets w))) as Hbytes.
  { change (Forall is_byte (concat (memory c :: fw_packets w))). apply Forall_concat, Forall_forall.
    intros p Hin. exact (proj2 (Hpk' p Hin)). }
  rewrite length_app in Hroom. assert (0 <= ptr - h < 2 ^ 32) as Hoff by (apply Forall_cons in Hsz as [? _]; lia).
  set (w1 := over c w). set (w2 := mkFirmware c (fw_board w) (fw_mode w) (fw_execute w) len (fw_repeats w) (fw_pin w) (fw_packets w)).
  destruct (copy_data_run (S (S (length (fw_packets w)))) len 0 (ptr - h) (memory c) w2) as (pin & ps & E1);
    cbn [fw_packets w2]; try done; try lia.
  { unfold payload_of. cbn. now rewrite Hpin. }
  rewrite Z.sub_0_r in E1. rewrite <- drop_app_le in E1 by lia.
  set (bytes := take (Z.to_nat len) (drop (Z.to_nat (ptr - h)) (memory c ++ concat (fw_packets w)))) in E1 |- *.
  assert (ethernet_copy_data len (ptr - h) w2 = Ok (bytes, with_pin pin ps w2)) as E2.
  { unfold ethernet_copy_data. erewrite bind_ok by reflexivity. exact E1. }
  assert (length bytes = Z.to_nat len) as Hbl by (unfold bytes; rewrite length_take, length_drop, length_app; lia).
  set (new := bytes ++ drop (Z.to_nat len) (sample_bytes (b_samples (fw_board w)))).
  assert (sample_bytes (samples_of new) = new) as Hnew.
  { apply (sample_bytes_of (length (b_samples (fw_board w)))).
    - unfold new. rewrite length_app, length_drop, length_sample_bytes. lia.
    - apply Forall_app. split; [unfold bytes; now apply Forall_take, Forall_drop|].
      apply Forall_drop, sample_bytes_bytes. }
  destruct (ResultUInt32_run len c i Hif) as (r & c' & E3 & _); [unfold PARALLEL_BUF_SIZE in Hlen; clear - Hlen; lia|].
  set (b' := mkBoard (b_hw (fw_board w)) (b_regs (fw_board w)) (b_flash (fw_board w)) (b_crc (fw_board w))
               (b_queue (fw_board w)) (b_update (fw_board w)) (samples_of new)).
  exists (mkFirmware c' b' (fw_mode w) (fw_execute w) len (fw_repeats w) pin ps).
  split; [|cbn [fw_length fw_board b_samples b']; rewrite Hnew; split_and!; [done| |]].
  - unfold scpi_callback_parallel_data, lib. rewrite (bind_ok _ _ _ _ _ (zoom_ok _ w _ _ Hp)). fold w1. cbv iota.
    destruct (Z.ltb_spec PARALLEL_BUF_SIZE len); [lia|].
    rewrite (bind_ok _ _ w1 tt w2) by reflexivity. rewrite (bind_ok _ _ w2 (lex_state c) w2) by reflexivity.
    rewrite (bind_ok _ _ w2 (cmd_raw c) w2) by reflexivity. rewrite Hpos, Hraw. cbn [fst].
    replace (ptr + len - h - len) with (ptr - h) by lia. rewrite (wrap_small 32) by lia.
    rewrite (bind_ok _ _ w2 _ _ E2). rewrite Hbl. fold new.
    rewrite (bind_ok _ _ _ (b_samples (fw_board w)) (with_pin pin ps w2)) by (unfold drv, zoom, gets; cbn; now destruct (fw_board w)).
    fold new. erewrite bind_ok by reflexivity.
    rewrite Z2Nat.id by lia. erewrite bind_ok by (apply zoom_ok; exact E3). reflexivity.
  - unfold new. now rewrite take_app_length' by done.
  - unfold new. now rewrite drop_app_length' by done.
Qed.
End Effects.

(** ** At concrete inputs *)

#[local] Existing Instances plain_env good_flash plain_link no_libm.

(** The firmware as it calls a handler: the parameters [t] on the line. *)
Definition called (t : list Z) (b : board) (mode : Z) (packets : list (list Z)) : firmware :=
  mkFirmware (with_lex_state (line t) (with_memory t (scpi_init []))) b mode false 0 0 LinePacket packets.

Lemma board_start_dds : dds_ok (view board_start).
Proof. exact dds_boot_ok. Qed.

Lemma register_command_at_chip_witness :
  let w := called [] board_start scpi_mode_normal [] in
  let d := view (fw_board w) in
  (ad9910_pll_divide ∈ all_fields /\ fw_mode w <> scpi_mode_program /\ dds_ok d) /\
  exists r, regs d !! reg ad9910_pll_divide = Some r /\
    let x := stored ad9910_pll_divide 50 (value r) in
    let d' := reprogrammed (reg ad9910_pll_divide) r x d in
    scpi_process_command_register ad9910_pll_divide 50 w = Ok (tt, over (over d' (fw_board w)) w) /\
    chip_of d' = written (address r) x (chip_of d) /\ loaded ad9910_pll_divide x = 50.
Proof.
  intros w d. assert (ad9910_pll_divide ∈ all_fields) as H1 by decided.
  split; [split_and!; [done|done|exact dds_boot_ok]|].
  destruct (register_command_at_chip ad9910_pll_divide 50 w H1 ltac:(done) dds_boot_ok) as (r & Hr & E1 & _ & _ & Hc & Hl & _).
  exists r. split; [exact Hr|]. split; [exact E1|]. split; [exact Hc|exact Hl].
Defined.

Lemma queued_register_at_chip_witness :
  let w := called [] board_start scpi_mode_program [] in
  let b := fw_board w in
  (ad9910_fsc ∈ all_fields /\ (reg ad9910_fsc < 19)%nat /\ 0 <= 200 < 2 ^ 32 /\ fw_mode w = scpi_mode_program /\
   queue_holds (b_queue b) [] /\ q_repeat (b_queue b) = 0 /\ b_update b = 0 /\ dds_ok (view b)) /\
  (exists w', (scpi_process_command_register ad9910_fsc 200;; drv commands_execute) w = Ok (tt, w') /\
    dds_ok (view (fw_board w')) /\
    shadow_field ad9910_fsc (firmware_view w') = Some (wrap (bits ad9910_fsc) 200) /\
    chip_field ad9910_fsc (firmware_view w') =
      if queue_sends (reg ad9910_fsc) then Some (wrap (bits ad9910_fsc) 200)
      else chip_field ad9910_fsc (firmware_view w)) /\
  map address_of (filter (fun i => queue_sends i = false) (seq 0 19)) =
    [0x00; 0x02; 0x04; 0x0A; 0x0B; 0x0C; 0x0D; 0x12; 0x13; 0x14].
Proof.
  intros w b. assert (ad9910_fsc ∈ all_fields) as H1 by decided.
  assert (queue_holds (b_queue b) []) as H2 by (split_and!; [reflexivity|cbn; lia|reflexivity|constructor]).
  assert (reg ad9910_fsc < 19)%nat as H3 by (cbn; lia).
  split; [split_and!; (done || exact dds_boot_ok)|].
  exact (queued_register_at_chip ad9910_fsc 200 w H1 H3 ltac:(done) eq_refl H2 eq_refl eq_refl dds_boot_ok).
Defined.

Definition state_after {A S} (s : S) (r : res (A * S)) : S := match r with Ok (_, s) => s | _ => s end.

(** A result found by evaluation; the context stays as it is, since
    evaluating it would evaluate the functions of its interface. *)
Lemma evaluates {A S} `{EqDecision A} (s : S) (r : res (A * S)) a :
  match r with Ok (x, _) => bool_decide (x = a) | _ => false end = true -> r = Ok (a, state_after s r).
Proof. destruct r as [[x c]| |]; [|done|done]. intros ->%bool_decide_eq_true. reflexivity. Qed.

Lemma ramp_mode_loses_high_witness :
  let w := called (str "OSC") board_start scpi_mode_normal [] in
  let c := state_after (fw_scpi w) (SCPI_ParamChoice ramp_mode_choices true (fw_scpi w)) in
  (SCPI_ParamChoice ramp_mode_choices true (fw_scpi w) = Ok ((true, Some 3), c) /\
   fw_mode w <> scpi_mode_program /\ dds_ok (view (fw_board w))) /\
  exists w', scpi_callback_ramp_mode w = Ok (SCPI_RES_OK, w') /\ fw_scpi w' = c /\
    chip_field ad9910_digital_ramp_no_dwell_high (firmware_view w') = Some 0 /\
    chip_field ad9910_digital_ramp_no_dwell_low (firmware_view w') = Some (3 mod 2).
Proof.
  intros w c. assert (SCPI_ParamChoice ramp_mode_choices true (fw_scpi w) = Ok ((true, Some 3), c)) as H1
    by (apply evaluates; vm_compute; reflexivity).
  split; [split_and!; [exact H1|done|exact dds_boot_ok]|].
  exact (ramp_mode_loses_high 3 c w H1 ltac:(done) dds_boot_ok).
Defined.

(** The firmware with a stored configuration. *)
Definition home_firmware (t : list Z) : firmware :=
  called t (mkBoard hw_reset ad9910_regs (home_flash 2) 0 (mkQueue (replicate 1024 0) 0 0) 0 [])
    scpi_mode_normal [].

Lemma home_stores t : stores home_config (firmware_store (home_firmware t)).
Proof.
  split; [split_and!; [reflexivity|left; reflexivity|reflexivity]|reflexivity|vm_compute; reflexivity..].
Qed.

Lemma network_setters_store_witness :
  let w := home_firmware (str "300.7") in
  let w1 := state_after w (scpi_param_ip_address (c_submask (ethernet home_config)) w) in
  ((c_submask, put_submask, scpi_callback_system_network_gateway) ∈ network_setters /\
   (forall k, flash_fault k = 0) /\ stores home_config (firmware_store w) /\ wf_config home_config /\
   scpi_param_ip_address (c_submask (ethernet home_config)) w = Ok ((SCPI_RES_ERR, [44; 7; 255; 0]), w1)) /\
  exists w', scpi_callback_system_network_gateway w = Ok (SCPI_RES_OK, w') /\ fw_scpi w' = fw_scpi w1 /\
    stores (mkConfig (put_submask [44; 7; 255; 0] (ethernet home_config))) (firmware_store w') /\
    c_submask (put_submask [44; 7; 255; 0] (ethernet home_config)) = [44; 7; 255; 0] /\
    c_gateway (put_submask [44; 7; 255; 0] (ethernet home_config)) = c_gateway (ethernet home_config).
Proof.
  intros w w1.
  assert ((c_submask, put_submask, scpi_callback_system_network_gateway) ∈ network_setters) as H1
    by (unfold network_setters; rewrite !elem_of_cons; now right; right; left).
  assert (stores home_config (firmware_store w)) as H2 by apply home_stores.
  assert (scpi_param_ip_address (c_submask (ethernet home_config)) w = Ok ((SCPI_RES_ERR, [44; 7; 255; 0]), w1)) as H3
    by (apply evaluates; vm_compute; reflexivity).
  split; [exact (conj H1 (conj (fun _ => eq_refl) (conj H2 (conj home_config_wf H3))))|].
  exact (network_setters_store c_submask put_submask _ home_config _ _ w w1 H1 (fun _ => eq_refl) H2 home_config_wf H3).
Defined.

(** The five bytes of "hello", two of them in the next packet. *)
Lemma parallel_data_stores_witness :
  let w := called (str "#15hel") board_start scpi_mode_normal [str "lo"] in
  let c := state_after (fw_scpi w) (SCPI_ParamArbitraryBlock true (fw_scpi w)) in
  (SCPI_ParamArbitraryBlock true (fw_scpi w) = Ok (Some (3, 5), c) /\ interface c = Some scpi_interface /\
   cmd_raw c = (0, 0) /\ l_pos (lex_state c) = 3 + 5 /\ memory c = str "#15hel") /\
  exists w', scpi_callback_parallel_data w = Ok (SCPI_RES_OK, w') /\ fw_length w' = 5 /\
    take (Z.to_nat 5) (sample_bytes (b_samples (fw_board w'))) =
      take (Z.to_nat 5) (drop (Z.to_nat (3 - 0)) (memory c ++ concat (fw_packets w))) /\
    drop (Z.to_nat 5) (sample_bytes (b_samples (fw_board w'))) =
      drop (Z.to_nat 5) (sample_bytes (b_samples (fw_board w))).
Proof.
  intros w c.
  assert (SCPI_ParamArbitraryBlock true (fw_scpi w) = Ok (Some (3, 5), c)) as H1
    by (apply evaluates; vm_compute; reflexivity).
  assert (memory c = str "#15hel") as H2 by (vm_compute; reflexivity).
  assert (interface c = Some scpi_interface) as H3 by reflexivity.
  assert (cmd_raw c = (0, 0)) as H4 by (vm_compute; reflexivity).
  assert (l_pos (lex_state c) = 3 + 5) as H5 by (vm_compute; reflexivity).
  assert (Forall (fun p => Z.of_nat (length p) < 2 ^ 32 /\ Forall is_byte p) (memory c :: fw_packets w)) as H6.
  { rewrite H2. apply Forall_cons. split; [split; [reflexivity|decided]|].
    apply Forall_cons. split; [split; [reflexivity|decided]|constructor]. }
  split; [exact (conj H1 (conj H3 (conj H4 (conj H5 H2))))|].
  apply (parallel_data_stores w c scpi_interface 3 5 0 0); rewrite ?H2; try assumption; try reflexivity.
  - split; reflexivity || discriminate.
  - split; reflexivity || discriminate.
Defined.
