(* ===== verification/Server.v ===== *)
(** * Server: the network server

    src/ethernet.c: the state [es], the callbacks the server registers with
    lwIP, the buffers it takes over, and the loops that wait for the next
    packet; and the part of lwIP's tcp_in.c that calls the callbacks when a
    segment arrives.  Frames, times and the link's status come from the
    environment, one [tick] for each turn of a waiting loop.

    What lwIP sends is not part of the model, but for resets, fins and
    the server's data. *)

From Stdlib Require Import ZArith Lia.
From stdpp Require Import base numbers list gmap.
From S2P Require Import Prelude Hw Flash Crc Config Pbuf Tcp.
#[local] Open Scope c_scope.

(** ** State *)

Inductive server_states := ES_NONE | ES_ACCEPTED | ES_RECEIVING | ES_CLOSING.
#[export] Instance server_states_eq_dec : EqDecision server_states.
Proof. solve_decision. Defined.

Definition ES_ENDOFLINE : Z := 0x01.
Definition ES_DONE : Z := 0x02.
Definition ES_DATA : Z := 0x04.

Record server_state := mkEs {
    es_state : server_states;
    es_flags : Z;
    es_pcb : option pcb_id;
    es_pin : option ptr;
    es_pin_offset : Z;
    es_pout : option ptr;
    es_binary_target : option nat;   (** an index of the table of data.c *)
    es_last_activity : Z;
  }.

Definition es_reset : server_state := mkEs ES_NONE 0 None None 0 None None 0.

(** The interface's addresses, as octets, and flags. *)
Record netif := mkNetif { ip_addr : list Z; netmask : list Z; gw : list Z; if_up : bool; if_link_up : bool }.

(** The static variables of [lwip_periodic_handle]. *)
Record timers := mkTimers { tcp_fast_timer : Z; tcp_slow_timer : Z; arp_timer : Z; link_timer : Z; link_status : bool }.

(** What arrives: a segment for the server's port, from the peer [c], or
    a frame that concerns no connection.  [s_expected]: the acknowledgement
    is of something sent and not yet acknowledged; [s_all_acked]: it is of
    everything; [s_acked]: the number of bytes it is of. *)
Record segment := mkSeg {
    s_seqno : Z; s_syn : bool; s_ack : bool; s_rst : bool; s_fin : bool;
    s_expected : bool; s_all_acked : bool; s_acked : Z;
    s_data : list Z;
  }.
Inductive frame := FSegment (c : pcb_id) (s : segment) | FOther (len : nat).
(** What lwIP's slow timer finds: a connection to be polled, or to be given up. *)
Inductive slow_event := SlowPoll (c : pcb_id) | SlowAbort (c : pcb_id) (reset : bool).

(** One turn of a waiting loop: the frame received meanwhile, the time, the
    link, and what the timers will find. *)
Record tick := mkTick { tk_frame : option frame; tk_time : Z; tk_link : bool; tk_slow : list slow_event }.

Record net := mkNet {
    n_tcp : tcp;
    n_es : server_state;
    n_netif : netif;
    n_timers : timers;
    n_time : Z;             (** [LocalTime] *)
    n_mac : bool;           (** whether the MAC was started *)
    n_calls : list nat;     (** calls of tcp_fasttmr (0), tcp_slowtmr (1) and etharp_tmr (2) *)
    n_store : store;
    n_ticks : list tick;
  }.

#[export] Program Instance net_tcp : Lens tcp net :=
  {| view := n_tcp;
     over t w := mkNet t (n_es w) (n_netif w) (n_timers w) (n_time w) (n_mac w) (n_calls w) (n_store w) (n_ticks w) |}.
Solve Obligations with (intros; repeat match goal with x : net |- _ => destruct x end; reflexivity).

#[export] Program Instance net_es : Lens server_state net :=
  {| view := n_es;
     over e w := mkNet (n_tcp w) e (n_netif w) (n_timers w) (n_time w) (n_mac w) (n_calls w) (n_store w) (n_ticks w) |}.
Solve Obligations with (intros; repeat match goal with x : net |- _ => destruct x end; reflexivity).

#[export] Program Instance net_store : Lens store net :=
  {| view := n_store;
     over s w := mkNet (n_tcp w) (n_es w) (n_netif w) (n_timers w) (n_time w) (n_mac w) (n_calls w) s (n_ticks w) |}.
Solve Obligations with (intros; repeat match goal with x : net |- _ => destruct x end; reflexivity).

Definition on_tcp {A} (m : M tcp A) : M net A := zoom m.
Definition on_heap {A} (m : M heap A) : M net A := on_tcp (zoom m).
Definition es : M net server_state := gets n_es.
Definition set_es (f : server_state -> server_state) : M net unit := zoom (modify f).

Definition set_state (v : server_states) (e : server_state) :=
  mkEs v (es_flags e) (es_pcb e) (es_pin e) (es_pin_offset e) (es_pout e) (es_binary_target e) (es_last_activity e).
Definition set_flags (v : Z) (e : server_state) :=
  mkEs (es_state e) v (es_pcb e) (es_pin e) (es_pin_offset e) (es_pout e) (es_binary_target e) (es_last_activity e).
Definition set_pcb (v : option pcb_id) (e : server_state) :=
  mkEs (es_state e) (es_flags e) v (es_pin e) (es_pin_offset e) (es_pout e) (es_binary_target e) (es_last_activity e).
Definition set_pin (v : option ptr) (off : Z) (e : server_state) :=
  mkEs (es_state e) (es_flags e) (es_pcb e) v off (es_pout e) (es_binary_target e) (es_last_activity e).
Definition set_pout (v : option ptr) (e : server_state) :=
  mkEs (es_state e) (es_flags e) (es_pcb e) (es_pin e) (es_pin_offset e) v (es_binary_target e) (es_last_activity e).
Definition set_target (v : option nat) (e : server_state) :=
  mkEs (es_state e) (es_flags e) (es_pcb e) (es_pin e) (es_pin_offset e) (es_pout e) v (es_last_activity e).
Definition set_activity (v : Z) (e : server_state) :=
  mkEs (es_state e) (es_flags e) (es_pcb e) (es_pin e) (es_pin_offset e) (es_pout e) (es_binary_target e) v.

(** Reads of [LocalTime], which changes from turn to turn. *)
Definition LocalTime : M net Z := gets n_time.
Definition set_netif (f : netif -> netif) : M net unit :=
  modify (fun w => mkNet (n_tcp w) (n_es w) (f (n_netif w)) (n_timers w) (n_time w) (n_mac w) (n_calls w) (n_store w) (n_ticks w)).
Definition set_timers (f : timers -> timers) : M net unit :=
  modify (fun w => mkNet (n_tcp w) (n_es w) (n_netif w) (f (n_timers w)) (n_time w) (n_mac w) (n_calls w) (n_store w) (n_ticks w)).
Definition set_mac (v : bool) : M net unit :=
  modify (fun w => mkNet (n_tcp w) (n_es w) (n_netif w) (n_timers w) (n_time w) v (n_calls w) (n_store w) (n_ticks w)).
Definition called (n : nat) : M net unit :=
  modify (fun w => mkNet (n_tcp w) (n_es w) (n_netif w) (n_timers w) (n_time w) (n_mac w) (n_calls w ++ [n]) (n_store w) (n_ticks w)).

Section Server.
Context `{TE : TcpEnv} `{FE : FlashEnv}.

(** ** Replies *)

(** [strlen] of a string whose bytes are [data]. *)
Fixpoint strlen (data : list Z) : Z :=
  match data with
  | [] => 0
  | c :: data => if c =? 0 then 0 else 1 + strlen data
  end.

Definition ethernet_copy_queue (data : list Z) (len : Z) : M net Z :=
  e ← es;
  match es_pcb e with
  | None => mret 0
  | Some pcb =>
      let len := if len =? 0 then u16 (strlen data) else len in
      d ← deref OutOfBounds (read_bytes 0 (Z.to_nat len) data);
      on_tcp (tcp_write pcb d)
  end.
(** The same but for a flag of [tcp_write]: the data are not copied. *)
Definition ethernet_queue := ethernet_copy_queue.

(** ** The callbacks *)

Definition server_accept_callback (newpcb : pcb_id) : M net Z :=
  set_es (set_state ES_ACCEPTED);;
  set_es (set_pcb (Some newpcb));;
  set_es (set_pin None 0);;
  set_es (set_pout None);;
  t ← LocalTime;
  set_es (set_activity t);;
  on_tcp (tcp_arg newpcb true);;
  on_tcp (tcp_recv newpcb RecvServer);;
  on_tcp (tcp_err newpcb true);;
  on_tcp (tcp_poll newpcb true 1);;
  on_tcp (tcp_accept false);;
  mret ERR_OK.

Definition server_connection_close (pcb : option pcb_id) : M net unit :=
  match pcb with
  | None => mret tt
  | Some pcb =>
      on_tcp (tcp_arg pcb false);;
      on_tcp (tcp_sent pcb false);;
      on_tcp (tcp_recv pcb RecvNone);;
      on_tcp (tcp_err pcb false);;
      on_tcp (tcp_poll pcb false 0);;
      on_tcp (tcp_close pcb);;
      set_es (set_pcb None);;
      set_es (set_state ES_NONE);;
      on_tcp (tcp_accept true)
  end.

(** The loop advances along the chain of buffers to be sent. *)
Fixpoint send_loop (fuel : nat) (pcb : pcb_id) : M net unit :=
  match fuel with
  | O => hang
  | S fuel =>
      e ← es;
      match es_pout e with
      | None => mret tt
      | Some ptr =>
          b ← on_heap (pbuf_at ptr);
          space ← on_tcp (tcp_sndbuf pcb);
          if p_len b <=? space then
            wr_err ← on_tcp (tcp_write pcb (payload b));
            if negb (wr_err =? ERR_OK) then mret tt
            else
              set_es (set_pout (p_next b));;
              on_heap (pbuf_ref (p_next b));;
              on_heap (pbuf_free (Some ptr));;
              send_loop fuel pcb
          else mret tt
      end
  end.

Definition server_send (pcb : pcb_id) : M net unit :=
  h ← gets (fun w => t_heap (n_tcp w));
  send_loop (S (size h)) pcb;;
  t ← LocalTime;
  set_es (set_activity t).

Definition server_recv_callback (pcb : pcb_id) (p : option ptr) (err : Z) : M net Z :=
  t ← LocalTime;
  set_es (set_activity t);;
  match p with
  | None =>
      set_es (set_state ES_CLOSING);;
      e ← es;
      match es_pout e with
      | None => server_connection_close (Some pcb)
      | Some _ => on_tcp (tcp_sent pcb true);; server_send pcb
      end;;
      mret ERR_OK
  | Some _ =>
      if negb (err =? ERR_OK) then on_heap (pbuf_free p);; mret err
      else
        e ← es;
        if decide (es_state e = ES_ACCEPTED) then
          set_es (set_state ES_RECEIVING);;
          set_es (set_pin p (es_pin_offset e));;
          on_tcp (tcp_sent pcb true);;
          mret ERR_OK
        else if decide (es_state e = ES_RECEIVING) then
          match es_pin e with
          | Some _ => on_heap (pbuf_chain (es_pin e) p)
          | None => set_es (set_pin p (es_pin_offset e))
          end;;
          mret ERR_OK
        else on_heap (pbuf_free p);; mret ERR_OK
  end.

(** [mem_free(arg)]: the server's state is not in lwIP's heap, and
    [mem_free] does nothing with a pointer to anything else. *)
Definition server_err_callback (arg : bool) : M net unit := mret tt.

Definition server_poll_callback (pcb : pcb_id) : M net Z :=
  e ← es;
  match es_pout e with
  | Some _ => server_send pcb
  | None => if decide (es_state e = ES_CLOSING) then server_connection_close (Some pcb) else mret tt
  end;;
  mret ERR_OK.

Definition server_sent_callback (pcb : pcb_id) : M net Z := server_poll_callback pcb.

Definition ethernet_data_next (data : option nat) : M net unit :=
  set_es (set_target data);;
  set_es (fun e => set_flags (Z.lor (es_flags e) ES_DATA) e).

(** ** lwIP's calls of them *)

Definition TCP_EVENT_ACCEPT (c : pcb_id) : M net Z :=
  p ← on_tcp (pcb_at c);
  if cb_accept p then server_accept_callback c else mret ERR_ARG.

Definition TCP_EVENT_SENT (c : pcb_id) : M net Z :=
  p ← on_tcp (pcb_at c);
  if cb_sent p then server_sent_callback c else mret ERR_OK.

Definition TCP_EVENT_RECV (c : pcb_id) (q : option ptr) (err : Z) : M net Z :=
  p ← on_tcp (pcb_at c);
  match cb_recv p with
  | RecvServer => server_recv_callback c q err
  | RecvDefault | RecvNone => on_tcp (tcp_recv_null c q err)
  end.

Definition TCP_EVENT_CLOSED (c : pcb_id) : M net Z :=
  p ← on_tcp (pcb_at c);
  match cb_recv p with
  | RecvServer => server_recv_callback c None ERR_OK
  | RecvDefault => on_tcp (tcp_recv_null c None ERR_OK)
  | RecvNone => mret ERR_OK
  end.

Definition TCP_EVENT_POLL (c : pcb_id) : M net Z :=
  p ← on_tcp (pcb_at c);
  if cb_poll p then server_poll_callback c else mret ERR_OK.

Definition TCP_EVENT_ERR (errf arg : bool) : M net unit := if errf then server_err_callback arg else mret tt.

Definition tcp_abandon (c : pcb_id) (reset : bool) : M net unit :=
  p ← on_tcp (pcb_at c);
  if decide (state p = TIME_WAIT) then on_tcp (memp_free_pcb c)
  else
    on_tcp (tcp_pcb_purge c);;
    when reset (on_tcp (send (SentRst c)));;
    on_tcp (memp_free_pcb c);;
    TCP_EVENT_ERR (cb_err p) (callback_arg p).

Definition tcp_abort (c : pcb_id) : M net unit := tcp_abandon c true.

(** *** A segment's data *)

(** The data before [off] were received before. *)
Fixpoint trim_loop (fuel : nat) (q : option ptr) (off new_tot_len : Z) : M heap (option ptr * Z) :=
  match fuel with
  | O => hang
  | S fuel =>
      p ← deref NullDeref q;
      b ← pbuf_at p;
      if p_len b <? off then
        pbuf_put p (with_tot_len new_tot_len (with_payload [] b));;
        trim_loop fuel (p_next b) (off - p_len b) new_tot_len
      else mret (q, off)
  end.

Definition trim_front (q : ptr) (off : Z) : M heap unit :=
  b ← pbuf_at q;
  (if p_len b <? off then
     h ← get;
     qo ← trim_loop (S (size h)) (Some q) off (u16 (tot_len b - off));
     pbuf_header (fst qo) (snd qo)
   else pbuf_header (Some q) off);;
  mret tt.

(** The order of the states, of which [tcp_receive] asks whether a state
    comes before [CLOSE_WAIT]. *)
Definition before_close_wait (v : tcp_state) : bool :=
  match v with CLOSE_WAIT | CLOSING | LAST_ACK | TIME_WAIT => false | _ => true end.

(** The segment, of which [len] bytes are left, is the next in sequence: what
    exceeds the window is cut off at the end. *)
Definition receive_next (c : pcb_id) (s : segment) (q : ptr) (p : tcp_pcb) (len : Z) : M net (bool * bool) :=
  let over := rcv_wnd p <? len + b2z (s_fin s || s_syn s) in
  let fin := s_fin s && negb over in
  let len := if over then u16 (rcv_wnd p - b2z (s_syn s)) else len in
  let tcplen := len + b2z (fin || s_syn s) in
  when over (on_heap (pbuf_realloc q len));;
  let p := with_rcv_nxt (u32 (rcv_nxt p + tcplen)) p in
  let p := with_rcv_wnd (u16 (rcv_wnd p - tcplen)) p in
  on_tcp (pcb_put c (snd (tcp_update_rcv_ann_wnd p)));;
  b ← on_heap (pbuf_at q);
  mret (0 <? tot_len b, fin).

(** Of [tcp_receive], the data: the part that is not new is cut off at the
    front, and a segment that is not next in sequence then is dropped.
    Returns whether the segment's data go to the application, and whether
    the peer closed its side. *)
Definition tcp_receive (c : pcb_id) (s : segment) (q : ptr) : M net (bool * bool) :=
  p ← on_tcp (pcb_at c);
  let tcplen := Z.of_nat (length (s_data s)) + b2z (s_fin s || s_syn s) in
  if (0 <? tcplen) && before_close_wait (state p) then
    let trim := TCP_SEQ_BETWEEN (rcv_nxt p) (s_seqno s + 1) (s_seqno s + tcplen - 1) in
    let off := if trim then s32 (rcv_nxt p - s_seqno s) else 0 in
    when trim (on_heap (trim_front q off));;
    let seqno := if trim then rcv_nxt p else s_seqno s in
    let len := u16 (Z.of_nat (length (s_data s)) - off) in
    if TCP_SEQ_BETWEEN seqno (rcv_nxt p) (rcv_nxt p + rcv_wnd p - 1) && (rcv_nxt p =? seqno)
    then receive_next c s q p len else mret (false, false)
  else mret (false, false).

(** *** A segment *)

(** What [tcp_process] found: [TF_RESET], [TF_CLOSED], that the connection
    was aborted, or whether there are data and a fin. *)
Inductive processed := Reset | Closed | Aborted | Received (data fin : bool).

Definition set_tcp_state (c : pcb_id) (v : tcp_state) : M net unit := on_tcp (pcb_update c (with_state v)).
Definition time_wait (c : pcb_id) : M net unit := on_tcp (tcp_pcb_purge c);; set_tcp_state c TIME_WAIT.

Definition tcp_process (c : pcb_id) (s : segment) (q : ptr) : M net processed :=
  p ← on_tcp (pcb_at c);
  if s_rst s then
    mret (if TCP_SEQ_BETWEEN (s_seqno s) (rcv_nxt p) (rcv_nxt p + rcv_wnd p) then Reset else Received false false)
  else if s_syn s && negb (bool_decide (state p = SYN_RCVD)) then mret (Received false false)
  else
    match state p with
    | SYN_RCVD =>
        if s_ack s then
          if s_expected s then
            set_tcp_state c ESTABLISHED;;
            err ← TCP_EVENT_ACCEPT c;
            if negb (err =? ERR_OK) then
              when (negb (err =? ERR_ABRT)) (tcp_abort c);; mret Aborted
            else
              r ← tcp_receive c s q;
              when (snd r) (set_tcp_state c CLOSE_WAIT);;
              mret (Received (fst r) (snd r))
          else on_tcp (send (SentRst c));; mret (Received false false)
        else mret (Received false false)
    | CLOSE_WAIT | ESTABLISHED =>
        r ← tcp_receive c s q;
        when (snd r) (set_tcp_state c CLOSE_WAIT);;
        mret (Received (fst r) (snd r))
    | FIN_WAIT_1 =>
        r ← tcp_receive c s q;
        (if (snd r : bool) then if s_ack s && s_all_acked s then time_wait c else set_tcp_state c CLOSING
         else when (s_ack s && s_all_acked s) (set_tcp_state c FIN_WAIT_2));;
        mret (Received (fst r) (snd r))
    | FIN_WAIT_2 =>
        r ← tcp_receive c s q;
        when (snd r) (time_wait c);;
        mret (Received (fst r) (snd r))
    | CLOSING =>
        r ← tcp_receive c s q;
        when (s_ack s && s_all_acked s) (time_wait c);;
        mret (Received (fst r) (snd r))
    | LAST_ACK =>
        r ← tcp_receive c s q;
        if s_ack s && s_all_acked s then mret Closed else mret (Received (fst r) (snd r))
    | _ => mret (Received false false)
    end.

Definition tcp_timewait_input (c : pcb_id) (s : segment) : M net unit :=
  p ← on_tcp (pcb_at c);
  if s_rst s then mret tt
  else if s_syn s && TCP_SEQ_BETWEEN (s_seqno s) (rcv_nxt p) (rcv_nxt p + rcv_wnd p) then on_tcp (send (SentRst c))
  else when (0 <? Z.of_nat (length (s_data s)) + b2z (s_fin s || s_syn s)) (on_tcp (tcp_output c)).

(** *** A connection request *)

Definition active (p : tcp_pcb) : bool := negb (bool_decide (state p = TIME_WAIT)).
Definition ids (P : tcp_pcb -> bool) (m : gmap pcb_id tcp_pcb) : list pcb_id :=
  map fst (filter (fun cp => P cp.2 = true) (map_to_list m)).

(** Of the connections with [P] the one that has been idle longest is given
    up; all connections have the same priority. *)
Definition tcp_kill (P : tcp_pcb -> bool) : M net unit :=
  m ← gets (fun w => t_pcbs (n_tcp w));
  s ← gets (fun w => t_sent (n_tcp w));
  match oldest s (ids P m) with
  | Some c => when (bool_decide (c ∈ ids P m)) (tcp_abort c)
  | None => mret tt
  end.
Definition tcp_kill_timewait : M net unit := tcp_kill (fun p => negb (active p)).
Definition tcp_kill_prio : M net unit := tcp_kill active.

(** Whether the pool has a block. *)
Definition memp_malloc_pcb : M net bool :=
  m ← gets (fun w => t_pcbs (n_tcp w));
  mret (Z.of_nat (size m) <? MEMP_NUM_TCP_PCB).

Definition tcp_alloc : M net bool :=
  ok ← memp_malloc_pcb;
  if (ok : bool) then mret true
  else
    tcp_kill_timewait;;
    ok ← memp_malloc_pcb;
    if (ok : bool) then mret true else tcp_kill_prio;; memp_malloc_pcb.

(** The maximum segment size is [tcp_alloc]'s, as if the peer gave no
    option, and the answer can be sent. *)
Definition tcp_listen_input (c : pcb_id) (s : segment) : M net unit :=
  if s_rst s then mret tt
  else if s_ack s then on_tcp (send (SentRst c))
  else if s_syn s then
    ok ← tcp_alloc;
    if (ok : bool) then
      accept ← gets (fun w => t_accept (n_tcp w));
      on_tcp (pcb_put c (tcp_alloc_listening (s_seqno s) accept))
    else mret tt
  else mret tt.

(** *** The dispatch *)

(** Removal from the list of active connections, and of the block. *)
Definition remove_pcb (c : pcb_id) : M net unit := on_tcp (tcp_pcb_purge c);; on_tcp (memp_free_pcb c).

(** What [tcp_input] does after [tcp_process] with a connection that goes on;
    [aborted] are the jumps to that label. *)
Definition tcp_deliver (c : pcb_id) (s : segment) (q : ptr) (data fin : bool) : M net unit :=
  when (0 <? s_acked s) (TCP_EVENT_SENT c;; mret tt);;
  aborted ← (if data then
     p ← on_tcp (pcb_at c);
     if rx_closed p then on_heap (pbuf_free (Some q));; tcp_abort c;; mret true
     else
       err ← TCP_EVENT_RECV c (Some q) ERR_OK;
       if err =? ERR_ABRT then mret true
       else
         when (negb (err =? ERR_OK)) (on_tcp (pcb_update c (with_refused (Some q))));; mret false
   else mret false);
  when (negb aborted)
    (when fin
       (p ← on_tcp (pcb_at c);
        match refused_data p with
        | Some _ => mret tt
        | None =>
            when (negb (rcv_wnd p =? TCP_WND)) (on_tcp (pcb_put c (with_rcv_wnd (u16 (rcv_wnd p + 1)) p)));;
            TCP_EVENT_CLOSED c;; mret tt
        end);;
     on_tcp (tcp_output c)).

(** Refused data, which [tcp_input] tries again to hand over, there are
    none: the server's callbacks return no error. *)
Definition tcp_input (c : pcb_id) (s : segment) (q : ptr) : M net unit :=
  live ← gets (fun w => t_pcbs (n_tcp w) !! c);
  match live with
  | None => tcp_listen_input c s;; on_heap (pbuf_free (Some q));; mret tt
  | Some p =>
      if decide (state p = TIME_WAIT) then tcp_timewait_input c s;; on_heap (pbuf_free (Some q));; mret tt
      else
        r ← tcp_process c s q;
        match r with
        | Aborted => on_heap (pbuf_free (Some q));; mret tt
        | Reset =>
            p ← on_tcp (pcb_at c);
            TCP_EVENT_ERR (cb_err p) (callback_arg p);;
            remove_pcb c;; on_heap (pbuf_free (Some q));; mret tt
        | Closed =>
            p ← on_tcp (pcb_at c);
            when (negb (rx_closed p)) (TCP_EVENT_ERR (cb_err p) (callback_arg p));;
            remove_pcb c;; on_heap (pbuf_free (Some q));; mret tt
        | Received data fin =>
            tcp_deliver c s q data fin;;
            when (negb data) (on_heap (pbuf_free (Some q));; mret tt)
        end
  end.

(** ** The loops *)

(** The headers of the link, IP and TCP. *)
Definition headers : list Z := replicate 54 0.

Definition ethernetif_input (f : frame) : M net unit :=
  let bytes := match f with FSegment _ s => headers ++ s_data s | FOther n => replicate n 0 end in
  q ← on_heap (low_level_input bytes);
  match q with
  | None => mret tt
  | Some p =>
      match f with
      | FOther _ => on_heap (pbuf_free q);; mret tt
      | FSegment c s => on_heap (pbuf_header q (Z.of_nat (length headers)));; tcp_input c s p
      end
  end.

(** *** The link *)

Definition netif_set_ipaddr (ipaddr : list Z) : M net unit :=
  i ← gets n_netif;
  when (negb (bool_decide (ipaddr = ip_addr i)))
    (m ← gets (fun w => t_pcbs (n_tcp w)); for_each (ids active m) tcp_abort);;
  set_netif (fun i => mkNetif ipaddr (netmask i) (gw i) (if_up i) (if_link_up i)).

Definition netif_set_addr (ipaddr mask gateway : list Z) : M net unit :=
  netif_set_ipaddr ipaddr;;
  set_netif (fun i => mkNetif (ip_addr i) mask gateway (if_up i) (if_link_up i)).

Definition netif_set_up : M net unit :=
  set_netif (fun i => mkNetif (ip_addr i) (netmask i) (gw i) true (if_link_up i)).
Definition netif_set_down : M net unit :=
  set_netif (fun i => mkNetif (ip_addr i) (netmask i) (gw i) false (if_link_up i)).

(** Auto-negotiation is disabled: the branch of the code that performs it is
    never taken. *)
Definition ethernet_link_callback : M net unit :=
  i ← gets n_netif;
  if if_link_up i then
    set_mac true;;
    p ← zoom config_get;
    bs ← zoom (load_config p);
    let eth_conf := ethernet (config_of_bytes bs) in
    netif_set_addr (c_address eth_conf) (c_submask eth_conf) (c_gateway eth_conf);;
    netif_set_up
  else
    set_mac false;;
    netif_set_down.

Definition netif_set_link_up : M net unit :=
  i ← gets n_netif;
  when (negb (if_link_up i))
    (set_netif (fun i => mkNetif (ip_addr i) (netmask i) (gw i) (if_up i) true);; ethernet_link_callback).
Definition netif_set_link_down : M net unit :=
  i ← gets n_netif;
  when (if_link_up i)
    (set_netif (fun i => mkNetif (ip_addr i) (netmask i) (gw i) (if_up i) false);; ethernet_link_callback).

Definition TCP_FAST_INTERVAL : Z := 250.
Definition TCP_SLOW_INTERVAL : Z := 500.
Definition ARP_TMR_INTERVAL : Z := 5000.

(** The loop over the active connections: some are given up, some polled. *)
Definition tcp_slowtmr (found : list slow_event) : M net unit :=
  for_each found (fun ev =>
    match ev with
    | SlowPoll c =>
        live ← gets (fun w => t_pcbs (n_tcp w) !! c);
        when (bool_decide (is_Some live))
          (err ← TCP_EVENT_POLL c; when (err =? ERR_OK) (on_tcp (tcp_output c)))
    | SlowAbort c reset =>
        live ← gets (fun w => t_pcbs (n_tcp w) !! c);
        when (bool_decide (is_Some live)) (tcp_abandon c reset)
    end).

(** The link's state is read from the PHY. *)
Definition lwip_periodic_handle (localtime : Z) (link : bool) (found : list slow_event) : M net unit :=
  t ← gets n_timers;
  when (1000 <=? u32 (localtime - link_timer t))
    (set_timers (fun t => mkTimers (tcp_fast_timer t) (tcp_slow_timer t) (arp_timer t) localtime (link_status t));;
     when (negb (bool_decide (link_status t = link)))
       (set_timers (fun t => mkTimers (tcp_fast_timer t) (tcp_slow_timer t) (arp_timer t) (link_timer t) link);;
        if (link : bool) then netif_set_link_up else netif_set_link_down));;
  when (TCP_FAST_INTERVAL <=? u32 (localtime - tcp_fast_timer t))
    (set_timers (fun t => mkTimers localtime (tcp_slow_timer t) (arp_timer t) (link_timer t) (link_status t));;
     called 0);;
  when (TCP_SLOW_INTERVAL <=? u32 (localtime - tcp_slow_timer t))
    (set_timers (fun t => mkTimers (tcp_fast_timer t) localtime (arp_timer t) (link_timer t) (link_status t));;
     called 1;; tcp_slowtmr found);;
  when (ARP_TMR_INTERVAL <=? u32 (localtime - arp_timer t))
    (set_timers (fun t => mkTimers (tcp_fast_timer t) (tcp_slow_timer t) localtime (link_timer t) (link_status t));;
     called 2).

(** One turn of the loops that wait for data; with no tick left, they wait
    for ever. *)
Definition poll_network : M net unit :=
  ts ← gets n_ticks;
  match ts with
  | [] => hang
  | t :: ts =>
      modify (fun w => mkNet (n_tcp w) (n_es w) (n_netif w) (n_timers w) (tk_time t) (n_mac w) (n_calls w) (n_store w) ts);;
      match tk_frame t with Some f => ethernetif_input f | None => mret tt end;;
      now ← LocalTime;
      lwip_periodic_handle now (tk_link t) (tk_slow t)
  end.

Definition ethernet_clear_packet : M net unit :=
  e ← es;
  match es_pin e with
  | None => mret tt
  | Some ptr =>
      b ← on_heap (pbuf_at ptr);
      set_es (set_pin (p_next b) 0);;
      on_heap (pbuf_ref (p_next b));;
      on_heap (pbuf_free (Some ptr));;
      mret tt
  end.

(** [do ... while (es.pin == NULL)]: a turn for each tick. *)
Fixpoint wait_pin (fuel : nat) : M net unit :=
  match fuel with
  | O => hang
  | S fuel =>
      poll_network;;
      e ← es;
      match es_pin e with None => wait_pin fuel | Some _ => mret tt end
  end.

Definition ethernet_next_packet : M net unit :=
  ethernet_clear_packet;;
  ts ← gets n_ticks;
  wait_pin (S (length ts)).

(** The rounds of [ethernet_copy_data] from [i] on: what they copy.  Every
    round but the last takes a packet, and with it a turn. *)
Fixpoint copy_rounds (fuel : nat) (len i offset : Z) : M net (list Z) :=
  match fuel with
  | O => hang
  | S fuel =>
      if i <? len then
        e ← es;
        q ← deref NullDeref (es_pin e);
        b ← on_heap (pbuf_at q);
        let copy_len := Z.min (u32 (p_len b - offset)) (len - i) in
        part ← deref OutOfBounds (read_bytes (Z.to_nat offset) (Z.to_nat copy_len) (payload b));
        let i := i + copy_len in
        when (i <? len) ethernet_next_packet;;
        rest ← copy_rounds fuel len i 0;
        mret (part ++ rest)
      else mret []
  end.

Definition ethernet_copy_data (len offset : Z) : M net (list Z) :=
  ts ← gets n_ticks;
  copy_rounds (S (S (length ts))) len 0 offset.

(** ** Operations on a part of the state *)

Definition with_heap (h : heap) (w : net) : net := over (over h (n_tcp w)) w.

Lemma on_tcp_ok {A} (m : M tcp A) w a t : m (n_tcp w) = Ok (a, t) -> on_tcp m w = Ok (a, over t w).
Proof. exact (zoom_ok m w a t). Qed.

Lemma on_heap_ok {A} (m : M heap A) w a h : m (t_heap (n_tcp w)) = Ok (a, h) -> on_heap m w = Ok (a, with_heap h w).
Proof. intros E. apply on_tcp_ok. exact (zoom_ok m (n_tcp w) a h E). Qed.

Lemma pcb_at_ok c t p : t_pcbs t !! c = Some p -> pcb_at c t = Ok (p, t).
Proof. intros E. unfold pcb_at. erewrite bind_ok by reflexivity. now rewrite E. Qed.

Lemma on_pcb_at c w p : t_pcbs (n_tcp w) !! c = Some p -> on_tcp (pcb_at c) w = Ok (p, w).
Proof. intros E. rewrite (on_tcp_ok _ w p (n_tcp w) (pcb_at_ok c _ p E)). now destruct w. Qed.

Lemma on_tcp_output c w p : t_pcbs (n_tcp w) !! c = Some p -> on_tcp (tcp_output c) w = Ok (tt, w).
Proof.
  intros E. unfold tcp_output, on_tcp. rewrite zoom_bind. erewrite bind_ok by exact (on_pcb_at c w p E). apply zoom_ret.
Qed.

Lemma pcb_update_ok c t p f :
  t_pcbs t !! c = Some p ->
  pcb_update c f t = Ok (tt, mkTcp (t_heap t) (<[c := f p]> (t_pcbs t)) (t_accept t) (t_sent t)).
Proof. intros E. unfold pcb_update. now rewrite (bind_ok _ _ _ _ _ (pcb_at_ok c t p E)). Qed.

Lemma pcb_at_dangling c w : t_pcbs (n_tcp w) !! c = None -> on_tcp (pcb_at c) w = Fault DanglingPtr.
Proof. intros E. unfold on_tcp, zoom, pcb_at, mbind, M_bind, gets. cbn. now rewrite E. Qed.

Lemma output_dangling c w : t_pcbs (n_tcp w) !! c = None -> on_tcp (tcp_output c) w = Fault DanglingPtr.
Proof.
  intros E. unfold tcp_output, on_tcp. rewrite zoom_bind. pose proof (pcb_at_dangling c w E) as F. unfold on_tcp in F.
  unfold mbind, M_bind. now rewrite F.
Qed.

(** The last packet is released, and no other. *)
Lemma clear_last w x b :
  es_pin (n_es w) = Some x -> t_heap (n_tcp w) !! x = Some b -> p_next b = None ->
  exists h, ethernet_clear_packet w = Ok (tt, with_heap h (over (set_pin None 0 (n_es w)) w)) /\
    (size h <= size (t_heap (n_tcp w)))%nat.
Proof.
  intros Hp Hb Hn. unfold ethernet_clear_packet, es. erewrite bind_ok by reflexivity. rewrite Hp.
  rewrite (bind_ok _ _ _ _ _ (on_heap_ok _ w _ _ (pbuf_at_ok _ _ _ Hb))). rewrite Hn.
  replace (with_heap (t_heap (n_tcp w)) w) with w by (destruct w as [[] ? ? ? ? ? ? ? ?]; reflexivity).
  unfold set_es. erewrite bind_ok by reflexivity. erewrite (bind_ok (on_heap (pbuf_ref None))) by reflexivity.
  destruct (pbuf_free_spec (t_heap (n_tcp w)) (Some x) [x]) as [n E]; [cbn; split; [done|]; exists b; done|].
  erewrite bind_ok by (eapply on_heap_ok; exact E). exists (freed (t_heap (n_tcp w)) [x]). split; [reflexivity|].
  cbn [freed]. rewrite Hb. destruct (_ =? 0).
  - rewrite map_size_delete_Some by now exists b. lia.
  - rewrite map_size_insert_Some by now exists b. done.
Qed.
(** A frame that carries a segment is lost, or its data reach [tcp_input] in
    new buffers. *)
Lemma frame_input c s w :
  Z.of_nat (length (headers ++ s_data s)) < 2 ^ 16 ->
  (low_level_input (headers ++ s_data s) (t_heap (n_tcp w)) = Ok (None, t_heap (n_tcp w)) /\
   ethernetif_input (FSegment c s) w = Ok (tt, w)) \/
  exists q l h, ethernetif_input (FSegment c s) w = tcp_input c s q (with_heap h w) /\ chain h (Some q) (q :: l) /\
    fresh_in (t_heap (n_tcp w)) h (q :: l) /\ (forall y, y ∉ q :: l -> h !! y = t_heap (n_tcp w) !! y) /\
    concat (payloads h (q :: l)) = s_data s /\ tot_len <$> h !! q = Some (Z.of_nat (length (s_data s))).
Proof.
  intros Hn. unfold ethernetif_input. destruct (frame_taken headers (s_data s) (t_heap (n_tcp w))) as [E|(q & l & h1 & h2 & E1 & E2 & H)].
  - vm_compute. discriminate.
  - exact Hn.
  - left. split; [exact E|]. rewrite (bind_ok _ _ _ _ _ (on_heap_ok _ w _ _ E)). now destruct w as [[] ? ? ? ? ? ? ? ?].
  - right. exists q, l, h2. split; [|exact H]. rewrite (bind_ok _ _ _ _ _ (on_heap_ok _ w _ _ E1)).
    now rewrite (bind_ok _ _ _ _ _ (on_heap_ok _ (with_heap h1 w) _ _ E2)).
Qed.

End Server.

(** ** An example *)

(** Sending always succeeds. *)
Definition calm_net : TcpEnv :=
  {| write_err := fun _ _ _ => 0; fin_err := fun _ _ => 0; snd_buf := fun _ _ => TCP_WND; oldest := fun _ l => head l |}.

(** A connection the server has accepted, whose stream begins at [1001], with
    a window of [wnd]; and the server that has accepted it, holding the
    buffers [h] from [pin] on. *)
Definition home_pcb (wnd : Z) : tcp_pcb :=
  mkPcb ESTABLISHED true true RecvServer false true true 1 1001 wnd wnd 1001 536 false None.

Definition home_net (wnd : Z) (st : server_states) (h : heap) (pin : option ptr) (ts : list tick) : net :=
  mkNet (mkTcp h {[ 1%nat := home_pcb wnd ]} false []) (mkEs st 0 (Some 1%nat) pin 0 None None 0)
    (mkNetif [192; 168; 0; 2] [255; 255; 255; 0] [192; 168; 0; 1] true true) (mkTimers 0 0 0 0 true) 0 true [] store_reset ts.

(** A turn that brings the bytes of [st] from the [k]-th on, [n] of them. *)
Definition piece (st : list Z) (k n : nat) : tick :=
  mkTick (Some (FSegment 1 (mkSeg (1001 + Z.of_nat k) false true false false false false 0 (take n (drop k st))))) 7 true [].

