(* ===== verification/ServerEnds.v ===== *)
(** * ServerEnds: what ends the service

    States of the server that it never leaves, whatever arrives, and what
    leads to them: the peer resets the connection, or buffers were lost. *)

From Stdlib Require Import ZArith Lia.
From stdpp Require Import base numbers list gmap.
From S2P Require Import Prelude Hw Flash Crc Config Pbuf Tcp Server.
#[local] Open Scope c_scope.

Section ServerEnds.
Context `{TE : TcpEnv} `{FE : FlashEnv}.

(** ** Waiting for ever *)

Lemma wait_pin_stuck (P : net -> Prop) fuel w r :
  (forall w, P w -> es_pin (n_es w) = None) -> keeps P poll_network -> P w -> wait_pin fuel w <> Ok r.
Proof.
  intros Hpin Hk. revert w. induction fuel as [|fuel IH]; intros w HP; cbn [wait_pin]; [done|].
  intros E. apply bind_inv in E as ([] & w1 & E1 & E). pose proof (Hk _ _ _ HP E1) as H1.
  unfold es in E. apply bind_inv in E as (e & w2 & [= <- <-] & E). rewrite (Hpin w1 H1) in E. exact (IH w1 H1 E).
Qed.

(** ** No callback is left *)

(** A connection for which the server's callbacks are never called. *)
Definition inert (p : tcp_pcb) : Prop :=
  cb_accept p = false /\ cb_recv p <> RecvServer /\ cb_sent p = false /\ cb_poll p = false.

Definition deaf_tcp (t : tcp) : Prop := t_accept t = false /\ forall c p, t_pcbs t !! c = Some p -> inert p.
Definition deaf (e : server_state) (w : net) : Prop := n_es w = e /\ deaf_tcp (n_tcp w).

#[local] Instance deaf_heap : Within (fun _ : heap => True) deaf_tcp.
Proof. split; [done|]. intros t h [H1 H2] _. split; [exact H1|exact H2]. Qed.
#[local] Instance deaf_net e : Within deaf_tcp (deaf e).
Proof. split; [now intros w []|]. intros w t [H1 H2] H. split; [exact H1|exact H]. Qed.
#[local] Instance deaf_store e : Within (fun _ : store => True) (deaf e).
Proof. split; [done|]. intros w t [H1 H2] _. split; [exact H1|exact H2]. Qed.

Section Kept.
Variable e0 : server_state.

Lemma keeps_on_tcp {A} (m : M tcp A) : keeps deaf_tcp m -> keeps (deaf e0) (on_tcp m).
Proof. intros H. unfold on_tcp. exact (keeps_zoom _ _ H). Qed.
Lemma keeps_on_heap {A} (m : M heap A) : keeps (deaf e0) (on_heap m).
Proof. apply keeps_on_tcp. refine (keeps_zoom (fun _ => True) _ _). apply keeps_True. Qed.
Lemma keeps_zoom_heap {A} (m : M heap A) : keeps deaf_tcp (zoom m).
Proof. refine (keeps_zoom (fun _ => True) _ _). apply keeps_True. Qed.
Lemma keeps_config {A} (m : M store A) : keeps (deaf e0) (zoom m).
Proof. refine (keeps_zoom (fun _ => True) _ _). apply keeps_True. Qed.

Lemma pcb_at_inert c t p t' : deaf_tcp t -> pcb_at c t = Ok (p, t') -> inert p.
Proof.
  intros [_ H] E. unfold pcb_at in E. apply bind_inv in E as (o & t1 & [= <- <-] & E).
  destruct (t_pcbs t !! c) as [q|] eqn:Eq; [|done]. injection E as <- <-. exact (H _ _ Eq).
Qed.

Lemma keeps_at {A} c (f : tcp_pcb -> M tcp A) :
  (forall p, inert p -> keeps deaf_tcp (f p)) -> keeps deaf_tcp (pcb_at c ≫= f).
Proof.
  intros Hf. apply (keeps_bind_post _ inert); [unfold pcb_at; keeping| |exact Hf].
  intros t p t' H E. exact (pcb_at_inert c t p t' H E).
Qed.

Lemma keeps_on_at {A} c (f : tcp_pcb -> M net A) :
  (forall p, inert p -> keeps (deaf e0) (f p)) -> keeps (deaf e0) (on_tcp (pcb_at c) ≫= f).
Proof.
  intros Hf. apply (keeps_bind_post _ inert); [apply keeps_on_tcp; unfold pcb_at; keeping| |exact Hf].
  intros w p w' [_ H] E. apply zoom_inv in E as (t & E & _). exact (pcb_at_inert c _ p t H E).
Qed.

Lemma keeps_put c p : inert p -> keeps deaf_tcp (pcb_put c p).
Proof.
  intros Hp. apply keeps_modify. intros t [H1 H2]. split; [exact H1|]. cbn. intros c' p' E.
  apply lookup_insert_Some in E as [[_ <-]|[_ E]]; [exact Hp|exact (H2 _ _ E)].
Qed.
Lemma keeps_update c f : (forall p, inert p -> inert (f p)) -> keeps deaf_tcp (pcb_update c f).
Proof. intros Hf. apply keeps_at. intros p Hp. apply keeps_put, Hf, Hp. Qed.
Lemma keeps_free_pcb c : keeps deaf_tcp (memp_free_pcb c).
Proof.
  apply keeps_modify. intros t [H1 H2]. split; [exact H1|]. cbn. intros c' p' E.
  apply lookup_delete_Some in E as [_ E]. exact (H2 _ _ E).
Qed.
Lemma keeps_send s : keeps deaf_tcp (send s).
Proof. apply keeps_modify. now intros t [H1 H2]. Qed.

Hint Resolve keeps_on_tcp keeps_on_heap keeps_zoom_heap keeps_config keeps_put keeps_free_pcb keeps_send : keeps.

Lemma inert_keep p p' :
  cb_accept p' = cb_accept p -> cb_recv p' = cb_recv p -> cb_sent p' = cb_sent p -> cb_poll p' = cb_poll p ->
  inert p -> inert p'.
Proof. unfold inert. congruence. Qed.
Ltac inert := intros; eapply inert_keep; [..|eassumption]; reflexivity.

Lemma keeps_purge c : keeps deaf_tcp (tcp_pcb_purge c).
Proof. apply keeps_at. intros p Hp. keeping. Qed.
Hint Resolve keeps_purge : keeps.

Lemma ann_wnd_inert p : inert p -> inert (snd (tcp_update_rcv_ann_wnd p)).
Proof. intros Hp. unfold tcp_update_rcv_ann_wnd. repeat case_match; exact Hp. Qed.

Lemma keeps_recved c n : keeps deaf_tcp (tcp_recved c n).
Proof.
  apply keeps_at. intros p Hp. cbv zeta. destruct (tcp_update_rcv_ann_wnd _) as [i p'] eqn:E.
  keeping. apply keeps_put. pose proof (ann_wnd_inert (with_rcv_wnd (if TCP_WND <? u16 (rcv_wnd p + n) then TCP_WND else u16 (rcv_wnd p + n)) p)) as H.
  rewrite E in H. apply H. exact Hp.
Qed.

Lemma keeps_close_to c v : keeps deaf_tcp (close_to c v).
Proof.
  unfold close_to, tcp_send_fin, tcp_output. keeping.
  - apply keeps_update. inert.
  - unfold pcb_at. keeping.
Qed.

Lemma keeps_close c : keeps deaf_tcp (tcp_close c).
Proof.
  apply keeps_at. intros p Hp. apply keeps_bind; [|intros _].
  - keeping.
  - apply keeps_at. intros p' Hp'. keeping; try apply keeps_close_to. apply keeps_update. inert.
Qed.
Hint Resolve keeps_recved keeps_close : keeps.

Lemma keeps_recv_null c q err : keeps deaf_tcp (tcp_recv_null c q err).
Proof. unfold tcp_recv_null. destruct q; keeping. Qed.
Lemma keeps_output c : keeps deaf_tcp (tcp_output c).
Proof. unfold tcp_output, pcb_at. keeping. Qed.
Hint Resolve keeps_recv_null keeps_output : keeps.

(** As [keeping], with what is known of the blocks that are read. *)
Ltac keeping_at :=
  repeat match goal with
  | |- keeps _ (on_tcp (pcb_at _) ≫= _) => apply keeps_on_at; intros ? ?
  | |- keeps _ (_ ≫= _) => apply keeps_bind; [|intros ?]
  | |- keeps _ (when _ _) => apply keeps_when
  | |- keeps _ (match ?x with _ => _ end) => destruct x eqn:?
  | |- _ => progress cbv beta iota zeta
  | |- keeps _ _ => solve [eauto with keeps]
  end.

(** *** lwIP's calls *)

Lemma keeps_event_accept c : keeps (deaf e0) (TCP_EVENT_ACCEPT c).
Proof. apply keeps_on_at. intros p (-> & _). keeping. Qed.
Lemma keeps_event_sent c : keeps (deaf e0) (TCP_EVENT_SENT c).
Proof. apply keeps_on_at. intros p (_ & _ & -> & _). keeping. Qed.
Lemma keeps_event_poll c : keeps (deaf e0) (TCP_EVENT_POLL c).
Proof. apply keeps_on_at. intros p (_ & _ & _ & ->). keeping. Qed.
Lemma keeps_event_recv c q err : keeps (deaf e0) (TCP_EVENT_RECV c q err).
Proof. apply keeps_on_at. intros p (_ & Hr & _). destruct (cb_recv p); [keeping..|done]. Qed.
Lemma keeps_event_closed c : keeps (deaf e0) (TCP_EVENT_CLOSED c).
Proof. apply keeps_on_at. intros p (_ & Hr & _). destruct (cb_recv p); [keeping..|done]. Qed.
Lemma keeps_event_err b1 b2 : keeps (deaf e0) (TCP_EVENT_ERR b1 b2).
Proof. unfold TCP_EVENT_ERR, server_err_callback. keeping. Qed.
Hint Resolve keeps_event_accept keeps_event_sent keeps_event_poll keeps_event_recv keeps_event_closed keeps_event_err : keeps.

Lemma keeps_abandon c r : keeps (deaf e0) (tcp_abandon c r).
Proof. apply keeps_on_at. intros p Hp. keeping. Qed.
Lemma keeps_set_state c v : keeps (deaf e0) (set_tcp_state c v).
Proof. apply keeps_on_tcp, keeps_update. inert. Qed.
Hint Resolve keeps_abandon keeps_set_state : keeps.

Lemma keeps_time_wait c : keeps (deaf e0) (time_wait c).
Proof. unfold time_wait. keeping. Qed.
Lemma keeps_remove c : keeps (deaf e0) (remove_pcb c).
Proof. unfold remove_pcb. keeping. Qed.
Lemma keeps_abort c : keeps (deaf e0) (tcp_abort c).
Proof. unfold tcp_abort. keeping. Qed.
Hint Resolve keeps_time_wait keeps_remove keeps_abort : keeps.

Lemma keeps_next c s q p len : inert p -> keeps (deaf e0) (receive_next c s q p len).
Proof. intros Hp. unfold receive_next. keeping. apply keeps_on_tcp, keeps_put, ann_wnd_inert. inert. Qed.
Lemma keeps_receive c s q : keeps (deaf e0) (tcp_receive c s q).
Proof. apply keeps_on_at. intros p Hp. keeping. now apply keeps_next. Qed.
Hint Resolve keeps_receive : keeps.

Lemma keeps_process c s q : keeps (deaf e0) (tcp_process c s q).
Proof. apply keeps_on_at. intros p Hp. keeping. Qed.

Lemma keeps_kill P : keeps (deaf e0) (tcp_kill P).
Proof. unfold tcp_kill. keeping. Qed.
Hint Resolve keeps_process keeps_kill : keeps.

Lemma keeps_alloc : keeps (deaf e0) tcp_alloc.
Proof. unfold tcp_alloc, memp_malloc_pcb, tcp_kill_timewait, tcp_kill_prio. keeping. Qed.
Hint Resolve keeps_alloc : keeps.

(** A new connection has the callback of the listening block: none. *)
Lemma keeps_listen c s : keeps (deaf e0) (tcp_listen_input c s).
Proof.
  unfold tcp_listen_input. destruct (s_rst s); [keeping|]. destruct (s_ack s); [keeping|].
  destruct (s_syn s); [|keeping]. apply keeps_bind; [keeping|intros []]; [|keeping].
  apply (keeps_bind_post _ (eq false)); [keeping| |intros ? <-; apply keeps_on_tcp, keeps_put; now repeat split].
  intros w x w' [_ [Ha _]] [= <- _]. now rewrite Ha.
Qed.
Lemma keeps_timewait c s : keeps (deaf e0) (tcp_timewait_input c s).
Proof. apply keeps_on_at. intros p Hp. keeping. Qed.
Hint Resolve keeps_listen keeps_timewait : keeps.

Lemma keeps_deliver c s q data fin : keeps (deaf e0) (tcp_deliver c s q data fin).
Proof.
  unfold tcp_deliver. keeping_at. apply keeps_on_tcp, keeps_update. inert.
Qed.
Hint Resolve keeps_deliver : keeps.

Lemma keeps_input c s q : keeps (deaf e0) (tcp_input c s q).
Proof. unfold tcp_input. keeping_at. Qed.
Hint Resolve keeps_input : keeps.

(** *** A turn *)

Lemma keeps_netif f : keeps (deaf e0) (set_netif f).
Proof. now apply keeps_modify. Qed.
Lemma keeps_timers f : keeps (deaf e0) (set_timers f).
Proof. now apply keeps_modify. Qed.
Lemma keeps_mac v : keeps (deaf e0) (set_mac v).
Proof. now apply keeps_modify. Qed.
Lemma keeps_called n : keeps (deaf e0) (called n).
Proof. now apply keeps_modify. Qed.
Hint Resolve keeps_netif keeps_timers keeps_mac keeps_called : keeps.

Lemma keeps_link_callback : keeps (deaf e0) ethernet_link_callback.
Proof. unfold ethernet_link_callback, netif_set_addr, netif_set_ipaddr, netif_set_up, netif_set_down. keeping. Qed.
Hint Resolve keeps_link_callback : keeps.

Lemma keeps_slowtmr found : keeps (deaf e0) (tcp_slowtmr found).
Proof. unfold tcp_slowtmr. keeping. Qed.
Hint Resolve keeps_slowtmr : keeps.

Lemma keeps_periodic found l : keeps (deaf e0) (now ← LocalTime; lwip_periodic_handle now l found).
Proof. unfold lwip_periodic_handle, netif_set_link_up, netif_set_link_down, LocalTime. keeping. Qed.
Hint Resolve keeps_periodic : keeps.

Lemma keeps_poll : keeps (deaf e0) poll_network.
Proof.
  unfold poll_network. apply keeps_bind; [keeping|intros [|t ts]]; [keeping|].
  apply keeps_bind; [now apply keeps_modify|intros _]. apply keeps_bind; [|intros _; apply keeps_periodic].
  unfold ethernetif_input. keeping.
Qed.
End Kept.

(** *** The peer resets its connection *)

(** The only connection is [c]'s, past its handshake, and its server has
    consumed all packets but at most the last. *)
Record alone (c : pcb_id) (p : tcp_pcb) (w : net) : Prop := {
    al_pcbs : t_pcbs (n_tcp w) = {[c := p]};
    al_state : state p <> TIME_WAIT;
    al_kept : refused_data p = None;
    al_accept : t_accept (n_tcp w) = false;
    al_pin : es_pin (n_es w) = None \/
      exists x b, es_pin (n_es w) = Some x /\ t_heap (n_tcp w) !! x = Some b /\ p_next b = None;
    al_pool : Z.of_nat (size (t_heap (n_tcp w))) < PBUF_POOL_SIZE;
  }.

Definition reset_of (p : tcp_pcb) (s : segment) : Prop :=
  s_rst s = true /\ TCP_SEQ_BETWEEN (s_seqno s) (rcv_nxt p) (rcv_nxt p + rcv_wnd p) = true /\ (length (s_data s) <= 446)%nat.

Lemma input_reset c p s q l w :
  t_pcbs (n_tcp w) = {[c := p]} -> state p <> TIME_WAIT -> refused_data p = None -> t_accept (n_tcp w) = false ->
  reset_of p s -> chain (t_heap (n_tcp w)) (Some q) l ->
  exists w', tcp_input c s q w = Ok (tt, w') /\ deaf (n_es w) w' /\ t_pcbs (n_tcp w') = ∅.
Proof.
  intros Hp Hst Hrf Hacc (Hr & Hseq & _) Hq. assert (t_pcbs (n_tcp w) !! c = Some p) as Hc by (rewrite Hp; apply lookup_singleton_eq).
  pose proof (on_pcb_at c w p Hc) as Hat. unfold tcp_input. erewrite bind_ok by reflexivity. rewrite Hc, decide_False by done.
  unfold tcp_process. rewrite bind_assoc, (bind_ok _ _ _ _ _ Hat), Hr, Hseq. erewrite bind_ok by reflexivity.
  cbv iota beta. rewrite (bind_ok _ _ _ _ _ Hat). rewrite (bind_ok (TCP_EVENT_ERR _ _) _ w tt w) by (destruct (cb_err p); reflexivity).
  unfold remove_pcb. rewrite bind_assoc. erewrite (bind_ok (on_tcp (tcp_pcb_purge c)) _ w tt w).
  2:{ rewrite (on_tcp_ok _ w tt (n_tcp w)); [now destruct w|]. unfold tcp_pcb_purge.
      rewrite (bind_ok _ _ _ _ _ (pcb_at_ok c _ p Hc)), Hrf. now destruct (bool_decide _). }
  set (w1 := over (mkTcp (t_heap (n_tcp w)) (∅ : gmap nat tcp_pcb) false (t_sent (n_tcp w))) w).
  erewrite (bind_ok (on_tcp (memp_free_pcb c)) _ w tt w1).
  2:{ rewrite (on_tcp_ok _ w tt (mkTcp (t_heap (n_tcp w)) (delete c (t_pcbs (n_tcp w))) (t_accept (n_tcp w)) (t_sent (n_tcp w))) eq_refl).
      now rewrite Hp, Hacc, delete_singleton_eq. }
  destruct (pbuf_free_spec _ _ _ Hq) as [n E]. rewrite (bind_ok _ _ _ _ _ (on_heap_ok _ w1 _ _ E)).
  eexists. split; [reflexivity|]. split; [|reflexivity]. split; [reflexivity|]. split; [reflexivity|]. intros c0 p0 E0. discriminate E0.
Qed.

(** A waiting loop that starts with the peer's reset leaves the server deaf. *)
Lemma wait_reset fuel c p s t ts w r :
  t_pcbs (n_tcp w) = {[c := p]} -> state p <> TIME_WAIT -> refused_data p = None -> t_accept (n_tcp w) = false ->
  es_pin (n_es w) = None -> Z.of_nat (size (t_heap (n_tcp w))) < PBUF_POOL_SIZE ->
  reset_of p s -> n_ticks w = t :: ts -> tk_frame t = Some (FSegment c s) ->
  wait_pin fuel w <> Ok r.
Proof.
  intros Hp Hst Hrf Hacc Hpin Hsz Hs Ht Hf. destruct fuel as [|fuel]; [done|]. cbn [wait_pin]. intros E.
  apply bind_inv in E as ([] & w1 & E1 & E). cut (deaf (n_es w) w1).
  { intros Hd. unfold es in E. apply bind_inv in E as (e & w2 & [= <- <-] & E).
    rewrite (proj1 Hd), Hpin in E. refine (wait_pin_stuck (deaf (n_es w)) fuel w1 r _ (keeps_poll _) Hd E).
    intros w0 [-> _]. exact Hpin. }
  unfold poll_network in E1. erewrite bind_ok in E1 by reflexivity. rewrite Ht in E1.
  erewrite bind_ok in E1 by reflexivity. rewrite Hf in E1. apply bind_inv in E1 as ([] & w2 & E2 & E1).
  set (w0 := mkNet _ _ _ _ _ _ _ _ _) in E2. assert (deaf (n_es w) w2) as Hd.
  { pose proof Hs as (_ & _ & Hl). destruct (frame_input c s w0) as [[E3 _]|(q & l & h & E3 & Hc & _)].
    - rewrite length_app. change (length headers) with 54%nat. lia.
    - exfalso. revert E3. apply low_level_input_short; [|exact Hsz].
      rewrite length_app. change (length headers) with 54%nat. unfold PBUF_POOL_BUFSIZE. lia.
    - destruct (input_reset c p s q (q :: l) (with_heap h w0)) as (w3 & E4 & Hd & _); try done.
      rewrite E3, E4 in E2. injection E2 as <-. exact Hd. }
  revert Hd E1. apply keeps_periodic.
Qed.

(** ** No buffer is left *)

Definition used_up_tcp (t : tcp) : Prop :=
  PBUF_POOL_SIZE <= Z.of_nat (size (t_heap t)) /\ forall c p, t_pcbs t !! c = Some p -> refused_data p = None.
Definition idle_es (e : server_state) : Prop := es_pin e = None /\ es_pout e = None.
Definition used_up (w : net) : Prop := used_up_tcp (n_tcp w) /\ idle_es (n_es w).

#[local] Instance used_up_net : Within used_up_tcp used_up.
Proof. split; [now intros w []|]. intros w t [H1 H2] H. split; [exact H|exact H2]. Qed.
#[local] Instance used_up_es : Within idle_es used_up.
Proof. split; [now intros w []|]. intros w e [H1 H2] H. split; [exact H1|exact H]. Qed.
#[local] Instance used_up_store : Within (fun _ : store => True) used_up.
Proof. split; [done|]. intros w s [H1 H2] _. split; [exact H1|exact H2]. Qed.

Lemma spent_on_tcp {A} (m : M tcp A) : keeps used_up_tcp m -> keeps used_up (on_tcp m).
Proof. intros H. unfold on_tcp. exact (keeps_zoom _ _ H). Qed.
Lemma spent_read c : keeps used_up_tcp (pcb_at c).
Proof. unfold pcb_at. keeping. Qed.
Lemma spent_at {A} c (f : tcp_pcb -> M tcp A) :
  (forall p, refused_data p = None -> keeps used_up_tcp (f p)) -> keeps used_up_tcp (pcb_at c ≫= f).
Proof.
  intros Hf. apply (keeps_bind_post _ (fun p => refused_data p = None)); [apply spent_read| |exact Hf].
  intros t p t' [_ H] E. unfold pcb_at in E. apply bind_inv in E as (o & t1 & [= <- <-] & E).
  destruct (t_pcbs t !! c) as [q|] eqn:Eq; [|done]. injection E as <- <-. exact (H _ _ Eq).
Qed.
Lemma spent_put c p : refused_data p = None -> keeps used_up_tcp (pcb_put c p).
Proof.
  intros Hp. apply keeps_modify. intros t [H1 H2]. split; [exact H1|]. cbn. intros c' p' E.
  apply lookup_insert_Some in E as [[_ <-]|[_ E]]; [exact Hp|exact (H2 _ _ E)].
Qed.
Lemma spent_update c f : (forall p, refused_data (f p) = refused_data p) -> keeps used_up_tcp (pcb_update c f).
Proof. intros Hf. apply spent_at. intros p Hp. apply spent_put. now rewrite Hf. Qed.
Lemma spent_free_pcb c : keeps used_up_tcp (memp_free_pcb c).
Proof.
  apply keeps_modify. intros t [H1 H2]. split; [exact H1|]. cbn. intros c' p' E.
  apply lookup_delete_Some in E as [_ E]. exact (H2 _ _ E).
Qed.
Lemma spent_send s : keeps used_up_tcp (send s).
Proof. apply keeps_modify. now intros t [H1 H2]. Qed.

(** Nothing was refused, so that nothing is freed. *)
Lemma spent_purge c : keeps used_up_tcp (tcp_pcb_purge c).
Proof. apply spent_at. intros p ->. destruct (bool_decide _); apply keeps_ret. Qed.
Hint Resolve spent_on_tcp spent_read spent_free_pcb spent_send spent_purge spent_put : keeps.

Lemma spent_close_to c v : keeps used_up_tcp (close_to c v).
Proof. unfold close_to, tcp_send_fin, tcp_output. keeping. now apply spent_update. Qed.
Hint Resolve spent_close_to : keeps.

Lemma spent_close c : keeps used_up_tcp (tcp_close c).
Proof.
  apply spent_at. intros p Hp. apply keeps_bind; [keeping|intros _].
  unfold tcp_close_shutdown. keeping. now apply spent_update.
Qed.
Hint Resolve spent_close : keeps.

Lemma spent_set_es f : (forall e, idle_es e -> idle_es (f e)) -> keeps used_up (set_es f).
Proof. intros Hf. unfold set_es. refine (keeps_zoom _ _ _). apply keeps_modify, Hf. Qed.

Lemma spent_connection_close c : keeps used_up (server_connection_close c).
Proof.
  unfold server_connection_close, tcp_arg, tcp_sent, tcp_recv, tcp_err, tcp_poll, tcp_accept.
  keeping; try (apply spent_on_tcp, spent_update; reflexivity); try (apply spent_set_es; now intros e []).
  apply spent_on_tcp, keeps_modify. now intros t [].
Qed.
Hint Resolve spent_connection_close : keeps.

Lemma spent_poll_callback c : keeps used_up (server_poll_callback c).
Proof.
  unfold server_poll_callback. apply (keeps_bind_post _ idle_es); [unfold es; keeping| |].
  - intros w e w' [_ H] [= <- _]. exact H.
  - intros e [_ ->]. keeping.
Qed.
Hint Resolve spent_poll_callback : keeps.

Lemma spent_abandon c r : keeps used_up (tcp_abandon c r).
Proof. unfold tcp_abandon, TCP_EVENT_ERR, server_err_callback. keeping. Qed.
Lemma spent_abort c : keeps used_up (tcp_abort c).
Proof. apply spent_abandon. Qed.
Hint Resolve spent_abandon spent_abort : keeps.

Lemma spent_output c : keeps used_up_tcp (tcp_output c).
Proof. unfold tcp_output. keeping. Qed.
Hint Resolve spent_output : keeps.

Lemma spent_slowtmr found : keeps used_up (tcp_slowtmr found).
Proof. unfold tcp_slowtmr, TCP_EVENT_POLL. keeping. Qed.
Hint Resolve spent_slowtmr : keeps.

Lemma spent_netif f : keeps used_up (set_netif f).
Proof. now apply keeps_modify. Qed.
Lemma spent_timers f : keeps used_up (set_timers f).
Proof. now apply keeps_modify. Qed.
Lemma spent_mac v : keeps used_up (set_mac v).
Proof. now apply keeps_modify. Qed.
Lemma spent_called n : keeps used_up (called n).
Proof. now apply keeps_modify. Qed.
Lemma spent_config {A} (m : M store A) : keeps used_up (zoom m).
Proof. refine (keeps_zoom (fun _ => True) _ _). apply keeps_True. Qed.
Hint Resolve spent_netif spent_timers spent_mac spent_called spent_config : keeps.

Lemma spent_link_callback : keeps used_up ethernet_link_callback.
Proof. unfold ethernet_link_callback, netif_set_addr, netif_set_ipaddr, netif_set_up, netif_set_down. keeping. Qed.
Hint Resolve spent_link_callback : keeps.

(** No frame is taken. *)
Lemma spent_frame f : keeps used_up (ethernetif_input f).
Proof.
  intros w [] w' H E. unfold ethernetif_input in E.
  rewrite (bind_ok _ _ _ _ _ (on_heap_ok _ w _ _ (low_level_input_full _ _ (proj1 (proj1 H))))) in E.
  injection E as <-. destruct w as [[] ? ? ? ? ? ? ? ?]. exact H.
Qed.
Hint Resolve spent_frame : keeps.

Lemma spent_network : keeps used_up poll_network.
Proof.
  unfold poll_network, lwip_periodic_handle, netif_set_link_up, netif_set_link_down, LocalTime. keeping.
  now apply keeps_modify.
Qed.

(** ** What the server does not survive *)

(** When the peer resets its connection while the server waits for the
    next packet, the server waits for ever, whatever arrives afterwards: its
    state still names the connection, and no connection is accepted. *)
Theorem reset_ends_service c p s t ts w r :
  alone c p w -> reset_of p s -> n_ticks w = t :: ts -> tk_frame t = Some (FSegment c s) ->
  ethernet_next_packet w <> Ok r.
Proof.
  intros [Hp Hst Hrf Hacc Hpin Hsz] Hs Ht Hf E. unfold ethernet_next_packet in E. destruct Hpin as [Hpin|(x & b & Hx & Hb & Hn)].
  - erewrite bind_ok in E; [|unfold ethernet_clear_packet, es; erewrite bind_ok by reflexivity; rewrite Hpin; reflexivity].
    erewrite bind_ok in E by reflexivity. revert E. eapply wait_reset; eassumption.
  - destruct (clear_last w x b Hx Hb Hn) as (h & E1 & Hh). rewrite (bind_ok _ _ _ _ _ E1) in E.
    erewrite bind_ok in E by reflexivity. revert E. eapply (wait_reset _ c p s t ts); try eassumption; [reflexivity|].
    cbn. lia.
Qed.

(** After the reset the server's replies go to the connection's control
    block, which has been freed. *)
Theorem reset_reply_dangles c p s q l data len w :
  t_pcbs (n_tcp w) = {[c := p]} -> state p <> TIME_WAIT -> refused_data p = None -> t_accept (n_tcp w) = false ->
  reset_of p s -> chain (t_heap (n_tcp w)) (Some q) l -> es_pcb (n_es w) = Some c ->
  0 < len <= Z.of_nat (length data) ->
  exists w', tcp_input c s q w = Ok (tt, w') /\ ethernet_copy_queue data len w' = Fault DanglingPtr.
Proof.
  intros Hp Hst Hrf Hacc Hs Hq Hpcb Hlen.
  destruct (input_reset c p s q l w Hp Hst Hrf Hacc Hs Hq) as (w' & E & [He _] & Hno). exists w'. split; [exact E|].
  unfold ethernet_copy_queue, es. erewrite bind_ok by reflexivity. rewrite He, Hpcb.
  rewrite (proj2 (Z.eqb_neq _ _)) by lia. unfold read_bytes. rewrite decide_True by lia. erewrite bind_ok by reflexivity.
  unfold tcp_write, on_tcp, zoom, pcb_at, mbind, M_bind, gets. cbn [view net_tcp]. now rewrite Hno.
Qed.

(** When no buffer is left and the server holds none, it waits for ever:
    no frame is received any more. *)
Theorem exhausted_ends_service w r :
  PBUF_POOL_SIZE <= Z.of_nat (size (t_heap (n_tcp w))) -> es_pin (n_es w) = None -> es_pout (n_es w) = None ->
  (forall c p, t_pcbs (n_tcp w) !! c = Some p -> refused_data p = None) ->
  ethernet_next_packet w <> Ok r.
Proof.
  intros Hs Hp Ho Hr E. unfold ethernet_next_packet in E.
  erewrite bind_ok in E; [|unfold ethernet_clear_packet, es; erewrite bind_ok by reflexivity; rewrite Hp; reflexivity].
  erewrite bind_ok in E by reflexivity. revert E. apply (wait_pin_stuck used_up); [now intros w0 [_ []]|exact spent_network|].
  split; [now split|now split].
Qed.
End ServerEnds.

(** ** Witnesses *)

Definition rst_segment : segment := mkSeg 1001 false true true false false false 0 [].
Definition rst_tick : tick := mkTick (Some (FSegment 1 rst_segment)) 7 true [].

Lemma reset_ends_service_witness :
  ~ exists r, @ethernet_next_packet calm_net good_flash
    (home_net TCP_WND ES_ACCEPTED ∅ None [rst_tick; piece [42; 10] 0 2; piece [42; 10] 0 2]) = Ok r.
Proof.
  intros [r E]. revert E.
  apply (@reset_ends_service calm_net good_flash 1 (home_pcb TCP_WND) rst_segment rst_tick [piece [42; 10] 0 2; piece [42; 10] 0 2]).
  - split; try done. now left.
  - repeat split. cbn. lia.
  - reflexivity.
  - reflexivity.
Defined.

Definition empty_frame : heap := {[ 0%nat := mkPbuf None [] 0 1 ]}.

Lemma reset_reply_dangles_witness :
  exists w', @tcp_input calm_net 1 rst_segment 0 (home_net TCP_WND ES_ACCEPTED empty_frame None []) = Ok (tt, w') /\
    @ethernet_copy_queue calm_net [48; 10] 2 w' = Fault DanglingPtr.
Proof.
  apply (@reset_reply_dangles calm_net 1 (home_pcb TCP_WND) rst_segment 0 [0%nat] [48; 10] 2
    (home_net TCP_WND ES_ACCEPTED empty_frame None [])); try done.
  - repeat split. cbn. lia.
  - split; [done|]. exists (mkPbuf None [] 0 1). done.
Defined.

(** Eight buffers that were lost. *)
Definition full_pool : heap := list_to_map (map (fun p => (p, mkPbuf None [] 0 1)) (seq 0 8)).

Lemma exhausted_ends_service_witness :
  ~ exists r, @ethernet_next_packet calm_net good_flash
    (home_net TCP_WND ES_RECEIVING full_pool None [piece [42; 10] 0 2; piece [42; 10] 0 2]) = Ok r.
Proof.
  intros [r E]. revert E. apply (@exhausted_ends_service calm_net good_flash).
  - vm_compute. discriminate.
  - reflexivity.
  - reflexivity.
  - intros c p Hp. cbn in Hp. apply lookup_singleton_Some in Hp as [_ <-]. reflexivity.
Defined.
