(* ===== verification/Interrupts.v ===== *)
(** * Interrupts: the vectors, their set-up and the clock's tick

    Models src/interrupts.c, [sysclock_init] of src/timing.c, and the
    functions of the peripheral library they call (exti.c, syscfg.c, misc.c,
    rcc.c, and the inline functions of core_cm4.h), on the registers of the
    interrupt controllers: EXTI, the port selection of SYSCFG, the NVIC and
    the SysTick counter.  Shows which edges on which pins lead to which
    handler once the set-up ran and what the handler does, that nothing
    happens without it, and that the tick comes once per millisecond. *)

From Stdlib Require Import ZArith Lia.
From stdpp Require Import base numbers list.
From S2P Require Import Prelude Hw Gpio Crc Timing Pbuf Tcp Server.
#[local] Open Scope c_scope.

(** ** The registers *)

Record exti := mkExti { IMR : Z; EMR : Z; RTSR : Z; FTSR : Z; SWIER : Z; PR : Z }.
Record systick := mkSysTick { CTRL : Z; LOAD : Z; VAL : Z }.

(** Priorities are bytes; of AIRCR only the group field is kept.  A bit of
    [enabled] is what writing ISER sets and writing ICER clears. *)
Record ic := mkIc {
    ic_exti : exti;
    EXTICR : list Z;
    IP : list Z;
    SHP : list Z;
    PRIGROUP : Z;
    enabled : list Z;
    ic_systick : systick;
  }.

Definition exti_reset : exti := mkExti 0 0 0 0 0 0.
Definition ic_reset : ic :=
  mkIc exti_reset (replicate 4 0) (replicate 240 0) (replicate 12 0) 0 (replicate 8 0) (mkSysTick 0 0 0).

Record machine := mkMachine { m_net : net; m_ic : ic }.

#[export] Program Instance machine_net : Lens net machine :=
  {| view := m_net; over n m := mkMachine n (m_ic m) |}.
Solve Obligations with (now intros; try match goal with m : machine |- _ => destruct m end).
#[export] Program Instance machine_ic : Lens ic machine :=
  {| view := m_ic; over i m := mkMachine (m_net m) i |}.
Solve Obligations with (now intros; try match goal with m : machine |- _ => destruct m end).

Definition on_net {A} (m : M net A) : M machine A := zoom m.
Definition on_ic {A} (m : M ic A) : M machine A := zoom m.
Definition on_hw {A} (m : M hw A) : M machine A := on_net (zoom (zoom m : M store A)).

Definition with_exti (f : exti -> exti) : M ic unit :=
  modify (fun i => mkIc (f (ic_exti i)) (EXTICR i) (IP i) (SHP i) (PRIGROUP i) (enabled i) (ic_systick i)).
Definition with_systick (f : systick -> systick) : M ic unit :=
  modify (fun i => mkIc (ic_exti i) (EXTICR i) (IP i) (SHP i) (PRIGROUP i) (enabled i) (f (ic_systick i))).
Definition with_exticr (f : list Z -> list Z) : M ic unit :=
  modify (fun i => mkIc (ic_exti i) (f (EXTICR i)) (IP i) (SHP i) (PRIGROUP i) (enabled i) (ic_systick i)).
Definition write_IP (n v : Z) : M ic unit :=
  modify (fun i => mkIc (ic_exti i) (EXTICR i) (<[Z.to_nat n := u8 v]> (IP i)) (SHP i) (PRIGROUP i) (enabled i) (ic_systick i)).
Definition write_SHP (n v : Z) : M ic unit :=
  modify (fun i => mkIc (ic_exti i) (EXTICR i) (IP i) (<[Z.to_nat n := u8 v]> (SHP i)) (PRIGROUP i) (enabled i) (ic_systick i)).
Definition with_enabled (f : list Z -> list Z) : M ic unit :=
  modify (fun i => mkIc (ic_exti i) (EXTICR i) (IP i) (SHP i) (PRIGROUP i) (f (enabled i)) (ic_systick i)).
Definition write_ISER (n v : Z) : M ic unit := with_enabled (alter (fun e => e ||| v) (Z.to_nat n)).
Definition write_ICER (n v : Z) : M ic unit := with_enabled (alter (fun e => Z.ldiff e v) (Z.to_nat n)).

(** AIRCR takes a write that carries the key. *)
Definition write_AIRCR (v : Z) : M ic unit :=
  when (v >>> 16 =? 0x05FA)
    (modify (fun i => mkIc (ic_exti i) (EXTICR i) (IP i) (SHP i) (v &&& 0x700) (enabled i) (ic_systick i))).
Definition read_AIRCR : M ic Z := gets (fun i => 0xFA050000 ||| PRIGROUP i).

(** The register of EXTI at an offset, as the library addresses it: the mask
    or trigger registers with a bit set or cleared. *)
Definition modify_exti (offset : Z) (f : Z -> Z) : M ic unit :=
  if offset =? 0x00 then with_exti (fun e => mkExti (f (IMR e)) (EMR e) (RTSR e) (FTSR e) (SWIER e) (PR e))
  else if offset =? 0x04 then with_exti (fun e => mkExti (IMR e) (f (EMR e)) (RTSR e) (FTSR e) (SWIER e) (PR e))
  else if offset =? 0x08 then with_exti (fun e => mkExti (IMR e) (EMR e) (f (RTSR e)) (FTSR e) (SWIER e) (PR e))
  else if offset =? 0x0C then with_exti (fun e => mkExti (IMR e) (EMR e) (RTSR e) (f (FTSR e)) (SWIER e) (PR e))
  else fail OutOfBounds.

(** Writing a one to a pending bit clears it. *)
Definition write_PR (v : Z) : M ic unit :=
  with_exti (fun e => mkExti (IMR e) (EMR e) (RTSR e) (FTSR e) (SWIER e) (Z.ldiff (PR e) v)).

(** SYSCFG's registers take a write only with their clock enabled. *)
Definition modify_EXTICR (n : Z) (f : Z -> Z) : M machine unit :=
  r ← on_hw (gets (fun h => APB2ENR (rcc h)));
  when (Z.testbit r 14) (on_ic (with_exticr (alter f (Z.to_nat n)))).

(** ** The peripheral library *)

Definition RCC_AHB1Periph_GPIOA := 0x00000001.
Definition RCC_AHB1Periph_GPIOC := 0x00000004.
Definition RCC_APB2Periph_SYSCFG := 0x00004000.

Definition RCC_AHB1PeriphClockCmd (RCC_AHB1Periph : Z) (NewState : bool) : M hw unit :=
  if NewState then set_AHB1ENR RCC_AHB1Periph else clear_AHB1ENR RCC_AHB1Periph.
Definition RCC_APB2PeriphClockCmd (RCC_APB2Periph : Z) (NewState : bool) : M hw unit :=
  if NewState then set_APB2ENR RCC_APB2Periph
  else modify (with_rcc (fun r => mkRcc (AHB1ENR r) (APB1ENR r) (Z.ldiff (APB2ENR r) RCC_APB2Periph))).

Definition EXTI_PortSourceGPIOA := 0x00.
Definition EXTI_PortSourceGPIOC := 0x02.
Definition EXTI_PinSource0 := 0x00.
Definition EXTI_PinSource15 := 0x0F.

Definition SYSCFG_EXTILineConfig (EXTI_PortSourceGPIOx EXTI_PinSourcex : Z) : M machine unit :=
  let tmp := 0x0F <<< (0x04 * (EXTI_PinSourcex &&& 0x03)) in
  modify_EXTICR (EXTI_PinSourcex >>> 0x02) (fun r => Z.ldiff r tmp);;
  modify_EXTICR (EXTI_PinSourcex >>> 0x02)
    (fun r => r ||| (EXTI_PortSourceGPIOx <<< (0x04 * (EXTI_PinSourcex &&& 0x03)))).

Definition EXTI_Line0 := 0x00001.
Definition EXTI_Line15 := 0x08000.
Definition EXTI_Mode_Interrupt := 0x00.
Definition EXTI_Trigger_Falling := 0x0C.
Definition EXTI_Trigger_Rising_Falling := 0x10.

Record EXTI_InitTypeDef := mkExtiInit {
    EXTI_Line : Z; EXTI_Mode : Z; EXTI_Trigger : Z; EXTI_LineCmd : bool;
  }.

Definition EXTI_Init (s : EXTI_InitTypeDef) : M ic unit :=
  let line := EXTI_Line s in
  let clear r := Z.ldiff r line in
  let set r := r ||| line in
  if EXTI_LineCmd s then
    modify_exti 0x00 clear;;
    modify_exti 0x04 clear;;
    modify_exti (EXTI_Mode s) set;;
    modify_exti 0x08 clear;;
    modify_exti 0x0C clear;;
    if EXTI_Trigger s =? EXTI_Trigger_Rising_Falling then
      modify_exti 0x08 set;;
      modify_exti 0x0C set
    else modify_exti (EXTI_Trigger s) set
  else modify_exti (EXTI_Mode s) clear.

Definition EXTI_GetITStatus (EXTI_Line : Z) : M ic bool :=
  pr ← gets (fun i => PR (ic_exti i));
  mret (truthy (pr &&& EXTI_Line)).
Definition EXTI_ClearITPendingBit (EXTI_Line : Z) : M ic unit := write_PR EXTI_Line.

Definition AIRCR_VECTKEY_MASK := 0x05FA0000.
Definition NVIC_PriorityGroup_4 := 0x300.
Definition NVIC_PriorityGroupConfig (NVIC_PriorityGroup : Z) : M ic unit :=
  write_AIRCR (AIRCR_VECTKEY_MASK ||| NVIC_PriorityGroup).

Definition EXTI0_IRQn := 6.
Definition EXTI15_10_IRQn := 40.

Record NVIC_InitTypeDef := mkNvicInit {
    NVIC_IRQChannel : Z; NVIC_IRQChannelPreemptionPriority : Z;
    NVIC_IRQChannelSubPriority : Z; NVIC_IRQChannelCmd : bool;
  }.

(** The shift by [tmppre] is that of an [int]; [tmppre] is a byte, and wraps
    when the priority group leaves more than four bits to it. *)
Definition NVIC_Init (s : NVIC_InitTypeDef) : M ic unit :=
  let channel := NVIC_IRQChannel s in
  if NVIC_IRQChannelCmd s then
    aircr ← read_AIRCR;
    let tmppriority := u8 ((0x700 - (aircr &&& 0x700)) >>> 0x08) in
    let tmppre := u8 (0x4 - tmppriority) in
    let tmpsub := 0x0F >>> tmppriority in
    if 32 <=? tmppre then fail IntOverflow
    else
      let tmppriority := u8 (NVIC_IRQChannelPreemptionPriority s <<< tmppre) in
      let tmppriority := tmppriority ||| (NVIC_IRQChannelSubPriority s &&& tmpsub) in
      let tmppriority := u8 (tmppriority <<< 0x04) in
      write_IP channel tmppriority;;
      write_ISER (channel >>> 0x05) (0x01 <<< (channel &&& 0x1F))
  else write_ICER (channel >>> 0x05) (0x01 <<< (channel &&& 0x1F)).

(** ** The core's functions *)

Definition SysTick_IRQn := -1.
Definition __NVIC_PRIO_BITS := 4.
Definition SysTick_CTRL_CLKSOURCE_Msk := 4.
Definition SysTick_CTRL_TICKINT_Msk := 2.
Definition SysTick_CTRL_ENABLE_Msk := 1.
Definition SysTick_LOAD_RELOAD_Msk := 0xFFFFFF.
Definition SysTick_CLKSource_HCLK := 0x00000004.
Definition SysTick_CLKSource_HCLK_Div8 := 0xFFFFFFFB.

Definition NVIC_SetPriority (IRQn priority : Z) : M ic unit :=
  let p := (priority <<< (8 - __NVIC_PRIO_BITS)) &&& 0xff in
  if IRQn <? 0 then write_SHP ((u32 IRQn &&& 0xF) - 4) p
  else write_IP (u32 IRQn) p.

Definition modify_CTRL (f : Z -> Z) : M ic unit :=
  with_systick (fun t => mkSysTick (f (CTRL t)) (LOAD t) (VAL t)).

Definition SysTick_CLKSourceConfig (SysTick_CLKSource : Z) : M ic unit :=
  if SysTick_CLKSource =? SysTick_CLKSource_HCLK
  then modify_CTRL (fun c => c ||| SysTick_CLKSource_HCLK)
  else modify_CTRL (fun c => c &&& SysTick_CLKSource_HCLK_Div8).

Definition SysTick_Config (ticks : Z) : M ic Z :=
  if SysTick_LOAD_RELOAD_Msk <? u32 (ticks - 1) then mret 1
  else
    with_systick (fun t => mkSysTick (CTRL t) (ticks - 1) (VAL t));;
    NVIC_SetPriority SysTick_IRQn ((1 <<< __NVIC_PRIO_BITS) - 1);;
    with_systick (fun t => mkSysTick (CTRL t) (LOAD t) 0);;
    modify_CTRL (fun _ =>
      SysTick_CTRL_CLKSOURCE_Msk ||| SysTick_CTRL_TICKINT_Msk ||| SysTick_CTRL_ENABLE_Msk);;
    mret 0.

(** ** src/timing.c: the clock's set-up

    [RCC_GetClocksFreq] only reads, into a local that is not used again. *)
Definition sysclock_init : M ic unit :=
  modify_CTRL (fun c => c ||| SysTick_CTRL_TICKINT_Msk);;
  NVIC_PriorityGroupConfig NVIC_PriorityGroup_4;;
  SysTick_CLKSourceConfig SysTick_CLKSource_HCLK;;
  SysTick_Config (CORE_CLOCK_SPEED / 1000 * SYSTEMTICK_PERIOD_MS);;
  NVIC_SetPriority SysTick_IRQn 0.

(** ** src/interrupts.c *)

Definition init_interrupts : M machine unit :=
  on_hw (RCC_AHB1PeriphClockCmd RCC_AHB1Periph_GPIOA true);;
  on_hw (RCC_APB2PeriphClockCmd RCC_APB2Periph_SYSCFG true);;
  SYSCFG_EXTILineConfig EXTI_PortSourceGPIOA EXTI_PinSource0;;
  on_ic (EXTI_Init (mkExtiInit EXTI_Line0 EXTI_Mode_Interrupt EXTI_Trigger_Falling true));;
  on_ic (NVIC_Init (mkNvicInit EXTI0_IRQn 0x00 0x00 true));;
  on_hw (RCC_AHB1PeriphClockCmd RCC_AHB1Periph_GPIOC true);;
  SYSCFG_EXTILineConfig EXTI_PortSourceGPIOC EXTI_PinSource15;;
  on_ic (EXTI_Init (mkExtiInit EXTI_Line15 EXTI_Mode_Interrupt EXTI_Trigger_Falling true));;
  on_ic (NVIC_Init (mkNvicInit EXTI15_10_IRQn 0x00 0x00 true)).

(** The text, with the zero that [sizeof] counts. *)
Definition msg : list Z :=
  [68; 68; 83; 32; 108; 111; 115; 116; 32; 80; 76; 76; 32; 115; 105; 103; 110; 97; 108; 46; 32;
   79; 117; 116; 112; 117; 116; 32; 119; 105; 108; 108; 32; 98; 101; 32; 119; 114; 111; 110; 103; 46; 10; 0].

Section Handlers.
Context `{TE : TcpEnv}.

Definition EXTI0_IRQHandler : M machine unit :=
  b ← on_ic (EXTI_GetITStatus EXTI_Line0);
  if (b : bool) then
    on_hw (gpio_toggle LED_RED);;
    on_ic (EXTI_ClearITPendingBit EXTI_Line0)
  else mret tt.

Definition EXTI15_10_IRQHandler : M machine unit :=
  b ← on_ic (EXTI_GetITStatus EXTI_Line15);
  if (b : bool) then
    on_net (ethernet_queue msg (Z.of_nat (length msg)));;
    on_ic (EXTI_ClearITPendingBit EXTI_Line15)
  else mret tt.

(** The loops of the fault handlers, followed for [fuel] turns. *)
Definition busy (cycles : Z) : M hw unit := for_each (seqZ 0 cycles) (fun _ => mret tt).
Definition HardFault_Handler (fuel : nat) : M hw unit :=
  let cycles := 2 * 1000 * 1000 in
  while fuel (mret true)
    (gpio_set_high LED_RED;; gpio_set_high LED_BLUE;;
     gpio_set_high LED_ORANGE;; gpio_set_high LED_FRONT;;
     busy cycles;;
     gpio_set_low LED_RED;; gpio_set_low LED_BLUE;;
     gpio_set_low LED_FRONT;; gpio_set_low LED_ORANGE;;
     busy cycles).
Definition endless (fuel : nat) : M machine unit := while fuel (mret true) (mret tt).
Definition MemManage_Handler := endless.
Definition BusFault_Handler := endless.
Definition UsageFault_Handler := endless.
Definition NMI_Handler : M machine unit := mret tt.
Definition SVC_Handler : M machine unit := mret tt.
Definition DebugMon_Handler : M machine unit := mret tt.
Definition PendSV_Handler : M machine unit := mret tt.

(** The program does not come back from a fault. *)
Lemma busy_ok cycles h : busy cycles h = Ok (tt, h).
Proof. unfold busy. induction (seqZ 0 cycles) as [|a l IH]; [done|exact IH]. Qed.

Lemma HardFault_stays fuel h : HardFault_Handler fuel h = Hang.
Proof.
  unfold HardFault_Handler. generalize (2 * 1000 * 1000). intros cycles. apply while_true_hangs. clear h.
  intros h. eexists. do 4 (rewrite (bind_ok _ _ _ _ _ eq_refl)). rewrite (bind_ok _ _ _ _ _ (busy_ok _ _)).
  do 4 (rewrite (bind_ok _ _ _ _ _ eq_refl)). apply busy_ok.
Qed.

Lemma endless_stays fuel m : endless fuel m = Hang.
Proof. apply while_true_hangs. intros m'. now exists m'. Qed.

(** ** The processor between two instructions

    An edge on a pin marks its line pending, if SYSCFG has the line at the
    pin's port and EXTI has it look for that edge; a line that is pending
    and not masked calls the handler of its vector, if the NVIC has it
    enabled.  Lines 10 to 15 share one vector; of the others only line 0 has
    a handler in the program. *)
Inductive edge := Rising | Falling.

Definition port_source (p : port) : Z :=
  match p with GPIOA => 0 | GPIOB => 1 | GPIOC => 2 | GPIOD => 3 | GPIOE => 4 end.

Definition pin_edge (p : port) (pin : Z) (e : edge) : M ic unit :=
  i ← get;
  let port := (default 0 (EXTICR i !! Z.to_nat (pin >>> 2)) >>> (4 * (pin &&& 3))) &&& 0xF in
  let sees := Z.testbit (match e with Rising => RTSR | Falling => FTSR end (ic_exti i)) pin in
  when ((port =? port_source p) && sees)
    (with_exti (fun x => mkExti (IMR x) (EMR x) (RTSR x) (FTSR x) (SWIER x) (PR x ||| (1 <<< pin)))).

Definition requested (irq lines : Z) (i : ic) : bool :=
  truthy (PR (ic_exti i) &&& IMR (ic_exti i) &&& lines)
  && Z.testbit (default 0 (enabled i !! Z.to_nat (irq >>> 5))) (irq &&& 0x1F).

Definition serve : M machine unit :=
  b ← on_ic (gets (requested EXTI0_IRQn 0x0001));
  when b EXTI0_IRQHandler;;
  b ← on_ic (gets (requested EXTI15_10_IRQn 0xFC00));
  when b EXTI15_10_IRQHandler.

(** *** After the set-up *)

(** The controllers as [sysclock_init] and [init_interrupts] leave them. *)
Definition clock_set (i : ic) : ic :=
  mkIc (ic_exti i) (EXTICR i) (IP i) (<[11%nat := 0]> (SHP i)) 0x300 (enabled i) (mkSysTick 7 167999 0).
Definition ic_configured : ic :=
  mkIc (mkExti 0x8001 0 0 0x8001 0 0) [0; 0; 0; 0x2000] (replicate 240 0) (replicate 12 0) 0x300
    [0x40; 0x100; 0; 0; 0; 0; 0; 0] (mkSysTick 7 167999 0).

Lemma sysclock_init_ok i : sysclock_init i = Ok (tt, clock_set i).
Proof.
  unfold clock_set. rewrite <- (list_insert_insert_eq (SHP i) 11 0 0xF0). now destruct i.
Qed.

Definition clocks_on (r : rcc_state) : rcc_state :=
  mkRcc (AHB1ENR r ||| 1 ||| 4) (APB1ENR r) (APB2ENR r ||| 0x4000).

Lemma SYSCFG_EXTILineConfig_ok p n m :
  Z.testbit (APB2ENR (rcc (st_hw (n_store (m_net m))))) 14 = true ->
  SYSCFG_EXTILineConfig p n m =
  on_ic (with_exticr (fun l => alter (fun r => r ||| (p <<< (4 * (n &&& 3)))) (Z.to_nat (n >>> 2))
    (alter (fun r => Z.ldiff r (0x0F <<< (4 * (n &&& 3)))) (Z.to_nat (n >>> 2)) l))) m.
Proof.
  destruct m as [[? ? ? ? ? ? ? [[] ? ?] ?] ?]. intros H. unfold SYSCFG_EXTILineConfig, modify_EXTICR.
  erewrite bind_ok.
  2:{ erewrite bind_ok by reflexivity. cbn in H |- *. rewrite H. reflexivity. }
  erewrite bind_ok by reflexivity. cbn in H |- *. rewrite H. reflexivity.
Qed.

Definition on_clocks (f : rcc_state -> rcc_state) (n : net) : net :=
  over (over (with_rcc f (st_hw (n_store n))) (n_store n)) n.

Lemma rcc_step f n i :
  on_hw (modify (with_rcc f)) (mkMachine n i) = Ok (tt, mkMachine (on_clocks f n) i).
Proof. reflexivity. Qed.

Lemma ic_step (k : M ic unit) n i i' :
  k i = Ok (tt, i') -> on_ic k (mkMachine n i) = Ok (tt, mkMachine n i').
Proof. intros H. unfold on_ic, zoom. cbn. now rewrite H. Qed.

Lemma on_clocks_twice f g n : on_clocks f (on_clocks g n) = on_clocks (fun r => f (g r)) n.
Proof. now destruct n as [? ? ? ? ? ? ? [[] ? ?] ?]. Qed.

Lemma apb2_on_clocks f n : APB2ENR (rcc (st_hw (n_store (on_clocks f n)))) = APB2ENR (f (rcc (st_hw (n_store n)))).
Proof. reflexivity. Qed.

Lemma testbit_syscfg a : Z.testbit (a ||| RCC_APB2Periph_SYSCFG) 14 = true.
Proof. rewrite Z.lor_spec. now destruct (Z.testbit a 14). Qed.

Lemma init_interrupts_ok n :
  init_interrupts (mkMachine n (clock_set ic_reset)) = Ok (tt, mkMachine (on_clocks clocks_on n) ic_configured).
Proof.
  unfold init_interrupts, RCC_AHB1PeriphClockCmd, RCC_APB2PeriphClockCmd, set_AHB1ENR, set_APB2ENR.
  rewrite (bind_ok _ _ _ _ _ (rcc_step _ _ _)), (bind_ok _ _ _ _ _ (rcc_step _ _ _)), on_clocks_twice.
  erewrite bind_ok.
  2:{ rewrite SYSCFG_EXTILineConfig_ok by (cbn [m_net]; rewrite apb2_on_clocks; apply testbit_syscfg).
      apply ic_step. vm_compute. reflexivity. }
  erewrite bind_ok by (apply ic_step; vm_compute; reflexivity).
  erewrite bind_ok by (apply ic_step; vm_compute; reflexivity).
  rewrite (bind_ok _ _ _ _ _ (rcc_step _ _ _)), on_clocks_twice.
  erewrite bind_ok.
  2:{ rewrite SYSCFG_EXTILineConfig_ok by (cbn [m_net]; rewrite apb2_on_clocks; apply testbit_syscfg).
      apply ic_step. vm_compute. reflexivity. }
  erewrite bind_ok by (apply ic_step; vm_compute; reflexivity).
  apply ic_step. vm_compute. reflexivity.
Qed.

(** ** What the edges do *)

Definition happen (x : port * Z * edge) : M machine unit :=
  let '(p, pin, e) := x in on_ic (pin_edge p pin e);; serve.

(** What the program means an edge to do. *)
Definition meant (x : port * Z * edge) : M net unit :=
  match x with
  | (GPIOC, 15, Falling) => ethernet_queue msg 44;; mret tt
  | (GPIOA, 0, Falling) => zoom (zoom (gpio_toggle LED_RED) : M store unit)
  | _ => mret tt
  end.

Definition a_pin (x : port * Z * edge) : Prop := 0 <= x.1.2 < 16.

(** The pending line that an edge leaves, 0 for none. *)
Definition line_of (x : port * Z * edge) : Z :=
  match x with
  | (GPIOC, 15, Falling) => EXTI_Line15
  | (GPIOA, 0, Falling) => EXTI_Line0
  | _ => 0
  end.
Definition pending_ic (line : Z) : ic :=
  mkIc (mkExti 0x8001 0 0 0x8001 0 line) (EXTICR ic_configured) (IP ic_configured) (SHP ic_configured)
    (PRIGROUP ic_configured) (enabled ic_configured) (ic_systick ic_configured).

Lemma small_pin z (P : Z -> Prop) : 0 <= z < 16 -> Forall P (seqZ 0 16) -> P z.
Proof. intros Hz H. rewrite Forall_forall in H. apply H, elem_of_seqZ. lia. Qed.

Lemma pin_edge_ok p pin e :
  0 <= pin < 16 -> pin_edge p pin e ic_configured = Ok (tt, pending_ic (line_of (p, pin, e))).
Proof.
  intros H. apply (small_pin pin (fun pin => pin_edge p pin e ic_configured = Ok (tt, pending_ic (line_of (p, pin, e)))) H).
  destruct p, e; repeat (constructor; [vm_compute; reflexivity|]); constructor.
Qed.

Lemma serve_none n : serve (mkMachine n ic_configured) = Ok (tt, mkMachine n ic_configured).
Proof. reflexivity. Qed.

Lemma serve_line0 n :
  serve (mkMachine n (pending_ic EXTI_Line0)) = on_hw (gpio_toggle LED_RED) (mkMachine n ic_configured).
Proof. reflexivity. Qed.

Lemma on_net_ic {A} (k : M net A) n i :
  on_net k (mkMachine n i) =
  match k n with Ok (a, n') => Ok (a, mkMachine n' i) | Hang => Hang | Fault e => Fault e end.
Proof. reflexivity. Qed.

Lemma serve_line15 n :
  serve (mkMachine n (pending_ic EXTI_Line15)) =
  on_net (ethernet_queue msg 44;; mret tt) (mkMachine n ic_configured).
Proof.
  set (m := mkMachine n (pending_ic EXTI_Line15)). unfold serve.
  rewrite (bind_ok _ _ m false m) by reflexivity. cbn [when].
  rewrite (bind_ok _ _ m tt m) by reflexivity. rewrite (bind_ok _ _ m true m) by reflexivity.
  cbn [when]. unfold EXTI15_10_IRQHandler. rewrite (bind_ok _ _ m true m) by reflexivity.
  change (Z.of_nat (length msg)) with 44. unfold mbind, M_bind, m. rewrite !on_net_ic.
  now destruct (ethernet_queue msg 44 n) as [[r n']| |].
Qed.

Lemma happen_meant x n : a_pin x -> happen x (mkMachine n ic_configured) = on_net (meant x) (mkMachine n ic_configured).
Proof.
  destruct x as [[p pin] e]. intros H. unfold happen.
  rewrite (bind_ok _ _ _ _ _ (ic_step _ n _ _ (pin_edge_ok p pin e H))). cbn in H.
  apply (small_pin pin (fun pin => serve (mkMachine n (pending_ic (line_of (p, pin, e)))) = on_net (meant (p, pin, e)) (mkMachine n ic_configured)) H).
  destruct p, e; repeat (constructor; [first [exact (serve_none n)|exact (serve_line0 n)|exact (serve_line15 n)]|]); constructor.
Qed.

(** C32: After the set-up, whatever edges come on whatever pins, the program
    does for each of them what is meant, in their order, and nothing else: a
    falling edge on C15, where the PLL reports its lock, sends the message to
    the client, a falling edge on A0 toggles the red light, every other edge
    does nothing; afterwards no line is pending and the controllers are set
    as before. *)
Theorem edges_served xs n :
  Forall a_pin xs ->
  (on_ic sysclock_init;; init_interrupts;; for_each xs happen) (mkMachine n ic_reset) =
  on_net (for_each xs meant) (mkMachine (on_clocks clocks_on n) ic_configured).
Proof.
  intros Hx. rewrite (bind_ok _ _ _ _ _ (ic_step _ n _ _ (sysclock_init_ok ic_reset))).
  rewrite (bind_ok _ _ _ _ _ (init_interrupts_ok n)). generalize (on_clocks clocks_on n). clear n.
  induction Hx as [|x xs Hp _ IH]; intros n; [reflexivity|]. cbn [for_each].
  unfold mbind at 1, M_bind at 1. rewrite (happen_meant x n Hp), !on_net_ic.
  unfold mbind, M_bind. destruct (meant x n) as [[u n']| |]; [|done|done].
  rewrite IH. apply on_net_ic.
Qed.

(** Without [init_interrupts], which nothing calls, no edge does anything. *)
Lemma no_edge_without_setup xs n :
  (on_ic sysclock_init;; for_each xs happen) (mkMachine n ic_reset) = Ok (tt, mkMachine n (clock_set ic_reset)).
Proof.
  rewrite (bind_ok _ _ _ _ _ (ic_step _ n _ _ (sysclock_init_ok ic_reset))).
  induction xs as [|[[p pin] e] xs IH]; [reflexivity|]. cbn [for_each].
  rewrite (bind_ok _ _ _ tt (mkMachine n (clock_set ic_reset))); [exact IH|]. unfold happen.
  rewrite (bind_ok _ _ _ tt (mkMachine n (clock_set ic_reset))); [reflexivity|].
  apply ic_step. unfold pin_edge. rewrite (bind_ok _ _ _ _ _ eq_refl).
  replace (Z.testbit _ pin) with false by (destruct e; symmetry; apply Z.testbit_0_l).
  now rewrite andb_false_r.
Qed.

(** The set-up of a vector before [sysclock_init] has chosen the priority
    group computes a shift by 253. *)
Lemma nvic_before_sysclock s i :
  NVIC_IRQChannelCmd s = true -> PRIGROUP i = 0 -> NVIC_Init s i = Fault IntOverflow.
Proof.
  intros Hc Hg. unfold NVIC_Init. rewrite Hc, (bind_ok _ _ _ 0xFA050000 i); [reflexivity|].
  unfold read_AIRCR, gets. now rewrite Hg.
Qed.
End Handlers.

(** The connection of [home_net], a rising edge on B3 and the loss of the
    lock: the message goes out with the zero at its end. *)
Lemma edges_served_witness :
  let n := home_net TCP_WND ES_ACCEPTED ∅ None [] in
  let xs := [(GPIOB, 3, Rising); (GPIOC, 15, Falling)] in
  (@for_each net _ xs (@meant calm_net) n = Ok (tt, over (mkTcp ∅ (t_pcbs (n_tcp n)) false [SentData 1 msg]) n) /\
   last msg = Some 0) /\
  (on_ic sysclock_init;; init_interrupts;; for_each xs (@happen calm_net)) (mkMachine n ic_reset) =
  on_net (for_each xs (@meant calm_net)) (mkMachine (on_clocks clocks_on n) ic_configured).
Proof.
  split; [split; vm_compute; reflexivity|].
  apply (@edges_served calm_net [(GPIOB, 3, Rising); (GPIOC, 15, Falling)]).
  repeat constructor; cbn; lia.
Defined.

(** ** The tick *)

(** The counter counts in the processor's cycle [i]: in every one if the
    bit CLKSOURCE selects the processor's clock HCLK, in every eighth if it
    selects the divided clock. *)
Definition systick_counts (i : Z) (t : systick) : bool :=
  Z.testbit (CTRL t) 0 && (Z.testbit (CTRL t) 2 || (i mod 8 =? 0)).

(** What the counter does in the cycle [i] of HCLK: at zero it is loaded
    anew, and when it comes to zero the interrupt is requested. *)
Definition systick_cycle (i : Z) (t : systick) : systick * bool :=
  if systick_counts i t then
    if VAL t =? 0 then (mkSysTick (CTRL t) (LOAD t) (LOAD t), false)
    else (mkSysTick (CTRL t) (LOAD t) (VAL t - 1), (VAL t - 1 =? 0) && Z.testbit (CTRL t) 1)
  else (t, false).

Definition core_cycle (i : Z) : M machine unit :=
  t ← on_ic (gets ic_systick);
  let '(t, irq) := systick_cycle i t in
  on_ic (with_systick (fun _ => t));;
  when irq (on_hw SysTick_Handler).

Definition machine_hw (m : machine) : hw := st_hw (n_store (m_net m)).

Definition counted (n : Z) : Z := if n mod 168000 =? 0 then 0 else 168000 - n mod 168000.

Lemma counted_S n :
  0 <= n ->
  (if counted n =? 0 then 167999 else counted n - 1) = counted (n + 1) /\
  (n + 1) / 168000 = n / 168000 + (if (negb (counted n =? 0)) && (counted n - 1 =? 0) then 1 else 0).
Proof.
  intros Hn. unfold counted.
  pose proof (Z.div_mod n 168000 ltac:(lia)). pose proof (Z.mod_pos_bound n 168000 ltac:(lia)).
  assert (E : (n + 1) / 168000 = n / 168000 + (if n mod 168000 =? 167999 then 1 else 0) /\
    (n + 1) mod 168000 = (if n mod 168000 =? 167999 then 0 else n mod 168000 + 1)).
  { destruct (Z.eqb_spec (n mod 168000) 167999).
    - split; [symmetry; apply (Z.div_unique _ _ _ 0); lia|symmetry; apply (Z.mod_unique _ _ (n / 168000 + 1)); lia].
    - split; [symmetry; apply (Z.div_unique _ _ _ (n mod 168000 + 1)); lia|
        symmetry; apply (Z.mod_unique _ _ (n / 168000)); lia]. }
  destruct E as [-> ->].
  generalize dependent (n mod 168000). generalize (n / 168000). intros q r _ Hr.
  destruct (Z.eqb_spec r 167999) as [->|]; [split; reflexivity|].
  destruct (Z.eqb_spec (r + 1) 0); [lia|].
  destruct (Z.eqb_spec r 0) as [->|]; cbn [andb negb Z.eqb]; [lia|].
  destruct (Z.eqb_spec (168000 - r) 0); [lia|].
  destruct (Z.eqb_spec (168000 - r - 1) 0); [lia|]. cbn. lia.
Qed.

Lemma core_cycles n m :
  ic_systick (m_ic m) = mkSysTick 7 167999 0 ->
  0 <= local_time (clock (machine_hw m)) < 2 ^ 32 ->
  exists m', for_each (seqZ 0 (Z.of_nat n)) core_cycle m = Ok (tt, m') /\
    ic_systick (m_ic m') = mkSysTick 7 167999 (counted (Z.of_nat n)) /\
    local_time (clock (machine_hw m')) = u32 (local_time (clock (machine_hw m)) + Z.of_nat n / 168000).
Proof.
  intros Ht Hl. induction n as [|n (m' & R & Hs & Hc)].
  { exists m. split_and!; [done|exact Ht|]. change (Z.of_nat 0 / 168000) with 0. rewrite Z.add_0_r. now rewrite wrap_small. }
  rewrite seqZ_S, for_each_app, (bind_ok _ _ _ _ _ R).
  destruct (counted_S (Z.of_nat n) ltac:(lia)) as [H1 H2].
  rewrite (Nat2Z.inj_succ n). unfold Z.succ. rewrite H2.
  destruct m' as [w i]. cbn [m_ic] in Hs. cbn [for_each]. unfold core_cycle.
  assert (E : on_ic (gets ic_systick) (mkMachine w i) = Ok (mkSysTick 7 167999 (counted (Z.of_nat n)), mkMachine w i))
    by (unfold on_ic, zoom; cbn; now rewrite Hs).
  rewrite bind_assoc, (bind_ok _ _ _ _ _ E). unfold systick_cycle, systick_counts. cbn [CTRL VAL LOAD].
  change (Z.testbit 7 0) with true. change (Z.testbit 7 1) with true. change (Z.testbit 7 2) with true.
  cbn [andb orb]. cbn iota. rewrite andb_true_r.
  destruct (Z.eqb_spec (counted (Z.of_nat n)) 0) as [Hz|Hz]; cbn [negb andb].
  - eexists. split; [reflexivity|]. cbn. rewrite <- H1. split; [done|]. now rewrite Z.add_0_r.
  - destruct (Z.eqb_spec (counted (Z.of_nat n) - 1) 0) as [Hi|Hi].
    + eexists. split; [reflexivity|]. cbn. rewrite <- H1. split; [done|]. unfold machine_hw in Hc. cbn in Hc.
      rewrite Hc. unfold SYSTEMTICK_PERIOD_MS. rewrite wrap_add_l. now rewrite Z.add_assoc.
    + eexists. split; [reflexivity|]. cbn. rewrite <- H1. split; [done|]. now rewrite Z.add_0_r.
Qed.

(** C33: After [sysclock_init] the clock counts milliseconds: in [n] cycles of
    the processor's clock HCLK, which runs at [CORE_CLOCK_SPEED] Hz,
    [LocalTime] grows by [n] / 168000, modulo 2^32.  The counter runs on
    HCLK, not on an eighth of it, because of the bit CLKSOURCE. *)
Theorem clock_counts_milliseconds n w :
  0 <= local_time (clock (st_hw (n_store w))) < 2 ^ 32 ->
  exists m, (on_ic sysclock_init;; for_each (seqZ 0 (Z.of_nat n)) core_cycle) (mkMachine w ic_reset) = Ok (tt, m) /\
    local_time (clock (machine_hw m)) =
    u32 (local_time (clock (st_hw (n_store w))) + Z.of_nat n / (CORE_CLOCK_SPEED / 1000)).
Proof.
  intros H. rewrite (bind_ok _ _ _ _ _ (ic_step _ w _ _ (sysclock_init_ok ic_reset))).
  destruct (core_cycles n (mkMachine w (clock_set ic_reset)) eq_refl H) as (m & R & _ & Hc). eauto.
Qed.

Lemma clock_counts_milliseconds_witness :
  let w := home_net TCP_WND ES_ACCEPTED ∅ None [] in
  local_time (clock (st_hw (n_store w))) = 0 /\
  exists m, (on_ic sysclock_init;; for_each (seqZ 0 500000) core_cycle) (mkMachine w ic_reset) = Ok (tt, m) /\
    local_time (clock (machine_hw m)) = 2.
Proof.
  split; [reflexivity|].
  destruct (clock_counts_milliseconds (Z.to_nat 500000) (home_net TCP_WND ES_ACCEPTED ∅ None []))
    as (m & R & H); [split; [discriminate|reflexivity]|].
  rewrite Z2Nat.id in R, H by lia. exists m. split; [exact R|]. rewrite H. reflexivity.
Defined.
