(* ===== verification/ServerStream.v ===== *)
(** * ServerStream: what a connection delivers

    The bytes that reach the server are those the peer sent, in order and
    each once, whatever segments are lost, repeated, reordered or cut
    differently; and no more than the first window is ever delivered. *)

From Stdlib Require Import ZArith Lia.
From stdpp Require Import base numbers list gmap.
From S2P Require Import Prelude Hw Flash Crc Config Pbuf Tcp Server.
#[local] Open Scope c_scope.

(** ** The data of a segment *)

(** The bytes in a chain. *)
Definition bytes (h : heap) (l : list ptr) : list Z := concat (payloads h l).

Lemma bytes_cons h p l b : h !! p = Some b -> bytes h (p :: l) = payload b ++ bytes h l.
Proof. intros E. unfold bytes. cbn [payloads map concat]. now rewrite E. Qed.

Lemma bytes_agree h h' l : (forall x, x ∈ l -> payload <$> h !! x = payload <$> h' !! x) -> bytes h l = bytes h' l.
Proof. intros H. unfold bytes. now rewrite (payloads_agree h h'). Qed.

Lemma bytes_app h l1 l2 : bytes h (l1 ++ l2) = bytes h l1 ++ bytes h l2.
Proof. unfold bytes. now rewrite payloads_app, concat_app. Qed.

Definition same_refs (h h' : heap) : Prop := forall x, p_ref <$> h !! x = p_ref <$> h' !! x.

Lemma put_same_refs h p b b' : h !! p = Some b -> p_ref b' = p_ref b -> same_refs h (<[p := b']> h).
Proof.
  intros Hb Hr x. destruct (decide (x = p)) as [->|Hne]; [now rewrite lookup_insert_eq, Hb; cbn; rewrite Hr|now rewrite lookup_insert_ne].
Qed.

Lemma same_refs_trans h1 h2 h3 : same_refs h1 h2 -> same_refs h2 h3 -> same_refs h1 h3.
Proof. intros H1 H2 x. now rewrite H1. Qed.

Lemma same_links_trans h1 h2 h3 : same_links h1 h2 -> same_links h2 h3 -> same_links h1 h3.
Proof. intros H1 H2 x. now rewrite H1. Qed.

Lemma single_refs h h' l : same_refs h h' -> single h l -> single h' l.
Proof.
  intros Hs Hl y b Hy Hb. pose proof (Hs y) as Hr. rewrite Hb in Hr. destruct (h !! y) as [b0|] eqn:E; [|done].
  injection Hr as Hr. rewrite <- Hr. exact (Hl y b0 Hy E).
Qed.

(** Hiding [n] bytes of a chain's first buffer. *)
Lemma header_bytes h q l n b :
  chain h (Some q) (q :: l) -> h !! q = Some b -> 0 <= n <= p_len b ->
  exists h', pbuf_header (Some q) n h = Ok (0, h') /\ same_links h h' /\ same_refs h h' /\
    bytes h' (q :: l) = drop (Z.to_nat n) (bytes h (q :: l)) /\
    tot_len <$> h' !! q = Some (u16 (tot_len b - n)) /\ (forall y, y <> q -> h' !! y = h !! y).
Proof.
  intros H Hb Hn. unfold pbuf_header. rewrite (bind_ok _ _ _ _ _ (pbuf_at_ok _ _ _ Hb)).
  rewrite (proj2 (Z.leb_le _ _)) by lia. unfold pbuf_put. erewrite bind_ok by reflexivity. set (b' := with_tot_len _ _).
  pose proof (chain_nodup _ _ _ H) as Hnd. inversion_clear Hnd as [|? ? Hq _].
  exists (<[q := b']> h). split; [done|]. split; [now apply (put_same_links h q b)|]. split; [now apply (put_same_refs h q b)|].
  split; [|split; [now rewrite lookup_insert_eq|intros y Hy; now rewrite lookup_insert_ne]].
  rewrite (bytes_cons _ q l b' (lookup_insert_eq _ _ _)), (bytes_cons h q l b Hb). cbn [payload with_tot_len with_payload b'].
  rewrite (bytes_agree (<[q := b']> h) h).
  - unfold p_len in Hn. rewrite drop_app_le by lia. done.
  - intros y Hy. rewrite lookup_insert_ne; [done|]. intros ->. done.
Qed.

Lemma trim_loop_spec fuel h q l off nt :
  chain h (Some q) (q :: l) -> (length l < fuel)%nat -> 0 <= off <= Z.of_nat (length (bytes h (q :: l))) ->
  exists h' l1 x l2 o b, trim_loop fuel (Some q) off nt h = Ok ((Some x, o), h') /\ q :: l = l1 ++ x :: l2 /\
    same_links h h' /\ same_refs h h' /\ (forall y, y ∉ l1 -> h' !! y = h !! y) /\
    h !! x = Some b /\ 0 <= o <= p_len b /\ bytes h' l1 = [] /\
    drop (Z.to_nat off) (bytes h (q :: l)) = drop (Z.to_nat o) (bytes h (x :: l2)) /\
    (l1 <> [] -> tot_len <$> h' !! q = Some nt) /\ (l1 = [] -> o = off).
Proof.
  revert h q l off. induction fuel as [|fuel IH]; intros h q l off H Hf Ho; [lia|].
  pose proof (chain_nodup _ _ _ H) as Hnd. inversion_clear Hnd as [|? ? Hql _].
  pose proof H as (_ & b & Hb & Hl). cbn [trim_loop deref]. erewrite bind_ok by reflexivity.
  rewrite (bind_ok _ _ _ _ _ (pbuf_at_ok _ _ _ Hb)). rewrite (bytes_cons h q l b Hb), length_app in Ho.
  destruct (Z.ltb_spec (p_len b) off) as [Hlt|Hge].
  2:{ exists h, [], q, l, off, b. split_and!; try done; try lia. all: now intros y. }
  unfold p_len in Hlt. destruct l as [|q' l]; [cbn in Ho; lia|]. pose proof Hl as (En & _). rewrite En in Hl |- *.
  unfold pbuf_put. erewrite bind_ok by reflexivity. set (b1 := with_tot_len nt _).
  pose proof (put_same_links h q b b1 Hb eq_refl) as L1. pose proof (put_same_refs h q b b1 Hb eq_refl) as R1.
  assert (forall y, y <> q -> <[q := b1]> h !! y = h !! y) as Fq by (intros y Hy; now rewrite lookup_insert_ne).
  assert (bytes (<[q := b1]> h) (q' :: l) = bytes h (q' :: l)) as Eb.
  { apply bytes_agree. intros y Hy. rewrite Fq; [done|]. intros ->. done. }
  destruct (IH (<[q := b1]> h) q' l (off - Z.of_nat (length (payload b))))
    as (h' & l1 & x & l2 & o & bx & E1 & Es & L2 & R2 & F2 & Hx & Hox & Hl1 & Hd & _).
  - apply (chain_agree h); [intros; apply L1|exact Hl].
  - cbn [length] in Hf. lia.
  - rewrite Eb. lia.
  - assert (x <> q) as Hxq by (intros ->; apply Hql; rewrite Es; apply elem_of_app; right; left).
    assert (q ∉ l1) as Hq1 by (intros Hin; apply Hql; rewrite Es; apply elem_of_app; now left).
    exists h', (q :: l1), x, l2, o, bx. split; [exact E1|]. split; [cbn [app]; now rewrite Es|].
    split; [now apply (same_links_trans _ _ _ L1)|]. split; [now apply (same_refs_trans _ _ _ R1)|].
    split; [intros y Hy; apply not_elem_of_cons in Hy as [Hyq Hy]; rewrite F2 by done; now apply Fq|].
    split; [now rewrite <- (Fq x Hxq)|]. split; [exact Hox|].
    assert (h' !! q = Some b1) as Hqb by (rewrite F2 by done; apply lookup_insert_eq).
    split; [now rewrite (bytes_cons h' q l1 b1 Hqb), Hl1|]. split; [|split; [now rewrite Hqb|done]].
    rewrite (bytes_cons h q (q' :: l) b Hb), drop_app_ge by lia. rewrite Eb in Hd.
    replace (Z.to_nat off - length (payload b))%nat with (Z.to_nat (off - Z.of_nat (length (payload b)))) by lia. rewrite Hd.
    f_equal. apply bytes_agree. intros y Hy. rewrite Fq; [done|]. intros ->. apply Hql. rewrite Es. apply elem_of_app. now right.
Qed.

(** The bytes before [off] are cut off; nothing else changes. *)
Lemma trim_front_spec h q l off :
  chain h (Some q) (q :: l) -> 0 <= off <= Z.of_nat (length (bytes h (q :: l))) ->
  Z.of_nat (length (bytes h (q :: l))) < 2 ^ 16 -> tot_len <$> h !! q = Some (Z.of_nat (length (bytes h (q :: l)))) ->
  exists h', trim_front q off h = Ok (tt, h') /\ same_links h h' /\ same_refs h h' /\
    bytes h' (q :: l) = drop (Z.to_nat off) (bytes h (q :: l)) /\
    tot_len <$> h' !! q = Some (Z.of_nat (length (bytes h (q :: l))) - off) /\
    (forall y, y ∉ q :: l -> h' !! y = h !! y).
Proof.
  intros H Ho Hw Ht. set (tot := Z.of_nat _) in *. destruct (h !! q) as [b|] eqn:Hb; [|done]. injection Ht as Ht.
  unfold trim_front. rewrite (bind_ok _ _ _ _ _ (pbuf_at_ok _ _ _ Hb)). rewrite Ht. destruct (Z.ltb_spec (p_len b) off) as [Hlt|Hge].
  2:{ destruct (header_bytes h q l off b H Hb ltac:(lia)) as (h' & E & L & R & Hd & Ht' & F).
      rewrite (bind_ok _ _ _ _ _ E). exists h'. split; [done|]. split; [done|]. split; [done|]. split; [done|].
      split; [rewrite Ht', Ht; f_equal; apply wrap_small; lia|]. intros y Hy. apply F. intros ->. apply Hy. left. }
  pose proof (chain_size _ _ _ H) as Hsz. cbn [length] in Hsz. rewrite bind_assoc. erewrite bind_ok by reflexivity.
  destruct (trim_loop_spec (S (size h)) h q l off (u16 (tot - off)) H ltac:(lia) Ho)
    as (h1 & l1 & x & l2 & o & bx & E1 & Es & L1 & R1 & F1 & Hx & Hox & Hl1 & Hd & Hnt & Hno).
  rewrite bind_assoc, (bind_ok _ _ _ _ _ E1). cbn [fst snd].
  pose proof (chain_nodup _ _ _ H) as Hnd. rewrite Es in Hnd. apply NoDup_app in Hnd as (_ & Hdis & Hnd).
  inversion_clear Hnd as [|? ? Hxl2 _].
  assert (forall y, y ∈ l1 -> y <> x /\ y ∉ l2) as Hl1x by (intros y Hy; specialize (Hdis y Hy); apply not_elem_of_cons in Hdis; tauto).
  assert (x ∉ l1) as Hx1 by (intros Hin; now destruct (Hl1x x Hin)).
  assert (chain h1 (Some x) (x :: l2)) as Hc1.
  { apply (chain_agree h); [intros; apply L1|]. split; [done|]. exists bx. split; [exact Hx|].
    rewrite Es in H. exact (chain_split _ _ _ _ _ _ H Hx). }
  assert (bytes h1 (x :: l2) = bytes h (x :: l2)) as Eb2.
  { apply bytes_agree. intros y Hy. rewrite F1; [done|]. intros Hin. destruct (Hl1x y Hin). apply elem_of_cons in Hy. tauto. }
  destruct (header_bytes h1 x l2 o bx Hc1 ltac:(now rewrite F1) Hox) as (h2 & E2 & L2 & R2 & Hd2 & _ & F2).
  rewrite (bind_ok _ _ _ _ _ E2). exists h2. split; [done|]. split; [exact (same_links_trans _ _ _ L1 L2)|].
  split; [exact (same_refs_trans _ _ _ R1 R2)|].
  destruct l1 as [|z l1]; [exfalso; cbn [app] in Es; injection Es as <- _; rewrite Hno in Hox by done; replace bx with b in Hox by congruence; lia|].
  pose proof Es as Ez. injection Ez as <- _. split; [|split].
  - rewrite Hd, Es, bytes_app, Hd2, Eb2. replace (bytes h2 (q :: l1)) with (bytes h1 (q :: l1)); [now rewrite Hl1|].
    apply bytes_agree. intros y Hy. rewrite F2; [done|]. now apply Hl1x.
  - rewrite F2 by (apply Hl1x; left). rewrite Hnt by done. f_equal. apply wrap_small. lia.
  - intros y Hy. rewrite Es in Hy. apply not_elem_of_app in Hy as [Hy1 [Hyx _]%not_elem_of_cons]. rewrite F2 by done. now apply F1.
Qed.

(** ** What a segment adds to the stream

    The peer sends the bytes of [st], of which [isn] numbers the first; a
    segment holds those from the [k]-th on. *)

(** The bytes from the [k]-th on that are new to a receiver that has the
    first [n], as far as its window goes. *)
Definition taken (n k wnd : Z) (data : list Z) : list Z :=
  if (k <=? n) && (n <? k + Z.of_nat (length data)) then take (Z.to_nat wnd) (drop (Z.to_nat (n - k)) data) else [].

Lemma taken_wnd n k wnd data : Z.of_nat (length (taken n k wnd data)) <= Z.max 0 wnd.
Proof. unfold taken. case_match; [rewrite length_take|cbn]; lia. Qed.

(** A frame's buffers: a chain, each referred to once, that holds [d]. *)
Record framed (h : heap) (q : ptr) (l : list ptr) (d : list Z) : Prop := {
    fr_chain : chain h (Some q) (q :: l);
    fr_single : single h (q :: l);
    fr_bytes : bytes h (q :: l) = d;
    fr_tot : tot_len <$> h !! q = Some (Z.of_nat (length d));
    fr_len : Z.of_nat (length d) < 2 ^ 16;
  }.

Lemma framed_trim h q l d off :
  framed h q l d -> 0 <= off <= Z.of_nat (length d) ->
  exists h', trim_front q off h = Ok (tt, h') /\ framed h' q l (drop (Z.to_nat off) d) /\
    (forall y, y ∉ q :: l -> h' !! y = h !! y).
Proof.
  intros [Hc Hs <- Ht Hw] Ho. destruct (trim_front_spec h q l off Hc Ho Hw Ht) as (h' & E & L & R & Hb & Ht' & F).
  exists h'. split; [done|]. split; [|done]. split; [|exact (single_refs _ _ _ R Hs)|done| |].
  - apply (chain_agree h); [intros; apply L|done].
  - rewrite Ht', length_drop. f_equal. lia.
  - rewrite length_drop. lia.
Qed.

Lemma framed_cut h q l d n :
  framed h q l d -> 0 <= n <= Z.of_nat (length d) ->
  exists h' l', pbuf_realloc q n h = Ok (tt, h') /\ framed h' q l' (take (Z.to_nat n) d) /\ q :: l' ⊆ q :: l /\
    (forall y, y ∉ q :: l -> h' !! y = h !! y).
Proof.
  intros [Hc Hs <- Ht Hw] Hn. destruct (pbuf_realloc_spec h q l n Hc Hs Ht Hn ltac:(unfold bytes in *; lia)) as (h' & l' & E & Hc' & Hsub & Hs' & Ht' & Hb & F).
  exists h', l'. split; [done|]. split; [|done]. split; try done.
  - rewrite Ht', length_take. unfold bytes in *. f_equal. lia.
  - rewrite length_take. lia.
Qed.

(** What a connection keeps when data arrive. *)
Definition same_conn (p p' : tcp_pcb) : Prop :=
  state p' = state p /\ cb_recv p' = cb_recv p /\ cb_sent p' = cb_sent p /\ cb_poll p' = cb_poll p /\
  rx_closed p' = rx_closed p /\ refused_data p' = refused_data p.

Definition set_pcb_at (c : pcb_id) (p : tcp_pcb) (h : heap) (w : net) : net :=
  over (mkTcp h (<[c := p]> (t_pcbs (n_tcp w))) (t_accept (n_tcp w)) (t_sent (n_tcp w))) w.

Lemma ann_wnd_same p p' :
  same_conn p p' -> rcv_nxt (snd (tcp_update_rcv_ann_wnd p')) = rcv_nxt p' /\
  rcv_wnd (snd (tcp_update_rcv_ann_wnd p')) = rcv_wnd p' /\ same_conn p (snd (tcp_update_rcv_ann_wnd p')).
Proof. intros H. unfold tcp_update_rcv_ann_wnd. repeat case_match; (split; [reflexivity|split; [reflexivity|exact H]]). Qed.

(** A segment of data without flags, [k] and [n] less than half of the
    sequence space apart. *)
Record plain (isn k n : Z) (s : segment) : Prop := {
    pl_flags : s_rst s = false /\ s_syn s = false /\ s_fin s = false;
    pl_seq : s_seqno s = u32 (isn + k);
    pl_len : Z.of_nat (length (s_data s)) < 2 ^ 16;
    pl_near : - (2 ^ 30) <= n - k <= 2 ^ 30;
  }.

Lemma set_pcb_same c p w : t_pcbs (n_tcp w) !! c = Some p -> set_pcb_at c p (t_heap (n_tcp w)) w = w.
Proof. intros E. unfold set_pcb_at. rewrite insert_id by done. now destruct w as [[] ? ? ? ? ? ? ? ?]. Qed.

(** What becomes of the frame: its buffers and others' are kept apart. *)
Definition kept_apart (h h' : heap) (q : ptr) (l l' : list ptr) : Prop :=
  q :: l' ⊆ q :: l /\ forall y, y ∉ q :: l -> h' !! y = h !! y.

Lemma kept_apart_trans h1 h2 h3 q l1 l2 l3 : kept_apart h1 h2 q l1 l2 -> kept_apart h2 h3 q l2 l3 -> kept_apart h1 h3 q l1 l3.
Proof. intros [S1 F1] [S2 F2]. split; [set_solver|]. intros y Hy. rewrite F2; [now apply F1|set_solver]. Qed.

Lemma receive_next_spec c p s q l x w :
  t_pcbs (n_tcp w) !! c = Some p -> s_fin s = false -> s_syn s = false -> 0 < rcv_wnd p <= TCP_WND ->
  framed (t_heap (n_tcp w)) q l x -> x <> [] ->
  let d := take (Z.to_nat (rcv_wnd p)) x in
  exists h l' p', receive_next c s q p (Z.of_nat (length x)) w = Ok (true, false, set_pcb_at c p' h w) /\
    framed h q l' d /\ kept_apart (t_heap (n_tcp w)) h q l l' /\
    same_conn p p' /\ rcv_nxt p' = u32 (rcv_nxt p + Z.of_nat (length d)) /\ rcv_wnd p' = rcv_wnd p - Z.of_nat (length d).
Proof.
  intros Hc Hf Hsy Hw Hfr Hx d. unfold TCP_WND, TCP_MSS in Hw. unfold receive_next. rewrite Hf, Hsy.
  cbv zeta. cbn [andb orb]. change (b2z false) with 0. rewrite !Z.add_0_r, Z.sub_0_r.
  set (over := rcv_wnd p <? Z.of_nat (length x)). set (len := if over then u16 (rcv_wnd p) else Z.of_nat (length x)).
  pose proof (fr_len _ _ _ _ Hfr) as Hl.
  assert (len = Z.of_nat (length d)) as Elen.
  { unfold len, over, d. rewrite length_take. rewrite (wrap_small 16) by lia. case_match; lia. }
  assert (exists h l', (when over (on_heap (pbuf_realloc q len))) w = Ok (tt, with_heap h w) /\ framed h q l' d /\
            kept_apart (t_heap (n_tcp w)) h q l l') as (h & l' & E & Hfr' & Hap).
  { destruct over eqn:Eo.
    - destruct (framed_cut _ q l x len Hfr) as (h & l' & E & Hfr' & Hap); [rewrite Elen; unfold d; rewrite length_take; lia|].
      exists h, l'. split; [exact (on_heap_ok _ w _ _ E)|]. split; [|exact Hap].
      replace (Z.to_nat len) with (Z.to_nat (rcv_wnd p)) in Hfr' by (unfold len; rewrite (wrap_small 16) by lia; lia). exact Hfr'.
    - exists (t_heap (n_tcp w)), l. split; [now destruct w as [[] ? ? ? ? ? ? ? ?]|]. split; [|now split].
      unfold d. rewrite take_ge by (apply Z.ltb_ge in Eo; lia). exact Hfr. }
  rewrite (bind_ok _ _ _ _ _ E). set (p1 := with_rcv_wnd _ _). set (p' := snd (tcp_update_rcv_ann_wnd p1)).
  erewrite bind_ok by (apply (on_tcp_ok _ (with_heap h w)); reflexivity).
  pose proof (fr_tot _ _ _ _ Hfr') as Ht. destruct (h !! q) as [b|] eqn:Eb; [|done]. injection Ht as Ht.
  erewrite bind_ok by (eapply on_heap_ok; exact (pbuf_at_ok _ _ _ Eb)).
  exists h, l', p'. destruct (ann_wnd_same p p1) as (En & Ew & Hsame); [now repeat split|].
  assert (0 < Z.of_nat (length d)) as Hd by (unfold d; rewrite length_take; destruct x; [done|cbn [length]; lia]).
  split; [rewrite Ht, (proj2 (Z.ltb_lt _ _) Hd); reflexivity|]. split; [exact Hfr'|]. split; [exact Hap|]. split; [exact Hsame|].
  rewrite <- Elen in *. split; [exact En|]. unfold p'. rewrite Ew. apply (wrap_small 16).
  assert (len <= rcv_wnd p) by (rewrite Elen; unfold d; rewrite length_take; lia). lia.
Qed.

(** The result [r] is that of a segment of which [d] is taken: the block has
    moved on by that much, and the frame's chain holds [d] if there is any. *)
Definition takes (isn n : Z) (c : pcb_id) (p : tcp_pcb) (q : ptr) (l : list ptr) (d : list Z) (w : net)
    (r : res (bool * bool * net)) : Prop :=
  exists h l' d' p', r = Ok (negb (bool_decide (d = [])), false, set_pcb_at c p' h w) /\
    framed h q l' d' /\ (d <> [] -> d' = d) /\ kept_apart (t_heap (n_tcp w)) h q l l' /\
    same_conn p p' /\ rcv_nxt p' = u32 (isn + (n + Z.of_nat (length d))) /\ rcv_wnd p' = rcv_wnd p - Z.of_nat (length d).

Lemma takes_none isn n c p q l w h x :
  t_pcbs (n_tcp w) !! c = Some p -> rcv_nxt p = u32 (isn + n) -> framed h q l x -> kept_apart (t_heap (n_tcp w)) h q l l ->
  takes isn n c p q l [] w (Ok (false, false, with_heap h w)).
Proof.
  intros Hc Hn Hx Hap. exists h, l, x, p. cbn. rewrite Z.add_0_r, Z.sub_0_r. split_and!; try done.
  unfold set_pcb_at. now rewrite insert_id.
Qed.

Lemma takes_next isn n c p s q l w h x :
  t_pcbs (n_tcp w) !! c = Some p -> rcv_nxt p = u32 (isn + n) -> s_fin s = false -> s_syn s = false -> 0 <= rcv_wnd p <= TCP_WND ->
  framed h q l x -> kept_apart (t_heap (n_tcp w)) h q l l -> x <> [] ->
  takes isn n c p q l (take (Z.to_nat (rcv_wnd p)) x) w
    ((if 1 <=? rcv_wnd p then receive_next c s q p (Z.of_nat (length x)) else mret (false, false)) (with_heap h w)).
Proof.
  intros Hc Hn Hf Hsy Hw Hx Hap Hne. destruct (Z.leb_spec 1 (rcv_wnd p)) as [Hw1|Hw0].
  2:{ replace (rcv_wnd p) with 0 by lia. exact (takes_none isn n c p q l w h x Hc Hn Hx Hap). }
  destruct (receive_next_spec c p s q l x (with_heap h w) Hc Hf Hsy ltac:(lia) Hx Hne)
    as (h' & l' & p' & E & Hfr' & Hap' & Hsame & Hnx & Hwn).
  exists h', l', (take (Z.to_nat (rcv_wnd p)) x), p'. rewrite E. split; [|split; [done|split; [done|split; [|split; [done|split; [|done]]]]]].
  - rewrite bool_decide_false; [reflexivity|]. destruct x; [done|]. destruct (Z.to_nat (rcv_wnd p)) eqn:?; [lia|done].
  - exact (kept_apart_trans _ _ _ _ _ _ _ Hap Hap').
  - rewrite Hnx, Hn, wrap_add_l. f_equal. lia.
Qed.

(** Whether the front is cut off, and whether what is left is next. *)
Lemma trims isn n k len :
  - (2 ^ 30) <= n - k <= 2 ^ 30 -> 0 <= len < 2 ^ 16 ->
  TCP_SEQ_BETWEEN (u32 (isn + n)) (u32 (isn + k) + 1) (u32 (isn + k) + len - 1) = (0 <=? n - k - 1) && (n - k - len + 1 <=? 0).
Proof.
  intros Hk Hl. apply seq_between; [rewrite u32_diff; f_equal; lia| |lia|lia].
  replace (u32 (isn + k) + len - 1) with (u32 (isn + k) + (len - 1)) by lia. rewrite u32_diff. f_equal. lia.
Qed.

Lemma in_window x wnd : 0 <= wnd < 2 ^ 16 -> TCP_SEQ_BETWEEN (u32 x) (u32 x) (u32 x + wnd - 1) = (1 <=? wnd).
Proof.
  intros Hw. rewrite (seq_between _ _ _ 0 (1 - wnd)); [change (0 <=? 0) with true; cbn [andb]; lia|now rewrite Z.sub_diag| |lia|lia].
  replace (u32 x + wnd - 1) with (u32 x + (wnd - 1)) by lia. rewrite u32_diff. f_equal. lia.
Qed.

(** [tcp_receive] takes what is new. *)
Lemma tcp_receive_spec isn n k c p s q l w :
  t_pcbs (n_tcp w) !! c = Some p -> before_close_wait (state p) = true -> rcv_nxt p = u32 (isn + n) -> 0 <= rcv_wnd p <= TCP_WND ->
  plain isn k n s -> framed (t_heap (n_tcp w)) q l (s_data s) ->
  takes isn n c p q l (taken n k (rcv_wnd p) (s_data s)) w (tcp_receive c s q w).
Proof.
  intros Hc Hst Hn Hw [(Hr & Hsy & Hf) Hs Hl Hk] Hfr. assert (rcv_wnd p < 2 ^ 16) as Hw16 by (unfold TCP_WND, TCP_MSS in Hw; lia).
  unfold tcp_receive, taken. rewrite (bind_ok _ _ _ _ _ (on_pcb_at c w p Hc)), Hf, Hsy, Hst, andb_true_r. change (b2z (false || false)) with 0.
  rewrite Z.add_0_r. set (len := Z.of_nat (length (s_data s))) in *.
  assert (with_heap (t_heap (n_tcp w)) w = w) as Ew by (now destruct w as [[] ? ? ? ? ? ? ? ?]).
  assert (kept_apart (t_heap (n_tcp w)) (t_heap (n_tcp w)) q l l) as Hap by now split.
  assert (forall r, (k <=? n) && (n <? k + len) = false -> r = Ok (false, false, w) ->
            takes isn n c p q l (if (k <=? n) && (n <? k + len) then take (Z.to_nat (rcv_wnd p)) (drop (Z.to_nat (n - k)) (s_data s)) else []) w r) as Hdrop.
  { intros r -> ->. rewrite <- Ew at 2. exact (takes_none isn n c p q l w _ _ Hc Hn Hfr Hap). }
  destruct (Z.ltb_spec 0 len) as [Hpos|Hz]; [|cbn [andb]; apply Hdrop; [lia|reflexivity]].
  cbv zeta. rewrite Hn, Hs, trims by lia. destruct ((0 <=? n - k - 1) && (n - k - len + 1 <=? 0)) eqn:Etrim; cbv iota.
  - rewrite s32_diff by lia. replace (isn + n - (isn + k)) with (n - k) by lia.
    destruct (framed_trim _ q l (s_data s) (n - k) Hfr ltac:(lia)) as (h1 & E1 & Hfr1 & F1).
    cbn [when]. rewrite (bind_ok _ _ _ _ _ (on_heap_ok _ w _ _ E1)). rewrite in_window, Z.eqb_refl, andb_true_r by lia.
    assert (len - (n - k) = Z.of_nat (length (drop (Z.to_nat (n - k)) (s_data s)))) as El by (rewrite length_drop; lia).
    rewrite (wrap_small 16), El by lia. replace ((k <=? n) && (n <? k + len)) with true by lia.
    apply (takes_next isn n); try done. intros E. rewrite E in El. cbn in El. lia.
  - cbn [when]. erewrite bind_ok by reflexivity. rewrite Z.sub_0_r, (wrap_small 16) by lia. rewrite u32_eq by lia.
    replace (isn + n =? isn + k) with (n =? k) by lia. destruct (Z.eqb_spec n k) as [<-|Hne].
    + rewrite in_window, andb_true_r, Z.sub_diag, drop_0 by lia. replace ((n <=? n) && (n <? n + len)) with true by lia.
      pose proof (takes_next isn n c p s q l w _ (s_data s) Hc Hn Hf Hsy Hw Hfr Hap) as H. rewrite Ew in H. apply H.
      intros E. unfold len in Hpos. rewrite E in Hpos. cbn in Hpos. lia.
    + rewrite andb_false_r. apply Hdrop; [lia|reflexivity].
Qed.

(** ** A connection that is being served *)

(** The server serves [c], of whose stream it has received [n] bytes; it has
    the buffers [l]. *)
Record connected (isn n : Z) (c : pcb_id) (p : tcp_pcb) (l : list ptr) (w : net) : Prop := {
    co_pcb : t_pcbs (n_tcp w) !! c = Some p;
    co_state : state p = ESTABLISHED;
    co_recv : cb_recv p = RecvServer;
    co_open : rx_closed p = false;
    co_kept : refused_data p = None;
    co_nxt : rcv_nxt p = u32 (isn + n);
    co_wnd : 0 <= rcv_wnd p <= TCP_WND;
    co_es : es_state (n_es w) = ES_ACCEPTED /\ l = [] \/ es_state (n_es w) = ES_RECEIVING;
    co_pout : es_pout (n_es w) = None;
    co_owned : owned (t_heap (n_tcp w)) (es_pin (n_es w)) l;
  }.

(** Neither the link nor what arrives next. *)
Definition unrelated (w w' : net) : Prop :=
  n_netif w' = n_netif w /\ n_timers w' = n_timers w /\ n_ticks w' = n_ticks w.

(** How often the buffers of [l] are referred to. *)
Definition kept_refs (h h' : heap) (l : list ptr) : Prop := forall y, y ∈ l -> p_ref <$> h' !! y = p_ref <$> h !! y.

(** The bytes [d] were added, in buffers behind the others; and buffers of
    others were left alone. *)
Definition grows (isn n : Z) (c : pcb_id) (d : list Z) (p : tcp_pcb) (l : list ptr) (w : net) (p' : tcp_pcb) (l' : list ptr) (w' : net) : Prop :=
  connected isn (n + Z.of_nat (length d)) c p' l' w' /\ rcv_wnd p' = rcv_wnd p - Z.of_nat (length d) /\
  bytes (t_heap (n_tcp w')) l' = bytes (t_heap (n_tcp w)) l ++ d /\
  others_kept (t_heap (n_tcp w)) l (t_heap (n_tcp w')) l' /\
  l `prefix_of` l' /\ kept_refs (t_heap (n_tcp w)) (t_heap (n_tcp w')) l.

Lemma grows_refl isn n c p l w : connected isn n c p l w -> grows isn n c [] p l w p l w.
Proof.
  intros H. split; [cbn; now rewrite Z.add_0_r|]. split; [cbn; lia|]. split; [now rewrite app_nil_r|split; [apply others_kept_refl|done]].
Qed.

Lemma grows_trans isn n c d1 d2 p1 l1 w1 p2 l2 w2 p3 l3 w3 :
  grows isn n c d1 p1 l1 w1 p2 l2 w2 -> grows isn (n + Z.of_nat (length d1)) c d2 p2 l2 w2 p3 l3 w3 ->
  grows isn n c (d1 ++ d2) p1 l1 w1 p3 l3 w3.
Proof.
  intros (H1 & W1 & B1 & O1 & P1 & R1) (H2 & W2 & B2 & O2 & P2 & R2). rewrite <- Z.add_assoc in H2. unfold grows. rewrite length_app, Nat2Z.inj_add.
  split; [exact H2|]. split; [lia|]. split; [now rewrite B2, B1, app_assoc|].
  split; [exact (others_kept_trans _ _ _ _ _ _ O1 O2)|]. split; [now transitivity l2|].
  intros y Hy. rewrite R2; [now apply R1|]. destruct P1 as [z ->]. apply elem_of_app. now left.
Qed.

Section Served.
Context `{TE : TcpEnv} `{FE : FlashEnv}.

(** Nothing is left to be sent, and the connection is not being closed: the
    callbacks do nothing. *)
Lemma poll_callback_idle c pcb isn n p l w :
  connected isn n c p l w -> server_poll_callback pcb w = Ok (ERR_OK, w).
Proof.
  intros H. unfold server_poll_callback, es. erewrite bind_ok by reflexivity. rewrite (co_pout _ _ _ _ _ _ H).
  rewrite decide_False; [reflexivity|]. destruct (co_es _ _ _ _ _ _ H) as [[-> _]| ->]; discriminate.
Qed.

Lemma event_sent_idle c isn n p l w : connected isn n c p l w -> TCP_EVENT_SENT c w = Ok (ERR_OK, w).
Proof.
  intros H. unfold TCP_EVENT_SENT. rewrite (bind_ok _ _ _ _ _ (on_pcb_at c w p (co_pcb _ _ _ _ _ _ H))).
  destruct (cb_sent p); [exact (poll_callback_idle c c isn n p l w H)|reflexivity].
Qed.

Lemma event_poll_idle c isn n p l w : connected isn n c p l w -> TCP_EVENT_POLL c w = Ok (ERR_OK, w).
Proof.
  intros H. unfold TCP_EVENT_POLL. rewrite (bind_ok _ _ _ _ _ (on_pcb_at c w p (co_pcb _ _ _ _ _ _ H))).
  destruct (cb_poll p); [exact (poll_callback_idle c c isn n p l w H)|reflexivity].
Qed.

(** The server takes over the frame's buffers. *)
Lemma recv_callback_spec isn n c p l w q lf d :
  connected isn n c p l w -> framed (t_heap (n_tcp w)) q lf d -> (forall y, y ∈ l -> y ∉ q :: lf) ->
  exists p' w', server_recv_callback c (Some q) ERR_OK w = Ok (ERR_OK, w') /\ connected isn n c p' (l ++ q :: lf) w' /\
    rcv_wnd p' = rcv_wnd p /\ bytes (t_heap (n_tcp w')) (l ++ q :: lf) = bytes (t_heap (n_tcp w)) l ++ d /\
    (forall y, y ∉ l ++ q :: lf -> t_heap (n_tcp w') !! y = t_heap (n_tcp w) !! y) /\ unrelated w w' /\
    kept_refs (t_heap (n_tcp w)) (t_heap (n_tcp w')) l /\ (l <> [] -> p_ref <$> t_heap (n_tcp w') !! q = Some 2).
Proof.
  intros H Hfr Hd. destruct H as [Hp Hst Hrc Hop Hkp Hnx Hwn Hes Hpo Hown].
  destruct Hfr as [Hc Hs Hb Ht Hl]. pose proof (lookup_insert_eq (t_pcbs (n_tcp w)) c (with_sent true p)) as Hp'.
  unfold server_recv_callback, LocalTime, es. erewrite bind_ok by reflexivity. erewrite bind_ok by reflexivity.
  change (negb (ERR_OK =? ERR_OK)) with false. cbv iota. erewrite bind_ok by reflexivity.
  set (w1 := over (set_activity (n_time w) (view w)) w). change (es_state (n_es w1)) with (es_state (n_es w)).
  destruct Hes as [[Ea ->]|Er].
  - rewrite decide_True by done. unfold set_es. erewrite bind_ok by reflexivity. erewrite bind_ok by reflexivity.
    erewrite bind_ok by (eapply on_tcp_ok; apply (pcb_update_ok c _ p); exact Hp).
    exists (with_sent true p). eexists. split; [reflexivity|]. cbn [app]. split; [|split; [done|split; [exact Hb|split; [done|split; [repeat split|split; [now intros y Hy%elem_of_nil|done]]]]]].
    split; try done; [now right|]. exact (own_frame _ _ _ Hc Hs).
  - rewrite decide_False by (intros E; change (es_state (n_es w) = ES_ACCEPTED) in E; congruence). rewrite decide_True by done. change (es_pin (n_es w1)) with (es_pin (n_es w)).
    destruct l as [|x l].
    + pose proof (ow_chain _ _ _ Hown) as Hn. cbn [chain] in Hn. rewrite Hn. unfold set_es. erewrite bind_ok by reflexivity.
      exists p. eexists. split; [reflexivity|]. cbn [app]. split; [|split; [done|split; [exact Hb|split; [done|split; [repeat split|split; [now intros y Hy%elem_of_nil|done]]]]]].
      split; try done; [now right|]. exact (own_frame _ _ _ Hc Hs).
    + pose proof (ow_chain _ _ _ Hown) as (Hpin & _). rewrite Hpin in Hown |- *.
      destruct (chain_frame _ x l q lf Hown Hc Hs Hd) as (h & E & Hown' & Hpay & (bq & Hbq & Hrq) & Hrefs & Ho).
      rewrite (bind_ok _ _ w1 tt (with_heap h w1)) by (apply on_heap_ok; exact E).
      exists p, (with_heap h w1). split; [reflexivity|]. split; [|split; [done|split; [|split; [exact Ho|split; [repeat split|split]]]]].
      * split; try done; [now right|]. cbn. now rewrite Hpin.
      * cbn [n_tcp with_heap over net_tcp tcp_heap t_heap]. rewrite bytes_app.
        rewrite <- Hb. f_equal; apply bytes_agree; intros y _; apply Hpay.
      * intros y Hy. apply Hrefs. intros ->. apply (Hd q Hy). left.
      * intros _. cbn. rewrite Hbq; cbn; now rewrite Hrq.
Qed.
(** What happens to a served connection: [d] is added, in buffers that were
    the server's or are in [lf], and no other buffer changes. *)
Definition fed (isn n : Z) (c : pcb_id) (d : list Z) (lf : list ptr) (p : tcp_pcb) (l : list ptr) (w w' : net) : Prop :=
  exists p' l', connected isn (n + Z.of_nat (length d)) c p' l' w' /\ rcv_wnd p' = rcv_wnd p - Z.of_nat (length d) /\
    bytes (t_heap (n_tcp w')) l' = bytes (t_heap (n_tcp w)) l ++ d /\ l' ⊆ l ++ lf /\
    (forall y, y ∉ l ++ lf -> t_heap (n_tcp w') !! y = t_heap (n_tcp w) !! y) /\ unrelated w w' /\
    l `prefix_of` l' /\ kept_refs (t_heap (n_tcp w)) (t_heap (n_tcp w')) l.

Lemma connected_heap isn n c p l w h :
  connected isn n c p l w -> (forall y, y ∈ l -> h !! y = t_heap (n_tcp w) !! y) -> connected isn n c p l (with_heap h w).
Proof. intros [] Ha. split; try done. exact (owned_agree _ _ _ _ Ha co_owned0). Qed.

(** Without data the frame's buffers are given back. *)
Lemma deliver_nothing isn n c p l w s q lf x :
  connected isn n c p l w -> framed (t_heap (n_tcp w)) q lf x -> (forall y, y ∈ l -> y ∉ q :: lf) ->
  exists w', (tcp_deliver c s q false false;; when (negb false) (on_heap (pbuf_free (Some q));; mret tt)) w = Ok (tt, w') /\
    fed isn n c [] (q :: lf) p l w w'.
Proof.
  intros H Hfr Hd. unfold tcp_deliver. rewrite bind_assoc. erewrite (bind_ok (when (0 <? s_acked s) _) _ w tt w).
  2:{ destruct (0 <? s_acked s); [|reflexivity]. cbn [when]. now rewrite (bind_ok _ _ _ _ _ (event_sent_idle c isn n p l w H)). }
  rewrite bind_assoc. erewrite bind_ok by reflexivity. cbn [when negb]. rewrite bind_assoc. erewrite bind_ok by reflexivity.
  rewrite (bind_ok _ _ _ _ _ (on_tcp_output c w p (co_pcb _ _ _ _ _ _ H))).
  destruct (free_frame _ _ _ (fr_chain _ _ _ _ Hfr) (fr_single _ _ _ _ Hfr)) as (k & h & E & F).
  rewrite (bind_ok _ _ _ _ _ (on_heap_ok _ w _ _ E)). exists (with_heap h w). split; [reflexivity|].
  assert (forall y, y ∈ l -> h !! y = t_heap (n_tcp w) !! y) as Hl by (intros y Hy; apply F, Hd, Hy).
  exists p, l. cbn [length]. rewrite Z.add_0_r, Z.sub_0_r, app_nil_r. split; [exact (connected_heap _ _ _ _ _ _ _ H Hl)|].
  split; [done|]. split; [apply bytes_agree; intros y Hy; cbn; now rewrite Hl|]. split; [set_solver|].
  split; [intros y Hy; apply F; set_solver|]. split; [now repeat split|]. split; [done|]. intros y Hy. cbn. now rewrite Hl.
Qed.

(** With data the server takes them over. *)
Lemma deliver_data isn n c p l w s q lf d :
  connected isn n c p l w -> framed (t_heap (n_tcp w)) q lf d -> (forall y, y ∈ l -> y ∉ q :: lf) ->
  exists p' w', (tcp_deliver c s q true false;; when (negb true) (on_heap (pbuf_free (Some q));; mret tt)) w = Ok (tt, w') /\
    connected isn n c p' (l ++ q :: lf) w' /\ rcv_wnd p' = rcv_wnd p /\
    bytes (t_heap (n_tcp w')) (l ++ q :: lf) = bytes (t_heap (n_tcp w)) l ++ d /\
    (forall y, y ∉ l ++ q :: lf -> t_heap (n_tcp w') !! y = t_heap (n_tcp w) !! y) /\ unrelated w w' /\
    kept_refs (t_heap (n_tcp w)) (t_heap (n_tcp w')) l.
Proof.
  intros H Hfr Hd. pose proof (on_pcb_at c w p (co_pcb _ _ _ _ _ _ H)) as Hat.
  unfold tcp_deliver. rewrite bind_assoc. erewrite (bind_ok (when (0 <? s_acked s) _) _ w tt w).
  2:{ destruct (0 <? s_acked s); [|reflexivity]. cbn [when]. now rewrite (bind_ok _ _ _ _ _ (event_sent_idle c isn n p l w H)). }
  destruct (recv_callback_spec isn n c p l w q lf d H Hfr Hd) as (p' & w' & E & H' & Hw & Hb & Ho & Hu & Hk & _).
  exists p', w'. split; [|done]. rewrite !bind_assoc. rewrite (bind_ok _ _ _ _ _ Hat), (co_open _ _ _ _ _ _ H).
  unfold TCP_EVENT_RECV. rewrite !bind_assoc, (bind_ok _ _ _ _ _ Hat), (co_recv _ _ _ _ _ _ H), (bind_ok _ _ _ _ _ E).
  change (ERR_OK =? ERR_ABRT) with false. change (ERR_OK =? ERR_OK) with true. cbn [negb when]. rewrite bind_assoc.
  erewrite bind_ok by reflexivity. erewrite bind_ok by reflexivity. cbn [negb when]. rewrite bind_assoc. erewrite bind_ok by reflexivity.
  rewrite (bind_ok _ _ _ _ _ (on_tcp_output c w' p' (co_pcb _ _ _ _ _ _ H'))). reflexivity.
Qed.
Lemma app_sub (l x y : list ptr) : x ⊆ y -> l ++ x ⊆ l ++ y.
Proof. set_solver. Qed.
Lemma not_in_app (l x : list ptr) y : y ∉ l ++ x -> y ∉ l /\ y ∉ x.
Proof. now rewrite not_elem_of_app. Qed.

(** A segment of the connection. *)
Lemma tcp_input_spec isn n k c p l w s q lf :
  connected isn n c p l w -> plain isn k n s -> framed (t_heap (n_tcp w)) q lf (s_data s) -> (forall y, y ∈ l -> y ∉ q :: lf) ->
  exists w', tcp_input c s q w = Ok (tt, w') /\ fed isn n c (taken n k (rcv_wnd p) (s_data s)) (q :: lf) p l w w'.
Proof.
  intros H Hpl Hfr Hd. pose proof H as [Hp Hst Hrc Hop Hkp Hnx Hwn Hes Hpo Hown].
  destruct (tcp_receive_spec isn n k c p s q lf w Hp ltac:(now rewrite Hst) Hnx Hwn Hpl Hfr)
    as (h & lf' & d' & p1 & E & Hfr1 & Hd' & [Hsub Hout] & (Sst & Src & _ & _ & Sop & Skp) & Hnx1 & Hwn1).
  set (d := taken _ _ _ _) in *. set (w1 := set_pcb_at c p1 h w) in *.
  assert (connected isn (n + Z.of_nat (length d)) c p1 l w1) as H1.
  { split; cbn; try congruence; try done.
    - apply lookup_insert_eq.
    - pose proof (taken_wnd n k (rcv_wnd p) (s_data s)). fold d in H0. lia.
    - apply (owned_agree (t_heap (n_tcp w))); [|exact Hown]. intros x Hx. apply Hout, Hd, Hx. }
  assert (forall y, y ∈ l -> y ∉ q :: lf') as Hd1 by (intros y Hy Hin; exact (Hd y Hy (Hsub y Hin))).
  assert (bytes h l = bytes (t_heap (n_tcp w)) l) as Eb by (apply bytes_agree; intros y Hy; now rewrite Hout by exact (Hd y Hy)).
  unfold tcp_input. erewrite bind_ok by reflexivity. rewrite Hp, decide_False by (rewrite Hst; discriminate).
  destruct Hpl as [(Hr & Hsy & Hf) _ _ _].
  erewrite (bind_ok (tcp_process c s q) _ w (Received (negb (bool_decide (d = []))) false) w1).
  2:{ unfold tcp_process. rewrite (bind_ok _ _ _ _ _ (on_pcb_at c w p Hp)), Hr, Hsy, Hst. cbn [andb].
      rewrite (bind_ok _ _ _ _ _ E). reflexivity. }
  cbv iota. destruct (decide (d = [])) as [Ed|Ed].
  - rewrite bool_decide_true by done. rewrite Ed in *. cbn [length] in *. rewrite Z.add_0_r in *.
    destruct (deliver_nothing isn n c p1 l w1 s q lf' d' H1 Hfr1 Hd1) as (w' & E' & p' & l' & H' & Hw' & Hb' & Hs' & Ho' & Hu' & Hp' & Hk').
    exists w'. split; [exact E'|]. exists p', l'. cbn [length] in *. rewrite Z.add_0_r in *. split; [exact H'|]. split; [lia|].
    split; [rewrite Hb'; f_equal; exact Eb|]. split; [first [now transitivity (l ++ q :: lf'); [|apply app_sub] | now apply app_sub]|].
    split; [intros y Hy; rewrite Ho' by (intros Hin; exact (Hy (app_sub l _ _ Hsub y Hin))); apply Hout, (not_in_app _ _ _ Hy)|]. split; [exact Hu'|]. split; [exact Hp'|].
    intros y Hy. rewrite (Hk' y Hy). cbn. now rewrite Hout by exact (Hd y Hy).
  - rewrite bool_decide_false by done. rewrite (Hd' Ed) in Hfr1.
    destruct (deliver_data _ _ c p1 l w1 s q lf' d H1 Hfr1 Hd1) as (p' & w' & E' & H' & Hw' & Hb' & Ho' & Hu' & Hk').
    exists w'. split; [exact E'|]. exists p', (l ++ q :: lf'). split; [exact H'|]. split; [lia|].
    split; [rewrite Hb'; f_equal; exact Eb|]. split; [first [now transitivity (l ++ q :: lf'); [|apply app_sub] | now apply app_sub]|].
    split; [intros y Hy; rewrite Ho' by (intros Hin; exact (Hy (app_sub l _ _ Hsub y Hin))); apply Hout, (not_in_app _ _ _ Hy)|]. split; [exact Hu'|].
    split; [now exists (q :: lf')|]. intros y Hy. rewrite (Hk' y Hy). cbn. now rewrite Hout by exact (Hd y Hy).
Qed.
(** *** A turn of the waiting loop *)

(** What the timers change. *)
Definition timed (w w' : net) : Prop :=
  n_tcp w' = n_tcp w /\ n_es w' = n_es w /\ n_ticks w' = n_ticks w /\ link_status (n_timers w') = link_status (n_timers w).

Lemma timed_refl w : timed w w.
Proof. done. Qed.
Lemma timed_trans w1 w2 w3 : timed w1 w2 -> timed w2 w3 -> timed w1 w3.
Proof. intros (A1 & A2 & A3 & A4) (B1 & B2 & B3 & B4). repeat split; congruence. Qed.

Lemma connected_timed isn n c p l w w' : timed w w' -> connected isn n c p l w -> connected isn n c p l w'.
Proof. intros (Et & Ee & _) []. split; rewrite ?Et, ?Ee; done. Qed.

Lemma slowtmr_idle isn n c p l w found :
  connected isn n c p l w -> (forall ev, ev ∈ found -> ev = SlowPoll c) -> tcp_slowtmr found w = Ok (tt, w).
Proof.
  intros H. unfold tcp_slowtmr. induction found as [|ev found IH]; intros Hf; [reflexivity|]. cbn [for_each].
  rewrite (Hf ev ltac:(left)). rewrite bind_assoc. erewrite bind_ok by reflexivity. rewrite (co_pcb _ _ _ _ _ _ H).
  rewrite bool_decide_true by done. cbn [when]. rewrite bind_assoc, (bind_ok _ _ _ _ _ (event_poll_idle c isn n p l w H)).
  change (ERR_OK =? ERR_OK) with true. cbn [when].
  rewrite (bind_ok _ _ _ _ _ (on_tcp_output c w p (co_pcb _ _ _ _ _ _ H))). apply IH. set_solver.
Qed.

(** A conditional step whose body has its effect on the timers only. *)
Lemma when_timed (b : bool) (m : M net unit) w :
  (exists w', m w = Ok (tt, w') /\ timed w w') -> exists w', when b m w = Ok (tt, w') /\ timed w w'.
Proof. intros H. destruct b; [exact H|exists w; done]. Qed.

Lemma bind_timed (m : M net unit) (f : unit -> M net unit) w :
  (exists w', m w = Ok (tt, w') /\ timed w w') -> (forall w1, timed w w1 -> exists w', f tt w1 = Ok (tt, w') /\ timed w1 w') ->
  exists w', (m ≫= f) w = Ok (tt, w') /\ timed w w'.
Proof.
  intros (w1 & E1 & T1) Hf. destruct (Hf w1 T1) as (w2 & E2 & T2). exists w2. rewrite (bind_ok _ _ _ _ _ E1).
  split; [exact E2|exact (timed_trans _ _ _ T1 T2)].
Qed.

(** While the link keeps its state and the connection is only polled, the
    timers change nothing but themselves. *)
Lemma periodic_idle isn n c p l w now found :
  connected isn n c p l w -> (forall ev, ev ∈ found -> ev = SlowPoll c) ->
  exists w', lwip_periodic_handle now (link_status (n_timers w)) found w = Ok (tt, w') /\ timed w w'.
Proof.
  intros H Hf. unfold lwip_periodic_handle. erewrite bind_ok by reflexivity.
  apply bind_timed; [|intros w1 T1; apply bind_timed; [|intros w2 T2; apply bind_timed; [|intros w3 T3]]].
  - apply when_timed. apply bind_timed; [eexists; split; [reflexivity|done]|]. intros w1 T1.
    rewrite bool_decide_true by done. cbn [negb when]. exists w1. done.
  - apply when_timed. apply bind_timed; [eexists; split; [reflexivity|done]|]. intros w2 T2. eexists. split; [reflexivity|done].
  - apply when_timed. apply bind_timed; [eexists; split; [reflexivity|done]|]. intros w3 T3.
    apply bind_timed; [eexists; split; [reflexivity|done]|]. intros w4 T4. exists w4. split; [|done].
    refine (slowtmr_idle isn n c p l w4 found _ Hf).
    exact (connected_timed _ _ _ _ _ _ _ (timed_trans _ _ _ (timed_trans _ _ _ (timed_trans _ _ _ T1 T2) T3) T4) H).
  - apply when_timed. apply bind_timed; [eexists; split; [reflexivity|done]|]. intros w4 T4. eexists. split; [reflexivity|done].
Qed.

(** *** A peer that sends a stream *)

(** The turn brings a piece of the stream [st] as a segment, something that
    concerns no connection, or nothing; the link keeps its state. *)
Record calm (isn : Z) (st : list Z) (c : pcb_id) (link : bool) (t : tick) : Prop := {
    ca_frame : match tk_frame t with
               | None => True
               | Some (FOther len) => Z.of_nat len < 2 ^ 16
               | Some (FSegment c' s) =>
                   c' = c /\ s_rst s = false /\ s_syn s = false /\ s_fin s = false /\
                   Z.of_nat (length (headers ++ s_data s)) < 2 ^ 16 /\
                   exists k, (k <= length st)%nat /\ s_seqno s = u32 (isn + Z.of_nat k) /\
                     s_data s = take (length (s_data s)) (drop k st)
               end;
    ca_link : tk_link t = link;
    ca_slow : forall ev, ev ∈ tk_slow t -> ev = SlowPoll c;
  }.

Lemma take_of_length {A} (x : list A) m : take m x = take (length (take m x)) x.
Proof. rewrite length_take, <- take_take. now rewrite (take_ge x (length x)). Qed.

(** What is taken of a piece continues what was received. *)
Lemma taken_next st n k wnd data :
  data = take (length data) (drop k st) -> (n <= length st)%nat ->
  let d := taken (Z.of_nat n) (Z.of_nat k) wnd data in
  take n st ++ d = take (n + length d) st /\ (n + length d <= length st)%nat.
Proof.
  intros Hd Hn. cbv zeta. unfold taken. destruct ((Z.of_nat k <=? Z.of_nat n) && (Z.of_nat n <? Z.of_nat k + Z.of_nat (length data))) eqn:E.
  2:{ cbn [length]. rewrite app_nil_r, Nat.add_0_r. done. }
  apply andb_true_iff in E as [E1%Z.leb_le E2%Z.ltb_lt]. replace (Z.to_nat (Z.of_nat n - Z.of_nat k)) with (n - k)%nat by lia.
  set (d := take _ (drop (n - k) data)). assert (exists m, d = take m (drop n st)) as [m Em].
  { exists (Z.to_nat wnd `min` (length data - (n - k)))%nat. unfold d. rewrite Hd at 1. rewrite skipn_firstn_comm, drop_drop.
    replace (k + (n - k))%nat with n by lia. now rewrite take_take. }
  assert (length d <= length st - n)%nat as Hl by (rewrite Em, length_take, length_drop; lia).
  assert (d = take (length d) (drop n st)) as Ed by (rewrite Em; apply take_of_length).
  split; [|lia]. rewrite Ed at 1. apply take_take_drop.
Qed.
(** The frame of a turn. *)
Definition frame_of (t : tick) : M net unit := match tk_frame t with Some f => ethernetif_input f | None => mret tt end.

Lemma fed_fresh isn n c d lf p l w w' :
  connected isn n c p l w -> fed isn n c d lf p l w w' -> (forall y, y ∈ lf -> t_heap (n_tcp w) !! y = None) ->
  exists p' l', grows isn n c d p l w p' l' w'.
Proof.
  intros H (p' & l' & H' & Hw & Hb & Hs & Ho & _ & Hp & Hk) Hf. exists p', l'. split; [exact H'|]. split; [exact Hw|]. split; [exact Hb|].
  split; [|split; [exact Hp|exact Hk]].
  intros x [b Hx] Hxl. assert (x ∉ l ++ lf) as Hn by (intros [|Hin]%elem_of_app; [done|]; rewrite (Hf x Hin) in Hx; done).
  split; [now apply Ho|]. intros Hin. exact (Hn (Hs x Hin)).
Qed.

(** A frame that concerns no connection: its buffers are given back. *)
Lemma frame_other isn n c p l w len :
  connected isn n c p l w -> Z.of_nat len < 2 ^ 16 ->
  exists w', ethernetif_input (FOther len) w = Ok (tt, w') /\ grows isn n c [] p l w p l w' /\ unrelated w w'.
Proof.
  intros H Hlen. unfold ethernetif_input.
  destruct (low_level_input_spec (replicate len 0) (t_heap (n_tcp w))) as [E|(q & lf & h & E & Hc & Hfr & Ho & _)].
  - now rewrite length_replicate.
  - exists w. rewrite (bind_ok _ _ _ _ _ (on_heap_ok _ w _ _ E)). split; [now destruct w as [[] ? ? ? ? ? ? ? ?]|].
    split; [now apply grows_refl|done].
  - rewrite (bind_ok _ _ _ _ _ (on_heap_ok _ w _ _ E)).
    destruct (free_frame h (Some q) (q :: lf) Hc) as (k & h' & E' & Ho').
    { intros y b Hy Hyb. destruct (Hfr y Hy) as (_ & b' & Hb' & Hr'). congruence. }
    erewrite bind_ok by (eapply (on_heap_ok _ (with_heap h w)); exact E').
    destruct (fresh_others (t_heap (n_tcp w)) h l (q :: lf) Hfr Ho) as [Hdis _].
    { intros x Hx. exact (chain_live _ _ _ _ (ow_chain _ _ _ (co_owned _ _ _ _ _ _ H)) Hx). }
    assert (forall y, y ∉ q :: lf -> h' !! y = t_heap (n_tcp w) !! y) as Hsame by (intros y Hy; rewrite Ho', Ho; done).
    exists (with_heap h' w). split; [reflexivity|]. split; [|done].
    split; [cbn; rewrite Z.add_0_r; apply connected_heap; [exact H|]; intros y Hy; apply Hsame, Hdis, Hy|].
    split; [cbn; lia|]. split; [rewrite app_nil_r; apply bytes_agree; intros y Hy; cbn; now rewrite Hsame by exact (Hdis y Hy)|].
    split; [|split; [done|intros y Hy; cbn; now rewrite Hsame by exact (Hdis y Hy)]].
    intros x [b Hx] Hxl. split; [|done]. apply Hsame. intros Hin. destruct (Hfr x Hin) as [Hno _]. rewrite Hno in Hx. done.
Qed.

(** The segment holds bytes that are new to a receiver of [n], which has
    room for them. *)
Definition useful (isn : Z) (n : nat) (c : pcb_id) (p : tcp_pcb) (w : net) (f : frame) : Prop :=
  exists s k, f = FSegment c s /\ s_seqno s = u32 (isn + Z.of_nat k) /\ (k <= n < k + length (s_data s))%nat /\
    (length (s_data s) <= 446)%nat /\ 0 < rcv_wnd p /\ Z.of_nat (size (t_heap (n_tcp w))) < PBUF_POOL_SIZE.

Lemma taken_useful n k wnd data : (k <= n < k + length data)%nat -> 0 < wnd -> taken (Z.of_nat n) (Z.of_nat k) wnd data <> [].
Proof.
  intros Hk Hw E. apply (f_equal length) in E. unfold taken in E.
  replace ((Z.of_nat k <=? Z.of_nat n) && (Z.of_nat n <? Z.of_nat k + Z.of_nat (length data))) with true in E by lia.
  rewrite length_take, length_drop in E. cbn in E. lia.
Qed.

Lemma frame_segment isn st c link t n p l w s :
  connected isn (Z.of_nat n) c p l w -> calm isn st c link t -> tk_frame t = Some (FSegment c s) ->
  (n <= length st)%nat -> Z.of_nat (length st) <= 2 ^ 30 ->
  exists d p' l' w', ethernetif_input (FSegment c s) w = Ok (tt, w') /\ grows isn (Z.of_nat n) c d p l w p' l' w' /\
    take n st ++ d = take (n + length d) st /\ (n + length d <= length st)%nat /\ unrelated w w' /\
    (useful isn n c p w (FSegment c s) -> d <> []).
Proof.
  intros H [Hf _ _] Et Hn Hst. rewrite Et in Hf. destruct Hf as (_ & Hr & Hsy & Hfi & Hl & k & Hk & Hseq & Hd).
  rewrite length_app in Hl. change (length headers) with 54%nat in Hl.
  destruct (frame_input c s w ltac:(rewrite length_app; exact Hl)) as [[Elow ->]|(q & lf & h & -> & Hc & Hfr & Ho & Hb & Ht)].
  { exists [], p, l, w. cbn [length]. rewrite Nat.add_0_r, app_nil_r. split; [done|]. split; [now apply grows_refl|]. split; [done|].
    split; [done|]. split; [done|]. intros (s' & k' & [= <-] & _ & _ & Hshort & _ & Hpool). exfalso.
    revert Elow. apply low_level_input_short; [|exact Hpool]. rewrite length_app. change (length headers) with 54%nat.
    unfold PBUF_POOL_BUFSIZE. lia. }
  destruct (fresh_others (t_heap (n_tcp w)) h l (q :: lf) Hfr Ho) as [Hdis _].
  { intros x Hx. exact (chain_live _ _ _ _ (ow_chain _ _ _ (co_owned _ _ _ _ _ _ H)) Hx). }
  assert (connected isn (Z.of_nat n) c p l (with_heap h w)) as H1 by (apply connected_heap; [exact H|]; intros y Hy; apply Ho, Hdis, Hy).
  destruct (tcp_input_spec isn (Z.of_nat n) (Z.of_nat k) c p l (with_heap h w) s q lf H1) as (w' & E & Hfed).
  - split; [done|done|lia|lia].
  - split; try done; [|lia]. intros y b Hy Hyb. destruct (Hfr y Hy) as (_ & b' & Hb' & Hr'). change (h !! y = Some b) in Hyb. congruence.
  - exact Hdis.
  - destruct Hfed as (p' & l' & H' & Hw & Hb' & Hs & Ho' & Hu & Hp' & Hrk). set (d := taken _ _ _ _) in *.
    destruct (fed_fresh isn (Z.of_nat n) c d (q :: lf) p l w w' H) as (p2 & l2 & Hg).
    + exists p', l'. split; [done|]. split; [done|]. split; [|split; [done|split; [|split; [exact Hu|split; [exact Hp'|]]]]].
      * rewrite Hb'. f_equal. apply bytes_agree. intros y Hy. cbn. now rewrite Ho by exact (Hdis y Hy).
      * intros y Hy. rewrite Ho' by done. cbn. apply Ho. set_solver.
      * intros y Hy. rewrite (Hrk y Hy). cbn. now rewrite Ho by exact (Hdis y Hy).
    + intros y Hy. exact (proj1 (Hfr y Hy)).
    + exists d, p2, l2, w'. split; [exact E|]. split; [exact Hg|]. destruct (taken_next st n k (rcv_wnd p) (s_data s) Hd Hn) as [Hd1 Hd2].
      split; [exact Hd1|]. split; [exact Hd2|]. split; [exact Hu|]. intros (s' & k' & [= <-] & Hseq' & Hk' & Hshort & Hwnd & _).
      apply taken_useful; [|exact Hwnd]. rewrite Hseq in Hseq'. apply Z.eqb_eq in Hseq'. rewrite u32_eq in Hseq' by lia. lia.
Qed.

Lemma frame_calm isn st c link t n p l w :
  connected isn (Z.of_nat n) c p l w -> calm isn st c link t -> (n <= length st)%nat -> Z.of_nat (length st) <= 2 ^ 30 ->
  exists d p' l' w', frame_of t w = Ok (tt, w') /\ grows isn (Z.of_nat n) c d p l w p' l' w' /\
    take n st ++ d = take (n + length d) st /\ (n + length d <= length st)%nat /\ unrelated w w' /\
    (forall f, tk_frame t = Some f -> useful isn n c p w f -> d <> []).
Proof.
  intros H Hcalm Hn Hst. unfold frame_of. pose proof (ca_frame _ _ _ _ _ Hcalm) as Hf. destruct (tk_frame t) as [[c' s|len]|] eqn:Et.
  - destruct Hf as (-> & _). destruct (frame_segment isn st c link t n p l w s H Hcalm Et Hn Hst) as (d & p' & l' & w' & E & G & D1 & D2 & U & Us).
    exists d, p', l', w'. split_and!; try done. intros f [= <-]. exact Us.
  - destruct (frame_other isn (Z.of_nat n) c p l w len H Hf) as (w' & E & G & U). exists [], p, l, w'. cbn [length].
    rewrite Nat.add_0_r, app_nil_r. split_and!; try done. intros f [= <-] (s & k & [=] & _).
  - exists [], p, l, w. cbn [length]. rewrite Nat.add_0_r, app_nil_r. split; [done|]. split; [now apply grows_refl|]. done.
Qed.
(** *** Waiting *)

(** Everything still to arrive is calm. *)
Definition all_calm (isn : Z) (st : list Z) (c : pcb_id) (w : net) : Prop :=
  forall t, t ∈ n_ticks w -> calm isn st c (link_status (n_timers w)) t.

(** Whatever has arrived when [w] becomes [w'], received from the [n]-th byte
    on, continues the stream. *)
Definition streams (isn : Z) (st : list Z) (n : nat) (c : pcb_id) (d : list Z) (p : tcp_pcb) (l : list ptr) (w : net)
    (p' : tcp_pcb) (l' : list ptr) (w' : net) : Prop :=
  grows isn (Z.of_nat n) c d p l w p' l' w' /\ take n st ++ d = take (n + length d) st /\ (n + length d <= length st)%nat /\
  all_calm isn st c w'.

Lemma streams_trans isn st n c d1 d2 p1 l1 w1 p2 l2 w2 p3 l3 w3 :
  streams isn st n c d1 p1 l1 w1 p2 l2 w2 -> streams isn st (n + length d1) c d2 p2 l2 w2 p3 l3 w3 ->
  streams isn st n c (d1 ++ d2) p1 l1 w1 p3 l3 w3.
Proof.
  intros (G1 & S1 & _ & _) (G2 & S2 & L2 & C2). rewrite Nat2Z.inj_add in G2. split; [exact (grows_trans _ _ _ _ _ _ _ _ _ _ _ _ _ _ G1 G2)|].
  rewrite app_assoc, S1, S2, length_app, Nat.add_assoc. done.
Qed.

Lemma poll_calm isn st n c p l w t ts :
  connected isn (Z.of_nat n) c p l w -> (n <= length st)%nat -> Z.of_nat (length st) <= 2 ^ 30 ->
  n_ticks w = t :: ts -> all_calm isn st c w ->
  exists d p' l' w', poll_network w = Ok (tt, w') /\ streams isn st n c d p l w p' l' w' /\ n_ticks w' = ts /\
    (forall f, tk_frame t = Some f -> useful isn n c p w f -> d <> []).
Proof.
  intros H Hn Hst Ht Hcalm. pose proof (Hcalm t ltac:(rewrite Ht; left)) as Hct.
  unfold poll_network. erewrite bind_ok by reflexivity. rewrite Ht. erewrite bind_ok by reflexivity. fold (frame_of t).
  set (w0 := mkNet _ _ _ _ _ _ _ _ _). assert (connected isn (Z.of_nat n) c p l w0) as H0 by (destruct H; now split).
  destruct (frame_calm isn st c _ t n p l w0 H0 Hct Hn Hst) as (d & p' & l' & w1 & E1 & G & D1 & D2 & (_ & U2 & U3) & Us).
  rewrite (bind_ok _ _ _ _ _ E1). erewrite bind_ok by reflexivity.
  destruct (periodic_idle _ _ c p' l' w1 (n_time w1) (tk_slow t) (proj1 G) (ca_slow _ _ _ _ _ Hct)) as (w2 & E2 & T).
  rewrite (ca_link _ _ _ _ _ Hct). change (n_timers w) with (n_timers w0). rewrite <- U2.
  exists d, p', l', w2. split; [exact E2|]. pose proof T as (T1 & T2 & T3 & T4).
  assert (n_ticks w2 = ts) as Ets by (rewrite T3, U3; reflexivity).
  split; [|split; [exact Ets|exact Us]]. split; [|split; [done|split; [done|]]].
  - destruct G as (G1 & G2 & G3 & G4). split; [exact (connected_timed _ _ _ _ _ _ _ T G1)|]. rewrite T1. done.
  - intros t' Ht'. rewrite Ets in Ht'. rewrite T4, U2. apply Hcalm. rewrite Ht. now right.
Qed.

Lemma wait_calm fuel isn st n c p l w :
  connected isn (Z.of_nat n) c p l w -> (n <= length st)%nat -> Z.of_nat (length st) <= 2 ^ 30 -> all_calm isn st c w ->
  wait_pin fuel w = Hang \/
  exists d p' l' w', wait_pin fuel w = Ok (tt, w') /\ streams isn st n c d p l w p' l' w' /\ l' <> [].
Proof.
  revert n p l w. induction fuel as [|fuel IH]; intros n p l w H Hn Hst Hcalm; [now left|]. cbn [wait_pin].
  destruct (n_ticks w) as [|t ts] eqn:Et.
  { left. unfold poll_network, mbind, M_bind, gets. now rewrite Et. }
  destruct (poll_calm isn st n c p l w t ts H Hn Hst Et Hcalm) as (d & p' & l' & w' & E & S & _).
  rewrite (bind_ok _ _ _ _ _ E). unfold es. erewrite bind_ok by reflexivity.
  pose proof S as ((H' & _) & _ & Hn' & Hc'). pose proof (ow_chain _ _ _ (co_owned _ _ _ _ _ _ H')) as Hch.
  destruct l' as [|x l'].
  - cbn [chain] in Hch. rewrite Hch. rewrite <- Nat2Z.inj_add in H'.
    destruct (IH _ _ _ _ H' Hn' Hst Hc') as [Eh|(d2 & p2 & l2 & w2 & E2 & S2 & Hne)]; [now left|right].
    exists (d ++ d2), p2, l2, w2. split; [exact E2|]. split; [exact (streams_trans _ _ _ _ _ _ _ _ _ _ _ _ _ _ _ S S2)|exact Hne].
  - destruct Hch as (-> & _). right. exists d, p', (x :: l'), w'. split; [reflexivity|]. split; [exact S|done].
Qed.

(** Of the server's buffers [l], the first is let go: the others are referred
    to as often as before at least, and the first stays if it was referred to
    twice. *)
Definition released (h : heap) (l : list ptr) (h' : heap) : Prop :=
  (forall z b, z ∈ tail l -> h !! z = Some b -> exists b', h' !! z = Some b' /\ p_ref b <= p_ref b') /\
  (forall x b, head l = Some x -> h !! x = Some b -> 1 < p_ref b -> is_Some (h' !! x)).

(** The packet that was read is let go. *)
Lemma clear_connected isn n c p l w :
  connected isn n c p l w ->
  exists w', ethernet_clear_packet w = Ok (tt, w') /\ connected isn n c p (tail l) w' /\
    bytes (t_heap (n_tcp w')) (tail l) = bytes (t_heap (n_tcp w)) (tail l) /\
    others_kept (t_heap (n_tcp w)) l (t_heap (n_tcp w')) (tail l) /\ unrelated w w' /\
    released (t_heap (n_tcp w)) l (t_heap (n_tcp w')).
Proof.
  intros H. pose proof H as [Hp Hst Hrc Hop Hkp Hnx Hwn Hes Hpo Hown]. unfold ethernet_clear_packet, es. erewrite bind_ok by reflexivity.
  pose proof (ow_chain _ _ _ Hown) as Hch. destruct l as [|x l].
  { cbn [chain] in Hch. rewrite Hch. exists w. split; [reflexivity|]. split; [exact H|]. split; [done|].
    split; [apply others_kept_refl|]. split; [done|]. split; [now intros z b Hz%elem_of_nil|done]. }
  pose proof (chain_nodup _ _ _ Hch) as Hnd. inversion_clear Hnd as [|? ? Hx _].
  destruct Hch as (Epin & b & Hb & _). rewrite Epin in *. erewrite bind_ok by (eapply on_heap_ok; exact (pbuf_at_ok _ _ _ Hb)).
  destruct (release_first _ x l b Hown Hb) as (k & h & E & Hown' & Hpay & Ho & Hge & Hfirst).
  set (w1 := over (set_pin (p_next b) 0 (n_es w)) w).
  erewrite (bind_ok (set_es _) _ _ tt w1) by (destruct w as [[] ? ? ? ? ? ? ? ?]; reflexivity).
  apply bind_inv in E as ([] & h1 & E1 & E2). rewrite (bind_ok _ _ _ _ _ (on_heap_ok _ w1 _ _ E1)).
  rewrite (bind_ok _ _ _ _ _ (on_heap_ok _ (with_heap h1 w1) _ _ E2)).
  exists (with_heap h (with_heap h1 w1)). split; [reflexivity|]. cbn [tail]. split; [|split; [|split; [|split; [done|split; [exact Hge|]]]]].
  - split; try done. destruct Hes as [[_ [=]]|Hes]. now right.
  - apply bytes_agree. intros y Hy. cbn. destruct (Hpay y) as [Ey| ->]; [now rewrite Ey|done].
  - intros y Hy Hyl. split; [now apply Ho|]. intros Hin. apply Hyl. now right.
  - intros x' b' [= <-] Hb' Hr. replace b' with b in Hr by congruence. destruct (Hfirst Hr) as [Hs _]. cbn. now rewrite Hs.
Qed.
(** *** Serving *)

Lemma next_calm isn st n c p l w :
  connected isn (Z.of_nat n) c p l w -> (n <= length st)%nat -> Z.of_nat (length st) <= 2 ^ 30 -> all_calm isn st c w ->
  ethernet_next_packet w = Hang \/
  exists d p' l' w' w0, ethernet_next_packet w = Ok (tt, w') /\ l' <> [] /\ streams isn st n c d p (tail l) w0 p' l' w' /\
    bytes (t_heap (n_tcp w0)) (tail l) = bytes (t_heap (n_tcp w)) (tail l) /\
    others_kept (t_heap (n_tcp w)) l (t_heap (n_tcp w0)) (tail l) /\ released (t_heap (n_tcp w)) l (t_heap (n_tcp w0)).
Proof.
  intros H Hn Hst Hcalm. destruct (clear_connected isn _ c p l w H) as (w0 & E & H0 & Hb & Ho & (_ & U2 & U3) & Hrel).
  unfold ethernet_next_packet. rewrite (bind_ok _ _ _ _ _ E). erewrite bind_ok by reflexivity.
  destruct (wait_calm (S (length (n_ticks w0))) isn st n c p (tail l) w0 H0 Hn Hst) as [Eh|(d & p' & l' & w' & E' & S & Hne)].
  - intros t Ht. rewrite U2. rewrite U3 in Ht. now apply Hcalm.
  - now left.
  - right. exists d, p', l', w', w0. done.
Qed.

(** [m] turns of the server's loop, and what they read. *)
Fixpoint serve (m : nat) : M net (list Z) :=
  match m with
  | O => mret []
  | S m =>
      ethernet_next_packet;;
      e ← es;
      q ← deref NullDeref (es_pin e);
      b ← on_heap (pbuf_at q);
      rest ← serve m;
      mret (payload b ++ rest)
  end.

(** What was read and what is still held are the bytes that came. *)
Lemma serve_calm m isn st n c p l w :
  connected isn (Z.of_nat n) c p l w -> (n <= length st)%nat -> Z.of_nat (length st) <= 2 ^ 30 -> all_calm isn st c w ->
  serve m w = Hang \/
  exists bs d p' l' w', serve m w = Ok (bs, w') /\ connected isn (Z.of_nat (n + length d)) c p' l' w' /\
    take n st ++ d = take (n + length d) st /\ (n + length d <= length st)%nat /\
    bytes (t_heap (n_tcp w)) (tail l) ++ d = bs ++ bytes (t_heap (n_tcp w')) (tail l') /\
    rcv_wnd p' = rcv_wnd p - Z.of_nat (length d) /\ others_kept (t_heap (n_tcp w)) l (t_heap (n_tcp w')) l'.
Proof.
  revert n p l w. induction m as [|m IH]; intros n p l w H Hn Hst Hcalm; cbn [serve].
  { right. exists [], [], p, l, w. cbn [length app]. rewrite Nat.add_0_r, !app_nil_r, Z.sub_0_r.
    split; [done|]. split; [exact H|]. split_and!; try done. }
  destruct (next_calm isn st n c p l w H Hn Hst Hcalm) as [Eh|(d & p1 & l1 & w1 & w0 & E1 & Hne & S & Hb0 & Ho0 & _)].
  { left. unfold mbind, M_bind. now rewrite Eh. }
  destruct S as ((H1 & Hw1 & Hb1 & Ho1 & _) & D1 & D2 & Hc1). rewrite (bind_ok _ _ _ _ _ E1). unfold es. erewrite bind_ok by reflexivity.
  destruct l1 as [|q l1]; [done|]. pose proof (ow_chain _ _ _ (co_owned _ _ _ _ _ _ H1)) as (Hq & b & Hb & _).
  rewrite Hq. cbn [deref]. erewrite bind_ok by reflexivity. rewrite (bind_ok _ _ _ _ _ (on_heap_ok _ w1 _ _ (pbuf_at_ok _ _ _ Hb))).
  replace (with_heap (t_heap (n_tcp w1)) w1) with w1 by (now destruct w1 as [[] ? ? ? ? ? ? ? ?]).
  rewrite <- Nat2Z.inj_add in H1. destruct (IH _ _ _ _ H1 D2 Hst Hc1) as [Eh|(bs & d2 & p2 & l2 & w2 & E2 & H2 & D3 & D4 & Hb2 & Hw2 & Ho2)].
  { left. unfold mbind at 1, M_bind at 1. now rewrite Eh. }
  right. rewrite (bind_ok _ _ _ _ _ E2). exists (payload b ++ bs), (d ++ d2), p2, l2, w2. rewrite length_app, Nat.add_assoc.
  split; [reflexivity|]. split; [exact H2|]. split; [now rewrite app_assoc, D1|]. split; [exact D4|]. split; [|split; [lia|]].
  - rewrite app_assoc, <- Hb0, <- Hb1, (bytes_cons _ q l1 b Hb), <- !app_assoc. f_equal. exact Hb2.
  - exact (others_kept_trans _ _ _ _ _ _ (others_kept_trans _ _ _ _ _ _ Ho0 Ho1) Ho2).
Qed.

(** What came next of the stream. *)
Lemma stream_split (st : list Z) n d :
  take n st ++ d = take (n + length d) st -> (n + length d <= length st)%nat -> drop n st = d ++ drop (n + length d) st.
Proof.
  intros D1 D2. rewrite <- (take_drop (n + length d) st) at 1. rewrite <- D1, <- app_assoc. rewrite drop_app_length'; [done|].
  rewrite length_take. lia.
Qed.

(** C8: What the server reads of a connection's packets are the bytes the
    peer sent, in order and each once, from where the server was: whatever
    pieces the segments are, and in whatever order and how often they
    arrive; never more than the receive window was when it began.  The
    reading stops only where the server waits for a packet. *)
Theorem stream_served m isn st n c p w :
  connected isn (Z.of_nat n) c p [] w -> (n <= length st)%nat -> Z.of_nat (length st) <= 2 ^ 30 -> all_calm isn st c w ->
  serve m w = Hang \/
  exists bs w', serve m w = Ok (bs, w') /\ bs `prefix_of` drop n st /\ Z.of_nat (length bs) <= rcv_wnd p.
Proof.
  intros H Hn Hst Hcalm. destruct (serve_calm m isn st n c p [] w H Hn Hst Hcalm) as [Eh|(bs & d & p' & l' & w' & E & H' & D1 & D2 & Hb & Hw & _)];
    [now left|right].
  exists bs, w'. split; [exact E|]. cbn [tail] in Hb. change (bytes (t_heap (n_tcp w)) []) with (@nil Z) in Hb. cbn [app] in Hb.
  rewrite (stream_split st n d D1 D2).
  split; [rewrite Hb, <- app_assoc; apply prefix_app_r; done|].
  pose proof (co_wnd _ _ _ _ _ _ H'). apply (f_equal length) in Hb. rewrite length_app in Hb. lia.
Qed.

(** C22: A piece of the stream that is new to the server, arriving while it
    waits with a buffer and some of the window left, ends its waiting. *)
Theorem packet_ends_waiting isn st n c p w t ts f :
  connected isn (Z.of_nat n) c p [] w -> (n <= length st)%nat -> Z.of_nat (length st) <= 2 ^ 30 -> all_calm isn st c w ->
  n_ticks w = t :: ts -> tk_frame t = Some f -> useful isn n c p w f ->
  exists w', ethernet_next_packet w = Ok (tt, w') /\ is_Some (es_pin (n_es w')) /\ n_ticks w' = ts.
Proof.
  intros H Hn Hst Hcalm Ht Hf Hu. destruct (poll_calm isn st n c p [] w t ts H Hn Hst Ht Hcalm) as (d & p' & l' & w' & E & S & Et & Hd).
  destruct S as ((H' & _ & Hb & _) & _). exists w'. unfold ethernet_next_packet.
  pose proof (ow_chain _ _ _ (co_owned _ _ _ _ _ _ H)) as Hp0. cbn [chain] in Hp0.
  erewrite bind_ok; [|unfold ethernet_clear_packet, es; erewrite bind_ok by reflexivity; rewrite Hp0; reflexivity].
  erewrite bind_ok by reflexivity. cbn [wait_pin]. rewrite (bind_ok _ _ _ _ _ E). unfold es. erewrite bind_ok by reflexivity.
  pose proof (ow_chain _ _ _ (co_owned _ _ _ _ _ _ H')) as Hch. destruct l' as [|x l'].
  - exfalso. apply (Hd f Hf Hu). symmetry. exact Hb.
  - destruct Hch as (-> & _). done.
Qed.

(** *** Buffers that are lost *)

(** A turn of the server's loop. *)
Lemma serve_turn isn st n c p x l w m bs w' :
  connected isn (Z.of_nat n) c p (x :: l) w -> (n <= length st)%nat -> Z.of_nat (length st) <= 2 ^ 30 -> all_calm isn st c w ->
  serve (S m) w = Ok (bs, w') ->
  exists n1 p1 l1 w1 bs1, connected isn (Z.of_nat n1) c p1 l1 w1 /\ (n1 <= length st)%nat /\ all_calm isn st c w1 /\
    serve m w1 = Ok (bs1, w') /\ l `prefix_of` l1 /\
    (forall z b, z ∈ l -> t_heap (n_tcp w) !! z = Some b -> exists b', t_heap (n_tcp w1) !! z = Some b' /\ p_ref b <= p_ref b') /\
    (forall b, t_heap (n_tcp w) !! x = Some b -> 1 < p_ref b -> is_Some (t_heap (n_tcp w1) !! x) /\ x ∉ l1).
Proof.
  intros H Hn Hst Hcalm E. pose proof (chain_nodup _ _ _ (ow_chain _ _ _ (co_owned _ _ _ _ _ _ H))) as Hnd. inversion_clear Hnd as [|? ? Hx _].
  cbn [serve] in E. destruct (next_calm isn st n c p (x :: l) w H Hn Hst Hcalm) as [Eh|(d & p1 & l1 & w1 & w0 & E1 & _ & S & _ & _ & Hrel)].
  { unfold mbind, M_bind in E. now rewrite Eh in E. }
  rewrite (bind_ok _ _ _ _ _ E1) in E. destruct S as ((H1 & _ & _ & Ho1 & Hp1 & Hk1) & _ & D2 & Hc1). cbn [tail] in *.
  unfold es in E. erewrite bind_ok in E by reflexivity. apply bind_inv in E as (q & w2 & Eq & E).
  assert (w2 = w1) as -> by (destruct (es_pin (n_es w1)); [now injection Eq|done]). clear Eq.
  apply bind_inv in E as (b & w2 & Eb & E). assert (w2 = w1) as ->.
  { unfold on_heap, on_tcp in Eb. apply zoom_inv in Eb as (t & Eb & ->). apply zoom_inv in Eb as (h & Eb & ->).
    unfold pbuf_at in Eb. apply bind_inv in Eb as (o & h' & [= <- <-] & Eb). destruct (_ !! q); [injection Eb as _ <-|done].
    now destruct w1 as [[] ? ? ? ? ? ? ? ?]. }
  apply bind_inv in E as (bs1 & w2 & E & [= _ <-]). rewrite <- Nat2Z.inj_add in H1.
  exists (n + length d)%nat, p1, l1, w1, bs1. split; [exact H1|]. split; [exact D2|]. split; [exact Hc1|]. split; [exact E|]. split; [exact Hp1|].
  destruct Hrel as [Hge Hfirst]. cbn [tail head] in *. split.
  - intros z bz Hz Hbz. destruct (Hge z bz Hz Hbz) as (b' & Hb' & Hle). pose proof (Hk1 z Hz) as Hk. rewrite Hb' in Hk.
    destruct (t_heap (n_tcp w1) !! z) as [b2|]; [|done]. injection Hk as Hk. exists b2. split; [done|lia].
  - intros bx Hbx Hlt. destruct (Ho1 x (Hfirst x bx eq_refl Hbx Hlt) Hx) as [Hsame Hnot]. split; [|exact Hnot].
    rewrite Hsame. exact (Hfirst x bx eq_refl Hbx Hlt).
Qed.

(** A buffer that is referred to twice when the server lets go of it stays
    for ever. *)
Lemma held_twice isn st c l1 t l2 m n p w bs w' b :
  connected isn (Z.of_nat n) c p (l1 ++ t :: l2) w -> (n <= length st)%nat -> Z.of_nat (length st) <= 2 ^ 30 -> all_calm isn st c w ->
  t_heap (n_tcp w) !! t = Some b -> 1 < p_ref b -> serve (length l1 + S m) w = Ok (bs, w') -> is_Some (t_heap (n_tcp w') !! t).
Proof.
  revert l2 n p w bs b. induction l1 as [|x l1 IH]; intros l2 n p w bs b H Hn Hst Hcalm Hb Hr E; cbn [length Nat.add app] in *.
  - destruct (serve_turn isn st n c p t l2 w m bs w' H Hn Hst Hcalm E) as (n1 & p1 & l' & w1 & bs1 & H1 & Hn1 & Hc1 & E1 & _ & _ & Ht).
    destruct (Ht b Hb Hr) as [Hlive Hnot].
    destruct (serve_calm m isn st n1 c p1 l' w1 H1 Hn1 Hst Hc1) as [Eh|(bs2 & d & p2 & l'' & w2 & E2 & _ & _ & _ & _ & _ & Ho)]; [congruence|].
    replace w2 with w' in Ho by congruence. destruct (Ho t Hlive Hnot) as [Hs _]. now rewrite Hs.
  - destruct (serve_turn isn st n c p x (l1 ++ t :: l2) w (length l1 + S m) bs w' H Hn Hst Hcalm E)
      as (n1 & p1 & l' & w1 & bs1 & H1 & Hn1 & Hc1 & E1 & [z ->] & Hge & _).
    destruct (Hge t b ltac:(apply elem_of_app; right; left) Hb) as (b' & Hb' & Hle).
    rewrite <- app_assoc in H1. cbn [app] in H1. apply (IH (l2 ++ z) n1 p1 w1 bs1 b' H1 Hn1 Hst Hc1 Hb' ltac:(lia) E1).
Qed.

(** C26: A packet that arrives while the server still holds another is lost
    to the pool of buffers: it is referred to twice, and when the server has
    read it its buffer stays in use, however long the server runs. *)
Theorem appended_packet_lost isn st n c p x l w q lf d m :
  connected isn (Z.of_nat n) c p (x :: l) w -> framed (t_heap (n_tcp w)) q lf d -> (forall y, y ∈ x :: l -> y ∉ q :: lf) ->
  (n <= length st)%nat -> Z.of_nat (length st) <= 2 ^ 30 -> all_calm isn st c w ->
  exists w1, server_recv_callback c (Some q) ERR_OK w = Ok (ERR_OK, w1) /\
    forall bs w2, serve (length (x :: l) + S m) w1 = Ok (bs, w2) -> is_Some (t_heap (n_tcp w2) !! q).
Proof.
  intros H Hfr Hd Hn Hst Hcalm.
  destruct (recv_callback_spec isn _ c p (x :: l) w q lf d H Hfr Hd) as (p' & w1 & E & H1 & _ & _ & _ & (_ & U2 & U3) & _ & Hrq).
  exists w1. split; [exact E|]. intros bs w2 E2. specialize (Hrq ltac:(done)).
  destruct (t_heap (n_tcp w1) !! q) as [b|] eqn:Hb; [|done]. injection Hrq as Hrq.
  apply (held_twice isn st c (x :: l) q lf m n p' w1 bs w2 b H1 Hn Hst); [|exact Hb|lia|exact E2].
  intros t Ht. rewrite U2. rewrite U3 in Ht. now apply Hcalm.
Qed.
End Served.

(** ** Witnesses *)

Definition query : list Z := [42; 73; 68; 78; 63; 10].   (** *IDN? *)

Lemma piece_calm k n : (k <= 6)%nat -> (n <= 6)%nat -> calm 1001 query 1 true (piece query k n).
Proof.
  intros Hk Hn. split; [|done|now intros ev []%elem_of_nil]. cbn. do 4 (split; [done|]). split.
  - rewrite length_take. lia.
  - exists k. split; [exact Hk|]. split; [rewrite (wrap_small 32) by lia; reflexivity|]. apply take_of_length.
Qed.

(** The last two bytes come first, and the middle ones twice. *)
Definition pieces : list tick := [piece query 4 2; piece query 0 4; piece query 2 4].

Lemma pieces_calm wnd st h pin : all_calm 1001 query 1 (home_net wnd st h pin pieces).
Proof. intros t Ht. unfold pieces in Ht. cbn in Ht. rewrite !elem_of_cons in Ht. destruct Ht as [->|[->|[->|[]%elem_of_nil]]]; apply piece_calm; lia. Qed.

Lemma home_connected wnd h ts :
  0 <= wnd <= TCP_WND -> connected 1001 0 1 (home_pcb wnd) [] (home_net wnd ES_ACCEPTED h None ts).
Proof. intros Hw. split; try done; [now left|apply owned_nil]. Qed.

Lemma stream_served_witness :
  exists bs w', @serve calm_net good_flash 2 (home_net TCP_WND ES_ACCEPTED ∅ None pieces) = Ok (bs, w') /\
    bs `prefix_of` query /\ Z.of_nat (length bs) <= TCP_WND.
Proof.
  destruct (@stream_served calm_net good_flash 2 1001 query 0 1 (home_pcb TCP_WND) (home_net TCP_WND ES_ACCEPTED ∅ None pieces)) as [E|H].
  - apply home_connected. split; [discriminate|reflexivity].
  - cbn. lia.
  - cbn. lia.
  - apply pieces_calm.
  - vm_compute in E. discriminate E.
  - exact H.
Defined.

Lemma packet_ends_waiting_witness :
  exists w', @ethernet_next_packet calm_net good_flash (home_net TCP_WND ES_ACCEPTED ∅ None [piece query 0 4]) = Ok (tt, w') /\
    is_Some (es_pin (n_es w')) /\ n_ticks w' = [].
Proof.
  apply (@packet_ends_waiting calm_net good_flash 1001 query 0 1 (home_pcb TCP_WND) (home_net TCP_WND ES_ACCEPTED ∅ None [piece query 0 4])
    (piece query 0 4) [] (FSegment 1 (mkSeg 1001 false true false false false false 0 [42; 73; 68; 78]))).
  - apply home_connected. split; [discriminate|reflexivity].
  - cbn. lia.
  - cbn. lia.
  - intros t Ht%list_elem_of_singleton. subst t. apply piece_calm; lia.
  - reflexivity.
  - reflexivity.
  - exists (mkSeg 1001 false true false false false false 0 [42; 73; 68; 78]), 0%nat. repeat split; cbn; lia.
Defined.

(** The server holds a packet, and another one arrives. *)
Definition held : heap := {[ 0%nat := mkPbuf None [42] 1 1; 5%nat := mkPbuf None [73; 68] 2 1 ]}.

Lemma appended_packet_lost_witness :
  exists w1 bs w2, @server_recv_callback calm_net 1 (Some 5%nat) ERR_OK (home_net TCP_WND ES_RECEIVING held (Some 0%nat) pieces) = Ok (ERR_OK, w1) /\
    @serve calm_net good_flash 2 w1 = Ok (bs, w2) /\ is_Some (t_heap (n_tcp w2) !! 5%nat).
Proof.
  assert (forall q b, held !! q = Some b -> p_next b = None -> p_ref b = 1 -> chain held (Some q) [q] /\ single held [q]) as Hh.
  { intros q b Hb Hn Hr. split; [split; [done|]; now exists b|]. intros y b' Hy%list_elem_of_singleton Hb'. subst y. congruence. }
  destruct (@appended_packet_lost calm_net good_flash 1001 query 0 1 (home_pcb TCP_WND) 0 []
    (home_net TCP_WND ES_RECEIVING held (Some 0%nat) pieces) 5 [] [73; 68] 0) as (w1 & E & H).
  - split; try done; [now right|]. apply own_frame; now apply (Hh 0%nat (mkPbuf None [42] 1 1)).
  - destruct (Hh 5%nat (mkPbuf None [73; 68] 2 1)) as [H1 H2]; try reflexivity. split; [exact H1|exact H2|reflexivity..].
  - intros y Hy%list_elem_of_singleton. subst y. rewrite not_elem_of_cons. split; [discriminate|apply not_elem_of_nil].
  - cbn. lia.
  - cbn. lia.
  - apply pieces_calm.
  - assert (match @server_recv_callback calm_net 1 (Some 5%nat) ERR_OK (home_net TCP_WND ES_RECEIVING held (Some 0%nat) pieces) with
            | Ok (_, w1) => match @serve calm_net good_flash 2 w1 with Ok _ => true | _ => false end
            | _ => false
            end = true) as Hrun by (vm_compute; reflexivity).
    rewrite E in Hrun. destruct (@serve calm_net good_flash 2 w1) as [[bs w2]| |] eqn:E2; [|discriminate..].
    exists w1, bs, w2. split; [exact E|]. split; [exact E2|exact (H bs w2 E2)].
Defined.
