(* ===== verification/ServerCopy.v ===== *)
(** * ServerCopy: blocks that are read from a connection

    [ethernet_copy_data] on the server's buffers: the bytes it copies are the
    next ones of the peer's stream; a block longer than what the receive
    window can still hold never arrives; and the packets that Scpi.v takes
    from a list are the consecutive pieces of the stream, so that what is
    shown there of a block holds of what the peer sent. *)

From Stdlib Require Import ZArith Lia.
From stdpp Require Import base numbers list gmap.
From S2P Require Import Prelude Hw Flash Crc Config Board ScpiCore Scpi Pbuf Tcp Server ServerStream.
#[local] Open Scope c_scope.

(** ** A packet takes a turn *)

Section Ticks.
Context `{TE : TcpEnv} `{FE : FlashEnv}.
Variable ts : list tick.
Let P (w : net) : Prop := n_ticks w = ts.

#[local] Instance ticks_tcp : Within (fun _ : tcp => True) P.
Proof. now split. Qed.
#[local] Instance ticks_es : Within (fun _ : server_state => True) P.
Proof. now split. Qed.
#[local] Instance ticks_store : Within (fun _ : store => True) P.
Proof. now split. Qed.

Lemma ticks_on_tcp {A} (m : M tcp A) : keeps P (on_tcp m).
Proof. refine (keeps_zoom (fun _ => True) _ _). apply keeps_True. Qed.
Lemma ticks_on_heap {A} (m : M heap A) : keeps P (on_heap m).
Proof. apply ticks_on_tcp. Qed.
Lemma ticks_set_es f : keeps P (set_es f).
Proof. refine (keeps_zoom (fun _ => True) _ _). apply keeps_True. Qed.
Lemma ticks_config {A} (m : M store A) : keeps P (zoom m).
Proof. refine (keeps_zoom (fun _ => True) _ _). apply keeps_True. Qed.
Lemma ticks_netif f : keeps P (set_netif f).
Proof. now apply keeps_modify. Qed.
Lemma ticks_timers f : keeps P (set_timers f).
Proof. now apply keeps_modify. Qed.
Lemma ticks_mac v : keeps P (set_mac v).
Proof. now apply keeps_modify. Qed.
Lemma ticks_called n : keeps P (called n).
Proof. now apply keeps_modify. Qed.
#[local] Hint Resolve ticks_on_tcp ticks_on_heap ticks_set_es ticks_config ticks_netif ticks_timers ticks_mac ticks_called : keeps.

Lemma ticks_close c : keeps P (server_connection_close c).
Proof. unfold server_connection_close. keeping. Qed.
Lemma ticks_send_loop fuel c : keeps P (send_loop fuel c).
Proof. induction fuel; cbn [send_loop]; unfold es; keeping. Qed.
#[local] Hint Resolve ticks_close ticks_send_loop : keeps.

Lemma ticks_server_send c : keeps P (server_send c).
Proof. unfold server_send, LocalTime. keeping. Qed.
#[local] Hint Resolve ticks_server_send : keeps.

Lemma ticks_recv_callback c q err : keeps P (server_recv_callback c q err).
Proof. unfold server_recv_callback, LocalTime, es. keeping. Qed.
Lemma ticks_poll_callback c : keeps P (server_poll_callback c).
Proof. unfold server_poll_callback, es. keeping. Qed.
Lemma ticks_accept_callback c : keeps P (server_accept_callback c).
Proof. unfold server_accept_callback, LocalTime. keeping. Qed.
#[local] Hint Resolve ticks_recv_callback ticks_poll_callback ticks_accept_callback : keeps.

Lemma ticks_abandon c r : keeps P (tcp_abandon c r).
Proof. unfold tcp_abandon, TCP_EVENT_ERR, server_err_callback. keeping. Qed.
#[local] Hint Resolve ticks_abandon : keeps.

Lemma ticks_receive c s q : keeps P (tcp_receive c s q).
Proof. unfold tcp_receive, receive_next. keeping. Qed.
#[local] Hint Resolve ticks_receive : keeps.

Lemma ticks_process c s q : keeps P (tcp_process c s q).
Proof. unfold tcp_process, set_tcp_state, time_wait, TCP_EVENT_ACCEPT, tcp_abort. keeping. Qed.
Lemma ticks_listen c s : keeps P (tcp_listen_input c s).
Proof.
  unfold tcp_listen_input, tcp_alloc, tcp_kill_timewait, tcp_kill_prio, tcp_kill, memp_malloc_pcb, tcp_abort. keeping.
Qed.
Lemma ticks_deliver c s q data fin : keeps P (tcp_deliver c s q data fin).
Proof.
  unfold tcp_deliver, TCP_EVENT_SENT, server_sent_callback, TCP_EVENT_RECV, TCP_EVENT_CLOSED, tcp_abort. keeping.
Qed.
#[local] Hint Resolve ticks_process ticks_listen ticks_deliver : keeps.

Lemma ticks_frame f : keeps P (ethernetif_input f).
Proof.
  unfold ethernetif_input, tcp_input, tcp_timewait_input, TCP_EVENT_ERR, server_err_callback, remove_pcb. keeping.
Qed.

Lemma ticks_link_callback : keeps P ethernet_link_callback.
Proof.
  unfold ethernet_link_callback, netif_set_addr, netif_set_ipaddr, netif_set_up, netif_set_down, tcp_abort. keeping.
Qed.
#[local] Hint Resolve ticks_link_callback : keeps.

Lemma ticks_periodic now link found : keeps P (lwip_periodic_handle now link found).
Proof.
  unfold lwip_periodic_handle, netif_set_link_up, netif_set_link_down, tcp_slowtmr, TCP_EVENT_POLL. keeping.
Qed.

Lemma ticks_clear : keeps P ethernet_clear_packet.
Proof. unfold ethernet_clear_packet, es. keeping. Qed.
End Ticks.

Section Copy.
Context `{TE : TcpEnv} `{FE : FlashEnv}.

Lemma poll_ticks w w' : poll_network w = Ok (tt, w') -> length (n_ticks w) = S (length (n_ticks w')).
Proof.
  intros E. unfold poll_network in E. erewrite bind_ok in E by reflexivity. destruct (n_ticks w) as [|t ts] eqn:Et; [done|].
  erewrite bind_ok in E by reflexivity. apply bind_inv in E as ([] & w1 & E1 & E). cbn [length]. f_equal.
  set (w0 := mkNet _ _ _ _ _ _ _ _ _) in E1. assert (n_ticks w1 = ts) as H1.
  { destruct (tk_frame t) as [f|]; [|now injection E1 as <-]. exact (ticks_frame ts f w0 tt w1 eq_refl E1). }
  erewrite bind_ok in E by reflexivity. pose proof (ticks_periodic ts _ _ _ w1 tt w' H1 E) as H2. now rewrite H2.
Qed.

Lemma wait_ticks fuel w w' : wait_pin fuel w = Ok (tt, w') -> (length (n_ticks w') < length (n_ticks w))%nat.
Proof.
  revert w. induction fuel as [|fuel IH]; intros w E; [done|]. cbn [wait_pin] in E. apply bind_inv in E as ([] & w1 & E1 & E).
  apply poll_ticks in E1. unfold es in E. erewrite bind_ok in E by reflexivity. destruct (es_pin (n_es w1)).
  - injection E as <-. lia.
  - apply IH in E. lia.
Qed.

(** Every packet takes one turn at least. *)
Lemma next_ticks w w' : Server.ethernet_next_packet w = Ok (tt, w') -> (length (n_ticks w') < length (n_ticks w))%nat.
Proof.
  intros E. unfold Server.ethernet_next_packet in E. apply bind_inv in E as ([] & w1 & E1 & E).
  pose proof (ticks_clear (n_ticks w) w tt w1 eq_refl E1) as Ht. erewrite bind_ok in E by reflexivity.
  apply wait_ticks in E. now rewrite Ht in E.
Qed.

Lemma bind_ext {S A B} (m : M S A) (f g : A -> M S B) s :
  (forall a s', m s = Ok (a, s') -> f a s' = g a s') -> (m ≫= f) s = (m ≫= g) s.
Proof. intros H. unfold mbind, M_bind. destruct (m s) as [[a s']| |]; [now apply H|done..]. Qed.

Lemma deref_same {S A} e (o : option A) (s s' : S) a : deref e o s = Ok (a, s') -> o = Some a /\ s' = s.
Proof. destruct o; [intros [= -> ->]|]; done. Qed.

Lemma heap_read_same x w b w' : on_heap (pbuf_at x) w = Ok (b, w') -> t_heap (n_tcp w) !! x = Some b /\ w' = w.
Proof.
  intros E. unfold on_heap, on_tcp in E. apply zoom_inv in E as (t & E & ->). apply zoom_inv in E as (h & E & ->).
  unfold pbuf_at in E. apply bind_inv in E as (o & h' & [= <- <-] & E). apply deref_same in E as [E ->]. split; [exact E|].
  now destruct w as [[] ? ? ? ? ? ? ? ?].
Qed.

(** The fuel is enough: the rounds stop for want of a turn only. *)
Lemma copy_rounds_fuel fuel1 fuel2 len i offset w :
  (S (length (n_ticks w)) < fuel1)%nat -> (S (length (n_ticks w)) < fuel2)%nat ->
  copy_rounds fuel1 len i offset w = copy_rounds fuel2 len i offset w.
Proof.
  revert fuel2 i offset w. induction fuel1 as [|fuel1 IH]; intros fuel2 i offset w H1 H2; [lia|]. destruct fuel2 as [|fuel2]; [lia|].
  cbn [copy_rounds]. destruct (i <? len); [|done]. apply bind_ext. intros e w1 [= <- <-].
  apply bind_ext. intros q w1 [_ ->]%deref_same. apply bind_ext. intros b w1 [_ ->]%heap_read_same.
  apply bind_ext. intros part w1 [_ ->]%deref_same. cbv zeta. set (i1 := i + _). apply bind_ext. intros [] w1 E.
  unfold mbind, M_bind. enough (copy_rounds fuel1 len i1 0 w1 = copy_rounds fuel2 len i1 0 w1) as -> by done.
  destruct (i1 <? len) eqn:Hi; cbn [when] in E.
  - apply next_ticks in E. apply IH; lia.
  - destruct fuel1, fuel2; try lia. cbn [copy_rounds]. now rewrite Hi.
Qed.

(** ** The bytes that are copied *)

(** Scpi.v's copy, which takes its packets from a list, copies [bs] when the
    list begins with [ps] and the present packet is [payload]. *)
Definition replays (payload : list Z) (ps : list (list Z)) (len i offset : Z) (bs : list Z) : Prop :=
  forall fuel f rest, (S (length ps) < fuel)%nat -> fw_pin f = Packet payload -> fw_packets f = ps ++ rest ->
  exists f', copy_data fuel len i offset f = Ok (bs, f') /\ fw_packets f' = rest.

Lemma replays_done payload len i offset : len <= i -> replays payload [] len i offset [].
Proof.
  intros Hi fuel f rest Hf _ Hps. destruct fuel as [|fuel]; [lia|]. cbn [copy_data].
  rewrite (proj2 (Z.ltb_ge _ _)) by lia. now exists f.
Qed.

Lemma pin_payload_ok f payload : fw_pin f = Packet payload -> pin_payload f = Ok (payload, f).
Proof. intros E. unfold pin_payload. erewrite bind_ok by reflexivity. now rewrite E. Qed.

(** The last round. *)
Lemma replays_last payload len i offset n :
  i < len -> 0 <= offset -> n = len - i -> u32 (Z.of_nat (length payload) - offset) >= n -> offset + n <= Z.of_nat (length payload) ->
  replays payload [] len i offset (take (Z.to_nat n) (drop (Z.to_nat offset) payload)).
Proof.
  intros Hi Ho -> Hu Hl fuel f rest Hf Hp Hps. destruct fuel as [|[|fuel]]; [cbn in Hf; lia..|].
  cbn [copy_data]. rewrite (proj2 (Z.ltb_lt _ _)) by lia. rewrite (bind_ok _ _ _ _ _ (pin_payload_ok _ _ Hp)).
  rewrite Z.min_r by lia. unfold read_bytes. rewrite decide_True by lia. erewrite bind_ok by reflexivity. cbv zeta.
  replace (i + (len - i)) with len by lia. rewrite Z.ltb_irrefl. cbn [when]. erewrite bind_ok by reflexivity.
  erewrite bind_ok by reflexivity. rewrite app_nil_r. now exists f.
Qed.

(** A round that takes the next packet. *)
Lemma replays_next payload p2 ps len i offset n bs :
  0 <= offset -> n = Z.of_nat (length payload) - offset -> 0 <= n < 2 ^ 32 -> i + n < len ->
  replays p2 ps len (i + n) 0 bs ->
  replays payload (p2 :: ps) len i offset (drop (Z.to_nat offset) payload ++ bs).
Proof.
  intros Ho -> Hn Hlt H fuel f rest Hf Hp Hps. destruct fuel as [|fuel]; [lia|].
  cbn [copy_data]. rewrite (proj2 (Z.ltb_lt _ _)) by lia. rewrite (bind_ok _ _ _ _ _ (pin_payload_ok _ _ Hp)).
  rewrite wrap_small, Z.min_l by lia. unfold read_bytes. rewrite decide_True by lia. erewrite bind_ok by reflexivity. cbv zeta.
  rewrite (proj2 (Z.ltb_lt _ _) Hlt). cbn [when]. unfold Scpi.ethernet_next_packet. rewrite bind_assoc.
  erewrite bind_ok by reflexivity. rewrite Hps. cbn [app]. erewrite bind_ok by reflexivity.
  destruct (H fuel (mkFirmware (fw_scpi f) (fw_board f) (fw_mode f) (fw_execute f) (fw_length f) (fw_repeats f) (Packet p2) (ps ++ rest)) rest)
    as (f' & E & Er); [cbn [length] in Hf; lia|done..|].
  exists f'. split; [|exact Er]. unfold set_pin, modify. cbn [fst snd].
  rewrite (bind_ok _ _ _ _ _ E). rewrite take_ge by (rewrite length_drop; lia). reflexivity.
Qed.

(** What the rounds did: [bs] was copied of what was held and the bytes [d]
    that came, and the packets read are the pieces of it. *)
Definition copied (isn : Z) (st : list Z) (n : nat) (c : pcb_id) (p : tcp_pcb) (l : list ptr) (w : net) (payload : list Z)
    (len i offset : Z) (bs : list Z) (w' : net) : Prop :=
  exists d p' l' ps, connected isn (Z.of_nat (n + length d)) c p' l' w' /\
    take n st ++ d = take (n + length d) st /\ (n + length d <= length st)%nat /\ rcv_wnd p' = rcv_wnd p - Z.of_nat (length d) /\
    Z.of_nat (length bs) = Z.max 0 (len - i) /\ bs `prefix_of` drop (Z.to_nat offset) (bytes (t_heap (n_tcp w)) l) ++ d /\
    replays payload ps len i offset bs /\ payload ++ concat ps `prefix_of` bytes (t_heap (n_tcp w)) l ++ d.

Lemma copied_now isn st n c p x l w b len i offset bs :
  connected isn (Z.of_nat n) c p (x :: l) w -> (n <= length st)%nat -> t_heap (n_tcp w) !! x = Some b ->
  Z.of_nat (length bs) = Z.max 0 (len - i) -> bs `prefix_of` drop (Z.to_nat offset) (bytes (t_heap (n_tcp w)) (x :: l)) ->
  replays (payload b) [] len i offset bs -> copied isn st n c p (x :: l) w (payload b) len i offset bs w.
Proof.
  intros H Hn Hb Hl Hp Hr. exists [], p, (x :: l), []. cbn [length concat]. rewrite Nat.add_0_r, Z.sub_0_r, !app_nil_r.
  do 7 (split; [done|]). rewrite (bytes_cons _ x l b Hb). now apply prefix_app_r.
Qed.

Lemma copied_next isn st n c p p1 x l w w0 w1 b x1 l1 b1 d1 len i offset k bs w2 :
  t_heap (n_tcp w) !! x = Some b -> t_heap (n_tcp w1) !! x1 = Some b1 -> k = p_len b - offset -> 0 <= offset -> 0 <= k < 2 ^ 32 -> i + k < len ->
  streams isn st n c d1 p l w0 p1 (x1 :: l1) w1 -> bytes (t_heap (n_tcp w0)) l = bytes (t_heap (n_tcp w)) l ->
  copied isn st (n + length d1) c p1 (x1 :: l1) w1 (payload b1) len (i + k) 0 bs w2 ->
  copied isn st n c p (x :: l) w (payload b) len i offset (drop (Z.to_nat offset) (payload b) ++ bs) w2.
Proof.
  intros Hb Hb1 Hk Ho Hkr Hlt ((_ & Hw1 & Hy1 & _) & S1 & _ & _) Hy0 (d & p2 & l2 & ps & H2 & S2 & L2 & Hw2 & Hl & Hp & Hr & Hc).
  unfold p_len in *. exists (d1 ++ d), p2, l2, (payload b1 :: ps). rewrite length_app, Nat.add_assoc. split; [exact H2|].
  split; [now rewrite app_assoc, S1|]. split; [exact L2|]. split; [lia|]. rewrite length_app, length_drop. split; [lia|].
  rewrite (bytes_cons _ x l b Hb). rewrite Hy1, Hy0, drop_0 in Hp. rewrite Hy1, Hy0 in Hc. split; [|split].
  - rewrite drop_app_le by lia. rewrite <- app_assoc. apply prefix_app. now rewrite app_assoc.
  - now apply (replays_next _ _ _ _ _ _ k).
  - cbn [concat]. rewrite <- app_assoc. apply prefix_app. now rewrite app_assoc.
Qed.

Lemma copy_calm fuel isn st n c p x l w b len i offset :
  connected isn (Z.of_nat n) c p (x :: l) w -> (n <= length st)%nat -> Z.of_nat (length st) <= 2 ^ 30 -> all_calm isn st c w ->
  t_heap (n_tcp w) !! x = Some b -> 0 <= offset <= p_len b ->
  Z.of_nat (length (bytes (t_heap (n_tcp w)) (x :: l)) + (length st - n)) < 2 ^ 32 ->
  copy_rounds fuel len i offset w = Hang \/
  exists bs w', copy_rounds fuel len i offset w = Ok (bs, w') /\ copied isn st n c p (x :: l) w (payload b) len i offset bs w'.
Proof.
  revert n p x l w b i offset. induction fuel as [|fuel IH]; intros n p x l w b i offset H Hn Hst Hcalm Hb Ho Hsz; [now left|].
  cbn [copy_rounds]. destruct (Z.ltb_spec i len) as [Hi|Hi].
  2:{ right. exists [], w. split; [done|]. apply copied_now; try done; [cbn; lia|now apply prefix_nil|now apply replays_done]. }
  pose proof (ow_chain _ _ _ (co_owned _ _ _ _ _ _ H)) as (Hq & _). unfold es. erewrite bind_ok by reflexivity. rewrite Hq. cbn [deref].
  erewrite bind_ok by reflexivity. rewrite (bind_ok _ _ _ _ _ (on_heap_ok _ w _ _ (pbuf_at_ok _ _ _ Hb))).
  replace (with_heap (t_heap (n_tcp w)) w) with w by (now destruct w as [[] ? ? ? ? ? ? ? ?]).
  pose proof Hsz as Hsz0. rewrite (bytes_cons _ x l b Hb), length_app in Hsz0. unfold p_len in *.
  rewrite wrap_small by lia. set (k := Z.min _ _). unfold read_bytes. rewrite decide_True by lia. erewrite bind_ok by reflexivity. cbv zeta.
  destruct (Z.ltb_spec (i + k) len) as [Hk|Hk]; cbn [when].
  - destruct (next_calm isn st n c p (x :: l) w H Hn Hst Hcalm) as [Eh|(d1 & p1 & l1 & w1 & w0 & E1 & Hne & S1 & Hy0 & _)].
    { left. unfold mbind at 1, M_bind at 1. now rewrite Eh. }
    rewrite (bind_ok _ _ _ _ _ E1). destruct l1 as [|x1 l1]; [done|]. cbn [tail] in S1, Hy0.
    pose proof S1 as ((H1 & _ & Hy1 & _) & _ & Hn1 & Hc1). rewrite <- Nat2Z.inj_add in H1.
    pose proof (ow_chain _ _ _ (co_owned _ _ _ _ _ _ H1)) as (_ & b1 & Hb1 & _).
    destruct (IH (n + length d1)%nat p1 x1 l1 w1 b1 (i + k) 0 H1 Hn1 Hst Hc1 Hb1) as [Eh|(bs & w2 & E2 & C2)].
    + unfold p_len. lia.
    + rewrite Hy1, Hy0, length_app. lia.
    + left. unfold mbind at 1, M_bind at 1. now rewrite Eh.
    + right. rewrite (bind_ok _ _ _ _ _ E2). exists (drop (Z.to_nat offset) (payload b) ++ bs), w2. split.
      * rewrite take_ge by (rewrite length_drop; lia). reflexivity.
      * apply (copied_next isn st n c p p1 x l w w0 w1 b x1 l1 b1 d1 len i offset k); try done; unfold p_len; lia.
  - erewrite bind_ok by reflexivity. destruct fuel as [|fuel]; [now left|right]. cbn [copy_rounds].
    rewrite (proj2 (Z.ltb_ge _ _)) by lia. erewrite bind_ok by reflexivity.
    exists (take (Z.to_nat k) (drop (Z.to_nat offset) (payload b))), w. rewrite app_nil_r. split; [reflexivity|].
    apply copied_now; try done.
    + rewrite length_take, length_drop. lia.
    + rewrite (bytes_cons _ x l b Hb), drop_app_le by lia. etransitivity; [apply prefix_take|]. now apply prefix_app_r.
    + apply replays_last; try lia. rewrite wrap_small; lia.
Qed.

(** ** Properties *)

(** The server holds the buffers from [x] on, of which [b] is the one being
    read; the sizes are those of a program with 32-bit lengths. *)
Record reading (isn : Z) (st : list Z) (n : nat) (c : pcb_id) (p : tcp_pcb) (x : ptr) (l : list ptr) (b : pbuf) (offset : Z) (w : net) : Prop := {
    rd_connected : connected isn (Z.of_nat n) c p (x :: l) w;
    rd_sent : (n <= length st)%nat;
    rd_near : Z.of_nat (length st) <= 2 ^ 30;
    rd_calm : all_calm isn st c w;
    rd_pin : t_heap (n_tcp w) !! x = Some b;
    rd_offset : 0 <= offset <= p_len b;
    rd_size : Z.of_nat (length (bytes (t_heap (n_tcp w)) (x :: l)) + (length st - n)) < 2 ^ 32;
  }.

(** C11: The bytes [ethernet_copy_data] copies are the next ones of what the
    server holds and the peer's stream, as many as were asked for; it stops
    short only to wait.  The packets it went through are consecutive pieces
    of that stream, and the copy of Scpi.v is the same on the list of them. *)
Theorem block_is_stream isn st n c p x l w b len offset :
  reading isn st n c p x l b offset w -> 0 <= len ->
  Server.ethernet_copy_data len offset w = Hang \/
  exists bs w' ps, Server.ethernet_copy_data len offset w = Ok (bs, w') /\ Z.of_nat (length bs) = len /\
    bs `prefix_of` drop (Z.to_nat offset) (bytes (t_heap (n_tcp w)) (x :: l)) ++ drop n st /\
    payload b ++ concat ps `prefix_of` bytes (t_heap (n_tcp w)) (x :: l) ++ drop n st /\
    forall f, fw_pin f = Packet (payload b) -> fw_packets f = ps ->
      exists f', Scpi.ethernet_copy_data len offset f = Ok (bs, f') /\ fw_packets f' = [].
Proof.
  intros [H Hn Hst Hcalm Hb Ho Hsz] Hlen. unfold Server.ethernet_copy_data. erewrite bind_ok by reflexivity.
  destruct (copy_calm (S (S (length (n_ticks w)))) isn st n c p x l w b len 0 offset H Hn Hst Hcalm Hb Ho Hsz)
    as [Eh|(bs & w' & E & d & p' & l' & ps & _ & D1 & D2 & _ & Hl & Hp & Hr & Hc)]; [now left|right].
  exists bs, w', ps. split; [exact E|]. split; [lia|]. rewrite (stream_split st n d D1 D2), !app_assoc.
  split; [now apply prefix_app_r|]. split; [now apply prefix_app_r|]. intros f Hf1 Hf2. unfold Scpi.ethernet_copy_data.
  erewrite bind_ok by reflexivity. apply Hr; [rewrite Hf2; lia|exact Hf1|now rewrite app_nil_r].
Qed.

(** C12: A block that is longer than what the server holds of it and the
    receive window together never arrives, whatever the peer sends and
    however long the server waits, since nothing opens the window again. *)
Theorem long_block_never_arrives isn st n c p x l w b len offset fuel :
  reading isn st n c p x l b offset w ->
  Z.of_nat (length (bytes (t_heap (n_tcp w)) (x :: l))) - offset + rcv_wnd p < len ->
  copy_rounds fuel len 0 offset w = Hang.
Proof.
  intros [H Hn Hst Hcalm Hb Ho Hsz] Hlen.
  destruct (copy_calm fuel isn st n c p x l w b len 0 offset H Hn Hst Hcalm Hb Ho Hsz)
    as [Eh|(bs & w' & E & d & p' & l' & ps & H' & D1 & D2 & Hw & Hl & Hp & _)]; [exact Eh|exfalso].
  apply prefix_length in Hp. rewrite length_app, length_drop in Hp. pose proof (co_wnd _ _ _ _ _ _ H').
  rewrite (bytes_cons _ x l b Hb), length_app in *. unfold p_len in Ho. lia.
Qed.
End Copy.

(** ** Witnesses *)

(** The server holds the end of a command and the first byte of its block. *)
Definition first_packet : heap := {[ 0%nat := mkPbuf None [35; 49; 53; 7] 4 1 ]}.

Lemma first_reading wnd :
  0 <= wnd <= TCP_WND ->
  reading 1001 query 0 1 (home_pcb wnd) 0 [] (mkPbuf None [35; 49; 53; 7] 4 1) 3
    (home_net wnd ES_RECEIVING first_packet (Some 0%nat) pieces).
Proof.
  intros Hw. split; try (cbn; lia); try reflexivity.
  - split; try done; [now right|]. apply own_frame.
    + split; [done|]. now exists (mkPbuf None [35; 49; 53; 7] 4 1).
    + intros y b Hy%list_elem_of_singleton Hb. subst y. injection Hb as <-. reflexivity.
  - apply pieces_calm.
  - unfold p_len. cbn. lia.
Qed.

Lemma block_is_stream_witness :
  exists bs w', @Server.ethernet_copy_data calm_net good_flash 5 3 (home_net TCP_WND ES_RECEIVING first_packet (Some 0%nat) pieces) = Ok (bs, w') /\
    Z.of_nat (length bs) = 5 /\ bs `prefix_of` [7; 42; 73; 68; 78; 63; 10].
Proof.
  destruct (@block_is_stream calm_net good_flash 1001 query 0 1 (home_pcb TCP_WND) 0 []
    (home_net TCP_WND ES_RECEIVING first_packet (Some 0%nat) pieces) (mkPbuf None [35; 49; 53; 7] 4 1) 5 3) as [E|(bs & w' & ps & E & H1 & H2 & _)].
  - apply first_reading. split; [discriminate|reflexivity].
  - lia.
  - vm_compute in E. discriminate E.
  - exists bs, w'. split; [exact E|]. split; [exact H1|exact H2].
Defined.

Lemma long_block_never_arrives_witness :
  @copy_rounds calm_net good_flash 100 6 0 3 (home_net 3 ES_RECEIVING first_packet (Some 0%nat) pieces) = Hang.
Proof.
  apply (@long_block_never_arrives calm_net good_flash 1001 query 0 1 (home_pcb 3) 0 [] _ (mkPbuf None [35; 49; 53; 7] 4 1)).
  - apply first_reading. split; [discriminate|]. unfold TCP_WND, TCP_MSS. lia.
  - vm_compute. reflexivity.
Defined.
