(* ===== verification/ServerClose.v ===== *)
(** * ServerClose: how connections begin and end

    A peer that closes its connection, with and without having sent
    something; a second peer while the server is busy; and the timers of
    the network loop. *)

From Stdlib Require Import ZArith Lia.
From stdpp Require Import base numbers list gmap.
From S2P Require Import Prelude Hw Flash Crc Config Pbuf Tcp Server ServerStream.
#[local] Open Scope c_scope.

Section ServerClose.
Context `{TE : TcpEnv} `{FE : FlashEnv}.

(** ** The control block *)

Lemma on_pcb_update c f w p :
  t_pcbs (n_tcp w) !! c = Some p ->
  on_tcp (pcb_update c f) w = Ok (tt, set_pcb_at c (f p) (t_heap (n_tcp w)) w).
Proof. intros E. exact (on_tcp_ok _ w _ _ (pcb_update_ok c _ p f E)). Qed.

Lemma set_pcb_twice c p1 p2 h1 h2 w : set_pcb_at c p2 h2 (set_pcb_at c p1 h1 w) = set_pcb_at c p2 h2 w.
Proof. unfold set_pcb_at. cbn. rewrite insert_insert_eq. now destruct w as [[] ? ? ? ? ? ? ? ?]. Qed.

Lemma pcb_of_set c p h w : t_pcbs (n_tcp (set_pcb_at c p h w)) !! c = Some p.
Proof. apply lookup_insert_eq. Qed.

Lemma heap_of_set c p h w : t_heap (n_tcp (set_pcb_at c p h w)) = h.
Proof. reflexivity. Qed.

(** What the server does to a block before it closes the connection. *)
Definition unhooked (p : tcp_pcb) : tcp_pcb :=
  with_poll false 0 (with_err false (with_recv RecvNone (with_sent false (with_arg false p)))).

Lemma connection_close_run c p w :
  t_pcbs (n_tcp w) !! c = Some p ->
  server_connection_close (Some c) w =
  (on_tcp (tcp_close c);; set_es (set_pcb None);; set_es (set_state ES_NONE);; on_tcp (tcp_accept true))
    (set_pcb_at c (unhooked p) (t_heap (n_tcp w)) w).
Proof.
  intros E. unfold server_connection_close, tcp_arg, tcp_sent, tcp_recv, tcp_err, tcp_poll.
  rewrite (bind_ok _ _ _ _ _ (on_pcb_update c _ w p E)).
  do 4 (rewrite (bind_ok _ _ _ _ _ (on_pcb_update c _ _ _ (pcb_of_set c _ _ _))); rewrite heap_of_set, set_pcb_twice).
  reflexivity.
Qed.

(** ** The peer closes its side *)

(** What the server does when it has nothing left to send. *)
Definition closed_es (w : net) : server_state :=
  set_state ES_CLOSING (set_activity (n_time w) (n_es w)).

Lemma event_closed_run c p w :
  t_pcbs (n_tcp w) !! c = Some p -> cb_recv p = RecvServer -> es_pout (n_es w) = None ->
  TCP_EVENT_CLOSED c w =
  (on_tcp (tcp_close c);; set_es (set_pcb None);; set_es (set_state ES_NONE);; on_tcp (tcp_accept true);; mret ERR_OK)
    (set_pcb_at c (unhooked p) (t_heap (n_tcp w)) (over (closed_es w) w)).
Proof.
  intros E Hr Hp. unfold TCP_EVENT_CLOSED. rewrite (bind_ok _ _ _ _ _ (on_pcb_at c w p E)), Hr.
  unfold server_recv_callback, LocalTime, es. erewrite bind_ok by reflexivity. erewrite bind_ok by reflexivity.
  erewrite bind_ok by reflexivity. erewrite bind_ok by reflexivity.
  set (w1 := over (set_state ES_CLOSING _) _). change (es_pout (n_es w1)) with (es_pout (n_es w)). rewrite Hp.
  unfold mbind at 1, M_bind at 1. rewrite (connection_close_run c p w1) by exact E.
  replace (set_pcb_at c (unhooked p) (t_heap (n_tcp w1)) w1) with (set_pcb_at c (unhooked p) (t_heap (n_tcp w)) (over (closed_es w) w))
    by (now destruct w as [[] ? ? ? ? ? ? ? ?]).
  unfold mbind, M_bind. repeat case_match; try reflexivity; congruence.
Qed.

(** A segment that only closes the peer's side. *)
Definition fin_of (p : tcp_pcb) (s : segment) : Prop :=
  s_rst s = false /\ s_syn s = false /\ s_fin s = true /\ s_data s = [] /\ s_seqno s = rcv_nxt p.

Lemma receive_fin isn n c p l q lf s w :
  connected isn n c p l w -> fin_of p s -> 0 < rcv_wnd p -> framed (t_heap (n_tcp w)) q lf [] ->
  exists p', tcp_receive c s q w = Ok (false, true, set_pcb_at c p' (t_heap (n_tcp w)) w) /\
    same_conn p p' /\ rcv_wnd p' = rcv_wnd p - 1.
Proof.
  intros H (Hr & Hsy & Hf & Hd & Hs) Hw Hfr. pose proof H as [Hp Hst _ _ _ Hnx Hwn _ _ _]. unfold TCP_WND, TCP_MSS in Hwn.
  unfold tcp_receive. rewrite (bind_ok _ _ _ _ _ (on_pcb_at c w p Hp)), Hf, Hsy, Hst, Hd, Hs.
  change (Z.of_nat (length (@nil Z)) + b2z (true || false)) with 1. cbn [before_close_wait andb Z.ltb Z.compare]. cbv zeta.
  replace (TCP_SEQ_BETWEEN (rcv_nxt p) (rcv_nxt p + 1) (rcv_nxt p + 1 - 1)) with false.
  2:{ symmetry. apply (seq_between _ _ _ (-1) 0); [f_equal; lia|f_equal; lia|lia|lia]. }
  cbn [when]. erewrite bind_ok by reflexivity. rewrite Hnx, in_window, Z.eqb_refl by lia. rewrite (proj2 (Z.leb_le _ _)) by lia. cbn [andb].
  change (u16 (Z.of_nat (length (@nil Z)) - 0)) with 0. unfold receive_next. rewrite Hf, Hsy. cbv zeta. change (0 + b2z (true || false)) with 1.
  rewrite (proj2 (Z.ltb_ge _ _)) by lia. cbn [when andb orb negb]. erewrite bind_ok by reflexivity.
  change (0 + b2z true) with 1. set (p1 := with_rcv_wnd _ _). set (p' := snd (tcp_update_rcv_ann_wnd p1)).
  erewrite bind_ok by (apply (on_tcp_ok _ w); reflexivity).
  pose proof (fr_tot _ _ _ _ Hfr) as Ht. destruct (t_heap (n_tcp w) !! q) as [b|] eqn:Eb; [|done]. injection Ht as Ht.
  erewrite bind_ok by (eapply on_heap_ok; exact (pbuf_at_ok _ _ _ Eb)). rewrite Ht.
  destruct (ann_wnd_same p p1) as (_ & Ew & Hsame); [now repeat split|]. exists p'. split; [reflexivity|]. split; [exact Hsame|].
  unfold p'. rewrite Ew. apply (wrap_small 16). lia.
Qed.

(** The segment, up to the call of the server. *)
Lemma fin_input isn n c p l q lf s w :
  connected isn n c p l w -> fin_of p s -> 0 < rcv_wnd p -> framed (t_heap (n_tcp w)) q lf [] ->
  exists p', state p' = CLOSE_WAIT /\ cb_recv p' = RecvServer /\ refused_data p' = None /\ rcv_wnd p' = rcv_wnd p /\
    tcp_input c s q w =
    (TCP_EVENT_CLOSED c;; on_tcp (tcp_output c);; on_heap (pbuf_free (Some q));; mret tt)
      (set_pcb_at c p' (t_heap (n_tcp w)) w).
Proof.
  intros H Hs Hw Hfr. pose proof H as [Hp Hst Hrc _ Hkp _ Hwn Hes Hpo _]. pose proof Hs as (Hr & Hsy & _).
  destruct (receive_fin isn n c p l q lf s w H Hs Hw Hfr) as (p1 & E & (S1 & S2 & S3 & S4 & S5 & S6) & Hw1).
  set (h := t_heap (n_tcp w)) in *. set (p2 := with_state CLOSE_WAIT p1). set (p3 := with_rcv_wnd (rcv_wnd p) p2).
  exists p3. split; [done|]. split; [cbn; congruence|]. split; [cbn; congruence|]. split; [done|].
  unfold tcp_input. erewrite bind_ok by reflexivity. rewrite Hp, decide_False by (rewrite Hst; discriminate).
  set (w2 := set_pcb_at c p2 h w). erewrite (bind_ok (tcp_process c s q) _ w (Received false true) w2).
  2:{ unfold tcp_process. rewrite (bind_ok _ _ _ _ _ (on_pcb_at c w p Hp)), Hr, Hsy, Hst. cbn [andb].
      rewrite (bind_ok _ _ _ _ _ E). cbn [snd fst when].
      unfold set_tcp_state. rewrite (bind_ok _ _ _ _ _ (on_pcb_update c _ _ _ (pcb_of_set c _ _ _))), heap_of_set, set_pcb_twice. reflexivity. }
  cbv iota. unfold tcp_deliver. rewrite !bind_assoc.
  assert (forall m : M net Z, m w2 = Ok (ERR_OK, w2) -> when (0 <? s_acked s) (m;; mret tt) w2 = Ok (tt, w2)) as Hq.
  { intros m Em. destruct (0 <? s_acked s); [|reflexivity]. cbn [when]. now rewrite (bind_ok _ _ _ _ _ Em). }
  rewrite (bind_ok _ _ _ _ _ (Hq (TCP_EVENT_SENT c) ltac:(
    unfold TCP_EVENT_SENT; rewrite (bind_ok _ _ _ _ _ (on_pcb_at c w2 p2 (pcb_of_set c _ _ _))); destruct (cb_sent p2); [|reflexivity];
    unfold server_sent_callback, server_poll_callback, es; erewrite bind_ok by reflexivity; change (n_es w2) with (n_es w); rewrite Hpo;
    rewrite decide_False by (destruct Hes as [[-> _]| ->]; discriminate); reflexivity))).
  rewrite bind_assoc. erewrite bind_ok by reflexivity. cbn [negb when]. rewrite !bind_assoc.
  rewrite (bind_ok _ _ _ _ _ (on_pcb_at c w2 p2 (pcb_of_set c _ _ _))). change (refused_data p2) with (refused_data p1). rewrite S6, Hkp.
  change (rcv_wnd p2) with (rcv_wnd p1). rewrite (proj2 (Z.eqb_neq _ _)) by lia. cbn [negb when]. rewrite bind_assoc.
  erewrite (bind_ok (on_tcp _)) by (apply on_tcp_ok; reflexivity).
  replace (u16 (rcv_wnd p1 + 1)) with (rcv_wnd p) by (unfold TCP_WND, TCP_MSS in Hwn; rewrite (wrap_small 16) by lia; lia).
  fold p3. change (over _ w2) with (set_pcb_at c p3 h w2). unfold w2. rewrite set_pcb_twice. rewrite bind_assoc.
  unfold mbind, M_bind, mret, M_ret. now destruct (TCP_EVENT_CLOSED c _) as [[? ?]| |].
Qed.

(** *** Closing the block *)

(** Data were received and never acknowledged to lwIP: a reset is sent and
    the block freed. *)
Lemma tcp_close_reset c p w :
  t_pcbs (n_tcp w) !! c = Some p -> state p = CLOSE_WAIT -> refused_data p = None -> rcv_wnd p <> TCP_WND ->
  on_tcp (tcp_close c) w =
  Ok (0, over (mkTcp (t_heap (n_tcp w)) (delete c (t_pcbs (n_tcp w))) (t_accept (n_tcp w)) (t_sent (n_tcp w) ++ [SentRst c])) w).
Proof.
  intros E Hst Hkp Hw. destruct w as [[h pcbs acc snt] e i tm now mac calls sto ts]. cbn in E. apply on_tcp_ok. cbn [n_tcp t_heap t_pcbs t_accept t_sent].
  unfold tcp_close. set (t := mkTcp h pcbs acc snt). rewrite (bind_ok _ _ _ _ _ (pcb_at_ok c t p E)), Hst.
  erewrite bind_ok by reflexivity. unfold tcp_close_shutdown.
  set (t1 := mkTcp _ _ _ _). assert (t_pcbs t1 !! c = Some (with_rx_closed true p)) as E1 by apply lookup_insert_eq.
  rewrite (bind_ok _ _ _ _ _ (pcb_at_ok c t1 _ E1)). cbn [state with_rx_closed refused_data rcv_wnd]. rewrite Hst, Hkp.
  rewrite (proj2 (Z.eqb_neq _ _) Hw). change (true && bool_decide _ && _) with true. cbv iota.
  erewrite bind_ok by reflexivity. unfold tcp_pcb_purge. rewrite bind_assoc.
  erewrite bind_ok by (apply pcb_at_ok; exact E1). cbn [state with_rx_closed refused_data]. rewrite Hst, Hkp.
  erewrite bind_ok by reflexivity. erewrite bind_ok by reflexivity. cbn. now rewrite delete_insert_eq.
Qed.

(** Everything received was acknowledged: a fin is sent, if there is room for
    it, and the block waits for its acknowledgement. *)
Lemma tcp_close_fin c p w :
  t_pcbs (n_tcp w) !! c = Some p -> state p = CLOSE_WAIT -> refused_data p = None -> rcv_wnd p = TCP_WND ->
  fin_err (t_sent (n_tcp w)) c = 0 ->
  on_tcp (tcp_close c) w =
  Ok (0, over (mkTcp (t_heap (n_tcp w)) (<[c := with_state LAST_ACK (with_rx_closed true p)]> (t_pcbs (n_tcp w)))
                 (t_accept (n_tcp w)) (t_sent (n_tcp w) ++ [SentFin c])) w).
Proof.
  intros E Hst Hkp Hw Hf. destruct w as [[h pcbs acc snt] e i tm now mac calls sto ts]. cbn in E, Hf. apply on_tcp_ok. cbn [n_tcp t_heap t_pcbs t_accept t_sent].
  unfold tcp_close. set (t := mkTcp h pcbs acc snt). rewrite (bind_ok _ _ _ _ _ (pcb_at_ok c t p E)), Hst.
  erewrite bind_ok by reflexivity. unfold tcp_close_shutdown.
  set (t1 := mkTcp _ _ _ _). assert (t_pcbs t1 !! c = Some (with_rx_closed true p)) as E1 by apply lookup_insert_eq.
  rewrite (bind_ok _ _ _ _ _ (pcb_at_ok c t1 _ E1)). cbn [state with_rx_closed refused_data rcv_wnd]. rewrite Hst, Hkp, Hw, Z.eqb_refl.
  change (true && bool_decide _ && _) with false. cbv iota. unfold close_to, tcp_send_fin. rewrite bind_assoc. erewrite bind_ok by reflexivity.
  change (t_sent t1) with snt. rewrite Hf. change (0 =? 0) with true. cbn [when].
  set (t2 := mkTcp h (t_pcbs t1) acc (snt ++ [SentFin c])). erewrite (bind_ok _ _ t1 0 t2) by reflexivity.
  change (0 =? 0) with true. cbn [when]. unfold tcp_output. rewrite bind_assoc.
  rewrite (bind_ok _ _ _ _ _ (pcb_update_ok c t2 _ (with_state LAST_ACK) E1)). rewrite bind_assoc.
  erewrite bind_ok by (apply pcb_at_ok; apply lookup_insert_eq). cbn. now rewrite insert_insert_eq.
Qed.

(** C23: When a peer that has sent data closes its connection, lwIP goes on
    to use the connection's control block after the server's answer has
    freed it. *)
Theorem close_after_data_dangles isn n c p l q lf s w :
  connected isn n c p l w -> fin_of p s -> 0 < rcv_wnd p < TCP_WND -> framed (t_heap (n_tcp w)) q lf [] ->
  tcp_input c s q w = Fault DanglingPtr.
Proof.
  intros H Hs Hw Hfr. destruct (fin_input isn n c p l q lf s w H Hs ltac:(lia) Hfr) as (p' & Hst & Hrc & Hkp & Hwn & ->).
  set (w1 := set_pcb_at c p' _ w). pose proof (co_pout _ _ _ _ _ _ H) as Hpo.
  unfold mbind at 1, M_bind at 1. rewrite (event_closed_run c p' w1 (pcb_of_set c _ _ _) Hrc Hpo).
  erewrite bind_ok by (apply (tcp_close_reset c (unhooked p')); [apply pcb_of_set|exact Hst|exact Hkp|change (rcv_wnd p' <> TCP_WND); lia]).
  erewrite bind_ok by reflexivity. erewrite bind_ok by reflexivity. erewrite bind_ok by reflexivity. unfold mret at 1, M_ret at 1.
  unfold mbind at 1, M_bind at 1. rewrite output_dangling; [reflexivity|]. cbn. apply lookup_delete_eq.
Qed.

(** C24: When a peer closes its connection without having sent data, and the
    fin can be sent, the server closes its side and accepts the next connection. *)
Theorem close_without_data isn n c p l q lf s w :
  connected isn n c p l w -> fin_of p s -> rcv_wnd p = TCP_WND -> framed (t_heap (n_tcp w)) q lf [] ->
  fin_err (t_sent (n_tcp w)) c = 0 ->
  exists w', tcp_input c s q w = Ok (tt, w') /\ es_state (n_es w') = ES_NONE /\ es_pcb (n_es w') = None /\
    t_accept (n_tcp w') = true /\ t_sent (n_tcp w') = t_sent (n_tcp w) ++ [SentFin c] /\
    (forall y, y ∉ q :: lf -> t_heap (n_tcp w') !! y = t_heap (n_tcp w) !! y) /\
    state <$> t_pcbs (n_tcp w') !! c = Some LAST_ACK.
Proof.
  intros H Hs Hw Hfr Hf. destruct (fin_input isn n c p l q lf s w H Hs ltac:(rewrite Hw; reflexivity) Hfr) as (p' & Hst & Hrc & Hkp & Hwn & ->).
  set (w1 := set_pcb_at c p' _ w). pose proof (co_pout _ _ _ _ _ _ H) as Hpo.
  unfold mbind at 1, M_bind at 1. rewrite (event_closed_run c p' w1 (pcb_of_set c _ _ _) Hrc Hpo).
  erewrite bind_ok by (apply (tcp_close_fin c (unhooked p')); [apply pcb_of_set|exact Hst|exact Hkp|change (rcv_wnd p' = TCP_WND); congruence|exact Hf]).
  erewrite bind_ok by reflexivity. erewrite bind_ok by reflexivity. erewrite bind_ok by reflexivity. unfold mret at 1, M_ret at 1.
  set (w2 := over _ _). rewrite (bind_ok _ _ _ _ _ (on_tcp_output c w2 _ (lookup_insert_eq _ _ _))).
  destruct (free_frame _ _ _ (fr_chain _ _ _ _ Hfr) (fr_single _ _ _ _ Hfr)) as (k & h & E & F).
  rewrite (bind_ok _ _ _ _ _ (on_heap_ok _ w2 _ _ E)). exists (with_heap h w2). split; [reflexivity|].
  repeat (split; [reflexivity|]). split; [exact F|]. cbn. now rewrite lookup_insert_eq.
Qed.

(** ** A second peer *)

(** A connection request, and the answer to the server's. *)
Definition syn_of (s : segment) : Prop := s_rst s = false /\ s_ack s = false /\ s_syn s = true.
Definition ack_of (s : segment) : Prop :=
  s_rst s = false /\ s_syn s = false /\ s_ack s = true /\ s_expected s = true /\ s_fin s = false /\ s_data s = [].

Definition with_pcbs (m : gmap pcb_id tcp_pcb) (snt : list sent_t) (w : net) : net :=
  over (mkTcp (t_heap (n_tcp w)) m (t_accept (n_tcp w)) snt) w.

(** A request is registered with the callback the listening block has. *)
Lemma listen_syn c s w :
  syn_of s -> Z.of_nat (size (t_pcbs (n_tcp w))) < MEMP_NUM_TCP_PCB ->
  tcp_listen_input c s w =
  Ok (tt, with_pcbs (<[c := tcp_alloc_listening (s_seqno s) (t_accept (n_tcp w))]> (t_pcbs (n_tcp w))) (t_sent (n_tcp w)) w).
Proof.
  intros (Hr & Ha & Hs) Hm. unfold tcp_listen_input. rewrite Hr, Ha, Hs. unfold tcp_alloc. rewrite bind_assoc.
  assert (memp_malloc_pcb w = Ok (true, w)) as E.
  { unfold memp_malloc_pcb. erewrite bind_ok by reflexivity. now rewrite (proj2 (Z.ltb_lt _ _) Hm). }
  rewrite (bind_ok _ _ _ _ _ E). erewrite bind_ok by reflexivity. cbv iota. erewrite bind_ok by reflexivity. apply on_tcp_ok. reflexivity.
Qed.

(** The connection is established without a callback: it is aborted. *)
Lemma process_refused c p s q w :
  t_pcbs (n_tcp w) !! c = Some p -> state p = SYN_RCVD -> cb_accept p = false -> cb_err p = false -> refused_data p = None -> ack_of s ->
  tcp_process c s q w = Ok (Aborted, with_pcbs (delete c (t_pcbs (n_tcp w))) (t_sent (n_tcp w) ++ [SentRst c]) w).
Proof.
  intros E Hst Hacc Herr Hkp (Hr & Hsy & Ha & Hx & _). unfold tcp_process. rewrite (bind_ok _ _ _ _ _ (on_pcb_at c w p E)), Hr, Hsy, Hst, Ha, Hx.
  cbn [andb]. unfold set_tcp_state. rewrite (bind_ok _ _ _ _ _ (on_pcb_update c _ w p E)).
  set (p1 := with_state ESTABLISHED p). set (w1 := set_pcb_at c p1 _ w). unfold TCP_EVENT_ACCEPT. rewrite bind_assoc.
  rewrite (bind_ok _ _ _ _ _ (on_pcb_at c w1 p1 (pcb_of_set c _ _ _))). change (cb_accept p1) with (cb_accept p). rewrite Hacc.
  erewrite bind_ok by reflexivity. change (negb (ERR_ARG =? ERR_OK)) with true. change (negb (ERR_ARG =? ERR_ABRT)) with true. cbn [when].
  unfold tcp_abort, tcp_abandon. rewrite bind_assoc. rewrite (bind_ok _ _ _ _ _ (on_pcb_at c w1 p1 (pcb_of_set c _ _ _))).
  rewrite decide_False by discriminate. rewrite !bind_assoc. erewrite (bind_ok (on_tcp (tcp_pcb_purge c)) _ w1 tt w1).
  2:{ rewrite (on_tcp_ok _ w1 tt (n_tcp w1)); [now destruct w as [[] ? ? ? ? ? ? ? ?]|]. unfold tcp_pcb_purge.
      rewrite (bind_ok _ _ _ _ _ (pcb_at_ok c (n_tcp w1) p1 (pcb_of_set c _ _ _))). change (refused_data p1) with (refused_data p). now rewrite Hkp. }
  cbn [when]. rewrite bind_assoc. erewrite bind_ok by (apply on_tcp_ok; reflexivity). rewrite bind_assoc.
  erewrite bind_ok by (apply on_tcp_ok; reflexivity). change (cb_err p1) with (cb_err p). rewrite Herr. cbn.
  rewrite delete_insert_eq. now destruct w as [[] ? ? ? ? ? ? ? ?].
Qed.

(** C25: While the server has a connection it accepts no other: if the pool
    has a control block for it, the peer that asks for a connection gets a
    reset once its handshake ends, and the server and its own connection are
    as before.  (Without a free block lwIP gives up a connection for it,
    which can be the server's: [full_pool_gives_up_served].) *)
Theorem busy_server_refuses c s1 s2 q w :
  t_accept (n_tcp w) = false -> t_pcbs (n_tcp w) !! c = None -> Z.of_nat (size (t_pcbs (n_tcp w))) < MEMP_NUM_TCP_PCB ->
  syn_of s1 -> ack_of s2 ->
  (tcp_listen_input c s1;; tcp_process c s2 q) w = Ok (Aborted, with_pcbs (t_pcbs (n_tcp w)) (t_sent (n_tcp w) ++ [SentRst c]) w).
Proof.
  intros Hacc Hno Hm Hs1 Hs2. rewrite (bind_ok _ _ _ _ _ (listen_syn c s1 w Hs1 Hm)), Hacc.
  rewrite (process_refused c (tcp_alloc_listening (s_seqno s1) false)); [|apply lookup_insert_eq|done..].
  cbn. rewrite delete_insert_id by done. now destruct w as [[] ? ? ? ? ? ? ? ?].
Qed.

(** Of two peers whose requests came before either was accepted, the
    second to complete its handshake takes the server over: the first is
    still connected, but no longer the one the server answers, and the
    packets it had sent are dropped. *)
Theorem second_peer_takes_over isn n c1 p1 l c2 p2 s q w :
  connected isn n c1 p1 l w -> c2 <> c1 -> t_pcbs (n_tcp w) !! c2 = Some p2 -> state p2 = SYN_RCVD -> cb_accept p2 = true ->
  ack_of s ->
  exists w', tcp_process c2 s q w = Ok (Received false false, w') /\ es_pcb (n_es w') = Some c2 /\ es_pin (n_es w') = None /\
    es_state (n_es w') = ES_ACCEPTED /\ t_pcbs (n_tcp w') !! c1 = Some p1 /\ t_heap (n_tcp w') = t_heap (n_tcp w).
Proof.
  intros H Hne E Hst Hacc (Hr & Hsy & Ha & Hx & Hf & Hd). unfold tcp_process.
  rewrite (bind_ok _ _ _ _ _ (on_pcb_at c2 w p2 E)), Hr, Hsy, Hst, Ha, Hx. cbn [andb]. unfold set_tcp_state.
  rewrite (bind_ok _ _ _ _ _ (on_pcb_update c2 _ w p2 E)). set (p3 := with_state ESTABLISHED p2). unfold TCP_EVENT_ACCEPT. rewrite bind_assoc.
  rewrite (bind_ok _ _ _ _ _ (on_pcb_at c2 _ p3 (pcb_of_set c2 _ _ _))). change (cb_accept p3) with (cb_accept p2). rewrite Hacc.
  set (w1 := set_pcb_at c2 p3 _ w). set (p4 := with_poll true 1 (with_err true (with_recv RecvServer (with_arg true p3)))).
  set (e := set_activity (n_time w) (set_pout None (set_pin None 0 (set_pcb (Some c2) (set_state ES_ACCEPTED (n_es w)))))).
  set (w2 := over (mkTcp (t_heap (n_tcp w)) (<[c2 := p4]> (t_pcbs (n_tcp w))) false (t_sent (n_tcp w))) (over e w)).
  assert (server_accept_callback c2 w1 = Ok (ERR_OK, w2)) as Eacc.
  { unfold server_accept_callback, LocalTime, tcp_arg, tcp_recv, tcp_err, tcp_poll, tcp_accept.
    do 6 (erewrite bind_ok by reflexivity). set (wa := over (set_activity _ _) _).
    rewrite (bind_ok _ _ _ _ _ (on_pcb_update c2 _ wa p3 (lookup_insert_eq _ _ _))).
    do 3 (rewrite (bind_ok _ _ _ _ _ (on_pcb_update c2 _ _ _ (pcb_of_set c2 _ _ _))); rewrite heap_of_set, set_pcb_twice).
    erewrite bind_ok by reflexivity. unfold mret, M_ret, wa, w1, w2, set_pcb_at. destruct w as [[] ? ? ? ? ? ? ? ?]. cbn.
    now rewrite insert_insert_eq. }
  rewrite (bind_ok _ _ _ _ _ Eacc). change (negb (ERR_OK =? ERR_OK)) with false. cbv iota.
  assert (t_pcbs (n_tcp w2) !! c2 = Some p4) as E2 by apply lookup_insert_eq.
  unfold tcp_receive. rewrite bind_assoc, (bind_ok _ _ _ _ _ (on_pcb_at c2 w2 p4 E2)), Hf, Hsy, Hd.
  erewrite bind_ok by reflexivity. erewrite bind_ok by reflexivity. exists w2. split; [reflexivity|].
  repeat (split; [reflexivity|]). split; [|reflexivity]. cbn. rewrite lookup_insert_ne by done. exact (co_pcb _ _ _ _ _ _ H).
Qed.

(** ** The timers *)

(** What is called when the timers were last served [fast], [slow] and [arp]
    milliseconds ago. *)
Definition due (fast slow arp : Z) : list nat :=
  (if TCP_FAST_INTERVAL <=? fast then [0%nat] else []) ++ (if TCP_SLOW_INTERVAL <=? slow then [1%nat] else []) ++
  (if ARP_TMR_INTERVAL <=? arp then [2%nat] else []).

Lemma elapsed t e : 0 <= e < 2 ^ 32 -> u32 (u32 t - u32 (t - e)) = e.
Proof.
  intros He. pose proof (u32_diff t (t - e) 0) as H. rewrite Z.add_0_r in H. rewrite H.
  replace (t - (t - e) - 0) with e by lia. apply wrap_small. lia.
Qed.

(** The timers are served when their intervals have passed, also where
    the clock of 32 bits wraps around; a timer that was served starts anew. *)
Theorem timers_on_time t fast slow arp w :
  0 <= fast < 2 ^ 32 -> 0 <= slow < 2 ^ 32 -> 0 <= arp < 2 ^ 32 ->
  tcp_fast_timer (n_timers w) = u32 (t - fast) -> tcp_slow_timer (n_timers w) = u32 (t - slow) ->
  arp_timer (n_timers w) = u32 (t - arp) ->
  exists w', lwip_periodic_handle (u32 t) (link_status (n_timers w)) [] w = Ok (tt, w') /\
    n_calls w' = n_calls w ++ due fast slow arp /\
    tcp_fast_timer (n_timers w') = (if TCP_FAST_INTERVAL <=? fast then u32 t else u32 (t - fast)) /\
    tcp_slow_timer (n_timers w') = (if TCP_SLOW_INTERVAL <=? slow then u32 t else u32 (t - slow)) /\
    arp_timer (n_timers w') = (if ARP_TMR_INTERVAL <=? arp then u32 t else u32 (t - arp)) /\
    n_tcp w' = n_tcp w /\ n_es w' = n_es w.
Proof.
  intros Hf Hs Ha Ef Es Ea. unfold lwip_periodic_handle. erewrite bind_ok by reflexivity. rewrite Ef, Es, Ea, !elapsed by done.
  destruct w as [tc e i [tf ts ta tl ls] now mac calls sto ticks]. cbn [n_timers link_status] in *. unfold due.
  cbn in Ef, Es, Ea. subst tf ts ta.
  destruct (1000 <=? _), (TCP_FAST_INTERVAL <=? fast), (TCP_SLOW_INTERVAL <=? slow), (ARP_TMR_INTERVAL <=? arp);
    (eexists; split; [unfold when, set_timers, called, modify, mbind, M_bind, gets, mret, M_ret; cbn [n_timers link_status];
       rewrite ?bool_decide_true by done; cbn; reflexivity|]); cbn; rewrite <- ?app_assoc, ?app_nil_r; done.
Qed.
End ServerClose.

(** ** Witnesses *)

Definition fin_segment : segment := mkSeg 1001 false true false true false false 0 [].
Definition one_frame : heap := {[ 0%nat := mkPbuf None [] 0 1 ]}.

Lemma one_framed : framed one_frame 0 [] [].
Proof.
  split; try done.
  - split; [done|]. exists (mkPbuf None [] 0 1). done.
  - intros y b Hy%list_elem_of_singleton Hb. subst y. injection Hb as <-. reflexivity.
Qed.

Lemma close_after_data_dangles_witness :
  @tcp_input calm_net 1 fin_segment 0 (home_net (TCP_WND - 3) ES_ACCEPTED one_frame None []) = Fault DanglingPtr.
Proof.
  apply (@close_after_data_dangles calm_net 1001 0 1 (home_pcb (TCP_WND - 3)) [] 0 []).
  - apply home_connected. unfold TCP_WND, TCP_MSS. lia.
  - repeat split.
  - cbn. unfold TCP_WND, TCP_MSS. lia.
  - apply one_framed.
Defined.

Lemma close_without_data_witness :
  exists w', @tcp_input calm_net 1 fin_segment 0 (home_net TCP_WND ES_ACCEPTED one_frame None []) = Ok (tt, w') /\
    es_state (n_es w') = ES_NONE /\ t_accept (n_tcp w') = true.
Proof.
  destruct (@close_without_data calm_net 1001 0 1 (home_pcb TCP_WND) [] 0 [] fin_segment
    (home_net TCP_WND ES_ACCEPTED one_frame None [])) as (w' & H1 & H2 & _ & H3 & _).
  - apply home_connected. unfold TCP_WND, TCP_MSS. lia.
  - repeat split.
  - reflexivity.
  - apply one_framed.
  - reflexivity.
  - exists w'. split; [exact H1|]. split; [exact H2|exact H3].
Defined.

Definition syn_segment : segment := mkSeg 500 true false false false false false 0 [].
Definition ack_segment : segment := mkSeg 501 false true false false true false 0 [].

Lemma busy_server_refuses_witness :
  let w := home_net TCP_WND ES_ACCEPTED ∅ None [] in
  (@tcp_listen_input calm_net 2 syn_segment;; tcp_process 2 ack_segment 0%nat) w =
  Ok (Aborted, with_pcbs (t_pcbs (n_tcp w)) [SentRst 2] w).
Proof. apply (@busy_server_refuses calm_net 2 syn_segment ack_segment 0); try done. Defined.

(** Two requests while the server has a connection that was idle longest:
    the second of them finds the pool full, and the server's connection is
    given up for it. *)
Definition first_idle : TcpEnv :=
  {| write_err := fun _ _ _ => 0; fin_err := fun _ _ => 0; snd_buf := fun _ _ => TCP_WND;
     oldest := fun _ l => if decide (1%nat ∈ l) then Some 1%nat else head l |}.

Lemma full_pool_gives_up_served :
  exists w', (@tcp_listen_input first_idle 2 syn_segment;; @tcp_listen_input first_idle 3 syn_segment)
      (home_net TCP_WND ES_ACCEPTED ∅ None []) = Ok (tt, w') /\
    es_pcb (n_es (home_net TCP_WND ES_ACCEPTED ∅ None [])) = Some 1%nat /\
    t_pcbs (n_tcp w') !! 1%nat = None /\ t_sent (n_tcp w') = [SentRst 1].
Proof. eexists. vm_compute. repeat split. Qed.

(** Another peer, which asked before the first was accepted. *)
Definition two_peers : net :=
  with_pcbs {[ 1%nat := home_pcb TCP_WND; 2%nat := tcp_alloc_listening 500 true ]} [] (home_net TCP_WND ES_ACCEPTED ∅ None []).

Lemma second_peer_takes_over_witness :
  exists w', tcp_process 2 ack_segment 0 two_peers = Ok (Received false false, w') /\ es_pcb (n_es w') = Some 2%nat /\
    t_pcbs (n_tcp w') !! 1%nat = Some (home_pcb TCP_WND).
Proof.
  destruct (@second_peer_takes_over 1001 0 1 (home_pcb TCP_WND) [] 2 (tcp_alloc_listening 500 true) ack_segment 0 two_peers)
    as (w' & H1 & H2 & _ & _ & H3 & _); try done.
  - split; try done; first [now left | apply owned_nil].
  - exists w'. split; [exact H1|]. split; [exact H2|exact H3].
Defined.

Lemma timers_on_time_witness :
  let w := mkNet (mkTcp ∅ ∅ true []) es_reset (mkNetif [] [] [] true true) (mkTimers 4294967046 4294966996 0 0 true) 0 true [] store_reset [] in
  exists w', @lwip_periodic_handle calm_net good_flash 4 true [] w = Ok (tt, w') /\ n_calls w' = [0%nat].
Proof.
  cbv zeta. set (w := mkNet _ _ _ _ _ _ _ _ _).
  destruct (@timers_on_time calm_net good_flash (2 ^ 32 + 4) 254 304 4 w) as (w' & H1 & H2 & _); try done.
  exists w'. split; [exact H1|exact H2].
Defined.
